(* ===== verification/_CoqProject ===== *)
-Q . S2P
Prelude.v
Paging.v
GoStd.v
Hex.v
Checksum.v
XgsSecurity.v
Transport.v
Vlan.v
Dispatcher.v
Maps.v
MeTypes.v
MeClasses.v
MeLib.v
Mib.v
MeNames.v
Table.v
Semantics.v
Store.v
StoreLemmas.v
StoreInvariant.v
StoreProps.v
StoreOps.v
Model.v
ModelProps.v
MibState.v
MibStateProps.v
Frames.v
Codec.v
Software.v
SoftwareProps.v
SoftwareOps.v
ExecSoftware.v
Counters.v
Optics.v
Netip.v
McPolicy.v
McProps.v
McReport.v
McReportProps.v
McRuntime.v
McRuntimeProps.v
McLinux.v
McPrefixes.v
McLinuxProps.v
McBackendProps.v
Graph.v
GraphBuild.v
GraphProps.v
Platform.v
PlatformProps.v
Controllers.v
ExecControl.v
Engine.v
EngineProps.v
PmRules.v
Notify.v
Upload.v
Performance.v
OpticalAlarms.v
RuntimeState.v
Event.v
Onu3.v
Capability.v
McMonitor.v
Dispatch.v
UploadProps.v
NotifyProps.v
DispatchProps.v
EventProps.v
OpticalProps.v
Onu3Props.v
RuntimeLemmas.v
RuntimeStateProps.v
