(* ===== verification/Prelude.v ===== *)
(** * airoha-omci: a verification library (root file)

    airoha-omci is the user-space OMCI stack of an XG(S)-PON home gateway: it answers the OMCI
    requests of the OLT out of a G.988 MIB, drives the platform (bridging, queues, multicast,
    software images) from that MIB, and reports alarms, attribute changes and performance.
    This library translates the Go code under src/ into executable definitions and proves what
    makes them correct.  This header says which file models what, what the theorems show and
    what is left out.

    ** The program and the files of the library

    A frame goes up through these layers; a file requires those of the layers below it.

    - Transport: [internal/transport] (device.go, packet_linux.go), the records of the secure
      OMCC device and the bare frames of the netdev.  Checksum: [internal/checksum].
    - Dispatcher: [internal/transaction/dispatcher.go], the two-class bounded queue and the run
      goroutine as a step relation, with the resets of the communication session.
    - Frames, Codec, Engine: [internal/engine/engine.go], the acceptance of a frame, the bodies
      of responses (the serializers of the vendored omci-lib-go), the replay buffer and
      [HandleFrame].  Engine has the request handlers as an interface ([Handlers]).
    - Dispatch: the [dispatch] of engine.go with every handler it calls, as the instance of that
      interface: Upload (MIB upload, alarm upload, get next, set table), Software (software.go),
      Notify (notifications.go, arc.go), PmRules, Counters and Performance (performance.go,
      performance_threshold.go, [internal/performance]), Optics and OpticalAlarms (optical.go,
      [internal/optical]), Onu3 (onu3.go, [internal/onu3]), Capability (capability.go) and
      McMonitor (multicast.go).  Paging holds the theory of cutting data into messages.
    - MeTypes, MeClasses, MeLib: the managed entity library of the vendored omci-lib-go
      ([generated]): 195 class tables and the operations on them.  MeNames: its constants.
    - Mib, Maps, Table, Semantics, Store: [internal/mib] (store.go, table.go), the MIB with its
      validation, table algebra, transactional commits and access control.
    - Vlan: [internal/vlan], the extended VLAN tagging rows.
    - Model: [internal/model] (xg2010g.go, capabilities.go), [internal/pon]: the factory MIB, the
      capability policy and the options the daemon opens the store with.
    - Netip, McPolicy: [internal/multicast/policy.go], the authorization of IGMP and MLD joins.
    - McReport: [report.go], [report_build.go] and [query_build.go] of [internal/multicast], the parser
      of IGMP and MLD frames and the builders of reports and queries.
    - McRuntime: [internal/multicast/runtime.go], the membership runtime between the parsed messages,
      the policy and the replication backend, as programs in a state and error monad.
    - MibState: [internal/mib/state.go], the saved MIB document and the store restored from it.
    - Graph, GraphBuild: [internal/platform/graph.go], the nodes of the service graph and the passes
      over a snapshot of the MIB that build it.  Platform: [multicast.go] and [exec.go] of
      [internal/platform], the multicast policy of a graph and the applier behind the store.
      ExecControl, ExecSoftware: [control.go] and [software.go], the hardware and the software
      controller of the engine on top of helper programs.
    - McLinux: [internal/multicast/linux_backend.go], the replication backend that programs tc.
    - RuntimeState: [internal/engine/runtime_state.go], what of the engine survives a restart.
    - Event: [internal/event/event.go], the events of the platform and what the engine does with them.
    - XgsSecurity: [internal/xgssecurity], the keys and integrity codes of XGS-PON.
    - GoStd: what the source uses of crypto/md5, encoding/hex and strings.  Controllers: the
      interfaces through which the engine reaches the hardware.

    ** How state and operations correspond to the code

    A Go struct is a [Record] with the source's field names; a map is a [gmap]; a slice is a
    [list]; an unsigned integer of w bits is a [Z] with its wrap-around written out
    ([u8], [u16], [u32], [u64]); a byte string is a list of such integers; an interface value of
    an attribute is [value].  A method that changes its receiver takes the state and returns
    the new one; the methods that also act on the platform thread a state [W] of the platform.
    [Err] and [Panic] are the error return and the run-time panic of the code.  A mutex makes
    each locked operation one step.  The clock and the hardware are read once per call.

    The parts the library leaves open are arguments: [MapRange] (the order in which [range]
    visits a map; every theorem holds for all orders), [Applier] and [CommandTransaction] (the
    platform behind the store), [Controller] (software images), [Controllers] (the other
    hardware interfaces), [Decoder] (the request decoding of the vendored library, gopacket) and
    [Handlers] (in Engine only; Dispatch gives the instance).

    ** What the theorems show

    - The store (StoreLemmas, StoreInvariant, StoreProps, StoreOps): every reachable store is
      well formed; a failed request changes nothing; commits reach the platform before the
      store shows them and a coupled transaction leaves both consistent; the data sync counter
      follows the committed changes; Create, Set and Reset do what they say.
    - Tables (Table): no accepted access list matches a group twice; what was accepted is
      accepted again; VLAN tables decode.
    - Codecs (Checksum, Transport, Vlan): burst detection of the CRC; the parsers accept exactly
      the encodings and recover what was encoded.
    - Receive path (Dispatcher, Frames, EngineProps, DispatchProps): the queue is priority
      first and first in first out, no frame crosses a reset, only authentic frames are
      accepted, retransmissions are answered and not executed again, and no request breaks the
      MIB invariant.
    - Uploads (Paging, UploadProps): an upload reports the MIB completely and once, its session
      hands out every command, tables and alarms arrive whole.
    - Notifications (NotifyProps): what the OLT is told of attribute changes and alarms.
    - Software (SoftwareProps, SoftwareOps): image integrity, the protocol of the image sink, the
      transfer bounds, and that a faithful OLT succeeds.
    - Model (ModelProps): the factory MIB is a store and its hardware topology never changes.
    - Multicast (McProps): limits, accounting and authorization of memberships.
    - Alarms and status (OpticalProps, Onu3Props): bit error rate and optical alarms, the
      ring of status snapshots.
    - Membership (McReportProps, McRuntimeProps): the frames built are parsed back to the report or
      query they were built from; the header loop ends; the filter state of a client is the one
      its records describe (RFC 3376); the backend replicates exactly the granted streams.
    - Restart (MibStateProps): a restored store is well formed whatever the document, and a store
      restored from its own document is the store that was saved.
    - Saved runtime state (RuntimeLemmas, RuntimeStateProps): an engine restored from an export resumes
      where the exporting one stopped; a restoration is all or nothing and restores only what is
      valid for the MIB.
    - Replication (McPrefixes, McLinuxProps, McBackendProps): ranges are cut into exact prefixes; every
      change of the backend leaves tc with the chains of its rules or fails with the old rules;
      such chains accept exactly what the rules cover.
    - Helpers and events (ExecControl, ExecSoftware, EventProps, XgsSecurity): what helpers answer is
      checked before the engine sees it; events keep the invariants of the engine; a frame is
      accepted exactly with its own integrity code.
    - Service graph (GraphProps, PlatformProps): a graph is closed under its references and does
      not depend on map orders; the decoder of the platform ABI accepts every request the applier
      sends; the MIB a store with the applier shows after a commit has a graph and a valid policy.

    ** Bounds and fuel

    The loops of the code are structural recursions over lists, or over a count the code
    itself bounds, and need no fuel, with these exceptions.  [crc_octet] iterates the eight bits
    of an octet.  [greedy] (Paging) recurses on the items left.  The square of decimal logarithm
    steps in Optics has a fixed number of digits.
    [foldCarry] (McReport) folds the carries of a 32-bit sum in two rounds, the third finds none.
    [skipExtensions] (McReport) takes a fuel one above the octets left; McReportProps shows that
    more fuel changes nothing.
    [ipv4Prefixes] and [ipv6Prefixes] (McLinux) take a fuel of twice the bits of an address;
    McPrefixes shows that more changes nothing.  [shrinkBlock] has one step for each bit.

    ** What is not modelled, and why

    - Error texts: an error is its G.988 result, or its constructor where the code
      distinguishes it.  A nil slice and an empty one are the same list.
    - Concurrency inside a locked operation: the mutexes of the store, the engine and the
      policy make each operation atomic.  The goroutine that finishes a software image is a
      step of its own; the dispatcher is a step relation at the grain of its channels.
    - Decoding of request bodies (gopacket layers of the vendored library): a parameter.
    - The zone offset of the wall clock is an argument; [math.Log10] is exact decimal arithmetic.
    - [internal/multicast]: capture_linux.go is a raw socket loop.  In McLinux tc, the sockets and
      [sort.Slice] are interfaces ([LinuxHost], [GoSort]); the texts of addresses and prefixes in
      the arguments of tc are kept as values.
    - [internal/platform]: running the helper programs ([exec.Cmd]) and encoding/json are interfaces.
      An address of the graph is kept as such where the code keeps the text it prints.
    - The digest of the MIB fingerprint (crypto/sha256) is a parameter of RuntimeState.
    - [internal/event/source.go], [internal/status], the commands under [cmd]: a child process and
      its lines, a JSON status file, process wiring. *)

From Stdlib Require Export ZArith Lia ZifyBool ZifyNat.
From stdpp Require Export base tactics list gmap strings sorting.

(** [lia] sees through [/] and [mod]: the code's integers are machine words. *)
Ltac Zify.zify_post_hook ::= Z.div_mod_to_equations.

#[global] Open Scope Z_scope.
#[global] Set Default Goal Selector "!".

(** ** Notations of the development *)
Create HintDb omci.

(** Closes a closed decidable goal by computation. *)
Ltac by_decide := refine (bool_decide_unpack _ _); vm_compute; exact I.

(** Splits on the first [if] of the goal. *)
Ltac branch_as Hb := match goal with |- context [if ?b then _ else _] => destruct b eqn:Hb end.
Tactic Notation "branch" := let Hb := fresh "Hb" in branch_as Hb.
Tactic Notation "branch" "as" ident(Hb) := branch_as Hb.

Declare Scope omci_scope.
Delimit Scope omci_scope with omci.

(** ** Results: a Go [(value, error)] pair *)

Inductive Res (E A : Type) : Type :=
| Ok (a : A)
| Err (e : E).
Arguments Ok {E A} _.
Arguments Err {E A} _.

#[export] Instance Res_ret {E} : MRet (Res E) := λ A a, Ok a.
#[export] Instance Res_bind {E} : MBind (Res E) := λ A B f c,
  match c with Ok a => f a | Err e => Err e end.

(** [guard_err b e]: [if b { return e }]. *)
Definition guard_err {E} (b : bool) (e : E) : Res E unit :=
  if b then Err e else Ok tt.

(** Inversion of a successful chain of guards and calls. *)
Lemma guard_err_Ok {E} (b : bool) (e : E) u :
  guard_err b e = Ok u → b = false.
Proof. by destruct b. Qed.

Lemma guard_err_iff {E} (b : bool) (e : E) u : guard_err b e = Ok u ↔ b = false.
Proof. destruct b, u; cbn; naive_solver. Qed.

Lemma guard_err_bind_Ok {E A} (b : bool) (e : E) (k : unit → Res E A) a :
  (u ← guard_err b e; k u) = Ok a ↔ b = false ∧ k tt = Ok a.
Proof. destruct b; cbn; naive_solver. Qed.

Lemma Res_bind_Ok {E A B} (c : Res E A) (k : A → Res E B) b :
  (a ← c; k a) = Ok b ↔ ∃ a, c = Ok a ∧ k a = Ok b.
Proof. destruct c; cbn; naive_solver. Qed.

(** For goals in which [injection] would compute. *)
Lemma Ok_injective {E A} (a b : A) : (Ok a : Res E A) = Ok b → a = b.
Proof. by intros [= ->]. Qed.

(** Peels the guards and calls off [H : (x ← c; k x) = Ok a], one hypothesis for each. *)
Ltac inv_ok H :=
  cbv zeta in H;
  repeat lazymatch type of H with
  | mbind _ (guard_err _ _) = Ok _ =>
      let Hg := fresh "Hg" in apply guard_err_bind_Ok in H; destruct H as [Hg H]
  | mbind _ _ = Ok _ =>
      let Hr := fresh "Hr" in apply Res_bind_Ok in H; destruct H as (? & Hr & H); cbn beta in H
  | guard_err _ _ = Ok _ => apply guard_err_iff in H
  | Ok _ = Ok _ => injection H as H
  end.

(** Discharges the guards of a goal [(_ ← guard_err b e; k) = Ok a] by arithmetic. *)
Ltac pass_guards :=
  repeat lazymatch goal with
  | |- mbind _ (guard_err ?b _) = _ =>
      rewrite (proj2 (guard_err_iff b _ tt)) by lia; cbn [mbind Res_bind]
  end.

(** [MapRes f l]: a Go loop that appends [f x] for each [x] and returns on the first error. *)
Fixpoint mapM_res {E A B} (f : A → Res E B) (l : list A) : Res E (list B) :=
  match l with
  | [] => Ok []
  | x :: l' => y ← f x; ys ← mapM_res f l'; Ok (y :: ys)
  end.

(** [foldM_res f l s]: a Go loop over [l] that updates [s] and returns on the first error. *)
Fixpoint foldM_res {E A S} (f : S → A → Res E S) (l : list A) (s : S) : Res E S :=
  match l with
  | [] => Ok s
  | x :: l' => s' ← f s x; foldM_res f l' s'
  end.

(** ** Loops *)

(** An invariant that every step keeps holds after the loop. *)
Lemma foldM_inv {E S A} (P : S → Prop) (step : S → A → Res E S) l s s' :
  (∀ s a s', a ∈ l → P s → step s a = Ok s' → P s') → P s → foldM_res step l s = Ok s' → P s'.
Proof.
  revert s. induction l as [|a l IH]; intros s Hs HP; cbn [foldM_res].
  - by intros [= <-].
  - intros Hf. destruct (step s a) as [s1|e] eqn:H1; [|done]. cbn [mbind Res_bind] in Hf.
    eapply IH; [|eapply Hs; [by left|exact HP|exact H1]|exact Hf].
    intros. eapply Hs; [by right|done|done].
Qed.

(** An invariant of the elements processed so far. *)
Lemma foldM_prefix {E S A} (P : list A → S → Prop) (f : S → A → Res E S) l s s' :
  P [] s →
  (∀ pre x post s s', l = pre ++ x :: post → P pre s → f s x = Ok s' → P (pre ++ [x]) s') →
  foldM_res f l s = Ok s' → P l s'.
Proof.
  intros H0 Hstep. assert (∀ post pre s, l = pre ++ post → P pre s → foldM_res f post s = Ok s' → P l s') as Hgo.
  { intros post. induction post as [|x post IH]; intros pre s1 Hl HP Hf.
    - injection Hf as <-. by rewrite app_nil_r in Hl; subst.
    - cbn [foldM_res] in Hf. apply Res_bind_Ok in Hf as (s2 & Hx & Hf).
      apply (IH (pre ++ [x]) s2); [by rewrite <- app_assoc| |exact Hf]. by eapply Hstep. }
  by apply (Hgo l [] s).
Qed.

(** Two loops over the same list whose states stay related. *)
Lemma foldM_rel {E S T A} (R : S → T → Prop) (f : S → A → Res E S) (g : T → A → Res E T) l s t :
  (∀ s t x, R s t → match f s x, g t x with Ok s', Ok t' => R s' t' | Err e, Err e' => e = e' | _, _ => False end) →
  R s t →
  match foldM_res f l s, foldM_res g l t with Ok s', Ok t' => R s' t' | Err e, Err e' => e = e' | _, _ => False end.
Proof.
  intros Hstep. revert s t. induction l as [|x l IH]; intros s t HR; [done|]. cbn [foldM_res].
  specialize (Hstep s t x HR). destruct (f s x), (g t x); cbn [mbind Res_bind]; try done. by apply IH.
Qed.

(** A loop that only tests: it ends well exactly when every test does. *)
Lemma foldM_unit {E A} (f : A → Res E unit) l : foldM_res (λ _ x, f x) l tt = Ok tt ↔ Forall (λ x, f x = Ok tt) l.
Proof.
  induction l as [|x l IH]; cbn [foldM_res]; [split; [by constructor|done]|].
  rewrite Res_bind_Ok, Forall_cons, <- IH. split; [intros ([] & ? & ?); done|intros [? ?]; by exists ()].
Qed.

Lemma foldM_ext {E S A} (f g : S → A → Res E S) l s : (∀ s x, f s x = g s x) → foldM_res f l s = foldM_res g l s.
Proof.
  intros Hfg. revert s. induction l as [|x l IH]; intros s; [done|]. cbn [foldM_res]. rewrite Hfg.
  destruct (g s x); [|done]. cbn [mbind Res_bind]. apply IH.
Qed.

Lemma mapM_res_Forall2 {E A B} (f : A → Res E B) l ys :
  mapM_res f l = Ok ys → Forall2 (λ x y, f x = Ok y) l ys.
Proof.
  revert ys. induction l as [|x l IH]; intros ys H; cbn [mapM_res] in H; [injection H as <-; constructor|].
  apply Res_bind_Ok in H as (y & Hy & H). apply Res_bind_Ok in H as (ys' & Hys & H). injection H as <-.
  constructor; [done|by apply IH].
Qed.

Lemma mapM_ext {E A B} (f g : A → Res E B) l : (∀ x, f x = g x) → mapM_res f l = mapM_res g l.
Proof. intros Hfg. induction l as [|x l IH]; [done|]. cbn [mapM_res]. by rewrite Hfg, IH. Qed.

(** ** Keys *)

Lemma NoDup_key_inj {A K} (key : A → K) l a b :
  NoDup (key <$> l) → a ∈ l → b ∈ l → key a = key b → a = b.
Proof.
  induction l as [|x l IH]; [by intros _ ?%elem_of_nil|].
  rewrite fmap_cons, NoDup_cons, !elem_of_cons. intros [Hx Hn] [->|Ha] [->|Hb] He; [done| | |by apply IH].
  - exfalso. apply Hx. rewrite He. by apply list_elem_of_fmap_2.
  - exfalso. apply Hx. rewrite <- He. by apply list_elem_of_fmap_2.
Qed.

(** Two permutations of a list, both sorted by a key that no two elements share, are equal. *)
Lemma sorted_by_key_unique {A} (le : relation A) l l' :
  l ≡ₚ l' → (∀ a b, a ∈ l → b ∈ l → le a b → le b a → a = b) →
  StronglySorted le l → StronglySorted le l' → l = l'.
Proof.
  intros Hp Hin Hl Hl'. apply (StronglySorted_unique_strong le); [|done..].
  intros a b Ha Hb. rewrite <- Hp in Hb. by apply Hin.
Qed.

(** ** Machine words *)

(** [wrap w x]: the Go conversion to an unsigned [w]-bit integer. *)
Definition wrap (w : Z) (x : Z) : Z := x mod 2 ^ w.
Abbreviation u8 := (wrap 8).
Abbreviation u16 := (wrap 16).
Abbreviation u32 := (wrap 32).
Abbreviation u64 := (wrap 64).

(** [is_u w x]: [x] is a value of the unsigned [w]-bit type. *)
Definition is_u (w x : Z) : Prop := 0 ≤ x < 2 ^ w.
#[export] Instance is_u_dec w x : Decision (is_u w x).
Proof. unfold is_u. apply _. Defined.

Lemma wrap_small w x : is_u w x → wrap w x = x.
Proof. intros ?. by apply Z.mod_small. Qed.

Lemma wrap_is_u w x : 0 ≤ w → is_u w (wrap w x).
Proof. intros ?. apply Z.mod_pos_bound. by apply Z.pow_pos_nonneg. Qed.

Lemma wrap_land w x : 0 ≤ w → wrap w x = Z.land x (Z.ones w).
Proof. intros ?. unfold wrap. by rewrite Z.land_ones. Qed.

Lemma testbit_above w x i : is_u w x → 0 ≤ w ≤ i → Z.testbit x i = false.
Proof.
  intros [Hlo Hhi] Hi. destruct (decide (x = 0)) as [->|]; [by rewrite Z.bits_0|].
  apply Z.bits_above_log2; [lia|]. apply Z.log2_lt_pow2 in Hhi; lia.
Qed.

Lemma is_u_testbit w x :
  0 ≤ w → 0 ≤ x → (∀ i, w ≤ i → Z.testbit x i = false) → is_u w x.
Proof.
  intros Hw Hx Hb. split; [done|].
  destruct (decide (x = 0)) as [->|]; [by apply Z.pow_pos_nonneg|].
  apply Z.log2_lt_pow2; [lia|].
  destruct (Z.lt_ge_cases (Z.log2 x) w) as [|Hge]; [done|].
  specialize (Hb _ Hge). rewrite Z.bit_log2 in Hb; [done|lia].
Qed.

Lemma is_u_lxor w x y : 0 ≤ w → is_u w x → is_u w y → is_u w (Z.lxor x y).
Proof.
  intros Hw Hx Hy. apply is_u_testbit; [done| |].
  - apply Z.lxor_nonneg. unfold is_u in *. lia.
  - intros i Hi. rewrite Z.lxor_spec, !(testbit_above w); (done || lia).
Qed.

Lemma is_u_land w x y : 0 ≤ w → is_u w x → is_u w (Z.land x y).
Proof.
  intros Hw Hx. apply is_u_testbit; [done| |].
  - apply Z.land_nonneg. unfold is_u in *. lia.
  - intros i Hi. rewrite Z.land_spec, (testbit_above w); (done || lia).
Qed.

Lemma is_u_lor w x y : 0 ≤ w → is_u w x → is_u w y → is_u w (Z.lor x y).
Proof.
  intros Hw Hx Hy. apply is_u_testbit; [done| |].
  - apply Z.lor_nonneg. unfold is_u in *. lia.
  - intros i Hi. rewrite Z.lor_spec, !(testbit_above w); (done || lia).
Qed.

(** A word whose bits from [k] up are masked off to zero is a [k]-bit word. *)
Lemma is_u_land_high k w x :
  0 ≤ k → is_u w x → Z.land x (Z.lxor (Z.ones k) (Z.ones w)) = 0 → is_u k x.
Proof.
  intros Hk Hx H0. destruct (Z.lt_ge_cases w k).
  { unfold is_u in *. assert (2 ^ w ≤ 2 ^ k) by (apply Z.pow_le_mono_r; lia). lia. }
  apply is_u_testbit; [done|by destruct Hx|]. intros i Hi.
  destruct (Z.lt_ge_cases i w); [|by apply (testbit_above w); [|lia]].
  apply (f_equal (λ y, Z.testbit y i)) in H0.
  rewrite Z.land_spec, Z.lxor_spec, Z.bits_0, Z.ones_spec_high, Z.ones_spec_low in H0 by lia.
  by rewrite andb_true_r in H0.
Qed.

(** *** Bit fields: [Z.shiftr] and [Z.land] with a mask, as division and remainder *)

Lemma land_mask n m x : m = Z.ones n → 0 ≤ n → Z.land x m = x mod 2 ^ n.
Proof. intros -> ?. by apply Z.land_ones. Qed.

Lemma land_field n k m x :
  m = Z.shiftl (Z.ones n) k → 0 ≤ n → 0 ≤ k →
  Z.land x m = ((x / 2 ^ k) mod 2 ^ n) * 2 ^ k.
Proof.
  intros -> Hn Hk. rewrite <- Z.shiftr_div_pow2, <- Z.land_ones, <- Z.shiftl_mul_pow2 by done.
  apply Z.bits_inj'. intros i Hi. rewrite Z.land_spec.
  destruct (Z.lt_ge_cases i k).
  - rewrite !Z.shiftl_spec_low by lia. apply andb_false_r.
  - rewrite !Z.shiftl_spec, Z.land_spec, Z.shiftr_spec by lia. by rewrite Z.sub_add.
Qed.

Lemma land_field_zero n k m x :
  m = Z.shiftl (Z.ones n) k → 0 ≤ n → 0 ≤ k →
  (Z.land x m =? 0) = ((x / 2 ^ k) mod 2 ^ n =? 0).
Proof.
  intros Hm Hn Hk. rewrite (land_field n k m x) by done.
  pose proof (Z.pow_pos_nonneg 2 k ltac:(done) Hk).
  destruct (Z.eqb_spec ((x / 2 ^ k) mod 2 ^ n) 0); destruct (Z.eqb_spec (((x / 2 ^ k) mod 2 ^ n) * 2 ^ k) 0);
    (done || nia).
Qed.

Lemma shiftr_div k x : 0 ≤ k → Z.shiftr x k = x / 2 ^ k.
Proof. apply Z.shiftr_div_pow2. Qed.

(** Exhaustive check of a decidable property of a bounded integer. *)
Lemma forall_u (w : nat) (P : Z → bool) :
  forallb P (seqZ 0 (2 ^ Z.of_nat w)) = true → ∀ x, is_u (Z.of_nat w) x → P x = true.
Proof.
  rewrite forallb_forall. intros HP x Hx. apply HP. apply list_elem_of_In, elem_of_seqZ.
  unfold is_u in Hx. lia.
Qed.

(** ** Byte strings

    A Go [[]byte] is a [list Z] whose elements are bytes. *)

Definition bytes_ok (l : list Z) : Prop := Forall (is_u 8) l.
#[export] Instance bytes_ok_dec l : Decision (bytes_ok l).
Proof. unfold bytes_ok. apply _. Defined.

(** [slice l i j]: the Go slice expression [l[i:j]] (in range: [i <= j <= len l]). *)
Definition slice {A} (l : list A) (i j : nat) : list A := take (j - i) (drop i l).

(** [be l]: [binary.BigEndian.Uint16], [Uint32] and [Uint64] on a slice of their size. *)
Definition be (l : list Z) : Z := foldl (λ acc b, acc * 256 + b) 0 l.

(** [put_be n v]: the [n] bytes [binary.BigEndian.PutUint*] stores for [v]. *)
Fixpoint put_be (n : nat) (v : Z) : list Z :=
  match n with
  | O => []
  | S n' => (v / 256 ^ Z.of_nat n') mod 256 :: put_be n' v
  end.

(** [Uint16 l i]: [binary.BigEndian.Uint16(l[i:i+2])], and so on. *)
Definition Uint16 (l : list Z) (i : nat) : Z := be (slice l i (i + 2)).
Definition Uint32 (l : list Z) (i : nat) : Z := be (slice l i (i + 4)).
Definition Uint64 (l : list Z) (i : nat) : Z := be (slice l i (i + 8)).

(** [nth8 l i]: [l[i]] of a byte slice, for an [i] in range. *)
Definition nth8 (l : list Z) (i : nat) : Z := nth i l 0.

(** [put_at l i x]: [copy(l[i:i+len(x)], x)] for a range inside [l]. *)
Definition put_at {A} (l : list A) (i : nat) (x : list A) : list A :=
  take i l ++ x ++ drop (i + length x) l.

#[global] Arguments slice : simpl never.
#[global] Arguments be : simpl never.
#[global] Arguments put_be : simpl never.
#[global] Arguments Uint16 : simpl never.
#[global] Arguments Uint32 : simpl never.
#[global] Arguments Uint64 : simpl never.
#[global] Arguments nth8 : simpl never.
#[global] Arguments put_at : simpl never.
#[global] Arguments wrap : simpl never.

Lemma foldl_be_acc l a :
  foldl (λ acc b, acc * 256 + b) a l = a * 256 ^ Z.of_nat (length l) + be l.
Proof.
  revert a. induction l as [|x l IH]; intros a; cbn [foldl length]; [unfold be; cbn; lia|].
  rewrite IH. unfold be at 2. cbn [foldl]. rewrite (IH (0 * 256 + x)).
  rewrite Nat2Z.inj_succ, Z.pow_succ_r by lia. lia.
Qed.

Lemma be_nil : be [] = 0.
Proof. done. Qed.

Lemma be_cons x l : be (x :: l) = x * 256 ^ Z.of_nat (length l) + be l.
Proof. unfold be at 1. cbn [foldl]. rewrite foldl_be_acc. lia. Qed.

Lemma be_app l1 l2 : be (l1 ++ l2) = be l1 * 256 ^ Z.of_nat (length l2) + be l2.
Proof. unfold be at 1. rewrite foldl_app. apply foldl_be_acc. Qed.

Lemma be_bound l : bytes_ok l → 0 ≤ be l < 256 ^ Z.of_nat (length l).
Proof.
  induction 1 as [|x l [Hx1 Hx2] _ IH]; [by cbn|].
  rewrite be_cons. cbn [length]. rewrite Nat2Z.inj_succ, Z.pow_succ_r by lia. nia.
Qed.

Lemma be_is_u l n : bytes_ok l → length l = n → is_u (8 * Z.of_nat n) (be l).
Proof.
  intros Hl <-. unfold is_u. rewrite Z.pow_mul_r by lia. by apply be_bound.
Qed.

Lemma put_be_0 v : put_be 0 v = [].
Proof. done. Qed.

Lemma put_be_S n v : put_be (S n) v = (v / 256 ^ Z.of_nat n) mod 256 :: put_be n v.
Proof. done. Qed.

Lemma length_put_be n v : length (put_be n v) = n.
Proof. induction n; rewrite ?put_be_0, ?put_be_S; cbn [length]; congruence. Qed.

Lemma bytes_ok_put_be n v : bytes_ok (put_be n v).
Proof.
  induction n; rewrite ?put_be_0, ?put_be_S; constructor; [|done]. unfold is_u. lia.
Qed.

Lemma be_put_be n v : be (put_be n v) = v mod 256 ^ Z.of_nat n.
Proof.
  induction n as [|n IH]; rewrite ?put_be_0, ?put_be_S; [by rewrite Z.mod_1_r|].
  rewrite be_cons, IH, length_put_be, Nat2Z.inj_succ, Z.pow_succ_r by lia.
  rewrite (Z.mul_comm 256), Z.rem_mul_r by lia. lia.
Qed.

Lemma put_be_mod n k v :
  (n ≤ k)%nat → put_be n (v mod 256 ^ Z.of_nat k) = put_be n v.
Proof.
  induction n as [|n IH]; intros Hk; rewrite ?put_be_0, ?put_be_S; [done|]. rewrite IH by lia. f_equal.
  replace (Z.of_nat k) with (Z.of_nat n + Z.of_nat (k - n)) by lia.
  rewrite Z.pow_add_r, Z.rem_mul_r, Z.mul_comm, Z.div_add by lia.
  rewrite (Z.div_small (v mod _)) by (apply Z.mod_pos_bound; lia).
  replace (Z.of_nat (k - n)) with (1 + Z.of_nat (k - n - 1)) by lia.
  rewrite Z.pow_add_r, Z.rem_mul_r by lia.
  change (256 ^ 1) with 256. rewrite Z.add_0_l, Z.mul_comm, Z_mod_plus_full. apply Z.mod_mod. lia.
Qed.

Lemma put_be_be l : bytes_ok l → put_be (length l) (be l) = l.
Proof.
  induction 1 as [|x l Hx Hl IH]; [done|]. cbn [length]; rewrite put_be_S.
  pose proof (be_bound l Hl) as Hb. rewrite be_cons. f_equal.
  - rewrite Z.div_add_l, Z.div_small by lia. unfold is_u in Hx. rewrite Z.mod_small; lia.
  - rewrite <- (put_be_mod _ (length l)) by lia.
    rewrite Z.add_comm, Z_mod_plus_full, Z.mod_small by done. done.
Qed.

(** *** Slices *)

Lemma length_slice {A} (l : list A) i j :
  (i ≤ j ≤ length l)%nat → length (slice l i j) = (j - i)%nat.
Proof. intros ?. unfold slice. rewrite length_take, length_drop. lia. Qed.

Lemma bytes_ok_slice l i j : bytes_ok l → bytes_ok (slice l i j).
Proof. intros ?. by apply Forall_take, Forall_drop. Qed.

Lemma slice_join {A} (l : list A) i j k :
  (i ≤ j ≤ k)%nat → slice l i j ++ slice l j k = slice l i k.
Proof.
  intros ?. unfold slice. replace (k - i)%nat with ((j - i) + (k - j))%nat by lia.
  rewrite <- take_take_drop, drop_drop. do 3 f_equal. lia.
Qed.

Lemma slice_full {A} (l : list A) n : length l = n → slice l 0 n = l.
Proof. intros <-. unfold slice. by rewrite Nat.sub_0_r, drop_0, firstn_all. Qed.

Lemma slice_drop {A} (l : list A) i : slice l i (length l) = drop i l.
Proof. unfold slice. apply take_ge. by rewrite length_drop. Qed.

Lemma slice_app_l {A} (l1 l2 : list A) i j :
  (j ≤ length l1)%nat → slice (l1 ++ l2) i j = slice l1 i j.
Proof.
  intros ?. unfold slice. destruct (decide (i ≤ length l1)%nat).
  - rewrite drop_app_le by lia. apply take_app_le. rewrite length_drop. lia.
  - replace (j - i)%nat with 0%nat by lia. done.
Qed.

Lemma slice_app_r {A} (l1 l2 : list A) i j k :
  length l1 = k → (k ≤ i)%nat → slice (l1 ++ l2) i j = slice l2 (i - k) (j - k).
Proof.
  intros <- ?. unfold slice. rewrite drop_app_ge by lia. f_equal. lia.
Qed.

(** [words l]: [l] cut into 4-byte big-endian words is [l] again. *)
Lemma put_be_slice l i j n :
  bytes_ok l → (i ≤ j ≤ length l)%nat → n = (j - i)%nat →
  put_be n (be (slice l i j)) = slice l i j.
Proof.
  intros Hl Hij ->. rewrite <- (length_slice l i j) at 1 by done.
  apply put_be_be. by apply bytes_ok_slice.
Qed.

Lemma bytes_ok_app l1 l2 : bytes_ok (l1 ++ l2) ↔ bytes_ok l1 ∧ bytes_ok l2.
Proof. apply Forall_app. Qed.

#[export] Hint Resolve bytes_ok_slice bytes_ok_put_be wrap_is_u : omci.


Lemma slice_one l i j : j = S i → (i < length l)%nat → slice l i j = [nth8 l i].
Proof.
  intros -> Hi. unfold slice, nth8. replace (S i - i)%nat with 1%nat by lia.
  destruct (lookup_lt_is_Some_2 l i Hi) as [x Hx].
  rewrite (drop_S l x i Hx), (nth_lookup_Some l i 0 x Hx). done.
Qed.

(** A byte string is determined by its big-endian fields; [cut l i j] rewrites a prefix split. *)
Lemma cut {A} (l : list A) i j :
  (i ≤ j ≤ length l)%nat → drop i l = slice l i j ++ drop j l.
Proof.
  intros ?. rewrite <- !slice_drop. symmetry. apply slice_join. lia.
Qed.

Lemma slice_0_app {A} (x y : list A) n : length x = n → slice (x ++ y) 0 n = x.
Proof. intros <-. unfold slice. by rewrite drop_0, Nat.sub_0_r, take_app_length. Qed.

(** [slice] of a concatenation whose head lies entirely before the range. *)
Lemma slice_skip {A} (x y : list A) k i j :
  length x = k → (k ≤ i)%nat → slice (x ++ y) i j = slice y (i - k) (j - k).
Proof. apply slice_app_r. Qed.

Lemma drop_skip {A} (x y : list A) k i :
  length x = k → (k ≤ i)%nat → drop i (x ++ y) = drop (i - k) y.
Proof. intros <- ?. by rewrite drop_app_ge. Qed.

Lemma nth8_skip x y k i :
  length x = k → (k ≤ i)%nat → nth8 (x ++ y) i = nth8 y (i - k).
Proof. intros <- ?. unfold nth8. by rewrite app_nth2. Qed.

(** Reads a field of a concatenation of fields of known length. *)
Ltac read_field :=
  repeat first
    [ rewrite slice_0_app by (rewrite ?length_put_be; reflexivity)
    | rewrite slice_full by (rewrite ?length_put_be; reflexivity)
    | erewrite slice_skip by (first [rewrite ?length_put_be; reflexivity | cbn; lia]); cbn [Nat.sub]
    | erewrite nth8_skip by (first [rewrite ?length_put_be; reflexivity | cbn; lia]); cbn [Nat.sub]
    | erewrite drop_skip by (first [rewrite ?length_put_be; reflexivity | cbn; lia]); cbn [Nat.sub] ].

(** The stored form of a field read from [l] is the bytes it was read from. *)
Lemma put_be_read l i j n v :
  bytes_ok l → (i ≤ j ≤ length l)%nat → n = (j - i)%nat → be (slice l i j) = v →
  slice l i j = put_be n v.
Proof. intros ? ? ? <-. symmetry. by apply put_be_slice. Qed.

Lemma be_put_be_small n v : is_u (8 * Z.of_nat n) v → be (put_be n v) = v.
Proof.
  intros Hv. rewrite be_put_be. apply Z.mod_small. unfold is_u in Hv.
  by rewrite Z.pow_mul_r in Hv by lia.
Qed.

(** *** [put_at] *)

Lemma length_put_at {A} (l : list A) i x :
  (i + length x ≤ length l)%nat → length (put_at l i x) = length l.
Proof.
  intros. unfold put_at. rewrite !length_app, length_take, length_drop. lia.
Qed.

Lemma put_at_app_l {A} (l1 l2 : list A) i x :
  (i + length x ≤ length l1)%nat → put_at (l1 ++ l2) i x = put_at l1 i x ++ l2.
Proof.
  intros. unfold put_at. rewrite take_app_le, drop_app_le by lia. by rewrite <- !app_assoc.
Qed.

Lemma put_at_tail {A} (l1 l2 : list A) i x :
  length l1 = i → length x = length l2 → put_at (l1 ++ l2) i x = l1 ++ x.
Proof.
  intros <- Hx. unfold put_at. rewrite take_app_length, drop_app_ge by lia.
  rewrite drop_ge by lia. by rewrite app_nil_r.
Qed.

Lemma bytes_ok_put_at l i x : bytes_ok l → bytes_ok x → bytes_ok (put_at l i x).
Proof.
  intros Hl Hx. unfold put_at. rewrite !bytes_ok_app. split_and!;
    [by apply Forall_take|done|by apply Forall_drop].
Qed.

Lemma nth8_be l i :
  bytes_ok l → (i < length l)%nat →
  nth8 l i = (be l / 256 ^ Z.of_nat (length l - 1 - i)) mod 256.
Proof.
  intros Hok Hi. rewrite <- (take_drop (S i) l) at 2. rewrite be_app, length_drop.
  replace (length l - S i)%nat with (length l - 1 - i)%nat by lia.
  pose proof (be_bound (drop (S i) l) ltac:(by apply Forall_drop)) as Hb. rewrite length_drop in Hb.
  replace (length l - S i)%nat with (length l - 1 - i)%nat in Hb by lia.
  rewrite Z.div_add_l, Z.div_small, Z.add_0_r by lia.
  destruct (lookup_lt_is_Some_2 l i Hi) as [x Hx].
  rewrite (take_S_r l i x Hx), be_app. unfold nth8. rewrite (nth_lookup_Some l i 0 x Hx).
  assert (is_u 8 x) as Hux by (eapply Forall_lookup; [apply Hok|apply Hx]).
  rewrite be_cons, be_nil. unfold is_u in Hux. cbn [length]. rewrite Z.mul_1_r || idtac.
  change (256 ^ Z.of_nat 1) with 256. change (256 ^ Z.of_nat 0) with 1. lia.
Qed.

(** Bit [7 - k] of byte [i] of a byte string is a bit of the number it encodes. *)
Lemma bit_be l i k :
  bytes_ok l → (i < length l)%nat → 0 ≤ k < 8 →
  Z.land (Z.shiftr (nth8 l i) k) 1 = (be l / 2 ^ (8 * Z.of_nat (length l - 1 - i) + k)) mod 2.
Proof.
  intros Hok Hi Hk. rewrite nth8_be, (land_mask 1 1), shiftr_div by (done || lia).
  rewrite Z.pow_add_r, Z.pow_mul_r, <- Z.div_div by lia. change (2 ^ 8) with 256.
  generalize (be l / 256 ^ Z.of_nat (length l - 1 - i)). intros x.
  assert (k = 0 ∨ k = 1 ∨ k = 2 ∨ k = 3 ∨ k = 4 ∨ k = 5 ∨ k = 6 ∨ k = 7) as Hc by lia.
  destruct_or! Hc; subst; lia.
Qed.

(** ** Iteration over a Go map

    Go leaves the order of a [range] over a map unspecified.  [MapRange] is an arbitrary
    choice of that order: the definitions that iterate over a map take it as a parameter, so
    the theorems about them hold for every order. *)
Class MapRange := {
  range {K V : Type} `{Countable K} : gmap K V → list (K * V);
  range_perm {K V : Type} `{Countable K} (m : gmap K V) : range m ≡ₚ map_to_list m
}.

(** One order, to run the definitions with. *)
Definition canonical_range : MapRange :=
  {| range K V _ _ m := map_to_list m; range_perm K V _ _ m := reflexivity (map_to_list m) |}.

Section map_range.
Context {MR : MapRange} {K V : Type} `{Countable K}.
Implicit Types m : gmap K V.

Lemma elem_of_range m k v : (k, v) ∈ range m ↔ m !! k = Some v.
  Proof. by rewrite range_perm, elem_of_map_to_list. Qed.

Lemma NoDup_range_fst m : NoDup (range m).*1.
  Proof. rewrite range_perm. apply NoDup_fst_map_to_list. Qed.

Lemma range_to_map m : list_to_map (range m) = m.
  Proof.
    rewrite (list_to_map_proper (range m) (map_to_list m));
      [apply list_to_map_to_list|apply NoDup_range_fst|apply range_perm].
  Qed.

Lemma range_empty : range (∅ : gmap K V) = [].
  Proof. apply Permutation_nil. rewrite range_perm. by rewrite map_to_list_empty. Qed.

Lemma range_nil m : range m = [] → m = ∅.
  Proof. intros Hm. apply map_to_list_empty_iff, Permutation_nil. by rewrite <- Hm, <- range_perm. Qed.

  (** A loop that only tests every entry: the order does not matter. *)
Lemma forallb_range (P : K * V → bool) m :
    forallb P (range m) = true ↔ ∀ k v, m !! k = Some v → P (k, v) = true.
  Proof.
    rewrite forallb_forall. split.
    - intros HP k v Hkv. apply HP. by rewrite <- list_elem_of_In, elem_of_range.
    - intros HP [k v] Hkv. apply HP. by rewrite <- elem_of_range, list_elem_of_In.
  Qed.
End map_range.

(** ** Fields of a record that is updated in place *)

Lemma slice_put_at_same {A} (l : list A) i x :
  (i + length x ≤ length l)%nat → slice (put_at l i x) i (i + length x) = x.
Proof.
  intros. unfold put_at. rewrite (slice_skip (take i l) _ i) by (rewrite ?length_take; lia).
  rewrite Nat.sub_diag. replace (i + length x - i)%nat with (length x) by lia. by apply slice_0_app.
Qed.

Lemma slice_put_at_before {A} (l : list A) i x a b :
  (i + length x ≤ length l)%nat → (b ≤ i)%nat → slice (put_at l i x) a b = slice l a b.
Proof.
  intros. unfold put_at. rewrite slice_app_l by (rewrite length_take; lia).
  rewrite <- (take_drop i l) at 2. rewrite slice_app_l by (rewrite length_take; lia). done.
Qed.

Lemma slice_put_at_after {A} (l : list A) i x a b :
  (i + length x ≤ length l)%nat → (i + length x ≤ a)%nat → slice (put_at l i x) a b = slice l a b.
Proof.
  intros. unfold put_at. rewrite app_assoc.
  assert (length (take i l ++ x) = i + length x)%nat as Hlen by (rewrite length_app, length_take; lia).
  rewrite (slice_skip _ _ (i + length x)) by (done || lia).
  rewrite <- (take_drop (i + length x) l) at 2.
  rewrite (slice_skip (take (i + length x) l) _ (i + length x)) by (rewrite ?length_take; lia). done.
Qed.

Lemma Uint16_put_at_same l i v :
  (i + 2 ≤ length l)%nat → is_u 16 v → Uint16 (put_at l i (put_be 2 v)) i = v.
Proof.
  intros. unfold Uint16. pose proof (slice_put_at_same l i (put_be 2 v)) as Hs.
  rewrite length_put_be in Hs. rewrite Hs by done. by apply be_put_be_small.
Qed.

Lemma Uint16_is_u l i : bytes_ok l → (i + 2 ≤ length l)%nat → is_u 16 (Uint16 l i).
Proof.
  intros Hl Hi. apply (be_is_u _ 2); [by apply bytes_ok_slice|]. rewrite length_slice; lia.
Qed.

(** Reads a field that an update does not touch. *)
Ltac field_past :=
  unfold Uint16, Uint32;
  repeat first
    [ rewrite slice_put_at_after by (rewrite ?length_put_be, ?length_put_at; rewrite ?length_put_be; lia)
    | rewrite slice_put_at_before by (rewrite ?length_put_be, ?length_put_at; rewrite ?length_put_be; lia) ].
