(* ===== verification/Paging.v ===== *)
(** * Paging: cutting lists into messages

    Two ways in which the engine cuts data into messages of bounded size: blocks of a fixed
    number of items ([page]), and greedy filling with items of different sizes ([greedy]). *)

From S2P Require Import Prelude.

(** ** Fixed blocks *)

Section pages.
Context {A : Type}.
Implicit Types l : list A.

Definition page (n : nat) l (i : nat) : list A := take n (drop (i * n) l).

(** The number of blocks of [n] items. *)
Definition pageCount (n : nat) l : nat := (length l + n - 1) / n.

Lemma page_nil n l i : (length l ≤ i * n)%nat → page n l i = [].
Proof. intros. unfold page. by rewrite drop_ge, take_nil. Qed.

Lemma page_inside n l i : (0 < n)%nat → (i < pageCount n l)%nat ↔ (i * n < length l)%nat.
Proof.
  intros Hn. unfold pageCount. pose proof (Nat.div_mod_eq (length l + n - 1) n).
  pose proof (Nat.mod_upper_bound (length l + n - 1) n). split; intros; nia.
Qed.

Lemma length_page n l i : (length (page n l i) ≤ n)%nat.
Proof. unfold page. rewrite length_take. lia. Qed.

Lemma page_nonempty n l i : (0 < n)%nat → (i < pageCount n l)%nat → page n l i ≠ [].
Proof.
  intros Hn Hi Hp. apply page_inside in Hi; [|done]. apply (f_equal length) in Hp.
  unfold page in Hp. rewrite length_take, length_drop in Hp. cbn in Hp. lia.
Qed.

Lemma pages_prefix n l k : concat (map (page n l) (seq 0 k)) = take (k * n) l.
Proof.
  induction k as [|k IH]; [done|].
  rewrite seq_S, map_app, concat_app, IH. cbn [map concat]. rewrite app_nil_r. unfold page. cbn [Nat.add].
  rewrite <- (take_drop (k * n) (take (S k * n) l)) at 1.
  rewrite take_take, Nat.min_l by lia. f_equal. rewrite firstn_skipn_comm. do 2 f_equal. lia.
Qed.

(** The blocks put together are the list. *)
Lemma pages_concat n l : (0 < n)%nat → concat (map (page n l) (seq 0 (pageCount n l))) = l.
Proof.
  intros Hn. rewrite pages_prefix. apply take_ge.
  destruct (decide (pageCount n l * n < length l)%nat) as [Hc|]; [|lia].
  apply page_inside in Hc; lia.
Qed.
End pages.

(** ** Greedy filling *)

Section greedy.
Context {A : Type} (cost : A → Z) (limit : Z).
Implicit Types l : list A.

Definition total l : Z := foldr (λ x, Z.add (cost x)) 0 l.

Lemma total_app l1 l2 : total (l1 ++ l2) = total l1 + total l2.
Proof. induction l1 as [|x l1 IH]; [done|]. cbn. fold (total (l1 ++ l2)). rewrite IH. unfold total. lia. Qed.

(** The groups: an item opens a new one when the current group is not empty and would overflow. *)
Fixpoint greedyFrom (current : list A) l : list (list A) :=
  match l with
  | [] => [current]
  | x :: l =>
      match current with
      | [] => greedyFrom [x] l
      | _ => if limit <? total current + cost x then current :: greedyFrom [x] l
             else greedyFrom (current ++ [x]) l
      end
  end.

Definition greedy l : list (list A) := match l with [] => [] | _ => greedyFrom [] l end.

Lemma concat_greedyFrom current l : concat (greedyFrom current l) = current ++ l.
Proof.
  revert current. induction l as [|x l IH]; intros current; cbn [greedyFrom]; [done|].
  destruct current as [|y current]; [by rewrite IH|].
  branch; cbn [concat]; rewrite IH; [done|]. by rewrite <- app_assoc.
Qed.

Lemma concat_greedy l : concat (greedy l) = l.
Proof. destruct l; [done|]. apply (concat_greedyFrom []). Qed.

Lemma greedyFrom_fits current l :
  total current ≤ limit → Forall (λ x, cost x ≤ limit) l →
  Forall (λ g, total g ≤ limit) (greedyFrom current l).
Proof.
  intros Hc Hl. revert current Hc. induction Hl as [|x l Hx Hl IH]; intros current Hc; cbn [greedyFrom].
  - by repeat constructor.
  - destruct current as [|y current]; [apply IH; cbn; lia|].
    branch as Hb; [constructor; [done|]|]; apply IH; [cbn; lia|].
    rewrite total_app. cbn. apply Z.ltb_ge in Hb. unfold total in *. cbn in *. lia.
Qed.

(** Every group fits, if every item does. *)
Lemma greedy_fits l :
  0 ≤ limit → Forall (λ x, cost x ≤ limit) l → Forall (λ g, total g ≤ limit) (greedy l).
Proof. intros H0 Hl. destruct l; [constructor|]. by apply greedyFrom_fits. Qed.

Lemma greedyFrom_nonempty current l :
  current ≠ [] ∨ l ≠ [] → Forall (λ g, g ≠ []) (greedyFrom current l).
Proof.
  revert current. induction l as [|x l IH]; intros current Hn; cbn [greedyFrom].
  - destruct Hn; [|done]. by repeat constructor.
  - destruct current as [|y current]; [apply IH; by left|].
    branch; [constructor; [done|]|]; apply IH; left; [done|by destruct current].
Qed.

Lemma greedy_nonempty l : Forall (λ g, g ≠ []) (greedy l).
Proof. destruct l; [constructor|]. apply greedyFrom_nonempty. by right. Qed.

(** No item could have been in the group before its own: a group and the first item of the
    next one overflow. *)
Lemma greedyFrom_full current l i g x g' :
  greedyFrom current l !! i = Some g → greedyFrom current l !! S i = Some (x :: g') →
  limit < total g + cost x.
Proof.
  assert (∀ c l', c ≠ [] → ∃ c' rest, greedyFrom c l' = (c ++ c') :: rest) as Hhead.
  { intros c l'. revert c. induction l' as [|z l' IH]; intros c Hc; cbn [greedyFrom].
    - exists [], []. by rewrite app_nil_r.
    - destruct c as [|w c]; [done|]. branch.
      + exists [], (greedyFrom [z] l'). by rewrite app_nil_r.
      + destruct (IH ((w :: c) ++ [z])) as (c' & rest & ->); [by destruct c|].
        exists (z :: c'), rest. by rewrite <- app_assoc. }
  revert current i. induction l as [|y l IH]; intros current i; cbn [greedyFrom]; [by destruct i|].
  destruct current as [|z current]; [apply IH|]. branch as Hb; [|apply IH].
  destruct i as [|i]; [|apply IH].
  intros [= <-] Hs. cbn in Hs. destruct (Hhead [y] l) as (c' & rest & Hr); [done|].
  rewrite Hr in Hs. injection Hs as <- _. by apply Z.ltb_lt.
Qed.

Lemma greedy_full l i g x g' :
  greedy l !! i = Some g → greedy l !! S i = Some (x :: g') → limit < total g + cost x.
Proof. destruct l; [done|]. apply greedyFrom_full. Qed.

(** A loop that flushes a message when the next item would overflow it builds the greedy
    groups: its states are [state outs current], the messages sent and the items collected. *)
Lemma fill_greedy {E S O} (state : list O → list A → S) (cond : S → A → bool) (flush : S → Res E S)
    (add : S → A → S) (encode : list A → Res E O) (finish : S → Res E (list O)) (empty_ok : Prop) items :
  (∀ outs current x, total current ≤ limit → cost x ≤ limit →
     cond (state outs current) x = negb (bool_decide (current = [])) && (limit <? total current + cost x)) →
  (∀ outs current, flush (state outs current) = (o ← encode current; Ok (state (outs ++ [o]) []))) →
  (∀ outs current x, add (state outs current) x = state outs (current ++ [x])) →
  (∀ outs current, (current = [] → empty_ok) →
     finish (state outs current) = (o ← encode current; Ok (outs ++ [o]))) →
  Forall (λ x, cost x ≤ limit) items →
  ∀ outs current, total current ≤ limit → (items = [] → current = [] → empty_ok) →
  (st ← foldM_res (λ st x, st ← (if cond st x then flush st else Ok st); Ok (add st x)) items (state outs current);
   finish st) =
  (os ← mapM_res encode (greedyFrom current items); Ok (outs ++ os)).
Proof.
  intros Hcond Hflush Hadd Hfinish Hi. induction Hi as [|x items Hx Hi IH]; intros outs current Hc He.
  - cbn. rewrite Hfinish by auto. by destruct (encode current).
  - cbn [foldM_res greedyFrom]. rewrite Hcond by done.
    assert (total [x] ≤ limit) as Hx1 by (unfold total; cbn; lia).
    destruct current as [|y current].
    + rewrite bool_decide_eq_true_2 by done. cbn [negb andb mbind Res_bind]. rewrite Hadd.
      by apply IH.
    + rewrite bool_decide_eq_false_2 by done. cbn [negb andb]. destruct (_ <? _) eqn:Hl.
      * rewrite Hflush. cbn [mapM_res]. destruct (encode (y :: current)) as [o|]; [|done].
        cbn [mbind Res_bind]. rewrite Hadd. cbn [app].
        specialize (IH (outs ++ [o]) [x] Hx1 ltac:(done)). cbn [mbind Res_bind] in IH. rewrite IH.
        destruct (mapM_res _ _); cbn; [|done]. by rewrite <- app_assoc.
      * cbn [mbind Res_bind]. rewrite Hadd. apply IH; [|by destruct current].
        rewrite total_app. apply Z.ltb_ge in Hl. unfold total in *. cbn in *. lia.
Qed.
End greedy.
