(* ===== verification/GoStd.v ===== *)
(** * Go standard library functions the components call

    crypto/md5 (the hash the software download keeps of an image), encoding/hex and
    strings.TrimSpace, on byte strings. *)

From S2P Require Import Prelude.

(** ** crypto/md5 *)

(** The table of RFC 1321: the integer part of 2^32 times |sin (i + 1)|. *)
Definition md5K : list Z :=
  [0xd76aa478; 0xe8c7b756; 0x242070db; 0xc1bdceee; 0xf57c0faf; 0x4787c62a;
   0xa8304613; 0xfd469501; 0x698098d8; 0x8b44f7af; 0xffff5bb1; 0x895cd7be;
   0x6b901122; 0xfd987193; 0xa679438e; 0x49b40821; 0xf61e2562; 0xc040b340;
   0x265e5a51; 0xe9b6c7aa; 0xd62f105d; 0x02441453; 0xd8a1e681; 0xe7d3fbc8;
   0x21e1cde6; 0xc33707d6; 0xf4d50d87; 0x455a14ed; 0xa9e3e905; 0xfcefa3f8;
   0x676f02d9; 0x8d2a4c8a; 0xfffa3942; 0x8771f681; 0x6d9d6122; 0xfde5380c;
   0xa4beea44; 0x4bdecfa9; 0xf6bb4b60; 0xbebfbc70; 0x289b7ec6; 0xeaa127fa;
   0xd4ef3085; 0x04881d05; 0xd9d4d039; 0xe6db99e5; 0x1fa27cf8; 0xc4ac5665;
   0xf4292244; 0x432aff97; 0xab9423a7; 0xfc93a039; 0x655b59c3; 0x8f0ccc92;
   0xffeff47d; 0x85845dd1; 0x6fa87e4f; 0xfe2ce6e0; 0xa3014314; 0x4e0811a1;
   0xf7537e82; 0xbd3af235; 0x2ad7d2bb; 0xeb86d391].

Definition md5Shifts : list Z :=
  concat (repeat [7; 12; 17; 22] 4 ++ repeat [5; 9; 14; 20] 4 ++
          repeat [4; 11; 16; 23] 4 ++ repeat [6; 10; 15; 21] 4).

(** [bits.RotateLeft32]. *)
Definition rotateLeft32 (x n : Z) : Z := Z.lor (u32 (Z.shiftl x n)) (Z.shiftr x (32 - n)).

Definition not32 (x : Z) : Z := Z.lxor x 0xffffffff.

(** A little-endian word. *)
Definition leWord (l : list Z) : Z := foldr (λ b acc, b + 256 * acc) 0 l.
Definition putLE (n : nat) (x : Z) : list Z := rev (put_be n x).

(** Round [i] on the state [(a, b, c, d)] and the sixteen words of the block. *)
Definition md5Round (words : list Z) (state : Z * Z * Z * Z) (i : nat) : Z * Z * Z * Z :=
  let '(a, b, c, d) := state in
  let '(f, g) :=
    if (i <? 16)%nat then (Z.lor (Z.land b c) (Z.land (not32 b) d), i)
    else if (i <? 32)%nat then (Z.lor (Z.land d b) (Z.land (not32 d) c), (5 * i + 1) mod 16)%nat
    else if (i <? 48)%nat then (Z.lxor b (Z.lxor c d), (3 * i + 5) mod 16)%nat
    else (Z.lxor c (Z.lor b (not32 d)), (7 * i) mod 16)%nat in
  let f := u32 (f + a + nth i md5K 0 + nth g words 0) in
  (d, u32 (b + rotateLeft32 f (nth i md5Shifts 0)), b, c).

Definition md5Block (state : Z * Z * Z * Z) (block : list Z) : Z * Z * Z * Z :=
  let words := map (λ i, leWord (slice block (4 * i) (4 * i + 4))) (seq 0 16) in
  let '(a0, b0, c0, d0) := state in
  let '(a, b, c, d) := fold_left (md5Round words) (seq 0 64) state in
  (u32 (a0 + a), u32 (b0 + b), u32 (c0 + c), u32 (d0 + d)).

Fixpoint md5Blocks (fuel : nat) (state : Z * Z * Z * Z) (data : list Z) : Z * Z * Z * Z :=
  match fuel with
  | O => state
  | S fuel => match data with
              | [] => state
              | _ => md5Blocks fuel (md5Block state (take 64 data)) (drop 64 data)
              end
  end.

(** The message, a one bit, zeros up to 56 modulo 64 octets, and the bit length. *)
Definition md5Pad (data : list Z) : list Z :=
  let zeros := ((119 - length data mod 64) mod 64)%nat in
  data ++ 0x80 :: repeat 0 zeros ++ putLE 8 (u64 (8 * Z.of_nat (length data))).

(** [md5.Sum] of the bytes written to the hash. *)
Definition md5Sum (data : list Z) : list Z :=
  let padded := md5Pad data in
  let '(a, b, c, d) :=
    md5Blocks (length padded) (0x67452301, 0xefcdab89, 0x98badcfe, 0x10325476) padded in
  putLE 4 a ++ putLE 4 b ++ putLE 4 c ++ putLE 4 d.

(** ** encoding/hex *)

Definition hexDigit (x : Z) : Z := if x <? 10 then 48 + x else 87 + x.
Definition hexEncodeToString (l : list Z) : list Z :=
  concat (map (λ b, [hexDigit (Z.shiftr b 4); hexDigit (Z.land b 0x0f)]) l).

(** ** strings *)

(** The UTF-8 encodings of the characters [unicode.IsSpace] accepts. *)
Definition spaceEncodings : list (list Z) :=
  map (λ c, [c]) [9; 10; 11; 12; 13; 32] ++
  [[0xc2; 0x85]; [0xc2; 0xa0]; [0xe1; 0x9a; 0x80]] ++
  map (λ c, [0xe2; 0x80; 0x80 + Z.of_nat c]) (seq 0 11) ++
  [[0xe2; 0x80; 0xa8]; [0xe2; 0x80; 0xa9]; [0xe2; 0x80; 0xaf]; [0xe2; 0x81; 0x9f]; [0xe3; 0x80; 0x80]].

(** The number of bytes of the space [s] starts with, if it starts with one. *)
Definition leadingSpace (encodings : list (list Z)) (s : list Z) : option nat :=
  length <$> List.find (λ e, bool_decide (take (length e) s = e)) encodings.

Fixpoint trimLeading (encodings : list (list Z)) (fuel : nat) (s : list Z) : list Z :=
  match fuel with
  | O => s
  | S fuel => match leadingSpace encodings s with
              | Some n => trimLeading encodings fuel (drop n s)
              | None => s
              end
  end.

(** [strings.TrimSpace]; a space encoding is never a proper suffix or prefix of another, so
    the last character is a space exactly when the string ends with an encoding. *)
Definition TrimSpace (s : list Z) : list Z :=
  let s := trimLeading spaceEncodings (length s) s in
  rev (trimLeading (map (@rev Z) spaceEncodings) (length s) (rev s)).

(** The bytes of an ASCII string. *)
Fixpoint bytesOf (s : string) : list Z :=
  match s with
  | EmptyString => []
  | String c s => Z.of_nat (Ascii.nat_of_ascii c) :: bytesOf s
  end.

Example md5Sum_empty :
  hexEncodeToString (md5Sum []) = bytesOf "d41d8cd98f00b204e9800998ecf8427e".
Proof. vm_compute. reflexivity. Qed.

Example md5Sum_abc :
  hexEncodeToString (md5Sum (bytesOf "abc")) = bytesOf "900150983cd24fb0d6963f7d28e17f72".
Proof. vm_compute. reflexivity. Qed.

Example md5Sum_long :
  hexEncodeToString (md5Sum (bytesOf "12345678901234567890123456789012345678901234567890123456789012345678901234567890"))
  = bytesOf "57edf4a22be3c955ac49da2e2107b67a".
Proof. vm_compute. reflexivity. Qed.

Example TrimSpace_check : TrimSpace (bytesOf "  a b " ++ [0xc2; 0xa0; 9]) = bytesOf "a b".
Proof. vm_compute. reflexivity. Qed.

Lemma length_md5Sum data : length (md5Sum data) = 16%nat.
Proof.
  unfold md5Sum. destruct (md5Blocks _ _ _) as [[[a b] c] d]. unfold putLE.
  by rewrite !length_app, !length_rev, !length_put_be.
Qed.
