(* ===== verification/Hex.v ===== *)
(** * encoding/hex

    The decoding of hexadecimal text of Go's standard library, for the events and the software
    helper; GoStd.v has the encoding. *)

From S2P Require Import Prelude GoStd.

Definition fromHexChar (octet : Z) : option Z :=
  if (48 <=? octet) && (octet <=? 57) then Some (octet - 48)
  else if (97 <=? octet) && (octet <=? 102) then Some (octet - 87)
  else if (65 <=? octet) && (octet <=? 70) then Some (octet - 55)
  else None.

(** [hex.DecodeString]; a text of odd length is an error. *)
Fixpoint hexDecodeString (text : list Z) : option (list Z) :=
  match text with
  | [] => Some []
  | high :: low :: rest =>
      match fromHexChar high, fromHexChar low, hexDecodeString rest with
      | Some high, Some low, Some rest => Some (Z.lor (Z.shiftl high 4) low :: rest)
      | _, _, _ => None
      end
  | [_] => None
  end.

Lemma fromHexChar_range c x : fromHexChar c = Some x → 0 ≤ x < 16.
Proof. unfold fromHexChar. intros H. repeat case_match; simplify_eq; lia. Qed.

Lemma hexNibbles_is_u h l : 0 ≤ h < 16 → 0 ≤ l < 16 → is_u 8 (Z.lor (Z.shiftl h 4) l).
Proof.
  intros Hh Hl. apply is_u_lor; [lia| |unfold is_u; lia]. rewrite Z.shiftl_mul_pow2 by lia. unfold is_u. lia.
Qed.

Lemma hexDecodeString_bytes text octets : hexDecodeString text = Some octets → bytes_ok octets.
Proof.
  generalize (le_n (length text)). generalize (length text) at 2 as n. intros n. revert text octets. induction n as [|n IH]; intros text octets Hn; (destruct text as [|high [|low rest]]; cbn [length] in Hn);
    cbn [hexDecodeString]; try (intros [= <-]; constructor); try done; try lia.
  destruct (fromHexChar high) as [h|] eqn:Hh; [|done]. destruct (fromHexChar low) as [l|] eqn:Hl; [|done].
  destruct (hexDecodeString rest) as [octets'|] eqn:Hr; [|done]. intros [= <-].
  apply fromHexChar_range in Hh, Hl. constructor; [by apply hexNibbles_is_u|]. apply (IH rest); [lia|done].
Qed.


(** The two digits of an octet. *)
Definition hexPair (high low : Z) : option Z :=
  match fromHexChar high, fromHexChar low with
  | Some high, Some low => Some (Z.lor (Z.shiftl high 4) low)
  | _, _ => None
  end.

Lemma hexPair_digits b : is_u 8 b → hexPair (hexDigit (Z.shiftr b 4)) (hexDigit (Z.land b 0x0f)) = Some b.
Proof.
  intros Hb. assert (forallb (λ n, let b := Z.of_nat n in
    bool_decide (hexPair (hexDigit (Z.shiftr b 4)) (hexDigit (Z.land b 0x0f)) = Some b)) (seq 0 256) = true) as Hall
    by (vm_compute; reflexivity).
  rewrite forallb_forall in Hall. specialize (Hall (Z.to_nat b)). rewrite in_seq in Hall. unfold is_u in Hb.
  cbv zeta in Hall. rewrite Z2Nat.id in Hall by lia. apply bool_decide_eq_true in Hall; [done|lia].
Qed.

(** What is encoded is decoded again. *)
Lemma hexDecodeString_encode l : bytes_ok l → hexDecodeString (hexEncodeToString l) = Some l.
Proof.
  unfold hexEncodeToString. induction 1 as [|b l Hb _ IH]; [done|]. cbn [map concat app hexDecodeString].
  apply hexPair_digits in Hb. unfold hexPair in Hb. rewrite IH.
  destruct (fromHexChar (hexDigit (Z.shiftr b 4))) as [high|]; [|done].
  destruct (fromHexChar (hexDigit (Z.land b 0x0f))) as [low|]; [|done]. by injection Hb as ->.
Qed.
