(* ===== verification/Checksum.v ===== *)
(** * Checksum: CRC-32/ITU-I.363.5 ([internal/checksum/crc32a.go])

    [UpdateCRC32A], [SumCRC32A] and [CRC32A] on 32-bit words.  The theorems: the register stays a
    32-bit word, the checksum can be computed in pieces, and any corruption of a message confined
    to four consecutive bytes changes the checksum. *)

From S2P Require Import Prelude.

Definition crc32APolynomial : Z := 0x04c11db7.
Definition CRC32AInitial : Z := 0xffffffff.

(** The body of the inner [for bit] loop. *)
Definition crc_bit (crc : Z) : Z :=
  if decide (Z.land crc 0x80000000 ≠ 0)
  then Z.lxor (u32 (Z.shiftl crc 1)) crc32APolynomial
  else u32 (Z.shiftl crc 1).

(** The inner loop: [n] iterations of [crc_bit]. *)
Fixpoint crc_bits (n : nat) (crc : Z) : Z :=
  match n with O => crc | S n' => crc_bits n' (crc_bit crc) end.

(** The body of the outer loop, for one octet. *)
Definition crc_octet (crc octet : Z) : Z := crc_bits 8 (Z.lxor crc (Z.shiftl octet 24)).

Definition UpdateCRC32A (crc : Z) (value : list Z) : Z := foldl crc_octet crc value.

Definition SumCRC32A (crc : Z) : Z := Z.lxor crc 0xffffffff.

Definition CRC32A (value : list Z) : Z := SumCRC32A (UpdateCRC32A CRC32AInitial value).

(** The check value of the algorithm's catalogue entry: the ASCII string 123456789. *)
Example CRC32A_check : CRC32A [49; 50; 51; 52; 53; 54; 55; 56; 57] = 0xfc891918.
Proof. vm_compute. reflexivity. Qed.

(** ** The register as a linear map on 32-bit words *)

Lemma crc_octet_eq c x : crc_octet c x = crc_bits 8 (Z.lxor c (Z.shiftl x 24)).
Proof. done. Qed.

Lemma crc_bits_0 c : crc_bits 0 c = c.
Proof. done. Qed.

Lemma crc_bits_S n c : crc_bits (S n) c = crc_bits n (crc_bit c).
Proof. done. Qed.

Lemma UpdateCRC32A_cons c x l : UpdateCRC32A c (x :: l) = UpdateCRC32A (crc_octet c x) l.
Proof. done. Qed.

(** The lemmas above are the only unfoldings the proofs use. *)
Opaque crc_octet crc_bits.

Lemma land_top_bit c : Z.land c 0x80000000 ≠ 0 ↔ Z.testbit c 31 = true.
Proof.
  change 0x80000000 with (2 ^ 31). split.
  - intros Hne. destruct (Z.testbit c 31) eqn:E; [done|]. destruct Hne.
    apply Z.bits_inj'. intros i Hi. rewrite Z.land_spec, Z.bits_0.
    destruct (decide (i = 31)) as [->|]; [by rewrite E|].
    rewrite Z.pow2_bits_false by lia. by rewrite andb_false_r.
  - intros E H0. apply (f_equal (λ x, Z.testbit x 31)) in H0.
    rewrite Z.land_spec, E, Z.pow2_bits_true, Z.bits_0 in H0; [done|lia].
Qed.

(** One step: shift, and subtract the polynomial when the top bit falls out. *)
Lemma crc_bit_alt c :
  crc_bit c = Z.lxor (Z.land (Z.shiftl c 1) (Z.ones 32))
                     (if Z.testbit c 31 then crc32APolynomial else 0).
Proof.
  unfold crc_bit. rewrite wrap_land by done. pose proof (land_top_bit c) as Ht.
  destruct (Z.testbit c 31), (decide (Z.land c 0x80000000 ≠ 0));
    try (done || by rewrite Z.lxor_0_r); naive_solver.
Qed.

Lemma crc_bit_is_u c : is_u 32 (crc_bit c).
Proof.
  unfold crc_bit. pose proof (wrap_is_u 32 (Z.shiftl c 1) ltac:(done)).
  case_decide; [|done]. apply is_u_lxor; (done || by_decide).
Qed.

Lemma crc_bit_lxor a b : crc_bit (Z.lxor a b) = Z.lxor (crc_bit a) (crc_bit b).
Proof.
  rewrite !crc_bit_alt, Z.lxor_spec, Z.shiftl_lxor.
  apply Z.bits_inj'. intros i Hi. rewrite !Z.lxor_spec, !Z.land_spec, Z.lxor_spec.
  destruct (Z.testbit a 31), (Z.testbit b 31), (Z.testbit (Z.ones 32) i),
    (Z.testbit (Z.shiftl a 1) i), (Z.testbit (Z.shiftl b 1) i);
    cbn [xorb andb]; rewrite ?Z.bits_0; by destruct (Z.testbit crc32APolynomial i).
Qed.

(** The polynomial has a constant term, so a step loses no information. *)
Lemma crc_bit_zero c : is_u 32 c → crc_bit c = 0 → c = 0.
Proof.
  intros Hc H0. assert (Htop : Z.testbit c 31 = false).
  { rewrite crc_bit_alt in H0. apply (f_equal (λ x, Z.testbit x 0)) in H0.
    rewrite Z.lxor_spec, Z.land_spec, Z.shiftl_spec_low, Z.bits_0 in H0 by lia.
    by destruct (Z.testbit c 31). }
  rewrite crc_bit_alt, Htop, Z.lxor_0_r, Z.land_ones, Z.shiftl_mul_pow2 in H0 by lia.
  assert (c < 2 ^ 31) as Hlt.
  { destruct (Z.lt_ge_cases c (2 ^ 31)) as [|Hge]; [done|].
    assert (Z.log2 c = 31) as Hlog.
    { apply Z.log2_unique; unfold is_u in Hc; lia. }
    rewrite <- Hlog, Z.bit_log2 in Htop by lia. done. }
  unfold is_u in Hc. rewrite Z.mod_small in H0; lia.
Qed.

Lemma crc_bits_is_u n c : is_u 32 c → is_u 32 (crc_bits n c).
Proof.
  revert c. induction n as [|n IH]; intros c Hc; rewrite ?crc_bits_0, ?crc_bits_S; [done|].
  apply IH, crc_bit_is_u.
Qed.

Lemma crc_bits_lxor n a b : crc_bits n (Z.lxor a b) = Z.lxor (crc_bits n a) (crc_bits n b).
Proof.
  revert a b. induction n as [|n IH]; intros a b; rewrite ?crc_bits_0, ?crc_bits_S; [done|].
  by rewrite crc_bit_lxor.
Qed.

Lemma crc_bits_zero n c : is_u 32 c → crc_bits n c = 0 → c = 0.
Proof.
  revert c. induction n as [|n IH]; intros c Hc; rewrite ?crc_bits_0, ?crc_bits_S; [done|]. intros H0.
  apply crc_bit_zero; [done|]. by apply IH; [apply crc_bit_is_u|].
Qed.

Lemma crc_bits_add n m c : crc_bits (n + m) c = crc_bits m (crc_bits n c).
Proof. revert c. induction n as [|n IH]; intros c; [by rewrite crc_bits_0|].
  cbn [Nat.add]. by rewrite !crc_bits_S. Qed.

(** While nothing reaches bit 31, a step only shifts. *)
Lemma crc_bit_shift c : is_u 31 c → crc_bit c = Z.shiftl c 1.
Proof.
  intros Hc. rewrite crc_bit_alt, (testbit_above 31), Z.lxor_0_r, <- wrap_land by (done || lia).
  apply wrap_small. rewrite Z.shiftl_mul_pow2 by lia. unfold is_u in *. lia.
Qed.

Lemma is_u_shiftl w k c : 0 ≤ k → 0 ≤ w → is_u w c → is_u (w + k) (Z.shiftl c k).
Proof.
  unfold is_u. intros Hk Hw Hc. rewrite Z.shiftl_mul_pow2, Z.pow_add_r by lia. nia.
Qed.

Lemma crc_bits_shift n c :
  (n ≤ 32)%nat → is_u (32 - Z.of_nat n) c → crc_bits n c = Z.shiftl c (Z.of_nat n).
Proof.
  revert c. induction n as [|n IH]; intros c Hn Hc; [by rewrite crc_bits_0, Z.shiftl_0_r|].
  rewrite crc_bits_S. destruct Hc as [Hlo Hhi]. rewrite crc_bit_shift, IH.
  - rewrite Z.shiftl_shiftl by lia. f_equal. lia.
  - lia.
  - replace (32 - Z.of_nat n) with (32 - Z.of_nat (S n) + 1) by lia. by apply is_u_shiftl; [lia..|].
  - split; [done|]. eapply Z.lt_le_trans; [done|]. apply Z.pow_le_mono_r; lia.
Qed.

(** ** Octets and messages *)

Lemma crc_octet_lxor a b x y :
  crc_octet (Z.lxor a b) (Z.lxor x y) = Z.lxor (crc_octet a x) (crc_octet b y).
Proof.
  rewrite !crc_octet_eq, <- crc_bits_lxor, Z.shiftl_lxor. f_equal.
  apply Z.bits_inj'. intros i _. rewrite !Z.lxor_spec.
  destruct (Z.testbit a i), (Z.testbit b i), (Z.testbit (Z.shiftl x 24) i),
    (Z.testbit (Z.shiftl y 24) i); done.
Qed.

Lemma crc_octet_is_u c x : is_u 32 c → is_u 8 x → is_u 32 (crc_octet c x).
Proof.
  intros Hc Hx. rewrite crc_octet_eq. apply crc_bits_is_u, is_u_lxor; [done..|].
  by apply (is_u_shiftl 8 24).
Qed.

Lemma UpdateCRC32A_is_u c l : is_u 32 c → bytes_ok l → is_u 32 (UpdateCRC32A c l).
Proof.
  intros Hc Hl. revert c Hc. induction Hl as [|x l Hx _ IH]; intros c Hc; [done|].
  rewrite UpdateCRC32A_cons. by apply IH, crc_octet_is_u.
Qed.

Lemma UpdateCRC32A_app c l1 l2 :
  UpdateCRC32A c (l1 ++ l2) = UpdateCRC32A (UpdateCRC32A c l1) l2.
Proof. apply foldl_app. Qed.

Lemma UpdateCRC32A_lxor a b l1 l2 :
  length l1 = length l2 →
  UpdateCRC32A (Z.lxor a b) (zip_with Z.lxor l1 l2) =
  Z.lxor (UpdateCRC32A a l1) (UpdateCRC32A b l2).
Proof.
  revert a b l2. induction l1 as [|x l1 IH]; intros a b [|y l2] Hlen; try done.
  cbn [zip_with]. rewrite !UpdateCRC32A_cons, crc_octet_lxor. apply IH. by injection Hlen.
Qed.

Lemma crc_octet_inj a b x :
  is_u 32 a → is_u 32 b → crc_octet a x = crc_octet b x → a = b.
Proof.
  intros Ha Hb Heq. apply Z.lxor_eq. pose proof (crc_octet_lxor a b x x) as Hx.
  rewrite Heq, !Z.lxor_nilpotent in Hx. rewrite crc_octet_eq in Hx.
  rewrite Z.shiftl_0_l, Z.lxor_0_r in Hx. apply crc_bits_zero in Hx; [done|by apply is_u_lxor].
Qed.

(** Trailing octets cannot hide a difference of the register. *)
Lemma UpdateCRC32A_inj a b l :
  is_u 32 a → is_u 32 b → bytes_ok l → UpdateCRC32A a l = UpdateCRC32A b l → a = b.
Proof.
  intros Ha Hb Hl. revert a b Ha Hb. induction Hl as [|x l Hx _ IH]; intros a b Ha Hb Heq; [done|].
  rewrite !UpdateCRC32A_cons in Heq.
  apply (crc_octet_inj _ _ x); [done..|]. apply IH; [by apply crc_octet_is_u..|done].
Qed.

(** Four octets fed into a zero register are a 32-bit word pushed through 32 steps. *)
Lemma UpdateCRC32A_word b0 b1 b2 b3 :
  is_u 8 b0 → is_u 8 b1 → is_u 8 b2 → is_u 8 b3 →
  UpdateCRC32A 0 [b0; b1; b2; b3] =
  crc_bits 32 (Z.lxor (Z.lxor (Z.lxor (Z.shiftl b0 24) (Z.shiftl b1 16)) (Z.shiftl b2 8)) b3).
Proof.
  intros H0 H1 H2 H3. rewrite !UpdateCRC32A_cons, !crc_octet_eq. cbn [UpdateCRC32A foldl]. rewrite Z.lxor_0_l.
  assert (∀ x n, is_u 8 x → (n ≤ 24)%nat →
    Z.shiftl x 24 = crc_bits n (Z.shiftl x (24 - Z.of_nat n))) as Hs.
  { intros x n Hx Hn. rewrite crc_bits_shift; [rewrite Z.shiftl_shiftl by lia; f_equal; lia|lia|].
    replace (32 - Z.of_nat n) with (8 + (24 - Z.of_nat n)) by lia. by apply is_u_shiftl; [lia..|]. }
  rewrite (Hs b1 8%nat), (Hs b2 (8 + 8)%nat), (Hs b3 (8 + 8 + 8)%nat) by (done || lia).
  change 32%nat with (8 + 8 + 8 + 8)%nat. rewrite !crc_bits_add, <- !crc_bits_lxor.
  change (24 - Z.of_nat 8) with 16. change (24 - Z.of_nat (8 + 8)) with 8.
  change (24 - Z.of_nat (8 + 8 + 8)) with 0. by rewrite Z.shiftl_0_r.
Qed.

(** A shifted octet and something below it cannot cancel. *)
Lemma lxor_shiftl_zero k x y :
  0 ≤ k → is_u 8 x → is_u k y → Z.lxor (Z.shiftl x k) y = 0 → x = 0 ∧ y = 0.
Proof.
  intros Hk Hx Hy H0. apply Z.lxor_eq in H0. rewrite Z.shiftl_mul_pow2 in H0 by done.
  unfold is_u in *. assert (x = 0) as -> by nia. lia.
Qed.

Lemma UpdateCRC32A_word_zero b0 b1 b2 b3 :
  is_u 8 b0 → is_u 8 b1 → is_u 8 b2 → is_u 8 b3 →
  UpdateCRC32A 0 [b0; b1; b2; b3] = 0 → b0 = 0 ∧ b1 = 0 ∧ b2 = 0 ∧ b3 = 0.
Proof.
  intros H0 H1 H2 H3. rewrite UpdateCRC32A_word by done. rewrite !Z.lxor_assoc.
  assert (is_u 16 (Z.lxor (Z.shiftl b2 8) b3)) as H23.
  { apply is_u_lxor; [done|by apply (is_u_shiftl 8 8)|unfold is_u in *; lia]. }
  assert (is_u 24 (Z.lxor (Z.shiftl b1 16) (Z.lxor (Z.shiftl b2 8) b3))) as H123.
  { apply is_u_lxor; [done|by apply (is_u_shiftl 8 16)|unfold is_u in *; lia]. }
  intros Hz. apply crc_bits_zero in Hz.
  - apply lxor_shiftl_zero in Hz as [-> Hz]; [|done..].
    apply lxor_shiftl_zero in Hz as [-> Hz]; [|done..].
    by apply lxor_shiftl_zero in Hz as [-> ->].
  - apply is_u_lxor; [done|by apply (is_u_shiftl 8 24)|unfold is_u in *; lia].
Qed.

(** Equal checksums of two messages that differ only in one four-byte window force the windows to
    be equal. *)
Lemma CRC32A_window pre w1 w2 post :
  bytes_ok pre → bytes_ok w1 → bytes_ok w2 → bytes_ok post →
  length w1 = 4%nat → length w2 = 4%nat →
  CRC32A (pre ++ w1 ++ post) = CRC32A (pre ++ w2 ++ post) → w1 = w2.
Proof.
  intros Hp H1 H2 Hpost L1 L2. unfold CRC32A, SumCRC32A. intros Heq.
  apply (f_equal (λ x, Z.lxor x 0xffffffff)) in Heq.
  rewrite !Z.lxor_assoc, !Z.lxor_nilpotent, !Z.lxor_0_r, !UpdateCRC32A_app in Heq.
  assert (is_u 32 (UpdateCRC32A CRC32AInitial pre)) as Hr by (apply UpdateCRC32A_is_u; [by_decide|done]).
  apply UpdateCRC32A_inj in Heq; [|by apply UpdateCRC32A_is_u..|done].
  assert (UpdateCRC32A 0 (zip_with Z.lxor w1 w2) = 0) as Hz.
  { pose proof (UpdateCRC32A_lxor (UpdateCRC32A CRC32AInitial pre)
      (UpdateCRC32A CRC32AInitial pre) w1 w2 ltac:(congruence)) as Hx.
    by rewrite Heq, !Z.lxor_nilpotent in Hx. }
  destruct w1 as [|a0 [|a1 [|a2 [|a3 [|? ?]]]]]; try done.
  destruct w2 as [|c0 [|c1 [|c2 [|c3 [|? ?]]]]]; try done.
  unfold bytes_ok in H1, H2. rewrite !Forall_cons in H1, H2. destruct H1 as (?&?&?&?&_), H2 as (?&?&?&?&_).
  cbn [zip_with] in Hz.
  apply UpdateCRC32A_word_zero in Hz as (E0&E1&E2&E3); [|by apply is_u_lxor..].
  apply Z.lxor_eq in E0, E1, E2, E3. by subst.
Qed.

(** ** Properties *)

(** The checksum detects every error burst confined to four consecutive bytes: two messages
    of the same length that agree outside such a window and differ inside it have different
    CRC-32A values. *)
Theorem CRC32A_detects_bursts pre w1 w2 post
  (Hpre : bytes_ok pre) (H1 : bytes_ok w1) (H2 : bytes_ok w2) (Hpost : bytes_ok post)
  (L1 : length w1 = 4%nat) (L2 : length w2 = 4%nat) (Hne : w1 ≠ w2) :
  CRC32A (pre ++ w1 ++ post) ≠ CRC32A (pre ++ w2 ++ post).
Proof. intros Heq. apply Hne. by apply (CRC32A_window pre w1 w2 post). Qed.

Lemma CRC32A_detects_bursts_witness :
  CRC32A ([49; 50] ++ [1; 2; 3; 4] ++ [53]) ≠ CRC32A ([49; 50] ++ [1; 2; 3; 5] ++ [53]).
Proof. apply CRC32A_detects_bursts; by_decide. Defined.
