(* ===== verification/XgsSecurity.v ===== *)
(** * XGS-PON security

    src/internal/xgssecurity/security.go: the keys of ITU-T G.9807.1 and the integrity codes of
    PLOAM messages and of OMCI frames.  AES-CMAC (crypto/aes and github.com/aead/cmac) is the
    interface [CMAC]. *)

From S2P Require Import Prelude GoStd.

(** [cmac.Sum] of a message with [aes.NewCipher] of a key: a tag of the size asked for, which there
    is for a key of 16 bytes and a size of 1 to 16. *)
Class CMAC := {
  cmacSum : list Z → list Z → Z → option (list Z);
  cmacSum_length key message size tag :
    cmacSum key message size = Some tag → Z.of_nat (length tag) = size;
  cmacSum_some key message size :
    length key = 16%nat → 1 ≤ size ≤ 16 → is_Some (cmacSum key message size)
}.

Definition KeySize : Z := 16.
Definition RegistrationSize : Z := 36.
Definition SerialSize : Z := 8.
Definition PONTagSize : Z := 8.
Definition PLOAMSize : Z := 48.
Definition PLOAMContentSize : Z := 40.
Definition PLOAMMICSize : Z := 8.
Definition OMCIMICSize : Z := 4.

(** [Direction], a byte. *)
Definition Downstream : Z := 0x01.
Definition Upstream : Z := 0x02.

Definition defaultKey : list Z := repeat 0x55 16.
Definition omciIntegrityLabel : list Z := bytesOf "OMCIIntegrityKey".
Definition ploamIntegrityLabel : list Z := bytesOf "PLOAMIntegrtyKey".
Definition keyEncryptionLabel : list Z := bytesOf "KeyEncryptionKey".
Definition sessionKeyLabel : list Z := bytesOf "SessionK".

Record Keys := mkKeys {
  ks_MSK : list Z;
  ks_Session : list Z;
  ks_OMCI : list Z;
  ks_PLOAM : list Z;
  ks_KEK : list Z
}.

Inductive SecurityError :=
| BadLength
| BadDirection
| EmptyContent
| CipherFailed
| MICMismatch.

(** [len(value) != size]. *)
Definition hasSize (value : list Z) (size : Z) : bool := Z.of_nat (length value) =? size.

(** [copy] of a slice into an array of [size] zero bytes. *)
Definition copyArray (size : Z) (value : list Z) : list Z :=
  take (Z.to_nat size) (value ++ repeat 0 (Z.to_nat size)).

Definition validateDirection (direction : Z) : Res SecurityError unit :=
  guard_err (negb (direction =? Downstream) && negb (direction =? Upstream)) BadDirection.

Section security.
Context {C : CMAC}.

Definition sum (key message : list Z) (size : Z) : Res SecurityError (list Z) :=
  _ ← guard_err (negb (hasSize key KeySize)) BadLength;
  match cmacSum key message size with
  | Some tag => Ok tag
  | None => Err CipherFailed
  end.

Definition sum128 (key message : list Z) : Res SecurityError (list Z) :=
  tag ← sum key message KeySize;
  Ok (copyArray KeySize tag).

Definition DefaultPLOAMKey : list Z := defaultKey.

Definition DeriveSharedKeys (msk serial ponTag : list Z) : Res SecurityError Keys :=
  _ ← guard_err (negb (hasSize msk KeySize)) BadLength;
  _ ← guard_err (negb (hasSize serial SerialSize)) BadLength;
  _ ← guard_err (negb (hasSize ponTag PONTagSize)) BadLength;
  let msk := copyArray KeySize msk in
  session ← sum128 msk (serial ++ ponTag ++ sessionKeyLabel);
  omci ← sum128 session omciIntegrityLabel;
  ploam ← sum128 session ploamIntegrityLabel;
  kek ← sum128 session keyEncryptionLabel;
  Ok (mkKeys msk session omci ploam kek).

Definition DeriveRegistrationKeys (registrationID serial ponTag : list Z) : Res SecurityError Keys :=
  _ ← guard_err (negb (hasSize registrationID RegistrationSize)) BadLength;
  msk ← sum128 defaultKey registrationID;
  DeriveSharedKeys msk serial ponTag.

Definition PLOAMMIC (key : list Z) (direction : Z) (content : list Z) : Res SecurityError (list Z) :=
  _ ← validateDirection direction;
  _ ← guard_err (negb (hasSize content PLOAMContentSize)) BadLength;
  tag ← sum key (direction :: content) PLOAMMICSize;
  Ok (copyArray PLOAMMICSize tag).

Definition VerifyPLOAM (key : list Z) (direction : Z) (frame : list Z) : Res SecurityError unit :=
  _ ← guard_err (negb (hasSize frame PLOAMSize)) BadLength;
  expected ← PLOAMMIC key direction (take (Z.to_nat PLOAMContentSize) frame);
  guard_err (negb (bool_decide (expected = drop (Z.to_nat PLOAMContentSize) frame))) MICMismatch.

Definition OMCIMIC (key : list Z) (direction : Z) (content : list Z) : Res SecurityError (list Z) :=
  _ ← validateDirection direction;
  _ ← guard_err (bool_decide (content = [])) EmptyContent;
  tag ← sum key (direction :: content) OMCIMICSize;
  Ok (copyArray OMCIMICSize tag).

Definition VerifyOMCI (key : list Z) (direction : Z) (frame : list Z) : Res SecurityError unit :=
  _ ← guard_err (Z.of_nat (length frame) <=? OMCIMICSize) BadLength;
  let content := take (length frame - Z.to_nat OMCIMICSize) frame in
  expected ← OMCIMIC key direction content;
  guard_err (negb (bool_decide (expected = drop (length content) frame))) MICMismatch.

(** ** Properties *)

Lemma copyArray_id size tag : Z.of_nat (length tag) = size → copyArray size tag = tag.
Proof. intros <-. unfold copyArray. rewrite Nat2Z.id. by rewrite take_app_length. Qed.

Lemma sum_Ok key message size tag : sum key message size = Ok tag → length key = 16%nat ∧ Z.of_nat (length tag) = size.
Proof.
  unfold sum, hasSize, KeySize. destruct (Z.eqb_spec (Z.of_nat (length key)) 16) as [Hk|]; [|done]. cbn [negb guard_err mbind Res_bind].
  destruct (cmacSum key message size) eqn:Ht; [|done]. intros [= <-]. split; [lia|by eapply cmacSum_length].
Qed.

Lemma sum_some key message size : length key = 16%nat → 1 ≤ size ≤ 16 → ∃ tag, sum key message size = Ok tag.
Proof.
  intros Hk Hs. unfold sum, hasSize, KeySize. rewrite Hk. cbn.
  destruct (cmacSum_some key message size Hk Hs) as [tag ->]. by exists tag.
Qed.

Lemma sum128_some key message : length key = 16%nat → ∃ tag, sum128 key message = Ok tag ∧ length tag = 16%nat.
Proof.
  intros Hk. unfold sum128. destruct (sum_some key message 16 Hk ltac:(lia)) as [tag Ht]. unfold KeySize. rewrite Ht.
  apply sum_Ok in Ht as [_ Hl]. exists tag. cbn [mbind Res_bind]. rewrite copyArray_id by done. split; [done|lia].
Qed.

Lemma validateDirection_Ok direction : validateDirection direction = Ok tt ↔ direction = Downstream ∨ direction = Upstream.
Proof.
  unfold validateDirection, guard_err. destruct (Z.eqb_spec direction Downstream), (Z.eqb_spec direction Upstream);
    cbn; naive_solver.
Qed.

(** The integrity code of an OMCI frame, where it has one. *)
Lemma OMCIMIC_Ok key direction content mic :
  OMCIMIC key direction content = Ok mic ↔
  (direction = Downstream ∨ direction = Upstream) ∧ content ≠ [] ∧ length key = 16%nat ∧
  cmacSum key (direction :: content) 4 = Some mic.
Proof.
  unfold OMCIMIC. rewrite <- validateDirection_Ok.
  destruct (validateDirection direction) as [[]|]; [|naive_solver]. cbn [mbind Res_bind]. unfold OMCIMICSize.
  case_bool_decide as Hc; cbn; [naive_solver|]. unfold sum, hasSize, KeySize.
  destruct (Z.eqb_spec (Z.of_nat (length key)) 16) as [Hk|Hk]; cbn; [|split; [done|intros (_ & _ & ? & _); lia]].
  destruct (cmacSum key (direction :: content) 4) as [tag|] eqn:Ht; cbn; [|naive_solver].
  rewrite copyArray_id by (by eapply cmacSum_length). split; [intros [= ->]; split_and!; [done|done|lia|done]|].
  by intros (_ & _ & _ & [= ->]).
Qed.

Lemma PLOAMMIC_Ok key direction content mic :
  PLOAMMIC key direction content = Ok mic ↔
  (direction = Downstream ∨ direction = Upstream) ∧ length content = 40%nat ∧ length key = 16%nat ∧
  cmacSum key (direction :: content) 8 = Some mic.
Proof.
  unfold PLOAMMIC. rewrite <- validateDirection_Ok.
  destruct (validateDirection direction) as [[]|]; [|naive_solver]. cbn [mbind Res_bind]. unfold PLOAMMICSize, hasSize, PLOAMContentSize.
  destruct (Z.eqb_spec (Z.of_nat (length content)) 40) as [Hc|Hc]; cbn; [|split; [done|intros (_ & ? & _); lia]].
  unfold sum, hasSize, KeySize.
  destruct (Z.eqb_spec (Z.of_nat (length key)) 16) as [Hk|Hk]; cbn; [|split; [done|intros (_ & _ & ? & _); lia]].
  destruct (cmacSum key (direction :: content) 8) as [tag|] eqn:Ht; cbn; [|naive_solver].
  rewrite copyArray_id by (by eapply cmacSum_length). split; [intros [= ->]; split_and!; [done|lia|lia|done]|].
  by intros (_ & _ & _ & [= ->]).
Qed.

Lemma verify_tag (content expected frame : list Z) :
  take (length content) frame = content →
  guard_err (negb (bool_decide (expected = drop (length content) frame))) MICMismatch = Ok tt ↔ frame = content ++ expected.
Proof.
  intros Ht. rewrite guard_err_iff, negb_false_iff, bool_decide_eq_true.
  pose proof (take_drop (length content) frame) as Hf. rewrite Ht in Hf. split.
  - by intros ->.
  - intros ->. by rewrite drop_app_length.
Qed.

Lemma VerifyOMCI_exact key direction frame :
  VerifyOMCI key direction frame = Ok tt ↔
  ∃ content mic, frame = content ++ mic ∧ OMCIMIC key direction content = Ok mic.
Proof.
  unfold VerifyOMCI, OMCIMICSize. split.
  - intros H. apply guard_err_bind_Ok in H as [Hl%Z.leb_gt H]. apply Res_bind_Ok in H as (mic & Hm & H).
    change (Z.to_nat 4) with 4%nat in *. set (content := take (length frame - 4) frame) in *.
    exists content, mic. split; [|done]. apply verify_tag in H; [done|].
    unfold content. rewrite length_take. by rewrite Nat.min_l by lia.
  - intros (content & mic & -> & Hm). pose proof Hm as (_ & Hc & _ & Ht)%OMCIMIC_Ok. apply cmacSum_length in Ht.
    rewrite length_app. destruct content as [|x content]; [done|]. cbn [length].
    apply guard_err_bind_Ok. split; [apply Z.leb_gt; lia|]. change (Z.to_nat 4) with 4%nat.
    replace (take (S (length content) + length mic - 4) ((x :: content) ++ mic)) with (x :: content).
    + rewrite Hm. cbn [mbind Res_bind]. by apply verify_tag; [rewrite take_app_length|].
    + rewrite take_app_le by (cbn [length]; lia). rewrite take_ge; [done|cbn [length]; lia].
Qed.

Lemma VerifyPLOAM_exact key direction frame :
  VerifyPLOAM key direction frame = Ok tt ↔
  ∃ content mic, frame = content ++ mic ∧ PLOAMMIC key direction content = Ok mic.
Proof.
  unfold VerifyPLOAM, PLOAMSize, PLOAMContentSize, hasSize. change (Z.to_nat 40) with 40%nat. split.
  - intros H. apply guard_err_bind_Ok in H as [Hl%negb_false_iff%Z.eqb_eq H]. apply Res_bind_Ok in H as (mic & Hm & H).
    exists (take 40 frame), mic. split; [|done].
    assert (length (take 40 frame) = 40%nat) as H40 by (rewrite length_take; lia).
    apply (verify_tag (take 40 frame)); [by rewrite H40|]. by rewrite H40.
  - intros (content & mic & -> & Hm). pose proof Hm as (_ & Hc & _ & Ht)%PLOAMMIC_Ok. apply cmacSum_length in Ht.
    rewrite length_app, Hc. apply guard_err_bind_Ok. split; [apply negb_false_iff, Z.eqb_eq; lia|].
    rewrite <- Hc, take_app_length, Hm. cbn [mbind Res_bind]. by apply verify_tag; [rewrite take_app_length|].
Qed.

Lemma DeriveSharedKeys_Ok msk serial ponTag :
  length msk = 16%nat → length serial = 8%nat → length ponTag = 8%nat →
  ∃ keys, DeriveSharedKeys msk serial ponTag = Ok keys ∧ length (ks_OMCI keys) = 16%nat ∧ length (ks_PLOAM keys) = 16%nat.
Proof.
  intros H1 H2 H3. unfold DeriveSharedKeys, hasSize, KeySize, SerialSize, PONTagSize. rewrite H1, H2, H3.
  cbn [negb Z.eqb Z.of_nat Pos.of_succ_nat Pos.succ Pos.eqb guard_err mbind Res_bind]. cbv zeta.
  rewrite copyArray_id by lia.
  destruct (sum128_some msk (serial ++ ponTag ++ sessionKeyLabel) H1) as (session & -> & Hs). cbn [mbind Res_bind].
  destruct (sum128_some session omciIntegrityLabel Hs) as (omci & -> & Ho). cbn [mbind Res_bind].
  destruct (sum128_some session ploamIntegrityLabel Hs) as (ploam & -> & Hp). cbn [mbind Res_bind].
  destruct (sum128_some session keyEncryptionLabel Hs) as (kek & -> & _). cbn [mbind Res_bind].
  by eexists.
Qed.

Lemma DeriveRegistrationKeys_Ok registrationID serial ponTag :
  length registrationID = 36%nat → length serial = 8%nat → length ponTag = 8%nat →
  ∃ keys, DeriveRegistrationKeys registrationID serial ponTag = Ok keys ∧
    length (ks_OMCI keys) = 16%nat ∧ length (ks_PLOAM keys) = 16%nat.
Proof.
  intros H1 H2 H3. unfold DeriveRegistrationKeys, hasSize, RegistrationSize. rewrite H1.
  cbn [negb Z.eqb Z.of_nat Pos.of_succ_nat Pos.succ Pos.eqb guard_err mbind Res_bind].
  destruct (sum128_some defaultKey registrationID eq_refl) as (msk & -> & Hm). cbn [mbind Res_bind].
  by apply DeriveSharedKeys_Ok.
Qed.

Lemma DeriveRegistrationKeys_sizes registrationID serial ponTag keys :
  DeriveRegistrationKeys registrationID serial ponTag = Ok keys →
  length registrationID = 36%nat ∧ length serial = 8%nat ∧ length ponTag = 8%nat.
Proof.
  unfold DeriveRegistrationKeys, DeriveSharedKeys, hasSize, RegistrationSize, SerialSize, PONTagSize. intros H.
  apply guard_err_bind_Ok in H as [H1%negb_false_iff%Z.eqb_eq H]. apply Res_bind_Ok in H as (msk & _ & H).
  apply guard_err_bind_Ok in H as [_ H]. apply guard_err_bind_Ok in H as [H2%negb_false_iff%Z.eqb_eq H].
  apply guard_err_bind_Ok in H as [H3%negb_false_iff%Z.eqb_eq _]. lia.
Qed.

(** A frame is accepted exactly when it is a content followed by its own integrity code: of OMCI, a
    content that is not empty and 4 bytes; of PLOAM, 40 bytes and 8 bytes.  And with parameters of
    the right sizes the keys are always derived, each of 16 bytes, so that with them every content
    has its code. *)
Theorem mic_exact :
  (∀ key direction frame, VerifyOMCI key direction frame = Ok tt ↔
     ∃ content mic, frame = content ++ mic ∧ OMCIMIC key direction content = Ok mic) ∧
  (∀ key direction frame, VerifyPLOAM key direction frame = Ok tt ↔
     ∃ content mic, frame = content ++ mic ∧ PLOAMMIC key direction content = Ok mic) ∧
  (∀ registrationID serial ponTag,
     (∃ keys, DeriveRegistrationKeys registrationID serial ponTag = Ok keys) ↔
     length registrationID = 36%nat ∧ length serial = 8%nat ∧ length ponTag = 8%nat) ∧
  (∀ registrationID serial ponTag keys direction content,
     DeriveRegistrationKeys registrationID serial ponTag = Ok keys → direction = Downstream ∨ direction = Upstream →
     (content ≠ [] → ∃ mic, OMCIMIC (ks_OMCI keys) direction content = Ok mic) ∧
     (length content = 40%nat → ∃ mic, PLOAMMIC (ks_PLOAM keys) direction content = Ok mic)).
Proof.
  split; [apply VerifyOMCI_exact|split; [apply VerifyPLOAM_exact|split]].
  - intros registrationID serial ponTag. split.
    + intros [keys Hk]. by eapply DeriveRegistrationKeys_sizes.
    + intros (H1 & H2 & H3). destruct (DeriveRegistrationKeys_Ok _ _ _ H1 H2 H3) as (keys & Hk & _). by exists keys.
  - intros registrationID serial ponTag keys direction content Hk Hd.
    destruct (DeriveRegistrationKeys_sizes _ _ _ _ Hk) as (H1 & H2 & H3).
    destruct (DeriveRegistrationKeys_Ok _ _ _ H1 H2 H3) as (keys' & Hk' & Ho & Hp).
    assert (keys' = keys) as -> by congruence. split; intros Hc.
    + destruct (cmacSum_some (ks_OMCI keys) (direction :: content) 4 Ho ltac:(lia)) as [mic Hm].
      exists mic. by apply OMCIMIC_Ok.
    + destruct (cmacSum_some (ks_PLOAM keys) (direction :: content) 8 Hp ltac:(lia)) as [mic Hm].
      exists mic. by apply PLOAMMIC_Ok.
Qed.
End security.

(** A function with the laws of the interface. *)
Definition sampleCMAC : CMAC.
Proof.
  refine {| cmacSum key message size :=
    if (length key =? 16)%nat && (1 <=? size) && (size <=? 16)
    then Some (map (λ i, (foldr Z.add 0 message + Z.of_nat i) mod 256) (seq 0 (Z.to_nat size))) else None |}.
  - intros key message size tag. destruct (_ && _) eqn:Hc; [|done]. intros [= <-].
    rewrite length_map, length_seq. rewrite !andb_true_iff in Hc. lia.
  - intros key message size -> Hs. destruct (_ && _) eqn:Hc; [by eexists|].
    rewrite !andb_false_iff in Hc. cbn in Hc. lia.
Defined.

(** A frame with the code of its content is accepted, the same frame the other way is not. *)
Lemma mic_exact_witness :
  let key := repeat 7 16 in
  let frame := [1; 2; 3] ++ [7; 8; 9; 10] in
  @VerifyOMCI sampleCMAC key Downstream frame = Ok tt ∧ @VerifyOMCI sampleCMAC key Upstream frame = Err MICMismatch.
Proof.
  intros key frame. split; [|vm_compute; reflexivity].
  apply (proj1 (@mic_exact sampleCMAC)). exists [1; 2; 3], [7; 8; 9; 10]. split; [reflexivity|vm_compute; reflexivity].
Defined.
