(* ===== verification/Transport.v ===== *)
(** * Transport: the secure OMCC device records ([internal/transport])

    [device.go] frames OMCI contents for the XGS-PON character device; [packet_linux.go] carries
    bare frames on the [omci] netdev.  System calls are not modelled: the functions here are what
    runs on the bytes the calls return. *)

From S2P Require Import Prelude.

Definition MaxFrameSize : nat := 1980.
Definition MaxDeviceContentSize : nat := MaxFrameSize - 4.

Record Frame := mkFrame {
  Contents : list Z;
  MICVerified : bool;
  InstanceGeneration : Z;
  SessionGeneration : Z
}.

Record Capabilities := mkCapabilities {
  VerifiedDownstreamMIC : bool;
  SignedUpstreamMIC : bool
}.

Definition SecureOMCC (c : Capabilities) : bool :=
  VerifiedDownstreamMIC c && SignedUpstreamMIC c.

Definition deviceABIVersion : Z := 3.
Definition deviceMagic : Z := 0x584f4d43.
Definition deviceHeaderSize : nat := 28.
Definition deviceDirectionRX : Z := 1.
Definition deviceDirectionTX : Z := 2.
Definition deviceFlagMICVerified : Z := Z.shiftl 1 0.
Definition deviceFlagTrailerStripped : Z := Z.shiftl 1 1.
Definition deviceInfoVersionMask : Z := 0xff.
Definition deviceInfoVerifiedDownstream : Z := Z.shiftl 1 8.
Definition deviceInfoSignedUpstream : Z := Z.shiftl 1 9.
Definition deviceInfoAllowed : Z :=
  Z.lor (Z.lor deviceInfoVersionMask deviceInfoVerifiedDownstream) deviceInfoSignedUpstream.

(** One constructor per [fmt.Errorf] of [device.go]. *)
Inductive DeviceError :=
| UnsupportedABIVersion (version : Z)
| UnknownCapabilities (info : Z)
| LacksRequiredCapabilities (info : Z)
| ShortRecord (n : nat)
| InvalidMagic
| UnsupportedRecordVersion (version : Z)
| InvalidDirection (direction : Z)
| UntrustedFlags (flags : Z)
| ReservedFieldNonZero
| InvalidRecordLength (length : Z) (record : nat)
| InvalidFrameLength (n : nat).

Definition parseDeviceInfo (info : Z) : Res DeviceError Capabilities :=
  let version := Z.land info deviceInfoVersionMask in
  _ ← guard_err (negb (version =? deviceABIVersion)) (UnsupportedABIVersion version);
  _ ← guard_err (negb (Z.land info (Z.lxor deviceInfoAllowed 0xffffffff) =? 0))
        (UnknownCapabilities info);
  let capabilities :=
    mkCapabilities (negb (Z.land info deviceInfoVerifiedDownstream =? 0))
                   (negb (Z.land info deviceInfoSignedUpstream =? 0)) in
  _ ← guard_err (negb (SecureOMCC capabilities)) (LacksRequiredCapabilities info);
  Ok capabilities.

Definition decodeDeviceRX (record : list Z) : Res DeviceError Frame :=
  _ ← guard_err (length record <? deviceHeaderSize)%nat (ShortRecord (length record));
  _ ← guard_err (negb (Uint32 record 0 =? deviceMagic)) InvalidMagic;
  _ ← guard_err (negb (nth8 record 4 =? deviceABIVersion)) (UnsupportedRecordVersion (nth8 record 4));
  _ ← guard_err (negb (nth8 record 5 =? deviceDirectionRX)) (InvalidDirection (nth8 record 5));
  let flags := Uint16 record 6 in
  let wantFlags := u16 (Z.lor deviceFlagMICVerified deviceFlagTrailerStripped) in
  _ ← guard_err (negb (flags =? wantFlags)) (UntrustedFlags flags);
  let len := Uint16 record 8 in
  _ ← guard_err (negb (Uint16 record 10 =? 0)) ReservedFieldNonZero;
  _ ← guard_err ((len <? 4) || (Z.of_nat MaxDeviceContentSize <? len)
                 || negb (Z.of_nat (length record) =? Z.of_nat deviceHeaderSize + len))
        (InvalidRecordLength len (length record));
  Ok (mkFrame (drop deviceHeaderSize record) true (Uint64 record 12) (Uint64 record 20)).

(** [record] starts as [make([]byte, deviceHeaderSize+len(frame))], all zero. *)
Definition encodeDeviceTX (frame : list Z) : Res DeviceError (list Z) :=
  _ ← guard_err ((length frame <? 4) || (MaxDeviceContentSize <? length frame))%nat
        (InvalidFrameLength (length frame));
  let record := replicate (deviceHeaderSize + length frame) 0 in
  let record := put_at record 0 (put_be 4 deviceMagic) in
  let record := put_at record 4 [deviceABIVersion] in
  let record := put_at record 5 [deviceDirectionTX] in
  let record := put_at record 8 (put_be 2 (u16 (Z.of_nat (length frame)))) in
  let record := put_at record deviceHeaderSize frame in
  Ok record.

(** [packet_linux.go]: the length checks of [ReadFrame] and [WriteFrame], and [htons]. *)
Definition packetReadFrame (received : list Z) : Res DeviceError Frame :=
  _ ← guard_err (MaxFrameSize <? length received)%nat (InvalidFrameLength (length received));
  Ok (mkFrame received false 0 0).

Definition packetWriteFrame (frame : list Z) : Res DeviceError (list Z) :=
  _ ← guard_err ((length frame <? 4) || (MaxFrameSize <? length frame))%nat
        (InvalidFrameLength (length frame));
  Ok frame.

Definition htons (value : Z) : Z := Z.lor (u16 (Z.shiftl value 8)) (Z.shiftr value 8).

(** ** Specification

    The record the trusted driver writes for a received frame: the layout of the 28-byte header
    followed by the contents. *)
Definition rx_record (f : Frame) : list Z :=
  put_be 4 deviceMagic ++ [deviceABIVersion] ++ [deviceDirectionRX] ++ put_be 2 3 ++
  put_be 2 (Z.of_nat (length (Contents f))) ++ put_be 2 0 ++
  put_be 8 (InstanceGeneration f) ++ put_be 8 (SessionGeneration f) ++ Contents f.

(** The frames such a record can carry. *)
Definition rx_frame_ok (f : Frame) : Prop :=
  (4 ≤ length (Contents f) ≤ MaxDeviceContentSize)%nat ∧ MICVerified f = true ∧
  is_u 64 (InstanceGeneration f) ∧ is_u 64 (SessionGeneration f).

(** ** Properties *)

Lemma rx_record_length f : length (rx_record f) = (28 + length (Contents f))%nat.
Proof. unfold rx_record. rewrite !length_app, !length_put_be. cbn. lia. Qed.

Lemma decode_rx_record f : rx_frame_ok f → decodeDeviceRX (rx_record f) = Ok f.
Proof.
  intros (Hlen & Hmic & Hi & Hs). unfold MaxDeviceContentSize, MaxFrameSize in Hlen.
  unfold decodeDeviceRX. cbv zeta. rewrite rx_record_length.
  assert (Uint32 (rx_record f) 0 = deviceMagic) as -> by done.
  assert (nth8 (rx_record f) 4 = deviceABIVersion) as -> by done.
  assert (nth8 (rx_record f) 5 = deviceDirectionRX) as -> by done.
  assert (Uint16 (rx_record f) 6 = 3) as -> by done.
  assert (Uint16 (rx_record f) 8 = Z.of_nat (length (Contents f))) as ->.
  { unfold Uint16, rx_record. read_field. apply be_put_be_small. unfold is_u. lia. }
  assert (Uint16 (rx_record f) 10 = 0) as -> by done.
  assert (Uint64 (rx_record f) 12 = InstanceGeneration f) as ->.
  { unfold Uint64, rx_record. read_field. by apply be_put_be_small. }
  assert (Uint64 (rx_record f) 20 = SessionGeneration f) as ->.
  { unfold Uint64, rx_record. read_field. by apply be_put_be_small. }
  assert (drop deviceHeaderSize (rx_record f) = Contents f) as ->.
  { unfold deviceHeaderSize, rx_record. read_field. done. }
  rewrite (proj2 (Nat.ltb_ge _ _)) by (change deviceHeaderSize with 28%nat; lia).
  destruct (_ || _) eqn:E.
  - unfold MaxDeviceContentSize, MaxFrameSize, deviceHeaderSize in E. lia.
  - destruct f as [c m i s]. cbn in *. by subst m.
Qed.

(** The receive decoder accepts exactly the records the driver's layout produces, and recovers
    the contents and both generations; everything else (short, foreign magic or version, wrong
    direction, unverified, non-zero reserved field, length mismatch) is rejected. *)
Theorem decodeDeviceRX_spec record f (Hok : bytes_ok record) :
  decodeDeviceRX record = Ok f ↔ rx_frame_ok f ∧ record = rx_record f.
Proof.
  split; [|by intros [? ->]; apply decode_rx_record].
  unfold decodeDeviceRX. rewrite !guard_err_bind_Ok.
  intros (Hshort & Hmagic & Hver & Hdir & Hflags & Hres & Hlen & [= <-]).
  unfold MaxDeviceContentSize, MaxFrameSize, deviceHeaderSize in *.
  change (u16 (Z.lor deviceFlagMICVerified deviceFlagTrailerStripped)) with 3 in Hflags.
  assert (28 ≤ length record)%nat as Hlo by lia.
  split.
  - unfold rx_frame_ok; cbn. rewrite length_drop.
    split; [unfold MaxDeviceContentSize, MaxFrameSize; lia|]. split; [done|].
    split; apply (be_is_u _ 8); rewrite ?length_slice by lia; (lia || by apply bytes_ok_slice).
  - unfold rx_record; cbn [Contents InstanceGeneration SessionGeneration]. rewrite length_drop.
    rewrite <- (drop_0 record) at 1.
    rewrite (cut record 0 4), (cut record 4 5), (cut record 5 6), (cut record 6 8), (cut record 8 10),
      (cut record 10 12), (cut record 12 20), (cut record 20 28) by lia.
    rewrite (slice_one record 4 5), (slice_one record 5 6) by lia.
    rewrite (put_be_read record 0 4 4 deviceMagic), (put_be_read record 6 8 2 3),
      (put_be_read record 8 10 2 (Z.of_nat (length record - 28))), (put_be_read record 10 12 2 0),
      (put_be_read record 12 20 8 (Uint64 record 12)), (put_be_read record 20 28 8 (Uint64 record 20))
      by (done || lia || (unfold Uint16, Uint32, Uint64 in *; cbn [Nat.add] in *; lia)).
    assert (nth8 record 4 = deviceABIVersion) as -> by lia.
    assert (nth8 record 5 = deviceDirectionRX) as -> by lia.
    done.
Qed.

Lemma decodeDeviceRX_spec_witness :
  let f := mkFrame [128; 1; 41; 10; 170] true 7 9 in
  decodeDeviceRX (rx_record f) = Ok f ↔ rx_frame_ok f ∧ rx_record f = rx_record f.
Proof. apply decodeDeviceRX_spec. by_decide. Defined.

(** A frame encoded for transmission carries the contents after a 28-byte header with the
    magic, version, transmit direction and exact length, zero flags, reserved field and
    generations; frames shorter than 4 or longer than 1976 bytes are refused. *)
Theorem encodeDeviceTX_layout frame :
  encodeDeviceTX frame =
    if decide (4 ≤ length frame ≤ MaxDeviceContentSize)%nat
    then Ok (put_be 4 deviceMagic ++ [deviceABIVersion] ++ [deviceDirectionTX] ++ put_be 2 0 ++
             put_be 2 (Z.of_nat (length frame)) ++ put_be 2 0 ++ put_be 8 0 ++ put_be 8 0 ++ frame)
    else Err (InvalidFrameLength (length frame)).
Proof.
  unfold encodeDeviceTX, guard_err. case_decide as Hlen;
    (destruct (_ || _)%bool eqn:E; [done || lia|try lia]).
  cbn [mbind Res_bind]. unfold MaxDeviceContentSize, MaxFrameSize in Hlen.
  rewrite replicate_add, wrap_small by (unfold is_u; lia).
  repeat (rewrite put_at_app_l by (apply Nat.leb_le; vm_compute; reflexivity)).
  rewrite put_at_tail by (rewrite ?length_replicate; reflexivity).
  rewrite !app_assoc. do 2 f_equal.
Qed.

(** The capability word of the secure device is accepted only when it is exactly version 3
    with both the verified-downstream and the signed-upstream bits and no other bit. *)
Theorem parseDeviceInfo_exact info c (Hinfo : is_u 32 info) :
  parseDeviceInfo info = Ok c ↔ info = 0x303 ∧ c = mkCapabilities true true.
Proof.
  split; [|by intros [-> ->]].
  unfold parseDeviceInfo. cbv zeta. rewrite !guard_err_bind_Ok. intros (Hv & Hu & Hs & [= <-]).
  assert (is_u 10 info) as H10.
  { apply (is_u_land_high 10 32); [done..|]. by apply negb_false_iff, Z.eqb_eq in Hu. }
  assert (info = 0x303) as ->; [|done]. clear Hu Hinfo.
  apply Z.eqb_eq.
  assert (Hall : ∀ i, is_u 10 i →
    implb (negb (negb (Z.land i deviceInfoVersionMask =? deviceABIVersion)) &&
           SecureOMCC (mkCapabilities (negb (Z.land i deviceInfoVerifiedDownstream =? 0))
                                      (negb (Z.land i deviceInfoSignedUpstream =? 0))))
          (i =? 0x303) = true).
  { apply (forall_u 10). vm_compute. done. }
  specialize (Hall info H10). apply negb_false_iff in Hs. by rewrite Hv, Hs in Hall.
Qed.

Lemma parseDeviceInfo_exact_witness :
  parseDeviceInfo 0x303 = Ok (mkCapabilities true true) ↔
  0x303 = 0x303 ∧ mkCapabilities true true = mkCapabilities true true.
Proof. apply parseDeviceInfo_exact. by_decide. Defined.
