(* ===== verification/Vlan.v ===== *)
(** * Vlan: the G.988 extended VLAN classification rows ([internal/vlan/rule.go])

    [ParseRow] decodes the 16-byte classic and the 28-byte enhanced row, [ParseRows] a whole table,
    [DecodeDSCPMapping] the 24-byte DSCP to priority map.  The main theorem relates the parser to
    the printed bit layout of the row, in both directions. *)

From S2P Require Import Prelude.

Definition ClassicRowSize : nat := 16.
Definition EnhancedRowSize : nat := 28.

Record TagFilter := mkTagFilter { tf_Priority : Z; tf_VID : Z; tf_TPIDDEI : Z }.
Record TagTreatment := mkTagTreatment { tt_Priority : Z; tt_VID : Z; tt_TPIDDEI : Z }.

Record Rule := mkRule {
  Order : Z;
  RowKey : Z;
  Direction : Z;
  FilterOuter : TagFilter;
  FilterInner : TagFilter;
  EtherType : Z;
  ExtendedCriteria : Z;
  TagsToRemove : Z;
  TreatmentOuter : TagTreatment;
  TreatmentInner : TagTreatment
}.

(** One constructor per [fmt.Errorf] of the file; the name argument is [outer] or [inner]. *)
Inductive VlanError :=
| TableLength (n rowSize : nat)
| AtRule (index : Z) (e : VlanError)
| RowLength (n rowSize : nat)
| StoredSetControl (control : Z)
| ReservedDirection
| HeaderReservedBits
| ReservedWords
| OuterFilterReserved
| OuterTreatmentReserved
| InnerTreatmentReserved
| FilterPriority (name : string) (v : Z)
| FilterVID (name : string) (v : Z)
| FilterTPID (name : string) (v : Z)
| ReservedEtherType (v : Z)
| ReservedCriteria (v : Z)
| TreatmentPriority (name : string) (v : Z)
| TreatmentVID (name : string) (v : Z)
| TreatmentTPID (name : string)
| DSCPLength (n : nat).

Definition decodeFilter (word : Z) : TagFilter :=
  mkTagFilter (u8 (Z.shiftr word 28))
              (Z.land (u16 (Z.shiftr word 15)) 0x1fff)
              (Z.land (u8 (Z.shiftr word 12)) 0x07).

Definition decodeTreatment (word : Z) : TagTreatment :=
  mkTagTreatment (Z.land (u8 (Z.shiftr word 16)) 0x0f)
                 (Z.land (u16 (Z.shiftr word 3)) 0x1fff)
                 (Z.land (u8 word) 0x07).

Definition validateFilter (name : string) (filter : TagFilter) : Res VlanError unit :=
  _ ← guard_err ((8 <? tf_Priority filter) && negb (tf_Priority filter =? 14)
                 && negb (tf_Priority filter =? 15)) (FilterPriority name (tf_Priority filter));
  _ ← guard_err ((tf_VID filter =? 4095) || (4096 <? tf_VID filter))
        (FilterVID name (tf_VID filter));
  guard_err (negb (tf_TPIDDEI filter =? 0) && (tf_TPIDDEI filter <? 4))
    (FilterTPID name (tf_TPIDDEI filter)).

Definition validateTreatment (name : string) (treatment : TagTreatment) : Res VlanError unit :=
  _ ← guard_err ((10 <? tt_Priority treatment) && negb (tt_Priority treatment =? 15))
        (TreatmentPriority name (tt_Priority treatment));
  _ ← guard_err ((tt_VID treatment =? 4095) || (4097 <? tt_VID treatment))
        (TreatmentVID name (tt_VID treatment));
  guard_err (tt_TPIDDEI treatment =? 5) (TreatmentTPID name).

(** The [if enhanced] block: the row's [Direction] and [RowKey], zero for a classic row. *)
Definition parseHeader (encoded : list Z) (enhanced : bool) : Res VlanError (Z * Z) :=
  if enhanced then
    let header := Uint32 encoded 0 in
    let control := u8 (Z.shiftr header 30) in
    _ ← guard_err (negb (control =? 0)) (StoredSetControl control);
    let direction := Z.land (u8 (Z.shiftr header 28)) 0x03 in
    _ ← guard_err (direction =? 3) ReservedDirection;
    _ ← guard_err (negb (Z.land header 0x0fff0000 =? 0)) HeaderReservedBits;
    _ ← guard_err (negb (Uint32 encoded 20 =? 0) || negb (Uint32 encoded 24 =? 0)) ReservedWords;
    Ok (direction, u16 header)
  else Ok (0, 0).

(** The rest of [ParseRow], on the four words of the row. *)
Definition parseWords (direction rowKey : Z)
    (outerFilter innerFilter outerTreatment innerTreatment : Z) : Res VlanError Rule :=
  _ ← guard_err (negb (Z.land outerFilter 0x00000fff =? 0)) OuterFilterReserved;
  _ ← guard_err (negb (Z.land outerTreatment 0x3ff00000 =? 0)) OuterTreatmentReserved;
  _ ← guard_err (negb (Z.land innerTreatment 0xfff00000 =? 0)) InnerTreatmentReserved;
  let rule := mkRule 0 rowKey direction (decodeFilter outerFilter) (decodeFilter innerFilter)
                (Z.land (u8 innerFilter) 0x0f) (Z.land (u8 (Z.shiftr innerFilter 4)) 0xff)
                (u8 (Z.shiftr outerTreatment 30))
                (decodeTreatment outerTreatment) (decodeTreatment innerTreatment) in
  _ ← validateFilter "outer" (FilterOuter rule);
  _ ← validateFilter "inner" (FilterInner rule);
  _ ← guard_err (5 <? EtherType rule) (ReservedEtherType (EtherType rule));
  _ ← guard_err (2 <? ExtendedCriteria rule) (ReservedCriteria (ExtendedCriteria rule));
  _ ← validateTreatment "outer" (TreatmentOuter rule);
  _ ← validateTreatment "inner" (TreatmentInner rule);
  Ok rule.

Definition ParseRow (encoded : list Z) (enhanced : bool) : Res VlanError Rule :=
  let rowSize := if enhanced then EnhancedRowSize else ClassicRowSize in
  let wordOffset := (if enhanced then 4 else 0)%nat in
  _ ← guard_err (negb (length encoded =? rowSize)%nat) (RowLength (length encoded) rowSize);
  '(direction, rowKey) ← parseHeader encoded enhanced;
  parseWords direction rowKey
    (Uint32 encoded wordOffset) (Uint32 encoded (wordOffset + 4))
    (Uint32 encoded (wordOffset + 8)) (Uint32 encoded (wordOffset + 12)).

Definition setOrder (rule : Rule) (order : Z) : Rule :=
  mkRule order (RowKey rule) (Direction rule) (FilterOuter rule) (FilterInner rule)
    (EtherType rule) (ExtendedCriteria rule) (TagsToRemove rule)
    (TreatmentOuter rule) (TreatmentInner rule).

(** The loop of [ParseRows]: row [index] starts at [index * rowSize]; [fuel] rows remain. *)
Fixpoint parseRowsFrom (fuel index rowSize : nat) (encoded : list Z) (enhanced : bool)
    : Res VlanError (list Rule) :=
  match fuel with
  | O => Ok []
  | S fuel' =>
      match ParseRow (slice encoded (index * rowSize) (index * rowSize + rowSize)) enhanced with
      | Err e => Err (AtRule (Z.of_nat index) e)
      | Ok rule =>
          rules ← parseRowsFrom fuel' (S index) rowSize encoded enhanced;
          Ok (setOrder rule (u16 (Z.of_nat index)) :: rules)
      end
  end.

Definition ParseRows (encoded : list Z) (enhanced : bool) : Res VlanError (list Rule) :=
  let rowSize := if enhanced then EnhancedRowSize else ClassicRowSize in
  _ ← guard_err (negb (length encoded mod rowSize =? 0)%nat) (TableLength (length encoded) rowSize);
  parseRowsFrom (length encoded / rowSize) 0 rowSize encoded enhanced.

(** [DecodeDSCPMapping]: bit [position] of the 24 bytes, most significant first. *)
Definition dscpBit (encoded : list Z) (position : nat) : Z :=
  Z.land (Z.shiftr (nth8 encoded (position / 8)) (Z.of_nat (7 - position mod 8))) 1.

Definition dscpEntry (encoded : list Z) (dscp : nat) : Z :=
  let bit := (dscp * 3)%nat in
  foldl (λ acc index, Z.lor (u8 (Z.shiftl acc 1)) (dscpBit encoded (bit + index))) 0 [0; 1; 2]%nat.

Definition DecodeDSCPMapping (encoded : list Z) : Res VlanError (list Z) :=
  _ ← guard_err (negb (length encoded =? 24)%nat) (DSCPLength (length encoded));
  Ok (map (dscpEntry encoded) (seq 0 64)).

(** ** Specification: the printed layout of a row *)

Definition filterWord (f : TagFilter) (low : Z) : Z :=
  tf_Priority f * 2 ^ 28 + tf_VID f * 2 ^ 15 + tf_TPIDDEI f * 2 ^ 12 + low.

Definition treatmentWord (t : TagTreatment) (remove : Z) : Z :=
  remove * 2 ^ 30 + tt_Priority t * 2 ^ 16 + tt_VID t * 2 ^ 3 + tt_TPIDDEI t.

Definition classicWords (r : Rule) : list Z :=
  put_be 4 (filterWord (FilterOuter r) 0) ++
  put_be 4 (filterWord (FilterInner r) (ExtendedCriteria r * 2 ^ 4 + EtherType r)) ++
  put_be 4 (treatmentWord (TreatmentOuter r) (TagsToRemove r)) ++
  put_be 4 (treatmentWord (TreatmentInner r) 0).

Definition encodeRow (r : Rule) (enhanced : bool) : list Z :=
  if enhanced
  then put_be 4 (Direction r * 2 ^ 28 + RowKey r) ++ classicWords r ++ put_be 4 0 ++ put_be 4 0
  else classicWords r.

Definition filter_ok (f : TagFilter) : Prop :=
  (0 ≤ tf_Priority f ≤ 8 ∨ tf_Priority f = 14 ∨ tf_Priority f = 15) ∧
  0 ≤ tf_VID f ≤ 4096 ∧ tf_VID f ≠ 4095 ∧
  (tf_TPIDDEI f = 0 ∨ 4 ≤ tf_TPIDDEI f ≤ 7).

Definition treatment_ok (t : TagTreatment) : Prop :=
  (0 ≤ tt_Priority t ≤ 10 ∨ tt_Priority t = 15) ∧
  0 ≤ tt_VID t ≤ 4097 ∧ tt_VID t ≠ 4095 ∧
  0 ≤ tt_TPIDDEI t ≤ 7 ∧ tt_TPIDDEI t ≠ 5.

(** The rules a row can carry; [Order] is assigned by [ParseRows]. *)
Definition rule_ok (r : Rule) (enhanced : bool) : Prop :=
  Order r = 0 ∧
  (if enhanced then is_u 16 (RowKey r) ∧ 0 ≤ Direction r ≤ 2 else RowKey r = 0 ∧ Direction r = 0) ∧
  filter_ok (FilterOuter r) ∧ filter_ok (FilterInner r) ∧
  0 ≤ EtherType r ≤ 5 ∧ 0 ≤ ExtendedCriteria r ≤ 2 ∧ 0 ≤ TagsToRemove r ≤ 3 ∧
  treatment_ok (TreatmentOuter r) ∧ treatment_ok (TreatmentInner r).

#[export] Instance filter_ok_dec f : Decision (filter_ok f).
Proof. unfold filter_ok. apply _. Defined.
#[export] Instance treatment_ok_dec t : Decision (treatment_ok t).
Proof. unfold treatment_ok. apply _. Defined.
#[export] Instance rule_ok_dec r e : Decision (rule_ok r e).
Proof. unfold rule_ok. destruct e; apply _. Defined.

(** ** Bit fields of the words *)

(** Rewrites every shift and mask of the parser into division and remainder. *)
Ltac fields_to_arith :=
  unfold decodeFilter, decodeTreatment, wrap in *;
  rewrite ?(land_mask 13 0x1fff), ?(land_mask 3 0x07), ?(land_mask 4 0x0f), ?(land_mask 8 0xff),
    ?(land_mask 2 0x03), ?(land_field_zero 12 0 0xfff), ?(land_field_zero 10 20 0x3ff00000),
    ?(land_field_zero 12 20 0xfff00000), ?(land_field_zero 12 16 0x0fff0000),
    ?Z.shiftr_div_pow2 in * by (done || reflexivity).

Lemma decodeFilter_word f low :
  filter_ok f → 0 ≤ low < 4096 →
  decodeFilter (filterWord f low) = f ∧ filterWord f low mod 4096 = low ∧ is_u 32 (filterWord f low).
Proof.
  destruct f as [p v t]. unfold filter_ok, filterWord, is_u. cbn [tf_Priority tf_VID tf_TPIDDEI].
  intros. fields_to_arith. split_and!; [f_equal|..]; lia.
Qed.

Lemma decodeTreatment_word t r :
  treatment_ok t → 0 ≤ r ≤ 3 →
  decodeTreatment (treatmentWord t r) = t ∧ treatmentWord t r / 2 ^ 30 = r ∧
  (treatmentWord t r / 2 ^ 20) mod 2 ^ 10 = 0 ∧ is_u 32 (treatmentWord t r).
Proof.
  destruct t as [p v d]. unfold treatment_ok, treatmentWord, is_u. cbn [tt_Priority tt_VID tt_TPIDDEI].
  intros. fields_to_arith. split_and!; [f_equal|..]; lia.
Qed.

Lemma filterWord_decode w : is_u 32 w → filterWord (decodeFilter w) (w mod 4096) = w.
Proof. unfold filterWord, is_u. intros. fields_to_arith. cbn [tf_Priority tf_VID tf_TPIDDEI]. lia. Qed.

Lemma treatmentWord_decode w :
  is_u 32 w → (w / 2 ^ 20) mod 2 ^ 10 = 0 → treatmentWord (decodeTreatment w) (w / 2 ^ 30) = w.
Proof.
  unfold treatmentWord, is_u. intros. fields_to_arith. cbn [tt_Priority tt_VID tt_TPIDDEI]. lia.
Qed.

Lemma validateFilter_ok name f :
  0 ≤ tf_Priority f < 16 → 0 ≤ tf_VID f < 2 ^ 13 → 0 ≤ tf_TPIDDEI f < 8 →
  ∀ u, validateFilter name f = Ok u ↔ filter_ok f.
Proof.
  intros Hp Hv Ht u. unfold validateFilter, filter_ok.
  rewrite !guard_err_bind_Ok, guard_err_iff. lia.
Qed.

Lemma validateTreatment_ok name t :
  0 ≤ tt_Priority t < 16 → 0 ≤ tt_VID t < 2 ^ 13 → 0 ≤ tt_TPIDDEI t < 8 →
  ∀ u, validateTreatment name t = Ok u ↔ treatment_ok t.
Proof.
  intros Hp Hv Ht u. unfold validateTreatment, treatment_ok.
  rewrite !guard_err_bind_Ok, guard_err_iff. lia.
Qed.

Lemma decodeFilter_range w :
  is_u 32 w →
  0 ≤ tf_Priority (decodeFilter w) < 16 ∧ 0 ≤ tf_VID (decodeFilter w) < 2 ^ 13 ∧
  0 ≤ tf_TPIDDEI (decodeFilter w) < 8.
Proof. unfold is_u. intros. fields_to_arith. cbn. lia. Qed.

Lemma decodeTreatment_range w :
  is_u 32 w →
  0 ≤ tt_Priority (decodeTreatment w) < 16 ∧ 0 ≤ tt_VID (decodeTreatment w) < 2 ^ 13 ∧
  0 ≤ tt_TPIDDEI (decodeTreatment w) < 8.
Proof. unfold is_u. intros. fields_to_arith. cbn. lia. Qed.

Lemma validate_decodeFilter name w u :
  is_u 32 w → validateFilter name (decodeFilter w) = Ok u ↔ filter_ok (decodeFilter w).
Proof. intros (?&?&?)%decodeFilter_range. by apply validateFilter_ok. Qed.

Lemma validate_decodeTreatment name w u :
  is_u 32 w → validateTreatment name (decodeTreatment w) = Ok u ↔ treatment_ok (decodeTreatment w).
Proof. intros (?&?&?)%decodeTreatment_range. by apply validateTreatment_ok. Qed.

(** The remaining fields: the low bits of the inner filter and the top bits of the treatments. *)
Lemma inner_low_bits b :
  is_u 32 b →
  Z.land (u8 (Z.shiftr b 4)) 0xff * 2 ^ 4 + Z.land (u8 b) 0x0f = b mod 4096 ∧
  0 ≤ Z.land (u8 (Z.shiftr b 4)) 0xff ∧ 0 ≤ Z.land (u8 b) 0x0f.
Proof. unfold is_u. intros. fields_to_arith. lia. Qed.

Lemma inner_low_bits_inv b x y :
  0 ≤ x < 256 → 0 ≤ y < 16 → b mod 4096 = x * 2 ^ 4 + y →
  Z.land (u8 (Z.shiftr b 4)) 0xff = x ∧ Z.land (u8 b) 0x0f = y.
Proof. intros. fields_to_arith. lia. Qed.

Lemma remove_bits c : is_u 32 c → u8 (Z.shiftr c 30) = c / 2 ^ 30 ∧ 0 ≤ c / 2 ^ 30 ≤ 3.
Proof. unfold is_u. intros. fields_to_arith. lia. Qed.

Lemma reserved_bits x :
  is_u 32 x →
  ((Z.land x 0x00000fff =? 0) = true ↔ x mod 4096 = 0) ∧
  ((Z.land x 0x3ff00000 =? 0) = true ↔ (x / 2 ^ 20) mod 2 ^ 10 = 0) ∧
  ((Z.land x 0xfff00000 =? 0) = true ↔ (x / 2 ^ 20) mod 2 ^ 10 = 0 ∧ x / 2 ^ 30 = 0).
Proof. unfold is_u. intros. fields_to_arith. lia. Qed.

(** The body of a rule: everything but the enhanced header. *)
Definition body_ok (r : Rule) : Prop :=
  filter_ok (FilterOuter r) ∧ filter_ok (FilterInner r) ∧
  0 ≤ EtherType r ≤ 5 ∧ 0 ≤ ExtendedCriteria r ≤ 2 ∧ 0 ≤ TagsToRemove r ≤ 3 ∧
  treatment_ok (TreatmentOuter r) ∧ treatment_ok (TreatmentInner r).

Lemma parseWords_decode direction rowKey a b c d r :
  is_u 32 a → is_u 32 b → is_u 32 c → is_u 32 d →
  parseWords direction rowKey a b c d = Ok r →
  (Order r = 0 ∧ RowKey r = rowKey ∧ Direction r = direction ∧ body_ok r) ∧
  a = filterWord (FilterOuter r) 0 ∧
  b = filterWord (FilterInner r) (ExtendedCriteria r * 2 ^ 4 + EtherType r) ∧
  c = treatmentWord (TreatmentOuter r) (TagsToRemove r) ∧
  d = treatmentWord (TreatmentInner r) 0.
Proof.
  intros Ha Hb Hc Hd H. unfold parseWords in H. inv_ok H. unfold body_ok. subst r.
  cbn [Order RowKey Direction FilterOuter FilterInner EtherType ExtendedCriteria TagsToRemove
       TreatmentOuter TreatmentInner] in *.
  rewrite validate_decodeFilter in Hr, Hr0 by done.
  rewrite validate_decodeTreatment in Hr1, Hr2 by done.
  apply negb_false_iff in Hg, Hg0, Hg1.
  apply (reserved_bits a) in Hg; [|done]. apply (reserved_bits c) in Hg0; [|done].
  apply (reserved_bits d) in Hg1 as [Hg1 Hg1']; [|done].
  destruct (inner_low_bits b Hb) as (-> & ? & ?). destruct (remove_bits c Hc) as [-> ?].
  pose proof (filterWord_decode a Ha) as Ea. rewrite Hg in Ea.
  pose proof (treatmentWord_decode d Hd Hg1) as Ed. rewrite Hg1' in Ed.
  rewrite Ea, Ed, filterWord_decode, treatmentWord_decode by done.
  split; [|done]. repeat (split; [first [done|lia]|]). done.
Qed.

Lemma parseWords_encode r :
  Order r = 0 → body_ok r →
  parseWords (Direction r) (RowKey r)
    (filterWord (FilterOuter r) 0)
    (filterWord (FilterInner r) (ExtendedCriteria r * 2 ^ 4 + EtherType r))
    (treatmentWord (TreatmentOuter r) (TagsToRemove r))
    (treatmentWord (TreatmentInner r) 0) = Ok r.
Proof.
  intros Ho (Hfo & Hfi & He & Hx & Hr & Hto & Hti).
  destruct (decodeFilter_word (FilterOuter r) 0) as (Da & La & Ua); [done|lia|].
  destruct (decodeFilter_word (FilterInner r) (ExtendedCriteria r * 2 ^ 4 + EtherType r))
    as (Db & Lb & Ub); [done|lia|].
  destruct (decodeTreatment_word (TreatmentOuter r) (TagsToRemove r)) as (Dc & Rc & Zc & Uc); [done|lia|].
  destruct (decodeTreatment_word (TreatmentInner r) 0) as (Dd & Rd & Zd & Ud); [done|lia|].
  apply inner_low_bits_inv in Lb as [Ex Ee]; [|lia..].
  pose proof (reserved_bits _ Ua) as (Ra & _). pose proof (reserved_bits _ Uc) as (_ & Rc' & _).
  pose proof (reserved_bits _ Ud) as (_ & _ & Rd').
  unfold parseWords. cbv zeta. rewrite Da, Db, Dc, Dd, Ex, Ee.
  rewrite (proj1 (remove_bits _ Uc)), Rc.
  cbn [FilterOuter FilterInner EtherType ExtendedCriteria TagsToRemove TreatmentOuter TreatmentInner].
  rewrite (proj2 Ra), (proj2 Rc'), (proj2 Rd') by done.
  assert (Vf : ∀ n w, is_u 32 w → filter_ok (decodeFilter w) → validateFilter n (decodeFilter w) = Ok tt)
    by (intros; by apply validate_decodeFilter).
  assert (Vt : ∀ n w, is_u 32 w → treatment_ok (decodeTreatment w) →
    validateTreatment n (decodeTreatment w) = Ok tt) by (intros; by apply validate_decodeTreatment).
  rewrite <- Da, <- Db, <- Dc, <- Dd, !Vf, !Vt by (done || congruence).
  rewrite Da, Db, Dc, Dd. pass_guards. destruct r; cbn in *. by subst.
Qed.

Lemma Uint32_is_u l i : bytes_ok l → (i + 4 ≤ length l)%nat → is_u 32 (Uint32 l i).
Proof.
  intros Hl Hi. apply (be_is_u _ 4); [by apply bytes_ok_slice|]. rewrite length_slice; lia.
Qed.

Lemma parseHeader_spec encoded d k :
  bytes_ok encoded → length encoded = EnhancedRowSize →
  parseHeader encoded true = Ok (d, k) ↔
  (is_u 16 k ∧ 0 ≤ d ≤ 2) ∧ Uint32 encoded 0 = d * 2 ^ 28 + k ∧
  Uint32 encoded 20 = 0 ∧ Uint32 encoded 24 = 0.
Proof.
  intros Hok Hlen. unfold EnhancedRowSize in Hlen.
  pose proof (Uint32_is_u encoded 0 Hok ltac:(lia)) as Hh.
  unfold parseHeader. cbv zeta. remember (Uint32 encoded 0) as h eqn:Eh. clear Eh.
  remember (Uint32 encoded 20) as r1 eqn:E1. remember (Uint32 encoded 24) as r2 eqn:E2. clear E1 E2.
  unfold is_u in *. split.
  - intros H. inv_ok H. fields_to_arith. subst. lia.
  - intros (Hr & -> & -> & ->). fields_to_arith. pass_guards. do 2 f_equal; lia.
Qed.

Lemma encodeRow_length r e : length (encodeRow r e) = if e then EnhancedRowSize else ClassicRowSize.
Proof. destruct e; unfold encodeRow, classicWords; by rewrite !length_app, !length_put_be. Qed.

Lemma classic_read encoded r k :
  bytes_ok encoded → (k + 16 ≤ length encoded)%nat →
  Uint32 encoded k = filterWord (FilterOuter r) 0 →
  Uint32 encoded (k + 4) = filterWord (FilterInner r) (ExtendedCriteria r * 2 ^ 4 + EtherType r) →
  Uint32 encoded (k + 8) = treatmentWord (TreatmentOuter r) (TagsToRemove r) →
  Uint32 encoded (k + 12) = treatmentWord (TreatmentInner r) 0 →
  slice encoded k (k + 16) = classicWords r.
Proof.
  unfold classicWords. intros Hok Hlen <- <- <- <-. unfold Uint32.
  rewrite !put_be_slice by (done || lia).
  rewrite <- !Nat.add_assoc. cbn [Nat.add]. rewrite !slice_join by lia. done.
Qed.

Lemma words_is_u r :
  body_ok r →
  is_u 32 (filterWord (FilterOuter r) 0) ∧
  is_u 32 (filterWord (FilterInner r) (ExtendedCriteria r * 2 ^ 4 + EtherType r)) ∧
  is_u 32 (treatmentWord (TreatmentOuter r) (TagsToRemove r)) ∧
  is_u 32 (treatmentWord (TreatmentInner r) 0).
Proof.
  intros (Hfo & Hfi & He & Hx & Hr & Hto & Hti).
  split_and!; apply decodeFilter_word || apply decodeTreatment_word; (done || lia).
Qed.

(** Reads the [k]-th word of the printed row. *)
Ltac read_word := unfold Uint32, encodeRow, classicWords; rewrite <- ?app_assoc; cbn [Nat.add];
  read_field; apply be_put_be_small.

Lemma ParseRow_encode r enhanced : rule_ok r enhanced → ParseRow (encodeRow r enhanced) enhanced = Ok r.
Proof.
  intros (Ho & Hh & Hb). change (body_ok r) in Hb. destruct (words_is_u r Hb) as (Ua & Ub & Uc & Ud).
  pose proof (parseWords_encode r Ho Hb) as Hw. unfold ParseRow.
  rewrite encodeRow_length, Nat.eqb_refl. cbn [negb guard_err mbind Res_bind].
  assert (parseHeader (encodeRow r enhanced) enhanced = Ok (Direction r, RowKey r)) as ->.
  { destruct enhanced; [|by destruct Hh as [-> ->]]. apply parseHeader_spec.
    - unfold encodeRow, classicWords. rewrite !bytes_ok_app. split_and!; apply bytes_ok_put_be.
    - apply encodeRow_length.
    - split; [done|]. unfold is_u in Hh. split_and!; read_word; unfold is_u; lia. }
  cbn [mbind Res_bind]. rewrite <- Hw. destruct enhanced; f_equal; read_word; done.
Qed.

(** C15: the parser accepts exactly the bytes that print a rule with in-range fields, and returns
    that rule: every printed rule parses back to itself, and every accepted row is the printed form
    of the rule returned (no two rows parse to the same rule, no reserved bit is dropped). *)
Theorem ParseRow_spec encoded enhanced r (Hok : bytes_ok encoded) :
  ParseRow encoded enhanced = Ok r ↔ rule_ok r enhanced ∧ encoded = encodeRow r enhanced.
Proof.
  split.
  - unfold ParseRow. intros H. inv_ok H. destruct x as [d k].
    assert (length encoded = if enhanced then EnhancedRowSize else ClassicRowSize) as Hlen by lia.
    unfold EnhancedRowSize, ClassicRowSize in Hlen.
    apply parseWords_decode in H; [|apply Uint32_is_u; [done|]; destruct enhanced; lia..].
    destruct H as ((Ho & Hk & Hd & Hb) & Ha & Hb' & Hc & Hd').
    assert (Hc4 := classic_read encoded r (if enhanced then 4 else 0)%nat Hok
      ltac:(destruct enhanced; lia) Ha Hb' Hc Hd').
    unfold rule_ok. destruct enhanced.
    + apply parseHeader_spec in Hr as (Hr & H0 & H20 & H24); [|done|done].
      split; [unfold body_ok in Hb; subst; tauto|].
      unfold encodeRow. rewrite Hd, Hk, <- H0, <- Hc4, <- H20 at 1. rewrite <- H24.
      unfold Uint32. rewrite !put_be_slice by (done || lia). cbn [Nat.add].
      rewrite !slice_join, slice_full by lia. done.
    + injection Hr as <- <-. split; [unfold body_ok in Hb; tauto|]. unfold encodeRow.
      rewrite <- Hc4. symmetry. by apply slice_full.
  - intros [Hr ->]. by apply ParseRow_encode.
Qed.

Lemma ParseRow_spec_witness :
  let r := mkRule 0 7 1 (mkTagFilter 15 4096 0) (mkTagFilter 8 100 4) 1 0 1
             (mkTagTreatment 15 0 0) (mkTagTreatment 8 200 4) in
  ParseRow (encodeRow r true) true = Ok r ↔ rule_ok r true ∧ encodeRow r true = encodeRow r true.
Proof. apply ParseRow_spec. by_decide. Defined.

(** ** Tables *)

Lemma parseRowsFrom_concat rs enhanced pre index rowSize :
  Forall (λ r, rule_ok r enhanced) rs →
  rowSize = (if enhanced then EnhancedRowSize else ClassicRowSize) →
  length pre = (index * rowSize)%nat →
  parseRowsFrom (length rs) index rowSize
    (pre ++ concat (map (λ r, encodeRow r enhanced) rs)) enhanced =
  Ok (imap (λ i r, setOrder r (u16 (Z.of_nat (index + i)))) rs).
Proof.
  intros Hok Hsize. revert pre index. induction Hok as [|r rs Hr _ IH]; intros pre index Hpre; [done|].
  cbn [length parseRowsFrom map concat imap].
  assert (length (encodeRow r enhanced) = rowSize) as Hrow by (rewrite encodeRow_length; congruence).
  rewrite (slice_skip pre _ (index * rowSize)) by (done || lia).
  rewrite Nat.sub_diag. replace (index * rowSize + rowSize - index * rowSize)%nat with rowSize by lia.
  rewrite slice_0_app by done.
  rewrite ParseRow_encode by done. rewrite app_assoc, IH.
  - cbn [mbind Res_bind]. rewrite Nat.add_0_r. do 2 f_equal. apply imap_ext. intros i x _. cbn.
    do 3 f_equal. lia.
  - rewrite length_app. lia.
Qed.

Lemma concat_rows_length rs enhanced :
  length (concat (map (λ r, encodeRow r enhanced) rs)) =
  (length rs * (if enhanced then EnhancedRowSize else ClassicRowSize))%nat.
Proof. induction rs as [|r rs IH]; [done|]. cbn. rewrite length_app, encodeRow_length, IH. lia. Qed.

(** A table printed row after row parses to the same rules in the same order, each numbered
    with its position; an empty table parses to the empty list. *)
Theorem ParseRows_concat rs enhanced (Hok : Forall (λ r, rule_ok r enhanced) rs) :
  ParseRows (concat (map (λ r, encodeRow r enhanced) rs)) enhanced =
  Ok (imap (λ i r, setOrder r (u16 (Z.of_nat i))) rs).
Proof.
  unfold ParseRows. cbv zeta. rewrite concat_rows_length.
  assert ((if enhanced then EnhancedRowSize else ClassicRowSize) ≠ 0%nat) by (by destruct enhanced).
  rewrite Nat.Div0.mod_mul, Nat.div_mul by done. cbn [negb Nat.eqb guard_err mbind Res_bind].
  by apply (parseRowsFrom_concat rs enhanced [] 0).
Qed.

Lemma ParseRows_concat_witness :
  let r := mkRule 0 0 0 (mkTagFilter 15 4096 0) (mkTagFilter 8 100 4) 1 0 1
             (mkTagTreatment 15 0 0) (mkTagTreatment 8 200 4) in
  ParseRows (concat (map (λ r, encodeRow r false) [r; r])) false =
  Ok (imap (λ i r, setOrder r (u16 (Z.of_nat i))) [r; r]).
Proof. apply ParseRows_concat. by_decide. Defined.

Lemma dscpBit_be encoded position :
  bytes_ok encoded → length encoded = 24%nat → (position < 192)%nat →
  dscpBit encoded position = (be encoded / 2 ^ (191 - Z.of_nat position)) mod 2.
Proof.
  intros Hok Hlen Hp. unfold dscpBit. rewrite bit_be by (done || lia). rewrite Hlen. do 3 f_equal. lia.
Qed.

Lemma three_bits x :
  let b k := (x / 2 ^ k) mod 2 in
  foldl (λ acc v, Z.lor (u8 (Z.shiftl acc 1)) v) 0 [b 2; b 1; b 0] = x mod 8.
Proof.
  cbn [foldl]. assert (x mod 8 = 4 * ((x / 2 ^ 2) mod 2) + 2 * ((x / 2 ^ 1) mod 2) + (x / 2 ^ 0) mod 2) as ->
    by lia.
  assert (Hb : ∀ k, (x / 2 ^ k) mod 2 = 0 ∨ (x / 2 ^ k) mod 2 = 1) by (intros; lia).
  destruct (Hb 2) as [-> | ->], (Hb 1) as [-> | ->], (Hb 0) as [-> | ->]; done.
Qed.

(** Entry [dscp] of the decoded map is the [dscp]-th group of three bits of the 192-bit
    big-endian field, counted from the most significant end. *)
Theorem DecodeDSCPMapping_fields encoded mapping dscp v
  (Hok : bytes_ok encoded) (Hdec : DecodeDSCPMapping encoded = Ok mapping)
  (Hv : mapping !! dscp = Some v) :
  length mapping = 64%nat ∧ v = (be encoded / 2 ^ (189 - 3 * Z.of_nat dscp)) mod 8.
Proof.
  apply guard_err_bind_Ok in Hdec as [Hg Hdec].
  assert (mapping = map (dscpEntry encoded) (seq 0 64)) as -> by congruence. clear Hdec.
  split; [by rewrite length_map, length_seq|].
  assert (length encoded = 24%nat) as Hlen by lia.
  rewrite list_lookup_fmap in Hv. destruct (seq 0 64 !! dscp) eqn:E; [|done].
  apply lookup_seq in E as [-> Hd]. cbn in Hv. injection Hv as <-.
  rewrite <- three_bits. unfold dscpEntry. cbn [foldl]. cbv zeta.
  rewrite !dscpBit_be by (done || lia).
  assert (∀ k, 0 ≤ k ≤ 2 → be encoded / 2 ^ (189 - 3 * Z.of_nat (0 + dscp)) / 2 ^ k =
    be encoded / 2 ^ (189 - 3 * Z.of_nat (0 + dscp) + k)) as Hd2.
  { intros k Hk. rewrite Z.pow_add_r by lia. apply Z.div_div; [apply Z.pow_nonzero|apply Z.pow_pos_nonneg]; lia. }
  rewrite !Hd2 by lia. repeat f_equal; lia.
Qed.

Lemma DecodeDSCPMapping_fields_witness :
  let encoded := replicate 24 0x1b in
  length (map (dscpEntry encoded) (seq 0 64)) = 64%nat ∧
  6 = (be encoded / 2 ^ (189 - 3 * Z.of_nat 2)) mod 8.
Proof.
  apply (DecodeDSCPMapping_fields (replicate 24 0x1b) (map (dscpEntry (replicate 24 0x1b)) (seq 0 64)) 2 6);
    [by_decide|reflexivity|vm_compute; reflexivity].
Defined.
