(* ===== verification/Dispatcher.v ===== *)
(** * Dispatcher: the OMCC receive scheduler ([internal/transaction/dispatcher.go])

    [frameQueue] is the bounded two-class queue; [step] is the [run] goroutine together with the
    receivers that load the generation, block in a read and enqueue later.  One [select] case is
    one step, except that the reset case is split where another goroutine can observe it: between
    [generation++] and the atomic store of the new generation.  [cloneFrame] copies the bytes so
    that no caller can change a queued frame; in this value model the copy is the frame itself. *)

From S2P Require Import Prelude Transport.

Definition BaselineIdent : Z := 0x0A.

Inductive DispatchError :=
| CapacityNotPositive
| ErrQueueFull (capacity : Z).

Record frameQueue := mkQueue { capacity : Z; high : list Frame; normal : list Frame }.

Definition newFrameQueue (c : Z) : Res DispatchError frameQueue :=
  if c <=? 0 then Err CapacityNotPositive else Ok (mkQueue c [] []).

Definition queueLength (q : frameQueue) : Z :=
  Z.of_nat (length (high q)) + Z.of_nat (length (normal q)).

Definition isBaselineHighPriority (frame : Frame) : bool :=
  let contents := Contents frame in
  (4 <=? length contents)%nat && (nth8 contents 3 =? BaselineIdent) &&
  negb (Z.land (Uint16 contents 0) 0x8000 =? 0).

Definition push (q : frameQueue) (frame : Frame) : Res DispatchError frameQueue :=
  if capacity q <=? queueLength q then Err (ErrQueueFull (capacity q))
  else if isBaselineHighPriority frame
  then Ok (mkQueue (capacity q) (high q ++ [frame]) (normal q))
  else Ok (mkQueue (capacity q) (high q) (normal q ++ [frame])).

(** [transport.Frame{}], what [peek] returns on an empty queue. *)
Definition emptyFrame : Frame := mkFrame [] false 0 0.

Definition peek (q : frameQueue) : Frame :=
  match high q, normal q with
  | f :: _, _ => f
  | [], f :: _ => f
  | [], [] => emptyFrame
  end.

Definition pop (q : frameQueue) : frameQueue :=
  match high q, normal q with
  | _ :: h, n => mkQueue (capacity q) h n
  | [], _ :: n => mkQueue (capacity q) [] n
  | [], [] => q
  end.

Definition clear (q : frameQueue) : frameQueue := mkQueue (capacity q) [] [].

(** ** The goroutines *)

Record queuedFrame := mkQueued { qf_generation : Z; qf_frame : Frame }.

(** Where the [run] loop is: in its [select], about to publish a new generation, or returned. *)
Inductive loopState := Selecting | Publishing | Returned (e : option DispatchError).

(** An item a receiver holds: what it will send on [ingress], and (ghost) how many resets the loop
    had begun when the receiver loaded the generation. *)
Record pending := mkPending { p_item : queuedFrame; p_epoch : nat }.

Record state := mkState {
  loop : loopState;
  generation : Z;                (* the loop's local variable *)
  published : Z;                 (* the atomic [d.generation] *)
  queue : frameQueue;
  inflight : list pending;       (* receivers between [Generation] and [Enqueue] *)
  resets : nat;                  (* ghost: resets begun *)
  accepted : list pending;       (* ghost: items queued since the last reset, oldest first *)
  delivered : list Frame         (* ghost: frames sent on [frames] since the last reset *)
}.

Definition initial (q : frameQueue) : state := mkState Selecting 0 0 q [] 0 [] [].

(** The [case item := <-d.ingress] body. *)
Definition ingress (s : state) (p : pending) (rest : list pending) : state :=
  if negb (qf_generation (p_item p) =? generation s)
  then mkState Selecting (generation s) (published s) (queue s) rest (resets s) (accepted s)
         (delivered s)
  else match push (queue s) (qf_frame (p_item p)) with
       | Err e => mkState (Returned (Some e)) (generation s) (published s) (queue s) rest (resets s)
                    (accepted s) (delivered s)
       | Ok q => mkState Selecting (generation s) (published s) q rest (resets s)
                   (accepted s ++ [p]) (delivered s)
       end.

Inductive step : state → state → Prop :=
| step_receive s f :
    (* a receiver calls [Generation] and starts a read that will return [f] *)
    step s (mkState (loop s) (generation s) (published s) (queue s)
              (mkPending (mkQueued (published s) f) (resets s) :: inflight s) (resets s)
              (accepted s) (delivered s))
| step_abandon s p l1 l2 :
    (* a receiver gives up: its context is done *)
    inflight s = l1 ++ p :: l2 →
    step s (mkState (loop s) (generation s) (published s) (queue s) (l1 ++ l2) (resets s)
              (accepted s) (delivered s))
| step_ingress s p l1 l2 :
    loop s = Selecting → inflight s = l1 ++ p :: l2 → step s (ingress s p (l1 ++ l2))
| step_reset s :
    loop s = Selecting →
    step s (mkState Publishing (u64 (generation s + 1)) (published s) (clear (queue s)) (inflight s)
              (S (resets s)) [] [])
| step_publish s :
    loop s = Publishing →
    step s (mkState Selecting (generation s) (generation s) (queue s) (inflight s) (resets s)
              (accepted s) (delivered s))
| step_deliver s :
    loop s = Selecting → queueLength (queue s) ≠ 0 →
    step s (mkState Selecting (generation s) (published s) (pop (queue s)) (inflight s) (resets s)
              (accepted s) (delivered s ++ [peek (queue s)]))
| step_cancel s :
    loop s = Selecting →
    step s (mkState (Returned None) (generation s) (published s) (queue s) (inflight s) (resets s)
              (accepted s) (delivered s)).

(** The states the dispatcher can reach from [NewDispatcher] with a queue of capacity [c]. *)
Definition reachable (c : Z) : state → Prop := rtc step (initial (mkQueue c [] [])).

(** ** The queue refines a stable two-class priority queue

    The specification keeps the frames in arrival order; the next frame out is the oldest
    high-priority one, or the oldest one when there is none. *)

Definition hp (f : Frame) : Prop := isBaselineHighPriority f = true.
#[export] Instance hp_dec f : Decision (hp f).
Proof. unfold hp. apply _. Defined.

Fixpoint spec_first (P : Frame → bool) (s : list Frame) : option (Frame * list Frame) :=
  match s with
  | [] => None
  | f :: s' => if P f then Some (f, s')
               else match spec_first P s' with Some (g, r) => Some (g, f :: r) | None => None end
  end.

Definition spec_next (s : list Frame) : option (Frame * list Frame) :=
  match spec_first isBaselineHighPriority s with
  | Some r => Some r
  | None => spec_first (λ _, true) s
  end.

Definition abs (q : frameQueue) (s : list Frame) : Prop :=
  high q = filter hp s ∧ normal q = filter (λ f, ¬ hp f) s.

Lemma spec_first_hp s :
  match spec_first isBaselineHighPriority s with
  | Some (f, r) => hp f ∧ filter hp s = f :: filter hp r ∧
                   filter (λ f, ¬ hp f) s = filter (λ f, ¬ hp f) r
  | None => filter hp s = [] ∧ filter (λ f, ¬ hp f) s = s
  end.
Proof.
  induction s as [|f s IH]; [done|]. cbn [spec_first].
  destruct (isBaselineHighPriority f) eqn:E.
  - rewrite filter_cons_True, filter_cons_False by (unfold hp; congruence). done.
  - rewrite (filter_cons_False hp), (filter_cons_True (λ f, ¬ hp f)) by (unfold hp; congruence).
    destruct (spec_first _ s) as [[g r]|].
    + destruct IH as (? & -> & ->).
      by rewrite (filter_cons_False hp), (filter_cons_True (λ f, ¬ hp f)) by (unfold hp; congruence).
    + by destruct IH as [-> ->].
Qed.

Lemma spec_next_abs q s :
  abs q s →
  match spec_next s with
  | Some (f, r) => peek q = f ∧ abs (pop q) r
  | None => s = [] ∧ high q = [] ∧ normal q = []
  end.
Proof.
  intros [Hh Hn]. unfold spec_next. pose proof (spec_first_hp s) as Hs.
  destruct (spec_first _ s) as [[f r]|].
  - destruct Hs as (_ & E1 & E2). unfold peek, pop, abs. rewrite Hh, Hn, E1. done.
  - destruct Hs as [E1 E2]. destruct s as [|f s]; cbn [spec_first].
    + by rewrite Hh, Hn.
    + assert (Hf : ¬ hp f).
      { intros Hf. by rewrite filter_cons_True in E1. }
      rewrite filter_cons_True in E2 by done. injection E2 as E2.
      rewrite filter_cons_False in E1 by done.
      rewrite (filter_cons_False hp), E1 in Hh by done. rewrite filter_cons_True in Hn by done.
      unfold peek, pop, abs. rewrite Hh, Hn. done.
Qed.

Lemma abs_length q s : abs q s → queueLength q = Z.of_nat (length s).
Proof.
  intros [Hh Hn]. unfold queueLength. rewrite Hh, Hn. clear Hh Hn.
  induction s as [|f s IH]; [done|]. rewrite !filter_cons. repeat case_decide; cbn [length]; done || lia.
Qed.

Lemma push_abs q s f :
  abs q s →
  match push q f with
  | Ok q' => Z.of_nat (length s) < capacity q ∧ capacity q' = capacity q ∧ abs q' (s ++ [f])
  | Err e => e = ErrQueueFull (capacity q) ∧ capacity q ≤ Z.of_nat (length s)
  end.
Proof.
  intros Habs. unfold push. rewrite (abs_length _ _ Habs). destruct Habs as [Hh Hn].
  destruct (Z.leb_spec (capacity q) (Z.of_nat (length s))); [done|].
  destruct (isBaselineHighPriority f) eqn:E; split_and!; try done; unfold abs; cbn [high normal].
  - rewrite !filter_app, (filter_cons_True hp), (filter_cons_False (λ f, ¬ hp f)), !filter_nil
      by (unfold hp; congruence). by rewrite app_nil_r, Hh, Hn.
  - rewrite !filter_app, (filter_cons_False hp), (filter_cons_True (λ f, ¬ hp f)), !filter_nil
      by (unfold hp; congruence). by rewrite app_nil_r, Hh, Hn.
Qed.

(** C16: the frame queue implements the specification: on related states every operation gives the
    specified answer and related states again.  [push] fails only when the queue holds [capacity]
    frames and never drops or reorders a frame of either class; [peek]/[pop] serve the oldest
    high-priority frame first. *)
Theorem frameQueue_refines q s (Habs : abs q s) :
  queueLength q = Z.of_nat (length s) ∧
  (match spec_next s with
   | Some (f, r) => peek q = f ∧ abs (pop q) r
   | None => queueLength q = 0 ∧ peek q = emptyFrame
   end) ∧
  abs (clear q) [] ∧
  ∀ f, match push q f with
       | Ok q' => Z.of_nat (length s) < capacity q ∧ capacity q' = capacity q ∧ abs q' (s ++ [f])
       | Err e => e = ErrQueueFull (capacity q) ∧ capacity q ≤ Z.of_nat (length s)
       end.
Proof.
  split_and!; [by apply abs_length| |done|intros f; by apply push_abs].
  pose proof (spec_next_abs q s Habs) as H. destruct (spec_next s) as [[f r]|]; [done|].
  destruct H as (-> & Hh & Hn). unfold queueLength, peek. by rewrite Hh, Hn.
Qed.

Lemma frameQueue_refines_witness :
  let low := mkFrame [0; 1; 41; 10] false 0 0 in
  let urgent := mkFrame [128; 2; 41; 10] false 0 0 in
  let q := mkQueue 4 [urgent] [low] in
  queueLength q = 2 ∧ peek q = urgent ∧ abs (pop q) [low].
Proof.
  destruct (frameQueue_refines
    (mkQueue 4 [mkFrame [128; 2; 41; 10] false 0 0] [mkFrame [0; 1; 41; 10] false 0 0])
    [mkFrame [0; 1; 41; 10] false 0 0; mkFrame [128; 2; 41; 10] false 0 0]) as (H1 & [H2 H3] & _);
    [by split|]. split_and!; [exact H1|exact H2|exact H3].
Defined.

(** ** Executions *)

Definition frames_of (l : list pending) : list Frame := map (λ p, qf_frame (p_item p)) l.

(** Ghost and concrete state agree: what was accepted since the last reset has been delivered, in
    order within each class, or is still queued. *)
Definition fifo (s : state) : Prop :=
  filter hp (frames_of (accepted s)) = filter hp (delivered s) ++ high (queue s) ∧
  filter (λ f, ¬ hp f) (frames_of (accepted s)) =
    filter (λ f, ¬ hp f) (delivered s) ++ normal (queue s).

(** The two lists hold frames of their own class. *)
Definition classes_ok (q : frameQueue) : Prop :=
  Forall hp (high q) ∧ Forall (λ f, ¬ hp f) (normal q).

(** The generations: the loop's counter is the number of resets, the published one is at most one
    behind, and a receiver never holds a generation from the future. *)
Definition generations (s : state) : Prop :=
  generation s = Z.of_nat (resets s) ∧
  (published s = generation s ∨ loop s = Publishing ∧ published s = generation s - 1) ∧
  Forall (λ p, qf_generation (p_item p) ≤ Z.of_nat (p_epoch p) ∧ (p_epoch p ≤ resets s)%nat)
    (inflight s).

(** Everything accepted in this session was received in this session. *)
Definition isolated (s : state) : Prop :=
  Forall (λ p, p_epoch p = resets s) (accepted s).

Definition bounded (c : Z) (s : state) : Prop := capacity (queue s) = c ∧ queueLength (queue s) ≤ c.

Lemma fifo_push q q' acc del f p :
  filter hp (frames_of acc) = filter hp del ++ high q →
  filter (λ f, ¬ hp f) (frames_of acc) = filter (λ f, ¬ hp f) del ++ normal q →
  qf_frame (p_item p) = f → push q f = Ok q' →
  (filter hp (frames_of (acc ++ [p])) = filter hp del ++ high q' ∧
   filter (λ f, ¬ hp f) (frames_of (acc ++ [p])) = filter (λ f, ¬ hp f) del ++ normal q') ∧
  (classes_ok q → classes_ok q') ∧
  capacity q' = capacity q ∧ queueLength q' ≤ capacity q.
Proof.
  intros Hh Hn <- Hpush. unfold frames_of in *. rewrite map_app, !filter_app, Hh, Hn. cbn [map].
  unfold push in Hpush. destruct (Z.leb_spec (capacity q) (queueLength q)); [done|].
  unfold classes_ok, queueLength in *.
  destruct (isBaselineHighPriority _) eqn:E; injection Hpush as <-; cbn [high normal capacity];
    rewrite length_app; cbn [length].
  - rewrite (filter_cons_True hp), (filter_cons_False (λ f, ¬ hp f)), !filter_nil
      by (unfold hp; congruence).
    rewrite app_nil_r, app_assoc. split_and!; try done; [|lia].
    intros [? ?]. split; [|done]. apply Forall_app. split; [done|]. by apply Forall_singleton.
  - rewrite (filter_cons_False hp), (filter_cons_True (λ f, ¬ hp f)), !filter_nil
      by (unfold hp; congruence).
    rewrite app_nil_r, app_assoc. split_and!; try done; [|lia].
    intros [? ?]. split; [done|]. apply Forall_app. split; [done|].
    apply Forall_singleton. unfold hp. congruence.
Qed.

Lemma fifo_pop q acc del :
  filter hp acc = filter hp del ++ high q →
  filter (λ f, ¬ hp f) acc = filter (λ f, ¬ hp f) del ++ normal q →
  classes_ok q → queueLength q ≠ 0 →
  filter hp acc = filter hp (del ++ [peek q]) ++ high (pop q) ∧
  filter (λ f, ¬ hp f) acc = filter (λ f, ¬ hp f) (del ++ [peek q]) ++ normal (pop q) ∧
  classes_ok (pop q) ∧ capacity (pop q) = capacity q ∧ queueLength (pop q) ≤ queueLength q.
Proof.
  intros -> -> [Hch Hcn] Hne. unfold queueLength, peek, pop, classes_ok in *.
  rewrite !filter_app. destruct (high q) as [|f h] eqn:Eh.
  - destruct (normal q) as [|f n] eqn:En; [done|]. apply Forall_cons in Hcn as [Hf Hn].
    rewrite (filter_cons_False hp), (filter_cons_True (λ f, ¬ hp f)), !filter_nil by done.
    cbn [high normal capacity length] in *. rewrite !app_nil_r, <- app_assoc. split_and!; (done || lia || by constructor).
  - apply Forall_cons in Hch as [Hf Hh].
    rewrite (filter_cons_True hp), (filter_cons_False (λ f, ¬ hp f)), !filter_nil by naive_solver.
    cbn [high normal capacity length] in *. rewrite !app_nil_r, <- app_assoc. split_and!; (done || lia || by constructor).
Qed.

(** The invariant of the delivery order and of the bound. *)
Definition order_inv (c : Z) (s : state) : Prop :=
  fifo s ∧ classes_ok (queue s) ∧ bounded c s.

Lemma order_inv_step c s s' : 0 ≤ c → order_inv c s → step s s' → order_inv c s'.
Proof.
  intros Hc ((Hh & Hn) & Hcl & Hcap & Hlen). unfold order_inv, fifo, bounded.
  destruct 1; cbn [queue accepted delivered]; try done.
  - unfold ingress. destruct (negb _); [done|].
    destruct (push _ _) as [q|e] eqn:E; [|done]. cbn [queue accepted delivered].
    destruct (fifo_push _ _ _ _ _ p Hh Hn eq_refl E) as (? & ? & ? & ?). 
    split; [done|]. split; [auto|lia].
  - destruct (fifo_pop _ _ _ Hh Hn Hcl ltac:(done)) as (? & ? & ? & ? & ?).
    split; [by split|]. split; [done|lia].
Qed.

Lemma order_inv_reachable c s : 0 ≤ c → reachable c s → order_inv c s.
Proof.
  intros Hc Hr. unfold reachable in Hr.
  assert (order_inv c (initial (mkQueue c [] []))) as H0
    by (repeat split; cbn; by try constructor).
  revert H0. induction Hr as [|x y z Hxy _ IH]; [done|]. intros H0.
  by apply IH, (order_inv_step c x).
Qed.

(** The invariant of the generations, as long as the 64-bit counter has not wrapped. *)
Definition session_inv (s : state) : Prop := generations s ∧ isolated s.

Lemma session_inv_step s s' :
  Z.of_nat (resets s') < 2 ^ 64 → session_inv s → step s s' → session_inv s'.
Proof.
  intros Hw ((Hg & Hp & Hf) & Hi) Hstep. unfold session_inv, generations, isolated.
  destruct Hstep as [s f|s p l1 l2 Hin|s p l1 l2 Hl Hin|s Hl|s Hl|s Hl Hq|s Hl];
    cbn [resets generation published loop inflight accepted] in *; try (split_and?; done).
  - split_and?; try done. constructor; [|done]. cbn. destruct Hp as [?|[_ ?]]; lia.
  - rewrite Hin in Hf. apply Forall_app in Hf as [H1 H2]. apply Forall_cons in H2 as [_ H2].
    split_and?; try done. by apply Forall_app.
  - rewrite Hin in Hf. apply Forall_app in Hf as [H1 H2]. apply Forall_cons in H2 as [Hep H2].
    assert (Forall (λ p, qf_generation (p_item p) ≤ Z.of_nat (p_epoch p) ∧ (p_epoch p ≤ resets s)%nat)
              (l1 ++ l2)) as Hrest by (by apply Forall_app).
    assert (published s = generation s) as Hpub by (destruct Hp as [|[? _]]; congruence).
    unfold ingress. destruct (Z.eqb_spec (qf_generation (p_item p)) (generation s)) as [He|];
      cbn [negb]; [|cbn; split_and?; auto].
    destruct (push _ _) as [q|e]; cbn; (split_and?; auto).
    apply Forall_app. split; [done|]. apply Forall_singleton. lia.
  - destruct Hp as [Hp|[? _]]; [|congruence]. rewrite wrap_small by (unfold is_u; lia).
    split; [|by constructor]. split; [lia|]. split; [right; split; [done|lia]|].
    eapply Forall_impl; [done|]. cbn. intros p. lia.
  - split_and?; auto.
  - destruct Hp as [Hp|[? _]]; [|congruence]. split_and?; auto.
  - destruct Hp as [Hp|[? _]]; [|congruence]. split_and?; auto.
Qed.

Lemma resets_mono s s' : step s s' → (resets s ≤ resets s')%nat.
Proof.
  destruct 1; cbn; try lia. unfold ingress. destruct (negb _); cbn; [lia|]. destruct (push _ _); cbn; lia.
Qed.

Lemma session_inv_reachable c s :
  Z.of_nat (resets s) < 2 ^ 64 → reachable c s → session_inv s.
Proof.
  unfold reachable. intros Hw Hr.
  assert (session_inv (initial (mkQueue c [] []))) as H0 by (repeat split; cbn; auto; constructor).
  revert H0 Hw. induction Hr as [|x y z Hxy Hyz IH]; [done|]. intros H0 Hw. apply IH; [|done].
  apply (session_inv_step x); [|done|done].
  assert (resets y ≤ resets z)%nat; [|lia].
  clear -Hyz. induction Hyz as [|x y z Hxy _ IH]; [lia|]. apply resets_mono in Hxy. lia.
Qed.

(** In every execution the dispatcher neither loses, duplicates nor reorders a frame within its
    class: the frames accepted since the last session reset are exactly those delivered since then
    followed by those still queued; the queue never exceeds its capacity, and the next frame
    offered is a high-priority one whenever one is queued. *)
Theorem dispatcher_delivers_in_order c s (Hc : 0 < c) (Hr : reachable c s) :
  (∃ q, newFrameQueue c = Ok q ∧ reachable c (initial q)) ∧
  filter hp (frames_of (accepted s)) = filter hp (delivered s) ++ high (queue s) ∧
  filter (λ f, ¬ hp f) (frames_of (accepted s)) =
    filter (λ f, ¬ hp f) (delivered s) ++ normal (queue s) ∧
  queueLength (queue s) ≤ c ∧
  (high (queue s) ≠ [] → hp (peek (queue s))).
Proof.
  destruct (order_inv_reachable c s) as ((Hh & Hn) & (Hch & _) & Hcap & Hlen); [lia|done|].
  split_and!; try done.
  - unfold newFrameQueue. rewrite (proj2 (Z.leb_gt c 0)) by lia. by eexists; split; [|apply rtc_refl].
  - unfold peek. destruct (high (queue s)); [done|]. intros _. by apply Forall_cons in Hch as [? _].
Qed.

(** A short execution: a frame is received, enqueued and queued. *)
Definition sample_frame : Frame := mkFrame [128; 2; 41; 10] false 0 0.
Definition sample_pending : pending := mkPending (mkQueued 0 sample_frame) 0.
Definition sample_state : state :=
  mkState Selecting 0 0 (mkQueue 4 [sample_frame] []) [] 0 [sample_pending] [].

Lemma sample_reachable : reachable 4 sample_state.
Proof.
  eapply rtc_l; [apply (step_receive _ sample_frame)|].
  eapply rtc_l; [by apply (step_ingress _ sample_pending [] [])|]. apply rtc_refl.
Qed.

Lemma dispatcher_delivers_in_order_witness :
  0 < 4 ∧ queueLength (queue sample_state) ≤ 4 ∧ hp (peek (queue sample_state)).
Proof.
  destruct (dispatcher_delivers_in_order 4 sample_state) as (_ & _ & _ & H1 & H2);
    [lia|apply sample_reachable|]. split_and!; [lia|exact H1|by apply H2].
Defined.

(** C17: session isolation: as long as fewer than 2^64 resets have happened, every frame the
    dispatcher offers or has delivered since the last reset was received by a call that loaded the
    generation after that reset, so a receive begun before re-ranging never leaks into the new
    session. *)
Theorem dispatcher_session_isolation c s f
  (Hc : 0 < c) (Hr : reachable c s) (Hw : Z.of_nat (resets s) < 2 ^ 64)
  (Hf : f ∈ delivered s ++ high (queue s) ++ normal (queue s)) :
  ∃ p, p ∈ accepted s ∧ qf_frame (p_item p) = f ∧ p_epoch p = resets s.
Proof.
  destruct (order_inv_reachable c s) as ((Hh & Hn) & (Hch & Hcn) & _); [lia|done|].
  destruct (session_inv_reachable c s Hw Hr) as [_ Hi].
  assert (f ∈ frames_of (accepted s)) as Hin.
  { destruct (decide (hp f)) as [Hhp|Hhp].
    - assert (f ∈ filter hp (frames_of (accepted s))) as H; [|by apply list_elem_of_filter in H as [_ ?]].
      rewrite Hh. rewrite Forall_forall in Hcn. rewrite !elem_of_app, list_elem_of_filter in *. naive_solver.
    - assert (f ∈ filter (λ f, ¬ hp f) (frames_of (accepted s))) as H; [|by apply list_elem_of_filter in H as [_ ?]].
      rewrite Hn. rewrite Forall_forall in Hch. rewrite !elem_of_app, list_elem_of_filter in *. naive_solver. }
  unfold frames_of in Hin. apply list_elem_of_fmap in Hin as (p & -> & Hp).
  exists p. split_and!; [done..|]. unfold isolated in Hi. rewrite Forall_forall in Hi. by apply Hi.
Qed.

Lemma dispatcher_session_isolation_witness :
  ∃ p, p ∈ accepted sample_state ∧ qf_frame (p_item p) = sample_frame ∧
       p_epoch p = resets sample_state.
Proof.
  apply (dispatcher_session_isolation 4); [lia|apply sample_reachable|by_decide|apply list_elem_of_here].
Defined.
