(* ===== verification/Maps.v ===== *)
(** * Ordered emission of a Go map

    The code often collects the keys of a map, sorts them and visits the entries in that
    order (table rows, snapshots, uploads).  This file defines the key orders the code sorts
    by and the sorted key list, and shows that the list does not depend on the order in which
    the map was ranged over. *)

From S2P Require Import Prelude.

(** A total order on keys. *)
Class KeyOrder {K} (le : relation K) : Prop := {
  key_trans :: Transitive le;
  key_antisymm :: AntiSymm (=) le;
  key_total :: Total le
}.

(** [bytes.Compare(a, b) <= 0], the order of [sort.Strings]. *)
Fixpoint bytesLe (a b : list Z) : bool :=
  match a, b with
  | [], _ => true
  | _ :: _, [] => false
  | x :: a', y :: b' => (x <? y) || ((x =? y) && bytesLe a' b')
  end.

Definition bytesLt (a b : list Z) : bool := negb (bytesLe b a).

Definition bytes_le (a b : list Z) : Prop := bytesLe a b = true.
#[export] Instance bytes_le_dec a b : Decision (bytes_le a b).
Proof. unfold bytes_le. apply _. Defined.

(** Pairs by their first component, then by the second. *)
Definition pair_le (a b : Z * Z) : Prop := a.1 < b.1 ∨ (a.1 = b.1 ∧ a.2 ≤ b.2).
#[export] Instance pair_le_dec a b : Decision (pair_le a b).
Proof. unfold pair_le. apply _. Defined.

Lemma bytesLe_cons x y a b :
  bytesLe (x :: a) (y :: b) = true ↔ x < y ∨ (x = y ∧ bytesLe a b = true).
Proof. cbn [bytesLe]. by rewrite orb_true_iff, andb_true_iff, Z.ltb_lt, Z.eqb_eq. Qed.

Lemma bytesLe_trans a b c : bytesLe a b = true → bytesLe b c = true → bytesLe a c = true.
Proof.
  revert b c. induction a as [|x a IH]; intros [|y b] [|z c]; try done.
  rewrite !bytesLe_cons. intros [?|[-> ?]] [?|[-> ?]]; [left; lia|by left|by left|].
  right. split; [done|]. by eapply IH.
Qed.

Lemma bytesLe_antisym a b : bytesLe a b = true → bytesLe b a = true → a = b.
Proof.
  revert b. induction a as [|x a IH]; intros [|y b]; try done.
  rewrite !bytesLe_cons. intros [?|[-> ?]] [?|[? ?]]; [lia..|]. f_equal. by apply IH.
Qed.

Lemma bytesLe_total a b : bytesLe a b = true ∨ bytesLe b a = true.
Proof.
  revert b. induction a as [|x a IH]; intros [|y b]; [by left|by left|by right|].
  rewrite !bytesLe_cons. destruct (Z.lt_trichotomy x y) as [|[->|]]; [by left; left| |by right; left].
  destruct (IH b); [left|right]; by right.
Qed.

#[export] Instance bytes_order : KeyOrder bytes_le.
Proof.
  split; unfold bytes_le.
  - intros a b c. apply bytesLe_trans.
  - intros a b. apply bytesLe_antisym.
  - intros a b. apply bytesLe_total.
Qed.

#[export] Instance Z_order : KeyOrder Z.le.
Proof. split; [intros ???|intros ??|intros ??]; lia. Qed.

#[export] Instance pair_order : KeyOrder pair_le.
Proof.
  split; unfold pair_le.
  - intros [] [] []; cbn. lia.
  - intros [] []; cbn. intros ? ?. f_equal; lia.
  - intros [] []; cbn. lia.
Qed.

(** The order of rows by a key, for [sort.Slice]. *)
Definition byKey {A} (key : A → Z) (a b : A) : Prop := key a ≤ key b.
#[export] Instance byKey_dec {A} (key : A → Z) a b : Decision (byKey key a b).
Proof. unfold byKey. apply _. Defined.

(** [a <= b] of Go strings: the order of [sort.Strings], byte by byte. *)
Definition string_le (a b : string) : Prop := String.compare a b ≠ Gt.
#[export] Instance string_le_dec a b : Decision (string_le a b).
Proof. unfold string_le. apply _. Defined.

Lemma string_le_cons x y a b :
  string_le (String x a) (String y b) ↔
  (Ascii.N_of_ascii x < Ascii.N_of_ascii y)%N ∨ (x = y ∧ string_le a b).
Proof.
  unfold string_le. cbn [String.compare]. unfold Ascii.compare.
  destruct (N.compare_spec (Ascii.N_of_ascii x) (Ascii.N_of_ascii y)) as [He|Hl|Hg].
  - apply (f_equal Ascii.ascii_of_N) in He. rewrite !Ascii.ascii_N_embedding in He. subst.
    split; [intros ?; by right|]. intros [?|[_ ?]]; [lia|done].
  - split; [intros _; by left|done].
  - split; [done|]. intros [?|[-> _]]; lia.
Qed.

#[export] Instance string_order : KeyOrder string_le.
Proof.
  split.
  - intros a. induction a as [|x a IH]; intros [|y b] [|z c]; try done.
    rewrite !string_le_cons. intros [?|[-> ?]] [?|[-> ?]]; [left; lia|by left|by left|].
    right. split; [done|]. by eapply IH.
  - intros a. induction a as [|x a IH]; intros [|y b]; try done.
    rewrite !string_le_cons. intros [?|[-> ?]] [?|[? ?]]; [lia|subst; lia|lia|]. f_equal. by apply IH.
  - intros a. induction a as [|x a IH]; intros [|y b]; [by left|by left|by right|].
    rewrite !string_le_cons. destruct (N.lt_trichotomy (Ascii.N_of_ascii x) (Ascii.N_of_ascii y)) as [|[He|]];
      [by left; left| |by right; left].
    apply (f_equal Ascii.ascii_of_N) in He. rewrite !Ascii.ascii_N_embedding in He. subst.
    destruct (IH b); [left|right]; by right.
Qed.

(** The keys of a map in the order [le]. *)
Definition sortedKeys {MR : MapRange} {K V} `{Countable K} (le : relation K)
    `{∀ x y, Decision (le x y)} (m : gmap K V) : list K :=
  merge_sort le (range m).*1.

Section sorted_keys.
Context {K V : Type} `{Countable K} (le : relation K) `{∀ x y, Decision (le x y)} `{!KeyOrder le}.
Implicit Types m : gmap K V.

Lemma sortedKeys_Permutation {MR : MapRange} m : sortedKeys le m ≡ₚ (map_to_list m).*1.
  Proof. unfold sortedKeys. by rewrite merge_sort_Permutation, range_perm. Qed.

Lemma elem_of_sortedKeys {MR : MapRange} m k : k ∈ sortedKeys le m ↔ is_Some (m !! k).
  Proof.
    rewrite sortedKeys_Permutation, list_elem_of_fmap. split.
    - intros ([k' v] & -> & Hkv). exists v. by apply elem_of_map_to_list.
    - intros [v Hv]. exists (k, v). by rewrite elem_of_map_to_list.
  Qed.

Lemma NoDup_sortedKeys {MR : MapRange} m : NoDup (sortedKeys le m).
  Proof. rewrite sortedKeys_Permutation. apply NoDup_fst_map_to_list. Qed.

Lemma length_sortedKeys {MR : MapRange} m : length (sortedKeys le m) = size m.
  Proof. by rewrite sortedKeys_Permutation, length_fmap, length_map_to_list. Qed.

Lemma StronglySorted_sortedKeys {MR : MapRange} m : StronglySorted le (sortedKeys le m).
  Proof. apply StronglySorted_merge_sort; apply _. Qed.

  (** The iteration order does not matter. *)
Lemma sortedKeys_unique m (MR1 MR2 : MapRange) :
    @sortedKeys MR1 _ _ _ _ le _ m = @sortedKeys MR2 _ _ _ _ le _ m.
  Proof.
    apply (StronglySorted_unique le); [apply (@StronglySorted_sortedKeys MR1)|apply (@StronglySorted_sortedKeys MR2)|].
    by rewrite (@sortedKeys_Permutation MR1), (@sortedKeys_Permutation MR2).
  Qed.

  (** A strictly sorted list of keys is the sorted key list of any map with these keys. *)
Lemma sortedKeys_eq {MR : MapRange} m l :
    StronglySorted le l → NoDup l → (∀ k, k ∈ l ↔ is_Some (m !! k)) → sortedKeys le m = l.
  Proof.
    intros Hl Hnd Hk. apply (StronglySorted_unique le); [apply StronglySorted_sortedKeys|done|].
    apply NoDup_Permutation; [apply NoDup_sortedKeys|done|]. intros k. by rewrite elem_of_sortedKeys, Hk.
  Qed.
End sorted_keys.
