(* ===== verification/MeTypes.v ===== *)
(** * Managed entity definitions: the types

    The data types of the vendored package [generated] of omci-lib-go
    (src/vendor/github.com/opencord/omci-lib-go/v2/generated): attribute
    values, attribute definitions with the field constructors the class tables
    are written with, and managed entity definitions. *)

From S2P Require Import Prelude.

(** [TableRows]. *)
Record TableRows := mkRows { NumRows : Z; Rows : list Z }.
#[export] Instance TableRows_eq_dec : EqDecision TableRows.
Proof. solve_decision. Defined.

(** The dynamic value of an [interface{}] attribute: the types the code tests for, and
    [VOther] for a value of any other dynamic type. *)
Inductive Value :=
| VNil
| VU8 (x : Z)
| VU16 (x : Z)
| VU32 (x : Z)
| VU64 (x : Z)
| VOctets (l : list Z)
| VU16s (l : list Z)
| VU32s (l : list Z)
| VU64s (l : list Z)
| VTable (t : TableRows)
| VOther (s : string).
#[export] Instance Value_eq_dec : EqDecision Value.
Proof. solve_decision. Defined.

Abbreviation AttributeValueMap := (gmap string Value).

Inductive AttributeType :=
| UnknownAttributeType | OctetsAttributeType | StringAttributeType
| UnsignedIntegerAttributeType | TableAttributeType | SignedIntegerAttributeType
| PointerAttributeType | BitFieldAttributeType | EnumerationAttributeType
| CounterAttributeType.
#[export] Instance AttributeType_eq_dec : EqDecision AttributeType.
Proof. solve_decision. Defined.

Inductive AttributeAccess := Read | Write | SetByCreate.
#[export] Instance AttributeAccess_eq_dec : EqDecision AttributeAccess.
Proof. solve_decision. Defined.

Inductive ClassAccess := UnknownAccess | CreatedByOnu | CreatedByOlt | CreatedByBoth.
#[export] Instance ClassAccess_eq_dec : EqDecision ClassAccess.
Proof. solve_decision. Defined.

Inductive ClassSupport :=
| UnknownSupport | Supported | Unsupported | PartiallySupported | Ignored
| UnsupportedManagedEntity | UnsupportedVendorSpecificManagedEntity.
#[export] Instance ClassSupport_eq_dec : EqDecision ClassSupport.
Proof. solve_decision. Defined.

(** [MsgType] values. *)
Definition Create : Z := 4.
Definition Delete : Z := 6.
Definition SetMsg : Z := 8.
Definition GetMsg : Z := 9.
Definition GetAllAlarms : Z := 11.
Definition GetAllAlarmsNext : Z := 12.
Definition MibUpload : Z := 13.
Definition MibUploadNext : Z := 14.
Definition MibReset : Z := 15.
Definition AlarmNotification : Z := 16.
Definition AttributeValueChange : Z := 17.
Definition TestMsg : Z := 18.
Definition StartSoftwareDownload : Z := 19.
Definition DownloadSection : Z := 20.
Definition EndSoftwareDownload : Z := 21.
Definition ActivateSoftware : Z := 22.
Definition CommitSoftware : Z := 23.
Definition SynchronizeTime : Z := 24.
Definition RebootMsg : Z := 25.
Definition GetNextMsg : Z := 26.
Definition TestResult : Z := 27.
Definition GetCurrentData : Z := 28.
Definition SetTableMsg : Z := 29.

(** [AttributeDefinition]. The library's constructors never set [Constraint], so every
    definition has a nil constraint; [Access] is a set of accesses. *)
Record AttributeDefinition := mkAttr {
  Name : string;
  AttrType : AttributeType;
  Index : Z;
  Mask : Z;
  DefValue : Value;
  Size : Z;
  Access : list AttributeAccess;
  Avc : bool;
  Optional : bool;
  Deprecated : bool
}.

Definition ByteField (name : string) (ty : AttributeType) (mask defVal : Z)
    (access : list AttributeAccess) (avc optional deprecated : bool) (index : Z) :=
  mkAttr name ty index mask (VU8 defVal) 1 access avc optional deprecated.

Definition Uint16Field (name : string) (ty : AttributeType) (mask defVal : Z)
    (access : list AttributeAccess) (avc optional deprecated : bool) (index : Z) :=
  mkAttr name ty index mask (VU16 defVal) 2 access avc optional deprecated.

Definition Uint32Field (name : string) (ty : AttributeType) (mask defVal : Z)
    (access : list AttributeAccess) (avc optional deprecated : bool) (index : Z) :=
  mkAttr name ty index mask (VU32 defVal) 4 access avc optional deprecated.

Definition Uint64Field (name : string) (ty : AttributeType) (mask defVal : Z)
    (access : list AttributeAccess) (avc optional deprecated : bool) (index : Z) :=
  mkAttr name ty index mask (VU64 defVal) 8 access avc optional deprecated.

Definition MultiByteField (name : string) (ty : AttributeType) (mask size : Z) (defVal : list Z)
    (access : list AttributeAccess) (avc optional deprecated : bool) (index : Z) :=
  mkAttr name ty index mask (VOctets defVal) size access avc optional deprecated.

(** Every [TableInfo] of the class tables has a nil value. *)
Definition TableField (name : string) (ty : AttributeType) (mask size : Z)
    (access : list AttributeAccess) (avc optional deprecated : bool) (index : Z) :=
  mkAttr name ty index mask VNil size access avc optional deprecated.

(** [ManagedEntityDefinition]; [Alarms] keeps the alarm bits, not the alarm names. *)
Record ManagedEntityDefinition := mkDef {
  DefName : string;
  ClassID : Z;
  MessageTypes : list Z;
  AllowedAttributeMask : Z;
  AttributeDefinitions : gmap Z AttributeDefinition;
  DefAccess : ClassAccess;
  Support : ClassSupport;
  Alarms : list Z
}.

(** The map literal of a class table: the attributes in the order of their indices. *)
Definition attrs (l : list AttributeDefinition) : gmap Z AttributeDefinition :=
  list_to_map (map (λ a, (Index a, a)) l).

Definition ManagedEntityID : string := "ManagedEntityId".
