(* ===== verification/MeClasses.v ===== *)
(** * Managed entity definitions: the class tables

    The G.988 class tables of the vendored package [generated] of omci-lib-go
    (one Go file for each class, src/vendor/github.com/opencord/omci-lib-go/v2/generated/),
    the two tables of unknown classes and the map from class ids to tables
    (classidmap.go).  The file is data: the operations on it are in MeLib.v. *)

From S2P Require Import Prelude MeTypes.

#[local] Open Scope string_scope.
#[local] Open Scope Z_scope.

Definition aal5performancemonitoringhistorydataBME : ManagedEntityDefinition :=
  mkDef "Aal5PerformanceMonitoringHistoryData" 18 [Create; Delete; GetMsg; SetMsg; GetCurrentData] 65024 (attrs [
    Uint16Field "ManagedEntityId" PointerAttributeType 0 0 [Read; SetByCreate] false false false 0;
    ByteField "IntervalEndTime" UnsignedIntegerAttributeType 32768 0 [Read] false false false 1;
    Uint16Field "ThresholdData12Id" UnsignedIntegerAttributeType 16384 0 [Read; SetByCreate; Write] false false false 2;
    Uint32Field "SumOfInvalidCsFieldErrors" CounterAttributeType 8192 0 [Read] false false false 3;
    Uint32Field "CrcViolations" CounterAttributeType 4096 0 [Read] false false false 4;
    Uint32Field "ReassemblyTimerExpirations" CounterAttributeType 2048 0 [Read] false false false 5;
    Uint32Field "BufferOverflows" CounterAttributeType 1024 0 [Read] false false false 6;
    Uint32Field "EncapProtocolErrors" CounterAttributeType 512 0 [Read] false false false 7])
    CreatedByOlt UnknownSupport [0; 1; 2; 3; 4].

Definition aal5profileBME : ManagedEntityDefinition :=
  mkDef "Aal5Profile" 16 [Create; Delete; GetMsg; SetMsg] 57344 (attrs [
    Uint16Field "ManagedEntityId" PointerAttributeType 0 0 [Read; SetByCreate] false false false 0;
    Uint16Field "MaxCpcsPduSize" UnsignedIntegerAttributeType 32768 0 [Read; SetByCreate; Write] false false false 1;
    ByteField "AalMode" UnsignedIntegerAttributeType 16384 0 [Read; SetByCreate; Write] false false false 2;
    ByteField "SscsType" UnsignedIntegerAttributeType 8192 0 [Read; SetByCreate; Write] false false false 3])
    CreatedByOlt UnknownSupport [].

Definition anigBME : ManagedEntityDefinition :=
  mkDef "AniG" 263 [GetMsg; SetMsg; TestMsg] 65535 (attrs [
    Uint16Field "ManagedEntityId" PointerAttributeType 0 0 [Read] false false false 0;
    ByteField "SrIndication" EnumerationAttributeType 32768 0 [Read] false false false 1;
    Uint16Field "TotalTcontNumber" UnsignedIntegerAttributeType 16384 0 [Read] false false false 2;
    Uint16Field "GemBlockLength" UnsignedIntegerAttributeType 8192 0 [Read; Write] false false false 3;
    ByteField "PiggybackDbaReporting" EnumerationAttributeType 4096 0 [Read] false false false 4;
    ByteField "Deprecated" UnsignedIntegerAttributeType 2048 0 [Read] false false true 5;
    ByteField "SignalFailThreshold" UnsignedIntegerAttributeType 1024 5 [Read; Write] false false false 6;
    ByteField "SignalDegradeThreshold" UnsignedIntegerAttributeType 512 9 [Read; Write] false false false 7;
    ByteField "Arc" EnumerationAttributeType 256 0 [Read; Write] true true false 8;
    ByteField "ArcInterval" UnsignedIntegerAttributeType 128 0 [Read; Write] false true false 9;
    Uint16Field "OpticalSignalLevel" SignedIntegerAttributeType 64 0 [Read] false true false 10;
    ByteField "LowerOpticalThreshold" SignedIntegerAttributeType 32 255 [Read; Write] false true false 11;
    ByteField "UpperOpticalThreshold" SignedIntegerAttributeType 16 255 [Read; Write] false true false 12;
    Uint16Field "OnuResponseTime" UnsignedIntegerAttributeType 8 35000 [Read] false true false 13;
    Uint16Field "TransmitOpticalLevel" SignedIntegerAttributeType 4 0 [Read] false true false 14;
    ByteField "LowerTransmitPowerThreshold" SignedIntegerAttributeType 2 129 [Read; Write] false true false 15;
    ByteField "UpperTransmitPowerThreshold" SignedIntegerAttributeType 1 129 [Read; Write] false true false 16])
    CreatedByOnu UnknownSupport [0; 1; 2; 3; 4; 5; 6].

Definition attributemeBME : ManagedEntityDefinition :=
  mkDef "AttributeMe" 289 [GetMsg; GetNextMsg] 65408 (attrs [
    Uint16Field "ManagedEntityId" PointerAttributeType 0 0 [Read] false false false 0;
    MultiByteField "Name" OctetsAttributeType 32768 25 (replicate 25 0) [Read] false false false 1;
    Uint16Field "Size" UnsignedIntegerAttributeType 16384 0 [Read] false false false 2;
    ByteField "Access" UnsignedIntegerAttributeType 8192 0 [Read] false false false 3;
    ByteField "Format" UnsignedIntegerAttributeType 4096 0 [Read] false false false 4;
    Uint32Field "LowerLimit" UnsignedIntegerAttributeType 2048 0 [Read] false false false 5;
    Uint32Field "UpperLimit" UnsignedIntegerAttributeType 1024 0 [Read] false false false 6;
    Uint32Field "BitField" UnsignedIntegerAttributeType 512 0 [Read] false false false 7;
    TableField "CodePointsTable" TableAttributeType 256 2 [Read] false false false 8;
    ByteField "Support" UnsignedIntegerAttributeType 128 0 [Read] false false false 9])
    CreatedByOnu UnknownSupport [].

Definition authenticationsecuritymethodBME : ManagedEntityDefinition :=
  mkDef "AuthenticationSecurityMethod" 148 [Create; Delete; GetMsg; SetMsg] 63488 (attrs [
    Uint16Field "ManagedEntityId" PointerAttributeType 0 0 [Read; SetByCreate] false false false 0;
    ByteField "ValidationScheme" UnsignedIntegerAttributeType 32768 0 [Read; Write] false false false 1;
    MultiByteField "Username1" OctetsAttributeType 16384 25 (replicate 25 0) [Read; Write] false false false 2;
    MultiByteField "Password" OctetsAttributeType 8192 25 (replicate 25 0) [Read; Write] false false false 3;
    MultiByteField "Realm" OctetsAttributeType 4096 25 (replicate 25 0) [Read; Write] false false false 4;
    MultiByteField "Username2" OctetsAttributeType 2048 25 (replicate 25 0) [Read; Write] false true false 5])
    CreatedByOlt UnknownSupport [].

Definition bbftr069managementserverBME : ManagedEntityDefinition :=
  mkDef "BbfTr069ManagementServer" 340 [GetMsg; SetMsg] 57344 (attrs [
    Uint16Field "ManagedEntityId" PointerAttributeType 0 0 [Read] false false false 0;
    ByteField "AdministrativeState" UnsignedIntegerAttributeType 32768 0 [Read; Write] false false false 1;
    Uint16Field "AcsNetworkAddress" UnsignedIntegerAttributeType 16384 0 [Read; Write] false false false 2;
    Uint16Field "AssociatedTag" UnsignedIntegerAttributeType 8192 0 [Read; Write] false false false 3])
    CreatedByOnu UnknownSupport [].

Definition callcontrolperformancemonitoringhistorydataBME : ManagedEntityDefinition :=
  mkDef "CallControlPerformanceMonitoringHistoryData" 140 [Create; Delete; GetMsg; SetMsg; GetCurrentData] 65024 (attrs [
    Uint16Field "ManagedEntityId" PointerAttributeType 0 0 [Read; SetByCreate] false false false 0;
    ByteField "IntervalEndTime" UnsignedIntegerAttributeType 32768 0 [Read] false false false 1;
    Uint16Field "ThresholdData12Id" UnsignedIntegerAttributeType 16384 0 [Read; SetByCreate; Write] false false false 2;
    Uint32Field "CallSetupFailures" CounterAttributeType 8192 0 [Read] false false false 3;
    Uint32Field "CallSetupTimer" CounterAttributeType 4096 0 [Read] false false false 4;
    Uint32Field "CallTerminateFailures" CounterAttributeType 2048 0 [Read] false false false 5;
    Uint32Field "AnalogPortReleases" CounterAttributeType 1024 0 [Read] false false false 6;
    Uint32Field "AnalogPortOffHookTimer" CounterAttributeType 512 0 [Read] false false false 7])
    CreatedByOlt UnknownSupport [0; 1; 2; 3; 4].

Definition cardholderBME : ManagedEntityDefinition :=
  mkDef "Cardholder" 5 [GetMsg; SetMsg] 65408 (attrs [
    Uint16Field "ManagedEntityId" PointerAttributeType 0 0 [Read] false false false 0;
    ByteField "ActualPlugInUnitType" EnumerationAttributeType 32768 0 [Read] true false false 1;
    ByteField "ExpectedPlugInUnitType" EnumerationAttributeType 16384 0 [Read; Write] false false false 2;
    ByteField "ExpectedPortCount" UnsignedIntegerAttributeType 8192 0 [Read; Write] false true false 3;
    MultiByteField "ExpectedEquipmentId" StringAttributeType 4096 20 (replicate 20 32) [Read; Write] false true false 4;
    MultiByteField "ActualEquipmentId" StringAttributeType 2048 20 (replicate 20 32) [Read] true true false 5;
    ByteField "ProtectionProfilePointer" UnsignedIntegerAttributeType 1024 0 [Read] false true false 6;
    ByteField "InvokeProtectionSwitch" EnumerationAttributeType 512 0 [Read; Write] false true false 7;
    ByteField "AlarmReportingControl" EnumerationAttributeType 256 0 [Read; Write] true true false 8;
    ByteField "ArcInterval" UnsignedIntegerAttributeType 128 0 [Read; Write] false true false 9])
    CreatedByOnu UnknownSupport [0; 1; 2; 3; 4].

Definition cesserviceprofileBME : ManagedEntityDefinition :=
  mkDef "CesServiceProfile" 21 [Create; Delete; GetMsg; SetMsg] 49152 (attrs [
    Uint16Field "ManagedEntityId" PointerAttributeType 0 0 [Read; SetByCreate] false false false 0;
    Uint16Field "CesBufferedCdvTolerance" UnsignedIntegerAttributeType 32768 0 [Read; SetByCreate; Write] false false false 1;
    ByteField "ChannelAssociatedSignallingCas" UnsignedIntegerAttributeType 16384 0 [Read; SetByCreate; Write] false true false 2])
    CreatedByOlt UnknownSupport [].

Definition circuitpackBME : ManagedEntityDefinition :=
  mkDef "CircuitPack" 6 [GetMsg; SetMsg; Create; Delete] 65532 (attrs [
    Uint16Field "ManagedEntityId" PointerAttributeType 0 0 [Read; SetByCreate] false false false 0;
    ByteField "Type" EnumerationAttributeType 32768 0 [Read; SetByCreate] false false false 1;
    ByteField "NumberOfPorts" UnsignedIntegerAttributeType 16384 0 [Read] false true false 2;
    MultiByteField "SerialNumber" OctetsAttributeType 8192 8 (replicate 8 32) [Read] false false false 3;
    MultiByteField "Version" OctetsAttributeType 4096 14 (replicate 14 32) [Read] false false false 4;
    MultiByteField "VendorId" StringAttributeType 2048 4 (replicate 4 32) [Read] false true false 5;
    ByteField "AdministrativeState" EnumerationAttributeType 1024 0 [Read; Write] false false false 6;
    ByteField "OperationalState" EnumerationAttributeType 512 2 [Read] true true false 7;
    ByteField "BridgedOrIpInd" EnumerationAttributeType 256 0 [Read; Write] false false false 8;
    MultiByteField "EquipmentId" StringAttributeType 128 20 (replicate 20 32) [Read] false true false 9;
    ByteField "CardConfiguration" EnumerationAttributeType 64 0 [Read; SetByCreate; Write] false false false 10;
    ByteField "TotalTContBufferNumber" UnsignedIntegerAttributeType 32 0 [Read] false false false 11;
    ByteField "TotalPriorityQueueNumber" UnsignedIntegerAttributeType 16 0 [Read] false false false 12;
    ByteField "TotalTrafficSchedulerNumber" UnsignedIntegerAttributeType 8 0 [Read] false false false 13;
    Uint32Field "PowerShedOverride" BitFieldAttributeType 4 0 [Read; Write] false true false 14])
    CreatedByOnu UnknownSupport [0; 1; 2; 3; 4; 5].

Definition dot1agcfmstackBME : ManagedEntityDefinition :=
  mkDef "Dot1AgCfmStack" 305 [GetMsg; GetNextMsg] 57344 (attrs [
    Uint16Field "ManagedEntityId" PointerAttributeType 0 0 [Read] false false false 0;
    ByteField "Layer2Type" UnsignedIntegerAttributeType 32768 0 [Read] false false false 1;
    TableField "MpStatusTable" TableAttributeType 16384 18 [Read] false false false 2;
    TableField "ConfigurationErrorListTable" TableAttributeType 8192 5 [Read] true false false 3])
    CreatedByOnu UnknownSupport [].

Definition dot1agchassismanagementinfoBME : ManagedEntityDefinition :=
  mkDef "Dot1AgChassisManagementInfo" 306 [GetMsg; SetMsg] 65472 (attrs [
    Uint16Field "ManagedEntityId" PointerAttributeType 0 0 [Read] false false false 0;
    ByteField "ChassisIdLength" UnsignedIntegerAttributeType 32768 0 [Read; Write] false false false 1;
    ByteField "ChassisIdSubtype" UnsignedIntegerAttributeType 16384 0 [Read; Write] false false false 2;
    MultiByteField "ChassisIdPart1" OctetsAttributeType 8192 25 (replicate 25 0) [Read; Write] false false false 3;
    MultiByteField "ChassisIdPart2" OctetsAttributeType 4096 25 (replicate 25 0) [Read; Write] false false false 4;
    ByteField "ManagementAddressDomainLength" UnsignedIntegerAttributeType 2048 0 [Read; Write] false false false 5;
    MultiByteField "ManagementAddressDomain1" OctetsAttributeType 1024 25 (replicate 25 0) [Read; Write] false false false 6;
    MultiByteField "ManagementAddressDomain2" OctetsAttributeType 512 25 (replicate 25 0) [Read; Write] false false false 7;
    ByteField "ManagementAddressLength" UnsignedIntegerAttributeType 256 0 [Read; Write] false false false 8;
    MultiByteField "ManagementAddress1" OctetsAttributeType 128 25 (replicate 25 0) [Read; Write] false false false 9;
    MultiByteField "ManagementAddress2" OctetsAttributeType 64 25 (replicate 25 0) [Read; Write] false false false 10])
    CreatedByOnu UnknownSupport [].

Definition dot1agdefaultmdlevelBME : ManagedEntityDefinition :=
  mkDef "Dot1AgDefaultMdLevel" 301 [GetMsg; GetNextMsg; SetMsg; SetTableMsg] 63488 (attrs [
    Uint16Field "ManagedEntityId" PointerAttributeType 0 0 [Read] false false false 0;
    ByteField "Layer2Type" UnsignedIntegerAttributeType 32768 0 [Read] false false false 1;
    ByteField "CatchallLevel" UnsignedIntegerAttributeType 16384 0 [Read; Write] false false false 2;
    ByteField "CatchallMhfCreation" UnsignedIntegerAttributeType 8192 0 [Read; Write] false false false 3;
    ByteField "CatchallSenderIdPermission" UnsignedIntegerAttributeType 4096 0 [Read; Write] false false false 4;
    TableField "DefaultMdLevelTable" TableAttributeType 2048 29 [Read; Write] false false false 5])
    CreatedByOnu UnknownSupport [].

Definition dot1agmaintenanceassociationBME : ManagedEntityDefinition :=
  mkDef "Dot1AgMaintenanceAssociation" 300 [Create; Delete; GetMsg; SetMsg] 65024 (attrs [
    Uint16Field "ManagedEntityId" PointerAttributeType 0 0 [Read; SetByCreate] false false false 0;
    Uint16Field "MdPointer" UnsignedIntegerAttributeType 32768 0 [Read; SetByCreate; Write] false false false 1;
    ByteField "ShortMaNameFormat" UnsignedIntegerAttributeType 16384 0 [Read; SetByCreate; Write] false false false 2;
    MultiByteField "ShortMaName1" OctetsAttributeType 8192 25 (replicate 25 0) [Read; Write] false false false 3;
    MultiByteField "ShortMaName2" OctetsAttributeType 4096 25 (replicate 25 0) [Read; Write] false false false 4;
    ByteField "ContinuityCheckMessageCcmInterval" UnsignedIntegerAttributeType 2048 0 [Read; SetByCreate; Write] false false false 5;
    Uint16Field "AssociatedVlans" UnsignedIntegerAttributeType 1024 0 [Read; Write] false false false 6;
    ByteField "MhfCreation" UnsignedIntegerAttributeType 512 0 [Read; SetByCreate; Write] false false false 7])
    CreatedByOlt UnknownSupport [].

Definition dot1agmaintenancedomainBME : ManagedEntityDefinition :=
  mkDef "Dot1AgMaintenanceDomain" 299 [Create; Delete; GetMsg; SetMsg] 64512 (attrs [
    Uint16Field "ManagedEntityId" PointerAttributeType 0 0 [Read; SetByCreate] false false false 0;
    ByteField "MdLevel" UnsignedIntegerAttributeType 32768 0 [Read; SetByCreate; Write] false false false 1;
    ByteField "MdNameFormat" UnsignedIntegerAttributeType 16384 0 [Read; SetByCreate; Write] false false false 2;
    MultiByteField "MdName1" OctetsAttributeType 8192 25 (replicate 25 0) [Read; Write] false false false 3;
    MultiByteField "MdName2" OctetsAttributeType 4096 25 (replicate 25 0) [Read; Write] false false false 4;
    ByteField "MaintenanceDomainIntermediatePointHalfFunctionMhfCreation" UnsignedIntegerAttributeType 2048 0 [Read; SetByCreate; Write] false false false 5;
    ByteField "SenderIdPermission" UnsignedIntegerAttributeType 1024 0 [Read; SetByCreate; Write] false false false 6])
    CreatedByOlt UnknownSupport [].

Definition dot1agmepBME : ManagedEntityDefinition :=
  mkDef "Dot1AgMep" 302 [Create; Delete; GetMsg; SetMsg] 65532 (attrs [
    Uint16Field "ManagedEntityId" PointerAttributeType 0 0 [Read; SetByCreate] false false false 0;
    Uint16Field "Layer2EntityPointer" UnsignedIntegerAttributeType 32768 0 [Read; SetByCreate; Write] false false false 1;
    ByteField "Layer2Type" UnsignedIntegerAttributeType 16384 0 [Read; SetByCreate; Write] false false false 2;
    Uint16Field "MaPointer" UnsignedIntegerAttributeType 8192 0 [Read; SetByCreate; Write] false false false 3;
    Uint16Field "MepId" UnsignedIntegerAttributeType 4096 0 [Read; SetByCreate; Write] false false false 4;
    ByteField "MepControl" UnsignedIntegerAttributeType 2048 0 [Read; SetByCreate; Write] false false false 5;
    Uint16Field "PrimaryVlan" UnsignedIntegerAttributeType 1024 0 [Read; SetByCreate; Write] false false false 6;
    ByteField "AdministrativeState" UnsignedIntegerAttributeType 512 0 [Read; SetByCreate; Write] false false false 7;
    ByteField "CcmAndLtmPriority" UnsignedIntegerAttributeType 256 0 [Read; SetByCreate; Write] false false false 8;
    Uint64Field "EgressIdentifier" UnsignedIntegerAttributeType 128 0 [Read; SetByCreate; Write] false false false 9;
    MultiByteField "PeerMepIds" OctetsAttributeType 64 24 (replicate 24 0) [Read; Write] false false false 10;
    ByteField "EthAisControl" UnsignedIntegerAttributeType 32 0 [Read; SetByCreate; Write] false false false 11;
    ByteField "FaultAlarmThreshold" UnsignedIntegerAttributeType 16 0 [Read; SetByCreate; Write] false true false 12;
    Uint16Field "AlarmDeclarationSoakTime" UnsignedIntegerAttributeType 8 0 [Read; Write] false false false 13;
    Uint16Field "AlarmClearSoakTime" UnsignedIntegerAttributeType 4 0 [Read; Write] false false false 14])
    CreatedByOlt UnknownSupport [0; 1; 2; 3; 4; 5; 6].

Definition dot1ratelimiterBME : ManagedEntityDefinition :=
  mkDef "Dot1RateLimiter" 298 [Create; Delete; GetMsg; SetMsg] 63488 (attrs [
    Uint16Field "ManagedEntityId" PointerAttributeType 0 0 [Read; SetByCreate] false false false 0;
    Uint16Field "ParentMePointer" UnsignedIntegerAttributeType 32768 0 [Read; SetByCreate; Write] false false false 1;
    ByteField "TpType" UnsignedIntegerAttributeType 16384 0 [Read; SetByCreate; Write] false false false 2;
    Uint16Field "UpstreamUnicastFloodRatePointer" UnsignedIntegerAttributeType 8192 0 [Read; SetByCreate; Write] false true false 3;
    Uint16Field "UpstreamBroadcastRatePointer" UnsignedIntegerAttributeType 4096 0 [Read; SetByCreate; Write] false true false 4;
    Uint16Field "UpstreamMulticastPayloadRatePointer" UnsignedIntegerAttributeType 2048 0 [Read; SetByCreate; Write] false true false 5])
    CreatedByOlt UnknownSupport [].

Definition dot1xconfigurationprofileBME : ManagedEntityDefinition :=
  mkDef "Dot1XConfigurationProfile" 291 [GetMsg; SetMsg] 65472 (attrs [
    Uint16Field "ManagedEntityId" PointerAttributeType 0 0 [Read] false false false 0;
    Uint16Field "CircuitIdPrefix" UnsignedIntegerAttributeType 32768 0 [Read; Write] false false false 1;
    ByteField "FallbackPolicy" UnsignedIntegerAttributeType 16384 0 [Read; Write] false false false 2;
    Uint16Field "AuthServer1" UnsignedIntegerAttributeType 8192 0 [Read; Write] false false false 3;
    MultiByteField "SharedSecretAuth1" OctetsAttributeType 4096 25 (replicate 25 0) [Read; Write] false false false 4;
    Uint16Field "AuthServer2" UnsignedIntegerAttributeType 2048 0 [Read; Write] false true false 5;
    MultiByteField "SharedSecretAuth2" OctetsAttributeType 1024 25 (replicate 25 0) [Read; Write] false true false 6;
    Uint16Field "AuthServer3" UnsignedIntegerAttributeType 512 0 [Read; Write] false true false 7;
    MultiByteField "SharedSecretAuth3" OctetsAttributeType 256 25 (replicate 25 0) [Read; Write] false true false 8;
    Uint32Field "OltProxyAddress" UnsignedIntegerAttributeType 128 0 [Read; Write] false true false 9;
    Uint16Field "CallingStationIdFormat" UnsignedIntegerAttributeType 64 0 [Read; Write] false true false 10])
    CreatedByOnu UnknownSupport [].

Definition dot1xperformancemonitoringhistorydataBME : ManagedEntityDefinition :=
  mkDef "Dot1XPerformanceMonitoringHistoryData" 292 [Create; Delete; GetMsg; SetMsg; GetCurrentData] 65532 (attrs [
    Uint16Field "ManagedEntityId" PointerAttributeType 0 0 [Read; SetByCreate] false false false 0;
    ByteField "IntervalEndTime" UnsignedIntegerAttributeType 32768 0 [Read] false false false 1;
    Uint16Field "ThresholdData12Id" UnsignedIntegerAttributeType 16384 0 [Read; SetByCreate; Write] false false false 2;
    Uint32Field "EapolFramesReceived" CounterAttributeType 8192 0 [Read] false false false 3;
    Uint32Field "EapolFramesTransmitted" CounterAttributeType 4096 0 [Read] false false false 4;
    Uint32Field "EapolStartFramesReceived" CounterAttributeType 2048 0 [Read] false false false 5;
    Uint32Field "EapolLogoffFramesReceived" CounterAttributeType 1024 0 [Read] false false false 6;
    Uint32Field "InvalidEapolFramesReceived" CounterAttributeType 512 0 [Read] false false false 7;
    Uint32Field "EapRespIdFramesReceived" CounterAttributeType 256 0 [Read] false false false 8;
    Uint32Field "EapResponseFramesReceived" CounterAttributeType 128 0 [Read] false false false 9;
    Uint32Field "EapInitialRequestFramesTransmitted" CounterAttributeType 64 0 [Read] false false false 10;
    Uint32Field "EapRequestFramesTransmitted" CounterAttributeType 32 0 [Read] false false false 11;
    Uint32Field "EapLengthErrorFramesReceived" CounterAttributeType 16 0 [Read] false false false 12;
    Uint32Field "EapSuccessFramesGeneratedAutonomously" CounterAttributeType 8 0 [Read] false false false 13;
    Uint32Field "EapFailureFramesGeneratedAutonomously" CounterAttributeType 4 0 [Read] false false false 14])
    CreatedByOlt UnknownSupport [4; 9].

Definition dot1xportextensionpackageBME : ManagedEntityDefinition :=
  mkDef "Dot1XPortExtensionPackage" 290 [GetMsg; SetMsg] 65520 (attrs [
    Uint16Field "ManagedEntityId" PointerAttributeType 0 0 [Read] false false false 0;
    ByteField "Dot1XEnable" UnsignedIntegerAttributeType 32768 0 [Read; Write] false false false 1;
    ByteField "ActionRegister" UnsignedIntegerAttributeType 16384 0 [Write] false false false 2;
    ByteField "AuthenticatorPaeState" UnsignedIntegerAttributeType 8192 0 [Read] false true false 3;
    ByteField "BackendAuthenticationState" UnsignedIntegerAttributeType 4096 0 [Read] false true false 4;
    ByteField "AdminControlledDirections" UnsignedIntegerAttributeType 2048 0 [Read; Write] false true false 5;
    ByteField "OperationalControlledDirections" UnsignedIntegerAttributeType 1024 0 [Read] false true false 6;
    ByteField "AuthenticatorControlledPortStatus" UnsignedIntegerAttributeType 512 0 [Read] false true false 7;
    Uint16Field "QuietPeriod" UnsignedIntegerAttributeType 256 0 [Read; Write] false true false 8;
    Uint16Field "ServerTimeoutPeriod" UnsignedIntegerAttributeType 128 0 [Read; Write] false true false 9;
    Uint16Field "ReAuthenticationPeriod" UnsignedIntegerAttributeType 64 0 [Read] false true false 10;
    ByteField "ReAuthenticationEnabled" UnsignedIntegerAttributeType 32 0 [Read] false true false 11;
    ByteField "KeyTransmissionEnabled" UnsignedIntegerAttributeType 16 0 [Read; Write] false true false 12])
    CreatedByOnu UnknownSupport [0; 1].

Definition efmbondinggroupBME : ManagedEntityDefinition :=
  mkDef "EfmBondingGroup" 418 [Create; Delete; GetMsg; SetMsg] 61440 (attrs [
    Uint16Field "ManagedEntityId" PointerAttributeType 0 0 [Read; SetByCreate] false false false 0;
    MultiByteField "GroupId" OctetsAttributeType 32768 6 (replicate 6 0) [Read; SetByCreate; Write] false false false 1;
    Uint32Field "MinimumUpstreamGroupRate" UnsignedIntegerAttributeType 16384 0 [Read; Write] false false false 2;
    Uint32Field "MinimumDownstreamGroupRate" UnsignedIntegerAttributeType 8192 0 [Read; Write] false false false 3;
    ByteField "GroupAlarmEnable" UnsignedIntegerAttributeType 4096 0 [Read; SetByCreate; Write] false false false 4])
    CreatedByOlt UnknownSupport [0; 1; 2; 3; 4].

Definition efmbondinggroupperformancemonitoringhistorydataBME : ManagedEntityDefinition :=
  mkDef "EfmBondingGroupPerformanceMonitoringHistoryData" 420 [Create; Delete; GetMsg; SetMsg; GetCurrentData] 65520 (attrs [
    Uint16Field "ManagedEntityId" PointerAttributeType 0 0 [Read; SetByCreate] false false false 0;
    ByteField "IntervalEndTime" UnsignedIntegerAttributeType 32768 0 [Read] false false false 1;
    Uint16Field "ThresholdData12Id" UnsignedIntegerAttributeType 16384 0 [Read; SetByCreate; Write] false false false 2;
    Uint32Field "RxBadFragments" CounterAttributeType 8192 0 [Read] false false false 3;
    Uint32Field "RxLostFragments" CounterAttributeType 4096 0 [Read] false false false 4;
    Uint32Field "RxLostStarts" CounterAttributeType 2048 0 [Read] false false false 5;
    Uint32Field "RxLostEnds" CounterAttributeType 1024 0 [Read] false false false 6;
    Uint32Field "RxFrames" CounterAttributeType 512 0 [Read] false false false 7;
    Uint32Field "TxFrames" CounterAttributeType 256 0 [Read] false false false 8;
    Uint64Field "RxBytes" CounterAttributeType 128 0 [Read] false false false 9;
    Uint64Field "TxBytes" CounterAttributeType 64 0 [Read] false false false 10;
    Uint32Field "TxDiscardedFrames" CounterAttributeType 32 0 [Read] false false false 11;
    Uint32Field "TxDiscardedBytes" CounterAttributeType 16 0 [Read] false false false 12])
    CreatedByOlt UnknownSupport [0; 1; 2; 3].

Definition efmbondinggroupperformancemonitoringhistorydatapart2BME : ManagedEntityDefinition :=
  mkDef "EfmBondingGroupPerformanceMonitoringHistoryDataPart2" 421 [Create; Delete; GetMsg; SetMsg; GetCurrentData] 65532 (attrs [
    Uint16Field "ManagedEntityId" PointerAttributeType 0 0 [Read; SetByCreate] false false false 0;
    ByteField "IntervalEndTime" UnsignedIntegerAttributeType 32768 0 [Read] false false false 1;
    Uint16Field "ThresholdData12Id" UnsignedIntegerAttributeType 16384 0 [Read; SetByCreate; Write] false false false 2;
    Uint32Field "RxUnicastFrames" CounterAttributeType 8192 0 [Read] false false false 3;
    Uint32Field "TxUnicastFrames" CounterAttributeType 4096 0 [Read] false false false 4;
    Uint64Field "RxUnicastBytes" CounterAttributeType 2048 0 [Read] false false false 5;
    Uint64Field "TxUnicastBytes" CounterAttributeType 1024 0 [Read] false false false 6;
    Uint32Field "RxBroadcastFrames" CounterAttributeType 512 0 [Read] false false false 7;
    Uint32Field "TxBroadcastFrames" CounterAttributeType 256 0 [Read] false false false 8;
    Uint64Field "RxBroadcastBytes" CounterAttributeType 128 0 [Read] false false false 9;
    Uint64Field "TxBroadcastBytes" CounterAttributeType 64 0 [Read] false false false 10;
    Uint32Field "RxMulticastFrames" CounterAttributeType 32 0 [Read] false false false 11;
    Uint32Field "TxMulticastFrames" CounterAttributeType 16 0 [Read] false false false 12;
    Uint64Field "RxMulticastBytes" CounterAttributeType 8 0 [Read] false false false 13;
    Uint64Field "TxMulticastBytes" CounterAttributeType 4 0 [Read] false false false 14])
    CreatedByOlt UnknownSupport [].

Definition efmbondinglinkBME : ManagedEntityDefinition :=
  mkDef "EfmBondingLink" 419 [Create; Delete; GetMsg; SetMsg] 49152 (attrs [
    Uint16Field "ManagedEntityId" PointerAttributeType 0 0 [Read; SetByCreate] false false false 0;
    Uint16Field "AssociatedGroupMeId" UnsignedIntegerAttributeType 32768 0 [Read; SetByCreate; Write] false false false 1;
    ByteField "LinkAlarmEnable" UnsignedIntegerAttributeType 16384 0 [Read; SetByCreate; Write] false false false 2])
    CreatedByOlt UnknownSupport [0].

Definition efmbondinglinkperformancemonitoringhistorydataBME : ManagedEntityDefinition :=
  mkDef "EfmBondingLinkPerformanceMonitoringHistoryData" 422 [Create; Delete; GetMsg; SetMsg; GetCurrentData] 65472 (attrs [
    Uint16Field "ManagedEntityId" PointerAttributeType 0 0 [Read; SetByCreate] false false false 0;
    ByteField "IntervalEndTime" UnsignedIntegerAttributeType 32768 0 [Read] false false false 1;
    Uint16Field "ThresholdData12Id" UnsignedIntegerAttributeType 16384 0 [Read; SetByCreate; Write] false false false 2;
    Uint32Field "RxErroredFragments" CounterAttributeType 8192 0 [Read] false false false 3;
    Uint32Field "RxSmallFragments" CounterAttributeType 4096 0 [Read] false false false 4;
    Uint32Field "RxLargeFragments" CounterAttributeType 2048 0 [Read] false false false 5;
    Uint32Field "RxDiscardedFragments" CounterAttributeType 1024 0 [Read] false false false 6;
    Uint32Field "RxFcsErrors" CounterAttributeType 512 0 [Read] false false false 7;
    Uint32Field "RxCodingErrors" CounterAttributeType 256 0 [Read] false false false 8;
    Uint32Field "RxFragments" CounterAttributeType 128 0 [Read] false false false 9;
    Uint32Field "TxFragments" CounterAttributeType 64 0 [Read] false false false 10])
    CreatedByOlt UnknownSupport [].

Definition efmbondingportperformancemonitoringhistorydataBME : ManagedEntityDefinition :=
  mkDef "EfmBondingPortPerformanceMonitoringHistoryData" 423 [Create; Delete; GetMsg; SetMsg; GetCurrentData] 65280 (attrs [
    Uint16Field "ManagedEntityId" PointerAttributeType 0 0 [Read; SetByCreate] false false false 0;
    ByteField "IntervalEndTime" UnsignedIntegerAttributeType 32768 0 [Read] false false false 1;
    Uint16Field "ThresholdData12Id" UnsignedIntegerAttributeType 16384 0 [Read; SetByCreate; Write] false false false 2;
    Uint32Field "RxFrames" CounterAttributeType 8192 0 [Read] false false false 3;
    Uint32Field "TxFrames" CounterAttributeType 4096 0 [Read] false false false 4;
    Uint32Field "RxBytes" CounterAttributeType 2048 0 [Read] false false false 5;
    Uint32Field "TxBytes" CounterAttributeType 1024 0 [Read] false false false 6;
    Uint32Field "TxDiscardedFrames" CounterAttributeType 512 0 [Read] false false false 7;
    Uint32Field "TxDiscardedBytes" CounterAttributeType 256 0 [Read] false false false 8])
    CreatedByOlt UnknownSupport [].

Definition efmbondingportperformancemonitoringhistorydatapart2BME : ManagedEntityDefinition :=
  mkDef "EfmBondingPortPerformanceMonitoringHistoryDataPart2" 424 [Create; Delete; GetMsg; SetMsg; GetCurrentData] 65532 (attrs [
    Uint16Field "ManagedEntityId" PointerAttributeType 0 0 [Read; SetByCreate] false false false 0;
    ByteField "IntervalEndTime" UnsignedIntegerAttributeType 32768 0 [Read] false false false 1;
    Uint16Field "ThresholdData12Id" UnsignedIntegerAttributeType 16384 0 [Read; SetByCreate; Write] false false false 2;
    Uint32Field "RxUnicastFrames" CounterAttributeType 8192 0 [Read] false false false 3;
    Uint32Field "TxUnicastFrames" CounterAttributeType 4096 0 [Read] false false false 4;
    Uint32Field "RxUnicastBytes" CounterAttributeType 2048 0 [Read] false false false 5;
    Uint32Field "TxUnicastBytes" CounterAttributeType 1024 0 [Read] false false false 6;
    Uint32Field "RxBroadcastFrames" CounterAttributeType 512 0 [Read] false false false 7;
    Uint32Field "TxBroadcastFrames" CounterAttributeType 256 0 [Read] false false false 8;
    Uint32Field "RxBroadcastBytes" CounterAttributeType 128 0 [Read] false false false 9;
    Uint32Field "TxBroadcastBytes" CounterAttributeType 64 0 [Read] false false false 10;
    Uint32Field "RxMulticastFrames" CounterAttributeType 32 0 [Read] false false false 11;
    Uint32Field "TxMulticastFrames" CounterAttributeType 16 0 [Read] false false false 12;
    Uint32Field "RxMulticastBytes" CounterAttributeType 8 0 [Read] false false false 13;
    Uint32Field "TxMulticastBytes" CounterAttributeType 4 0 [Read] false false false 14])
    CreatedByOlt UnknownSupport [].

Definition energyconsumptionperformancemonitoringhistorydataBME : ManagedEntityDefinition :=
  mkDef "EnergyConsumptionPerformanceMonitoringHistoryData" 343 [Create; Delete; GetMsg; SetMsg; GetCurrentData] 64512 (attrs [
    Uint16Field "ManagedEntityId" PointerAttributeType 0 0 [Read; SetByCreate] false false false 0;
    ByteField "IntervalEndTime" UnsignedIntegerAttributeType 32768 0 [Read] false false false 1;
    Uint16Field "ThresholdData12Id" PointerAttributeType 16384 0 [Read; SetByCreate; Write] false false false 2;
    Uint32Field "DozeTime" CounterAttributeType 8192 0 [Read] false false false 3;
    Uint32Field "CyclicSleepTime" CounterAttributeType 4096 0 [Read] false false false 4;
    Uint32Field "WatchfulSleepTime" CounterAttributeType 2048 0 [Read] false false false 5;
    Uint32Field "EnergyConsumed" CounterAttributeType 1024 0 [Read] false true false 6])
    CreatedByOlt UnknownSupport [].

Definition enhancedfecperformancemonitoringhistorydataBME : ManagedEntityDefinition :=
  mkDef "EnhancedFecPerformanceMonitoringHistoryData" 453 [Create; Delete; GetMsg; SetMsg; GetCurrentData] 65024 (attrs [
    Uint16Field "ManagedEntityId" PointerAttributeType 0 0 [Read; SetByCreate] false false false 0;
    ByteField "IntervalEndTime" UnsignedIntegerAttributeType 32768 0 [Read] false false false 1;
    Uint16Field "ThresholdData64BitId" UnsignedIntegerAttributeType 16384 0 [Read; SetByCreate; Write] false false false 2;
    Uint64Field "CorrectedBytes" CounterAttributeType 8192 0 [Read] false false false 3;
    Uint64Field "CorrectedCodeWords" CounterAttributeType 4096 0 [Read] false false false 4;
    Uint64Field "UncorrectableCodeWords" CounterAttributeType 2048 0 [Read] false false false 5;
    Uint64Field "TotalCodeWords" CounterAttributeType 1024 0 [Read] false false false 6;
    Uint16Field "FecSeconds" CounterAttributeType 512 0 [Read] false false false 7])
    CreatedByOlt UnknownSupport [0; 1; 2; 4].

Definition enhancedsecuritycontrolBME : ManagedEntityDefinition :=
  mkDef "EnhancedSecurityControl" 332 [GetMsg; GetNextMsg; SetMsg] 65520 (attrs [
    Uint16Field "ManagedEntityId" PointerAttributeType 0 0 [Read] false false false 0;
    MultiByteField "OltCryptoCapabilities" OctetsAttributeType 32768 16 (replicate 16 0) [Write] false false false 1;
    TableField "OltRandomChallengeTable" TableAttributeType 16384 17 [Read; Write] false false false 2;
    ByteField "OltChallengeStatus" UnsignedIntegerAttributeType 8192 0 [Read; Write] false false false 3;
    ByteField "OnuSelectedCryptoCapabilities" UnsignedIntegerAttributeType 4096 0 [Read] false false false 4;
    TableField "OnuRandomChallengeTable" TableAttributeType 2048 16 [Read] true false false 5;
    TableField "OnuAuthenticationResultTable" TableAttributeType 1024 16 [Read] true false false 6;
    TableField "OltAuthenticationResultTable" TableAttributeType 512 17 [Read; Write] false false false 7;
    ByteField "OltResultStatus" UnsignedIntegerAttributeType 256 0 [Read; Write] false false false 8;
    ByteField "OnuAuthenticationStatus" UnsignedIntegerAttributeType 128 0 [Read] true false false 9;
    MultiByteField "MasterSessionKeyName" OctetsAttributeType 64 16 (replicate 16 0) [Read] false false false 10;
    TableField "BroadcastKeyTable" TableAttributeType 32 18 [Read; Write] false true false 11;
    Uint16Field "EffectiveKeyLength" UnsignedIntegerAttributeType 16 0 [Read] false true false 12])
    CreatedByOnu UnknownSupport [].

Definition enhancedtcperformancemonitoringhistorydataBME : ManagedEntityDefinition :=
  mkDef "EnhancedTcPerformanceMonitoringHistoryData" 454 [Create; Delete; GetMsg; SetMsg; GetCurrentData] 65534 (attrs [
    Uint16Field "ManagedEntityId" PointerAttributeType 0 0 [Read; SetByCreate] false false false 0;
    ByteField "IntervalEndTime" UnsignedIntegerAttributeType 32768 0 [Read] false false false 1;
    Uint16Field "ThresholdData64BitId" UnsignedIntegerAttributeType 16384 0 [Read; SetByCreate; Write] false false false 2;
    Uint32Field "PsbdHecErrorCount" CounterAttributeType 8192 0 [Read] false true false 3;
    Uint32Field "XgtcHecErrorCount" CounterAttributeType 4096 0 [Read] false true false 4;
    Uint32Field "UnknownProfileCount" CounterAttributeType 2048 0 [Read] false true false 5;
    Uint64Field "TransmittedXgemFrames" CounterAttributeType 1024 0 [Read] false false false 6;
    Uint64Field "FragmentXgemFrames" CounterAttributeType 512 0 [Read] false true false 7;
    Uint64Field "XgemHecLostWordsCount" CounterAttributeType 256 0 [Read] false true false 8;
    Uint64Field "XgemKeyErrors" CounterAttributeType 128 0 [Read] false false false 9;
    Uint64Field "XgemHecErrorCount" CounterAttributeType 64 0 [Read] false false false 10;
    Uint64Field "TransmittedBytesInNonIdleXgemFrames" CounterAttributeType 32 0 [Read] false false false 11;
    Uint64Field "ReceivedBytesInNonIdleXgemFrames" CounterAttributeType 16 0 [Read] false true false 12;
    Uint32Field "LodsEventCount" CounterAttributeType 8 0 [Read] false true false 13;
    Uint32Field "LodsEventRestoredCount" CounterAttributeType 4 0 [Read] false true false 14;
    Uint32Field "OnuReactivationByLodsEvents" CounterAttributeType 2 0 [Read] false true false 15])
    CreatedByOlt UnknownSupport [1; 2; 3; 4; 5; 6].

Definition epondownstreamperformancemonitoringconfigurationBME : ManagedEntityDefinition :=
  mkDef "EponDownstreamPerformanceMonitoringConfiguration" 406 [GetMsg; SetMsg] 65280 (attrs [
    Uint16Field "ManagedEntityId" PointerAttributeType 0 0 [Read; SetByCreate] false false false 0;
    Uint64Field "ErroredSymbolPeriodWindow" UnsignedIntegerAttributeType 32768 0 [Read; Write] false true false 1;
    Uint64Field "ErroredSymbolPeriodThreshold" UnsignedIntegerAttributeType 16384 0 [Read; Write] false true false 2;
    Uint16Field "ErroredFrameWindow" UnsignedIntegerAttributeType 8192 0 [Read; Write] false true false 3;
    Uint32Field "ErroredFrameThreshold" UnsignedIntegerAttributeType 4096 0 [Read; Write] false true false 4;
    Uint32Field "ErroredFramePeriodWindow" UnsignedIntegerAttributeType 2048 0 [Read; Write] false true false 5;
    Uint32Field "ErroredFramePeriodThreshold" UnsignedIntegerAttributeType 1024 0 [Read; Write] false true false 6;
    Uint16Field "ErroredFrameSecondsSummaryWindow" UnsignedIntegerAttributeType 512 0 [Read; Write] false true false 7;
    Uint16Field "ErroredFrameSecondsSummaryThreshold" UnsignedIntegerAttributeType 256 0 [Read; Write] false true false 8])
    CreatedByOnu UnknownSupport [].

Definition equipmentextensionpackageBME : ManagedEntityDefinition :=
  mkDef "EquipmentExtensionPackage" 160 [GetMsg; SetMsg] 49152 (attrs [
    Uint16Field "ManagedEntityId" PointerAttributeType 0 0 [Read] false false false 0;
    Uint16Field "EnvironmentalSense" UnsignedIntegerAttributeType 32768 0 [Read; Write] false true false 1;
    Uint16Field "ContactClosureOutput" UnsignedIntegerAttributeType 16384 0 [Read; Write] false true false 2])
    CreatedByOnu UnknownSupport [0; 1; 2; 3; 4; 5; 6; 7; 8].

Definition ethernetflowterminationpointBME : ManagedEntityDefinition :=
  mkDef "EthernetFlowTerminationPoint" 286 [Create; Delete; GetMsg; SetMsg] 63488 (attrs [
    Uint16Field "ManagedEntityId" PointerAttributeType 0 0 [Read; SetByCreate] false false false 0;
    MultiByteField "DestinationMac" OctetsAttributeType 32768 6 (replicate 6 0) [Read; SetByCreate; Write] false false false 1;
    MultiByteField "SourceMac" OctetsAttributeType 16384 6 (replicate 6 0) [Read] false false false 2;
    ByteField "TagPolicy" UnsignedIntegerAttributeType 8192 0 [Read; SetByCreate; Write] false false false 3;
    Uint16Field "Tci" UnsignedIntegerAttributeType 4096 0 [Read; Write] false true false 4;
    ByteField "Loopback" UnsignedIntegerAttributeType 2048 0 [Read; Write] false false false 5])
    CreatedByOlt UnknownSupport [].

Definition ethernetframeextendedpmBME : ManagedEntityDefinition :=
  mkDef "EthernetFrameExtendedPm" 334 [Create; Delete; GetMsg; SetMsg; GetCurrentData] 65535 (attrs [
    Uint16Field "ManagedEntityId" PointerAttributeType 0 0 [Read; SetByCreate] false false false 0;
    ByteField "IntervalEndTime" UnsignedIntegerAttributeType 32768 0 [Read] false false false 1;
    MultiByteField "ControlBlock" OctetsAttributeType 16384 16 (replicate 16 0) [Read; SetByCreate; Write] false false false 2;
    Uint32Field "DropEvents" CounterAttributeType 8192 0 [Read] false false false 3;
    Uint32Field "Octets" CounterAttributeType 4096 0 [Read] false false false 4;
    Uint32Field "Frames" CounterAttributeType 2048 0 [Read] false false false 5;
    Uint32Field "BroadcastFrames" CounterAttributeType 1024 0 [Read] false false false 6;
    Uint32Field "MulticastFrames" CounterAttributeType 512 0 [Read] false false false 7;
    Uint32Field "CrcErroredFrames" CounterAttributeType 256 0 [Read] false false false 8;
    Uint32Field "UndersizeFrames" CounterAttributeType 128 0 [Read] false false false 9;
    Uint32Field "OversizeFrames" CounterAttributeType 64 0 [Read] false false false 10;
    Uint32Field "Frames64Octets" CounterAttributeType 32 0 [Read] false false false 11;
    Uint32Field "Frames65To127Octets" CounterAttributeType 16 0 [Read] false false false 12;
    Uint32Field "Frames128To255Octets" CounterAttributeType 8 0 [Read] false false false 13;
    Uint32Field "Frames256To511Octets" CounterAttributeType 4 0 [Read] false false false 14;
    Uint32Field "Frames512To1023Octets" CounterAttributeType 2 0 [Read] false false false 15;
    Uint32Field "Frames1024To1518Octets" CounterAttributeType 1 0 [Read] false false false 16])
    CreatedByOlt UnknownSupport [1; 2; 3; 4].

Definition ethernetframeextendedpm64bitBME : ManagedEntityDefinition :=
  mkDef "EthernetFrameExtendedPm64Bit" 425 [Create; Delete; GetMsg; SetMsg; GetCurrentData] 65535 (attrs [
    Uint16Field "ManagedEntityId" PointerAttributeType 0 0 [Read; SetByCreate] false false false 0;
    ByteField "IntervalEndTime" UnsignedIntegerAttributeType 32768 0 [Read] false false false 1;
    MultiByteField "ControlBlock" OctetsAttributeType 16384 16 (replicate 16 0) [Read; SetByCreate; Write] false false false 2;
    Uint64Field "DropEvents" CounterAttributeType 8192 0 [Read] false false false 3;
    Uint64Field "Octets" CounterAttributeType 4096 0 [Read] false false false 4;
    Uint64Field "Frames" CounterAttributeType 2048 0 [Read] false false false 5;
    Uint64Field "BroadcastFrames" CounterAttributeType 1024 0 [Read] false false false 6;
    Uint64Field "MulticastFrames" CounterAttributeType 512 0 [Read] false false false 7;
    Uint64Field "CrcErroredFrames" CounterAttributeType 256 0 [Read] false false false 8;
    Uint64Field "UndersizeFrames" CounterAttributeType 128 0 [Read] false false false 9;
    Uint64Field "OversizeFrames" CounterAttributeType 64 0 [Read] false false false 10;
    Uint64Field "Frames64Octets" CounterAttributeType 32 0 [Read] false false false 11;
    Uint64Field "Frames65To127Octets" CounterAttributeType 16 0 [Read] false false false 12;
    Uint64Field "Frames128To255Octets" CounterAttributeType 8 0 [Read] false false false 13;
    Uint64Field "Frames256To511Octets" CounterAttributeType 4 0 [Read] false false false 14;
    Uint64Field "Frames512To1023Octets" CounterAttributeType 2 0 [Read] false false false 15;
    Uint64Field "Frames1024To1518Octets" CounterAttributeType 1 0 [Read] false false false 16])
    CreatedByOlt UnknownSupport [1; 2; 3; 4].

Definition ethernetframeperformancemonitoringhistorydatadownstreamBME : ManagedEntityDefinition :=
  mkDef "EthernetFramePerformanceMonitoringHistoryDataDownstream" 321 [Create; Delete; GetMsg; SetMsg; GetCurrentData] 65535 (attrs [
    Uint16Field "ManagedEntityId" PointerAttributeType 0 0 [Read; SetByCreate] false false false 0;
    ByteField "IntervalEndTime" UnsignedIntegerAttributeType 32768 0 [Read] false false false 1;
    Uint16Field "ThresholdData12Id" PointerAttributeType 16384 0 [Read; SetByCreate; Write] false false false 2;
    Uint32Field "DropEvents" CounterAttributeType 8192 0 [Read] false false false 3;
    Uint32Field "Octets" CounterAttributeType 4096 0 [Read] false false false 4;
    Uint32Field "Packets" CounterAttributeType 2048 0 [Read] false false false 5;
    Uint32Field "BroadcastPackets" CounterAttributeType 1024 0 [Read] false false false 6;
    Uint32Field "MulticastPackets" CounterAttributeType 512 0 [Read] false false false 7;
    Uint32Field "CrcErroredPackets" CounterAttributeType 256 0 [Read] false false false 8;
    Uint32Field "UndersizePackets" CounterAttributeType 128 0 [Read] false false false 9;
    Uint32Field "OversizePackets" CounterAttributeType 64 0 [Read] false false false 10;
    Uint32Field "Packets64Octets" CounterAttributeType 32 0 [Read] false false false 11;
    Uint32Field "Packets65To127Octets" CounterAttributeType 16 0 [Read] false false false 12;
    Uint32Field "Packets128To255Octets" CounterAttributeType 8 0 [Read] false false false 13;
    Uint32Field "Packets256To511Octets" CounterAttributeType 4 0 [Read] false false false 14;
    Uint32Field "Packets512To1023Octets" CounterAttributeType 2 0 [Read] false false false 15;
    Uint32Field "Packets1024To1518Octets" CounterAttributeType 1 0 [Read] false false false 16])
    CreatedByOlt UnknownSupport [0; 1; 2; 3].

Definition ethernetframeperformancemonitoringhistorydataupstreamBME : ManagedEntityDefinition :=
  mkDef "EthernetFramePerformanceMonitoringHistoryDataUpstream" 322 [Create; Delete; GetMsg; SetMsg; GetCurrentData] 65535 (attrs [
    Uint16Field "ManagedEntityId" PointerAttributeType 0 0 [Read; SetByCreate] false false false 0;
    ByteField "IntervalEndTime" UnsignedIntegerAttributeType 32768 0 [Read] false false false 1;
    Uint16Field "ThresholdData12Id" PointerAttributeType 16384 0 [Read; SetByCreate; Write] false false false 2;
    Uint32Field "DropEvents" CounterAttributeType 8192 0 [Read] false false false 3;
    Uint32Field "Octets" CounterAttributeType 4096 0 [Read] false false false 4;
    Uint32Field "Packets" CounterAttributeType 2048 0 [Read] false false false 5;
    Uint32Field "BroadcastPackets" CounterAttributeType 1024 0 [Read] false false false 6;
    Uint32Field "MulticastPackets" CounterAttributeType 512 0 [Read] false false false 7;
    Uint32Field "CrcErroredPackets" CounterAttributeType 256 0 [Read] false false false 8;
    Uint32Field "UndersizePackets" CounterAttributeType 128 0 [Read] false false false 9;
    Uint32Field "OversizePackets" CounterAttributeType 64 0 [Read] false false false 10;
    Uint32Field "Packets64Octets" CounterAttributeType 32 0 [Read] false false false 11;
    Uint32Field "Packets65To127Octets" CounterAttributeType 16 0 [Read] false false false 12;
    Uint32Field "Packets128To255Octets" CounterAttributeType 8 0 [Read] false false false 13;
    Uint32Field "Packets256To511Octets" CounterAttributeType 4 0 [Read] false false false 14;
    Uint32Field "Packets512To1023Octets" CounterAttributeType 2 0 [Read] false false false 15;
    Uint32Field "Packets1024To1518Octets" CounterAttributeType 1 0 [Read] false false false 16])
    CreatedByOlt UnknownSupport [0; 1; 2; 3].

Definition ethernetperformancemonitoringhistorydataBME : ManagedEntityDefinition :=
  mkDef "EthernetPerformanceMonitoringHistoryData" 24 [Create; Delete; GetMsg; SetMsg; GetCurrentData] 65535 (attrs [
    Uint16Field "ManagedEntityId" PointerAttributeType 0 0 [Read; SetByCreate] false false false 0;
    ByteField "IntervalEndTime" UnsignedIntegerAttributeType 32768 0 [Read] false false false 1;
    Uint16Field "ThresholdData12Id" PointerAttributeType 16384 0 [Read; SetByCreate; Write] false false false 2;
    Uint32Field "FcsErrors" CounterAttributeType 8192 0 [Read] false false false 3;
    Uint32Field "ExcessiveCollisionCounter" CounterAttributeType 4096 0 [Read] false false false 4;
    Uint32Field "LateCollisionCounter" CounterAttributeType 2048 0 [Read] false false false 5;
    Uint32Field "FramesTooLong" CounterAttributeType 1024 0 [Read] false false false 6;
    Uint32Field "BufferOverflowsOnReceive" CounterAttributeType 512 0 [Read] false false false 7;
    Uint32Field "BufferOverflowsOnTransmit" CounterAttributeType 256 0 [Read] false false false 8;
    Uint32Field "SingleCollisionFrameCounter" CounterAttributeType 128 0 [Read] false false false 9;
    Uint32Field "MultipleCollisionsFrameCounter" CounterAttributeType 64 0 [Read] false false false 10;
    Uint32Field "SqeCounter" CounterAttributeType 32 0 [Read] false false false 11;
    Uint32Field "DeferredTransmissionCounter" CounterAttributeType 16 0 [Read] false false false 12;
    Uint32Field "InternalMacTransmitErrorCounter" CounterAttributeType 8 0 [Read] false false false 13;
    Uint32Field "CarrierSenseErrorCounter" CounterAttributeType 4 0 [Read] false false false 14;
    Uint32Field "AlignmentErrorCounter" CounterAttributeType 2 0 [Read] false false false 15;
    Uint32Field "InternalMacReceiveErrorCounter" CounterAttributeType 1 0 [Read] false false false 16])
    CreatedByOlt UnknownSupport [0; 1; 2; 3; 4; 5; 6; 7; 8; 9; 10; 11; 12; 13].

Definition ethernetperformancemonitoringhistorydata2BME : ManagedEntityDefinition :=
  mkDef "EthernetPerformanceMonitoringHistoryData2" 89 [Create; Delete; GetMsg; SetMsg; GetCurrentData] 57344 (attrs [
    Uint16Field "ManagedEntityId" PointerAttributeType 0 0 [Read; SetByCreate] false false false 0;
    ByteField "IntervalEndTime" UnsignedIntegerAttributeType 32768 0 [Read] false false false 1;
    Uint16Field "ThresholdData12Id" PointerAttributeType 16384 0 [Read; SetByCreate; Write] false false false 2;
    Uint32Field "PppoeFilteredFrameCounter" CounterAttributeType 8192 0 [Read] false false false 3])
    CreatedByOlt UnknownSupport [0].

Definition ethernetperformancemonitoringhistorydata3BME : ManagedEntityDefinition :=
  mkDef "EthernetPerformanceMonitoringHistoryData3" 296 [Create; Delete; GetMsg; SetMsg; GetCurrentData] 65535 (attrs [
    Uint16Field "ManagedEntityId" PointerAttributeType 0 0 [Read; SetByCreate] false false false 0;
    ByteField "IntervalEndTime" UnsignedIntegerAttributeType 32768 0 [Read] false false false 1;
    Uint16Field "ThresholdData12Id" PointerAttributeType 16384 0 [Read; SetByCreate; Write] false false false 2;
    Uint32Field "DropEvents" CounterAttributeType 8192 0 [Read] false false false 3;
    Uint32Field "Octets" CounterAttributeType 4096 0 [Read] false false false 4;
    Uint32Field "Packets" CounterAttributeType 2048 0 [Read] false false false 5;
    Uint32Field "BroadcastPackets" CounterAttributeType 1024 0 [Read] false false false 6;
    Uint32Field "MulticastPackets" CounterAttributeType 512 0 [Read] false false false 7;
    Uint32Field "UndersizePackets" CounterAttributeType 256 0 [Read] false false false 8;
    Uint32Field "Fragments" CounterAttributeType 128 0 [Read] false false false 9;
    Uint32Field "Jabbers" CounterAttributeType 64 0 [Read] false false false 10;
    Uint32Field "Packets64Octets" CounterAttributeType 32 0 [Read] false false false 11;
    Uint32Field "Packets65To127Octets" CounterAttributeType 16 0 [Read] false false false 12;
    Uint32Field "Packets128To255Octets" CounterAttributeType 8 0 [Read] false false false 13;
    Uint32Field "Packets256To511Octets" CounterAttributeType 4 0 [Read] false false false 14;
    Uint32Field "Packets512To1023Octets" CounterAttributeType 2 0 [Read] false false false 15;
    Uint32Field "Packets1024To1518Octets" CounterAttributeType 1 0 [Read] false false false 16])
    CreatedByOlt UnknownSupport [0; 1; 2; 3].

Definition ethernetpseudowireparametersBME : ManagedEntityDefinition :=
  mkDef "EthernetPseudowireParameters" 400 [Create; Delete; GetMsg; SetMsg] 32768 (attrs [
    Uint16Field "ManagedEntityId" PointerAttributeType 0 0 [Read; SetByCreate] false false false 0;
    Uint16Field "Mtu" UnsignedIntegerAttributeType 32768 0 [Read; SetByCreate; Write] false false false 1])
    CreatedByOlt UnknownSupport [].

Definition extendedvlantaggingoperationconfigurationdataBME : ManagedEntityDefinition :=
  mkDef "ExtendedVlanTaggingOperationConfigurationData" 171 [Create; Delete; GetMsg; GetNextMsg; SetMsg; SetTableMsg] 65472 (attrs [
    Uint16Field "ManagedEntityId" PointerAttributeType 0 0 [Read; SetByCreate] false false false 0;
    ByteField "AssociationType" EnumerationAttributeType 32768 0 [Read; SetByCreate; Write] false false false 1;
    Uint16Field "ReceivedFrameVlanTaggingOperationTableMaxSize" UnsignedIntegerAttributeType 16384 0 [Read] false false false 2;
    Uint16Field "InputTpid" UnsignedIntegerAttributeType 8192 34984 [Read; Write] false false false 3;
    Uint16Field "OutputTpid" UnsignedIntegerAttributeType 4096 34984 [Read; Write] false false false 4;
    ByteField "DownstreamMode" EnumerationAttributeType 2048 0 [Read; Write] false false false 5;
    TableField "ReceivedFrameVlanTaggingOperationTable" TableAttributeType 1024 16 [Read; Write] false false false 6;
    Uint16Field "AssociatedMePointer" PointerAttributeType 512 0 [Read; SetByCreate; Write] false false false 7;
    MultiByteField "DscpToPBitMapping" OctetsAttributeType 256 24 (replicate 24 0) [Read; Write] false true false 8;
    ByteField "EnhancedMode" UnsignedIntegerAttributeType 128 0 [Read; SetByCreate] false true false 9;
    TableField "EnhancedReceivedFrameClassificationAndProcessingTable" TableAttributeType 64 28 [Read; Write] false true false 10])
    CreatedByOlt UnknownSupport [].

Definition fastchannelconfigurationprofileBME : ManagedEntityDefinition :=
  mkDef "FastChannelConfigurationProfile" 432 [Create; Delete; GetMsg; SetMsg] 65504 (attrs [
    Uint16Field "ManagedEntityId" PointerAttributeType 0 0 [Read; SetByCreate] false false false 0;
    Uint32Field "MaximumNetDataRateMaxndr" UnsignedIntegerAttributeType 32768 0 [Read; Write] false false false 1;
    Uint32Field "MinimumExpectedThroughputMinetr" UnsignedIntegerAttributeType 16384 0 [Read; Write] false false false 2;
    Uint32Field "MaximumGammaDataRateMaxgdr" UnsignedIntegerAttributeType 8192 0 [Read; Write] false false false 3;
    Uint32Field "MinimumGammaDataRateMingdr" UnsignedIntegerAttributeType 4096 0 [Read; Write] false false false 4;
    Uint32Field "MaximumDelayDelaymax" UnsignedIntegerAttributeType 2048 0 [Read; Write] false false false 5;
    Uint16Field "MinimumImpulseNoiseProtectionAgainstShineInpminShine" UnsignedIntegerAttributeType 1024 0 [Read; Write] false false false 6;
    ByteField "ShineRatioShineratio" UnsignedIntegerAttributeType 512 0 [Read; Write] false false false 7;
    ByteField "MinimumImpulseNoiseProtectionAgainstReinInpminRein" UnsignedIntegerAttributeType 256 0 [Read; Write] false false false 8;
    ByteField "ReinInterArrivalTimeIatRein" UnsignedIntegerAttributeType 128 0 [Read; Write] false false false 9;
    ByteField "MinimumReedSolomonRfecNfecRatioRnratio" UnsignedIntegerAttributeType 64 0 [Read; Write] false false false 10;
    ByteField "RtxTcTestmodeRtxTestmode" UnsignedIntegerAttributeType 32 0 [Read; Write] false true false 11])
    CreatedByOlt UnknownSupport [].

Definition fastdatapathconfigurationprofileBME : ManagedEntityDefinition :=
  mkDef "FastDataPathConfigurationProfile" 433 [Create; Delete; GetMsg; SetMsg] 32768 (attrs [
    Uint16Field "ManagedEntityId" PointerAttributeType 0 0 [Read; SetByCreate] false false false 0;
    ByteField "TpsTcTestmodeTpsTestmode" UnsignedIntegerAttributeType 32768 0 [Read; Write] false false false 1])
    CreatedByOlt UnknownSupport [].

Definition fastlineinventoryandstatusdatapart2BME : ManagedEntityDefinition :=
  mkDef "FastLineInventoryAndStatusDataPart2" 436 [GetMsg] 63488 (attrs [
    Uint16Field "ManagedEntityId" PointerAttributeType 0 0 [Read] false false false 0;
    MultiByteField "DateTimeStampingOfLastSuccessfulDownstreamFraOperationStampFrads" OctetsAttributeType 32768 7 (replicate 7 0) [Read] false true false 1;
    MultiByteField "DateTimeStampingOfLastSuccessfulUpstreamFraOperationStampFraus" OctetsAttributeType 16384 7 (replicate 7 0) [Read] false true false 2;
    MultiByteField "DateTimeStampingOfLastSuccessfulDownstreamRpaOperationStampRpads" OctetsAttributeType 8192 7 (replicate 7 0) [Read] false true false 3;
    MultiByteField "DateTimeStampingOfLastSuccessfulUpstreamRpaOperationStampRpaus" OctetsAttributeType 4096 7 (replicate 7 0) [Read] false true false 4;
    MultiByteField "DateTimeStampingOfLastSuccessfulDownstreamTigaOperationStampTiga" OctetsAttributeType 2048 7 (replicate 7 0) [Read] false true false 5])
    CreatedByOnu UnknownSupport [].

Definition fastvectoringlineconfigurationextensionsBME : ManagedEntityDefinition :=
  mkDef "FastVectoringLineConfigurationExtensions" 434 [Create; Delete; GetMsg; SetMsg] 49152 (attrs [
    Uint16Field "ManagedEntityId" PointerAttributeType 0 0 [Read; SetByCreate] false false false 0;
    ByteField "FextCancellationEnablingDisablingUpstreamFextToCancelEnableus" UnsignedIntegerAttributeType 32768 0 [Read; Write] false false false 1;
    ByteField "FextCancellationEnablingDisablingDownstreamFextToCancelEnableds" UnsignedIntegerAttributeType 16384 0 [Read; Write] false false false 2])
    CreatedByOlt UnknownSupport [].

Definition fastxtucperformancemonitoringhistorydataBME : ManagedEntityDefinition :=
  mkDef "FastXtuCPerformanceMonitoringHistoryData" 437 [Create; Delete; GetMsg; SetMsg] 63488 (attrs [
    Uint16Field "ManagedEntityId" PointerAttributeType 0 0 [Read; SetByCreate] false false false 0;
    ByteField "IntervalEndTime" UnsignedIntegerAttributeType 32768 0 [Read] false false false 1;
    Uint16Field "ThresholdData12Id" UnsignedIntegerAttributeType 16384 0 [Read; SetByCreate; Write] false false false 2;
    Uint32Field "SuccessfulFraCounter" CounterAttributeType 8192 0 [Read] false false false 3;
    Uint32Field "SuccessfulRpaCounter" CounterAttributeType 4096 0 [Read] false true false 4;
    Uint32Field "SuccessfulTigaCounter" CounterAttributeType 2048 0 [Read] false true false 5])
    CreatedByOlt UnknownSupport [].

Definition fastxturperformancemonitoringhistorydataBME : ManagedEntityDefinition :=
  mkDef "FastXtuRPerformanceMonitoringHistoryData" 438 [Create; Delete; GetMsg; SetMsg] 61440 (attrs [
    Uint16Field "ManagedEntityId" PointerAttributeType 0 0 [Read; SetByCreate] false false false 0;
    ByteField "IntervalEndTime" UnsignedIntegerAttributeType 32768 0 [Read] false false false 1;
    Uint16Field "ThresholdData12Id" UnsignedIntegerAttributeType 16384 0 [Read; SetByCreate; Write] false false false 2;
    Uint32Field "SuccessfulFraCounter" CounterAttributeType 8192 0 [Read] false false false 3;
    Uint32Field "SuccessfulRpaCounter" CounterAttributeType 4096 0 [Read] false true false 4])
    CreatedByOlt UnknownSupport [].

Definition fecperformancemonitoringhistorydataBME : ManagedEntityDefinition :=
  mkDef "FecPerformanceMonitoringHistoryData" 312 [Create; Delete; GetMsg; SetMsg; GetCurrentData] 65024 (attrs [
    Uint16Field "ManagedEntityId" PointerAttributeType 0 0 [Read; SetByCreate] false false false 0;
    ByteField "IntervalEndTime" UnsignedIntegerAttributeType 32768 0 [Read] false false false 1;
    Uint16Field "ThresholdData12Id" UnsignedIntegerAttributeType 16384 0 [Read; SetByCreate; Write] false false false 2;
    Uint32Field "CorrectedBytes" CounterAttributeType 8192 0 [Read] false false false 3;
    Uint32Field "CorrectedCodeWords" CounterAttributeType 4096 0 [Read] false false false 4;
    Uint32Field "UncorrectableCodeWords" CounterAttributeType 2048 0 [Read] false false false 5;
    Uint32Field "TotalCodeWords" CounterAttributeType 1024 0 [Read] false false false 6;
    Uint16Field "FecSeconds" CounterAttributeType 512 0 [Read] false false false 7])
    CreatedByOlt UnknownSupport [0; 1; 2; 4].

Definition galethernetperformancemonitoringhistorydataBME : ManagedEntityDefinition :=
  mkDef "GalEthernetPerformanceMonitoringHistoryData" 276 [Create; Delete; GetMsg; SetMsg; GetCurrentData] 57344 (attrs [
    Uint16Field "ManagedEntityId" PointerAttributeType 0 0 [Read; SetByCreate] false false false 0;
    ByteField "IntervalEndTime" UnsignedIntegerAttributeType 32768 0 [Read] false false false 1;
    Uint16Field "ThresholdData12Id" PointerAttributeType 16384 0 [Read; SetByCreate; Write] false false false 2;
    Uint32Field "DiscardedFrames" CounterAttributeType 8192 0 [Read] false false false 3])
    CreatedByOlt UnknownSupport [0].

Definition galethernetprofileBME : ManagedEntityDefinition :=
  mkDef "GalEthernetProfile" 272 [Create; Delete; GetMsg; SetMsg] 32768 (attrs [
    Uint16Field "ManagedEntityId" PointerAttributeType 0 0 [Read; SetByCreate] false false false 0;
    Uint16Field "MaximumGemPayloadSize" UnsignedIntegerAttributeType 32768 48 [Read; SetByCreate; Write] false false false 1])
    CreatedByOlt UnknownSupport [].

Definition geminterworkingterminationpointBME : ManagedEntityDefinition :=
  mkDef "GemInterworkingTerminationPoint" 266 [Create; Delete; GetMsg; SetMsg] 65280 (attrs [
    Uint16Field "ManagedEntityId" PointerAttributeType 0 0 [Read; SetByCreate] false false false 0;
    Uint16Field "GemPortNetworkCtpConnectivityPointer" PointerAttributeType 32768 0 [Read; SetByCreate; Write] false false false 1;
    ByteField "InterworkingOption" EnumerationAttributeType 16384 0 [Read; SetByCreate; Write] false false false 2;
    Uint16Field "ServiceProfilePointer" PointerAttributeType 8192 0 [Read; SetByCreate; Write] false false false 3;
    Uint16Field "InterworkingTerminationPointPointer" PointerAttributeType 4096 0 [Read; SetByCreate; Write] false false false 4;
    ByteField "PptpCounter" UnsignedIntegerAttributeType 2048 0 [Read] false true false 5;
    ByteField "OperationalState" EnumerationAttributeType 1024 0 [Read] true true false 6;
    Uint16Field "GalProfilePointer" PointerAttributeType 512 0 [Read; SetByCreate; Write] false false false 7;
    ByteField "GalLoopbackConfiguration" EnumerationAttributeType 256 0 [Read; Write] false false false 8])
    CreatedByOlt UnknownSupport [0].

Definition gemportnetworkctpBME : ManagedEntityDefinition :=
  mkDef "GemPortNetworkCtp" 268 [Create; Delete; GetMsg; SetMsg] 65472 (attrs [
    Uint16Field "ManagedEntityId" PointerAttributeType 0 0 [Read; SetByCreate] false false false 0;
    Uint16Field "PortId" UnsignedIntegerAttributeType 32768 0 [Read; SetByCreate; Write] false false false 1;
    Uint16Field "TContPointer" PointerAttributeType 16384 0 [Read; SetByCreate; Write] false false false 2;
    ByteField "Direction" EnumerationAttributeType 8192 3 [Read; SetByCreate; Write] false false false 3;
    Uint16Field "TrafficManagementPointerForUpstream" PointerAttributeType 4096 0 [Read; SetByCreate; Write] false false false 4;
    Uint16Field "TrafficDescriptorProfilePointerForUpstream" PointerAttributeType 2048 0 [Read; SetByCreate; Write] false true false 5;
    ByteField "UniCounter" UnsignedIntegerAttributeType 1024 0 [Read] false true false 6;
    Uint16Field "PriorityQueuePointerForDownStream" PointerAttributeType 512 0 [Read; SetByCreate; Write] false false false 7;
    ByteField "EncryptionState" EnumerationAttributeType 256 0 [Read] false true false 8;
    Uint16Field "TrafficDescriptorProfilePointerForDownstream" PointerAttributeType 128 0 [Read; SetByCreate; Write] false true false 9;
    ByteField "EncryptionKeyRing" EnumerationAttributeType 64 0 [Read; SetByCreate; Write] false true false 10])
    CreatedByOlt UnknownSupport [5].

Definition gemportnetworkctpperformancemonitoringhistorydataBME : ManagedEntityDefinition :=
  mkDef "GemPortNetworkCtpPerformanceMonitoringHistoryData" 341 [Create; Delete; GetMsg; SetMsg; GetCurrentData] 65024 (attrs [
    Uint16Field "ManagedEntityId" PointerAttributeType 0 0 [Read; SetByCreate] false false false 0;
    ByteField "IntervalEndTime" UnsignedIntegerAttributeType 32768 0 [Read] false false false 1;
    Uint16Field "ThresholdData12Id" PointerAttributeType 16384 0 [Read; SetByCreate; Write] false false false 2;
    Uint32Field "TransmittedGemFrames" CounterAttributeType 8192 0 [Read] false false false 3;
    Uint32Field "ReceivedGemFrames" CounterAttributeType 4096 0 [Read] false false false 4;
    Uint64Field "ReceivedPayloadBytes" CounterAttributeType 2048 0 [Read] false false false 5;
    Uint64Field "TransmittedPayloadBytes" CounterAttributeType 1024 0 [Read] false false false 6;
    Uint32Field "EncryptionKeyErrors" CounterAttributeType 512 0 [Read] false true false 7])
    CreatedByOlt UnknownSupport [1].

Definition generalpurposebufferBME : ManagedEntityDefinition :=
  mkDef "GeneralPurposeBuffer" 308 [Create; Delete; GetMsg; GetNextMsg] 49152 (attrs [
    Uint16Field "ManagedEntityId" PointerAttributeType 0 0 [Read; SetByCreate] false false false 0;
    Uint32Field "MaximumSize" UnsignedIntegerAttributeType 32768 0 [Read; SetByCreate; Write] false true false 1;
    TableField "BufferTable" TableAttributeType 16384 (-1) [Read] true false false 2])
    CreatedByOlt UnknownSupport [].

Definition ieee8021pmapperserviceprofileBME : ManagedEntityDefinition :=
  mkDef "Ieee8021PMapperServiceProfile" 130 [Create; Delete; GetMsg; SetMsg] 65528 (attrs [
    Uint16Field "ManagedEntityId" PointerAttributeType 0 0 [Read; SetByCreate] false false false 0;
    Uint16Field "TpPointer" UnsignedIntegerAttributeType 32768 0 [Read; SetByCreate; Write] false false false 1;
    Uint16Field "InterworkTpPointerForPBitPriority0" UnsignedIntegerAttributeType 16384 0 [Read; SetByCreate; Write] false false false 2;
    Uint16Field "InterworkTpPointerForPBitPriority1" UnsignedIntegerAttributeType 8192 0 [Read; SetByCreate; Write] false false false 3;
    Uint16Field "InterworkTpPointerForPBitPriority2" UnsignedIntegerAttributeType 4096 0 [Read; SetByCreate; Write] false false false 4;
    Uint16Field "InterworkTpPointerForPBitPriority3" UnsignedIntegerAttributeType 2048 0 [Read; SetByCreate; Write] false false false 5;
    Uint16Field "InterworkTpPointerForPBitPriority4" UnsignedIntegerAttributeType 1024 0 [Read; SetByCreate; Write] false false false 6;
    Uint16Field "InterworkTpPointerForPBitPriority5" UnsignedIntegerAttributeType 512 0 [Read; SetByCreate; Write] false false false 7;
    Uint16Field "InterworkTpPointerForPBitPriority6" UnsignedIntegerAttributeType 256 0 [Read; SetByCreate; Write] false false false 8;
    Uint16Field "InterworkTpPointerForPBitPriority7" UnsignedIntegerAttributeType 128 0 [Read; SetByCreate; Write] false false false 9;
    ByteField "UnmarkedFrameOption" UnsignedIntegerAttributeType 64 0 [Read; SetByCreate; Write] false false false 10;
    MultiByteField "DscpToPBitMapping" OctetsAttributeType 32 24 (replicate 24 0) [Read; Write] false false false 11;
    ByteField "DefaultPBitAssumption" UnsignedIntegerAttributeType 16 0 [Read; SetByCreate; Write] false false false 12;
    ByteField "TpType" UnsignedIntegerAttributeType 8 0 [Read; SetByCreate; Write] false true false 13])
    CreatedByOlt UnknownSupport [].

Definition interworkingvccterminationpointBME : ManagedEntityDefinition :=
  mkDef "InterworkingVccTerminationPoint" 14 [Create; Delete; GetMsg; SetMsg] 65408 (attrs [
    Uint16Field "ManagedEntityId" PointerAttributeType 0 0 [Read; SetByCreate] false false false 0;
    Uint16Field "VciValue" UnsignedIntegerAttributeType 32768 0 [Read; SetByCreate; Write] false false false 1;
    Uint16Field "VpNetworkCtpConnectivityPointer" UnsignedIntegerAttributeType 16384 0 [Read; SetByCreate; Write] false false false 2;
    ByteField "Deprecated1" UnsignedIntegerAttributeType 8192 0 [Read; SetByCreate; Write] false false true 3;
    Uint16Field "Deprecated2" UnsignedIntegerAttributeType 4096 0 [Read; SetByCreate; Write] false false true 4;
    Uint16Field "Aal5ProfilePointer" UnsignedIntegerAttributeType 2048 0 [Read; SetByCreate; Write] false false false 5;
    Uint16Field "Deprecated3" UnsignedIntegerAttributeType 1024 0 [Read; SetByCreate; Write] false false true 6;
    ByteField "AalLoopbackConfiguration" UnsignedIntegerAttributeType 512 0 [Read; Write] false false false 7;
    ByteField "PptpCounter" UnsignedIntegerAttributeType 256 0 [Read] false true false 8;
    ByteField "OperationalState" UnsignedIntegerAttributeType 128 0 [Read] true true false 9])
    CreatedByOlt UnknownSupport [0; 1; 2; 3; 4; 5; 6].

Definition iphostconfigdataBME : ManagedEntityDefinition :=
  mkDef "IpHostConfigData" 134 [GetMsg; SetMsg; TestMsg] 65535 (attrs [
    Uint16Field "ManagedEntityId" PointerAttributeType 0 0 [Read] false false false 0;
    ByteField "IpOptions" UnsignedIntegerAttributeType 32768 0 [Read; Write] false false false 1;
    MultiByteField "MacAddress" OctetsAttributeType 16384 6 (replicate 6 0) [Read] false false false 2;
    MultiByteField "OnuIdentifier" OctetsAttributeType 8192 25 (replicate 25 0) [Read; Write] false false false 3;
    Uint32Field "IpAddress" UnsignedIntegerAttributeType 4096 0 [Read; Write] false false false 4;
    Uint32Field "Mask" UnsignedIntegerAttributeType 2048 0 [Read; Write] false false false 5;
    Uint32Field "Gateway" UnsignedIntegerAttributeType 1024 0 [Read; Write] false false false 6;
    Uint32Field "PrimaryDns" UnsignedIntegerAttributeType 512 0 [Read; Write] false false false 7;
    Uint32Field "SecondaryDns" UnsignedIntegerAttributeType 256 0 [Read; Write] false false false 8;
    Uint32Field "CurrentAddress" UnsignedIntegerAttributeType 128 0 [Read] true true false 9;
    Uint32Field "CurrentMask" UnsignedIntegerAttributeType 64 0 [Read] true true false 10;
    Uint32Field "CurrentGateway" UnsignedIntegerAttributeType 32 0 [Read] true true false 11;
    Uint32Field "CurrentPrimaryDns" UnsignedIntegerAttributeType 16 0 [Read] true true false 12;
    Uint32Field "CurrentSecondaryDns" UnsignedIntegerAttributeType 8 0 [Read] true true false 13;
    MultiByteField "DomainName" OctetsAttributeType 4 25 (replicate 25 0) [Read] true false false 14;
    MultiByteField "HostName" OctetsAttributeType 2 25 (replicate 25 0) [Read] true false false 15;
    Uint16Field "RelayAgentOptions" UnsignedIntegerAttributeType 1 0 [Read; Write] true true false 16])
    CreatedByOnu UnknownSupport [].

Definition iphostperformancemonitoringhistorydataBME : ManagedEntityDefinition :=
  mkDef "IpHostPerformanceMonitoringHistoryData" 135 [Create; Delete; GetMsg; SetMsg; GetCurrentData] 65280 (attrs [
    Uint16Field "ManagedEntityId" PointerAttributeType 0 0 [Read; SetByCreate] false false false 0;
    ByteField "IntervalEndTime" UnsignedIntegerAttributeType 32768 0 [Read] false false false 1;
    Uint16Field "ThresholdData12Id" UnsignedIntegerAttributeType 16384 0 [Read; SetByCreate; Write] false false false 2;
    Uint32Field "IcmpErrors" CounterAttributeType 8192 0 [Read] false false false 3;
    Uint32Field "DnsErrors" CounterAttributeType 4096 0 [Read] false false false 4;
    Uint16Field "DhcpTimeouts" CounterAttributeType 2048 0 [Read] false true false 5;
    Uint16Field "IpAddressConflict" CounterAttributeType 1024 0 [Read] false true false 6;
    Uint16Field "OutOfMemory" CounterAttributeType 512 0 [Read] false true false 7;
    Uint16Field "InternalError" CounterAttributeType 256 0 [Read] false true false 8])
    CreatedByOlt UnknownSupport [1; 2; 3; 4; 5; 6].

Definition largestringBME : ManagedEntityDefinition :=
  mkDef "LargeString" 157 [Create; Delete; GetMsg; SetMsg] 65535 (attrs [
    Uint16Field "ManagedEntityId" PointerAttributeType 0 0 [Read; SetByCreate] false false false 0;
    ByteField "NumberOfParts" UnsignedIntegerAttributeType 32768 0 [Read; Write] true false false 1;
    MultiByteField "Part1" OctetsAttributeType 16384 25 (replicate 25 0) [Read; Write] true false false 2;
    MultiByteField "Part2" OctetsAttributeType 8192 25 (replicate 25 0) [Read; Write] true false false 3;
    MultiByteField "Part3" OctetsAttributeType 4096 25 (replicate 25 0) [Read; Write] true false false 4;
    MultiByteField "Part4" OctetsAttributeType 2048 25 (replicate 25 0) [Read; Write] true false false 5;
    MultiByteField "Part5" OctetsAttributeType 1024 25 (replicate 25 0) [Read; Write] true false false 6;
    MultiByteField "Part6" OctetsAttributeType 512 25 (replicate 25 0) [Read; Write] true false false 7;
    MultiByteField "Part7" OctetsAttributeType 256 25 (replicate 25 0) [Read; Write] true false false 8;
    MultiByteField "Part8" OctetsAttributeType 128 25 (replicate 25 0) [Read; Write] true false false 9;
    MultiByteField "Part9" OctetsAttributeType 64 25 (replicate 25 0) [Read; Write] true false false 10;
    MultiByteField "Part10" OctetsAttributeType 32 25 (replicate 25 0) [Read; Write] true false false 11;
    MultiByteField "Part11" OctetsAttributeType 16 25 (replicate 25 0) [Read; Write] true false false 12;
    MultiByteField "Part12" OctetsAttributeType 8 25 (replicate 25 0) [Read; Write] true false false 13;
    MultiByteField "Part13" OctetsAttributeType 4 25 (replicate 25 0) [Read; Write] true false false 14;
    MultiByteField "Part14" OctetsAttributeType 2 25 (replicate 25 0) [Read; Write] true false false 15;
    MultiByteField "Part15" OctetsAttributeType 1 25 (replicate 25 0) [Read; Write] true false false 16])
    CreatedByOlt UnknownSupport [].

Definition macbridgeconfigurationdataBME : ManagedEntityDefinition :=
  mkDef "MacBridgeConfigurationData" 46 [GetMsg] 65280 (attrs [
    Uint16Field "ManagedEntityId" PointerAttributeType 0 0 [Read] false false false 0;
    MultiByteField "BridgeMacAddress" OctetsAttributeType 32768 6 (replicate 6 0) [Read] false false false 1;
    Uint16Field "BridgePriority" UnsignedIntegerAttributeType 16384 0 [Read] false false false 2;
    MultiByteField "DesignatedRoot" OctetsAttributeType 8192 8 (replicate 8 0) [Read] false false false 3;
    Uint32Field "RootPathCost" UnsignedIntegerAttributeType 4096 0 [Read] false false false 4;
    ByteField "BridgePortCount" UnsignedIntegerAttributeType 2048 0 [Read] false false false 5;
    Uint16Field "RootPortNum" UnsignedIntegerAttributeType 1024 0 [Read] false false false 6;
    Uint16Field "HelloTime" UnsignedIntegerAttributeType 512 256 [Read] false true false 7;
    Uint16Field "ForwardDelay" UnsignedIntegerAttributeType 256 1024 [Read] false true false 8])
    CreatedByOnu UnknownSupport [].

Definition macbridgeperformancemonitoringhistorydataBME : ManagedEntityDefinition :=
  mkDef "MacBridgePerformanceMonitoringHistoryData" 51 [Create; Delete; GetMsg; SetMsg; GetCurrentData] 57344 (attrs [
    Uint16Field "ManagedEntityId" PointerAttributeType 0 0 [Read; SetByCreate] false false false 0;
    ByteField "IntervalEndTime" UnsignedIntegerAttributeType 32768 0 [Read] false false false 1;
    Uint16Field "ThresholdData12Id" PointerAttributeType 16384 0 [Read; SetByCreate; Write] false false false 2;
    Uint32Field "BridgeLearningEntryDiscardCount" CounterAttributeType 8192 0 [Read] false false false 3])
    CreatedByOlt UnknownSupport [0].

Definition macbridgeportbridgetabledataBME : ManagedEntityDefinition :=
  mkDef "MacBridgePortBridgeTableData" 50 [GetMsg; GetNextMsg] 32768 (attrs [
    Uint16Field "ManagedEntityId" PointerAttributeType 0 0 [Read] false false false 0;
    TableField "BridgeTable" TableAttributeType 32768 8 [Read] false false false 1])
    CreatedByOnu UnknownSupport [].

Definition macbridgeportconfigurationdataBME : ManagedEntityDefinition :=
  mkDef "MacBridgePortConfigurationData" 47 [Create; Delete; GetMsg; SetMsg] 65532 (attrs [
    Uint16Field "ManagedEntityId" PointerAttributeType 0 0 [Read; SetByCreate] false false false 0;
    Uint16Field "BridgeIdPointer" UnsignedIntegerAttributeType 32768 0 [Read; SetByCreate; Write] false false false 1;
    ByteField "PortNum" UnsignedIntegerAttributeType 16384 0 [Read; SetByCreate; Write] false false false 2;
    ByteField "TpType" EnumerationAttributeType 8192 1 [Read; SetByCreate; Write] false false false 3;
    Uint16Field "TpPointer" PointerAttributeType 4096 0 [Read; SetByCreate; Write] false false false 4;
    Uint16Field "PortPriority" UnsignedIntegerAttributeType 2048 0 [Read; SetByCreate; Write] false true false 5;
    Uint16Field "PortPathCost" UnsignedIntegerAttributeType 1024 1 [Read; SetByCreate; Write] false false false 6;
    ByteField "PortSpanningTreeInd" EnumerationAttributeType 512 0 [Read; SetByCreate; Write] false false false 7;
    ByteField "Deprecated1" UnsignedIntegerAttributeType 256 0 [Read; SetByCreate; Write] false true true 8;
    ByteField "Deprecated2" UnsignedIntegerAttributeType 128 0 [Read; SetByCreate; Write] false true true 9;
    MultiByteField "PortMacAddress" OctetsAttributeType 64 6 (replicate 6 0) [Read] false true false 10;
    Uint16Field "OutboundTdPointer" PointerAttributeType 32 0 [Read; Write] false true false 11;
    Uint16Field "InboundTdPointer" PointerAttributeType 16 0 [Read; Write] false true false 12;
    ByteField "MacLearningDepth" UnsignedIntegerAttributeType 8 0 [Read; SetByCreate; Write] false true false 13;
    Uint16Field "LaspIdPointer" UnsignedIntegerAttributeType 4 0 [Read; SetByCreate; Write] false true false 14])
    CreatedByOlt UnknownSupport [0].

Definition macbridgeportdesignationdataBME : ManagedEntityDefinition :=
  mkDef "MacBridgePortDesignationData" 48 [GetMsg] 49152 (attrs [
    Uint16Field "ManagedEntityId" PointerAttributeType 0 0 [Read] false false false 0;
    MultiByteField "DesignatedBridgeRootCostPort" OctetsAttributeType 32768 24 (replicate 24 0) [Read] false false false 1;
    ByteField "PortState" EnumerationAttributeType 16384 0 [Read] false false false 2])
    CreatedByOnu UnknownSupport [].

Definition macbridgeportfilterpreassigntableBME : ManagedEntityDefinition :=
  mkDef "MacBridgePortFilterPreAssignTable" 79 [GetMsg; SetMsg] 65472 (attrs [
    Uint16Field "ManagedEntityId" PointerAttributeType 0 0 [Read] false false false 0;
    ByteField "Ipv4MulticastFiltering" UnsignedIntegerAttributeType 32768 0 [Read; Write] false false false 1;
    ByteField "Ipv6MulticastFiltering" UnsignedIntegerAttributeType 16384 0 [Read; Write] false false false 2;
    ByteField "Ipv4BroadcastFiltering" UnsignedIntegerAttributeType 8192 0 [Read; Write] false false false 3;
    ByteField "RarpFiltering" UnsignedIntegerAttributeType 4096 0 [Read; Write] false false false 4;
    ByteField "IpxFiltering" UnsignedIntegerAttributeType 2048 0 [Read; Write] false false false 5;
    ByteField "NetbeuiFiltering" UnsignedIntegerAttributeType 1024 0 [Read; Write] false false false 6;
    ByteField "AppletalkFiltering" UnsignedIntegerAttributeType 512 0 [Read; Write] false false false 7;
    ByteField "BridgeManagementInformationFiltering" UnsignedIntegerAttributeType 256 0 [Read; Write] false false false 8;
    ByteField "ArpFiltering" UnsignedIntegerAttributeType 128 0 [Read; Write] false false false 9;
    ByteField "PointToPointProtocolOverEthernetPppoeBroadcastFiltering" UnsignedIntegerAttributeType 64 0 [Read; Write] false false false 10])
    CreatedByOnu UnknownSupport [].

Definition macbridgeportfiltertabledataBME : ManagedEntityDefinition :=
  mkDef "MacBridgePortFilterTableData" 49 [GetMsg; GetNextMsg; SetMsg; SetTableMsg] 32768 (attrs [
    Uint16Field "ManagedEntityId" PointerAttributeType 0 0 [Read] false false false 0;
    TableField "MacFilterTable" TableAttributeType 32768 8 [Read; Write] false false false 1])
    CreatedByOnu UnknownSupport [].

Definition macbridgeporticmpv6processpreassigntableBME : ManagedEntityDefinition :=
  mkDef "MacBridgePortIcmpv6ProcessPreAssignTable" 348 [GetMsg] 65408 (attrs [
    Uint16Field "ManagedEntityId" PointerAttributeType 0 0 [Read] false false false 0;
    ByteField "Icmpv6ErrorMessagesProcessing" UnsignedIntegerAttributeType 32768 0 [Read; Write] false false false 1;
    ByteField "Icmpv6InformationalMessagesProcessing" UnsignedIntegerAttributeType 16384 0 [Read; Write] false false false 2;
    ByteField "RouterSolicitationProcessing" UnsignedIntegerAttributeType 8192 0 [Read; Write] false false false 3;
    ByteField "RouterAdvertisementProcessing" UnsignedIntegerAttributeType 4096 0 [Read; Write] false false false 4;
    ByteField "NeighbourSolicitationProcessing" UnsignedIntegerAttributeType 2048 0 [Read; Write] false false false 5;
    ByteField "NeighbourAdvertisementProcessing" UnsignedIntegerAttributeType 1024 0 [Read; Write] false false false 6;
    ByteField "RedirectProcessing" UnsignedIntegerAttributeType 512 0 [Read; Write] false false false 7;
    ByteField "MulticastListenerQueryProcessing" UnsignedIntegerAttributeType 256 0 [Read; Write] false false false 8;
    ByteField "UnknownIcmpv6Processing" UnsignedIntegerAttributeType 128 0 [Read; Write] false false false 9])
    CreatedByOnu UnknownSupport [].

Definition macbridgeportperformancemonitoringhistorydataBME : ManagedEntityDefinition :=
  mkDef "MacBridgePortPerformanceMonitoringHistoryData" 52 [Create; Delete; GetMsg; SetMsg; GetCurrentData] 65024 (attrs [
    Uint16Field "ManagedEntityId" PointerAttributeType 0 0 [Read; SetByCreate] false false false 0;
    ByteField "IntervalEndTime" UnsignedIntegerAttributeType 32768 0 [Read] false false false 1;
    Uint16Field "ThresholdData12Id" PointerAttributeType 16384 0 [Read; SetByCreate; Write] false false false 2;
    Uint32Field "ForwardedFrameCounter" CounterAttributeType 8192 0 [Read] false false false 3;
    Uint32Field "DelayExceededDiscardCounter" CounterAttributeType 4096 0 [Read] false false false 4;
    Uint32Field "MaximumTransmissionUnitMtuExceededDiscardCounter" CounterAttributeType 2048 0 [Read] false false false 5;
    Uint32Field "ReceivedFrameCounter" CounterAttributeType 1024 0 [Read] false false false 6;
    Uint32Field "ReceivedAndDiscardedCounter" CounterAttributeType 512 0 [Read] false false false 7])
    CreatedByOlt UnknownSupport [1; 2; 4].

Definition macbridgeserviceprofileBME : ManagedEntityDefinition :=
  mkDef "MacBridgeServiceProfile" 45 [Create; Delete; GetMsg; SetMsg] 65472 (attrs [
    Uint16Field "ManagedEntityId" PointerAttributeType 0 0 [Read; SetByCreate] false false false 0;
    ByteField "SpanningTreeInd" EnumerationAttributeType 32768 0 [Read; SetByCreate; Write] false false false 1;
    ByteField "LearningInd" EnumerationAttributeType 16384 0 [Read; SetByCreate; Write] false false false 2;
    ByteField "PortBridgingInd" EnumerationAttributeType 8192 0 [Read; SetByCreate; Write] false false false 3;
    Uint16Field "Priority" UnsignedIntegerAttributeType 4096 0 [Read; SetByCreate; Write] false false false 4;
    Uint16Field "MaxAge" UnsignedIntegerAttributeType 2048 1536 [Read; SetByCreate; Write] false false false 5;
    Uint16Field "HelloTime" UnsignedIntegerAttributeType 1024 256 [Read; SetByCreate; Write] false false false 6;
    Uint16Field "ForwardDelay" UnsignedIntegerAttributeType 512 1024 [Read; SetByCreate; Write] false false false 7;
    ByteField "UnknownMacAddressDiscard" EnumerationAttributeType 256 0 [Read; SetByCreate; Write] false false false 8;
    ByteField "MacLearningDepth" UnsignedIntegerAttributeType 128 0 [Read; SetByCreate; Write] false true false 9;
    Uint32Field "DynamicFilteringAgeingTime" UnsignedIntegerAttributeType 64 300 [Read; SetByCreate; Write] false true false 10])
    CreatedByOlt UnknownSupport [].

Definition managedentitymeBME : ManagedEntityDefinition :=
  mkDef "ManagedEntityMe" 288 [GetMsg; GetNextMsg] 65280 (attrs [
    Uint16Field "ManagedEntityId" PointerAttributeType 0 0 [Read] false false false 0;
    MultiByteField "Name" OctetsAttributeType 32768 25 (replicate 25 0) [Read] false false false 1;
    TableField "AttributesTable" TableAttributeType 16384 2 [Read] false false false 2;
    ByteField "Access" UnsignedIntegerAttributeType 8192 0 [Read] false false false 3;
    TableField "AlarmsTable" TableAttributeType 4096 1 [Read] false false false 4;
    TableField "AvcsTable" TableAttributeType 2048 1 [Read] false false false 5;
    Uint32Field "Actions" UnsignedIntegerAttributeType 1024 0 [Read] false false false 6;
    TableField "InstancesTable" TableAttributeType 512 2 [Read] false false false 7;
    ByteField "Support" UnsignedIntegerAttributeType 256 0 [Read] false false false 8])
    CreatedByOnu UnknownSupport [].

Definition mgcconfigdataBME : ManagedEntityDefinition :=
  mkDef "MgcConfigData" 155 [Create; Delete; GetMsg; SetMsg] 65504 (attrs [
    Uint16Field "ManagedEntityId" PointerAttributeType 0 0 [Read; SetByCreate] false false false 0;
    Uint16Field "PrimaryMgc" UnsignedIntegerAttributeType 32768 0 [Read; SetByCreate; Write] false false false 1;
    Uint16Field "SecondaryMgc" UnsignedIntegerAttributeType 16384 0 [Read; SetByCreate; Write] false false false 2;
    Uint16Field "TcpUdpPointer" UnsignedIntegerAttributeType 8192 0 [Read; SetByCreate; Write] false false false 3;
    ByteField "Version" UnsignedIntegerAttributeType 4096 0 [Read; SetByCreate; Write] false false false 4;
    ByteField "MessageFormat" UnsignedIntegerAttributeType 2048 0 [Read; SetByCreate; Write] false false false 5;
    Uint16Field "MaximumRetryTime" UnsignedIntegerAttributeType 1024 0 [Read; Write] false true false 6;
    Uint16Field "MaximumRetryAttempts" UnsignedIntegerAttributeType 512 0 [Read; SetByCreate; Write] false true false 7;
    Uint16Field "ServiceChangeDelay" UnsignedIntegerAttributeType 256 0 [Read; Write] false true false 8;
    MultiByteField "TerminationIdBase" OctetsAttributeType 128 25 (replicate 25 0) [Read; Write] false true false 9;
    Uint32Field "Softswitch" UnsignedIntegerAttributeType 64 0 [Read; SetByCreate; Write] false false false 10;
    Uint16Field "MessageIdPointer" UnsignedIntegerAttributeType 32 0 [Read; SetByCreate; Write] false true false 11])
    CreatedByOlt UnknownSupport [0].

Definition mgcconfigportalBME : ManagedEntityDefinition :=
  mkDef "MgcConfigPortal" 154 [GetMsg; GetNextMsg] 32768 (attrs [
    Uint16Field "ManagedEntityId" PointerAttributeType 0 0 [Read; SetByCreate] false false false 0;
    TableField "ConfigurationTextTable" TableAttributeType 32768 25 [Read] true false false 1])
    CreatedByOnu UnknownSupport [].

Definition mgcperformancemonitoringhistorydataBME : ManagedEntityDefinition :=
  mkDef "MgcPerformanceMonitoringHistoryData" 156 [Create; Delete; GetMsg; SetMsg; GetCurrentData] 65504 (attrs [
    Uint16Field "ManagedEntityId" PointerAttributeType 0 0 [Read; SetByCreate] false false false 0;
    ByteField "IntervalEndTime" UnsignedIntegerAttributeType 32768 0 [Read] false false false 1;
    Uint16Field "ThresholdData12Id" UnsignedIntegerAttributeType 16384 0 [Read; SetByCreate; Write] false false false 2;
    Uint32Field "ReceivedMessages" CounterAttributeType 8192 0 [Read] false false false 3;
    Uint32Field "ReceivedOctets" CounterAttributeType 4096 0 [Read] false false false 4;
    Uint32Field "SentMessages" CounterAttributeType 2048 0 [Read] false false false 5;
    Uint32Field "SentOctets" CounterAttributeType 1024 0 [Read] false false false 6;
    Uint32Field "ProtocolErrors" CounterAttributeType 512 0 [Read] false false false 7;
    Uint32Field "TransportLosses" CounterAttributeType 256 0 [Read] false false false 8;
    ByteField "LastDetectedEvent" CounterAttributeType 128 0 [Read] false false false 9;
    Uint32Field "LastDetectedEventTime" CounterAttributeType 64 0 [Read] false false false 10;
    Uint32Field "LastDetectedResetTime" CounterAttributeType 32 0 [Read] false false false 11])
    CreatedByOlt UnknownSupport [0; 1].

Definition mocaethernetperformancemonitoringhistorydataBME : ManagedEntityDefinition :=
  mkDef "MocaEthernetPerformanceMonitoringHistoryData" 163 [Create; Delete; GetMsg; SetMsg] 65535 (attrs [
    Uint16Field "ManagedEntityId" PointerAttributeType 0 0 [Read; SetByCreate] false false false 0;
    ByteField "IntervalEndTime" UnsignedIntegerAttributeType 32768 0 [Read] false false false 1;
    Uint16Field "ThresholdData12Id" UnsignedIntegerAttributeType 16384 0 [Read; SetByCreate; Write] false false false 2;
    Uint32Field "IncomingUnicastPackets" CounterAttributeType 8192 0 [Read] false true false 3;
    Uint32Field "IncomingDiscardedPackets" CounterAttributeType 4096 0 [Read] false true false 4;
    Uint32Field "IncomingErroredPackets" CounterAttributeType 2048 0 [Read] false true false 5;
    Uint32Field "IncomingUnknownPackets" CounterAttributeType 1024 0 [Read] false true false 6;
    Uint32Field "IncomingMulticastPackets" CounterAttributeType 512 0 [Read] false true false 7;
    Uint32Field "IncomingBroadcastPackets" CounterAttributeType 256 0 [Read] false true false 8;
    Uint32Field "IncomingOctets" CounterAttributeType 128 0 [Read] false true false 9;
    Uint32Field "OutgoingUnicastPackets" CounterAttributeType 64 0 [Read] false true false 10;
    Uint32Field "OutgoingDiscardedPackets" CounterAttributeType 32 0 [Read] false true false 11;
    Uint32Field "OutgoingErroredPackets" CounterAttributeType 16 0 [Read] false true false 12;
    Uint32Field "OutgoingUnknownPackets" CounterAttributeType 8 0 [Read] false true false 13;
    Uint32Field "OutgoingMulticastPackets" CounterAttributeType 4 0 [Read] false true false 14;
    Uint32Field "OutgoingBroadcastPackets" CounterAttributeType 2 0 [Read] false true false 15;
    Uint32Field "OutgoingOctets" CounterAttributeType 1 0 [Read] false true false 16])
    CreatedByOlt UnknownSupport [0; 1; 2; 3; 4; 5; 6; 7; 8; 9; 10; 11; 12; 13].

Definition mocainterfaceperformancemonitoringhistorydataBME : ManagedEntityDefinition :=
  mkDef "MocaInterfacePerformanceMonitoringHistoryData" 164 [Create; Delete; GetMsg; GetNextMsg; SetMsg] 61440 (attrs [
    Uint16Field "ManagedEntityId" PointerAttributeType 0 0 [Read; SetByCreate] false false false 0;
    ByteField "IntervalEndTime" UnsignedIntegerAttributeType 32768 0 [Read] false false false 1;
    Uint16Field "ThresholdData12Id" UnsignedIntegerAttributeType 16384 0 [Read; SetByCreate; Write] false false false 2;
    Uint32Field "PhyTXBroadcastRate" CounterAttributeType 8192 0 [Read] false true false 3;
    TableField "NodeTable" TableAttributeType 4096 37 [Read] false false false 4])
    CreatedByOlt UnknownSupport [0; 1].

Definition mplspseudowireterminationpointBME : ManagedEntityDefinition :=
  mkDef "MplsPseudowireTerminationPoint" 333 [Create; Delete; GetMsg; SetMsg] 65534 (attrs [
    Uint16Field "ManagedEntityId" PointerAttributeType 0 0 [Read; SetByCreate] false false false 0;
    ByteField "TpType" UnsignedIntegerAttributeType 32768 0 [Read; SetByCreate; Write] false false false 1;
    Uint16Field "TpPointer" UnsignedIntegerAttributeType 16384 0 [Read; SetByCreate; Write] false false false 2;
    ByteField "MplsLabelIndicator" UnsignedIntegerAttributeType 8192 0 [Read; SetByCreate; Write] false false false 3;
    ByteField "MplsPwDirection" UnsignedIntegerAttributeType 4096 0 [Read; SetByCreate; Write] false false false 4;
    Uint32Field "MplsPwUplinkLabel" UnsignedIntegerAttributeType 2048 0 [Read; SetByCreate; Write] false false false 5;
    Uint32Field "MplsPwDownlinkLabel" UnsignedIntegerAttributeType 1024 0 [Read; SetByCreate; Write] false false false 6;
    ByteField "MplsPwTc" UnsignedIntegerAttributeType 512 0 [Read; SetByCreate; Write] false false false 7;
    ByteField "MplsTunnelDirection" UnsignedIntegerAttributeType 256 0 [Read; SetByCreate; Write] false false false 8;
    Uint32Field "MplsTunnelUplinkLabel" UnsignedIntegerAttributeType 128 0 [Read; SetByCreate; Write] false false false 9;
    Uint32Field "MplsTunnelDownlinkLabel" UnsignedIntegerAttributeType 64 0 [Read; SetByCreate; Write] false false false 10;
    ByteField "MplsTunnelTc" UnsignedIntegerAttributeType 32 0 [Read; SetByCreate; Write] false false false 11;
    Uint16Field "PseudowireType" UnsignedIntegerAttributeType 16 0 [Read; SetByCreate; Write] false false false 12;
    ByteField "PseudowireControlWordPreference" UnsignedIntegerAttributeType 8 0 [Read; SetByCreate; Write] false true false 13;
    ByteField "AdministrativeState" UnsignedIntegerAttributeType 4 0 [Read; Write] false true false 14;
    ByteField "OperationalState" UnsignedIntegerAttributeType 2 0 [Read] true true false 15])
    CreatedByOlt UnknownSupport [].

Definition multicastgeminterworkingterminationpointBME : ManagedEntityDefinition :=
  mkDef "MulticastGemInterworkingTerminationPoint" 281 [Create; Delete; GetMsg; GetNextMsg; SetMsg; SetTableMsg] 65472 (attrs [
    Uint16Field "ManagedEntityId" PointerAttributeType 0 0 [Read; SetByCreate] false false false 0;
    Uint16Field "GemPortNetworkCtpConnectivityPointer" PointerAttributeType 32768 0 [Read; SetByCreate; Write] false false false 1;
    ByteField "InterworkingOption" EnumerationAttributeType 16384 0 [Read; SetByCreate; Write] false false false 2;
    Uint16Field "ServiceProfilePointer" PointerAttributeType 8192 0 [Read; SetByCreate; Write] false false false 3;
    Uint16Field "NotUsed1" UnsignedIntegerAttributeType 4096 0 [Read; SetByCreate; Write] false false false 4;
    ByteField "PptpCounter" UnsignedIntegerAttributeType 2048 255 [Read] false true false 5;
    ByteField "OperationalState" EnumerationAttributeType 1024 0 [Read] true true false 6;
    Uint16Field "GalProfilePointer" PointerAttributeType 512 0 [Read; SetByCreate; Write] false false false 7;
    ByteField "NotUsed2" UnsignedIntegerAttributeType 256 0 [Read; SetByCreate; Write] false false false 8;
    TableField "Ipv4MulticastAddressTable" TableAttributeType 128 12 [Read; Write] false false false 9;
    TableField "Ipv6MulticastAddressTable" TableAttributeType 64 24 [Read; Write] false true false 10])
    CreatedByOlt UnknownSupport [0].

Definition multicastoperationsprofileBME : ManagedEntityDefinition :=
  mkDef "MulticastOperationsProfile" 309 [Create; Delete; GetMsg; GetNextMsg; SetMsg; SetTableMsg] 65535 (attrs [
    Uint16Field "ManagedEntityId" PointerAttributeType 0 0 [Read; SetByCreate] false false false 0;
    ByteField "IgmpVersion" EnumerationAttributeType 32768 0 [Read; SetByCreate; Write] false false false 1;
    ByteField "IgmpFunction" EnumerationAttributeType 16384 0 [Read; SetByCreate; Write] false false false 2;
    ByteField "ImmediateLeave" EnumerationAttributeType 8192 0 [Read; SetByCreate; Write] false false false 3;
    Uint16Field "UpstreamIgmpTci" UnsignedIntegerAttributeType 4096 0 [Read; SetByCreate; Write] false true false 4;
    ByteField "UpstreamIgmpTagControl" UnsignedIntegerAttributeType 2048 0 [Read; SetByCreate; Write] false true false 5;
    Uint32Field "UpstreamIgmpRate" UnsignedIntegerAttributeType 1024 0 [Read; SetByCreate; Write] false true false 6;
    TableField "DynamicAccessControlListTable" TableAttributeType 512 24 [Read; Write] false false false 7;
    TableField "StaticAccessControlListTable" TableAttributeType 256 24 [Read; Write] false false false 8;
    TableField "LostGroupsListTable" TableAttributeType 128 10 [Read] false true false 9;
    ByteField "Robustness" UnsignedIntegerAttributeType 64 0 [Read; SetByCreate; Write] false true false 10;
    Uint32Field "QuerierIpAddress" UnsignedIntegerAttributeType 32 0 [Read; SetByCreate; Write] false true false 11;
    Uint32Field "QueryInterval" UnsignedIntegerAttributeType 16 0 [Read; SetByCreate; Write] false true false 12;
    Uint32Field "QueryMaxResponseTime" UnsignedIntegerAttributeType 8 0 [Read; SetByCreate; Write] false true false 13;
    Uint32Field "LastMemberQueryInterval" UnsignedIntegerAttributeType 4 0 [Read; Write] false true false 14;
    ByteField "UnauthorizedJoinRequestBehaviour" UnsignedIntegerAttributeType 2 0 [Read; Write] false true false 15;
    MultiByteField "DownstreamIgmpAndMulticastTci" OctetsAttributeType 1 3 (replicate 3 0) [Read; SetByCreate; Write] false true false 16])
    CreatedByOlt UnknownSupport [].

Definition multicastsubscriberconfiginfoBME : ManagedEntityDefinition :=
  mkDef "MulticastSubscriberConfigInfo" 310 [Create; Delete; GetMsg; GetNextMsg; SetMsg; SetTableMsg] 65024 (attrs [
    Uint16Field "ManagedEntityId" PointerAttributeType 0 0 [Read; SetByCreate] false false false 0;
    ByteField "MeType" EnumerationAttributeType 32768 0 [Read; SetByCreate; Write] false false false 1;
    Uint16Field "MulticastOperationsProfilePointer" PointerAttributeType 16384 0 [Read; SetByCreate; Write] false false false 2;
    Uint16Field "MaxSimultaneousGroups" UnsignedIntegerAttributeType 8192 0 [Read; SetByCreate; Write] false true false 3;
    Uint32Field "MaxMulticastBandwidth" UnsignedIntegerAttributeType 4096 0 [Read; SetByCreate; Write] false true false 4;
    ByteField "BandwidthEnforcement" EnumerationAttributeType 2048 0 [Read; SetByCreate; Write] false true false 5;
    TableField "MulticastServicePackageTable" TableAttributeType 1024 20 [Read; Write] false true false 6;
    TableField "AllowedPreviewGroupsTable" TableAttributeType 512 22 [Read; Write] false false false 7])
    CreatedByOlt UnknownSupport [].

Definition multicastsubscribermonitorBME : ManagedEntityDefinition :=
  mkDef "MulticastSubscriberMonitor" 311 [Create; Delete; GetMsg; GetNextMsg; SetMsg] 64512 (attrs [
    Uint16Field "ManagedEntityId" PointerAttributeType 0 0 [Read; SetByCreate] false false false 0;
    ByteField "MeType" EnumerationAttributeType 32768 0 [Read; SetByCreate; Write] false false false 1;
    Uint32Field "CurrentMulticastBandwidth" UnsignedIntegerAttributeType 16384 0 [Read] false true false 2;
    Uint32Field "JoinMessagesCounter" UnsignedIntegerAttributeType 8192 0 [Read] false true false 3;
    Uint32Field "BandwidthExceededCounter" UnsignedIntegerAttributeType 4096 0 [Read] false true false 4;
    TableField "Ipv4ActiveGroupListTable" TableAttributeType 2048 24 [Read] false false false 5;
    TableField "Ipv6ActiveGroupListTable" TableAttributeType 1024 58 [Read] false true false 6])
    CreatedByOlt UnknownSupport [].

Definition networkaddressBME : ManagedEntityDefinition :=
  mkDef "NetworkAddress" 137 [Create; Delete; GetMsg; SetMsg] 49152 (attrs [
    Uint16Field "ManagedEntityId" PointerAttributeType 0 0 [Read; SetByCreate] false false false 0;
    Uint16Field "SecurityPointer" UnsignedIntegerAttributeType 32768 0 [Read; SetByCreate; Write] false false false 1;
    Uint16Field "AddressPointer" UnsignedIntegerAttributeType 16384 0 [Read; SetByCreate; Write] false false false 2])
    CreatedByOlt UnknownSupport [].

Definition networkdialplantableBME : ManagedEntityDefinition :=
  mkDef "NetworkDialPlanTable" 145 [Create; Delete; GetMsg; GetNextMsg; SetMsg; SetTableMsg] 64512 (attrs [
    Uint16Field "ManagedEntityId" PointerAttributeType 0 0 [Read; SetByCreate] false false false 0;
    Uint16Field "DialPlanNumber" UnsignedIntegerAttributeType 32768 0 [Read] false false false 1;
    Uint16Field "DialPlanTableMaxSize" UnsignedIntegerAttributeType 16384 0 [Read; SetByCreate] false false false 2;
    Uint16Field "CriticalDialTimeout" UnsignedIntegerAttributeType 8192 0 [Read; SetByCreate; Write] false false false 3;
    Uint16Field "PartialDialTimeout" UnsignedIntegerAttributeType 4096 0 [Read; SetByCreate; Write] false false false 4;
    ByteField "DialPlanFormat" UnsignedIntegerAttributeType 2048 0 [Read; SetByCreate; Write] false false false 5;
    TableField "DialPlanTable" TableAttributeType 1024 30 [Read; Write] false false false 6])
    CreatedByOlt UnknownSupport [].

Definition octetstringBME : ManagedEntityDefinition :=
  mkDef "OctetString" 307 [Create; Delete; GetMsg; SetMsg] 65535 (attrs [
    Uint16Field "ManagedEntityId" PointerAttributeType 0 0 [Read; SetByCreate] false false false 0;
    Uint16Field "Length" UnsignedIntegerAttributeType 32768 0 [Read; Write] false false false 1;
    MultiByteField "Part1" OctetsAttributeType 16384 25 (replicate 25 0) [Read; Write] false false false 2;
    MultiByteField "Part2" OctetsAttributeType 8192 25 (replicate 25 0) [Read; Write] false true false 3;
    MultiByteField "Part3" OctetsAttributeType 4096 25 (replicate 25 0) [Read; Write] false true false 4;
    MultiByteField "Part4" OctetsAttributeType 2048 25 (replicate 25 0) [Read; Write] false true false 5;
    MultiByteField "Part5" OctetsAttributeType 1024 25 (replicate 25 0) [Read; Write] false true false 6;
    MultiByteField "Part6" OctetsAttributeType 512 25 (replicate 25 0) [Read; Write] false true false 7;
    MultiByteField "Part7" OctetsAttributeType 256 25 (replicate 25 0) [Read; Write] false true false 8;
    MultiByteField "Part8" OctetsAttributeType 128 25 (replicate 25 0) [Read; Write] false true false 9;
    MultiByteField "Part9" OctetsAttributeType 64 25 (replicate 25 0) [Read; Write] false true false 10;
    MultiByteField "Part10" OctetsAttributeType 32 25 (replicate 25 0) [Read; Write] false true false 11;
    MultiByteField "Part11" OctetsAttributeType 16 25 (replicate 25 0) [Read; Write] false true false 12;
    MultiByteField "Part12" OctetsAttributeType 8 25 (replicate 25 0) [Read; Write] false true false 13;
    MultiByteField "Part13" OctetsAttributeType 4 25 (replicate 25 0) [Read; Write] false true false 14;
    MultiByteField "Part14" OctetsAttributeType 2 25 (replicate 25 0) [Read; Write] false true false 15;
    MultiByteField "Part15" OctetsAttributeType 1 25 (replicate 25 0) [Read; Write] false true false 16])
    CreatedByOlt UnknownSupport [].

Definition oltgBME : ManagedEntityDefinition :=
  mkDef "OltG" 131 [GetMsg; SetMsg] 61440 (attrs [
    Uint16Field "ManagedEntityId" PointerAttributeType 0 0 [Read] false false false 0;
    MultiByteField "OltVendorId" StringAttributeType 32768 4 (replicate 4 32) [Read; Write] false false false 1;
    MultiByteField "EquipmentId" StringAttributeType 16384 20 (replicate 20 32) [Read; Write] false false false 2;
    MultiByteField "Version" StringAttributeType 8192 14 [48; 0; 0; 0; 0; 0; 0; 0; 0; 0; 0; 0; 0; 0] [Read; Write] false false false 3;
    MultiByteField "TimeOfDayInformation" OctetsAttributeType 4096 14 (replicate 14 0) [Read; Write] false true false 4])
    CreatedByOnu UnknownSupport [].

Definition omciBME : ManagedEntityDefinition :=
  mkDef "Omci" 287 [GetMsg; GetNextMsg] 49152 (attrs [
    Uint16Field "ManagedEntityId" PointerAttributeType 0 0 [Read] false false false 0;
    TableField "MeTypeTable" TableAttributeType 32768 2 [Read] false false false 1;
    TableField "MessageTypeTable" TableAttributeType 16384 1 [Read] false false false 2])
    CreatedByOnu UnknownSupport [].

Definition onugBME : ManagedEntityDefinition :=
  mkDef "OnuG" 256 [GetMsg; RebootMsg; SetMsg; SynchronizeTime; TestMsg] 65528 (attrs [
    Uint16Field "ManagedEntityId" PointerAttributeType 0 0 [Read] false false false 0;
    MultiByteField "VendorId" StringAttributeType 32768 4 (replicate 4 32) [Read] false false false 1;
    MultiByteField "Version" StringAttributeType 16384 14 [48; 0; 0; 0; 0; 0; 0; 0; 0; 0; 0; 0; 0; 0] [Read] false false false 2;
    MultiByteField "SerialNumber" OctetsAttributeType 8192 8 (replicate 8 0) [Read] false false false 3;
    ByteField "TrafficManagementOption" EnumerationAttributeType 4096 0 [Read] false false false 4;
    ByteField "Deprecated" UnsignedIntegerAttributeType 2048 0 [Read] false true true 5;
    ByteField "BatteryBackup" EnumerationAttributeType 1024 0 [Read; Write] false false false 6;
    ByteField "AdministrativeState" EnumerationAttributeType 512 0 [Read; Write] false false false 7;
    ByteField "OperationalState" EnumerationAttributeType 256 0 [Read] true true false 8;
    ByteField "OnuSurvivalTime" UnsignedIntegerAttributeType 128 0 [Read] false true false 9;
    MultiByteField "LogicalOnuId" OctetsAttributeType 64 24 (replicate 24 0) [Read] true true false 10;
    MultiByteField "LogicalPassword" OctetsAttributeType 32 12 (replicate 12 0) [Read] true true false 11;
    ByteField "CredentialsStatus" EnumerationAttributeType 16 0 [Read; Write] false true false 12;
    Uint16Field "ExtendedTcLayerOptions" BitFieldAttributeType 8 0 [Read] false true false 13])
    CreatedByOnu UnknownSupport [0; 1; 2; 3; 4; 5; 6; 7; 8; 9; 10; 11; 12; 13; 14; 15].

Definition onu2gBME : ManagedEntityDefinition :=
  mkDef "Onu2G" 257 [GetMsg; SetMsg] 65532 (attrs [
    Uint16Field "ManagedEntityId" PointerAttributeType 0 0 [Read] false false false 0;
    MultiByteField "EquipmentId" StringAttributeType 32768 20 (replicate 20 0) [Read] false true false 1;
    ByteField "OpticalNetworkUnitManagementAndControlChannelOmccVersion" EnumerationAttributeType 16384 164 [Read] true false false 2;
    Uint16Field "VendorProductCode" UnsignedIntegerAttributeType 8192 0 [Read] false true false 3;
    ByteField "SecurityCapability" EnumerationAttributeType 4096 0 [Read] false false false 4;
    ByteField "SecurityMode" EnumerationAttributeType 2048 0 [Read; Write] false false false 5;
    Uint16Field "TotalPriorityQueueNumber" UnsignedIntegerAttributeType 1024 0 [Read] false false false 6;
    ByteField "TotalTrafficSchedulerNumber" UnsignedIntegerAttributeType 512 0 [Read] false false false 7;
    ByteField "Deprecated" UnsignedIntegerAttributeType 256 1 [Read] false false true 8;
    Uint16Field "TotalGemPortIdNumber" UnsignedIntegerAttributeType 128 0 [Read] false true false 9;
    Uint32Field "Sysuptime" UnsignedIntegerAttributeType 64 0 [Read] false true false 10;
    Uint16Field "ConnectivityCapability" BitFieldAttributeType 32 0 [Read] false true false 11;
    ByteField "CurrentConnectivityMode" BitFieldAttributeType 16 0 [Read; Write] false true false 12;
    Uint16Field "QualityOfServiceQosConfigurationFlexibility" BitFieldAttributeType 8 0 [Read] false true false 13;
    Uint16Field "PriorityQueueScaleFactor" UnsignedIntegerAttributeType 4 1 [Read; Write] false true false 14])
    CreatedByOnu UnknownSupport [].

Definition onu3gBME : ManagedEntityDefinition :=
  mkDef "Onu3G" 441 [GetMsg; GetNextMsg; SetMsg] 65472 (attrs [
    Uint16Field "ManagedEntityId" PointerAttributeType 0 0 [Read] false false false 0;
    ByteField "FlashMemoryPerformanceValue" UnsignedIntegerAttributeType 32768 0 [Read] true true false 1;
    ByteField "LatestRestartReason" UnsignedIntegerAttributeType 16384 0 [Read] false false false 2;
    Uint16Field "TotalNumberOfStatusSnapshots" UnsignedIntegerAttributeType 8192 0 [Read] false false false 3;
    Uint16Field "NumberOfValidStatusSnapshots" UnsignedIntegerAttributeType 4096 0 [Read] true false false 4;
    Uint16Field "NextStatusSnapshotIndex" UnsignedIntegerAttributeType 2048 0 [Read] true false false 5;
    TableField "StatusSnapshotRecordTable" TableAttributeType 1024 25 [Read] false false false 6;
    ByteField "SnapAction" UnsignedIntegerAttributeType 512 0 [Write] false false false 7;
    MultiByteField "MostRecentStatusSnapshot" OctetsAttributeType 256 25 (replicate 25 0) [Read] false false false 8;
    ByteField "ResetAction" UnsignedIntegerAttributeType 128 0 [Write] false false false 9;
    ByteField "EnhancedMode" UnsignedIntegerAttributeType 64 0 [Read] false true false 10])
    CreatedByOnu UnknownSupport [0; 1; 2; 3; 4].

Definition onudataBME : ManagedEntityDefinition :=
  mkDef "OnuData" 2 [GetMsg; GetAllAlarms; GetAllAlarmsNext; MibReset; MibUpload; MibUploadNext; SetMsg] 32768 (attrs [
    Uint16Field "ManagedEntityId" PointerAttributeType 0 0 [Read] false false false 0;
    ByteField "MibDataSync" UnsignedIntegerAttributeType 32768 0 [Read; Write] false false false 1])
    CreatedByOnu UnknownSupport [].

Definition onudynamicpowermanagementcontrolBME : ManagedEntityDefinition :=
  mkDef "OnuDynamicPowerManagementControl" 336 [GetMsg; SetMsg] 65520 (attrs [
    Uint16Field "ManagedEntityId" PointerAttributeType 0 0 [Read] false false false 0;
    ByteField "PowerReductionManagementCapability" UnsignedIntegerAttributeType 32768 0 [Read] false false false 1;
    ByteField "PowerReductionManagementMode" UnsignedIntegerAttributeType 16384 0 [Read; Write] false false false 2;
    Uint16Field "Itransinit" UnsignedIntegerAttributeType 8192 0 [Read] false false false 3;
    Uint16Field "Itxinit" UnsignedIntegerAttributeType 4096 0 [Read] false false false 4;
    Uint32Field "MaximumSleepInterval" UnsignedIntegerAttributeType 2048 0 [Read; Write] false false false 5;
    Uint32Field "MaximumReceiverOffInterval" UnsignedIntegerAttributeType 1024 0 [Read; Write] false false false 6;
    Uint32Field "MinimumAwareInterval" UnsignedIntegerAttributeType 512 0 [Read; Write] false false false 7;
    Uint16Field "MinimumActiveHeldInterval" UnsignedIntegerAttributeType 256 0 [Read; Write] false false false 8;
    Uint64Field "MaximumSleepIntervalExtension" UnsignedIntegerAttributeType 128 0 [Read; Write] false true false 9;
    ByteField "EthernetPassiveOpticalNetworkEponCapabilityExtension" UnsignedIntegerAttributeType 64 0 [Read] false true false 10;
    ByteField "EponSetupExtension" UnsignedIntegerAttributeType 32 0 [Read; Write] false true false 11;
    Uint32Field "MissingConsecutiveBurstsThreshold" UnsignedIntegerAttributeType 16 0 [Read; Write] false false false 12])
    CreatedByOnu UnknownSupport [].

Definition onumanufacturingdataBME : ManagedEntityDefinition :=
  mkDef "OnuManufacturingData" 456 [GetMsg] 65024 (attrs [
    Uint16Field "ManagedEntityId" PointerAttributeType 0 0 [Read] false false false 0;
    MultiByteField "ManufacturerName" OctetsAttributeType 32768 25 (replicate 25 0) [Read] false true false 1;
    MultiByteField "SerialNumber1" OctetsAttributeType 16384 25 (replicate 25 0) [Read] false true false 2;
    MultiByteField "SerialNumber2" OctetsAttributeType 8192 25 (replicate 25 0) [Read] false true false 3;
    MultiByteField "ModelName" OctetsAttributeType 4096 25 (replicate 25 0) [Read] false true false 4;
    MultiByteField "ManufacturingDate" OctetsAttributeType 2048 25 (replicate 25 0) [Read] false true false 5;
    MultiByteField "HardwareRevision" OctetsAttributeType 1024 25 (replicate 25 0) [Read] false true false 6;
    MultiByteField "FirmwareRevision" OctetsAttributeType 512 25 (replicate 25 0) [Read] false true false 7])
    CreatedByOnu UnknownSupport [].

Definition onupowersheddingBME : ManagedEntityDefinition :=
  mkDef "OnuPowerShedding" 133 [GetMsg; SetMsg] 65504 (attrs [
    Uint16Field "ManagedEntityId" PointerAttributeType 0 0 [Read] false false false 0;
    Uint16Field "RestorePowerTimerResetInterval" UnsignedIntegerAttributeType 32768 0 [Read; Write] false false false 1;
    Uint16Field "DataClassSheddingInterval" UnsignedIntegerAttributeType 16384 0 [Read; Write] false false false 2;
    Uint16Field "VoiceClassSheddingInterval" UnsignedIntegerAttributeType 8192 0 [Read; Write] false false false 3;
    Uint16Field "VideoOverlayClassSheddingInterval" UnsignedIntegerAttributeType 4096 0 [Read; Write] false false false 4;
    Uint16Field "VideoReturnClassSheddingInterval" UnsignedIntegerAttributeType 2048 0 [Read; Write] false false false 5;
    Uint16Field "DigitalSubscriberLineClassSheddingInterval" UnsignedIntegerAttributeType 1024 0 [Read; Write] false false false 6;
    Uint16Field "AtmClassSheddingInterval" UnsignedIntegerAttributeType 512 0 [Read; Write] false false false 7;
    Uint16Field "CesClassSheddingInterval" UnsignedIntegerAttributeType 256 0 [Read; Write] false false false 8;
    Uint16Field "FrameClassSheddingInterval" UnsignedIntegerAttributeType 128 0 [Read; Write] false false false 9;
    Uint16Field "SdhSonetClassSheddingInterval" UnsignedIntegerAttributeType 64 0 [Read; Write] false false false 10;
    Uint16Field "SheddingStatus" UnsignedIntegerAttributeType 32 0 [Read] true true false 11])
    CreatedByOnu UnknownSupport [].

Definition onuremotedebugBME : ManagedEntityDefinition :=
  mkDef "OnuRemoteDebug" 158 [GetMsg; GetNextMsg; SetMsg] 57344 (attrs [
    Uint16Field "ManagedEntityId" PointerAttributeType 0 0 [Read] false false false 0;
    ByteField "CommandFormat" UnsignedIntegerAttributeType 32768 0 [Read] false false false 1;
    MultiByteField "Command" OctetsAttributeType 16384 25 (replicate 25 0) [Write] false false false 2;
    TableField "ReplyTable" TableAttributeType 8192 (-1) [Read] false false false 3])
    CreatedByOnu UnknownSupport [].

Definition onutimeconfigurationBME : ManagedEntityDefinition :=
  mkDef "OnuTimeConfiguration" 457 [GetMsg; SetMsg] 49152 (attrs [
    Uint16Field "ManagedEntityId" PointerAttributeType 0 0 [Read] false false false 0;
    MultiByteField "CurrentLocalOnuTime" OctetsAttributeType 32768 7 (replicate 7 0) [Read] false false false 1;
    Uint16Field "TimeQualificationBlock" UnsignedIntegerAttributeType 16384 0 [Read; Write] false false false 2])
    CreatedByOnu UnknownSupport [].

Definition physicalpathterminationpointcesuniBME : ManagedEntityDefinition :=
  mkDef "PhysicalPathTerminationPointCesUni" 12 [GetMsg; SetMsg] 65520 (attrs [
    Uint16Field "ManagedEntityId" PointerAttributeType 0 0 [Read] false false false 0;
    ByteField "ExpectedType" UnsignedIntegerAttributeType 32768 0 [Read; Write] false false false 1;
    ByteField "SensedType" UnsignedIntegerAttributeType 16384 0 [Read] true false false 2;
    ByteField "CesLoopbackConfiguration" UnsignedIntegerAttributeType 8192 0 [Read; Write] true false false 3;
    ByteField "AdministrativeState" UnsignedIntegerAttributeType 4096 0 [Read; Write] false false false 4;
    ByteField "OperationalState" UnsignedIntegerAttributeType 2048 0 [Read] true true false 5;
    ByteField "Framing" UnsignedIntegerAttributeType 1024 0 [Read; Write] false true false 6;
    ByteField "Encoding" UnsignedIntegerAttributeType 512 0 [Read; Write] false false false 7;
    ByteField "LineLength" UnsignedIntegerAttributeType 256 0 [Read; Write] false true false 8;
    ByteField "Ds1Mode" UnsignedIntegerAttributeType 128 0 [Read; Write] false true false 9;
    ByteField "Arc" UnsignedIntegerAttributeType 64 0 [Read; Write] true true false 10;
    ByteField "ArcInterval" UnsignedIntegerAttributeType 32 0 [Read; Write] false true false 11;
    ByteField "LineType" UnsignedIntegerAttributeType 16 0 [Read; Write] false false false 12])
    CreatedByOnu UnknownSupport [0; 1; 2; 3; 4; 5; 6; 7; 8; 9; 10; 11; 12; 13; 14; 15; 16; 17; 18; 19; 20; 21; 22].

Definition physicalpathterminationpointethernetuniBME : ManagedEntityDefinition :=
  mkDef "PhysicalPathTerminationPointEthernetUni" 11 [GetMsg; SetMsg] 65534 (attrs [
    Uint16Field "ManagedEntityId" PointerAttributeType 0 0 [Read] false false false 0;
    ByteField "ExpectedType" EnumerationAttributeType 32768 0 [Read; Write] false false false 1;
    ByteField "SensedType" EnumerationAttributeType 16384 0 [Read] true false false 2;
    ByteField "AutoDetectionConfiguration" EnumerationAttributeType 8192 0 [Read; Write] false false false 3;
    ByteField "EthernetLoopbackConfiguration" EnumerationAttributeType 4096 0 [Read; Write] false false false 4;
    ByteField "AdministrativeState" EnumerationAttributeType 2048 0 [Read; Write] false false false 5;
    ByteField "OperationalState" EnumerationAttributeType 1024 0 [Read] true true false 6;
    ByteField "ConfigurationInd" EnumerationAttributeType 512 0 [Read] false false false 7;
    Uint16Field "MaxFrameSize" UnsignedIntegerAttributeType 256 1518 [Read; Write] false false false 8;
    ByteField "DteOrDceInd" EnumerationAttributeType 128 0 [Read; Write] false false false 9;
    Uint16Field "PauseTime" UnsignedIntegerAttributeType 64 0 [Read; Write] false true false 10;
    ByteField "BridgedOrIpInd" EnumerationAttributeType 32 0 [Read; Write] false true false 11;
    ByteField "Arc" EnumerationAttributeType 16 0 [Read; Write] true true false 12;
    ByteField "ArcInterval" UnsignedIntegerAttributeType 8 0 [Read; Write] false true false 13;
    ByteField "PppoeFilter" EnumerationAttributeType 4 0 [Read; Write] false true false 14;
    ByteField "PowerControl" EnumerationAttributeType 2 0 [Read; Write] false true false 15])
    CreatedByOnu UnknownSupport [0].

Definition physicalpathterminationpointlctuniBME : ManagedEntityDefinition :=
  mkDef "PhysicalPathTerminationPointLctUni" 83 [GetMsg; SetMsg] 32768 (attrs [
    Uint16Field "ManagedEntityId" PointerAttributeType 0 0 [Read] false false false 0;
    ByteField "AdministrativeState" UnsignedIntegerAttributeType 32768 0 [Read; Write] false false false 1])
    CreatedByOnu UnknownSupport [].

Definition physicalpathterminationpointmocauniBME : ManagedEntityDefinition :=
  mkDef "PhysicalPathTerminationPointMocaUni" 162 [GetMsg; SetMsg] 65532 (attrs [
    Uint16Field "ManagedEntityId" PointerAttributeType 0 0 [Read] false false false 0;
    ByteField "LoopbackConfiguration" UnsignedIntegerAttributeType 32768 0 [Read; Write] false true false 1;
    ByteField "AdministrativeState" UnsignedIntegerAttributeType 16384 0 [Read; Write] false false false 2;
    ByteField "OperationalState" UnsignedIntegerAttributeType 8192 0 [Read] true true false 3;
    Uint16Field "MaxFrameSize" UnsignedIntegerAttributeType 4096 0 [Read; Write] false false false 4;
    ByteField "Arc" UnsignedIntegerAttributeType 2048 0 [Read; Write] true true false 5;
    ByteField "ArcInterval" UnsignedIntegerAttributeType 1024 0 [Read; Write] false true false 6;
    ByteField "PppoeFilter" UnsignedIntegerAttributeType 512 0 [Read; Write] false true false 7;
    ByteField "NetworkStatus" UnsignedIntegerAttributeType 256 0 [Read] false false false 8;
    MultiByteField "Password" OctetsAttributeType 128 17 (replicate 17 0) [Read; Write] false false false 9;
    ByteField "PrivacyEnabled" UnsignedIntegerAttributeType 64 0 [Read; Write] false false false 10;
    Uint16Field "MinimumBandwidthAlarmThreshold" UnsignedIntegerAttributeType 32 0 [Read; Write] false true false 11;
    Uint32Field "FrequencyMask" UnsignedIntegerAttributeType 16 0 [Read; Write] false true false 12;
    Uint16Field "RfChannel" UnsignedIntegerAttributeType 8 0 [Read] false false false 13;
    Uint16Field "LastOperationalFrequency" UnsignedIntegerAttributeType 4 0 [Read] false false false 14])
    CreatedByOnu UnknownSupport [0; 1].

Definition physicalpathterminationpointpotsuniBME : ManagedEntityDefinition :=
  mkDef "PhysicalPathTerminationPointPotsUni" 53 [GetMsg; SetMsg; TestMsg] 65528 (attrs [
    Uint16Field "ManagedEntityId" PointerAttributeType 0 0 [Read] false false false 0;
    ByteField "AdministrativeState" UnsignedIntegerAttributeType 32768 0 [Read; Write] true false false 1;
    Uint16Field "Deprecated" UnsignedIntegerAttributeType 16384 0 [Read; Write] false true true 2;
    ByteField "Arc" UnsignedIntegerAttributeType 8192 0 [Read; Write] true true false 3;
    ByteField "ArcInterval" UnsignedIntegerAttributeType 4096 0 [Read; Write] false true false 4;
    ByteField "Impedance" UnsignedIntegerAttributeType 2048 0 [Read; Write] false true false 5;
    ByteField "TransmissionPath" UnsignedIntegerAttributeType 1024 0 [Read; Write] false true false 6;
    ByteField "RxGain" UnsignedIntegerAttributeType 512 0 [Read; Write] false true false 7;
    ByteField "TxGain" UnsignedIntegerAttributeType 256 0 [Read; Write] false true false 8;
    ByteField "OperationalState" UnsignedIntegerAttributeType 128 0 [Read] true true false 9;
    ByteField "HookState" UnsignedIntegerAttributeType 64 0 [Read] false true false 10;
    Uint16Field "PotsHoldoverTime" UnsignedIntegerAttributeType 32 0 [Read; Write] false true false 11;
    ByteField "NominalFeedVoltage" UnsignedIntegerAttributeType 16 0 [Read; Write] false true false 12;
    ByteField "LossOfSoftswitch" UnsignedIntegerAttributeType 8 0 [Read; Write] false true false 13])
    CreatedByOnu UnknownSupport [].

Definition physicalpathterminationpointreuniBME : ManagedEntityDefinition :=
  mkDef "PhysicalPathTerminationPointReUni" 314 [GetMsg; GetNextMsg; SetMsg] 65535 (attrs [
    Uint16Field "ManagedEntityId" PointerAttributeType 0 0 [Read] false false false 0;
    ByteField "AdministrativeState" UnsignedIntegerAttributeType 32768 0 [Read; Write] false false false 1;
    ByteField "OperationalState" UnsignedIntegerAttributeType 16384 0 [Read] true true false 2;
    ByteField "Arc" UnsignedIntegerAttributeType 8192 0 [Read; Write] true true false 3;
    ByteField "ArcInterval" UnsignedIntegerAttributeType 4096 0 [Read; Write] false true false 4;
    Uint16Field "ReAniGPointer" UnsignedIntegerAttributeType 2048 0 [Read; Write] false false false 5;
    TableField "TotalOpticalReceiveSignalLevelTable" TableAttributeType 1024 4 [Read] false true false 6;
    TableField "PerBurstReceiveSignalLevelTable" TableAttributeType 512 4 [Read] false true false 7;
    ByteField "LowerReceiveOpticalThreshold" UnsignedIntegerAttributeType 256 0 [Read; Write] false true false 8;
    ByteField "UpperReceiveOpticalThreshold" UnsignedIntegerAttributeType 128 0 [Read; Write] false true false 9;
    Uint16Field "TransmitOpticalLevel" UnsignedIntegerAttributeType 64 0 [Read] false true false 10;
    ByteField "LowerTransmitPowerThreshold" UnsignedIntegerAttributeType 32 0 [Read; Write] false true false 11;
    ByteField "UpperTransmitPowerThreshold" UnsignedIntegerAttributeType 16 0 [Read; Write] false true false 12;
    ByteField "AdditionalPreamble" UnsignedIntegerAttributeType 8 0 [Read] false false false 13;
    ByteField "AdditionalGuardTime" UnsignedIntegerAttributeType 4 0 [Read] false false false 14;
    TableField "ConnectedOnusTable" TableAttributeType 2 2 [Read] false true false 15;
    TableField "ClearOnuTable" TableAttributeType 1 1 [Write] false true false 16])
    CreatedByOnu UnknownSupport [0; 1; 2; 3; 4; 5].

Definition physicalpathterminationpointvideoaniBME : ManagedEntityDefinition :=
  mkDef "PhysicalPathTerminationPointVideoAni" 90 [GetMsg; SetMsg] 65535 (attrs [
    Uint16Field "ManagedEntityId" PointerAttributeType 0 0 [Read] false false false 0;
    ByteField "AdministrativeState" UnsignedIntegerAttributeType 32768 0 [Read; Write] false false false 1;
    ByteField "OperationalState" UnsignedIntegerAttributeType 16384 0 [Read] true true false 2;
    ByteField "Arc" UnsignedIntegerAttributeType 8192 0 [Read; Write] true true false 3;
    ByteField "ArcInterval" UnsignedIntegerAttributeType 4096 0 [Read; Write] false true false 4;
    ByteField "FrequencyRangeLow" UnsignedIntegerAttributeType 2048 0 [Read] false false false 5;
    ByteField "FrequencyRangeHigh" UnsignedIntegerAttributeType 1024 0 [Read] false false false 6;
    ByteField "SignalCapability" UnsignedIntegerAttributeType 512 0 [Read] false false false 7;
    ByteField "OpticalSignalLevel" UnsignedIntegerAttributeType 256 0 [Read] false true false 8;
    ByteField "PilotSignalLevel" UnsignedIntegerAttributeType 128 0 [Read] false true false 9;
    ByteField "SignalLevelMin" UnsignedIntegerAttributeType 64 0 [Read] false false false 10;
    ByteField "SignalLevelMax" UnsignedIntegerAttributeType 32 0 [Read] false false false 11;
    Uint32Field "PilotFrequency" UnsignedIntegerAttributeType 16 0 [Read; Write] false true false 12;
    ByteField "AgcMode" UnsignedIntegerAttributeType 8 0 [Read; Write] false true false 13;
    ByteField "AgcSetting" UnsignedIntegerAttributeType 4 0 [Read; Write] false true false 14;
    ByteField "VideoLowerOpticalThreshold" UnsignedIntegerAttributeType 2 0 [Read; Write] false true false 15;
    ByteField "VideoUpperOpticalThreshold" UnsignedIntegerAttributeType 1 0 [Read; Write] false true false 16])
    CreatedByOnu UnknownSupport [0; 1; 2].

Definition physicalpathterminationpointvideouniBME : ManagedEntityDefinition :=
  mkDef "PhysicalPathTerminationPointVideoUni" 82 [GetMsg; SetMsg] 63488 (attrs [
    Uint16Field "ManagedEntityId" PointerAttributeType 0 0 [Read] false false false 0;
    ByteField "AdministrativeState" UnsignedIntegerAttributeType 32768 0 [Read; Write] false false false 1;
    ByteField "OperationalState" UnsignedIntegerAttributeType 16384 0 [Read] true true false 2;
    ByteField "Arc" UnsignedIntegerAttributeType 8192 0 [Read; Write] true true false 3;
    ByteField "ArcInterval" UnsignedIntegerAttributeType 4096 0 [Read; Write] false true false 4;
    ByteField "PowerControl" UnsignedIntegerAttributeType 2048 0 [Read; Write] false true false 5])
    CreatedByOnu UnknownSupport [0; 1; 2].

Definition physicalpathterminationpointxdslunipart1BME : ManagedEntityDefinition :=
  mkDef "PhysicalPathTerminationPointXdslUniPart1" 98 [GetMsg; SetMsg] 65528 (attrs [
    Uint16Field "ManagedEntityId" PointerAttributeType 0 0 [Read] false false false 0;
    ByteField "LoopbackConfiguration" UnsignedIntegerAttributeType 32768 0 [Read; Write] false false false 1;
    ByteField "AdministrativeState" UnsignedIntegerAttributeType 16384 0 [Read; Write] false false false 2;
    ByteField "OperationalState" UnsignedIntegerAttributeType 8192 0 [Read] true true false 3;
    Uint16Field "XdslLineConfigurationProfile" UnsignedIntegerAttributeType 4096 0 [Read; Write] false false false 4;
    Uint16Field "XdslSubcarrierMaskingDownstreamProfile" UnsignedIntegerAttributeType 2048 0 [Read; Write] false false false 5;
    Uint16Field "XdslSubcarrierMaskingUpstreamProfile" UnsignedIntegerAttributeType 1024 0 [Read; Write] false false false 6;
    Uint16Field "XdslDownstreamPowerSpectralDensityPsdMaskProfile" UnsignedIntegerAttributeType 512 0 [Read; Write] false false false 7;
    Uint16Field "XdslDownstreamRfiBandsProfile" UnsignedIntegerAttributeType 256 0 [Read; Write] false false false 8;
    ByteField "Arc" UnsignedIntegerAttributeType 128 0 [Read; Write] true true false 9;
    ByteField "ArcInterval" UnsignedIntegerAttributeType 64 0 [Read; Write] false true false 10;
    ByteField "ModemType" UnsignedIntegerAttributeType 32 0 [Read; Write] false true false 11;
    Uint16Field "UpstreamPsdMaskProfile" UnsignedIntegerAttributeType 16 0 [Read; Write] false true false 12;
    Uint16Field "NetworkSpecificExtensionsPointer" UnsignedIntegerAttributeType 8 0 [Read; Write] false true false 13])
    CreatedByOnu UnknownSupport [0; 1; 2; 3; 4; 5; 6; 7; 8; 9; 10; 11; 12; 13; 14; 15; 16; 17; 18; 19; 20; 21; 22].

Definition physicalpathterminationpointxdslunipart2BME : ManagedEntityDefinition :=
  mkDef "PhysicalPathTerminationPointXdslUniPart2" 99 [GetMsg; SetMsg] 65280 (attrs [
    Uint16Field "ManagedEntityId" PointerAttributeType 0 0 [Read] false false false 0;
    Uint16Field "XdslChannelConfigurationProfileForBearerChannel0Downstream" UnsignedIntegerAttributeType 32768 0 [Read; Write] false true false 1;
    Uint16Field "XdslChannelConfigurationProfileForBearerChannel1Downstream" UnsignedIntegerAttributeType 16384 0 [Read; Write] false true false 2;
    Uint16Field "XdslChannelConfigurationProfileForBearerChannel2Downstream" UnsignedIntegerAttributeType 8192 0 [Read; Write] false true false 3;
    Uint16Field "XdslChannelConfigurationProfileForBearerChannel3Downstream" UnsignedIntegerAttributeType 4096 0 [Read; Write] false true false 4;
    Uint16Field "XdslChannelConfigurationProfileForBearerChannel0Upstream" UnsignedIntegerAttributeType 2048 0 [Read; Write] false true false 5;
    Uint16Field "XdslChannelConfigurationProfileForBearerChannel1Upstream" UnsignedIntegerAttributeType 1024 0 [Read; Write] false true false 6;
    Uint16Field "XdslChannelConfigurationProfileForBearerChannel2Upstream" UnsignedIntegerAttributeType 512 0 [Read; Write] false true false 7;
    Uint16Field "XdslChannelConfigurationProfileForBearerChannel3Upstream" UnsignedIntegerAttributeType 256 0 [Read; Write] false true false 8])
    CreatedByOnu UnknownSupport [].

Definition physicalpathterminationpointxdslunipart3BME : ManagedEntityDefinition :=
  mkDef "PhysicalPathTerminationPointXdslUniPart3" 427 [GetMsg; SetMsg] 61440 (attrs [
    Uint16Field "ManagedEntityId" PointerAttributeType 0 0 [Read] false false false 0;
    Uint16Field "FastLineConfigurationProfile" UnsignedIntegerAttributeType 32768 0 [Read; Write] false false false 1;
    Uint16Field "FastDataPathConfigurationProfile" UnsignedIntegerAttributeType 16384 0 [Read; Write] false true false 2;
    Uint16Field "FastChannelConfigurationProfileForBearerChannel0Downstream" UnsignedIntegerAttributeType 8192 0 [Read; Write] false true false 3;
    Uint16Field "FastXdslChannelConfigurationProfileForBearerChannel0Upstream" UnsignedIntegerAttributeType 4096 0 [Read; Write] false true false 4])
    CreatedByOnu UnknownSupport [].

Definition priorityqueueBME : ManagedEntityDefinition :=
  mkDef "PriorityQueue" 277 [GetMsg; SetMsg] 65535 (attrs [
    Uint16Field "ManagedEntityId" PointerAttributeType 0 0 [Read] false false false 0;
    ByteField "QueueConfigurationOption" UnsignedIntegerAttributeType 32768 0 [Read] false false false 1;
    Uint16Field "MaximumQueueSize" UnsignedIntegerAttributeType 16384 0 [Read] false false false 2;
    Uint16Field "AllocatedQueueSize" UnsignedIntegerAttributeType 8192 0 [Read; Write] false false false 3;
    Uint16Field "DiscardBlockCounterResetInterval" UnsignedIntegerAttributeType 4096 0 [Read; Write] false true false 4;
    Uint16Field "ThresholdValueForDiscardedBlocksDueToBufferOverflow" UnsignedIntegerAttributeType 2048 0 [Read; Write] false true false 5;
    Uint32Field "RelatedPort" UnsignedIntegerAttributeType 1024 0 [Read; Write] false false false 6;
    Uint16Field "TrafficSchedulerPointer" UnsignedIntegerAttributeType 512 0 [Read; Write] false false false 7;
    ByteField "Weight" UnsignedIntegerAttributeType 256 0 [Read; Write] false false false 8;
    Uint16Field "BackPressureOperation" UnsignedIntegerAttributeType 128 0 [Read; Write] false false false 9;
    Uint32Field "BackPressureTime" UnsignedIntegerAttributeType 64 0 [Read; Write] false false false 10;
    Uint16Field "BackPressureOccurQueueThreshold" UnsignedIntegerAttributeType 32 0 [Read; Write] false false false 11;
    Uint16Field "BackPressureClearQueueThreshold" UnsignedIntegerAttributeType 16 0 [Read; Write] false false false 12;
    Uint64Field "PacketDropQueueThresholds" UnsignedIntegerAttributeType 8 0 [Read; Write] false true false 13;
    Uint16Field "PacketDropMaxP" UnsignedIntegerAttributeType 4 0 [Read; Write] false true false 14;
    ByteField "QueueDropWQ" UnsignedIntegerAttributeType 2 0 [Read; Write] false true false 15;
    ByteField "DropPrecedenceColourMarking" UnsignedIntegerAttributeType 1 0 [Read; Write] false true false 16])
    CreatedByOnu UnknownSupport [0].

Definition pseudowiremaintenanceprofileBME : ManagedEntityDefinition :=
  mkDef "PseudowireMaintenanceProfile" 284 [Create; Delete; GetMsg; SetMsg] 65535 (attrs [
    Uint16Field "ManagedEntityId" PointerAttributeType 0 0 [Read; SetByCreate] false false false 0;
    Uint16Field "JitterBufferMaximumDepth" UnsignedIntegerAttributeType 32768 0 [Read; SetByCreate; Write] false true false 1;
    Uint16Field "JitterBufferDesiredDepth" UnsignedIntegerAttributeType 16384 0 [Read; SetByCreate; Write] false true false 2;
    ByteField "FillPolicy" UnsignedIntegerAttributeType 8192 0 [Read; SetByCreate; Write] false true false 3;
    ByteField "MisconnectedPacketsDeclarationPolicy" UnsignedIntegerAttributeType 4096 0 [Read; SetByCreate; Write] false true false 4;
    ByteField "MisconnectedPacketsClearPolicy" UnsignedIntegerAttributeType 2048 0 [Read; SetByCreate; Write] false true false 5;
    ByteField "LossOfPacketsDeclarationPolicy" UnsignedIntegerAttributeType 1024 0 [Read; SetByCreate; Write] false true false 6;
    ByteField "LossOfPacketsClearPolicy" UnsignedIntegerAttributeType 512 0 [Read; SetByCreate; Write] false true false 7;
    ByteField "BufferOverrunUnderrunDeclarationPolicy" UnsignedIntegerAttributeType 256 0 [Read; SetByCreate; Write] false true false 8;
    ByteField "BufferOverrunUnderrunClearPolicy" UnsignedIntegerAttributeType 128 0 [Read; SetByCreate; Write] false true false 9;
    ByteField "MalformedPacketsDeclarationPolicy" UnsignedIntegerAttributeType 64 0 [Read; SetByCreate; Write] false true false 10;
    ByteField "MalformedPacketsClearPolicy" UnsignedIntegerAttributeType 32 0 [Read; SetByCreate; Write] false true false 11;
    ByteField "RBitTransmitSetPolicy" UnsignedIntegerAttributeType 16 0 [Read; SetByCreate; Write] false true false 12;
    ByteField "RBitTransmitClearPolicy" UnsignedIntegerAttributeType 8 0 [Read; SetByCreate; Write] false true false 13;
    ByteField "RBitReceivePolicy" UnsignedIntegerAttributeType 4 0 [Read; SetByCreate; Write] false true false 14;
    ByteField "LBitReceivePolicy" UnsignedIntegerAttributeType 2 0 [Read; SetByCreate; Write] false true false 15;
    Uint16Field "SesThreshold" UnsignedIntegerAttributeType 1 0 [Read; SetByCreate; Write] false true false 16])
    CreatedByOlt UnknownSupport [].

Definition pseudowireperformancemonitoringhistorydataBME : ManagedEntityDefinition :=
  mkDef "PseudowirePerformanceMonitoringHistoryData" 285 [Create; Delete; GetMsg; SetMsg; GetCurrentData] 65534 (attrs [
    Uint16Field "ManagedEntityId" PointerAttributeType 0 0 [Read; SetByCreate] false false false 0;
    ByteField "IntervalEndTime" UnsignedIntegerAttributeType 32768 0 [Read] false false false 1;
    Uint16Field "ThresholdData12Id" UnsignedIntegerAttributeType 16384 0 [Read; SetByCreate; Write] false false false 2;
    Uint32Field "ReceivedPackets" CounterAttributeType 8192 0 [Read] false false false 3;
    Uint32Field "TransmittedPackets" CounterAttributeType 4096 0 [Read] false false false 4;
    Uint32Field "MissingPackets" CounterAttributeType 2048 0 [Read] false false false 5;
    Uint32Field "MisorderedPacketsUsable" CounterAttributeType 1024 0 [Read] false false false 6;
    Uint32Field "MisorderedPacketsDropped" CounterAttributeType 512 0 [Read] false false false 7;
    Uint32Field "PlayoutBufferUnderrunsOverruns" CounterAttributeType 256 0 [Read] false false false 8;
    Uint32Field "MalformedPackets" CounterAttributeType 128 0 [Read] false false false 9;
    Uint32Field "StrayPackets" CounterAttributeType 64 0 [Read] false false false 10;
    Uint32Field "RemotePacketLoss" CounterAttributeType 32 0 [Read] false false false 11;
    Uint32Field "TdmLBitPacketsTransmitted" CounterAttributeType 16 0 [Read] false false false 12;
    Uint32Field "Es" CounterAttributeType 8 0 [Read] false false false 13;
    Uint32Field "Ses" CounterAttributeType 4 0 [Read] false false false 14;
    Uint32Field "Uas" CounterAttributeType 2 0 [Read] false false false 15])
    CreatedByOlt UnknownSupport [0; 1; 2; 3; 4; 5; 6; 7; 8; 9].

Definition pseudowireterminationpointBME : ManagedEntityDefinition :=
  mkDef "PseudowireTerminationPoint" 282 [Create; Delete; GetMsg; SetMsg] 65534 (attrs [
    Uint16Field "ManagedEntityId" PointerAttributeType 0 0 [Read; SetByCreate] false false false 0;
    ByteField "UnderlyingTransport" UnsignedIntegerAttributeType 32768 0 [Read; SetByCreate; Write] false false false 1;
    ByteField "ServiceType" UnsignedIntegerAttributeType 16384 0 [Read; SetByCreate; Write] false false false 2;
    ByteField "Signalling" UnsignedIntegerAttributeType 8192 0 [Read; SetByCreate; Write] false false false 3;
    Uint16Field "TdmUniPointer" UnsignedIntegerAttributeType 4096 0 [Read; SetByCreate; Write] false false false 4;
    Uint16Field "NorthSidePointer" UnsignedIntegerAttributeType 2048 0 [Read; SetByCreate; Write] false false false 5;
    Uint16Field "FarEndIpInfo" UnsignedIntegerAttributeType 1024 0 [Read; SetByCreate; Write] false false false 6;
    Uint16Field "PayloadSize" UnsignedIntegerAttributeType 512 0 [Read; SetByCreate; Write] false false false 7;
    ByteField "PayloadEncapsulationDelay" UnsignedIntegerAttributeType 256 0 [Read; SetByCreate; Write] false false false 8;
    ByteField "TimingMode" UnsignedIntegerAttributeType 128 0 [Read; Write] false false false 9;
    Uint64Field "TransmitCircuitId" UnsignedIntegerAttributeType 64 0 [Read; Write] false false false 10;
    Uint64Field "ExpectedCircuitId" UnsignedIntegerAttributeType 32 0 [Read; Write] false false false 11;
    Uint64Field "ReceivedCircuitId" UnsignedIntegerAttributeType 16 0 [Read] false false false 12;
    Uint16Field "ExceptionPolicy" UnsignedIntegerAttributeType 8 0 [Read; Write] false true false 13;
    ByteField "Arc" UnsignedIntegerAttributeType 4 0 [Read; Write] true true false 14;
    ByteField "ArcInterval" UnsignedIntegerAttributeType 2 0 [Read; Write] false true false 15])
    CreatedByOlt UnknownSupport [].

Definition pwatmconfigurationdataBME : ManagedEntityDefinition :=
  mkDef "PwAtmConfigurationData" 337 [Create; Delete; GetMsg; GetNextMsg; SetMsg; SetTableMsg] 65280 (attrs [
    Uint16Field "ManagedEntityId" PointerAttributeType 0 0 [Read; SetByCreate] false false false 0;
    ByteField "TpType" UnsignedIntegerAttributeType 32768 0 [Read; SetByCreate; Write] false false false 1;
    Uint16Field "TransportTpPointer" UnsignedIntegerAttributeType 16384 0 [Read; SetByCreate; Write] false false false 2;
    Uint16Field "PptpAtmUniPointer" UnsignedIntegerAttributeType 8192 0 [Read; SetByCreate; Write] false false false 3;
    Uint16Field "MaxCEllCOncatenation" UnsignedIntegerAttributeType 4096 0 [Read; SetByCreate; Write] false false false 4;
    Uint16Field "FarEndMAxCEllCOncatenation" UnsignedIntegerAttributeType 2048 0 [Read; SetByCreate; Write] false true false 5;
    ByteField "AtmCellLossPriorityClpQosMapping" UnsignedIntegerAttributeType 1024 0 [Read; SetByCreate; Write] false true false 6;
    ByteField "TimeoutMode" UnsignedIntegerAttributeType 512 0 [Read; SetByCreate; Write] false true false 7;
    TableField "PwAtmMappingTable" TableAttributeType 256 21 [Read; Write] false false false 8])
    CreatedByOlt UnknownSupport [].

Definition pwatmperformancemonitoringhistorydataBME : ManagedEntityDefinition :=
  mkDef "PwAtmPerformanceMonitoringHistoryData" 338 [Create; Delete; GetMsg; SetMsg; GetCurrentData] 65408 (attrs [
    Uint16Field "ManagedEntityId" PointerAttributeType 0 0 [Read; SetByCreate] false false false 0;
    ByteField "IntervalEndTime" UnsignedIntegerAttributeType 32768 0 [Read] false false false 1;
    Uint16Field "ThresholdData12Id" UnsignedIntegerAttributeType 16384 0 [Read; SetByCreate; Write] false false false 2;
    Uint32Field "DownstreamMissingPacketsCounter" CounterAttributeType 8192 0 [Read] false false false 3;
    Uint32Field "DownstreamReorderedPacketsCounter" CounterAttributeType 4096 0 [Read] false true false 4;
    Uint32Field "DownstreamMisorderedPacketsCounter" CounterAttributeType 2048 0 [Read] false false false 5;
    Uint32Field "UpstreamTimeoutPacketsCounter" CounterAttributeType 1024 0 [Read] false false false 6;
    Uint32Field "UpstreamTransmittedCellsCounter" CounterAttributeType 512 0 [Read] false false false 7;
    Uint32Field "UpstreamDroppedCellsCounter" CounterAttributeType 256 0 [Read] false false false 8;
    Uint32Field "UpstreamReceivedCellsCounter" CounterAttributeType 128 0 [Read] false false false 9])
    CreatedByOlt UnknownSupport [1; 2; 3; 4].

Definition pwethernetconfigurationdataBME : ManagedEntityDefinition :=
  mkDef "PwEthernetConfigurationData" 339 [Create; Delete; GetMsg; SetMsg] 57344 (attrs [
    Uint16Field "ManagedEntityId" PointerAttributeType 0 0 [Read; SetByCreate] false false false 0;
    Uint16Field "MplsPseudowireTpPointer" UnsignedIntegerAttributeType 32768 0 [Read; SetByCreate; Write] false false false 1;
    ByteField "TpType" UnsignedIntegerAttributeType 16384 0 [Read; SetByCreate; Write] false false false 2;
    Uint16Field "UniPointer" UnsignedIntegerAttributeType 8192 0 [Read; SetByCreate; Write] false false false 3])
    CreatedByOlt UnknownSupport [].

Definition radiusperformancemonitoringhistorydataBME : ManagedEntityDefinition :=
  mkDef "RadiusPerformanceMonitoringHistoryData" 293 [Create; Delete; GetMsg; SetMsg; GetCurrentData] 65280 (attrs [
    Uint16Field "ManagedEntityId" PointerAttributeType 0 0 [Read; SetByCreate] false false false 0;
    ByteField "IntervalEndTime" UnsignedIntegerAttributeType 32768 0 [Read] false false false 1;
    Uint16Field "ThresholdData12Id" UnsignedIntegerAttributeType 16384 0 [Read; SetByCreate; Write] false false false 2;
    Uint32Field "AccessRequestPacketsTransmitted" CounterAttributeType 8192 0 [Read] false false false 3;
    Uint32Field "AccessRequestRetransmissionCount" CounterAttributeType 4096 0 [Read] false false false 4;
    Uint32Field "AccessChallengePacketsReceived" CounterAttributeType 2048 0 [Read] false false false 5;
    Uint32Field "AccessAcceptPacketsReceived" CounterAttributeType 1024 0 [Read] false false false 6;
    Uint32Field "AccessRejectPacketsReceived" CounterAttributeType 512 0 [Read] false false false 7;
    Uint32Field "InvalidRadiusPacketsReceived" CounterAttributeType 256 0 [Read] false false false 8])
    CreatedByOlt UnknownSupport [1; 5].

Definition reanigBME : ManagedEntityDefinition :=
  mkDef "ReAniG" 313 [GetMsg; SetMsg] 65532 (attrs [
    Uint16Field "ManagedEntityId" PointerAttributeType 0 0 [Read] false false false 0;
    ByteField "AdministrativeState" UnsignedIntegerAttributeType 32768 0 [Read; Write] false false false 1;
    ByteField "OperationalState" UnsignedIntegerAttributeType 16384 0 [Read] true true false 2;
    ByteField "Arc" UnsignedIntegerAttributeType 8192 0 [Read; Write] true true false 3;
    ByteField "ArcInterval" UnsignedIntegerAttributeType 4096 0 [Read; Write] false true false 4;
    Uint16Field "OpticalSignalLevel" UnsignedIntegerAttributeType 2048 0 [Read] false true false 5;
    ByteField "LowerOpticalThreshold" UnsignedIntegerAttributeType 1024 0 [Read; Write] false true false 6;
    ByteField "UpperOpticalThreshold" UnsignedIntegerAttributeType 512 0 [Read; Write] false true false 7;
    Uint16Field "TransmitOpticalLevel" UnsignedIntegerAttributeType 256 0 [Read] false true false 8;
    ByteField "LowerTransmitPowerThreshold" UnsignedIntegerAttributeType 128 0 [Read; Write] false true false 9;
    ByteField "UpperTransmitPowerThreshold" UnsignedIntegerAttributeType 64 0 [Read; Write] false true false 10;
    ByteField "UsageMode" UnsignedIntegerAttributeType 32 0 [Read; Write] false false false 11;
    Uint32Field "TargetUpstreamFrequency" UnsignedIntegerAttributeType 16 0 [Read; Write] false true false 12;
    Uint32Field "TargetDownstreamFrequency" UnsignedIntegerAttributeType 8 0 [Read; Write] false true false 13;
    ByteField "UpstreamSignalTransmissionMode" UnsignedIntegerAttributeType 4 0 [Read; Write] false true false 14])
    CreatedByOnu UnknownSupport [0; 1; 2; 3; 4].

Definition recommonamplifierparametersBME : ManagedEntityDefinition :=
  mkDef "ReCommonAmplifierParameters" 328 [GetMsg; SetMsg] 65504 (attrs [
    Uint16Field "ManagedEntityId" PointerAttributeType 0 0 [Read] false false false 0;
    ByteField "Gain" UnsignedIntegerAttributeType 32768 0 [Read] false true false 1;
    ByteField "LowerGainThreshold" UnsignedIntegerAttributeType 16384 0 [Read; Write] false true false 2;
    ByteField "UpperGainThreshold" UnsignedIntegerAttributeType 8192 0 [Read; Write] false true false 3;
    ByteField "TargetGain" UnsignedIntegerAttributeType 4096 0 [Read; Write] false true false 4;
    Uint16Field "DeviceTemperature" UnsignedIntegerAttributeType 2048 0 [Read] false true false 5;
    ByteField "LowerDeviceTemperatureThreshold" UnsignedIntegerAttributeType 1024 0 [Read; Write] false true false 6;
    ByteField "UpperDeviceTemperatureThreshold" UnsignedIntegerAttributeType 512 0 [Read; Write] false true false 7;
    ByteField "DeviceBiasCurrent" UnsignedIntegerAttributeType 256 0 [Read] false true false 8;
    Uint16Field "AmplifierSaturationOutputPower" UnsignedIntegerAttributeType 128 0 [Read] false true false 9;
    ByteField "AmplifierNoiseFigure" UnsignedIntegerAttributeType 64 0 [Read] false true false 10;
    ByteField "AmplifierSaturationGain" UnsignedIntegerAttributeType 32 0 [Read] false true false 11])
    CreatedByOnu UnknownSupport [0; 1; 2; 3; 4; 5; 6].

Definition redownstreamamplifierBME : ManagedEntityDefinition :=
  mkDef "ReDownstreamAmplifier" 316 [GetMsg; SetMsg; TestMsg] 65520 (attrs [
    Uint16Field "ManagedEntityId" PointerAttributeType 0 0 [Read] false false false 0;
    ByteField "AdministrativeState" UnsignedIntegerAttributeType 32768 0 [Read; Write] false false false 1;
    ByteField "OperationalState" UnsignedIntegerAttributeType 16384 0 [Read] true true false 2;
    ByteField "Arc" UnsignedIntegerAttributeType 8192 0 [Read; Write] true true false 3;
    ByteField "ArcInterval" UnsignedIntegerAttributeType 4096 0 [Read; Write] false true false 4;
    ByteField "OperationalMode" UnsignedIntegerAttributeType 2048 0 [Read; Write] false false false 5;
    Uint16Field "InputOpticalSignalLevel" UnsignedIntegerAttributeType 1024 0 [Read] false true false 6;
    ByteField "LowerInputOpticalThreshold" UnsignedIntegerAttributeType 512 0 [Read; Write] false true false 7;
    ByteField "UpperInputOpticalThreshold" UnsignedIntegerAttributeType 256 0 [Read; Write] false true false 8;
    Uint16Field "OutputOpticalSignalLevel" UnsignedIntegerAttributeType 128 0 [Read] false true false 9;
    ByteField "LowerOutputOpticalThreshold" UnsignedIntegerAttributeType 64 0 [Read; Write] false true false 10;
    ByteField "UpperOutputOpticalThreshold" UnsignedIntegerAttributeType 32 0 [Read; Write] false true false 11;
    ByteField "RSSplitterCouplingRatio" UnsignedIntegerAttributeType 16 0 [Read] false true false 12])
    CreatedByOnu UnknownSupport [0; 1; 2; 3; 4].

Definition reupstreamamplifierBME : ManagedEntityDefinition :=
  mkDef "ReUpstreamAmplifier" 315 [GetMsg; GetNextMsg; SetMsg] 65528 (attrs [
    Uint16Field "ManagedEntityId" PointerAttributeType 0 0 [Read] false false false 0;
    ByteField "AdministrativeState" UnsignedIntegerAttributeType 32768 0 [Read; Write] false false false 1;
    ByteField "OperationalState" UnsignedIntegerAttributeType 16384 0 [Read] true true false 2;
    ByteField "OperationalMode" UnsignedIntegerAttributeType 8192 0 [Read; Write] false false false 3;
    ByteField "Arc" UnsignedIntegerAttributeType 4096 0 [Read; Write] true true false 4;
    ByteField "ArcInterval" UnsignedIntegerAttributeType 2048 0 [Read; Write] false true false 5;
    Uint16Field "ReDownstreamAmplifierPointer" UnsignedIntegerAttributeType 1024 0 [Read; Write] false false false 6;
    TableField "TotalOpticalReceiveSignalLevelTable" TableAttributeType 512 4 [Read] false true false 7;
    TableField "PerBurstReceiveSignalLevelTable" TableAttributeType 256 4 [Read] false true false 8;
    ByteField "LowerReceiveOpticalThreshold" UnsignedIntegerAttributeType 128 0 [Read; Write] false true false 9;
    ByteField "UpperReceiveOpticalThreshold" UnsignedIntegerAttributeType 64 0 [Read; Write] false true false 10;
    Uint16Field "TransmitOpticalSignalLevel" UnsignedIntegerAttributeType 32 0 [Read] false true false 11;
    ByteField "LowerTransmitOpticalThreshold" UnsignedIntegerAttributeType 16 0 [Read; Write] false true false 12;
    ByteField "UpperTransmitOpticalThreshold" UnsignedIntegerAttributeType 8 0 [Read; Write] false true false 13])
    CreatedByOnu UnknownSupport [0; 1; 2; 3; 4; 5].

Definition rtpperformancemonitoringhistorydataBME : ManagedEntityDefinition :=
  mkDef "RtpPerformanceMonitoringHistoryData" 144 [Create; Delete; GetMsg; SetMsg; GetCurrentData] 65280 (attrs [
    Uint16Field "ManagedEntityId" PointerAttributeType 0 0 [Read; SetByCreate] false false false 0;
    ByteField "IntervalEndTime" UnsignedIntegerAttributeType 32768 0 [Read] false false false 1;
    Uint16Field "ThresholdData12Id" UnsignedIntegerAttributeType 16384 0 [Read; SetByCreate; Write] false false false 2;
    Uint32Field "RtpErrors" CounterAttributeType 8192 0 [Read] false false false 3;
    Uint32Field "PacketLoss" CounterAttributeType 4096 0 [Read] false false false 4;
    Uint32Field "MaximumJitter" CounterAttributeType 2048 0 [Read] false false false 5;
    Uint32Field "MaximumTimeBetweenRealTimeTransportControlProtocolRtcpPackets" CounterAttributeType 1024 0 [Read] false false false 6;
    Uint32Field "BufferUnderflows" CounterAttributeType 512 0 [Read] false false false 7;
    Uint32Field "BufferOverflows" CounterAttributeType 256 0 [Read] false false false 8])
    CreatedByOlt UnknownSupport [0; 1; 2; 3; 4; 5].

Definition rtpprofiledataBME : ManagedEntityDefinition :=
  mkDef "RtpProfileData" 143 [Create; Delete; GetMsg; SetMsg] 65280 (attrs [
    Uint16Field "ManagedEntityId" PointerAttributeType 0 0 [Read; SetByCreate] false false false 0;
    Uint16Field "LocalPortMin" UnsignedIntegerAttributeType 32768 0 [Read; SetByCreate; Write] false false false 1;
    Uint16Field "LocalPortMax" UnsignedIntegerAttributeType 16384 0 [Read; SetByCreate; Write] false true false 2;
    ByteField "DscpMark" UnsignedIntegerAttributeType 8192 0 [Read; SetByCreate; Write] false false false 3;
    ByteField "PiggybackEvents" UnsignedIntegerAttributeType 4096 0 [Read; SetByCreate; Write] false false false 4;
    ByteField "ToneEvents" UnsignedIntegerAttributeType 2048 0 [Read; SetByCreate; Write] false false false 5;
    ByteField "DtmfEvents" UnsignedIntegerAttributeType 1024 0 [Read; SetByCreate; Write] false false false 6;
    ByteField "CasEvents" UnsignedIntegerAttributeType 512 0 [Read; SetByCreate; Write] false false false 7;
    Uint16Field "IpHostConfigPointer" UnsignedIntegerAttributeType 256 0 [Read; Write] false true false 8])
    CreatedByOlt UnknownSupport [].

Definition rtppseudowireparametersBME : ManagedEntityDefinition :=
  mkDef "RtpPseudowireParameters" 283 [Create; Delete; GetMsg; SetMsg] 64512 (attrs [
    Uint16Field "ManagedEntityId" PointerAttributeType 0 0 [Read; SetByCreate] false false false 0;
    Uint16Field "ClockReference" UnsignedIntegerAttributeType 32768 0 [Read; SetByCreate; Write] false false false 1;
    ByteField "RtpTimestampMode" UnsignedIntegerAttributeType 16384 0 [Read; SetByCreate; Write] false false false 2;
    Uint16Field "Ptype" UnsignedIntegerAttributeType 8192 0 [Read; SetByCreate; Write] false false false 3;
    Uint64Field "Ssrc" UnsignedIntegerAttributeType 4096 0 [Read; SetByCreate; Write] false false false 4;
    Uint16Field "ExpectedPtype" UnsignedIntegerAttributeType 2048 0 [Read; SetByCreate; Write] false true false 5;
    Uint64Field "ExpectedSsrc" UnsignedIntegerAttributeType 1024 0 [Read; SetByCreate; Write] false true false 6])
    CreatedByOlt UnknownSupport [].

Definition sipagentconfigdataBME : ManagedEntityDefinition :=
  mkDef "SipAgentConfigData" 150 [Create; Delete; GetMsg; GetNextMsg; SetMsg; SetTableMsg] 65534 (attrs [
    Uint16Field "ManagedEntityId" PointerAttributeType 0 0 [Read; SetByCreate] false false false 0;
    Uint16Field "ProxyServerAddressPointer" UnsignedIntegerAttributeType 32768 0 [Read; SetByCreate; Write] false false false 1;
    Uint16Field "OutboundProxyAddressPointer" UnsignedIntegerAttributeType 16384 0 [Read; SetByCreate; Write] false false false 2;
    Uint32Field "PrimarySipDns" UnsignedIntegerAttributeType 8192 0 [Read; SetByCreate; Write] false false false 3;
    Uint32Field "SecondarySipDns" UnsignedIntegerAttributeType 4096 0 [Read; SetByCreate; Write] false false false 4;
    Uint16Field "TcpUdpPointer" UnsignedIntegerAttributeType 2048 0 [Read; Write] false false false 5;
    Uint32Field "SipRegExpTime" UnsignedIntegerAttributeType 1024 0 [Read; Write] false false false 6;
    Uint32Field "SipReregHeadStartTime" UnsignedIntegerAttributeType 512 0 [Read; Write] false false false 7;
    Uint16Field "HostPartUri" UnsignedIntegerAttributeType 256 0 [Read; SetByCreate; Write] false false false 8;
    ByteField "SipStatus" UnsignedIntegerAttributeType 128 0 [Read] true false false 9;
    Uint16Field "SipRegistrar" UnsignedIntegerAttributeType 64 0 [Read; SetByCreate; Write] false false false 10;
    Uint32Field "Softswitch" UnsignedIntegerAttributeType 32 0 [Read; SetByCreate; Write] false false false 11;
    TableField "SipResponseTable" TableAttributeType 16 5 [Read; Write] false true false 12;
    ByteField "SipOptionTransmitControl" UnsignedIntegerAttributeType 8 0 [Read; SetByCreate; Write] false true false 13;
    ByteField "SipUriFormat" UnsignedIntegerAttributeType 4 0 [Read; SetByCreate; Write] false true false 14;
    Uint16Field "RedundantSipAgentPointer" UnsignedIntegerAttributeType 2 0 [Read; SetByCreate; Write] false true false 15])
    CreatedByOlt UnknownSupport [0; 1; 2; 3; 4; 5; 6].

Definition sipagentconfigdata2BME : ManagedEntityDefinition :=
  mkDef "SipAgentConfigData2" 407 [Create; Delete; GetMsg; SetMsg; GetCurrentData] 65024 (attrs [
    Uint16Field "ManagedEntityId" PointerAttributeType 0 0 [Read; SetByCreate] false false false 0;
    Uint16Field "InUseOptionsTimer" UnsignedIntegerAttributeType 32768 0 [Read; SetByCreate; Write] false false false 1;
    Uint16Field "AlternateOptionsTimer" UnsignedIntegerAttributeType 16384 0 [Read; SetByCreate; Write] false false false 2;
    ByteField "Revertive" UnsignedIntegerAttributeType 8192 0 [Read; SetByCreate; Write] false false false 3;
    Uint32Field "CurrentProxyServerResolvedAddress" UnsignedIntegerAttributeType 4096 0 [Read] false true false 4;
    Uint16Field "CurrentProxyServerResolvedName" UnsignedIntegerAttributeType 2048 0 [Read] false true false 5;
    Uint32Field "AlternateProxyServerResolvedAddress" UnsignedIntegerAttributeType 1024 0 [Read] false true false 6;
    Uint16Field "AlternateProxyServerResolvedName" UnsignedIntegerAttributeType 512 0 [Read] false true false 7])
    CreatedByOlt UnknownSupport [].

Definition sipagentperformancemonitoringhistorydataBME : ManagedEntityDefinition :=
  mkDef "SipAgentPerformanceMonitoringHistoryData" 151 [Create; Delete; GetMsg; SetMsg; GetCurrentData] 65534 (attrs [
    Uint16Field "ManagedEntityId" PointerAttributeType 0 0 [Read; SetByCreate] false false false 0;
    ByteField "IntervalEndTime" UnsignedIntegerAttributeType 32768 0 [Read] false false false 1;
    Uint16Field "ThresholdData12Id" UnsignedIntegerAttributeType 16384 0 [Read; SetByCreate; Write] false false false 2;
    Uint32Field "Transactions" CounterAttributeType 8192 0 [Read] false true false 3;
    Uint32Field "RxInviteReqs" CounterAttributeType 4096 0 [Read] false true false 4;
    Uint32Field "RxInviteRetrans" CounterAttributeType 2048 0 [Read] false true false 5;
    Uint32Field "RxNoninviteReqs" CounterAttributeType 1024 0 [Read] false true false 6;
    Uint32Field "RxNoninviteRetrans" CounterAttributeType 512 0 [Read] false true false 7;
    Uint32Field "RxResponse" CounterAttributeType 256 0 [Read] false true false 8;
    Uint32Field "RxResponseRetransmissions" CounterAttributeType 128 0 [Read] false true false 9;
    Uint32Field "TxInviteReqs" CounterAttributeType 64 0 [Read] false true false 10;
    Uint32Field "TxInviteRetrans" CounterAttributeType 32 0 [Read] false true false 11;
    Uint32Field "TxNoninviteReqs" CounterAttributeType 16 0 [Read] false true false 12;
    Uint32Field "TxNoninviteRetrans" CounterAttributeType 8 0 [Read] false true false 13;
    Uint32Field "TxResponse" CounterAttributeType 4 0 [Read] false true false 14;
    Uint32Field "TxResponseRetransmissions" CounterAttributeType 2 0 [Read] false true false 15])
    CreatedByOlt UnknownSupport [0; 1; 2; 3; 4; 5].

Definition sipcallinitiationperformancemonitoringhistorydataBME : ManagedEntityDefinition :=
  mkDef "SipCallInitiationPerformanceMonitoringHistoryData" 152 [Create; Delete; GetMsg; SetMsg; GetCurrentData] 65024 (attrs [
    Uint16Field "ManagedEntityId" PointerAttributeType 0 0 [Read; SetByCreate] false false false 0;
    ByteField "IntervalEndTime" UnsignedIntegerAttributeType 32768 0 [Read] false false false 1;
    Uint16Field "ThresholdData12Id" UnsignedIntegerAttributeType 16384 0 [Read; SetByCreate; Write] false false false 2;
    Uint32Field "FailedToConnectCounter" CounterAttributeType 8192 0 [Read] false false false 3;
    Uint32Field "FailedToValidateCounter" CounterAttributeType 4096 0 [Read] false false false 4;
    Uint32Field "TimeoutCounter" CounterAttributeType 2048 0 [Read] false false false 5;
    Uint32Field "FailureReceivedCounter" CounterAttributeType 1024 0 [Read] false false false 6;
    Uint32Field "FailedToAuthenticateCounter" CounterAttributeType 512 0 [Read] false false false 7])
    CreatedByOlt UnknownSupport [0; 1; 2; 3; 4].

Definition sipconfigportalBME : ManagedEntityDefinition :=
  mkDef "SipConfigPortal" 149 [GetMsg; GetNextMsg] 32768 (attrs [
    Uint16Field "ManagedEntityId" PointerAttributeType 0 0 [Read] false false false 0;
    TableField "ConfigurationTextTable" TableAttributeType 32768 25 [Read] true false false 1])
    CreatedByOnu UnknownSupport [].

Definition sipuserdataBME : ManagedEntityDefinition :=
  mkDef "SipUserData" 153 [Create; Delete; GetMsg; SetMsg] 65520 (attrs [
    Uint16Field "ManagedEntityId" PointerAttributeType 0 0 [Read; SetByCreate] false false false 0;
    Uint16Field "SipAgentPointer" UnsignedIntegerAttributeType 32768 0 [Read; SetByCreate; Write] false false false 1;
    Uint16Field "UserPartAor" UnsignedIntegerAttributeType 16384 0 [Read; SetByCreate; Write] false false false 2;
    MultiByteField "SipDisplayName" OctetsAttributeType 8192 25 (replicate 25 0) [Read; Write] false false false 3;
    Uint16Field "UsernameAndPassword" UnsignedIntegerAttributeType 4096 0 [Read; SetByCreate; Write] false false false 4;
    Uint16Field "VoicemailServerSipUri" UnsignedIntegerAttributeType 2048 0 [Read; SetByCreate; Write] false false false 5;
    Uint32Field "VoicemailSubscriptionExpirationTime" UnsignedIntegerAttributeType 1024 0 [Read; SetByCreate; Write] false false false 6;
    Uint16Field "NetworkDialPlanPointer" UnsignedIntegerAttributeType 512 0 [Read; SetByCreate; Write] false false false 7;
    Uint16Field "ApplicationServicesProfilePointer" UnsignedIntegerAttributeType 256 0 [Read; SetByCreate; Write] false false false 8;
    Uint16Field "FeatureCodePointer" UnsignedIntegerAttributeType 128 0 [Read; SetByCreate; Write] false false false 9;
    Uint16Field "PptpPointer" UnsignedIntegerAttributeType 64 0 [Read; SetByCreate; Write] false false false 10;
    ByteField "ReleaseTimer" UnsignedIntegerAttributeType 32 0 [Read; Write] false true false 11;
    ByteField "ReceiverOffHookRohTimer" UnsignedIntegerAttributeType 16 0 [Read; Write] false true false 12])
    CreatedByOlt UnknownSupport [0; 1; 2].

Definition snmpconfigurationdataBME : ManagedEntityDefinition :=
  mkDef "SnmpConfigurationData" 335 [Create; Delete; GetMsg; SetMsg] 65280 (attrs [
    Uint16Field "ManagedEntityId" PointerAttributeType 0 0 [Read; SetByCreate] false false false 0;
    Uint16Field "SnmpVersion" UnsignedIntegerAttributeType 32768 0 [Read; SetByCreate; Write] false false false 1;
    Uint16Field "SnmpAgentAddress" UnsignedIntegerAttributeType 16384 0 [Read; SetByCreate; Write] false false false 2;
    Uint32Field "SnmpServerAddress" UnsignedIntegerAttributeType 8192 0 [Read; SetByCreate; Write] false false false 3;
    Uint16Field "SnmpServerPort" UnsignedIntegerAttributeType 4096 0 [Read; SetByCreate; Write] false false false 4;
    Uint16Field "SecurityNamePointer" UnsignedIntegerAttributeType 2048 0 [Read; SetByCreate; Write] false false false 5;
    Uint16Field "CommunityForRead" UnsignedIntegerAttributeType 1024 0 [Read; SetByCreate; Write] false false false 6;
    Uint16Field "CommunityForWrite" UnsignedIntegerAttributeType 512 0 [Read; SetByCreate; Write] false false false 7;
    Uint16Field "SysNamePointer" UnsignedIntegerAttributeType 256 0 [Read; SetByCreate; Write] false false false 8])
    CreatedByOlt UnknownSupport [].

Definition softwareimageBME : ManagedEntityDefinition :=
  mkDef "SoftwareImage" 7 [ActivateSoftware; CommitSoftware; DownloadSection; EndSoftwareDownload; GetMsg; StartSoftwareDownload] 64512 (attrs [
    Uint16Field "ManagedEntityId" PointerAttributeType 0 0 [Read] false false false 0;
    MultiByteField "Version" StringAttributeType 32768 14 (replicate 14 32) [Read] true false false 1;
    ByteField "IsCommitted" EnumerationAttributeType 16384 0 [Read] true false false 2;
    ByteField "IsActive" EnumerationAttributeType 8192 0 [Read] true false false 3;
    ByteField "IsValid" EnumerationAttributeType 4096 0 [Read] true false false 4;
    MultiByteField "ProductCode" OctetsAttributeType 2048 25 (replicate 25 0) [Read] true true false 5;
    MultiByteField "ImageHash" StringAttributeType 1024 16 (replicate 16 0) [Read] true true false 6])
    CreatedByOnu UnknownSupport [].

Definition tcontBME : ManagedEntityDefinition :=
  mkDef "TCont" 262 [GetMsg; SetMsg] 57344 (attrs [
    Uint16Field "ManagedEntityId" PointerAttributeType 0 0 [Read] false false false 0;
    Uint16Field "AllocId" UnsignedIntegerAttributeType 32768 65535 [Read; Write] false false false 1;
    ByteField "Deprecated" UnsignedIntegerAttributeType 16384 1 [Read] false false true 2;
    ByteField "Policy" EnumerationAttributeType 8192 0 [Read; Write] false false false 3])
    CreatedByOnu UnknownSupport [].

Definition tcadaptorperformancemonitoringhistorydataxdslBME : ManagedEntityDefinition :=
  mkDef "TcAdaptorPerformanceMonitoringHistoryDataXdsl" 116 [Create; Delete; GetMsg; SetMsg; GetCurrentData] 65472 (attrs [
    Uint16Field "ManagedEntityId" PointerAttributeType 0 0 [Read] false false false 0;
    ByteField "IntervalEndTime" UnsignedIntegerAttributeType 32768 0 [Read] false false false 1;
    Uint16Field "ThresholdData12Id" UnsignedIntegerAttributeType 16384 0 [Read; SetByCreate; Write] false false false 2;
    Uint16Field "NearEndHecViolationCount" CounterAttributeType 8192 0 [Read] false false false 3;
    Uint32Field "NearEndDelineatedTotalCellCountCdP" CounterAttributeType 4096 0 [Read] false false false 4;
    Uint32Field "NearEndUserTotalCellCountCuP" CounterAttributeType 2048 0 [Read] false false false 5;
    Uint16Field "NearEndIdleCellBitErrorCount" CounterAttributeType 1024 0 [Read] false false false 6;
    Uint16Field "FarEndHecViolationCount" CounterAttributeType 512 0 [Read] false false false 7;
    Uint32Field "FarEndDelineatedTotalCellCountCdPfe" CounterAttributeType 256 0 [Read] false false false 8;
    Uint32Field "FarEndUserTotalCellCountCuPfe" CounterAttributeType 128 0 [Read] false false false 9;
    Uint16Field "FarEndIdleCellBitErrorCount" CounterAttributeType 64 0 [Read] false false false 10])
    CreatedByOlt UnknownSupport [0; 1; 2; 3; 4; 5; 6; 7].

Definition tcpudpconfigdataBME : ManagedEntityDefinition :=
  mkDef "TcpUdpConfigData" 136 [Create; Delete; GetMsg; SetMsg] 61440 (attrs [
    Uint16Field "ManagedEntityId" PointerAttributeType 0 0 [Read; SetByCreate] false false false 0;
    Uint16Field "PortId" UnsignedIntegerAttributeType 32768 0 [Read; SetByCreate; Write] false false false 1;
    ByteField "Protocol" UnsignedIntegerAttributeType 16384 0 [Read; SetByCreate; Write] false false false 2;
    ByteField "TosDiffservField" UnsignedIntegerAttributeType 8192 0 [Read; SetByCreate; Write] false false false 3;
    Uint16Field "IpHostPointer" UnsignedIntegerAttributeType 4096 0 [Read; SetByCreate; Write] false false false 4])
    CreatedByOlt UnknownSupport [].

Definition tcpudpperformancemonitoringhistorydataBME : ManagedEntityDefinition :=
  mkDef "TcpUdpPerformanceMonitoringHistoryData" 342 [Create; Delete; GetMsg; SetMsg; GetCurrentData] 65024 (attrs [
    Uint16Field "ManagedEntityId" PointerAttributeType 0 0 [Read; SetByCreate] false false false 0;
    ByteField "IntervalEndTime" UnsignedIntegerAttributeType 32768 0 [Read] false false false 1;
    Uint16Field "ThresholdData12Id" UnsignedIntegerAttributeType 16384 0 [Read; SetByCreate; Write] false false false 2;
    Uint16Field "SocketFailed" CounterAttributeType 8192 0 [Read] false false false 3;
    Uint16Field "ListenFailed" CounterAttributeType 4096 0 [Read] false false false 4;
    Uint16Field "BindFailed" CounterAttributeType 2048 0 [Read] false false false 5;
    Uint16Field "AcceptFailed" CounterAttributeType 1024 0 [Read] false false false 6;
    Uint16Field "SelectFailed" CounterAttributeType 512 0 [Read] false false false 7])
    CreatedByOlt UnknownSupport [1; 2; 3; 4; 5].

Definition thresholddata1BME : ManagedEntityDefinition :=
  mkDef "ThresholdData1" 273 [Create; Delete; GetMsg; SetMsg] 65024 (attrs [
    Uint16Field "ManagedEntityId" PointerAttributeType 0 0 [Read; SetByCreate] false false false 0;
    Uint32Field "ThresholdValue1" UnsignedIntegerAttributeType 32768 0 [Read; SetByCreate; Write] false false false 1;
    Uint32Field "ThresholdValue2" UnsignedIntegerAttributeType 16384 0 [Read; SetByCreate; Write] false false false 2;
    Uint32Field "ThresholdValue3" UnsignedIntegerAttributeType 8192 0 [Read; SetByCreate; Write] false false false 3;
    Uint32Field "ThresholdValue4" UnsignedIntegerAttributeType 4096 0 [Read; SetByCreate; Write] false false false 4;
    Uint32Field "ThresholdValue5" UnsignedIntegerAttributeType 2048 0 [Read; SetByCreate; Write] false false false 5;
    Uint32Field "ThresholdValue6" UnsignedIntegerAttributeType 1024 0 [Read; SetByCreate; Write] false false false 6;
    Uint32Field "ThresholdValue7" UnsignedIntegerAttributeType 512 0 [Read; SetByCreate; Write] false false false 7])
    CreatedByOlt UnknownSupport [].

Definition thresholddata2BME : ManagedEntityDefinition :=
  mkDef "ThresholdData2" 274 [Create; Delete; GetMsg; SetMsg] 65024 (attrs [
    Uint16Field "ManagedEntityId" PointerAttributeType 0 0 [Read; SetByCreate] false false false 0;
    Uint32Field "ThresholdValue8" UnsignedIntegerAttributeType 32768 0 [Read; SetByCreate; Write] false false false 1;
    Uint32Field "ThresholdValue9" UnsignedIntegerAttributeType 16384 0 [Read; SetByCreate; Write] false false false 2;
    Uint32Field "ThresholdValue10" UnsignedIntegerAttributeType 8192 0 [Read; SetByCreate; Write] false false false 3;
    Uint32Field "ThresholdValue11" UnsignedIntegerAttributeType 4096 0 [Read; SetByCreate; Write] false false false 4;
    Uint32Field "ThresholdValue12" UnsignedIntegerAttributeType 2048 0 [Read; SetByCreate; Write] false false false 5;
    Uint32Field "ThresholdValue13" UnsignedIntegerAttributeType 1024 0 [Read; SetByCreate; Write] false false false 6;
    Uint32Field "ThresholdValue14" UnsignedIntegerAttributeType 512 0 [Read; SetByCreate; Write] false false false 7])
    CreatedByOlt UnknownSupport [].

Definition timestatusmessageBME : ManagedEntityDefinition :=
  mkDef "TimeStatusMessage" 440 [GetMsg; SetMsg] 65280 (attrs [
    Uint16Field "ManagedEntityId" PointerAttributeType 0 0 [Read] false false false 0;
    ByteField "DomainNumber" UnsignedIntegerAttributeType 32768 0 [Read; Write] false false false 1;
    ByteField "FlagField" UnsignedIntegerAttributeType 16384 0 [Read; Write] false false false 2;
    Uint16Field "Currentutcoffset" UnsignedIntegerAttributeType 8192 0 [Read; Write] false false false 3;
    ByteField "Priority1" UnsignedIntegerAttributeType 4096 0 [Read; Write] false false false 4;
    ByteField "Clockclass" UnsignedIntegerAttributeType 2048 0 [Read; Write] false false false 5;
    ByteField "Accuracy" UnsignedIntegerAttributeType 1024 0 [Read; Write] false false false 6;
    Uint16Field "Offsetscaledlogvariance" UnsignedIntegerAttributeType 512 0 [Read; Write] false false false 7;
    ByteField "Priority2" UnsignedIntegerAttributeType 256 0 [Read; Write] false false false 8])
    CreatedByOnu UnknownSupport [0; 1; 2].

Definition trafficdescriptorBME : ManagedEntityDefinition :=
  mkDef "TrafficDescriptor" 280 [Create; Delete; GetMsg; SetMsg] 65280 (attrs [
    Uint16Field "ManagedEntityId" PointerAttributeType 0 0 [Read; SetByCreate] false false false 0;
    Uint32Field "Cir" UnsignedIntegerAttributeType 32768 0 [Read; SetByCreate; Write] false true false 1;
    Uint32Field "Pir" UnsignedIntegerAttributeType 16384 0 [Read; SetByCreate; Write] false true false 2;
    Uint32Field "Cbs" UnsignedIntegerAttributeType 8192 0 [Read; SetByCreate; Write] false true false 3;
    Uint32Field "Pbs" UnsignedIntegerAttributeType 4096 0 [Read; SetByCreate; Write] false true false 4;
    ByteField "ColourMode" EnumerationAttributeType 2048 0 [Read; SetByCreate; Write] false true false 5;
    ByteField "IngressColourMarking" EnumerationAttributeType 1024 0 [Read; SetByCreate; Write] false true false 6;
    ByteField "EgressColourMarking" EnumerationAttributeType 512 0 [Read; SetByCreate; Write] false true false 7;
    ByteField "MeterType" EnumerationAttributeType 256 0 [Read; SetByCreate] false true false 8])
    CreatedByOlt UnknownSupport [].

Definition trafficschedulerBME : ManagedEntityDefinition :=
  mkDef "TrafficScheduler" 278 [GetMsg; SetMsg] 61440 (attrs [
    Uint16Field "ManagedEntityId" PointerAttributeType 0 0 [Read] false false false 0;
    Uint16Field "TContPointer" PointerAttributeType 32768 0 [Read; Write] false false false 1;
    Uint16Field "TrafficSchedulerPointer" PointerAttributeType 16384 0 [Read] false false false 2;
    ByteField "Policy" EnumerationAttributeType 8192 0 [Read; Write] false false false 3;
    ByteField "PriorityWeight" UnsignedIntegerAttributeType 4096 0 [Read; Write] false false false 4])
    CreatedByOnu UnknownSupport [].

Definition twdmchannelmanagedentityBME : ManagedEntityDefinition :=
  mkDef "TwdmChannelManagedEntity" 443 [GetMsg] 61440 (attrs [
    Uint16Field "ManagedEntityId" PointerAttributeType 0 0 [Read] false false false 0;
    ByteField "ActiveChannelIndication" UnsignedIntegerAttributeType 32768 0 [Read] false false false 1;
    ByteField "OperationalChannelIndication" UnsignedIntegerAttributeType 16384 0 [Read] false false false 2;
    ByteField "DownstreamWavelengthChannel" UnsignedIntegerAttributeType 8192 0 [Read] false false false 3;
    ByteField "UpstreamWavelengthChannel" UnsignedIntegerAttributeType 4096 0 [Read] false false false 4])
    CreatedByOnu UnknownSupport [].

Definition twdmchannelomciperformancemonitoringhistorydataBME : ManagedEntityDefinition :=
  mkDef "TwdmChannelOmciPerformanceMonitoringHistoryData" 452 [Create; Delete; GetMsg; SetMsg; GetCurrentData] 63488 (attrs [
    Uint16Field "ManagedEntityId" PointerAttributeType 0 0 [Read; SetByCreate] false false false 0;
    ByteField "IntervalEndTime" UnsignedIntegerAttributeType 32768 0 [Read] false false false 1;
    Uint16Field "ThresholdData12Id" UnsignedIntegerAttributeType 16384 0 [Read; SetByCreate; Write] false false false 2;
    Uint32Field "OmciBaselineMessageCount" CounterAttributeType 8192 0 [Read] false false false 3;
    Uint32Field "OmciExtendedMessageCount" CounterAttributeType 4096 0 [Read] false false false 4;
    Uint32Field "OmciMicErrorCount" CounterAttributeType 2048 0 [Read] false false false 5])
    CreatedByOlt UnknownSupport [0].

Definition twdmchannelphylodsperformancemonitoringhistorydataBME : ManagedEntityDefinition :=
  mkDef "TwdmChannelPhyLodsPerformanceMonitoringHistoryData" 444 [Create; Delete; GetMsg; SetMsg; GetCurrentData] 65534 (attrs [
    Uint16Field "ManagedEntityId" PointerAttributeType 0 0 [Read; SetByCreate] false false false 0;
    ByteField "IntervalEndTime" UnsignedIntegerAttributeType 32768 0 [Read] false false false 1;
    Uint16Field "ThresholdData12Id" UnsignedIntegerAttributeType 16384 0 [Read; SetByCreate; Write] false false false 2;
    Uint64Field "TotalReceivedWordsProtectedByBitInterleavedParity32Bip32" CounterAttributeType 8192 0 [Read] false false false 3;
    Uint32Field "Bip32BitErrorCount" CounterAttributeType 4096 0 [Read] false false false 4;
    Uint32Field "CorrectedPsbdHecErrorCount" CounterAttributeType 2048 0 [Read] false false false 5;
    Uint32Field "UncorrectablePsbdHecErrorCount" CounterAttributeType 1024 0 [Read] false false false 6;
    Uint32Field "CorrectedDownstreamFsHeaderHecErrorCount" CounterAttributeType 512 0 [Read] false false false 7;
    Uint32Field "UncorrectableDownstreamFsHeaderHecErrorCount" CounterAttributeType 256 0 [Read] false false false 8;
    Uint32Field "TotalNumberOfLodsEvents" CounterAttributeType 128 0 [Read] false false false 9;
    Uint32Field "LodsEventsRestoredInOperatingTwdmChannel" CounterAttributeType 64 0 [Read] false false false 10;
    Uint32Field "LodsEventsRestoredInProtectionTwdmChannel" CounterAttributeType 32 0 [Read] false false false 11;
    Uint32Field "LodsEventsRestoredInDiscretionaryTwdmChannel" CounterAttributeType 16 0 [Read] false false false 12;
    Uint32Field "LodsEventsResultingInReactivation" CounterAttributeType 8 0 [Read] false false false 13;
    Uint32Field "LodsEventsResultingInReactivationAfterRetuningToProtectionTwdmChannel" CounterAttributeType 4 0 [Read] false false false 14;
    Uint32Field "LodsEventsResultingInReactivationAfterRetuningToDiscretionaryTwdmChannel" CounterAttributeType 2 0 [Read] false false false 15])
    CreatedByOlt UnknownSupport [1; 2; 3; 4; 5; 6; 7; 8; 9; 10; 11; 12].

Definition twdmchannelploamperformancemonitoringhistorydatapart1BME : ManagedEntityDefinition :=
  mkDef "TwdmChannelPloamPerformanceMonitoringHistoryDataPart1" 446 [Create; Delete; GetMsg; SetMsg; GetCurrentData] 65280 (attrs [
    Uint16Field "ManagedEntityId" PointerAttributeType 0 0 [Read; SetByCreate] false false false 0;
    ByteField "IntervalEndTime" UnsignedIntegerAttributeType 32768 0 [Read] false false false 1;
    Uint16Field "ThresholdData12Id" UnsignedIntegerAttributeType 16384 0 [Read; SetByCreate; Write] false false false 2;
    Uint32Field "PloamMicErrors" CounterAttributeType 8192 0 [Read] false false false 3;
    Uint32Field "DownstreamPloamMessageCount" CounterAttributeType 4096 0 [Read] false false false 4;
    Uint32Field "RangingTimeMessageCount" CounterAttributeType 2048 0 [Read] false false false 5;
    Uint32Field "ProtectionControlMessageCount" CounterAttributeType 1024 0 [Read] false false false 6;
    Uint32Field "AdjustTxWavelengthMessageCount" CounterAttributeType 512 0 [Read] false false false 7;
    Uint32Field "AdjustTxWavelengthAdjustmentAmplitude" CounterAttributeType 256 0 [Read] false false false 8])
    CreatedByOlt UnknownSupport [0].

Definition twdmchannelploamperformancemonitoringhistorydatapart2BME : ManagedEntityDefinition :=
  mkDef "TwdmChannelPloamPerformanceMonitoringHistoryDataPart2" 447 [Create; Delete; GetMsg; SetMsg; GetCurrentData] 65535 (attrs [
    Uint16Field "ManagedEntityId" PointerAttributeType 0 0 [Read; SetByCreate] false false false 0;
    ByteField "IntervalEndTime" UnsignedIntegerAttributeType 32768 0 [Read] false false false 1;
    Uint16Field "ThresholdData12Id" UnsignedIntegerAttributeType 16384 0 [Read; SetByCreate; Write] false false false 2;
    Uint32Field "SystemProfileMessageCount" CounterAttributeType 8192 0 [Read] false false false 3;
    Uint32Field "ChannelProfileMessageCount" CounterAttributeType 4096 0 [Read] false false false 4;
    Uint32Field "BurstProfileMessageCount" CounterAttributeType 2048 0 [Read] false false false 5;
    Uint32Field "AssignOnuIdMessageCount" CounterAttributeType 1024 0 [Read] false false false 6;
    Uint32Field "UnsatisfiedAdjustTxWavelengthRequests" CounterAttributeType 512 0 [Read] false false false 7;
    Uint32Field "DeactivateOnuIdMessageCount" CounterAttributeType 256 0 [Read] false false false 8;
    Uint32Field "DisableSerialNumberMessageCount" CounterAttributeType 128 0 [Read] false false false 9;
    Uint32Field "RequestRegistrationMessageCount" CounterAttributeType 64 0 [Read] false false false 10;
    Uint32Field "AssignAllocIdMessageCount" CounterAttributeType 32 0 [Read] false false false 11;
    Uint32Field "KeyControlMessageCount" CounterAttributeType 16 0 [Read] false false false 12;
    Uint32Field "SleepAllowMessageCount" CounterAttributeType 8 0 [Read] false false false 13;
    Uint32Field "TuningControlRequestMessageCount" CounterAttributeType 4 0 [Read] false false false 14;
    Uint32Field "TuningControlCompleteDMessageCount" CounterAttributeType 2 0 [Read] false false false 15;
    Uint32Field "CalibrationRequestMessageCount" CounterAttributeType 1 0 [Read] false false false 16])
    CreatedByOlt UnknownSupport [0].

Definition twdmchannelploamperformancemonitoringhistorydatapart3BME : ManagedEntityDefinition :=
  mkDef "TwdmChannelPloamPerformanceMonitoringHistoryDataPart3" 448 [Create; Delete; GetMsg; SetMsg; GetCurrentData] 65528 (attrs [
    Uint16Field "ManagedEntityId" PointerAttributeType 0 0 [Read; SetByCreate] false false false 0;
    ByteField "IntervalEndTime" UnsignedIntegerAttributeType 32768 0 [Read] false false false 1;
    Uint16Field "ThresholdData12Id" UnsignedIntegerAttributeType 16384 0 [Read; SetByCreate; Write] false false false 2;
    Uint32Field "UpstreamPloamMessageCount" CounterAttributeType 8192 0 [Read] false false false 3;
    Uint32Field "SerialNumberOnuInBandMessageCount" CounterAttributeType 4096 0 [Read] false false false 4;
    Uint32Field "SerialNumberOnuAmccMessageCount" CounterAttributeType 2048 0 [Read] false false false 5;
    Uint32Field "RegistrationMessageCount" CounterAttributeType 1024 0 [Read] false false false 6;
    Uint32Field "KeyReportMessageCount" CounterAttributeType 512 0 [Read] false false false 7;
    Uint32Field "AcknowledgementMessageCount" CounterAttributeType 256 0 [Read] false false false 8;
    Uint32Field "SleepRequestMessageCount" CounterAttributeType 128 0 [Read] false false false 9;
    Uint32Field "TuningResponseAckNackMessageCount" CounterAttributeType 64 0 [Read] false false false 10;
    Uint32Field "TuningResponseCompleteURollbackMessageCount" CounterAttributeType 32 0 [Read] false false false 11;
    Uint32Field "PowerConsumptionReportMessageCount" CounterAttributeType 16 0 [Read] false false false 12;
    Uint32Field "ChangePowerLevelParameterErrorCount" CounterAttributeType 8 0 [Read] false false false 13])
    CreatedByOlt UnknownSupport [0].

Definition twdmchanneltuningperformancemonitoringhistorydatapart1BME : ManagedEntityDefinition :=
  mkDef "TwdmChannelTuningPerformanceMonitoringHistoryDataPart1" 449 [Create; Delete; GetMsg; SetMsg] 65534 (attrs [
    Uint16Field "ManagedEntityId" PointerAttributeType 0 0 [Read; SetByCreate] false false false 0;
    ByteField "IntervalEndTime" UnsignedIntegerAttributeType 32768 0 [Read] false false false 1;
    Uint16Field "ThresholdData12Id" UnsignedIntegerAttributeType 16384 0 [Read; SetByCreate; Write] false false false 2;
    Uint32Field "TuningControlRequestsForRxOnlyOrRxAndTx" CounterAttributeType 8192 0 [Read] false false false 3;
    Uint32Field "TuningControlRequestsForTxOnly" CounterAttributeType 4096 0 [Read] false false false 4;
    Uint32Field "TuningControlRequestsRejectedIntSfc" CounterAttributeType 2048 0 [Read] false false false 5;
    Uint32Field "TuningControlRequestsRejectedDsXxx" CounterAttributeType 1024 0 [Read] false false false 6;
    Uint32Field "TuningControlRequestsRejectedUsXxx" CounterAttributeType 512 0 [Read] false false false 7;
    Uint32Field "TuningControlRequestsFulfilledWithOnuReacquiredAtTargetChannel" CounterAttributeType 256 0 [Read] false false false 8;
    Uint32Field "TuningControlRequestsFailedDueToTargetDsWavelengthChannelNotFound" CounterAttributeType 128 0 [Read] false false false 9;
    Uint32Field "TuningControlRequestsFailedDueToNoFeedbackInTargetDsWavelengthChannel" CounterAttributeType 64 0 [Read] false false false 10;
    Uint32Field "TuningControlRequestsResolvedWithOnuReacquiredAtDiscretionaryChannel" CounterAttributeType 32 0 [Read] false false false 11;
    Uint32Field "TuningControlRequestsRollbackComDs" CounterAttributeType 16 0 [Read] false false false 12;
    Uint32Field "TuningControlRequestsRollbackDsXxx" CounterAttributeType 8 0 [Read] false false false 13;
    Uint32Field "TuningControlRequestsRollbackUsXxx" CounterAttributeType 4 0 [Read] false false false 14;
    Uint32Field "TuningControlRequestsFailedWithOnuReactivation" CounterAttributeType 2 0 [Read] false false false 15])
    CreatedByOlt UnknownSupport [].

Definition twdmchanneltuningperformancemonitoringhistorydatapart2BME : ManagedEntityDefinition :=
  mkDef "TwdmChannelTuningPerformanceMonitoringHistoryDataPart2" 450 [Create; Delete; GetMsg; SetMsg; GetCurrentData] 65534 (attrs [
    Uint16Field "ManagedEntityId" PointerAttributeType 0 0 [Read; SetByCreate] false false false 0;
    ByteField "IntervalEndTime" UnsignedIntegerAttributeType 32768 0 [Read] false false false 1;
    Uint16Field "ThresholdData12Id" UnsignedIntegerAttributeType 16384 0 [Read; SetByCreate; Write] false false false 2;
    Uint32Field "TuningControlRequestsRejectedDsAlbl" CounterAttributeType 8192 0 [Read] false false false 3;
    Uint32Field "TuningControlRequestsRejectedDsVoid" CounterAttributeType 4096 0 [Read] false false false 4;
    Uint32Field "TuningControlRequestsRejectedDsPart" CounterAttributeType 2048 0 [Read] false false false 5;
    Uint32Field "TuningControlRequestsRejectedDsTunr" CounterAttributeType 1024 0 [Read] false false false 6;
    Uint32Field "TuningControlRequestsRejectedDsLnrt" CounterAttributeType 512 0 [Read] false false false 7;
    Uint32Field "TuningControlRequestsRejectedDsLncd" CounterAttributeType 256 0 [Read] false false false 8;
    Uint32Field "TuningControlRequestsRejectedUsAlbl" CounterAttributeType 128 0 [Read] false false false 9;
    Uint32Field "TuningControlRequestsRejectedUsVoid" CounterAttributeType 64 0 [Read] false false false 10;
    Uint32Field "TuningControlRequestsRejectedUsTunr" CounterAttributeType 32 0 [Read] false false false 11;
    Uint32Field "TuningControlRequestsRejectedUsClbr" CounterAttributeType 16 0 [Read] false false false 12;
    Uint32Field "TuningControlRequestsRejectedUsLktp" CounterAttributeType 8 0 [Read] false false false 13;
    Uint32Field "TuningControlRequestsRejectedUsLnrt" CounterAttributeType 4 0 [Read] false false false 14;
    Uint32Field "TuningControlRequestsRejectedUsLncd" CounterAttributeType 2 0 [Read] false false false 15])
    CreatedByOlt UnknownSupport [0; 1; 2; 3; 4; 5; 6; 7; 8; 9; 10; 11; 12].

Definition twdmchanneltuningperformancemonitoringhistorydatapart3BME : ManagedEntityDefinition :=
  mkDef "TwdmChannelTuningPerformanceMonitoringHistoryDataPart3" 451 [Create; Delete; GetMsg; SetMsg; GetCurrentData] 65472 (attrs [
    Uint16Field "ManagedEntityId" PointerAttributeType 0 0 [Read; SetByCreate] false false false 0;
    ByteField "IntervalEndTime" UnsignedIntegerAttributeType 32768 0 [Read] false false false 1;
    Uint16Field "ThresholdData12Id" UnsignedIntegerAttributeType 16384 0 [Read; SetByCreate; Write] false false false 2;
    Uint32Field "TuningControlRequestsRollbackDsAlbl" CounterAttributeType 8192 0 [Read] false false false 3;
    Uint32Field "TuningControlRequestsRollbackDsLktp" CounterAttributeType 4096 0 [Read] false false false 4;
    Uint32Field "TuningControlRequestsRollbackUsAlbl" CounterAttributeType 2048 0 [Read] false false false 5;
    Uint32Field "TuningControlRequestsRollbackUsVoid" CounterAttributeType 1024 0 [Read] false false false 6;
    Uint32Field "TuningControlRequestsRollbackUsTunr" CounterAttributeType 512 0 [Read] false false false 7;
    Uint32Field "TuningControlRequestsRollbackUsLktp" CounterAttributeType 256 0 [Read] false false false 8;
    Uint32Field "TuningControlRequestsRollbackUsLnrt" CounterAttributeType 128 0 [Read] false false false 9;
    Uint32Field "TuningControlRequestsRollbackUsLncd" CounterAttributeType 64 0 [Read] false false false 10])
    CreatedByOlt UnknownSupport [0; 1; 2; 3; 4; 5; 6; 7].

Definition twdmchannelxgemperformancemonitoringhistorydataBME : ManagedEntityDefinition :=
  mkDef "TwdmChannelXgemPerformanceMonitoringHistoryData" 445 [Create; Delete; GetMsg; SetMsg; GetCurrentData] 65472 (attrs [
    Uint16Field "ManagedEntityId" PointerAttributeType 0 0 [Read; SetByCreate] false false false 0;
    ByteField "IntervalEndTime" UnsignedIntegerAttributeType 32768 0 [Read] false false false 1;
    Uint16Field "ThresholdData64BitId" UnsignedIntegerAttributeType 16384 0 [Read; SetByCreate; Write] false false false 2;
    Uint64Field "TotalTransmittedXgemFrames" CounterAttributeType 8192 0 [Read] false false false 3;
    Uint64Field "TransmittedXgemFramesWithLfBitNotSet" CounterAttributeType 4096 0 [Read] false false false 4;
    Uint64Field "TotalReceivedXgemFrames" CounterAttributeType 2048 0 [Read] false false false 5;
    Uint64Field "ReceivedXgemFramesWithXgemHeaderHecErrors" CounterAttributeType 1024 0 [Read] false false false 6;
    Uint64Field "FsWordsLostToXgemHeaderHecErrors" CounterAttributeType 512 0 [Read] false false false 7;
    Uint64Field "XgemEncryptionKeyErrors" CounterAttributeType 256 0 [Read] false false false 8;
    Uint64Field "TotalTransmittedBytesInNonIdleXgemFrames" CounterAttributeType 128 0 [Read] false false false 9;
    Uint64Field "TotalReceivedBytesInNonIdleXgemFrames" CounterAttributeType 64 0 [Read] false false false 10])
    CreatedByOlt UnknownSupport [].

Definition unigBME : ManagedEntityDefinition :=
  mkDef "UniG" 264 [GetMsg; SetMsg] 63488 (attrs [
    Uint16Field "ManagedEntityId" PointerAttributeType 0 0 [Read] false false false 0;
    Uint16Field "Deprecated" UnsignedIntegerAttributeType 32768 0 [Read; Write] false false true 1;
    ByteField "AdministrativeState" EnumerationAttributeType 16384 0 [Read; Write] false false false 2;
    ByteField "ManagementCapability" EnumerationAttributeType 8192 0 [Read] false true false 3;
    Uint16Field "NonOmciManagementIdentifier" PointerAttributeType 4096 0 [Read; Write] false true false 4;
    Uint16Field "RelayAgentOptions" PointerAttributeType 2048 0 [Read; Write] false true false 5])
    CreatedByOnu UnknownSupport [].

Definition unknownG988BME : ManagedEntityDefinition :=
  mkDef "UnknownItuG988ManagedEntity" 0 [MibUploadNext; AlarmNotification; AttributeValueChange] 65535 (attrs [
    Uint16Field "ManagedEntityId" PointerAttributeType 0 0 [Read] false false false 0;
    MultiByteField "UnknownAttr_1" OctetsAttributeType 32768 1 [0] [Read] true true false 1;
    MultiByteField "UnknownAttr_2" OctetsAttributeType 16384 1 [0] [Read] true true false 2;
    MultiByteField "UnknownAttr_3" OctetsAttributeType 8192 1 [0] [Read] true true false 3;
    MultiByteField "UnknownAttr_4" OctetsAttributeType 4096 1 [0] [Read] true true false 4;
    MultiByteField "UnknownAttr_5" OctetsAttributeType 2048 1 [0] [Read] true true false 5;
    MultiByteField "UnknownAttr_6" OctetsAttributeType 1024 1 [0] [Read] true true false 6;
    MultiByteField "UnknownAttr_7" OctetsAttributeType 512 1 [0] [Read] true true false 7;
    MultiByteField "UnknownAttr_8" OctetsAttributeType 256 1 [0] [Read] true true false 8;
    MultiByteField "UnknownAttr_9" OctetsAttributeType 128 1 [0] [Read] true true false 9;
    MultiByteField "UnknownAttr_10" OctetsAttributeType 64 1 [0] [Read] true true false 10;
    MultiByteField "UnknownAttr_11" OctetsAttributeType 32 1 [0] [Read] true true false 11;
    MultiByteField "UnknownAttr_12" OctetsAttributeType 16 1 [0] [Read] true true false 12;
    MultiByteField "UnknownAttr_13" OctetsAttributeType 8 1 [0] [Read] true true false 13;
    MultiByteField "UnknownAttr_14" OctetsAttributeType 4 1 [0] [Read] true true false 14;
    MultiByteField "UnknownAttr_15" OctetsAttributeType 2 1 [0] [Read] true true false 15;
    MultiByteField "UnknownAttr_16" OctetsAttributeType 1 1 [0] [Read] true true false 16])
    UnknownAccess UnsupportedManagedEntity [].

Definition unknownVendorSpecificBME : ManagedEntityDefinition :=
  mkDef "UnknownVendorSpecificManagedEntity" 0 [MibUploadNext; AlarmNotification; AttributeValueChange] 65535 (attrs [
    Uint16Field "ManagedEntityId" PointerAttributeType 0 0 [Read] false false false 0;
    MultiByteField "UnknownAttr_1" OctetsAttributeType 32768 1 [0] [Read] true true false 1;
    MultiByteField "UnknownAttr_2" OctetsAttributeType 16384 1 [0] [Read] true true false 2;
    MultiByteField "UnknownAttr_3" OctetsAttributeType 8192 1 [0] [Read] true true false 3;
    MultiByteField "UnknownAttr_4" OctetsAttributeType 4096 1 [0] [Read] true true false 4;
    MultiByteField "UnknownAttr_5" OctetsAttributeType 2048 1 [0] [Read] true true false 5;
    MultiByteField "UnknownAttr_6" OctetsAttributeType 1024 1 [0] [Read] true true false 6;
    MultiByteField "UnknownAttr_7" OctetsAttributeType 512 1 [0] [Read] true true false 7;
    MultiByteField "UnknownAttr_8" OctetsAttributeType 256 1 [0] [Read] true true false 8;
    MultiByteField "UnknownAttr_9" OctetsAttributeType 128 1 [0] [Read] true true false 9;
    MultiByteField "UnknownAttr_10" OctetsAttributeType 64 1 [0] [Read] true true false 10;
    MultiByteField "UnknownAttr_11" OctetsAttributeType 32 1 [0] [Read] true true false 11;
    MultiByteField "UnknownAttr_12" OctetsAttributeType 16 1 [0] [Read] true true false 12;
    MultiByteField "UnknownAttr_13" OctetsAttributeType 8 1 [0] [Read] true true false 13;
    MultiByteField "UnknownAttr_14" OctetsAttributeType 4 1 [0] [Read] true true false 14;
    MultiByteField "UnknownAttr_15" OctetsAttributeType 2 1 [0] [Read] true true false 15;
    MultiByteField "UnknownAttr_16" OctetsAttributeType 1 1 [0] [Read] true true false 16])
    UnknownAccess UnsupportedVendorSpecificManagedEntity [].

Definition vdsl2lineconfigurationextensionsBME : ManagedEntityDefinition :=
  mkDef "Vdsl2LineConfigurationExtensions" 165 [Create; Delete; GetMsg; GetNextMsg; SetMsg; SetTableMsg] 65535 (attrs [
    Uint16Field "ManagedEntityId" PointerAttributeType 0 0 [Read; SetByCreate] false false false 0;
    ByteField "Vdsl2ProfilesEnabling" UnsignedIntegerAttributeType 32768 0 [Read; SetByCreate; Write] false false false 1;
    ByteField "Vdsl2PsdMaskClassSelectionClassmask" UnsignedIntegerAttributeType 16384 0 [Read; SetByCreate; Write] false false false 2;
    Uint64Field "Vdsl2LimitPsdMasks" UnsignedIntegerAttributeType 8192 0 [Read; SetByCreate; Write] false false false 3;
    Uint64Field "Vdsl2Us0Disabling" UnsignedIntegerAttributeType 4096 0 [Read; SetByCreate; Write] false false false 4;
    Uint32Field "Vdsl2Us0PsdMasks" UnsignedIntegerAttributeType 2048 0 [Read; SetByCreate; Write] false false false 5;
    TableField "Vdsl2CarmaskTable" TableAttributeType 1024 5 [Read; Write] false false false 6;
    ByteField "CarmaskValid" UnsignedIntegerAttributeType 512 0 [Read; Write] false false false 7;
    MultiByteField "Upboshaped" OctetsAttributeType 256 23 (replicate 23 0) [Read; Write] false false false 8;
    ByteField "CyclicExtension" UnsignedIntegerAttributeType 128 0 [Read; Write] false false false 9;
    ByteField "DownstreamSignalToNoiseRatioSnrMode" UnsignedIntegerAttributeType 64 0 [Read; Write] false false false 10;
    ByteField "UpstreamSnrMode" UnsignedIntegerAttributeType 32 0 [Read; Write] false false false 11;
    TableField "TransmitterReferredVirtualNoiseDownstreamTable" TableAttributeType 16 3 [Read; Write] false true false 12;
    TableField "TransmitterReferredVirtualNoiseUpstreamTable" TableAttributeType 8 3 [Read; Write] false true false 13;
    MultiByteField "Dpboshaped" OctetsAttributeType 4 15 (replicate 15 0) [Read; Write] false true false 14;
    Uint16Field "UpboklrefPb" UnsignedIntegerAttributeType 2 0 [Read; Write] false true false 15;
    ByteField "UpboshapedAeleModeUpboelmt" UnsignedIntegerAttributeType 1 0 [Read; Write] false true false 16])
    CreatedByOlt UnknownSupport [].

Definition vdsl2lineconfigurationextensions2BME : ManagedEntityDefinition :=
  mkDef "Vdsl2LineConfigurationExtensions2" 323 [Create; Delete; GetMsg; GetNextMsg; SetMsg; SetTableMsg] 65532 (attrs [
    Uint16Field "ManagedEntityId" PointerAttributeType 0 0 [Read; SetByCreate] false false false 0;
    ByteField "SosTimeDownstream" UnsignedIntegerAttributeType 32768 0 [Read; SetByCreate; Write] false true false 1;
    ByteField "SosTimeUpstream" UnsignedIntegerAttributeType 16384 0 [Read; SetByCreate; Write] false true false 2;
    ByteField "SosDegradedTonesThresholdDownstream" UnsignedIntegerAttributeType 8192 0 [Read; SetByCreate; Write] false true false 3;
    ByteField "SosDegradedTonesThresholdUpstream" UnsignedIntegerAttributeType 4096 0 [Read; SetByCreate; Write] false true false 4;
    Uint16Field "SosCrcThresholdDownstream" UnsignedIntegerAttributeType 2048 0 [Read; SetByCreate; Write] false true false 5;
    Uint16Field "SosCrcThresholdUpstream" UnsignedIntegerAttributeType 1024 0 [Read; SetByCreate; Write] false true false 6;
    ByteField "MaxSosDownstream" UnsignedIntegerAttributeType 512 0 [Read; SetByCreate; Write] false true false 7;
    ByteField "MaxSosUpstream" UnsignedIntegerAttributeType 256 0 [Read; SetByCreate; Write] false true false 8;
    Uint16Field "SnrMaxOffsetDownstream" UnsignedIntegerAttributeType 128 0 [Read; SetByCreate; Write] false true false 9;
    Uint16Field "SnrMaxOffsetUpstream" UnsignedIntegerAttributeType 64 0 [Read; SetByCreate; Write] false true false 10;
    ByteField "RocMinimumImpulseNoiseProtectionDownstream" UnsignedIntegerAttributeType 32 0 [Read; SetByCreate; Write] false true false 11;
    ByteField "RocMinimumImpulseNoiseProtectionUpstream" UnsignedIntegerAttributeType 16 0 [Read; SetByCreate; Write] false true false 12;
    TableField "FextDownstreamTransmitterReferredVirtualNoiseTable" TableAttributeType 8 3 [Read; Write] false false false 13;
    TableField "NextDownstreamTransmitterReferredVirtualNoiseTable" TableAttributeType 4 3 [Read; Write] false false false 14])
    CreatedByOlt UnknownSupport [].

Definition vdsl2lineconfigurationextensions3BME : ManagedEntityDefinition :=
  mkDef "Vdsl2LineConfigurationExtensions3" 410 [Create; Delete; GetMsg; SetMsg] 65520 (attrs [
    Uint16Field "ManagedEntityId" PointerAttributeType 0 0 [Read; SetByCreate] false false false 0;
    ByteField "Ripolicyds" UnsignedIntegerAttributeType 32768 0 [Read; Write] false true false 1;
    ByteField "Ripolicyus" UnsignedIntegerAttributeType 16384 0 [Read; Write] false true false 2;
    ByteField "ReinitTimeThresholdds" UnsignedIntegerAttributeType 8192 0 [Read; Write] false true false 3;
    ByteField "ReinitTimeThresholdus" UnsignedIntegerAttributeType 4096 0 [Read; Write] false true false 4;
    ByteField "Rxrefvnsfus" UnsignedIntegerAttributeType 2048 0 [Read; Write] false true false 5;
    ByteField "Txrefvnsfds" UnsignedIntegerAttributeType 1024 0 [Read; Write] false true false 6;
    ByteField "RtxModeds" UnsignedIntegerAttributeType 512 0 [Read; Write] false false false 7;
    ByteField "RtxModeus" UnsignedIntegerAttributeType 256 0 [Read; Write] false false false 8;
    ByteField "LeftrThresh" UnsignedIntegerAttributeType 128 0 [Read; Write] false false false 9;
    ByteField "MaxdelayoctetSplitParameterMdosplit" UnsignedIntegerAttributeType 64 0 [Read; Write] false true false 10;
    ByteField "AttndrMethodAttndrMethod" UnsignedIntegerAttributeType 32 0 [Read; Write] false true false 11;
    ByteField "AttndrMaxdelayoctetSplitParameterAttndrMdosplit" UnsignedIntegerAttributeType 16 0 [Read; Write] false true false 12])
    CreatedByOlt UnknownSupport [].

Definition vdsl2lineinventoryandstatusdatapart1BME : ManagedEntityDefinition :=
  mkDef "Vdsl2LineInventoryAndStatusDataPart1" 168 [GetMsg; GetNextMsg] 65534 (attrs [
    Uint16Field "ManagedEntityId" PointerAttributeType 0 0 [Read] false false false 0;
    ByteField "Vdsl2TransmissionSystemCapabilityXtuC" UnsignedIntegerAttributeType 32768 0 [Read] false false false 1;
    ByteField "Vdsl2TransmissionSystem" UnsignedIntegerAttributeType 16384 0 [Read] false false false 2;
    ByteField "Vdsl2Profile" UnsignedIntegerAttributeType 8192 0 [Read] false false false 3;
    Uint64Field "Vdsl2LimitPsdMaskAndBandplan" UnsignedIntegerAttributeType 4096 0 [Read] false false false 4;
    Uint32Field "Vdsl2Us0PsdMask" UnsignedIntegerAttributeType 2048 0 [Read] false false false 5;
    ByteField "Actsnrmodeds" UnsignedIntegerAttributeType 1024 0 [Read] false false false 6;
    ByteField "Hlingds" UnsignedIntegerAttributeType 512 0 [Read] false false false 7;
    ByteField "Hloggds" UnsignedIntegerAttributeType 256 0 [Read] false false false 8;
    ByteField "Qlngds" UnsignedIntegerAttributeType 128 0 [Read] false false false 9;
    ByteField "Snrgds" UnsignedIntegerAttributeType 64 0 [Read] false false false 10;
    TableField "MrefpsddsTable" TableAttributeType 32 3 [Read] false false false 11;
    ByteField "Trellisds" UnsignedIntegerAttributeType 16 0 [Read] false false false 12;
    ByteField "ActualRateAdaptationModeDownstream" UnsignedIntegerAttributeType 8 0 [Read] false true false 13;
    ByteField "ActualImpulseNoiseProtectionRobustOperationsChannelRocDownstream" UnsignedIntegerAttributeType 4 0 [Read] false true false 14;
    Uint16Field "SnrMarginRocDownstream" UnsignedIntegerAttributeType 2 0 [Read] false true false 15])
    CreatedByOnu UnknownSupport [].

Definition vdsl2lineinventoryandstatusdatapart2BME : ManagedEntityDefinition :=
  mkDef "Vdsl2LineInventoryAndStatusDataPart2" 169 [GetMsg; GetNextMsg] 65532 (attrs [
    Uint16Field "ManagedEntityId" PointerAttributeType 0 0 [Read] false false false 0;
    ByteField "Vdsl2TransmissionSystemCapabilityXtuR" UnsignedIntegerAttributeType 32768 0 [Read] false false false 1;
    ByteField "Actsnrmodeus" UnsignedIntegerAttributeType 16384 0 [Read] false false false 2;
    Uint16Field "Upbokle" UnsignedIntegerAttributeType 8192 0 [Read] false false false 3;
    ByteField "Hlingus" UnsignedIntegerAttributeType 4096 0 [Read] false false false 4;
    ByteField "Hloggus" UnsignedIntegerAttributeType 2048 0 [Read] false false false 5;
    ByteField "Qlngus" UnsignedIntegerAttributeType 1024 0 [Read] false false false 6;
    ByteField "Snrgus" UnsignedIntegerAttributeType 512 0 [Read] false false false 7;
    TableField "MrefpsdusTable" TableAttributeType 256 3 [Read] false false false 8;
    ByteField "Trellisus" UnsignedIntegerAttributeType 128 0 [Read] false false false 9;
    ByteField "Actualce" UnsignedIntegerAttributeType 64 0 [Read] false false false 10;
    Uint16Field "UpbokleR" UnsignedIntegerAttributeType 32 0 [Read] false true false 11;
    ByteField "ActualRateAdaptationModeUpstream" UnsignedIntegerAttributeType 16 0 [Read] false true false 12;
    ByteField "ActualImpulseNoiseProtectionRocUpstream" UnsignedIntegerAttributeType 8 0 [Read] false true false 13;
    Uint16Field "SnrMarginRocUpstream" UnsignedIntegerAttributeType 4 0 [Read] false true false 14])
    CreatedByOnu UnknownSupport [].

Definition vdsl2lineinventoryandstatusdatapart3BME : ManagedEntityDefinition :=
  mkDef "Vdsl2LineInventoryAndStatusDataPart3" 170 [GetMsg] 65532 (attrs [
    Uint16Field "ManagedEntityId" PointerAttributeType 0 0 [Read] false false false 0;
    ByteField "UpstreamBandsCount" UnsignedIntegerAttributeType 32768 0 [Read] false false false 1;
    ByteField "DownstreamBandsCount" UnsignedIntegerAttributeType 16384 0 [Read] false false false 2;
    MultiByteField "DownstreamLineAttenuationPerBand" OctetsAttributeType 8192 3 (replicate 3 0) [Read] false false false 3;
    Uint32Field "UpstreamLineAttenuationPerBand" UnsignedIntegerAttributeType 4096 0 [Read] false false false 4;
    MultiByteField "DownstreamSignalAttenuationPerBand" OctetsAttributeType 2048 3 (replicate 3 0) [Read] false false false 5;
    Uint32Field "UpstreamSignalAttenuationPerBand" UnsignedIntegerAttributeType 1024 0 [Read] false false false 6;
    MultiByteField "DownstreamSnrMarginPerBand" OctetsAttributeType 512 3 (replicate 3 0) [Read] false false false 7;
    Uint32Field "UpstreamSnrMarginPerBand" UnsignedIntegerAttributeType 256 0 [Read] false false false 8;
    Uint16Field "DownstreamLineAttenuationExtension" UnsignedIntegerAttributeType 128 0 [Read] false true false 9;
    ByteField "UpstreamLineAttenuationExtension" UnsignedIntegerAttributeType 64 0 [Read] false true false 10;
    Uint16Field "DownstreamSignalAttenuationExtension" UnsignedIntegerAttributeType 32 0 [Read] false true false 11;
    ByteField "UpstreamSignalAttenuationExtension" UnsignedIntegerAttributeType 16 0 [Read] false true false 12;
    Uint16Field "DownstreamSnrMarginExtension" UnsignedIntegerAttributeType 8 0 [Read] false true false 13;
    ByteField "UpstreamSnrMarginExtension" UnsignedIntegerAttributeType 4 0 [Read] false true false 14])
    CreatedByOnu UnknownSupport [].

Definition vdsl2lineinventoryandstatusdatapart4BME : ManagedEntityDefinition :=
  mkDef "Vdsl2LineInventoryAndStatusDataPart4" 415 [GetMsg] 65535 (attrs [
    Uint16Field "ManagedEntityId" PointerAttributeType 0 0 [Read] false false false 0;
    Uint32Field "VtuOEstimatedUpstreamPowerBackOffElectricalLengthPerBandUpboklePb" UnsignedIntegerAttributeType 32768 0 [Read] false true false 1;
    MultiByteField "VtuREstimatedUpstreamPowerBackOffElectricalLengthPerBandUpbokleRPb" OctetsAttributeType 16384 3 (replicate 3 0) [Read] false true false 2;
    ByteField "UpboDownstreamReceiverSignalLevelThresholdRxthrshds" UnsignedIntegerAttributeType 8192 0 [Read] false true false 3;
    ByteField "UpboUpstreamReceiverSignalLevelThresholdRxthrshus" UnsignedIntegerAttributeType 4096 0 [Read] false true false 4;
    ByteField "ActualAlternativeElectricalLengthEstimationModEActAeleMode" UnsignedIntegerAttributeType 2048 0 [Read] false true false 5;
    ByteField "ActualDownstreamRipolicyActripolicyds" UnsignedIntegerAttributeType 1024 0 [Read] false true false 6;
    ByteField "ActualUpstreamRipolicyActripolicyus" UnsignedIntegerAttributeType 512 0 [Read] false true false 7;
    ByteField "AttndrActualMEthodAttndrActmethod" UnsignedIntegerAttributeType 256 0 [Read] false true false 8;
    ByteField "AttndrDownstreamACtualImpulseNoiseProtectionAttndrActinpds" UnsignedIntegerAttributeType 128 0 [Read] false true false 9;
    ByteField "AttndrUpstreamACtualImpulseNoiseProtectionAttndrActinpus" UnsignedIntegerAttributeType 64 0 [Read] false true false 10;
    ByteField "AttndrDownstreamACtualImpulseNoiseProtectionAgainstReinAttndrActinpReinds" UnsignedIntegerAttributeType 32 0 [Read] false true false 11;
    ByteField "AttndrUpstreamACtualImpulseNoiseProtectionAgainstReinAttndrActinpReinus" UnsignedIntegerAttributeType 16 0 [Read] false true false 12;
    ByteField "AttndrDownstreamActualDelayAttndrActdelayds" UnsignedIntegerAttributeType 8 0 [Read] false true false 13;
    ByteField "AttndrUpstreamACtualDelayAttndrActdelayus" UnsignedIntegerAttributeType 4 0 [Read] false true false 14;
    Uint32Field "NearEndAGgregateAchievableNetDataRateAggachndrNe" UnsignedIntegerAttributeType 2 0 [Read] false true false 15;
    Uint32Field "FarEndAggregateAchievableNetDataRateAggachndrFe" UnsignedIntegerAttributeType 1 0 [Read] false true false 16])
    CreatedByOnu UnknownSupport [].

Definition virtualethernetinterfacepointBME : ManagedEntityDefinition :=
  mkDef "VirtualEthernetInterfacePoint" 329 [GetMsg; SetMsg] 63488 (attrs [
    Uint16Field "ManagedEntityId" PointerAttributeType 0 0 [Read] false false false 0;
    ByteField "AdministrativeState" EnumerationAttributeType 32768 0 [Read; Write] false false false 1;
    ByteField "OperationalState" EnumerationAttributeType 16384 0 [Read] true true false 2;
    MultiByteField "InterdomainName" StringAttributeType 8192 25 (replicate 25 0) [Read; Write] false true false 3;
    Uint16Field "TcpUdpPointer" PointerAttributeType 4096 0 [Read; Write] false true false 4;
    Uint16Field "IanaAssignedPort" UnsignedIntegerAttributeType 2048 65535 [Read] false false false 5])
    CreatedByOnu UnknownSupport [0].

Definition vlantaggingfilterdataBME : ManagedEntityDefinition :=
  mkDef "VlanTaggingFilterData" 84 [Create; Delete; GetMsg; SetMsg] 57344 (attrs [
    Uint16Field "ManagedEntityId" PointerAttributeType 0 0 [Read; SetByCreate] false false false 0;
    MultiByteField "VlanFilterList" OctetsAttributeType 32768 24 (replicate 24 0) [Read; SetByCreate; Write] false false false 1;
    ByteField "ForwardOperation" EnumerationAttributeType 16384 0 [Read; SetByCreate; Write] false false false 2;
    ByteField "NumberOfEntries" UnsignedIntegerAttributeType 8192 0 [Read; SetByCreate; Write] false false false 3])
    CreatedByOlt UnknownSupport [].

Definition vlantaggingoperationconfigurationdataBME : ManagedEntityDefinition :=
  mkDef "VlanTaggingOperationConfigurationData" 78 [Create; Delete; GetMsg; SetMsg] 63488 (attrs [
    Uint16Field "ManagedEntityId" PointerAttributeType 0 0 [Read; SetByCreate] false false false 0;
    ByteField "UpstreamVlanTaggingOperationMode" EnumerationAttributeType 32768 0 [Read; SetByCreate; Write] false false false 1;
    Uint16Field "UpstreamVlanTagTciValue" UnsignedIntegerAttributeType 16384 0 [Read; SetByCreate; Write] false false false 2;
    ByteField "DownstreamVlanTaggingOperationMode" EnumerationAttributeType 8192 0 [Read; SetByCreate; Write] false false false 3;
    ByteField "AssociationType" EnumerationAttributeType 4096 0 [Read; SetByCreate; Write] false true false 4;
    Uint16Field "AssociatedMePointer" PointerAttributeType 2048 0 [Read; SetByCreate; Write] false true false 5])
    CreatedByOlt UnknownSupport [].

Definition voiceserviceprofileBME : ManagedEntityDefinition :=
  mkDef "VoiceServiceProfile" 58 [Create; Delete; GetMsg; GetNextMsg; SetMsg; SetTableMsg] 65532 (attrs [
    Uint16Field "ManagedEntityId" PointerAttributeType 0 0 [Read; SetByCreate] false false false 0;
    ByteField "AnnouncementType" UnsignedIntegerAttributeType 32768 0 [Read; SetByCreate; Write] false false false 1;
    Uint16Field "JitterTarget" UnsignedIntegerAttributeType 16384 0 [Read; SetByCreate; Write] false true false 2;
    Uint16Field "JitterBufferMax" UnsignedIntegerAttributeType 8192 0 [Read; SetByCreate; Write] false true false 3;
    ByteField "EchoCancelInd" UnsignedIntegerAttributeType 4096 0 [Read; SetByCreate; Write] false false false 4;
    Uint16Field "PstnProtocolVariant" UnsignedIntegerAttributeType 2048 0 [Read; SetByCreate; Write] false true false 5;
    Uint16Field "DtmfDigitLevels" UnsignedIntegerAttributeType 1024 0 [Read; SetByCreate; Write] false true false 6;
    Uint16Field "DtmfDigitDuration" UnsignedIntegerAttributeType 512 0 [Read; SetByCreate; Write] false true false 7;
    Uint16Field "HookFlashMinimumTime" UnsignedIntegerAttributeType 256 0 [Read; SetByCreate; Write] false true false 8;
    Uint16Field "HookFlashMaximumTime" UnsignedIntegerAttributeType 128 0 [Read; SetByCreate; Write] false true false 9;
    TableField "TonePatternTable" TableAttributeType 64 20 [Read; Write] false true false 10;
    TableField "ToneEventTable" TableAttributeType 32 7 [Read; Write] false true false 11;
    TableField "RingingPatternTable" TableAttributeType 16 5 [Read; Write] false true false 12;
    TableField "RingingEventTable" TableAttributeType 8 7 [Read; Write] false true false 13;
    Uint16Field "NetworkSpecificExtensionsPointer" UnsignedIntegerAttributeType 4 0 [Read; SetByCreate; Write] false true false 14])
    CreatedByOlt UnknownSupport [1].

Definition voipapplicationserviceprofileBME : ManagedEntityDefinition :=
  mkDef "VoipApplicationServiceProfile" 146 [Create; Delete; GetMsg; SetMsg] 65472 (attrs [
    Uint16Field "ManagedEntityId" PointerAttributeType 0 0 [Read; SetByCreate] false false false 0;
    ByteField "CidFeatures" UnsignedIntegerAttributeType 32768 0 [Read; SetByCreate; Write] false false false 1;
    ByteField "CallWaitingFeatures" UnsignedIntegerAttributeType 16384 0 [Read; SetByCreate; Write] false false false 2;
    Uint16Field "CallProgressOrTransferFeatures" UnsignedIntegerAttributeType 8192 0 [Read; SetByCreate; Write] false false false 3;
    Uint16Field "CallPresentationFeatures" UnsignedIntegerAttributeType 4096 0 [Read; SetByCreate; Write] false false false 4;
    ByteField "DirectConnectFeature" UnsignedIntegerAttributeType 2048 0 [Read; SetByCreate; Write] false false false 5;
    Uint16Field "DirectConnectUriPointer" UnsignedIntegerAttributeType 1024 0 [Read; SetByCreate; Write] false false false 6;
    Uint16Field "BridgedLineAgentUriPointer" UnsignedIntegerAttributeType 512 0 [Read; SetByCreate; Write] false false false 7;
    Uint16Field "ConferenceFactoryUriPointer" UnsignedIntegerAttributeType 256 0 [Read; SetByCreate; Write] false false false 8;
    Uint16Field "DialToneFeatureDelayWarmlineTimerNew" UnsignedIntegerAttributeType 128 0 [Read; Write] false true false 9;
    Uint16Field "IpHostPointer" UnsignedIntegerAttributeType 64 0 [Read; Write] false true false 10])
    CreatedByOlt UnknownSupport [].

Definition voipconfigdataBME : ManagedEntityDefinition :=
  mkDef "VoipConfigData" 138 [GetMsg; SetMsg] 65280 (attrs [
    Uint16Field "ManagedEntityId" PointerAttributeType 0 0 [Read] false false false 0;
    ByteField "AvailableSignallingProtocols" UnsignedIntegerAttributeType 32768 0 [Read] false false false 1;
    ByteField "SignallingProtocolUsed" UnsignedIntegerAttributeType 16384 0 [Read; Write] false false false 2;
    Uint32Field "AvailableVoipConfigurationMethods" UnsignedIntegerAttributeType 8192 0 [Read] false false false 3;
    ByteField "VoipConfigurationMethodUsed" UnsignedIntegerAttributeType 4096 0 [Read; Write] false false false 4;
    Uint16Field "VoipConfigurationAddressPointer" UnsignedIntegerAttributeType 2048 0 [Read; Write] false false false 5;
    ByteField "VoipConfigurationState" UnsignedIntegerAttributeType 1024 0 [Read] false false false 6;
    ByteField "RetrieveProfile" UnsignedIntegerAttributeType 512 0 [Write] false false false 7;
    MultiByteField "ProfileVersion" OctetsAttributeType 256 25 (replicate 25 0) [Read] true false false 8])
    CreatedByOnu UnknownSupport [0; 1; 2; 3; 4; 5; 6; 7; 8; 9; 10; 11; 12; 13; 14; 15].

Definition voipfeatureaccesscodesBME : ManagedEntityDefinition :=
  mkDef "VoipFeatureAccessCodes" 147 [Create; Delete; GetMsg; SetMsg] 65520 (attrs [
    Uint16Field "ManagedEntityId" PointerAttributeType 0 0 [Read] false false false 0;
    MultiByteField "CancelCallWaiting" OctetsAttributeType 32768 5 (replicate 5 0) [Read; Write] false true false 1;
    MultiByteField "CallHold" OctetsAttributeType 16384 5 (replicate 5 0) [Read; Write] false true false 2;
    MultiByteField "CallPark" OctetsAttributeType 8192 5 (replicate 5 0) [Read; Write] false true false 3;
    MultiByteField "CallerIdActivate" OctetsAttributeType 4096 5 (replicate 5 0) [Read; Write] false true false 4;
    MultiByteField "CallerIdDeactivate" OctetsAttributeType 2048 5 (replicate 5 0) [Read; Write] false true false 5;
    MultiByteField "DoNotDisturbActivation" OctetsAttributeType 1024 5 (replicate 5 0) [Read; Write] false true false 6;
    MultiByteField "DoNotDisturbDeactivation" OctetsAttributeType 512 5 (replicate 5 0) [Read; Write] false true false 7;
    MultiByteField "DoNotDisturbPinChange" OctetsAttributeType 256 5 (replicate 5 0) [Read; Write] false true false 8;
    MultiByteField "EmergencyServiceNumber" OctetsAttributeType 128 5 (replicate 5 0) [Read; Write] false true false 9;
    MultiByteField "IntercomService" OctetsAttributeType 64 5 (replicate 5 0) [Read; Write] false true false 10;
    MultiByteField "UnattendedBlindCallTransfer" OctetsAttributeType 32 5 (replicate 5 0) [Read; Write] false true false 11;
    MultiByteField "AttendedCallTransfer" OctetsAttributeType 16 5 (replicate 5 0) [Read; Write] false true false 12])
    CreatedByOlt UnknownSupport [].

Definition voiplinestatusBME : ManagedEntityDefinition :=
  mkDef "VoipLineStatus" 141 [GetMsg] 65408 (attrs [
    Uint16Field "ManagedEntityId" PointerAttributeType 0 0 [Read] false false false 0;
    Uint16Field "VoipCodecUsed" UnsignedIntegerAttributeType 32768 0 [Read] false false false 1;
    ByteField "VoipVoiceServerStatus" UnsignedIntegerAttributeType 16384 0 [Read] false false false 2;
    ByteField "VoipPortSessionType" UnsignedIntegerAttributeType 8192 0 [Read] false false false 3;
    Uint16Field "VoipCall1PacketPeriod" UnsignedIntegerAttributeType 4096 0 [Read] false false false 4;
    Uint16Field "VoipCall2PacketPeriod" UnsignedIntegerAttributeType 2048 0 [Read] false false false 5;
    MultiByteField "VoipCall1DestAddr" OctetsAttributeType 1024 25 (replicate 25 0) [Read] false false false 6;
    MultiByteField "VoipCall2DestAddr" OctetsAttributeType 512 25 (replicate 25 0) [Read] false false false 7;
    ByteField "VoipLineState" UnsignedIntegerAttributeType 256 0 [Read] false true false 8;
    ByteField "EmergencyCallStatus" UnsignedIntegerAttributeType 128 0 [Read] true true false 9])
    CreatedByOnu UnknownSupport [].

Definition voipmediaprofileBME : ManagedEntityDefinition :=
  mkDef "VoipMediaProfile" 142 [Create; Delete; GetMsg; SetMsg] 65535 (attrs [
    Uint16Field "ManagedEntityId" PointerAttributeType 0 0 [Read; SetByCreate] false false false 0;
    ByteField "FaxMode" UnsignedIntegerAttributeType 32768 0 [Read; SetByCreate; Write] false false false 1;
    Uint16Field "VoiceServiceProfilePointer" UnsignedIntegerAttributeType 16384 0 [Read; SetByCreate; Write] false false false 2;
    ByteField "CodecSelection1StOrder" UnsignedIntegerAttributeType 8192 0 [Read; SetByCreate; Write] false false false 3;
    ByteField "PacketPeriodSelection1StOrder" UnsignedIntegerAttributeType 4096 0 [Read; SetByCreate; Write] false false false 4;
    ByteField "SilenceSuppression1StOrder" UnsignedIntegerAttributeType 2048 0 [Read; SetByCreate; Write] false false false 5;
    ByteField "CodecSelection2NdOrder" UnsignedIntegerAttributeType 1024 0 [Read; SetByCreate; Write] false false false 6;
    ByteField "PacketPeriodSelection2NdOrder" UnsignedIntegerAttributeType 512 0 [Read; SetByCreate; Write] false false false 7;
    ByteField "SilenceSuppression2NdOrder" UnsignedIntegerAttributeType 256 0 [Read; SetByCreate; Write] false false false 8;
    ByteField "CodecSelection3RdOrder" UnsignedIntegerAttributeType 128 0 [Read; SetByCreate; Write] false false false 9;
    ByteField "PacketPeriodSelection3RdOrder" UnsignedIntegerAttributeType 64 0 [Read; SetByCreate; Write] false false false 10;
    ByteField "SilenceSuppression3RdOrder" UnsignedIntegerAttributeType 32 0 [Read; SetByCreate; Write] false false false 11;
    ByteField "CodecSelection4ThOrder" UnsignedIntegerAttributeType 16 0 [Read; SetByCreate; Write] false false false 12;
    ByteField "PacketPeriodSelection4ThOrder" UnsignedIntegerAttributeType 8 0 [Read; SetByCreate; Write] false false false 13;
    ByteField "SilenceSuppression4ThOrder" UnsignedIntegerAttributeType 4 0 [Read; SetByCreate; Write] false false false 14;
    ByteField "OobDtmf" UnsignedIntegerAttributeType 2 0 [Read; SetByCreate; Write] false false false 15;
    Uint16Field "RtpProfilePointer" UnsignedIntegerAttributeType 1 0 [Read; SetByCreate; Write] false false false 16])
    CreatedByOlt UnknownSupport [].

Definition voipvoicectpBME : ManagedEntityDefinition :=
  mkDef "VoipVoiceCtp" 139 [Create; Delete; GetMsg; SetMsg] 61440 (attrs [
    Uint16Field "ManagedEntityId" PointerAttributeType 0 0 [Read; SetByCreate] false false false 0;
    Uint16Field "UserProtocolPointer" UnsignedIntegerAttributeType 32768 0 [Read; SetByCreate; Write] false false false 1;
    Uint16Field "PptpPointer" UnsignedIntegerAttributeType 16384 0 [Read; SetByCreate; Write] false false false 2;
    Uint16Field "VOIpMediaProfilePointer" UnsignedIntegerAttributeType 8192 0 [Read; SetByCreate; Write] false false false 3;
    ByteField "SignallingCode" UnsignedIntegerAttributeType 4096 0 [Read; SetByCreate; Write] false false false 4])
    CreatedByOlt UnknownSupport [].

Definition vpnetworkctpBME : ManagedEntityDefinition :=
  mkDef "VpNetworkCtp" 269 [Create; Delete; GetMsg; SetMsg] 65024 (attrs [
    Uint16Field "ManagedEntityId" PointerAttributeType 0 0 [Read; SetByCreate] false false false 0;
    Uint16Field "VpiValue" UnsignedIntegerAttributeType 32768 0 [Read; SetByCreate; Write] false false false 1;
    Uint16Field "UniPointer" UnsignedIntegerAttributeType 16384 0 [Read; SetByCreate; Write] false false false 2;
    ByteField "Direction" UnsignedIntegerAttributeType 8192 0 [Read; SetByCreate; Write] false false false 3;
    Uint16Field "Deprecated1" UnsignedIntegerAttributeType 4096 0 [Read; SetByCreate; Write] false false true 4;
    Uint16Field "Deprecated2" UnsignedIntegerAttributeType 2048 0 [Read; SetByCreate; Write] false false true 5;
    Uint16Field "Deprecated3" UnsignedIntegerAttributeType 1024 0 [Read; SetByCreate; Write] false true true 6;
    ByteField "Deprecated4" UnsignedIntegerAttributeType 512 0 [Read] false true true 7])
    CreatedByOlt UnknownSupport [0; 1; 2; 3; 4; 5].

Definition vpperformancemonitoringhistorydataBME : ManagedEntityDefinition :=
  mkDef "VpPerformanceMonitoringHistoryData" 62 [Create; Delete; GetMsg; SetMsg; GetCurrentData] 65280 (attrs [
    Uint16Field "ManagedEntityId" PointerAttributeType 0 0 [Read; SetByCreate] false false false 0;
    ByteField "IntervalEndTime" UnsignedIntegerAttributeType 32768 0 [Read] false false false 1;
    Uint16Field "ThresholdData12Id" UnsignedIntegerAttributeType 16384 0 [Read; SetByCreate; Write] false false false 2;
    Uint16Field "LostC01Cells" CounterAttributeType 8192 0 [Read] false false false 3;
    Uint16Field "LostC0Cells" CounterAttributeType 4096 0 [Read] false false false 4;
    Uint16Field "MisinsertedCells" CounterAttributeType 2048 0 [Read] false false false 5;
    MultiByteField "TransmittedC01Cells" CounterAttributeType 1024 5 (replicate 5 0) [Read] false false false 6;
    MultiByteField "TransmittedC0Cells" CounterAttributeType 512 5 (replicate 5 0) [Read] false false false 7;
    Uint16Field "ImpairedBlock" CounterAttributeType 256 0 [Read] false false false 8])
    CreatedByOlt UnknownSupport [0; 1; 2; 3].

Definition xdslchannelconfigurationprofileBME : ManagedEntityDefinition :=
  mkDef "XdslChannelConfigurationProfile" 107 [Create; Delete; GetMsg; SetMsg] 65534 (attrs [
    Uint16Field "ManagedEntityId" PointerAttributeType 0 0 [Read; SetByCreate] false false false 0;
    Uint32Field "MinimumDataRate" UnsignedIntegerAttributeType 32768 0 [Read; SetByCreate; Write] false false false 1;
    Uint32Field "MaximumDataRate" UnsignedIntegerAttributeType 16384 0 [Read; SetByCreate; Write] false false false 2;
    ByteField "RateAdaptationRatio" UnsignedIntegerAttributeType 8192 0 [Read; SetByCreate; Write] false true false 3;
    ByteField "MaximumInterleavingDelay" UnsignedIntegerAttributeType 4096 0 [Read; SetByCreate; Write] false false false 4;
    Uint32Field "DataRateThresholdUpshift" UnsignedIntegerAttributeType 2048 0 [Read; SetByCreate; Write] false false false 5;
    Uint32Field "DataRateThresholdDownshift" UnsignedIntegerAttributeType 1024 0 [Read; SetByCreate; Write] false false false 6;
    Uint32Field "MinimumReservedDataRate" UnsignedIntegerAttributeType 512 0 [Read; SetByCreate; Write] false true false 7;
    Uint32Field "MinimumDataRateInLowPowerState" UnsignedIntegerAttributeType 256 0 [Read; SetByCreate; Write] false false false 8;
    ByteField "MinimumImpulseNoiseProtection" UnsignedIntegerAttributeType 128 0 [Read; SetByCreate; Write] false false false 9;
    ByteField "MaximumBitErrorRatio" UnsignedIntegerAttributeType 64 0 [Read; SetByCreate; Write] false false false 10;
    ByteField "MinimumImpulseNoiseProtection8Khz" UnsignedIntegerAttributeType 32 0 [Read; Write] false false false 11;
    ByteField "MaximumDelayVariation" UnsignedIntegerAttributeType 16 0 [Read; Write] false false false 12;
    ByteField "ChannelInitializationPolicySelection" UnsignedIntegerAttributeType 8 0 [Read; Write] false true false 13;
    Uint32Field "MinimumSosBitRateDownstream" UnsignedIntegerAttributeType 4 0 [Read; Write] false true false 14;
    Uint32Field "MinimumSosBitRateUpstream" UnsignedIntegerAttributeType 2 0 [Read; Write] false true false 15])
    CreatedByOlt UnknownSupport [].

Definition xdslchannelconfigurationprofilepart2BME : ManagedEntityDefinition :=
  mkDef "XdslChannelConfigurationProfilePart2" 412 [Create; Delete; GetMsg; SetMsg] 65528 (attrs [
    Uint16Field "ManagedEntityId" PointerAttributeType 0 0 [Read; SetByCreate] false false false 0;
    Uint32Field "MinimumExpectedThroughputForRetransmissionMinetrRtx" UnsignedIntegerAttributeType 32768 0 [Read; Write] false false false 1;
    Uint32Field "MaximumExpectedThroughputForRetransmissionMaxetrRtx" UnsignedIntegerAttributeType 16384 0 [Read; Write] false false false 2;
    Uint32Field "MaximumNetDataRateForRetransmissionMaxndrRtx" UnsignedIntegerAttributeType 8192 0 [Read; Write] false false false 3;
    ByteField "MaximumDelayForRetransmissionDelaymaxRtx" UnsignedIntegerAttributeType 4096 0 [Read; Write] false false false 4;
    ByteField "MinimumDelayForRetransmissionDelayminRtx" UnsignedIntegerAttributeType 2048 0 [Read; Write] false false false 5;
    ByteField "MinimumImpulseNoiseProtectionAgainstSingleHighImpulseNoiseEventShineForRetransmissionInpminShineRtx" UnsignedIntegerAttributeType 1024 0 [Read; Write] false false false 6;
    ByteField "MinimumImpulseNoiseProtectionAgainstShineForRetransmissionForSystemsUsing8625KhzSubcarrierSpacingInpmin8ShineRtx" UnsignedIntegerAttributeType 512 0 [Read; Write] false false false 7;
    ByteField "ShineratioRtx" UnsignedIntegerAttributeType 256 0 [Read; Write] false false false 8;
    ByteField "MinimumImpulseNoiseProtectionAgainstReinForRetransmissionInpminReinRtx" UnsignedIntegerAttributeType 128 0 [Read; Write] false false false 9;
    ByteField "MinimumImpulseNoiseProtectionAgainstReinForRetransmissionForSystemsUsing8625KhzSubcarrierSpacingInpmin8ReinRtx" UnsignedIntegerAttributeType 64 0 [Read; Write] false false false 10;
    ByteField "ReinInterArrivalTimeForRetransmissionIatReinRtx" UnsignedIntegerAttributeType 32 0 [Read; Write] false false false 11;
    Uint32Field "TargetNetDataRateTargetNdr" UnsignedIntegerAttributeType 16 0 [Read; Write] false false false 12;
    Uint32Field "TargetExpectedThroughputForRetransmissionTargetEtr" UnsignedIntegerAttributeType 8 0 [Read; Write] false false false 13])
    CreatedByOlt UnknownSupport [].

Definition xdslchanneldownstreamstatusdataBME : ManagedEntityDefinition :=
  mkDef "XdslChannelDownstreamStatusData" 102 [GetMsg] 65504 (attrs [
    Uint16Field "ManagedEntityId" PointerAttributeType 0 0 [Read] false false false 0;
    ByteField "ActualInterleavingDelay" UnsignedIntegerAttributeType 32768 0 [Read] false false false 1;
    Uint32Field "ActualDataRate" UnsignedIntegerAttributeType 16384 0 [Read] false false false 2;
    Uint32Field "PreviousDataRate" UnsignedIntegerAttributeType 8192 0 [Read] false false false 3;
    ByteField "ActualImpulseNoiseProtection" UnsignedIntegerAttributeType 4096 0 [Read] false false false 4;
    ByteField "ActualSizeOfReedSolomonCodeword" UnsignedIntegerAttributeType 2048 0 [Read] false false false 5;
    ByteField "ActualNumberOfReedSolomonRedundancyBytes" UnsignedIntegerAttributeType 1024 0 [Read] false false false 6;
    Uint16Field "ActualNumberOfBitsPerSymbol" UnsignedIntegerAttributeType 512 0 [Read] false false false 7;
    Uint16Field "ActualInterleavingDepth" UnsignedIntegerAttributeType 256 0 [Read] false false false 8;
    ByteField "ActualInterleavingBlockLength" UnsignedIntegerAttributeType 128 0 [Read] false false false 9;
    ByteField "ActualLatencyPath" UnsignedIntegerAttributeType 64 0 [Read] false false false 10;
    ByteField "ActualImpulseNoiseProtectionAgainstRepetitiveElectricalImpulseNoiseActinpRein" UnsignedIntegerAttributeType 32 0 [Read] false true false 11])
    CreatedByOnu UnknownSupport [].

Definition xdslchannelupstreamstatusdataBME : ManagedEntityDefinition :=
  mkDef "XdslChannelUpstreamStatusData" 103 [GetMsg] 65504 (attrs [
    Uint16Field "ManagedEntityId" PointerAttributeType 0 0 [Read] false false false 0;
    ByteField "ActualInterleavingDelay" UnsignedIntegerAttributeType 32768 0 [Read] false false false 1;
    Uint32Field "ActualDataRate" UnsignedIntegerAttributeType 16384 0 [Read] false false false 2;
    Uint32Field "PreviousDataRate" UnsignedIntegerAttributeType 8192 0 [Read] false false false 3;
    ByteField "ActualImpulseNoiseProtection" UnsignedIntegerAttributeType 4096 0 [Read] false false false 4;
    ByteField "ImpulseNoiseProtectionReportingMode" UnsignedIntegerAttributeType 2048 0 [Read] false false false 5;
    ByteField "ActualSizeOfReedSolomonCodeword" UnsignedIntegerAttributeType 1024 0 [Read] false false false 6;
    ByteField "ActualNumberOfReedSolomonRedundancyBytes" UnsignedIntegerAttributeType 512 0 [Read] false false false 7;
    Uint16Field "ActualNumberOfBitsPerSymbol" UnsignedIntegerAttributeType 256 0 [Read] false false false 8;
    Uint16Field "ActualInterleavingDepth" UnsignedIntegerAttributeType 128 0 [Read] false false false 9;
    ByteField "ActualInterleavingBlockLength" UnsignedIntegerAttributeType 64 0 [Read] false false false 10;
    ByteField "ActualLatencyPath" UnsignedIntegerAttributeType 32 0 [Read] false false false 11])
    CreatedByOnu UnknownSupport [].

Definition xdsldownstreamrfibandsprofileBME : ManagedEntityDefinition :=
  mkDef "XdslDownstreamRfiBandsProfile" 111 [Create; Delete; GetMsg; GetNextMsg; SetMsg; SetTableMsg] 49152 (attrs [
    Uint16Field "ManagedEntityId" PointerAttributeType 0 0 [Read; SetByCreate] false false false 0;
    TableField "DownstreamRfiBandsTable" TableAttributeType 32768 5 [Read; Write] false false false 1;
    ByteField "BandsValid" UnsignedIntegerAttributeType 16384 0 [Read; Write] false false false 2])
    CreatedByOlt UnknownSupport [].

Definition xdslimpulsenoisemonitorperformancemonitoringhistorydataBME : ManagedEntityDefinition :=
  mkDef "XdslImpulseNoiseMonitorPerformanceMonitoringHistoryData" 324 [Create; Delete; GetMsg; GetNextMsg; SetMsg; GetCurrentData] 65280 (attrs [
    Uint16Field "ManagedEntityId" PointerAttributeType 0 0 [Read; SetByCreate] false false false 0;
    ByteField "IntervalEndTime" UnsignedIntegerAttributeType 32768 0 [Read] false false false 1;
    Uint16Field "ThresholdData12Id" UnsignedIntegerAttributeType 16384 0 [Read; SetByCreate; Write] false false false 2;
    TableField "InmInpeqHistogramTable" TableAttributeType 8192 2 [Read] false true false 3;
    Uint16Field "InmTotalMeasurement" CounterAttributeType 4096 0 [Read] false true false 4;
    Uint16Field "InmIatHistogram" CounterAttributeType 2048 0 [Read] false true false 5;
    TableField "InmInpeqHistogramLfeTable" TableAttributeType 1024 2 [Read] false true false 6;
    Uint16Field "InmTotalMeasurementLfe" CounterAttributeType 512 0 [Read] false true false 7;
    Uint16Field "InmIatHistogramLfe" CounterAttributeType 256 0 [Read] false true false 8])
    CreatedByOlt UnknownSupport [].

Definition xdsllineconfigurationprofilepart2BME : ManagedEntityDefinition :=
  mkDef "XdslLineConfigurationProfilePart2" 105 [Create; Delete; GetMsg; SetMsg] 65534 (attrs [
    Uint16Field "ManagedEntityId" PointerAttributeType 0 0 [Read; SetByCreate] false false false 0;
    Uint16Field "DownstreamMinimumTimeIntervalForUpshiftRateAdaptation" UnsignedIntegerAttributeType 32768 0 [Read; SetByCreate; Write] false true false 1;
    Uint16Field "UpstreamMinimumTimeIntervalForUpshiftRateAdaptation" UnsignedIntegerAttributeType 16384 0 [Read; SetByCreate; Write] false true false 2;
    Uint16Field "DownstreamDownshiftNoiseMargin" UnsignedIntegerAttributeType 8192 0 [Read; SetByCreate; Write] false true false 3;
    Uint16Field "UpstreamDownshiftNoiseMargin" UnsignedIntegerAttributeType 4096 0 [Read; SetByCreate; Write] false true false 4;
    Uint16Field "DownstreamMinimumTimeIntervalForDownshiftRateAdaptation" UnsignedIntegerAttributeType 2048 0 [Read; SetByCreate; Write] false true false 5;
    Uint16Field "UpstreamMinimumTimeIntervalForDownshiftRateAdaptation" UnsignedIntegerAttributeType 1024 0 [Read; SetByCreate; Write] false true false 6;
    ByteField "XtuImpedanceStateForced" UnsignedIntegerAttributeType 512 0 [Read; SetByCreate; Write] false true false 7;
    ByteField "L0Time" UnsignedIntegerAttributeType 256 0 [Read; SetByCreate; Write] false false false 8;
    ByteField "L2Time" UnsignedIntegerAttributeType 128 0 [Read; SetByCreate; Write] false false false 9;
    Uint16Field "DownstreamMaximumNominalPowerSpectralDensity" UnsignedIntegerAttributeType 64 0 [Read; SetByCreate; Write] false false false 10;
    Uint16Field "UpstreamMaximumNominalPowerSpectralDensity" UnsignedIntegerAttributeType 32 0 [Read; SetByCreate; Write] false false false 11;
    ByteField "DownstreamMaximumNominalAggregateTransmitPower" UnsignedIntegerAttributeType 16 0 [Read; SetByCreate; Write] false false false 12;
    ByteField "UpstreamMaximumNominalAggregateTransmitPower" UnsignedIntegerAttributeType 8 0 [Read; SetByCreate; Write] false false false 13;
    Uint16Field "UpstreamMaximumAggregateReceivePower" UnsignedIntegerAttributeType 4 0 [Read; SetByCreate; Write] false false false 14;
    ByteField "Vdsl2TransmissionSystemEnabling" UnsignedIntegerAttributeType 2 0 [Read; SetByCreate; Write] false true false 15])
    CreatedByOlt UnknownSupport [].

Definition xdsllineconfigurationprofilepart3BME : ManagedEntityDefinition :=
  mkDef "XdslLineConfigurationProfilePart3" 106 [Create; Delete; GetMsg; SetMsg] 65535 (attrs [
    Uint16Field "ManagedEntityId" PointerAttributeType 0 0 [Read; SetByCreate] false false false 0;
    ByteField "LoopDiagnosticsModeForcedLdsf" UnsignedIntegerAttributeType 32768 0 [Read; SetByCreate; Write] false false false 1;
    ByteField "AutomodeColdStartForced" UnsignedIntegerAttributeType 16384 0 [Read; SetByCreate; Write] false false false 2;
    ByteField "L2Atpr" UnsignedIntegerAttributeType 8192 0 [Read; SetByCreate; Write] false false false 3;
    ByteField "L2Atprt" UnsignedIntegerAttributeType 4096 0 [Read; SetByCreate; Write] false false false 4;
    ByteField "ForceInpDownstream" UnsignedIntegerAttributeType 2048 0 [Read; Write] false false false 5;
    ByteField "ForceInpUpstream" UnsignedIntegerAttributeType 1024 0 [Read; Write] false false false 6;
    ByteField "UpdateRequestFlagForNearEndTestParameters" UnsignedIntegerAttributeType 512 0 [Read; Write] true true false 7;
    ByteField "UpdateRequestFlagForFarEndTestParameters" UnsignedIntegerAttributeType 256 0 [Read; Write] true true false 8;
    Uint16Field "InmInterArrivalTimeOffsetUpstream" UnsignedIntegerAttributeType 128 0 [Read; Write] false true false 9;
    ByteField "InmInterArrivalTimeStepUpstream" UnsignedIntegerAttributeType 64 0 [Read; Write] false true false 10;
    ByteField "InmClusterContinuationValueUpstream" UnsignedIntegerAttributeType 32 0 [Read; Write] false true false 11;
    ByteField "InmEquivalentInpModeUpstream" UnsignedIntegerAttributeType 16 0 [Read; Write] false true false 12;
    Uint16Field "InmInterArrivalTimeOffsetDownstream" UnsignedIntegerAttributeType 8 0 [Read; Write] false true false 13;
    ByteField "InmInterArrivalTimeStepDownstream" UnsignedIntegerAttributeType 4 0 [Read; Write] false true false 14;
    ByteField "InmClusterContinuationValueDownstream" UnsignedIntegerAttributeType 2 0 [Read; Write] false true false 15;
    ByteField "InmEquivalentInpModeDownstream" UnsignedIntegerAttributeType 1 0 [Read; Write] false true false 16])
    CreatedByOlt UnknownSupport [].

Definition xdsllineinventoryandstatusdatapart1BME : ManagedEntityDefinition :=
  mkDef "XdslLineInventoryAndStatusDataPart1" 100 [GetMsg] 65534 (attrs [
    Uint16Field "ManagedEntityId" PointerAttributeType 0 0 [Read] false false false 0;
    Uint64Field "XtuCG9941VendorId" UnsignedIntegerAttributeType 32768 0 [Read] false false false 1;
    Uint64Field "XtuRG9941VendorId" UnsignedIntegerAttributeType 16384 0 [Read] false false false 2;
    Uint64Field "XtuCSystemVendorId" UnsignedIntegerAttributeType 8192 0 [Read] false false false 3;
    Uint64Field "XtuRSystemVendorId" UnsignedIntegerAttributeType 4096 0 [Read] false false false 4;
    MultiByteField "XtuCVersionNumber" OctetsAttributeType 2048 16 (replicate 16 0) [Read] false false false 5;
    MultiByteField "XtuRVersionNumber" OctetsAttributeType 1024 16 (replicate 16 0) [Read] false false false 6;
    MultiByteField "XtuCSerialNumberPart1" OctetsAttributeType 512 16 (replicate 16 0) [Read] false false false 7;
    MultiByteField "XtuCSerialNumberPart2" OctetsAttributeType 256 16 (replicate 16 0) [Read] false false false 8;
    MultiByteField "XtuRSerialNumberPart1" OctetsAttributeType 128 16 (replicate 16 0) [Read] false false false 9;
    MultiByteField "XtuRSerialNumberPart2" OctetsAttributeType 64 16 (replicate 16 0) [Read] false false false 10;
    Uint32Field "XtuCSelfTestResults" UnsignedIntegerAttributeType 32 0 [Read] false false false 11;
    Uint32Field "XtuRSelfTestResults" UnsignedIntegerAttributeType 16 0 [Read] false false false 12;
    MultiByteField "XtuCTransmissionSystemCapability" OctetsAttributeType 8 7 (replicate 7 0) [Read] false false false 13;
    MultiByteField "XtuRTransmissionSystemCapability" OctetsAttributeType 4 7 (replicate 7 0) [Read] false false false 14;
    ByteField "InitializationSuccessFailureCause" UnsignedIntegerAttributeType 2 0 [Read] false false false 15])
    CreatedByOnu UnknownSupport [].

Definition xdsllineinventoryandstatusdatapart2BME : ManagedEntityDefinition :=
  mkDef "XdslLineInventoryAndStatusDataPart2" 101 [GetMsg] 65535 (attrs [
    Uint16Field "ManagedEntityId" PointerAttributeType 0 0 [Read] false false false 0;
    MultiByteField "XdslTransmissionSystem" OctetsAttributeType 32768 7 (replicate 7 0) [Read] false false false 1;
    ByteField "LinePowerManagementState" UnsignedIntegerAttributeType 16384 0 [Read] false false false 2;
    Uint16Field "DownstreamLineAttenuation" UnsignedIntegerAttributeType 8192 0 [Read] false false false 3;
    Uint16Field "UpstreamLineAttenuation" UnsignedIntegerAttributeType 4096 0 [Read] false false false 4;
    Uint16Field "DownstreamSignalAttenuation" UnsignedIntegerAttributeType 2048 0 [Read] false false false 5;
    Uint16Field "UpstreamSignalAttenuation" UnsignedIntegerAttributeType 1024 0 [Read] false false false 6;
    Uint16Field "DownstreamSnrRatioMargin" UnsignedIntegerAttributeType 512 0 [Read] false false false 7;
    Uint16Field "UpstreamSnrMargin" UnsignedIntegerAttributeType 256 0 [Read] false false false 8;
    Uint32Field "DownstreamMaximumAttainableDataRate" UnsignedIntegerAttributeType 128 0 [Read] false false false 9;
    Uint32Field "UpstreamMaximumAttainableDataRate" UnsignedIntegerAttributeType 64 0 [Read] false false false 10;
    Uint16Field "DownstreamActualPowerSpectrumDensity" UnsignedIntegerAttributeType 32 0 [Read] false false false 11;
    Uint16Field "UpstreamActualPowerSpectrumDensity" UnsignedIntegerAttributeType 16 0 [Read] false false false 12;
    Uint16Field "DownstreamActualAggregateTransmitPower" UnsignedIntegerAttributeType 8 0 [Read] false false false 13;
    Uint16Field "UpstreamActualAggregateTransmitPower" UnsignedIntegerAttributeType 4 0 [Read] false false false 14;
    ByteField "InitializationLastStateTransmittedDownstream" UnsignedIntegerAttributeType 2 0 [Read] false false false 15;
    ByteField "InitializationLastStateTransmittedUpstream" UnsignedIntegerAttributeType 1 0 [Read] false false false 16])
    CreatedByOnu UnknownSupport [].

Definition xdsllineinventoryandstatusdatapart5BME : ManagedEntityDefinition :=
  mkDef "XdslLineInventoryAndStatusDataPart5" 325 [GetMsg] 65535 (attrs [
    Uint16Field "ManagedEntityId" PointerAttributeType 0 0 [Read] false false false 0;
    Uint16Field "FextDownstreamSnrMargin" UnsignedIntegerAttributeType 32768 0 [Read] false false false 1;
    Uint16Field "NextDownstreamSnrMargin" UnsignedIntegerAttributeType 16384 0 [Read] false false false 2;
    Uint16Field "FextUpstreamSnrMargin" UnsignedIntegerAttributeType 8192 0 [Read] false false false 3;
    Uint16Field "NextUpstreamSnrMargin" UnsignedIntegerAttributeType 4096 0 [Read] false false false 4;
    Uint32Field "FextDownstreamMaximumAttainableDataRate" UnsignedIntegerAttributeType 2048 0 [Read] false false false 5;
    Uint32Field "NextDownstreamMaximumAttainableDataRate" UnsignedIntegerAttributeType 1024 0 [Read] false false false 6;
    Uint32Field "FextUpstreamMaximumAttainableDataRate" UnsignedIntegerAttributeType 512 0 [Read] false false false 7;
    Uint32Field "NextUpstreamMaximumAttainableDataRate" UnsignedIntegerAttributeType 256 0 [Read] false false false 8;
    Uint16Field "FextDownstreamActualPowerSpectralDensity" UnsignedIntegerAttributeType 128 0 [Read] false false false 9;
    Uint16Field "NextDownstreamActualPowerSpectralDensity" UnsignedIntegerAttributeType 64 0 [Read] false false false 10;
    Uint16Field "FextUpstreamActualPowerSpectralDensity" UnsignedIntegerAttributeType 32 0 [Read] false false false 11;
    Uint16Field "NextUpstreamActualPowerSpectralDensity" UnsignedIntegerAttributeType 16 0 [Read] false false false 12;
    Uint16Field "FextDownstreamActualAggregateTransmitPower" UnsignedIntegerAttributeType 8 0 [Read] false false false 13;
    Uint16Field "NextDownstreamActualAggregateTransmitPower" UnsignedIntegerAttributeType 4 0 [Read] false false false 14;
    Uint16Field "FextUpstreamActualAggregateTransmitPower" UnsignedIntegerAttributeType 2 0 [Read] false false false 15;
    Uint16Field "NextUpstreamActualAggregateTransmitPower" UnsignedIntegerAttributeType 1 0 [Read] false false false 16])
    CreatedByOnu UnknownSupport [].

Definition xdsllineinventoryandstatusdatapart8BME : ManagedEntityDefinition :=
  mkDef "XdslLineInventoryAndStatusDataPart8" 414 [GetMsg] 64512 (attrs [
    Uint16Field "ManagedEntityId" PointerAttributeType 0 0 [Read] false false false 0;
    ByteField "RetransmissionUsedDownstreamRtxUsedds" UnsignedIntegerAttributeType 32768 0 [Read] false false false 1;
    ByteField "RetransmissionUsedUpstreamRtxUsedus" UnsignedIntegerAttributeType 16384 0 [Read] false false false 2;
    MultiByteField "DateTimeStampingOfNearEndTestParametersStampTestNe" OctetsAttributeType 8192 7 (replicate 7 0) [Read] false true false 3;
    MultiByteField "DateTimeStampingOfFarEndTestParametersStampTestFe" OctetsAttributeType 4096 7 (replicate 7 0) [Read] false true false 4;
    MultiByteField "DateTimeStampingOfLastSuccessfulDownstreamOlrOperationStampOlrDs" OctetsAttributeType 2048 7 (replicate 7 0) [Read] false true false 5;
    MultiByteField "DateTimeStampingOfLastSuccessfulUpstreamOlrOperationStampOlrUs" OctetsAttributeType 1024 7 (replicate 7 0) [Read] false true false 6])
    CreatedByOnu UnknownSupport [].

Definition xdslpsdmaskprofileBME : ManagedEntityDefinition :=
  mkDef "XdslPsdMaskProfile" 110 [Create; Delete; GetMsg; GetNextMsg; SetMsg; SetTableMsg] 49152 (attrs [
    Uint16Field "ManagedEntityId" PointerAttributeType 0 0 [Read; SetByCreate] false false false 0;
    TableField "PsdMaskTable" TableAttributeType 32768 4 [Read; Write] false false false 1;
    ByteField "MaskValid" UnsignedIntegerAttributeType 16384 0 [Read; Write] false false false 2])
    CreatedByOlt UnknownSupport [].

Definition xdslsubcarriermaskingdownstreamprofileBME : ManagedEntityDefinition :=
  mkDef "XdslSubcarrierMaskingDownstreamProfile" 108 [Create; Delete; GetMsg; SetMsg] 63488 (attrs [
    Uint16Field "ManagedEntityId" PointerAttributeType 0 0 [Read; SetByCreate] false false false 0;
    MultiByteField "DownstreamSubcarrierMask1" OctetsAttributeType 32768 16 (replicate 16 0) [Read; SetByCreate; Write] false false false 1;
    MultiByteField "DownstreamSubcarrierMask2" OctetsAttributeType 16384 16 (replicate 16 0) [Read; Write] false false false 2;
    MultiByteField "DownstreamSubcarrierMask3" OctetsAttributeType 8192 16 (replicate 16 0) [Read; Write] false false false 3;
    MultiByteField "DownstreamSubcarrierMask4" OctetsAttributeType 4096 16 (replicate 16 0) [Read; Write] false false false 4;
    ByteField "MaskValid" UnsignedIntegerAttributeType 2048 0 [Read; Write] false false false 5])
    CreatedByOlt UnknownSupport [].

Definition xdslsubcarriermaskingupstreamprofileBME : ManagedEntityDefinition :=
  mkDef "XdslSubcarrierMaskingUpstreamProfile" 109 [Create; Delete; GetMsg; SetMsg] 32768 (attrs [
    Uint16Field "ManagedEntityId" PointerAttributeType 0 0 [Read; SetByCreate] false false false 0;
    Uint64Field "UpstreamSubcarrierMask" UnsignedIntegerAttributeType 32768 0 [Read; SetByCreate; Write] false false false 1])
    CreatedByOlt UnknownSupport [].

Definition xdslxtucchannelperformancemonitoringhistorydataBME : ManagedEntityDefinition :=
  mkDef "XdslXtuCChannelPerformanceMonitoringHistoryData" 114 [Create; Delete; GetMsg; SetMsg; GetCurrentData] 65280 (attrs [
    Uint16Field "ManagedEntityId" PointerAttributeType 0 0 [Read; SetByCreate] false false false 0;
    ByteField "IntervalEndTime" UnsignedIntegerAttributeType 32768 0 [Read] false false false 1;
    Uint16Field "ThresholdData12Id" UnsignedIntegerAttributeType 16384 0 [Read; SetByCreate; Write] false false false 2;
    Uint32Field "CorrectedBlocks" CounterAttributeType 8192 0 [Read] false false false 3;
    Uint32Field "UncorrectedBlocks" CounterAttributeType 4096 0 [Read] false false false 4;
    Uint32Field "TransmittedBlocks" CounterAttributeType 2048 0 [Read] false false false 5;
    Uint32Field "ReceivedBlocks" CounterAttributeType 1024 0 [Read] false false false 6;
    Uint16Field "CodeViolations" CounterAttributeType 512 0 [Read] false false false 7;
    Uint16Field "ForwardErrorCorrections" CounterAttributeType 256 0 [Read] false false false 8])
    CreatedByOlt UnknownSupport [0; 1; 2; 3].

Definition xdslxtucperformancemonitoringhistorydataBME : ManagedEntityDefinition :=
  mkDef "XdslXtuCPerformanceMonitoringHistoryData" 112 [Create; Delete; GetMsg; SetMsg; GetCurrentData] 65535 (attrs [
    Uint16Field "ManagedEntityId" PointerAttributeType 0 0 [Read; SetByCreate] false false false 0;
    ByteField "IntervalEndTime" UnsignedIntegerAttributeType 32768 0 [Read] false false false 1;
    Uint16Field "ThresholdData12Id" UnsignedIntegerAttributeType 16384 0 [Read; SetByCreate; Write] false false false 2;
    Uint16Field "LossOfFrameSeconds" CounterAttributeType 8192 0 [Read] false false false 3;
    Uint16Field "LossOfSignalSeconds" CounterAttributeType 4096 0 [Read] false false false 4;
    Uint16Field "LossOfLinkSeconds" CounterAttributeType 2048 0 [Read] false false false 5;
    Uint16Field "LossOfPowerSeconds" CounterAttributeType 1024 0 [Read] false false false 6;
    Uint16Field "ErroredSecondsEs" CounterAttributeType 512 0 [Read] false false false 7;
    Uint16Field "SeverelyErroredSeconds" CounterAttributeType 256 0 [Read] false false false 8;
    Uint16Field "LineInitializations" CounterAttributeType 128 0 [Read] false false false 9;
    Uint16Field "FailedLineInitializations" CounterAttributeType 64 0 [Read] false false false 10;
    Uint16Field "ShortInitializations" CounterAttributeType 32 0 [Read] false true false 11;
    Uint16Field "FailedShortInitializations" CounterAttributeType 16 0 [Read] false true false 12;
    Uint16Field "FecSeconds" CounterAttributeType 8 0 [Read] false false false 13;
    Uint16Field "UnavailableSeconds" CounterAttributeType 4 0 [Read] false false false 14;
    Uint16Field "SosSuccessCountNearEnd" CounterAttributeType 2 0 [Read] false true false 15;
    Uint16Field "SosSuccessCountFarEnd" CounterAttributeType 1 0 [Read] false true false 16])
    CreatedByOlt UnknownSupport [0; 1; 2; 3; 4; 5; 6; 7; 8; 9; 10; 11].

Definition xdslxtucperformancemonitoringhistorydatapart2BME : ManagedEntityDefinition :=
  mkDef "XdslXtuCPerformanceMonitoringHistoryDataPart2" 408 [Create; Delete; GetMsg; SetMsg; GetCurrentData] 63488 (attrs [
    Uint16Field "ManagedEntityId" PointerAttributeType 0 0 [Read; SetByCreate] false false false 0;
    ByteField "IntervalEndTime" UnsignedIntegerAttributeType 32768 0 [Read] false false false 1;
    Uint16Field "ThresholdData12Id" UnsignedIntegerAttributeType 16384 0 [Read; SetByCreate; Write] false false false 2;
    Uint16Field "LeftrDefectSeconds" CounterAttributeType 8192 0 [Read] false false false 3;
    Uint32Field "ErrorFreeBitsCounter" CounterAttributeType 4096 0 [Read] false false false 4;
    Uint32Field "MinimumErrorFreeThroughputMineftr" CounterAttributeType 2048 0 [Read] false false false 5])
    CreatedByOlt UnknownSupport [0].

Definition xdslxturchannelperformancemonitoringhistorydataBME : ManagedEntityDefinition :=
  mkDef "XdslXtuRChannelPerformanceMonitoringHistoryData" 115 [Create; Delete; GetMsg; SetMsg; GetCurrentData] 65280 (attrs [
    Uint16Field "ManagedEntityId" PointerAttributeType 0 0 [Read; SetByCreate] false false false 0;
    ByteField "IntervalEndTime" UnsignedIntegerAttributeType 32768 0 [Read] false false false 1;
    Uint16Field "ThresholdData12Id" UnsignedIntegerAttributeType 16384 0 [Read; SetByCreate; Write] false false false 2;
    Uint32Field "CorrectedBlocks" CounterAttributeType 8192 0 [Read] false false false 3;
    Uint32Field "UncorrectedBlocks" CounterAttributeType 4096 0 [Read] false false false 4;
    Uint32Field "TransmittedBlocks" CounterAttributeType 2048 0 [Read] false false false 5;
    Uint32Field "ReceivedBlocks" CounterAttributeType 1024 0 [Read] false false false 6;
    Uint16Field "CodeViolations" CounterAttributeType 512 0 [Read] false false false 7;
    Uint16Field "ForwardErrorCorrections" CounterAttributeType 256 0 [Read] false false false 8])
    CreatedByOlt UnknownSupport [0; 1; 2; 3].

Definition xdslxturperformancemonitoringhistorydataBME : ManagedEntityDefinition :=
  mkDef "XdslXtuRPerformanceMonitoringHistoryData" 113 [Create; Delete; GetMsg; SetMsg; GetCurrentData] 65520 (attrs [
    Uint16Field "ManagedEntityId" PointerAttributeType 0 0 [Read; SetByCreate] false false false 0;
    ByteField "IntervalEndTime" UnsignedIntegerAttributeType 32768 0 [Read] false false false 1;
    Uint16Field "ThresholdData12Id" UnsignedIntegerAttributeType 16384 0 [Read; SetByCreate; Write] false false false 2;
    Uint16Field "LossOfFrameSeconds" CounterAttributeType 8192 0 [Read] false false false 3;
    Uint16Field "LossOfSignalSeconds" CounterAttributeType 4096 0 [Read] false false false 4;
    Uint16Field "LossOfPowerSeconds" CounterAttributeType 2048 0 [Read] false false false 5;
    Uint16Field "ErroredSeconds" CounterAttributeType 1024 0 [Read] false false false 6;
    Uint16Field "SeverelyErroredSeconds" CounterAttributeType 512 0 [Read] false false false 7;
    Uint16Field "FecSeconds" CounterAttributeType 256 0 [Read] false false false 8;
    Uint16Field "UnavailableSeconds" CounterAttributeType 128 0 [Read] false false false 9;
    Uint16Field "LeftrDefectSeconds" CounterAttributeType 64 0 [Read] false true false 10;
    Uint32Field "ErrorFreeBitsCounter" CounterAttributeType 32 0 [Read] false true false 11;
    Uint32Field "MinimumErrorFreeThroughputMineftr" CounterAttributeType 16 0 [Read] false true false 12])
    CreatedByOlt UnknownSupport [0; 1; 2; 3; 4; 5; 6; 7].

Definition xgpondownstreammanagementperformancemonitoringhistorydataBME : ManagedEntityDefinition :=
  mkDef "XgPonDownstreamManagementPerformanceMonitoringHistoryData" 345 [Create; Delete; GetMsg; SetMsg; GetCurrentData] 65535 (attrs [
    Uint16Field "ManagedEntityId" PointerAttributeType 0 0 [Read; SetByCreate] false false false 0;
    ByteField "IntervalEndTime" UnsignedIntegerAttributeType 32768 0 [Read] false false false 1;
    Uint16Field "ThresholdData12Id" PointerAttributeType 16384 0 [Read; SetByCreate; Write] false false false 2;
    Uint32Field "PloamMessageIntegrityCheckMicErrorCount" CounterAttributeType 8192 0 [Read] false true false 3;
    Uint32Field "DownstreamPloamMessagesCount" CounterAttributeType 4096 0 [Read] false true false 4;
    Uint32Field "ProfileMessagesReceived" CounterAttributeType 2048 0 [Read] false true false 5;
    Uint32Field "RangingTimeMessagesReceived" CounterAttributeType 1024 0 [Read] false false false 6;
    Uint32Field "DeactivateOnuIdMessagesReceived" CounterAttributeType 512 0 [Read] false true false 7;
    Uint32Field "DisableSerialNumberMessagesReceived" CounterAttributeType 256 0 [Read] false true false 8;
    Uint32Field "RequestRegistrationMessagesReceived" CounterAttributeType 128 0 [Read] false true false 9;
    Uint32Field "AssignAllocIdMessagesReceived" CounterAttributeType 64 0 [Read] false true false 10;
    Uint32Field "KeyControlMessagesReceived" CounterAttributeType 32 0 [Read] false true false 11;
    Uint32Field "SleepAllowMessagesReceived" CounterAttributeType 16 0 [Read] false true false 12;
    Uint32Field "BaselineOmciMessagesReceivedCount" CounterAttributeType 8 0 [Read] false true false 13;
    Uint32Field "ExtendedOmciMessagesReceivedCount" CounterAttributeType 4 0 [Read] false true false 14;
    Uint32Field "AssignOnuIdMessagesReceived" CounterAttributeType 2 0 [Read] false true false 15;
    Uint32Field "OmciMicErrorCount" CounterAttributeType 1 0 [Read] false true false 16])
    CreatedByOlt UnknownSupport [1; 2].

Definition xgpontcperformancemonitoringhistorydataBME : ManagedEntityDefinition :=
  mkDef "XgPonTcPerformanceMonitoringHistoryData" 344 [Create; Delete; GetMsg; SetMsg; GetCurrentData] 65534 (attrs [
    Uint16Field "ManagedEntityId" PointerAttributeType 0 0 [Read; SetByCreate] false false false 0;
    ByteField "IntervalEndTime" UnsignedIntegerAttributeType 32768 0 [Read] false false false 1;
    Uint16Field "ThresholdData12Id" PointerAttributeType 16384 0 [Read; SetByCreate; Write] false false false 2;
    Uint32Field "PsbdHecErrorCount" CounterAttributeType 8192 0 [Read] false true false 3;
    Uint32Field "XgtcHecErrorCount" CounterAttributeType 4096 0 [Read] false true false 4;
    Uint32Field "UnknownProfileCount" CounterAttributeType 2048 0 [Read] false true false 5;
    Uint32Field "TransmittedXgPonEncapsulationMethodXgemFrames" CounterAttributeType 1024 0 [Read] false false false 6;
    Uint32Field "FragmentXgemFrames" CounterAttributeType 512 0 [Read] false true false 7;
    Uint32Field "XgemHecLostWordsCount" CounterAttributeType 256 0 [Read] false true false 8;
    Uint32Field "XgemKeyErrors" CounterAttributeType 128 0 [Read] false false false 9;
    Uint32Field "XgemHecErrorCount" CounterAttributeType 64 0 [Read] false false false 10;
    Uint64Field "TransmittedBytesInNonIdleXgemFrames" CounterAttributeType 32 0 [Read] false false false 11;
    Uint64Field "ReceivedBytesInNonIdleXgemFrames" CounterAttributeType 16 0 [Read] false true false 12;
    Uint32Field "LossOfDownstreamSynchronizationLodsEventCount" CounterAttributeType 8 0 [Read] false true false 13;
    Uint32Field "LodsEventRestoredCount" CounterAttributeType 4 0 [Read] false true false 14;
    Uint32Field "OnuReactivationByLodsEvents" CounterAttributeType 2 0 [Read] false true false 15])
    CreatedByOlt UnknownSupport [1; 2; 3; 4; 5; 6].

Definition xgponupstreammanagementperformancemonitoringhistorydataBME : ManagedEntityDefinition :=
  mkDef "XgPonUpstreamManagementPerformanceMonitoringHistoryData" 346 [Create; Delete; GetMsg; SetMsg; GetCurrentData] 65280 (attrs [
    Uint16Field "ManagedEntityId" PointerAttributeType 0 0 [Read; SetByCreate] false false false 0;
    ByteField "IntervalEndTime" UnsignedIntegerAttributeType 32768 0 [Read] false false false 1;
    Uint16Field "ThresholdData12Id" PointerAttributeType 16384 0 [Read; SetByCreate; Write] false false false 2;
    Uint32Field "UpstreamPloamMessageCount" CounterAttributeType 8192 0 [Read] false true false 3;
    Uint32Field "SerialNumberOnuMessageCount" CounterAttributeType 4096 0 [Read] false true false 4;
    Uint32Field "RegistrationMessageCount" CounterAttributeType 2048 0 [Read] false true false 5;
    Uint32Field "KeyReportMessageCount" CounterAttributeType 1024 0 [Read] false true false 6;
    Uint32Field "AcknowledgeMessageCount" CounterAttributeType 512 0 [Read] false true false 7;
    Uint32Field "SleepRequestMessageCount" CounterAttributeType 256 0 [Read] false true false 8])
    CreatedByOlt UnknownSupport [].

Definition xtudatagatheringconfigurationBME : ManagedEntityDefinition :=
  mkDef "XtuDataGatheringConfiguration" 413 [Create; Delete; GetMsg; GetNextMsg; SetMsg; SetTableMsg] 63488 (attrs [
    Uint16Field "ManagedEntityId" PointerAttributeType 0 0 [Read; SetByCreate] false false false 0;
    TableField "LoggingDepthEventPercentagePerEventVtuOLoggingDepthEventPercentageOiTable" TableAttributeType 32768 2 [Read; Write] false true false 1;
    TableField "LoggingDepthEventPercentagePerEventVtuRLoggingDepthEventPercentageRiTable" TableAttributeType 16384 2 [Read; Write] false true false 2;
    Uint16Field "LoggingDepthForVtuOReportingVtuRLoggingDepthReportingO" UnsignedIntegerAttributeType 8192 0 [Read; Write] false true false 3;
    Uint16Field "LoggingDepthForVtuRReportingVtuRLoggingDepthReportingR" UnsignedIntegerAttributeType 4096 0 [Read; Write] false true false 4;
    ByteField "LoggingDataReportNewerEventsFirstVtuRLoggingReportNewerFirst" UnsignedIntegerAttributeType 2048 0 [Read; Write] false true false 5])
    CreatedByOlt UnknownSupport [].

Definition classToManagedEntityMap : gmap Z ManagedEntityDefinition := list_to_map [
  (2, onudataBME);
  (5, cardholderBME);
  (6, circuitpackBME);
  (7, softwareimageBME);
  (11, physicalpathterminationpointethernetuniBME);
  (12, physicalpathterminationpointcesuniBME);
  (14, interworkingvccterminationpointBME);
  (16, aal5profileBME);
  (18, aal5performancemonitoringhistorydataBME);
  (21, cesserviceprofileBME);
  (24, ethernetperformancemonitoringhistorydataBME);
  (45, macbridgeserviceprofileBME);
  (46, macbridgeconfigurationdataBME);
  (47, macbridgeportconfigurationdataBME);
  (48, macbridgeportdesignationdataBME);
  (49, macbridgeportfiltertabledataBME);
  (50, macbridgeportbridgetabledataBME);
  (51, macbridgeperformancemonitoringhistorydataBME);
  (52, macbridgeportperformancemonitoringhistorydataBME);
  (53, physicalpathterminationpointpotsuniBME);
  (58, voiceserviceprofileBME);
  (62, vpperformancemonitoringhistorydataBME);
  (78, vlantaggingoperationconfigurationdataBME);
  (79, macbridgeportfilterpreassigntableBME);
  (82, physicalpathterminationpointvideouniBME);
  (83, physicalpathterminationpointlctuniBME);
  (84, vlantaggingfilterdataBME);
  (89, ethernetperformancemonitoringhistorydata2BME);
  (90, physicalpathterminationpointvideoaniBME);
  (98, physicalpathterminationpointxdslunipart1BME);
  (99, physicalpathterminationpointxdslunipart2BME);
  (100, xdsllineinventoryandstatusdatapart1BME);
  (101, xdsllineinventoryandstatusdatapart2BME);
  (102, xdslchanneldownstreamstatusdataBME);
  (103, xdslchannelupstreamstatusdataBME);
  (105, xdsllineconfigurationprofilepart2BME);
  (106, xdsllineconfigurationprofilepart3BME);
  (107, xdslchannelconfigurationprofileBME);
  (108, xdslsubcarriermaskingdownstreamprofileBME);
  (109, xdslsubcarriermaskingupstreamprofileBME);
  (110, xdslpsdmaskprofileBME);
  (111, xdsldownstreamrfibandsprofileBME);
  (112, xdslxtucperformancemonitoringhistorydataBME);
  (113, xdslxturperformancemonitoringhistorydataBME);
  (114, xdslxtucchannelperformancemonitoringhistorydataBME);
  (115, xdslxturchannelperformancemonitoringhistorydataBME);
  (116, tcadaptorperformancemonitoringhistorydataxdslBME);
  (130, ieee8021pmapperserviceprofileBME);
  (131, oltgBME);
  (133, onupowersheddingBME);
  (134, iphostconfigdataBME);
  (135, iphostperformancemonitoringhistorydataBME);
  (136, tcpudpconfigdataBME);
  (137, networkaddressBME);
  (138, voipconfigdataBME);
  (139, voipvoicectpBME);
  (140, callcontrolperformancemonitoringhistorydataBME);
  (141, voiplinestatusBME);
  (142, voipmediaprofileBME);
  (143, rtpprofiledataBME);
  (144, rtpperformancemonitoringhistorydataBME);
  (145, networkdialplantableBME);
  (146, voipapplicationserviceprofileBME);
  (147, voipfeatureaccesscodesBME);
  (148, authenticationsecuritymethodBME);
  (149, sipconfigportalBME);
  (150, sipagentconfigdataBME);
  (151, sipagentperformancemonitoringhistorydataBME);
  (152, sipcallinitiationperformancemonitoringhistorydataBME);
  (153, sipuserdataBME);
  (154, mgcconfigportalBME);
  (155, mgcconfigdataBME);
  (156, mgcperformancemonitoringhistorydataBME);
  (157, largestringBME);
  (158, onuremotedebugBME);
  (160, equipmentextensionpackageBME);
  (162, physicalpathterminationpointmocauniBME);
  (163, mocaethernetperformancemonitoringhistorydataBME);
  (164, mocainterfaceperformancemonitoringhistorydataBME);
  (165, vdsl2lineconfigurationextensionsBME);
  (168, vdsl2lineinventoryandstatusdatapart1BME);
  (169, vdsl2lineinventoryandstatusdatapart2BME);
  (170, vdsl2lineinventoryandstatusdatapart3BME);
  (171, extendedvlantaggingoperationconfigurationdataBME);
  (256, onugBME);
  (257, onu2gBME);
  (262, tcontBME);
  (263, anigBME);
  (264, unigBME);
  (266, geminterworkingterminationpointBME);
  (268, gemportnetworkctpBME);
  (269, vpnetworkctpBME);
  (272, galethernetprofileBME);
  (273, thresholddata1BME);
  (274, thresholddata2BME);
  (276, galethernetperformancemonitoringhistorydataBME);
  (277, priorityqueueBME);
  (278, trafficschedulerBME);
  (280, trafficdescriptorBME);
  (281, multicastgeminterworkingterminationpointBME);
  (282, pseudowireterminationpointBME);
  (283, rtppseudowireparametersBME);
  (284, pseudowiremaintenanceprofileBME);
  (285, pseudowireperformancemonitoringhistorydataBME);
  (286, ethernetflowterminationpointBME);
  (287, omciBME);
  (288, managedentitymeBME);
  (289, attributemeBME);
  (290, dot1xportextensionpackageBME);
  (291, dot1xconfigurationprofileBME);
  (292, dot1xperformancemonitoringhistorydataBME);
  (293, radiusperformancemonitoringhistorydataBME);
  (296, ethernetperformancemonitoringhistorydata3BME);
  (298, dot1ratelimiterBME);
  (299, dot1agmaintenancedomainBME);
  (300, dot1agmaintenanceassociationBME);
  (301, dot1agdefaultmdlevelBME);
  (302, dot1agmepBME);
  (305, dot1agcfmstackBME);
  (306, dot1agchassismanagementinfoBME);
  (307, octetstringBME);
  (308, generalpurposebufferBME);
  (309, multicastoperationsprofileBME);
  (310, multicastsubscriberconfiginfoBME);
  (311, multicastsubscribermonitorBME);
  (312, fecperformancemonitoringhistorydataBME);
  (313, reanigBME);
  (314, physicalpathterminationpointreuniBME);
  (315, reupstreamamplifierBME);
  (316, redownstreamamplifierBME);
  (321, ethernetframeperformancemonitoringhistorydatadownstreamBME);
  (322, ethernetframeperformancemonitoringhistorydataupstreamBME);
  (323, vdsl2lineconfigurationextensions2BME);
  (324, xdslimpulsenoisemonitorperformancemonitoringhistorydataBME);
  (325, xdsllineinventoryandstatusdatapart5BME);
  (328, recommonamplifierparametersBME);
  (329, virtualethernetinterfacepointBME);
  (332, enhancedsecuritycontrolBME);
  (333, mplspseudowireterminationpointBME);
  (334, ethernetframeextendedpmBME);
  (335, snmpconfigurationdataBME);
  (336, onudynamicpowermanagementcontrolBME);
  (337, pwatmconfigurationdataBME);
  (338, pwatmperformancemonitoringhistorydataBME);
  (339, pwethernetconfigurationdataBME);
  (340, bbftr069managementserverBME);
  (341, gemportnetworkctpperformancemonitoringhistorydataBME);
  (342, tcpudpperformancemonitoringhistorydataBME);
  (343, energyconsumptionperformancemonitoringhistorydataBME);
  (344, xgpontcperformancemonitoringhistorydataBME);
  (345, xgpondownstreammanagementperformancemonitoringhistorydataBME);
  (346, xgponupstreammanagementperformancemonitoringhistorydataBME);
  (348, macbridgeporticmpv6processpreassigntableBME);
  (400, ethernetpseudowireparametersBME);
  (406, epondownstreamperformancemonitoringconfigurationBME);
  (407, sipagentconfigdata2BME);
  (408, xdslxtucperformancemonitoringhistorydatapart2BME);
  (410, vdsl2lineconfigurationextensions3BME);
  (412, xdslchannelconfigurationprofilepart2BME);
  (413, xtudatagatheringconfigurationBME);
  (414, xdsllineinventoryandstatusdatapart8BME);
  (415, vdsl2lineinventoryandstatusdatapart4BME);
  (418, efmbondinggroupBME);
  (419, efmbondinglinkBME);
  (420, efmbondinggroupperformancemonitoringhistorydataBME);
  (421, efmbondinggroupperformancemonitoringhistorydatapart2BME);
  (422, efmbondinglinkperformancemonitoringhistorydataBME);
  (423, efmbondingportperformancemonitoringhistorydataBME);
  (424, efmbondingportperformancemonitoringhistorydatapart2BME);
  (425, ethernetframeextendedpm64bitBME);
  (427, physicalpathterminationpointxdslunipart3BME);
  (432, fastchannelconfigurationprofileBME);
  (433, fastdatapathconfigurationprofileBME);
  (434, fastvectoringlineconfigurationextensionsBME);
  (436, fastlineinventoryandstatusdatapart2BME);
  (437, fastxtucperformancemonitoringhistorydataBME);
  (438, fastxturperformancemonitoringhistorydataBME);
  (440, timestatusmessageBME);
  (441, onu3gBME);
  (443, twdmchannelmanagedentityBME);
  (444, twdmchannelphylodsperformancemonitoringhistorydataBME);
  (445, twdmchannelxgemperformancemonitoringhistorydataBME);
  (446, twdmchannelploamperformancemonitoringhistorydatapart1BME);
  (447, twdmchannelploamperformancemonitoringhistorydatapart2BME);
  (448, twdmchannelploamperformancemonitoringhistorydatapart3BME);
  (449, twdmchanneltuningperformancemonitoringhistorydatapart1BME);
  (450, twdmchanneltuningperformancemonitoringhistorydatapart2BME);
  (451, twdmchanneltuningperformancemonitoringhistorydatapart3BME);
  (452, twdmchannelomciperformancemonitoringhistorydataBME);
  (453, enhancedfecperformancemonitoringhistorydataBME);
  (454, enhancedtcperformancemonitoringhistorydataBME);
  (456, onumanufacturingdataBME);
  (457, onutimeconfigurationBME)].
