(* ===== verification/MeLib.v ===== *)
(** * Managed entity definitions: the operations

    The operations of the vendored package [generated] the MIB is built on
    (src/vendor/github.com/opencord/omci-lib-go/v2/generated/me.go, attribute.go,
    classidmap.go, omcidefs.go), over the class tables of MeClasses.v, and what the
    tables guarantee. *)

From S2P Require Import Prelude MeTypes MeClasses.

(** ** Result codes *)

Definition Success : Z := 0.
Definition ProcessingError : Z := 1.
Definition NotSupported : Z := 2.
Definition ParameterError : Z := 3.
Definition UnknownEntity : Z := 4.
Definition UnknownInstance : Z := 5.
Definition DeviceBusy : Z := 6.
Definition InstanceExists : Z := 7.
Definition AttributeFailure : Z := 9.

(** ** Definitions *)

Definition lower_ascii (c : Ascii.ascii) : Ascii.ascii :=
  let n := Ascii.nat_of_ascii c in
  if ((65 <=? n) && (n <=? 90))%nat then Ascii.ascii_of_nat (n + 32) else c.

(** [strings.ToLower] of an ASCII string. *)
Fixpoint ToLower (s : string) : string :=
  match s with
  | EmptyString => EmptyString
  | String c s' => String (lower_ascii c) (ToLower s')
  end.

Section lib.
Context {MR : MapRange}.

Definition GetAttributeDefinitionByName (attrMap : gmap Z AttributeDefinition) (name : string)
    : option AttributeDefinition :=
  let nameLower := ToLower name in
  snd <$> List.find (λ '(_, attrVal), bool_decide (nameLower = ToLower (Name attrVal))) (range attrMap).

Record ManagedEntity := mkEntity {
  definition : ManagedEntityDefinition;
  attributeMask : Z;
  attributes : AttributeValueMap
}.

Definition SetAttribute (entity : ManagedEntity) (name : string) (value : Value)
    : Res Z ManagedEntity :=
  match GetAttributeDefinitionByName (AttributeDefinitions (definition entity)) name with
  | None => Err ProcessingError
  | Some attrDef =>
      Ok (mkEntity (definition entity) (Z.lor (attributeMask entity) (Mask attrDef))
            (<[name := value]> (attributes entity)))
  end.

(** [ParamData]. *)
Record ParamData := mkParams { p_EntityID : Z; p_Attributes : AttributeValueMap }.

(** The name of attribute 0; the zero [AttributeDefinition] has the empty name. *)
Definition eidName (d : ManagedEntityDefinition) : string :=
  match AttributeDefinitions d !! 0 with Some a => Name a | None => "" end.

Definition setAttributes (entity : ManagedEntity) (params : ParamData) : Res Z ManagedEntity :=
  let eid := eidName (definition entity) in
  let entity := mkEntity (definition entity) (attributeMask entity)
                  (<[eid := VU16 (p_EntityID params)]> (attributes entity)) in
  foldM_res (λ entity '(name, value),
      if bool_decide (name = eid) then Ok entity else SetAttribute entity name value)
    (range (p_Attributes params)) entity.

Definition NewManagedEntity (d : ManagedEntityDefinition) (params : option ParamData)
    : Res Z ManagedEntity :=
  let entity := mkEntity d 0 ∅ in
  match params with
  | None => Ok entity
  | Some p => setAttributes entity p
  end.

Definition IsVendorSpecificClassID (classID : Z) : bool :=
  ((240 <=? classID) && (classID <=? 255)) ||
  ((350 <=? classID) && (classID <=? 399)) ||
  ((65280 <=? classID) && (classID <=? 65535)).

(** [newUnknownManagedEntity]'s [SetClassID]. *)
Definition SetClassID (d : ManagedEntityDefinition) (classID : Z) : ManagedEntityDefinition :=
  mkDef (DefName d) classID (MessageTypes d) (AllowedAttributeMask d) (AttributeDefinitions d)
    (DefAccess d) (Support d) (Alarms d).

Definition NewUnknownVendorSpecificME (classID : Z) (params : option ParamData) : Res Z ManagedEntity :=
  NewManagedEntity (SetClassID unknownVendorSpecificBME classID) params.

Definition NewUnknownG988ME (classID : Z) (params : option ParamData) : Res Z ManagedEntity :=
  NewManagedEntity (SetClassID unknownG988BME classID) params.

Definition LoadManagedEntityDefinition (classID : Z) (params : option ParamData)
    : Res Z ManagedEntity :=
  match classToManagedEntityMap !! classID with
  | Some d => NewManagedEntity d params
  | None =>
      if IsVendorSpecificClassID classID
      then NewUnknownVendorSpecificME classID params
      else NewUnknownG988ME classID params
  end.

Definition GetAttributesDefinitions (classID : Z) : Res Z (gmap Z AttributeDefinition) :=
  medef ← LoadManagedEntityDefinition classID None;
  Ok (AttributeDefinitions (definition medef)).

Definition SupportsMsgType (entity : ManagedEntity) (msgType : Z) : bool :=
  bool_decide (msgType ∈ MessageTypes (definition entity)).

Definition SupportsAttributeAccess (attr : AttributeDefinition) (acc : AttributeAccess) : bool :=
  bool_decide (acc ∈ Access attr).

Definition IsTableAttribute (attr : AttributeDefinition) : bool :=
  bool_decide (AttrType attr = TableAttributeType).

(** The body of the loop of [MergeInDefaultValues]. *)
Definition mergeDefault (attributes : AttributeValueMap) (entry : Z * AttributeDefinition)
    : AttributeValueMap :=
  let '(index, attrDef) := entry in
  let nilAllowed := [StringAttributeType; OctetsAttributeType; TableAttributeType] in
  if negb (SupportsAttributeAccess attrDef SetByCreate) && negb (index =? 0) &&
     (negb (bool_decide (DefValue attrDef = VNil)) || bool_decide (AttrType attrDef ∈ nilAllowed))
  then
    match attributes !! Name attrDef with
    | Some existing =>
        if bool_decide (existing = VNil) then <[Name attrDef := DefValue attrDef]> attributes
        else attributes
    | None => <[Name attrDef := DefValue attrDef]> attributes
    end
  else attributes.

Definition MergeInDefaultValues (classID : Z) (attributes : AttributeValueMap)
    : Res Z AttributeValueMap :=
  attrDefs ← GetAttributesDefinitions classID;
  Ok (fold_left mergeDefault (range attrDefs) attributes).
End lib.

(** ** What the class tables guarantee *)

(** Attribute [i] is filed under its index, with the mask bit of its index; attribute 0 is the
    entity id; no two names agree up to case; the allowed mask is the attributes' masks. *)
Definition attribute_ok (i : Z) (a : AttributeDefinition) : bool :=
  (Index a =? i) && (0 <=? i) && (i <=? 16) &&
  (if i =? 0 then bool_decide (Name a = ManagedEntityID) && (Mask a =? 0)
   else negb (bool_decide (ToLower (Name a) = ToLower ManagedEntityID)) &&
        (Mask a =? 2 ^ (16 - i))).

Definition definition_ok (d : ManagedEntityDefinition) : bool :=
  let l := map_to_list (AttributeDefinitions d) in
  forallb (λ '(i, a), attribute_ok i a) l &&
  bool_decide (0 ∈ l.*1) &&
  bool_decide (NoDup (map (λ p, ToLower (Name p.2)) l)) &&
  (AllowedAttributeMask d =? foldr (λ p, Z.lor (Mask p.2)) 0 l).

Definition table_ok : bool :=
  forallb (λ '(c, d), definition_ok d && (ClassID d =? c) && bool_decide (Support d = UnknownSupport))
    (map_to_list classToManagedEntityMap) &&
  definition_ok unknownVendorSpecificBME && definition_ok unknownG988BME &&
  bool_decide (Support unknownVendorSpecificBME = UnsupportedVendorSpecificManagedEntity) &&
  bool_decide (Support unknownG988BME = UnsupportedManagedEntity).
Lemma table_ok_true : table_ok = true.
Proof. vm_compute. reflexivity. Qed.

#[global] Opaque classToManagedEntityMap unknownVendorSpecificBME unknownG988BME.

(** The definition [LoadManagedEntityDefinition] uses for a class. *)
Definition definition_of (classID : Z) : ManagedEntityDefinition :=
  match classToManagedEntityMap !! classID with
  | Some d => d
  | None => SetClassID (if IsVendorSpecificClassID classID then unknownVendorSpecificBME
                        else unknownG988BME) classID
  end.

Definition known_class (classID : Z) : Prop := is_Some (classToManagedEntityMap !! classID).
#[export] Instance known_class_dec c : Decision (known_class c).
Proof. unfold known_class. apply _. Defined.

(** The attribute of a definition with a given name, up to case. *)
Definition attr_named (d : ManagedEntityDefinition) (name : string) : option AttributeDefinition :=
  @GetAttributeDefinitionByName canonical_range (AttributeDefinitions d) name.

Definition known_name (d : ManagedEntityDefinition) (name : string) : bool :=
  bool_decide (is_Some (attr_named d name)).

Lemma table_ok_inv :
  (∀ c d, classToManagedEntityMap !! c = Some d →
     definition_ok d = true ∧ ClassID d = c ∧ Support d = UnknownSupport) ∧
  definition_ok unknownVendorSpecificBME = true ∧ definition_ok unknownG988BME = true ∧
  Support unknownVendorSpecificBME = UnsupportedVendorSpecificManagedEntity ∧
  Support unknownG988BME = UnsupportedManagedEntity.
Proof.
  pose proof table_ok_true as Ht. unfold table_ok in Ht.
  apply andb_true_iff in Ht as [[[[Ht Hv]%andb_true_iff Hg]%andb_true_iff Hsv]%andb_true_iff Hsg].
  apply bool_decide_eq_true in Hsv, Hsg. split_and!; [|done|done|done|done].
  intros c d Hc. rewrite forallb_forall in Ht.
  pose proof (Ht _ (proj1 (list_elem_of_In _ _) (proj2 (elem_of_map_to_list _ _ _) Hc))) as H.
  cbv beta iota in H. apply andb_true_iff in H as [[Hd Hi]%andb_true_iff Hs].
  apply bool_decide_eq_true in Hs. split_and!; [done|lia|done].
Qed.

Lemma definition_ok_SetClassID d c : definition_ok (SetClassID d c) = definition_ok d.
Proof. done. Qed.

Lemma definition_ok_of c : definition_ok (definition_of c) = true.
Proof.
  destruct table_ok_inv as (Ht & Hv & Hg & _). unfold definition_of.
  destruct (classToManagedEntityMap !! c) eqn:Hc; [by eapply Ht|].
  rewrite definition_ok_SetClassID. by destruct (IsVendorSpecificClassID c).
Qed.

Lemma definition_of_known c d : classToManagedEntityMap !! c = Some d → definition_of c = d.
Proof. unfold definition_of. by intros ->. Qed.

Lemma ClassID_definition_of c : ClassID (definition_of c) = c.
Proof.
  destruct table_ok_inv as (Ht & _). unfold definition_of.
  destruct (classToManagedEntityMap !! c) eqn:Hc; [by apply Ht|done].
Qed.

(** The laws of a definition that passes [definition_ok]. *)
Section laws.
Context (d : ManagedEntityDefinition) (Hd : definition_ok d = true).

Lemma definition_ok_inv :
    (∀ i a, AttributeDefinitions d !! i = Some a → attribute_ok i a = true) ∧
    (∃ a, AttributeDefinitions d !! 0 = Some a) ∧
    NoDup (map (λ p, ToLower (Name p.2)) (map_to_list (AttributeDefinitions d))) ∧
    AllowedAttributeMask d =
      foldr (λ p, Z.lor (Mask p.2)) 0 (map_to_list (AttributeDefinitions d)).
  Proof.
    pose proof Hd as H. unfold definition_ok in H. rewrite !andb_true_iff, forallb_forall in H.
    destruct H as [[[H1 H2] H3] H4]. split_and!.
    - intros i a Hi. apply (H1 (i, a)). by apply list_elem_of_In, elem_of_map_to_list.
    - apply bool_decide_eq_true, list_elem_of_fmap in H2 as [[i a] [Hi Hin]].
      cbn in Hi. subst i. exists a. by apply elem_of_map_to_list.
    - by apply bool_decide_eq_true in H3.
    - lia.
  Qed.

Lemma attribute_inv i a :
    AttributeDefinitions d !! i = Some a →
    Index a = i ∧ 0 ≤ i ≤ 16 ∧
    (i = 0 → Name a = ManagedEntityID ∧ Mask a = 0) ∧
    (i ≠ 0 → ToLower (Name a) ≠ ToLower ManagedEntityID ∧ Mask a = 2 ^ (16 - i)).
  Proof.
    intros Hi. destruct definition_ok_inv as (H & _). specialize (H _ _ Hi).
    unfold attribute_ok in H. destruct (Z.eqb_spec i 0) as [->|Hn];
      rewrite !andb_true_iff in H; destruct H as [[[? ?] ?] [Hx Hy]]; split_and!; try lia.
    - intros _. apply bool_decide_eq_true in Hx. split; [done|lia].
    - intros _. rewrite negb_true_iff in Hx. apply bool_decide_eq_false in Hx. split; [done|lia].
  Qed.

Lemma name_unique i j a b :
    AttributeDefinitions d !! i = Some a → AttributeDefinitions d !! j = Some b →
    ToLower (Name a) = ToLower (Name b) → i = j ∧ a = b.
  Proof.
    intros Ha Hb Hn. destruct definition_ok_inv as (_ & _ & Hnd & _).
    assert ((i, a) = (j, b)) as Hp; [|by injection Hp].
    apply elem_of_map_to_list, list_elem_of_lookup in Ha as [x Hx].
    apply elem_of_map_to_list, list_elem_of_lookup in Hb as [y Hy].
    assert (x = y) as ->; [|congruence].
    eapply NoDup_lookup; [apply Hnd| |];
      rewrite (list_lookup_fmap (λ p : Z * AttributeDefinition, ToLower (Name p.2))), ?Hx, ?Hy; cbn;
      [done|by rewrite Hn].
  Qed.

Lemma GetAttributeDefinitionByName_Some {MR : MapRange} name a :
    GetAttributeDefinitionByName (AttributeDefinitions d) name = Some a ↔
    ∃ i, AttributeDefinitions d !! i = Some a ∧ ToLower name = ToLower (Name a).
  Proof.
    unfold GetAttributeDefinitionByName. rewrite fmap_Some. split.
    - intros ([i b] & Hf & ->). apply find_some in Hf as [Hin Hn].
      apply bool_decide_eq_true in Hn. exists i. cbn. split; [|done].
      by apply elem_of_range, list_elem_of_In.
    - intros (i & Ha & Hn). destruct (List.find _ _) as [[j b]|] eqn:Hf.
      + pose proof Hf as Hf'. apply find_some in Hf' as [Hin Hb]. apply bool_decide_eq_true in Hb.
        apply list_elem_of_In, elem_of_range in Hin.
        destruct (name_unique i j a b Ha Hin) as [-> ->]; [congruence|]. by exists (j, b).
      + apply elem_of_range, list_elem_of_In in Ha. eapply find_none in Hf; [|exact Ha].
        cbn in Hf. by rewrite bool_decide_eq_false in Hf.
  Qed.

  (** The lookup by name does not depend on the iteration order. *)
Lemma GetAttributeDefinitionByName_named {MR : MapRange} name :
    GetAttributeDefinitionByName (AttributeDefinitions d) name = attr_named d name.
  Proof.
    apply option_eq. intros a. unfold attr_named.
    by rewrite GetAttributeDefinitionByName_Some, (@GetAttributeDefinitionByName_Some canonical_range).
  Qed.

Lemma attr_named_Some name a :
    attr_named d name = Some a ↔
    ∃ i, AttributeDefinitions d !! i = Some a ∧ ToLower name = ToLower (Name a).
  Proof. apply (@GetAttributeDefinitionByName_Some canonical_range). Qed.

Lemma attr_named_exact i a :
    AttributeDefinitions d !! i = Some a → attr_named d (Name a) = Some a.
  Proof. intros Hi. apply attr_named_Some. by exists i. Qed.

Lemma eidName_ok : eidName d = ManagedEntityID.
  Proof.
    destruct definition_ok_inv as (_ & [a Ha] & _). unfold eidName. rewrite Ha.
    by destruct (attribute_inv _ _ Ha) as (_ & _ & [-> _] & _).
  Qed.
End laws.

(** ** Loading a definition with attributes *)

Section load.
Context {MR : MapRange}.

Lemma Load_definition_of c p :
    LoadManagedEntityDefinition c p = NewManagedEntity (definition_of c) p.
  Proof.
    unfold LoadManagedEntityDefinition, definition_of. case_match; [done|]. by case_match.
  Qed.

Lemma GetAttributesDefinitions_of c :
    GetAttributesDefinitions c = Ok (AttributeDefinitions (definition_of c)).
  Proof. unfold GetAttributesDefinitions. by rewrite Load_definition_of. Qed.

Definition setLoop (eid : string) : ManagedEntity → string * Value → Res Z ManagedEntity :=
    λ entity '(name, value),
      if bool_decide (name = eid) then Ok entity else SetAttribute entity name value.

Lemma setLoop_spec d eid l e :
    definition_ok d = true → definition e = d →
    match foldM_res (setLoop eid) l e with
    | Ok e' => definition e' = d ∧
        (∀ n v, (n, v) ∈ l → n = eid ∨ known_name d n = true) ∧
        attributes e' = foldl (λ m p, if bool_decide (p.1 = eid) then m else <[p.1 := p.2]> m)
                          (attributes e) l
    | Err r => r = ProcessingError ∧ ∃ n v, (n, v) ∈ l ∧ n ≠ eid ∧ known_name d n = false
    end.
  Proof.
    intros Hd. revert e. induction l as [|[n v] l IH]; intros e He.
    { cbn. split_and!; [done| |done]. intros ? ? Hin. by apply not_elem_of_nil in Hin. }
    cbn [foldM_res foldl fst snd].
    change (setLoop eid e (n, v)) with (if bool_decide (n = eid) then Ok e else SetAttribute e n v).
    case_bool_decide as Hn; cbn [mbind Res_bind].
    - specialize (IH e He).
      destruct (foldM_res _ l e) as [e'|r].
      + destruct IH as (? & Hk & ?). split_and!; try done.
        intros n' v' Hin. apply elem_of_cons in Hin as [Heq|Hin]; [|by eapply Hk].
        injection Heq as -> ->. by left.
      + destruct IH as (? & n' & v' & ? & ?). split; [done|]. exists n', v'. by rewrite elem_of_cons; auto.
    - unfold SetAttribute. rewrite He.
      rewrite GetAttributeDefinitionByName_named by done. destruct (attr_named d n) as [a|] eqn:Ha; cbn [mbind Res_bind].
      + specialize (IH (mkEntity d (Z.lor (attributeMask e) (Mask a)) (<[n:=v]> (attributes e))) eq_refl).
        cbn [attributes] in IH.
        assert (known_name d n = true) as Hkn by (unfold known_name; rewrite Ha; by apply bool_decide_eq_true_2).
        destruct (foldM_res _ l _) as [e'|r].
        * destruct IH as (? & Hk & ?). split_and!; try done.
          intros n' v' Hin. apply elem_of_cons in Hin as [Heq|Hin]; [|by eapply Hk].
          injection Heq as -> ->. by right.
        * destruct IH as (? & n' & v' & ? & ?). split; [done|]. exists n', v'. by rewrite elem_of_cons; auto.
      + split; [done|]. exists n, v. split_and!; [by left|done|].
        unfold known_name. rewrite Ha. apply bool_decide_eq_false_2. by intros [? ?].
  Qed.

Lemma setLoop_attributes eid (l : list (string * Value)) (m : AttributeValueMap) k :
    NoDup l.*1 →
    foldl (λ m p, if bool_decide (p.1 = eid) then m else <[p.1 := p.2]> m) m l !! k =
    if bool_decide (k = eid) then m !! k
    else match (list_to_map l : AttributeValueMap) !! k with Some v => Some v | None => m !! k end.
  Proof.
    revert m. induction l as [|[n v] l IH]; intros m; cbn [foldl].
    { intros _. by case_bool_decide. }
    rewrite fmap_cons. intros [Hn Hl]%NoDup_cons. rewrite IH by done. cbn.
    destruct (decide (k = n)) as [->|Hk].
    - rewrite (not_elem_of_list_to_map_1 l n) by done. rewrite lookup_insert_eq.
      case_bool_decide; [done|]. by rewrite lookup_insert_eq.
    - rewrite (lookup_insert_ne _ n k) by done.
      destruct (decide (n = eid)) as [Hne|Hne].
      + by rewrite (bool_decide_eq_true_2 _ Hne).
      + rewrite (bool_decide_eq_false_2 _ Hne). by rewrite (lookup_insert_ne m n k).
  Qed.

  (** Loading a class with attributes succeeds when every name but the entity id is known,
      whatever the iteration order, and then holds the attributes with the entity id set. *)
Lemma Load_spec c eid attrs :
    match LoadManagedEntityDefinition c (Some (mkParams eid attrs)) with
    | Ok e => definition e = definition_of c ∧
        attributes e = <[ManagedEntityID := VU16 eid]> attrs ∧
        map_Forall (λ n _, n = ManagedEntityID ∨ known_name (definition_of c) n = true) attrs
    | Err r => r = ProcessingError ∧
        ¬ map_Forall (λ n _, n = ManagedEntityID ∨ known_name (definition_of c) n = true) attrs
    end.
  Proof.
    rewrite Load_definition_of. unfold NewManagedEntity, setAttributes. cbn [definition attributes].
    pose proof (definition_ok_of c) as Hd. rewrite (eidName_ok _ Hd).
    pose proof (setLoop_spec (definition_of c) ManagedEntityID (range attrs)
      (mkEntity (definition_of c) 0 (<[ManagedEntityID := VU16 eid]> ∅)) Hd eq_refl) as Hs.
    unfold setLoop in Hs. cbn [p_EntityID p_Attributes attributeMask attributes definition] in *.
    destruct (foldM_res _ _ _) as [e|r].
    - destruct Hs as (He & Hk & Ha). split_and!; [done| |].
      + rewrite Ha. apply map_eq. intros k.
        rewrite setLoop_attributes by apply NoDup_range_fst. rewrite range_to_map.
        case_bool_decide as Hke; [by subst; rewrite !lookup_insert_eq|].
        rewrite !lookup_insert_ne by done. by destruct (attrs !! k).
      + intros n v Hn. by eapply Hk, elem_of_range.
    - destruct Hs as (-> & n & v & Hin & Hne & Hk). split; [done|].
      intros Hall. apply elem_of_range in Hin. destruct (Hall _ _ Hin); congruence.
  Qed.
End load.

Lemma Support_definition_of c :
  (known_class c ∧ Support (definition_of c) = UnknownSupport) ∨
  (¬ known_class c ∧ (Support (definition_of c) = UnsupportedManagedEntity ∨
                      Support (definition_of c) = UnsupportedVendorSpecificManagedEntity)).
Proof.
  destruct table_ok_inv as (Ht & _ & _ & Hsv & Hsg). unfold known_class, definition_of.
  destruct (classToManagedEntityMap !! c) as [d|] eqn:Hc.
  - left. split; [by eexists|]. by apply Ht in Hc as (_ & _ & ?).
  - right. split; [by intros [? ?]|]. cbn. destruct (IsVendorSpecificClassID c); auto.
Qed.

#[global] Opaque definition_of.
