(* ===== verification/Mib.v ===== *)
(** * MIB: the data of the store

    The types of src/internal/mib/store.go that its operations share: keys, instances,
    origins, errors, attribute capabilities, operations and changes. *)

From S2P Require Import Prelude MeTypes MeClasses MeLib.

Inductive Origin := OriginONU | OriginOLT.
#[export] Instance Origin_eq_dec : EqDecision Origin.
Proof. solve_decision. Defined.

(** [Key]: the class id and the entity id. *)
Abbreviation Key := (Z * Z)%type.

Record Instance_ := mkInstance {
  i_Key : Key;
  i_Attributes : AttributeValueMap;
  i_Origin : Origin
}.
#[export] Instance Instance_eq_dec : EqDecision Instance_.
Proof. solve_decision. Defined.

(** [ResultError]: its result code and its masks ([Cause] is a message). [PlainError] is an
    error of another type; [Joined] is [errors.Join] of an error and a later one, which
    [errors.As] searches in order. *)
Inductive MibError :=
| ResultError (Result FailedMask UnsupportedMask : Z)
| PlainError (what : string)
| Joined (first rest : MibError).

Definition result (code : Z) : MibError := ResultError code 0 0.

Record AttributeCapability := mkCapability {
  LowerLimit : Z;
  UpperLimit : Z;
  BitField : Z;
  CodePoints : list Z
}.

Inductive Operation :=
| OperationCreate | OperationSet | OperationSetTable | OperationDelete | OperationReset
| OperationCommand | OperationAutonomous.

Record Change := mkChange {
  ch_Operation : Operation;
  ch_StateDomain : string;
  ch_Before : option Instance_;
  ch_After : option Instance_;
  ch_Snapshot : list Instance_;
  ch_MIBDataSync : Z
}.

Definition ClassID_of (i : Instance_) : Z := fst (i_Key i).
Definition EntityID_of (i : Instance_) : Z := snd (i_Key i).

(** ** Class ids and attribute names (the generated package's constants) *)

Definition OnuDataClassID : Z := 2.
Definition CircuitPackClassID : Z := 6.
Definition PhysicalPathTerminationPointEthernetUniClassID : Z := 11.
Definition ExtendedVlanTaggingOperationConfigurationDataClassID : Z := 171.
Definition OnuGClassID : Z := 256.
Definition AniGClassID : Z := 263.
Definition UniGClassID : Z := 264.
Definition MulticastGemInterworkingTerminationPointClassID : Z := 281.
Definition OmciClassID : Z := 287.
Definition ManagedEntityMeClassID : Z := 288.
Definition AttributeMeClassID : Z := 289.
Definition MulticastOperationsProfileClassID : Z := 309.
Definition MulticastSubscriberConfigInfoClassID : Z := 310.
Definition MulticastSubscriberMonitorClassID : Z := 311.
Definition Onu3GClassID : Z := 441.

Definition OnuData_MibDataSync : string := "MibDataSync".
Definition AniG_SignalFailThreshold : string := "SignalFailThreshold".
Definition AniG_SignalDegradeThreshold : string := "SignalDegradeThreshold".
Definition AniG_LowerOpticalThreshold : string := "LowerOpticalThreshold".
Definition AniG_UpperOpticalThreshold : string := "UpperOpticalThreshold".
Definition AniG_LowerTransmitPowerThreshold : string := "LowerTransmitPowerThreshold".
Definition AniG_UpperTransmitPowerThreshold : string := "UpperTransmitPowerThreshold".
Definition Onu3G_LatestRestartReason : string := "LatestRestartReason".
Definition Onu3G_TotalNumberOfStatusSnapshots : string := "TotalNumberOfStatusSnapshots".
Definition Onu3G_NumberOfValidStatusSnapshots : string := "NumberOfValidStatusSnapshots".
Definition Onu3G_NextStatusSnapshotIndex : string := "NextStatusSnapshotIndex".
Definition Onu3G_StatusSnapshotRecordTable : string := "StatusSnapshotRecordTable".
Definition Onu3G_SnapAction : string := "SnapAction".
Definition Onu3G_MostRecentStatusSnapshot : string := "MostRecentStatusSnapshot".
Definition Onu3G_ResetAction : string := "ResetAction".
Definition Onu3G_EnhancedMode : string := "EnhancedMode".
Definition ExtVlan_MaxSize : string := "ReceivedFrameVlanTaggingOperationTableMaxSize".
Definition ExtVlan_Table : string := "ReceivedFrameVlanTaggingOperationTable".
Definition ExtVlan_EnhancedTable : string := "EnhancedReceivedFrameClassificationAndProcessingTable".
Definition McastGem_Ipv4Table : string := "Ipv4MulticastAddressTable".
Definition McastGem_Ipv6Table : string := "Ipv6MulticastAddressTable".
Definition McastOps_DynamicTable : string := "DynamicAccessControlListTable".
Definition McastOps_StaticTable : string := "StaticAccessControlListTable".
Definition McastOps_LostGroups : string := "LostGroupsListTable".
Definition McastSub_ServicePackageTable : string := "MulticastServicePackageTable".
Definition McastSub_PreviewTable : string := "AllowedPreviewGroupsTable".
Definition McastMon_Ipv4Groups : string := "Ipv4ActiveGroupListTable".
Definition McastMon_Ipv6Groups : string := "Ipv6ActiveGroupListTable".
