(* ===== verification/MeNames.v ===== *)
(** * Class ids and attribute names

    The constants of the vendored package [generated] that the engine, the device model and the
    multicast policy use, beside those Mib.v declares. *)

From S2P Require Import Prelude.

Definition CardholderClassID : Z := 5.
Definition SoftwareImageClassID : Z := 7.
Definition EthernetPerformanceMonitoringHistoryDataClassID : Z := 24.
Definition MacBridgeServiceProfileClassID : Z := 45.
Definition MacBridgePortConfigurationDataClassID : Z := 47.
Definition VlanTaggingOperationConfigurationDataClassID : Z := 78.
Definition PhysicalPathTerminationPointLctUniClassID : Z := 83.
Definition VlanTaggingFilterDataClassID : Z := 84.
Definition Ieee8021PMapperServiceProfileClassID : Z := 130.
Definition SipConfigPortalClassID : Z := 149.
Definition MgcConfigPortalClassID : Z := 154.
Definition Onu2GClassID : Z := 257.
Definition TContClassID : Z := 262.
Definition GemInterworkingTerminationPointClassID : Z := 266.
Definition GemPortNetworkCtpClassID : Z := 268.
Definition GalEthernetProfileClassID : Z := 272.
Definition ThresholdData1ClassID : Z := 273.
Definition ThresholdData2ClassID : Z := 274.
Definition PriorityQueueClassID : Z := 277.
Definition TrafficSchedulerClassID : Z := 278.
Definition TrafficDescriptorClassID : Z := 280.
Definition EthernetPerformanceMonitoringHistoryData3ClassID : Z := 296.
Definition Dot1RateLimiterClassID : Z := 298.
Definition GeneralPurposeBufferClassID : Z := 308.
Definition FecPerformanceMonitoringHistoryDataClassID : Z := 312.
Definition EthernetFramePerformanceMonitoringHistoryDataDownstreamClassID : Z := 321.
Definition EthernetFramePerformanceMonitoringHistoryDataUpstreamClassID : Z := 322.
Definition GemPortNetworkCtpPerformanceMonitoringHistoryDataClassID : Z := 341.
Definition XgPonTcPerformanceMonitoringHistoryDataClassID : Z := 344.
Definition XgPonDownstreamManagementPerformanceMonitoringHistoryDataClassID : Z := 345.
Definition XgPonUpstreamManagementPerformanceMonitoringHistoryDataClassID : Z := 346.

Definition AniG_Arc : string := "Arc".
Definition AniG_ArcInterval : string := "ArcInterval".
Definition AniG_Deprecated : string := "Deprecated".
Definition AniG_GemBlockLength : string := "GemBlockLength".
Definition AniG_OnuResponseTime : string := "OnuResponseTime".
Definition AniG_OpticalSignalLevel : string := "OpticalSignalLevel".
Definition AniG_PiggybackDbaReporting : string := "PiggybackDbaReporting".
Definition AniG_SrIndication : string := "SrIndication".
Definition AniG_TotalTcontNumber : string := "TotalTcontNumber".
Definition AniG_TransmitOpticalLevel : string := "TransmitOpticalLevel".
Definition AttributeMe_Access : string := "Access".
Definition AttributeMe_BitField : string := "BitField".
Definition AttributeMe_CodePointsTable : string := "CodePointsTable".
Definition AttributeMe_Format : string := "Format".
Definition AttributeMe_LowerLimit : string := "LowerLimit".
Definition AttributeMe_Name : string := "Name".
Definition AttributeMe_Size : string := "Size".
Definition AttributeMe_Support : string := "Support".
Definition AttributeMe_UpperLimit : string := "UpperLimit".
Definition Cardholder_ActualPlugInUnitType : string := "ActualPlugInUnitType".
Definition Cardholder_ExpectedPlugInUnitType : string := "ExpectedPlugInUnitType".
Definition CircuitPack_AdministrativeState : string := "AdministrativeState".
Definition CircuitPack_BridgedOrIpInd : string := "BridgedOrIpInd".
Definition CircuitPack_EquipmentId : string := "EquipmentId".
Definition CircuitPack_NumberOfPorts : string := "NumberOfPorts".
Definition CircuitPack_OperationalState : string := "OperationalState".
Definition CircuitPack_SerialNumber : string := "SerialNumber".
Definition CircuitPack_TotalPriorityQueueNumber : string := "TotalPriorityQueueNumber".
Definition CircuitPack_TotalTContBufferNumber : string := "TotalTContBufferNumber".
Definition CircuitPack_TotalTrafficSchedulerNumber : string := "TotalTrafficSchedulerNumber".
Definition CircuitPack_Type : string := "Type".
Definition CircuitPack_VendorId : string := "VendorId".
Definition CircuitPack_Version : string := "Version".
Definition Dot1RateLimiter_ParentMePointer : string := "ParentMePointer".
Definition Dot1RateLimiter_TpType : string := "TpType".
Definition Dot1RateLimiter_UpstreamBroadcastRatePointer : string := "UpstreamBroadcastRatePointer".
Definition Dot1RateLimiter_UpstreamMulticastPayloadRatePointer : string := "UpstreamMulticastPayloadRatePointer".
Definition Dot1RateLimiter_UpstreamUnicastFloodRatePointer : string := "UpstreamUnicastFloodRatePointer".
Definition EthernetFramePerformanceMonitoringHistoryDataDownstream_BroadcastPackets : string := "BroadcastPackets".
Definition EthernetFramePerformanceMonitoringHistoryDataDownstream_CrcErroredPackets : string := "CrcErroredPackets".
Definition EthernetFramePerformanceMonitoringHistoryDataDownstream_DropEvents : string := "DropEvents".
Definition EthernetFramePerformanceMonitoringHistoryDataDownstream_IntervalEndTime : string := "IntervalEndTime".
Definition EthernetFramePerformanceMonitoringHistoryDataDownstream_MulticastPackets : string := "MulticastPackets".
Definition EthernetFramePerformanceMonitoringHistoryDataDownstream_Octets : string := "Octets".
Definition EthernetFramePerformanceMonitoringHistoryDataDownstream_OversizePackets : string := "OversizePackets".
Definition EthernetFramePerformanceMonitoringHistoryDataDownstream_Packets : string := "Packets".
Definition EthernetFramePerformanceMonitoringHistoryDataDownstream_Packets1024To1518Octets : string := "Packets1024To1518Octets".
Definition EthernetFramePerformanceMonitoringHistoryDataDownstream_Packets128To255Octets : string := "Packets128To255Octets".
Definition EthernetFramePerformanceMonitoringHistoryDataDownstream_Packets256To511Octets : string := "Packets256To511Octets".
Definition EthernetFramePerformanceMonitoringHistoryDataDownstream_Packets512To1023Octets : string := "Packets512To1023Octets".
Definition EthernetFramePerformanceMonitoringHistoryDataDownstream_Packets64Octets : string := "Packets64Octets".
Definition EthernetFramePerformanceMonitoringHistoryDataDownstream_Packets65To127Octets : string := "Packets65To127Octets".
Definition EthernetFramePerformanceMonitoringHistoryDataDownstream_UndersizePackets : string := "UndersizePackets".
Definition EthernetFramePerformanceMonitoringHistoryDataUpstream_BroadcastPackets : string := "BroadcastPackets".
Definition EthernetFramePerformanceMonitoringHistoryDataUpstream_CrcErroredPackets : string := "CrcErroredPackets".
Definition EthernetFramePerformanceMonitoringHistoryDataUpstream_DropEvents : string := "DropEvents".
Definition EthernetFramePerformanceMonitoringHistoryDataUpstream_IntervalEndTime : string := "IntervalEndTime".
Definition EthernetFramePerformanceMonitoringHistoryDataUpstream_MulticastPackets : string := "MulticastPackets".
Definition EthernetFramePerformanceMonitoringHistoryDataUpstream_Octets : string := "Octets".
Definition EthernetFramePerformanceMonitoringHistoryDataUpstream_OversizePackets : string := "OversizePackets".
Definition EthernetFramePerformanceMonitoringHistoryDataUpstream_Packets : string := "Packets".
Definition EthernetFramePerformanceMonitoringHistoryDataUpstream_Packets1024To1518Octets : string := "Packets1024To1518Octets".
Definition EthernetFramePerformanceMonitoringHistoryDataUpstream_Packets128To255Octets : string := "Packets128To255Octets".
Definition EthernetFramePerformanceMonitoringHistoryDataUpstream_Packets256To511Octets : string := "Packets256To511Octets".
Definition EthernetFramePerformanceMonitoringHistoryDataUpstream_Packets512To1023Octets : string := "Packets512To1023Octets".
Definition EthernetFramePerformanceMonitoringHistoryDataUpstream_Packets64Octets : string := "Packets64Octets".
Definition EthernetFramePerformanceMonitoringHistoryDataUpstream_Packets65To127Octets : string := "Packets65To127Octets".
Definition EthernetFramePerformanceMonitoringHistoryDataUpstream_UndersizePackets : string := "UndersizePackets".
Definition EthernetPerformanceMonitoringHistoryData3_BroadcastPackets : string := "BroadcastPackets".
Definition EthernetPerformanceMonitoringHistoryData3_DropEvents : string := "DropEvents".
Definition EthernetPerformanceMonitoringHistoryData3_Fragments : string := "Fragments".
Definition EthernetPerformanceMonitoringHistoryData3_IntervalEndTime : string := "IntervalEndTime".
Definition EthernetPerformanceMonitoringHistoryData3_Jabbers : string := "Jabbers".
Definition EthernetPerformanceMonitoringHistoryData3_MulticastPackets : string := "MulticastPackets".
Definition EthernetPerformanceMonitoringHistoryData3_Octets : string := "Octets".
Definition EthernetPerformanceMonitoringHistoryData3_Packets : string := "Packets".
Definition EthernetPerformanceMonitoringHistoryData3_Packets1024To1518Octets : string := "Packets1024To1518Octets".
Definition EthernetPerformanceMonitoringHistoryData3_Packets128To255Octets : string := "Packets128To255Octets".
Definition EthernetPerformanceMonitoringHistoryData3_Packets256To511Octets : string := "Packets256To511Octets".
Definition EthernetPerformanceMonitoringHistoryData3_Packets512To1023Octets : string := "Packets512To1023Octets".
Definition EthernetPerformanceMonitoringHistoryData3_Packets64Octets : string := "Packets64Octets".
Definition EthernetPerformanceMonitoringHistoryData3_Packets65To127Octets : string := "Packets65To127Octets".
Definition EthernetPerformanceMonitoringHistoryData3_UndersizePackets : string := "UndersizePackets".
Definition EthernetPerformanceMonitoringHistoryData_AlignmentErrorCounter : string := "AlignmentErrorCounter".
Definition EthernetPerformanceMonitoringHistoryData_BufferOverflowsOnReceive : string := "BufferOverflowsOnReceive".
Definition EthernetPerformanceMonitoringHistoryData_BufferOverflowsOnTransmit : string := "BufferOverflowsOnTransmit".
Definition EthernetPerformanceMonitoringHistoryData_CarrierSenseErrorCounter : string := "CarrierSenseErrorCounter".
Definition EthernetPerformanceMonitoringHistoryData_DeferredTransmissionCounter : string := "DeferredTransmissionCounter".
Definition EthernetPerformanceMonitoringHistoryData_ExcessiveCollisionCounter : string := "ExcessiveCollisionCounter".
Definition EthernetPerformanceMonitoringHistoryData_FcsErrors : string := "FcsErrors".
Definition EthernetPerformanceMonitoringHistoryData_FramesTooLong : string := "FramesTooLong".
Definition EthernetPerformanceMonitoringHistoryData_InternalMacReceiveErrorCounter : string := "InternalMacReceiveErrorCounter".
Definition EthernetPerformanceMonitoringHistoryData_InternalMacTransmitErrorCounter : string := "InternalMacTransmitErrorCounter".
Definition EthernetPerformanceMonitoringHistoryData_IntervalEndTime : string := "IntervalEndTime".
Definition EthernetPerformanceMonitoringHistoryData_LateCollisionCounter : string := "LateCollisionCounter".
Definition EthernetPerformanceMonitoringHistoryData_MultipleCollisionsFrameCounter : string := "MultipleCollisionsFrameCounter".
Definition EthernetPerformanceMonitoringHistoryData_SingleCollisionFrameCounter : string := "SingleCollisionFrameCounter".
Definition EthernetPerformanceMonitoringHistoryData_SqeCounter : string := "SqeCounter".
Definition ExtendedVlanTaggingOperationConfigurationData_AssociatedMePointer : string := "AssociatedMePointer".
Definition ExtendedVlanTaggingOperationConfigurationData_AssociationType : string := "AssociationType".
Definition ExtendedVlanTaggingOperationConfigurationData_DownstreamMode : string := "DownstreamMode".
Definition ExtendedVlanTaggingOperationConfigurationData_DscpToPBitMapping : string := "DscpToPBitMapping".
Definition ExtendedVlanTaggingOperationConfigurationData_EnhancedMode : string := "EnhancedMode".
Definition ExtendedVlanTaggingOperationConfigurationData_EnhancedReceivedFrameClassificationAndProcessingTable : string := "EnhancedReceivedFrameClassificationAndProcessingTable".
Definition ExtendedVlanTaggingOperationConfigurationData_InputTpid : string := "InputTpid".
Definition ExtendedVlanTaggingOperationConfigurationData_OutputTpid : string := "OutputTpid".
Definition ExtendedVlanTaggingOperationConfigurationData_ReceivedFrameVlanTaggingOperationTable : string := "ReceivedFrameVlanTaggingOperationTable".
Definition ExtendedVlanTaggingOperationConfigurationData_ReceivedFrameVlanTaggingOperationTableMaxSize : string := "ReceivedFrameVlanTaggingOperationTableMaxSize".
Definition FecPerformanceMonitoringHistoryData_CorrectedBytes : string := "CorrectedBytes".
Definition FecPerformanceMonitoringHistoryData_CorrectedCodeWords : string := "CorrectedCodeWords".
Definition FecPerformanceMonitoringHistoryData_FecSeconds : string := "FecSeconds".
Definition FecPerformanceMonitoringHistoryData_IntervalEndTime : string := "IntervalEndTime".
Definition FecPerformanceMonitoringHistoryData_TotalCodeWords : string := "TotalCodeWords".
Definition FecPerformanceMonitoringHistoryData_UncorrectableCodeWords : string := "UncorrectableCodeWords".
Definition GalEthernetProfile_MaximumGemPayloadSize : string := "MaximumGemPayloadSize".
Definition GemInterworkingTerminationPoint_GalLoopbackConfiguration : string := "GalLoopbackConfiguration".
Definition GemInterworkingTerminationPoint_GalProfilePointer : string := "GalProfilePointer".
Definition GemInterworkingTerminationPoint_GemPortNetworkCtpConnectivityPointer : string := "GemPortNetworkCtpConnectivityPointer".
Definition GemInterworkingTerminationPoint_InterworkingOption : string := "InterworkingOption".
Definition GemInterworkingTerminationPoint_InterworkingTerminationPointPointer : string := "InterworkingTerminationPointPointer".
Definition GemInterworkingTerminationPoint_ServiceProfilePointer : string := "ServiceProfilePointer".
Definition GemPortNetworkCtpPerformanceMonitoringHistoryData_IntervalEndTime : string := "IntervalEndTime".
Definition GemPortNetworkCtpPerformanceMonitoringHistoryData_ReceivedGemFrames : string := "ReceivedGemFrames".
Definition GemPortNetworkCtpPerformanceMonitoringHistoryData_ReceivedPayloadBytes : string := "ReceivedPayloadBytes".
Definition GemPortNetworkCtpPerformanceMonitoringHistoryData_ThresholdData12Id : string := "ThresholdData12Id".
Definition GemPortNetworkCtpPerformanceMonitoringHistoryData_TransmittedGemFrames : string := "TransmittedGemFrames".
Definition GemPortNetworkCtpPerformanceMonitoringHistoryData_TransmittedPayloadBytes : string := "TransmittedPayloadBytes".
Definition GemPortNetworkCtp_Direction : string := "Direction".
Definition GemPortNetworkCtp_EncryptionKeyRing : string := "EncryptionKeyRing".
Definition GemPortNetworkCtp_PortId : string := "PortId".
Definition GemPortNetworkCtp_PriorityQueuePointerForDownStream : string := "PriorityQueuePointerForDownStream".
Definition GemPortNetworkCtp_TContPointer : string := "TContPointer".
Definition GemPortNetworkCtp_TrafficDescriptorProfilePointerForDownstream : string := "TrafficDescriptorProfilePointerForDownstream".
Definition GemPortNetworkCtp_TrafficDescriptorProfilePointerForUpstream : string := "TrafficDescriptorProfilePointerForUpstream".
Definition GemPortNetworkCtp_TrafficManagementPointerForUpstream : string := "TrafficManagementPointerForUpstream".
Definition Ieee8021PMapperServiceProfile_DefaultPBitAssumption : string := "DefaultPBitAssumption".
Definition Ieee8021PMapperServiceProfile_DscpToPBitMapping : string := "DscpToPBitMapping".
Definition Ieee8021PMapperServiceProfile_InterworkTpPointerForPBitPriority0 : string := "InterworkTpPointerForPBitPriority0".
Definition Ieee8021PMapperServiceProfile_InterworkTpPointerForPBitPriority1 : string := "InterworkTpPointerForPBitPriority1".
Definition Ieee8021PMapperServiceProfile_InterworkTpPointerForPBitPriority2 : string := "InterworkTpPointerForPBitPriority2".
Definition Ieee8021PMapperServiceProfile_InterworkTpPointerForPBitPriority3 : string := "InterworkTpPointerForPBitPriority3".
Definition Ieee8021PMapperServiceProfile_InterworkTpPointerForPBitPriority4 : string := "InterworkTpPointerForPBitPriority4".
Definition Ieee8021PMapperServiceProfile_InterworkTpPointerForPBitPriority5 : string := "InterworkTpPointerForPBitPriority5".
Definition Ieee8021PMapperServiceProfile_InterworkTpPointerForPBitPriority6 : string := "InterworkTpPointerForPBitPriority6".
Definition Ieee8021PMapperServiceProfile_InterworkTpPointerForPBitPriority7 : string := "InterworkTpPointerForPBitPriority7".
Definition Ieee8021PMapperServiceProfile_TpPointer : string := "TpPointer".
Definition Ieee8021PMapperServiceProfile_TpType : string := "TpType".
Definition Ieee8021PMapperServiceProfile_UnmarkedFrameOption : string := "UnmarkedFrameOption".
Definition MacBridgePortConfigurationData_BridgeIdPointer : string := "BridgeIdPointer".
Definition MacBridgePortConfigurationData_InboundTdPointer : string := "InboundTdPointer".
Definition MacBridgePortConfigurationData_MacLearningDepth : string := "MacLearningDepth".
Definition MacBridgePortConfigurationData_OutboundTdPointer : string := "OutboundTdPointer".
Definition MacBridgePortConfigurationData_PortNum : string := "PortNum".
Definition MacBridgePortConfigurationData_PortPathCost : string := "PortPathCost".
Definition MacBridgePortConfigurationData_PortPriority : string := "PortPriority".
Definition MacBridgePortConfigurationData_PortSpanningTreeInd : string := "PortSpanningTreeInd".
Definition MacBridgePortConfigurationData_TpPointer : string := "TpPointer".
Definition MacBridgePortConfigurationData_TpType : string := "TpType".
Definition MacBridgeServiceProfile_DynamicFilteringAgeingTime : string := "DynamicFilteringAgeingTime".
Definition MacBridgeServiceProfile_ForwardDelay : string := "ForwardDelay".
Definition MacBridgeServiceProfile_HelloTime : string := "HelloTime".
Definition MacBridgeServiceProfile_LearningInd : string := "LearningInd".
Definition MacBridgeServiceProfile_MacLearningDepth : string := "MacLearningDepth".
Definition MacBridgeServiceProfile_MaxAge : string := "MaxAge".
Definition MacBridgeServiceProfile_PortBridgingInd : string := "PortBridgingInd".
Definition MacBridgeServiceProfile_Priority : string := "Priority".
Definition MacBridgeServiceProfile_SpanningTreeInd : string := "SpanningTreeInd".
Definition MacBridgeServiceProfile_UnknownMacAddressDiscard : string := "UnknownMacAddressDiscard".
Definition ManagedEntityMe_Access : string := "Access".
Definition ManagedEntityMe_Actions : string := "Actions".
Definition ManagedEntityMe_AlarmsTable : string := "AlarmsTable".
Definition ManagedEntityMe_AttributesTable : string := "AttributesTable".
Definition ManagedEntityMe_AvcsTable : string := "AvcsTable".
Definition ManagedEntityMe_InstancesTable : string := "InstancesTable".
Definition ManagedEntityMe_Name : string := "Name".
Definition ManagedEntityMe_Support : string := "Support".
Definition MulticastGemInterworkingTerminationPoint_GalProfilePointer : string := "GalProfilePointer".
Definition MulticastGemInterworkingTerminationPoint_GemPortNetworkCtpConnectivityPointer : string := "GemPortNetworkCtpConnectivityPointer".
Definition MulticastGemInterworkingTerminationPoint_InterworkingOption : string := "InterworkingOption".
Definition MulticastGemInterworkingTerminationPoint_Ipv4MulticastAddressTable : string := "Ipv4MulticastAddressTable".
Definition MulticastGemInterworkingTerminationPoint_Ipv6MulticastAddressTable : string := "Ipv6MulticastAddressTable".
Definition MulticastGemInterworkingTerminationPoint_NotUsed1 : string := "NotUsed1".
Definition MulticastGemInterworkingTerminationPoint_NotUsed2 : string := "NotUsed2".
Definition MulticastGemInterworkingTerminationPoint_ServiceProfilePointer : string := "ServiceProfilePointer".
Definition MulticastOperationsProfile_DownstreamIgmpAndMulticastTci : string := "DownstreamIgmpAndMulticastTci".
Definition MulticastOperationsProfile_DynamicAccessControlListTable : string := "DynamicAccessControlListTable".
Definition MulticastOperationsProfile_IgmpFunction : string := "IgmpFunction".
Definition MulticastOperationsProfile_IgmpVersion : string := "IgmpVersion".
Definition MulticastOperationsProfile_ImmediateLeave : string := "ImmediateLeave".
Definition MulticastOperationsProfile_LastMemberQueryInterval : string := "LastMemberQueryInterval".
Definition MulticastOperationsProfile_QuerierIpAddress : string := "QuerierIpAddress".
Definition MulticastOperationsProfile_QueryInterval : string := "QueryInterval".
Definition MulticastOperationsProfile_QueryMaxResponseTime : string := "QueryMaxResponseTime".
Definition MulticastOperationsProfile_Robustness : string := "Robustness".
Definition MulticastOperationsProfile_StaticAccessControlListTable : string := "StaticAccessControlListTable".
Definition MulticastOperationsProfile_UnauthorizedJoinRequestBehaviour : string := "UnauthorizedJoinRequestBehaviour".
Definition MulticastOperationsProfile_UpstreamIgmpRate : string := "UpstreamIgmpRate".
Definition MulticastOperationsProfile_UpstreamIgmpTagControl : string := "UpstreamIgmpTagControl".
Definition MulticastOperationsProfile_UpstreamIgmpTci : string := "UpstreamIgmpTci".
Definition MulticastSubscriberConfigInfo_AllowedPreviewGroupsTable : string := "AllowedPreviewGroupsTable".
Definition MulticastSubscriberConfigInfo_BandwidthEnforcement : string := "BandwidthEnforcement".
Definition MulticastSubscriberConfigInfo_MaxMulticastBandwidth : string := "MaxMulticastBandwidth".
Definition MulticastSubscriberConfigInfo_MaxSimultaneousGroups : string := "MaxSimultaneousGroups".
Definition MulticastSubscriberConfigInfo_MeType : string := "MeType".
Definition MulticastSubscriberConfigInfo_MulticastOperationsProfilePointer : string := "MulticastOperationsProfilePointer".
Definition MulticastSubscriberConfigInfo_MulticastServicePackageTable : string := "MulticastServicePackageTable".
Definition MulticastSubscriberMonitor_BandwidthExceededCounter : string := "BandwidthExceededCounter".
Definition MulticastSubscriberMonitor_CurrentMulticastBandwidth : string := "CurrentMulticastBandwidth".
Definition MulticastSubscriberMonitor_Ipv4ActiveGroupListTable : string := "Ipv4ActiveGroupListTable".
Definition MulticastSubscriberMonitor_Ipv6ActiveGroupListTable : string := "Ipv6ActiveGroupListTable".
Definition MulticastSubscriberMonitor_JoinMessagesCounter : string := "JoinMessagesCounter".
Definition MulticastSubscriberMonitor_MeType : string := "MeType".
Definition Omci_MeTypeTable : string := "MeTypeTable".
Definition Omci_MessageTypeTable : string := "MessageTypeTable".
Definition Onu2G_ConnectivityCapability : string := "ConnectivityCapability".
Definition Onu2G_CurrentConnectivityMode : string := "CurrentConnectivityMode".
Definition Onu2G_Deprecated : string := "Deprecated".
Definition Onu2G_EquipmentId : string := "EquipmentId".
Definition Onu2G_OpticalNetworkUnitManagementAndControlChannelOmccVersion : string := "OpticalNetworkUnitManagementAndControlChannelOmccVersion".
Definition Onu2G_PriorityQueueScaleFactor : string := "PriorityQueueScaleFactor".
Definition Onu2G_QualityOfServiceQosConfigurationFlexibility : string := "QualityOfServiceQosConfigurationFlexibility".
Definition Onu2G_SecurityCapability : string := "SecurityCapability".
Definition Onu2G_SecurityMode : string := "SecurityMode".
Definition Onu2G_TotalGemPortIdNumber : string := "TotalGemPortIdNumber".
Definition Onu2G_TotalPriorityQueueNumber : string := "TotalPriorityQueueNumber".
Definition Onu2G_TotalTrafficSchedulerNumber : string := "TotalTrafficSchedulerNumber".
Definition Onu2G_VendorProductCode : string := "VendorProductCode".
Definition OnuG_AdministrativeState : string := "AdministrativeState".
Definition OnuG_BatteryBackup : string := "BatteryBackup".
Definition OnuG_OperationalState : string := "OperationalState".
Definition OnuG_SerialNumber : string := "SerialNumber".
Definition OnuG_TrafficManagementOption : string := "TrafficManagementOption".
Definition OnuG_VendorId : string := "VendorId".
Definition OnuG_Version : string := "Version".
Definition PhysicalPathTerminationPointEthernetUni_AdministrativeState : string := "AdministrativeState".
Definition PhysicalPathTerminationPointEthernetUni_Arc : string := "Arc".
Definition PhysicalPathTerminationPointEthernetUni_ArcInterval : string := "ArcInterval".
Definition PhysicalPathTerminationPointEthernetUni_AutoDetectionConfiguration : string := "AutoDetectionConfiguration".
Definition PhysicalPathTerminationPointEthernetUni_BridgedOrIpInd : string := "BridgedOrIpInd".
Definition PhysicalPathTerminationPointEthernetUni_ConfigurationInd : string := "ConfigurationInd".
Definition PhysicalPathTerminationPointEthernetUni_ExpectedType : string := "ExpectedType".
Definition PhysicalPathTerminationPointEthernetUni_MaxFrameSize : string := "MaxFrameSize".
Definition PhysicalPathTerminationPointEthernetUni_OperationalState : string := "OperationalState".
Definition PhysicalPathTerminationPointEthernetUni_SensedType : string := "SensedType".
Definition PriorityQueue_AllocatedQueueSize : string := "AllocatedQueueSize".
Definition PriorityQueue_MaximumQueueSize : string := "MaximumQueueSize".
Definition PriorityQueue_QueueConfigurationOption : string := "QueueConfigurationOption".
Definition PriorityQueue_RelatedPort : string := "RelatedPort".
Definition PriorityQueue_TrafficSchedulerPointer : string := "TrafficSchedulerPointer".
Definition PriorityQueue_Weight : string := "Weight".
Definition SoftwareImage_ImageHash : string := "ImageHash".
Definition SoftwareImage_IsActive : string := "IsActive".
Definition SoftwareImage_IsCommitted : string := "IsCommitted".
Definition SoftwareImage_IsValid : string := "IsValid".
Definition SoftwareImage_ProductCode : string := "ProductCode".
Definition SoftwareImage_Version : string := "Version".
Definition TCont_AllocId : string := "AllocId".
Definition TCont_Policy : string := "Policy".
Definition ThresholdData1_ThresholdValue1 : string := "ThresholdValue1".
Definition ThresholdData1_ThresholdValue2 : string := "ThresholdValue2".
Definition ThresholdData1_ThresholdValue3 : string := "ThresholdValue3".
Definition ThresholdData1_ThresholdValue4 : string := "ThresholdValue4".
Definition ThresholdData1_ThresholdValue5 : string := "ThresholdValue5".
Definition ThresholdData1_ThresholdValue6 : string := "ThresholdValue6".
Definition ThresholdData1_ThresholdValue7 : string := "ThresholdValue7".
Definition ThresholdData2_ThresholdValue10 : string := "ThresholdValue10".
Definition ThresholdData2_ThresholdValue11 : string := "ThresholdValue11".
Definition ThresholdData2_ThresholdValue12 : string := "ThresholdValue12".
Definition ThresholdData2_ThresholdValue13 : string := "ThresholdValue13".
Definition ThresholdData2_ThresholdValue14 : string := "ThresholdValue14".
Definition ThresholdData2_ThresholdValue8 : string := "ThresholdValue8".
Definition ThresholdData2_ThresholdValue9 : string := "ThresholdValue9".
Definition TrafficDescriptor_Cbs : string := "Cbs".
Definition TrafficDescriptor_Cir : string := "Cir".
Definition TrafficDescriptor_ColourMode : string := "ColourMode".
Definition TrafficDescriptor_EgressColourMarking : string := "EgressColourMarking".
Definition TrafficDescriptor_IngressColourMarking : string := "IngressColourMarking".
Definition TrafficDescriptor_MeterType : string := "MeterType".
Definition TrafficDescriptor_Pbs : string := "Pbs".
Definition TrafficDescriptor_Pir : string := "Pir".
Definition TrafficScheduler_Policy : string := "Policy".
Definition TrafficScheduler_PriorityWeight : string := "PriorityWeight".
Definition TrafficScheduler_TContPointer : string := "TContPointer".
Definition TrafficScheduler_TrafficSchedulerPointer : string := "TrafficSchedulerPointer".
Definition UniG_AdministrativeState : string := "AdministrativeState".
Definition UniG_Deprecated : string := "Deprecated".
Definition UniG_ManagementCapability : string := "ManagementCapability".
Definition VlanTaggingFilterData_ForwardOperation : string := "ForwardOperation".
Definition VlanTaggingFilterData_NumberOfEntries : string := "NumberOfEntries".
Definition VlanTaggingFilterData_VlanFilterList : string := "VlanFilterList".
Definition VlanTaggingOperationConfigurationData_AssociatedMePointer : string := "AssociatedMePointer".
Definition VlanTaggingOperationConfigurationData_AssociationType : string := "AssociationType".
Definition VlanTaggingOperationConfigurationData_DownstreamVlanTaggingOperationMode : string := "DownstreamVlanTaggingOperationMode".
Definition VlanTaggingOperationConfigurationData_UpstreamVlanTagTciValue : string := "UpstreamVlanTagTciValue".
Definition VlanTaggingOperationConfigurationData_UpstreamVlanTaggingOperationMode : string := "UpstreamVlanTaggingOperationMode".
Definition XgPonDownstreamManagementPerformanceMonitoringHistoryData_AssignAllocIdMessagesReceived : string := "AssignAllocIdMessagesReceived".
Definition XgPonDownstreamManagementPerformanceMonitoringHistoryData_AssignOnuIdMessagesReceived : string := "AssignOnuIdMessagesReceived".
Definition XgPonDownstreamManagementPerformanceMonitoringHistoryData_BaselineOmciMessagesReceivedCount : string := "BaselineOmciMessagesReceivedCount".
Definition XgPonDownstreamManagementPerformanceMonitoringHistoryData_DeactivateOnuIdMessagesReceived : string := "DeactivateOnuIdMessagesReceived".
Definition XgPonDownstreamManagementPerformanceMonitoringHistoryData_DisableSerialNumberMessagesReceived : string := "DisableSerialNumberMessagesReceived".
Definition XgPonDownstreamManagementPerformanceMonitoringHistoryData_DownstreamPloamMessagesCount : string := "DownstreamPloamMessagesCount".
Definition XgPonDownstreamManagementPerformanceMonitoringHistoryData_ExtendedOmciMessagesReceivedCount : string := "ExtendedOmciMessagesReceivedCount".
Definition XgPonDownstreamManagementPerformanceMonitoringHistoryData_IntervalEndTime : string := "IntervalEndTime".
Definition XgPonDownstreamManagementPerformanceMonitoringHistoryData_KeyControlMessagesReceived : string := "KeyControlMessagesReceived".
Definition XgPonDownstreamManagementPerformanceMonitoringHistoryData_OmciMicErrorCount : string := "OmciMicErrorCount".
Definition XgPonDownstreamManagementPerformanceMonitoringHistoryData_PloamMessageIntegrityCheckMicErrorCount : string := "PloamMessageIntegrityCheckMicErrorCount".
Definition XgPonDownstreamManagementPerformanceMonitoringHistoryData_ProfileMessagesReceived : string := "ProfileMessagesReceived".
Definition XgPonDownstreamManagementPerformanceMonitoringHistoryData_RangingTimeMessagesReceived : string := "RangingTimeMessagesReceived".
Definition XgPonDownstreamManagementPerformanceMonitoringHistoryData_RequestRegistrationMessagesReceived : string := "RequestRegistrationMessagesReceived".
Definition XgPonDownstreamManagementPerformanceMonitoringHistoryData_SleepAllowMessagesReceived : string := "SleepAllowMessagesReceived".
Definition XgPonTcPerformanceMonitoringHistoryData_FragmentXgemFrames : string := "FragmentXgemFrames".
Definition XgPonTcPerformanceMonitoringHistoryData_IntervalEndTime : string := "IntervalEndTime".
Definition XgPonTcPerformanceMonitoringHistoryData_LodsEventRestoredCount : string := "LodsEventRestoredCount".
Definition XgPonTcPerformanceMonitoringHistoryData_LossOfDownstreamSynchronizationLodsEventCount : string := "LossOfDownstreamSynchronizationLodsEventCount".
Definition XgPonTcPerformanceMonitoringHistoryData_OnuReactivationByLodsEvents : string := "OnuReactivationByLodsEvents".
Definition XgPonTcPerformanceMonitoringHistoryData_PsbdHecErrorCount : string := "PsbdHecErrorCount".
Definition XgPonTcPerformanceMonitoringHistoryData_ReceivedBytesInNonIdleXgemFrames : string := "ReceivedBytesInNonIdleXgemFrames".
Definition XgPonTcPerformanceMonitoringHistoryData_TransmittedBytesInNonIdleXgemFrames : string := "TransmittedBytesInNonIdleXgemFrames".
Definition XgPonTcPerformanceMonitoringHistoryData_TransmittedXgPonEncapsulationMethodXgemFrames : string := "TransmittedXgPonEncapsulationMethodXgemFrames".
Definition XgPonTcPerformanceMonitoringHistoryData_UnknownProfileCount : string := "UnknownProfileCount".
Definition XgPonTcPerformanceMonitoringHistoryData_XgemHecErrorCount : string := "XgemHecErrorCount".
Definition XgPonTcPerformanceMonitoringHistoryData_XgemHecLostWordsCount : string := "XgemHecLostWordsCount".
Definition XgPonTcPerformanceMonitoringHistoryData_XgemKeyErrors : string := "XgemKeyErrors".
Definition XgPonTcPerformanceMonitoringHistoryData_XgtcHecErrorCount : string := "XgtcHecErrorCount".
Definition XgPonUpstreamManagementPerformanceMonitoringHistoryData_AcknowledgeMessageCount : string := "AcknowledgeMessageCount".
Definition XgPonUpstreamManagementPerformanceMonitoringHistoryData_IntervalEndTime : string := "IntervalEndTime".
Definition XgPonUpstreamManagementPerformanceMonitoringHistoryData_KeyReportMessageCount : string := "KeyReportMessageCount".
Definition XgPonUpstreamManagementPerformanceMonitoringHistoryData_RegistrationMessageCount : string := "RegistrationMessageCount".
Definition XgPonUpstreamManagementPerformanceMonitoringHistoryData_SerialNumberOnuMessageCount : string := "SerialNumberOnuMessageCount".
Definition XgPonUpstreamManagementPerformanceMonitoringHistoryData_SleepRequestMessageCount : string := "SleepRequestMessageCount".
Definition XgPonUpstreamManagementPerformanceMonitoringHistoryData_UpstreamPloamMessageCount : string := "UpstreamPloamMessageCount".
