(* ===== verification/Table.v ===== *)
(** * MIB tables

    The row algebra of src/internal/mib/table.go: how a SetTable request's rows update a
    stored table, class by class.  A Go map of rows is a [gmap]; the sorted emission of its
    rows is [sortedRows]. *)

From S2P Require Import Prelude Maps MeTypes MeClasses MeLib Mib.
From S2P Require Vlan.

Definition extendedVLANRowSize : nat := 16.
Definition enhancedExtendedVLANRowSize : nat := 28.
Definition multicastIPv4RowSize : nat := 12.
Definition multicastIPv6RowSize : nat := 24.
Definition multicastACLRowSize : nat := 24.
Definition multicastServiceRowSize : nat := 20.
Definition multicastPreviewRowSize : nat := 22.

Definition tableSetControlMask : Z := 0xc000.
Definition tableRowPartMask : Z := 0x3800.
Definition tableTestMask : Z := 0x0400.
Definition tableRowKeyMask : Z := 0x03ff.

Definition extendedVLANDefaultRows : list Z :=
  [0xf8; 0; 0; 0; 0xf8; 0; 0; 0; 0; 0x0f; 0; 0; 0; 0x0f; 0; 0;
   0xf8; 0; 0; 0; 0xe8; 0; 0; 0; 0; 0x0f; 0; 0; 0; 0x0f; 0; 0;
   0xe8; 0; 0; 0; 0xe8; 0; 0; 0; 0; 0x0f; 0; 0; 0; 0x0f; 0; 0].

(** ** Rows of a table *)

Fixpoint chunks (fuel n : nat) (l : list Z) : list (list Z) :=
  match fuel with
  | O => []
  | S fuel' =>
      match l with
      | [] => []
      | _ => take n l :: chunks fuel' n (drop n l)
      end
  end.

(** The rows the loops [for offset := 0; offset < len(l); offset += n] visit. *)
Definition rowsOf (n : nat) (l : list Z) : list (list Z) := chunks (length l) n l.

Definition allBytes (value : list Z) (expected : Z) : bool :=
  negb (length value =? 0)%nat && forallb (λ b, b =? expected) value.

Section table.
Context {MR : MapRange}.

(** The rows of a row map in the order of their keys. *)
Definition sortedRows {K} `{Countable K} (le : relation K) `{∀ x y, Decision (le x y)}
    (rows : gmap K (list Z)) : list Z :=
  concat (map (λ key, default [] (rows !! key)) (sortedKeys le rows)).

(** ** Rows keyed by a prefix *)

Definition keyedStore (keySize : nat) (rows : gmap (list Z) (list Z)) (row : list Z)
    : gmap (list Z) (list Z) :=
  <[take keySize row := row]> rows.

Definition keyedUpdate (keySize : nat) (deleted : list Z → bool)
    (rows : gmap (list Z) (list Z)) (row : list Z) : gmap (list Z) (list Z) :=
  if deleted row then delete (take keySize row) rows else <[take keySize row := row]> rows.

Definition keyedRows (existing updates : list Z) (rowSize keySize : nat) (deleted : list Z → bool)
    : gmap (list Z) (list Z) :=
  fold_left (keyedUpdate keySize deleted) (rowsOf rowSize updates)
    (fold_left (keyedStore keySize) (rowsOf rowSize existing) ∅).

Definition applyKeyedRows (existing updates : list Z) (rowSize keySize : nat)
    (deleted : list Z → bool) : list Z :=
  sortedRows bytes_le (keyedRows existing updates rowSize keySize deleted).

(** ** Enhanced extended VLAN rows *)

(** [row[0] &= 0x3f]. *)
Definition clearControl (row : list Z) : list Z := put_at row 0 [Z.land (nth8 row 0) 0x3f].

Definition enhancedStore (rows : gmap Z (list Z)) (row : list Z) : gmap Z (list Z) :=
  let row := clearControl row in <[Uint16 row 2 := row]> rows.

Definition enhancedUpdate (rows : gmap Z (list Z)) (row : list Z)
    : Res MibError (gmap Z (list Z)) :=
  let control := Z.shiftr (nth8 row 0) 6 in
  let key := Uint16 row 2 in
  if control =? 1 then
    _ ← guard_err (Z.land (Z.shiftr (nth8 row 0) 4) 0x03 =? 3) (result ParameterError);
    let stored := clearControl row in
    match Vlan.ParseRow stored true with
    | Err _ => Err (result ParameterError)
    | Ok _ => Ok (<[key := stored]> rows)
    end
  else if control =? 2 then Ok (delete key rows)
  else if control =? 3 then Ok ∅
  else Err (result ParameterError).

Definition applyEnhancedVLANRows (existing updates : list Z) : Res MibError (list Z) :=
  rows ← foldM_res enhancedUpdate (rowsOf enhancedExtendedVLANRowSize updates)
           (fold_left enhancedStore (rowsOf enhancedExtendedVLANRowSize existing) ∅);
  Ok (sortedRows Z.le rows).

(** ** Multicast address rows *)

Definition checkAddressRow (rowSize : nat) (row : list Z) : Res MibError unit :=
  if allBytes (drop 4 row) 0 then Ok tt
  else
    let portID := Uint16 row 0 in
    _ ← guard_err (0x0fff <? portID) (result ParameterError);
    let start := Uint32 row 4 in
    let stop := Uint32 row 8 in
    if (rowSize =? multicastIPv4RowSize)%nat then
      guard_err (negb (Z.shiftr start 28 =? 0xe) || negb (Z.shiftr stop 28 =? 0xe) || (stop <? start))
        (result ParameterError)
    else
      guard_err (negb (nth8 row 12 =? 0xff) || (stop <? start)) (result ParameterError).

Definition tableOf (rows : list Z) (rowSize : nat) : TableRows :=
  mkRows (Z.of_nat (length rows / rowSize)) rows.

Definition applyMulticastAddressRows (name : string) (existing updates : TableRows)
    : Res MibError TableRows :=
  rowSize ← (if bool_decide (name = McastGem_Ipv4Table) then Ok multicastIPv4RowSize
             else if bool_decide (name = McastGem_Ipv6Table) then Ok multicastIPv6RowSize
             else Err (result NotSupported));
  _ ← foldM_res (λ _ row, checkAddressRow rowSize row) (rowsOf rowSize (Rows updates)) tt;
  Ok (tableOf (applyKeyedRows (Rows existing) (Rows updates) rowSize 4
                 (λ row, allBytes (drop 4 row) 0)) rowSize).

(** ** Multicast access control lists (class 309) *)

(** [multicastACLRowKey]: the row key and the row part. *)
Abbreviation multicastACLRowKey := (Z * Z)%type.

Record multicastACLRange := mkRange {
  r_key : Z;
  r_ipv6 : bool;
  r_start : list Z;
  r_stop : list Z
}.

Definition partOf (control : Z) : Z := Z.shiftr (Z.land control tableRowPartMask) 11.
Definition keyOf (control : Z) : Z := Z.land control tableRowKeyMask.
Definition setControlOf (control : Z) : Z := Z.shiftr (Z.land control tableSetControlMask) 14.

(** [binary.BigEndian.PutUint16(stored[:2], uint16(part)<<11|key)]. *)
Definition putControl (row : list Z) (key part : Z) : list Z :=
  put_at row 0 (put_be 2 (Z.lor (Z.shiftl part 11) key)).

Definition validateMulticastACLPart (key part : Z) (row : list Z) (isStatic : bool)
    : Res MibError unit :=
  if part =? 0 then
    let gemPortID := Uint16 row 2 in
    _ ← guard_err (0x0fff <? gemPortID) (result ParameterError);
    let vlanID := Uint16 row 4 in
    _ ← guard_err ((vlanID =? 4096) || ((4097 <? vlanID) && negb (vlanID =? 0xffff)))
          (result ParameterError);
    guard_err (negb (allBytes (slice row 22 24) 0)) (result ParameterError)
  else if part =? 1 then
    _ ← (if isStatic then Ok tt
         else
           let reset := Uint16 row 20 in
           guard_err ((24 <? reset) && (reset <? 241)) (result ParameterError));
    guard_err (negb (allBytes (slice row 22 24) 0)) (result ParameterError)
  else if part =? 2 then
    guard_err (negb (allBytes (slice row 14 24) 0)) (result ParameterError)
  else Ok tt.

Definition ipv4CompatiblePrefix (prefix : list Z) : bool :=
  allBytes (slice prefix 0 10) 0 &&
  (((nth8 prefix 10 =? 0) && (nth8 prefix 11 =? 0)) ||
   ((nth8 prefix 10 =? 0xff) && (nth8 prefix 11 =? 0xff))).

Definition multicastACLAddressRange (key : Z) (part0 : list Z) (part2 : option (list Z))
    : Res MibError multicastACLRange :=
  let ipv4 :=
    let start := replicate 12 0 ++ slice part0 10 14 in
    let stop := replicate 12 0 ++ slice part0 14 18 in
    _ ← guard_err (negb (Z.shiftr (nth8 start 12) 4 =? 0xe) || negb (Z.shiftr (nth8 stop 12) 4 =? 0xe)
                   || bytesLt stop start) (result ParameterError);
    Ok (mkRange key false start stop) in
  match part2 with
  | None => ipv4
  | Some p2 =>
      if ipv4CompatiblePrefix (slice p2 2 14) then ipv4
      else
        let start := slice p2 2 14 ++ slice part0 10 14 in
        let stop := slice p2 2 14 ++ slice part0 14 18 in
        _ ← guard_err (negb (nth8 start 0 =? 0xff) || bytesLt stop start) (result ParameterError);
        Ok (mkRange key true start stop)
  end.

(** The test of the inner loop of [validateMulticastACLRows]: the two ranges are disjoint. *)
Definition disjointRanges (previous value : multicastACLRange) : bool :=
  negb (Bool.eqb (r_ipv6 previous) (r_ipv6 value)) ||
  bytesLt (r_stop previous) (r_start value) || bytesLt (r_stop value) (r_start previous).

Definition validateACLStep (rows : gmap (Z * Z) (list Z)) (ranges : list multicastACLRange)
    (entry : multicastACLRowKey * list Z) : Res MibError (list multicastACLRange) :=
  let '((key, part), part0) := entry in
  if part =? 0 then
    value ← multicastACLAddressRange key part0 (rows !! (key, 2));
    _ ← guard_err (negb (forallb (λ previous, disjointRanges previous value) ranges))
          (result ParameterError);
    Ok (ranges ++ [value])
  else Ok ranges.

Definition validateMulticastACLRows (rows : gmap (Z * Z) (list Z)) : Res MibError unit :=
  _ ← foldM_res (validateACLStep rows) (range rows) [];
  Ok tt.

(** [for candidate := range rows { if candidate.key == key { delete(rows, candidate) } }]. *)
Definition deleteKey (key : Z) (rows : gmap (Z * Z) (list Z)) : gmap (Z * Z) (list Z) :=
  filter (λ p, p.1.1 ≠ key) rows.

Definition aclStore (isStatic : bool) (rows : gmap (Z * Z) (list Z)) (row : list Z)
    : Res MibError (gmap (Z * Z) (list Z)) :=
  let control := Uint16 row 0 in
  let part := partOf control in
  _ ← guard_err (negb (Z.land control (Z.lor tableSetControlMask tableTestMask) =? 0) || (2 <? part))
        (result ProcessingError);
  let key := keyOf control in
  match validateMulticastACLPart key part row isStatic with
  | Err _ => Err (result ProcessingError)
  | Ok _ => Ok (<[(key, part) := row]> rows)
  end.

Definition aclUpdate (isStatic : bool) (rows : gmap (Z * Z) (list Z)) (row : list Z)
    : Res MibError (gmap (Z * Z) (list Z)) :=
  let control := Uint16 row 0 in
  let setControl := setControlOf control in
  let key := keyOf control in
  let part := partOf control in
  if setControl =? 1 then
    _ ← guard_err (2 <? part) (result ParameterError);
    let stored := putControl row key part in
    _ ← validateMulticastACLPart key part stored isStatic;
    let stored :=
      if negb isStatic && (part =? 1) && (Uint16 stored 20 =? 255) then
        let reset := match rows !! (key, part) with
                     | Some previous => Uint16 previous 20
                     | None => 0
                     end in
        put_at stored 20 (put_be 2 reset)
      else stored in
    Ok (<[(key, part) := stored]> rows)
  else if setControl =? 2 then Ok (deleteKey key rows)
  else if setControl =? 3 then Ok ∅
  else Err (result ParameterError).

Definition applyMulticastACLRows (name : string) (existing updates : TableRows)
    : Res MibError TableRows :=
  isStatic ← (if bool_decide (name = McastOps_DynamicTable) then Ok false
              else if bool_decide (name = McastOps_StaticTable) then Ok true
              else Err (result NotSupported));
  rows ← foldM_res (aclStore isStatic) (rowsOf multicastACLRowSize (Rows existing)) ∅;
  rows ← foldM_res (aclUpdate isStatic) (rowsOf multicastACLRowSize (Rows updates)) rows;
  _ ← validateMulticastACLRows rows;
  Ok (mkRows (Z.of_nat (size rows)) (sortedRows pair_le rows)).

(** ** Multicast service packages (class 310) *)

Definition validateMulticastServiceRow (key : Z) (row : list Z) : Res MibError unit :=
  let vlanID := Uint16 row 2 in
  _ ← guard_err ((4097 <? vlanID) && negb (vlanID =? 0xffff)) (result ParameterError);
  let profile := Uint16 row 10 in
  _ ← guard_err ((profile =? 0) || (profile =? 0xffff)) (result ParameterError);
  guard_err (negb (allBytes (slice row 12 20) 0)) (result ParameterError).

Definition serviceStore (rows : gmap Z (list Z)) (row : list Z) : Res MibError (gmap Z (list Z)) :=
  let control := Uint16 row 0 in
  _ ← guard_err (negb (Z.ldiff control tableRowKeyMask =? 0)) (result ProcessingError);
  let key := keyOf control in
  match validateMulticastServiceRow key row with
  | Err _ => Err (result ProcessingError)
  | Ok _ => Ok (<[key := row]> rows)
  end.

Definition serviceUpdate (rows : gmap Z (list Z)) (row : list Z) : Res MibError (gmap Z (list Z)) :=
  let control := Uint16 row 0 in
  let setControl := setControlOf control in
  let key := keyOf control in
  if setControl =? 1 then
    _ ← guard_err (negb (Z.land control 0x3c00 =? 0)) (result ParameterError);
    let stored := put_at row 0 (put_be 2 key) in
    _ ← validateMulticastServiceRow key stored;
    Ok (<[key := stored]> rows)
  else if setControl =? 2 then Ok (delete key rows)
  else if setControl =? 3 then Ok ∅
  else Err (result ParameterError).

Definition applyMulticastServiceRows (existing updates : list Z) : Res MibError TableRows :=
  rows ← foldM_res serviceStore (rowsOf multicastServiceRowSize existing) ∅;
  rows ← foldM_res serviceUpdate (rowsOf multicastServiceRowSize updates) rows;
  Ok (mkRows (Z.of_nat (size rows)) (sortedRows Z.le rows)).

(** ** Allowed preview groups (class 310) *)

Definition validatePreviewAddress (value : list Z) (multicast : bool) : Res MibError unit :=
  if allBytes value 0 && negb multicast then Ok tt
  else
    let ipv4 := allBytes (take 12 value) 0 in
    let valid := if ipv4 then negb multicast || (Z.shiftr (nth8 value 12) 4 =? 0xe)
                 else negb multicast || (nth8 value 0 =? 0xff) in
    guard_err (negb valid) (result ParameterError).

Definition validateAllowedPreviewPart0 (row : list Z) : Res MibError unit :=
  _ ← foldM_res (λ _ offset, guard_err (4095 <? Uint16 row offset) (result ParameterError))
        [18; 20]%nat tt;
  validatePreviewAddress (slice row 2 18) false.

Definition validateAllowedPreviewPart1 (row : list Z) : Res MibError unit :=
  validatePreviewAddress (slice row 2 18) true.

Definition previewStore (rows : gmap (Z * Z) (list Z)) (row : list Z)
    : Res MibError (gmap (Z * Z) (list Z)) :=
  let control := Uint16 row 0 in
  let part := partOf control in
  _ ← guard_err (negb (Z.land control (Z.lor tableSetControlMask tableTestMask) =? 0) || (1 <? part))
        (result ProcessingError);
  let key := keyOf control in
  match (if part =? 0 then validateAllowedPreviewPart0 row else validateAllowedPreviewPart1 row) with
  | Err _ => Err (result ProcessingError)
  | Ok _ => Ok (<[(key, part) := row]> rows)
  end.

(** The time left of a part-1 row of duration [duration] that replaces [previous]. *)
Definition previewTimeLeft (previous : option (list Z)) (duration : Z) : Z :=
  match previous with
  | None => duration
  | Some previous =>
      let oldDuration := Uint16 previous 18 in
      let oldTimeLeft := Uint16 previous 20 in
      if negb (oldDuration =? 0) && negb (duration =? 0) then
        let adjusted := oldTimeLeft + duration - oldDuration in
        let adjusted := if adjusted <? 0 then 0 else adjusted in
        let adjusted := if 0xffff <? adjusted then 0xffff else adjusted in
        u16 adjusted
      else duration
  end.

Definition previewUpdate (rows : gmap (Z * Z) (list Z)) (row : list Z)
    : Res MibError (gmap (Z * Z) (list Z)) :=
  let control := Uint16 row 0 in
  let setControl := setControlOf control in
  let key := keyOf control in
  let part := partOf control in
  if setControl =? 1 then
    _ ← guard_err (negb (Z.land control tableTestMask =? 0) || (1 <? part)) (result ParameterError);
    let stored := putControl row key part in
    if part =? 0 then
      _ ← validateAllowedPreviewPart0 stored;
      Ok (<[(key, part) := stored]> rows)
    else
      _ ← validateAllowedPreviewPart1 stored;
      let duration := Uint16 stored 18 in
      let timeLeft := previewTimeLeft (rows !! (key, part)) duration in
      let stored := put_at stored 20 (put_be 2 timeLeft) in
      if negb (duration =? 0) && (timeLeft =? 0) then Ok (deleteKey key rows)
      else Ok (<[(key, part) := stored]> rows)
  else if setControl =? 2 then Ok (deleteKey key rows)
  else if setControl =? 3 then Ok ∅
  else Err (result ParameterError).

Definition applyAllowedPreviewRows (existing updates : list Z) : Res MibError TableRows :=
  rows ← foldM_res previewStore (rowsOf multicastPreviewRowSize existing) ∅;
  rows ← foldM_res previewUpdate (rowsOf multicastPreviewRowSize updates) rows;
  Ok (mkRows (Z.of_nat (size rows)) (sortedRows pair_le rows)).

Definition applyMulticastSubscriberRows (name : string) (existing updates : TableRows)
    : Res MibError TableRows :=
  if bool_decide (name = McastSub_ServicePackageTable) then
    applyMulticastServiceRows (Rows existing) (Rows updates)
  else if bool_decide (name = McastSub_PreviewTable) then
    applyAllowedPreviewRows (Rows existing) (Rows updates)
  else Err (result NotSupported).

(** ** The table update of a SetTable request *)

Definition checkVLANRow (row : list Z) : Res MibError unit :=
  if allBytes (drop 8 row) 0xff then Ok tt
  else match Vlan.ParseRow row false with
       | Err _ => Err (result ParameterError)
       | Ok _ => Ok tt
       end.

Definition applyTableRows (extendedVLANTableSize : Z) (classID : Z) (name : string)
    (existing updates : TableRows) : Res MibError TableRows :=
  if classID =? MulticastGemInterworkingTerminationPointClassID then
    applyMulticastAddressRows name existing updates
  else if classID =? MulticastOperationsProfileClassID then
    applyMulticastACLRows name existing updates
  else if classID =? MulticastSubscriberConfigInfoClassID then
    applyMulticastSubscriberRows name existing updates
  else if negb (classID =? ExtendedVlanTaggingOperationConfigurationDataClassID) then
    Err (result NotSupported)
  else if bool_decide (name = ExtVlan_Table) then
    _ ← foldM_res (λ _ row, checkVLANRow row) (rowsOf extendedVLANRowSize (Rows updates)) tt;
    let rows := applyKeyedRows (Rows existing) (Rows updates) extendedVLANRowSize 8
                  (λ row, allBytes (drop 8 row) 0xff) in
    _ ← guard_err (extendedVLANTableSize <? Z.of_nat (length rows / extendedVLANRowSize))
          (result ProcessingError);
    Ok (tableOf rows extendedVLANRowSize)
  else if bool_decide (name = ExtVlan_EnhancedTable) then
    rows ← applyEnhancedVLANRows (Rows existing) (Rows updates);
    _ ← guard_err (extendedVLANTableSize <? Z.of_nat (length rows / enhancedExtendedVLANRowSize))
          (result ProcessingError);
    Ok (tableOf rows enhancedExtendedVLANRowSize)
  else Err (result NotSupported).

(** [tableRows]: the committed rows of a table attribute. *)
Definition tableRows (value : option Value) (rowSize : Z) : Res MibError TableRows :=
  match value with
  | None | Some VNil => Ok (mkRows 0 [])
  | Some (VTable rows) =>
      if (NumRows rows <? 0) || negb (Z.of_nat (length (Rows rows)) =? NumRows rows * rowSize)
      then Err (PlainError "committed table has invalid row data")
      else Ok rows
  | Some _ => Err (PlainError "committed table has invalid row data")
  end.

Definition initializeCreatedInstance (instance : Instance_) (extendedVLANTableSize : Z) : Instance_ :=
  let set (l : list (string * Value)) :=
    mkInstance (i_Key instance)
      (fold_left (λ m p, <[p.1 := p.2]> m) l (i_Attributes instance)) (i_Origin instance) in
  let empty := VTable (mkRows 0 []) in
  let c := ClassID_of instance in
  if c =? ExtendedVlanTaggingOperationConfigurationDataClassID then
    set [(ExtVlan_MaxSize, VU16 extendedVLANTableSize);
         (ExtVlan_Table, VTable (mkRows 3 extendedVLANDefaultRows));
         (ExtVlan_EnhancedTable, empty)]
  else if c =? MulticastGemInterworkingTerminationPointClassID then
    set [(McastGem_Ipv4Table, empty); (McastGem_Ipv6Table, empty)]
  else if c =? MulticastOperationsProfileClassID then
    set [(McastOps_DynamicTable, empty); (McastOps_StaticTable, empty); (McastOps_LostGroups, empty)]
  else if c =? MulticastSubscriberConfigInfoClassID then
    set [(McastSub_ServicePackageTable, empty); (McastSub_PreviewTable, empty)]
  else if c =? MulticastSubscriberMonitorClassID then
    set [(McastMon_Ipv4Groups, empty); (McastMon_Ipv6Groups, empty)]
  else instance.

(** ** Preview timers *)

Record AllowedPreviewTimer := mkTimer { t_RowKey : Z; t_Duration : Z; t_TimeLeft : Z }.

Definition indexTimer (indexed : gmap Z AllowedPreviewTimer) (timer : AllowedPreviewTimer)
    : Res MibError (gmap Z AllowedPreviewTimer) :=
  if (tableRowKeyMask <? t_RowKey timer) ||
     ((t_Duration timer =? 0) && negb (t_TimeLeft timer =? 0)) ||
     (negb (t_Duration timer =? 0) && (t_Duration timer <? t_TimeLeft timer))
  then Err (PlainError "invalid allowed-preview timer row")
  else match indexed !! t_RowKey timer with
       | Some _ => Err (PlainError "duplicate allowed-preview timer row")
       | None => Ok (<[t_RowKey timer := timer]> indexed)
       end.

Definition indexAllowedPreviewTimers (timers : list AllowedPreviewTimer)
    : Res MibError (gmap Z AllowedPreviewTimer) :=
  foldM_res indexTimer timers ∅.

(** The row a response carries: its time left from the live timer of the same duration. *)
Definition overlayRow (indexed : gmap Z AllowedPreviewTimer) (row : list Z) : list Z :=
  let control := Uint16 row 0 in
  if negb (Z.land control tableRowPartMask =? Z.shiftl 1 11) then row
  else match indexed !! keyOf control with
       | None => row
       | Some timer =>
           if negb (t_Duration timer =? Uint16 row 18) then row
           else put_at row 20 (put_be 2 (t_TimeLeft timer))
       end.

Definition OverlayAllowedPreviewTimers (instance : Instance_) (timers : list AllowedPreviewTimer)
    : Res MibError Instance_ :=
  _ ← guard_err (negb (ClassID_of instance =? MulticastSubscriberConfigInfoClassID))
        (PlainError "allowed-preview timers require class 310");
  match i_Attributes instance !! McastSub_PreviewTable with
  | None => Ok instance
  | Some value =>
      rows ← tableRows (Some value) (Z.of_nat multicastPreviewRowSize);
      indexed ← indexAllowedPreviewTimers timers;
      let rows := mkRows (NumRows rows)
                    (concat (map (overlayRow indexed) (rowsOf multicastPreviewRowSize (Rows rows)))) in
      Ok (mkInstance (i_Key instance) (<[McastSub_PreviewTable := VTable rows]> (i_Attributes instance))
            (i_Origin instance))
  end.

(** The logical rows whose timer has run out, and the rows that are kept. *)
Definition rowExpired (indexed : gmap Z AllowedPreviewTimer) (row : list Z) : bool :=
  let control := Uint16 row 0 in
  (Z.land control tableRowPartMask =? Z.shiftl 1 11) &&
  match indexed !! keyOf control with
  | None => false
  | Some timer =>
      let duration := Uint16 row 18 in
      negb (duration =? 0) && (t_Duration timer =? duration) && (t_TimeLeft timer =? 0)
  end.

Definition expiredKeys (indexed : gmap Z AllowedPreviewTimer) (rows : list Z) : gset Z :=
  list_to_set (map (λ row, keyOf (Uint16 row 0))
    (filter (λ row, rowExpired indexed row = true) (rowsOf multicastPreviewRowSize rows))).

Definition keptRows (expired : gset Z) (rows : list Z) : list Z :=
  concat (filter (λ row, keyOf (Uint16 row 0) ∉ expired) (rowsOf multicastPreviewRowSize rows)).
End table.

(** * Lemmas *)

(** ** Rows *)

Lemma rowsOf_concat n rs :
  (0 < n)%nat → Forall (λ r : list Z, length r = n) rs → rowsOf n (concat rs) = rs.
Proof.
  intros Hn Hrs. unfold rowsOf.
  assert (∀ fuel, (length (concat rs) ≤ fuel)%nat → chunks fuel n (concat rs) = rs) as H; [|by apply H].
  induction Hrs as [|r rs Hr Hrs IH]; intros fuel Hf; [by destruct fuel|].
  cbn [concat] in *. rewrite length_app in Hf. destruct fuel as [|fuel]; [lia|].
  cbn [chunks]. destruct (r ++ concat rs) eqn:Hc.
  { destruct r; cbn in *; [lia|done]. }
  rewrite <- Hc. rewrite take_app_le, take_ge, drop_app_ge by lia.
  replace (n - length r)%nat with 0%nat by lia. rewrite drop_0, IH by lia. done.
Qed.

Lemma rowsOf_split n l k :
  (0 < n)%nat → length l = (k * n)%nat → ∃ rs, l = concat rs ∧ Forall (λ r : list Z, length r = n) rs.
Proof.
  intros Hn. revert l. induction k as [|k IH]; intros l Hl.
  - exists []. split; [by apply nil_length_inv|done].
  - destruct (IH (drop n l)) as (rs & Hd & Hrs); [rewrite length_drop; lia|].
    exists (take n l :: rs). cbn [concat]. rewrite <- Hd, take_drop. split; [done|].
    constructor; [|done]. rewrite length_take. lia.
Qed.

(** The byte strings a table can hold: a whole number of rows. *)
Definition whole (n : nat) (l : list Z) : Prop := (length l mod n = 0)%nat.
#[export] Instance whole_dec n l : Decision (whole n l).
Proof. unfold whole. apply _. Defined.

Lemma whole_rows n l :
  (0 < n)%nat → whole n l → concat (rowsOf n l) = l ∧ Forall (λ r : list Z, length r = n) (rowsOf n l).
Proof.
  intros Hn Hl. apply Nat.Div0.div_exact in Hl.
  destruct (rowsOf_split n l (length l / n) Hn) as (rs & -> & Hrs); [lia|].
  by rewrite rowsOf_concat.
Qed.

Lemma whole_concat n rs : (0 < n)%nat → Forall (λ r : list Z, length r = n) rs → whole n (concat rs).
Proof.
  intros Hn Hrs. unfold whole. induction Hrs as [|r rs Hr _ IH]; cbn [concat length].
  - by apply Nat.Div0.mod_0_l.
  - rewrite length_app, Hr. replace (n + length (concat rs))%nat with (length (concat rs) + 1 * n)%nat by lia.
    by rewrite Nat.Div0.mod_add.
Qed.

Lemma length_concat_rows n (rs : list (list Z)) :
  Forall (λ r : list Z, length r = n) rs → length (concat rs) = (n * length rs)%nat.
Proof. induction 1 as [|r rs Hr _ IH]; cbn [concat length]; rewrite ?length_app; lia. Qed.

Lemma bytes_ok_rows n l : bytes_ok l → Forall bytes_ok (rowsOf n l).
Proof.
  unfold rowsOf. generalize (length l) as fuel. intros fuel. revert l.
  induction fuel as [|fuel IH]; intros l Hl; cbn [chunks]; [constructor|].
  destruct l; [constructor|]. constructor; [by apply Forall_take|]. apply IH. by apply Forall_drop.
Qed.

Lemma bytes_ok_concat rs : Forall bytes_ok rs → bytes_ok (concat rs).
Proof. induction 1; cbn; [constructor|by apply Forall_app_2]. Qed.


(** ** Row maps *)

Lemma find_snoc {A} (f : A → bool) l x :
  List.find f (l ++ [x]) =
  match List.find f l with Some y => Some y | None => if f x then Some x else None end.
Proof. induction l as [|y l IH]; cbn; [done|]. by destruct (f y). Qed.

Section row_map.
Context {MR : MapRange} {K : Type} `{Countable K} (le : relation K)
    `{∀ x y, Decision (le x y)} `{!KeyOrder le}.
Implicit Types m : gmap K (list Z).

Definition rowsIn (m : gmap K (list Z)) : list (list Z) :=
    map (λ key, default [] (m !! key)) (sortedKeys le m).

Lemma elem_of_rowsIn m r : r ∈ rowsIn m ↔ ∃ k, m !! k = Some r.
  Proof.
    unfold rowsIn. rewrite list_elem_of_fmap. split.
    - intros (k & -> & Hk). apply (elem_of_sortedKeys le) in Hk as [v Hv]. exists k. by rewrite Hv.
    - intros [k Hk]. exists k. rewrite Hk. split; [done|]. by apply (elem_of_sortedKeys le).
  Qed.

Lemma Forall_rowsIn (P : list Z → Prop) m :
    (∀ k r, m !! k = Some r → P r) → Forall P (rowsIn m).
  Proof. intros HP. apply Forall_forall. intros r [k Hk]%elem_of_rowsIn. by eapply HP. Qed.

Lemma rowsOf_sortedRows n m :
    (0 < n)%nat → (∀ k r, m !! k = Some r → length r = n) →
    rowsOf n (sortedRows le m) = rowsIn m.
  Proof. intros Hn Hm. apply rowsOf_concat; [done|]. by apply Forall_rowsIn. Qed.

Lemma length_sortedRows n m :
    (∀ k r, m !! k = Some r → length r = n) → length (sortedRows le m) = (n * size m)%nat.
  Proof.
    intros Hm. unfold sortedRows. rewrite (length_concat_rows n) by by apply Forall_rowsIn.
    by rewrite length_map, (length_sortedKeys le).
  Qed.

  (** The rows come out strictly ordered by their keys. *)
Lemma rowsIn_sorted (key : list Z → K) m :
    (∀ k r, m !! k = Some r → key r = k) → map key (rowsIn m) = sortedKeys le m.
  Proof.
    intros Hm. unfold rowsIn. rewrite map_map. rewrite <- (map_id (sortedKeys le m)) at 2.
    apply map_ext_in. intros k Hk%list_elem_of_In. apply (elem_of_sortedKeys le) in Hk as [r Hr].
    rewrite Hr. by apply Hm.
  Qed.

Definition storeAll (key : list Z → K) (l : list (list Z)) (m : gmap K (list Z)) : gmap K (list Z) :=
    fold_left (λ m r, <[key r := r]> m) l m.

Lemma storeAll_lookup key l m k :
    storeAll key l m !! k =
    match List.find (λ r, bool_decide (key r = k)) (rev l) with Some r => Some r | None => m !! k end.
  Proof.
    revert m. induction l as [|r l IH]; intros m; [done|].
    change (storeAll key (r :: l) m) with (storeAll key l (<[key r := r]> m)). cbn [rev].
    rewrite IH, find_snoc. destruct (List.find _ (rev l)); [done|].
    case_bool_decide; [subst; by rewrite lookup_insert_eq|by rewrite lookup_insert_ne].
  Qed.

  (** Reading the emitted rows back gives the map. *)
Lemma storeAll_rowsIn key m :
    (∀ k r, m !! k = Some r → key r = k) → storeAll key (rowsIn m) ∅ = m.
  Proof.
    intros Hm. apply map_eq. intros k. rewrite storeAll_lookup, lookup_empty.
    destruct (List.find _ _) as [r|] eqn:Hf.
    - apply find_some in Hf as [Hin Hk]. apply bool_decide_eq_true in Hk.
      apply in_rev, list_elem_of_In, elem_of_rowsIn in Hin as [k' Hk']. by rewrite <- Hk, (Hm _ _ Hk').
    - destruct (m !! k) as [r|] eqn:Hk; [|done].
      eapply find_none in Hf; [|apply in_rev; rewrite rev_involutive; apply list_elem_of_In, elem_of_rowsIn; by exists k].
      rewrite (Hm _ _ Hk) in Hf. by rewrite bool_decide_eq_false in Hf.
  Qed.
End row_map.

(** A loop whose step stores the row under its key, or refuses it. *)
Lemma foldM_store {K} `{Countable K} (key : list Z → K)
    (step : gmap K (list Z) → list Z → Res MibError (gmap K (list Z))) l m :
  (∀ m r, r ∈ l → step m r = Ok (<[key r := r]> m)) →
  foldM_res step l m = Ok (storeAll key l m).
Proof.
  revert m. induction l as [|r l IH]; intros m Hs; [done|]. cbn [foldM_res].
  change (storeAll key (r :: l) m) with (storeAll key l (<[key r := r]> m)).
  rewrite Hs by by left. cbn [mbind Res_bind]. apply IH. intros. apply Hs. by right.
Qed.

Lemma foldM_ok {E A} (check : A → Res E unit) l u :
  foldM_res (λ _ a, check a) l tt = Ok u ↔ ∀ a, a ∈ l → check a = Ok tt.
Proof.
  destruct u. induction l as [|a l IH]; cbn [foldM_res].
  - split; [|done]. intros _ a Ha. by apply not_elem_of_nil in Ha.
  - destruct (check a) as [[]|e] eqn:Ha; cbn [mbind Res_bind].
    + rewrite IH. split; [|intros Hl b Hb; apply Hl; by right].
      intros Hl b [->|Hb]%elem_of_cons; [done|by apply Hl].
    + split; [done|]. intros Hl. specialize (Hl a ltac:(by left)). congruence.
Qed.

(** * Properties *)

(** ** Keyed rows: the last write wins *)

(** The row a table holds under [k]: the last update's, unless it deletes the row; else the
    last existing row's. *)
Definition last_write (keySize : nat) (deleted : list Z → bool) (existing updates : list (list Z))
    (k : list Z) : option (list Z) :=
  let at_key := List.find (λ r, bool_decide (take keySize r = k)) in
  match at_key (rev updates) with
  | Some r => if deleted r then None else Some r
  | None => at_key (rev existing)
  end.

Lemma keyedUpdates_lookup keySize deleted l m k :
  fold_left (keyedUpdate keySize deleted) l m !! k =
  match List.find (λ r, bool_decide (take keySize r = k)) (rev l) with
  | Some r => if deleted r then None else Some r
  | None => m !! k
  end.
Proof.
  revert m. induction l as [|r l IH]; intros m; [done|]. cbn [fold_left rev].
  rewrite IH, find_snoc. destruct (List.find _ (rev l)); [done|]. unfold keyedUpdate.
  case_bool_decide; [subst|]; destruct (deleted r);
    by rewrite ?lookup_delete_eq, ?lookup_insert_eq, ?lookup_delete_ne, ?lookup_insert_ne.
Qed.

Lemma keyedRows_lookup existing updates n keySize deleted k :
  keyedRows existing updates n keySize deleted !! k =
  last_write keySize deleted (rowsOf n existing) (rowsOf n updates) k.
Proof.
  unfold keyedRows, last_write. rewrite keyedUpdates_lookup.
  pose proof (storeAll_lookup (take keySize) (rowsOf n existing) ∅ k) as Hs.
  unfold storeAll in Hs. unfold keyedStore. rewrite Hs, lookup_empty.
  by destruct (List.find _ (rev (rowsOf n existing))).
Qed.

Lemma last_write_row keySize deleted existing updates k r :
  last_write keySize deleted existing updates k = Some r →
  take keySize r = k ∧ (r ∈ existing ∨ (r ∈ updates ∧ deleted r = false)).
Proof.
  unfold last_write. destruct (List.find _ (rev updates)) as [r'|] eqn:Hu.
  - destruct (deleted r') eqn:Hdel; [done|]. intros [= <-].
    apply find_some in Hu as [Hin Hk]. apply bool_decide_eq_true in Hk.
    apply in_rev, list_elem_of_In in Hin. auto.
  - intros Hf. apply find_some in Hf as [Hin Hk]. apply bool_decide_eq_true in Hk.
    apply in_rev, list_elem_of_In in Hin. auto.
Qed.

Lemma keyedRows_row existing updates n keySize deleted k r :
  keyedRows existing updates n keySize deleted !! k = Some r →
  take keySize r = k ∧
  (r ∈ rowsOf n existing ∨ (r ∈ rowsOf n updates ∧ deleted r = false)).
Proof. rewrite keyedRows_lookup. apply last_write_row. Qed.

Lemma keyedRows_length existing updates n keySize deleted :
  (0 < n)%nat → whole n existing → whole n updates →
  ∀ k r, keyedRows existing updates n keySize deleted !! k = Some r → length r = n.
Proof.
  intros Hn He Hu k r Hr. apply keyedRows_row in Hr as [_ Hr].
  destruct (whole_rows n existing Hn He) as [_ Hle].
  destruct (whole_rows n updates Hn Hu) as [_ Hlu].
  rewrite Forall_forall in Hle, Hlu. destruct Hr as [|[]]; auto.
Qed.

Section keyed.
Context {MR : MapRange}.

Lemma rowsOf_applyKeyedRows existing updates n keySize deleted :
  (0 < n)%nat → whole n existing → whole n updates →
  rowsOf n (applyKeyedRows existing updates n keySize deleted) =
  rowsIn bytes_le (keyedRows existing updates n keySize deleted).
Proof. intros. apply rowsOf_sortedRows; [done..|]. by apply keyedRows_length. Qed.

(** ApplyKeyedRows keeps a table a whole number of rows whose key prefixes are strictly
    increasing, and its row under every key is the last one written: the last update with that
    key, unless that update deletes the row, and otherwise the last existing row with it. *)
Theorem applyKeyedRows_last_write existing updates n keySize deleted
    (Hn : (0 < n)%nat) (He : whole n existing) (Hu : whole n updates) :
  let out := applyKeyedRows existing updates n keySize deleted in
  whole n out ∧
  StronglySorted bytes_le (map (take keySize) (rowsOf n out)) ∧
  NoDup (map (take keySize) (rowsOf n out)) ∧
  ∀ row, row ∈ rowsOf n out ↔
    last_write keySize deleted (rowsOf n existing) (rowsOf n updates) (take keySize row) = Some row.
Proof.
  cbv zeta. rewrite rowsOf_applyKeyedRows by done.
  set (m := keyedRows existing updates n keySize deleted).
  assert (∀ k r, m !! k = Some r → take keySize r = k) as Hkey
    by (intros k r Hr; by apply keyedRows_row in Hr as [? _]).
  rewrite (rowsIn_sorted bytes_le (take keySize) m) by done. split_and!.
  - apply whole_concat; [done|]. apply (Forall_rowsIn bytes_le). by apply keyedRows_length.
  - apply (StronglySorted_sortedKeys bytes_le).
  - apply (NoDup_sortedKeys bytes_le).
  - intros row. rewrite (elem_of_rowsIn bytes_le), <- keyedRows_lookup. split.
    + intros [k Hk]. by rewrite (Hkey _ _ Hk).
    + intros Hk. by exists (take keySize row).
Qed.
End keyed.

Lemma applyKeyedRows_last_write_witness :
  let out := @applyKeyedRows canonical_range [2; 20; 1; 10] [1; 11; 2; 0] 2 1
               (λ r, allBytes (drop 1 r) 0) in
  whole 2 out ∧ StronglySorted bytes_le (map (take 1) (rowsOf 2 out)) ∧
  NoDup (map (take 1) (rowsOf 2 out)) ∧
  ∀ row, row ∈ rowsOf 2 out ↔
    last_write 1 (λ r, allBytes (drop 1 r) 0) [[2; 20]; [1; 10]] [[1; 11]; [2; 0]] (take 1 row) =
    Some row.
Proof.
  apply (@applyKeyedRows_last_write canonical_range [2; 20; 1; 10] [1; 11; 2; 0] 2 1);
    [lia|by_decide|by_decide].
Defined.

(** ** Extended VLAN tables always decode *)

Lemma parseRowsFrom_Ok l rowSize enhanced fuel index :
  (∀ i, (index ≤ i < index + fuel)%nat →
     ∃ rule, Vlan.ParseRow (slice l (i * rowSize) (i * rowSize + rowSize)) enhanced = Ok rule) →
  ∃ rules, Vlan.parseRowsFrom fuel index rowSize l enhanced = Ok rules ∧ length rules = fuel.
Proof.
  revert index. induction fuel as [|fuel IH]; intros index Hi; [by exists []|].
  destruct (Hi index ltac:(lia)) as [rule Hr]. destruct (IH (S index)) as (rules & Hrs & Hlen).
  { intros i ?. apply Hi. lia. }
  cbn [Vlan.parseRowsFrom]. rewrite Hr, Hrs. cbn. eexists. split; [done|]. cbn. lia.
Qed.

Lemma parseRowsFrom_inv l rowSize enhanced fuel index rules :
  Vlan.parseRowsFrom fuel index rowSize l enhanced = Ok rules →
  ∀ i, (index ≤ i < index + fuel)%nat →
     ∃ rule, Vlan.ParseRow (slice l (i * rowSize) (i * rowSize + rowSize)) enhanced = Ok rule.
Proof.
  revert index rules. induction fuel as [|fuel IH]; intros index rules H i Hi; [lia|].
  cbn [Vlan.parseRowsFrom] in H. destruct (Vlan.ParseRow _ _) as [rule|] eqn:Hr; [|done].
  inv_ok H. destruct (decide (i = index)) as [->|]; [by exists rule|].
  eapply IH; [done|lia].
Qed.

Lemma concat_slice n (rs : list (list Z)) i r :
  Forall (λ r : list Z, length r = n) rs → rs !! i = Some r →
  slice (concat rs) (i * n) (i * n + n) = r.
Proof.
  intros Hrs. revert i. induction Hrs as [|r0 rs Hr0 Hrs IH]; intros i Hi; [done|].
  cbn [concat]. destruct i as [|i]; cbn in Hi.
  - injection Hi as <-. cbn [Nat.mul]. by apply slice_0_app.
  - rewrite (slice_skip r0 (concat rs) n) by (done || lia).
    replace (S i * n - n)%nat with (i * n)%nat by lia.
    replace (S i * n + n - n)%nat with (i * n + n)%nat by lia. by apply IH.
Qed.

Definition vlanRowSize (enhanced : bool) : nat :=
  if enhanced then enhancedExtendedVLANRowSize else extendedVLANRowSize.

Lemma vlanRowSize_pos enhanced : (0 < vlanRowSize enhanced)%nat.
Proof. apply Nat.ltb_lt. by destruct enhanced. Qed.

(** [Vlan.ParseRows] succeeds on a table when every row of it parses. *)
Lemma ParseRows_rows l enhanced :
  whole (vlanRowSize enhanced) l →
  (∃ rules, Vlan.ParseRows l enhanced = Ok rules) ↔
  ∀ row, row ∈ rowsOf (vlanRowSize enhanced) l → ∃ rule, Vlan.ParseRow row enhanced = Ok rule.
Proof.
  intros Hl. pose proof (vlanRowSize_pos enhanced) as Hn. set (n := vlanRowSize enhanced) in *.
  destruct (whole_rows n l Hn Hl) as [Hc Hrs].
  assert ((if enhanced then Vlan.EnhancedRowSize else Vlan.ClassicRowSize) = n) as Hsz by by destruct enhanced.
  clearbody n.
  unfold Vlan.ParseRows. cbv zeta. rewrite Hsz. unfold whole in Hl. rewrite Hl.
  cbn [negb Nat.eqb guard_err mbind Res_bind].
  assert (length l = n * length (rowsOf n l))%nat as Hlen by (rewrite <- Hc at 1; by apply length_concat_rows).
  assert (length l / n = length (rowsOf n l))%nat as Hdiv by (symmetry; apply (Nat.div_unique _ _ _ 0); [lia|rewrite Hlen; lia]).
  rewrite Hdiv. split.
  - intros [rules Hr] row Hrow. apply list_elem_of_lookup in Hrow as [i Hi].
    pose proof (lookup_lt_Some _ _ _ Hi).
    destruct (parseRowsFrom_inv _ _ _ _ _ _ Hr i) as [rule Hrule]; [lia|].
    exists rule. rewrite <- Hc in Hrule. by erewrite concat_slice in Hrule.
  - intros Hall. destruct (parseRowsFrom_Ok l n enhanced (length (rowsOf n l)) 0) as (rules & ? & _); [|by eauto].
    intros i Hi. destruct (lookup_lt_is_Some_2 (rowsOf n l) i) as [row Hrow]; [lia|].
    destruct (Hall row) as [rule Hrule]; [by eapply list_elem_of_lookup_2|].
    exists rule. rewrite <- Hc. by erewrite concat_slice.
Qed.

Lemma ParseRow_length row enhanced rule :
  Vlan.ParseRow row enhanced = Ok rule → length row = vlanRowSize enhanced.
Proof.
  unfold Vlan.ParseRow. intros Hr. inv_ok Hr.
  destruct enhanced; cbn in *; by apply negb_false_iff, Nat.eqb_eq in Hg.
Qed.

Lemma ParseRows_length l enhanced rules :
  Vlan.ParseRows l enhanced = Ok rules → whole (vlanRowSize enhanced) l.
Proof.
  unfold Vlan.ParseRows. intros Hr. inv_ok Hr. apply negb_false_iff, Nat.eqb_eq in Hg.
  by destruct enhanced.
Qed.

(** A stored row has Set control 0, so clearing the control bits leaves it as it is. *)
Lemma clearControl_stored row rule :
  bytes_ok row → Vlan.ParseRow row true = Ok rule → clearControl row = row.
Proof.
  intros Hok Hr. pose proof (ParseRow_length _ _ _ Hr) as Hlen. change (vlanRowSize true) with 28%nat in Hlen.
  unfold Vlan.ParseRow in Hr. inv_ok Hr. unfold Vlan.parseHeader in Hr0. inv_ok Hr0.
  destruct row as [|b row]; [done|].
  assert (is_u 8 b) as Hb by by inversion Hok.
  assert (b < 64) as Hb64.
  { apply negb_false_iff, Z.eqb_eq in Hg0. rewrite shiftr_div in Hg0 by done.
    unfold Uint32, slice in Hg0. cbn [Nat.sub Nat.add drop take] in Hg0.
    assert (length (take 3 row) = 3)%nat as Ht by (rewrite length_take; cbn in Hlen; lia).
    rewrite be_cons, Ht in Hg0.
    assert (bytes_ok (take 3 row)) as H3 by (apply Forall_take; by inversion Hok).
    apply be_bound in H3. rewrite Ht in H3. unfold wrap in Hg0. unfold is_u in Hb.
    change (Z.of_nat 3) with 3 in *. change (256 ^ 3) with 16777216 in *.
    change (2 ^ 30) with 1073741824 in *. change (2 ^ 8) with 256 in *. lia. }
  unfold clearControl, nth8. cbn [nth]. rewrite (land_mask 6 0x3f) by done. unfold is_u in Hb.
  rewrite Z.mod_small by lia. done.
Qed.

Section vlan_tables.
Context {MR : MapRange}.

Definition stores_vlan (enhanced : bool) (row : list Z) : Prop :=
  ∃ rule, Vlan.ParseRow row enhanced = Ok rule.

(** The rows of a table whose row map holds only decodable rows decode. *)
Lemma vlan_table_rows {K} `{Countable K} (le : relation K) `{∀ x y, Decision (le x y)} `{!KeyOrder le}
    (m : gmap K (list Z)) enhanced :
  (∀ k r, m !! k = Some r → stores_vlan enhanced r) →
  let t := tableOf (sortedRows le m) (vlanRowSize enhanced) in
  (∃ rules, Vlan.ParseRows (Rows t) enhanced = Ok rules) ∧
  Z.of_nat (length (Rows t)) = NumRows t * Z.of_nat (vlanRowSize enhanced).
Proof.
  intros Hm. pose proof (vlanRowSize_pos enhanced) as Hn.
  assert (∀ k r, m !! k = Some r → length r = vlanRowSize enhanced) as Hlen
    by (intros k r Hr; destruct (Hm _ _ Hr) as [? ?]; by eapply ParseRow_length).
  cbv zeta. unfold tableOf. cbn [Rows NumRows]. split.
  - apply ParseRows_rows.
    + apply whole_concat; [done|]. by apply (Forall_rowsIn le).
    + intros row. rewrite (rowsOf_sortedRows le) by done. intros [k Hk]%(elem_of_rowsIn le). by eapply Hm.
  - rewrite (length_sortedRows le (vlanRowSize enhanced)) by done.
    rewrite Nat.mul_comm, Nat.div_mul by lia. lia.
Qed.

Lemma applyEnhanced_rows existing updates out :
  bytes_ok existing → (∃ rules, Vlan.ParseRows existing true = Ok rules) →
  applyEnhancedVLANRows existing updates = Ok out →
  ∃ m : gmap Z (list Z), out = sortedRows Z.le m ∧ ∀ k r, m !! k = Some r → stores_vlan true r.
Proof.
  intros Hok [rules He] Ha. unfold applyEnhancedVLANRows in Ha. inv_ok Ha.
  pose proof (ParseRows_length _ _ _ He) as Hw.
  eexists. split; [symmetry; exact Ha|].
  pattern x. eapply foldM_inv; [| |exact Hr]; cbn beta.
  - intros s row s' _ Hs Hup k r Hk. unfold enhancedUpdate in Hup. cbv zeta in Hup.
    destruct (_ =? 1).
    + inv_ok Hup. destruct (Vlan.ParseRow _ _) as [rule|] eqn:Hp; [|done].
      assert (s' = <[Uint16 row 2 := clearControl row]> s) as -> by congruence.
      apply lookup_insert_Some in Hk as [[_ <-]|[_ Hk]]; [by exists rule|by eapply Hs].
    + destruct (_ =? 2); [|destruct (_ =? 3)]; [| |done]; injection Hup as <-.
      * apply lookup_delete_Some in Hk as [_ Hk]. by eapply Hs.
      * done.
  - assert (Forall (λ row, bytes_ok row ∧ stores_vlan true row)
      (rowsOf enhancedExtendedVLANRowSize existing)) as Hrows.
    { apply Forall_forall. intros row Hrow. split.
      - pose proof (bytes_ok_rows enhancedExtendedVLANRowSize existing Hok) as Hall.
        rewrite Forall_forall in Hall. by apply Hall.
      - apply (proj1 (ParseRows_rows existing true Hw)); [by exists rules|done]. }
    assert (∀ m : gmap Z (list Z), (∀ k r, m !! k = Some r → stores_vlan true r) →
      ∀ k r, fold_left enhancedStore (rowsOf enhancedExtendedVLANRowSize existing) m !! k = Some r →
        stores_vlan true r) as Hfold.
    2: { apply Hfold. intros ? ? Hx. by rewrite lookup_empty in Hx. }
    clear Hr. induction Hrows as [|row rows [Hrok [rule Hrule]] _ IH]; intros m Hm; [exact Hm|].
    cbn [fold_left]. apply IH. intros k r. unfold enhancedStore at 1.
    rewrite (clearControl_stored _ _ Hrok Hrule).
    intros [[_ <-]|[_ Hk]]%lookup_insert_Some; [by exists rule|by eapply Hm].
Qed.

Lemma applyTableRows_vlan max (enhanced : bool) existing updates :
  applyTableRows max ExtendedVlanTaggingOperationConfigurationDataClassID
    (if enhanced then ExtVlan_EnhancedTable else ExtVlan_Table) existing updates =
  if enhanced then
    rows ← applyEnhancedVLANRows (Rows existing) (Rows updates);
    _ ← guard_err (max <? Z.of_nat (length rows / enhancedExtendedVLANRowSize)) (result ProcessingError);
    Ok (tableOf rows enhancedExtendedVLANRowSize)
  else
    _ ← foldM_res (λ _ row, checkVLANRow row) (rowsOf extendedVLANRowSize (Rows updates)) tt;
    let rows := applyKeyedRows (Rows existing) (Rows updates) extendedVLANRowSize 8
                  (λ row, allBytes (drop 8 row) 0xff) in
    _ ← guard_err (max <? Z.of_nat (length rows / extendedVLANRowSize)) (result ProcessingError);
    Ok (tableOf rows extendedVLANRowSize).
Proof. by destruct enhanced. Qed.

(** An extended VLAN table stays decodable: if every stored row parses as a classification
    rule, then after any SetTable update that is accepted every row of the new table parses,
    the table has as many rows as it says, and no more than the configured maximum. *)
Theorem applyTableRows_vlan_decodes max enhanced existing updates t
    (Hok : bytes_ok (Rows existing))
    (Hrules : ∃ rules, Vlan.ParseRows (Rows existing) enhanced = Ok rules)
    (Hu : whole (vlanRowSize enhanced) (Rows updates))
    (Ha : applyTableRows max ExtendedVlanTaggingOperationConfigurationDataClassID
            (if enhanced then ExtVlan_EnhancedTable else ExtVlan_Table) existing updates = Ok t) :
  (∃ rules, Vlan.ParseRows (Rows t) enhanced = Ok rules) ∧
  Z.of_nat (length (Rows t)) = NumRows t * Z.of_nat (vlanRowSize enhanced) ∧
  NumRows t ≤ max.
Proof.
  destruct Hrules as [rules Hrules]. rewrite applyTableRows_vlan in Ha. destruct enhanced; inv_ok Ha.
  - destruct (applyEnhanced_rows _ _ _ Hok ltac:(by eexists) Hr) as (m & -> & Hm).
    subst t. destruct (vlan_table_rows Z.le m true Hm) as [? ?]. split_and!; [done|done|].
    by apply Z.ltb_ge in Hg.
  - subst t. pose proof (ParseRows_length _ _ _ Hrules) as Hw.
    edestruct (vlan_table_rows bytes_le
      (keyedRows (Rows existing) (Rows updates) extendedVLANRowSize 8 (λ row, allBytes (drop 8 row) 0xff)) false)
      as [? ?]; [|split_and!; [done|done|by apply Z.ltb_ge in Hg]].
    intros k r Hk. apply keyedRows_row in Hk as [_ [Hrow|[Hrow Hdel]]].
    + apply (proj1 (ParseRows_rows _ false Hw)); [by exists rules|done].
    + pose proof (proj1 (foldM_ok checkVLANRow _ _) Hr r Hrow) as Hc. unfold checkVLANRow in Hc.
      rewrite Hdel in Hc. unfold stores_vlan. destruct (Vlan.ParseRow r false); [by eexists|done].
Qed.
End vlan_tables.

Lemma applyTableRows_vlan_decodes_witness :
  let row := take 16 extendedVLANDefaultRows in
  let t := mkRows 3 (drop 32 extendedVLANDefaultRows ++ drop 16 (take 32 extendedVLANDefaultRows) ++ row) in
  ((∃ rules, Vlan.ParseRows (Rows t) false = Ok rules) ∧
   Z.of_nat (length (Rows t)) = NumRows t * 16 ∧ NumRows t ≤ 64).
Proof.
  apply (@applyTableRows_vlan_decodes canonical_range 64 false
           (mkRows 3 extendedVLANDefaultRows) (mkRows 1 (take 16 extendedVLANDefaultRows)));
    [by_decide|by eexists; vm_compute|by_decide|by vm_compute].
Defined.

(** ** Row controls *)

Lemma keyOf_mod control : keyOf control = control mod 1024.
Proof. unfold keyOf. by rewrite (land_mask 10). Qed.

Lemma partOf_mod control : partOf control = (control / 2048) mod 8.
Proof.
  unfold partOf. rewrite (land_field 3 11) by done. rewrite shiftr_div by done.
  change (2 ^ 11) with 2048. change (2 ^ 3) with 8. by rewrite Z.div_mul.
Qed.

(** The control word a stored row is given. *)
Lemma control_fields key part :
  is_u 10 key → 0 ≤ part < 8 →
  let control := Z.lor (Z.shiftl part 11) key in
  is_u 16 control ∧ keyOf control = key ∧ partOf control = part ∧
  Z.land control (Z.lor tableSetControlMask tableTestMask) = 0.
Proof.
  intros Hk Hp. cbv zeta.
  assert (∀ x, is_u (Z.of_nat 13) x →
    (let part := x / 1024 in let key := x mod 1024 in
     let control := Z.lor (Z.shiftl part 11) key in
     bool_decide (is_u 16 control) && (keyOf control =? key) && (partOf control =? part) &&
     (Z.land control (Z.lor tableSetControlMask tableTestMask) =? 0)) = true) as Hall.
  { apply forall_u. vm_compute. reflexivity. }
  specialize (Hall (part * 1024 + key)). unfold is_u in Hk. change (2 ^ 10) with 1024 in Hk.
  cbv zeta in Hall. rewrite (Z.div_add_l part 1024 key), (Z.div_small key), Z.add_0_r in Hall by lia.
  replace ((part * 1024 + key) mod 1024) with key in Hall by lia.
  rewrite !andb_true_iff, bool_decide_eq_true in Hall.
  destruct Hall as [[[? ?] ?] ?]; [unfold is_u; change (2 ^ Z.of_nat 13) with 8192; lia|].
  split_and!; [done|lia|lia|lia].
Qed.

Lemma keyOf_is_u control : is_u 10 (keyOf control).
Proof. rewrite keyOf_mod. unfold is_u. change (2 ^ 10) with 1024. lia. Qed.

Lemma partOf_range control : 0 ≤ partOf control < 8.
Proof. rewrite partOf_mod. lia. Qed.

(** The row key a stored row carries in its control word. *)
Definition rowKeyOf (row : list Z) : Z * Z := (keyOf (Uint16 row 0), partOf (Uint16 row 0)).

Lemma putControl_fields row key part :
  (2 ≤ length row)%nat → is_u 10 key → 0 ≤ part < 8 →
  rowKeyOf (putControl row key part) = (key, part) ∧
  Z.land (Uint16 (putControl row key part) 0) (Z.lor tableSetControlMask tableTestMask) = 0 ∧
  length (putControl row key part) = length row.
Proof.
  intros Hl Hk Hp. destruct (control_fields key part Hk Hp) as (Hu & Hkey & Hpart & Hz).
  unfold rowKeyOf, putControl. rewrite Uint16_put_at_same by done.
  rewrite length_put_at by (rewrite length_put_be; lia). by rewrite Hkey, Hpart.
Qed.

Lemma bytes_ok_putControl row key part : bytes_ok row → bytes_ok (putControl row key part).
Proof. intros. apply bytes_ok_put_at; [done|apply bytes_ok_put_be]. Qed.

(** ** Tables keyed by row key and row part *)

(** The rows of a row map: filed under their own key, of the row size, and well formed. *)
Definition rowmap_ok (n : nat) (good : list Z → Prop) (m : gmap (Z * Z) (list Z)) : Prop :=
  ∀ k r, m !! k = Some r → rowKeyOf r = k ∧ length r = n ∧ bytes_ok r ∧ good r.

(** A table in emitted form: well-formed rows, strictly ordered by row key and row part. *)
Definition part_table (n : nat) (good : list Z → Prop) (t : TableRows) : Prop :=
  whole n (Rows t) ∧ NumRows t = Z.of_nat (length (rowsOf n (Rows t))) ∧
  Forall (λ r, bytes_ok r ∧ good r) (rowsOf n (Rows t)) ∧
  StronglySorted pair_le (map rowKeyOf (rowsOf n (Rows t))) ∧
  NoDup (map rowKeyOf (rowsOf n (Rows t))).

Lemma rowmap_ok_empty n good : rowmap_ok n good ∅.
Proof. intros k r Hk. by rewrite lookup_empty in Hk. Qed.

Lemma rowmap_ok_insert n good m k r :
  rowmap_ok n good m → rowKeyOf r = k → length r = n → bytes_ok r → good r →
  rowmap_ok n good (<[k := r]> m).
Proof.
  intros Hm ? ? ? ? k' r' [[<- <-]|[_ Hk]]%lookup_insert_Some; [done|by apply Hm].
Qed.

Lemma rowmap_ok_filter n good m key : rowmap_ok n good m → rowmap_ok n good (deleteKey key m).
Proof. intros Hm k r [Hk _]%map_lookup_filter_Some. by apply Hm. Qed.

Section part_tables.
Context {MR : MapRange} (n : nat) (good : list Z → Prop) (Hn : (0 < n)%nat).

Lemma emitted_rows m : rowmap_ok n good m → rowsOf n (sortedRows pair_le m) = rowsIn pair_le m.
Proof. intros Hm. apply rowsOf_sortedRows; [done|]. intros k r Hk. by destruct (Hm _ _ Hk) as (_ & ? & _). Qed.

Lemma emitted_part_table m :
  rowmap_ok n good m → part_table n good (mkRows (Z.of_nat (size m)) (sortedRows pair_le m)).
Proof.
  intros Hm. unfold part_table. cbn [Rows NumRows]. rewrite emitted_rows by done.
  rewrite (rowsIn_sorted pair_le rowKeyOf m) by (intros k r Hk; by destruct (Hm _ _ Hk)).
  split_and!.
  - apply whole_concat; [done|]. apply (Forall_rowsIn pair_le). intros k r Hk.
    by destruct (Hm _ _ Hk) as (_ & ? & _).
  - unfold rowsIn. by rewrite length_map, (length_sortedKeys pair_le).
  - apply (Forall_rowsIn pair_le). intros k r Hk. by destruct (Hm _ _ Hk) as (_ & _ & ? & ?).
  - apply (StronglySorted_sortedKeys pair_le).
  - apply (NoDup_sortedKeys pair_le).
Qed.

(** Reading an emitted table back: each row is stored under its key. *)
Lemma reread_rows (m : gmap (Z * Z) (list Z))
    (step : gmap (Z * Z) (list Z) → list Z → Res MibError (gmap (Z * Z) (list Z))) :
  rowmap_ok n good m →
  (∀ m r, length r = n → bytes_ok r → good r → step m r = Ok (<[rowKeyOf r := r]> m)) →
  foldM_res step (rowsOf n (sortedRows pair_le m)) ∅ = Ok m.
Proof.
  intros Hm Hs. rewrite emitted_rows by done. rewrite (foldM_store rowKeyOf step).
  - rewrite (storeAll_rowsIn pair_le rowKeyOf); [done|]. intros k r Hk. by destruct (Hm _ _ Hk).
  - intros m' r Hr. apply (elem_of_rowsIn pair_le) in Hr as [k Hk].
    destruct (Hm _ _ Hk) as (_ & ? & ? & ?). by apply Hs.
Qed.

(** The loops over rows keep the row map well formed. *)
Lemma rows_loop (step : gmap (Z * Z) (list Z) → list Z → Res MibError (gmap (Z * Z) (list Z))) l m m' :
  whole n l → bytes_ok l →
  (∀ m r m', length r = n → bytes_ok r → rowmap_ok n good m → step m r = Ok m' → rowmap_ok n good m') →
  rowmap_ok n good m → foldM_res step (rowsOf n l) m = Ok m' → rowmap_ok n good m'.
Proof.
  intros Hl Hok Hs Hm Hf. destruct (whole_rows n l Hn Hl) as [_ Hlen].
  pose proof (bytes_ok_rows n l Hok) as Hb. rewrite Forall_forall in Hlen, Hb.
  eapply (foldM_inv (rowmap_ok n good)); [|exact Hm|exact Hf].
  intros s r s' Hr Hs0 Hst. eapply Hs; [by apply Hlen|by apply Hb|exact Hs0|exact Hst].
Qed.
End part_tables.

(** Arithmetic on the sizes of rows. *)
Ltac row_size :=
  unfold multicastACLRowSize, multicastPreviewRowSize, multicastServiceRowSize in *; lia.

(** ** Access control lists *)

Definition acl_row_ok (isStatic : bool) (r : list Z) : Prop :=
  let control := Uint16 r 0 in
  Z.land control (Z.lor tableSetControlMask tableTestMask) = 0 ∧ partOf control ≤ 2 ∧
  validateMulticastACLPart (keyOf control) (partOf control) r isStatic = Ok tt.

Lemma aclStore_ok isStatic m r :
  acl_row_ok isStatic r → aclStore isStatic m r = Ok (<[rowKeyOf r := r]> m).
Proof.
  intros (Hz & Hp & Hv). unfold aclStore. cbv zeta. rewrite Hz. pass_guards. by rewrite Hv.
Qed.

Lemma aclStore_inv isStatic m r m' :
  length r = multicastACLRowSize → bytes_ok r →
  rowmap_ok multicastACLRowSize (acl_row_ok isStatic) m → aclStore isStatic m r = Ok m' →
  rowmap_ok multicastACLRowSize (acl_row_ok isStatic) m'.
Proof.
  intros Hl Hb Hm Hs. unfold aclStore in Hs. inv_ok Hs.
  destruct (validateMulticastACLPart _ _ _ _) as [[]|] eqn:Hv; [|done].
  injection Hs as <-. apply rowmap_ok_insert; [done..|]. split_and!; [lia|lia|done].
Qed.

(** The part of a row validation looks at is not the control word. *)
Lemma validate_putControl key part row key' part' isStatic :
  length row = multicastACLRowSize →
  validateMulticastACLPart key part (putControl row key' part') isStatic =
  validateMulticastACLPart key part row isStatic.
Proof.
  intros Hl. change multicastACLRowSize with 24%nat in Hl. unfold validateMulticastACLPart, putControl.
  by field_past.
Qed.

Lemma aclUpdate_inv isStatic m r m' :
  length r = multicastACLRowSize → bytes_ok r →
  rowmap_ok multicastACLRowSize (acl_row_ok isStatic) m → aclUpdate isStatic m r = Ok m' →
  rowmap_ok multicastACLRowSize (acl_row_ok isStatic) m'.
Proof.
  intros Hl Hb Hm Hs. unfold aclUpdate in Hs. cbv zeta in Hs.
  set (key := keyOf (Uint16 r 0)) in *. set (part := partOf (Uint16 r 0)) in *.
  pose proof (keyOf_is_u (Uint16 r 0)) as Hku. pose proof (partOf_range (Uint16 r 0)) as Hpr.
  fold key in Hku. fold part in Hpr.
  destruct (_ =? 1).
  - inv_ok Hs. destruct x.
    destruct (putControl_fields r key part) as (Hrk & Hz & Hlen); [row_size|done|done|].
    assert (acl_row_ok isStatic (putControl r key part)) as Hgood.
    { unfold rowKeyOf in Hrk. injection Hrk as Hk' Hp'. unfold acl_row_ok. rewrite Hk', Hp'.
      split_and!; [done|lia|done]. }
    destruct (negb isStatic && (part =? 1) && _) eqn:Hreset.
    2: { subst m'. apply rowmap_ok_insert; [done..|congruence|by apply bytes_ok_putControl|done]. }
    set (reset := match m !! (key, part) with Some previous => Uint16 previous 20 | None => 0 end) in *.
    assert (is_u 16 reset ∧ ((24 <? reset) && (reset <? 241)) = false) as [Hru Hrv].
    { subst reset. destruct (m !! (key, part)) as [previous|] eqn:Hprev; [|by_decide].
      destruct (Hm _ _ Hprev) as (Hpk & Hpl & Hpb & _ & _ & Hpv).
      unfold rowKeyOf in Hpk. injection Hpk as Hpk1 Hpk2. rewrite Hpk1, Hpk2 in Hpv.
      split; [apply Uint16_is_u; [done|row_size]|].
      unfold validateMulticastACLPart in Hpv. destruct (Z.eqb_spec part 1); [|by rewrite andb_false_r in Hreset].
      destruct (Z.eqb_spec part 0); [lia|]. destruct isStatic; [done|]. by inv_ok Hpv. }
    subst m'.
    assert (length (put_at (putControl r key part) 20 (put_be 2 reset)) = multicastACLRowSize) as Hlen2.
    { rewrite length_put_at; [congruence|]. rewrite length_put_be. row_size. }
    assert (20 + 2 <= length (putControl r key part))%nat as Hfit by (row_size).
    assert (Uint16 (put_at (putControl r key part) 20 (put_be 2 reset)) 0 = Uint16 (putControl r key part) 0)
      as H0 by by field_past.
    apply rowmap_ok_insert; [done| |done| |].
    + unfold rowKeyOf. by rewrite H0.
    + apply bytes_ok_put_at; [by apply bytes_ok_putControl|apply bytes_ok_put_be].
    + unfold acl_row_ok in *. rewrite H0. destruct Hgood as (? & ? & Hv). split_and!; [done|done|].
      unfold rowKeyOf in Hrk. injection Hrk as Hk' Hp'. rewrite Hk', Hp' in *.
      assert (part = 1) as Hp1 by lia. rewrite Hp1 in *. cbn [Z.eqb] in *.
      unfold validateMulticastACLPart in *. cbn [Z.eqb Pos.eqb] in *.
      destruct isStatic; [done|]. rewrite Uint16_put_at_same by done. rewrite Hrv.
      cbn [guard_err mbind Res_bind]. inv_ok Hv.
      rewrite slice_put_at_after by (rewrite length_put_be; lia). by rewrite Hv.
  - destruct (_ =? 2); [|destruct (_ =? 3)]; [| |done]; injection Hs as <-.
    + by apply rowmap_ok_filter.
    + apply rowmap_ok_empty.
Qed.

(** *** Destination ranges *)

(** The destination range of the logical row [key] of a row map. *)
Definition aclRange (m : gmap (Z * Z) (list Z)) (key : Z) : option (Res MibError multicastACLRange) :=
  (λ part0, multicastACLAddressRange key part0 (m !! (key, 2))) <$> m !! (key, 0).

(** Every logical row has a valid range, and no two ranges meet. *)
Definition ranges_ok (m : gmap (Z * Z) (list Z)) : Prop :=
  (∀ k res, aclRange m k = Some res → ∃ v, res = Ok v) ∧
  (∀ k k' v v', k ≠ k' → aclRange m k = Some (Ok v) → aclRange m k' = Some (Ok v') →
     disjointRanges v v' = true).

Lemma disjointRanges_sym v v' : disjointRanges v v' = disjointRanges v' v.
Proof.
  unfold disjointRanges. destruct (r_ipv6 v), (r_ipv6 v'), (bytesLt (r_stop v) (r_start v')),
    (bytesLt (r_stop v') (r_start v)); done.
Qed.

Section acl_ranges.
Context (m : gmap (Z * Z) (list Z)).

Definition entryRange (e : (Z * Z) * list Z) : Res MibError multicastACLRange :=
  multicastACLAddressRange e.1.1 e.2 (m !! (e.1.1, 2)).

Definition apart (e e' : (Z * Z) * list Z) : Prop :=
  ∀ v v', e.1.2 = 0 → e'.1.2 = 0 → entryRange e = Ok v → entryRange e' = Ok v' →
    disjointRanges v v' = true.

Lemma validateACL_loop l ranges :
  (∃ ranges', foldM_res (validateACLStep m) l ranges = Ok ranges') ↔
  Forall (λ e, e.1.2 = 0 →
    ∃ v, entryRange e = Ok v ∧ forallb (λ u, disjointRanges u v) ranges = true) l ∧
  StronglySorted apart l.
Proof.
  revert ranges. induction l as [|[[k p] row] l IH]; intros ranges; cbn [foldM_res].
  { split; [intros _; split; constructor|by eexists]. }
  rewrite Forall_cons, StronglySorted_cons. cbn [fst snd validateACLStep].
  destruct (Z.eqb_spec p 0) as [->|Hp].
  2: { cbn [mbind Res_bind]. rewrite IH. split.
       - intros [Hf Hs]. split_and!; [intros; lia|done| |done].
         apply Forall_forall. intros e _ v v'. cbn. lia.
       - intros [[_ Hf] [_ Hs]]. done. }
  unfold entryRange at 1. cbn [fst snd].
  destruct (multicastACLAddressRange k row (m !! (k, 2))) as [v|e] eqn:Hv; cbn [mbind Res_bind].
  2: { split; [by intros [? ?]|]. intros [[Hx _] _]. destruct (Hx eq_refl) as (? & ? & _). congruence. }
  destruct (forallb (λ u, disjointRanges u v) ranges) eqn:Hd; cbn [negb guard_err mbind Res_bind].
  2: { split; [by intros [? ?]|]. intros [[Hx _] _]. destruct (Hx eq_refl) as (? & [= <-] & ?). congruence. }
  rewrite IH. split.
  - intros [Hf Hs]. split_and!; [intros _; by exists v| | |done].
    + eapply Forall_impl; [exact Hf|]. intros e He H0. destruct (He H0) as (w & Hw & Ha).
      rewrite forallb_app in Ha. apply andb_true_iff in Ha as [Ha _]. by exists w.
    + eapply Forall_impl; [exact Hf|]. intros e He u w _ H0 Hu Hw.
      unfold entryRange in Hu. cbn [fst snd] in Hu. rewrite Hv in Hu. injection Hu as <-.
      destruct (He H0) as (w' & Hw' & Ha). rewrite Hw in Hw'. injection Hw' as <-.
      rewrite forallb_app in Ha. cbn in Ha. by rewrite !andb_true_iff in Ha; destruct Ha as [_ [? _]].
  - intros [[_ Hf] [Ha Hs]]. split; [|done]. rewrite Forall_forall in Hf, Ha |- *.
    intros e He H0. destruct (Hf e He H0) as (w & Hw & Hfa). exists w. split; [done|].
    rewrite forallb_app, Hfa. cbn. rewrite andb_true_r. eapply Ha; [done|done|done| |done].
    unfold entryRange. cbn [fst snd]. exact Hv.
Qed.

Lemma StronglySorted_sym {A} (R : relation A) l :
  NoDup l → (∀ x y, R x y → R y x) →
  StronglySorted R l ↔ ∀ x y, x ∈ l → y ∈ l → x ≠ y → R x y.
Proof.
  intros Hnd Hsym. induction Hnd as [|x l Hx Hnd IH].
  { split; [|constructor]. intros _ x y Hx. by apply not_elem_of_nil in Hx. }
  rewrite StronglySorted_cons, IH, Forall_forall. split.
  - intros [Hf Hs] a b Ha Hb Hab. apply elem_of_cons in Ha, Hb.
    destruct Ha as [->|Ha], Hb as [->|Hb]; [done|by apply Hf|by apply Hsym, Hf|by apply Hs].
  - intros Hall. split.
    + intros y Hy. apply Hall; [by left|by right|]. by intros ->.
    + intros a b Ha Hb. apply Hall; by right.
Qed.

(** Whether a row map is accepted does not depend on the order in which it is ranged over. *)
Lemma validateMulticastACLRows_iff {MR : MapRange} :
  validateMulticastACLRows m = Ok tt ↔ ranges_ok m.
Proof.
  transitivity (∃ ranges', foldM_res (validateACLStep m) (range m) [] = Ok ranges').
  { unfold validateMulticastACLRows. destruct (foldM_res _ _ _); cbn; naive_solver. }
  rewrite validateACL_loop, Forall_forall, StronglySorted_sym.
  2: { eapply NoDup_fmap_1, NoDup_range_fst. }
  2: { intros x y Hxy v v' ? ? ? ?. rewrite disjointRanges_sym. by eapply Hxy. }
  unfold ranges_ok, aclRange. split.
  - intros [Hv Hd]. split.
    + intros k res Hres. apply fmap_Some in Hres as (part0 & Hp & Hres). apply elem_of_range in Hp.
      destruct (Hv _ Hp eq_refl) as (v & Hr & _). exists v. rewrite Hres. exact Hr.
    + intros k k' v v' Hne (p & Hp & Hr)%fmap_Some (p' & Hp' & Hr')%fmap_Some.
      apply elem_of_range in Hp, Hp'. eapply (Hd _ _ Hp Hp'); try done. by intros [= ? ?].
  - intros [Hv Hd]. split.
    + intros [[k p] row] Hin Hp. cbn in Hp. subst p. apply elem_of_range in Hin.
      destruct (Hv k (entryRange ((k, 0), row))) as [v Hv']; [by rewrite Hin|]. by exists v.
    + intros [[k p] row] [[k' p'] row'] Hin Hin' Hne v v' Hp Hp' Hr Hr'. cbn in Hp, Hp'. subst p p'.
      apply elem_of_range in Hin, Hin'. apply (Hd k k').
      * intros ->. rewrite Hin in Hin'. congruence.
      * rewrite Hin. cbn. f_equal. exact Hr.
      * rewrite Hin'. cbn. f_equal. exact Hr'.
Qed.
End acl_ranges.

(** [a] is a destination address of the range, of the given protocol. *)
Definition address_in (v : multicastACLRange) (ipv6 : bool) (a : list Z) : bool :=
  Bool.eqb (r_ipv6 v) ipv6 && bytesLe (r_start v) a && bytesLe a (r_stop v).

Lemma disjoint_no_address v v' ipv6 a :
  disjointRanges v v' = true → address_in v ipv6 a = true → address_in v' ipv6 a = false.
Proof.
  intros Hd Ha. apply not_true_iff_false. intros Ha'. unfold address_in in *.
  rewrite !andb_true_iff in Ha, Ha'.
  destruct Ha as [[Hp%eqb_prop Hlo] Hhi], Ha' as [[Hp'%eqb_prop Hlo'] Hhi'].
  unfold disjointRanges in Hd. rewrite Hp, Hp', eqb_reflx in Hd. cbn in Hd. unfold bytesLt in Hd.
  rewrite (bytesLe_trans _ a _ Hlo' Hhi), (bytesLe_trans _ a _ Hlo Hhi') in Hd. done.
Qed.

(** The row map a table holds. *)
Definition tableMap (n : nat) (t : TableRows) : gmap (Z * Z) (list Z) :=
  storeAll rowKeyOf (rowsOf n (Rows t)) ∅.

Lemma tableMap_emitted {MR : MapRange} n good m :
  (0 < n)%nat → rowmap_ok n good m →
  tableMap n (mkRows (Z.of_nat (size m)) (sortedRows pair_le m)) = m.
Proof.
  intros Hn Hm. unfold tableMap. cbn [Rows]. rewrite (emitted_rows n good) by done.
  apply (storeAll_rowsIn pair_le). intros k r Hk. by destruct (Hm _ _ Hk).
Qed.

Definition aclName (isStatic : bool) : string :=
  if isStatic then McastOps_StaticTable else McastOps_DynamicTable.

Lemma ACLRowSize_pos : (0 < multicastACLRowSize)%nat.
Proof. row_size. Qed.

Section acl.
Context {MR : MapRange}.

(** An accepted update leaves a well-formed row map whose ranges do not meet. *)
Lemma applyMulticastACLRows_inv isStatic existing updates t :
  bytes_ok (Rows existing) → bytes_ok (Rows updates) →
  whole multicastACLRowSize (Rows existing) → whole multicastACLRowSize (Rows updates) →
  applyMulticastACLRows (aclName isStatic) existing updates = Ok t →
  ∃ m, t = mkRows (Z.of_nat (size m)) (sortedRows pair_le m) ∧
    rowmap_ok multicastACLRowSize (acl_row_ok isStatic) m ∧ ranges_ok m.
Proof.
  intros Hbe Hbu Hwe Hwu Ha. unfold applyMulticastACLRows in Ha.
  replace (if bool_decide (aclName isStatic = McastOps_DynamicTable) then _ else _)
    with (@Ok MibError bool isStatic) in Ha by by destruct isStatic.
  cbn [mbind Res_bind] in Ha. inv_ok Ha. destruct x1. exists x0. split_and!; [done| |].
  - eapply (rows_loop _ _ ACLRowSize_pos (aclUpdate isStatic)); [exact Hwu|exact Hbu| | |exact Hr0].
    + intros m r m' ? ? ?. by apply aclUpdate_inv.
    + eapply (rows_loop _ _ ACLRowSize_pos (aclStore isStatic)); [exact Hwe|exact Hbe| | |exact Hr].
      * intros m r m' ? ? ?. by apply aclStore_inv.
      * apply rowmap_ok_empty.
  - by eapply validateMulticastACLRows_iff.
Qed.

(** C14: an accepted update of a multicast access control list leaves rows in canonical form,
    strictly ordered by row key and part and each passing its part's checks, every logical row
    having a valid destination range, and no multicast address lying in the ranges of two
    logical rows: the list decides at most one entry for a destination. *)
Theorem applyMulticastACLRows_disjoint isStatic existing updates t
    (Hbe : bytes_ok (Rows existing)) (Hbu : bytes_ok (Rows updates))
    (Hwe : whole multicastACLRowSize (Rows existing)) (Hwu : whole multicastACLRowSize (Rows updates))
    (Ha : applyMulticastACLRows (aclName isStatic) existing updates = Ok t) :
  part_table multicastACLRowSize (acl_row_ok isStatic) t ∧
  (∀ key res, aclRange (tableMap multicastACLRowSize t) key = Some res → ∃ v, res = Ok v) ∧
  ∀ key key' v v' ipv6 a, key ≠ key' →
    aclRange (tableMap multicastACLRowSize t) key = Some (Ok v) →
    aclRange (tableMap multicastACLRowSize t) key' = Some (Ok v') →
    address_in v ipv6 a = true → address_in v' ipv6 a = false.
Proof.
  destruct (applyMulticastACLRows_inv isStatic existing updates t) as (m & -> & Hm & Hv & Hd); [done..|].
  rewrite (tableMap_emitted _ _ _ ACLRowSize_pos Hm). split_and!; [|done|].
  - apply emitted_part_table; [exact ACLRowSize_pos|done].
  - intros key key' v v' ipv6 a Hne Hk Hk'. apply disjoint_no_address. by eapply Hd.
Qed.
End acl.

(** A committed access control list reads back: on a table an accepted update produced, an
    empty update is accepted and gives the same table, whatever the iteration orders of the two
    requests, so the committed rows can never be rejected as corrupt later. *)
Theorem applyMulticastACLRows_stable (MR MR' : MapRange) isStatic existing updates t
    (Hbe : bytes_ok (Rows existing)) (Hbu : bytes_ok (Rows updates))
    (Hwe : whole multicastACLRowSize (Rows existing)) (Hwu : whole multicastACLRowSize (Rows updates))
    (Ha : @applyMulticastACLRows MR (aclName isStatic) existing updates = Ok t) :
  @applyMulticastACLRows MR' (aclName isStatic) t (mkRows 0 []) = Ok t.
Proof.
  destruct (@applyMulticastACLRows_inv MR isStatic existing updates t) as (m & -> & Hm & Hv); [done..|].
  unfold applyMulticastACLRows.
  replace (if bool_decide (aclName isStatic = McastOps_DynamicTable) then _ else _)
    with (@Ok MibError bool isStatic) by by destruct isStatic.
  cbn [mbind Res_bind Rows]. rewrite (reread_rows _ _ ACLRowSize_pos m (aclStore isStatic) Hm).
  2: { intros. by apply aclStore_ok. }
  cbn [mbind Res_bind foldM_res rowsOf chunks length].
  rewrite (proj2 (validateMulticastACLRows_iff m) Hv). cbn [mbind Res_bind].
  do 2 f_equal. unfold sortedRows. by rewrite (sortedKeys_unique pair_le m MR' MR).
Qed.

Definition sampleACLRow (key : Z) (last : Z) : list Z :=
  put_be 2 (0x4000 + key) ++ put_be 2 100 ++ put_be 2 4097 ++ replicate 4 0 ++
  [239; 1; 1; 0; 239; 1; 1; last] ++ replicate 6 0.
Definition sampleACLStored (key : Z) (last : Z) : list Z :=
  put_be 2 key ++ put_be 2 100 ++ put_be 2 4097 ++ replicate 4 0 ++
  [239; 1; 1; 0; 239; 1; 1; last] ++ replicate 6 0.

Lemma applyMulticastACLRows_disjoint_witness :
  let t := mkRows 1 (sampleACLStored 7 9) in
  part_table multicastACLRowSize (acl_row_ok true) t ∧
  (∀ key res, aclRange (tableMap multicastACLRowSize t) key = Some res → ∃ v, res = Ok v) ∧
  ∀ key key' v v' ipv6 a, key ≠ key' →
    aclRange (tableMap multicastACLRowSize t) key = Some (Ok v) →
    aclRange (tableMap multicastACLRowSize t) key' = Some (Ok v') →
    address_in v ipv6 a = true → address_in v' ipv6 a = false.
Proof.
  apply (@applyMulticastACLRows_disjoint canonical_range true (mkRows 0 [])
           (mkRows 1 (sampleACLRow 7 9))); [by_decide..|by vm_compute].
Defined.

Lemma applyMulticastACLRows_stable_witness :
  let t := mkRows 1 (sampleACLStored 7 9) in
  @applyMulticastACLRows canonical_range (aclName true) t (mkRows 0 []) = Ok t.
Proof.
  apply (applyMulticastACLRows_stable canonical_range canonical_range true (mkRows 0 [])
           (mkRows 1 (sampleACLRow 7 9))); [by_decide..|by vm_compute].
Defined.

(** ** Allowed preview groups *)

(** A timed row is part 1 of its logical row: a duration of 0 is untimed and has no time left;
    otherwise some time is left, and never more than the duration. *)
Definition timer_ok (r : list Z) : Prop :=
  if Uint16 r 18 =? 0 then Uint16 r 20 = 0 else 0 < Uint16 r 20 ≤ Uint16 r 18.
#[export] Instance timer_ok_dec r : Decision (timer_ok r).
Proof. unfold timer_ok. case_match; apply _. Defined.

Definition preview_row_ok (r : list Z) : Prop :=
  let control := Uint16 r 0 in
  Z.land control (Z.lor tableSetControlMask tableTestMask) = 0 ∧ partOf control ≤ 1 ∧
  (if partOf control =? 0 then validateAllowedPreviewPart0 r = Ok tt
   else validateAllowedPreviewPart1 r = Ok tt ∧ timer_ok r).

Lemma PreviewRowSize_pos : (0 < multicastPreviewRowSize)%nat.
Proof. row_size. Qed.

Lemma previewStore_ok m r : preview_row_ok r → previewStore m r = Ok (<[rowKeyOf r := r]> m).
Proof.
  intros (Hz & Hp & Hv). unfold previewStore. cbv zeta. rewrite Hz. pass_guards.
  destruct (partOf (Uint16 r 0) =? 0); [by rewrite Hv|]. destruct Hv as [Hv _]. by rewrite Hv.
Qed.

(** Reading a table whose rows are well formed. *)
Lemma read_table (n : nat) (good : list Z → Prop) (t : TableRows)
    (step : gmap (Z * Z) (list Z) → list Z → Res MibError (gmap (Z * Z) (list Z))) :
  (0 < n)%nat → part_table n good t →
  (∀ m r, good r → step m r = Ok (<[rowKeyOf r := r]> m)) →
  foldM_res step (rowsOf n (Rows t)) ∅ = Ok (tableMap n t) ∧ rowmap_ok n good (tableMap n t).
Proof.
  intros Hn (Hw & _ & Hall & _) Hs. destruct (whole_rows n (Rows t) Hn Hw) as [_ Hlen].
  rewrite Forall_forall in Hall, Hlen. split.
  - apply foldM_store. intros m r Hr. apply Hs. by apply Hall.
  - unfold tableMap. intros k r. rewrite storeAll_lookup, lookup_empty.
    destruct (List.find _ _) eqn:Hf; [|done]. intros [= ->].
    apply find_some in Hf as [Hin Hk]. apply bool_decide_eq_true in Hk.
    apply in_rev, list_elem_of_In in Hin. split_and!; [done|by apply Hlen|by apply Hall..].
Qed.

Definition previous_ok (previous : option (list Z)) : Prop :=
  match previous with
  | Some r => timer_ok r
  | None => True
  end.

Lemma previewTimeLeft_range previous duration :
  previous_ok previous → is_u 16 duration →
  let timeLeft := previewTimeLeft previous duration in
  0 ≤ timeLeft ≤ duration.
Proof.
  intros Hp Hd. cbv zeta. unfold previewTimeLeft. unfold is_u in Hd. change (2 ^ 16) with 65536 in Hd.
  destruct previous as [r|]; [|lia]. cbn in Hp. unfold timer_ok in Hp.
  destruct (Z.eqb_spec (Uint16 r 18) 0); cbn [negb andb]; [lia|].
  destruct (Z.eqb_spec duration 0); cbn [negb andb]; [lia|].
  destruct (Z.ltb_spec (Uint16 r 20 + duration - Uint16 r 18) 0).
  - cbn. unfold wrap. rewrite Z.mod_0_l by done. lia.
  - destruct (Z.ltb_spec 0xffff (Uint16 r 20 + duration - Uint16 r 18)); [lia|].
    rewrite wrap_small by (unfold is_u; change (2 ^ 16) with 65536; lia). lia.
Qed.

Lemma validatePreview_put key part row isPart1 :
  length row = multicastPreviewRowSize →
  (if isPart1 : bool then validateAllowedPreviewPart1 (putControl row key part)
   else validateAllowedPreviewPart0 (putControl row key part)) =
  (if isPart1 then validateAllowedPreviewPart1 row else validateAllowedPreviewPart0 row).
Proof.
  intros Hl. change multicastPreviewRowSize with 22%nat in Hl.
  unfold validateAllowedPreviewPart1, validateAllowedPreviewPart0, putControl. cbn [foldM_res].
  destruct isPart1; by field_past.
Qed.

Lemma previewUpdate_inv m r m' :
  length r = multicastPreviewRowSize → bytes_ok r →
  rowmap_ok multicastPreviewRowSize preview_row_ok m → previewUpdate m r = Ok m' →
  rowmap_ok multicastPreviewRowSize preview_row_ok m'.
Proof.
  intros Hl Hb Hm Hs. unfold previewUpdate in Hs. cbv zeta in Hs.
  set (key := keyOf (Uint16 r 0)) in *. set (part := partOf (Uint16 r 0)) in *.
  pose proof (keyOf_is_u (Uint16 r 0)) as Hku. pose proof (partOf_range (Uint16 r 0)) as Hpr.
  fold key in Hku. fold part in Hpr.
  destruct (_ =? 1).
  2: { destruct (_ =? 2); [|destruct (_ =? 3)]; [| |done]; injection Hs as <-;
       [by apply rowmap_ok_filter|apply rowmap_ok_empty]. }
  inv_ok Hs. apply orb_false_iff in Hg as [_ Hpart].
  destruct (putControl_fields r key part) as (Hrk & Hz & Hlen); [row_size|done|done|].
  pose proof Hrk as Hrk'. unfold rowKeyOf in Hrk'. injection Hrk' as Hk' Hp'.
  pose proof (bytes_ok_putControl r key part Hb) as Hbp.
  set (stored := putControl r key part) in *.
  destruct (Z.eqb_spec part 0) as [Hp0|Hp0].
  - inv_ok Hs. destruct x. subst m'. apply rowmap_ok_insert; [done|done|congruence|done|].
    unfold preview_row_ok. rewrite Hp'. split_and!; [done|lia|]. by rewrite Hp0.
  - inv_ok Hs. destruct x.
    pose proof (Uint16_is_u stored 18 Hbp ltac:(row_size)) as Hdu.
    assert (previous_ok (m !! (key, part))) as Hprev.
    { destruct (m !! (key, part)) as [p|] eqn:Hpm; [|done]. cbn.
      destruct (Hm _ _ Hpm) as (Hpk & _ & _ & _ & _ & Hv). injection Hpk as Hpk1 Hpk2.
      rewrite Hpk2 in Hv. destruct (Z.eqb_spec part 0); [done|]. by destruct Hv. }
    pose proof (previewTimeLeft_range _ _ Hprev Hdu) as Ht. cbv zeta in Ht.
    set (left := previewTimeLeft (m !! (key, part)) (Uint16 stored 18)) in *.
    set (stored2 := put_at stored 20 (put_be 2 left)) in *.
    assert (length stored2 = multicastPreviewRowSize) as Hlen2.
    { subst stored2. rewrite length_put_at; [congruence|]. rewrite length_put_be. row_size. }
    assert (20 + 2 <= length stored)%nat as Hfit by row_size.
    assert (is_u 16 left) as Hlu by (unfold is_u in *; lia).
    assert (Uint16 stored2 0 = Uint16 stored 0 ∧ Uint16 stored2 18 = Uint16 stored 18) as [H0 H18].
    { subst stored2. split; by field_past. }
    assert (Uint16 stored2 20 = left) as H20 by (subst stored2; by apply Uint16_put_at_same).
    destruct (negb (Uint16 stored 18 =? 0) && (left =? 0)) eqn:Hgone.
    + injection Hs as <-. by apply rowmap_ok_filter.
    + injection Hs as <-. apply rowmap_ok_insert; [done| |done| |].
      * unfold rowKeyOf. by rewrite H0.
      * apply bytes_ok_put_at; [done|apply bytes_ok_put_be].
      * unfold preview_row_ok. rewrite H0, Hp'. destruct (Z.eqb_spec part 0); [done|].
        split_and!; [done|lia| |].
        -- unfold validateAllowedPreviewPart1 in *. subst stored2.
           rewrite slice_put_at_before by (rewrite ?length_put_be; lia). exact Hr.
        -- unfold timer_ok. rewrite H18, H20. destruct (Z.eqb_spec (Uint16 stored 18) 0); cbn in Hgone; lia.
Qed.

(** Preview timers stay sound: on an allowed-preview table whose rows are in canonical form
    with each timed row's time left between 1 and its duration, an accepted update leaves such
    a table; in particular no row is ever stored with its preview time used up. *)
Theorem applyAllowedPreviewRows_timers {MR : MapRange} existing updates t
    (He : part_table multicastPreviewRowSize preview_row_ok existing)
    (Hbu : bytes_ok updates) (Hwu : whole multicastPreviewRowSize updates)
    (Ha : applyAllowedPreviewRows (Rows existing) updates = Ok t) :
  part_table multicastPreviewRowSize preview_row_ok t.
Proof.
  unfold applyAllowedPreviewRows in Ha.
  destruct (read_table _ _ existing previewStore PreviewRowSize_pos He) as [Hread Hm].
  { intros. by apply previewStore_ok. }
  rewrite Hread in Ha. cbn [mbind Res_bind] in Ha. inv_ok Ha. subst t.
  apply emitted_part_table; [exact PreviewRowSize_pos|].
  eapply (rows_loop _ _ PreviewRowSize_pos previewUpdate); [exact Hwu|exact Hbu| |exact Hm|exact Hr].
  intros m r m' ? ? ?. by apply previewUpdate_inv.
Qed.

(** A class-310 part-1 row for group 239.1.1.1 with the given control, duration and time left. *)
Definition samplePreviewRow (control duration left : Z) : list Z :=
  put_be 2 control ++ replicate 12 0 ++ [239; 1; 1; 1] ++ put_be 2 duration ++ put_be 2 left.

Lemma applyAllowedPreviewRows_timers_witness :
  part_table multicastPreviewRowSize preview_row_ok (mkRows 1 (samplePreviewRow 0x0805 50 10)).
Proof.
  apply (@applyAllowedPreviewRows_timers canonical_range (mkRows 1 (samplePreviewRow 0x0805 100 60))
           (samplePreviewRow 0x4805 50 0)); [|by_decide|by_decide|by vm_compute].
  unfold part_table, preview_row_ok. split_and!; [by_decide|by vm_compute| |by_decide|by_decide].
  constructor; [|constructor]. split; [by_decide|]. cbv zeta.
  split_and!; [by vm_compute|by vm_compute|split; [by vm_compute|by_decide]].
Defined.

(** Replacing a running preview keeps the time already watched: a part-1 row of a new
    non-zero duration over a stored one leaves new duration minus elapsed time, and when that
    time is used up the whole logical row is removed instead. *)
Theorem previewUpdate_elapsed m row m' previous
    (Hl : length row = multicastPreviewRowSize) (Hb : bytes_ok row)
    (Hset : setControlOf (Uint16 row 0) = 1) (Hpart : partOf (Uint16 row 0) = 1)
    (Hprev : m !! (keyOf (Uint16 row 0), 1) = Some previous) (Ht : timer_ok previous)
    (Hold : Uint16 previous 18 ≠ 0) (Hnew : Uint16 row 18 ≠ 0)
    (Hu : previewUpdate m row = Ok m') :
  let key := keyOf (Uint16 row 0) in
  let elapsed := Uint16 previous 18 - Uint16 previous 20 in
  if Uint16 row 18 <=? elapsed then m' = deleteKey key m
  else ∃ stored, m' = <[(key, 1) := stored]> m ∧
         Uint16 stored 18 = Uint16 row 18 ∧ Uint16 stored 20 = Uint16 row 18 - elapsed.
Proof.
  unfold previewUpdate in Hu. cbv zeta in Hu |- *. rewrite Hset, Hpart, Hprev in Hu. cbn [Z.eqb Pos.eqb] in Hu.
  inv_ok Hu. pose proof (keyOf_is_u (Uint16 row 0)) as Hku.
  destruct (putControl_fields row (keyOf (Uint16 row 0)) 1) as (_ & _ & Hlen); [row_size|done|lia|].
  pose proof (Uint16_is_u row 18 Hb ltac:(row_size)) as Hdu. unfold is_u in Hdu. change (2 ^ 16) with 65536 in Hdu.
  set (stored := putControl row (keyOf (Uint16 row 0)) 1) in *.
  assert (Uint16 stored 18 = Uint16 row 18) as H18.
  { subst stored. unfold putControl. assert (length row = 22)%nat by exact Hl. by field_past. }
  rewrite H18 in Hu. unfold timer_ok in Ht. destruct (Z.eqb_spec (Uint16 previous 18) 0); [done|].
  assert (previewTimeLeft (Some previous) (Uint16 row 18) =
          Z.max 0 (Uint16 row 18 - (Uint16 previous 18 - Uint16 previous 20))) as Hleft.
  { unfold previewTimeLeft. destruct (Z.eqb_spec (Uint16 previous 18) 0); [done|].
    destruct (Z.eqb_spec (Uint16 row 18) 0); [done|]. cbn [negb andb].
    destruct (Z.ltb_spec (Uint16 previous 20 + Uint16 row 18 - Uint16 previous 18) 0); [cbn; unfold wrap; lia|].
    destruct (Z.ltb_spec 0xffff (Uint16 previous 20 + Uint16 row 18 - Uint16 previous 18)); [lia|].
    rewrite wrap_small by (unfold is_u; change (2 ^ 16) with 65536; lia). lia. }
  rewrite Hleft in Hu. destruct (Z.eqb_spec (Uint16 row 18) 0); [done|]. cbn [negb andb] in Hu.
  destruct (Z.leb_spec (Uint16 row 18) (Uint16 previous 18 - Uint16 previous 20)).
  - rewrite Z.max_l in Hu by lia. by injection Hu as <-.
  - rewrite Z.max_r in Hu by lia.
    destruct (Z.eqb_spec (Uint16 row 18 - (Uint16 previous 18 - Uint16 previous 20)) 0); [lia|].
    injection Hu as <-. eexists. split_and!; [done| |].
    + rewrite <- H18. assert (20 + 2 <= length stored)%nat by row_size. by field_past.
    + apply Uint16_put_at_same; [row_size|]. unfold is_u. change (2 ^ 16) with 65536. lia.
Qed.

Lemma previewUpdate_elapsed_witness :
  let m : gmap (Z * Z) (list Z) := {[ (5, 1) := samplePreviewRow 0x0805 100 60 ]} in
  ∃ stored, (<[(5, 1) := samplePreviewRow 0x0805 50 10]> m) = <[(5, 1) := stored]> m ∧
    Uint16 stored 18 = 50 ∧ Uint16 stored 20 = 50 - (100 - 60).
Proof.
  apply (previewUpdate_elapsed {[ (5, 1) := samplePreviewRow 0x0805 100 60 ]}
           (samplePreviewRow 0x4805 50 0) _ (samplePreviewRow 0x0805 100 60));
    [by vm_compute|by_decide|by vm_compute|by vm_compute|by vm_compute|by_decide|by vm_compute|by vm_compute|by vm_compute].
Defined.
