(* ===== verification/Semantics.v ===== *)
(** * MIB: instances and their validation

    The functions of src/internal/mib/store.go that do not depend on a store: loading the
    definition of a class, the semantic checks, normalization, the access check, the data sync
    counter and the sorted snapshot. *)

From S2P Require Import Prelude Maps MeTypes MeClasses MeLib Mib.

(** src/internal/onu3/record.go. *)
Definition RecordSize : nat := 25.

(** [int8(x)] of a [uint8]. *)
Definition s8 (x : Z) : Z := if x <? 128 then x else x - 256.

Definition byteAttribute (attributes : AttributeValueMap) (name : string) : option Z :=
  match attributes !! name with Some (VU8 x) => Some x | _ => None end.

Definition isCapabilityClass (classID : Z) : bool :=
  (classID =? OmciClassID) || (classID =? ManagedEntityMeClassID) || (classID =? AttributeMeClassID).

Definition incrementDataSync (value : Z) : Z := if value =? 255 then 1 else u8 (value + 1).

Definition onuDataKey : Key := (OnuDataClassID, 0).
Definition onu3Key : Key := (Onu3GClassID, 0).

Definition withAttribute (instance : Instance_) (name : string) (value : Value) : Instance_ :=
  mkInstance (i_Key instance) (<[name := value]> (i_Attributes instance)) (i_Origin instance).

Definition setDataSync (instances : gmap Key Instance_) (value : Z) : gmap Key Instance_ :=
  match instances !! onuDataKey with
  | None => instances
  | Some instance => <[onuDataKey := withAttribute instance OnuData_MibDataSync (VU8 value)]> instances
  end.

(** The order of [snapshotInstances]. *)
Definition instance_le (a b : Instance_) : Prop := pair_le (i_Key a) (i_Key b).
#[export] Instance instance_le_dec a b : Decision (instance_le a b).
Proof. unfold instance_le. apply _. Defined.

(** [maximumCapabilityValue], for the sizes of attribute definitions. *)
Definition maximumCapabilityValue (size : Z) : Z :=
  if (size <=? 0) || (8 <=? size) then 2 ^ 64 - 1 else u64 (Z.shiftl 1 (size * 8) - 1).

Definition unsignedCapabilityValue (value : Value) : option Z :=
  match value with
  | VU8 x | VU16 x | VU32 x | VU64 x => Some x
  | _ => None
  end.

Section semantics.
Context {MR : MapRange}.

Definition snapshotInstances (instances : gmap Key Instance_) : list Instance_ :=
  merge_sort instance_le (map snd (range instances)).

Definition attributeMask (classID : Z) (name : string) : Z :=
  match GetAttributesDefinitions classID with
  | Err _ => 0
  | Ok definitions =>
      match GetAttributeDefinitionByName definitions name with
      | Some definition => Mask definition
      | None => 0
      end
  end.

Definition loadDefinition (classID entityID : Z) (attributes : AttributeValueMap)
    : Res MibError ManagedEntity :=
  match LoadManagedEntityDefinition classID (Some (mkParams entityID attributes)) with
  | Err code => Err (result (if code =? ProcessingError then UnknownEntity else code))
  | Ok entity =>
      match Support (definition entity) with
      | UnsupportedManagedEntity | UnsupportedVendorSpecificManagedEntity => Err (result UnknownEntity)
      | _ => Ok entity
      end
  end.

(** [AttributeFailure] naming the attributes at fault. *)
Definition attributeFailure (failed : Z) : MibError := ResultError AttributeFailure failed 0.

Definition attributeValueError (classID : Z) (name : string) : MibError :=
  attributeFailure (attributeMask classID name).

Definition validateONU3State (attributes : AttributeValueMap) : Res MibError unit :=
  match attributes !! Onu3G_TotalNumberOfStatusSnapshots,
        attributes !! Onu3G_NumberOfValidStatusSnapshots,
        attributes !! Onu3G_NextStatusSnapshotIndex,
        attributes !! Onu3G_StatusSnapshotRecordTable,
        attributes !! Onu3G_MostRecentStatusSnapshot with
  | Some (VU16 total), Some (VU16 valid), Some (VU16 next), Some (VTable table), Some (VOctets recent) =>
      _ ← guard_err ((total =? 0) || (total <? valid) || (total <=? next)) (result ParameterError);
      _ ← guard_err ((valid <? total) && negb (next =? valid)) (result ParameterError);
      _ ← guard_err (negb (NumRows table =? valid) ||
                     negb (Z.of_nat (length (Rows table)) =? valid * Z.of_nat RecordSize))
            (result ParameterError);
      _ ← guard_err (negb (length recent =? RecordSize)%nat) (result ParameterError);
      _ ← guard_err (match attributes !! Onu3G_EnhancedMode with
                     | Some (VU8 enhanced) => 1 <? enhanced
                     | _ => false
                     end) (result ParameterError);
      if negb (valid =? 0) then
        let latest := (next + total - 1) mod total in
        let offset := (Z.to_nat latest * RecordSize)%nat in
        guard_err ((length (Rows table) <? offset + RecordSize)%nat ||
                   negb (bool_decide (recent = slice (Rows table) offset (offset + RecordSize))))
          (result ParameterError)
      else Ok tt
  | _, _, _, _, _ => Err (result ParameterError)
  end.

(** The checks on an ANI-G instance: the part of [validateSemantics] after the class switch. *)
Definition validateAniG (attributes : AttributeValueMap) : Res MibError unit :=
  let byte := byteAttribute attributes in
  let mask := attributeMask AniGClassID in
  let sf := byte AniG_SignalFailThreshold in
  let sd := byte AniG_SignalDegradeThreshold in
  _ ← guard_err (match sf with Some sf => (sf <? 3) || (8 <? sf) | None => false end)
        (attributeValueError AniGClassID AniG_SignalFailThreshold);
  _ ← guard_err (match sd with Some sd => (sd <? 4) || (10 <? sd) | None => false end)
        (attributeValueError AniGClassID AniG_SignalDegradeThreshold);
  _ ← guard_err (match sf, sd with Some sf, Some sd => sd <=? sf | _, _ => false end)
        (attributeFailure (Z.lor (mask AniG_SignalFailThreshold) (mask AniG_SignalDegradeThreshold)));
  _ ← guard_err (match byte AniG_LowerOpticalThreshold, byte AniG_UpperOpticalThreshold with
                 | Some lowerRX, Some upperRX =>
                     negb (lowerRX =? 0xff) && negb (upperRX =? 0xff) && (lowerRX <? upperRX)
                 | _, _ => false end)
        (attributeFailure (Z.lor (mask AniG_LowerOpticalThreshold) (mask AniG_UpperOpticalThreshold)));
  guard_err (match byte AniG_LowerTransmitPowerThreshold, byte AniG_UpperTransmitPowerThreshold with
             | Some lowerTX, Some upperTX =>
                 negb (lowerTX =? 0x81) && negb (upperTX =? 0x81) && (s8 upperTX <? s8 lowerTX)
             | _, _ => false end)
    (attributeFailure (Z.lor (mask AniG_LowerTransmitPowerThreshold) (mask AniG_UpperTransmitPowerThreshold))).

(** The classes whose administrative state is checked. *)
Definition hasAdministrativeState (classID : Z) : bool :=
  (classID =? OnuGClassID) || (classID =? CircuitPackClassID) ||
  (classID =? PhysicalPathTerminationPointEthernetUniClassID) || (classID =? UniGClassID).

Definition validateSemantics (instance : Instance_) : Res MibError unit :=
  let attributes := i_Attributes instance in
  let classID := ClassID_of instance in
  let above1 name := match byteAttribute attributes name with Some x => 1 <? x | None => false end in
  _ ← guard_err (above1 "Arc") (attributeValueError classID "Arc");
  _ ← (if classID =? Onu3GClassID then validateONU3State attributes
       else if hasAdministrativeState classID then
         guard_err (above1 "AdministrativeState") (attributeValueError classID "AdministrativeState")
       else Ok tt);
  if negb (classID =? AniGClassID) then Ok tt else validateAniG attributes.

Definition normalize (instance : Instance_) : Res MibError Instance_ :=
  entity ← loadDefinition (ClassID_of instance) (EntityID_of instance) (i_Attributes instance);
  let instance := mkInstance (i_Key instance) (attributes entity) (i_Origin instance) in
  _ ← validateSemantics instance;
  Ok instance.

(** [validateAccess]: the masks of the attributes that do not allow [required]. *)
Definition accessMasks (entity : ManagedEntity) (attributes : AttributeValueMap)
    (required : AttributeAccess) : Z * Z :=
  fold_left (λ '(failed, unsupported) '(name, _),
      if bool_decide (name = ManagedEntityID) then (failed, unsupported)
      else
        match List.find (λ '(index, definition), negb (index =? 0) && bool_decide (Name definition = name))
                (range (AttributeDefinitions (definition entity))) with
        | Some (_, definition) =>
            if SupportsAttributeAccess definition required then (failed, unsupported)
            else (Z.lor failed (Mask definition), unsupported)
        | None => (failed, 0xffff)
        end)
    (range attributes) (0, 0).

Definition validateAccess (entity : ManagedEntity) (attributes : AttributeValueMap)
    (required : AttributeAccess) : Res MibError unit :=
  let '(failed, unsupported) := accessMasks entity attributes required in
  guard_err (negb (failed =? 0) || negb (unsupported =? 0))
    (ResultError AttributeFailure failed unsupported).

(** The package-level [unknownKeyError]. *)
Definition unknownKeyError (key : Key) : MibError :=
  match loadDefinition key.1 key.2 ∅ with
  | Err result => result
  | Ok _ => result UnknownInstance
  end.
End semantics.
