(* ===== verification/Store.v ===== *)
(** * MIB: the store

    The store of src/internal/mib/store.go and the store operations of table.go.  An
    operation takes the store and the state [W] of the platform behind the applier, and
    returns its result, the store and the platform state: the mutex makes every operation one
    step.  The platform backend is a parameter, as an [Applier] and a [CommandTransaction]. *)

From S2P Require Import Prelude Maps MeTypes MeClasses MeLib Mib Table Semantics.

(** The interfaces the store calls: [true] is a nil error. *)
Definition Applier (W : Type) : Type := Change → W → bool * W.

Record CommandTransaction (W : Type) := mkTransaction {
  Commit : W → bool * W;
  Abort_ : W → bool * W
}.
Arguments mkTransaction {W} _ _.
Arguments Commit {W} _ _.
Arguments Abort_ {W} _ _.

Record Options (W : Type) := mkOptions {
  o_Applier : option (Applier W);
  o_ExtendedVLANTableSize : Z;
  o_StateDomain : string;
  o_SupportedClasses : list Z;
  o_SupportedAttributeMasks : option (gmap Z Z);
  o_ValidateInstance : option (Instance_ → Res MibError unit);
  o_AttributeCapabilities : gmap (Z * string) AttributeCapability
}.
Arguments mkOptions {W} _ _ _ _ _ _ _.
Arguments o_Applier {W} _.
Arguments o_ExtendedVLANTableSize {W} _.
Arguments o_StateDomain {W} _.
Arguments o_SupportedClasses {W} _.
Arguments o_SupportedAttributeMasks {W} _.
Arguments o_ValidateInstance {W} _.
Arguments o_AttributeCapabilities {W} _.

(** A nil map of the store is [None] where the code tests for it. *)
Record Store (W : Type) := mkStore {
  factory : gmap Key Instance_;
  current : gmap Key Instance_;
  dataSync : Z;
  applier : option (Applier W);
  extendedVLANTableSize : Z;
  stateDomain : string;
  supportedClasses : option (gset Z);
  supportedAttributes : option (gmap Z Z);
  attributeCapabilities : gmap (Z * string) AttributeCapability;
  validateInstance : option (Instance_ → Res MibError unit)
}.
Arguments mkStore {W} _ _ _ _ _ _ _ _ _ _.
Arguments factory {W} _.
Arguments current {W} _.
Arguments dataSync {W} _.
Arguments applier {W} _.
Arguments extendedVLANTableSize {W} _.
Arguments stateDomain {W} _.
Arguments supportedClasses {W} _.
Arguments supportedAttributes {W} _.
Arguments attributeCapabilities {W} _.
Arguments validateInstance {W} _.

(** What the operations write: [s.current] and [s.dataSync]. *)
Definition withState {W} (s : Store W) (instances : gmap Key Instance_) (sync : Z) : Store W :=
  mkStore (factory s) instances sync (applier s) (extendedVLANTableSize s) (stateDomain s)
    (supportedClasses s) (supportedAttributes s) (attributeCapabilities s) (validateInstance s).

(** The outcome of an operation. *)
Definition outcome (W A : Type) : Type := (Res MibError A * Store W * W)%type.

(** [if err != nil { return err }] before anything is written. *)
Definition checked {W A B} (s : Store W) (w : W) (r : Res MibError A) (k : A → outcome W B)
    : outcome W B :=
  match r with
  | Err e => (Err e, s, w)
  | Ok a => k a
  end.

Section store.
Context {MR : MapRange} {W : Type}.
Implicit Types s : Store W.

Definition supportsClass s (classID : Z) : bool :=
  match supportedClasses s with
  | None => true
  | Some classes => bool_decide (classID ∈ classes)
  end.

Definition supportedAttributeMask s (classID : Z) : option Z :=
  match supportedAttributes s with
  | None => None
  | Some masks => masks !! classID
  end.

(** The method [unknownKeyError]. *)
Definition storeUnknownKeyError s (key : Key) : MibError :=
  if negb (supportsClass s key.1) then result UnknownEntity else unknownKeyError key.

(** One capability of [validateAttributeCapabilities]. *)
Definition checkCapability (instance : Instance_) (entry : (Z * string) * AttributeCapability)
    : Res MibError unit :=
  let '((classID, name), capability) := entry in
  if negb (classID =? ClassID_of instance) then Ok tt
  else match i_Attributes instance !! name with
  | None => Ok tt
  | Some value =>
      match GetAttributesDefinitions classID with
      | Err _ => Err (result ProcessingError)
      | Ok definitions =>
          match GetAttributeDefinitionByName definitions name with
          | None => Err (result ProcessingError)
          | Some definition =>
              match unsignedCapabilityValue value with
              | None => Err (result ParameterError)
              | Some unsigned =>
                  let valid :=
                    match AttrType definition with
                    | EnumerationAttributeType => bool_decide (unsigned ∈ CodePoints capability)
                    | BitFieldAttributeType => Z.ldiff unsigned (BitField capability) =? 0
                    | _ => (LowerLimit capability <=? unsigned) && (unsigned <=? UpperLimit capability)
                    end in
                  guard_err (negb valid) (attributeFailure (Mask definition))
              end
          end
      end
  end.

Definition validateAttributeCapabilities s (instance : Instance_) : Res MibError unit :=
  foldM_res (λ _ entry, checkCapability instance entry) (range (attributeCapabilities s)) tt.

(** The method [normalize]. *)
Definition normalizeIn s (instance : Instance_) : Res MibError Instance_ :=
  normalized ← normalize instance;
  _ ← validateAttributeCapabilities s normalized;
  _ ← match validateInstance s with
      | None => Ok tt
      | Some validate => validate normalized
      end;
  Ok normalized.

(** The mask [validateSupportedAttributes] reports. *)
Definition unsupportedMask (supported : Z) (definitions : gmap Z AttributeDefinition)
    (attributes : AttributeValueMap) : Z :=
  fold_left (λ unsupported '(name, _),
      if bool_decide (name = ManagedEntityID) then unsupported
      else match GetAttributeDefinitionByName definitions name with
           | None => 0xffff
           | Some definition =>
               if Z.land (Mask definition) supported =? 0 then Z.lor unsupported (Mask definition)
               else unsupported
           end)
    (range attributes) 0.

Definition validateSupportedAttributes s (entity : ManagedEntity) (attributes : AttributeValueMap)
    : Res MibError unit :=
  match supportedAttributeMask s (ClassID (definition entity)) with
  | None => Ok tt
  | Some supported =>
      let unsupported := unsupportedMask supported (AttributeDefinitions (definition entity)) attributes in
      guard_err (negb (unsupported =? 0)) (ResultError AttributeFailure 0 unsupported)
  end.

(** The test of the loop of [pruneUnsupportedAttributes]. *)
Definition keepAttribute (supported : Z) (definitions : gmap Z AttributeDefinition) (name : string) : bool :=
  bool_decide (name = ManagedEntityID) ||
  match GetAttributeDefinitionByName definitions name with
  | None => false
  | Some definition => negb (Z.land (Mask definition) supported =? 0)
  end.

Definition pruneUnsupportedAttributes s (classID : Z) (attributes : AttributeValueMap)
    : AttributeValueMap :=
  match supportedAttributeMask s classID with
  | None => attributes
  | Some supported =>
      match GetAttributesDefinitions classID with
      | Err _ => attributes
      | Ok definitions => filter (λ p, keepAttribute supported definitions p.1 = true) attributes
      end
  end.

Definition nextDataSync s : Z := incrementDataSync (dataSync s).

(** ** Committing *)

(** [after] points to an instance that shares its attribute map with [next], so the data sync
    value that [setDataSync] writes into [next] shows through it. *)
Definition throughShared (value : Z) (after : option Instance_) : option Instance_ :=
  (λ instance, if bool_decide (i_Key instance = onuDataKey)
               then withAttribute instance OnuData_MibDataSync (VU8 value) else instance) <$> after.

(** The applier's answer; a nil applier accepts. *)
Definition applyChange s (change : Change) (w : W) : bool * W :=
  match applier s with
  | None => (true, w)
  | Some apply => apply change w
  end.

Definition commitLocked s (w : W) (operation : Operation) (before after : option Instance_)
    (next : gmap Key Instance_) (sync : Z) : outcome W unit :=
  let next := setDataSync next sync in
  let change := mkChange operation (stateDomain s) before (throughShared sync after)
                  (snapshotInstances next) sync in
  let '(accepted, w) := applyChange s change w in
  if accepted then (Ok tt, withState s next sync, w)
  else (Err (result ProcessingError), s, w).

(** ** Reading *)

Definition Exists_ s (key : Key) : bool := bool_decide (is_Some (current s !! key)).

Definition Get s (key : Key) (mask : Z) : Res MibError Instance_ * option MibError :=
  match current s !! key with
  | None => (Err (storeUnknownKeyError s key), None)
  | Some instance =>
      match loadDefinition key.1 key.2 (i_Attributes instance) with
      | Err result => (Err result, None)
      | Ok entity =>
          let allowed := AllowedAttributeMask (definition entity) in
          let allowed := match supportedAttributeMask s key.1 with
                         | Some supported => Z.land allowed supported
                         | None => allowed
                         end in
          let unsupported := Z.ldiff mask allowed in
          let selectedMask := Z.land mask allowed in
          let selected :=
            fold_left (λ selected '(index, definition),
                if (index =? 0) || negb (Z.land selectedMask (Mask definition) =? 0) then
                  match i_Attributes instance !! Name definition with
                  | Some value => <[Name definition := value]> selected
                  | None => selected
                  end
                else selected)
              (range (AttributeDefinitions (definition entity))) ∅ in
          let instance := mkInstance (i_Key instance) selected (i_Origin instance) in
          (Ok instance,
           if negb (unsupported =? 0) then Some (ResultError AttributeFailure 0 unsupported) else None)
      end
  end.

Definition Snapshot s : list Instance_ := snapshotInstances (current s).

(** ** Creating, setting and deleting *)

Definition createdByOlt (entity : ManagedEntity) : bool :=
  bool_decide (DefAccess (definition entity) = CreatedByOlt) ||
  bool_decide (DefAccess (definition entity) = CreatedByBoth).

(** [Create] up to [commitLocked]: the new instance. *)
Definition prepareCreate s (classID entityID : Z) (attributes : AttributeValueMap)
    : Res MibError Instance_ :=
  let key := (classID, entityID) in
  _ ← guard_err (negb (supportsClass s classID)) (result UnknownEntity);
  _ ← guard_err (Exists_ s key) (result InstanceExists);
  entity ← loadDefinition classID entityID attributes;
  _ ← guard_err (negb (SupportsMsgType entity MeTypes.Create) || negb (createdByOlt entity))
        (result NotSupported);
  _ ← validateSupportedAttributes s entity attributes;
  _ ← validateAccess entity attributes SetByCreate;
  match MergeInDefaultValues classID attributes with
  | Err code => Err (result code)
  | Ok createdAttributes =>
      let createdAttributes := pruneUnsupportedAttributes s classID createdAttributes in
      let instance := mkInstance key createdAttributes OriginOLT in
      let instance := initializeCreatedInstance instance (extendedVLANTableSize s) in
      let instance := mkInstance key (pruneUnsupportedAttributes s classID (i_Attributes instance))
                        (i_Origin instance) in
      normalizeIn s instance
  end.

Definition Create s (w : W) (classID entityID : Z) (attributes : AttributeValueMap) : outcome W unit :=
  checked s w (prepareCreate s classID entityID attributes) (λ instance,
    commitLocked s w OperationCreate None (Some instance)
      (<[(classID, entityID) := instance]> (current s)) (nextDataSync s)).

(** [next.Attributes[name] = value] for every attribute of the request. *)
Definition overwrite (skipEntityID : bool) (attributes old : AttributeValueMap) : AttributeValueMap :=
  fold_left (λ m '(name, value),
      if skipEntityID && bool_decide (name = ManagedEntityID) then m else <[name := value]> m)
    (range attributes) old.

Definition withAttributes (instance : Instance_) (attributes : AttributeValueMap) : Instance_ :=
  mkInstance (i_Key instance) attributes (i_Origin instance).

(** [Set] up to [commitLocked]: the instance before, the instance after and the data sync. *)
Definition prepareSet s (key : Key) (attributes : AttributeValueMap)
    : Res MibError (Instance_ * Instance_ * Z) :=
  match current s !! key with
  | None => Err (storeUnknownKeyError s key)
  | Some current =>
      entity ← loadDefinition key.1 key.2 (i_Attributes current);
      _ ← guard_err (negb (SupportsMsgType entity SetMsg)) (result NotSupported);
      _ ← validateSupportedAttributes s entity attributes;
      _ ← validateAccess entity attributes Write;
      normalized ← normalizeIn s (withAttributes current
                     (overwrite true attributes (i_Attributes current)));
      let dataSync := nextDataSync s in
      if bool_decide (key = onuDataKey) then
        match attributes !! OnuData_MibDataSync with
        | None => Ok (current, normalized, dataSync)
        | Some (VU8 value) =>
            let dataSync := incrementDataSync value in
            Ok (current, withAttribute normalized OnuData_MibDataSync (VU8 dataSync), dataSync)
        | Some _ => Err (result ParameterError)
        end
      else Ok (current, normalized, dataSync)
  end.

Definition Set_ s (w : W) (key : Key) (attributes : AttributeValueMap) : outcome W unit :=
  checked s w (prepareSet s key attributes) (λ '(before, normalized, dataSync),
    if bool_decide (i_Attributes before = i_Attributes normalized) then (Ok tt, s, w)
    else commitLocked s w OperationSet (Some before) (Some normalized)
           (<[key := normalized]> (current s)) dataSync).

Definition Delete s (w : W) (key : Key) : outcome W unit :=
  match current s !! key with
  | None => (Err (storeUnknownKeyError s key), s, w)
  | Some instance =>
      checked s w (loadDefinition key.1 key.2 (i_Attributes instance)) (λ entity,
        if bool_decide (i_Origin instance = OriginONU) || negb (SupportsMsgType entity MeTypes.Delete) ||
           negb (createdByOlt entity)
        then (Err (result NotSupported), s, w)
        else commitLocked s w OperationDelete (Some instance) None
               (delete key (current s)) (nextDataSync s))
  end.

(** ** Reset *)

Definition onu3Preserved : list string :=
  [Onu3G_LatestRestartReason; Onu3G_NumberOfValidStatusSnapshots; Onu3G_NextStatusSnapshotIndex;
   Onu3G_StatusSnapshotRecordTable; Onu3G_MostRecentStatusSnapshot].

Definition preserveONU3State (current reset : gmap Key Instance_) : gmap Key Instance_ :=
  match current !! onu3Key, reset !! onu3Key with
  | Some before, Some after =>
      <[onu3Key := fold_left (λ after name,
          match i_Attributes before !! name with
          | Some value => withAttribute after name value
          | None => after
          end) onu3Preserved after]> reset
  | _, _ => reset
  end.

Definition Reset_ s (w : W) : outcome W unit :=
  commitLocked s w OperationReset None None (preserveONU3State (current s) (factory s)) 0.

(** ** ONU-originated and command-driven updates *)

(** The masks of the attributes an update may not name: the entity id, the data sync counter
    and unknown names set every bit, attributes without read access their own. *)
Definition updateMasks (key : Key) (definitions : gmap Z AttributeDefinition)
    (attributes : AttributeValueMap) : Z * Z :=
  fold_left (λ '(failed, unsupported) '(name, _),
      if bool_decide (name = ManagedEntityID) ||
         ((key.1 =? OnuDataClassID) && bool_decide (name = OnuData_MibDataSync))
      then (failed, 0xffff)
      else match GetAttributeDefinitionByName definitions name with
           | None => (failed, 0xffff)
           | Some definition =>
               if SupportsAttributeAccess definition Read then (failed, unsupported)
               else (Z.lor failed (Mask definition), unsupported)
           end)
    (range attributes) (0, 0).

(** One update of [UpdateAutonomous], [UpdateAutonomousBatch] or [updateByCommand], against the
    instance [current]: the normalized instance. *)
Definition prepareUpdate s (key : Key) (current : option Instance_) (attributes : AttributeValueMap)
    : Res MibError Instance_ :=
  match current with
  | None => Err (storeUnknownKeyError s key)
  | Some current =>
      entity ← loadDefinition key.1 key.2 (i_Attributes current);
      _ ← validateSupportedAttributes s entity attributes;
      let '(failed, unsupported) :=
        updateMasks key (AttributeDefinitions (definition entity)) attributes in
      _ ← guard_err (negb (failed =? 0) || negb (unsupported =? 0))
            (ResultError AttributeFailure failed unsupported);
      normalizeIn s (withAttributes current (overwrite false attributes (i_Attributes current)))
  end.

(** The attributes of the request whose value changed. *)
Definition changedAttributes (attributes before after : AttributeValueMap) : AttributeValueMap :=
  fold_left (λ changed '(name, _),
      if bool_decide (default VNil (before !! name) = default VNil (after !! name)) then changed
      else <[name := default VNil (after !! name)]> changed)
    (range attributes) ∅.

Definition UpdateAutonomous s (key : Key) (attributes : AttributeValueMap)
    : Res MibError AttributeValueMap * Store W :=
  match prepareUpdate s key (current s !! key) attributes with
  | Err e => (Err e, s)
  | Ok normalized =>
      let before := match current s !! key with Some i => i_Attributes i | None => ∅ end in
      let changed := changedAttributes attributes before (i_Attributes normalized) in
      if bool_decide (changed = ∅) then (Ok changed, s)
      else (Ok changed, withState s (<[key := normalized]> (current s)) (dataSync s))
  end.

Definition UpdateAutonomousBatch s (updates : gmap Key AttributeValueMap) : Res MibError unit * Store W :=
  match foldM_res (λ proposed '(key, attributes),
            normalized ← prepareUpdate s key (proposed !! key) attributes;
            Ok (<[key := normalized]> proposed))
          (range updates) (current s) with
  | Err e => (Err e, s)
  | Ok proposed => (Ok tt, withState s proposed (dataSync s))
  end.

(** The loop of [updateByCommand]: the proposed instances, and whether one changed. *)
Definition commandUpdates s (updates : gmap Key AttributeValueMap)
    : Res MibError (gmap Key Instance_ * bool) :=
  foldM_res (λ '(proposed, changed) '(key, attributes),
      normalized ← prepareUpdate s key (current s !! key) attributes;
      if bool_decide (i_Attributes <$> (current s !! key) = Some (i_Attributes normalized))
      then Ok (proposed, changed)
      else Ok (<[key := normalized]> proposed, true))
    (range updates) (current s, false).

Definition abortCommandTransaction (transaction : option (CommandTransaction W)) (cause : MibError)
    (w : W) : MibError * W :=
  match transaction with
  | None => (cause, w)
  | Some transaction =>
      let '(aborted, w) := Abort_ transaction w in
      if aborted then (cause, w)
      else (Joined cause (PlainError "abort platform transaction"), w)
  end.

(** [commandTransactionFailure]: abort, then a processing error. *)
Definition commandTransactionFailure (transaction : CommandTransaction W) (w : W) : MibError * W :=
  let '(_, w) := Abort_ transaction w in (result ProcessingError, w).

Definition updateByCommand s (w : W) (updates : gmap Key AttributeValueMap)
    (transaction : option (CommandTransaction W)) : outcome W unit :=
  match commandUpdates s updates with
  | Err cause => let '(e, w) := abortCommandTransaction transaction cause w in (Err e, s, w)
  | Ok (proposed, false) =>
      match transaction with
      | None => (Ok tt, s, w)
      | Some transaction =>
          let '(committed, w) := Commit transaction w in
          if committed then (Ok tt, s, w)
          else let '(e, w) := commandTransactionFailure transaction w in (Err e, s, w)
      end
  | Ok (proposed, true) =>
      let sync := nextDataSync s in
      let proposed := setDataSync proposed sync in
      match transaction with
      | None => commitLocked s w OperationCommand None None proposed sync
      | Some transaction =>
          let change := mkChange OperationCommand (stateDomain s) None None
                          (snapshotInstances proposed) sync in
          let '(applied, w) := applyChange s change w in
          if negb applied then
            let '(e, w) := commandTransactionFailure transaction w in (Err e, s, w)
          else
            let '(committed, w) := Commit transaction w in
            if negb committed then
              let '(_, w) := Abort_ transaction w in
              let rollback := mkChange OperationCommand (stateDomain s) None None
                                (snapshotInstances (current s)) (dataSync s) in
              let '(_, w) := applyChange s rollback w in
              (Err (result ProcessingError), s, w)
            else (Ok tt, withState s proposed sync, w)
      end
  end.

Definition UpdateByCommand s (w : W) (updates : gmap Key AttributeValueMap) : outcome W unit :=
  updateByCommand s w updates None.

Definition UpdateByCommandTransactional s (w : W) (updates : gmap Key AttributeValueMap)
    (transaction : option (CommandTransaction W)) : outcome W unit :=
  match transaction with
  | None => (Err (result ProcessingError), s, w)
  | Some _ => updateByCommand s w updates transaction
  end.

(** ** Tables (table.go) *)

(** [bits.OnesCount16]. *)
Definition OnesCount16 (x : Z) : Z :=
  fold_left (λ n i, n + Z.b2z (Z.testbit x (Z.of_nat i))) (seq 0 16) 0.

(** [SetTable] up to [commitLocked]. *)
Definition prepareSetTable s (key : Key) (mask : Z) (attributes : AttributeValueMap)
    : Res MibError (Instance_ * Instance_) :=
  match current s !! key with
  | None => Err (storeUnknownKeyError s key)
  | Some current =>
      entity ← loadDefinition key.1 key.2 (i_Attributes current);
      _ ← guard_err (negb (SupportsMsgType entity SetTableMsg)) (result NotSupported);
      _ ← match supportedAttributeMask s key.1 with
          | None => Ok tt
          | Some supported =>
              guard_err (negb (Z.ldiff mask supported =? 0))
                (ResultError AttributeFailure 0 (Z.ldiff mask supported))
          end;
      _ ← guard_err (negb (OnesCount16 mask =? 1)) (result ParameterError);
      match List.find (λ '(index, candidate), negb (index =? 0) && (Mask candidate =? mask))
              (range (AttributeDefinitions (definition entity))) with
      | None => Err (attributeFailure mask)
      | Some (_, definition) =>
          _ ← guard_err (negb (IsTableAttribute definition) || negb (SupportsAttributeAccess definition Write))
                (attributeFailure mask);
          _ ← guard_err (negb (size attributes =? 1)%nat &&
                         negb ((size attributes =? 2)%nat &&
                               match attributes !! ManagedEntityID with
                               | None | Some VNil => false
                               | Some _ => true
                               end)) (result ParameterError);
          match attributes !! Name definition with
          | None => Err (attributeFailure mask)
          | Some (VTable updates) =>
              _ ← guard_err ((NumRows updates <? 0) ||
                             negb (Z.of_nat (length (Rows updates)) =? NumRows updates * Size definition))
                    (result ParameterError);
              match tableRows (i_Attributes current !! Name definition) (Size definition) with
              | Err _ => Err (result ProcessingError)
              | Ok existing =>
                  updated ← applyTableRows (extendedVLANTableSize s) key.1 (Name definition) existing updates;
                  normalized ← normalizeIn s (withAttribute current (Name definition) (VTable updated));
                  Ok (current, normalized)
              end
          | Some _ => Err (result ParameterError)
          end
      end
  end.

Definition SetTable s (w : W) (key : Key) (mask : Z) (attributes : AttributeValueMap) : outcome W unit :=
  checked s w (prepareSetTable s key mask attributes) (λ '(before, normalized),
    if bool_decide (i_Attributes before = i_Attributes normalized) then (Ok tt, s, w)
    else commitLocked s w OperationSetTable (Some before) (Some normalized)
           (<[key := normalized]> (current s)) (nextDataSync s)).

(** [ExpireAllowedPreviewRows] up to [commitLocked]; [None] when no row has expired. *)
Definition prepareExpire s (key : Key) (timers : list AllowedPreviewTimer)
    : Res MibError (option (Instance_ * Instance_)) :=
  _ ← guard_err (negb (key.1 =? MulticastSubscriberConfigInfoClassID))
        (PlainError "allowed-preview expiry requires class 310");
  match current s !! key with
  | None => Err (unknownKeyError key)
  | Some current =>
      indexed ← indexAllowedPreviewTimers timers;
      rows ← tableRows (i_Attributes current !! McastSub_PreviewTable) (Z.of_nat multicastPreviewRowSize);
      let expired := expiredKeys indexed (Rows rows) in
      if bool_decide (expired = ∅) then Ok None
      else
        let kept := keptRows expired (Rows rows) in
        normalized ← normalizeIn s (withAttribute current McastSub_PreviewTable
                       (VTable (tableOf kept multicastPreviewRowSize)));
        Ok (Some (current, normalized))
  end.

Definition ExpireAllowedPreviewRows s (w : W) (key : Key) (timers : list AllowedPreviewTimer)
    : outcome W bool :=
  checked s w (prepareExpire s key timers) (λ prepared,
    match prepared with
    | None => (Ok false, s, w)
    | Some (before, normalized) =>
        match commitLocked s w OperationAutonomous (Some before) (Some normalized)
                (<[key := normalized]> (current s)) (dataSync s) with
        | (Ok _, s', w') => (Ok true, s', w')
        | (Err e, s', w') => (Err e, s', w')
        end
    end).

(** ** Construction *)

Definition defaultExtendedVLANTableSize : Z := 64.

(** One supported class of [NewWithOptions]. *)
Definition addSupportedClass (masks : option (gmap Z Z)) (acc : gset Z * gmap Z Z) (classID : Z)
    : Res MibError (gset Z * gmap Z Z) :=
  let '(classes, attributes) := acc in
  _ ← guard_err (bool_decide (classID ∈ classes)) (PlainError "duplicate supported class");
  entity ← loadDefinition classID 0 ∅;
  let classes := {[ classID ]} ∪ classes in
  let definition := definition entity in
  match masks with
  | Some masks =>
      match masks !! classID with
      | None => Err (PlainError "supported class has no attribute policy")
      | Some mask =>
          _ ← guard_err (negb (Z.ldiff mask (AllowedAttributeMask definition) =? 0))
                (PlainError "attribute mask includes unknown bits");
          Ok (classes, <[classID := mask]> attributes)
      end
  | None =>
      if negb (bool_decide (DefAccess definition = CreatedByOnu)) || isCapabilityClass classID
      then Ok (classes, <[classID := AllowedAttributeMask definition]> attributes)
      else Ok (classes, attributes)
  end.

(** The class and attribute policy of the options. *)
Definition classPolicy (options : Options W) : Res MibError (option (gset Z) * option (gmap Z Z)) :=
  let masks := o_SupportedAttributeMasks options in
  let listed := negb (bool_decide (o_SupportedClasses options = [])) in
  _ ← guard_err (bool_decide (is_Some masks) && negb listed)
        (PlainError "attribute masks require a class list");
  if negb listed then Ok (None, None)
  else
    '(classes, attributes) ← foldM_res (addSupportedClass masks) (o_SupportedClasses options) (∅, ∅);
    _ ← match masks with
        | None => Ok tt
        | Some masks =>
            foldM_res (λ _ '(classID, _),
              guard_err (negb (bool_decide (classID ∈ classes)))
                (PlainError "attribute policy contains unsupported class")) (range masks) tt
        end;
    Ok (Some classes, Some attributes).

Fixpoint strictlyIncreasing (l : list Z) : bool :=
  match l with
  | x :: (y :: _) as l' => (x <? y) && strictlyIncreasing l'
  | _ => true
  end.

(** One attribute capability of [NewWithOptions]. *)
Definition checkCapabilityOption (classes : option (gset Z)) (attributes : option (gmap Z Z))
    (entry : (Z * string) * AttributeCapability) : Res MibError unit :=
  let '((classID, name), capability) := entry in
  _ ← guard_err (match classes with Some classes => bool_decide (classID ∉ classes) | None => true end)
        (PlainError "attribute capability contains unsupported class");
  match GetAttributesDefinitions classID with
  | Err _ => Err (PlainError "load attributes")
  | Ok definitions =>
      match GetAttributeDefinitionByName definitions name with
      | None => Err (PlainError "invalid attribute capability")
      | Some definition =>
          let advertised := default 0 (attributes ≫= λ attributes, attributes !! classID) in
          _ ← guard_err (Z.land (Mask definition) advertised =? 0)
                (PlainError "attribute capability is not advertised");
          _ ← guard_err (UpperLimit capability <? LowerLimit capability)
                (PlainError "lower limit above upper limit");
          let enumeration := bool_decide (AttrType definition = EnumerationAttributeType) in
          let points := CodePoints capability in
          let maximum := maximumCapabilityValue (Size definition) in
          _ ← guard_err (negb enumeration && negb (length points =? 0)%nat)
                (PlainError "non-enumerated attribute capability has code points");
          if enumeration then
            _ ← guard_err (length points =? 0)%nat (PlainError "enumeration has no code points");
            _ ← guard_err (negb (forallb (λ value, value <=? u32 maximum) points))
                  (PlainError "code point exceeds its wire size");
            guard_err (negb (strictlyIncreasing points)) (PlainError "code points are not strictly increasing")
          else match AttrType definition with
          | UnsignedIntegerAttributeType | CounterAttributeType | PointerAttributeType =>
              guard_err (maximum <? UpperLimit capability) (PlainError "upper limit exceeds its wire size")
          | BitFieldAttributeType => Ok tt
          | _ => Err (PlainError "unsupported format")
          end
      end
  end.

Definition checkCapabilityOptions (options : Options W) (classes : option (gset Z))
    (attributes : option (gmap Z Z)) : Res MibError unit :=
  let capabilities := o_AttributeCapabilities options in
  if bool_decide (capabilities = ∅) then Ok tt
  else
    _ ← guard_err (bool_decide (o_SupportedAttributeMasks options = None))
          (PlainError "attribute capabilities require an attribute policy");
    foldM_res (λ _ entry, checkCapabilityOption classes attributes entry) (range capabilities) tt.

(** One factory instance of [NewWithOptions]; [explicit]: the options give attribute masks. *)
Definition addFactory (explicit : bool) s (instance : Instance_) : Res MibError (Store W) :=
  _ ← guard_err (negb (supportsClass s (ClassID_of instance)))
        (PlainError "factory ME is not in the supported class list");
  let instance := mkInstance (i_Key instance) (i_Attributes instance) OriginONU in
  match normalizeIn s instance with
  | Err _ => Err (PlainError "invalid factory ME")
  | Ok normalized =>
      _ ← guard_err (bool_decide (is_Some (factory s !! i_Key normalized)))
            (PlainError "duplicate factory ME");
      let s :=
        mkStore (<[i_Key normalized := normalized]> (factory s))
          (<[i_Key normalized := normalized]> (current s)) (dataSync s) (applier s)
          (extendedVLANTableSize s) (stateDomain s) (supportedClasses s) (supportedAttributes s)
          (attributeCapabilities s) (validateInstance s) in
      match supportedAttributes s with
      | None => Ok s
      | Some masks =>
          entity ← loadDefinition (ClassID_of normalized) (EntityID_of normalized) (i_Attributes normalized);
          if explicit then
            match validateSupportedAttributes s entity (i_Attributes normalized) with
            | Err _ => Err (PlainError "factory ME has unsupported attributes")
            | Ok _ => Ok s
            end
          else
            masks ← foldM_res (λ masks '(name, _),
                if bool_decide (name = ManagedEntityID) then Ok masks
                else match GetAttributeDefinitionByName (AttributeDefinitions (definition entity)) name with
                     | None => Err (PlainError "factory ME has unknown attribute")
                     | Some attribute =>
                         Ok (<[ClassID_of normalized :=
                                 Z.lor (default 0 (masks !! ClassID_of normalized)) (Mask attribute)]> masks)
                     end) (range (i_Attributes normalized)) masks;
            Ok (mkStore (factory s) (current s) (dataSync s) (applier s)
                  (extendedVLANTableSize s) (stateDomain s) (supportedClasses s) (Some masks)
                  (attributeCapabilities s) (validateInstance s))
      end
  end.

Definition NewWithOptions (factory : list Instance_) (options : Options W) : Res MibError (Store W) :=
  let tableSize := if o_ExtendedVLANTableSize options =? 0 then defaultExtendedVLANTableSize
                   else o_ExtendedVLANTableSize options in
  _ ← guard_err (tableSize <? 3) (PlainError "extended VLAN table size");
  '(classes, attributes) ← classPolicy options;
  _ ← checkCapabilityOptions options classes attributes;
  let s := mkStore ∅ ∅ 0 (o_Applier options) tableSize (o_StateDomain options) classes attributes
             (o_AttributeCapabilities options) (o_ValidateInstance options) in
  s ← foldM_res (addFactory (bool_decide (is_Some (o_SupportedAttributeMasks options)))) factory s;
  Ok (withState s (setDataSync (current s) 0) 0).

Definition New (factory : list Instance_) : Res MibError (Store W) :=
  NewWithOptions factory (mkOptions None 0 "" [] None None ∅).

Definition NewWithApplier (factory : list Instance_) (applier : option (Applier W)) : Res MibError (Store W) :=
  NewWithOptions factory (mkOptions applier 0 "" [] None None ∅).

(** ** What other packages read *)

Definition DataSync s : Z := dataSync s.

Definition SupportsClass s (classID : Z) : bool := supportsClass s classID.

(** Nil, the empty list, if every class is supported. *)
Definition SupportedClasses s : list Z :=
  match supportedClasses s with
  | None => []
  | Some classes => merge_sort Z.le (elements classes)
  end.

Definition SupportedAttributeMask s (classID : Z) : option Z := supportedAttributeMask s classID.

Definition AttributeCapability_ s (classID : Z) (name : string) : option AttributeCapability :=
  attributeCapabilities s !! (classID, name).
End store.
