(* ===== verification/StoreLemmas.v ===== *)
(** * MIB: lemmas about loading, normalization and the store's loops

    What the validation functions of Semantics.v and the loops of Store.v compute, in terms of
    finite maps and independent of the iteration order: the lemmas the store theorems are
    assembled from. *)

From S2P Require Import Prelude Maps MeTypes MeClasses MeLib Mib Table Semantics Store.

(** ** Loading *)

(** Every attribute name is one the class knows, up to case. *)
Definition names_known (classID : Z) (attributes : AttributeValueMap) : Prop :=
  map_Forall (λ n _, n = ManagedEntityID ∨ known_name (definition_of classID) n = true) attributes.
#[export] Instance names_known_dec c a : Decision (names_known c a).
Proof. unfold names_known. apply _. Defined.

Section load.
Context {MR : MapRange}.

Lemma loadDefinition_spec c e attrs :
  match loadDefinition c e attrs with
  | Ok entity => definition entity = definition_of c ∧
      attributes entity = <[ManagedEntityID := VU16 e]> attrs ∧ known_class c ∧ names_known c attrs
  | Err err => err = result UnknownEntity ∧ ¬ (known_class c ∧ names_known c attrs)
  end.
Proof.
  unfold loadDefinition. pose proof (Load_spec c e attrs) as Hl.
  destruct (LoadManagedEntityDefinition c _) as [entity|code].
  - destruct Hl as (Hd & Ha & Hn). rewrite Hd.
    destruct (Support_definition_of c) as [[Hk ->]|[Hk [-> | ->]]]; [done|split; [done|naive_solver]..].
  - destruct Hl as [-> Hn]. cbn. split; [done|]. naive_solver.
Qed.

Lemma loadDefinition_Ok c e attrs entity :
  loadDefinition c e attrs = Ok entity →
  definition entity = definition_of c ∧ attributes entity = <[ManagedEntityID := VU16 e]> attrs ∧
  known_class c ∧ names_known c attrs.
Proof. intros H. pose proof (loadDefinition_spec c e attrs) as Hs. by rewrite H in Hs. Qed.

Lemma loadDefinition_known c e attrs :
  known_class c → names_known c attrs → ∃ entity, loadDefinition c e attrs = Ok entity.
Proof.
  intros Hc Hn. pose proof (loadDefinition_spec c e attrs) as Hs.
  destruct (loadDefinition c e attrs) as [entity|]; [by eexists|]. naive_solver.
Qed.

Lemma loadDefinition_Err c e attrs err :
  loadDefinition c e attrs = Err err → err = result UnknownEntity.
Proof. intros H. pose proof (loadDefinition_spec c e attrs) as Hs. rewrite H in Hs. by destruct Hs. Qed.

(** ** Normalization *)

Lemma attributeMask_named c name :
  attributeMask c name = match attr_named (definition_of c) name with Some a => Mask a | None => 0 end.
Proof.
  unfold attributeMask. rewrite GetAttributesDefinitions_of.
  rewrite GetAttributeDefinitionByName_named by apply definition_ok_of. done.
Qed.

(** A normalized instance: its attributes with the entity id, of a known class, semantically valid. *)
Definition normalized (i : Instance_) : Instance_ :=
  withAttribute i ManagedEntityID (VU16 (EntityID_of i)).

Lemma normalize_Ok i j :
  normalize i = Ok j →
  j = normalized i ∧ known_class (ClassID_of i) ∧ names_known (ClassID_of i) (i_Attributes i) ∧
  validateSemantics j = Ok tt.
Proof.
  unfold normalize. intros H. inv_ok H. destruct x0.
  apply loadDefinition_Ok in Hr as (_ & Ha & ? & ?). subst j. rewrite Ha in *. done.
Qed.

Lemma normalize_intro i :
  known_class (ClassID_of i) → names_known (ClassID_of i) (i_Attributes i) →
  validateSemantics (normalized i) = Ok tt → normalize i = Ok (normalized i).
Proof.
  intros Hk Hn Hv. unfold normalize.
  destruct (loadDefinition_known _ (EntityID_of i) _ Hk Hn) as [entity He]. rewrite He.
  apply loadDefinition_Ok in He as (_ & Ha & _). cbn [mbind Res_bind]. rewrite Ha.
  unfold normalized, withAttribute in *. by rewrite Hv.
Qed.

Lemma names_known_insert c n v attrs :
  n = ManagedEntityID ∨ known_name (definition_of c) n = true →
  names_known c attrs → names_known c (<[n := v]> attrs).
Proof. intros Hn Ha. by apply map_Forall_insert_2. Qed.

Lemma normalized_idem i : normalized (normalized i) = normalized i.
Proof. unfold normalized, withAttribute. cbn. by rewrite insert_insert_eq. Qed.

Lemma normalize_fixed i j : normalize i = Ok j → normalize j = Ok j.
Proof.
  intros (-> & Hk & Hn & Hv)%normalize_Ok.
  rewrite <- (normalized_idem i) at 2. apply normalize_intro; [done| |by rewrite normalized_idem].
  apply names_known_insert; [by left|done].
Qed.
End load.

(** ** The loops that collect masks *)

(** A loop that ends in an acceptable state when every element is good. *)
Lemma fold_ok {S A} (inv ok : S → Prop) (good : A → Prop) (f : S → A → S) l s :
  (∀ s x, x ∈ l → inv s → inv (f s x) ∧ (ok (f s x) ↔ ok s ∧ good x)) → inv s →
  ok (fold_left f l s) ↔ ok s ∧ Forall good l.
Proof.
  revert s. induction l as [|x l IH]; intros s Hf Hs; cbn [fold_left].
  - split; [by intros|by intros []].
  - destruct (Hf s x ltac:(by left) Hs) as [Hi Ho]. rewrite IH, Ho, Forall_cons; [tauto| |done].
    intros s' y Hy. apply Hf. by right.
Qed.

(** The entries of a map that satisfy a condition on their names. *)
Lemma Forall_range {MR : MapRange} {V} (P : string → Prop) (m : gmap string V) :
  Forall (λ p, P p.1) (range m) ↔ ∀ n v, m !! n = Some v → P n.
Proof.
  rewrite Forall_forall. split.
  - intros HP n v Hn. apply (HP (n, v)). by apply elem_of_range.
  - intros HP [n v] Hn. apply elem_of_range in Hn. by eapply HP.
Qed.

Lemma lor_zero a b : 0 ≤ a → 0 ≤ b → Z.lor a b = 0 ↔ a = 0 ∧ b = 0.
Proof. intros. apply Z.lor_eq_0_iff. Qed.

Lemma Mask_nonneg c n a : attr_named (definition_of c) n = Some a → 0 ≤ Mask a.
Proof.
  intros (i & Hi & _)%attr_named_Some; [|apply definition_ok_of].
  destruct (attribute_inv _ (definition_ok_of c) _ _ Hi) as (_ & ? & H0 & Hn).
  destruct (decide (i = 0)) as [Hz|Hz]; [destruct (H0 Hz)|destruct (Hn Hz)]; [lia|].
  assert (0 ≤ 2 ^ (16 - i)) by (apply Z.pow_nonneg; lia). lia.
Qed.

(** The class lets an instance carry an attribute of this name under the attribute policy. *)
Definition supported_name (supported classID : Z) (name : string) : Prop :=
  match attr_named (definition_of classID) name with
  | Some a => Mask a = 0 ∨ Z.land (Mask a) supported ≠ 0
  | None => False
  end.

(** Every attribute is on the advertised surface of its class. *)
Definition advertised {W} (s : Store W) (classID : Z) (attributes : AttributeValueMap) : Prop :=
  match supportedAttributeMask s classID with
  | None => True
  | Some supported => ∀ n v, attributes !! n = Some v → supported_name supported classID n
  end.

Lemma attr_named_EntityID c : ∃ a, attr_named (definition_of c) ManagedEntityID = Some a ∧ Mask a = 0.
Proof.
  pose proof (definition_ok_of c) as Hd. destruct (definition_ok_inv _ Hd) as (_ & [a Ha] & _).
  exists a. destruct (attribute_inv _ Hd _ _ Ha) as (_ & _ & H0 & _). destruct (H0 eq_refl) as [Hn Hm].
  split; [|done]. rewrite <- Hn. by eapply attr_named_exact.
Qed.

Lemma supported_EntityID supported c : supported_name supported c ManagedEntityID.
Proof. unfold supported_name. destruct (attr_named_EntityID c) as (a & -> & ?). by left. Qed.

Section masks.
Context {MR : MapRange} {W : Type}.
Implicit Types s : Store W.

Lemma unsupportedMask_zero supported c attrs :
  unsupportedMask supported (AttributeDefinitions (definition_of c)) attrs = 0 ↔
  ∀ n v, attrs !! n = Some v → supported_name supported c n.
Proof.
  unfold unsupportedMask. rewrite (fold_ok (λ z, 0 ≤ z) (λ z, z = 0) (λ p, supported_name supported c p.1));
    [|intros z [n v] _ Hz; cbn [fst]|lia].
  { rewrite Forall_range. tauto. }
  case_bool_decide as Hn.
  { subst. split; [exact Hz|]. split; [|by intros []]. intros Hz0. split; [exact Hz0|].
    apply supported_EntityID. }
  rewrite GetAttributeDefinitionByName_named by apply definition_ok_of. unfold supported_name.
  destruct (attr_named _ n) as [a|] eqn:Ha.
  2: { split; [lia|]. split; [lia|intros [_ []]]. }
  pose proof (Mask_nonneg _ _ _ Ha) as Hm.
  destruct (Z.eqb_spec (Z.land (Mask a) supported) 0) as [Hl|Hl].
  - split; [by apply Z.lor_nonneg|]. rewrite (lor_zero _ _ Hz Hm). tauto.
  - split; [exact Hz|]. tauto.
Qed.

Lemma validateSupportedAttributes_Ok s entity c attrs :
  definition entity = definition_of c →
  validateSupportedAttributes s entity attrs = Ok tt ↔ advertised s c attrs.
Proof.
  intros Hd. unfold validateSupportedAttributes, advertised. rewrite Hd, ClassID_definition_of.
  destruct (supportedAttributeMask s c) as [supported|]; [|done].
  rewrite guard_err_iff, negb_false_iff, Z.eqb_eq. apply unsupportedMask_zero.
Qed.

(** The request names only attributes of the definition with the required access. *)
Definition access_allowed (c : Z) (required : AttributeAccess) (attrs : AttributeValueMap) : Prop :=
  ∀ n v, attrs !! n = Some v → n = ManagedEntityID ∨
    ∃ i a, i ≠ 0 ∧ AttributeDefinitions (definition_of c) !! i = Some a ∧ Name a = n ∧ required ∈ Access a.

Lemma find_exact c n :
  match List.find (λ '(index, definition), negb (index =? 0) && bool_decide (Name definition = n))
          (range (AttributeDefinitions (definition_of c))) with
  | Some (i, a) => i ≠ 0 ∧ AttributeDefinitions (definition_of c) !! i = Some a ∧ Name a = n
  | None => ∀ i a, i ≠ 0 → AttributeDefinitions (definition_of c) !! i = Some a → Name a ≠ n
  end.
Proof.
  destruct (List.find _ _) as [[i a]|] eqn:Hf.
  - apply find_some in Hf as [Hin Hc]. apply andb_true_iff in Hc as [Hi Hn].
    apply bool_decide_eq_true in Hn. apply list_elem_of_In, elem_of_range in Hin.
    split_and!; [lia|done|done].
  - intros i a Hi Ha Hn. apply elem_of_range, list_elem_of_In in Ha.
    eapply find_none in Hf; [|exact Ha]. cbn in Hf.
    rewrite bool_decide_eq_true_2, andb_true_r in Hf by done. lia.
Qed.

Lemma validateAccess_Ok entity c required attrs :
  definition entity = definition_of c →
  validateAccess entity attrs required = Ok tt ↔ access_allowed c required attrs.
Proof.
  intros Hd. unfold validateAccess. destruct (accessMasks entity attrs required) as [failed unsupported] eqn:Hm.
  rewrite guard_err_iff.
  assert ((λ p, p.1 = 0 ∧ p.2 = 0) (accessMasks entity attrs required) ↔ access_allowed c required attrs) as Hok.
  { unfold accessMasks, access_allowed. rewrite Hd.
    set (good := λ n, n = ManagedEntityID ∨ ∃ i a, i ≠ 0 ∧
      AttributeDefinitions (definition_of c) !! i = Some a ∧ Name a = n ∧ required ∈ Access a).
    rewrite (fold_ok (λ p : Z * Z, 0 ≤ p.1 ∧ 0 ≤ p.2) (λ p, p.1 = 0 ∧ p.2 = 0) (λ p, good p.1)).
    - rewrite Forall_range. cbn. tauto.
    - intros [f u] [n v] _ Hfu. cbn [fst snd]. case_bool_decide as Hn.
      { split; [exact Hfu|]. split; [intros H0; split; [exact H0|by left]|by intros []]. }
      destruct Hfu as [Hf Hu]. cbn [fst snd] in Hf, Hu.
      pose proof (find_exact c n) as Hx. destruct (List.find _ _) as [[i a]|].
      + destruct Hx as (Hi & Ha & Hna). unfold SupportsAttributeAccess.
        destruct (attribute_inv _ (definition_ok_of c) _ _ Ha) as (_ & Hi16 & _ & Hmask).
        destruct (Hmask Hi) as [_ Hmk]. assert (0 < 2 ^ (16 - i)) as Hpos by (apply Z.pow_pos_nonneg; lia).
        case_bool_decide as Hacc; cbn [fst snd].
        * split; [split; [exact Hf|exact Hu]|]. split; [|by intros []].
          intros H0. split; [exact H0|]. right. exists i, a. split_and!; [exact Hi|exact Ha|exact Hna|exact Hacc].
        * split; [split; [apply Z.lor_nonneg; lia|exact Hu]|]. rewrite lor_zero by lia. split; [lia|].
          intros [_ [Hg|(j & b & Hj & Hb & Hnb & Hab)]]; [by destruct Hn|].
          assert (ToLower (Name a) = ToLower (Name b)) as Hab' by congruence.
          destruct (name_unique _ (definition_ok_of c) _ _ _ _ Ha Hb Hab') as [_ Heq].
          destruct Hacc. by rewrite Heq.
      + cbn [fst snd]. split; [lia|]. split; [lia|]. intros [_ [Hg|(j & b & Hj & Hb & Hnb & _)]]; [by destruct Hn|].
        by destruct (Hx j b Hj Hb).
    - cbn [fst snd]. lia. }
  rewrite Hm in Hok. cbn in Hok. rewrite <- Hok. lia.
Qed.
(** The request names only readable attributes, neither the entity id nor the data sync counter. *)
Definition update_allowed (key : Key) (attrs : AttributeValueMap) : Prop :=
  ∀ n v, attrs !! n = Some v →
    n ≠ ManagedEntityID ∧ ¬ (key.1 = OnuDataClassID ∧ n = OnuData_MibDataSync) ∧
    ∃ a, attr_named (definition_of key.1) n = Some a ∧ (Read ∈ Access a ∨ Mask a = 0).

Lemma updateMasks_zero key attrs :
  updateMasks key (AttributeDefinitions (definition_of key.1)) attrs = (0, 0) ↔ update_allowed key attrs.
Proof.
  set (good := λ n, n ≠ ManagedEntityID ∧ ¬ (key.1 = OnuDataClassID ∧ n = OnuData_MibDataSync) ∧
    ∃ a, attr_named (definition_of key.1) n = Some a ∧ (Read ∈ Access a ∨ Mask a = 0)).
  transitivity ((λ p, p.1 = 0 ∧ p.2 = 0) (updateMasks key (AttributeDefinitions (definition_of key.1)) attrs)).
  { destruct (updateMasks _ _ _) as [f u]. cbn. split; [intros [= -> ->]; done|by intros [-> ->]]. }
  unfold updateMasks.
  rewrite (fold_ok (λ p : Z * Z, 0 ≤ p.1 ∧ 0 ≤ p.2) (λ p, p.1 = 0 ∧ p.2 = 0) (λ p, good p.1)).
  - rewrite Forall_range. cbn. unfold update_allowed. fold good. tauto.
  - intros [f u] [n v] _ [Hf Hu]. cbn [fst snd] in *.
    destruct (bool_decide (n = ManagedEntityID) || _) eqn:Hbad.
    { cbn [fst snd]. split; [lia|]. split; [lia|]. intros [_ (Hn & Hs & _)].
      apply orb_true_iff in Hbad as [Hb|Hb]; [by apply bool_decide_eq_true in Hb|].
      apply andb_true_iff in Hb as [Hc Hb]. apply bool_decide_eq_true in Hb. destruct Hs. split; [lia|exact Hb]. }
    apply orb_false_iff in Hbad as [Hn Hs]. apply bool_decide_eq_false in Hn.
    rewrite GetAttributeDefinitionByName_named by apply definition_ok_of.
    destruct (attr_named (definition_of key.1) n) as [a|] eqn:Ha.
    2: { cbn [fst snd]. split; [lia|]. split; [lia|]. intros [_ (_ & _ & a & Hx & _)]. congruence. }
    pose proof (Mask_nonneg _ _ _ Ha) as Hm.
    assert (good n ↔ Read ∈ Access a ∨ Mask a = 0) as Hgood.
    { split.
      - intros (_ & _ & b & Hb & Hr). assert (a = b) as -> by congruence. exact Hr.
      - intros Hr. split_and!; [exact Hn| |exists a; by split].
        intros [Hc Hx]. apply andb_false_iff in Hs as [Hs|Hs]; [lia|]. by apply bool_decide_eq_false in Hs. }
    rewrite Hgood. unfold SupportsAttributeAccess.
    destruct (decide (Read ∈ Access a)) as [Hacc|Hacc];
      [rewrite (bool_decide_eq_true_2 _ Hacc)|rewrite (bool_decide_eq_false_2 _ Hacc)]; cbn [fst snd].
    + split; [split; [exact Hf|exact Hu]|]. tauto.
    + split; [split; [by apply Z.lor_nonneg|exact Hu]|]. rewrite (lor_zero _ _ Hf Hm). tauto.
  - cbn [fst snd]. lia.
Qed.

(** ** Overwriting attributes *)

Lemma overwrite_lookup skip attrs old n :
  overwrite skip attrs old !! n =
  if skip && bool_decide (n = ManagedEntityID) then old !! n
  else match attrs !! n with Some v => Some v | None => old !! n end.
Proof.
  unfold overwrite.
  assert (∀ l (m : AttributeValueMap), NoDup l.*1 →
    fold_left (λ m '(name, value),
      if skip && bool_decide (name = ManagedEntityID) then m else <[name := value]> m) l m !! n =
    if skip && bool_decide (n = ManagedEntityID) then m !! n
    else match (list_to_map l : AttributeValueMap) !! n with Some v => Some v | None => m !! n end) as Hl.
  { induction l as [|[k v] l IH]; intros m; [by destruct (skip && _)|].
    rewrite fmap_cons. intros [Hk Hnd]%NoDup_cons. cbn [fold_left]. rewrite (IH _ Hnd).
    change (list_to_map ((k, v) :: l)) with (<[k := v]> (list_to_map l : AttributeValueMap)).
    destruct (decide (n = k)) as [->|Hne].
    - rewrite (not_elem_of_list_to_map_1 l k) by exact Hk. rewrite lookup_insert_eq.
      destruct (skip && _); [done|]. by rewrite lookup_insert_eq.
    - rewrite (lookup_insert_ne _ k n) by done.
      destruct (skip && bool_decide (k = ManagedEntityID)); [done|]. by rewrite (lookup_insert_ne m k n). }
  rewrite Hl by apply NoDup_range_fst. by rewrite range_to_map.
Qed.

Lemma names_known_overwrite c skip attrs old :
  names_known c attrs → names_known c old → names_known c (overwrite skip attrs old).
Proof.
  intros Ha Ho n v. rewrite overwrite_lookup. destruct (skip && _); [apply Ho|].
  destruct (attrs !! n) eqn:Hn; [|apply Ho]. intros _. by eapply Ha.
Qed.

Lemma advertised_overwrite s c skip attrs old :
  advertised s c attrs → advertised s c old → advertised s c (overwrite skip attrs old).
Proof.
  unfold advertised. destruct (supportedAttributeMask s c); [|done].
  intros Ha Ho n v. rewrite overwrite_lookup. destruct (skip && _); [apply Ho|].
  destruct (attrs !! n) eqn:Hn; [|apply Ho]. intros _. by eapply Ha.
Qed.

Lemma advertised_insert s c n v attrs :
  advertised s c attrs → (∀ supported, supportedAttributeMask s c = Some supported → supported_name supported c n) →
  advertised s c (<[n := v]> attrs).
Proof.
  unfold advertised. destruct (supportedAttributeMask s c); [|done]. intros Ha Hn k w.
  intros [[<- _]|[_ Hk]]%lookup_insert_Some; [by apply Hn|by eapply Ha].
Qed.

Lemma advertised_EntityID s c v attrs :
  advertised s c attrs → advertised s c (<[ManagedEntityID := v]> attrs).
Proof. intros. apply advertised_insert; [done|]. intros. apply supported_EntityID. Qed.

Lemma advertised_prune s c attrs : advertised s c (pruneUnsupportedAttributes s c attrs).
Proof.
  unfold advertised, pruneUnsupportedAttributes.
  destruct (supportedAttributeMask s c) as [supported|]; [|done].
  rewrite GetAttributesDefinitions_of. intros n v [_ Hk]%map_lookup_filter_Some. cbn in Hk.
  unfold keepAttribute in Hk. apply orb_true_iff in Hk as [Hk|Hk].
  - apply bool_decide_eq_true in Hk as ->. apply supported_EntityID.
  - rewrite GetAttributeDefinitionByName_named in Hk by apply definition_ok_of. unfold supported_name.
    destruct (attr_named _ n); [|done]. right. lia.
Qed.

(** ** Normalization in a store *)

Lemma normalizeIn_Ok s i j :
  normalizeIn s i = Ok j →
  normalize i = Ok j ∧ validateAttributeCapabilities s j = Ok tt ∧
  match validateInstance s with None => True | Some validate => validate j = Ok tt end.
Proof.
  unfold normalizeIn. intros H. inv_ok H. subst x. destruct x0, x1. split_and!; [done|done|].
  by destruct (validateInstance s).
Qed.

Lemma normalizeIn_fixed s i j : normalizeIn s i = Ok j → normalizeIn s j = Ok j.
Proof.
  intros (Hn & Hc & Hv)%normalizeIn_Ok. unfold normalizeIn.
  rewrite (normalize_fixed _ _ Hn). cbn [mbind Res_bind]. rewrite Hc. cbn [mbind Res_bind].
  destruct (validateInstance s); [|done]. by rewrite Hv.
Qed.

Lemma normalizeIn_shape s i j :
  normalizeIn s i = Ok j →
  j = normalized i ∧ known_class (ClassID_of i) ∧ names_known (ClassID_of i) (i_Attributes i).
Proof. intros (Hn & _)%normalizeIn_Ok. by apply normalize_Ok in Hn as (? & ? & ? & _). Qed.
End masks.
