(* ===== verification/StoreInvariant.v ===== *)
(** * MIB: the store invariant

    Every store operation as one request type, what an operation may do to the store (the
    frame theorems: errors change nothing, the data sync counter moves as G.988 asks), and
    the well-formedness invariant of every store that NewWithOptions and the operations can
    produce. *)

From S2P Require Import Prelude Maps MeTypes MeClasses MeLib Mib Table Semantics Store StoreLemmas.

(** ** Requests *)

Inductive Request (W : Type) :=
| RCreate (classID entityID : Z) (attributes : AttributeValueMap)
| RSet (key : Key) (attributes : AttributeValueMap)
| RSetTable (key : Key) (mask : Z) (attributes : AttributeValueMap)
| RDelete (key : Key)
| RReset
| RExpire (key : Key) (timers : list AllowedPreviewTimer)
| RAutonomous (key : Key) (attributes : AttributeValueMap)
| RBatch (updates : gmap Key AttributeValueMap)
| RCommand (updates : gmap Key AttributeValueMap)
| RTransaction (updates : gmap Key AttributeValueMap) (transaction : option (CommandTransaction W)).
Arguments RCreate {W} _ _ _.
Arguments RSet {W} _ _.
Arguments RSetTable {W} _ _ _.
Arguments RDelete {W} _.
Arguments RReset {W}.
Arguments RExpire {W} _ _.
Arguments RAutonomous {W} _ _.
Arguments RBatch {W} _.
Arguments RCommand {W} _.
Arguments RTransaction {W} _ _.

Section invariant.
Context {MR : MapRange} {W : Type}.
Implicit Types s : Store W.

(** Forgets the value an operation returns. *)
Definition noValue {A} (o : outcome W A) : outcome W unit :=
  match o with
  | (Ok _, s, w) => (Ok tt, s, w)
  | (Err e, s, w) => (Err e, s, w)
  end.

(** The operation a request calls. *)
Definition execute s (w : W) (r : Request W) : outcome W unit :=
  match r with
  | RCreate classID entityID attributes => Create s w classID entityID attributes
  | RSet key attributes => Set_ s w key attributes
  | RSetTable key mask attributes => SetTable s w key mask attributes
  | RDelete key => Delete s w key
  | RReset => Reset_ s w
  | RExpire key timers => noValue (ExpireAllowedPreviewRows s w key timers)
  | RAutonomous key attributes =>
      let '(res, s') := UpdateAutonomous s key attributes in noValue (res, s', w)
  | RBatch updates => let '(res, s') := UpdateAutonomousBatch s updates in (res, s', w)
  | RCommand updates => UpdateByCommand s w updates
  | RTransaction updates transaction => UpdateByCommandTransactional s w updates transaction
  end.

(** The instance map and the data sync value an operation proposes to commit. *)
Inductive proposes s : Request W → gmap Key Instance_ → Z → Prop :=
| p_create c e attributes instance :
    prepareCreate s c e attributes = Ok instance →
    proposes s (RCreate c e attributes)
      (setDataSync (<[(c, e) := instance]> (current s)) (nextDataSync s)) (nextDataSync s)
| p_set key attributes before normalized sync :
    prepareSet s key attributes = Ok (before, normalized, sync) →
    i_Attributes before ≠ i_Attributes normalized →
    proposes s (RSet key attributes) (setDataSync (<[key := normalized]> (current s)) sync) sync
| p_table key mask attributes before normalized :
    prepareSetTable s key mask attributes = Ok (before, normalized) →
    i_Attributes before ≠ i_Attributes normalized →
    proposes s (RSetTable key mask attributes)
      (setDataSync (<[key := normalized]> (current s)) (nextDataSync s)) (nextDataSync s)
| p_delete key instance :
    current s !! key = Some instance → i_Origin instance ≠ OriginONU →
    proposes s (RDelete key) (setDataSync (delete key (current s)) (nextDataSync s)) (nextDataSync s)
| p_reset :
    proposes s RReset (setDataSync (preserveONU3State (current s) (factory s)) 0) 0
| p_expire key timers before normalized :
    prepareExpire s key timers = Ok (Some (before, normalized)) →
    proposes s (RExpire key timers)
      (setDataSync (<[key := normalized]> (current s)) (dataSync s)) (dataSync s)
| p_command updates proposed :
    commandUpdates s updates = Ok (proposed, true) →
    proposes s (RCommand updates) (setDataSync (setDataSync proposed (nextDataSync s)) (nextDataSync s))
      (nextDataSync s)
| p_transaction updates transaction proposed :
    commandUpdates s updates = Ok (proposed, true) →
    proposes s (RTransaction updates (Some transaction)) (setDataSync proposed (nextDataSync s))
      (nextDataSync s)
| p_autonomous key attributes normalized :
    prepareUpdate s key (current s !! key) attributes = Ok normalized →
    proposes s (RAutonomous key attributes) (<[key := normalized]> (current s)) (dataSync s)
| p_batch updates proposed :
    foldM_res (λ proposed '(key, attributes),
        normalized ← prepareUpdate s key (proposed !! key) attributes;
        Ok (<[key := normalized]> proposed)) (range updates) (current s) = Ok proposed →
    proposes s (RBatch updates) proposed (dataSync s).

Lemma commitLocked_cases s w op before after next sync res s' w' :
  commitLocked s w op before after next sync = (res, s', w') →
  (∃ e, res = Err e ∧ s' = s) ∨ (res = Ok tt ∧ s' = withState s (setDataSync next sync) sync).
Proof.
  unfold commitLocked. destruct (applyChange s _ w) as [[] w0]; intros [= <- <- <-]; [by right|left; eauto].
Qed.

Lemma withState_same s : withState s (current s) (dataSync s) = s.
Proof. by destruct s. Qed.

(** What an operation leaves behind: on an error the store it found; otherwise that store, or
    the store with what it proposed committed. *)
Lemma execute_cases s w r res s' w' :
  execute s w r = (res, s', w') →
  match res with
  | Err _ => s' = s
  | Ok _ => s' = s ∨ ∃ next sync, proposes s r next sync ∧ s' = withState s next sync
  end.
Proof.
  intros Hx. destruct r; cbn [execute] in Hx.
  - unfold Create, checked in Hx. destruct (prepareCreate _ _ _ _) as [i|] eqn:Hp; [|by injection Hx as <- <- <-].
    apply commitLocked_cases in Hx as [(e & -> & ->)|[-> ->]]; [done|].
    right. do 2 eexists. split; [by apply p_create|done].
  - unfold Set_, checked in Hx. destruct (prepareSet _ _ _) as [[[b n] sync]|] eqn:Hp; [|by injection Hx as <- <- <-].
    case_bool_decide; [injection Hx as <- <- <-; by left|].
    apply commitLocked_cases in Hx as [(e & -> & ->)|[-> ->]]; [done|].
    right. do 2 eexists. split; [by eapply p_set|done].
  - unfold SetTable, checked in Hx. destruct (prepareSetTable _ _ _ _) as [[b n]|] eqn:Hp; [|by injection Hx as <- <- <-].
    case_bool_decide; [injection Hx as <- <- <-; by left|].
    apply commitLocked_cases in Hx as [(e & -> & ->)|[-> ->]]; [done|].
    right. do 2 eexists. split; [by eapply p_table|done].
  - unfold Delete, checked in Hx. destruct (current s !! key) as [i|] eqn:Hi; [|by injection Hx as <- <- <-].
    destruct (loadDefinition _ _ _) as [entity|]; [|by injection Hx as <- <- <-].
    destruct (bool_decide (i_Origin i = OriginONU)) eqn:Ho; cbn [orb] in Hx; [by injection Hx as <- <- <-|].
    destruct (_ || _); [by injection Hx as <- <- <-|]. apply bool_decide_eq_false in Ho.
    apply commitLocked_cases in Hx as [(e & -> & ->)|[-> ->]]; [done|].
    right. do 2 eexists. split; [by eapply p_delete|done].
  - apply commitLocked_cases in Hx as [(e & -> & ->)|[-> ->]]; [done|].
    right. do 2 eexists. split; [by apply p_reset|done].
  - unfold ExpireAllowedPreviewRows, checked in Hx.
    destruct (prepareExpire _ _ _) as [[[b n]|]|] eqn:Hp; cbn [noValue] in Hx;
      [|injection Hx as <- <- <-; by left|by injection Hx as <- <- <-].
    destruct (commitLocked _ _ _ _ _ _ _) as [[res0 s0] w0] eqn:Hc.
    apply commitLocked_cases in Hc as [(e & -> & ->)|[-> ->]]; cbn [noValue] in Hx; injection Hx as <- <- <-; [done|].
    right. do 2 eexists. split; [by eapply p_expire|done].
  - unfold UpdateAutonomous in Hx. destruct (prepareUpdate _ _ _ _) as [n|] eqn:Hp; cbn [noValue] in Hx; [|by injection Hx as <- <- <-].
    case_bool_decide; cbn [noValue] in Hx; injection Hx as <- <- <-; [by left|].
    right. do 2 eexists. split; [by eapply p_autonomous|done].
  - unfold UpdateAutonomousBatch in Hx. destruct (foldM_res _ _ _) as [p|] eqn:Hp; injection Hx as <- <- <-; [|done].
    right. do 2 eexists. split; [by eapply p_batch|done].
  - unfold UpdateByCommand, updateByCommand in Hx. destruct (commandUpdates _ _) as [[p []]|] eqn:Hp.
    + apply commitLocked_cases in Hx as [(e & -> & ->)|[-> ->]]; [done|].
      right. do 2 eexists. split; [by eapply p_command|done].
    + injection Hx as <- <- <-. by left.
    + cbn in Hx. by injection Hx as <- <- <-.
  - unfold UpdateByCommandTransactional in Hx. destruct transaction as [tx|]; [|by injection Hx as <- <- <-].
    unfold updateByCommand in Hx. destruct (commandUpdates _ _) as [[p []]|] eqn:Hp.
    + destruct (applyChange _ _ _) as [[] w1]; cbn [negb] in Hx.
      2: { destruct (commandTransactionFailure _ _). by injection Hx as <- <- <-. }
      destruct (Commit _ _) as [[] w2]; cbn [negb] in Hx.
      2: { destruct (Abort_ _ _) as [? ?]. destruct (applyChange _ _ _) as [? ?]. by injection Hx as <- <- <-. }
      injection Hx as <- <- <-. right. do 2 eexists. split; [by eapply p_transaction|done].
    + destruct (Commit _ _) as [[] w1]; [injection Hx as <- <- <-; by left|].
      destruct (commandTransactionFailure _ _). by injection Hx as <- <- <-.
    + destruct (abortCommandTransaction _ _ _). by injection Hx as <- <- <-.
Qed.

(** What the operations do to the platform: they reach it only through the applier and through
    the transaction of the request, so what those keep, the operation keeps. *)
Section world.
Variables (s : Store W) (P : W → Prop).
Hypothesis Happly : ∀ change w, P w → P (applyChange s change w).2.

Lemma commitLocked_world w op before after next sync :
  P w → P (commitLocked s w op before after next sync).2.
Proof.
  intros Hw. unfold commitLocked. set (c := mkChange _ _ _ _ _ _). pose proof (Happly c w Hw) as Ha.
  by destruct (applyChange s c w) as [[] ?].
Qed.

Lemma checked_world {A B} w (r : Res MibError A) (k : A → outcome W B) :
  (∀ a, P (k a).2) → P w → P (checked s w r k).2.
Proof. intros Hk Hw. unfold checked. destruct r; [apply Hk|exact Hw]. Qed.

Lemma updateByCommand_world w updates transaction :
  (∀ t w, transaction = Some t → P w → P (Commit t w).2 ∧ P (Abort_ t w).2) →
  P w → P (updateByCommand s w updates transaction).2.
Proof.
  intros Ht Hw. unfold updateByCommand.
  assert (∀ t w, transaction = Some t → P w → P (Commit t w).2) as Hc by (intros; by apply Ht).
  assert (∀ t w, transaction = Some t → P w → P (Abort_ t w).2) as Ha by (intros; by apply Ht).
  destruct transaction as [t|]; unfold abortCommandTransaction, commandTransactionFailure.
  - destruct (commandUpdates s updates) as [[proposed []]|].
    + set (c := mkChange _ _ _ _ _ _). pose proof (Happly c w Hw) as H1.
      destruct (applyChange s c w) as [[] w1]; cbn [negb snd] in *.
      * pose proof (Hc t w1 eq_refl H1) as H2. destruct (Commit t w1) as [[] w2]; cbn [negb snd] in *; [exact H2|].
        pose proof (Ha t w2 eq_refl H2) as H3. destruct (Abort_ t w2) as [? w3]. cbn [snd] in H3.
        set (c' := mkChange _ _ _ _ _ _). pose proof (Happly c' w3 H3) as H4.
        by destruct (applyChange s c' w3).
      * pose proof (Ha t w1 eq_refl H1) as H2. by destruct (Abort_ t w1).
    + pose proof (Hc t w eq_refl Hw) as H1. destruct (Commit t w) as [[] w1]; [exact H1|].
      pose proof (Ha t w1 eq_refl H1) as H2. by destruct (Abort_ t w1).
    + pose proof (Ha t w eq_refl Hw) as H1. by destruct (Abort_ t w) as [[] ?].
  - destruct (commandUpdates s updates) as [[proposed []]|]; [by apply commitLocked_world|exact Hw..].
Qed.

Lemma execute_world w r :
  (∀ updates t w, r = RTransaction updates (Some t) → P w → P (Commit t w).2 ∧ P (Abort_ t w).2) →
  P w → P (execute s w r).2.
Proof.
  intros Ht Hw. assert (∀ {A} (o : outcome W A), (noValue o).2 = o.2) as Hn by (by intros ? [[[] ?] ?]).
  destruct r; cbn [execute]; rewrite ?Hn.
  - apply checked_world; [intros; by apply commitLocked_world|exact Hw].
  - apply checked_world; [intros [[? ?] ?]; case_bool_decide; [exact Hw|by apply commitLocked_world]|exact Hw].
  - apply checked_world; [intros [? ?]; case_bool_decide; [exact Hw|by apply commitLocked_world]|exact Hw].
  - unfold Delete. destruct (current s !! key); [|exact Hw].
    apply checked_world; [intros ?; destruct (_ || _ || _); [exact Hw|by apply commitLocked_world]|exact Hw].
  - by apply commitLocked_world.
  - apply checked_world; [|exact Hw]. intros [[before normalized]|]; [|exact Hw].
    pose proof (commitLocked_world w OperationAutonomous (Some before) (Some normalized)
      (<[key := normalized]> (current s)) (dataSync s) Hw) as H.
    by destruct (commitLocked _ _ _ _ _ _ _) as [[[] ?] ?].
  - destruct (UpdateAutonomous s key attributes). by rewrite Hn.
  - by destruct (UpdateAutonomousBatch s updates).
  - by apply updateByCommand_world.
  - destruct transaction as [t|]; [|exact Hw]. apply updateByCommand_world; [|exact Hw].
    intros t' w' [= <-]. by eapply Ht.
Qed.
End world.

(** ** The invariant *)

(** An instance filed under [k]: it carries its own key and entity id, its class is known and
    supported, its attributes are known and on the advertised surface, and it is a fixed point
    of normalization.  The data sync attribute of ONU data and the snapshot state that a reset
    carries over into ONU3-G are written outside normalization, so these two instances are
    exempt from the last clause (and ONU data from the advertised surface). *)
Record instance_inv s (k : Key) (i : Instance_) : Prop := {
  inv_key : i_Key i = k;
  inv_eid : i_Attributes i !! ManagedEntityID = Some (VU16 k.2);
  inv_class : known_class k.1;
  inv_supported : supportsClass s k.1 = true;
  inv_names : names_known k.1 (i_Attributes i);
  inv_advertised : k ≠ onuDataKey → advertised s k.1 (i_Attributes i);
  inv_normal : k ≠ onuDataKey → k ≠ onu3Key → normalizeIn s i = Ok i
}.

(** The two attributes of ONU data agree with the store's counter, the instances the ONU owns
    are exactly the factory's, and every instance is well formed. *)
Record store_inv s : Prop := {
  si_current : ∀ k i, current s !! k = Some i → instance_inv s k i;
  si_factory : ∀ k i, factory s !! k = Some i → instance_inv s k i ∧ i_Origin i = OriginONU;
  si_origin : ∀ k, (∃ i, current s !! k = Some i ∧ i_Origin i = OriginONU) ↔ is_Some (factory s !! k);
  si_sync : is_u 8 (dataSync s);
  si_syncattr : ∀ i, current s !! onuDataKey = Some i →
    i_Attributes i !! OnuData_MibDataSync = Some (VU8 (dataSync s))
}.

(** The parts of a store the invariant of an instance depends on do not change. *)
Lemma instance_inv_withState s m v k i : instance_inv (withState s m v) k i ↔ instance_inv s k i.
Proof. split; intros []; by split. Qed.

(** What an operation may propose. *)
Record proposal s (next : gmap Key Instance_) : Prop := {
  pr_instances : ∀ k i, next !! k = Some i → instance_inv s k i;
  pr_origin : ∀ k, (∃ i, next !! k = Some i ∧ i_Origin i = OriginONU) ↔ is_Some (factory s !! k)
}.

Lemma proposal_current s : store_inv s → proposal s (current s).
Proof. intros []. by split. Qed.

(** The origin of an instance says whether it is the factory's. *)
Lemma proposal_origin s next k i :
  proposal s next → next !! k = Some i → i_Origin i = OriginONU ↔ is_Some (factory s !! k).
Proof.
  intros [_ Ho] Hk. rewrite <- Ho. split; [by eauto|]. intros (j & Hj & ?). congruence.
Qed.

Lemma proposal_same_origin s m m' k i i' :
  proposal s m → m !! k = Some i → proposal s m' → m' !! k = Some i' → i_Origin i = i_Origin i'.
Proof.
  intros Hm Hi Hm' Hi'. pose proof (proposal_origin _ _ _ _ Hm Hi) as H1.
  pose proof (proposal_origin _ _ _ _ Hm' Hi') as H2.
  destruct (i_Origin i), (i_Origin i'); try reflexivity; exfalso.
  - assert (OriginOLT = OriginONU) by tauto. congruence.
  - assert (OriginOLT = OriginONU) by tauto. congruence.
Qed.

(** Replacing an instance by one of the same origin. *)
Lemma proposal_replace s next k old i :
  proposal s next → next !! k = Some old → instance_inv s k i → i_Origin i = i_Origin old →
  proposal s (<[k := i]> next).
Proof.
  intros [Hp Ho] Hk Hi Horigin. split.
  - intros k' i' [[<- <-]|[_ Hk']]%lookup_insert_Some; [done|by apply Hp].
  - intros k'. rewrite <- Ho. destruct (decide (k = k')) as [<-|Hne].
    + rewrite lookup_insert_eq, Hk. split.
      * intros (j & [= <-] & Hj). exists old. split; [done|]. by rewrite <- Horigin.
      * intros (j & [= <-] & Hj). exists i. split; [done|]. by rewrite Horigin.
    + by rewrite lookup_insert_ne.
Qed.

Lemma MibDataSync_known : known_name (definition_of OnuDataClassID) OnuData_MibDataSync = true.
Proof. vm_compute. reflexivity. Qed.

Lemma instance_inv_setSync s i v :
  instance_inv s onuDataKey i →
  instance_inv s onuDataKey (withAttribute i OnuData_MibDataSync (VU8 v)).
Proof.
  intros []. split; cbn [i_Key i_Attributes withAttribute];
    [assumption| |assumption|assumption| |by intros []|by intros []].
  - by rewrite lookup_insert_ne.
  - apply names_known_insert; [right; apply MibDataSync_known|done].
Qed.

Lemma proposal_setDataSync s next v : proposal s next → proposal s (setDataSync next v).
Proof.
  intros Hp. unfold setDataSync. destruct (next !! onuDataKey) as [i|] eqn:Hi; [|done].
  eapply proposal_replace; [done|done| |done]. apply instance_inv_setSync. by apply (pr_instances _ _ Hp).
Qed.

Lemma setDataSync_attr next v i :
  setDataSync next v !! onuDataKey = Some i → i_Attributes i !! OnuData_MibDataSync = Some (VU8 v).
Proof.
  unfold setDataSync. destruct (next !! onuDataKey) as [j|] eqn:Hj; [|congruence].
  rewrite lookup_insert_eq. intros [= <-]. cbn. by rewrite lookup_insert_eq.
Qed.

Lemma store_inv_commit s next v :
  store_inv s → proposal s next → is_u 8 v →
  (∀ i, next !! onuDataKey = Some i → i_Attributes i !! OnuData_MibDataSync = Some (VU8 v)) →
  store_inv (withState s next v).
Proof.
  intros [] [] ? ?. split; cbn; try done.
  - intros k i Hk. apply instance_inv_withState. by auto.
  - intros k i Hk. destruct (si_factory0 k i Hk). split; [|done]. by apply instance_inv_withState.
Qed.

(** ** What normalization gives an operation *)

Lemma normalizeIn_inv s k cur attrs n :
  instance_inv s k cur → (k ≠ onuDataKey → advertised s k.1 attrs) →
  normalizeIn s (withAttributes cur attrs) = Ok n →
  instance_inv s k n ∧ i_Origin n = i_Origin cur ∧
  i_Attributes n = <[ManagedEntityID := VU16 k.2]> attrs.
Proof.
  intros [] Hadv Hn. pose proof (normalizeIn_fixed _ _ _ Hn) as Hfix.
  apply normalizeIn_shape in Hn as (-> & Hk & Hnames).
  unfold normalized, withAttribute, withAttributes, ClassID_of, EntityID_of in *. cbn [i_Key i_Attributes i_Origin] in *.
  rewrite inv_key0 in *. split_and!; [|done|done]. split; cbn [i_Key i_Attributes];
    [reflexivity| |assumption|assumption| | |by intros].
  - by rewrite lookup_insert_eq.
  - apply names_known_insert; [by left|done].
  - intros Hne. apply advertised_EntityID. by apply Hadv.
Qed.

Lemma MibDataSync_not_EntityID : OnuData_MibDataSync ≠ ManagedEntityID.
Proof. done. Qed.

Lemma prepareUpdate_inv s k cur attrs n :
  instance_inv s k cur → prepareUpdate s k (Some cur) attrs = Ok n →
  instance_inv s k n ∧ i_Origin n = i_Origin cur ∧
  (k = onuDataKey → i_Attributes n !! OnuData_MibDataSync = i_Attributes cur !! OnuData_MibDataSync).
Proof.
  intros Hi Hp. unfold prepareUpdate in Hp. inv_ok Hp. destruct x0.
  apply loadDefinition_Ok in Hr as (Hd & _). rewrite Hd in Hp.
  apply (validateSupportedAttributes_Ok s x k.1) in Hr0; [|done].
  destruct (updateMasks k _ _) as [f u] eqn:Hm. inv_ok Hp.
  assert (f = 0 ∧ u = 0) as [-> ->] by lia. apply updateMasks_zero in Hm.
  apply (normalizeIn_inv s k) in Hp as (Hn & Ho & Ha); [|done|].
  2: { intros Hne. apply advertised_overwrite; [done|by apply Hi]. }
  split_and!; [done|done|]. intros ->. rewrite Ha, lookup_insert_ne by done.
  rewrite overwrite_lookup. cbn [andb]. destruct (attrs !! OnuData_MibDataSync) eqn:Hs; [|done].
  destruct (Hm _ _ Hs) as (_ & Hno & _). by destruct Hno.
Qed.

Lemma incrementDataSync_is_u v : is_u 8 (incrementDataSync v).
Proof. unfold incrementDataSync. destruct (v =? 255); [by_decide|by apply wrap_is_u]. Qed.

Lemma prepareSet_inv s key attrs before n sync :
  store_inv s → prepareSet s key attrs = Ok (before, n, sync) →
  current s !! key = Some before ∧ instance_inv s key n ∧ i_Origin n = i_Origin before ∧ is_u 8 sync.
Proof.
  intros Hs Hp. unfold prepareSet in Hp. destruct (current s !! key) as [cur|] eqn:Hc; [|done].
  inv_ok Hp. destruct x0, x1. pose proof (si_current _ Hs _ _ Hc) as Hi.
  apply loadDefinition_Ok in Hr as (Hd & _).
  apply (validateSupportedAttributes_Ok s x key.1) in Hr0; [|done].
  apply (normalizeIn_inv s key) in Hr2 as (Hn & Ho & Ha); [|done|].
  2: { intros Hne. apply advertised_overwrite; [done|by apply Hi]. }
  pose proof (incrementDataSync_is_u (dataSync s)) as Hsy. cbv zeta in Hp.
  assert (∀ n', @Ok MibError _ (cur, n', nextDataSync s) = Ok (before, n, sync) → n' = x2 →
    Some cur = Some before ∧ instance_inv s key n ∧ i_Origin n = i_Origin before ∧ is_u 8 sync) as Hplain.
  { intros n' Heq ->. injection Heq as <- <- <-. split_and!; [reflexivity|exact Hn|exact Ho|exact Hsy]. }
  case_bool_decide as Hk; [|by eapply Hplain].
  destruct (attrs !! OnuData_MibDataSync) as [v|]; [|by eapply Hplain].
  destruct v as [|v| | | | | | | | |]; try discriminate Hp.
  injection Hp as <- <- <-. subst key.
  split_and!; [reflexivity|by apply instance_inv_setSync|exact Ho|apply incrementDataSync_is_u].
Qed.

Lemma attr_of_definition c i a supported :
  AttributeDefinitions (definition_of c) !! i = Some a → Z.land (Mask a) supported ≠ 0 →
  supported_name supported c (Name a).
Proof.
  intros Ha Hm. unfold supported_name. rewrite (attr_named_exact _ (definition_ok_of c) _ _ Ha). by right.
Qed.

Lemma known_attr c i a :
  AttributeDefinitions (definition_of c) !! i = Some a → known_name (definition_of c) (Name a) = true.
Proof.
  intros Ha. unfold known_name. rewrite (attr_named_exact _ (definition_ok_of c) _ _ Ha).
  apply bool_decide_eq_true_2. by eexists.
Qed.

(** A mask within the policy selects only advertised attributes. *)
Lemma ldiff_zero_land mask supported : Z.ldiff mask supported = 0 → Z.land mask supported = mask.
Proof.
  intros H. apply Z.bits_inj'. intros n Hn. apply (f_equal (λ x, Z.testbit x n)) in H.
  rewrite Z.ldiff_spec, Z.bits_0 in H. rewrite Z.land_spec.
  by destruct (Z.testbit mask n), (Z.testbit supported n).
Qed.

Lemma prepareSetTable_inv s key mask attrs before n :
  store_inv s → prepareSetTable s key mask attrs = Ok (before, n) →
  current s !! key = Some before ∧ instance_inv s key n ∧ i_Origin n = i_Origin before.
Proof.
  intros Hs Hp. unfold prepareSetTable in Hp. destruct (current s !! key) as [cur|] eqn:Hc; [|discriminate Hp].
  inv_ok Hp. pose proof (si_current _ Hs _ _ Hc) as Hi. apply loadDefinition_Ok in Hr as (Hd & _).
  destruct (List.find _ _) as [[i a]|] eqn:Hf; [|discriminate Hp].
  apply find_some in Hf as [Hin Hsel]. apply andb_true_iff in Hsel as [Hi0 Hmask].
  apply list_elem_of_In, elem_of_range in Hin. rewrite Hd in Hin.
  inv_ok Hp. destruct (attrs !! Name a) as [v|]; [|discriminate Hp].
  destruct v; try discriminate Hp. inv_ok Hp. destruct (tableRows _ _) as [existing|]; [|discriminate Hp].
  inv_ok Hp. subst before x2.
  apply (normalizeIn_inv s key cur) in Hr1 as (Hn & Ho & _); [|exact Hi|].
  { split_and!; [reflexivity|exact Hn|exact Ho]. }
  intros Hne. apply advertised_insert; [by apply Hi|]. intros supported Hsup. rewrite Hsup in Hr0.
  apply guard_err_iff in Hr0. rewrite negb_false_iff, Z.eqb_eq in Hr0. apply ldiff_zero_land in Hr0.
  apply (attr_of_definition key.1 i); [exact Hin|].
  assert (Mask a = mask) as -> by lia. rewrite Hr0.
  destruct (attribute_inv _ (definition_ok_of key.1) _ _ Hin) as (_ & ? & _ & Hmk).
  destruct (Hmk ltac:(lia)) as [_ Hmk']. assert (0 < 2 ^ (16 - i)) by (apply Z.pow_pos_nonneg; lia). lia.
Qed.

Lemma prepareExpire_inv s key timers before n :
  store_inv s → prepareExpire s key timers = Ok (Some (before, n)) →
  current s !! key = Some before ∧ instance_inv s key n ∧ i_Origin n = i_Origin before.
Proof.
  intros Hs Hp. unfold prepareExpire in Hp. inv_ok Hp.
  destruct (current s !! key) as [cur|] eqn:Hc; [|discriminate Hp].
  pose proof (si_current _ Hs _ _ Hc) as Hi. inv_ok Hp.
  case_bool_decide as Hex; [discriminate Hp|]. inv_ok Hp. subst before x1.
  apply (normalizeIn_inv s key cur) in Hr1 as (Hn & Ho & _); [|exact Hi|].
  { split_and!; [reflexivity|exact Hn|exact Ho]. }
  intros Hne. apply advertised_insert; [by apply Hi|]. intros supported Hsup.
  pose proof (inv_advertised _ _ _ Hi Hne) as Hadv. unfold advertised in Hadv. rewrite Hsup in Hadv.
  destruct (i_Attributes cur !! McastSub_PreviewTable) as [v|] eqn:Hv; [by eapply Hadv|].
  injection Hr0 as <-. by destruct Hex.
Qed.

Lemma normalizeIn_new s i n :
  supportsClass s (ClassID_of i) = true → advertised s (ClassID_of i) (i_Attributes i) →
  normalizeIn s i = Ok n → instance_inv s (i_Key i) n ∧ i_Origin n = i_Origin i.
Proof.
  intros Hsup Hadv Hn. pose proof (normalizeIn_fixed _ _ _ Hn) as Hfix.
  apply normalizeIn_shape in Hn as (-> & Hk & Hnames).
  unfold normalized, withAttribute, ClassID_of, EntityID_of in *. cbn [i_Key i_Attributes i_Origin] in *.
  split; [|reflexivity]. split; cbn [i_Key i_Attributes];
    [reflexivity| |assumption|assumption| | |by intros].
  - by rewrite lookup_insert_eq.
  - apply names_known_insert; [by left|done].
  - intros _. by apply advertised_EntityID.
Qed.

Lemma i_Origin_initialize i size : i_Origin (initializeCreatedInstance i size) = i_Origin i.
Proof. unfold initializeCreatedInstance. cbv zeta. by repeat case_match. Qed.

Lemma prepareCreate_inv s c e attrs n :
  prepareCreate s c e attrs = Ok n →
  current s !! (c, e) = None ∧ instance_inv s (c, e) n ∧ i_Origin n = OriginOLT.
Proof.
  intros Hp. unfold prepareCreate in Hp. inv_ok Hp. apply negb_false_iff in Hg.
  destruct (MergeInDefaultValues c attrs) as [created|]; [|discriminate Hp].
  apply normalizeIn_new in Hp as [Hi Ho]; [|exact Hg|apply advertised_prune].
  cbn [i_Key i_Origin] in *. rewrite i_Origin_initialize in Ho. split_and!; [|exact Hi|exact Ho].
  unfold Exists_ in Hg0. apply bool_decide_eq_false in Hg0. by apply eq_None_not_Some.
Qed.

(** Inserting a new instance of the OLT, and deleting one. *)
Lemma proposal_create s next k i :
  proposal s next → next !! k = None → instance_inv s k i → i_Origin i = OriginOLT →
  proposal s (<[k := i]> next).
Proof.
  intros [Hp Ho] Hk Hi Horigin. split.
  - intros k' i' [[<- <-]|[_ Hk']]%lookup_insert_Some; [exact Hi|by apply Hp].
  - intros k'. rewrite <- Ho. destruct (decide (k = k')) as [<-|Hne].
    + rewrite lookup_insert_eq, Hk. split; [|by intros (? & ? & _)].
      intros (j & [= <-] & Hj). congruence.
    + by rewrite lookup_insert_ne.
Qed.

Lemma proposal_delete s next k i :
  proposal s next → next !! k = Some i → i_Origin i ≠ OriginONU → proposal s (delete k next).
Proof.
  intros [Hp Ho] Hk Hi. split.
  - intros k' i' [_ Hk']%lookup_delete_Some. by apply Hp.
  - intros k'. rewrite <- Ho. destruct (decide (k = k')) as [<-|Hne].
    + rewrite lookup_delete_eq, Hk. split; [by intros (? & ? & _)|]. intros (j & [= <-] & Hj). congruence.
    + by rewrite lookup_delete_ne.
Qed.

(** What a reset proposes: the factory, with the preserved snapshot attributes. *)
Lemma preserve_inv s before l after :
  instance_inv s onu3Key before → instance_inv s onu3Key after → ManagedEntityID ∉ l →
  let f := λ after name, match i_Attributes before !! name with
                         | Some value => withAttribute after name value
                         | None => after
                         end in
  instance_inv s onu3Key (fold_left f l after) ∧ i_Origin (fold_left f l after) = i_Origin after.
Proof.
  intros Hb. cbv zeta. revert after. induction l as [|n l IH]; intros after Ha Hl; [done|].
  cbn [fold_left]. apply not_elem_of_cons in Hl as [Hn Hl].
  destruct (i_Attributes before !! n) as [v|] eqn:Hv; [|by apply IH].
  assert (instance_inv s onu3Key (withAttribute after n v)) as Hw.
  { destruct Ha. split; cbn [i_Key i_Attributes withAttribute];
      [assumption| |assumption|assumption| | |by intros _ []].
    - by rewrite lookup_insert_ne.
    - apply names_known_insert; [|done]. by apply (inv_names _ _ _ Hb _ _ Hv).
    - intros Hne. apply advertised_insert; [by apply inv_advertised0|]. intros supported Hsup.
      pose proof (inv_advertised _ _ _ Hb Hne) as Hadv. unfold advertised in Hadv. rewrite Hsup in Hadv.
      by eapply Hadv. }
  destruct (IH _ Hw Hl) as [? Ho]. split; [done|]. by rewrite Ho.
Qed.

Lemma proposal_reset s : store_inv s → proposal s (preserveONU3State (current s) (factory s)).
Proof.
  intros Hs.
  assert (proposal s (factory s)) as Hf.
  { split.
    - intros k i Hk. by apply (si_factory _ Hs).
    - intros k. split; [intros (i & Hi & _); by eexists|]. intros [i Hi]. exists i. split; [done|].
      by apply (si_factory _ Hs) in Hi as [_ ?]. }
  unfold preserveONU3State. destruct (current s !! onu3Key) as [before|] eqn:Hb; [|done].
  destruct (factory s !! onu3Key) as [after|] eqn:Ha; [|done].
  destruct (preserve_inv s before onu3Preserved after) as [Hi Ho].
  - by apply (si_current _ Hs).
  - by apply (si_factory _ Hs).
  - by_decide.
  - eapply proposal_replace; [exact Hf|exact Ha|exact Hi|exact Ho].
Qed.

(** The batch and command loops. *)
Definition batchStep s (proposed : gmap Key Instance_) (entry : Key * AttributeValueMap)
    : Res MibError (gmap Key Instance_) :=
  let '(key, attributes) := entry in
  normalized ← prepareUpdate s key (proposed !! key) attributes;
  Ok (<[key := normalized]> proposed).

(** A proposal whose ONU data counter is still the store's. *)
Definition autonomous_proposal s (next : gmap Key Instance_) : Prop :=
  proposal s next ∧
  ∀ i, next !! onuDataKey = Some i → i_Attributes i !! OnuData_MibDataSync = Some (VU8 (dataSync s)).

Lemma autonomous_update s next key cur attrs n :
  autonomous_proposal s next → next !! key = Some cur → instance_inv s key cur →
  prepareUpdate s key (Some cur) attrs = Ok n →
  (key = onuDataKey → i_Attributes cur !! OnuData_MibDataSync = Some (VU8 (dataSync s))) →
  autonomous_proposal s (<[key := n]> next).
Proof.
  intros [Hp Hs] Hk Hi Hu Hc. destruct (prepareUpdate_inv _ _ _ _ _ Hi Hu) as (Hn & Ho & Hsync). split.
  - eapply proposal_replace; [exact Hp|exact Hk|exact Hn|exact Ho].
  - intros i [[-> <-]|[_ Hi']]%lookup_insert_Some; [|by apply Hs]. rewrite Hsync by done. by apply Hc.
Qed.

Lemma batch_inv s l next next' :
  autonomous_proposal s next → foldM_res (batchStep s) l next = Ok next' → autonomous_proposal s next'.
Proof.
  intros Hn Hf. eapply (foldM_inv (autonomous_proposal s)); [|exact Hn|exact Hf].
  intros m [key attrs] m' _ Hm Hst. unfold batchStep in Hst. inv_ok Hst. subst m'.
  destruct (m !! key) as [cur|] eqn:Hk; [|discriminate Hr].
  eapply autonomous_update; [exact Hm|exact Hk| |exact Hr|].
  - by apply (pr_instances _ _ (proj1 Hm)).
  - intros ->. by apply (proj2 Hm).
Qed.

Lemma command_inv s updates next changed :
  store_inv s → commandUpdates s updates = Ok (next, changed) → proposal s next.
Proof.
  intros Hs Hf. unfold commandUpdates in Hf.
  eapply (foldM_inv (λ p : gmap Key Instance_ * bool,
    proposal s p.1 ∧ ∀ k, k ∈ dom p.1 ↔ k ∈ dom (current s))) in Hf; [apply Hf| |].
  - intros [m b] [key attrs] [m' b'] _ [Hm Hd] Hst. cbn in Hst. inv_ok Hst.
    destruct (current s !! key) as [cur|] eqn:Hk; [|discriminate Hr].
    pose proof (si_current _ Hs _ _ Hk) as Hi.
    destruct (prepareUpdate_inv _ _ _ _ _ Hi Hr) as (Hn & Ho & _).
    case_bool_decide; injection Hst as <- <-; [done|]. cbn [fst].
    assert (is_Some (m !! key)) as [old Hold].
    { apply elem_of_dom. apply Hd. apply elem_of_dom. by eexists. }
    split.
    + eapply proposal_replace; [exact Hm|exact Hold|exact Hn|].
      rewrite Ho. eapply proposal_same_origin; [by apply proposal_current|exact Hk|exact Hm|exact Hold].
    + intros k. rewrite dom_insert, elem_of_union, elem_of_singleton, Hd. split; [|by right].
      intros [->|]; [|done]. apply elem_of_dom. by eexists.
  - split; [by apply proposal_current|done].
Qed.

(** ** Every operation preserves the invariant *)

Lemma proposes_inv s r next sync :
  store_inv s → proposes s r next sync → store_inv (withState s next sync).
Proof.
  intros Hs Hp. pose proof (proposal_current _ Hs) as Hcur.
  assert (∀ m v, proposal s m → is_u 8 v → store_inv (withState s (setDataSync m v) v)) as Hcommit.
  { intros m v Hm Hv. apply store_inv_commit; [done|by apply proposal_setDataSync|done|].
    apply setDataSync_attr. }
  assert (∀ m, autonomous_proposal s m → store_inv (withState s m (dataSync s))) as Hauto.
  { intros m [Hm Hv]. apply store_inv_commit; [done|done|apply Hs|done]. }
  destruct Hp as [c e attrs i Hp|key attrs b n v Hp _|key mask attrs b n Hp _|key i Hk Ho| |key timers b n Hp
    |updates m Hp|updates tx m Hp|key attrs n Hp|updates m Hp].
  - apply prepareCreate_inv in Hp as (? & ? & ?). apply Hcommit; [by apply proposal_create|apply incrementDataSync_is_u].
  - apply prepareSet_inv in Hp as (? & ? & ? & ?); [|done].
    apply Hcommit; [by eapply proposal_replace|done].
  - apply prepareSetTable_inv in Hp as (? & ? & ?); [|done].
    apply Hcommit; [by eapply proposal_replace|apply incrementDataSync_is_u].
  - apply Hcommit; [by eapply proposal_delete|apply incrementDataSync_is_u].
  - apply Hcommit; [by apply proposal_reset|by_decide].
  - apply prepareExpire_inv in Hp as (? & ? & ?); [|done].
    apply Hcommit; [by eapply proposal_replace|apply Hs].
  - apply command_inv in Hp; [|done]. apply Hcommit; [by apply proposal_setDataSync|apply incrementDataSync_is_u].
  - apply command_inv in Hp; [|done]. apply Hcommit; [done|apply incrementDataSync_is_u].
  - apply Hauto. destruct (current s !! key) as [cur|] eqn:Hk; [|discriminate Hp].
    eapply autonomous_update; [split; [done|apply (si_syncattr _ Hs)]|exact Hk| |exact Hp|].
    + by apply (si_current _ Hs).
    + intros ->. by apply (si_syncattr _ Hs).
  - apply Hauto. eapply batch_inv; [|exact Hp]. split; [done|apply (si_syncattr _ Hs)].
Qed.

Lemma execute_inv s w r res s' w' :
  store_inv s → execute s w r = (res, s', w') → store_inv s'.
Proof.
  intros Hs Hx. apply execute_cases in Hx. destruct res as [u|e]; [|by subst].
  destruct Hx as [->|(next & sync & Hp & ->)]; [done|]. by eapply proposes_inv.
Qed.

(** ** Construction *)

(** While the factory is loaded: without explicit masks, the masks only grow, and cover the
    attributes of every instance loaded so far. *)
Definition covered s (c : Z) (attrs : AttributeValueMap) : Prop :=
  match supportedAttributes s with
  | None => True
  | Some masks => ∀ n v, attrs !! n = Some v → supported_name (default 0 (masks !! c)) c n
  end.

Lemma covered_advertised s c attrs : covered s c attrs → advertised s c attrs.
Proof.
  unfold covered, advertised, supportedAttributeMask. destruct (supportedAttributes s) as [masks|]; [|done].
  destruct (masks !! c); [|done]. intros Hc. exact Hc.
Qed.

Lemma supported_name_grow supported m c n :
  supported_name supported c n → supported_name (Z.lor supported m) c n.
Proof.
  unfold supported_name. destruct (attr_named _ n) as [a|]; [|done]. intros [?|Ha]; [by left|]. right.
  rewrite Z.land_lor_distr_r. intros [? _]%Z.lor_eq_0_iff. done.
Qed.

(** One attribute name of a factory instance widens the mask of its class. *)
Definition maskStep (c : Z) (entity : ManagedEntity) (masks : gmap Z Z) (entry : string * Value)
    : Res MibError (gmap Z Z) :=
  let '(name, _) := entry in
  if bool_decide (name = ManagedEntityID) then Ok masks
  else match GetAttributeDefinitionByName (AttributeDefinitions (definition entity)) name with
       | None => Err (PlainError "factory ME has unknown attribute")
       | Some attribute => Ok (<[c := Z.lor (default 0 (masks !! c)) (Mask attribute)]> masks)
       end.

Lemma maskStep_loop c entity l masks masks' :
  definition entity = definition_of c → foldM_res (maskStep c entity) l masks = Ok masks' →
  (∀ c' n, supported_name (default 0 (masks !! c')) c' n → supported_name (default 0 (masks' !! c')) c' n) ∧
  (∀ n v, (n, v) ∈ l → supported_name (default 0 (masks' !! c)) c n).
Proof.
  intros Hd. revert masks. induction l as [|[name v] l IH]; intros masks Hf; cbn [foldM_res] in Hf.
  { injection Hf as <-. split; [tauto|]. intros n v Hn. apply not_elem_of_nil in Hn. destruct Hn. }
  destruct (maskStep c entity masks (name, v)) as [m1|] eqn:Hst; [|discriminate Hf].
  cbn [mbind Res_bind] in Hf. destruct (IH _ Hf) as [Hg Hl]. clear IH Hf.
  assert ((∀ c' n, supported_name (default 0 (masks !! c')) c' n → supported_name (default 0 (m1 !! c')) c' n)
    ∧ supported_name (default 0 (m1 !! c)) c name) as [Hg1 Hn1].
  { unfold maskStep in Hst. case_bool_decide as Hn.
    - injection Hst as <-. split; [tauto|]. rewrite Hn. apply supported_EntityID.
    - rewrite Hd, GetAttributeDefinitionByName_named in Hst by apply definition_ok_of.
      destruct (attr_named (definition_of c) name) as [a|] eqn:Ha; [|discriminate Hst]. injection Hst as <-. split.
      + intros c' n. destruct (decide (c = c')) as [<-|]; [|by rewrite lookup_insert_ne].
        rewrite lookup_insert_eq. cbn. apply supported_name_grow.
      + rewrite lookup_insert_eq. cbn. unfold supported_name. rewrite Ha.
        destruct (decide (Mask a = 0)) as [|Hm]; [by left|right].
        rewrite Z.land_lor_distr_r. intros [_ Hz]%Z.lor_eq_0_iff. rewrite Z.land_diag in Hz. exact (Hm Hz). }
  split; [by intros c' n ?; apply Hg, Hg1|].
  intros n v' Hin. apply elem_of_cons in Hin as [Heq|Hin]; [|by eapply Hl].
  injection Heq as -> _. by apply Hg.
Qed.

(** What has been loaded so far. *)
Record building (explicit : bool) s : Prop := {
  b_same : current s = factory s;
  b_instances : ∀ k i, factory s !! k = Some i →
    instance_inv s k i ∧ i_Origin i = OriginONU ∧
    (explicit = false → covered s k.1 (i_Attributes i))
}.

Lemma addFactory_inv explicit s i s' :
  building explicit s → addFactory explicit s i = Ok s' → building explicit s'.
Proof.
  intros [Hsame Hinst] Ha. unfold addFactory in Ha. inv_ok Ha. apply negb_false_iff in Hg.
  destruct (normalizeIn s _) as [n|] eqn:Hn; [|discriminate Ha]. inv_ok Ha.
  apply bool_decide_eq_false, eq_None_not_Some in Hg0.
  pose proof (normalizeIn_fixed _ _ _ Hn) as Hfix.
  pose proof (normalizeIn_shape _ _ _ Hn) as (Hshape & Hk & Hnames).
  assert (i_Key n = i_Key i ∧ i_Origin n = OriginONU ∧ ClassID_of n = ClassID_of i ∧
          i_Attributes n = <[ManagedEntityID := VU16 (EntityID_of i)]> (i_Attributes i))
    as (Hkey & Horigin & Hcls & Hattrs)
    by (rewrite Hshape; split_and!; reflexivity).
  clear Hn Hshape. cbv zeta in Ha.
  set (s1 := mkStore (<[i_Key n := n]> (factory s)) (<[i_Key n := n]> (current s)) (dataSync s) (applier s)
               (extendedVLANTableSize s) (stateDomain s) (supportedClasses s) (supportedAttributes s)
               (attributeCapabilities s) (validateInstance s)) in *.
  (* what remains to show: the attributes are covered in the final store, whose masks only grow *)
  assert (∀ masks', let s2 := mkStore (factory s1) (current s1) (dataSync s1) (applier s1)
      (extendedVLANTableSize s1) (stateDomain s1) (supportedClasses s1) masks'
      (attributeCapabilities s1) (validateInstance s1) in
    (∀ c attrs, advertised s c attrs → (explicit = false → covered s c attrs) →
       advertised s2 c attrs ∧ (explicit = false → covered s2 c attrs)) →
    advertised s2 (ClassID_of n) (i_Attributes n) →
    (explicit = false → covered s2 (ClassID_of n) (i_Attributes n)) → building explicit s2) as Hfinal.
  { intros masks' s2 Hgrow Hadv Hcov. split; [by cbn; rewrite Hsame|].
    intros k j Hkj. change (factory s2) with (<[i_Key n := n]> (factory s)) in Hkj.
    apply lookup_insert_Some in Hkj as [[<- <-]|[_ Hj]].
    - split_and!; [|exact Horigin|exact Hcov]. split; cbn [i_Attributes].
      + reflexivity.
      + rewrite Hattrs, Hkey. by rewrite lookup_insert_eq.
      + fold (ClassID_of n). rewrite Hcls. exact Hk.
      + fold (ClassID_of n). rewrite Hcls. exact Hg.
      + fold (ClassID_of n). rewrite Hcls, Hattrs. apply names_known_insert; [by left|exact Hnames].
      + intros _. exact Hadv.
      + intros _ _. exact Hfix.
    - destruct (Hinst _ _ Hj) as ([] & Hjo & Hjc).
      split_and!; [|exact Hjo|].
      + split; [assumption..| |assumption]. intros Hne. apply (Hgrow k.1 (i_Attributes j)); [by apply inv_advertised0|exact Hjc].
      + intros He. destruct explicit; [done|]. apply (Hgrow k.1 (i_Attributes j)); [|by intros _; apply Hjc|done].
        by apply covered_advertised, Hjc. }
  assert (supportedAttributes s1 = supportedAttributes s) as Hsa by done.
  destruct (supportedAttributes s1) as [masks|] eqn:Hmasks.
  2: { injection Ha as <-. replace s1 with (mkStore (factory s1) (current s1) (dataSync s1) (applier s1)
      (extendedVLANTableSize s1) (stateDomain s1) (supportedClasses s1) None
      (attributeCapabilities s1) (validateInstance s1)) by (unfold s1 in *; cbn in *; by rewrite Hmasks).
    apply Hfinal; [done..|]. done. }
  inv_ok Ha. apply loadDefinition_Ok in Hr as (Hd & _). destruct explicit.
  - destruct (validateSupportedAttributes s1 x (i_Attributes n)) as [[]|] eqn:Hv; [|discriminate Ha].
    injection Ha as <-. apply (validateSupportedAttributes_Ok s1 x (ClassID_of n)) in Hv; [|exact Hd].
    replace s1 with (mkStore (factory s1) (current s1) (dataSync s1) (applier s1)
      (extendedVLANTableSize s1) (stateDomain s1) (supportedClasses s1) (supportedAttributes s1)
      (attributeCapabilities s1) (validateInstance s1)) by done.
    by apply Hfinal.
  - inv_ok Ha. subst s'. destruct (maskStep_loop (ClassID_of n) x (range (i_Attributes n)) masks x0 Hd Hr) as [Hgr Hall].
    apply Hfinal.
    + intros c attrs _ Hc. specialize (Hc eq_refl). unfold covered in Hc. rewrite <- Hsa in Hc.
      assert (covered (mkStore (factory s1) (current s1) (dataSync s1) (applier s1)
        (extendedVLANTableSize s1) (stateDomain s1) (supportedClasses s1) (Some x0)
        (attributeCapabilities s1) (validateInstance s1)) c attrs) as Hcov.
      { unfold covered. cbn. intros m v Hm. apply Hgr. by eapply Hc. }
      split; [by apply covered_advertised|by intros _].
    + apply covered_advertised. unfold covered. cbn. intros m v Hm. apply (Hall m v). by apply elem_of_range.
    + intros _. unfold covered. cbn. intros m v Hm. apply (Hall m v). by apply elem_of_range.
Qed.

Lemma NewWithOptions_inv instances options s :
  NewWithOptions instances options = Ok s → store_inv s ∧ dataSync s = 0.
Proof.
  intros Hn. unfold NewWithOptions in Hn. inv_ok Hn. destruct x as [classes masks]. inv_ok Hn. subst s.
  split; [|done].
  set (explicit := bool_decide (is_Some (o_SupportedAttributeMasks options))) in *.
  assert (building explicit x0) as [Hsame Hinst].
  { eapply (foldM_inv (building explicit)); [|apply (Build_building explicit)|exact Hr1].
    - intros s i s' _ Hb Hst. by eapply addFactory_inv.
    - done.
    - intros k i Hk. cbn [factory] in Hk. by rewrite lookup_empty in Hk. }
  assert (proposal x0 (current x0)) as Hp.
  { rewrite Hsame. split.
    - intros k i Hk. by apply Hinst.
    - intros k. split; [intros (i & Hi & _); by eexists|]. intros [i Hi]. exists i.
      split; [done|]. by apply Hinst in Hi as (_ & ? & _). }
  pose proof (proposal_setDataSync _ _ 0 Hp) as [Hi Ho]. split; cbn.
  - intros k i Hk. apply instance_inv_withState. by apply Hi.
  - intros k i Hk. destruct (Hinst _ _ Hk) as (? & ? & _). split; [|done]. by apply instance_inv_withState.
  - exact Ho.
  - by_decide.
  - apply setDataSync_attr.
Qed.
End invariant.
