(* ===== verification/StoreProps.v ===== *)
(** * MIB: the properties of the store

    What the OLT, the platform and the rest of the program may rely on: every reachable store
    is well formed, failed operations change nothing, the data sync counter follows every
    committed OLT change, the platform accepted exactly the committed snapshot, a coupled
    transaction leaves platform and MIB consistent, and what Get, Create, Set, Delete, Reset
    and Snapshot return and store. *)

From S2P Require Import Prelude Maps MeTypes MeClasses MeLib Mib Table Semantics Store.
From S2P Require Import StoreLemmas StoreInvariant.

(** ** A sample store, for the witnesses

    ONU data, ONU-G and no policy; the platform accepts everything and logs the changes. *)

Definition logging : Applier (list Change) := λ change log, (true, log ++ [change]).

Definition sample_factory : list Instance_ :=
  [mkInstance onuDataKey {[ OnuData_MibDataSync := VU8 0 ]} OriginONU;
   mkInstance (OnuGClassID, 0) {[ "AdministrativeState" := VU8 0; "OperationalState" := VU8 0 ]} OriginONU].

Definition sample_options : Options (list Change) :=
  mkOptions (Some logging) 0 "xg2010g:gpon" [] None None ∅.

(** The GAL Ethernet profile, a class the OLT creates. *)
Definition sample_create : Request (list Change) :=
  RCreate 272 1 {[ "MaximumGemPayloadSize" := VU16 48 ]}.

Definition sample_outcome {A} (d : A) (r : Res MibError A) : A := match r with Ok a => a | Err _ => d end.

Definition empty_store : Store (list Change) := mkStore ∅ ∅ 0 None 0 "" None None ∅ None.

Definition sample_store : Store (list Change) :=
  sample_outcome empty_store (@NewWithOptions canonical_range _ sample_factory sample_options).

Definition sample_run (s : Store (list Change)) (r : Request (list Change)) :=
  @execute canonical_range _ s [] r.

Definition sample_created : Store (list Change) := (sample_run sample_store sample_create).1.2.

Lemma sample_store_ok : @NewWithOptions canonical_range _ sample_factory sample_options = Ok sample_store.
Proof. vm_compute. reflexivity. Qed.

(** ** Reachable stores *)

Inductive reachable {MR : MapRange} {W} (instances : list Instance_) (options : Options W)
    : Store W → Prop :=
| reach_new s : NewWithOptions instances options = Ok s → reachable instances options s
| reach_step s w r res s' w' :
    reachable instances options s → execute s w r = (res, s', w') → reachable instances options s'.

Lemma reachable_inv {MR : MapRange} {W} instances (options : Options W) s :
  reachable instances options s → store_inv s.
Proof.
  induction 1 as [s Hn|s w r res s' w' _ IH Hx]; [by eapply NewWithOptions_inv|by eapply execute_inv].
Qed.

(** Only the MIB and its data sync counter change after the store is made. *)
Lemma execute_frame {MR : MapRange} {W} (s : Store W) w r res s' w' :
  execute s w r = (res, s', w') → s' = withState s (current s') (dataSync s').
Proof.
  intros Hx%execute_cases. destruct res; [destruct Hx as [->|(next & sync & _ & ->)]|rewrite Hx]; [|done|]; by destruct s.
Qed.

Lemma reachable_frame {MR : MapRange} {W} instances (options : Options W) s :
  reachable instances options s →
  ∃ s0, NewWithOptions instances options = Ok s0 ∧ s = withState s0 (current s) (dataSync s).
Proof.
  induction 1 as [s Hn|s w r res s' w' _ (s0 & Hn & Hf) Hx]; [exists s; by destruct s|].
  apply execute_frame in Hx. exists s0. split; [done|]. rewrite Hx at 1. by rewrite Hf.
Qed.

Lemma addFactory_frame {MR : MapRange} {W} explicit (s : Store W) i s' :
  addFactory explicit s i = Ok s' →
  applier s' = applier s ∧ stateDomain s' = stateDomain s ∧ (current s = factory s → current s' = factory s').
Proof.
  unfold addFactory. intros H. inv_ok H. destruct (normalizeIn s _) as [n|]; [|done]. inv_ok H. cbn in H.
  destruct (supportedAttributes s) as [masks|];
    [|injection H as <-; split_and!; try done; cbn; by intros ->]. inv_ok H.
  destruct explicit; [destruct (validateSupportedAttributes _ _ _)|]; inv_ok H; try discriminate H; subst s'; (split_and!; try done); cbn; by intros ->.
Qed.

Lemma NewWithOptions_frame {MR : MapRange} {W} instances (options : Options W) s :
  NewWithOptions instances options = Ok s →
  applier s = o_Applier options ∧ stateDomain s = o_StateDomain options ∧ current s = setDataSync (factory s) 0.
Proof.
  unfold NewWithOptions. intros H. inv_ok H. destruct x as [classes masks]. inv_ok H. subst s.
  apply (foldM_inv (λ s : Store W, applier s = o_Applier options ∧ stateDomain s = o_StateDomain options ∧
    current s = factory s)) in Hr1 as (H1 & H2 & H3); [split_and!; [done..|]; cbn; by rewrite H3| |done].
  intros s i s' _ (H1 & H2 & H3) (H1' & H2' & H3')%addFactory_frame. rewrite <- H1, <- H2. auto.
Qed.

Lemma sample_store_inv : @store_inv canonical_range _ sample_store.
Proof. eapply (@reachable_inv canonical_range). apply reach_new. apply sample_store_ok. Qed.



(** ** Errors *)

(** C2: an operation that returns an error leaves the store exactly as it was, also when the
    platform refused the change, the transaction could not commit, or the batch failed half
    way through. *)
Theorem failed_operation_keeps_store {MR : MapRange} {W} (s : Store W) w r e s' w'
    (Hx : execute s w r = (Err e, s', w')) : s' = s.
Proof. by apply execute_cases in Hx. Qed.

Lemma failed_operation_keeps_store_witness :
  (@execute canonical_range _ sample_store [] (RDelete (OnuGClassID, 0))).1.2 = sample_store.
Proof.
  apply (@failed_operation_keeps_store canonical_range _ sample_store [] (RDelete (OnuGClassID, 0))
           (result NotSupported) _ []).
  vm_compute. reflexivity.
Defined.

(** ** The data sync counter *)

(** The counter a committed request must leave. *)
Definition expected_sync {W} (s : Store W) (r : Request W) : Z :=
  match r with
  | RReset => 0
  | RExpire _ _ | RAutonomous _ _ | RBatch _ => dataSync s
  | RSet key attributes =>
      if bool_decide (key = onuDataKey) then
        match attributes !! OnuData_MibDataSync with
        | Some (VU8 value) => incrementDataSync value
        | _ => incrementDataSync (dataSync s)
        end
      else incrementDataSync (dataSync s)
  | _ => incrementDataSync (dataSync s)
  end.

Lemma proposes_sync {MR : MapRange} {W} (s : Store W) r next sync :
  proposes s r next sync → sync = expected_sync s r.
Proof.
  intros Hp. destruct Hp as [| key attrs b n v Hp _| | | | | | | |]; try reflexivity.
  unfold prepareSet in Hp. destruct (current s !! key); [|discriminate Hp]. inv_ok Hp. cbn [expected_sync].
  case_bool_decide; [|by injection Hp as _ _ <-].
  destruct (attrs !! OnuData_MibDataSync) as [[]|]; try discriminate Hp; by injection Hp as _ _ <-.
Qed.

Lemma incrementDataSync_range v : is_u 8 v → 1 ≤ incrementDataSync v ≤ 255 ∧ incrementDataSync v ≠ v.
Proof.
  unfold is_u, incrementDataSync. change (2 ^ 8) with 256. intros Hv.
  destruct (Z.eqb_spec v 255); [lia|]. unfold wrap. change (2 ^ 8) with 256. rewrite Z.mod_small by lia. lia.
Qed.



(** ** The platform *)

(** Requests the platform is asked about. *)
Definition asks_platform {W} (r : Request W) : bool :=
  match r with RAutonomous _ _ | RBatch _ => false | _ => true end.

Lemma commit_applied {MR : MapRange} {W} (s : Store W) apply w r u s' w' :
  applier s = Some apply → asks_platform r = true → execute s w r = (Ok u, s', w') →
  s' = s ∨ ∃ change w1 w2,
    apply change w1 = (true, w2) ∧ ch_Snapshot change = Snapshot s' ∧
    ch_MIBDataSync change = dataSync s' ∧ ch_StateDomain change = stateDomain s.
Proof.
  intros Ha Hr Hx.
  assert (∀ w op before after next sync res s1 w1,
    commitLocked s w op before after next sync = (res, s1, w1) →
    match res with
    | Ok _ => ∃ change w2, apply change w = (true, w2) ∧ ch_Snapshot change = Snapshot s1 ∧
        ch_MIBDataSync change = dataSync s1 ∧ ch_StateDomain change = stateDomain s
    | Err _ => True
    end) as Hcommit.
  { intros w0 op before after next sync res s1 w1. unfold commitLocked, applyChange. rewrite Ha.
    destruct (apply _ w0) as [[] w2] eqn:Hap; intros [= <- <- <-]; [|done].
    eexists _, w2. split_and!; [exact Hap|reflexivity..]. }
  assert (∀ op before after next sync, commitLocked s w op before after next sync = (Ok u, s', w') →
    ∃ change w1 w2, apply change w1 = (true, w2) ∧ ch_Snapshot change = Snapshot s' ∧
      ch_MIBDataSync change = dataSync s' ∧ ch_StateDomain change = stateDomain s) as Hc.
  { intros ? ? ? ? ? H. destruct (Hcommit _ _ _ _ _ _ _ _ _ H) as (c & w2 & Hc). by exists c, w, w2. }
  destruct r; cbn [execute] in Hx; try discriminate Hr; clear Hr.
  - unfold Create, checked in Hx. destruct (prepareCreate _ _ _ _); [right; by eapply Hc|discriminate Hx].
  - unfold Set_, checked in Hx. destruct (prepareSet _ _ _) as [[[b n] sync]|]; [|discriminate Hx].
    case_bool_decide; [left; by injection Hx|right; by eapply Hc].
  - unfold SetTable, checked in Hx. destruct (prepareSetTable _ _ _ _) as [[b n]|]; [|discriminate Hx].
    case_bool_decide; [left; by injection Hx|right; by eapply Hc].
  - unfold Delete, checked in Hx. destruct (current s !! key); [|discriminate Hx].
    destruct (loadDefinition _ _ _); [|discriminate Hx].
    destruct (_ || _ || _); [discriminate Hx|right; by eapply Hc].
  - right; by eapply Hc.
  - unfold ExpireAllowedPreviewRows, checked in Hx. destruct (prepareExpire _ _ _) as [[[b n]|]|];
      cbn [noValue] in Hx; [|left; by injection Hx|discriminate Hx].
    destruct (commitLocked _ _ _ _ _ _ _) as [[[[]|] s1] w1] eqn:Hcl; cbn [noValue] in Hx; [|discriminate Hx].
    injection Hx as <- <- <-. destruct (Hcommit _ _ _ _ _ _ _ _ _ Hcl) as (c & w2 & Hc').
    right. by exists c, w, w2.
  - unfold UpdateByCommand, updateByCommand in Hx.
    destruct (commandUpdates _ _) as [[p []]|];
      [right; by eapply Hc|left; by injection Hx|cbn in Hx; discriminate Hx].
  - unfold UpdateByCommandTransactional in Hx. destruct transaction as [tx|]; [|discriminate Hx].
    unfold updateByCommand in Hx. destruct (commandUpdates _ _) as [[p []]|].
    + unfold applyChange in Hx. rewrite Ha in Hx. destruct (apply _ w) as [[] w1] eqn:Hap; cbn [negb] in Hx.
      2: { destruct (commandTransactionFailure _ _). discriminate Hx. }
      destruct (Commit _ _) as [[] w2]; cbn [negb] in Hx.
      2: { destruct (Abort_ _ _) as [? w3]. destruct (apply _ w3). discriminate Hx. }
      injection Hx as <- <- <-. right. eexists _, w, w1. split_and!; [exact Hap|reflexivity..].
    + destruct (Commit _ _) as [[] w1]; [left; by injection Hx|].
      destruct (commandTransactionFailure _ _). discriminate Hx.
    + destruct (abortCommandTransaction _ _ _). discriminate Hx.
Qed.



(** ** Coupled transactions *)

Lemma surjective_pairing_triple {A B C} (p : A * B * C) : p = (p.1.1, p.1.2, p.2).
Proof. by destruct p as [[]]. Qed.

(** What the platform sees of a transactional update: each call with its answer. *)
Inductive Event :=
| EApply (change : Change) (accepted : bool)
| ECommit (accepted : bool)
| EAbort (accepted : bool).

(** A platform that records every call and answers by an arbitrary function of what it has
    seen: an adversary. *)
Section traced.
Context (answer : list Event → bool).
Definition traced_apply : Applier (list Event) :=
  λ change t, (answer t, t ++ [EApply change (answer t)]).
Definition traced_transaction : CommandTransaction (list Event) :=
  mkTransaction (λ t, (answer t, t ++ [ECommit (answer t)])) (λ t, (answer t, t ++ [EAbort (answer t)])).
End traced.

(** The snapshot the platform holds after the calls: the last one it accepted. *)
Fixpoint platform_snapshot (held : list Instance_) (t : list Event) : list Instance_ :=
  match t with
  | [] => held
  | EApply change true :: t => platform_snapshot (ch_Snapshot change) t
  | _ :: t => platform_snapshot held t
  end.

Definition committed (t : list Event) : bool := existsb (λ e, match e with ECommit b => b | _ => false end) t.
Definition aborts (t : list Event) : nat := length (List.filter (λ e, match e with EAbort _ => true | _ => false end) t).

(** The call restores the platform after a failed commit. *)
Definition restored (t : list Event) : bool :=
  match last t with Some (EApply _ b) => b | _ => true end.

(** C3: a transactional command is atomic over MIB and platform, whatever the platform answers:
    it succeeds exactly when the transaction committed; on success nothing was aborted, and on
    an error the transaction was aborted exactly once; and a platform that held the MIB's
    snapshot before holds the MIB's snapshot after, unless it refused the call that restores
    it. *)
Theorem transaction_atomic {MR : MapRange} (s : Store (list Event)) answer updates res s' t'
    (Ha : applier s = Some (traced_apply answer))
    (Hx : execute s [] (RTransaction updates (Some (traced_transaction answer))) = (res, s', t')) :
  (res = Ok tt ↔ committed t' = true) ∧
  aborts t' = match res with Ok _ => 0%nat | Err _ => 1%nat end ∧
  (restored t' = true ∨ res = Ok tt → platform_snapshot (Snapshot s) t' = Snapshot s').
Proof.
  cbn [execute] in Hx. unfold UpdateByCommandTransactional, updateByCommand in Hx.
  destruct (commandUpdates s updates) as [[p []]|] eqn:Hc.
  - unfold applyChange in Hx. rewrite Ha in Hx. cbn [traced_apply] in Hx.
    unfold traced_apply, commandTransactionFailure in Hx. cbn [Commit Abort_ traced_transaction app] in Hx.
    destruct (answer []) eqn:H1; cbn [negb app] in Hx.
    2: { destruct (answer [_]); injection Hx as <- <- <-; split_and!; try done; by cbn; intros []. }
    destruct (answer [EApply _ true]) eqn:H2; cbn [negb app] in Hx.
    { injection Hx as <- <- <-. by split_and!. }
    destruct (answer [_; ECommit false]) eqn:H3; cbn [app] in Hx;
      destruct (answer [_; ECommit false; _]) eqn:H4; injection Hx as <- <- <-; split_and!; try done;
      cbn; intros [|]; done.
  - cbn [traced_transaction Commit Abort_ commandTransactionFailure app] in Hx.
    unfold commandTransactionFailure in Hx. cbn [traced_transaction Commit Abort_ app] in Hx.
    destruct (answer []) eqn:H1; [injection Hx as <- <- <-; by split_and!|].
    destruct (answer [ECommit false]); injection Hx as <- <- <-; split_and!; try done; by cbn; intros [].
  - unfold abortCommandTransaction in Hx. cbn [traced_transaction Abort_ app] in Hx.
    destruct (answer []); injection Hx as <- <- <-; split_and!; try done; by cbn; intros [].
Qed.

Definition traced_store (answer : list Event → bool) : Store (list Event) :=
  mkStore (factory sample_store) (current sample_store) (dataSync sample_store)
    (Some (traced_apply answer)) (extendedVLANTableSize sample_store) (stateDomain sample_store)
    (supportedClasses sample_store) (supportedAttributes sample_store)
    (attributeCapabilities sample_store) (validateInstance sample_store).

(** The commit is refused: apply, failed commit, abort, restore. *)
Lemma transaction_atomic_witness :
  let answer t := negb (Nat.eqb (length t) 1) in
  let updates := {[ (OnuGClassID, 0) := {[ "OperationalState" := VU8 1 ]} ]} in
  let o := @execute canonical_range _ (traced_store answer) []
             (RTransaction updates (Some (traced_transaction answer))) in
  length o.2 = 4%nat ∧
  (o.1.1 = Ok tt ↔ committed o.2 = true) ∧
  aborts o.2 = match o.1.1 with Ok _ => 0%nat | Err _ => 1%nat end ∧
  (restored o.2 = true ∨ o.1.1 = Ok tt →
   platform_snapshot (@Snapshot canonical_range _ (traced_store answer)) o.2 =
   @Snapshot canonical_range _ o.1.2).
Proof.
  cbv zeta. split; [vm_compute; reflexivity|].
  eapply (@transaction_atomic canonical_range (traced_store (λ t, negb (Nat.eqb (length t) 1)))
    (λ t, negb (Nat.eqb (length t) 1))); [reflexivity|]. apply surjective_pairing_triple.
Defined.

(** ** Reading *)

(** The mask bits a store lets through for a class. *)
Definition allowed_mask {W} (s : Store W) (classID : Z) : Z :=
  let allowed := AllowedAttributeMask (definition_of classID) in
  match supportedAttributeMask s classID with
  | Some supported => Z.land allowed supported
  | None => allowed
  end.

(** The entry of a definition Get copies. *)
Definition get_selected (selectedMask : Z) (attrs : AttributeValueMap) (c : Z) (n : string) : option Value :=
  match attr_named (definition_of c) n with
  | Some a =>
      if bool_decide (Name a = n) && ((Index a =? 0) || negb (Z.land selectedMask (Mask a) =? 0))
      then attrs !! n else None
  | None => None
  end.

Lemma get_loop {MR : MapRange} c selectedMask attrs n :
  fold_left (λ selected '(index, definition),
      if (index =? 0) || negb (Z.land selectedMask (Mask definition) =? 0) then
        match attrs !! Name definition with
        | Some value => <[Name definition := value]> selected
        | None => selected
        end
      else selected)
    (range (AttributeDefinitions (definition_of c))) (∅ : AttributeValueMap) !! n =
  get_selected selectedMask attrs c n.
Proof.
  pose proof (definition_ok_of c) as Hd.
  set (step := λ (selected : AttributeValueMap) '(index, definition), _).
  assert (∀ l (m : AttributeValueMap),
    (∀ i a, (i, a) ∈ l → AttributeDefinitions (definition_of c) !! i = Some a) →
    fold_left step l m !! n =
    if existsb (λ '(i, a), bool_decide (Name a = n) &&
         ((i =? 0) || negb (Z.land selectedMask (Mask a) =? 0))) l
    then match attrs !! n with Some v => Some v | None => m !! n end else m !! n) as Hl.
  { induction l as [|[i a] l IH]; intros m Hin; [reflexivity|]. cbn [fold_left existsb].
    rewrite IH by (intros; apply Hin; by right). unfold step at 1 2.
    destruct (decide (Name a = n)) as [Hn|Hn].
    - rewrite (bool_decide_eq_true_2 _ Hn). cbn [andb]. rewrite Hn.
      destruct ((i =? 0) || negb (Z.land selectedMask (Mask a) =? 0)); cbn [orb]; [|reflexivity].
      destruct (attrs !! n) eqn:Hv; [rewrite lookup_insert_eq|]; by destruct (existsb _ l).
    - rewrite (bool_decide_eq_false_2 _ Hn). cbn [andb orb].
      destruct ((i =? 0) || _); [|reflexivity]. destruct (attrs !! Name a); [|reflexivity].
      by rewrite lookup_insert_ne. }
  rewrite Hl by (intros i a; apply elem_of_range). rewrite lookup_empty. unfold get_selected.
  destruct (existsb _ _) eqn:He.
  - apply existsb_exists in He as [[i a] [Hin Ha]]. apply list_elem_of_In, elem_of_range in Hin.
    apply andb_true_iff in Ha as [Hn Hsel]. apply bool_decide_eq_true in Hn as <-.
    rewrite (attr_named_exact _ Hd _ _ Hin). rewrite bool_decide_eq_true_2 by reflexivity.
    destruct (attribute_inv _ Hd _ _ Hin) as (-> & _). rewrite Hsel. cbn [andb]. by destruct (attrs !! Name a).
  - destruct (attr_named _ n) as [a|] eqn:Ha; [|reflexivity].
    apply (attr_named_Some _ Hd) in Ha as (i & Hi & _).
    destruct (attribute_inv _ Hd _ _ Hi) as (Hidx & _).
    destruct (bool_decide (Name a = n) && _) eqn:Hsel; [|reflexivity]. exfalso.
    assert (existsb (λ '(i, a), bool_decide (Name a = n) &&
      ((i =? 0) || negb (Z.land selectedMask (Mask a) =? 0))) (range (AttributeDefinitions (definition_of c))) = true)
      as Hx; [|congruence].
    apply existsb_exists. exists (i, a). split; [by apply list_elem_of_In, elem_of_range|]. by rewrite <- Hidx.
Qed.

(** Get of an instance of a well-formed store returns the instance with exactly the
    attributes the mask selects among those the class and the policy allow, and always the
    entity id; it reports AttributeFailure with precisely the refused bits of the mask, and
    still returns the rest.  An absent instance gives UnknownEntity when its class is unknown or
    not supported, and UnknownInstance otherwise. *)
Theorem Get_selects {MR : MapRange} {W} (s : Store W) key mask (Hs : store_inv s) :
  match current s !! key with
  | Some instance =>
      ∃ attrs,
        Get s key mask =
          (Ok (mkInstance key attrs (i_Origin instance)),
           let refused := Z.ldiff mask (allowed_mask s key.1) in
           if refused =? 0 then None else Some (ResultError AttributeFailure 0 refused)) ∧
        attrs !! ManagedEntityID = Some (VU16 key.2) ∧
        ∀ n, attrs !! n = get_selected (Z.land mask (allowed_mask s key.1)) (i_Attributes instance) key.1 n
  | None =>
      Get s key mask =
        (Err (result (if supportsClass s key.1 && bool_decide (known_class key.1)
                      then UnknownInstance else UnknownEntity)), None)
  end.
Proof.
  unfold Get. destruct (current s !! key) as [instance|] eqn:Hk.
  - pose proof (si_current _ Hs _ _ Hk) as Hi.
    destruct (loadDefinition_known key.1 key.2 (i_Attributes instance)) as [entity He]; [apply Hi|apply Hi|].
    rewrite He. apply loadDefinition_Ok in He as (Hd & _). rewrite Hd. cbv zeta.
    fold (allowed_mask s key.1). eexists. split_and!.
    + rewrite (inv_key _ _ _ Hi). f_equal. by destruct (_ =? 0).
    + rewrite get_loop. unfold get_selected. destruct (attr_named_EntityID key.1) as (a & Ha & Hm). rewrite Ha.
      pose proof (proj1 (attr_named_Some _ (definition_ok_of key.1) _ _) Ha) as (i & Hin & Hlow).
      destruct (attribute_inv _ (definition_ok_of key.1) _ _ Hin) as (Hidx & _ & H0 & Hne).
      destruct (decide (i = 0)) as [->|Hi0]; [|destruct (Hne Hi0); congruence].
      destruct (H0 eq_refl) as [Hn _]. rewrite Hidx. cbn [Z.eqb orb]. rewrite bool_decide_eq_true_2 by exact Hn.
      apply Hi.
    + intros n. apply get_loop.
  - unfold storeUnknownKeyError, unknownKeyError. destruct (supportsClass s key.1); [|reflexivity].
    cbn [negb andb]. pose proof (loadDefinition_spec key.1 key.2 ∅) as Hl.
    destruct (loadDefinition key.1 key.2 ∅) as [entity|err].
    + destruct Hl as (_ & _ & Hkc & _). by rewrite bool_decide_eq_true_2.
    + destruct Hl as [-> Hno]. rewrite bool_decide_eq_false_2; [reflexivity|].
      intros Hkc. apply Hno. split; [exact Hkc|apply map_Forall_empty].
Qed.

Lemma Get_selects_witness :
  ∃ attrs,
    @Get canonical_range _ sample_created (272, 1) 0xc000 =
      (Ok (mkInstance (272, 1) attrs OriginOLT),
       let refused := Z.ldiff 0xc000 (allowed_mask sample_created 272) in
       if refused =? 0 then None else Some (ResultError AttributeFailure 0 refused)) ∧
    attrs !! ManagedEntityID = Some (VU16 1) ∧
    ∀ n, attrs !! n = get_selected (Z.land 0xc000 (allowed_mask sample_created 272))
           (default ∅ (i_Attributes <$> (current sample_created !! (272, 1)))) 272 n.
Proof.
  apply (@Get_selects canonical_range _ sample_created (272, 1) 0xc000).
  eapply (@execute_inv canonical_range _ sample_store [] sample_create (Ok tt)); [apply sample_store_inv|].
  vm_compute. reflexivity.
Defined.

(** ** Snapshots *)

#[export] Instance instance_le_total : Total instance_le.
Proof. intros a b. unfold instance_le. apply (key_total (le := pair_le)). Qed.
#[export] Instance instance_le_trans : Transitive instance_le.
Proof. intros a b c. unfold instance_le. apply (key_trans (le := pair_le)). Qed.

Lemma Snapshot_Permutation {MR : MapRange} {W} (s : Store W) :
  Snapshot s ≡ₚ (map_to_list (current s)).*2.
Proof. unfold Snapshot, snapshotInstances. rewrite merge_sort_Permutation. by rewrite range_perm. Qed.

Section snapshot.
Context {MR : MapRange} {W : Type} (s : Store W) (Hs : store_inv s).

Lemma Snapshot_keys : map i_Key (Snapshot s) ≡ₚ (map_to_list (current s)).*1.
  Proof.
    rewrite Snapshot_Permutation, <- list_fmap_compose. apply Permutation_refl', list_fmap_ext.
    intros j [k i] Hj%list_elem_of_lookup_2%elem_of_map_to_list. cbn. by apply (si_current _ Hs).
  Qed.

Lemma Snapshot_NoDup : NoDup (map i_Key (Snapshot s)).
  Proof. rewrite Snapshot_keys. apply NoDup_fst_map_to_list. Qed.

Lemma elem_of_Snapshot i : i ∈ Snapshot s ↔ current s !! i_Key i = Some i.
  Proof.
    rewrite Snapshot_Permutation, list_elem_of_fmap. split.
    - intros ([k i'] & -> & Hin%elem_of_map_to_list). cbn. by rewrite (inv_key _ _ _ (si_current _ Hs _ _ Hin)).
    - intros Hi. exists (i_Key i, i). by rewrite elem_of_map_to_list.
  Qed.

Lemma Snapshot_sorted : StronglySorted instance_le (Snapshot s).
  Proof. unfold Snapshot, snapshotInstances. apply StronglySorted_merge_sort; apply _. Qed.

(** Instances of one MIB with the same key are the same. *)
Lemma Snapshot_antisymm i j :
    current s !! i_Key i = Some i → current s !! i_Key j = Some j → instance_le i j → instance_le j i → i = j.
  Proof.
    intros Hi Hj Hij Hji. assert (i_Key i = i_Key j) by by apply (key_antisymm (le := pair_le)). congruence.
  Qed.
End snapshot.

(** A snapshot lists every instance of the MIB exactly once, in strictly increasing order
    of class and entity id, and does not depend on the iteration order. *)
Theorem Snapshot_complete (MR MR' : MapRange) {W} (s : Store W) (Hs : @store_inv MR W s) :
  @Snapshot MR W s = @Snapshot MR' W s ∧
  StronglySorted pair_le (map i_Key (@Snapshot MR W s)) ∧
  NoDup (map i_Key (@Snapshot MR W s)) ∧
  ∀ i, i ∈ @Snapshot MR W s ↔ current s !! i_Key i = Some i.
Proof.
  pose proof (@elem_of_Snapshot MR W s Hs) as Hin.
  assert (@Snapshot MR W s ≡ₚ @Snapshot MR' W s) as Hp by by rewrite (@Snapshot_Permutation MR), (@Snapshot_Permutation MR').
  split_and!; [| |by apply Snapshot_NoDup|exact Hin].
  - apply (sorted_by_key_unique instance_le); [exact Hp| |apply Snapshot_sorted..].
    intros x y Hx%Hin Hy%Hin. by apply (@Snapshot_antisymm W s).
  - apply (StronglySorted_fmap i_Key instance_le pair_le); [by intros|apply Snapshot_sorted].
Qed.

Lemma Snapshot_complete_witness :
  @Snapshot canonical_range _ sample_store = @Snapshot canonical_range _ sample_store ∧
  StronglySorted pair_le (map i_Key (@Snapshot canonical_range _ sample_store)) ∧
  NoDup (map i_Key (@Snapshot canonical_range _ sample_store)) ∧
  ∀ i, i ∈ @Snapshot canonical_range _ sample_store ↔ current sample_store !! i_Key i = Some i.
Proof. apply (Snapshot_complete canonical_range canonical_range sample_store). apply sample_store_inv. Defined.
