(* ===== verification/StoreOps.v ===== *)
(** * MIB: what each operation does

    The functional behaviour of Create, Set, Delete, Reset and UpdateAutonomous, attribute by
    attribute and instance by instance, on the stores of StoreInvariant.v. *)

From S2P Require Import Prelude Maps MeTypes MeClasses MeLib Mib Table Semantics Store.
From S2P Require Import StoreLemmas StoreInvariant StoreProps.

Lemma setDataSync_other next v k : k ≠ onuDataKey → setDataSync next v !! k = next !! k.
Proof.
  intros Hk. unfold setDataSync. destruct (next !! onuDataKey); [|reflexivity]. by rewrite lookup_insert_ne.
Qed.

(** An instance after [setDataSync]: only ONU data's counter changes. *)
Lemma setDataSync_lookup next v k i :
  next !! k = Some i →
  ∃ i', setDataSync next v !! k = Some i' ∧ i_Origin i' = i_Origin i ∧
    ∀ n, (k, n) ≠ (onuDataKey, OnuData_MibDataSync) → i_Attributes i' !! n = i_Attributes i !! n.
Proof.
  intros Hk. destruct (decide (k = onuDataKey)) as [->|Hne].
  - unfold setDataSync. rewrite Hk, lookup_insert_eq. eexists. split_and!; [reflexivity|reflexivity|].
    intros n Hn. cbn. rewrite lookup_insert_ne; [reflexivity|]. intros <-. by apply Hn.
  - exists i. rewrite setDataSync_other by exact Hne. by split_and!.
Qed.

(** ** Reset *)

Lemma preserve_lookup before l after n :
  let f := λ after name, match i_Attributes before !! name with
                         | Some value => withAttribute after name value
                         | None => after
                         end in
  i_Attributes (fold_left f l after) !! n =
  if bool_decide (n ∈ l) then
    match i_Attributes before !! n with Some v => Some v | None => i_Attributes after !! n end
  else i_Attributes after !! n.
Proof.
  cbv zeta. revert after. induction l as [|m l IH]; intros after; [reflexivity|].
  cbn [fold_left]. rewrite IH. destruct (decide (n = m)) as [->|Hne].
  - rewrite (bool_decide_eq_true_2 (m ∈ m :: l)) by by left.
    destruct (i_Attributes before !! m) eqn:Hm; [|by case_bool_decide].
    cbn. rewrite lookup_insert_eq. by case_bool_decide.
  - assert (bool_decide (n ∈ m :: l) = bool_decide (n ∈ l)) as ->.
    { apply bool_decide_ext. rewrite elem_of_cons. tauto. }
    destruct (i_Attributes before !! m); [|reflexivity]. cbn. by rewrite lookup_insert_ne.
Qed.

(** An accepted MIB reset brings back the factory MIB: every instance the OLT created is
    gone, every factory instance has its factory attributes again, the data sync counter is 0 in
    the store and in ONU data, and only the ONU3-G snapshot history and restart reason survive. *)
Theorem Reset_restores {MR : MapRange} {W} (s : Store W) w s' w'
    (Hs : store_inv s) (Hx : Reset_ s w = (Ok tt, s', w')) :
  dataSync s' = 0 ∧ dom (current s') = dom (factory s) ∧
  (∀ k, k ≠ onuDataKey → k ≠ onu3Key → current s' !! k = factory s !! k) ∧
  (∀ i i', factory s !! onuDataKey = Some i → current s' !! onuDataKey = Some i' →
     i_Attributes i' = <[OnuData_MibDataSync := VU8 0]> (i_Attributes i)) ∧
  (∀ i i' before n, factory s !! onu3Key = Some i → current s !! onu3Key = Some before →
     current s' !! onu3Key = Some i' →
     i_Attributes i' !! n =
       if bool_decide (n ∈ onu3Preserved) then
         match i_Attributes before !! n with Some v => Some v | None => i_Attributes i !! n end
       else i_Attributes i !! n).
Proof.
  unfold Reset_ in Hx. apply commitLocked_cases in Hx as [(e & Hx & _)|[_ ->]]; [discriminate Hx|].
  assert (∀ k, k ≠ onu3Key → preserveONU3State (current s) (factory s) !! k = factory s !! k) as Hpres.
  { intros k Hk. unfold preserveONU3State. destruct (current s !! onu3Key); [|reflexivity].
    destruct (factory s !! onu3Key); [|reflexivity]. by rewrite lookup_insert_ne. }
  assert (dom (preserveONU3State (current s) (factory s)) = dom (factory s)) as Hdom.
  { unfold preserveONU3State. destruct (current s !! onu3Key); [|reflexivity].
    destruct (factory s !! onu3Key) eqn:Hf; [|reflexivity]. rewrite dom_insert_lookup_L; [reflexivity|by eexists]. }
  cbn [current dataSync withState]. split_and!; [reflexivity| | | |].
  - rewrite <- Hdom. unfold setDataSync. destruct (preserveONU3State _ _ !! onuDataKey) eqn:Hd; [|reflexivity].
    rewrite dom_insert_lookup_L; [reflexivity|by eexists].
  - intros k Hd H3. rewrite setDataSync_other by exact Hd. by apply Hpres.
  - intros i i' Hi Hi'. unfold setDataSync in Hi'. rewrite (Hpres onuDataKey) in Hi' by done.
    rewrite Hi, lookup_insert_eq in Hi'. by injection Hi' as <-.
  - intros i i' before n Hi Hb Hi'. rewrite setDataSync_other in Hi' by done.
    unfold preserveONU3State in Hi'. rewrite Hb, Hi, lookup_insert_eq in Hi'. injection Hi' as <-.
    exact (preserve_lookup before onu3Preserved i n).
Qed.

Lemma Reset_restores_witness :
  let s' := (@Reset_ canonical_range _ sample_created []).1.2 in
  dataSync s' = 0 ∧ dom (current s') = dom (factory sample_created) ∧
  (∀ k, k ≠ onuDataKey → k ≠ onu3Key → current s' !! k = factory sample_created !! k) ∧
  (∀ i i', factory sample_created !! onuDataKey = Some i → current s' !! onuDataKey = Some i' →
     i_Attributes i' = <[OnuData_MibDataSync := VU8 0]> (i_Attributes i)) ∧
  (∀ i i' before n, factory sample_created !! onu3Key = Some i → current sample_created !! onu3Key = Some before →
     current s' !! onu3Key = Some i' →
     i_Attributes i' !! n =
       if bool_decide (n ∈ onu3Preserved) then
         match i_Attributes before !! n with Some v => Some v | None => i_Attributes i !! n end
       else i_Attributes i !! n).
Proof.
  apply (@Reset_restores canonical_range _ sample_created [] _ (@Reset_ canonical_range _ sample_created []).2).
  - eapply (@execute_inv canonical_range _ sample_store [] sample_create (Ok tt)); [apply sample_store_inv|].
    vm_compute. reflexivity.
  - vm_compute. reflexivity.
Defined.

(** ** Set *)



(** ** Create *)

(** The attributes [initializeCreatedInstance] writes, class by class. *)
Definition initialized_names (classID : Z) : list string :=
  if classID =? ExtendedVlanTaggingOperationConfigurationDataClassID then
    [ExtVlan_MaxSize; ExtVlan_Table; ExtVlan_EnhancedTable]
  else if classID =? MulticastGemInterworkingTerminationPointClassID then
    [McastGem_Ipv4Table; McastGem_Ipv6Table]
  else if classID =? MulticastOperationsProfileClassID then
    [McastOps_DynamicTable; McastOps_StaticTable; McastOps_LostGroups]
  else if classID =? MulticastSubscriberConfigInfoClassID then
    [McastSub_ServicePackageTable; McastSub_PreviewTable]
  else if classID =? MulticastSubscriberMonitorClassID then [McastMon_Ipv4Groups; McastMon_Ipv6Groups]
  else [].

Lemma initialize_lookup i size n :
  n ∉ initialized_names (ClassID_of i) →
  i_Attributes (initializeCreatedInstance i size) !! n = i_Attributes i !! n.
Proof.
  unfold initializeCreatedInstance, initialized_names. cbv zeta. intros Hn.
  repeat match goal with |- context [if ?c =? ?d then _ else _] => destruct (c =? d) end;
    cbn [fold_left i_Attributes fst snd] in *; try reflexivity;
    rewrite !not_elem_of_cons in Hn; destruct_and! Hn; by rewrite !lookup_insert_ne.
Qed.

(** The initialized attributes are not set by create. *)
Definition not_set_by_create (c : Z) : bool :=
  forallb (λ '(_, a), negb (bool_decide (Name a ∈ initialized_names c) && SupportsAttributeAccess a SetByCreate))
    (map_to_list (AttributeDefinitions (definition_of c))).

Lemma initialized_not_set_by_create c i a :
  AttributeDefinitions (definition_of c) !! i = Some a → Name a ∈ initialized_names c →
  SetByCreate ∉ Access a.
Proof.
  intros Ha Hn Hacc.
  assert (not_set_by_create c = true) as Hc.
  { assert (not_set_by_create ExtendedVlanTaggingOperationConfigurationDataClassID &&
            not_set_by_create MulticastGemInterworkingTerminationPointClassID &&
            not_set_by_create MulticastOperationsProfileClassID &&
            not_set_by_create MulticastSubscriberConfigInfoClassID &&
            not_set_by_create MulticastSubscriberMonitorClassID = true) as Hall by (vm_compute; reflexivity).
    rewrite !andb_true_iff in Hall. destruct Hall as [[[[? ?] ?] ?] ?].
    unfold initialized_names in Hn.
    repeat match type of Hn with context [if ?c =? ?d then _ else _] => destruct (Z.eqb_spec c d) end;
      subst; try assumption. by apply not_elem_of_nil in Hn. }
  unfold not_set_by_create in Hc. rewrite forallb_forall in Hc.
  specialize (Hc (i, a) (proj1 (list_elem_of_In _ _) (proj2 (elem_of_map_to_list _ _ _) Ha))).
  cbv beta iota in Hc. unfold SupportsAttributeAccess in Hc. by rewrite !bool_decide_eq_true_2 in Hc.
Qed.

Lemma mergeDefault_lookup l (m : AttributeValueMap) n :
  (∀ j b, (j, b) ∈ l → Name b = n → SetByCreate ∈ Access b) →
  fold_left mergeDefault l m !! n = m !! n.
Proof.
  revert m. induction l as [|[j b] l IH]; intros m Hl; [reflexivity|]. cbn [fold_left].
  rewrite IH by (intros; eapply Hl; [by right|done]).
  unfold mergeDefault. destruct (decide (Name b = n)) as [Hn|Hn].
  - unfold SupportsAttributeAccess. rewrite bool_decide_eq_true_2 by (eapply Hl; [by left|exact Hn]). reflexivity.
  - destruct (_ && _ && _); [|reflexivity]. destruct (m !! Name b); [case_bool_decide; [|reflexivity]|];
      by rewrite lookup_insert_ne.
Qed.

Section create.
Context {MR : MapRange} {W : Type}.
Implicit Types s : Store W.

Lemma prune_lookup s c attrs n :
  (∀ supported, supportedAttributeMask s c = Some supported → supported_name supported c n) →
  pruneUnsupportedAttributes s c attrs !! n = attrs !! n ∨
  ∃ a, attr_named (definition_of c) n = Some a ∧ Mask a = 0 ∧ n ≠ ManagedEntityID.
Proof.
  intros Hn. unfold pruneUnsupportedAttributes. destruct (supportedAttributeMask s c) as [supported|]; [|by left].
  specialize (Hn _ eq_refl). rewrite GetAttributesDefinitions_of.
  destruct (keepAttribute supported (AttributeDefinitions (definition_of c)) n) eqn:Hk.
  - left. destruct (attrs !! n) as [v|] eqn:Hv.
    + by apply map_lookup_filter_Some.
    + apply map_lookup_filter_None. by left.
  - right. unfold keepAttribute in Hk. apply orb_false_iff in Hk as [Hid Hk].
    apply bool_decide_eq_false in Hid.
    rewrite GetAttributeDefinitionByName_named in Hk by apply definition_ok_of.
    unfold supported_name in Hn. destruct (attr_named (definition_of c) n) as [a|]; [|destruct Hn].
    exists a. split_and!; [reflexivity| |exact Hid]. destruct Hn as [?|Hn]; [assumption|].
    apply negb_false_iff, Z.eqb_eq in Hk. by destruct Hn.
Qed.

(** Defaults, pruning and table initialization never override an attribute of the request. *)
Lemma prepareCreate_keeps s c e attributes i n v :
  prepareCreate s c e attributes = Ok i → attributes !! n = Some v → n ≠ ManagedEntityID →
  i_Attributes i !! n = Some v.
Proof.
  intros Hp Hn Hid. unfold prepareCreate in Hp. inv_ok Hp. destruct x0, x1.
  apply loadDefinition_Ok in Hr as (Hd & _).
  apply (validateSupportedAttributes_Ok s x c) in Hr0; [|exact Hd].
  apply (validateAccess_Ok x c) in Hr1; [|exact Hd].
  destruct (Hr1 _ _ Hn) as [?|(j & a & Hj & Ha & Hna & Hacc)]; [done|].
  destruct (attribute_inv _ (definition_ok_of c) _ _ Ha) as (_ & Hj16 & _ & Hmk).
  destruct (Hmk Hj) as [_ Hmask]. assert (0 < 2 ^ (16 - j)) as Hpos by (apply Z.pow_pos_nonneg; lia).
  assert (attr_named (definition_of c) n = Some a) as Hnamed
    by (rewrite <- Hna; by eapply attr_named_exact; [apply definition_ok_of|]).
  assert (∀ attrs, pruneUnsupportedAttributes s c attrs !! n = attrs !! n) as Hprune.
  { intros attrs. destruct (prune_lookup s c attrs n) as [?|(b & Hb & Hz & _)]; [|assumption|].
    - intros supported Hsup. unfold advertised in Hr0. rewrite Hsup in Hr0. by eapply Hr0.
    - assert (a = b) as <- by congruence. lia. }
  unfold MergeInDefaultValues in Hp. rewrite GetAttributesDefinitions_of in Hp. cbn [mbind Res_bind] in Hp.
  apply normalizeIn_shape in Hp as (-> & _). cbn [normalized withAttribute i_Attributes].
  rewrite lookup_insert_ne by (by intros <-). rewrite Hprune, initialize_lookup.
  - cbn [i_Attributes]. rewrite Hprune, mergeDefault_lookup; [exact Hn|].
    intros k b Hin Hnb. apply elem_of_range in Hin.
    destruct (name_unique _ (definition_ok_of c) _ _ _ _ Ha Hin) as [_ <-]; [congruence|exact Hacc].
  - cbn [ClassID_of i_Key fst]. intros Hin. rewrite <- Hna in Hin. by eapply initialized_not_set_by_create.
Qed.

(** C10: an accepted Create adds exactly the requested instance: it was absent, its class is one
    the OLT may create, it is now present with OLT origin and holds every attribute of the
    request with the requested value (defaults, pruning and table initialization never
    override the OLT), and no other instance changes except ONU data's counter. *)
Theorem Create_effect s w c e attributes s' w' (Hx : Create s w c e attributes = (Ok tt, s', w')) :
  current s !! (c, e) = None ∧ known_class c ∧
  (DefAccess (definition_of c) = CreatedByOlt ∨ DefAccess (definition_of c) = CreatedByBoth) ∧
  (∃ new, current s' !! (c, e) = Some new ∧ i_Origin new = OriginOLT ∧
     ∀ n v, attributes !! n = Some v → n ≠ ManagedEntityID →
       (c, e, n) ≠ (onuDataKey, OnuData_MibDataSync) → i_Attributes new !! n = Some v) ∧
  (∀ k, k ≠ (c, e) → k ≠ onuDataKey → current s' !! k = current s !! k).
Proof.
  unfold Create, checked in Hx. destruct (prepareCreate s c e attributes) as [i|] eqn:Hp; [|discriminate Hx].
  apply commitLocked_cases in Hx as [(err & Hx & _)|[_ ->]]; [discriminate Hx|].
  destruct (prepareCreate_inv _ _ _ _ _ Hp) as (Habs & Hi & Ho).
  pose proof (λ n v, prepareCreate_keeps s c e attributes i n v Hp) as Hkeep.
  unfold prepareCreate in Hp. inv_ok Hp. apply loadDefinition_Ok in Hr as (Hd & _ & Hkc & _).
  split_and!; [exact Habs|exact Hkc| | |].
  - unfold createdByOlt in Hg1. rewrite Hd in Hg1.
    apply orb_false_iff in Hg1 as [_ [Ha|Ha]%negb_false_iff%orb_prop];
      apply bool_decide_eq_true in Ha; auto.
  - destruct (setDataSync_lookup (<[(c, e) := i]> (current s)) (nextDataSync s) (c, e) i) as (new & Hnew & Horigin & Hsame);
      [by rewrite lookup_insert_eq|].
    exists new. split_and!; [exact Hnew|congruence|]. intros n v Hn Hid Hsync. rewrite Hsame by exact Hsync.
    by apply Hkeep.
  - intros k Hk1 Hk2. cbn. rewrite setDataSync_other by exact Hk2. by rewrite lookup_insert_ne.
Qed.

(** Delete undoes Create: after a Create and a Delete of the same instance, both accepted,
    every instance other than ONU data is what it was before, ONU data differs only in its
    counter, and the counter has moved on by two committed changes. *)
Theorem Create_Delete s w c e attributes s1 w1 w1' s2 w2 (Hs : store_inv s)
    (Hne : (c, e) ≠ onuDataKey)
    (Hc : Create s w c e attributes = (Ok tt, s1, w1)) (Hd : Delete s1 w1' (c, e) = (Ok tt, s2, w2)) :
  (∀ k, k ≠ onuDataKey → current s2 !! k = current s !! k) ∧
  (∀ i i', current s !! onuDataKey = Some i → current s2 !! onuDataKey = Some i' →
     i_Attributes i' = <[OnuData_MibDataSync := VU8 (dataSync s2)]> (i_Attributes i)) ∧
  dataSync s2 = incrementDataSync (incrementDataSync (dataSync s)).
Proof.
  unfold Create, checked in Hc. destruct (prepareCreate s c e attributes) as [i|] eqn:Hp; [|discriminate Hc].
  apply prepareCreate_inv in Hp as (Habs & _).
  apply commitLocked_cases in Hc as [(err & Hc & _)|[_ ->]]; [discriminate Hc|].
  unfold Delete, checked in Hd. destruct (current (withState _ _ _) !! (c, e)) eqn:Hk; [|discriminate Hd].
  destruct (loadDefinition _ _ _); [|discriminate Hd]. cbv beta iota in Hd.
  destruct (_ || _ || _); [discriminate Hd|].
  apply commitLocked_cases in Hd as [(err & Hd & _)|[_ ->]]; [discriminate Hd|].
  cbn [current dataSync withState nextDataSync]. split_and!; [| |reflexivity].
  - intros k Hk'. rewrite setDataSync_other by exact Hk'.
    destruct (decide (k = (c, e))) as [->|Hkne]; [by rewrite lookup_delete_eq|].
    rewrite lookup_delete_ne by done. rewrite setDataSync_other by exact Hk'. by rewrite lookup_insert_ne.
  - intros j j' Hj Hj'.
    assert (∀ m v x, m !! onuDataKey = Some x →
      setDataSync m v !! onuDataKey = Some (withAttribute x OnuData_MibDataSync (VU8 v))) as Hset.
    { intros m v x Hx. unfold setDataSync. by rewrite Hx, lookup_insert_eq. }
    rewrite (Hset _ _ (withAttribute j OnuData_MibDataSync (VU8 (nextDataSync s)))) in Hj'.
    + injection Hj' as <-. cbn. by rewrite insert_insert_eq.
    + rewrite lookup_delete_ne by done. apply Hset. by rewrite lookup_insert_ne.
Qed.
End create.

Lemma Create_effect_witness :
  let attributes : AttributeValueMap := {[ "MaximumGemPayloadSize" := VU16 48 ]} in
  current sample_store !! (272, 1) = None ∧ known_class 272 ∧
  (DefAccess (definition_of 272) = CreatedByOlt ∨ DefAccess (definition_of 272) = CreatedByBoth) ∧
  (∃ new, current sample_created !! (272, 1) = Some new ∧ i_Origin new = OriginOLT ∧
     ∀ n v, attributes !! n = Some v → n ≠ ManagedEntityID →
       (272, 1, n) ≠ (onuDataKey, OnuData_MibDataSync) → i_Attributes new !! n = Some v) ∧
  (∀ k, k ≠ (272, 1) → k ≠ onuDataKey → current sample_created !! k = current sample_store !! k).
Proof.
  intros attributes.
  apply (@Create_effect canonical_range _ sample_store [] 272 1 attributes sample_created
           (sample_run sample_store sample_create).2).
  vm_compute. reflexivity.
Defined.

Lemma Create_Delete_witness :
  let s2 := (@Delete canonical_range _ sample_created [] (272, 1)).1.2 in
  (∀ k, k ≠ onuDataKey → current s2 !! k = current sample_store !! k) ∧
  (∀ i i', current sample_store !! onuDataKey = Some i → current s2 !! onuDataKey = Some i' →
     i_Attributes i' = <[OnuData_MibDataSync := VU8 (dataSync s2)]> (i_Attributes i)) ∧
  dataSync s2 = incrementDataSync (incrementDataSync (dataSync sample_store)).
Proof.
  apply (@Create_Delete canonical_range _ sample_store [] 272 1 {[ "MaximumGemPayloadSize" := VU16 48 ]}
           sample_created (sample_run sample_store sample_create).2 [] _
           (@Delete canonical_range _ sample_created [] (272, 1)).2).
  - apply sample_store_inv.
  - done.
  - vm_compute. reflexivity.
  - vm_compute. reflexivity.
Defined.

(** ** Attribute updates by the ONU and by commands *)

Section updates.
Context {MR : MapRange} {W : Type}.
Implicit Types s : Store W.

(** An accepted update writes the attributes it names, which it may name, and no other. *)
Lemma prepareUpdate_spec s key cur attributes n :
  prepareUpdate s key (Some cur) attributes = Ok n →
  (∀ m v, attributes !! m = Some v →
     i_Attributes n !! m = Some v ∧ (key, m) ≠ (onuDataKey, OnuData_MibDataSync)) ∧
  (∀ m, attributes !! m = None → m ≠ ManagedEntityID → i_Attributes n !! m = i_Attributes cur !! m).
Proof.
  intros Hp. unfold prepareUpdate in Hp. inv_ok Hp. apply loadDefinition_Ok in Hr as (Hd & _).
  rewrite Hd in Hp. destruct (updateMasks _ _ _) as [f u] eqn:Hmask. inv_ok Hp.
  assert (f = 0 ∧ u = 0) as [-> ->] by lia. apply updateMasks_zero in Hmask.
  apply normalizeIn_shape in Hp as (-> & _). cbn [normalized withAttribute withAttributes i_Attributes].
  split; intros m.
  - intros v Hm. destruct (Hmask _ _ Hm) as (Hid & Hsync & _). split; [|intros [= -> ->]; by apply Hsync].
    rewrite lookup_insert_ne by done. rewrite overwrite_lookup. cbn [andb]. by rewrite Hm.
  - intros Hm Hid. rewrite lookup_insert_ne by done. rewrite overwrite_lookup. cbn [andb]. by rewrite Hm.
Qed.

(** The changed attributes, for a new value map that holds the request. *)
Lemma changedAttributes_lookup (attributes before after : AttributeValueMap) m v :
  (∀ n v, attributes !! n = Some v → after !! n = Some v) →
  changedAttributes attributes before after !! m = Some v ↔
  attributes !! m = Some v ∧ default VNil (before !! m) ≠ v.
Proof.
  intros Hnew. unfold changedAttributes.
  assert (∀ l (acc : AttributeValueMap), NoDup l.*1 → (∀ k v, (k, v) ∈ l → attributes !! k = Some v) →
    fold_left (λ changed '(name, _),
        if bool_decide (default VNil (before !! name) = default VNil (after !! name)) then changed
        else <[name := default VNil (after !! name)]> changed) l acc !! m =
    match (list_to_map l : AttributeValueMap) !! m with
    | Some v => if bool_decide (default VNil (before !! m) = v) then acc !! m else Some v
    | None => acc !! m
    end) as ->.
  { induction l as [|[k x] l IH]; intros acc; [reflexivity|]. rewrite fmap_cons.
    intros [Hkl Hnd]%NoDup_cons Hin. cbn [fold_left]. rewrite IH; [|exact Hnd|intros; apply Hin; by right].
    rewrite (Hnew k x) by (apply Hin; by left). cbn [default from_option].
    change (list_to_map ((k, x) :: l)) with (<[k := x]> (list_to_map l : AttributeValueMap)).
    destruct (decide (m = k)) as [->|Hne].
    - rewrite (not_elem_of_list_to_map_1 l k) by exact Hkl. rewrite lookup_insert_eq. cbn.
      destruct (bool_decide (_ = x)); [reflexivity|]. by rewrite lookup_insert_eq.
    - rewrite (lookup_insert_ne (list_to_map l) k m) by done. cbn.
      destruct (bool_decide (_ = x)); [reflexivity|]. by rewrite (lookup_insert_ne acc k m). }
  2: { apply NoDup_range_fst. }
  2: { intros. by apply elem_of_range. }
  rewrite range_to_map, lookup_empty. destruct (attributes !! m) as [v'|]; [|by split; [|intros []]].
  destruct (decide (default VNil (before !! m) = v')) as [Hc|Hc];
    [rewrite (bool_decide_eq_true_2 _ Hc)|rewrite (bool_decide_eq_false_2 _ Hc)]; split.
  - done.
  - intros [[= ->] Hn]. by destruct Hn.
  - intros [= ->]. by split.
  - intros [[= ->] _]. reflexivity.
Qed.

(** One update of a command, as in the loop of [updateByCommand]. *)
Definition commandStep s : gmap Key Instance_ * bool → Key * AttributeValueMap →
    Res MibError (gmap Key Instance_ * bool) :=
  λ '(proposed, changed) '(key, attributes),
    normalized ← prepareUpdate s key (current s !! key) attributes;
    if bool_decide (i_Attributes <$> (current s !! key) = Some (i_Attributes normalized))
    then Ok (proposed, changed)
    else Ok (<[key := normalized]> proposed, true).

(** The updated instance of a named key. *)
Definition updated s (proposed : gmap Key Instance_) key attrs : Prop :=
  ∃ cur n i, current s !! key = Some cur ∧ prepareUpdate s key (Some cur) attrs = Ok n ∧
    proposed !! key = Some i ∧ i_Attributes i = i_Attributes n.

Lemma commandStep_Ok s m b key attrs m' b' :
  m !! key = current s !! key → commandStep s (m, b) (key, attrs) = Ok (m', b') →
  updated s m' key attrs ∧ (∀ k, k ≠ key → m' !! k = m !! k) ∧ (b' = false → m' = m ∧ b = false).
Proof.
  intros Hm. cbn [commandStep]. destruct (current s !! key) as [cur|] eqn:Hcur; [|discriminate].
  destruct (prepareUpdate s key (Some cur) attrs) as [n|] eqn:Hp; [|discriminate]. cbn [mbind Res_bind].
  case_bool_decide as Heq; intros [= <- <-].
  - split_and!; [|done|done]. exists cur, n, cur. split_and!; [done|done|done|]. by injection Heq.
  - split_and!; [|intros; by rewrite lookup_insert_ne|done].
    exists cur, n, n. split_and!; [done|done|by rewrite lookup_insert_eq|done].
Qed.

Lemma commandLoop_spec s l m b m' b' :
  NoDup l.*1 → (∀ k, k ∈ l.*1 → m !! k = current s !! k) → foldM_res (commandStep s) l (m, b) = Ok (m', b') →
  (∀ key attrs, (key, attrs) ∈ l → updated s m' key attrs) ∧
  (∀ key, key ∉ l.*1 → m' !! key = m !! key) ∧ (b' = false → m' = m ∧ b = false).
Proof.
  revert m b. induction l as [|[key attrs] l IH]; intros m b Hnd Hm; cbn [foldM_res].
  { intros [= -> ->]. by split_and!; [intros ??[]%elem_of_nil|..]. }
  rewrite fmap_cons in Hnd, Hm |- *. cbn [fst] in *. apply NoDup_cons in Hnd as [Hkey Hnd].
  destruct (commandStep s (m, b) (key, attrs)) as [[m1 b1]|] eqn:Hstep; [|discriminate]. cbn [mbind Res_bind].
  apply commandStep_Ok in Hstep as (Hup & Hother & Hb1); [|apply Hm; by left]. intros Hrest.
  destruct (IH m1 b1 Hnd) as (Hin & Hout & Hb'); [|exact Hrest|].
  { intros k Hk. rewrite Hother by (by intros ->). apply Hm. by right. }
  split_and!.
  - intros k a [[= -> ->]|Hk]%elem_of_cons; [|by apply Hin].
    destruct Hup as (cur & n & i & ? & ? & Hi & ?). exists cur, n, i. by rewrite (Hout key Hkey).
  - intros k [Hk Hkl]%not_elem_of_cons. by rewrite Hout, Hother.
  - intros Hb. apply Hb' in Hb as [-> Hb]. by apply Hb1.
Qed.

(** The proposal of a command: every named instance updated, every other one as it was. *)
Lemma commandUpdates_spec s updates proposed changed :
  commandUpdates s updates = Ok (proposed, changed) →
  (∀ key attrs, updates !! key = Some attrs → updated s proposed key attrs) ∧
  (∀ key, updates !! key = None → proposed !! key = current s !! key) ∧
  (changed = false → proposed = current s).
Proof.
  intros Hf. change (foldM_res (commandStep s) (range updates) (current s, false) = Ok (proposed, changed)) in Hf.
  apply commandLoop_spec in Hf as (Hin & Hout & Hch); [|apply NoDup_range_fst|done]. split_and!.
  - intros key attrs Hk. by apply Hin, elem_of_range.
  - intros key Hk. apply Hout. intros ([? v] & -> & Hv)%list_elem_of_fmap. apply elem_of_range in Hv. cbn in Hk. congruence.
  - intros Hc. by apply Hch.
Qed.

(** A command that succeeds leaves its proposal, with the counter advanced once. *)
Lemma updateByCommand_Ok s w updates transaction s' w' :
  updateByCommand s w updates transaction = (Ok tt, s', w') →
  ∃ proposed changed, commandUpdates s updates = Ok (proposed, changed) ∧
    if changed : bool then ∃ m, s' = withState s (setDataSync m (nextDataSync s)) (nextDataSync s) ∧
        (m = proposed ∨ m = setDataSync proposed (nextDataSync s))
    else s' = s.
Proof.
  unfold updateByCommand. destruct (commandUpdates s updates) as [[proposed []]|] eqn:Hc; intros Hx.
  - exists proposed, true. split; [done|]. destruct transaction as [t|].
    + destruct (applyChange _ _ _) as [[] w1]; cbn [negb] in Hx.
      2: { destruct (commandTransactionFailure _ _). discriminate Hx. }
      destruct (Commit _ _) as [[] w2]; cbn [negb] in Hx.
      * injection Hx as <- _. eauto.
      * destruct (Abort_ _ _) as [? ?]. destruct (applyChange _ _ _). discriminate Hx.
    + apply commitLocked_cases in Hx as [(err & Hx & _)|[_ ->]]; [discriminate Hx|]. eauto.
  - exists proposed, false. split; [done|]. destruct transaction as [t|]; [|by injection Hx].
    destruct (Commit _ _) as [[] w1]; [by injection Hx|]. destruct (commandTransactionFailure _ _). discriminate Hx.
  - destruct (abortCommandTransaction _ _ _). discriminate Hx.
Qed.

(** An autonomous update records exactly what it reports: on success the data sync counter
    and every other instance are untouched, the platform is not called, the returned map holds
    precisely the named attributes whose value differs from the committed one, with their new
    values, and those are the values the store now shows. *)
Theorem UpdateAutonomous_reports s key attributes changed s'
    (Hx : UpdateAutonomous s key attributes = (Ok changed, s')) :
  ∃ old new, current s !! key = Some old ∧ current s' !! key = Some new ∧
    dataSync s' = dataSync s ∧ (∀ k, k ≠ key → current s' !! k = current s !! k) ∧
    (∀ n v, changed !! n = Some v ↔ attributes !! n = Some v ∧ default VNil (i_Attributes old !! n) ≠ v) ∧
    (∀ n v, attributes !! n = Some v → default VNil (i_Attributes new !! n) = v).
Proof.
  unfold UpdateAutonomous in Hx. destruct (prepareUpdate s key (current s !! key) attributes) as [n|] eqn:Hp;
    [|discriminate Hx].
  destruct (current s !! key) as [old|] eqn:Hk; [|discriminate Hp].
  destruct (prepareUpdate_spec _ _ _ _ _ Hp) as [Hnew _].
  assert (∀ m v, attributes !! m = Some v → i_Attributes n !! m = Some v) as Hset by (intros; by apply Hnew).
  pose proof (λ m v, changedAttributes_lookup attributes (i_Attributes old) (i_Attributes n) m v Hset) as Hch.
  destruct (decide (changedAttributes attributes (i_Attributes old) (i_Attributes n) = ∅)) as [Hem|Hem];
    [rewrite (bool_decide_eq_true_2 _ Hem) in Hx|rewrite (bool_decide_eq_false_2 _ Hem) in Hx].
  - injection Hx as <- <-. exists old, old. split_and!; [reflexivity|exact Hk|reflexivity|done|exact Hch|].
    intros m v Hm. destruct (decide (default VNil (i_Attributes old !! m) = v)) as [|Hne]; [assumption|].
    assert (changedAttributes attributes (i_Attributes old) (i_Attributes n) !! m = Some v) as Hx by by apply Hch.
    rewrite Hem, lookup_empty in Hx. discriminate Hx.
  - injection Hx as <- <-. exists old, n.
    split_and!; [reflexivity|cbn; by rewrite lookup_insert_eq|reflexivity| |exact Hch|].
    + intros k Hne. cbn. by rewrite lookup_insert_ne.
    + intros m v Hm. by rewrite (Hset _ _ Hm).
Qed.

(** A command update that is accepted, with or without a platform transaction, is complete
    and isolated: every named attribute of every named instance has its new value, every
    instance not named (but ONU data, which shows the counter) is untouched, and either nothing
    changed at all or the data sync counter advanced exactly once for the whole command. *)
Theorem updateByCommand_effect s w updates transaction s' w'
    (Hx : updateByCommand s w updates transaction = (Ok tt, s', w')) :
  (∀ key attrs n v, updates !! key = Some attrs → attrs !! n = Some v →
     ∃ i, current s' !! key = Some i ∧ i_Attributes i !! n = Some v) ∧
  (∀ key, updates !! key = None → key ≠ onuDataKey → current s' !! key = current s !! key) ∧
  (s' = s ∨ dataSync s' = incrementDataSync (dataSync s)).
Proof.
  apply updateByCommand_Ok in Hx as (proposed & changed & Hc & Hs').
  destruct (commandUpdates_spec _ _ _ _ Hc) as (Hin & Hout & Hsame).
  assert (∀ key i n v, proposed !! key = Some i → i_Attributes i !! n = Some v →
    (key, n) ≠ (onuDataKey, OnuData_MibDataSync) → ∃ i, current s' !! key = Some i ∧ i_Attributes i !! n = Some v) as Hval.
  { intros key i n v Hi Hv Hne. destruct changed; [|rewrite Hs', <- Hsame; eauto].
    destruct Hs' as (m & -> & Hm). cbn [current withState].
    destruct (setDataSync_lookup proposed (nextDataSync s) key i Hi) as (i1 & H1 & _ & Ha1).
    destruct Hm as [->| ->]; [exists i1; by rewrite Ha1|].
    destruct (setDataSync_lookup _ (nextDataSync s) key i1 H1) as (i2 & H2 & _ & Ha2).
    exists i2. by rewrite Ha2, Ha1. }
  split_and!.
  - intros key attrs n v Hk Hn. destruct (Hin _ _ Hk) as (cur & x & i & _ & Hp & Hi & Ha).
    destruct (prepareUpdate_spec _ _ _ _ _ Hp) as [Hset _]. destruct (Hset _ _ Hn) as [Hv Hne].
    eapply Hval; [exact Hi|by rewrite Ha|exact Hne].
  - intros key Hk Hne. rewrite <- (Hout _ Hk). destruct changed; [|by rewrite Hs', Hsame].
    destruct Hs' as (m & -> & [->| ->]); cbn [current withState]; by rewrite !setDataSync_other.
  - destruct changed; [right|by left]. by destruct Hs' as (m & -> & _).
Qed.
End updates.

Lemma UpdateAutonomous_reports_witness :
  let attributes : AttributeValueMap := {[ "OperationalState" := VU8 1; "AdministrativeState" := VU8 0 ]} in
  let o := @UpdateAutonomous canonical_range _ sample_store (OnuGClassID, 0) attributes in
  ∃ old new, current sample_store !! (OnuGClassID, 0) = Some old ∧ current o.2 !! (OnuGClassID, 0) = Some new ∧
    dataSync o.2 = dataSync sample_store ∧ (∀ k, k ≠ (OnuGClassID, 0) → current o.2 !! k = current sample_store !! k) ∧
    (∀ n v, ({[ "OperationalState" := VU8 1 ]} : AttributeValueMap) !! n = Some v ↔
       attributes !! n = Some v ∧ default VNil (i_Attributes old !! n) ≠ v) ∧
    (∀ n v, attributes !! n = Some v → default VNil (i_Attributes new !! n) = v).
Proof.
  intros attributes o.
  apply (@UpdateAutonomous_reports canonical_range _ sample_store (OnuGClassID, 0) attributes).
  vm_compute. reflexivity.
Defined.

Lemma updateByCommand_effect_witness :
  let updates : gmap Key AttributeValueMap :=
    {[ (OnuGClassID, 0) := ({[ "OperationalState" := VU8 1 ]} : AttributeValueMap) ]} in
  let o := @updateByCommand canonical_range _ sample_store [] updates None in
  (∀ key attrs n v, updates !! key = Some attrs → attrs !! n = Some v →
     ∃ i, current o.1.2 !! key = Some i ∧ i_Attributes i !! n = Some v) ∧
  (∀ key, updates !! key = None → key ≠ onuDataKey → current o.1.2 !! key = current sample_store !! key) ∧
  (o.1.2 = sample_store ∨ dataSync o.1.2 = incrementDataSync (dataSync sample_store)).
Proof.
  intros updates o.
  apply (@updateByCommand_effect canonical_range _ sample_store [] updates None o.1.2 o.2).
  vm_compute. reflexivity.
Defined.
