(* ===== verification/Model.v ===== *)
(** * The device model

    The XG2010G factory MIB and its capability policy: src/internal/model/xg2010g.go and
    capabilities.go, with the PON mode (src/internal/pon/mode.go) and the ONU3-G record format
    (src/internal/onu3/record.go).  [mibOptions] are the options
    src/cmd/airoha-omcid/main.go opens the store with. *)

From S2P Require Import Prelude GoStd Maps MeTypes MeClasses MeLib Mib.
From S2P Require Import MeNames Semantics Store.

(** ** pon.Mode *)

(** [pon.Mode] is a string type. *)
Definition GPON : string := "gpon".
Definition XGSPON : string := "xgspon".

Definition Validate (m : string) : Res MibError unit :=
  if bool_decide (m = GPON) || bool_decide (m = XGSPON) then Ok tt
  else Err (PlainError "unsupported PON mode").

Definition ParseMode (value : string) : Res MibError string :=
  _ ← Validate value; Ok value.

Definition StateDomain (m : string) : Res MibError string :=
  _ ← Validate m; Ok ("xg2010g:" +:+ m).

(** ** onu3.Record *)

Definition SnapshotCapacity : Z := 16.
Definition FormatVersion : Z := 1.
Definition TriggerOLTSnap : Z := 1.
Definition FlagExtendedOMCI : Z := 1.

(** [TakenAt] is its Unix time in seconds. *)
Record StatusRecord := mkStatusRecord {
  re_Trigger : Z;
  re_TakenAt : Z;
  re_MIBDataSync : Z;
  re_MIBEntries : Z;
  re_ActiveAlarms : Z;
  re_ExtendedOMCI : bool
}.

(** [Encode]: the [RecordSize] octets, the last nine of them zero. *)
Definition Encode (r : StatusRecord) : list Z :=
  FormatVersion :: re_Trigger r :: put_be 8 (u64 (re_TakenAt r)) ++
  re_MIBDataSync r :: put_be 2 (re_MIBEntries r) ++ put_be 2 (re_ActiveAlarms r) ++
  (if re_ExtendedOMCI r then FlagExtendedOMCI else 0) :: repeat 0 (RecordSize - 16).

(** ** The factory MIB *)

Definition aniEntityID : Z := 0x8001.
Definition ethernetHolderID : Z := 0x0101.
Definition aniHolderID : Z := 0x0180.
Definition ethernetCardID : Z := 0x0101.
Definition aniCardID : Z := 0x0180.
Definition softwareImageAID : Z := 0.
Definition softwareImageBID : Z := 1.
Definition defaultTContCount : Z := 8.
Definition queuesPerPort : Z := 8.

Definition ethernetConfiguration : list Z := [4; 4; 5; 3].
Definition ethernetSensedType : list Z := [49; 49; 50; 47].

(** The strings are byte strings. *)
Record Identity := mkIdentity {
  id_SerialNumber : list Z;
  id_Version : list Z;
  id_EquipmentID : list Z;
  id_RestartReason : Z;
  id_PONMode : string
}.

Definition octets (value : list Z) (size : nat) : list Z :=
  let trimmed := take size (TrimSpace value) in
  trimmed ++ repeat 0 (size - length trimmed).

Definition instance (classID entityID : Z) (attributes : list (string * Value)) : Instance_ :=
  mkInstance (classID, entityID) (list_to_map attributes) OriginONU.

Definition softwareImage (entityID : Z) (version : list Z) (active valid : bool) : Instance_ :=
  let flag := if active then 1 else 0 in
  let validFlag := if valid then 1 else 0 in
  instance SoftwareImageClassID entityID [
    (SoftwareImage_Version, VOctets (octets version 14));
    (SoftwareImage_IsCommitted, VU8 flag);
    (SoftwareImage_IsActive, VU8 flag);
    (SoftwareImage_IsValid, VU8 validFlag);
    (SoftwareImage_ProductCode, VOctets (octets (bytesOf "XG2010G") 25));
    (SoftwareImage_ImageHash, VOctets (repeat 0 16))].

Definition priorityQueue (entityID relatedEntity scheduler priority : Z) : Instance_ :=
  instance PriorityQueueClassID entityID [
    (PriorityQueue_QueueConfigurationOption, VU8 0);
    (PriorityQueue_MaximumQueueSize, VU16 4096);
    (PriorityQueue_AllocatedQueueSize, VU16 4096);
    (PriorityQueue_RelatedPort, VU32 (Z.lor (Z.shiftl relatedEntity 16) priority));
    (PriorityQueue_TrafficSchedulerPointer, VU16 scheduler);
    (PriorityQueue_Weight, VU8 1)].

(** The hexadecimal digits [fmt.Sscanf] accepts for the verb [x]. *)
Definition hexValue (c : Z) : option Z :=
  if (48 <=? c) && (c <=? 57) then Some (c - 48)
  else if (97 <=? c) && (c <=? 102) then Some (c - 87)
  else if (65 <=? c) && (c <=? 70) then Some (c - 55)
  else None.

(** [fmt.Sscanf(s, "%02x", &octet)] of a string of two bytes: leading blanks are skipped, a
    newline is an error, the digits end at the first byte that is not one, and what follows
    is not looked at.  ([U+0085] and [U+00A0] take both bytes.) *)
Definition scanHexOctet (a b : Z) : option Z :=
  let blank c := bool_decide (c ∈ [9; 11; 12; 13; 32]) in
  match hexValue a with
  | Some high => match hexValue b with
                 | Some low => Some (16 * high + low)
                 | None => Some high
                 end
  | None => if blank a then hexValue b else None
  end.

(** [serialOctets]. *)
Definition serialOctets (value : list Z) : Res MibError (list Z) :=
  _ ← guard_err (negb (length value =? 12)%nat) (PlainError "serial number length");
  digits ← mapM_res (λ index,
      match scanHexOctet (nth8 value (4 + index * 2)) (nth8 value (5 + index * 2)) with
      | Some octet => Ok octet
      | None => Err (PlainError "invalid serial number")
      end) (seq 0 4);
  Ok (take 4 value ++ digits).

(** The instances before the loops. *)
Definition fixedInstances (identity : Identity) (serial vendor ponEquipmentID : list Z)
    : list Instance_ :=
  [instance OnuDataClassID 0 [
     (OnuData_MibDataSync, VU8 0)];
   instance OnuGClassID 0 [
     (OnuG_VendorId, VOctets vendor);
     (OnuG_Version, VOctets (octets (id_Version identity) 14));
     (OnuG_SerialNumber, VOctets serial);
     (OnuG_TrafficManagementOption, VU8 0);
     (OnuG_BatteryBackup, VU8 0);
     (OnuG_AdministrativeState, VU8 0);
     (OnuG_OperationalState, VU8 0)];
   instance Onu2GClassID 0 [
     (Onu2G_EquipmentId, VOctets (octets (id_EquipmentID identity) 20));
     (Onu2G_OpticalNetworkUnitManagementAndControlChannelOmccVersion, VU8 0xb4);
     (Onu2G_VendorProductCode, VU16 0x2010);
     (Onu2G_SecurityCapability, VU8 1);
     (Onu2G_SecurityMode, VU8 1);
     (Onu2G_TotalPriorityQueueNumber, VU16 0);
     (Onu2G_TotalTrafficSchedulerNumber, VU8 0);
     (Onu2G_Deprecated, VU8 1);
     (Onu2G_TotalGemPortIdNumber, VU16 256);
     (Onu2G_ConnectivityCapability, VU16 0);
     (Onu2G_CurrentConnectivityMode, VU8 0);
     (Onu2G_QualityOfServiceQosConfigurationFlexibility, VU16 0x0008);
     (Onu2G_PriorityQueueScaleFactor, VU16 1)];
   instance Onu3GClassID 0 [
     (Onu3G_LatestRestartReason, VU8 (id_RestartReason identity));
     (Onu3G_TotalNumberOfStatusSnapshots, VU16 SnapshotCapacity);
     (Onu3G_NumberOfValidStatusSnapshots, VU16 0);
     (Onu3G_NextStatusSnapshotIndex, VU16 0);
     (Onu3G_StatusSnapshotRecordTable, VTable (mkRows 0 []));
     (Onu3G_SnapAction, VU8 0);
     (Onu3G_MostRecentStatusSnapshot, VOctets (repeat 0 RecordSize));
     (Onu3G_ResetAction, VU8 0);
     (Onu3G_EnhancedMode, VU8 1)];
   instance AniGClassID aniEntityID [
     (AniG_SrIndication, VU8 1);
     (AniG_TotalTcontNumber, VU16 defaultTContCount);
     (AniG_GemBlockLength, VU16 48);
     (AniG_PiggybackDbaReporting, VU8 0);
     (AniG_Deprecated, VU8 0);
     (AniG_SignalFailThreshold, VU8 5);
     (AniG_SignalDegradeThreshold, VU8 9);
     (AniG_Arc, VU8 0);
     (AniG_ArcInterval, VU8 0);
     (AniG_OpticalSignalLevel, VU16 0);
     (AniG_LowerOpticalThreshold, VU8 0xff);
     (AniG_UpperOpticalThreshold, VU8 0xff);
     (AniG_OnuResponseTime, VU16 35000);
     (AniG_TransmitOpticalLevel, VU16 0);
     (AniG_LowerTransmitPowerThreshold, VU8 0x81);
     (AniG_UpperTransmitPowerThreshold, VU8 0x81)];
   instance CardholderClassID ethernetHolderID [
     (Cardholder_ActualPlugInUnitType, VU8 45);
     (Cardholder_ExpectedPlugInUnitType, VU8 45)];
   instance CardholderClassID aniHolderID [
     (Cardholder_ActualPlugInUnitType, VU8 0xf5);
     (Cardholder_ExpectedPlugInUnitType, VU8 0xf5)];
   instance CircuitPackClassID ethernetCardID [
     (CircuitPack_Type, VU8 45);
     (CircuitPack_NumberOfPorts, VU8 4);
     (CircuitPack_SerialNumber, VOctets serial);
     (CircuitPack_Version, VOctets (octets (id_Version identity) 14));
     (CircuitPack_VendorId, VOctets vendor);
     (CircuitPack_AdministrativeState, VU8 0);
     (CircuitPack_OperationalState, VU8 0);
     (CircuitPack_BridgedOrIpInd, VU8 0);
     (CircuitPack_EquipmentId, VOctets (octets (id_EquipmentID identity ++ bytesOf " Ethernet") 20));
     (CircuitPack_TotalTContBufferNumber, VU8 0);
     (CircuitPack_TotalPriorityQueueNumber, VU8 32);
     (CircuitPack_TotalTrafficSchedulerNumber, VU8 0)];
   instance CircuitPackClassID aniCardID [
     (CircuitPack_Type, VU8 0xf5);
     (CircuitPack_NumberOfPorts, VU8 1);
     (CircuitPack_SerialNumber, VOctets serial);
     (CircuitPack_Version, VOctets (octets (id_Version identity) 14));
     (CircuitPack_VendorId, VOctets vendor);
     (CircuitPack_AdministrativeState, VU8 0);
     (CircuitPack_OperationalState, VU8 0);
     (CircuitPack_EquipmentId, VOctets (octets ponEquipmentID 20));
     (CircuitPack_TotalTContBufferNumber, VU8 defaultTContCount);
     (CircuitPack_TotalPriorityQueueNumber, VU8 (defaultTContCount * 8));
     (CircuitPack_TotalTrafficSchedulerNumber, VU8 defaultTContCount)];
   softwareImage softwareImageAID (id_Version identity) true true;
   softwareImage softwareImageBID (bytesOf "standby") false false].

(** One T-CONT with its scheduler and its queues. *)
Definition tcontInstances (index : nat) : list Instance_ :=
  let entityID := u16 (0x8001 + Z.of_nat index) in
  [instance TContClassID entityID [
     (TCont_AllocId, VU16 0xffff);
     (TCont_Policy, VU8 0)];
   instance TrafficSchedulerClassID entityID [
     (TrafficScheduler_TContPointer, VU16 entityID);
     (TrafficScheduler_TrafficSchedulerPointer, VU16 0);
     (TrafficScheduler_Policy, VU8 1);
     (TrafficScheduler_PriorityWeight, VU8 0)]] ++
  map (λ priority,
      priorityQueue (u16 (0x8000 + Z.of_nat index * queuesPerPort + Z.of_nat priority))
        entityID entityID (Z.of_nat priority))
    (seq 0 (Z.to_nat queuesPerPort)).

(** One Ethernet port with its queues. *)
Definition portInstances (port : nat) : list Instance_ :=
  let entityID := u16 (ethernetCardID + Z.of_nat port - 1) in
  [instance PhysicalPathTerminationPointEthernetUniClassID entityID [
     (PhysicalPathTerminationPointEthernetUni_ExpectedType, VU8 0);
     (PhysicalPathTerminationPointEthernetUni_SensedType, VU8 (nth8 ethernetSensedType (port - 1)));
     (PhysicalPathTerminationPointEthernetUni_AutoDetectionConfiguration, VU8 0);
     (PhysicalPathTerminationPointEthernetUni_AdministrativeState, VU8 0);
     (PhysicalPathTerminationPointEthernetUni_OperationalState, VU8 1);
     (PhysicalPathTerminationPointEthernetUni_ConfigurationInd, VU8 (nth8 ethernetConfiguration (port - 1)));
     (PhysicalPathTerminationPointEthernetUni_MaxFrameSize, VU16 2000);
     (PhysicalPathTerminationPointEthernetUni_BridgedOrIpInd, VU8 0);
     (PhysicalPathTerminationPointEthernetUni_Arc, VU8 0);
     (PhysicalPathTerminationPointEthernetUni_ArcInterval, VU8 0)];
   instance UniGClassID entityID [
     (UniG_Deprecated, VU16 0);
     (UniG_AdministrativeState, VU8 0);
     (UniG_ManagementCapability, VU8 0)]] ++
  map (λ priority,
      priorityQueue (u16 ((Z.of_nat port - 1) * queuesPerPort + Z.of_nat priority))
        entityID 0 (Z.of_nat priority))
    (seq 0 (Z.to_nat queuesPerPort)).

Definition withDefaults (identity : Identity) : Identity :=
  mkIdentity (id_SerialNumber identity)
    (if bool_decide (id_Version identity = []) then bytesOf "OpenWrt" else id_Version identity)
    (if bool_decide (id_EquipmentID identity = []) then bytesOf "XG2010G" else id_EquipmentID identity)
    (id_RestartReason identity) (id_PONMode identity).

Definition XG2010G (identity : Identity) : Res MibError (list Instance_) :=
  _ ← Validate (id_PONMode identity);
  serial ← serialOctets (id_SerialNumber identity);
  let identity := withDefaults identity in
  let vendor := take 4 serial in
  let ponEquipmentID :=
    if bool_decide (id_PONMode identity = XGSPON)
    then id_EquipmentID identity ++ bytesOf " XGS-PON"
    else id_EquipmentID identity ++ bytesOf " GPON" in
  Ok (fixedInstances identity serial vendor ponEquipmentID ++
      concat (map tcontInstances (seq 0 (Z.to_nat defaultTContCount))) ++
      concat (map portInstances (seq 1 (length ethernetConfiguration)))).

(** ** Capabilities *)

Definition supportedBase : list Z :=
  [OnuDataClassID; CardholderClassID; CircuitPackClassID; SoftwareImageClassID;
   PhysicalPathTerminationPointEthernetUniClassID;
   EthernetPerformanceMonitoringHistoryDataClassID; MacBridgeServiceProfileClassID;
   MacBridgePortConfigurationDataClassID; VlanTaggingOperationConfigurationDataClassID;
   VlanTaggingFilterDataClassID; Ieee8021PMapperServiceProfileClassID;
   ExtendedVlanTaggingOperationConfigurationDataClassID; OnuGClassID; Onu2GClassID; Onu3GClassID;
   TContClassID; AniGClassID; UniGClassID; GemInterworkingTerminationPointClassID;
   GemPortNetworkCtpClassID; GalEthernetProfileClassID; PriorityQueueClassID;
   TrafficSchedulerClassID; TrafficDescriptorClassID; Dot1RateLimiterClassID;
   MulticastGemInterworkingTerminationPointClassID;
   EthernetPerformanceMonitoringHistoryData3ClassID; MulticastOperationsProfileClassID;
   MulticastSubscriberConfigInfoClassID; MulticastSubscriberMonitorClassID;
   EthernetFramePerformanceMonitoringHistoryDataDownstreamClassID;
   EthernetFramePerformanceMonitoringHistoryDataUpstreamClassID; OmciClassID;
   ManagedEntityMeClassID; AttributeMeClassID; ThresholdData1ClassID; ThresholdData2ClassID;
   FecPerformanceMonitoringHistoryDataClassID;
   GemPortNetworkCtpPerformanceMonitoringHistoryDataClassID].

Definition supportedXGSPON : list Z :=
  [XgPonTcPerformanceMonitoringHistoryDataClassID;
   XgPonDownstreamManagementPerformanceMonitoringHistoryDataClassID;
   XgPonUpstreamManagementPerformanceMonitoringHistoryDataClassID].

(** [XG2010GSupportedClasses]; nil for an unknown mode. *)
Definition XG2010GSupportedClasses (mode : string) : list Z :=
  match Validate mode with
  | Err _ => []
  | Ok _ => merge_sort Z.le (supportedBase ++ if bool_decide (mode = XGSPON) then supportedXGSPON else [])
  end.

(** The literal [audited] and its additions for XGS-PON. *)
Definition audited (mode : string) : gmap Z Z :=
  list_to_map ([(EthernetPerformanceMonitoringHistoryDataClassID, 0xffff);
   (MacBridgeServiceProfileClassID, 0xffc0); (MacBridgePortConfigurationDataClassID, 0xfe38);
   (VlanTaggingOperationConfigurationDataClassID, 0xf800); (VlanTaggingFilterDataClassID, 0xe000);
   (Ieee8021PMapperServiceProfileClassID, 0xfff8);
   (ExtendedVlanTaggingOperationConfigurationDataClassID, 0xffc0);
   (GemInterworkingTerminationPointClassID, 0xf300); (GemPortNetworkCtpClassID, 0xfa80);
   (GalEthernetProfileClassID, 0x8000); (TrafficDescriptorClassID, 0xf100);
   (Dot1RateLimiterClassID, 0xf800); (MulticastGemInterworkingTerminationPointClassID, 0xf3c0);
   (EthernetPerformanceMonitoringHistoryData3ClassID, 0xffff);
   (MulticastOperationsProfileClassID, 0xff7f); (MulticastSubscriberConfigInfoClassID, 0xfe00);
   (MulticastSubscriberMonitorClassID, 0xfc00);
   (EthernetFramePerformanceMonitoringHistoryDataDownstreamClassID, 0xffff);
   (EthernetFramePerformanceMonitoringHistoryDataUpstreamClassID, 0xffff);
   (ThresholdData1ClassID, 0xfe00); (ThresholdData2ClassID, 0xfe00);
   (FecPerformanceMonitoringHistoryDataClassID, 0xfe00);
   (GemPortNetworkCtpPerformanceMonitoringHistoryDataClassID, 0xfc00); (OmciClassID, 0xc000);
   (ManagedEntityMeClassID, 0xff00); (AttributeMeClassID, 0xff80)] ++
  if bool_decide (mode = XGSPON) then
  [(XgPonTcPerformanceMonitoringHistoryDataClassID, 0xfffe);
   (XgPonDownstreamManagementPerformanceMonitoringHistoryDataClassID, 0xffff);
   (XgPonUpstreamManagementPerformanceMonitoringHistoryDataClassID, 0xff00)] else []).

Section capabilities.
Context {MR : MapRange}.

(** One factory instance: its attributes are added to the mask of its class. *)
Definition addFactoryMask (masks : gmap Z Z) (instance : Instance_) : Res MibError (gmap Z Z) :=
  let classID := ClassID_of instance in
  _ ← guard_err (negb (bool_decide (is_Some (masks !! classID)))) (PlainError "factory ME outside the class policy");
  match GetAttributesDefinitions classID with
  | Err _ => Err (PlainError "load factory ME attributes")
  | Ok definitions =>
      foldM_res (λ masks '(name, _),
          if bool_decide (name = ManagedEntityID) then Ok masks
          else match GetAttributeDefinitionByName definitions name with
               | None => Err (PlainError "factory ME attribute")
               | Some definition =>
                   Ok (<[classID := Z.lor (default 0 (masks !! classID)) (Mask definition)]> masks)
               end) (range (i_Attributes instance)) masks
  end.

(** The checks on one supported class. *)
Definition checkMask (mode : string) (masks : gmap Z Z) (classID : Z) : Res MibError unit :=
  match LoadManagedEntityDefinition classID (Some (mkParams 0 ∅)) with
  | Err _ => Err (PlainError "load supported ME")
  | Ok entity =>
      let mask := default 0 (masks !! classID) in
      _ ← guard_err (mask =? 0) (PlainError "empty attribute policy");
      _ ← guard_err (negb (Z.ldiff mask (AllowedAttributeMask (definition entity)) =? 0))
            (PlainError "mask contains unknown bits");
      guard_err (negb (bool_decide (DefAccess (definition entity) = CreatedByOnu)) &&
                 negb (bool_decide (is_Some (audited mode !! classID))))
        (PlainError "OLT-created ME has not been audited")
  end.

Definition XG2010GSupportedAttributeMasks (mode : string) (factory : list Instance_)
    : Res MibError (gmap Z Z) :=
  _ ← Validate mode;
  let classes := XG2010GSupportedClasses mode in
  let masks := fold_left (λ masks classID, <[classID := 0]> masks) classes ∅ in
  masks ← foldM_res addFactoryMask factory masks;
  masks ← foldM_res (λ masks '(classID, mask),
      _ ← guard_err (negb (bool_decide (is_Some (masks !! classID)))) (PlainError "unsupported class");
      Ok (<[classID := mask]> masks)) (range (audited mode)) masks;
  _ ← foldM_res (λ _ classID, checkMask mode masks classID) classes tt;
  Ok masks.

Definition bounds (classID : Z) (name : string) (lower upper : Z)
    : gmap (Z * string) AttributeCapability → gmap (Z * string) AttributeCapability :=
  <[(classID, name) := mkCapability lower upper 0 []]>.
Definition fixed (classID : Z) (name : string) (value : Z) := bounds classID name value value.
Definition enumeration (classID : Z) (name : string) (values : list Z)
    : gmap (Z * string) AttributeCapability → gmap (Z * string) AttributeCapability :=
  <[(classID, name) := mkCapability 0 0 0 values]>.
Definition sequence (first last : Z) : list Z :=
  map (λ index, u16 (first + Z.of_nat index)) (seq 0 (Z.to_nat (last - first) + 1)).

(** [XG2010GAttributeCapabilities]: the statements in their order. *)
Definition XG2010GAttributeCapabilities (mode : string)
    : gmap (Z * string) AttributeCapability :=
  fold_left (λ capabilities statement, statement capabilities)
    [fixed AniGClassID AniG_GemBlockLength 48;
     bounds AniGClassID AniG_SignalFailThreshold 3 8;
     bounds AniGClassID AniG_SignalDegradeThreshold 4 10;
     enumeration AniGClassID AniG_SrIndication [1];
     enumeration AniGClassID AniG_PiggybackDbaReporting [0];
     enumeration AniGClassID AniG_Arc [0; 1];
     enumeration CardholderClassID Cardholder_ActualPlugInUnitType [45; 0xf5];
     enumeration CardholderClassID Cardholder_ExpectedPlugInUnitType [45; 0xf5];
     enumeration CircuitPackClassID CircuitPack_Type [45; 0xf5];
     enumeration CircuitPackClassID CircuitPack_AdministrativeState [0; 1];
     enumeration CircuitPackClassID CircuitPack_OperationalState [0; 1];
     enumeration CircuitPackClassID CircuitPack_BridgedOrIpInd [0];
     enumeration ExtendedVlanTaggingOperationConfigurationDataClassID ExtendedVlanTaggingOperationConfigurationData_AssociationType [0; 1; 2; 5];
     enumeration ExtendedVlanTaggingOperationConfigurationDataClassID ExtendedVlanTaggingOperationConfigurationData_DownstreamMode (sequence 0 8);
     enumeration GemInterworkingTerminationPointClassID GemInterworkingTerminationPoint_InterworkingOption [1; 5];
     enumeration GemInterworkingTerminationPointClassID GemInterworkingTerminationPoint_GalLoopbackConfiguration [0];
     enumeration GemPortNetworkCtpClassID GemPortNetworkCtp_Direction [1; 2; 3];
     fixed GalEthernetProfileClassID GalEthernetProfile_MaximumGemPayloadSize 48;
     enumeration MacBridgePortConfigurationDataClassID MacBridgePortConfigurationData_TpType [1; 3; 5; 6];
     enumeration MacBridgePortConfigurationDataClassID MacBridgePortConfigurationData_PortSpanningTreeInd [0; 1];
     enumeration MacBridgeServiceProfileClassID MacBridgeServiceProfile_SpanningTreeInd [0; 1];
     enumeration MacBridgeServiceProfileClassID MacBridgeServiceProfile_LearningInd [0; 1];
     enumeration MacBridgeServiceProfileClassID MacBridgeServiceProfile_PortBridgingInd [0; 1];
     enumeration MacBridgeServiceProfileClassID MacBridgeServiceProfile_UnknownMacAddressDiscard [0; 1];
     bounds MacBridgeServiceProfileClassID MacBridgeServiceProfile_MaxAge 0x0600 0x2800;
     bounds MacBridgeServiceProfileClassID MacBridgeServiceProfile_HelloTime 0x0100 0x0a00;
     bounds MacBridgeServiceProfileClassID MacBridgeServiceProfile_ForwardDelay 0x0400 0x1e00;
     bounds MacBridgePortConfigurationDataClassID MacBridgePortConfigurationData_PortPathCost 1 0xffff;
     bounds Ieee8021PMapperServiceProfileClassID Ieee8021PMapperServiceProfile_TpType 0 1;
     bounds Ieee8021PMapperServiceProfileClassID Ieee8021PMapperServiceProfile_UnmarkedFrameOption 0 1;
     bounds Ieee8021PMapperServiceProfileClassID Ieee8021PMapperServiceProfile_DefaultPBitAssumption 0 7;
     enumeration MulticastGemInterworkingTerminationPointClassID MulticastGemInterworkingTerminationPoint_InterworkingOption [0; 1; 5];
     enumeration MulticastOperationsProfileClassID MulticastOperationsProfile_IgmpVersion [1; 2; 3; 16; 17];
     enumeration MulticastOperationsProfileClassID MulticastOperationsProfile_IgmpFunction [0; 1; 2];
     enumeration MulticastOperationsProfileClassID MulticastOperationsProfile_ImmediateLeave [0; 1];
     bounds MulticastOperationsProfileClassID MulticastOperationsProfile_UpstreamIgmpTagControl 0 3;
     bounds MulticastOperationsProfileClassID MulticastOperationsProfile_UnauthorizedJoinRequestBehaviour 0 1;
     enumeration MulticastSubscriberConfigInfoClassID MulticastSubscriberConfigInfo_MeType [0; 1];
     enumeration MulticastSubscriberMonitorClassID MulticastSubscriberMonitor_MeType [0; 1];
     enumeration MulticastSubscriberConfigInfoClassID MulticastSubscriberConfigInfo_BandwidthEnforcement [0; 1];
     enumeration Onu2GClassID Onu2G_OpticalNetworkUnitManagementAndControlChannelOmccVersion [0xb4];
     enumeration Onu2GClassID Onu2G_SecurityCapability [1];
     enumeration Onu2GClassID Onu2G_SecurityMode [1];
     enumeration OnuGClassID OnuG_TrafficManagementOption [0];
     enumeration OnuGClassID OnuG_BatteryBackup [0];
     enumeration OnuGClassID OnuG_AdministrativeState [0; 1];
     enumeration OnuGClassID OnuG_OperationalState [0; 1];
     enumeration SoftwareImageClassID SoftwareImage_IsCommitted [0; 1];
     enumeration SoftwareImageClassID SoftwareImage_IsActive [0; 1];
     enumeration SoftwareImageClassID SoftwareImage_IsValid [0; 1];
     enumeration PhysicalPathTerminationPointEthernetUniClassID PhysicalPathTerminationPointEthernetUni_ExpectedType [0; 47; 49; 50];
     enumeration PhysicalPathTerminationPointEthernetUniClassID PhysicalPathTerminationPointEthernetUni_SensedType [0; 47; 49; 50];
     enumeration PhysicalPathTerminationPointEthernetUniClassID PhysicalPathTerminationPointEthernetUni_AutoDetectionConfiguration [0];
     enumeration PhysicalPathTerminationPointEthernetUniClassID PhysicalPathTerminationPointEthernetUni_AdministrativeState [0; 1];
     enumeration PhysicalPathTerminationPointEthernetUniClassID PhysicalPathTerminationPointEthernetUni_OperationalState [0; 1];
     enumeration PhysicalPathTerminationPointEthernetUniClassID PhysicalPathTerminationPointEthernetUni_ConfigurationInd [0; 3; 4; 5];
     enumeration PhysicalPathTerminationPointEthernetUniClassID PhysicalPathTerminationPointEthernetUni_BridgedOrIpInd [0];
     enumeration PhysicalPathTerminationPointEthernetUniClassID PhysicalPathTerminationPointEthernetUni_Arc [0; 1];
     fixed PhysicalPathTerminationPointEthernetUniClassID PhysicalPathTerminationPointEthernetUni_MaxFrameSize 2000;
     bounds GemPortNetworkCtpClassID GemPortNetworkCtp_PortId 0 0x0fff;
     enumeration TContClassID TCont_Policy [0; 1; 2];
     enumeration TrafficSchedulerClassID TrafficScheduler_Policy [0; 1; 2];
     enumeration TrafficDescriptorClassID TrafficDescriptor_MeterType [0; 2];
     enumeration UniGClassID UniG_AdministrativeState [0; 1];
     enumeration UniGClassID UniG_ManagementCapability [0];
     enumeration VlanTaggingFilterDataClassID VlanTaggingFilterData_ForwardOperation (sequence 0 0x21);
     bounds VlanTaggingFilterDataClassID VlanTaggingFilterData_NumberOfEntries 0 12;
     enumeration VlanTaggingOperationConfigurationDataClassID VlanTaggingOperationConfigurationData_UpstreamVlanTaggingOperationMode [0; 1; 2];
     enumeration VlanTaggingOperationConfigurationDataClassID VlanTaggingOperationConfigurationData_DownstreamVlanTaggingOperationMode [0; 1];
     enumeration VlanTaggingOperationConfigurationDataClassID VlanTaggingOperationConfigurationData_AssociationType [0; 2; 3; 5; 10];
     bounds ExtendedVlanTaggingOperationConfigurationDataClassID ExtendedVlanTaggingOperationConfigurationData_EnhancedMode 0 1;
     bounds Dot1RateLimiterClassID Dot1RateLimiter_TpType 1 2] ∅.

Definition xg2010gAttributeError (classID : Z) (name : string) : MibError :=
  match GetAttributesDefinitions classID with
  | Err _ => result ProcessingError
  | Ok definitions =>
      match GetAttributeDefinitionByName definitions name with
      | None => result ProcessingError
      | Some definition => ResultError AttributeFailure (Mask definition) 0
      end
  end.

Definition xg2010gParameterError : MibError := result ParameterError.

(** [attributes[name].(uint8)] and the other type assertions. *)
Definition octetOf (attributes : AttributeValueMap) (name : string) : option Z :=
  match attributes !! name with Some (VU8 value) => Some value | _ => None end.
Definition shortOf (attributes : AttributeValueMap) (name : string) : option Z :=
  match attributes !! name with Some (VU16 value) => Some value | _ => None end.
Definition longOf (attributes : AttributeValueMap) (name : string) : option Z :=
  match attributes !! name with Some (VU32 value) => Some value | _ => None end.

(** [value, present := ...; present && test value]. *)
Definition isAnd (value : option Z) (test : Z → bool) : bool :=
  match value with Some value => test value | None => false end.

(** The owner of queue [entityID], the port or T-CONT it is related to. *)
Definition wantRelated (entityID : Z) : Z :=
  let upstream := negb (Z.land entityID 0x8000 =? 0) in
  let queueIndex := Z.land entityID 0x7fff in
  let wantOwner := if upstream then u16 (0x8001 + queueIndex / queuesPerPort)
                   else u16 (ethernetCardID + queueIndex / queuesPerPort) in
  Z.lor (Z.shiftl wantOwner 16) (queueIndex mod queuesPerPort).

Definition wantScheduler (entityID : Z) : Z :=
  if negb (Z.land entityID 0x8000 =? 0) then u16 (0x8001 + Z.land entityID 0x7fff / queuesPerPort) else 0.

Definition XG2010GValidateInstance (mode : string) (instance : Instance_) : Res MibError unit :=
  _ ← Validate mode;
  let classID := ClassID_of instance in
  let attributes := i_Attributes instance in
  if classID =? CardholderClassID then
    guard_err (isAnd (octetOf attributes Cardholder_ActualPlugInUnitType) (λ actual,
               isAnd (octetOf attributes Cardholder_ExpectedPlugInUnitType) (λ expected,
                 negb (expected =? actual))))
      (xg2010gAttributeError classID Cardholder_ExpectedPlugInUnitType)
  else if classID =? Onu2GClassID then
    guard_err (isAnd (octetOf attributes Onu2G_CurrentConnectivityMode) (λ value, negb (value =? 0)))
      (xg2010gAttributeError classID Onu2G_CurrentConnectivityMode)
  else if classID =? PhysicalPathTerminationPointEthernetUniClassID then
    guard_err (isAnd (octetOf attributes PhysicalPathTerminationPointEthernetUni_ExpectedType) (λ expected,
               isAnd (octetOf attributes PhysicalPathTerminationPointEthernetUni_SensedType) (λ sensed,
                 negb (expected =? 0) && negb (expected =? sensed))))
      (xg2010gAttributeError classID PhysicalPathTerminationPointEthernetUni_ExpectedType)
  else if classID =? GalEthernetProfileClassID then
    guard_err (isAnd (shortOf attributes GalEthernetProfile_MaximumGemPayloadSize) (λ value, negb (value =? 48)))
      (xg2010gAttributeError classID GalEthernetProfile_MaximumGemPayloadSize)
  else if classID =? GemInterworkingTerminationPointClassID then
    guard_err (isAnd (octetOf attributes GemInterworkingTerminationPoint_GalLoopbackConfiguration)
                 (λ value, negb (value =? 0)))
      (xg2010gAttributeError classID GemInterworkingTerminationPoint_GalLoopbackConfiguration)
  else if classID =? TrafficDescriptorClassID then
    guard_err (isAnd (octetOf attributes TrafficDescriptor_MeterType)
                 (λ value, negb (value =? 0) && negb (value =? 2)))
      (xg2010gAttributeError classID TrafficDescriptor_MeterType)
  else if classID =? TContClassID then
    guard_err (isAnd (octetOf attributes TCont_Policy) (λ value, negb (value =? 0))) xg2010gParameterError
  else if classID =? TrafficSchedulerClassID then
    _ ← guard_err (isAnd (shortOf attributes TrafficScheduler_TContPointer)
                     (λ value, negb (value =? EntityID_of instance))) xg2010gParameterError;
    guard_err (isAnd (shortOf attributes TrafficScheduler_TrafficSchedulerPointer)
                 (λ value, negb (value =? 0))) xg2010gParameterError
  else if classID =? PriorityQueueClassID then
    _ ← guard_err (isAnd (longOf attributes PriorityQueue_RelatedPort)
                     (λ related, negb (related =? wantRelated (EntityID_of instance)))) xg2010gParameterError;
    guard_err (isAnd (shortOf attributes PriorityQueue_TrafficSchedulerPointer)
                 (λ scheduler, negb (scheduler =? wantScheduler (EntityID_of instance)))) xg2010gParameterError
  else Ok tt.

Definition XG2010GInstanceValidator (mode : string) : Instance_ → Res MibError unit :=
  XG2010GValidateInstance mode.

(** ** The store of the daemon *)

(** [initializeMIB] up to [NewWithOptions]: the options. *)
Definition mibOptions {W} (mode stateDomain : string) (factory : list Instance_)
    (applier : option (Applier W)) : Res MibError (Options W) :=
  attributeMasks ← XG2010GSupportedAttributeMasks mode factory;
  Ok (mkOptions applier 0 stateDomain (XG2010GSupportedClasses mode) (Some attributeMasks)
        (Some (XG2010GInstanceValidator mode)) (XG2010GAttributeCapabilities mode)).

(** [initializeMIB] without a persisted state. *)
Definition initializeMIB {W} (mode stateDomain : string) (factory : list Instance_)
    (applier : option (Applier W)) : Res MibError (Store W) :=
  options ← mibOptions mode stateDomain factory applier;
  NewWithOptions factory options.
End capabilities.
