(* ===== verification/ModelProps.v ===== *)
(** * The device model: the factory MIB is a store

    The options the daemon builds accept the factory MIB of every identity, under every
    iteration order of the maps involved; and the hardware topology of the factory MIB (which
    queue belongs to which port, which scheduler to which T-CONT) holds in every store the
    OMCI requests can reach from it. *)

From S2P Require Import Prelude GoStd Maps MeTypes MeClasses MeLib Mib.
From S2P Require Import MeNames Table Semantics Store StoreLemmas StoreInvariant StoreProps Model.

(** ** Loops whose order does not matter *)

(** A loop over a map whose steps for different keys commute. *)
Lemma foldM_res_commute {E K V S} (f : S → K * V → Res E S) l l' s :
  (∀ s a b, a.1 ≠ b.1 → (s' ← f s a; f s' b) = (s' ← f s b; f s' a)) →
  l ≡ₚ l' → NoDup l.*1 → foldM_res f l s = foldM_res f l' s.
Proof.
  intros Hf Hp. revert s. induction Hp as [|x l l' Hp IH|x y l|l l' l'' Hp IH Hp' IH']; intros s Hnd.
  - done.
  - rewrite fmap_cons in Hnd. apply NoDup_cons in Hnd as [_ Hnd]. cbn [foldM_res].
    destruct (f s x); cbn [mbind Res_bind]; [by apply IH|done].
  - rewrite !fmap_cons in Hnd. apply NoDup_cons in Hnd as [Hn _]. cbn [foldM_res].
    assert (y.1 ≠ x.1) as Hne by (intros Heq; apply Hn; rewrite Heq; by left).
    specialize (Hf s y x Hne).
    destruct (f s y) as [sy|ey]; destruct (f s x) as [sx|ex]; cbn [mbind Res_bind] in *;
      [by rewrite Hf|by rewrite Hf|by rewrite <- Hf|by injection Hf as ->].
  - rewrite IH by done. apply IH'. by rewrite <- Hp.
Qed.

Lemma range_Permutation (MR1 MR2 : MapRange) {K V} `{Countable K} (m : gmap K V) :
  @range MR1 K V _ _ m ≡ₚ @range MR2 K V _ _ m.
Proof. by rewrite !range_perm. Qed.

Lemma foldM_range {E K V S} `{Countable K} (MR1 MR2 : MapRange) (f g : S → K * V → Res E S)
    (m : gmap K V) s :
  (∀ s a, f s a = g s a) →
  (∀ s a b, a.1 ≠ b.1 → (s' ← f s a; f s' b) = (s' ← f s b; f s' a)) →
  foldM_res f (@range MR1 K V _ _ m) s = foldM_res g (@range MR2 K V _ _ m) s.
Proof.
  intros Hfg Hf. rewrite (foldM_res_commute f _ _ s Hf (range_Permutation MR1 MR2 m)).
  - generalize (@range MR2 K V _ _ m). intros l. revert s. induction l as [|x l IH]; intros s; [done|].
    cbn [foldM_res]. rewrite Hfg. by destruct (g s x); cbn [mbind Res_bind].
  - apply NoDup_range_fst.
Qed.

Lemma tests_range {E K V} `{Countable K} (MR1 MR2 : MapRange) (f g : K * V → Res E unit) (m : gmap K V) :
  (∀ a, f a = Ok tt → g a = Ok tt) →
  foldM_res (λ _ a, f a) (@range MR1 K V _ _ m) tt = Ok tt →
  foldM_res (λ _ a, g a) (@range MR2 K V _ _ m) tt = Ok tt.
Proof.
  rewrite !foldM_unit. intros Hfg. rewrite (range_Permutation MR1 MR2 m).
  intros HF. eapply Forall_impl; [exact HF|]. apply Hfg.
Qed.

(** ** Two iteration orders *)

Section orders.
Context (MR1 MR2 : MapRange).

Lemma byName_order c name :
  @GetAttributeDefinitionByName MR1 (AttributeDefinitions (definition_of c)) name =
  @GetAttributeDefinitionByName MR2 (AttributeDefinitions (definition_of c)) name.
Proof. by rewrite !GetAttributeDefinitionByName_named by apply definition_ok_of. Qed.

Lemma GetAttributesDefinitions_order c :
  @GetAttributesDefinitions MR1 c = @GetAttributesDefinitions MR2 c.
Proof. by rewrite !GetAttributesDefinitions_of. Qed.

Lemma addFactoryMask_order masks i : @addFactoryMask MR1 masks i = @addFactoryMask MR2 masks i.
Proof.
  unfold addFactoryMask. destruct (guard_err _ _) as [[]|e]; cbn [mbind Res_bind]; [|done].
  rewrite !GetAttributesDefinitions_of. apply foldM_range.
  - intros m [n v]. rewrite byName_order. done.
  - intros m [n v] [n' v'] _. case_bool_decide; case_bool_decide; cbn [mbind Res_bind]; try done.
    + by destruct (GetAttributeDefinitionByName _ _).
    + by destruct (GetAttributeDefinitionByName _ _).
    + destruct (GetAttributeDefinitionByName _ n); destruct (GetAttributeDefinitionByName _ n');
        cbn [mbind Res_bind]; try done.
      rewrite !lookup_insert_eq. cbn [default]. rewrite !insert_insert_eq.
      unfold id. by rewrite <- !Z.lor_assoc, (Z.lor_comm (Mask _)).
Qed.

Lemma load_order c e : 
  match @LoadManagedEntityDefinition MR1 c (Some (mkParams e ∅)), @LoadManagedEntityDefinition MR2 c (Some (mkParams e ∅)) with
  | Ok a, Ok b => definition a = definition b
  | Err a, Err b => a = b
  | _, _ => False
  end.
Proof.
  pose proof (@Load_spec MR1 c e ∅) as H1. pose proof (@Load_spec MR2 c e ∅) as H2.
  destruct (@LoadManagedEntityDefinition MR1 _ _), (@LoadManagedEntityDefinition MR2 _ _).
  - destruct H1 as [-> _], H2 as [-> _]. done.
  - destruct H2 as [_ H2]. apply H2. apply map_Forall_empty.
  - destruct H1 as [_ H1]. apply H1. apply map_Forall_empty.
  - destruct H1 as [-> _], H2 as [-> _]. done.
Qed.

Lemma checkMask_order mode masks c : @checkMask MR1 mode masks c = @checkMask MR2 mode masks c.
Proof.
  unfold checkMask. pose proof (load_order c 0) as Hl.
  destruct (@LoadManagedEntityDefinition MR1 _ _), (@LoadManagedEntityDefinition MR2 _ _); try done.
  by rewrite Hl.
Qed.

Lemma masks_order mode factory :
  @XG2010GSupportedAttributeMasks MR1 mode factory = @XG2010GSupportedAttributeMasks MR2 mode factory.
Proof.
  unfold XG2010GSupportedAttributeMasks. destruct (Validate mode); cbn [mbind Res_bind]; [|done].
  rewrite (foldM_ext (@addFactoryMask MR1) (@addFactoryMask MR2)) by apply addFactoryMask_order.
  destruct (foldM_res addFactoryMask _ _) as [masks|]; cbn [mbind Res_bind]; [|done].
  match goal with |- context [foldM_res ?f (@range MR1 _ _ _ _ _) masks] =>
    rewrite (foldM_range MR1 MR2 f f); [|done|] end.
  - destruct (foldM_res _ (@range MR2 _ _ _ _ _) masks) as [masks'|]; cbn [mbind Res_bind]; [|done].
    by rewrite (foldM_ext _ _ _ tt (λ _ c, checkMask_order mode masks' c)).
  - intros m [c x] [c' x'] Hne. cbn [fst] in Hne. unfold guard_err.
    destruct (m !! c) eqn:Hc; destruct (m !! c') eqn:Hc'; cbn; rewrite ?lookup_insert_ne, ?Hc, ?Hc' by done; cbn; try done.
    by rewrite insert_insert_ne by done.
Qed.
End orders.

(** ** Opening the store under two iteration orders *)

Definition withValidator {W} (s : Store W) (v : Instance_ → Res MibError unit) : Store W :=
  mkStore (factory s) (current s) (dataSync s) (applier s) (extendedVLANTableSize s) (stateDomain s)
    (supportedClasses s) (supportedAttributes s) (attributeCapabilities s) (Some v).

Section opening.
Context (MR1 MR2 : MapRange) {W : Type} (v1 v2 : Instance_ → Res MibError unit).
Hypothesis validators : ∀ i, v1 i = Ok tt → v2 i = Ok tt.
Implicit Types s : Store W.

Lemma loadDefinition_order c e a :
  match @loadDefinition MR1 c e a, @loadDefinition MR2 c e a with
  | Ok x, Ok y => definition x = definition y ∧ attributes x = attributes y
  | Err x, Err y => x = y
  | _, _ => False
  end.
Proof.
  pose proof (@loadDefinition_spec MR1 c e a) as H1. pose proof (@loadDefinition_spec MR2 c e a) as H2.
  destruct (@loadDefinition MR1 c e a), (@loadDefinition MR2 c e a).
  - destruct H1 as (? & ? & _), H2 as (? & ? & _). split; congruence.
  - destruct H1 as (_ & _ & ? & ?), H2 as (_ & []). by split.
  - destruct H2 as (_ & _ & ? & ?), H1 as (_ & []). by split.
  - destruct H1 as [-> _], H2 as [-> _]. reflexivity.
Qed.

Lemma attributeMask_order c n : @Semantics.attributeMask MR1 c n = @Semantics.attributeMask MR2 c n.
Proof. by rewrite !attributeMask_named. Qed.

Lemma validateSemantics_order i : @validateSemantics MR1 i = @validateSemantics MR2 i.
Proof.
  unfold validateSemantics, validateAniG, attributeValueError. by rewrite !attributeMask_order.
Qed.

Lemma normalize_order i j : @normalize MR1 i = Ok j → @normalize MR2 i = Ok j.
Proof.
  intros (-> & ? & ? & Hs)%normalize_Ok. apply normalize_intro; [done..|]. by rewrite <- validateSemantics_order.
Qed.

Lemma checkCapability_order i e : @checkCapability MR1 i e = @checkCapability MR2 i e.
Proof.
  destruct e as [[c n] cap]. unfold checkCapability. destruct (negb _); [done|].
  destruct (i_Attributes i !! n); [|done]. by rewrite !GetAttributesDefinitions_of, (byName_order MR1 MR2).
Qed.

Lemma normalizeIn_order s i j :
  validateInstance s = Some v1 →
  @normalizeIn MR1 _ s i = Ok j → @normalizeIn MR2 _ (withValidator s v2) i = Ok j.
Proof.
  intros Hv (Hn & Hc & Hval)%normalizeIn_Ok. rewrite Hv in Hval. unfold normalizeIn.
  rewrite (normalize_order _ _ Hn). cbn [mbind Res_bind].
  unfold validateAttributeCapabilities in *. cbn [attributeCapabilities withValidator validateInstance].
  rewrite (tests_range MR1 MR2 (@checkCapability MR1 j) (@checkCapability MR2 j)); [|by intros a; rewrite checkCapability_order|done].
  cbn [mbind Res_bind]. by rewrite validators.
Qed.

Lemma addFactory_order s i s' :
  validateInstance s = Some v1 → is_Some (supportedAttributes s) →
  @addFactory MR1 _ true s i = Ok s' →
  @addFactory MR2 _ true (withValidator s v2) i = Ok (withValidator s' v2) ∧
  validateInstance s' = Some v1 ∧ supportedAttributes s' = supportedAttributes s.
Proof.
  intros Hv [masks Hm] Ha. unfold addFactory in *. inv_ok Ha.
  unfold supportsClass in *. cbn [supportedClasses withValidator]. rewrite Hg. cbn [mbind Res_bind guard_err].
  destruct (@normalizeIn MR1 _ s _) as [n|] eqn:Hn; [|discriminate Ha].
  rewrite (normalizeIn_order _ _ _ Hv Hn). inv_ok Ha. cbn [factory withValidator]. rewrite Hg0.
  cbn [mbind Res_bind guard_err supportedAttributes withValidator] in *. rewrite Hm in *.
  pose proof (loadDefinition_order (ClassID_of n) (EntityID_of n) (i_Attributes n)) as Hl.
  inv_ok Ha. rewrite Hr in Hl. pose proof (loadDefinition_Ok _ _ _ _ Hr) as (Hd & _).
  destruct (@loadDefinition MR2 _ _ _) as [entity|]; [|destruct Hl]. destruct Hl as [Hl _].
  cbn [mbind Res_bind].
  match type of Ha with context [validateSupportedAttributes ?st x ?at_] =>
    destruct (@validateSupportedAttributes MR1 W st x at_) as [[]|] eqn:Hs; [|discriminate Ha] end.
  injection Ha as <-. apply (validateSupportedAttributes_Ok _ _ _ _ Hd) in Hs.
  match goal with |- context [@validateSupportedAttributes MR2 W ?st entity ?at_] =>
    replace (@validateSupportedAttributes MR2 W st entity at_) with (Ok tt : Res MibError unit);
      [split_and!; [reflexivity|exact Hv|reflexivity]|symmetry; apply (validateSupportedAttributes_Ok st entity (ClassID_of n))] end.
  - by rewrite <- Hl.
  - exact Hs.
Qed.

Lemma addFactories_order factory s s' :
  validateInstance s = Some v1 → is_Some (supportedAttributes s) →
  foldM_res (@addFactory MR1 _ true) factory s = Ok s' →
  foldM_res (@addFactory MR2 _ true) factory (withValidator s v2) = Ok (withValidator s' v2).
Proof.
  revert s. induction factory as [|i factory IH]; intros s Hv Hm Ha; cbn [foldM_res] in *.
  { by injection Ha as ->. }
  destruct (@addFactory MR1 W true s i) as [s1|] eqn:Hi; [|discriminate Ha]. cbn [mbind Res_bind] in Ha.
  apply (addFactory_order _ _ _ Hv Hm) in Hi as (-> & Hv1 & Hm1). cbn [mbind Res_bind].
  apply IH; [done|by rewrite Hm1|done].
Qed.

Lemma addSupportedClass_order masks acc c :
  @addSupportedClass MR1 masks acc c = @addSupportedClass MR2 masks acc c.
Proof.
  destruct acc as [classes attributes]. unfold addSupportedClass.
  destruct (guard_err _ _); cbn [mbind Res_bind]; [|done].
  pose proof (loadDefinition_order c 0 ∅) as Hl.
  destruct (@loadDefinition MR1 _ _ _), (@loadDefinition MR2 _ _ _); try done; cbn [mbind Res_bind].
  - destruct Hl as [-> _]. done.
  - by rewrite Hl.
Qed.

Lemma classPolicy_order (o1 o2 : Options W) r :
  o_SupportedClasses o1 = o_SupportedClasses o2 →
  o_SupportedAttributeMasks o1 = o_SupportedAttributeMasks o2 →
  @classPolicy MR1 _ o1 = Ok r → @classPolicy MR2 _ o2 = Ok r.
Proof.
  intros Hc Hm. unfold classPolicy. rewrite Hc, Hm. destruct (guard_err _ _); cbn [mbind Res_bind]; [|done].
  destruct (negb _); [done|].
  rewrite (foldM_ext (@addSupportedClass MR1 _) (@addSupportedClass MR2 _)) by apply addSupportedClass_order.
  destruct (foldM_res _ _ _) as [[classes attributes]|]; cbn [mbind Res_bind]; [|done].
  destruct (o_SupportedAttributeMasks o2) as [masks|]; [|done].
  match goal with |- context [foldM_res ?f (@range MR1 _ _ _ _ masks) tt] =>
    destruct (foldM_res f (@range MR1 _ _ _ _ masks) tt) as [[]|] eqn:Hf; [|done];
    rewrite (foldM_range MR1 MR2 f f) in Hf; [by rewrite Hf|done|] end.
  intros [] [c x] [c' x'] _. unfold guard_err. by destruct (negb (bool_decide (c ∈ classes))), (negb (bool_decide (c' ∈ classes))).
Qed.

Lemma checkCapabilityOptions_order (o1 o2 : Options W) classes attributes :
  o_SupportedAttributeMasks o1 = o_SupportedAttributeMasks o2 →
  o_AttributeCapabilities o1 = o_AttributeCapabilities o2 →
  @checkCapabilityOptions MR1 _ o1 classes attributes = Ok tt →
  @checkCapabilityOptions MR2 _ o2 classes attributes = Ok tt.
Proof.
  intros Hm Hc. unfold checkCapabilityOptions. rewrite Hm, Hc. case_bool_decide; [done|].
  destruct (guard_err _ _); cbn [mbind Res_bind]; [|done].
  apply tests_range. intros [[c n] cap]. unfold checkCapabilityOption.
  by rewrite !GetAttributesDefinitions_of, (byName_order MR1 MR2).
Qed.

Lemma NewWithOptions_order factory (o1 o2 : Options W) s :
  o_ExtendedVLANTableSize o1 = o_ExtendedVLANTableSize o2 → o_Applier o1 = o_Applier o2 →
  o_StateDomain o1 = o_StateDomain o2 → o_SupportedClasses o1 = o_SupportedClasses o2 →
  o_SupportedAttributeMasks o1 = o_SupportedAttributeMasks o2 →
  o_AttributeCapabilities o1 = o_AttributeCapabilities o2 →
  is_Some (o_SupportedAttributeMasks o1) → o_ValidateInstance o1 = Some v1 → o_ValidateInstance o2 = Some v2 →
  @NewWithOptions MR1 _ factory o1 = Ok s → @NewWithOptions MR2 _ factory o2 = Ok (withValidator s v2).
Proof.
  intros Ht Ha Hd Hc Hm Hk Hsome Hv1 Hv2 Hn. unfold NewWithOptions in *. rewrite <- Ht, <- Ha, <- Hd, <- Hm, <- Hk, Hv2.
  rewrite Hv1 in Hn. destruct (guard_err _ _); cbn [mbind Res_bind] in *; [|done].
  destruct (@classPolicy MR1 _ o1) as [[classes attributes]|] eqn:Hp; [|discriminate Hn]. cbn [mbind Res_bind] in Hn.
  assert (is_Some attributes) as Hattr.
  { unfold classPolicy in Hp. rewrite (bool_decide_eq_true_2 _ Hsome) in Hp.
    destruct (negb (bool_decide (o_SupportedClasses o1 = []))); cbn in Hp; [|discriminate Hp].
    destruct (foldM_res _ (o_SupportedClasses o1) _) as [[? ?]|]; [|discriminate Hp]. cbn [mbind Res_bind] in Hp.
    destruct (match o_SupportedAttributeMasks o1 with None => _ | Some _ => _ end); [|discriminate Hp].
    injection Hp as _ <-. by eexists. }
  rewrite (classPolicy_order _ _ _ Hc Hm Hp). cbn [mbind Res_bind].
  destruct (@checkCapabilityOptions MR1 _ o1 classes attributes) as [[]|] eqn:Hco; [|discriminate Hn].
  rewrite (checkCapabilityOptions_order _ _ _ _ Hm Hk Hco). cbn [mbind Res_bind] in *.
  rewrite (bool_decide_eq_true_2 _ Hsome) in *.
  match type of Hn with context [foldM_res _ factory ?st] => set (s0 := st) in * end.
  destruct (foldM_res (@addFactory MR1 W true) factory s0) as [s1|] eqn:Hf; [|discriminate Hn].
  apply addFactories_order in Hf; [|done|done]. cbn [mbind Res_bind] in Hn. injection Hn as <-.
  change (mkStore ∅ ∅ 0 _ _ _ _ _ _ _) with (withValidator s0 v2). by rewrite Hf.
Qed.
End opening.

(** ** The factory MIB *)

Definition loopInstances : list Instance_ :=
  concat (map tcontInstances (seq 0 (Z.to_nat defaultTContCount))) ++
  concat (map portInstances (seq 1 (length ethernetConfiguration))).

(** The T-CONTs, schedulers, queues and ports the hardware has. *)
Definition hardwareKeys : list Key :=
  concat (map (λ n, [(TContClassID, 0x8001 + Z.of_nat n); (TrafficSchedulerClassID, 0x8001 + Z.of_nat n)]) (seq 0 8)) ++
  map (λ n, (PriorityQueueClassID, 0x8000 + Z.of_nat n)) (seq 0 64) ++
  map (λ n, (PriorityQueueClassID, Z.of_nat n)) (seq 0 32) ++
  map (λ n, (PhysicalPathTerminationPointEthernetUniClassID, 0x0101 + Z.of_nat n)) (seq 0 4).

Definition hasKeys {W} (s : Store W) : bool :=
  forallb (λ k, bool_decide (is_Some (factory s !! k))) hardwareKeys.

Lemma hasKeys_spec {W} (s : Store W) k : hasKeys s = true → k ∈ hardwareKeys → is_Some (factory s !! k).
Proof.
  unfold hasKeys. generalize hardwareKeys. intros keys Hk Hin.
  rewrite forallb_forall in Hk. apply (bool_decide_eq_true_1 _). by apply Hk, list_elem_of_In.
Qed.

(** By computation: no check looks at the octets of the identity. *)
Lemma initialize_canonical {W} identity serial vendor pon mode stateDomain (applier : option (Applier W)) :
  mode = GPON ∨ mode = XGSPON →
  match @initializeMIB canonical_range W mode stateDomain
          (fixedInstances identity serial vendor pon ++ loopInstances) applier with
  | Ok s => hasKeys s = true
  | Err _ => False
  end.
Proof.
  unfold fixedInstances, softwareImage.
  generalize (octets (id_Version identity) 14), (octets (id_EquipmentID identity) 20),
    (octets (id_EquipmentID identity ++ bytesOf " Ethernet") 20), (octets pon 20), (id_RestartReason identity).
  intros version equipment ethernet ani reason.
  intros [-> | ->]; vm_compute; reflexivity.
Qed.

Lemma XG2010G_Ok identity factory :
  XG2010G identity = Ok factory →
  ∃ identity' serial vendor pon, factory = fixedInstances identity' serial vendor pon ++ loopInstances.
Proof.
  unfold XG2010G. destruct (Validate _); cbn [mbind Res_bind]; [|discriminate].
  destruct (serialOctets _) as [serial|]; cbn [mbind Res_bind]; [|discriminate].
  intros H. apply Ok_injective in H. rewrite <- H. unfold loopInstances.
  exists (withDefaults identity), serial, (take 4 serial). eexists. exact eq_refl.
Qed.

Lemma Validate_Ok mode u : Validate mode = Ok u ↔ mode = GPON ∨ mode = XGSPON.
Proof.
  unfold Validate. destruct u. split.
  - intros H. destruct (_ || _) eqn:Hb; [|discriminate H].
    apply orb_true_iff in Hb as [?%bool_decide_eq_true|?%bool_decide_eq_true]; auto.
  - intros [-> | ->]; reflexivity.
Qed.

Lemma guard_err_any {E} (b : bool) (e e' : E) u : guard_err b e = Ok u → guard_err b e' = Ok u.
Proof. by destruct b, u. Qed.

Lemma validator_order MR1 MR2 mode i :
  @XG2010GInstanceValidator MR1 mode i = Ok tt → @XG2010GInstanceValidator MR2 mode i = Ok tt.
Proof.
  unfold XG2010GInstanceValidator, XG2010GValidateInstance, xg2010gAttributeError.
  destruct (Validate mode); cbn [mbind Res_bind]; [|done].
  repeat (destruct (_ =? _); [first [exact (λ H, H)|apply guard_err_any]|]). exact (λ H, H).
Qed.

(** The daemon opens its store from the factory MIB, whatever the identity and the order in
    which maps are ranged over. *)
Lemma initialize_factory {MR : MapRange} {W} identity factory stateDomain (applier : option (Applier W)) :
  XG2010G identity = Ok factory →
  ∃ options s, mibOptions (id_PONMode identity) stateDomain factory applier = Ok options ∧
    NewWithOptions factory options = Ok s ∧ hasKeys s = true ∧
    validateInstance s = Some (XG2010GInstanceValidator (id_PONMode identity)).
Proof.
  intros Hx. assert (id_PONMode identity = GPON ∨ id_PONMode identity = XGSPON) as Hmode.
  { unfold XG2010G in Hx. destruct (Validate _) eqn:Hv; [|discriminate Hx]. by apply Validate_Ok in Hv. }
  apply XG2010G_Ok in Hx as (identity' & serial & vendor & pon & ->).
  pose proof (initialize_canonical identity' serial vendor pon _ stateDomain applier Hmode) as Hc.
  set (l := fixedInstances _ _ _ _ ++ loopInstances) in *. clearbody l.
  unfold initializeMIB, mibOptions in *. rewrite (masks_order MR canonical_range).
  destruct (@XG2010GSupportedAttributeMasks canonical_range _ _) as [masks|]; [|destruct Hc].
  cbn [mbind Res_bind] in *. destruct (@NewWithOptions canonical_range _ _ _) as [s|] eqn:Hn; [|destruct Hc].
  eexists. exists (withValidator s (XG2010GInstanceValidator (id_PONMode identity))).
  split; [exact eq_refl|]. split; [|by split].
  match type of Hn with _ _ ?o1 = _ => match goal with |- _ _ ?o2 = _ =>
    refine (NewWithOptions_order canonical_range MR _ _ (validator_order canonical_range MR _)
              l o1 o2 s eq_refl eq_refl eq_refl eq_refl eq_refl eq_refl _ eq_refl eq_refl Hn) end end.
  by eexists.
Qed.

Lemma length_serialOctets value serial : serialOctets value = Ok serial → length serial = 8%nat.
Proof.
  unfold serialOctets. destruct (length value =? 12)%nat eqn:Hl; cbn [negb guard_err mbind Res_bind]; [|by intros [=]].
  apply Nat.eqb_eq in Hl. destruct (mapM_res _ _) as [digits|] eqn:Hm; cbn [mbind Res_bind]; [|by intros [=]].
  intros H. apply Ok_injective in H. rewrite <- H, length_app, length_take, Hl.
  cbn [mapM_res seq] in Hm. repeat (destruct (scanHexOctet _ _); cbn [mbind Res_bind] in Hm; try discriminate Hm).
  apply Ok_injective in Hm. by rewrite <- Hm.
Qed.

Lemma XG2010G_total identity :
  id_PONMode identity = GPON ∨ id_PONMode identity = XGSPON →
  length (id_SerialNumber identity) = 12%nat →
  Forall (λ c, is_Some (hexValue c)) (drop 4 (id_SerialNumber identity)) →
  ∃ factory, XG2010G identity = Ok factory.
Proof.
  intros Hm Hl Hx. unfold XG2010G, serialOctets.
  assert (Validate (id_PONMode identity) = Ok tt) as -> by by apply Validate_Ok. cbn [mbind Res_bind].
  rewrite Hl. cbn [Nat.eqb negb guard_err mbind Res_bind mapM_res seq].
  destruct (id_SerialNumber identity) as [|c0 [|c1 [|c2 [|c3 rest]]]]; try discriminate Hl.
  do 8 (destruct rest as [|? rest]; [discriminate Hl|]). destruct rest; [|discriminate Hl]. cbn [drop] in Hx.
  repeat (apply Forall_cons in Hx as [[? Hc] Hx]; revert Hc).
  intros H7 H6 H5 H4 H3 H2 H1 H0. cbn [nth8 nth Nat.mul Nat.add].
  unfold scanHexOctet, nth8. cbn [nth]. rewrite H0, H1, H2, H3, H4, H5, H6, H7. cbn [mbind Res_bind].
  eexists. exact eq_refl.
Qed.

(** ** The theorems *)

(** C21: the daemon comes up: for every serial number of four characters and eight hexadecimal
    digits, every version and equipment id, both PON modes and every platform, the factory MIB
    of the model is accepted by the store under the model's class, attribute and capability
    policy, whatever the iteration order of the maps; the store it gives has every T-CONT,
    scheduler, queue and Ethernet port of the hardware and satisfies the store invariant. *)
Theorem factory_store {MR : MapRange} {W} identity stateDomain (applier : option (Applier W))
    (Hmode : id_PONMode identity = GPON ∨ id_PONMode identity = XGSPON)
    (Hlength : length (id_SerialNumber identity) = 12%nat)
    (Hhex : Forall (λ c, is_Some (hexValue c)) (drop 4 (id_SerialNumber identity))) :
  ∃ instances s, XG2010G identity = Ok instances ∧
    initializeMIB (id_PONMode identity) stateDomain instances applier = Ok s ∧
    store_inv s ∧ dataSync s = 0 ∧
    (∀ k, k ∈ hardwareKeys → ∃ i, current s !! k = Some i ∧ i_Origin i = OriginONU).
Proof.
  destruct (XG2010G_total identity Hmode Hlength Hhex) as [instances Hi].
  destruct (initialize_factory identity instances stateDomain applier Hi) as (options & s & Ho & Hs & Hk & _).
  exists instances, s. split; [exact Hi|]. unfold initializeMIB. rewrite Ho. cbn [mbind Res_bind].
  split; [exact Hs|]. destruct (NewWithOptions_inv _ _ _ Hs) as [Hinv H0]. split_and!; [done|done|].
  intros k Hin. apply (si_origin _ Hinv).
  by apply hasKeys_spec.
Qed.

(** What the hardware fixes about an instance of class [c] and entity id [e]. *)
Definition topology (c e : Z) (attributes : AttributeValueMap) : Prop :=
  (c = TrafficSchedulerClassID →
     (∀ v, attributes !! TrafficScheduler_TContPointer = Some (VU16 v) → v = e) ∧
     (∀ v, attributes !! TrafficScheduler_TrafficSchedulerPointer = Some (VU16 v) → v = 0)) ∧
  (c = TContClassID → ∀ v, attributes !! TCont_Policy = Some (VU8 v) → v = 0) ∧
  (c = PriorityQueueClassID →
     (∀ t p : nat, e = 0x8000 + 8 * Z.of_nat t + Z.of_nat p → (t < 8)%nat → (p < 8)%nat →
        (∀ v, attributes !! PriorityQueue_RelatedPort = Some (VU32 v) →
              v = (0x8001 + Z.of_nat t) * 2 ^ 16 + Z.of_nat p) ∧
        (∀ v, attributes !! PriorityQueue_TrafficSchedulerPointer = Some (VU16 v) →
              v = 0x8001 + Z.of_nat t)) ∧
     (∀ t p : nat, e = 8 * Z.of_nat t + Z.of_nat p → (t < 4)%nat → (p < 8)%nat →
        (∀ v, attributes !! PriorityQueue_RelatedPort = Some (VU32 v) →
              v = (0x0101 + Z.of_nat t) * 2 ^ 16 + Z.of_nat p) ∧
        (∀ v, attributes !! PriorityQueue_TrafficSchedulerPointer = Some (VU16 v) → v = 0))).

Lemma queue_numbers (t p : nat) :
  (t < 8)%nat → (p < 8)%nat →
  wantRelated (0x8000 + 8 * Z.of_nat t + Z.of_nat p) = (0x8001 + Z.of_nat t) * 2 ^ 16 + Z.of_nat p ∧
  wantScheduler (0x8000 + 8 * Z.of_nat t + Z.of_nat p) = 0x8001 + Z.of_nat t ∧
  wantRelated (8 * Z.of_nat t + Z.of_nat p) = (0x0101 + Z.of_nat t) * 2 ^ 16 + Z.of_nat p ∧
  wantScheduler (8 * Z.of_nat t + Z.of_nat p) = 0.
Proof.
  intros Ht Hp. do 8 (destruct t as [|t]; [do 8 (destruct p as [|p]; [by vm_compute|]); lia|]). lia.
Qed.

Lemma isAnd_false o test v : isAnd o test = false → o = Some v → test v = false.
Proof. by intros H ->. Qed.

Lemma validator_topology {MR : MapRange} mode i c e :
  i_Key i = (c, e) → XG2010GValidateInstance mode i = Ok tt → topology c e (i_Attributes i).
Proof.
  intros Hk Hv. unfold XG2010GValidateInstance, ClassID_of, EntityID_of in Hv. rewrite Hk in Hv. cbn [fst snd] in Hv.
  destruct (Validate mode); [|discriminate Hv]. cbn [mbind Res_bind] in Hv.
  split_and!; intros ->; cbn in Hv; unfold octetOf, shortOf, longOf in Hv.
  - apply guard_err_bind_Ok in Hv as [H1 H2]. apply guard_err_iff in H2.
    split; intros v Ha; rewrite Ha in *; cbn in *; lia.
  - apply guard_err_iff in Hv. intros v Ha. rewrite Ha in Hv. cbn in Hv. lia.
  - apply guard_err_bind_Ok in Hv as [H1 H2]. apply guard_err_iff in H2.
    split; intros t p -> Ht Hp; destruct (queue_numbers t p) as (E1 & E2 & E3 & E4); [lia|lia| |lia|lia|];
      split; intros v Ha; rewrite Ha in *; cbn [isAnd] in *; rewrite ?E1, ?E2, ?E3, ?E4 in *; lia.
Qed.

(** The hardware topology holds for ever: in every store the OMCI requests can reach from the factory
    MIB (creations, sets, table updates, deletions, resets, autonomous and command updates),
    every T-CONT, scheduler, queue and port of the hardware exists, every queue is related to
    its own port or T-CONT with its own priority and scheduled by the T-CONT's scheduler, every
    scheduler serves its own T-CONT and is not chained, and T-CONT policies stay fixed. *)
Theorem topology_fixed {MR : MapRange} {W} identity instances stateDomain (applier : option (Applier W)) options s
    (Hx : XG2010G identity = Ok instances)
    (Ho : mibOptions (id_PONMode identity) stateDomain instances applier = Ok options)
    (Hr : reachable instances options s) :
  (∀ k, k ∈ hardwareKeys → ∃ i, current s !! k = Some i ∧ i_Origin i = OriginONU) ∧
  (∀ c e i, current s !! (c, e) = Some i → topology c e (i_Attributes i)).
Proof.
  destruct (initialize_factory identity instances stateDomain applier Hx) as (options' & s0 & Ho' & Hs & Hk & Hv).
  rewrite Ho in Ho'. apply Ok_injective in Ho' as <-.
  destruct (reachable_frame _ _ _ Hr) as (s1 & Hs1 & Hframe). rewrite Hs in Hs1. apply Ok_injective in Hs1 as <-.
  assert (factory s = factory s0 ∧ validateInstance s = validateInstance s0) as [Hf Hv1] by by rewrite Hframe.
  pose proof (reachable_inv _ _ _ Hr) as Hinv. split.
  - intros k Hin. apply (si_origin _ Hinv). rewrite Hf.
    by apply hasKeys_spec.
  - intros c e i Hi. destruct (si_current _ Hinv _ _ Hi) as [Hkey _ _ _ _ _ Hn].
    destruct (decide (c = OnuDataClassID ∨ c = Onu3GClassID)) as [[-> | ->]|Hc];
      [split_and!; intros [=]..|].
    specialize (Hn ltac:(intros [= ? ?]; tauto) ltac:(intros [= ? ?]; tauto)).
    apply normalizeIn_Ok in Hn as (_ & _ & Hval). rewrite Hv1, Hv in Hval. by eapply validator_topology.
Qed.

(** ** A concrete identity *)

Definition sampleIdentity : Identity :=
  mkIdentity (bytesOf "XGPN0123abCD") (bytesOf "25.12") [] 1 XGSPON.

Lemma factory_store_witness :
  ∃ instances s, XG2010G sampleIdentity = Ok instances ∧
    @initializeMIB canonical_range unit XGSPON "xg2010g:xgspon" instances None = Ok s ∧
    @store_inv canonical_range unit s ∧ dataSync s = 0 ∧
    (∀ k, k ∈ hardwareKeys → ∃ i, current s !! k = Some i ∧ i_Origin i = OriginONU).
Proof.
  apply (@factory_store canonical_range unit sampleIdentity "xg2010g:xgspon" None); [by right|done|].
  repeat (constructor; [eexists; reflexivity|]). constructor.
Defined.

(** The topology after a request that changes a port. *)
Lemma topology_fixed_witness :
  ∃ instances options s res s',
    XG2010G sampleIdentity = Ok instances ∧
    @NewWithOptions canonical_range unit instances options = Ok s ∧
    @execute canonical_range unit s tt
      (RSet (PhysicalPathTerminationPointEthernetUniClassID, 0x0101) {[ "AdministrativeState" := VU8 1 ]})
    = (res, s', tt) ∧
    (∀ k, k ∈ hardwareKeys → ∃ i, current s' !! k = Some i ∧ i_Origin i = OriginONU) ∧
    (∀ c e i, current s' !! (c, e) = Some i → topology c e (i_Attributes i)).
Proof.
  destruct (XG2010G_total sampleIdentity) as [instances Hi];
    [by right|done|repeat (constructor; [eexists; reflexivity|]); constructor|].
  destruct (@initialize_factory canonical_range unit sampleIdentity instances "xg2010g:xgspon" None Hi)
    as (options & s & Ho & Hs & _).
  destruct (@execute canonical_range unit s tt
    (RSet (PhysicalPathTerminationPointEthernetUniClassID, 0x0101) {[ "AdministrativeState" := VU8 1 ]}))
    as [[res s'] []] eqn:Hx.
  exists instances, options, s, res, s'. split; [exact Hi|]. split; [exact Hs|]. split; [exact Hx|].
  apply (@topology_fixed canonical_range unit sampleIdentity instances "xg2010g:xgspon" None options s' Hi Ho).
  eapply reach_step; [by apply reach_new|exact Hx].
Defined.

(** ** State domains and status records *)

(** Persisted states of different PON modes never share a domain. *)
Lemma StateDomain_injective m1 m2 d : StateDomain m1 = Ok d → StateDomain m2 = Ok d → m1 = m2.
Proof.
  unfold StateDomain. destruct (Validate m1), (Validate m2); try done.
  intros [= <-] [= E]. by simplify_eq.
Qed.

Lemma length_Encode r : length (Encode r) = RecordSize.
Proof. unfold Encode. cbn [length]. by rewrite !length_app, !length_put_be. Qed.

(** [Sscanf] stops at the first byte that is not a digit, so a pair of one digit is accepted. *)
Example serialOctets_partial_digits :
  serialOctets (bytesOf "ABCDAG3 5678") = Ok (bytesOf "ABCD" ++ [0x0a; 0x03; 0x56; 0x78]).
Proof. reflexivity. Qed.
