(* ===== verification/MibState.v ===== *)
(** * MIB: the saved state

    src/internal/mib/state.go: the document the MIB is saved in, its encoding and decoding, and the
    store that is restored from it.  A document comes from outside, so its fields hold whatever
    their JSON types allow. *)

From S2P Require Import Prelude Maps MeTypes MeClasses MeLib Mib MeNames Table Semantics Store.

Definition StateVersion : Z := 1.

Record StateAttribute := mkStateAttribute {
  sa_Name : string;
  sa_Kind : string;
  sa_Unsigned : Z;
  sa_Octets : list Z;
  sa_Values : list Z;
  sa_NumRows : Z
}.

(** [st_Origin] is the number of an [Origin]. *)
Record StateInstance := mkStateInstance {
  st_ClassID : Z;
  st_EntityID : Z;
  st_Origin : Z;
  st_Attributes : list StateAttribute
}.

Record State := mkState {
  st_Version : Z;
  st_StateDomain : string;
  st_MIBDataSync : Z;
  st_Instances : list StateInstance
}.

(** [OriginONU] and [OriginOLT] are 0 and 1. *)
Definition originNumber (origin : Origin) : Z := match origin with OriginONU => 0 | OriginOLT => 1 end.
Definition originOf (number : Z) : option Origin :=
  if number =? 0 then Some OriginONU else if number =? 1 then Some OriginOLT else None.

(** ** Attribute values *)

Definition encodeStateAttribute (name : string) (value : Value) : Res MibError StateAttribute :=
  match value with
  | VU8 typed => Ok (mkStateAttribute name "uint8" typed [] [] 0)
  | VU16 typed => Ok (mkStateAttribute name "uint16" typed [] [] 0)
  | VU32 typed => Ok (mkStateAttribute name "uint32" typed [] [] 0)
  | VU64 typed => Ok (mkStateAttribute name "uint64" typed [] [] 0)
  | VOctets typed => Ok (mkStateAttribute name "octets" 0 typed [] 0)
  | VU16s typed => Ok (mkStateAttribute name "uint16s" 0 [] typed 0)
  | VU32s typed => Ok (mkStateAttribute name "uint32s" 0 [] typed 0)
  | VU64s typed => Ok (mkStateAttribute name "uint64s" 0 [] typed 0)
  | VTable typed => Ok (mkStateAttribute name "table" 0 (Rows typed) [] (NumRows typed))
  | VNil | VOther _ => Err (PlainError "unsupported value type")
  end.

(** The loops over an array value. *)
Definition boundedValues (limit : Z) (values : list Z) : Res MibError (list Z) :=
  mapM_res (λ value, _ ← guard_err (limit <? value) (PlainError "array value is out of range"); Ok value) values.

Definition decodeStateAttribute (attribute : StateAttribute) : Res MibError Value :=
  let kind name := bool_decide (sa_Kind attribute = name) in
  let unsigned limit := guard_err (limit <? sa_Unsigned attribute) (PlainError "value is out of range") in
  if kind "uint8" then _ ← unsigned 0xff; Ok (VU8 (sa_Unsigned attribute))
  else if kind "uint16" then _ ← unsigned 0xffff; Ok (VU16 (sa_Unsigned attribute))
  else if kind "uint32" then _ ← unsigned 0xffffffff; Ok (VU32 (sa_Unsigned attribute))
  else if kind "uint64" then Ok (VU64 (sa_Unsigned attribute))
  else if kind "octets" then Ok (VOctets (sa_Octets attribute))
  else if kind "uint16s" then values ← boundedValues 0xffff (sa_Values attribute); Ok (VU16s values)
  else if kind "uint32s" then values ← boundedValues 0xffffffff (sa_Values attribute); Ok (VU32s values)
  else if kind "uint64s" then Ok (VU64s (sa_Values attribute))
  else if kind "table" then
    _ ← guard_err (sa_NumRows attribute <? 0) (PlainError "table row count is invalid");
    Ok (VTable (mkRows (sa_NumRows attribute) (sa_Octets attribute)))
  else Err (PlainError "unsupported value kind").

(** ** Decoding a document *)

Definition decodeAttribute (attributes : AttributeValueMap) (attribute : StateAttribute)
    : Res MibError AttributeValueMap :=
  _ ← guard_err (bool_decide (sa_Name attribute = "")) (PlainError "unnamed attribute");
  _ ← guard_err (bool_decide (is_Some (attributes !! sa_Name attribute))) (PlainError "duplicate attribute");
  value ← decodeStateAttribute attribute;
  Ok (<[sa_Name attribute := value]> attributes).

Definition decodeInstance (acc : gset Key * list Instance_) (encoded : StateInstance)
    : Res MibError (gset Key * list Instance_) :=
  let '(seen, instances) := acc in
  let key : Key := (st_ClassID encoded, st_EntityID encoded) in
  _ ← guard_err (bool_decide (key ∈ seen)) (PlainError "duplicate ME");
  match originOf (st_Origin encoded) with
  | None => Err (PlainError "invalid origin")
  | Some origin =>
      attributes ← foldM_res decodeAttribute (st_Attributes encoded) ∅;
      Ok ({[key]} ∪ seen, instances ++ [mkInstance key attributes origin])
  end.

Definition decode (s : State) : Res MibError (list Instance_) :=
  _ ← guard_err (negb (st_Version s =? StateVersion)) (PlainError "unsupported MIB state version");
  _ ← guard_err (length (st_Instances s) =? 0)%nat (PlainError "no managed entities");
  '(_, instances) ← foldM_res decodeInstance (st_Instances s) (∅, []);
  Ok instances.

(** [State.Validate]: the data sync attribute of ONU data agrees with the document. *)
Definition validateState (s : State) : Res MibError unit :=
  instances ← decode s;
  match List.find (λ instance, bool_decide (i_Key instance = onuDataKey)) instances with
  | None => Err (PlainError "no ONU data ME")
  | Some instance =>
      match i_Attributes instance !! OnuData_MibDataSync with
      | Some (VU8 dataSync) => guard_err (negb (dataSync =? st_MIBDataSync s)) (PlainError "data sync does not match")
      | _ => Err (PlainError "data sync does not match")
      end
  end.

Section state.
Context {MR : MapRange} {W : Type}.

(** ** Encoding a snapshot *)

Definition byName (a b : StateAttribute) : Prop := string_le (sa_Name a) (sa_Name b).
#[export] Instance byName_dec a b : Decision (byName a b).
Proof. unfold byName. apply _. Defined.

Definition byKeyOf (a b : StateInstance) : Prop :=
  pair_le (st_ClassID a, st_EntityID a) (st_ClassID b, st_EntityID b).
#[export] Instance byKeyOf_dec a b : Decision (byKeyOf a b).
Proof. unfold byKeyOf. apply _. Defined.

Definition encodeInstance (instance : Instance_) : Res MibError StateInstance :=
  attributes ← mapM_res (λ '(name, value), encodeStateAttribute name value) (range (i_Attributes instance));
  Ok (mkStateInstance (ClassID_of instance) (EntityID_of instance) (originNumber (i_Origin instance))
        (merge_sort byName attributes)).

(** [stateDomain] is the variadic parameter. *)
Definition ExportState (snapshot : list Instance_) (dataSync : Z) (stateDomain : list string) : Res MibError State :=
  _ ← guard_err (1 <? length stateDomain)%nat (PlainError "multiple compatibility domains");
  instances ← mapM_res encodeInstance snapshot;
  let state := mkState StateVersion (default "" (head stateDomain)) dataSync (merge_sort byKeyOf instances) in
  _ ← validateState state;
  Ok state.

(** ** Restoring a store *)

Definition sameAttributeNames (left right : AttributeValueMap) : bool :=
  (size left =? size right)%nat &&
  forallb (λ entry, bool_decide (is_Some (right !! entry.1))) (range left).

(** The access of the class of an instance; [None] when its definition does not load. *)
Definition normalizedEntityDefinition (instance : Instance_) : option ManagedEntity :=
  match loadDefinition (ClassID_of instance) (EntityID_of instance) (i_Attributes instance) with
  | Err _ => None
  | Ok entity => Some entity
  end.

Definition validateRestoredIdentity (factory restored : gmap Key Instance_) : Res MibError unit :=
  let key : Key := (OnuGClassID, 0) in
  match factory !! key, restored !! key with
  | Some want, Some got =>
      foldM_res (λ _ name, guard_err (negb (bool_decide (default VNil (i_Attributes want !! name) =
                                                           default VNil (i_Attributes got !! name))))
                             (PlainError "restored ONU-G does not match configured identity"))
        [OnuG_VendorId; OnuG_SerialNumber] tt
  | _, _ => Err (PlainError "ONU-G identity ME is missing")
  end.

(** One restored instance. *)
Definition restoreInstance (s : Store W) (current : gmap Key Instance_) (instance : Instance_)
    : Res MibError (gmap Key Instance_) :=
  _ ← guard_err (bool_decide (is_Some (current !! i_Key instance))) (PlainError "duplicate restored ME");
  match normalizeIn s instance with
  | Err _ => Err (PlainError "invalid restored ME")
  | Ok normalized =>
      _ ← guard_err (negb (supportsClass s (ClassID_of instance))) (PlainError "restored ME is not supported");
      entity ← loadDefinition (ClassID_of normalized) (EntityID_of normalized) (i_Attributes normalized);
      match validateSupportedAttributes s entity (i_Attributes normalized) with
      | Err _ => Err (PlainError "restored ME has unsupported attributes")
      | Ok _ =>
          _ ← match i_Origin instance with
              | OriginONU =>
                  match factory s !! i_Key instance with
                  | None => Err (PlainError "restored ME is not in the factory MIB")
                  | Some factoryInstance =>
                      guard_err (negb (sameAttributeNames (i_Attributes factoryInstance) (i_Attributes normalized)))
                        (PlainError "attribute set does not match the factory MIB")
                  end
              | OriginOLT =>
                  match normalizedEntityDefinition normalized with
                  | None => Err (PlainError "incompatible access")
                  | Some definition => guard_err (negb (createdByOlt definition)) (PlainError "incompatible access")
                  end
              end;
          Ok (<[i_Key normalized := mkInstance (i_Key normalized) (i_Attributes normalized) (i_Origin instance)]> current)
      end
  end.

(** One factory instance: it was restored with its origin, or is an ONU3-G the document lacks. *)
Definition restoreFactory (current : gmap Key Instance_) (entry : Key * Instance_) : Res MibError (gmap Key Instance_) :=
  let '(key, factoryInstance) := entry in
  match current !! key with
  | None => if bool_decide (key = onu3Key) then Ok (<[key := factoryInstance]> current)
            else Err (PlainError "factory ME is missing")
  | Some instance =>
      if bool_decide (i_Origin instance = OriginONU) then Ok current else Err (PlainError "factory ME is missing")
  end.

Definition NewFromState (factory_ : list Instance_) (state : State) (options : Options W) : Res MibError (Store W) :=
  _ ← guard_err (negb (bool_decide (st_StateDomain state = o_StateDomain options))) (PlainError "MIB state domain");
  store ← NewWithOptions factory_ options;
  restored ← decode state;
  current ← foldM_res (restoreInstance store) restored ∅;
  current ← foldM_res restoreFactory (range (factory store)) current;
  _ ← validateRestoredIdentity (factory store) current;
  match current !! onuDataKey with
  | None => Err (PlainError "restored ONU data ME is missing")
  | Some onuData =>
      match i_Attributes onuData !! OnuData_MibDataSync with
      | Some (VU8 dataSync) =>
          _ ← guard_err (negb (dataSync =? st_MIBDataSync state)) (PlainError "data sync does not match");
          Ok (withState store current dataSync)
      | _ => Err (PlainError "data sync does not match")
      end
  end.

(** ** Restoring the ONU3-G records only *)

Definition byKeys (instances : list Instance_) : gmap Key Instance_ :=
  fold_left (λ m instance, <[i_Key instance := instance]> m) instances ∅.

(** The attributes taken from the document. *)
Definition onu3Restored : list string :=
  [Onu3G_NumberOfValidStatusSnapshots; Onu3G_NextStatusSnapshotIndex; Onu3G_StatusSnapshotRecordTable;
   Onu3G_MostRecentStatusSnapshot].

(** [current.Attributes[name] = cloneValue(persisted.Attributes[name])]: a missing one becomes nil. *)
Definition copyAttribute (persisted : AttributeValueMap) (current : Instance_) (name : string) : Instance_ :=
  withAttribute current name (default VNil (persisted !! name)).

Definition RestoreONU3Factory (factory_ : list Instance_) (state : State) (stateDomain : list string)
    : Res MibError (list Instance_) :=
  _ ← guard_err (1 <? length stateDomain)%nat (PlainError "multiple compatibility domains");
  _ ← match stateDomain with
      | [domain] => guard_err (negb (bool_decide (st_StateDomain state = domain))) (PlainError "MIB state domain")
      | _ => Ok tt
      end;
  _ ← validateState state;
  restored ← decode state;
  let factoryMap := byKeys factory_ in
  let restoredMap := byKeys restored in
  _ ← validateRestoredIdentity factoryMap restoredMap;
  match factoryMap !! onu3Key with
  | None => Err (PlainError "factory MIB has no ONU3-G ME")
  | Some current =>
      match restoredMap !! onu3Key with
      | None => Ok (snapshotInstances factoryMap)
      | Some persisted =>
          _ ← guard_err (negb (bool_decide (i_Origin persisted = OriginONU))) (PlainError "persisted ONU3-G ME has an origin");
          match normalize persisted with
          | Err _ => Err (PlainError "invalid persisted ONU3-G ME")
          | Ok persisted =>
              _ ← guard_err (negb (bool_decide
                     (i_Attributes persisted !! Onu3G_TotalNumberOfStatusSnapshots =
                      i_Attributes current !! Onu3G_TotalNumberOfStatusSnapshots)))
                    (PlainError "snapshot capacity does not match");
              match normalize (fold_left (copyAttribute (i_Attributes persisted)) onu3Restored current) with
              | Err _ => Err (PlainError "merge persisted ONU3-G ME")
              | Ok current => Ok (snapshotInstances (<[onu3Key := current]> factoryMap))
              end
          end
      end
  end.
End state.
