(* ===== verification/MibStateProps.v ===== *)
(** * MIB: what saving and restoring keep

    A saved MIB decodes to the instances it was saved from; a store that is restored from any
    document satisfies the store invariant, and a store that is restored from its own document
    is the store that was saved. *)

From S2P Require Import Prelude Maps MeTypes MeClasses MeLib Mib MeNames Table Semantics Store.
From S2P Require Import StoreLemmas StoreInvariant StoreProps Model ModelProps MibState.

(** ** Values of the Go types *)

(** The values a document can hold: each integer within its width, no nil. *)
Definition storable (value : Value) : Prop :=
  match value with
  | VU8 x => is_u 8 x
  | VU16 x => is_u 16 x
  | VU32 x => is_u 32 x
  | VU64 x => is_u 64 x
  | VOctets _ => True
  | VU16s l => Forall (is_u 16) l
  | VU32s l => Forall (is_u 32) l
  | VU64s l => Forall (is_u 64) l
  | VTable t => 0 ≤ NumRows t
  | VNil | VOther _ => False
  end.
#[export] Instance storable_dec value : Decision (storable value).
Proof. destruct value; cbn; apply _. Defined.

Definition storable_instance (i : Instance_) : Prop := map_Forall (λ name v, name ≠ "" ∧ storable v) (i_Attributes i).
#[export] Instance storable_instance_dec i : Decision (storable_instance i).
Proof. unfold storable_instance. apply _. Defined.

(** ** Attributes *)

Lemma boundedValues_Ok limit w l : limit = 2 ^ w - 1 → Forall (is_u w) l → boundedValues limit l = Ok l.
Proof.
  intros -> Hl. induction Hl as [|x l Hx Hl IH]; [done|]. unfold boundedValues in *. cbn [mapM_res].
  unfold is_u in Hx. rewrite (proj2 (guard_err_iff _ _ tt)) by lia. cbn [mbind Res_bind]. by rewrite IH.
Qed.

Lemma encode_decode name v :
  storable v → ∃ a, encodeStateAttribute name v = Ok a ∧ sa_Name a = name ∧ decodeStateAttribute a = Ok v.
Proof.
  destruct v as [|x|x|x|x|l|l|l|l|t|]; intros Hv; cbn [storable] in Hv; try done;
    eexists; (split; [reflexivity|]); (split; [reflexivity|]);
    unfold decodeStateAttribute, is_u in *; cbn;
    repeat (rewrite bool_decide_false by done); rewrite bool_decide_true by done;
    repeat (rewrite (proj2 (guard_err_iff _ _ tt)) by lia; cbn [mbind Res_bind]); try done.
  - fold (boundedValues 0xffff l). by rewrite (boundedValues_Ok _ 16).
  - fold (boundedValues 0xffffffff l). by rewrite (boundedValues_Ok _ 32).
  - by destruct t.
Qed.

Lemma decodeAttributes_Ok target l m :
  Forall (λ a, sa_Name a ≠ "" ∧ ∃ v, decodeStateAttribute a = Ok v ∧ target !! sa_Name a = Some v) l →
  NoDup (sa_Name <$> l) → (∀ a, a ∈ l → m !! sa_Name a = None) → m ⊆ target →
  ∃ r, foldM_res decodeAttribute l m = Ok r ∧ r ⊆ target ∧ m ⊆ r ∧ ∀ n, n ∈ sa_Name <$> l → is_Some (r !! n).
Proof.
  revert m. induction l as [|a l IH]; intros m Hl Hnd Hm Hsub.
  { exists m. split_and!; [done..|]. by intros n ?%elem_of_nil. }
  apply Forall_cons in Hl as [(Hname & v & Hv & Ht) Hl]. rewrite fmap_cons in *. apply NoDup_cons in Hnd as [Ha Hnd].
  assert (m !! sa_Name a = None) as Hma by (apply Hm; by left).
  assert (decodeAttribute m a = Ok (<[sa_Name a := v]> m)) as Hstep.
  { unfold decodeAttribute. rewrite (bool_decide_false (sa_Name a = "")) by done. cbn [guard_err mbind Res_bind].
    rewrite (bool_decide_false (is_Some _)) by (rewrite Hma; by apply is_Some_None). cbn [guard_err mbind Res_bind]. by rewrite Hv. }
  cbn [foldM_res]. rewrite Hstep. cbn [mbind Res_bind].
  edestruct (IH (<[sa_Name a := v]> m)) as (r & Hr & Hrt & Hmr & Hn); [done|done| | |].
  - intros b Hb. rewrite lookup_insert_ne; [apply Hm; by right|]. intros He. apply Ha. rewrite He. by apply list_elem_of_fmap_2.
  - by apply insert_subseteq_l.
  - exists r. split_and!; [done|done| |].
    + etrans; [|exact Hmr]. by apply insert_subseteq.
    + intros n [->|Hin]%elem_of_cons; [|by apply Hn]. exists v. by apply (lookup_weaken _ _ _ _ (lookup_insert_eq _ _ _) Hmr).
Qed.

Section encode.
Context {MR : MapRange}.

Lemma encodeAttributes (l : list (string * Value)) :
  Forall (λ e, storable e.2) l →
  ∃ as_, mapM_res (λ '(name, value), encodeStateAttribute name value) l = Ok as_ ∧
    Forall2 (λ e a, sa_Name a = e.1 ∧ decodeStateAttribute a = Ok e.2) l as_.
Proof.
  induction 1 as [|[n v] l Hv _ (as_ & Has & Hl)]; [by exists []|]. cbn [mapM_res].
  destruct (encode_decode n v Hv) as (a & -> & Hn & Hd). rewrite Has. cbn [mbind Res_bind].
  exists (a :: as_). split; [done|]. by constructor.
Qed.

(** The attributes of an instance come back, whatever the order they are saved in. *)
Lemma instance_roundtrip i :
  storable_instance i →
  ∃ e, encodeInstance i = Ok e ∧ st_ClassID e = ClassID_of i ∧ st_EntityID e = EntityID_of i ∧
    ∀ seen acc, i_Key i ∉ seen → decodeInstance (seen, acc) e = Ok ({[i_Key i]} ∪ seen, acc ++ [i]).
Proof.
  intros Hi. assert (Forall (λ e, e.1 ≠ "" ∧ storable e.2) (range (i_Attributes i))) as Hr.
  { apply Forall_forall. intros [n v] Hin%elem_of_range. by apply (Hi n v). }
  destruct (encodeAttributes (range (i_Attributes i))) as (as_ & Has & Hl); [by eapply Forall_impl; [exact Hr|intros ? []]|].
  unfold encodeInstance. rewrite Has. cbn [mbind Res_bind]. eexists. split; [reflexivity|]. split_and!; [done..|].
  intros seen acc Hseen. unfold decodeInstance. cbn [st_ClassID st_EntityID st_Origin st_Attributes].
  unfold ClassID_of, EntityID_of. rewrite <- surjective_pairing, bool_decide_false by done. cbn [guard_err mbind Res_bind].
  assert (originOf (originNumber (i_Origin i)) = Some (i_Origin i)) as -> by by destruct (i_Origin i).
  assert (Hp : merge_sort byName as_ ≡ₚ as_) by apply merge_sort_Permutation.
  assert (sa_Name <$> as_ = (range (i_Attributes i)).*1) as Hnames by (clear -Hl; induction Hl; csimpl; naive_solver congruence).
  destruct (decodeAttributes_Ok (i_Attributes i) (merge_sort byName as_) ∅) as (r & Hr' & Hsub & _ & Hall).
  - rewrite Hp. eapply Forall2_Forall_r; [exact Hl|]. apply Forall_forall. intros [n v] Hin a [-> Hd].
    rewrite Forall_forall in Hr. apply Hr in Hin as Hn. apply elem_of_range in Hin. cbn in *. naive_solver.
  - rewrite Hp, Hnames. apply NoDup_range_fst.
  - intros. apply lookup_empty.
  - apply map_empty_subseteq.
  - rewrite Hr'. cbn [mbind Res_bind]. do 3 f_equal. destruct i as [k attrs o]. cbn in *. do 2 f_equal.
    apply map_eq. intros n. destruct (attrs !! n) as [v|] eqn:Hv.
    + destruct (Hall n) as [v' Hv'].
      { rewrite Hp, Hnames. apply list_elem_of_fmap. exists (n, v). by rewrite elem_of_range. }
      rewrite Hv'. by rewrite <- (lookup_weaken _ _ _ _ Hv' Hsub).
    + destruct (r !! n) as [v'|] eqn:Hv'; [|done]. by rewrite (lookup_weaken _ _ _ _ Hv' Hsub) in Hv.
Qed.

(** ** Documents *)

(** [e] is the saved form of [i]. *)
Definition saved (i : Instance_) (e : StateInstance) : Prop :=
  st_ClassID e = ClassID_of i ∧ st_EntityID e = EntityID_of i ∧
  ∀ seen acc, i_Key i ∉ seen → decodeInstance (seen, acc) e = Ok ({[i_Key i]} ∪ seen, acc ++ [i]).

Lemma encodeInstances l :
  Forall storable_instance l → ∃ es, mapM_res encodeInstance l = Ok es ∧ Forall2 saved l es.
Proof.
  induction 1 as [|i l Hi _ (es & Hes & Hl)]; [by exists []|]. cbn [mapM_res].
  destruct (instance_roundtrip i Hi) as (e & -> & Hs). rewrite Hes. cbn [mbind Res_bind].
  exists (e :: es). split; [done|]. by constructor.
Qed.

Lemma decodeInstances l es seen acc :
  Forall2 saved l es → NoDup (i_Key <$> l) → (∀ i, i ∈ l → i_Key i ∉ seen) →
  ∃ seen', foldM_res decodeInstance es (seen, acc) = Ok (seen', acc ++ l).
Proof.
  intros Hl. revert seen acc. induction Hl as [|i e l es (_ & _ & Hi) Hl IH]; intros seen acc Hnd Hseen.
  { exists seen. by rewrite app_nil_r. }
  rewrite fmap_cons in Hnd. apply NoDup_cons in Hnd as [Hk Hnd]. cbn [foldM_res]. rewrite Hi by (apply Hseen; by left).
  cbn [mbind Res_bind]. destruct (IH ({[i_Key i]} ∪ seen) (acc ++ [i]) Hnd) as [seen' Hs].
  - intros j Hj. rewrite elem_of_union, elem_of_singleton. intros [He|Hin].
    + apply Hk. rewrite <- He. by apply list_elem_of_fmap_2.
    + revert Hin. apply Hseen. by right.
  - exists seen'. rewrite Hs. by rewrite <- app_assoc.
Qed.

Lemma saved_keys l es : Forall2 saved l es → (λ e, (st_ClassID e, st_EntityID e)) <$> es = i_Key <$> l.
Proof.
  induction 1 as [|i e l es (Hc & He & _) _ IH]; [done|]. csimpl. rewrite IH, Hc, He.
  unfold ClassID_of, EntityID_of. by rewrite <- surjective_pairing.
Qed.

#[export] Instance byKeyOf_total : Total byKeyOf.
Proof. intros a b. unfold byKeyOf. apply (key_total (le := pair_le)). Qed.
#[export] Instance byKeyOf_trans : Transitive byKeyOf.
Proof. intros a b c. unfold byKeyOf. apply (key_trans (le := pair_le)). Qed.

(** The instances of a snapshot are saved in its order. *)
Lemma saved_sorted l es :
  Forall2 saved l es → NoDup (i_Key <$> l) → StronglySorted instance_le l → merge_sort byKeyOf es = es.
Proof.
  intros Hs Hnd Hl. pose proof (saved_keys _ _ Hs) as Hk.
  apply (sorted_by_key_unique byKeyOf); [apply merge_sort_Permutation| |apply StronglySorted_merge_sort; apply _|].
  - intros a b. rewrite !merge_sort_Permutation. intros Ha Hb Hab Hba.
    apply (NoDup_key_inj (λ e, (st_ClassID e, st_EntityID e)) es); [by rewrite Hk|done..|].
    by apply (key_antisymm (le := pair_le)).
  - assert (StronglySorted pair_le ((λ e, (st_ClassID e, st_EntityID e)) <$> es)) as Hes.
    { rewrite Hk. apply (StronglySorted_fmap i_Key instance_le pair_le); [by intros|done]. }
    clear -Hes. induction es as [|e es IH]; [constructor|]. rewrite fmap_cons in Hes.
    apply StronglySorted_inv in Hes as [Hes He]. constructor; [by apply IH|]. rewrite Forall_fmap in He. exact He.
Qed.

(** Saving a MIB and reading the document gives back its instances. *)
Lemma snapshot_roundtrip l sync domain :
  l ≠ [] → Forall storable_instance l → NoDup (i_Key <$> l) → StronglySorted instance_le l →
  (∃ i, i ∈ l ∧ i_Key i = onuDataKey ∧ i_Attributes i !! OnuData_MibDataSync = Some (VU8 sync)) →
  ∃ st, ExportState l sync [domain] = Ok st ∧ decode st = Ok l ∧ st_StateDomain st = domain ∧ st_MIBDataSync st = sync.
Proof.
  intros Hne Hst Hnd Hsort (d & Hd & Hdk & Hda). destruct (encodeInstances l Hst) as (es & Hes & Hl).
  unfold ExportState. cbn [length guard_err]. rewrite Hes. cbn [mbind Res_bind head default guard_err].
  rewrite (proj2 (guard_err_iff _ _ tt)) by done. cbn [mbind Res_bind].
  rewrite (saved_sorted _ _ Hl Hnd Hsort). set (st := mkState _ _ _ _).
  assert (decode st = Ok l) as Hdec.
  { unfold decode. cbn [st st_Version st_Instances]. rewrite Z.eqb_refl. cbn [negb guard_err mbind Res_bind].
    rewrite (proj2 (guard_err_iff _ _ tt)).
    2: { apply Forall2_length in Hl. rewrite <- Hl. by destruct l. }
    cbn [mbind Res_bind]. destruct (decodeInstances l es ∅ [] Hl Hnd) as [seen ->]; [set_solver|done]. }
  exists st. split_and!; [|done..]. unfold validateState. rewrite Hdec. cbn [mbind Res_bind].
  destruct (List.find _ l) as [i|] eqn:Hf.
  - apply List.find_some in Hf as [Hi Hk]. apply bool_decide_eq_true in Hk. apply list_elem_of_In in Hi.
    assert (i = d) as -> by (apply (NoDup_key_inj i_Key l); [done..|congruence]).
    rewrite Hda. cbn [st st_MIBDataSync]. by rewrite Z.eqb_refl.
  - exfalso. apply list_elem_of_In in Hd. pose proof (List.find_none _ _ Hf _ Hd) as Hn. cbn in Hn.
    by rewrite bool_decide_true in Hn.
Qed.
End encode.

(** ** Restoring *)

Section restore.
Context {MR : MapRange} {W : Type}.
Implicit Types s : Store W.

Lemma restoreInstance_Ok s m j m' :
  restoreInstance s m j = Ok m' →
  m !! i_Key j = None ∧ m' = <[i_Key j := normalized j]> m ∧ instance_inv s (i_Key j) (normalized j) ∧
  (i_Origin j = OriginONU → is_Some (factory s !! i_Key j)).
Proof.
  unfold restoreInstance. intros H. apply guard_err_bind_Ok in H as [Hfresh H].
  apply bool_decide_eq_false, eq_None_not_Some in Hfresh.
  destruct (normalizeIn s j) as [n|] eqn:Hn; [|done]. apply guard_err_bind_Ok in H as [Hsup H].
  apply Res_bind_Ok in H as (entity & He & H). apply loadDefinition_Ok in He as (Hd & _).
  destruct (validateSupportedAttributes _ _ _) as [[]|] eqn:Hv; [|done].
  apply (validateSupportedAttributes_Ok s entity (ClassID_of n)) in Hv; [|done].
  apply Res_bind_Ok in H as ([] & Ho & H). injection H as <-.
  pose proof (normalizeIn_fixed _ _ _ Hn) as Hfix. apply normalizeIn_shape in Hn as (-> & Hk & Hnames).
  split_and!; [done|by destruct j| |].
  - split; cbn [normalized withAttribute i_Key i_Attributes].
    + done.
    + by rewrite lookup_insert_eq.
    + done.
    + by apply negb_false_iff.
    + apply names_known_insert; [by left|done].
    + intros _. exact Hv.
    + intros _ _. exact Hfix.
  - intros Hj. rewrite Hj in Ho. by destruct (factory s !! i_Key j).
Qed.

(** The instances of a document, normalized. *)
Lemma restore_document s l m :
  foldM_res (restoreInstance s) l ∅ = Ok m →
  (∀ k i, m !! k = Some i ↔ ∃ j, j ∈ l ∧ i_Key j = k ∧ i = normalized j) ∧
  (∀ j, j ∈ l → instance_inv s (i_Key j) (normalized j) ∧
     (i_Origin j = OriginONU → is_Some (factory s !! i_Key j))).
Proof.
  revert m. intros m. apply (foldM_prefix (λ pre m,
    (∀ k i, m !! k = Some i ↔ ∃ j, j ∈ pre ∧ i_Key j = k ∧ i = normalized j) ∧
    (∀ j, j ∈ pre → instance_inv s (i_Key j) (normalized j) ∧
       (i_Origin j = OriginONU → is_Some (factory s !! i_Key j))))).
  - split; [|by intros j ?%elem_of_nil]. intros k i. rewrite lookup_empty. split; [done|].
    by intros (j & ?%elem_of_nil & _).
  - intros pre j post m1 m2 _ [Hm Hok] (Hfresh & -> & Hi & Ho)%restoreInstance_Ok. split.
    + intros k i. destruct (decide (i_Key j = k)) as [<-|Hne].
      * rewrite lookup_insert_eq. split; [intros [= <-]; exists j; split_and!; [apply elem_of_app; right; by left|done..]|].
        intros (j' & [Hj' | ->%list_elem_of_singleton]%elem_of_app & Hk & ->); [|done]. exfalso.
        assert (m1 !! i_Key j = Some (normalized j')) by (apply Hm; by exists j'). congruence.
      * rewrite lookup_insert_ne, Hm by done. setoid_rewrite elem_of_app. setoid_rewrite list_elem_of_singleton. naive_solver.
    + intros j' [Hj' | ->%list_elem_of_singleton]%elem_of_app; [by apply Hok|done].
Qed.

Lemma restore_factories s m m' :
  (∀ k i, factory s !! k = Some i → i_Origin i = OriginONU) →
  foldM_res restoreFactory (range (factory s)) m = Ok m' →
  (∀ k, is_Some (factory s !! k) → ∃ i, m' !! k = Some i ∧ i_Origin i = OriginONU) ∧
  (∀ k, m' !! k = m !! k ∨ (k = onu3Key ∧ m !! k = None ∧ m' !! k = factory s !! k)).
Proof.
  intros Hf H. apply (foldM_prefix (λ pre m',
    (∀ e, e ∈ pre → ∃ i, m' !! e.1 = Some i ∧ i_Origin i = OriginONU) ∧
    (∀ k, m' !! k = m !! k ∨ (k = onu3Key ∧ m !! k = None ∧ m' !! k = factory s !! k)))) in H as [H1 H2].
  - split; [|done]. intros k [f Hk]. apply (H1 (k, f)). by apply elem_of_range.
  - split; [by intros e ?%elem_of_nil|by left].
  - intros pre [k f] post m1 m2 Hl [H1 H2] Hst. unfold restoreFactory in Hst.
    assert (factory s !! k = Some f) as Hk by (apply elem_of_range; rewrite Hl; apply elem_of_app; right; by left).
    destruct (m1 !! k) as [i|] eqn:Hm1.
    + case_bool_decide as Ho; [|done]. injection Hst as <-. split; [|done].
      intros e [He | ->%list_elem_of_singleton]%elem_of_app; [by apply H1|]. by exists i.
    + case_bool_decide as Hk3; [|done]. injection Hst as <-. split.
      * intros e [He | ->%list_elem_of_singleton]%elem_of_app.
        -- destruct (decide (k = e.1)) as [->|Hne]; [rewrite lookup_insert_eq; exists f; split; [done|by eapply Hf]|].
           rewrite lookup_insert_ne by done. by apply H1.
        -- cbn. rewrite lookup_insert_eq. exists f. split; [done|by eapply Hf].
      * intros k'. destruct (decide (k = k')) as [<-|Hne]; [|rewrite lookup_insert_ne by done; apply H2].
        right. rewrite lookup_insert_eq, Hk. split_and!; [done| |done]. destruct (H2 k) as [He|(_ & He & _)]; congruence.
Qed.

(** What [NewFromState] has done when it succeeds. *)
Lemma NewFromState_Ok instances st (options : Options W) s :
  NewFromState instances st options = Ok s →
  ∃ s0 l m, st_StateDomain st = o_StateDomain options ∧ NewWithOptions instances options = Ok s0 ∧ decode st = Ok l ∧
    foldM_res (restoreInstance s0) l ∅ = Ok m ∧
    foldM_res restoreFactory (range (factory s0)) m = Ok (current s) ∧
    s = withState s0 (current s) (st_MIBDataSync st) ∧
    ∃ d, current s !! onuDataKey = Some d ∧ i_Attributes d !! OnuData_MibDataSync = Some (VU8 (st_MIBDataSync st)).
Proof.
  unfold NewFromState. intros H. apply guard_err_bind_Ok in H as [Hdom H].
  apply negb_false_iff, bool_decide_eq_true in Hdom. apply Res_bind_Ok in H as (s0 & Hs0 & H).
  apply Res_bind_Ok in H as (l & Hl & H). apply Res_bind_Ok in H as (m & Hm & H).
  apply Res_bind_Ok in H as (m' & Hm' & H). apply Res_bind_Ok in H as ([] & _ & H).
  destruct (m' !! onuDataKey) as [d|] eqn:Hd; [|done].
  destruct (i_Attributes d !! OnuData_MibDataSync) as [[| v| | | | | | | | |]|] eqn:Hv; try done.
  apply guard_err_bind_Ok in H as [Hsync H]. injection H as <-. assert (v = st_MIBDataSync st) as -> by lia.
  exists s0, l, m. split_and!; [done..|]. by exists d.
Qed.

(** C13: restoring never leaves the invariant behind, whatever the document: a store restored from any
    document of any origin satisfies the store invariant and has the document's data sync counter,
    and its MIB is the document's instances, normalized, with the factory's ONU3-G when the document
    has none, and nothing else. *)
Theorem restored_store_valid instances st (options : Options W) s
    (Hsync : is_u 8 (st_MIBDataSync st)) (Hr : NewFromState instances st options = Ok s) :
  store_inv s ∧ dataSync s = st_MIBDataSync st ∧
  ∃ l, decode st = Ok l ∧
    ∀ k i, current s !! k = Some i ↔
      (∃ j, j ∈ l ∧ i_Key j = k ∧ i = normalized j) ∨
      (k = onu3Key ∧ (∀ j, j ∈ l → i_Key j ≠ k) ∧ factory s !! k = Some i).
Proof.
  destruct (NewFromState_Ok _ _ _ _ Hr) as (s0 & l & m & _ & Hs0 & Hl & Hm & Hc & Hs & d & Hd & Hv).
  destruct (NewWithOptions_inv _ _ _ Hs0) as [Hinv _]. apply restore_document in Hm as [Hm Hok].
  apply restore_factories in Hc as [Hfac Hsame]; [|by intros k i Hk; apply (si_factory _ Hinv) in Hk as []].
  assert (factory s = factory s0) as Hfs by by rewrite Hs.
  assert (∀ k i, current s !! k = Some i ↔ (∃ j, j ∈ l ∧ i_Key j = k ∧ i = normalized j) ∨
            (k = onu3Key ∧ (∀ j, j ∈ l → i_Key j ≠ k) ∧ factory s !! k = Some i)) as Hcur.
  { intros k i. rewrite Hfs. split.
    - intros Hi. destruct (Hsame k) as [He|(Hk & Hn & He)]; rewrite He in Hi; [left; by apply Hm|right].
      split_and!; [done| |done]. intros j Hj Hjk. assert (m !! k = Some (normalized j)) by (apply Hm; by exists j). congruence.
    - intros [Hj|(Hk & Hn & Hi)].
      + apply Hm in Hj. destruct (Hsame k) as [He|(_ & He & _)]; congruence.
      + destruct (Hfac k) as (i' & Hi' & _); [by eexists|]. destruct (Hsame k) as [He|(_ & _ & He)]; [|congruence].
        rewrite He in Hi'. apply Hm in Hi' as (j & Hj & Hjk & _). by destruct (Hn j Hj). }
  split_and!; [|by rewrite Hs|by exists l]. rewrite Hs. apply store_inv_commit; [done| |done|].
  - split.
    + intros k i [(j & Hj & <- & ->)|(_ & _ & Hi)]%Hcur; [by apply Hok|]. rewrite Hfs in Hi. by apply (si_factory _ Hinv).
    + intros k. split; [|apply Hfac]. intros (i & [(j & Hj & <- & ->)|(_ & _ & Hi)]%Hcur & Ho).
      * by apply Hok.
      * rewrite Hfs in Hi. by eexists.
  - intros i Hi. congruence.
Qed.
End restore.

(** ** Which instances a store can have *)

Definition creatable (classID : Z) : Prop :=
  ∀ entity, definition entity = definition_of classID → createdByOlt entity = true.

Section creatable.
Context {MR : MapRange} {W : Type}.
Implicit Types s : Store W.

Lemma setDataSync_key next v k : is_Some (setDataSync next v !! k) → is_Some (next !! k).
Proof.
  unfold setDataSync. destruct (next !! onuDataKey) as [i|] eqn:Hi; [|done].
  intros [<-|[_ ?]]%lookup_insert_is_Some; [by eexists|done].
Qed.

(** Every key of what an operation proposes was there, or is the factory's, or of a class the OLT creates. *)
Lemma proposes_keys s r next sync k :
  proposes s r next sync → is_Some (next !! k) →
  is_Some (current s !! k) ∨ is_Some (factory s !! k) ∨ creatable k.1.
Proof.
  assert (∀ key n (m : gmap Key Instance_), is_Some (m !! key) → is_Some (<[key := n]> m !! k) → is_Some (m !! k)) as Hins.
  { intros key n m Hm H. apply lookup_insert_is_Some in H as [<-|[_ ?]]; done. }
  assert (∀ updates proposed changed, commandUpdates s updates = Ok (proposed, changed) →
            is_Some (proposed !! k) → is_Some (current s !! k)) as Hcommand.
  { intros updates proposed changed Hc. unfold commandUpdates in Hc.
    refine (foldM_inv (λ p : gmap Key Instance_ * bool, is_Some (p.1 !! k) → is_Some (current s !! k)) _ _ _ _ _ _ Hc); [|done].
    intros [m b] [key attrs] [m' b'] _ Hm Hst. cbn in Hst. inv_ok Hst.
    case_bool_decide; injection Hst as <- <-; [done|]. cbn [fst]. intros [<-|[_ ?]]%lookup_insert_is_Some; [|by apply Hm].
    destruct (current s !! key); [done|discriminate Hr]. }
  intros Hpr Hk'. destruct Hpr as [c e attrs i Hp|key attrs before n sync Hp _|key mask attrs before n Hp _|key i Hk Ho| |key timers before n Hp
    |updates proposed Hp|updates t proposed Hp|key attrs n Hp|updates proposed Hp]; repeat (apply setDataSync_key in Hk').
  - apply lookup_insert_is_Some in Hk' as [<-|[_ ?]]; [|by left]. right; right. cbn.
    unfold prepareCreate in Hp. inv_ok Hp. apply orb_false_iff in Hg1 as [_ Hc]. apply negb_false_iff in Hc.
    apply loadDefinition_Ok in Hr as (Hd & _). intros entity He. unfold createdByOlt in *. by rewrite He, <- Hd.
  - left. eapply Hins; [|exact Hk']. unfold prepareSet in Hp. by destruct (current s !! key).
  - left. eapply Hins; [|exact Hk']. unfold prepareSetTable in Hp. by destruct (current s !! key).
  - left. by apply lookup_delete_is_Some in Hk' as [].
  - right; left. unfold preserveONU3State in Hk'. destruct (current s !! onu3Key), (factory s !! onu3Key) eqn:Hf; try done.
    apply lookup_insert_is_Some in Hk' as [<-|[_ ?]]; [rewrite Hf; by eexists|done].
  - left. eapply Hins; [|exact Hk']. unfold prepareExpire in Hp.
    apply guard_err_bind_Ok in Hp as [_ Hp]. by destruct (current s !! key).
  - left. by eapply Hcommand.
  - left. by eapply Hcommand.
  - left. eapply Hins; [|exact Hk']. unfold prepareUpdate in Hp. by destruct (current s !! key).
  - left. revert Hk'.
    refine (foldM_inv (λ m : gmap Key Instance_, is_Some (m !! k) → is_Some (current s !! k)) _ _ _ _ _ _ Hp); [|done].
    intros m [key attrs] m' _ Hm Hst. inv_ok Hst. subst m'. intros H. apply Hm. eapply Hins; [|exact H].
    unfold prepareUpdate in Hr. by destruct (m !! key).
Qed.

Lemma reachable_creatable instances (options : Options W) s k i :
  reachable instances options s → current s !! k = Some i → i_Origin i = OriginOLT → creatable k.1.
Proof.
  intros Hr Hk Ho. pose proof (reachable_inv _ _ _ Hr) as Hinv.
  assert (factory s !! k = None) as Hf.
  { apply eq_None_not_Some. intros Hf. apply (si_origin _ Hinv) in Hf as (j & Hj & ?). congruence. }
  assert (is_Some (current s !! k)) as Hs by by eexists. clear i Hk Ho Hinv.
  induction Hr as [s Hn|s w r res s' w' Hr IH Hx].
  - apply NewWithOptions_frame in Hn as (_ & _ & Hc). rewrite Hc in Hs. apply setDataSync_key in Hs.
    rewrite Hf in Hs. by destruct Hs.
  - apply execute_frame in Hx as Hfr. assert (factory s = factory s') as Hfs by by rewrite Hfr. rewrite <- Hfs in Hf.
    apply execute_cases in Hx. assert (is_Some (current s !! k) → creatable k.1) as IH' by auto.
    destruct res; [destruct Hx as [->|(next & sync & Hp & ->)]|subst s']; [by auto| |by auto].
    destruct (proposes_keys _ _ _ _ _ Hp Hs) as [?|[Hfk|?]]; [by auto| |done]. rewrite Hf in Hfk. by destruct Hfk.
Qed.
End creatable.

(** ** Restarting *)

Lemma names_not_empty :
  forallb (λ '(_, d), negb (known_name d "")) (map_to_list classToManagedEntityMap) = true.
Proof. vm_compute. reflexivity. Qed.

Lemma known_not_empty c attrs n v :
  known_class c → names_known c attrs → attrs !! n = Some v → n ≠ "".
Proof.
  intros [d Hd] Hn Hv ->. destruct (Hn _ _ Hv) as [|Hk]; [done|].
  pose proof names_not_empty as Ht. rewrite forallb_forall in Ht.
  specialize (Ht (c, d) ltac:(by apply list_elem_of_In, elem_of_map_to_list)). cbn in Ht.
  rewrite (definition_of_known _ _ Hd) in Hk. by rewrite Hk in Ht.
Qed.

Definition accepted {E A} (r : Res E A) : bool := match r with Ok _ => true | Err _ => false end.

Section restart.
Context {MR : MapRange} {W : Type}.
Implicit Types s : Store W.

(** What a store must satisfy beyond the invariant to be restored: ONU data and ONU3-G, which the
    store writes without normalizing them, would be accepted; the factory's instances have the
    factory's attributes; the identity is the factory's. *)
Definition restorable s : bool :=
  forallb (λ k, match current s !! k with
                | None => true
                | Some i =>
                    accepted (normalizeIn s i) &&
                    accepted (entity ← loadDefinition k.1 k.2 (i_Attributes i);
                              validateSupportedAttributes s entity (i_Attributes i))
                end) [onuDataKey; onu3Key] &&
  forallb (λ '(k, i), match factory s !! k with
                      | None => true
                      | Some f => sameAttributeNames (i_Attributes f) (i_Attributes i)
                      end) (map_to_list (current s)) &&
  accepted (validateRestoredIdentity (factory s) (current s)).

Lemma normalized_stored s k i : instance_inv s k i → normalized i = i.
Proof.
  intros Hi. unfold normalized, withAttribute, EntityID_of. rewrite (inv_key _ _ _ Hi).
  rewrite (insert_id _ _ _ (inv_eid _ _ _ Hi)). rewrite <- (inv_key _ _ _ Hi). by destruct i.
Qed.

Lemma restorable_normal s k i :
  restorable s = true → instance_inv s k i → current s !! k = Some i →
  normalizeIn s i = Ok i ∧ advertised s k.1 (i_Attributes i).
Proof.
  intros Hr Hi Hk. destruct (decide (k = onuDataKey ∨ k = onu3Key)) as [Hex|Hex].
  2: { split; [apply (inv_normal _ _ _ Hi); tauto|apply (inv_advertised _ _ _ Hi); tauto]. }
  unfold restorable in Hr. apply andb_true_iff in Hr as [[Hr _]%andb_true_iff _]. rewrite forallb_forall in Hr.
  specialize (Hr k ltac:(destruct Hex as [-> | ->]; [by left|right; by left])). cbn beta in Hr. rewrite Hk in Hr.
  apply andb_true_iff in Hr as [Hn Ha]. split.
  - destruct (normalizeIn s i) as [n|] eqn:Hni; [|done]. apply normalizeIn_shape in Hni as (-> & _).
    by rewrite (normalized_stored _ _ _ Hi).
  - destruct (loadDefinition _ _ _) as [entity|] eqn:He; [|done]. cbn [mbind Res_bind] in Ha.
    apply loadDefinition_Ok in He as (Hd & _). apply (validateSupportedAttributes_Ok s entity k.1 _ Hd).
    by destruct (validateSupportedAttributes _ _ _) as [[]|].
Qed.

Lemma restoreInstance_stored instances (options : Options W) s k i m :
  reachable instances options s → restorable s = true → current s !! k = Some i → m !! k = None →
  restoreInstance s m i = Ok (<[k := i]> m).
Proof.
  intros Hreach Hr Hk Hm. pose proof (reachable_inv _ _ _ Hreach) as Hinv. pose proof (si_current _ Hinv _ _ Hk) as Hi.
  destruct (restorable_normal _ _ _ Hr Hi Hk) as [Hn Ha]. unfold restoreInstance.
  rewrite (inv_key _ _ _ Hi), Hm, Hn. rewrite bool_decide_false by by apply is_Some_None. cbn [guard_err mbind Res_bind].
  unfold ClassID_of, EntityID_of. rewrite (inv_key _ _ _ Hi), (inv_supported _ _ _ Hi). cbn [negb guard_err mbind Res_bind].
  destruct (loadDefinition_known k.1 k.2 (i_Attributes i) (inv_class _ _ _ Hi) (inv_names _ _ _ Hi)) as [entity He].
  rewrite He. cbn [mbind Res_bind]. apply loadDefinition_Ok in He as Hd. destruct Hd as (Hd & _).
  rewrite (proj2 (validateSupportedAttributes_Ok s entity k.1 _ Hd) Ha).
  assert (mkInstance k (i_Attributes i) (i_Origin i) = i) as -> by (destruct i, Hi; cbn in *; by subst).
  destruct (i_Origin i) eqn:Ho.
  - assert (is_Some (factory s !! k)) as [f Hf] by (apply (si_origin _ Hinv); by exists i). rewrite Hf.
    assert (sameAttributeNames (i_Attributes f) (i_Attributes i) = true) as ->.
    { unfold restorable in Hr. apply andb_true_iff in Hr as [[_ Hr]%andb_true_iff _]. rewrite forallb_forall in Hr.
      specialize (Hr (k, i) ltac:(by apply list_elem_of_In, elem_of_map_to_list)). cbn in Hr. by rewrite Hf in Hr. }
    done.
  - unfold normalizedEntityDefinition, ClassID_of, EntityID_of. rewrite (inv_key _ _ _ Hi).
    destruct (loadDefinition _ _ _) as [entity'|] eqn:He'.
    + apply loadDefinition_Ok in He' as (Hd' & _). by rewrite (reachable_creatable _ _ _ _ _ Hreach Hk Ho _ Hd').
    + destruct (loadDefinition_known k.1 k.2 (i_Attributes i) (inv_class _ _ _ Hi) (inv_names _ _ _ Hi)) as [? ?]. congruence.
Qed.

(** Restoring the instances of a store, in any order, gives its MIB. *)
Lemma restore_snapshot instances (options : Options W) s l m :
  reachable instances options s → restorable s = true →
  NoDup (i_Key <$> l) → (∀ i, i ∈ l → current s !! i_Key i = Some i ∧ m !! i_Key i = None) →
  ∃ m', foldM_res (restoreInstance s) l m = Ok m'.
Proof.
  intros Hreach Hr. revert m. induction l as [|i l IH]; intros m Hnd Hl; [by exists m|].
  rewrite fmap_cons in Hnd. apply NoDup_cons in Hnd as [Hi Hnd]. destruct (Hl i) as [Hk Hm]; [by left|].
  cbn [foldM_res]. rewrite (restoreInstance_stored _ _ _ _ _ _ Hreach Hr Hk Hm). cbn [mbind Res_bind].
  apply IH; [done|]. intros j Hj. split; [apply Hl; by right|]. rewrite lookup_insert_ne; [apply Hl; by right|].
  intros He. apply Hi. rewrite He. by apply list_elem_of_fmap_2.
Qed.

Lemma restored_current s l m :
  store_inv s → (∀ i, i ∈ l ↔ current s !! i_Key i = Some i) →
  foldM_res (restoreInstance s) l ∅ = Ok m → m = current s.
Proof.
  intros Hinv Hl [Hm _]%restore_document. apply map_eq. intros k. apply option_eq. intros i. rewrite Hm. split.
  - intros (j & Hj & <- & ->). apply Hl in Hj. by rewrite (normalized_stored _ _ _ (si_current _ Hinv _ _ Hj)).
  - intros Hi. pose proof (si_current _ Hinv _ _ Hi) as Hii. exists i.
    rewrite (normalized_stored _ _ _ Hii), Hl, (inv_key _ _ _ Hii). done.
Qed.

Lemma restored_factories s : store_inv s → foldM_res restoreFactory (range (factory s)) (current s) = Ok (current s).
Proof.
  intros Hinv. assert (∀ e, e ∈ range (factory s) → restoreFactory (current s) e = Ok (current s)) as Hstep.
  { intros [k f] Hk%elem_of_range. destruct (proj2 (si_origin _ Hinv k)) as (i & Hi & Ho); [by eexists|].
    unfold restoreFactory. rewrite Hi. by rewrite bool_decide_true. }
  revert Hstep. generalize (range (factory s)). intros l. induction l as [|e l IH]; intros Hstep; [done|].
  cbn [foldM_res]. rewrite Hstep by by left. apply IH. intros e' He. apply Hstep. by right.
Qed.

Lemma stored_instances s :
  store_inv s → (∀ k i, current s !! k = Some i → map_Forall (λ _ v, storable v) (i_Attributes i)) →
  Forall storable_instance (Snapshot s).
Proof.
  intros Hinv Hst. apply Forall_forall. intros i Hi%(elem_of_Snapshot s Hinv) n v Hv.
  split; [|by eapply Hst]. pose proof (si_current _ Hinv _ _ Hi) as Hii.
  by apply (known_not_empty _ _ _ _ (inv_class _ _ _ Hii) (inv_names _ _ _ Hii) Hv).
Qed.

End restart.

(** ** Witnesses *)

Definition savedState : State :=
  match @ExportState canonical_range (@Snapshot canonical_range _ sample_created) 1 ["xg2010g:gpon"] with
  | Ok st => st
  | Err _ => mkState 0 "" 0 []
  end.

Lemma sample_created_reachable : @reachable canonical_range _ sample_factory sample_options sample_created.
Proof.
  eapply (@reach_step canonical_range) with (s := sample_store) (w := []) (r := sample_create) (res := Ok tt).
  - apply reach_new, sample_store_ok.
  - vm_compute. reflexivity.
Qed.

Lemma sample_created_storable : map_Forall (λ _ i, map_Forall (λ _ v, storable v) (i_Attributes i)) (current sample_created).
Proof. by_decide. Qed.


Definition restoredStore : Store (list Change) :=
  match @NewFromState canonical_range _ sample_factory savedState sample_options with Ok s => s | Err _ => empty_store end.

Lemma restored_store_valid_witness : @store_inv canonical_range _ restoredStore ∧ dataSync restoredStore = 1.
Proof.
  destruct (@restored_store_valid canonical_range _ sample_factory savedState sample_options restoredStore)
    as (Hinv & Hs & _); [vm_compute; split; congruence|vm_compute; reflexivity|].
  split; [exact Hinv|]. vm_compute. reflexivity.
Defined.

(** ** A set that a restart undoes

    The factory MIB of the model gives the circuit pack of the Ethernet ports an indication of bridged or IP
    service and the one of the PON interface (entity 0x0180) none, but the class policy covers both. *)

Definition modelStore : Res MibError (Options unit * Store unit) :=
  instances ← XG2010G sampleIdentity;
  options ← @mibOptions canonical_range unit XGSPON "xg2010g:xgspon" instances None;
  store ← @NewWithOptions canonical_range unit instances options;
  Ok (options, store).

(** After the OLT has set the indication of the PON circuit pack to 0, the only value its capability
    allows, the saved MIB is refused at the next start. *)
Theorem set_refused_at_restart :
  match XG2010G sampleIdentity, modelStore with
  | Ok instances, Ok (options, store) =>
      let set : Request unit := RSet (CircuitPackClassID, 0x0180) {[ "BridgedOrIpInd" := VU8 0 ]} in
      let '(res, after, _) := @execute canonical_range unit store tt set in
      restorable (MR := canonical_range) store = true ∧ res = Ok tt ∧
      match @ExportState canonical_range (@Snapshot canonical_range unit after) (dataSync after) ["xg2010g:xgspon"] with
      | Ok st => accepted (@NewFromState canonical_range unit instances st options) = false
      | Err _ => False
      end
  | _, _ => False
  end.
Proof. vm_compute. auto. Qed.
