(* ===== verification/Frames.v ===== *)
(** * Engine: OMCI frames

    The frame-level part of src/internal/engine/engine.go: which downstream frames are accepted
    ([validateFrame], [validateGPONMIC]), the OMCI header, the priority channel of a
    transaction, which requests carry a result, and the raw result response.  The header codec
    is that of the vendored omci-lib-go (omci.go). *)

From S2P Require Import Prelude Checksum MeTypes MeLib Mib MeNames Semantics Store Model.

(** ** omci-lib-go: constants and header *)

(** [omci.DeviceIdent]. *)
Definition BaselineIdent : Z := 0x0a.
Definition ExtendedIdent : Z := 0x0b.

Definition MaxBaselineLength : nat := 48.
Definition MaxExtendedLength : nat := 1980.

(** The flags of [omci.MessageType]: acknowledgement and acknowledge request. *)
Definition AK : Z := 0x20.
Definition AR : Z := 0x40.
Definition MsgTypeMask : Z := 0x1f.

Definition CreateRequestType : Z := Z.lor MeTypes.Create AR.
Definition DeleteRequestType : Z := Z.lor MeTypes.Delete AR.
Definition SetRequestType : Z := Z.lor SetMsg AR.
Definition GetRequestType : Z := Z.lor GetMsg AR.
Definition GetAllAlarmsRequestType : Z := Z.lor GetAllAlarms AR.
Definition GetAllAlarmsNextRequestType : Z := Z.lor GetAllAlarmsNext AR.
Definition MibUploadRequestType : Z := Z.lor MibUpload AR.
Definition MibUploadNextRequestType : Z := Z.lor MibUploadNext AR.
Definition MibResetRequestType : Z := Z.lor MibReset AR.
Definition TestRequestType : Z := Z.lor TestMsg AR.
Definition StartSoftwareDownloadRequestType : Z := Z.lor StartSoftwareDownload AR.
Definition DownloadSectionRequestType : Z := DownloadSection.
Definition DownloadSectionRequestWithResponseType : Z := Z.lor DownloadSection AR.
Definition EndSoftwareDownloadRequestType : Z := Z.lor EndSoftwareDownload AR.
Definition ActivateSoftwareRequestType : Z := Z.lor ActivateSoftware AR.
Definition CommitSoftwareRequestType : Z := Z.lor CommitSoftware AR.
Definition SynchronizeTimeRequestType : Z := Z.lor SynchronizeTime AR.
Definition RebootRequestType : Z := Z.lor RebootMsg AR.
Definition GetNextRequestType : Z := Z.lor GetNextMsg AR.
Definition GetCurrentDataRequestType : Z := Z.lor GetCurrentData AR.
Definition SetTableRequestType : Z := Z.lor SetTableMsg AR.
Definition MibUploadResponseType : Z := Z.lor MibUpload AK.
Definition MibUploadNextResponseType : Z := Z.lor MibUploadNext AK.
Definition GetAllAlarmsResponseType : Z := Z.lor GetAllAlarms AK.
Definition GetAllAlarmsNextResponseType : Z := Z.lor GetAllAlarmsNext AK.
Definition GetNextResponseType : Z := Z.lor GetNextMsg AK.
Definition SetTableResponseType : Z := Z.lor SetTableMsg AK.
Definition AlarmNotificationType : Z := AlarmNotification.
Definition AttributeValueChangeType : Z := AttributeValueChange.
Definition TestResultType : Z := TestResult.

(** The fields of the [omci.OMCI] layer the engine reads. *)
Record OMCI := mkOMCI {
  TransactionID : Z;
  MessageType : Z;
  DeviceIdentifier : Z;
  LayerPayload : list Z
}.

(** [decodeOMCI] and [OMCI.DecodeFromBytes] up to [AddLayer]; the MIC has no effect. *)
Definition decodeOMCI (data : list Z) : option OMCI :=
  if (length data <? 4)%nat then None
  else
    let transactionID := Uint16 data 0 in
    let messageType := nth8 data 2 in
    let device := nth8 data 3 in
    let isNotification := Z.ldiff messageType MsgTypeMask =? 0 in
    let header eom := Some (mkOMCI transactionID messageType device (slice data 4 eom)) in
    if device =? BaselineIdent then
      if (length data <? MaxBaselineLength - 8)%nat then None
      else if (transactionID =? 0) && negb isNotification then None
      else if (MaxBaselineLength - 4 <=? length data)%nat &&
              negb (u16 (Uint32 data (MaxBaselineLength - 8)) =? 40) then None
      else header (MaxBaselineLength - 8)%nat
    else if device =? ExtendedIdent then
      if (length data <? 10)%nat then None
      else if (transactionID =? 0) && negb isNotification then None
      else
        let len := Uint16 data 8 in
        if Z.of_nat (MaxExtendedLength - 10) <? len then None
        else if Z.of_nat (length data) <? len + 10 then None
        else header (Z.to_nat len + 10)%nat
    else None.

(** [gopacket.SerializeLayers] of a header ([OMCI.SerializeTo]) over a serialized body. *)
Definition serializeLayers (transactionID messageType device : Z) (body : list Z) : option (list Z) :=
  let isNotification := (messageType =? AlarmNotificationType) || (messageType =? AttributeValueChangeType) in
  if (transactionID =? 0) && negb isNotification && negb (messageType =? TestResultType) then None
  else if negb (transactionID =? 0) && isNotification then None
  else
    let bytes := put_be 2 transactionID ++ [messageType; device] ++ body in
    if device =? BaselineIdent then
      let padSize := 40 - Z.of_nat (length bytes) + 4 in
      if padSize <? 0 then None
      else Some (put_at (bytes ++ repeat 0 (Z.to_nat padSize)) (MaxBaselineLength - 8) (put_be 4 40))
    else if device =? ExtendedIdent then
      if Z.of_nat (MaxExtendedLength - 10 - 4) <? u16 (Z.of_nat (length bytes) - 10) then None
      else Some bytes
    else None.

(** ** Which frames are accepted *)

Record DownstreamFrame := mkDownstream { df_Contents : list Z; df_MICVerified : bool }.

Inductive FrameError :=
| UnsupportedMode
| InvalidLength (n : nat)
| NotVerified
| TrailerNotRemoved
| InvalidMIC
| InvalidContentLength (content : Z) (n : nat)
| UnsupportedDevice (device : Z).

Definition validateGPONMIC (contents encodedMIC : list Z) : Res FrameError unit :=
  guard_err (negb (Uint32 encodedMIC 0 =? CRC32A contents)) InvalidMIC.

Definition validateFrame (mode : string) (input : DownstreamFrame) : Res FrameError unit :=
  _ ← guard_err (match Validate mode with Ok _ => false | Err _ => true end) UnsupportedMode;
  let frame := df_Contents input in
  let n := length frame in
  _ ← guard_err ((n <? 4) || (MaxExtendedLength <? n))%nat (InvalidLength n);
  let device := nth8 frame 3 in
  if device =? BaselineIdent then
    _ ← guard_err (bool_decide (mode = XGSPON) && negb (df_MICVerified input)) NotVerified;
    _ ← guard_err (negb (n =? MaxBaselineLength) && negb (n =? MaxBaselineLength - 4) &&
                   negb (n =? MaxBaselineLength - 8))%nat (InvalidLength n);
    if bool_decide (mode = GPON) && (n =? MaxBaselineLength)%nat then
      validateGPONMIC (take (MaxBaselineLength - 4) frame) (drop (MaxBaselineLength - 4) frame)
    else guard_err (bool_decide (mode = XGSPON) && (n =? MaxBaselineLength)%nat) TrailerNotRemoved
  else if device =? ExtendedIdent then
    _ ← guard_err (bool_decide (mode = XGSPON) && negb (df_MICVerified input)) NotVerified;
    _ ← guard_err (n <? 10)%nat (InvalidLength n);
    let payloadEnd := 10 + Uint16 frame 8 in
    _ ← guard_err ((Z.of_nat MaxExtendedLength - 4 <? payloadEnd) ||
                   (negb (Z.of_nat n =? payloadEnd) && negb (Z.of_nat n =? payloadEnd + 4)))
          (InvalidContentLength (payloadEnd - 10) n);
    if bool_decide (mode = GPON) && (Z.of_nat n =? payloadEnd + 4) then
      validateGPONMIC (take (Z.to_nat payloadEnd) frame) (drop (Z.to_nat payloadEnd) frame)
    else guard_err (bool_decide (mode = XGSPON) && (Z.of_nat n =? payloadEnd + 4)) TrailerNotRemoved
  else Err (UnsupportedDevice device).

(** ** Transactions *)

(** [transactionChannel]: the index into [transactions]. *)
Definition baselineLowPriority : nat := 0.
Definition baselineHighPriority : nat := 1.
Definition extendedPriority : nat := 2.
Definition transactionChannelCount : nat := 3.

Definition transactionPriority (header : OMCI) : nat :=
  if DeviceIdentifier header =? ExtendedIdent then extendedPriority
  else if negb (Z.land (TransactionID header) 0x8000 =? 0) then baselineHighPriority
  else baselineLowPriority.

Definition resultBearingRequest (messageType : Z) : bool :=
  bool_decide (messageType ∈
    [CreateRequestType; DeleteRequestType; SetRequestType; GetRequestType; MibResetRequestType;
     TestRequestType; StartSoftwareDownloadRequestType; DownloadSectionRequestWithResponseType;
     EndSoftwareDownloadRequestType; ActivateSoftwareRequestType; CommitSoftwareRequestType;
     SynchronizeTimeRequestType; RebootRequestType; GetNextRequestType; GetCurrentDataRequestType;
     SetTableRequestType]).

(** [mibUploadNextHasContents] and [getAllAlarmsNextHasContents]. *)
Definition hasContents (response : list Z) (device : Z) (last : nat) : bool :=
  if device =? ExtendedIdent then (10 <=? length response)%nat && negb (Uint16 response 8 =? 0)
  else if (length response <? last)%nat then false
  else existsb (λ value, negb (value =? 0)) (slice response 8 last).

Definition mibUploadNextHasContents (response : list Z) (device : Z) : bool :=
  hasContents response device 14.
Definition getAllAlarmsNextHasContents (response : list Z) (device : Z) : bool :=
  hasContents response device 40.

(** ** Raw responses *)

(** [rawResultLayer.SerializeTo]. *)
Definition rawResultLayer (extended : bool) (classID entityID result : Z) : list Z :=
  put_be 2 classID ++ put_be 2 entityID ++ (if extended then put_be 2 1 else []) ++ [result].

(** [emptyMibUploadNextLayer.SerializeTo]. *)
Definition emptyMibUploadNextLayer (extended : bool) (classID entityID : Z) : list Z :=
  put_be 2 classID ++ put_be 2 entityID ++ (if extended then [0; 0] else []).

Definition serializeRawResult (header : OMCI) (classID entityID result : Z) : option (list Z) :=
  let responseType := Z.lor (Z.ldiff (MessageType header) AR) AK in
  serializeLayers (TransactionID header) responseType (DeviceIdentifier header)
    (rawResultLayer (DeviceIdentifier header =? ExtendedIdent) classID entityID result).

Definition serializeEmptyMibUploadNext (header : OMCI) (classID entityID : Z) : option (list Z) :=
  serializeLayers (TransactionID header) MibUploadNextResponseType (DeviceIdentifier header)
    (emptyMibUploadNextLayer (DeviceIdentifier header =? ExtendedIdent) classID entityID).

Definition serializeEmptyGetAllAlarmsNext (header : OMCI) (classID entityID : Z) : option (list Z) :=
  serializeLayers (TransactionID header) GetAllAlarmsNextResponseType (DeviceIdentifier header)
    (emptyMibUploadNextLayer (DeviceIdentifier header =? ExtendedIdent) classID entityID).

(** ** Properties *)

(** A frame of mode [mode] whose protected contents are its first [body] bytes: on GPON the
    checksum is there and right, or was removed by the adapter; on XGS-PON the adapter has
    verified and removed it. *)
Definition authentic (mode : string) (f : DownstreamFrame) (body : nat) : Prop :=
  let frame := df_Contents f in
  (mode = GPON ∧ (length frame = body ∨
     (length frame = (body + 4)%nat ∧ Uint32 (drop body frame) 0 = CRC32A (take body frame)))) ∨
  (mode = XGSPON ∧ df_MICVerified f = true ∧ length frame = body).

(** The frames the engine must accept. *)
Definition acceptable (mode : string) (f : DownstreamFrame) : Prop :=
  let frame := df_Contents f in
  (nth8 frame 3 = BaselineIdent ∧
     (authentic mode f 44 ∨
      (length frame = 40%nat ∧ (mode = GPON ∨ (mode = XGSPON ∧ df_MICVerified f = true))))) ∨
  (nth8 frame 3 = ExtendedIdent ∧ (10 ≤ length frame)%nat ∧ Uint16 frame 8 ≤ 1966 ∧
     authentic mode f (Z.to_nat (Uint16 frame 8) + 10)).

Lemma mode_cases mode :
  match Validate mode with Ok _ => false | Err _ => true end = false ↔ mode = GPON ∨ mode = XGSPON.
Proof.
  unfold Validate. case_bool_decide; [cbn; tauto|]. case_bool_decide; [cbn; tauto|].
  cbn. split; [done|by intros []].
Qed.

(** The verification of the trailer, the same for both message formats. *)
Lemma trailer_exact mode f body (b : bool) :
  mode = GPON ∨ mode = XGSPON →
  (b = true ↔ length (df_Contents f) = (body + 4)%nat) →
  length (df_Contents f) = body ∨ length (df_Contents f) = (body + 4)%nat →
  bool_decide (mode = XGSPON) && negb (df_MICVerified f) = false ∧
  (if bool_decide (mode = GPON) && b
   then validateGPONMIC (take body (df_Contents f)) (drop body (df_Contents f))
   else guard_err (bool_decide (mode = XGSPON) && b) TrailerNotRemoved) = Ok tt
  ↔ authentic mode f body.
Proof.
  intros Hm Hb Hn. unfold authentic, validateGPONMIC.
  destruct Hm as [-> | ->]; cbn [andb bool_decide decide_rel].
  - rewrite (bool_decide_eq_false_2 (GPON = XGSPON)), (bool_decide_eq_true_2 (GPON = GPON)) by done. cbn [andb].
    destruct b.
    + rewrite guard_err_iff, negb_false_iff, Z.eqb_eq. apply proj1 in Hb. specialize (Hb eq_refl).
      split; [intros [_ ?]; left; split; [done|]; right; by split|].
      intros [[_ [?|[_ ?]]]|[? _]]; [lia|by split|discriminate].
    + split; [|done]. intros _. left. split; [done|]. left. destruct Hn as [|Hn]; [done|].
      by apply Hb in Hn.
  - rewrite (bool_decide_eq_false_2 (XGSPON = GPON)), (bool_decide_eq_true_2 (XGSPON = XGSPON)) by done. cbn [andb].
    rewrite guard_err_iff, negb_false_iff. split.
    + intros [Hv ->]. right. split_and!; [done|done|]. destruct Hn as [|Hn]; [done|]. by apply Hb in Hn.
    + intros [[? _]|(_ & Hv & Hl)]; [discriminate|]. split; [done|]. destruct b; [|done]. 
      apply proj1 in Hb. specialize (Hb eq_refl). lia.
Qed.

Lemma and_iff_when (A B C : Prop) : (A → B ↔ C) → A ∧ B ↔ A ∧ C.
Proof. tauto. Qed.

Lemma validateFrame_iff mode f (Hbytes : bytes_ok (df_Contents f)) :
  validateFrame mode f = Ok tt ↔ (mode = GPON ∨ mode = XGSPON) ∧ acceptable mode f.
Proof.
  unfold validateFrame. rewrite guard_err_bind_Ok, mode_cases. apply and_iff_when. intros Hm.
  rewrite guard_err_bind_Ok. unfold acceptable. cbv zeta.
  set (n := length (df_Contents f)) in *. unfold MaxBaselineLength, MaxExtendedLength. cbn [Nat.sub].
  destruct (nth8 (df_Contents f) 3 =? BaselineIdent) eqn:Hb; [|destruct (nth8 (df_Contents f) 3 =? ExtendedIdent) eqn:He].
  - apply Z.eqb_eq in Hb. rewrite Hb, !guard_err_bind_Ok.
    destruct (decide (n = 44 ∨ n = 48)%nat) as [Hn|Hn].
    + pose proof (trailer_exact mode f 44 (n =? 48)%nat Hm (Nat.eqb_eq _ _) Hn) as Ht. 
      transitivity (authentic mode f 44); [|split; [by auto|intros [[_ [?|[? _]]]|[? _]]; (done || lia)]].
      rewrite <- Ht. split; [tauto|]. intros [? ?]. split_and!; [lia|done|lia|done].
    + assert (¬ authentic mode f 44) as Hna by (unfold authentic; fold n; intros [[_ [?|[? _]]]|[_ [_ ?]]]; lia).
      destruct (decide (n = 40)%nat) as [H40|H40].
      * rewrite H40. cbn [Nat.eqb]. rewrite !andb_false_r. cbn.
        transitivity (bool_decide (mode = XGSPON) && negb (df_MICVerified f) = false); [tauto|].
        destruct Hm as [-> | ->]; [cbn; naive_solver|].
        rewrite bool_decide_eq_true_2 by done. cbn [andb]. rewrite negb_false_iff.
        split; [|naive_solver]. intros. left. split; [done|]. right. by auto.
      * split; [intros (? & _ & ? & _); lia|]. intros [[_ [?|[? _]]]|[? _]]; [done|lia|discriminate].
  - apply Z.eqb_eq in He. rewrite He, !guard_err_bind_Ok.
    destruct (decide (10 ≤ n)%nat) as [H10|H10];
      [|split; [intros (_ & _ & ? & _); lia|by intros [[? _]|(_ & ? & _)]]].
    pose proof (Uint16_is_u (df_Contents f) 8 Hbytes ltac:(fold n; lia)) as [Hu _].
    set (len := Uint16 (df_Contents f) 8) in *. set (body := (Z.to_nat len + 10)%nat).
    replace (Z.to_nat (10 + len)) with body by lia.
    replace (Z.of_nat n =? 10 + len + 4) with (n =? body + 4)%nat by lia.
    transitivity (len ≤ 1966 ∧ authentic mode f body);
      [|split; [intros []; right; by split_and!|by intros [[? _]|(_ & _ & ? & ?)]]].
    destruct (decide (n = body ∨ n = body + 4)%nat) as [Hn|Hn].
    + rewrite <- (trailer_exact mode f body (n =? body + 4)%nat Hm (Nat.eqb_eq _ _) Hn).
      split; [intros (? & ? & ? & ? & ?); split_and!; [lia|done|done]|].
      intros (? & ? & ?). split_and!; [lia|done|lia|lia|done].
    + split; [intros (_ & _ & _ & ? & _); lia|]. unfold authentic. fold n.
      intros [_ [[_ [?|[? _]]]|[_ [_ ?]]]]; lia.
  - split; [by intros [_ ?]|]. apply Z.eqb_neq in Hb, He. tauto.
Qed.

(** C22: the frame filter is exact: a frame is accepted exactly when the mode is known, the format
    is a known one and its length agrees with it, and its contents are authentic: on GPON a
    checksum that is still there is right, on XGS-PON the adapter has verified the frame and
    removed the security trailer. *)
Theorem validateFrame_exact mode f (Hbytes : bytes_ok (df_Contents f)) :
  validateFrame mode f = Ok tt ↔ (mode = GPON ∨ mode = XGSPON) ∧ acceptable mode f.
Proof. by apply validateFrame_iff. Qed.

(** A GPON frame that carries its checksum. *)
Definition with_checksum (f : DownstreamFrame) : Prop :=
  (nth8 (df_Contents f) 3 = BaselineIdent → length (df_Contents f) = MaxBaselineLength) ∧
  (nth8 (df_Contents f) 3 = ExtendedIdent →
     length (df_Contents f) = (Z.to_nat (Uint16 (df_Contents f) 8) + 14)%nat).

Lemma with_checksum_authentic f :
  bytes_ok (df_Contents f) → with_checksum f → validateFrame GPON f = Ok tt →
  Uint32 (drop (length (df_Contents f) - 4) (df_Contents f)) 0
  = CRC32A (take (length (df_Contents f) - 4) (df_Contents f)).
Proof.
  intros Hb [H1 H2] [_ Ha]%validateFrame_iff; [|done]. unfold acceptable, authentic in Ha.
  destruct Ha as [[Hd Ha]|(Hd & _ & _ & Ha)].
  - specialize (H1 Hd). rewrite H1 in Ha |- *. unfold MaxBaselineLength in *.
    destruct Ha as [[[_ [?|[_ ?]]]|[? _]]|[? _]]; (discriminate || done).
  - specialize (H2 Hd). rewrite H2 in Ha |- *.
    replace (Z.to_nat (Uint16 (df_Contents f) 8) + 14 - 4)%nat with (Z.to_nat (Uint16 (df_Contents f) 8) + 10)%nat by lia.
    destruct Ha as [[_ [?|[_ ?]]]|[? _]]; (discriminate || lia || done).
Qed.

(** Corruption is caught: when a GPON frame that carries its checksum is accepted, no frame that
    differs from it only inside one window of four consecutive octets of its contents (after
    the header) is. *)
Theorem corrupted_frame_rejected pre w1 w2 post mic v1 v2
    (Hb : bytes_ok (pre ++ w1 ++ post ++ mic)) (Hb2 : bytes_ok w2)
    (Hpre : (10 ≤ length pre)%nat) (L1 : length w1 = 4%nat) (L2 : length w2 = 4%nat) (Lm : length mic = 4%nat)
    (Hne : w1 ≠ w2) (Hc : with_checksum (mkDownstream (pre ++ w1 ++ post ++ mic) v1))
    (Hok : validateFrame GPON (mkDownstream (pre ++ w1 ++ post ++ mic) v1) = Ok tt) :
  validateFrame GPON (mkDownstream (pre ++ w2 ++ post ++ mic) v2) ≠ Ok tt.
Proof.
  rewrite !bytes_ok_app in Hb. destruct Hb as (? & ? & ? & ?).
  assert (∀ w, length w = 4%nat → bytes_ok w → ∀ v,
    with_checksum (mkDownstream (pre ++ w ++ post ++ mic) v) →
    validateFrame GPON (mkDownstream (pre ++ w ++ post ++ mic) v) = Ok tt →
    be mic = CRC32A (pre ++ w ++ post)) as Hsum.
  { intros w Hw Hbw v Hcw Hv.
    assert (bytes_ok (pre ++ w ++ post ++ mic)) as Hall by by rewrite !bytes_ok_app.
    pose proof (with_checksum_authentic (mkDownstream (pre ++ w ++ post ++ mic) v) Hall Hcw Hv) as Ha.
    cbn [df_Contents] in Ha. replace (pre ++ w ++ post ++ mic) with ((pre ++ w ++ post) ++ mic) in Ha
      by by rewrite <- !app_assoc.
    rewrite length_app, Lm in Ha. replace (length (pre ++ w ++ post) + 4 - 4)%nat with (length (pre ++ w ++ post)) in Ha by lia.
    rewrite drop_app_length, take_app_length in Ha. unfold Uint32 in Ha. by rewrite slice_full in Ha by done. }
  intros Hv. pose proof (Hsum w1 L1 ltac:(done) v1 Hc Hok) as E1.
  assert (∀ i, (i < 10)%nat → nth8 (pre ++ w1 ++ post ++ mic) i = nth8 (pre ++ w2 ++ post ++ mic) i) as Hnth.
  { intros i Hi. unfold nth8. by rewrite !app_nth1 by lia. }
  assert (Uint16 (pre ++ w1 ++ post ++ mic) 8 = Uint16 (pre ++ w2 ++ post ++ mic) 8) as Hu.
  { unfold Uint16. by rewrite !slice_app_l by lia. }
  assert (with_checksum (mkDownstream (pre ++ w2 ++ post ++ mic) v2)) as Hc2.
  { destruct Hc as [Hc1 Hc2]. unfold with_checksum in *. cbn [df_Contents] in *.
    rewrite <- (Hnth 3%nat), <- Hu by lia. rewrite !length_app in *. rewrite L1 in *. by rewrite L2. }
  pose proof (Hsum w2 L2 Hb2 v2 Hc2 Hv) as E2. rewrite E1 in E2.
  apply Hne. by apply (CRC32A_window pre w1 w2 post).
Qed.

(** ** Concrete frames *)

(** A MIB reset request on GPON, with its checksum, and on XGS-PON without its trailer. *)
Definition sampleContents : list Z :=
  [0x80; 0x01; MibResetRequestType; BaselineIdent; 0; 2; 0; 0] ++ repeat 0 32 ++ [0; 0; 0; 40].

Lemma validateFrame_exact_witness :
  validateFrame XGSPON (mkDownstream sampleContents true) = Ok tt ↔
  (XGSPON = GPON ∨ XGSPON = XGSPON) ∧ acceptable XGSPON (mkDownstream sampleContents true).
Proof. apply validateFrame_exact. by_decide. Defined.

Lemma corrupted_frame_rejected_witness :
  validateFrame GPON (mkDownstream
    (take 20 sampleContents ++ [0; 1; 0; 0] ++ drop 24 sampleContents ++ put_be 4 (CRC32A sampleContents)) false)
  ≠ Ok tt.
Proof.
  apply (corrupted_frame_rejected (take 20 sampleContents) [0; 0; 0; 0] [0; 1; 0; 0] (drop 24 sampleContents)
           (put_be 4 (CRC32A sampleContents)) false false); try by_decide; done.
Defined.
