(* ===== verification/Codec.v ===== *)
(** * Engine: the bodies of responses and notifications

    The serializers of the vendored message library (src/vendor/github.com/opencord/omci-lib-go/v2:
    generated/attribute.go, generated/medef.go, generated/me.go and one file for each message
    type) for the messages the engine sends.  A body is what follows the four octets of the
    OMCI header; [Panic] is a failed type assertion.  No type of the program is an
    [IOctetStream], and the attribute values the store holds are never of type [int]. *)

From S2P Require Import Prelude Maps MeTypes MeLib Mib MeNames Frames.

Inductive CodecError := Unencodable | Panic.

(** [GetAttributeDefinitionMapKeys]. *)
Definition GetAttributeDefinitionMapKeys {MR : MapRange} (attrMap : gmap Z AttributeDefinition) : list Z :=
  sortedKeys Z.le attrMap.

(** ** Attributes *)

Definition InterfaceToOctets (input : Value) : Res CodecError (list Z) :=
  match input with
  | VOctets values => Ok values
  | VU16s values => Ok (concat (map (put_be 2) values))
  | VU32s values => Ok (concat (map (put_be 4) values))
  | VU64s values => Ok (concat (map (put_be 8) values))
  | _ => Err Unencodable
  end.

(** [copy(bytes, stream)] into [size] fresh octets. *)
Definition copyInto (size : Z) (stream : list Z) : list Z :=
  take (Z.to_nat size) stream ++ repeat 0 (Z.to_nat size - length stream).

(** The octets of a value that is not a table, in [size] octets. *)
Definition encodeValue (ty : AttributeType) (size : Z) (value : Value) : Res CodecError (list Z) :=
  let octets := r ← InterfaceToOctets value; Ok (copyInto size r) in
  if bool_decide (ty ∈ [StringAttributeType; OctetsAttributeType; UnknownAttributeType]) then octets
  else if size =? 1 then match value with VU8 x => Ok (put_be 1 x) | _ => Err Panic end
  else if size =? 2 then match value with VU16 x => Ok (put_be 2 x) | _ => Err Panic end
  else if size =? 4 then match value with VU32 x => Ok (put_be 4 x) | _ => Err Panic end
  else if size =? 8 then match value with VU64 x => Ok (put_be 8 x) | _ => Err Panic end
  else octets.

(** [tableAttributeSerializeTo] for the message types of responses. *)
Definition tableSerializeTo (value : Value) (msgType available : Z) : list Z * Res CodecError Z :=
  if msgType =? Z.lor GetMsg AK then
    if available <? 4 then ([], Err Unencodable)
    else match value with VU32 x => (put_be 4 x, Ok 4) | _ => ([], Err Unencodable) end
  else if msgType =? GetNextResponseType then
    match value with
    | VOctets data =>
        if available <? Z.of_nat (length data) then ([], Err Unencodable)
        else (data, Ok (Z.of_nat (length data)))
    | _ => ([], Err Unencodable)
    end
  else ([], Err Unencodable).

(** [AttributeDefinition.SerializeTo]: the octets appended to the buffer, also when the
    encoding fails after they were reserved, and their number. *)
Definition attributeSerializeTo (attr : AttributeDefinition) (value : Value) (msgType available : Z)
    : list Z * Res CodecError Z :=
  if IsTableAttribute attr then tableSerializeTo value msgType available
  else if bool_decide (value = VNil) then ([], Err Unencodable)
  else if available <? Size attr then ([], Err Unencodable)
  else match encodeValue (AttrType attr) (Size attr) value with
       | Ok octets => (octets, Ok (Size attr))
       | Err err => (repeat 0 (Z.to_nat (Size attr)), Err err)
       end.

(** The state of the loop of [SerializeAttributes]. *)
Record attrState := mkAttrState { sa_bytes : list Z; sa_failed : Z; sa_available : Z }.

Section codec.
Context {MR : MapRange}.

Definition serializeAttribute (definitions : gmap Z AttributeDefinition) (attr : AttributeValueMap)
    (mask msgType : Z) (packData : bool) (st : attrState) (index : Z) : Res CodecError attrState :=
  if index =? 0 then Ok st
  else match definitions !! index with
  | None => Ok st
  | Some attrDef =>
      if Z.land mask (Mask attrDef) =? 0 then Ok st
      else match attr !! Name attrDef with
      | None => Err Unencodable
      | Some value =>
          match attributeSerializeTo attrDef value msgType (sa_available st) with
          | (bytes, Ok size) => Ok (mkAttrState (sa_bytes st ++ bytes) (sa_failed st) (sa_available st - size))
          | (bytes, Err Unencodable) =>
              if packData
              then Ok (mkAttrState (sa_bytes st ++ bytes) (Z.lor (sa_failed st) (Mask attrDef)) (sa_available st))
              else Err Unencodable
          | (_, Err Panic) => Err Panic
          end
      end
  end.

(** The octets and the mask of the attributes that did not fit. *)
Definition SerializeAttributes (d : ManagedEntityDefinition) (attr : AttributeValueMap)
    (mask msgType available : Z) (packData : bool) : Res CodecError (list Z * Z) :=
  if negb (Z.lor mask (AllowedAttributeMask d) =? AllowedAttributeMask d) then Err Unencodable
  else
    st ← foldM_res (serializeAttribute (AttributeDefinitions d) attr mask msgType packData)
           (GetAttributeDefinitionMapKeys (AttributeDefinitions d)) (mkAttrState [] 0 available);
    Ok (sa_bytes st, sa_failed st).

(** [GetEntityID]. *)
Definition GetEntityID (entity : ManagedEntity) : Z :=
  match attributes entity !! eidName (definition entity) with Some (VU16 id) => id | _ => 0 end.

(** [ManagedEntity.SerializeTo]. *)
Definition entitySerializeTo (entity : ManagedEntity) (msgType available : Z) (fixLengths : bool)
    : Res CodecError (list Z) :=
  '(bytes, _) ← SerializeAttributes (definition entity) (attributes entity) (attributeMask entity)
                  msgType available fixLengths;
  Ok (put_be 2 (ClassID (definition entity)) ++ put_be 2 (GetEntityID entity) ++
      put_be 2 (attributeMask entity) ++ bytes).

(** ** Messages *)

Record Alarm := mkAlarm { a_Key : Key; a_Bitmap : list Z }.

(** The messages the engine sends, without the class and the entity of their target.
    [SimpleResponse] is a response whose body is its result code. *)
Inductive Message :=
| AlarmNotificationMsg (bitmap : list Z) (sequence : Z)
| AttributeValueChangeMsg (mask : Z) (attributes : AttributeValueMap)
| TestResultNotification (payload : list Z)
| OpticalLineSupervisionTestResult (powerFeedVoltage receivedOpticalPower meanOpticalLaunch laserBiasCurrent
    temperature : Z)
| CreateResponse (result attributeExecutionMask : Z)
| DeleteResponse (result : Z)
| SetResponse (result failed unsupported : Z)
| GetResponse (result mask : Z) (attributes : AttributeValueMap) (failed unsupported : Z)
| GetCurrentDataResponse (result mask : Z) (attributes : AttributeValueMap) (failed unsupported : Z)
| GetNextResponse (result mask : Z) (attributes : AttributeValueMap)
| MibResetResponse (result : Z)
| MibUploadResponse (commands : Z)
| MibUploadNextResponse (reported : ManagedEntity) (additional : list ManagedEntity)
| GetAllAlarmsResponse (commands : Z)
| GetAllAlarmsNextResponse (alarm : Alarm) (additional : list Alarm)
| SetTableResponse (result : Z)
| StartSoftwareDownloadResponse (result windowSize : Z)
| DownloadSectionResponse (result sectionNumber : Z)
| EndSoftwareDownloadResponse (result : Z)
| ActivateSoftwareResponse (result : Z)
| CommitSoftwareResponse (result : Z)
| TestResponse (result : Z)
| SynchronizeTimeResponse (result : Z)
| RebootResponse (result : Z).

Definition guard_codec (b : bool) : Res CodecError unit := guard_err b Unencodable.

(** [me.LoadManagedEntityDefinition] and the check that the class supports the message type. *)
Definition supporting (classID entityID msgType : Z) : Res CodecError ManagedEntity :=
  match LoadManagedEntityDefinition classID (Some (mkParams entityID ∅)) with
  | Err _ => Err Unencodable
  | Ok entity => _ ← guard_codec (negb (SupportsMsgType entity msgType)); Ok entity
  end.

(** The contents length of an extended message. *)
Definition withLength (extended : bool) (contents : list Z) : list Z :=
  if extended then put_be 2 (Z.of_nat (length contents)) ++ contents else contents.

(** The check that every attribute of a response can be read. *)
Definition checkReadable (definitions : gmap Z AttributeDefinition) (attributes : AttributeValueMap)
    (among : option Z) : Res CodecError unit :=
  foldM_res (λ _ '(name, _),
    match GetAttributeDefinitionByName definitions name with
    | None => Err Unencodable
    | Some attr =>
        guard_codec (negb (Index attr =? 0) &&
          match among with Some mask => negb (Z.land (Mask attr) mask =? 0) | None => true end &&
          negb (SupportsAttributeAccess attr MeTypes.Read))
    end) (range attributes) tt.

(** [GetResponse.SerializeTo] and [GetCurrentDataResponse.SerializeTo], which differ in the
    message type and in the attributes that are checked. *)
Definition attributesResponse (extended : bool) (entity : ManagedEntity) (msgType : Z) (among : option Z)
    (result mask : Z) (attributes : AttributeValueMap) (failed unsupported : Z)
    : Res CodecError (list Z) :=
  _ ← checkReadable (AttributeDefinitions (definition entity)) attributes among;
  if (result =? Success) || (result =? AttributeFailure) then
    let available := if extended then Z.of_nat MaxExtendedLength - 18 - 4
                     else Z.of_nat MaxBaselineLength - 11 - 4 - 8 in
    '(bytes, failedMask) ← SerializeAttributes (definition entity) attributes mask msgType available true;
    let failed := Z.lor failed failedMask in
    let mask := Z.ldiff mask failedMask in
    let result := if failedMask =? 0 then result else AttributeFailure in
    let masks := if result =? AttributeFailure then put_be 2 unsupported ++ put_be 2 failed
                 else [0; 0; 0; 0] in
    if extended
    then Ok (put_be 2 (Z.of_nat (length bytes) + 7) ++ put_be 1 result ++ put_be 2 mask ++ masks ++ bytes)
    else
      let body := put_be 1 result ++ put_be 2 mask ++ bytes in
      Ok (body ++ repeat 0 (28 - length body) ++ masks ++ [0; 0; 0; 0])
  else
    Ok ((if extended then put_be 2 7 else []) ++ put_be 1 result ++ put_be 2 mask ++
        (if extended then [0; 0; 0; 0] else [])).

(** The managed entities after the first of an extended [MibUploadNextResponse]. *)
Fixpoint additionalEntities (available : Z) (entities : list ManagedEntity) : Res CodecError (list Z) :=
  match entities with
  | [] => Ok []
  | entry :: entities =>
      _ ← guard_codec (available <=? 8);
      bytes ← entitySerializeTo entry MibUploadNextResponseType available true;
      rest ← additionalEntities (available - (2 + Z.of_nat (length bytes))) entities;
      Ok (put_be 2 (Z.of_nat (length bytes) - 6) ++ bytes ++ rest)
  end.

Definition alarmBody (alarm : Alarm) : list Z :=
  put_be 2 (a_Key alarm).1 ++ put_be 2 (a_Key alarm).2 ++ a_Bitmap alarm.

(** A response whose body is its result, for a class that supports [msgType]. *)
Definition resultBody (extended : bool) (classID entityID msgType : Z) (valid : bool) (result : Z)
    : Res CodecError (list Z) :=
  _ ← supporting classID entityID msgType;
  _ ← guard_codec (negb valid);
  Ok (withLength extended (put_be 1 result)).

(** One definition for each [SerializeTo]: what follows the class and the entity. *)

Definition alarmNotificationMsgBody (extended : bool) (classID entityID : Z)
    (bitmap : list Z) (sequence : Z) : Res CodecError (list Z) :=
  Ok (if extended then withLength true (bitmap ++ put_be 1 sequence)
      else bitmap ++ [0; 0; 0] ++ put_be 1 sequence).

Definition attributeValueChangeMsgBody (extended : bool) (classID entityID mask : Z)
    (attributes : AttributeValueMap) : Res CodecError (list Z) :=
  match LoadManagedEntityDefinition classID (Some (mkParams entityID ∅)) with
  | Err _ => Err Unencodable
  | Ok entity =>
      let available := if extended then Z.of_nat MaxExtendedLength - 12 - 4
                       else Z.of_nat MaxBaselineLength - 10 - 8 in
      '(bytes, _) ← SerializeAttributes (definition entity) attributes mask (Z.lor GetMsg AK) available false;
      Ok (withLength extended (put_be 2 mask ++ bytes))
  end.

Definition testResultNotificationBody (extended : bool) (classID entityID : Z) (payload : list Z)
    : Res CodecError (list Z) :=
  _ ← supporting classID entityID TestMsg;
  _ ← guard_codec (bool_decide (payload = []));
  let maxSize := if extended then Z.of_nat MaxExtendedLength - 10 - 4
                 else Z.of_nat MaxBaselineLength - 8 - 8 in
  _ ← guard_codec (maxSize <? Z.of_nat (length payload));
  Ok (withLength extended payload).

Definition opticalLineSupervisionTestResultBody (extended : bool) (classID entityID voltage received launch current temperature : Z)
    : Res CodecError (list Z) :=
  _ ← supporting classID entityID TestMsg;
  Ok (withLength extended
        ([1] ++ put_be 2 voltage ++ [3] ++ put_be 2 received ++ [5] ++ put_be 2 launch ++
         [9] ++ put_be 2 current ++ [12] ++ put_be 2 temperature ++ [0; 0])).

Definition createResponseBody (extended : bool) (classID entityID result attributeExecutionMask : Z)
    : Res CodecError (list Z) :=
  _ ← supporting classID entityID MeTypes.Create;
  Ok (withLength extended
        (put_be 1 result ++ if result =? ParameterError then put_be 2 attributeExecutionMask else [])).

Definition deleteResponseBody (extended : bool) (classID entityID result : Z)
    : Res CodecError (list Z) :=
  resultBody extended classID entityID MeTypes.Delete true result.

Definition setResponseBody (extended : bool) (classID entityID result failed unsupported : Z)
    : Res CodecError (list Z) :=
  _ ← supporting classID entityID SetMsg;
  let masks := put_be 2 unsupported ++ put_be 2 failed in
  Ok (if extended then withLength true (put_be 1 result ++ if result =? AttributeFailure then masks else [])
      else put_be 1 result ++ masks).

Definition getResponseBody (extended : bool) (classID entityID result mask : Z)
    (attributes : AttributeValueMap) (failed unsupported : Z) : Res CodecError (list Z) :=
  entity ← supporting classID entityID GetMsg;
  attributesResponse extended entity (Z.lor GetMsg AK) (Some mask) result mask attributes failed unsupported.

Definition getCurrentDataResponseBody (extended : bool) (classID entityID result mask : Z)
    (attributes : AttributeValueMap) (failed unsupported : Z) : Res CodecError (list Z) :=
  entity ← supporting classID entityID GetCurrentData;
  attributesResponse extended entity (Z.lor GetCurrentData AK) None result mask attributes failed unsupported.

Definition getNextResponseBody (extended : bool) (classID entityID result mask : Z)
    (attributes : AttributeValueMap) : Res CodecError (list Z) :=
  entity ← supporting classID entityID GetNextMsg;
  _ ← guard_codec (DeviceBusy <? result);
  _ ← checkReadable (AttributeDefinitions (definition entity)) attributes None;
  if result =? Success then
    let available := if extended then Z.of_nat MaxExtendedLength - 13 - 4
                     else Z.of_nat MaxBaselineLength - 11 - 8 in
    '(bytes, _) ← SerializeAttributes (definition entity) attributes mask GetNextResponseType available false;
    Ok (withLength extended (put_be 1 result ++ put_be 2 mask ++ bytes))
  else Ok ((if extended then [0; 0] else []) ++ put_be 1 result ++ put_be 2 mask).

Definition mibResetResponseBody (extended : bool) (classID entityID result : Z)
    : Res CodecError (list Z) :=
  resultBody extended classID entityID MibReset true result.

Definition mibUploadResponseBody (extended : bool) (classID entityID commands : Z)
    : Res CodecError (list Z) :=
  _ ← supporting classID entityID MibUpload;
  Ok (withLength extended (put_be 2 commands)).

Definition mibUploadNextResponseBody (extended : bool) (classID entityID : Z)
    (reported : ManagedEntity) (additional : list ManagedEntity) : Res CodecError (list Z) :=
  _ ← supporting classID entityID MibUploadNext;
  let available := if extended then Z.of_nat MaxExtendedLength - 10 - 4
                   else Z.of_nat MaxBaselineLength - 8 - 8 in
  bytes ← entitySerializeTo reported MibUploadNextResponseType available true;
  if negb extended then Ok bytes
  else
    rest ← additionalEntities (available - (4 + Z.of_nat (length bytes))) additional;
    Ok (withLength true (put_be 2 (Z.of_nat (length bytes) - 6) ++ bytes ++ rest)).

Definition getAllAlarmsResponseBody (extended : bool) (classID entityID commands : Z)
    : Res CodecError (list Z) :=
  _ ← supporting classID entityID GetAllAlarms;
  Ok (withLength extended (put_be 2 commands)).

Definition getAllAlarmsNextResponseBody (extended : bool) (classID entityID : Z)
    (alarm : Alarm) (additional : list Alarm) : Res CodecError (list Z) :=
  _ ← supporting classID entityID GetAllAlarmsNext;
  let contents := alarmBody alarm ++ (if extended then concat (map alarmBody additional) else []) in
  _ ← guard_codec (extended &&
        (Z.of_nat MaxExtendedLength - 10 - 4 <? 34 + 32 * Z.of_nat (length additional)));
  Ok (withLength extended contents).

Definition setTableResponseBody (extended : bool) (classID entityID result : Z)
    : Res CodecError (list Z) :=
  _ ← supporting classID entityID SetTableMsg;
  _ ← guard_codec (7 <=? result);
  Ok (withLength true (put_be 1 result)).

Definition startSoftwareDownloadResponseBody (extended : bool) (classID entityID result windowSize : Z)
    : Res CodecError (list Z) :=
  _ ← supporting classID entityID StartSoftwareDownload;
  _ ← guard_codec (negb (classID =? SoftwareImageClassID) || (DeviceBusy <? result));
  Ok (withLength extended (put_be 1 result ++ put_be 1 windowSize ++ [0])).

Definition downloadSectionResponseBody (extended : bool) (classID entityID result sectionNumber : Z)
    : Res CodecError (list Z) :=
  _ ← supporting classID entityID DownloadSection;
  _ ← guard_codec (negb (classID =? SoftwareImageClassID) || (DeviceBusy <? result));
  Ok (withLength extended (put_be 1 result ++ put_be 1 sectionNumber)).

Definition endSoftwareDownloadResponseBody (extended : bool) (classID entityID result : Z)
    : Res CodecError (list Z) :=
  _ ← supporting classID entityID EndSoftwareDownload;
  _ ← guard_codec (negb (classID =? SoftwareImageClassID) || (DeviceBusy <? result));
  Ok (withLength extended (put_be 1 result ++ [0])).

Definition activateSoftwareResponseBody (extended : bool) (classID entityID result : Z)
    : Res CodecError (list Z) :=
  resultBody extended classID entityID ActivateSoftware
    ((classID =? SoftwareImageClassID) && (result <=? DeviceBusy)) result.

Definition commitSoftwareResponseBody (extended : bool) (classID entityID result : Z)
    : Res CodecError (list Z) :=
  resultBody extended classID entityID CommitSoftware
    ((classID =? SoftwareImageClassID) && (result <=? DeviceBusy)) result.

Definition testResponseBody (extended : bool) (classID entityID result : Z)
    : Res CodecError (list Z) :=
  _ ← supporting classID entityID TestMsg;
  _ ← guard_codec (DeviceBusy <? result);
  Ok (put_be 1 result).

Definition synchronizeTimeResponseBody (extended : bool) (classID entityID result : Z)
    : Res CodecError (list Z) :=
  _ ← supporting classID entityID SynchronizeTime;
  _ ← guard_codec (negb (classID =? OnuGClassID) || negb (entityID =? 0));
  Ok (withLength extended (put_be 1 result ++ if result =? Success then [0] else [])).

Definition rebootResponseBody (extended : bool) (classID entityID result : Z)
    : Res CodecError (list Z) :=
  resultBody extended classID entityID RebootMsg (result <=? DeviceBusy) result.

(** What follows the class and the entity. *)
Definition messageContents (extended : bool) (classID entityID : Z) (message : Message)
    : Res CodecError (list Z) :=
  match message with
  | AlarmNotificationMsg bitmap sequence =>
      alarmNotificationMsgBody extended classID entityID bitmap sequence
  | AttributeValueChangeMsg mask attributes =>
      attributeValueChangeMsgBody extended classID entityID mask attributes
  | TestResultNotification payload => testResultNotificationBody extended classID entityID payload
  | OpticalLineSupervisionTestResult voltage received launch current temperature =>
      opticalLineSupervisionTestResultBody extended classID entityID voltage received launch current temperature
  | CreateResponse result attributeExecutionMask =>
      createResponseBody extended classID entityID result attributeExecutionMask
  | DeleteResponse result => deleteResponseBody extended classID entityID result
  | SetResponse result failed unsupported =>
      setResponseBody extended classID entityID result failed unsupported
  | GetResponse result mask attributes failed unsupported =>
      getResponseBody extended classID entityID result mask attributes failed unsupported
  | GetCurrentDataResponse result mask attributes failed unsupported =>
      getCurrentDataResponseBody extended classID entityID result mask attributes failed unsupported
  | GetNextResponse result mask attributes =>
      getNextResponseBody extended classID entityID result mask attributes
  | MibResetResponse result => mibResetResponseBody extended classID entityID result
  | MibUploadResponse commands => mibUploadResponseBody extended classID entityID commands
  | MibUploadNextResponse reported additional =>
      mibUploadNextResponseBody extended classID entityID reported additional
  | GetAllAlarmsResponse commands => getAllAlarmsResponseBody extended classID entityID commands
  | GetAllAlarmsNextResponse alarm additional =>
      getAllAlarmsNextResponseBody extended classID entityID alarm additional
  | SetTableResponse result => setTableResponseBody extended classID entityID result
  | StartSoftwareDownloadResponse result windowSize =>
      startSoftwareDownloadResponseBody extended classID entityID result windowSize
  | DownloadSectionResponse result sectionNumber =>
      downloadSectionResponseBody extended classID entityID result sectionNumber
  | EndSoftwareDownloadResponse result =>
      endSoftwareDownloadResponseBody extended classID entityID result
  | ActivateSoftwareResponse result => activateSoftwareResponseBody extended classID entityID result
  | CommitSoftwareResponse result => commitSoftwareResponseBody extended classID entityID result
  | TestResponse result => testResponseBody extended classID entityID result
  | SynchronizeTimeResponse result => synchronizeTimeResponseBody extended classID entityID result
  | RebootResponse result => rebootResponseBody extended classID entityID result
  end.

(** The body of a message: class, entity and contents. *)
Definition encodeMessage (extended : bool) (key : Key) (message : Message) : Res CodecError (list Z) :=
  contents ← messageContents extended key.1 key.2 message;
  Ok (put_be 2 key.1 ++ put_be 2 key.2 ++ contents).
End codec.
