(* ===== verification/Software.v ===== *)
(** * Engine: the software image state machine

    src/internal/engine/software.go over the MIB store: start, section, end, activate and
    commit of an image download, and the import of the boot slots.  Each handler is one step
    under the engine's mutex; the goroutine that runs [sink.Finish] is a step of its own.  The
    platform (src/internal/software/software.go: Controller, Download, Transaction) is a
    parameter acting on a state [W], the state of the store's applier. *)

From S2P Require Import Prelude GoStd Checksum Maps MeTypes MeClasses MeLib Mib.
From S2P Require Import MeNames Table Semantics Store Frames.

(** ** The platform boundary *)

Record Image := mkImage {
  im_EntityID : Z;
  im_Version : list Z;
  im_ProductCode : list Z;
  im_ImageHash : list Z;
  im_Committed : bool;
  im_Active : bool;
  im_Valid : bool
}.

Record Metadata := mkMetadata { md_Version : list Z; md_ProductCode : list Z }.

(** [Controller] and the [Download]s it returns: [None] and [false] are errors.  [Write]
    returns the number of bytes written. *)
Record Controller (W Sink : Type) := mkController {
  Images : W → option (list Image) * W;
  Start : Z → Z → W → option Sink * W;
  PrepareActivate : Z → Z → W → option (CommandTransaction W) * W;
  PrepareCommit : Z → W → option (CommandTransaction W) * W;
  sinkWrite : Sink → list Z → W → (Z * bool) * W;
  sinkFinish : Sink → W → option Metadata * W;
  sinkAbort : Sink → W → bool * W
}.
Arguments mkController {W Sink} _ _ _ _ _ _ _.
Arguments Images {W Sink} _ _.
Arguments Start {W Sink} _ _ _ _.
Arguments PrepareActivate {W Sink} _ _ _ _.
Arguments PrepareCommit {W Sink} _ _ _.
Arguments sinkWrite {W Sink} _ _ _ _.
Arguments sinkFinish {W Sink} _ _ _.
Arguments sinkAbort {W Sink} _ _ _.

(** ** Requests (github.com/opencord/omci-lib-go/v2/software.go) *)

Record StartSoftwareDownloadRequest := mkStart {
  st_EntityClass : Z; st_EntityInstance : Z;
  st_WindowSize : Z; st_ImageSize : Z; st_NumberOfCircuitPacks : Z; st_CircuitPacks : list Z
}.
Record DownloadSectionRequest := mkSection {
  ds_EntityClass : Z; ds_EntityInstance : Z; ds_SectionNumber : Z; ds_SectionData : list Z
}.
Record EndSoftwareDownloadRequest := mkEnd {
  en_EntityClass : Z; en_EntityInstance : Z;
  en_CRC32 : Z; en_ImageSize : Z; en_NumberOfInstances : Z; en_ImageInstances : list Z
}.
Record ActivateSoftwareRequest := mkActivate {
  ac_EntityClass : Z; ac_EntityInstance : Z; ac_ActivateFlags : Z
}.
Record CommitSoftwareRequest := mkCommit { cm_EntityClass : Z; cm_EntityInstance : Z }.

(** ** The download *)

Inductive softwareDownloadPhase :=
| softwareReceiving | softwareFinalizing | softwareComplete | softwareFailed.
#[export] Instance softwareDownloadPhase_eq_dec : EqDecision softwareDownloadPhase.
Proof. solve_decision. Defined.

Record softwareEndRequest := mkEndRequest {
  er_entityID : Z; er_device : Z; er_crc : Z; er_size : Z
}.
#[export] Instance softwareEndRequest_eq_dec : EqDecision softwareEndRequest.
Proof. solve_decision. Defined.

(** [softwareFinishResult]: the metadata, or an error. *)
Abbreviation softwareFinishResult := (option Metadata).

(** The buffered channel [finish] and the goroutine that sends to it: no channel yet, the
    goroutine running, its result sent, the result received. *)
Inductive finishChannel :=
| NoChannel
| Running
| Sent (r : softwareFinishResult)
| Received.

Record softwareDownload (Sink : Type) := mkDownload {
  d_entityID : Z;
  d_device : Z;
  d_expectedSize : Z;
  d_received : Z;
  d_windowSize : Z;
  d_expectedSection : Z;
  d_window : list Z;
  d_windowFailed : bool;
  d_sink : Sink;
  d_crc : Z;
  (** the bytes written to the [md5] hash *)
  d_md5 : list Z;
  d_phase : softwareDownloadPhase;
  d_end : softwareEndRequest;
  d_finish : finishChannel;
  d_finished : option softwareFinishResult;
  d_imageHash : list Z
}.
Arguments mkDownload {Sink} _ _ _ _ _ _ _ _ _ _ _ _ _ _ _ _.
Arguments d_entityID {Sink} _.
Arguments d_device {Sink} _.
Arguments d_expectedSize {Sink} _.
Arguments d_received {Sink} _.
Arguments d_windowSize {Sink} _.
Arguments d_expectedSection {Sink} _.
Arguments d_window {Sink} _.
Arguments d_windowFailed {Sink} _.
Arguments d_sink {Sink} _.
Arguments d_crc {Sink} _.
Arguments d_md5 {Sink} _.
Arguments d_phase {Sink} _.
Arguments d_end {Sink} _.
Arguments d_finish {Sink} _.
Arguments d_finished {Sink} _.
Arguments d_imageHash {Sink} _.

(** [window], [windowFailed] and [expectedSection] assigned. *)
Definition withWindow {Sink} (d : softwareDownload Sink) (window : list Z) (windowFailed : bool)
    (expectedSection : Z) : softwareDownload Sink :=
  mkDownload (d_entityID d) (d_device d) (d_expectedSize d) (d_received d) (d_windowSize d)
    expectedSection window windowFailed (d_sink d) (d_crc d) (d_md5 d) (d_phase d) (d_end d)
    (d_finish d) (d_finished d) (d_imageHash d).

(** [crc], [md5] and [received] advanced over [data]. *)
Definition withWritten {Sink} (d : softwareDownload Sink) (data : list Z) : softwareDownload Sink :=
  mkDownload (d_entityID d) (d_device d) (d_expectedSize d)
    (u32 (d_received d + u32 (Z.of_nat (length data)))) (d_windowSize d)
    (d_expectedSection d) (d_window d) (d_windowFailed d) (d_sink d)
    (UpdateCRC32A (d_crc d) data) (d_md5 d ++ data) (d_phase d) (d_end d)
    (d_finish d) (d_finished d) (d_imageHash d).

(** The end of the download: the phase, the end request, the channel, its result, the hash. *)
Definition withEnd {Sink} (d : softwareDownload Sink) (phase : softwareDownloadPhase)
    (e : softwareEndRequest) (finish : finishChannel) (finished : option softwareFinishResult)
    (imageHash : list Z) : softwareDownload Sink :=
  mkDownload (d_entityID d) (d_device d) (d_expectedSize d) (d_received d) (d_windowSize d)
    (d_expectedSection d) (d_window d) (d_windowFailed d) (d_sink d) (d_crc d) (d_md5 d) phase e
    finish finished imageHash.

Record SoftwareStatus := mkStatus {
  ss_Phase : string; ss_ImageID : Z; ss_Bytes : Z; ss_ImageSize : Z; ss_ImageHash : list Z
}.

(** The fields of [Engine] this file uses. *)
Record engine (W Sink : Type) := mkEngine {
  e_mib : Store W;
  e_software : option (Controller W Sink);
  e_download : option (softwareDownload Sink);
  e_softwareState : SoftwareStatus
}.
Arguments mkEngine {W Sink} _ _ _ _.
Arguments e_mib {W Sink} _.
Arguments e_software {W Sink} _.
Arguments e_download {W Sink} _.
Arguments e_softwareState {W Sink} _.

(** ** Helpers *)

Definition softwareKey (entityID : Z) : Key := (SoftwareImageClassID, entityID).

Definition boolOctet (value : bool) : Z := if value then 1 else 0.

(** [make] and [copy]: the trimmed value, cut or padded with zeros to [size]. *)
Definition fixedOctets (value : list Z) (size : nat) : list Z :=
  let trimmed := take size (TrimSpace value) in
  trimmed ++ repeat 0 (size - length trimmed).

Definition zeroOctets (value : list Z) : bool := forallb (λ octet, octet =? 0) value.

(** [errors.As] into a [ResultError]. *)
Fixpoint asResult (e : MibError) : option (Z * Z * Z) :=
  match e with
  | ResultError code failed unsupported => Some (code, failed, unsupported)
  | PlainError _ => None
  | Joined a b => match asResult a with Some r => Some r | None => asResult b end
  end.

(** [operationResult] of engine.go. *)
Definition operationResult (err : option MibError) : Z * Z * Z :=
  match err with
  | None => (Success, 0, 0)
  | Some e => default (ProcessingError, 0, 0) (asResult e)
  end.

Record imageFlags := mkFlags { f_active : bool; f_committed : bool; f_valid : bool }.

Section software.
Context {MR : MapRange} {W Sink : Type}.
Implicit Types (e : engine W Sink) (d : softwareDownload Sink) (w : W).

Definition withDownload e (download : option (softwareDownload Sink)) : engine W Sink :=
  mkEngine (e_mib e) (e_software e) download (e_softwareState e).
Definition withMib e (mib : Store W) : engine W Sink :=
  mkEngine mib (e_software e) (e_download e) (e_softwareState e).
Definition withStatus e (status : SoftwareStatus) : engine W Sink :=
  mkEngine (e_mib e) (e_software e) (e_download e) status.
(** [e.softwareState.Phase = phase]. *)
Definition withPhase e (phase : string) : engine W Sink :=
  let s := e_softwareState e in
  withStatus e (mkStatus phase (ss_ImageID s) (ss_Bytes s) (ss_ImageSize s) (ss_ImageHash s)).
(** [e.softwareState.Bytes = bytes]. *)
Definition withBytes e (bytes : Z) : engine W Sink :=
  let s := e_softwareState e in
  withStatus e (mkStatus (ss_Phase s) (ss_ImageID s) bytes (ss_ImageSize s) (ss_ImageHash s)).

(** What a handler returns: the result code, the engine and the platform. *)
Definition reply : Type := (Z * engine W Sink * W)%type.

Definition softwareDownloadBusy e : bool :=
  match e_download e with
  | None => false
  | Some d => bool_decide (d_phase d = softwareReceiving) || bool_decide (d_phase d = softwareFinalizing)
  end.

(** [softwareImage]: the flags of an image, or a result code. *)
Definition softwareImage e (entityID : Z) : Res Z imageFlags :=
  let '(attributes, err) :=
    match Get (e_mib e) (softwareKey entityID) 0x7000 with
    | (Ok instance, err) => (i_Attributes instance, err)
    | (Err err, _) => (∅, Some err)
    end in
  let result := (operationResult err).1.1 in
  if negb (result =? Success) then Err result
  else match byteAttribute attributes SoftwareImage_IsActive,
             byteAttribute attributes SoftwareImage_IsCommitted,
             byteAttribute attributes SoftwareImage_IsValid with
       | Some active, Some committed, Some valid =>
           Ok (mkFlags (active =? 1) (committed =? 1) (valid =? 1))
       | _, _, _ => Err ProcessingError
       end.

(** [failSoftwareDownload]. *)
Definition failSoftwareDownload (controller : Controller W Sink) e w : engine W Sink * W :=
  let w := match e_download e with
           | Some d => if bool_decide (d_phase d = softwareReceiving)
                       then (sinkAbort controller (d_sink d) w).2 else w
           | None => w
           end in
  (withPhase (withDownload e None) "failed", w).

(** [setExclusiveSoftwareFlag]: the store operation. *)
Definition exclusiveUpdates (selected : Z) (attribute : string) : gmap Key AttributeValueMap :=
  fold_left (λ updates entityID,
      <[softwareKey entityID := {[ attribute := VU8 (if entityID =? selected then 1 else 0) ]}]> updates)
    [0; 1] ∅.

Definition setExclusiveSoftwareFlag e w (selected : Z) (attribute : string)
    (transaction : CommandTransaction W) : Res MibError unit * engine W Sink * W :=
  let '(r, mib, w) := UpdateByCommandTransactional (e_mib e) w
                        (exclusiveUpdates selected attribute) (Some transaction) in
  (r, withMib e mib, w).

(** ** Importing the boot slots *)

(** The loop over the images of [RefreshSoftwareImages]: the ids seen, the number of active
    and of committed images. *)
Definition checkImage (acc : gset Z * Z * Z) (image : Image) : Res unit (gset Z * Z * Z) :=
  let '(seen, active, committed) := acc in
  _ ← guard_err ((1 <? im_EntityID image) || (14 <? Z.of_nat (length (im_Version image))) ||
                 (25 <? Z.of_nat (length (im_ProductCode image)))) tt;
  _ ← guard_err (bool_decide (im_EntityID image ∈ seen)) tt;
  _ ← guard_err ((im_Active image || im_Committed image) && negb (im_Valid image)) tt;
  Ok ({[ im_EntityID image ]} ∪ seen, if im_Active image then active + 1 else active,
      if im_Committed image then committed + 1 else committed).

Definition imageAttributes (image : Image) : AttributeValueMap :=
  list_to_map [(SoftwareImage_Version, VOctets (fixedOctets (im_Version image) 14));
    (SoftwareImage_IsCommitted, VU8 (boolOctet (im_Committed image)));
    (SoftwareImage_IsActive, VU8 (boolOctet (im_Active image)));
    (SoftwareImage_IsValid, VU8 (boolOctet (im_Valid image)));
    (SoftwareImage_ProductCode, VOctets (fixedOctets (im_ProductCode image) 25));
    (SoftwareImage_ImageHash, VOctets (im_ImageHash image))].

(** The second loop: the store after each image, and whether all were imported. *)
Fixpoint importImages (mib : Store W) (images : list Image) : bool * Store W :=
  match images with
  | [] => (true, mib)
  | image :: images =>
      match UpdateAutonomous mib (softwareKey (im_EntityID image)) (imageAttributes image) with
      | (Err _, mib) => (false, mib)
      | (Ok _, mib) => importImages mib images
      end
  end.

Definition RefreshSoftwareImages e w : bool * engine W Sink * W :=
  match e_software e with
  | None => (true, e, w)
  | Some controller =>
      match Images controller w with
      | (None, w) => (false, e, w)
      | (Some images, w) =>
          if negb (Z.of_nat (length images) =? 2) then (false, e, w)
          else match foldM_res checkImage images (∅, 0, 0) with
               | Err _ => (false, e, w)
               | Ok (_, active, committed) =>
                   if negb (active =? 1) || negb (committed =? 1) then (false, e, w)
                   else let '(ok, mib) := importImages (e_mib e) images in (ok, withMib e mib, w)
               end
      end
  end.

(** ** Downloading an image *)

(** A fresh download. *)
Definition newDownload (request : StartSoftwareDownloadRequest) (device : Z) (sink : Sink)
    : softwareDownload Sink :=
  mkDownload (st_EntityInstance request) device (st_ImageSize request) 0
    (u16 (st_WindowSize request + 1)) 0 [] false sink CRC32AInitial [] softwareReceiving
    (mkEndRequest 0 0 0 0) NoChannel None (repeat 0 16).

Definition startSoftwareDownload e w (request : StartSoftwareDownloadRequest) (device : Z) : reply :=
  match e_software e with
  | None => (NotSupported, e, w)
  | Some controller =>
      if softwareDownloadBusy e then (DeviceBusy, e, w)
      else if negb (st_EntityClass request =? SoftwareImageClassID) then (UnknownEntity, e, w)
      else if 1 <? st_EntityInstance request then (UnknownInstance, e, w)
      else if (st_ImageSize request =? 0) || negb (st_NumberOfCircuitPacks request =? 1) ||
              negb (bool_decide (st_CircuitPacks request = [st_EntityInstance request]))
      then (ParameterError, e, w)
      else match softwareImage e (st_EntityInstance request) with
           | Err result => (result, e, w)
           | Ok image =>
               if f_active image || f_committed image then (ParameterError, e, w)
               else
                 let e := withDownload e None in
                 match Start controller (st_EntityInstance request) (st_ImageSize request) w with
                 | (None, w) => (ProcessingError, e, w)
                 | (Some sink, w) =>
                     match UpdateByCommand (e_mib e) w
                             {[ softwareKey (st_EntityInstance request) :=
                                  {[ SoftwareImage_IsValid := VU8 0 ]} ]} with
                     | (Err _, mib, w) =>
                         (ProcessingError, withMib e mib, (sinkAbort controller sink w).2)
                     | (Ok _, mib, w) =>
                         let e := withDownload (withMib e mib) (Some (newDownload request device sink)) in
                         (Success,
                          withStatus e (mkStatus "downloading" (st_EntityInstance request) 0
                                          (st_ImageSize request) []), w)
                     end
                 end
           end
  end.

(** [resetSoftwareWindow] and [rejectSoftwareWindow] on the download. *)
Definition resetSoftwareWindow d : softwareDownload Sink := withWindow d [] false 0.

Definition rejectSoftwareWindow d (acknowledged : bool) (result : Z) : Z * softwareDownload Sink :=
  if acknowledged then (result, withWindow d [] false 0)
  else (Success, withWindow d [] true 0).

(** What [downloadSoftwareSection] does before writing: a result that ends the call, or the
    window to write. *)
Inductive sectionStep :=
| Reply (result : Z) (d : softwareDownload Sink)
| Flush (d : softwareDownload Sink).

Definition acceptSection d (request : DownloadSectionRequest) (device : Z) (acknowledged : bool)
    : sectionStep :=
  let reject result :=
    let '(r, d) := rejectSoftwareWindow d acknowledged result in Reply r d in
  if negb (ds_SectionNumber request =? d_expectedSection d) then reject ProcessingError
  else
    let remaining :=
      u32 (u32 (d_expectedSize d - d_received d) - u32 (Z.of_nat (length (d_window d)))) in
    let data := ds_SectionData request in
    let kept := take (Z.to_nat remaining) data in
    if (remaining <? Z.of_nat (length data)) &&
       (negb (device =? BaselineIdent) || negb (zeroOctets (drop (Z.to_nat remaining) data)))
    then reject ProcessingError
    else
      let data := if remaining <? Z.of_nat (length data) then kept else data in
      let window := d_window d ++ data in
      if negb acknowledged then
        let next := u16 (d_expectedSection d + 1) in
        if d_windowSize d <=? next then Reply Success (withWindow d [] true 0)
        else Reply Success (withWindow d window (d_windowFailed d) (u8 next))
      else Flush (withWindow d window (d_windowFailed d) (d_expectedSection d)).

Definition sectionStepOf d (request : DownloadSectionRequest) (device : Z) (acknowledged : bool)
    : sectionStep :=
  if bool_decide (ds_SectionData request = []) then
    let '(r, d) := rejectSoftwareWindow d acknowledged ParameterError in Reply r d
  else if d_windowFailed d then
    if negb (ds_SectionNumber request =? 0) then
      if acknowledged then Reply ProcessingError (resetSoftwareWindow d) else Reply Success d
    else acceptSection (resetSoftwareWindow d) request device acknowledged
  else acceptSection d request device acknowledged.

Definition downloadSoftwareSection (controller : Controller W Sink) e w
    (request : DownloadSectionRequest) (device : Z) (acknowledged : bool) : reply :=
  match e_download e with
  | None => (ProcessingError, e, w)
  | Some d =>
      if negb (bool_decide (d_phase d = softwareReceiving)) then (ProcessingError, e, w)
      else if negb (ds_EntityClass request =? SoftwareImageClassID) ||
              negb (ds_EntityInstance request =? d_entityID d) || negb (device =? d_device d)
      then (ParameterError, e, w)
      else match sectionStepOf d request device acknowledged with
           | Reply result d => (result, withDownload e (Some d), w)
           | Flush d =>
               if bool_decide (d_window d = []) then
                 (Success, withBytes (withDownload e (Some (resetSoftwareWindow d))) (d_received d), w)
               else
                 let '((written, ok), w) := sinkWrite controller (d_sink d) (d_window d) w in
                 if negb ok || negb (written =? Z.of_nat (length (d_window d))) then
                   let '(e, w) := failSoftwareDownload controller (withDownload e (Some d)) w in
                   (ProcessingError, e, w)
                 else
                   let d := withWritten d (d_window d) in
                   (Success, withBytes (withDownload e (Some (resetSoftwareWindow d))) (d_received d), w)
           end
  end.

(** ** Ending the download *)

(** The attributes of a finished image. *)
Definition finishedAttributes (metadata : Metadata) (imageHash : list Z) : AttributeValueMap :=
  list_to_map [(SoftwareImage_Version, VOctets (fixedOctets (md_Version metadata) 14));
    (SoftwareImage_IsValid, VU8 1);
    (SoftwareImage_ProductCode, VOctets (fixedOctets (md_ProductCode metadata) 25));
    (SoftwareImage_ImageHash, VOctets imageHash)].

(** [softwareFinishStatus] once the result of [Finish] has been received. *)
Definition publishFinished e w d (finish : finishChannel) (r : softwareFinishResult) : reply :=
  match r with
  | Some metadata =>
      if (14 <? Z.of_nat (length (md_Version metadata))) ||
         (25 <? Z.of_nat (length (md_ProductCode metadata)))
      then (ProcessingError,
            withPhase (withDownload e (Some (withEnd d softwareFailed (d_end d) finish (Some r)
                                               (d_imageHash d)))) "failed", w)
      else
        let metadata := if bool_decide (TrimSpace (md_ProductCode metadata) = [])
                        then mkMetadata (md_Version metadata) (bytesOf "XG2010G") else metadata in
        let d := withEnd d (d_phase d) (d_end d) finish (Some (Some metadata)) (d_imageHash d) in
        match UpdateByCommand (e_mib e) w
                {[ softwareKey (d_entityID d) := finishedAttributes metadata (d_imageHash d) ]} with
        | (Err _, mib, w) => (ProcessingError, withMib (withDownload e (Some d)) mib, w)
        | (Ok _, mib, w) =>
            let d := withEnd d softwareComplete (d_end d) finish (d_finished d) (d_imageHash d) in
            let s := e_softwareState e in
            (Success,
             withStatus (withMib (withDownload e (Some d)) mib)
               (mkStatus "staged" (ss_ImageID s) (d_expectedSize d) (ss_ImageSize s)
                  (hexEncodeToString (d_imageHash d))), w)
        end
  | None =>
      (ProcessingError,
       withPhase (withDownload e (Some (withEnd d softwareFailed (d_end d) finish (Some r)
                                          (d_imageHash d)))) "failed", w)
  end.

Definition softwareFinishStatus e w d : reply :=
  match d_phase d with
  | softwareComplete => (Success, e, w)
  | softwareFailed | softwareReceiving => (ProcessingError, e, w)
  | softwareFinalizing =>
      match d_finished d with
      | Some r => publishFinished e w d (d_finish d) r
      | None =>
          match d_finish d with
          | Sent r => publishFinished e w d Received r
          | _ => (DeviceBusy, e, w)
          end
      end
  end.

(** The checks of [endSoftwareDownload] on a download still receiving. *)
Definition endRequestValid d (request : EndSoftwareDownloadRequest) : bool :=
  (en_ImageSize request =? d_expectedSize d) && (en_ImageSize request =? d_received d) &&
  (en_NumberOfInstances request =? 1) && bool_decide (en_ImageInstances request = [d_entityID d]) &&
  bool_decide (d_window d = []) && negb (d_windowFailed d) && (d_expectedSection d =? 0).

Definition endSoftwareDownload (controller : Controller W Sink) e w
    (request : EndSoftwareDownloadRequest) (device : Z) : reply :=
  match e_download e with
  | None => (ProcessingError, e, w)
  | Some d =>
      if negb (en_EntityClass request =? SoftwareImageClassID) then (UnknownEntity, e, w)
      else if 1 <? en_EntityInstance request then (UnknownInstance, e, w)
      else if negb (en_EntityInstance request =? d_entityID d) || negb (device =? d_device d)
      then (ProcessingError, e, w)
      else
        let end_ := mkEndRequest (en_EntityInstance request) device (en_CRC32 request)
                      (en_ImageSize request) in
        if negb (bool_decide (d_phase d = softwareReceiving)) then
          if negb (bool_decide (end_ = d_end d)) then (ProcessingError, e, w)
          else softwareFinishStatus e w d
        else if negb (endRequestValid d request) || negb (en_CRC32 request =? SumCRC32A (d_crc d)) then
          let '(e, w) := failSoftwareDownload controller e w in (ProcessingError, e, w)
        else
          let d := withEnd d softwareFinalizing end_ Running (d_finished d) (md5Sum (d_md5 d)) in
          (DeviceBusy, withPhase (withDownload e (Some d)) "finalizing", w)
  end.

(** The goroutine of [endSoftwareDownload]: it finishes the image and sends the result. *)
Definition finishGoroutine (controller : Controller W Sink) e w : option (engine W Sink * W) :=
  match e_download e with
  | Some d =>
      match d_finish d with
      | Running =>
          let '(r, w) := sinkFinish controller (d_sink d) w in
          Some (withDownload e (Some (withEnd d (d_phase d) (d_end d) (Sent r) (d_finished d)
                                        (d_imageHash d))), w)
      | _ => None
      end
  | None => None
  end.

(** ** Activating and committing *)

(** The checks the two handlers share: the flags of the image. *)
Definition selectImage e (entityClass entityInstance : Z) : Res Z imageFlags :=
  _ ← guard_err (softwareDownloadBusy e) DeviceBusy;
  _ ← guard_err (negb (entityClass =? SoftwareImageClassID)) UnknownEntity;
  _ ← guard_err (1 <? entityInstance) UnknownInstance;
  image ← softwareImage e entityInstance;
  _ ← guard_err (negb (f_valid image)) ParameterError;
  Ok image.

(** The status after a selection: the phase and the image. *)
Definition withSelected e (phase : string) (imageID : Z) : engine W Sink :=
  let s := e_softwareState e in
  withStatus e (mkStatus phase imageID (ss_Bytes s) (ss_ImageSize s) (ss_ImageHash s)).

Definition activateSoftware e w (request : ActivateSoftwareRequest) : reply :=
  match e_software e with
  | None => (NotSupported, e, w)
  | Some controller =>
      match selectImage e (ac_EntityClass request) (ac_EntityInstance request) with
      | Err result => (result, e, w)
      | Ok _ =>
          match PrepareActivate controller (ac_EntityInstance request) (ac_ActivateFlags request) w with
          | (None, w) => (ProcessingError, e, w)
          | (Some transaction, w) =>
              match setExclusiveSoftwareFlag e w (ac_EntityInstance request)
                      SoftwareImage_IsActive transaction with
              | (Err _, e, w) => (ProcessingError, e, w)
              | (Ok _, e, w) => (Success, withSelected e "activating" (ac_EntityInstance request), w)
              end
          end
      end
  end.

Definition commitSoftware e w (request : CommitSoftwareRequest) : reply :=
  match e_software e with
  | None => (NotSupported, e, w)
  | Some controller =>
      match selectImage e (cm_EntityClass request) (cm_EntityInstance request) with
      | Err result => (result, e, w)
      | Ok image =>
          if f_committed image then (Success, e, w)
          else match PrepareCommit controller (cm_EntityInstance request) w with
               | (None, w) => (ProcessingError, e, w)
               | (Some transaction, w) =>
                   match setExclusiveSoftwareFlag e w (cm_EntityInstance request)
                           SoftwareImage_IsCommitted transaction with
                   | (Err _, e, w) => (ProcessingError, e, w)
                   | (Ok _, e, w) => (Success, withSelected e "committed" (cm_EntityInstance request), w)
                   end
               end
      end
  end.
End software.
