(* ===== verification/SoftwareProps.v ===== *)
(** * Engine: the properties of the software image state machine

    The platform's image sinks are seen through a log of the calls made on them
    ([SinkLog]).  Whatever requests the OLT sends and however the MIB changes in between, the
    engine drives one sink at a time, never uses it after closing it, and ends a download
    only with an image of the announced size and checksum. *)

From S2P Require Import Prelude GoStd Checksum Maps MeTypes MeClasses MeLib Mib.
From S2P Require Import MeNames Table Semantics Store StoreLemmas StoreInvariant StoreProps Frames Software.

(** ** The calls on image sinks *)

Inductive SinkEvent (Sink : Type) :=
| Started (k : Sink)
| Wrote (k : Sink) (data : list Z) (complete : bool)
| Finished (k : Sink)
| Aborted (k : Sink).
Arguments Started {Sink} _.
Arguments Wrote {Sink} _ _ _.
Arguments Finished {Sink} _.
Arguments Aborted {Sink} _.

Section log.
Context {Sink : Type} `{EqDecision Sink}.
Implicit Types (l : list (SinkEvent Sink)) (k : Sink).

(** The open sinks and the sinks ever started, or [None] when a call breaks the protocol: a
    started sink is new, and writes, finish and abort are calls on an open sink. *)
Definition track (st : option (list Sink * list Sink)) (ev : SinkEvent Sink)
    : option (list Sink * list Sink) :=
  match st with
  | None => None
  | Some (opened, seen) =>
      match ev with
      | Started k => if bool_decide (k ∈ seen) then None else Some (k :: opened, k :: seen)
      | Wrote k _ _ => if bool_decide (k ∈ opened) then st else None
      | Finished k | Aborted k =>
          if bool_decide (k ∈ opened) then Some (List.filter (λ j, negb (bool_decide (j = k))) opened, seen)
          else None
      end
  end.

Definition openSinks l : option (list Sink) := fst <$> fold_left track l (Some ([], [])).

(** The sinks a log has started. *)
Definition startedSinks l : list Sink :=
  flat_map (λ ev, match ev with Started k => [k] | _ => [] end) l.

(** The bytes sink [k] has taken: the data of its complete writes. *)
Definition taken k l : list Z :=
  flat_map (λ ev, match ev with
                  | Wrote j data true => if bool_decide (j = k) then data else []
                  | _ => []
                  end) l.

Lemma startedSinks_app l l' : startedSinks (l ++ l') = startedSinks l ++ startedSinks l'.
Proof. apply flat_map_app. Qed.

Lemma taken_app k l l' : taken k (l ++ l') = taken k l ++ taken k l'.
Proof. apply flat_map_app. Qed.

(** In a log that keeps the protocol, open sinks have been started, and a sink that has not
    been started has taken nothing. *)
Lemma track_fold l o s :
  fold_left track l (Some ([], [])) = Some (o, s) →
  (∀ k, k ∈ s ↔ k ∈ startedSinks l) ∧ (∀ k, k ∈ o → k ∈ s) ∧ (∀ k, k ∉ s → taken k l = []).
Proof.
  revert o s. induction l as [|ev l IH] using rev_ind; intros o s Hf.
  - cbn in Hf. injection Hf as <- <-. split_and!; intros k; [done|by intros ?%elem_of_nil|done].
  - rewrite fold_left_app in Hf. cbn [fold_left] in Hf.
    destruct (fold_left track l _) as [[o' s']|]; [|discriminate Hf]. destruct (IH _ _ eq_refl) as (Hs & Ho & Ht).
    setoid_rewrite startedSinks_app. setoid_rewrite taken_app. setoid_rewrite elem_of_app. cbn [track] in Hf.
    destruct ev as [i|i data b|i|i]; destruct (bool_decide _) eqn:Hb in Hf; try discriminate Hf;
      injection Hf as <- <-; cbn; setoid_rewrite app_nil_r.
    + setoid_rewrite elem_of_cons. setoid_rewrite elem_of_nil.
      split_and!; intros k; [rewrite Hs; tauto|intros [->|Hk]; auto|]. intros Hk. apply Ht. tauto.
    + apply bool_decide_eq_true in Hb. setoid_rewrite elem_of_nil.
      split_and!; intros k; [rewrite Hs; tauto|auto|]. intros Hk. rewrite Ht by exact Hk.
      destruct b; [|reflexivity]. cbn. rewrite bool_decide_eq_false_2; [reflexivity|]. intros ->. auto.
    + setoid_rewrite elem_of_nil. split_and!; intros k; [rewrite Hs; tauto| |auto].
      intros [Hk _]%list_elem_of_In%filter_In. by apply Ho, list_elem_of_In.
    + setoid_rewrite elem_of_nil. split_and!; intros k; [rewrite Hs; tauto| |auto].
      intros [Hk _]%list_elem_of_In%filter_In. by apply Ho, list_elem_of_In.
Qed.

Lemma openSinks_start l k :
  openSinks l = Some [] → k ∉ startedSinks l →
  openSinks (l ++ [Started k]) = Some [k] ∧ taken k (l ++ [Started k]) = [].
Proof.
  unfold openSinks. intros Hf Hk. rewrite fold_left_app.
  destruct (fold_left track l _) as [[o s]|] eqn:Hl; [|discriminate Hf]. injection Hf as ->.
  destruct (track_fold _ _ _ Hl) as (Hs & _ & Ht). cbn [fold_left track].
  rewrite bool_decide_eq_false_2 by (by rewrite Hs). split; [reflexivity|].
  rewrite taken_app, Ht by (by rewrite Hs). reflexivity.
Qed.

Lemma openSinks_write l k data b :
  openSinks l = Some [k] →
  openSinks (l ++ [Wrote k data b]) = Some [k] ∧
  taken k (l ++ [Wrote k data b]) = taken k l ++ (if b then data else []).
Proof.
  unfold openSinks. intros Hf. rewrite fold_left_app.
  destruct (fold_left track l _) as [[o s]|]; [|discriminate Hf]. injection Hf as ->. cbn [fold_left track].
  rewrite bool_decide_eq_true_2 by (by left). split; [reflexivity|]. rewrite taken_app. cbn.
  destruct b; [|reflexivity]. by rewrite bool_decide_eq_true_2, app_nil_r.
Qed.

Lemma openSinks_close l k ev :
  ev = Finished k ∨ ev = Aborted k → openSinks l = Some [k] →
  openSinks (l ++ [ev]) = Some [] ∧ taken k (l ++ [ev]) = taken k l.
Proof.
  unfold openSinks. intros Hev Hf. rewrite fold_left_app, taken_app.
  destruct (fold_left track l _) as [[o s]|]; [|discriminate Hf]. injection Hf as ->.
  destruct Hev as [-> | ->]; cbn [fold_left track]; rewrite bool_decide_eq_true_2 by (by left);
    cbn; rewrite bool_decide_eq_true_2, app_nil_r; done.
Qed.
End log.

(** ** The platform, seen through its log

    What a platform promises: a log of the calls made on sinks, advanced by exactly the calls
    on them; [Start] hands out sinks not started before; and boot-slot queries, prepared
    transactions and the MIB backend do not touch image sinks. *)
Class SinkLog {W Sink} (ctl : Controller W Sink) := {
  sink_log : W → list (SinkEvent Sink);
  log_Images w : sink_log (Images ctl w).2 = sink_log w;
  log_Start id size w :
    match Start ctl id size w with
    | (Some k, w') => sink_log w' = sink_log w ++ [Started k] ∧ k ∉ startedSinks (sink_log w)
    | (None, w') => sink_log w' = sink_log w
    end;
  log_Write k data w :
    let '((n, ok), w') := sinkWrite ctl k data w in
    sink_log w' = sink_log w ++ [Wrote k data (ok && (n =? Z.of_nat (length data)))];
  log_Finish k w : sink_log (sinkFinish ctl k w).2 = sink_log w ++ [Finished k];
  log_Abort k w : sink_log (sinkAbort ctl k w).2 = sink_log w ++ [Aborted k];
  log_PrepareActivate id flags w : sink_log (PrepareActivate ctl id flags w).2 = sink_log w;
  log_PrepareCommit id w : sink_log (PrepareCommit ctl id w).2 = sink_log w;
  (** a prepared transaction *)
  log_Prepared_activate id flags w w' t :
    PrepareActivate ctl id flags w = (Some t, w') →
    ∀ w, sink_log (Commit t w).2 = sink_log w ∧ sink_log (Abort_ t w).2 = sink_log w;
  log_Prepared_commit id w w' t :
    PrepareCommit ctl id w = (Some t, w') →
    ∀ w, sink_log (Commit t w).2 = sink_log w ∧ sink_log (Abort_ t w).2 = sink_log w
}.

Section props.
Context {MR : MapRange} {W Sink : Type} `{EqDecision Sink}.
Context (ctl : Controller W Sink) `{!SinkLog ctl}.
Implicit Types (e : engine W Sink) (d : softwareDownload Sink) (w : W).

(** ** The steps of the engine *)

(** A MIB backend that leaves image sinks alone, and requests that do. *)
Definition quiet_store (s : Store W) : Prop :=
  ∀ change w, sink_log (applyChange s change w).2 = sink_log w.

Definition quiet_request (r : Request W) : Prop :=
  ∀ updates t w, r = RTransaction updates (Some t) →
    sink_log (Commit t w).2 = sink_log w ∧ sink_log (Abort_ t w).2 = sink_log w.

(** The fields of a request are values of their Go types. *)
Definition start_typed (r : StartSoftwareDownloadRequest) : Prop :=
  is_u 8 (st_WindowSize r) ∧ is_u 32 (st_ImageSize r).
Definition section_typed (r : DownloadSectionRequest) : Prop := bytes_ok (ds_SectionData r).

(** One step: a handler, the goroutine that finishes the image, or an operation on the MIB by
    another part of the engine. *)
Inductive swstep : engine W Sink → W → engine W Sink → W → Prop :=
| sw_refresh e w ok e' w' : RefreshSoftwareImages e w = (ok, e', w') → swstep e w e' w'
| sw_start e w request device r e' w' :
    start_typed request → startSoftwareDownload e w request device = (r, e', w') → swstep e w e' w'
| sw_section e w request device acknowledged r e' w' :
    section_typed request →
    downloadSoftwareSection ctl e w request device acknowledged = (r, e', w') → swstep e w e' w'
| sw_end e w request device r e' w' :
    endSoftwareDownload ctl e w request device = (r, e', w') → swstep e w e' w'
| sw_finish e w e' w' : finishGoroutine ctl e w = Some (e', w') → swstep e w e' w'
| sw_activate e w request r e' w' : activateSoftware e w request = (r, e', w') → swstep e w e' w'
| sw_commit e w request r e' w' : commitSoftware e w request = (r, e', w') → swstep e w e' w'
| sw_mib e w request res mib w' :
    quiet_request request → execute (e_mib e) w request = (res, mib, w') →
    swstep e w (withMib e mib) w'.

(** The engine [NewForMode] makes: no download yet. *)
Inductive swreachable : engine W Sink → W → Prop :=
| swr_new mib status w :
    quiet_store mib → openSinks (sink_log w) = Some [] →
    swreachable (mkEngine mib (Some ctl) None status) w
| swr_step e w e' w' : swreachable e w → swstep e w e' w' → swreachable e' w'.

(** ** The invariant *)

(** The section window that is being collected. *)
Definition window_ok d (window : list Z) (failed : bool) (section : Z) : Prop :=
  d_received d + Z.of_nat (length window) ≤ d_expectedSize d ∧ bytes_ok window ∧
  0 ≤ section < d_windowSize d ∧ (failed = true → window = [] ∧ section = 0).

(** What [endSoftwareDownload] has established when it leaves the receiving phase. *)
Definition image_complete d : Prop :=
  Z.of_nat (length (d_md5 d)) = d_expectedSize d ∧ er_size (d_end d) = d_expectedSize d ∧
  er_crc (d_end d) = CRC32A (d_md5 d) ∧ d_imageHash d = md5Sum (d_md5 d) ∧ d_window d = [].

Record download_ok d : Prop := {
  do_size : 0 < d_expectedSize d < 2 ^ 32;
  do_received : d_received d = Z.of_nat (length (d_md5 d));
  do_crc : d_crc d = UpdateCRC32A CRC32AInitial (d_md5 d);
  do_windowSize : d_windowSize d ≤ 256;
  do_window : window_ok d (d_window d) (d_windowFailed d) (d_expectedSection d);
  do_receiving : d_phase d = softwareReceiving → d_finish d = NoChannel ∧ d_finished d = None;
  do_complete : d_phase d ≠ softwareReceiving → image_complete d ∧ d_finish d ≠ NoChannel;
  do_running : d_finish d = Running → d_phase d = softwareFinalizing ∧ d_finished d = None
}.

(** The sink that is open for a download. *)
Definition sink_of d : list Sink :=
  match d_finish d with NoChannel | Running => [d_sink d] | _ => [] end.
Definition open_for (download : option (softwareDownload Sink)) : list Sink :=
  match download with Some d => sink_of d | None => [] end.

Record engine_ok e w : Prop := {
  eo_quiet : quiet_store (e_mib e);
  eo_software : e_software e = Some ctl;
  eo_open : openSinks (sink_log w) = Some (open_for (e_download e));
  eo_download d : e_download e = Some d → download_ok d ∧ taken (d_sink d) (sink_log w) = d_md5 d
}.

(** ** Steps of the MIB *)

Lemma execute_quiet s w r res s' w' :
  quiet_store s → quiet_request r → execute s w r = (res, s', w') →
  quiet_store s' ∧ sink_log w' = sink_log w.
Proof.
  intros Hs Hr Hx. split.
  - apply execute_cases in Hx. destruct res as [u|err]; [|by subst].
    destruct Hx as [->|(next & sync & _ & ->)]; exact Hs.
  - pose proof (execute_world s (λ w', sink_log w' = sink_log w)) as Hw.
    specialize (Hw (λ c w' H, eq_trans (Hs c w') H) w r). rewrite Hx in Hw. apply Hw; [|reflexivity].
    intros updates t w0 -> <-. by apply (Hr updates).
Qed.

Lemma UpdateByCommand_quiet s w updates res s' w' :
  quiet_store s → UpdateByCommand s w updates = (res, s', w') → quiet_store s' ∧ sink_log w' = sink_log w.
Proof. intros Hs Hx. apply (execute_quiet s w (RCommand updates) res); [exact Hs|by intros ???|exact Hx]. Qed.

Lemma importImages_quiet images mib ok mib' :
  quiet_store mib → importImages mib images = (ok, mib') → quiet_store mib'.
Proof.
  revert mib. induction images as [|image images IH]; intros mib Hq; cbn [importImages]; [by intros [= _ <-]|].
  destruct (UpdateAutonomous mib _ _) as [r m] eqn:Hu.
  assert (quiet_store m) as Hm.
  { unfold UpdateAutonomous in Hu. destruct (prepareUpdate _ _ _ _); [|by injection Hu as _ <-].
    case_bool_decide; by injection Hu as _ <-. }
  destruct r; [by apply IH|by intros [= _ <-]].
Qed.

(** ** Sections *)

Lemma window_ok_reset d : download_ok d → window_ok d [] false 0 ∧ window_ok d [] true 0.
Proof.
  intros [? ? ? ? (Hr & Hb & Hs & Hf) ? ? ?]. unfold window_ok. cbn [length].
  split; (split; [lia|]); (split; [by constructor|]); (split; [lia|done]).
Qed.

(** The room left: the subtraction of [uint32]s does not wrap. *)
Lemma remaining_eq d window failed section :
  download_ok d → window_ok d window failed section →
  u32 (u32 (d_expectedSize d - d_received d) - u32 (Z.of_nat (length window)))
  = d_expectedSize d - d_received d - Z.of_nat (length window).
Proof.
  intros [Hsize Hrec _ _ _ _ _ _] (Hroom & _). unfold wrap.
  rewrite (Z.mod_small (d_expectedSize d - d_received d)) by lia.
  rewrite (Z.mod_small (Z.of_nat (length window))) by lia. apply Z.mod_small. lia.
Qed.

(** A section changes the window only, and leaves it within the image and the window size. *)
Lemma sectionStepOf_window d request device acknowledged :
  download_ok d → section_typed request →
  match sectionStepOf d request device acknowledged with
  | Reply _ d' => ∃ window failed section,
      d' = withWindow d window failed section ∧ window_ok d window failed section
  | Flush d' => ∃ window section,
      d' = withWindow d window false section ∧ window_ok d window false section
  end.
Proof.
  intros Hd Hq. pose proof (window_ok_reset d Hd) as [Hreset Hfail]. pose proof (do_window d Hd) as Hw.
  assert (∀ window section, window_ok d window false section →
    match acceptSection (withWindow d window false section) request device acknowledged with
    | Reply _ d' => ∃ window failed section,
        d' = withWindow d window failed section ∧ window_ok d window failed section
    | Flush d' => ∃ window section,
        d' = withWindow d window false section ∧ window_ok d window false section
    end) as Haccept.
  { intros window section Hwin. pose proof Hwin as (Hroom & Hb & Hsec & _).
    unfold acceptSection, rejectSoftwareWindow.
    cbn [withWindow d_expectedSection d_expectedSize d_received d_window d_windowSize d_windowFailed].
    destruct (negb _); [destruct acknowledged; eauto 10|]. rewrite (remaining_eq d _ _ _ Hd Hwin).
    set (remaining := _ - _ - _). set (data := ds_SectionData request).
    set (kept := if remaining <? Z.of_nat (length data) then take (Z.to_nat remaining) data else data).
    assert (Z.of_nat (length kept) ≤ remaining ∧ bytes_ok kept) as [Hk Hkb].
    { unfold kept. destruct (Z.ltb_spec remaining (Z.of_nat (length data))) as [Hl|Hl].
      - rewrite length_take. split; [lia|]. by apply Forall_take.
      - split; [lia|exact Hq]. }
    destruct ((remaining <? Z.of_nat (length data)) && _); [destruct acknowledged; eauto 10|].
    destruct acknowledged; cbn [negb].
    - do 2 eexists. split; [reflexivity|]. unfold window_ok. rewrite length_app, bytes_ok_app.
      split_and!; [unfold remaining in Hk; lia|done|done|lia|lia|done].
    - destruct (Z.leb_spec (d_windowSize d) (u16 (section + 1))) as [|Hn]; [eauto 10|].
      pose proof (do_windowSize d Hd) as Hsize.
      assert (u16 (section + 1) = section + 1) as Hu by (apply Z.mod_small; lia). rewrite Hu in *.
      assert (u8 (section + 1) = section + 1) as -> by (apply Z.mod_small; lia).
      do 3 eexists. split; [reflexivity|]. unfold window_ok. rewrite length_app, bytes_ok_app.
      split_and!; [unfold remaining in Hk; lia|done|done|lia|lia|done]. }
  unfold sectionStepOf, rejectSoftwareWindow.
  case_bool_decide; [destruct acknowledged; eauto 10|].
  destruct (d_windowFailed d) eqn:Hf.
  - destruct (negb _); [destruct acknowledged; [eauto 10|]|by apply Haccept].
    exists (d_window d), true, (d_expectedSection d). split; [|exact Hw]. by destruct d; cbn in *; subst.
  - specialize (Haccept (d_window d) (d_expectedSection d)).
    replace (withWindow d (d_window d) false (d_expectedSection d)) with d in Haccept
      by (destruct d; cbn in *; by subst).
    by apply Haccept.
Qed.

Lemma download_ok_window d window failed section :
  download_ok d → d_phase d = softwareReceiving → window_ok d window failed section →
  download_ok (withWindow d window failed section).
Proof. intros [] Hp Hw. split; cbn; done. Qed.

(** A window that the sink took. *)
Lemma download_ok_written d :
  download_ok d → d_phase d = softwareReceiving → download_ok (resetSoftwareWindow (withWritten d (d_window d))).
Proof.
  intros [Hsize Hrec Hcrc Hws (Hroom & Hb & Hsec & _) Hp Hc Hr] Hphase.
  split; cbn; rewrite ?Hphase; try done.
  - unfold wrap. rewrite (Z.mod_small (Z.of_nat (length (d_window d)))), Z.mod_small by lia.
    rewrite length_app. lia.
  - by rewrite Hcrc, UpdateCRC32A_app.
  - unfold window_ok. cbn. unfold wrap.
    rewrite (Z.mod_small (Z.of_nat (length (d_window d)))), Z.mod_small by lia.
    split_and!; [lia|by constructor|lia|lia|done].
  - intros _. by apply Hp.
  - intros Hf. destruct (Hr Hf) as [? _]. congruence.
Qed.

(** ** Every step keeps the invariant *)

Lemma newDownload_ok request device sink :
  start_typed request → st_ImageSize request ≠ 0 → download_ok (newDownload request device sink).
Proof.
  intros [Hws Hsize] Hz. unfold is_u in *. change (2 ^ 8) with 256 in Hws.
  assert (u16 (st_WindowSize request + 1) = st_WindowSize request + 1) as Hu by (apply Z.mod_small; lia).
  split; cbn; rewrite ?Hu; try done; try lia.
  unfold window_ok. cbn. rewrite Hu. split_and!; [lia|by constructor|lia|lia|done].
Qed.

Lemma failSoftwareDownload_ok e w d :
  engine_ok e w → e_download e = Some d → d_phase d = softwareReceiving →
  engine_ok (failSoftwareDownload ctl e w).1 (failSoftwareDownload ctl e w).2.
Proof.
  intros [Hq Hs Ho Hd] He Hp. destruct (Hd _ He) as [Hok _]. unfold failSoftwareDownload. rewrite He.
  rewrite bool_decide_eq_true_2 by exact Hp. split; cbn; [exact Hq|exact Hs| |done].
  rewrite log_Abort. eapply openSinks_close; [by right|]. rewrite Ho, He. cbn. unfold sink_of.
  by destruct (do_receiving d Hok Hp) as [-> _].
Qed.

Lemma start_ok e w request device :
  engine_ok e w → start_typed request →
  let '(_, e', w') := startSoftwareDownload e w request device in engine_ok e' w'.
Proof.
  intros Hok Ht. pose proof Hok as [Hq Hs Ho Hd]. unfold startSoftwareDownload. rewrite Hs.
  branch as Hbusy; [exact Hok|]. do 2 (branch; [exact Hok|]). branch as Hparam; [exact Hok|].
  destruct (softwareImage e (st_EntityInstance request)) as [image|]; [|exact Hok].
  branch; [exact Hok|].
  assert (openSinks (sink_log w) = Some []) as Hnone.
  { rewrite Ho. destruct (e_download e) as [d|] eqn:He; [|reflexivity]. cbn. unfold sink_of.
    destruct (Hd d eq_refl) as [Hdok _]. unfold softwareDownloadBusy in Hbusy. rewrite He in Hbusy.
    apply orb_false_iff in Hbusy as [Hph1%bool_decide_eq_false Hph2%bool_decide_eq_false].
    destruct (d_finish d) eqn:Hf; try reflexivity.
    - by destruct (do_complete d Hdok Hph1).
    - by destruct (do_running d Hdok Hf). }
  pose proof (log_Start (st_EntityInstance request) (st_ImageSize request) w) as Hstart.
  destruct (Start ctl _ _ w) as [[sink|] w1].
  2: { split; cbn; [exact Hq|exact Hs|by rewrite Hstart|done]. }
  destruct Hstart as [Hlog Hfresh]. destruct (openSinks_start _ _ Hnone Hfresh) as [Hopen Htaken].
  rewrite <- Hlog in Hopen, Htaken.
  cbv zeta. cbn [withDownload e_mib].
  match goal with |- context [UpdateByCommand ?s ?w ?u] =>
    destruct (UpdateByCommand s w u) as [[[u'|err] mib] w2] eqn:Hu end;
    destruct (UpdateByCommand_quiet _ _ _ _ _ _ Hq Hu) as [Hq' Hl'].
  - split; cbn; [exact Hq'|exact Hs|by rewrite Hl'|]. intros d [= <-]. split; [|by rewrite Hl'].
    apply newDownload_ok; [exact Ht|]. apply orb_false_iff in Hparam as [[Hz%Z.eqb_neq _]%orb_false_iff _]. exact Hz.
  - split; cbn; [exact Hq'|exact Hs| |done]. rewrite log_Abort.
    eapply openSinks_close; [by right|]. by rewrite Hl'.
Qed.

Lemma section_ok e w request device acknowledged :
  engine_ok e w → section_typed request →
  let '(_, e', w') := downloadSoftwareSection ctl e w request device acknowledged in engine_ok e' w'.
Proof.
  intros Hok Ht. pose proof Hok as [Hq Hs Ho Hd]. unfold downloadSoftwareSection.
  destruct (e_download e) as [d|] eqn:He; [|exact Hok]. destruct (Hd _ eq_refl) as [Hdok Htaken].
  branch as Hphase; [exact Hok|]. apply negb_false_iff, bool_decide_eq_true in Hphase.
  branch; [exact Hok|].
  destruct (do_receiving d Hdok Hphase) as [Hnf _]. cbn in Ho. unfold sink_of in Ho. rewrite Hnf in Ho.
  pose proof (sectionStepOf_window d request device acknowledged Hdok Ht) as Hstep.
  assert (∀ d', d_sink d' = d_sink d → d_md5 d' = d_md5 d → d_finish d' = NoChannel →
    download_ok d' → ∀ bytes, engine_ok (withBytes (withDownload e (Some d')) bytes) w ∧
                              engine_ok (withDownload e (Some d')) w) as Hkeep.
  { intros d' Hk Hm Hf' Hdok' bytes.
    split; (split; cbn; [exact Hq|exact Hs|by unfold sink_of; rewrite Hf', Hk|]);
      intros d0 [= <-]; by rewrite Hk, Hm. }
  destruct (sectionStepOf d request device acknowledged) as [r d'|d'].
  - destruct Hstep as (window & failed & section & -> & Hw). apply (Hkeep _) with (bytes := 0); try done.
    by apply download_ok_window.
  - destruct Hstep as (window & section & -> & Hw).
    pose proof (download_ok_window d window false section Hdok Hphase Hw) as Hdok'.
    case_bool_decide as Hempty.
    { apply Hkeep; try done. apply download_ok_window; [done|done|]. by apply window_ok_reset. }
    set (d' := withWindow d window false section) in *.
    pose proof (log_Write (d_sink d') (d_window d') w) as Hlog.
    destruct (sinkWrite ctl (d_sink d') (d_window d') w) as [[written ok] w1].
    destruct (openSinks_write _ _ (d_window d') (ok && (written =? Z.of_nat (length (d_window d')))) Ho) as [Hopen Htake].
    change (d_sink d') with (d_sink d) in Hlog. rewrite <- Hlog in Hopen, Htake.
    branch as Hshort.
    + pose proof (failSoftwareDownload_ok (withDownload e (Some d')) w1 d') as Hfail.
      destruct (failSoftwareDownload ctl _ w1) as [e2 w2]. apply Hfail; [|reflexivity|exact Hphase].
      split; cbn; [exact Hq|exact Hs| |].
      * unfold sink_of. cbn. by rewrite Hnf.
      * intros d0 [= <-]. split; [exact Hdok'|]. cbn. rewrite Htake, Htaken.
        replace (ok && _) with false by (destruct ok; cbn in *; lia). by rewrite app_nil_r.
    + split; cbn; [exact Hq|exact Hs| |].
      * unfold sink_of. cbn. by rewrite Hnf.
      * intros d0 [= <-]. split; [by apply download_ok_written|]. cbn. rewrite Htake, Htaken.
        by replace (ok && _) with true by (destruct ok; cbn in *; lia).
Qed.

(** The received result changes neither the sink nor the bytes. *)
Lemma download_ok_end d phase finish finished :
  download_ok d → d_phase d ≠ softwareReceiving → phase ≠ softwareReceiving →
  finish ≠ NoChannel → finish ≠ Running →
  download_ok (withEnd d phase (d_end d) finish finished (d_imageHash d)).
Proof. intros [Hs Hr Hc Hws Hw Hrec Hcomp _] Hp Hp' Hf Hf'. split; cbn; try done. intros _. by split; [apply Hcomp|]. Qed.

Lemma engine_ok_download e w d d' :
  engine_ok e w → e_download e = Some d → download_ok d' → d_sink d' = d_sink d → d_md5 d' = d_md5 d →
  sink_of d' = sink_of d → engine_ok (withDownload e (Some d')) w.
Proof.
  intros [Hq Hs Ho Hd] He Hok Hk Hm Hopen. split; cbn; [exact Hq|exact Hs|by rewrite Hopen, Ho, He|].
  intros d0 [= <-]. split; [exact Hok|]. rewrite Hk, Hm. by apply Hd.
Qed.

Lemma engine_ok_mib e w mib w' :
  engine_ok e w → quiet_store mib → sink_log w' = sink_log w → engine_ok (withMib e mib) w'.
Proof. intros [Hq Hs Ho Hd] Hm Hl. split; cbn; rewrite ?Hl; done. Qed.

Lemma engine_ok_status e w status : engine_ok e w → engine_ok (withStatus e status) w.
Proof. intros [Hq Hs Ho Hd]. by split. Qed.

Lemma publish_ok e w d finish r :
  engine_ok e w → e_download e = Some d → d_phase d = softwareFinalizing →
  finish ≠ NoChannel → finish ≠ Running → sink_of d = [] →
  let '(_, e', w') := publishFinished e w d finish r in engine_ok e' w'.
Proof.
  intros Hok He Hphase Hf Hf' Hopen. destruct (eo_download _ _ Hok _ He) as [Hdok _].
  assert (d_phase d ≠ softwareReceiving) as Hnr by (rewrite Hphase; done).
  assert (∀ phase finished, phase ≠ softwareReceiving →
    engine_ok (withDownload e (Some (withEnd d phase (d_end d) finish finished (d_imageHash d)))) w) as Hset.
  { intros phase finished Hp. apply (engine_ok_download e w d); try done; [by apply download_ok_end|].
    rewrite Hopen. unfold sink_of. cbn. by destruct finish. }
  unfold publishFinished. destruct r as [metadata|]; [|apply engine_ok_status; by apply Hset].
  branch; [apply engine_ok_status; by apply Hset|]. cbv zeta.
  match goal with |- context [UpdateByCommand ?s ?w ?u] =>
    destruct (UpdateByCommand s w u) as [[[u'|err] mib] w2] eqn:Hu end;
    destruct (UpdateByCommand_quiet _ _ _ _ _ _ (eo_quiet _ _ Hok) Hu) as [Hq' Hl'].
  - apply engine_ok_status, (engine_ok_mib _ w); [|exact Hq'|exact Hl']. by apply Hset.
  - apply (engine_ok_mib _ w); [|exact Hq'|exact Hl']. by apply Hset.
Qed.

Lemma endRequestValid_inv d request :
  endRequestValid d request = true →
  en_ImageSize request = d_expectedSize d ∧ d_received d = d_expectedSize d ∧ d_window d = [].
Proof.
  intros H. unfold endRequestValid in H. repeat (apply andb_true_iff in H as [H ?]).
  repeat match goal with Hb : bool_decide _ = true |- _ => apply bool_decide_eq_true in Hb end.
  split_and!; [lia|lia|done].
Qed.

Lemma end_ok e w request device :
  engine_ok e w → let '(_, e', w') := endSoftwareDownload ctl e w request device in engine_ok e' w'.
Proof.
  intros Hok. pose proof Hok as [Hq Hs Ho Hd]. unfold endSoftwareDownload.
  destruct (e_download e) as [d|] eqn:He; [|exact Hok]. destruct (Hd _ eq_refl) as [Hdok Htaken].
  do 3 (branch; [exact Hok|]). cbv zeta. branch as Hphase.
  - apply negb_true_iff, bool_decide_eq_false in Hphase. branch; [exact Hok|]. unfold softwareFinishStatus.
    destruct (d_phase d) eqn:Hp; try exact Hok.
    destruct (do_complete d Hdok ltac:(by rewrite Hp)) as [_ Hnc].
    destruct (d_finished d) as [r|] eqn:Hfin.
    + apply publish_ok; try done; [intros Hr; destruct (do_running d Hdok Hr); congruence|].
      unfold sink_of. destruct (d_finish d) eqn:Hf; try done. destruct (do_running d Hdok Hf). congruence.
    + destruct (d_finish d) eqn:Hf; try exact Hok. apply publish_ok; try done. unfold sink_of. by rewrite Hf.
  - apply negb_false_iff, bool_decide_eq_true in Hphase. branch as Hvalid.
    + pose proof (failSoftwareDownload_ok e w d Hok He Hphase) as Hfail.
      destruct (failSoftwareDownload ctl e w) as [e2 w2]. exact Hfail.
    + apply orb_false_iff in Hvalid as [Hvalid%negb_false_iff Hcrc%negb_false_iff].
      apply Z.eqb_eq in Hcrc. apply endRequestValid_inv in Hvalid as (Hsize & Hrec & Hwin).
      destruct (do_receiving d Hdok Hphase) as [Hnf Hnfin].
      apply engine_ok_status, (engine_ok_download e w d); try done; [|unfold sink_of; cbn; by rewrite Hnf].
      destruct Hdok as [H1 H2 H3 H4 H5 H6 H7 H8]. split; cbn; try done.
      intros _. split; [|done]. unfold image_complete. cbn.
      split_and!; [lia|lia|by rewrite Hcrc, H3|done|exact Hwin].
Qed.

Lemma finish_ok e w e' w' : engine_ok e w → finishGoroutine ctl e w = Some (e', w') → engine_ok e' w'.
Proof.
  intros Hok. pose proof Hok as [Hq Hs Ho Hd]. unfold finishGoroutine.
  destruct (e_download e) as [d|] eqn:He; [|done]. destruct (Hd _ eq_refl) as [Hdok Htaken].
  destruct (d_finish d) eqn:Hf; try done.
  pose proof (log_Finish (d_sink d) w) as Hlog. destruct (sinkFinish ctl (d_sink d) w) as [r w1].
  cbn in Hlog. intros [= <- <-]. destruct (do_running d Hdok Hf) as [Hp _]. cbn in Ho. unfold sink_of in Ho.
  rewrite Hf in Ho. destruct (openSinks_close _ _ (Finished (d_sink d)) (or_introl eq_refl) Ho) as [Hopen Htake].
  rewrite <- Hlog in Hopen, Htake. split; cbn; [exact Hq|exact Hs|by rewrite Hopen|].
  intros d0 [= <-]. split; [|cbn; by rewrite Htake]. by apply download_ok_end; rewrite ?Hp.
Qed.

(** Activate and commit only run a MIB operation with the transaction the platform prepared. *)
Lemma setExclusive_ok e w selected attribute t :
  engine_ok e w → (∀ w, sink_log (Commit t w).2 = sink_log w ∧ sink_log (Abort_ t w).2 = sink_log w) →
  let '(_, e', w') := setExclusiveSoftwareFlag e w selected attribute t in
  engine_ok e' w' ∧ e_download e' = e_download e.
Proof.
  intros Hok Ht. unfold setExclusiveSoftwareFlag.
  match goal with |- context [UpdateByCommandTransactional ?s ?w ?u ?t] =>
    destruct (UpdateByCommandTransactional s w u t) as [[r mib] w2] eqn:Hu end.
  change (execute (e_mib e) w (RTransaction (exclusiveUpdates selected attribute) (Some t)) = (r, mib, w2)) in Hu.
  apply execute_quiet in Hu as [Hq Hl]; [|apply Hok|by intros ??? [= _ <-]].
  split; [by apply (engine_ok_mib _ w)|done].
Qed.

Lemma engine_ok_world e w w' : engine_ok e w → sink_log w' = sink_log w → engine_ok e w'.
Proof. intros [Hq Hs Ho Hd] Hl. split; rewrite ?Hl; done. Qed.

Lemma activate_ok e w request :
  engine_ok e w → let '(_, e', w') := activateSoftware e w request in engine_ok e' w'.
Proof.
  intros Hok. unfold activateSoftware. rewrite (eo_software _ _ Hok).
  destruct (selectImage _ _ _); [|exact Hok].
  pose proof (log_PrepareActivate (ac_EntityInstance request) (ac_ActivateFlags request) w) as Hlog.
  destruct (PrepareActivate ctl _ _ w) as [[t|] w1] eqn:Hp; [|by apply (engine_ok_world e w)].
  pose proof (setExclusive_ok e w1 (ac_EntityInstance request) SoftwareImage_IsActive t
    (engine_ok_world e w w1 Hok Hlog) (log_Prepared_activate _ _ _ _ _ Hp)) as Hset.
  destruct (setExclusiveSoftwareFlag _ _ _ _ _) as [[[] e2] w2]; [|apply Hset].
  apply engine_ok_status, Hset.
Qed.

Lemma commit_ok e w request :
  engine_ok e w → let '(_, e', w') := commitSoftware e w request in engine_ok e' w'.
Proof.
  intros Hok. unfold commitSoftware. rewrite (eo_software _ _ Hok).
  destruct (selectImage _ _ _) as [image|]; [|exact Hok]. branch; [exact Hok|].
  pose proof (log_PrepareCommit (cm_EntityInstance request) w) as Hlog.
  destruct (PrepareCommit ctl _ w) as [[t|] w1] eqn:Hp; [|by apply (engine_ok_world e w)].
  pose proof (setExclusive_ok e w1 (cm_EntityInstance request) SoftwareImage_IsCommitted t
    (engine_ok_world e w w1 Hok Hlog) (log_Prepared_commit _ _ _ _ Hp)) as Hset.
  destruct (setExclusiveSoftwareFlag _ _ _ _ _) as [[[] e2] w2]; [|apply Hset].
  apply engine_ok_status, Hset.
Qed.

Lemma refresh_ok e w : engine_ok e w → let '(_, e', w') := RefreshSoftwareImages e w in engine_ok e' w'.
Proof.
  intros Hok. unfold RefreshSoftwareImages. rewrite (eo_software _ _ Hok).
  pose proof (log_Images w) as Hlog. destruct (Images ctl w) as [[images|] w1]; cbn in Hlog;
    pose proof (engine_ok_world e w w1 Hok Hlog) as Hok1; [|exact Hok1].
  branch; [exact Hok1|]. destruct (foldM_res _ _ _) as [[[? ?] ?]|]; [|exact Hok1].
  branch; [exact Hok1|]. destruct (importImages (e_mib e) images) as [ok mib] eqn:Hi.
  apply (engine_ok_mib _ w1); [exact Hok1| |reflexivity]. eapply importImages_quiet; [|exact Hi]. apply Hok.
Qed.

Lemma swreachable_ok e w : swreachable e w → engine_ok e w.
Proof.
  induction 1 as [mib status w Hq Ho|e w e' w' _ IH Hstep]; [by split|].
  destruct Hstep as [e w ok e' w' Hx|e w request device r e' w' Ht Hx|e w request device ack r e' w' Ht Hx
    |e w request device r e' w' Hx|e w e' w' Hx|e w request r e' w' Hx|e w request r e' w' Hx
    |e w request res mib w' Hq Hx].
  - pose proof (refresh_ok e w IH) as H. by rewrite Hx in H.
  - pose proof (start_ok e w request device IH Ht) as H. by rewrite Hx in H.
  - pose proof (section_ok e w request device ack IH Ht) as H. by rewrite Hx in H.
  - pose proof (end_ok e w request device IH) as H. by rewrite Hx in H.
  - by eapply finish_ok.
  - pose proof (activate_ok e w request IH) as H. by rewrite Hx in H.
  - pose proof (commit_ok e w request IH) as H. by rewrite Hx in H.
  - apply execute_quiet in Hx as [Hq' Hl]; [|apply IH|exact Hq]. by apply (engine_ok_mib _ w).
Qed.
(** ** The properties *)

(** C18: image integrity: once a download has left the receiving phase, the bytes the platform's
    sink has taken are exactly as many as announced, their CRC is the one the OLT sent in its
    end request, and the published hash is their MD5. *)
Theorem software_image_integrity e w d (Hr : swreachable e w) (Hd : e_download e = Some d)
    (Hp : d_phase d ≠ softwareReceiving) :
  let image := taken (d_sink d) (sink_log w) in
  Z.of_nat (length image) = d_expectedSize d ∧ er_size (d_end d) = d_expectedSize d ∧
  er_crc (d_end d) = CRC32A image ∧ d_imageHash d = md5Sum image.
Proof.
  apply swreachable_ok in Hr. destruct (eo_download _ _ Hr _ Hd) as [Hok Ht]. cbn zeta. rewrite Ht.
  destruct (do_complete d Hok Hp) as [(? & ? & ? & ? & _) _]. done.
Qed.

(** Sink discipline: in every reachable state the calls made on image sinks keep the
    protocol (each sink started once, written and closed only while open, closed at most once),
    and the open sinks are exactly that of a download still receiving or finalizing: no sink
    leaks and none is used after it was closed. *)
Theorem software_sink_discipline e w (Hr : swreachable e w) :
  openSinks (sink_log w) = Some (open_for (e_download e)).
Proof. apply swreachable_ok in Hr. apply Hr. Qed.

(** C19: transfer bounds: while receiving, the bytes taken by the sink and the window being
    collected never exceed the announced size, the running CRC is that of the bytes taken, and
    the expected section stays inside the window, so no [uint32] or [uint8] wraps. *)
Theorem software_transfer_bounds e w d (Hr : swreachable e w) (Hd : e_download e = Some d) :
  Z.of_nat (length (taken (d_sink d) (sink_log w)) + length (d_window d)) ≤ d_expectedSize d < 2 ^ 32 ∧
  d_received d = Z.of_nat (length (taken (d_sink d) (sink_log w))) ∧
  d_crc d = UpdateCRC32A CRC32AInitial (taken (d_sink d) (sink_log w)) ∧
  0 ≤ d_expectedSection d < d_windowSize d ∧ d_windowSize d ≤ 256.
Proof.
  apply swreachable_ok in Hr. destruct (eo_download _ _ Hr _ Hd) as [Hok Ht]. rewrite Ht.
  destruct Hok as [Hsize Hrec Hcrc Hws (Hroom & _ & Hsec & _) _ _ _]. split_and!; try done; lia.
Qed.
End props.
