(* ===== verification/SoftwareOps.v ===== *)
(** * Engine: what the software image handlers achieve

    A faithful OLT can download any image; starting, activating, committing and importing
    images leave the MIB as G.988 asks. *)

From S2P Require Import Prelude GoStd Checksum Maps MeTypes MeClasses MeLib Mib.
From S2P Require Import Table Semantics Store StoreLemmas StoreInvariant StoreProps StoreOps.
From S2P Require Import MeNames Frames Software SoftwareProps.

(** ** A faithful OLT *)

Section sender.
Context {MR : MapRange} {W Sink : Type} `{EqDecision Sink}.
Context (ctl : Controller W Sink) `{!SinkLog ctl}.
Implicit Types (e : engine W Sink) (d : softwareDownload Sink) (w : W).
Variables entity device : Z.

(** One window: the sections numbered from [number] on, the last one acknowledged. *)
Fixpoint sendWindow e w (number : Z) (sections : list (list Z)) : list Z * engine W Sink * W :=
  match sections with
  | [] => ([], e, w)
  | data :: rest =>
      let '(r, e, w) := downloadSoftwareSection ctl e w
                          (mkSection SoftwareImageClassID entity number data) device
                          (bool_decide (rest = [])) in
      let '(rs, e, w) := sendWindow e w (number + 1) rest in (r :: rs, e, w)
  end.

Fixpoint sendImage e w (windows : list (list (list Z))) : list Z * engine W Sink * W :=
  match windows with
  | [] => ([], e, w)
  | sections :: windows =>
      let '(rs, e, w) := sendWindow e w 0 sections in
      let '(rs', e, w) := sendImage e w windows in (rs ++ rs', e, w)
  end.

(** The engine is receiving download [d] for this image and this channel, and the next section
    of its window is [d_expectedSection d]. *)
Record receiving e d : Prop := {
  rc_download : e_download e = Some d;
  rc_phase : d_phase d = softwareReceiving;
  rc_entity : d_entityID d = entity;
  rc_device : d_device d = device;
  rc_failed : d_windowFailed d = false;
  rc_ok : download_ok d
}.

(** A platform that takes every write in full. *)
Hypothesis accepts : ∀ k data w, (sinkWrite ctl k data w).1 = (Z.of_nat (length data), true).

Lemma receiving_window e d window section :
  receiving e d → window_ok d window false section →
  receiving (withDownload e (Some (withWindow d window false section))) (withWindow d window false section).
Proof. intros [] Hw. split; cbn; try done. by apply download_ok_window. Qed.

(** The next section of the window: collected, or the window flushed when acknowledged. *)
Lemma section_next e d data (acknowledged : bool) :
  receiving e d → data ≠ [] → bytes_ok data →
  d_received d + Z.of_nat (length (d_window d ++ data)) ≤ d_expectedSize d →
  (acknowledged = false → d_expectedSection d + 1 < d_windowSize d) →
  let section := if acknowledged then d_expectedSection d else d_expectedSection d + 1 in
  let d' := withWindow d (d_window d ++ data) false section in
  sectionStepOf d (mkSection SoftwareImageClassID entity (d_expectedSection d) data) device acknowledged
  = (if acknowledged then Flush d' else Reply Success d') ∧
  window_ok d (d_window d ++ data) false section.
Proof.
  intros [He Hp Hent Hdev Hf Hok] Hne Hb Hroom Hsec. pose proof (do_window d Hok) as Hw. rewrite Hf in Hw.
  pose proof Hw as (_ & Hwb & Hlow & _). pose proof (do_windowSize d Hok) as Hsize. cbn zeta.
  rewrite length_app in Hroom. split.
  2: { unfold window_ok. rewrite length_app, bytes_ok_app. destruct acknowledged; [|specialize (Hsec eq_refl)];
       by split_and!; try lia. }
  unfold sectionStepOf. cbn [ds_SectionData ds_SectionNumber]. rewrite bool_decide_eq_false_2 by exact Hne.
  rewrite Hf. unfold acceptSection. cbn [ds_SectionData ds_SectionNumber]. rewrite Z.eqb_refl. cbn [negb].
  rewrite (remaining_eq d _ _ _ Hok Hw).
  assert ((d_expectedSize d - d_received d - Z.of_nat (length (d_window d)) <? Z.of_nat (length data)) = false) as ->
    by lia.
  cbn [andb]. rewrite Hf. destruct acknowledged; cbn [negb]; [reflexivity|]. specialize (Hsec eq_refl).
  assert (u16 (d_expectedSection d + 1) = d_expectedSection d + 1) as -> by (apply Z.mod_small; lia).
  assert ((d_windowSize d <=? d_expectedSection d + 1) = false) as -> by lia.
  by assert (u8 (d_expectedSection d + 1) = d_expectedSection d + 1) as -> by (apply Z.mod_small; lia).
Qed.

(** A section the engine lets through to the window. *)
Lemma section_open e w d number data acknowledged :
  receiving e d →
  downloadSoftwareSection ctl e w (mkSection SoftwareImageClassID entity number data) device acknowledged
  = match sectionStepOf d (mkSection SoftwareImageClassID entity number data) device acknowledged with
    | Reply result d => (result, withDownload e (Some d), w)
    | Flush d' =>
        if bool_decide (d_window d' = []) then
          (Success, withBytes (withDownload e (Some (resetSoftwareWindow d'))) (d_received d'), w)
        else
          let d'' := withWritten d' (d_window d') in
          (Success, withBytes (withDownload e (Some (resetSoftwareWindow d''))) (d_received d''),
           (sinkWrite ctl (d_sink d') (d_window d') w).2)
    end.
Proof.
  intros [He Hp Hent Hdev Hf Hok]. unfold downloadSoftwareSection. rewrite He.
  rewrite bool_decide_eq_true_2 by exact Hp. cbn [negb ds_EntityClass ds_EntityInstance].
  rewrite Hent, Hdev, !Z.eqb_refl. cbn [negb orb]. destruct (sectionStepOf _ _ _ _) as [|d']; [reflexivity|].
  case_bool_decide; [reflexivity|]. pose proof (accepts (d_sink d') (d_window d') w) as Ha.
  destruct (sinkWrite ctl (d_sink d') (d_window d') w) as [[written ok] w1]. cbn [fst] in Ha.
  injection Ha as -> ->. cbn [negb orb]. by rewrite Z.eqb_refl.
Qed.

(** A whole window: every reply is a success, and the sink takes its bytes. *)
Lemma sendWindow_spec e w d sections :
  receiving e d → sections ≠ [] → Forall (λ data, data ≠ [] ∧ bytes_ok data) sections →
  d_received d + Z.of_nat (length (d_window d ++ concat sections)) ≤ d_expectedSize d →
  d_expectedSection d + Z.of_nat (length sections) ≤ d_windowSize d →
  let '(rs, e', w') := sendWindow e w (d_expectedSection d) sections in
  Forall (eq Success) rs ∧ e_mib e' = e_mib e ∧
  receiving e' (resetSoftwareWindow (withWritten d (d_window d ++ concat sections))).
Proof.
  revert e d. induction sections as [|data rest IH]; intros e d Hrc Hne Hall Hroom Hsize; [done|].
  apply Forall_cons in Hall as [[Hdata Hb] Hall]. cbn [sendWindow concat] in *.
  rewrite (section_open e w d) by exact Hrc. case_bool_decide as Hrest.
  - subst rest. cbn [concat] in *. rewrite app_nil_r in *.
    destruct (section_next e d data true Hrc Hdata Hb Hroom ltac:(done)) as [-> Hw]. cbn zeta iota in *.
    cbn [withWindow d_window]. rewrite bool_decide_eq_false_2 by (intros [_ ?]%app_eq_nil; done).
    cbn [sendWindow]. split_and!; [by repeat constructor|done|].
    apply (receiving_window _ _ _ _ Hrc) in Hw. destruct Hrc, Hw.
    split; cbn; try done. by apply (download_ok_written (withWindow d (d_window d ++ data) false (d_expectedSection d))).
  - assert (1 ≤ length rest)%nat by (destruct rest; [done|cbn; lia]). cbn [length] in Hsize.
    rewrite app_assoc in Hroom.
    destruct (section_next e d data false Hrc Hdata Hb) as [-> Hw]; [|lia|].
    { rewrite length_app in Hroom. lia. }
    cbn zeta iota in *. set (d1 := withWindow _ _ _ _) in *.
    pose proof (receiving_window _ _ _ _ Hrc Hw) as Hrc1. fold d1 in Hrc1.
    specialize (IH _ d1 Hrc1 Hrest Hall Hroom). cbn [d1 withWindow d_expectedSection d_windowSize d_window] in IH.
    specialize (IH ltac:(lia)). rewrite <- app_assoc in IH.
    destruct (sendWindow _ _ _ _) as [[rs e2] w2]. destruct IH as (Hrs & Hm & Hrc2).
    split_and!; [by constructor|exact Hm|exact Hrc2].
Qed.

(** The windows of an image, cut to the window size. *)
Definition windows_ok (windowSize : Z) (windows : list (list (list Z))) : Prop :=
  Forall (λ sections, sections ≠ [] ∧ Z.of_nat (length sections) ≤ windowSize ∧
    Forall (λ data, data ≠ [] ∧ bytes_ok data) sections) windows.

Lemma sendImage_spec e w d windows :
  receiving e d → d_window d = [] → d_expectedSection d = 0 → windows_ok (d_windowSize d) windows →
  d_received d + Z.of_nat (length (concat (map (@concat Z) windows))) ≤ d_expectedSize d →
  let '(rs, e', w') := sendImage e w windows in
  Forall (eq Success) rs ∧ e_mib e' = e_mib e ∧
  ∃ d', receiving e' d' ∧ d_window d' = [] ∧ d_expectedSection d' = 0 ∧ d_windowSize d' = d_windowSize d ∧
    d_expectedSize d' = d_expectedSize d ∧ d_sink d' = d_sink d ∧
    d_md5 d' = d_md5 d ++ concat (map (@concat Z) windows).
Proof.
  revert e w d. induction windows as [|sections windows IH]; intros e w d Hrc Hwin Hsec Hall Hroom.
  { cbn. split_and!; [constructor|done|]. exists d. by rewrite app_nil_r. }
  apply Forall_cons in Hall as [(Hne & Hsize & Hsections) Hall]. cbn [sendImage map concat] in *.
  rewrite length_app in Hroom.
  pose proof (sendWindow_spec e w d sections Hrc Hne Hsections) as Hsend. rewrite Hwin, Hsec in Hsend.
  specialize (Hsend ltac:(cbn [app]; lia) ltac:(lia)).
  destruct (sendWindow e w 0 sections) as [[rs e1] w1]. destruct Hsend as (Hrs & Hm & Hrc1).
  set (d1 := resetSoftwareWindow _) in *.
  assert (d_received d1 = d_received d + Z.of_nat (length (concat sections))) as Hrec1.
  { rewrite (do_received d1 (rc_ok _ _ Hrc1)), (do_received d (rc_ok _ _ Hrc)).
    cbn. rewrite length_app. lia. }
  specialize (IH e1 w1 d1 Hrc1 eq_refl eq_refl Hall).
  change (d_expectedSize d1) with (d_expectedSize d) in IH. specialize (IH ltac:(lia)).
  destruct (sendImage e1 w1 windows) as [[rs' e2] w2]. destruct IH as (Hrs' & Hm' & d2 & H2 & H3 & H4 & H5 & H6 & H7 & H8).
  split_and!; [by apply Forall_app|congruence|]. exists d2. split_and!; try done.
  rewrite H8. cbn. by rewrite app_assoc.
Qed.

(** A successful start: the image was known, neither active nor committed, the MIB shows it
    invalid, and a fresh download is receiving. *)
Lemma softwareImage_Err e id code : softwareImage e id = Err code → code ≠ Success.
Proof.
  unfold softwareImage. destruct (Get _ _ _) as [[i|err] o]; cbv zeta;
    (branch as Hb; [intros [= <-]; by apply negb_true_iff, Z.eqb_neq in Hb|]);
    repeat match goal with |- context [match byteAttribute ?m ?n with _ => _ end] => destruct (byteAttribute m n) end;
    intros [=]; by subst.
Qed.

Lemma start_Success e w request device' e' w' :
  e_software e = Some ctl → startSoftwareDownload e w request device' = (Success, e', w') →
  ∃ image sink w1, e_download e' = Some (newDownload request device' sink) ∧
    softwareImage e (st_EntityInstance request) = Ok image ∧ st_EntityInstance request ≤ 1 ∧
    st_ImageSize request ≠ 0 ∧ f_active image = false ∧ f_committed image = false ∧
    softwareDownloadBusy e = false ∧
    UpdateByCommand (e_mib e) w1 {[ softwareKey (st_EntityInstance request) :=
      {[ SoftwareImage_IsValid := VU8 0 ]} ]} = (Ok tt, e_mib e', w').
Proof.
  intros Hs. unfold startSoftwareDownload. rewrite Hs.
  branch as Hbusy; [discriminate|]. branch; [discriminate|]. branch as Hid; [discriminate|].
  branch as Hparam; [discriminate|].
  destruct (softwareImage e _) as [image|code] eqn:Hi.
  2: { intros [= -> _ _]. by apply softwareImage_Err in Hi. }
  branch as Hflags; [discriminate|]. apply orb_false_iff in Hflags as [Ha Hc].
  destruct (Start ctl _ _ w) as [[sink|] w1]; [|discriminate]. cbv zeta. cbn [withDownload e_mib].
  match goal with |- context [UpdateByCommand ?s ?w ?u] =>
    destruct (UpdateByCommand s w u) as [[[[]|err] mib] w2] eqn:Hu end; [|discriminate].
  intros [= <- <-]. exists image, sink, w1.
  apply orb_false_iff in Hparam as [[Hz%Z.eqb_neq _]%orb_false_iff _]. split_and!; try done. lia.
Qed.

End sender.

(** ** The MIB after each handler *)

Section effects.
Context {MR : MapRange} {W Sink : Type}.
Implicit Types (e : engine W Sink) (d : softwareDownload Sink) (w : W).

(** The attribute of an image instance. *)
Definition imageShows (s : Store W) (id : Z) (name : string) (value : Value) : Prop :=
  ∃ i, current s !! softwareKey id = Some i ∧ i_Attributes i !! name = Some value.

Lemma exclusiveUpdates_lookup selected attribute id :
  0 ≤ id ≤ 1 →
  exclusiveUpdates selected attribute !! softwareKey id
  = Some {[ attribute := VU8 (if id =? selected then 1 else 0) ]}.
Proof.
  intros Hid. unfold exclusiveUpdates. cbn [fold_left].
  assert (id = 0 ∨ id = 1) as [-> | ->] by lia.
  - rewrite lookup_insert_ne by done. by rewrite lookup_insert_eq.
  - by rewrite lookup_insert_eq.
Qed.

Lemma exclusiveUpdates_other selected attribute key :
  key ≠ softwareKey 0 → key ≠ softwareKey 1 → exclusiveUpdates selected attribute !! key = None.
Proof. intros H0 H1. unfold exclusiveUpdates. cbn [fold_left]. by rewrite !lookup_insert_ne. Qed.

(** What one image flag looks like after the flag has been moved to [selected]. *)
Definition exclusive (s s' : Store W) (selected : Z) (attribute : string) : Prop :=
  (∀ id, 0 ≤ id ≤ 1 → imageShows s' id attribute (VU8 (if id =? selected then 1 else 0))) ∧
  (∀ key, key ≠ softwareKey 0 → key ≠ softwareKey 1 → key ≠ onuDataKey →
     current s' !! key = current s !! key).

Lemma setExclusive_effect e w selected attribute t u e' w' :
  setExclusiveSoftwareFlag e w selected attribute t = (Ok u, e', w') →
  exclusive (e_mib e) (e_mib e') selected attribute ∧ e_download e' = e_download e.
Proof.
  unfold setExclusiveSoftwareFlag. destruct u.
  match goal with |- context [UpdateByCommandTransactional ?s ?w ?u ?t] =>
    destruct (UpdateByCommandTransactional s w u t) as [[r mib] w2] eqn:Hu end.
  intros [= -> <- <-]. apply updateByCommand_effect in Hu as (Hin & Hout & _). split; [|done]. split.
  - intros id Hid. eapply Hin; [by apply exclusiveUpdates_lookup|by rewrite lookup_singleton_eq].
  - intros key H0 H1 Hne. apply Hout; [by apply exclusiveUpdates_other|exact Hne].
Qed.

Lemma setExclusive_error e w selected attribute t err e' w' :
  setExclusiveSoftwareFlag e w selected attribute t = (Err err, e', w') → e' = e.
Proof.
  unfold setExclusiveSoftwareFlag.
  match goal with |- context [UpdateByCommandTransactional ?s ?w ?u ?t] =>
    destruct (UpdateByCommandTransactional s w u t) as [[r mib] w2] eqn:Hu end.
  intros [= -> <- <-].
  change (execute (e_mib e) w (RTransaction (exclusiveUpdates selected attribute) (Some t)) = (Err err, mib, w2)) in Hu.
  apply execute_cases in Hu. rewrite Hu. by destruct e.
Qed.

Lemma selectImage_Ok e entityClass id image :
  selectImage e entityClass id = Ok image →
  softwareDownloadBusy e = false ∧ id ≤ 1 ∧ softwareImage e id = Ok image ∧ f_valid image = true.
Proof.
  intros Hs. unfold selectImage in Hs. inv_ok Hs. subst. split_and!; [done|lia|done|by apply negb_false_iff].
Qed.

Lemma guard_err_bind_Err {E A} b (err : E) (k : unit → Res E A) c :
  (u ← guard_err b err; k u) = Err c → c = err ∨ k tt = Err c.
Proof. destruct b; cbn; [intros [= <-]; by left|by right]. Qed.

Lemma selectImage_Err e entityClass id code : selectImage e entityClass id = Err code → code ≠ Success.
Proof.
  intros Hs. unfold selectImage in Hs.
  do 3 (apply guard_err_bind_Err in Hs as [->|Hs]; [done|]).
  destruct (softwareImage e id) as [image|c] eqn:Hi; cbn [mbind Res_bind] in Hs.
  - apply guard_err_bind_Err in Hs as [->|Hs]; done.
  - injection Hs as <-. by apply softwareImage_Err in Hi.
Qed.

(** The active and the committed flag are exclusive: an accepted Activate of image [x]
    leaves the MIB showing [x] active and the other image not, an accepted Commit the same of
    the committed flag (or the image was committed already and nothing changed); only a valid
    image is selected, no download is running, nothing but the two images and ONU data changes;
    and a refused request leaves the engine, and so the MIB, as it was. *)
Theorem software_selection_exclusive e w :
  (∀ request r e' w', activateSoftware e w request = (r, e', w') →
     if r =? Success
     then softwareDownloadBusy e = false ∧
          (∃ image, softwareImage e (ac_EntityInstance request) = Ok image ∧ f_valid image = true) ∧
          exclusive (e_mib e) (e_mib e') (ac_EntityInstance request) SoftwareImage_IsActive
     else e' = e) ∧
  (∀ request r e' w', commitSoftware e w request = (r, e', w') →
     if r =? Success
     then softwareDownloadBusy e = false ∧
          ∃ image, softwareImage e (cm_EntityInstance request) = Ok image ∧ f_valid image = true ∧
            (if f_committed image then e' = e
             else exclusive (e_mib e) (e_mib e') (cm_EntityInstance request) SoftwareImage_IsCommitted)
     else e' = e).
Proof.
  split; intros request r e' w' Hx.
  - unfold activateSoftware in Hx. destruct (e_software e) as [ctl|]; [|by injection Hx as <- <- <-].
    destruct (selectImage _ _ _) as [image|code] eqn:Hsel.
    2: { injection Hx as <- <- <-. apply selectImage_Err, Z.eqb_neq in Hsel. by rewrite Hsel. }
    apply selectImage_Ok in Hsel as (Hbusy & _ & Hi & Hv).
    destruct (PrepareActivate _ _ _ _) as [[t|] w1]; [|by injection Hx as <- <- <-].
    destruct (setExclusiveSoftwareFlag _ _ _ _ _) as [[[u|err] e2] w2] eqn:Hset; injection Hx as <- <- <-; cbn.
    + apply setExclusive_effect in Hset as [Hex _]. split_and!; [done|eauto|exact Hex].
    + by apply setExclusive_error in Hset.
  - unfold commitSoftware in Hx. destruct (e_software e) as [ctl|]; [|by injection Hx as <- <- <-].
    destruct (selectImage _ _ _) as [image|code] eqn:Hsel.
    2: { injection Hx as <- <- <-. apply selectImage_Err, Z.eqb_neq in Hsel. by rewrite Hsel. }
    apply selectImage_Ok in Hsel as (Hbusy & _ & Hi & Hv).
    destruct (f_committed image) eqn:Hc.
    { injection Hx as <- <- <-. cbn. split; [done|]. exists image. by rewrite Hc. }
    destruct (PrepareCommit _ _ _) as [[t|] w1]; [|by injection Hx as <- <- <-].
    destruct (setExclusiveSoftwareFlag _ _ _ _ _) as [[[u|err] e2] w2] eqn:Hset; injection Hx as <- <- <-; cbn.
    + apply setExclusive_effect in Hset as [Hex _]. split; [done|]. exists image. by rewrite Hc.
    + by apply setExclusive_error in Hset.
Qed.

(** A download never targets a running image: an accepted start found the image neither
    active nor committed in the MIB, marks it invalid there, and changes no other instance but
    ONU data. *)
Theorem software_start_spares_running e w ctl request device e' w'
    (Hs : e_software e = Some ctl)
    (Hx : startSoftwareDownload e w request device = (Success, e', w')) :
  (∃ image, softwareImage e (st_EntityInstance request) = Ok image ∧
     f_active image = false ∧ f_committed image = false) ∧
  imageShows (e_mib e') (st_EntityInstance request) SoftwareImage_IsValid (VU8 0) ∧
  (∀ key, key ≠ softwareKey (st_EntityInstance request) → key ≠ onuDataKey →
     current (e_mib e') !! key = current (e_mib e) !! key).
Proof.
  destruct (start_Success _ _ _ _ _ _ _ Hs Hx) as (image & sink & w1 & _ & Hi & _ & _ & Ha & Hc & _ & Hu).
  apply updateByCommand_effect in Hu as (Hin & Hout & _). split_and!; [eauto| |].
  - eapply Hin; by rewrite lookup_singleton_eq.
  - intros key Hk Hne. apply Hout; [by rewrite lookup_singleton_ne|exact Hne].
Qed.
(** A reply of success from the publication of a finished image. *)
Lemma publishFinished_Success e w d finish r e' w' :
  publishFinished e w d finish r = (Success, e', w') →
  ∃ metadata, (∃ d', e_download e' = Some d' ∧ d_phase d' = softwareComplete ∧ d_imageHash d' = d_imageHash d) ∧
    ss_Phase (e_softwareState e') = "staged" ∧
    ∀ n v, finishedAttributes metadata (d_imageHash d) !! n = Some v → imageShows (e_mib e') (d_entityID d) n v.
Proof.
  unfold publishFinished. destruct r as [metadata|]; [|discriminate]. branch; [discriminate|]. cbv zeta.
  match goal with |- context [UpdateByCommand ?s ?w ?u] =>
    destruct (UpdateByCommand s w u) as [[[[]|err] mib] w2] eqn:Hu end; [|discriminate].
  intros [= <- <-]. eexists. split_and!; [eexists; by split_and!|reflexivity|].
  apply updateByCommand_effect in Hu as (Hin & _). intros n v Hn. eapply Hin; [by rewrite lookup_singleton_eq|exact Hn].
Qed.

(** A download that completes publishes what was received: when an end request turns a
    finalizing download into a complete one, the MIB shows the image valid with the hash of the
    download (the MD5 of the bytes the sink took, by [software_image_integrity]). *)
Theorem software_publishes e w ctl request device d e' w'
    (Hd : e_download e = Some d) (Hp : d_phase d = softwareFinalizing)
    (Hx : endSoftwareDownload ctl e w request device = (Success, e', w')) :
  imageShows (e_mib e') (d_entityID d) SoftwareImage_IsValid (VU8 1) ∧
  imageShows (e_mib e') (d_entityID d) SoftwareImage_ImageHash (VOctets (d_imageHash d)) ∧
  (∃ d', e_download e' = Some d' ∧ d_phase d' = softwareComplete) ∧
  en_CRC32 request = er_crc (d_end d) ∧ en_ImageSize request = er_size (d_end d).
Proof.
  unfold endSoftwareDownload in Hx. rewrite Hd, Hp in Hx.
  do 3 (destruct (_ : bool) in Hx; [discriminate Hx|]). cbn [bool_decide decide_rel negb] in Hx.
  rewrite bool_decide_eq_false_2 in Hx by done. cbn [negb] in Hx.
  case_bool_decide as Hend; [|discriminate Hx]. cbn [negb] in Hx. unfold softwareFinishStatus in Hx. rewrite Hp in Hx.
  assert (∃ finish r, publishFinished e w d finish r = (Success, e', w')) as (finish & r & Hpub).
  { destruct (d_finished d); [eauto|]. destruct (d_finish d); try discriminate Hx. eauto. }
  apply publishFinished_Success in Hpub as (metadata & (d' & Hd' & Hp' & _) & _ & Hshow).
  rewrite <- Hend. split_and!; [by apply Hshow|by apply Hshow|eauto|done|done].
Qed.

(** ** Importing the boot slots *)

Definition countBy (flag : Image → bool) (images : list Image) : Z :=
  Z.of_nat (length (List.filter flag images)).

Lemma checkImage_fold images seen active committed seen' active' committed' :
  foldM_res checkImage images (seen, active, committed) = Ok (seen', active', committed') →
  NoDup (map im_EntityID images) ∧ (∀ image, image ∈ images → (im_EntityID image ∉ seen) ∧ im_EntityID image ≤ 1) ∧
  active' = active + countBy im_Active images ∧ committed' = committed + countBy im_Committed images.
Proof.
  revert seen active committed. induction images as [|image images IH]; intros seen active committed; cbn [foldM_res].
  - intros [= -> -> ->]. unfold countBy. cbn. split_and!; [constructor|intros ? []%elem_of_nil|lia|lia].
  - intros Hf. apply Res_bind_Ok in Hf as ([[seen1 a1] c1] & Hstep & Hf). unfold checkImage in Hstep. inv_ok Hstep.
    apply IH in Hf as (Hnd & Hin & Ha & Hc). apply bool_decide_eq_false in Hg0.
    rewrite !orb_false_iff in Hg. destruct Hg as [[Hid _] _].
    split_and!.
    + cbn. constructor; [|exact Hnd]. intros (j & Hj & Hjin)%list_elem_of_fmap. apply Hin in Hjin as [Hj' _].
      apply Hj'. rewrite <- Hj, <- Hstep. set_solver.
    + intros j [->|Hj]%elem_of_cons; [split; [exact Hg0|lia]|]. apply Hin in Hj as [Hj1 Hj2]. split; [|exact Hj2].
      rewrite <- Hstep in Hj1. set_solver.
    + subst. unfold countBy. cbn. destruct (im_Active image); cbn; lia.
    + subst. unfold countBy. cbn. destruct (im_Committed image); cbn; lia.
Qed.

Lemma imageAttributes_not_nil image n v : imageAttributes image !! n = Some v → v ≠ VNil.
Proof.
  unfold imageAttributes. intros Hn. apply elem_of_list_to_map_2 in Hn.
  repeat (apply elem_of_cons in Hn as [[= -> ->]|Hn]; [done|]). by apply elem_of_nil in Hn.
Qed.

Lemma importImages_spec (mib : Store W) images mib' :
  NoDup (map im_EntityID images) → importImages mib images = (true, mib') →
  (∀ image, image ∈ images → ∀ n v, imageAttributes image !! n = Some v → imageShows mib' (im_EntityID image) n v) ∧
  (∀ key, (∀ image, image ∈ images → key ≠ softwareKey (im_EntityID image)) → current mib' !! key = current mib !! key) ∧
  dataSync mib' = dataSync mib.
Proof.
  revert mib. induction images as [|image images IH]; intros mib Hnd; cbn [importImages].
  { intros [= <-]. by split_and!; [intros ? []%elem_of_nil|..]. }
  cbn in Hnd. apply NoDup_cons in Hnd as [Hfresh Hnd].
  destruct (UpdateAutonomous mib _ _) as [[changed|err] m] eqn:Hu; [|discriminate]. intros Hrest.
  apply UpdateAutonomous_reports in Hu as (old & new & _ & Hnew & Hsync & Hother & _ & Hval).
  destruct (IH m Hnd Hrest) as (Hin & Hout & Hsync'). split_and!.
  - intros j [->|Hj]%elem_of_cons; [|by apply Hin]. intros n v Hn. exists new. split.
    + rewrite Hout; [exact Hnew|]. intros j' Hj' [= Heq]. apply Hfresh. rewrite Heq. by apply list_elem_of_fmap_2.
    + specialize (Hval _ _ Hn). pose proof (imageAttributes_not_nil _ _ _ Hn) as Hne.
      destruct (i_Attributes new !! n); cbn in Hval; [by subst|]. by subst.
  - intros key Hk. rewrite Hout by (intros j Hj; apply Hk; by right). apply Hother. apply Hk. by left.
  - congruence.
Qed.

(** Importing the boot slots: an accepted import means the backend reported two distinct
    images of which exactly one is active and one committed, and afterwards the MIB shows every
    reported attribute of both, nothing else having changed, the data sync counter included. *)
Theorem RefreshSoftwareImages_imports e w ctl e' w'
    (Hs : e_software e = Some ctl) (Hx : RefreshSoftwareImages e w = (true, e', w')) :
  ∃ images, (Images ctl w).1 = Some images ∧ length images = 2%nat ∧ NoDup (map im_EntityID images) ∧
    countBy im_Active images = 1 ∧ countBy im_Committed images = 1 ∧
    (∀ image n v, image ∈ images → imageAttributes image !! n = Some v →
       imageShows (e_mib e') (im_EntityID image) n v) ∧
    (∀ key, (∀ image, image ∈ images → key ≠ softwareKey (im_EntityID image)) →
       current (e_mib e') !! key = current (e_mib e) !! key) ∧
    dataSync (e_mib e') = dataSync (e_mib e).
Proof.
  unfold RefreshSoftwareImages in Hx. rewrite Hs in Hx.
  destruct (Images ctl w) as [[images|] w1]; [|discriminate Hx].
  destruct (negb _) eqn:Hlen in Hx; [discriminate Hx|]. apply negb_false_iff, Z.eqb_eq in Hlen.
  destruct (foldM_res checkImage _ _) as [[[seen active] committed]|] eqn:Hf; [|discriminate Hx].
  destruct (_ || _) eqn:Hcount in Hx; [discriminate Hx|].
  destruct (importImages (e_mib e) images) as [ok mib] eqn:Hi. injection Hx as -> <- <-.
  apply checkImage_fold in Hf as (Hnd & Hin & Ha & Hc).
  apply importImages_spec in Hi as (Hshow & Hother & Hsync); [|exact Hnd].
  exists images. split_and!; [done|lia|done|lia|lia| |exact Hother|exact Hsync]. intros image n v Hj Hn. by eapply Hshow.
Qed.
End effects.

(** ** A sample platform, for the witnesses

    Sinks are numbers; the platform's state is the log itself. *)

Definition freshSink (w : list (SinkEvent nat)) : nat := S (foldr Nat.max 0%nat (startedSinks w)).

Definition sampleTransaction : CommandTransaction (list (SinkEvent nat)) :=
  mkTransaction (λ w, (true, w)) (λ w, (true, w)).

Definition sampleImages : list Image :=
  [mkImage 0 (bytesOf "v1") (bytesOf "XG2010G") (repeat 0 16) true true true;
   mkImage 1 (bytesOf "v0") (bytesOf "XG2010G") (repeat 0 16) false false true].

Definition sampleController : Controller (list (SinkEvent nat)) nat :=
  mkController (λ w, (Some sampleImages, w))
    (λ _ _ w, (Some (freshSink w), w ++ [Started (freshSink w)]))
    (λ _ _ w, (Some sampleTransaction, w)) (λ _ w, (Some sampleTransaction, w))
    (λ k data w, ((Z.of_nat (length data), true), w ++ [Wrote k data true]))
    (λ k w, (Some (mkMetadata (bytesOf "v2") []), w ++ [Finished k]))
    (λ k w, (true, w ++ [Aborted k])).

Lemma freshSink_fresh w : freshSink w ∉ startedSinks w.
Proof.
  unfold freshSink. assert (∀ l x, x ∈ l → (x ≤ foldr Nat.max 0 l)%nat) as Hle.
  { induction l as [|y l IH]; intros x Hx; [by apply elem_of_nil in Hx|]. cbn.
    apply elem_of_cons in Hx as [->|Hx]; [lia|]. apply IH in Hx. lia. }
  intros Hin%Hle. lia.
Qed.

#[export, refine] Instance sampleSinkLog : SinkLog sampleController := {| sink_log := λ w, w |}.
Proof.
  - done.
  - intros id size w. cbn. split; [done|apply freshSink_fresh].
  - intros k data w. cbn. by rewrite Z.eqb_refl.
  - done.
  - done.
  - done.
  - done.
  - by intros id flags w w' t [= <- <-].
  - by intros id w w' t [= <- <-].
Defined.

Definition sampleImageInstance (id active : Z) : Instance_ :=
  mkInstance (softwareKey id)
    (list_to_map [(SoftwareImage_IsCommitted, VU8 active); (SoftwareImage_IsActive, VU8 active);
                  (SoftwareImage_IsValid, VU8 1); (SoftwareImage_ImageHash, VOctets (repeat 0 16))]) OriginONU.

Definition sampleMib : Store (list (SinkEvent nat)) :=
  match @NewWithOptions canonical_range _
          [mkInstance onuDataKey {[ OnuData_MibDataSync := VU8 0 ]} OriginONU;
           sampleImageInstance 0 1; sampleImageInstance 1 0]
          (mkOptions (Some (λ _ w, (true, w))) 0 "" [] None None ∅) with
  | Ok s => s
  | Err _ => mkStore ∅ ∅ 0 None 0 "" None None ∅ None
  end.

Definition sampleEngine : engine (list (SinkEvent nat)) nat :=
  mkEngine sampleMib (Some sampleController) None (mkStatus "idle" 0 0 0 []).

Definition sampleStart : StartSoftwareDownloadRequest :=
  mkStart SoftwareImageClassID 1 1 5 1 [1].
Definition sampleImage : list (list (list Z)) := [[[1; 2]; [3]]; [[4; 5]]].

(** The engine after the start, after the image, after the end request, after the goroutine. *)
Definition sampleStarted := @startSoftwareDownload canonical_range _ _ sampleEngine [] sampleStart BaselineIdent.
Definition sampleSent :=
  @sendImage _ _ sampleController 1 BaselineIdent sampleStarted.1.2 sampleStarted.2 sampleImage.
Definition sampleEnd : EndSoftwareDownloadRequest :=
  mkEnd SoftwareImageClassID 1 (CRC32A [1; 2; 3; 4; 5]) 5 1 [1].
Definition sampleEnded :=
  @endSoftwareDownload canonical_range _ _ sampleController sampleSent.1.2 sampleSent.2 sampleEnd BaselineIdent.

Section reach.
Context {MR : MapRange} {W Sink : Type} `{EqDecision Sink}.
Context (ctl : Controller W Sink) `{!SinkLog ctl}.

Lemma sendWindow_reachable entity device sections (e : engine W Sink) w number :
  swreachable ctl e w → Forall bytes_ok sections →
  swreachable ctl (sendWindow ctl entity device e w number sections).1.2
    (sendWindow ctl entity device e w number sections).2.
Proof.
  revert e w number. induction sections as [|data rest IH]; intros e w number Hr Hb; [exact Hr|].
  apply Forall_cons in Hb as [Hd Hb]. cbn [sendWindow].
  destruct (downloadSoftwareSection _ _ _ _ _ _) as [[r e1] w1] eqn:Hx.
  assert (swreachable ctl e1 w1) as Hr1 by (eapply swr_step; [exact Hr|eapply sw_section; [|exact Hx]; exact Hd]).
  specialize (IH e1 w1 (number + 1) Hr1 Hb). by destruct (sendWindow _ _ _ _ _ _ _) as [[? ?] ?].
Qed.

Lemma sendImage_reachable entity device windows (e : engine W Sink) w :
  swreachable ctl e w → Forall (Forall bytes_ok) windows →
  swreachable ctl (sendImage ctl entity device e w windows).1.2 (sendImage ctl entity device e w windows).2.
Proof.
  revert e w. induction windows as [|sections windows IH]; intros e w Hr Hb; [exact Hr|].
  apply Forall_cons in Hb as [Hs Hb]. cbn [sendImage].
  pose proof (sendWindow_reachable entity device sections e w 0 Hr Hs) as Hr1.
  destruct (sendWindow _ _ _ _ _ _ _) as [[rs e1] w1]. specialize (IH e1 w1 Hr1 Hb).
  by destruct (sendImage _ _ _ _ _ _) as [[? ?] ?].
Qed.
End reach.

Lemma sample_initial : @swreachable canonical_range _ _ _ sampleController sampleSinkLog sampleEngine [].
Proof.
  apply swr_new; [|reflexivity]. intros change w. unfold applyChange.
  assert (applier sampleMib = Some (λ _ w, (true, w))) as -> by (vm_compute; reflexivity). reflexivity.
Qed.

#[global] Opaque sampleMib.

Lemma sample_ended :
  @swreachable canonical_range _ _ _ sampleController sampleSinkLog sampleEnded.1.2 sampleEnded.2.
Proof.
  assert (@swreachable canonical_range _ _ _ sampleController sampleSinkLog sampleStarted.1.2 sampleStarted.2) as H1.
  { refine (swr_step _ _ _ _ _ sample_initial (sw_start _ _ _ sampleStart BaselineIdent sampleStarted.1.1 _ _ _ _)).
    - by_decide.
    - exact (surjective_pairing_triple sampleStarted). }
  refine (swr_step _ sampleSent.1.2 sampleSent.2 _ _ _
            (sw_end _ _ _ sampleEnd BaselineIdent sampleEnded.1.1 _ _ _)).
  - assert (Forall (Forall bytes_ok) sampleImage) as Hb by (unfold sampleImage; by_decide).
    exact (@sendImage_reachable canonical_range _ _ _ sampleController sampleSinkLog 1 BaselineIdent sampleImage _ _ H1 Hb).
  - exact (surjective_pairing_triple sampleEnded).
Qed.

Lemma software_image_integrity_witness :
  match e_download sampleEnded.1.2 with
  | Some d => let image := taken (d_sink d) (@sink_log _ _ _ sampleSinkLog sampleEnded.2) in
      Z.of_nat (length image) = d_expectedSize d ∧ er_size (d_end d) = d_expectedSize d ∧
      er_crc (d_end d) = CRC32A image ∧ d_imageHash d = md5Sum image
  | None => False
  end.
Proof.
  destruct (e_download sampleEnded.1.2) as [d|] eqn:Hd; [|vm_compute in Hd; discriminate Hd].
  apply (@software_image_integrity canonical_range _ _ _ sampleController sampleSinkLog _ _ d sample_ended Hd).
  vm_compute in Hd. injection Hd as <-. discriminate.
Defined.

Lemma software_sink_discipline_witness :
  openSinks (@sink_log _ _ _ sampleSinkLog sampleEnded.2) = Some (open_for (e_download sampleEnded.1.2)).
Proof.
  apply (@software_sink_discipline canonical_range _ _ _ sampleController sampleSinkLog _ _ sample_ended).
Defined.

Lemma software_transfer_bounds_witness :
  match e_download sampleEnded.1.2 with
  | Some d => let image := taken (d_sink d) (@sink_log _ _ _ sampleSinkLog sampleEnded.2) in
      Z.of_nat (length image + length (d_window d)) ≤ d_expectedSize d < 2 ^ 32 ∧
      d_received d = Z.of_nat (length image) ∧
      d_crc d = UpdateCRC32A CRC32AInitial image ∧
      0 ≤ d_expectedSection d < d_windowSize d ∧ d_windowSize d ≤ 256
  | None => False
  end.
Proof.
  destruct (e_download sampleEnded.1.2) as [d|] eqn:Hd; [|vm_compute in Hd; discriminate Hd].
  apply (@software_transfer_bounds canonical_range _ _ _ sampleController sampleSinkLog _ _ d sample_ended Hd).
Defined.


Lemma software_start_spares_running_witness :
  (∃ image, @softwareImage canonical_range _ _ sampleEngine 1 = Ok image ∧
     f_active image = false ∧ f_committed image = false) ∧
  imageShows (e_mib sampleStarted.1.2) 1 SoftwareImage_IsValid (VU8 0) ∧
  (∀ key, key ≠ softwareKey 1 → key ≠ onuDataKey →
     current (e_mib sampleStarted.1.2) !! key = current (e_mib sampleEngine) !! key).
Proof.
  apply (@software_start_spares_running canonical_range _ _ sampleEngine [] sampleController sampleStart
           BaselineIdent sampleStarted.1.2 sampleStarted.2).
  - reflexivity.
  - vm_compute. reflexivity.
Defined.

(** The goroutine has finished the image, and the OLT repeats its end request. *)
Definition sampleFinished : engine (list (SinkEvent nat)) nat * list (SinkEvent nat) :=
  default (sampleEngine, []) (finishGoroutine sampleController sampleEnded.1.2 sampleEnded.2).
Definition samplePublished :=
  @endSoftwareDownload canonical_range _ _ sampleController sampleFinished.1 sampleFinished.2 sampleEnd BaselineIdent.

Lemma software_publishes_witness :
  match e_download sampleFinished.1 with
  | Some d =>
      imageShows (e_mib samplePublished.1.2) (d_entityID d) SoftwareImage_IsValid (VU8 1) ∧
      imageShows (e_mib samplePublished.1.2) (d_entityID d) SoftwareImage_ImageHash (VOctets (d_imageHash d)) ∧
      (∃ d', e_download samplePublished.1.2 = Some d' ∧ d_phase d' = softwareComplete) ∧
      en_CRC32 sampleEnd = er_crc (d_end d) ∧ en_ImageSize sampleEnd = er_size (d_end d)
  | None => False
  end.
Proof.
  destruct (e_download sampleFinished.1) as [d|] eqn:Hd; [|vm_compute in Hd; discriminate Hd].
  apply (@software_publishes canonical_range _ _ sampleFinished.1 sampleFinished.2 sampleController sampleEnd
           BaselineIdent d samplePublished.1.2 samplePublished.2 Hd).
  - vm_compute in Hd. injection Hd as <-. reflexivity.
  - vm_compute. reflexivity.
Defined.

Definition sampleRefreshed := @RefreshSoftwareImages canonical_range _ _ sampleEngine [].

Lemma RefreshSoftwareImages_imports_witness :
  ∃ images, (Images sampleController ([] : list (SinkEvent nat))).1 = Some images ∧ length images = 2%nat ∧
    NoDup (map im_EntityID images) ∧ countBy im_Active images = 1 ∧ countBy im_Committed images = 1 ∧
    (∀ image n v, image ∈ images → imageAttributes image !! n = Some v →
       imageShows (e_mib sampleRefreshed.1.2) (im_EntityID image) n v) ∧
    (∀ key, (∀ image, image ∈ images → key ≠ softwareKey (im_EntityID image)) →
       current (e_mib sampleRefreshed.1.2) !! key = current (e_mib sampleEngine) !! key) ∧
    dataSync (e_mib sampleRefreshed.1.2) = dataSync (e_mib sampleEngine).
Proof.
  apply (@RefreshSoftwareImages_imports canonical_range _ _ sampleEngine [] sampleController
           sampleRefreshed.1.2 sampleRefreshed.2).
  - reflexivity.
  - vm_compute. reflexivity.
Defined.

Lemma software_selection_exclusive_witness :
  let o := @activateSoftware canonical_range _ _ sampleEngine [] (mkActivate SoftwareImageClassID 1 0) in
  softwareDownloadBusy sampleEngine = false ∧
  (∃ image, @softwareImage canonical_range _ _ sampleEngine 1 = Ok image ∧ f_valid image = true) ∧
  exclusive (e_mib sampleEngine) (e_mib o.1.2) 1 SoftwareImage_IsActive.
Proof.
  intros o.
  apply (proj1 (@software_selection_exclusive canonical_range _ _ sampleEngine [])
           (mkActivate SoftwareImageClassID 1 0) Success o.1.2 o.2).
  vm_compute. reflexivity.
Defined.

(** ** A MIB reset forgets the boot slots

    [RefreshSoftwareImages] writes the slots into the current MIB only.  A MIB reset restores
    the factory instances of the software images, so after the reset the MIB can call the
    running image inactive, and a download to it is accepted. *)

(** The backend reports image 1 as the running one. *)
Definition slotOneController : Controller (list (SinkEvent nat)) nat :=
  mkController
    (λ w, (Some [mkImage 0 (bytesOf "v0") [] (repeat 0 16) false false true;
                 mkImage 1 (bytesOf "v1") [] (repeat 0 16) true true true], w))
    (Start sampleController) (PrepareActivate sampleController) (PrepareCommit sampleController)
    (sinkWrite sampleController) (sinkFinish sampleController) (sinkAbort sampleController).

Definition slotOneImported : engine (list (SinkEvent nat)) nat :=
  (@RefreshSoftwareImages canonical_range _ _
     (mkEngine sampleMib (Some slotOneController) None (mkStatus "idle" 0 0 0 [])) []).1.2.
Definition slotOneReset : engine (list (SinkEvent nat)) nat :=
  withMib slotOneImported (@Reset_ canonical_range _ (e_mib slotOneImported) []).1.2.

Example reset_forgets_boot_slots :
  @softwareImage canonical_range _ _ slotOneImported 1 = Ok (mkFlags true true true) ∧
  (@startSoftwareDownload canonical_range _ _ slotOneImported [] sampleStart BaselineIdent).1.1 = ParameterError ∧
  @softwareImage canonical_range _ _ slotOneReset 1 = Ok (mkFlags false false true) ∧
  (@startSoftwareDownload canonical_range _ _ slotOneReset [] sampleStart BaselineIdent).1.1 = Success.
Proof. vm_compute. by split_and!. Qed.
