(* ===== verification/ExecSoftware.v ===== *)
(** * Platform: the software helper

    src/internal/platform/software.go: the software controller of the engine on top of a helper
    program: the checks of the image state it reports, the transactions that activate and commit
    an image, each ended once, and the downloads that stream an image into a running helper.  The
    program and encoding/json are the interface [SoftwareHelper].  Transactions and downloads are
    shared with the engine: they are entries of the state, found by their number. *)

From S2P Require Import Prelude Maps GoStd Hex MeTypes MeLib Mib Store Software.

(** ** The helper *)

(** An argument: a word, or [strconv.FormatUint] of a number. *)
Inductive HelperArg := HelperWord (text : string) | HelperNumber (value : Z).

(** One element of [imageStateResponse]. *)
Record imageResponse := mkImageResponse {
  ir_EntityID : Z;
  ir_Version : list Z;
  ir_ProductCode : list Z;
  ir_ImageHash : list Z;
  ir_Committed : bool;
  ir_Active : bool;
  ir_Valid : bool
}.

(** Running the helper to its end, with its output unless it fails or takes too long; starting it
    with an open input, writing to and closing the input, [wait] with the output of a helper that
    ended well in time, cancelling it, and [command.Wait] of a cancelled one, which answers whether
    it ended; and decoding the output, followed by nothing else. *)
Class SoftwareHelper (J Proc P : Type) := {
  runHelper : list HelperArg → P → option J * P;
  startHelper : list HelperArg → P → option Proc * P;
  writeInput : Proc → list Z → P → (Z * bool) * P;
  closeInput : Proc → P → bool * P;
  waitHelper : Proc → P → option J * P;
  cancelHelper : Proc → P → P;
  reapHelper : Proc → P → bool * P;
  jsonImages : J → option (list imageResponse);
  jsonMetadata : J → option Metadata
}.

(** [execDownload] and [execSoftwareTransaction] by what changes of them. *)
Record ExecSoftware (Proc P : Type) := mkExecSoftware {
  es_downloads : list (Proc * bool);
  es_transactions : list bool;
  es_world : P
}.
Arguments mkExecSoftware {Proc P} _ _ _.
Arguments es_downloads {Proc P} _.
Arguments es_transactions {Proc P} _.
Arguments es_world {Proc P} _.

(** ** The image state *)

Record imagesAcc := mkImagesAcc {
  ia_seen : gset Z;
  ia_active : nat;
  ia_committed : nat;
  ia_images : list Image
}.

(** The MD5 hash of an image: none is sixteen zero bytes. *)
Definition decodeImageHash (text : list Z) : option (list Z) :=
  if bool_decide (text = []) then Some (repeat 0 16)
  else
    decoded ← hexDecodeString text;
    if (length decoded =? 16)%nat then Some decoded else None.

(** The body of the loop of [Images]. *)
Definition imageStep (acc : imagesAcc) (value : imageResponse) : option imagesAcc :=
  if 1 <? ir_EntityID value then None
  else if bool_decide (ir_EntityID value ∈ ia_seen acc) then None
  else
    hash ← decodeImageHash (ir_ImageHash value);
    if (ir_Active value || ir_Committed value) && negb (ir_Valid value) then None
    else Some (mkImagesAcc ({[ir_EntityID value]} ∪ ia_seen acc)
                 (if ir_Active value then S (ia_active acc) else ia_active acc)
                 (if ir_Committed value then S (ia_committed acc) else ia_committed acc)
                 (ia_images acc ++ [mkImage (ir_EntityID value) (ir_Version value) (ir_ProductCode value) hash
                                      (ir_Committed value) (ir_Active value) (ir_Valid value)])).

Fixpoint imageLoop (values : list imageResponse) (acc : imagesAcc) : option imagesAcc :=
  match values with
  | [] => Some acc
  | value :: values => acc ← imageStep acc value; imageLoop values acc
  end.

Definition checkImages (values : list imageResponse) : option (list Image) :=
  if negb (length values =? 2)%nat then None
  else
    acc ← imageLoop values (mkImagesAcc ∅ 0 0 []);
    if (ia_active acc =? 1)%nat && (ia_committed acc =? 1)%nat then Some (ia_images acc) else None.

Section software.
Context {J Proc P : Type} `{SoftwareHelper J Proc P}.
(** [ExecSoftwareController.Path]. *)
Variable path : string.
Implicit Types w : ExecSoftware Proc P.

Definition setWorld w (p : P) : ExecSoftware Proc P := mkExecSoftware (es_downloads w) (es_transactions w) p.
Definition setDownloads w downloads : ExecSoftware Proc P := mkExecSoftware downloads (es_transactions w) (es_world w).
Definition setTransactions w transactions : ExecSoftware Proc P := mkExecSoftware (es_downloads w) transactions (es_world w).

Definition executeHelper (arguments : list HelperArg) w : option J * ExecSoftware Proc P :=
  if bool_decide (path = "") then (None, w)
  else let '(output, p) := runHelper arguments (es_world w) in (output, setWorld w p).

Definition ExecImages w : option (list Image) * ExecSoftware Proc P :=
  let '(output, w) := executeHelper [HelperWord "state"] w in
  (output ← output; values ← jsonImages output; checkImages values, w).

(** ** Transactions *)

(** [Commit] and [Abort] of a transaction, with the arguments of each. *)
Definition endTransaction (index : nat) (arguments : list HelperArg) w : bool * ExecSoftware Proc P :=
  if default true (es_transactions w !! index) then (true, w)
  else
    let '(output, w) := executeHelper arguments w in
    match output with
    | None => (false, w)
    | Some _ => (true, setTransactions w (<[index := true]> (es_transactions w)))
    end.

Definition prepareTransaction (prepare commit abort : list HelperArg) w
    : option (CommandTransaction (ExecSoftware Proc P)) * ExecSoftware Proc P :=
  let '(output, w) := executeHelper prepare w in
  match output with
  | None => (None, w)
  | Some _ =>
      let index := length (es_transactions w) in
      (Some (mkTransaction (endTransaction index commit) (endTransaction index abort)),
       setTransactions w (es_transactions w ++ [false]))
  end.

Definition ExecPrepareActivate (entityID flags : Z) :=
  prepareTransaction [HelperWord "activate-prepare"; HelperNumber entityID; HelperNumber flags]
    [HelperWord "activate-commit"; HelperNumber entityID] [HelperWord "activate-abort"; HelperNumber entityID].

Definition ExecPrepareCommit (entityID : Z) :=
  prepareTransaction [HelperWord "commit-prepare"; HelperNumber entityID]
    [HelperWord "commit-commit"; HelperNumber entityID] [HelperWord "commit-abort"; HelperNumber entityID].

(** ** Downloads *)

Definition ExecStart (entityID imageSize : Z) w : option nat * ExecSoftware Proc P :=
  if bool_decide (path = "") then (None, w)
  else
    let '(started, p) := startHelper [HelperWord "download"; HelperNumber entityID; HelperNumber imageSize] (es_world w) in
    let w := setWorld w p in
    match started with
    | None => (None, w)
    | Some process => (Some (length (es_downloads w)), setDownloads w (es_downloads w ++ [(process, false)]))
    end.

(** The helper of a download that is not done. *)
Definition openDownload (sink : nat) w : option Proc :=
  match es_downloads w !! sink with Some (process, false) => Some process | _ => None end.

Definition closeDownload (sink : nat) (process : Proc) w : ExecSoftware Proc P :=
  setDownloads w (<[sink := (process, true)]> (es_downloads w)).

Definition ExecWrite (sink : nat) (value : list Z) w : (Z * bool) * ExecSoftware Proc P :=
  match openDownload sink w with
  | None => ((0, false), w)
  | Some process => let '(r, p) := writeInput process value (es_world w) in (r, setWorld w p)
  end.

Definition ExecFinish (sink : nat) w : option Metadata * ExecSoftware Proc P :=
  match openDownload sink w with
  | None => (None, w)
  | Some process =>
      let w := closeDownload sink process w in
      let '(closed, p) := closeInput process (es_world w) in
      if negb closed then (None, setWorld w (reapHelper process (cancelHelper process p)).2)
      else
        let '(output, p) := waitHelper process p in
        (output ← output; jsonMetadata output, setWorld w (cancelHelper process p))
  end.

Definition ExecAbort (sink : nat) w : bool * ExecSoftware Proc P :=
  match openDownload sink w with
  | None => (true, w)
  | Some process =>
      let w := closeDownload sink process w in
      let p := cancelHelper process (closeInput process (es_world w)).2 in
      let '(exited, p) := reapHelper process p in
      (exited, setWorld w p)
  end.

(** [ExecSoftwareController] as the controller of the engine. *)
Definition execSoftware : Controller (ExecSoftware Proc P) nat :=
  mkController ExecImages ExecStart ExecPrepareActivate ExecPrepareCommit ExecWrite ExecFinish ExecAbort.

(** ** Properties *)

(** The images accepted have the two identifiers, one is active and one committed, what is
    selected is valid, and the hashes have sixteen bytes. *)
Definition images_ok (images : list Image) : Prop :=
  map im_EntityID images ≡ₚ [0; 1] ∧
  length (List.filter im_Active images) = 1%nat ∧ length (List.filter im_Committed images) = 1%nat ∧
  Forall (λ image, (im_Active image = true ∨ im_Committed image = true → im_Valid image = true) ∧
                   length (im_ImageHash image) = 16%nat ∧ bytes_ok (im_ImageHash image)) images.

Lemma decodeImageHash_ok text hash : decodeImageHash text = Some hash → length hash = 16%nat ∧ bytes_ok hash.
Proof.
  unfold decodeImageHash. case_bool_decide; [intros [= <-]; split; [done|by repeat constructor]|].
  destruct (hexDecodeString text) as [decoded|] eqn:Hd; [|done]. cbn.
  destruct (Nat.eqb_spec (length decoded) 16); [|done]. intros [= <-]. split; [done|]. by eapply hexDecodeString_bytes.
Qed.

(** What the loop keeps of the images it has taken. *)
Record imagesInv (acc : imagesAcc) : Prop := {
  iv_seen image : image ∈ ia_images acc → im_EntityID image ∈ ia_seen acc;
  iv_nodup : NoDup (map im_EntityID (ia_images acc));
  iv_range : Forall (λ image, 0 ≤ im_EntityID image ≤ 1) (ia_images acc);
  iv_active : length (List.filter im_Active (ia_images acc)) = ia_active acc;
  iv_committed : length (List.filter im_Committed (ia_images acc)) = ia_committed acc;
  iv_valid : Forall (λ image, (im_Active image = true ∨ im_Committed image = true → im_Valid image = true) ∧
                              length (im_ImageHash image) = 16%nat ∧ bytes_ok (im_ImageHash image)) (ia_images acc)
}.

Lemma imageStep_inv acc value acc' :
  0 ≤ ir_EntityID value → imagesInv acc → imageStep acc value = Some acc' →
  imagesInv acc' ∧ length (ia_images acc') = S (length (ia_images acc)).
Proof.
  intros Hid [Hseen Hnd Hrange Hactive Hcommitted Hvalid] Hs. unfold imageStep in Hs.
  destruct (Z.ltb_spec 1 (ir_EntityID value)); [done|]. case_bool_decide as Hnew; [done|].
  destruct (decodeImageHash (ir_ImageHash value)) as [hash|] eqn:Hh; [|done]. cbn [mbind option_bind] in Hs.
  destruct ((ir_Active value || ir_Committed value) && negb (ir_Valid value)) eqn:Hv; [done|]. injection Hs as <-.
  apply decodeImageHash_ok in Hh as [Hl Hb]. set (image := mkImage _ _ _ _ _ _ _).
  split; [split; cbn [ia_images ia_seen ia_active ia_committed]|cbn [ia_images]; rewrite length_app; cbn; lia].
  - intros i [Hi| ->%list_elem_of_singleton]%elem_of_app; [|set_solver]. apply elem_of_union_r. by apply Hseen.
  - rewrite map_app. apply NoDup_app. split; [done|]. split; [|apply NoDup_singleton].
    intros id Hin ->%list_elem_of_singleton. apply Hnew. apply list_elem_of_fmap in Hin as (i & Hi & Hin).
    change (ir_EntityID value) with (im_EntityID image). rewrite Hi. by apply Hseen.
  - apply Forall_app. split; [done|]. constructor; [cbn; lia|constructor].
  - rewrite List.filter_app, length_app, Hactive. cbn [List.filter image im_Active]. destruct (ir_Active value); cbn; lia.
  - rewrite List.filter_app, length_app, Hcommitted. cbn [List.filter image im_Committed]. destruct (ir_Committed value); cbn; lia.
  - apply Forall_app. split; [done|]. constructor; [|constructor]. split; [|done]. cbn. intros Ha.
    destruct (ir_Active value), (ir_Committed value), (ir_Valid value); naive_solver.
Qed.

Lemma imageLoop_inv values : ∀ acc acc',
  Forall (λ value, 0 ≤ ir_EntityID value) values → imagesInv acc → imageLoop values acc = Some acc' →
  imagesInv acc' ∧ length (ia_images acc') = (length (ia_images acc) + length values)%nat.
Proof.
  induction values as [|value values IH]; intros acc acc' Hids Hinv Hl; cbn [imageLoop] in Hl.
  - injection Hl as <-. cbn. split; [done|lia].
  - apply Forall_cons in Hids as [Hid Hids]. destruct (imageStep acc value) as [acc1|] eqn:Hs; [|done].
    destruct (imageStep_inv _ _ _ Hid Hinv Hs) as [Hinv1 Hl1].
    destruct (IH acc1 acc' Hids Hinv1 Hl) as [Hinv2 Hl2]. split; [done|]. cbn [length]. lia.
Qed.

Lemma checkImages_ok values images :
  Forall (λ value, 0 ≤ ir_EntityID value) values → checkImages values = Some images → images_ok images.
Proof.
  intros Hids H1. unfold checkImages in H1. destruct (Nat.eqb_spec (length values) 2) as [Hlen|]; [|done].
  cbn [negb] in H1. destruct (imageLoop _ _) as [acc|] eqn:Hl; [|done]. cbn [mbind option_bind] in H1.
  destruct (_ && _) eqn:Hc; [|done]. injection H1 as <-. apply andb_true_iff in Hc as [Ha%Nat.eqb_eq Hcm%Nat.eqb_eq].
  apply imageLoop_inv in Hl as [[Hseen Hnd Hrange Hactive Hcommitted Hvalid] Hl]; [|done|split; cbn; try done; try constructor].
  2: by intros ? ?%not_elem_of_nil.
  cbn in Hl. split; [|split; [congruence|split; [congruence|done]]].
  destruct (ia_images acc) as [|i [|j [|k l]]]; cbn in Hl; try lia. cbn [map] in *.
  apply Forall_cons in Hrange as [Hi Hrange]. apply Forall_cons in Hrange as [Hj _].
  apply NoDup_cons in Hnd as [Hnd _]. rewrite list_elem_of_singleton in Hnd.
  assert (im_EntityID i = 0 ∧ im_EntityID j = 1 ∨ im_EntityID i = 1 ∧ im_EntityID j = 0) as [[-> ->]|[-> ->]] by lia;
    [done|apply Permutation_swap].
Qed.

(** A transaction is ended once, and a download closed once; what comes after does not reach the
    helper. *)
Lemma endTransaction_once index arguments w w' arguments' :
  (index < length (es_transactions w))%nat → endTransaction index arguments w = (true, w') →
  endTransaction index arguments' w' = (true, w').
Proof.
  intros Hi. unfold endTransaction at 1. destruct (es_transactions w !! index) as [[]|] eqn:Hd; cbn [default from_option id].
  - intros [= <-]. unfold endTransaction. by rewrite Hd.
  - destruct (executeHelper arguments w) as [[output|] w1] eqn:He; [|done]. intros [= <-].
    assert (es_transactions w1 = es_transactions w) as Ht.
    { unfold executeHelper in He. case_bool_decide; [discriminate He|].
      destruct (runHelper arguments (es_world w)). injection He as _ <-. done. }
    unfold endTransaction, setTransactions. cbn [es_transactions]. by rewrite Ht, list_lookup_insert_eq by done.
  - apply lookup_ge_None in Hd. lia.
Qed.

Lemma closeDownload_open sink process w :
  openDownload sink w = Some process → openDownload sink (closeDownload sink process w) = None.
Proof.
  unfold openDownload, closeDownload, setDownloads. destruct (es_downloads w !! sink) as [[q []]|] eqn:Hl; try done.
  intros [= ->]. cbn [es_downloads]. by rewrite list_lookup_insert_eq by (by eapply lookup_lt_Some).
Qed.

Lemma openDownload_setWorld sink w p : openDownload sink (setWorld w p) = openDownload sink w.
Proof. done. Qed.

Lemma finished_closed sink w : openDownload sink (ExecFinish sink w).2 = None.
Proof.
  unfold ExecFinish. destruct (openDownload sink w) as [process|] eqn:Ho; [|done].
  pose proof (closeDownload_open _ _ _ Ho) as Hc. cbv zeta.
  destruct (closeInput _ _) as [[] p]; cbn [negb]; [destruct (waitHelper process p)|]; exact Hc.
Qed.

Lemma aborted_closed sink w : openDownload sink (ExecAbort sink w).2 = None.
Proof.
  unfold ExecAbort. destruct (openDownload sink w) as [process|] eqn:Ho; [|done].
  pose proof (closeDownload_open _ _ _ Ho) as Hc. cbv zeta. destruct (reapHelper _ _). exact Hc.
Qed.

(** The images the engine imports from the helper are two slots, one active and one committed, the
    selected ones valid, each with a hash of sixteen bytes; a transaction that was committed or
    aborted is over: ending it again answers success and does not reach the helper; and after a
    download was finished or aborted nothing more is written to its helper. *)
Theorem exec_software_checked :
  (∀ w images w', (∀ output values, jsonImages output = Some values → Forall (λ value, 0 ≤ ir_EntityID value) values) →
     Images execSoftware w = (Some images, w') → images_ok images) ∧
  (∀ entityID flags w transaction w1 w2,
     PrepareActivate execSoftware entityID flags w = (Some transaction, w1) →
     Commit transaction w1 = (true, w2) ∨ Abort_ transaction w1 = (true, w2) →
     Commit transaction w2 = (true, w2) ∧ Abort_ transaction w2 = (true, w2)) ∧
  (∀ entityID w transaction w1 w2,
     PrepareCommit execSoftware entityID w = (Some transaction, w1) →
     Commit transaction w1 = (true, w2) ∨ Abort_ transaction w1 = (true, w2) →
     Commit transaction w2 = (true, w2) ∧ Abort_ transaction w2 = (true, w2)) ∧
  (∀ sink value w, let closed w := sinkWrite execSoftware sink value w = ((0, false), w) ∧
       sinkFinish execSoftware sink w = (None, w) ∧ sinkAbort execSoftware sink w = (true, w) in
     closed (sinkFinish execSoftware sink w).2 ∧ closed (sinkAbort execSoftware sink w).2).
Proof.
  assert (∀ prepare commit abort w transaction w1 w2,
    prepareTransaction prepare commit abort w = (Some transaction, w1) →
    Commit transaction w1 = (true, w2) ∨ Abort_ transaction w1 = (true, w2) →
    Commit transaction w2 = (true, w2) ∧ Abort_ transaction w2 = (true, w2)) as Htransaction.
  { intros prepare commit abort w transaction w1 w2 Hp. unfold prepareTransaction in Hp.
    destruct (executeHelper prepare w) as [[output|] w0]; [|done]. injection Hp as <- <-. cbn [Commit Abort_].
    intros Hc. split; destruct Hc as [Hc|Hc]; (eapply endTransaction_once; [|exact Hc]);
      unfold setTransactions; cbn [es_transactions]; rewrite length_app; cbn; lia. }
  split; [|split; [|split]].
  - intros w images w' Hids Hi. cbn [Images execSoftware] in Hi. unfold ExecImages in Hi.
    destruct (executeHelper _ w) as [[output|] w1]; [|done]. cbn [mbind option_bind] in Hi.
    destruct (jsonImages output) as [values|] eqn:Hj; [|done]. injection Hi as Hi _.
    eapply checkImages_ok; [|exact Hi]. by eapply Hids.
  - intros entityID flags w transaction w1 w2. apply Htransaction.
  - intros entityID w transaction w1 w2. apply Htransaction.
  - intros sink value w closed. assert (∀ w1, openDownload sink w1 = None → closed w1) as Hclosed.
    { intros w1 Ho. unfold closed. cbn [sinkWrite sinkFinish sinkAbort execSoftware].
      unfold ExecWrite, ExecFinish, ExecAbort. by rewrite Ho. }
    split; apply Hclosed; [apply finished_closed|apply aborted_closed].
Qed.
End software.
