(* ===== verification/Counters.v ===== *)
(** * Performance counters

    src/internal/performance/performance.go: the counters the platform reports, and from
    src/internal/engine/performance.go what the engine makes of two samples: the differences,
    saturated to the width of the history attributes. *)

From S2P Require Import Prelude MeTypes MeNames.

Record GEMPortCounters := mkGEMPortCounters {
  gem_ReceivedGEMFrames : Z;
  gem_ReceivedPayloadBytes : Z;
  gem_TransmittedGEMFrames : Z;
  gem_TransmittedPayloadBytes : Z
}.

Record FECCounters := mkFECCounters {
  fec_CorrectedBytes : Z;
  fec_CorrectedCodeWords : Z;
  fec_UncorrectableCodeWords : Z;
  fec_TotalCodeWords : Z;
  fec_FECSeconds : Z
}.

Record XGSPONTCCounters := mkXGSPONTCCounters {
  tc_PSBdHECErrors : Z;
  tc_XGTCHECErrors : Z;
  tc_UnknownProfiles : Z;
  tc_TransmittedXGEMFrames : Z;
  tc_FragmentXGEMFrames : Z;
  tc_XGEMHECLostWords : Z;
  tc_XGEMKeyErrors : Z;
  tc_XGEMHECErrors : Z;
  tc_TransmittedNonIdleBytes : Z;
  tc_ReceivedNonIdleBytes : Z;
  tc_LODSEvents : Z;
  tc_LODSRestored : Z;
  tc_ONUReactivationsByLODS : Z
}.

Record XGSPONDownstreamManagementCounters := mkXGSPONDownstreamManagementCounters {
  ds_PLOAMMICErrors : Z;
  ds_PLOAMMessages : Z;
  ds_ProfileMessages : Z;
  ds_RangingTimeMessages : Z;
  ds_DeactivateONUIDMessages : Z;
  ds_DisableSerialNumberMessages : Z;
  ds_RequestRegistrationMessages : Z;
  ds_AssignAllocIDMessages : Z;
  ds_KeyControlMessages : Z;
  ds_SleepAllowMessages : Z;
  ds_BaselineOMCIMessages : Z;
  ds_ExtendedOMCIMessages : Z;
  ds_AssignONUIDMessages : Z;
  ds_OMCIMICErrors : Z
}.

Record XGSPONUpstreamManagementCounters := mkXGSPONUpstreamManagementCounters {
  us_PLOAMMessages : Z;
  us_SerialNumberMessages : Z;
  us_RegistrationMessages : Z;
  us_KeyReportMessages : Z;
  us_AcknowledgeMessages : Z;
  us_SleepRequestMessages : Z
}.

Record XGSPONCounters := mkXGSPONCounters {
  xgs_KernelInstanceGeneration : Z;
  xgs_KernelSessionGeneration : Z;
  xgs_DispatcherGeneration : Z;
  xgs_Sequence : Z;
  xgs_TC : XGSPONTCCounters;
  xgs_Downstream : XGSPONDownstreamManagementCounters;
  xgs_Upstream : XGSPONUpstreamManagementCounters
}.

Record EthernetDirectionCounters := mkEthernetDirectionCounters {
  ed_Frames : Z;
  ed_Octets : Z;
  ed_DropEvents : Z;
  ed_BroadcastFrames : Z;
  ed_MulticastFrames : Z;
  ed_CRCErrors : Z;
  ed_BufferOverflows : Z;
  ed_InternalErrors : Z;
  ed_UndersizeFrames : Z;
  ed_Fragments : Z;
  ed_Jabbers : Z;
  ed_OversizeFrames : Z;
  ed_SizeBuckets : list Z
}.

Record EthernetCounters := mkEthernetCounters {
  eth_Received : EthernetDirectionCounters;
  eth_Transmitted : EthernetDirectionCounters
}.

Definition noGEMPortCounters : GEMPortCounters :=
  mkGEMPortCounters 0 0 0 0.

Definition noFECCounters : FECCounters :=
  mkFECCounters 0 0 0 0 0.

Definition noXGSPONTCCounters : XGSPONTCCounters :=
  mkXGSPONTCCounters 0 0 0 0 0 0 0 0 0 0 0 0 0.

Definition noXGSPONDownstreamManagementCounters : XGSPONDownstreamManagementCounters :=
  mkXGSPONDownstreamManagementCounters 0 0 0 0 0 0 0 0 0 0 0 0 0 0.

Definition noXGSPONUpstreamManagementCounters : XGSPONUpstreamManagementCounters :=
  mkXGSPONUpstreamManagementCounters 0 0 0 0 0 0.

Definition noXGSPONCounters : XGSPONCounters :=
  mkXGSPONCounters 0 0 0 0 noXGSPONTCCounters noXGSPONDownstreamManagementCounters noXGSPONUpstreamManagementCounters.

Definition noEthernetDirectionCounters : EthernetDirectionCounters :=
  mkEthernetDirectionCounters 0 0 0 0 0 0 0 0 0 0 0 0 (repeat 0 6).

Definition noEthernetCounters : EthernetCounters :=
  mkEthernetCounters noEthernetDirectionCounters noEthernetDirectionCounters.

(** ** Arithmetic on counters *)

(** [counterDelta]: a counter that has gone back was reset. *)
Definition counterDelta (start current : Z) : Z := if current <? start then current else current - start.

Definition saturatingUint32 (value : Z) : Z := if 0xffffffff <? value then 0xffffffff else value.
Definition saturatingUint16 (value : Z) : Z := if 0xffff <? value then 0xffff else value.

Definition deltaGEMCounters (start current : GEMPortCounters) : GEMPortCounters :=
  mkGEMPortCounters
    (counterDelta (gem_ReceivedGEMFrames start) (gem_ReceivedGEMFrames current))
    (counterDelta (gem_ReceivedPayloadBytes start) (gem_ReceivedPayloadBytes current))
    (counterDelta (gem_TransmittedGEMFrames start) (gem_TransmittedGEMFrames current))
    (counterDelta (gem_TransmittedPayloadBytes start) (gem_TransmittedPayloadBytes current)).

Definition deltaFECCounters (start current : FECCounters) : FECCounters :=
  mkFECCounters
    (counterDelta (fec_CorrectedBytes start) (fec_CorrectedBytes current))
    (counterDelta (fec_CorrectedCodeWords start) (fec_CorrectedCodeWords current))
    (counterDelta (fec_UncorrectableCodeWords start) (fec_UncorrectableCodeWords current))
    (counterDelta (fec_TotalCodeWords start) (fec_TotalCodeWords current))
    (counterDelta (fec_FECSeconds start) (fec_FECSeconds current)).

Definition deltaEthernetDirection (start current : EthernetDirectionCounters) : EthernetDirectionCounters :=
  mkEthernetDirectionCounters
    (counterDelta (ed_Frames start) (ed_Frames current))
    (counterDelta (ed_Octets start) (ed_Octets current))
    (counterDelta (ed_DropEvents start) (ed_DropEvents current))
    (counterDelta (ed_BroadcastFrames start) (ed_BroadcastFrames current))
    (counterDelta (ed_MulticastFrames start) (ed_MulticastFrames current))
    (counterDelta (ed_CRCErrors start) (ed_CRCErrors current))
    (counterDelta (ed_BufferOverflows start) (ed_BufferOverflows current))
    (counterDelta (ed_InternalErrors start) (ed_InternalErrors current))
    (counterDelta (ed_UndersizeFrames start) (ed_UndersizeFrames current))
    (counterDelta (ed_Fragments start) (ed_Fragments current))
    (counterDelta (ed_Jabbers start) (ed_Jabbers current))
    (counterDelta (ed_OversizeFrames start) (ed_OversizeFrames current))
    (zip_with counterDelta (ed_SizeBuckets start) (ed_SizeBuckets current)).

Definition deltaEthernetCounters (start current : EthernetCounters) : EthernetCounters :=
  mkEthernetCounters
    (deltaEthernetDirection (eth_Received start) (eth_Received current))
    (deltaEthernetDirection (eth_Transmitted start) (eth_Transmitted current)).

Definition sameXGSPONCounterSession (a b : XGSPONCounters) : bool :=
  (xgs_KernelInstanceGeneration a =? xgs_KernelInstanceGeneration b) &&
  (xgs_KernelSessionGeneration a =? xgs_KernelSessionGeneration b) &&
  (xgs_DispatcherGeneration a =? xgs_DispatcherGeneration b).

Definition deltaXGSPONTC (start current : XGSPONTCCounters) : XGSPONTCCounters :=
  mkXGSPONTCCounters
    (counterDelta (tc_PSBdHECErrors start) (tc_PSBdHECErrors current))
    (counterDelta (tc_XGTCHECErrors start) (tc_XGTCHECErrors current))
    (counterDelta (tc_UnknownProfiles start) (tc_UnknownProfiles current))
    (counterDelta (tc_TransmittedXGEMFrames start) (tc_TransmittedXGEMFrames current))
    (counterDelta (tc_FragmentXGEMFrames start) (tc_FragmentXGEMFrames current))
    (counterDelta (tc_XGEMHECLostWords start) (tc_XGEMHECLostWords current))
    (counterDelta (tc_XGEMKeyErrors start) (tc_XGEMKeyErrors current))
    (counterDelta (tc_XGEMHECErrors start) (tc_XGEMHECErrors current))
    (counterDelta (tc_TransmittedNonIdleBytes start) (tc_TransmittedNonIdleBytes current))
    (counterDelta (tc_ReceivedNonIdleBytes start) (tc_ReceivedNonIdleBytes current))
    (counterDelta (tc_LODSEvents start) (tc_LODSEvents current))
    (counterDelta (tc_LODSRestored start) (tc_LODSRestored current))
    (counterDelta (tc_ONUReactivationsByLODS start) (tc_ONUReactivationsByLODS current)).

Definition deltaXGSPONDownstream (start current : XGSPONDownstreamManagementCounters) : XGSPONDownstreamManagementCounters :=
  mkXGSPONDownstreamManagementCounters
    (counterDelta (ds_PLOAMMICErrors start) (ds_PLOAMMICErrors current))
    (counterDelta (ds_PLOAMMessages start) (ds_PLOAMMessages current))
    (counterDelta (ds_ProfileMessages start) (ds_ProfileMessages current))
    (counterDelta (ds_RangingTimeMessages start) (ds_RangingTimeMessages current))
    (counterDelta (ds_DeactivateONUIDMessages start) (ds_DeactivateONUIDMessages current))
    (counterDelta (ds_DisableSerialNumberMessages start) (ds_DisableSerialNumberMessages current))
    (counterDelta (ds_RequestRegistrationMessages start) (ds_RequestRegistrationMessages current))
    (counterDelta (ds_AssignAllocIDMessages start) (ds_AssignAllocIDMessages current))
    (counterDelta (ds_KeyControlMessages start) (ds_KeyControlMessages current))
    (counterDelta (ds_SleepAllowMessages start) (ds_SleepAllowMessages current))
    (counterDelta (ds_BaselineOMCIMessages start) (ds_BaselineOMCIMessages current))
    (counterDelta (ds_ExtendedOMCIMessages start) (ds_ExtendedOMCIMessages current))
    (counterDelta (ds_AssignONUIDMessages start) (ds_AssignONUIDMessages current))
    (counterDelta (ds_OMCIMICErrors start) (ds_OMCIMICErrors current)).

Definition deltaXGSPONUpstream (start current : XGSPONUpstreamManagementCounters) : XGSPONUpstreamManagementCounters :=
  mkXGSPONUpstreamManagementCounters
    (counterDelta (us_PLOAMMessages start) (us_PLOAMMessages current))
    (counterDelta (us_SerialNumberMessages start) (us_SerialNumberMessages current))
    (counterDelta (us_RegistrationMessages start) (us_RegistrationMessages current))
    (counterDelta (us_KeyReportMessages start) (us_KeyReportMessages current))
    (counterDelta (us_AcknowledgeMessages start) (us_AcknowledgeMessages current))
    (counterDelta (us_SleepRequestMessages start) (us_SleepRequestMessages current)).

Definition deltaXGSPONCounters (start current : XGSPONCounters) : XGSPONCounters :=
  if negb (sameXGSPONCounterSession start current) then current
  else
    mkXGSPONCounters (xgs_KernelInstanceGeneration current) (xgs_KernelSessionGeneration current)
      (xgs_DispatcherGeneration current) (xgs_Sequence current)
      (deltaXGSPONTC (xgs_TC start) (xgs_TC current))
      (deltaXGSPONDownstream (xgs_Downstream start) (xgs_Downstream current))
      (deltaXGSPONUpstream (xgs_Upstream start) (xgs_Upstream current)).

(** ** The attributes of a history *)

Definition gemPerformanceAttributes (intervalEnd : Z) (counters : GEMPortCounters) : AttributeValueMap :=
  list_to_map
    [(GemPortNetworkCtpPerformanceMonitoringHistoryData_IntervalEndTime, VU8 intervalEnd);
     (GemPortNetworkCtpPerformanceMonitoringHistoryData_TransmittedGemFrames, VU32 (saturatingUint32 (gem_TransmittedGEMFrames counters)));
     (GemPortNetworkCtpPerformanceMonitoringHistoryData_ReceivedGemFrames, VU32 (saturatingUint32 (gem_ReceivedGEMFrames counters)));
     (GemPortNetworkCtpPerformanceMonitoringHistoryData_ReceivedPayloadBytes, VU64 (gem_ReceivedPayloadBytes counters));
     (GemPortNetworkCtpPerformanceMonitoringHistoryData_TransmittedPayloadBytes, VU64 (gem_TransmittedPayloadBytes counters))].

Definition zeroGEMPerformanceAttributes (intervalEnd : Z) : AttributeValueMap :=
  gemPerformanceAttributes intervalEnd noGEMPortCounters.

Definition fecPerformanceAttributes (intervalEnd : Z) (counters : FECCounters) : AttributeValueMap :=
  list_to_map
    [(FecPerformanceMonitoringHistoryData_IntervalEndTime, VU8 intervalEnd);
     (FecPerformanceMonitoringHistoryData_CorrectedBytes, VU32 (saturatingUint32 (fec_CorrectedBytes counters)));
     (FecPerformanceMonitoringHistoryData_CorrectedCodeWords, VU32 (saturatingUint32 (fec_CorrectedCodeWords counters)));
     (FecPerformanceMonitoringHistoryData_UncorrectableCodeWords, VU32 (saturatingUint32 (fec_UncorrectableCodeWords counters)));
     (FecPerformanceMonitoringHistoryData_TotalCodeWords, VU32 (saturatingUint32 (fec_TotalCodeWords counters)));
     (FecPerformanceMonitoringHistoryData_FecSeconds, VU16 (saturatingUint16 (fec_FECSeconds counters)))].

Definition xgTcAttributes (intervalEnd : Z) (value : XGSPONTCCounters) : AttributeValueMap :=
  list_to_map
    [(XgPonTcPerformanceMonitoringHistoryData_IntervalEndTime, VU8 intervalEnd);
     (XgPonTcPerformanceMonitoringHistoryData_PsbdHecErrorCount, VU32 (saturatingUint32 (tc_PSBdHECErrors value)));
     (XgPonTcPerformanceMonitoringHistoryData_XgtcHecErrorCount, VU32 (saturatingUint32 (tc_XGTCHECErrors value)));
     (XgPonTcPerformanceMonitoringHistoryData_UnknownProfileCount, VU32 (saturatingUint32 (tc_UnknownProfiles value)));
     (XgPonTcPerformanceMonitoringHistoryData_TransmittedXgPonEncapsulationMethodXgemFrames, VU32 (saturatingUint32 (tc_TransmittedXGEMFrames value)));
     (XgPonTcPerformanceMonitoringHistoryData_FragmentXgemFrames, VU32 (saturatingUint32 (tc_FragmentXGEMFrames value)));
     (XgPonTcPerformanceMonitoringHistoryData_XgemHecLostWordsCount, VU32 (saturatingUint32 (tc_XGEMHECLostWords value)));
     (XgPonTcPerformanceMonitoringHistoryData_XgemKeyErrors, VU32 (saturatingUint32 (tc_XGEMKeyErrors value)));
     (XgPonTcPerformanceMonitoringHistoryData_XgemHecErrorCount, VU32 (saturatingUint32 (tc_XGEMHECErrors value)));
     (XgPonTcPerformanceMonitoringHistoryData_TransmittedBytesInNonIdleXgemFrames, VU64 (tc_TransmittedNonIdleBytes value));
     (XgPonTcPerformanceMonitoringHistoryData_ReceivedBytesInNonIdleXgemFrames, VU64 (tc_ReceivedNonIdleBytes value));
     (XgPonTcPerformanceMonitoringHistoryData_LossOfDownstreamSynchronizationLodsEventCount, VU32 (saturatingUint32 (tc_LODSEvents value)));
     (XgPonTcPerformanceMonitoringHistoryData_LodsEventRestoredCount, VU32 (saturatingUint32 (tc_LODSRestored value)));
     (XgPonTcPerformanceMonitoringHistoryData_OnuReactivationByLodsEvents, VU32 (saturatingUint32 (tc_ONUReactivationsByLODS value)))].

Definition xgDownstreamAttributes (intervalEnd : Z) (value : XGSPONDownstreamManagementCounters) : AttributeValueMap :=
  list_to_map
    [(XgPonDownstreamManagementPerformanceMonitoringHistoryData_IntervalEndTime, VU8 intervalEnd);
     (XgPonDownstreamManagementPerformanceMonitoringHistoryData_PloamMessageIntegrityCheckMicErrorCount, VU32 (saturatingUint32 (ds_PLOAMMICErrors value)));
     (XgPonDownstreamManagementPerformanceMonitoringHistoryData_DownstreamPloamMessagesCount, VU32 (saturatingUint32 (ds_PLOAMMessages value)));
     (XgPonDownstreamManagementPerformanceMonitoringHistoryData_ProfileMessagesReceived, VU32 (saturatingUint32 (ds_ProfileMessages value)));
     (XgPonDownstreamManagementPerformanceMonitoringHistoryData_RangingTimeMessagesReceived, VU32 (saturatingUint32 (ds_RangingTimeMessages value)));
     (XgPonDownstreamManagementPerformanceMonitoringHistoryData_DeactivateOnuIdMessagesReceived, VU32 (saturatingUint32 (ds_DeactivateONUIDMessages value)));
     (XgPonDownstreamManagementPerformanceMonitoringHistoryData_DisableSerialNumberMessagesReceived, VU32 (saturatingUint32 (ds_DisableSerialNumberMessages value)));
     (XgPonDownstreamManagementPerformanceMonitoringHistoryData_RequestRegistrationMessagesReceived, VU32 (saturatingUint32 (ds_RequestRegistrationMessages value)));
     (XgPonDownstreamManagementPerformanceMonitoringHistoryData_AssignAllocIdMessagesReceived, VU32 (saturatingUint32 (ds_AssignAllocIDMessages value)));
     (XgPonDownstreamManagementPerformanceMonitoringHistoryData_KeyControlMessagesReceived, VU32 (saturatingUint32 (ds_KeyControlMessages value)));
     (XgPonDownstreamManagementPerformanceMonitoringHistoryData_SleepAllowMessagesReceived, VU32 (saturatingUint32 (ds_SleepAllowMessages value)));
     (XgPonDownstreamManagementPerformanceMonitoringHistoryData_BaselineOmciMessagesReceivedCount, VU32 (saturatingUint32 (ds_BaselineOMCIMessages value)));
     (XgPonDownstreamManagementPerformanceMonitoringHistoryData_ExtendedOmciMessagesReceivedCount, VU32 (saturatingUint32 (ds_ExtendedOMCIMessages value)));
     (XgPonDownstreamManagementPerformanceMonitoringHistoryData_AssignOnuIdMessagesReceived, VU32 (saturatingUint32 (ds_AssignONUIDMessages value)));
     (XgPonDownstreamManagementPerformanceMonitoringHistoryData_OmciMicErrorCount, VU32 (saturatingUint32 (ds_OMCIMICErrors value)))].

Definition xgUpstreamAttributes (intervalEnd : Z) (value : XGSPONUpstreamManagementCounters) : AttributeValueMap :=
  list_to_map
    [(XgPonUpstreamManagementPerformanceMonitoringHistoryData_IntervalEndTime, VU8 intervalEnd);
     (XgPonUpstreamManagementPerformanceMonitoringHistoryData_UpstreamPloamMessageCount, VU32 (saturatingUint32 (us_PLOAMMessages value)));
     (XgPonUpstreamManagementPerformanceMonitoringHistoryData_SerialNumberOnuMessageCount, VU32 (saturatingUint32 (us_SerialNumberMessages value)));
     (XgPonUpstreamManagementPerformanceMonitoringHistoryData_RegistrationMessageCount, VU32 (saturatingUint32 (us_RegistrationMessages value)));
     (XgPonUpstreamManagementPerformanceMonitoringHistoryData_KeyReportMessageCount, VU32 (saturatingUint32 (us_KeyReportMessages value)));
     (XgPonUpstreamManagementPerformanceMonitoringHistoryData_AcknowledgeMessageCount, VU32 (saturatingUint32 (us_AcknowledgeMessages value)));
     (XgPonUpstreamManagementPerformanceMonitoringHistoryData_SleepRequestMessageCount, VU32 (saturatingUint32 (us_SleepRequestMessages value)))].

Definition xgsPerformanceAttributes (classID intervalEnd : Z) (counters : XGSPONCounters) : AttributeValueMap :=
  if classID =? XgPonTcPerformanceMonitoringHistoryDataClassID then
    xgTcAttributes intervalEnd (xgs_TC counters)
  else if classID =? XgPonDownstreamManagementPerformanceMonitoringHistoryDataClassID then
    xgDownstreamAttributes intervalEnd (xgs_Downstream counters)
  else if classID =? XgPonUpstreamManagementPerformanceMonitoringHistoryDataClassID then
    xgUpstreamAttributes intervalEnd (xgs_Upstream counters)
  else ∅.

Definition ethernetHistoryAttributes (intervalEnd : Z) (rx tx : EthernetDirectionCounters)
    : AttributeValueMap :=
  list_to_map
    [(EthernetPerformanceMonitoringHistoryData_IntervalEndTime, VU8 intervalEnd);
     (EthernetPerformanceMonitoringHistoryData_FcsErrors, VU32 (saturatingUint32 (ed_CRCErrors rx)));
     (EthernetPerformanceMonitoringHistoryData_ExcessiveCollisionCounter, VU32 0);
     (EthernetPerformanceMonitoringHistoryData_LateCollisionCounter, VU32 0);
     (EthernetPerformanceMonitoringHistoryData_FramesTooLong, VU32 (saturatingUint32 (ed_OversizeFrames rx)));
     (EthernetPerformanceMonitoringHistoryData_BufferOverflowsOnReceive, VU32 (saturatingUint32 (ed_BufferOverflows rx)));
     (EthernetPerformanceMonitoringHistoryData_BufferOverflowsOnTransmit, VU32 (saturatingUint32 (ed_BufferOverflows tx)));
     (EthernetPerformanceMonitoringHistoryData_SingleCollisionFrameCounter, VU32 0);
     (EthernetPerformanceMonitoringHistoryData_MultipleCollisionsFrameCounter, VU32 0);
     (EthernetPerformanceMonitoringHistoryData_SqeCounter, VU32 0);
     (EthernetPerformanceMonitoringHistoryData_DeferredTransmissionCounter, VU32 0);
     (EthernetPerformanceMonitoringHistoryData_InternalMacTransmitErrorCounter, VU32 (saturatingUint32 (ed_InternalErrors tx)));
     (EthernetPerformanceMonitoringHistoryData_CarrierSenseErrorCounter, VU32 0);
     (EthernetPerformanceMonitoringHistoryData_AlignmentErrorCounter, VU32 0);
     (EthernetPerformanceMonitoringHistoryData_InternalMacReceiveErrorCounter, VU32 (saturatingUint32 (ed_InternalErrors rx)))].

Definition ethernetHistory3Attributes (intervalEnd : Z) (rx : EthernetDirectionCounters)
    : AttributeValueMap :=
  list_to_map
    [(EthernetPerformanceMonitoringHistoryData3_IntervalEndTime, VU8 intervalEnd);
     (EthernetPerformanceMonitoringHistoryData3_DropEvents, VU32 (saturatingUint32 (ed_DropEvents rx)));
     (EthernetPerformanceMonitoringHistoryData3_Octets, VU32 (saturatingUint32 (ed_Octets rx)));
     (EthernetPerformanceMonitoringHistoryData3_Packets, VU32 (saturatingUint32 (ed_Frames rx)));
     (EthernetPerformanceMonitoringHistoryData3_BroadcastPackets, VU32 (saturatingUint32 (ed_BroadcastFrames rx)));
     (EthernetPerformanceMonitoringHistoryData3_MulticastPackets, VU32 (saturatingUint32 (ed_MulticastFrames rx)));
     (EthernetPerformanceMonitoringHistoryData3_UndersizePackets, VU32 (saturatingUint32 (ed_UndersizeFrames rx)));
     (EthernetPerformanceMonitoringHistoryData3_Fragments, VU32 (saturatingUint32 (ed_Fragments rx)));
     (EthernetPerformanceMonitoringHistoryData3_Jabbers, VU32 (saturatingUint32 (ed_Jabbers rx)));
     (EthernetPerformanceMonitoringHistoryData3_Packets64Octets, VU32 (saturatingUint32 (nth 0 (ed_SizeBuckets rx) 0)));
     (EthernetPerformanceMonitoringHistoryData3_Packets65To127Octets, VU32 (saturatingUint32 (nth 1 (ed_SizeBuckets rx) 0)));
     (EthernetPerformanceMonitoringHistoryData3_Packets128To255Octets, VU32 (saturatingUint32 (nth 2 (ed_SizeBuckets rx) 0)));
     (EthernetPerformanceMonitoringHistoryData3_Packets256To511Octets, VU32 (saturatingUint32 (nth 3 (ed_SizeBuckets rx) 0)));
     (EthernetPerformanceMonitoringHistoryData3_Packets512To1023Octets, VU32 (saturatingUint32 (nth 4 (ed_SizeBuckets rx) 0)));
     (EthernetPerformanceMonitoringHistoryData3_Packets1024To1518Octets, VU32 (saturatingUint32 (nth 5 (ed_SizeBuckets rx) 0)))].

Definition ethernetFrameDownstreamAttributes (intervalEnd : Z) (counters : EthernetDirectionCounters)
    : AttributeValueMap :=
  list_to_map
    [(EthernetFramePerformanceMonitoringHistoryDataDownstream_IntervalEndTime, VU8 intervalEnd);
     (EthernetFramePerformanceMonitoringHistoryDataDownstream_DropEvents, VU32 (saturatingUint32 (ed_DropEvents counters)));
     (EthernetFramePerformanceMonitoringHistoryDataDownstream_Octets, VU32 (saturatingUint32 (ed_Octets counters)));
     (EthernetFramePerformanceMonitoringHistoryDataDownstream_Packets, VU32 (saturatingUint32 (ed_Frames counters)));
     (EthernetFramePerformanceMonitoringHistoryDataDownstream_BroadcastPackets, VU32 (saturatingUint32 (ed_BroadcastFrames counters)));
     (EthernetFramePerformanceMonitoringHistoryDataDownstream_MulticastPackets, VU32 (saturatingUint32 (ed_MulticastFrames counters)));
     (EthernetFramePerformanceMonitoringHistoryDataDownstream_CrcErroredPackets, VU32 (saturatingUint32 (ed_CRCErrors counters)));
     (EthernetFramePerformanceMonitoringHistoryDataDownstream_UndersizePackets, VU32 (saturatingUint32 (ed_UndersizeFrames counters)));
     (EthernetFramePerformanceMonitoringHistoryDataDownstream_OversizePackets, VU32 (saturatingUint32 (ed_OversizeFrames counters)));
     (EthernetFramePerformanceMonitoringHistoryDataDownstream_Packets64Octets, VU32 (saturatingUint32 (nth 0 (ed_SizeBuckets counters) 0)));
     (EthernetFramePerformanceMonitoringHistoryDataDownstream_Packets65To127Octets, VU32 (saturatingUint32 (nth 1 (ed_SizeBuckets counters) 0)));
     (EthernetFramePerformanceMonitoringHistoryDataDownstream_Packets128To255Octets, VU32 (saturatingUint32 (nth 2 (ed_SizeBuckets counters) 0)));
     (EthernetFramePerformanceMonitoringHistoryDataDownstream_Packets256To511Octets, VU32 (saturatingUint32 (nth 3 (ed_SizeBuckets counters) 0)));
     (EthernetFramePerformanceMonitoringHistoryDataDownstream_Packets512To1023Octets, VU32 (saturatingUint32 (nth 4 (ed_SizeBuckets counters) 0)));
     (EthernetFramePerformanceMonitoringHistoryDataDownstream_Packets1024To1518Octets, VU32 (saturatingUint32 (nth 5 (ed_SizeBuckets counters) 0)))].

Definition ethernetFrameUpstreamAttributes (intervalEnd : Z) (counters : EthernetDirectionCounters)
    : AttributeValueMap :=
  list_to_map
    [(EthernetFramePerformanceMonitoringHistoryDataUpstream_IntervalEndTime, VU8 intervalEnd);
     (EthernetFramePerformanceMonitoringHistoryDataUpstream_DropEvents, VU32 (saturatingUint32 (ed_DropEvents counters)));
     (EthernetFramePerformanceMonitoringHistoryDataUpstream_Octets, VU32 (saturatingUint32 (ed_Octets counters)));
     (EthernetFramePerformanceMonitoringHistoryDataUpstream_Packets, VU32 (saturatingUint32 (ed_Frames counters)));
     (EthernetFramePerformanceMonitoringHistoryDataUpstream_BroadcastPackets, VU32 (saturatingUint32 (ed_BroadcastFrames counters)));
     (EthernetFramePerformanceMonitoringHistoryDataUpstream_MulticastPackets, VU32 (saturatingUint32 (ed_MulticastFrames counters)));
     (EthernetFramePerformanceMonitoringHistoryDataUpstream_CrcErroredPackets, VU32 (saturatingUint32 (ed_CRCErrors counters)));
     (EthernetFramePerformanceMonitoringHistoryDataUpstream_UndersizePackets, VU32 (saturatingUint32 (ed_UndersizeFrames counters)));
     (EthernetFramePerformanceMonitoringHistoryDataUpstream_OversizePackets, VU32 (saturatingUint32 (ed_OversizeFrames counters)));
     (EthernetFramePerformanceMonitoringHistoryDataUpstream_Packets64Octets, VU32 (saturatingUint32 (nth 0 (ed_SizeBuckets counters) 0)));
     (EthernetFramePerformanceMonitoringHistoryDataUpstream_Packets65To127Octets, VU32 (saturatingUint32 (nth 1 (ed_SizeBuckets counters) 0)));
     (EthernetFramePerformanceMonitoringHistoryDataUpstream_Packets128To255Octets, VU32 (saturatingUint32 (nth 2 (ed_SizeBuckets counters) 0)));
     (EthernetFramePerformanceMonitoringHistoryDataUpstream_Packets256To511Octets, VU32 (saturatingUint32 (nth 3 (ed_SizeBuckets counters) 0)));
     (EthernetFramePerformanceMonitoringHistoryDataUpstream_Packets512To1023Octets, VU32 (saturatingUint32 (nth 4 (ed_SizeBuckets counters) 0)));
     (EthernetFramePerformanceMonitoringHistoryDataUpstream_Packets1024To1518Octets, VU32 (saturatingUint32 (nth 5 (ed_SizeBuckets counters) 0)))].

Definition ethernetPerformanceAttributes (classID intervalEnd : Z) (counters : EthernetCounters)
    : AttributeValueMap :=
  if classID =? EthernetPerformanceMonitoringHistoryDataClassID then
    ethernetHistoryAttributes intervalEnd (eth_Received counters) (eth_Transmitted counters)
  else if classID =? EthernetPerformanceMonitoringHistoryData3ClassID then
    ethernetHistory3Attributes intervalEnd (eth_Received counters)
  else if classID =? EthernetFramePerformanceMonitoringHistoryDataDownstreamClassID then
    ethernetFrameDownstreamAttributes intervalEnd (eth_Transmitted counters)
  else if classID =? EthernetFramePerformanceMonitoringHistoryDataUpstreamClassID then
    ethernetFrameUpstreamAttributes intervalEnd (eth_Received counters)
  else ∅.
