(* ===== verification/Optics.v ===== *)
(** * Optical diagnostics

    src/internal/optical/diagnostics.go: the EN7572 sample and its conversion to the values of
    the optical line supervision test and of ANI-G.  [math.Log10] is computed in decimal fixed
    point, to twelve decimals; on the sixteen-bit arguments of this file the rounded results
    are those of the floating-point code. *)

From S2P Require Import Prelude.

Record Sample := mkSample {
  sm_Temperature : Z;
  sm_SupplyVoltage : Z;
  sm_LaserBiasCurrent : Z;
  sm_TransmitPower : Z;
  sm_ReceivePower : Z
}.

Record Diagnostics := mkDiagnostics {
  dg_PowerFeedVoltage : Z;
  dg_ReceivedOpticalPower : Z;
  dg_MeanOpticalLaunch : Z;
  dg_LaserBiasCurrent : Z;
  dg_Temperature : Z
}.

Record ANILevels := mkLevels {
  lv_OpticalSignalLevel : Z;
  lv_TransmitOpticalLevel : Z;
  lv_ReceiveDBm : Z;
  lv_TransmitDBm : Z
}.

(** ** Logarithms *)

Definition logScale : Z := 10 ^ 12.
Definition mantissa : Z := 10 ^ 30.

(** The number of times [x] can be divided by ten, at most [fuel]. *)
Fixpoint decades (fuel : nat) (x : Z) : Z :=
  match fuel with
  | O => 0
  | S fuel => if x <? 10 then 0 else 1 + decades fuel (x / 10)
  end.

(** The next [n] decimals of the logarithm of [x / mantissa]. *)
Fixpoint logDecimals (n : nat) (x acc : Z) : Z :=
  match n with
  | O => acc
  | S n =>
      let y := x ^ 10 / mantissa ^ 9 in
      let digit := decades 10 (y / mantissa) in
      logDecimals n (y / 10 ^ digit) (10 * acc + digit)
  end.

(** [math.Log10] of a positive integer, in units of [1 / logScale]. *)
Definition Log10 (raw : Z) : Z :=
  let exponent := decades 5 raw in
  exponent * logScale + logDecimals 12 (raw * mantissa / 10 ^ exponent) 0.

(** [math.Round] of a value in units of [1 / logScale]: halves away from zero. *)
Definition Round (value : Z) : Z := Z.sgn value * ((2 * Z.abs value + logScale) / (2 * logScale)).

(** ** Conversions *)

Definition signed16 (value : Z) : Z :=
  u16 (if value <? -32768 then -32768 else if 32767 <? value then 32767 else value).

Definition opticalPower (raw : Z) : Z :=
  if raw =? 0 then 0x8000 else signed16 (Round (5000 * (Log10 raw - logScale))).

Definition opticalPowerDBm (raw : Z) : Z :=
  if raw =? 0 then -2147483648 else Round (5000 * (Log10 raw - 4 * logScale)).

(** [Sample.OMCI]. *)
Definition OMCI_ (sample : Sample) : Diagnostics :=
  mkDiagnostics (u16 (u32 (sm_SupplyVoltage sample + 100) / 200)) (opticalPower (sm_ReceivePower sample))
    (opticalPower (sm_TransmitPower sample)) (sm_LaserBiasCurrent sample) (sm_Temperature sample).

(** [Sample.ANI]. *)
Definition ANI (sample : Sample) : ANILevels :=
  let receive := opticalPowerDBm (sm_ReceivePower sample) in
  let transmit := opticalPowerDBm (sm_TransmitPower sample) in
  mkLevels (signed16 receive) (signed16 transmit) receive transmit.
