(* ===== verification/Netip.v ===== *)
(** * IP addresses

    What the source uses of Go's [net/netip]: an address is none, an IPv4 or an IPv6 address;
    an IPv6 address may have a zone. *)

From S2P Require Import Prelude Maps.

Inductive Addr :=
| NoAddr
| V4 (value : Z)
| V6 (value : Z) (zone : string).

#[export] Instance Addr_eq_dec : EqDecision Addr.
Proof. solve_decision. Defined.
#[export] Instance Addr_countable : Countable Addr.
Proof.
  refine (inj_countable'
    (λ a, match a with NoAddr => inl () | V4 v => inr (inl v) | V6 v z => inr (inr (v, z)) end)
    (λ x, match x with inl _ => NoAddr | inr (inl v) => V4 v | inr (inr (v, z)) => V6 v z end) _).
  by intros [].
Defined.

Definition IsValid (a : Addr) : bool := match a with NoAddr => false | _ => true end.
Definition Is4 (a : Addr) : bool := match a with V4 _ => true | _ => false end.
Definition Is6 (a : Addr) : bool := match a with V6 _ _ => true | _ => false end.

(** An IPv4 address mapped into IPv6: ::ffff:a.b.c.d. *)
Definition Is4In6 (a : Addr) : bool :=
  match a with V6 value _ => Z.shiftr value 32 =? 0xffff | _ => false end.

Definition BitLen (a : Addr) : Z := match a with NoAddr => 0 | V4 _ => 32 | V6 _ _ => 128 end.

Definition isMulticast4 (value : Z) : bool := Z.land (Z.shiftr value 24) 0xf0 =? 0xe0.

(** A mapped address is judged by its IPv4 part. *)
Definition IsMulticast (a : Addr) : bool :=
  match a with
  | NoAddr => false
  | V4 value => isMulticast4 value
  | V6 value _ => if Is4In6 a then isMulticast4 (u32 value) else Z.shiftr value 120 =? 0xff
  end.

(** [IsUnspecified]: 0.0.0.0, or :: without a zone. *)
Definition IsUnspecified (a : Addr) : bool :=
  match a with
  | NoAddr => false
  | V4 value => value =? 0
  | V6 value zone => (value =? 0) && bool_decide (zone = "")
  end.

Definition addrValue (a : Addr) : Z := match a with NoAddr => 0 | V4 v => v | V6 v _ => v end.
Definition addrZone (a : Addr) : string := match a with V6 _ zone => zone | _ => "" end.

(** [Compare]: by length, then by value, then by zone. *)
Definition Compare (a b : Addr) : comparison :=
  match Z.compare (BitLen a) (BitLen b) with
  | Eq => match Z.compare (addrValue a) (addrValue b) with
          | Eq => String.compare (addrZone a) (addrZone b)
          | c => c
          end
  | c => c
  end.

(** [As4] of an IPv4 address and [As16] of an IPv6 address, as octets. *)
Definition As4 (a : Addr) : list Z := put_be 4 (addrValue a).
Definition As16 (a : Addr) : list Z := put_be 16 (addrValue a).

(** [AddrFrom4] and [AddrFrom16]. *)
Definition AddrFrom4 (octets : list Z) : Addr := V4 (be octets).
Definition AddrFrom16 (octets : list Z) : Addr := V6 (be octets) "".

(** ** The order *)

Lemma string_compare_refl s : String.compare s s = Eq.
Proof.
  pose proof (String.compare_antisym s s) as H. by destruct (String.compare s s).
Qed.

Lemma Compare_refl a : Compare a a = Eq.
Proof. unfold Compare. by rewrite !Z.compare_refl, string_compare_refl. Qed.

Lemma Compare_eq a b : Compare a b = Eq → a = b.
Proof.
  unfold Compare. destruct (Z.compare_spec (BitLen a) (BitLen b)) as [Hb| |]; try done.
  destruct (Z.compare_spec (addrValue a) (addrValue b)) as [Hv| |]; try done.
  intros Hz%String.compare_eq_iff. by destruct a, b; cbn in *; subst.
Qed.

Lemma Compare_antisym a b : Compare b a = CompOpp (Compare a b).
Proof.
  unfold Compare. rewrite (Z.compare_antisym (BitLen a) (BitLen b)).
  destruct (Z.compare (BitLen a) (BitLen b)); try done. cbn [CompOpp].
  rewrite (Z.compare_antisym (addrValue a) (addrValue b)).
  destruct (Z.compare (addrValue a) (addrValue b)); try done. cbn [CompOpp]. apply String.compare_antisym.
Qed.
