(* ===== verification/McPolicy.v ===== *)
(** * Multicast: the authorization policy

    src/internal/multicast/policy.go: the configuration of multicast profiles and subscribers,
    its compilation, and the policy engine that admits, keeps and expires group memberships.
    Times are in nanoseconds, [None] is Go's zero time, and one call reads the clock once. *)

From S2P Require Import Prelude Maps Netip.

(** ** Configuration *)

(** [VLAN]: whether a frame is tagged, and its VLAN identifier. *)
Abbreviation VLAN := (bool * Z)%type.

Record ACLEntry := mkACLEntry {
  ac_RowKey : Z;
  ac_IPVersion : Z;
  ac_GEMPortID : Z;
  ac_VLANID : Z;
  ac_Source : Addr;
  ac_Start : Addr;
  ac_Stop : Addr;
  ac_ImputedBandwidth : Z;
  ac_PreviewLength : Z;
  ac_PreviewRepeatTime : Z;
  ac_PreviewRepeatCount : Z;
  ac_PreviewResetTime : Z
}.

Record Profile := mkProfile {
  pr_EntityID : Z;
  pr_IGMPVersion : Z;
  pr_IGMPFunction : Z;
  pr_ImmediateLeave : bool;
  pr_UpstreamTCI : Z;
  pr_UpstreamTagControl : Z;
  pr_UpstreamRate : Z;
  pr_Robustness : Z;
  pr_QuerierIPAddress : Z;
  pr_QueryInterval : Z;
  pr_QueryMaxResponseTime : Z;
  pr_LastMemberQueryInterval : Z;
  pr_UnauthorizedJoinBehaviour : bool;
  pr_DownstreamTagControl : Z;
  pr_DownstreamTCI : Z;
  pr_DynamicACL : list ACLEntry;
  pr_StaticACL : list ACLEntry
}.
Definition noProfile : Profile := mkProfile 0 0 0 false 0 0 0 0 0 0 0 0 false 0 0 [] [].

Record ServicePackage := mkServicePackage {
  sp_RowKey : Z;
  sp_VLANID : Z;
  sp_MaxSimultaneousGroups : Z;
  sp_MaxMulticastBandwidth : Z;
  sp_OperationsProfile : Z
}.

Record AllowedPreview := mkAllowedPreview {
  ap_RowKey : Z;
  ap_Source : Addr;
  ap_Destination : Addr;
  ap_ANIVLAN : Z;
  ap_UNIVLAN : Z;
  ap_Duration : Z;
  ap_TimeLeft : Z
}.
#[export] Instance AllowedPreview_eq_dec : EqDecision AllowedPreview.
Proof. solve_decision. Defined.

Record UpstreamMapper := mkUpstreamMapper {
  um_GEMPortIDs : list Z;
  um_UnmarkedFrameOption : Z;
  um_DefaultPBit : Z;
  um_DSCPToPBit : list Z
}.

Record Attachment := mkAttachment {
  at_Interface : string;
  at_BridgeEntity : Z;
  at_BridgePortEntity : Z;
  at_DirectMapper : option UpstreamMapper
}.

Record Subscriber := mkSubscriber {
  su_EntityID : Z;
  su_Attachments : list Attachment;
  su_Profile : Z;
  su_MaxSimultaneousGroups : Z;
  su_MaxMulticastBandwidth : Z;
  su_BandwidthEnforcement : bool;
  su_ServicePackages : list ServicePackage;
  su_AllowedPreviews : list AllowedPreview
}.

Record Config := mkConfig { cf_Profiles : list Profile; cf_Subscribers : list Subscriber }.

(** ** Requests and answers *)

Record Join := mkJoin {
  jn_SubscriberID : Z;
  jn_Interface : string;
  jn_UNIVLAN : VLAN;
  jn_Source : Addr;
  jn_Group : Addr;
  jn_Client : Addr
}.

Inductive Reason :=
| NoReason
| ReasonAuthorized
| ReasonAllowedPreview
| ReasonPreview
| ReasonUnauthorized
| ReasonGroupLimit
| ReasonBandwidthExceeded
| ReasonPreviewExhausted
| ReasonPreviewInterval
| ReasonUnknownSubscriber.
#[export] Instance Reason_eq_dec : EqDecision Reason.
Proof. solve_decision. Defined.

Record Decision_ := mkDecision {
  de_Accepted : bool;
  de_ForwardUpstream : bool;
  de_Replicate : bool;
  de_Reason : Reason;
  de_ProfileID : Z;
  de_ACLRowKey : Z;
  de_GEMPortID : Z;
  de_ANIVLAN : Z;
  de_ImputedBandwidth : Z;
  de_BandwidthExceeded : bool;
  de_PreviewUntil : option Z
}.

Record ActiveGroup := mkActiveGroup {
  ag_Interface : string;
  ag_Source : Addr;
  ag_IncludedSources : list Addr;
  ag_ExcludedSources : list Addr;
  ag_Group : Addr;
  ag_Client : Addr;
  ag_UNIVLAN : VLAN;
  ag_ANIVLAN : Z;
  ag_ProfileID : Z;
  ag_ACLRowKey : Z;
  ag_GEMPortID : Z;
  ag_ImputedBandwidth : Z;
  ag_TimeSinceJoin : Z;
  ag_PreviewUntil : option Z
}.

Record Monitor := mkMonitor {
  mo_CurrentBandwidth : Z;
  mo_JoinMessages : Z;
  mo_BandwidthExceeded : Z;
  mo_Groups : list ActiveGroup
}.
Definition noMonitor : Monitor := mkMonitor 0 0 0 [].

Record AllowedPreviewTimer := mkPreviewTimer { tm_RowKey : Z; tm_Duration : Z; tm_TimeLeft : Z }.

Record AllowedPreviewSnapshot := mkPreviewSnapshot {
  ps_MIBDataSync : Z;
  ps_Timers : list AllowedPreviewTimer
}.

(** ** State *)

(** [activeKey]: interface, source, group, VLAN and client; [streamKey] leaves the client out. *)
Abbreviation streamKey := (string * Addr * Addr * VLAN)%type.
Abbreviation activeKey := (string * Addr * Addr * VLAN * Addr)%type.
(** [previewKey]: subscriber, profile, row, source and group. *)
Abbreviation previewKey := (Z * Z * Z * Addr * Addr)%type.

Record activeState := mkActive {
  as_group : ActiveGroup;
  as_joinedAt : Z;
  as_reason : Reason;
  as_package : option Z
}.

Record previewState := mkPreviewState {
  pv_count : Z;
  pv_nextAllowed : option Z;
  pv_lastReset : option Z
}.

Record subscriberState := mkSubscriberState {
  ss_groups : gmap activeKey activeState;
  ss_joinMessages : Z;
  ss_bandwidthExceeded : Z
}.
Definition noSubscriberState : subscriberState := mkSubscriberState ∅ 0 0.

(** [compiledSubscriber]: with the deadlines of its timed allowed previews. *)
Record compiledSubscriber := mkCompiled { co_subscriber : Subscriber; co_previewExpiry : gmap Z Z }.

(** The policy [Engine]. *)
Record Policy := mkPolicy {
  po_profiles : gmap Z Profile;
  po_subscribers : gmap Z compiledSubscriber;
  po_state : gmap Z subscriberState;
  po_previews : gmap previewKey previewState
}.

Definition second : Z := 1000000000.
Definition minutes (n : Z) : Z := n * 60 * second.
Definition day : Z := 86400 * second.

(** ** Compilation *)

Definition addressVersion (address : Addr) (version : Z) : bool :=
  IsValid address && (((version =? 4) && Is4 address) || ((version =? 6) && Is6 address && negb (Is4In6 address))).

Definition validServiceVLAN (vlan : Z) : bool := (vlan <=? 4097) || (vlan =? 0xffff).

(** [a.Compare(b) <= 0]. *)
Definition addrLe (a b : Addr) : bool := match Compare a b with Gt => false | _ => true end.

Definition validateACL (entry : ACLEntry) : bool :=
  negb ((1023 <? ac_RowKey entry) || (4095 <? ac_GEMPortID entry) ||
        ((ac_VLANID entry =? 4096) || (4097 <? ac_VLANID entry) && negb (ac_VLANID entry =? 0xffff))) &&
  ((ac_IPVersion entry =? 4) || (ac_IPVersion entry =? 6)) &&
  (addressVersion (ac_Start entry) (ac_IPVersion entry) && addressVersion (ac_Stop entry) (ac_IPVersion entry) &&
   IsMulticast (ac_Start entry) && IsMulticast (ac_Stop entry) && addrLe (ac_Start entry) (ac_Stop entry)) &&
  negb (IsValid (ac_Source entry) && negb (IsUnspecified (ac_Source entry)) &&
        negb (addressVersion (ac_Source entry) (ac_IPVersion entry))) &&
  negb ((24 <? ac_PreviewResetTime entry) && (ac_PreviewResetTime entry <? 241)).

Definition validateAllowedPreview (preview : AllowedPreview) : bool :=
  negb ((1023 <? ap_RowKey preview) || (4095 <? ap_ANIVLAN preview) || (4095 <? ap_UNIVLAN preview)) &&
  (IsValid (ap_Destination preview) && IsMulticast (ap_Destination preview)) &&
  negb (IsValid (ap_Source preview) && negb (IsUnspecified (ap_Source preview)) &&
        negb (BitLen (ap_Source preview) =? BitLen (ap_Destination preview))) &&
  negb (negb (ap_Duration preview =? 0) && (ap_Duration preview <? ap_TimeLeft preview)).

(** The body of the loop over the profiles: the checks, and the sorted tables. *)
Definition compileProfile (profiles : gmap Z Profile) (profile : Profile) : Res unit (gmap Z Profile) :=
  _ ← guard_err ((pr_EntityID profile =? 0) || (pr_EntityID profile =? 0xffff)) ();
  _ ← guard_err (negb (bool_decide (pr_IGMPVersion profile ∈ [1; 2; 3; 16; 17]))) ();
  _ ← guard_err ((2 <? pr_IGMPFunction profile) || (3 <? pr_UpstreamTagControl profile) ||
                 (7 <? pr_DownstreamTagControl profile)) ();
  _ ← guard_err (bool_decide (is_Some (profiles !! pr_EntityID profile))) ();
  _ ← guard_err (negb (forallb validateACL (pr_DynamicACL profile ++ pr_StaticACL profile))) ();
  let sorted := merge_sort (byKey ac_RowKey) in
  Ok (<[pr_EntityID profile :=
        mkProfile (pr_EntityID profile) (pr_IGMPVersion profile) (pr_IGMPFunction profile)
          (pr_ImmediateLeave profile) (pr_UpstreamTCI profile) (pr_UpstreamTagControl profile)
          (pr_UpstreamRate profile) (pr_Robustness profile) (pr_QuerierIPAddress profile)
          (pr_QueryInterval profile) (pr_QueryMaxResponseTime profile) (pr_LastMemberQueryInterval profile)
          (pr_UnauthorizedJoinBehaviour profile) (pr_DownstreamTagControl profile) (pr_DownstreamTCI profile)
          (sorted (pr_DynamicACL profile)) (sorted (pr_StaticACL profile))]> profiles).

(** The loop over the service packages: the row keys seen. *)
Definition checkPackage (profiles : gmap Z Profile) (seen : gset Z) (service : ServicePackage)
    : Res unit (gset Z) :=
  _ ← guard_err (bool_decide (sp_RowKey service ∈ seen)) ();
  _ ← guard_err (negb (validServiceVLAN (sp_VLANID service))) ();
  _ ← guard_err (negb (bool_decide (is_Some (profiles !! sp_OperationsProfile service)))) ();
  Ok ({[sp_RowKey service]} ∪ seen).

(** The loop over the allowed previews: the row keys seen, and the deadlines. *)
Definition compilePreview (now : Z) (acc : gset Z * gmap Z Z) (preview : AllowedPreview)
    : Res unit (gset Z * gmap Z Z) :=
  let '(seen, expiry) := acc in
  _ ← guard_err (bool_decide (ap_RowKey preview ∈ seen)) ();
  _ ← guard_err (negb (validateAllowedPreview preview)) ();
  Ok ({[ap_RowKey preview]} ∪ seen,
      if negb (ap_Duration preview =? 0) && negb (ap_TimeLeft preview =? 0)
      then <[ap_RowKey preview := now + minutes (ap_TimeLeft preview)]> expiry else expiry).

Definition compileSubscriber (profiles : gmap Z Profile) (now : Z)
    (subscribers : gmap Z compiledSubscriber) (subscriber : Subscriber) : Res unit (gmap Z compiledSubscriber) :=
  _ ← guard_err (bool_decide (is_Some (subscribers !! su_EntityID subscriber))) ();
  let services := merge_sort (byKey sp_RowKey) (su_ServicePackages subscriber) in
  _ ← foldM_res (checkPackage profiles) services ∅;
  _ ← guard_err (bool_decide (services = []) &&
                 negb (bool_decide (is_Some (profiles !! su_Profile subscriber)))) ();
  previews ← foldM_res (compilePreview now) (su_AllowedPreviews subscriber) (∅, ∅);
  Ok (<[su_EntityID subscriber :=
        mkCompiled
          (mkSubscriber (su_EntityID subscriber) (su_Attachments subscriber) (su_Profile subscriber)
             (su_MaxSimultaneousGroups subscriber) (su_MaxMulticastBandwidth subscriber)
             (su_BandwidthEnforcement subscriber) services (su_AllowedPreviews subscriber))
          previews.2]> subscribers).

Definition compile (config : Config) (now : Z) : Res unit (gmap Z Profile * gmap Z compiledSubscriber) :=
  profiles ← foldM_res compileProfile (cf_Profiles config) ∅;
  subscribers ← foldM_res (compileSubscriber profiles now) (cf_Subscribers config) ∅;
  Ok (profiles, subscribers).

(** [Validate]. *)
Definition validConfig (config : Config) (now : Z) : bool :=
  match compile config now with Ok _ => true | Err _ => false end.

(** [New]. *)
Definition NewPolicy (config : Config) (now : Z) : Res unit Policy :=
  compiled ← compile config now;
  Ok (mkPolicy compiled.1 compiled.2 ∅ ∅).

(** The rows of [oldRows]; a missing row is not equal to any accepted row, whose destination
    is valid. *)
Definition previewRows (previews : list AllowedPreview) : gmap Z AllowedPreview :=
  fold_left (λ rows preview, <[ap_RowKey preview := preview]> rows) previews ∅.

(** [preserveAllowedPreviewExpiries]. *)
Definition preserveExpiries (previous p : Policy) : Policy :=
  mkPolicy (po_profiles p)
    (map_imap (λ entityID current,
        match po_subscribers previous !! entityID with
        | None => Some current
        | Some old =>
            let rows := previewRows (su_AllowedPreviews (co_subscriber old)) in
            Some (mkCompiled (co_subscriber current)
              (fold_left (λ expiry preview,
                  if bool_decide (rows !! ap_RowKey preview = Some preview) then
                    match co_previewExpiry old !! ap_RowKey preview with
                    | Some deadline => <[ap_RowKey preview := deadline]> expiry
                    | None => expiry
                    end
                  else expiry) (su_AllowedPreviews (co_subscriber current)) (co_previewExpiry current)))
        end) (po_subscribers p))
    (po_state p) (po_previews p).

(** ** Matching *)

Definition validJoin (request : Join) : bool :=
  negb (negb (IsValid (jn_Group request)) || negb (IsMulticast (jn_Group request)) ||
        negb (IsValid (jn_Source request)) ||
        negb (BitLen (jn_Source request) =? BitLen (jn_Group request)) ||
        (4095 <? (jn_UNIVLAN request).2) ||
        (negb (jn_UNIVLAN request).1 && negb ((jn_UNIVLAN request).2 =? 0))) &&
  (negb (IsValid (jn_Client request)) || (BitLen (jn_Client request) =? BitLen (jn_Group request))).

Definition aclMatches (acl : ACLEntry) (source group : Addr) : bool :=
  addressVersion group (ac_IPVersion acl) && addrLe (ac_Start acl) group && addrLe group (ac_Stop acl) &&
  (negb (IsValid (ac_Source acl)) || IsUnspecified (ac_Source acl) || bool_decide (ac_Source acl = source)).

Definition serviceVLANMatches (policy : Z) (packet : VLAN) : bool :=
  if policy =? 4096 then negb packet.1
  else if policy =? 4097 then packet.1
  else if policy =? 0xffff then true
  else packet.1 && (packet.2 =? policy).

Definition allowedPreviewMatches (allowed : AllowedPreview) (expires : option Z) (request : Join)
    (aniVLAN now : Z) : bool :=
  negb (negb (ap_Duration allowed =? 0) &&
        ((ap_TimeLeft allowed =? 0) || negb (match expires with Some t => now <? t | None => false end))) &&
  negb (negb (bool_decide (ap_Destination allowed = jn_Group request)) ||
        (IsValid (ap_Source allowed) && negb (IsUnspecified (ap_Source allowed)) &&
         negb (bool_decide (ap_Source allowed = jn_Source request)))) &&
  (if ap_UNIVLAN allowed =? 0 then negb (jn_UNIVLAN request).1
   else (jn_UNIVLAN request).1 && ((jn_UNIVLAN request).2 =? ap_UNIVLAN allowed)) &&
  ((aniVLAN =? 0xffff) || ((aniVLAN =? 4097) && negb (ap_ANIVLAN allowed =? 0)) || (aniVLAN =? ap_ANIVLAN allowed)).

Record policyMatch := mkMatch {
  ma_profile : Profile;
  ma_acl : ACLEntry;
  ma_service : option ServicePackage;
  ma_reason : Reason;
  ma_previewUntil : option Z
}.

(** The profiles that apply to the request, with the service package each comes from. *)
Definition candidates (p : Policy) (subscriber : Subscriber) (request : Join)
    : list (Profile * option ServicePackage) :=
  match su_ServicePackages subscriber with
  | [] => [(default noProfile (po_profiles p !! su_Profile subscriber), None)]
  | services =>
      map (λ service, (default noProfile (po_profiles p !! sp_OperationsProfile service), Some service))
        (filter (λ service, serviceVLANMatches (sp_VLANID service) (jn_UNIVLAN request) = true) services)
  end.

(** The loop over the dynamic table of a candidate: the row that authorizes the request, or
    the rows that offer a preview. *)
Fixpoint scanACL (profile : Profile) (service : option ServicePackage) (request : Join)
    (entries : list ACLEntry) (previews : list policyMatch) : policyMatch + list policyMatch :=
  match entries with
  | [] => inr previews
  | acl :: entries =>
      if negb (aclMatches acl (jn_Source request) (jn_Group request))
      then scanACL profile service request entries previews
      else if ac_PreviewLength acl =? 0
      then inl (mkMatch profile acl service ReasonAuthorized None)
      else scanACL profile service request entries
             (previews ++ [mkMatch profile acl service NoReason None])
  end.

(** The loop over the candidates; [forward] and [forwardID] are those of an unauthorized join. *)
Fixpoint scanCandidates (request : Join) (cs : list (Profile * option ServicePackage))
    (forward : bool) (forwardID : Z) (previews : list policyMatch)
    : policyMatch + (bool * Z * list policyMatch) :=
  match cs with
  | [] => inr (forward, forwardID, previews)
  | (profile, service) :: cs =>
      let '(forward, forwardID) :=
        if pr_UnauthorizedJoinBehaviour profile
        then (true, if forwardID =? 0 then pr_EntityID profile else forwardID)
        else (forward, forwardID) in
      match scanACL profile service request (pr_DynamicACL profile) previews with
      | inl found => inl found
      | inr previews => scanCandidates request cs forward forwardID previews
      end
  end.

(** The first preview row with an allowed preview that matches, and its deadline. *)
Definition allowedMatch (subscriber : compiledSubscriber) (request : Join) (now : Z)
    (previews : list policyMatch) : option policyMatch :=
  head (omap (λ m,
      allowed ← List.find (λ allowed,
          allowedPreviewMatches allowed (co_previewExpiry subscriber !! ap_RowKey allowed) request
            (ac_VLANID (ma_acl m)) now)
        (su_AllowedPreviews (co_subscriber subscriber));
      Some (mkMatch (ma_profile m) (ma_acl m) (ma_service m) ReasonAllowedPreview
              (co_previewExpiry subscriber !! ap_RowKey allowed))) previews).

(** [matchLocked]: the match, whether an unauthorized join is forwarded, and for which profile. *)
Definition matchRequest (p : Policy) (subscriber : compiledSubscriber) (request : Join) (now : Z)
    : option policyMatch * bool * Z :=
  match scanCandidates request (candidates p (co_subscriber subscriber) request) false 0 [] with
  | inl m => (Some m, true, pr_EntityID (ma_profile m))
  | inr (forward, forwardID, previews) =>
      match allowedMatch subscriber request now previews with
      | Some m => (Some m, true, pr_EntityID (ma_profile m))
      | None =>
          match previews with
          | m :: _ =>
              (Some (mkMatch (ma_profile m) (ma_acl m) (ma_service m) ReasonPreview None), true,
               pr_EntityID (ma_profile m))
          | [] => (None, forward, forwardID)
          end
      end
  end.

(** ** Bandwidth and streams *)

Definition exceedsBandwidth (current additional limit : Z) : bool :=
  (negb (limit =? 0) && (limit <? additional)) ||
  (negb (limit =? 0) && (u64 (limit - additional) <? current)).

Definition streamOf (active : activeState) : streamKey :=
  let g := as_group active in (ag_Interface g, ag_Source g, ag_Group g, ag_UNIVLAN g).

Definition activeKeyOf (request : Join) : activeKey :=
  (jn_Interface request, jn_Source request, jn_Group request, jn_UNIVLAN request, jn_Client request).
Definition streamKeyOf (request : Join) : streamKey :=
  (jn_Interface request, jn_Source request, jn_Group request, jn_UNIVLAN request).

(** [service != nil && (!group.hasPackage || group.packageID != service.RowKey)]. *)
Definition outsidePackage (package : option Z) (active : activeState) : bool :=
  match package with None => false | Some _ => negb (bool_decide (as_package active = package)) end.

(** One step of the loops over the groups that count every stream once. *)
Definition bandwidthStep (package : option Z) (acc : gset streamKey * Z) (active : activeState)
    : gset streamKey * Z :=
  let '(seen, total) := acc in
  if outsidePackage package active || bool_decide (streamOf active ∈ seen) then acc
  else ({[streamOf active]} ∪ seen, u64 (total + ag_ImputedBandwidth (as_group active))).

Section policy.
Context {MR : MapRange}.
Implicit Types (p : Policy) (request : Join).

Definition activeBandwidth (groups : gmap activeKey activeState) (package : option Z) : Z :=
  (fold_left (λ acc '(_, active), bandwidthStep package acc active) (range groups) (∅, 0)).2.

Definition streamsSeen (groups : gmap activeKey activeState) (package : option Z) : gset streamKey :=
  fold_left (λ seen '(_, active),
      if outsidePackage package active then seen else {[streamOf active]} ∪ seen) (range groups) ∅.

Definition activeStreamCount (groups : gmap activeKey activeState) (package : option Z) : Z :=
  Z.of_nat (size (streamsSeen groups package)).

Definition activePackageGroups (groups : gmap activeKey activeState) (row : Z) : Z :=
  activeStreamCount groups (Some row).

Definition activeStream (groups : gmap activeKey activeState) (wanted : streamKey) : option activeState :=
  snd <$> List.find (λ '(_, active), bool_decide (streamOf active = wanted)) (range groups).

(** ** Previews *)

(** [latestReset] in a time zone [offset] nanoseconds ahead of UTC: the last time the clock
    showed the hour. *)
Definition latestReset (offset now hour : Z) : Z :=
  let resetHour := if hour =? 24 then 0 else hour in
  let boundary := (now + offset) / day * day - offset + resetHour * 3600 * second in
  if now <? boundary then boundary - day else boundary.

Definition rejected (reason : Reason) (profile row : Z) : Decision_ :=
  mkDecision false false false reason profile row 0 0 0 false None.

Definition withPreviews p (previews : gmap previewKey previewState) : Policy :=
  mkPolicy (po_profiles p) (po_subscribers p) (po_state p) previews.

(** The reset of the preview counters at the hour of the row. *)
Definition resetPreview (offset now resetTime : Z) (state : previewState) : previewState :=
  if (1 <=? resetTime) && (resetTime <=? 24) then
    let boundary := latestReset offset now resetTime in
    match pv_lastReset state with
    | None => mkPreviewState (pv_count state) (pv_nextAllowed state) (Some boundary)
    | Some last =>
        if last <? boundary then mkPreviewState 0 None (Some boundary) else state
    end
  else state.

(** [startPreviewLocked]. *)
Definition startPreview p (offset : Z) (subscriberID : Z) (m : policyMatch) request (now : Z)
    : Decision_ * Policy :=
  let acl := ma_acl m in
  let profile := pr_EntityID (ma_profile m) in
  let key := (subscriberID, profile, ac_RowKey acl, jn_Source request, jn_Group request) in
  let state := resetPreview offset now (ac_PreviewResetTime acl)
                 (default (mkPreviewState 0 None None) (po_previews p !! key)) in
  let store state := withPreviews p (<[key := state]> (po_previews p)) in
  if match pv_nextAllowed state with Some t => now <? t | None => false end
  then (rejected ReasonPreviewInterval profile (ac_RowKey acl), store state)
  else if negb (ac_PreviewRepeatCount acl =? 0) && (ac_PreviewRepeatCount acl <=? pv_count state)
  then (rejected ReasonPreviewExhausted profile (ac_RowKey acl), store state)
  else
    let length := ac_PreviewLength acl * second in
    (mkDecision true true true ReasonPreview profile (ac_RowKey acl) (ac_GEMPortID acl) (ac_VLANID acl)
       (ac_ImputedBandwidth acl) false (Some (now + length)),
     store (mkPreviewState (u16 (pv_count state + 1))
              (Some (now + (length + ac_PreviewRepeatTime acl * second))) (pv_lastReset state))).

(** ** Memberships *)

Definition decisionFromActive (active : activeState) (reason : Reason) : Decision_ :=
  let g := as_group active in
  mkDecision true true true reason (ag_ProfileID g) (ag_ACLRowKey g) (ag_GEMPortID g) (ag_ANIVLAN g)
    (ag_ImputedBandwidth g) false (ag_PreviewUntil g).

Definition withBandwidthExceeded (d : Decision_) (exceeded : bool) : Decision_ :=
  mkDecision (de_Accepted d) (de_ForwardUpstream d) (de_Replicate d) (de_Reason d) (de_ProfileID d)
    (de_ACLRowKey d) (de_GEMPortID d) (de_ANIVLAN d) (de_ImputedBandwidth d) exceeded (de_PreviewUntil d).

Definition withState p (subscriberID : Z) (state : subscriberState) : Policy :=
  mkPolicy (po_profiles p) (po_subscribers p) (<[subscriberID := state]> (po_state p)) (po_previews p).

(** [group.PreviewUntil.IsZero() || now.Before(group.PreviewUntil)]. *)
Definition unexpired (now : Z) (active : activeState) : bool :=
  match ag_PreviewUntil (as_group active) with None => true | Some t => now <? t end.

(** [expireLocked]. *)
Definition expire p (now : Z) : list ActiveGroup * Policy :=
  (flat_map (λ '(_, state),
       map (λ '(_, active), as_group active)
         (filter (λ '(_, active), unexpired now active = false) (range (ss_groups state))))
     (range (po_state p)),
   mkPolicy (po_profiles p) (po_subscribers p)
     ((λ state, mkSubscriberState (filter (λ '(_, active), unexpired now active = true) (ss_groups state))
                  (ss_joinMessages state) (ss_bandwidthExceeded state)) <$> po_state p)
     (po_previews p)).

(** The membership of [request] in the active stream, joined now. *)
Definition rejoined (active : activeState) (client : option Addr) (now : Z) : activeState :=
  let g := as_group active in
  mkActive
    (mkActiveGroup (ag_Interface g) (ag_Source g) (ag_IncludedSources g) (ag_ExcludedSources g) (ag_Group g)
       (default (ag_Client g) client) (ag_UNIVLAN g) (ag_ANIVLAN g) (ag_ProfileID g) (ag_ACLRowKey g)
       (ag_GEMPortID g) (ag_ImputedBandwidth g) (ag_TimeSinceJoin g) (ag_PreviewUntil g))
    now (as_reason active) (as_package active).

(** The group state of a new stream. *)
Definition newActive request (m : policyMatch) (previewUntil : option Z) (now : Z) : activeState :=
  mkActive
    (mkActiveGroup (jn_Interface request) (jn_Source request) [] [] (jn_Group request) (jn_Client request)
       (jn_UNIVLAN request) (ac_VLANID (ma_acl m)) (pr_EntityID (ma_profile m)) (ac_RowKey (ma_acl m))
       (ac_GEMPortID (ma_acl m)) (ac_ImputedBandwidth (ma_acl m)) 0 previewUntil)
    now (ma_reason m) (sp_RowKey <$> ma_service m).

(** Whether another stream exceeds the group limits, and whether it exceeds the bandwidth
    limits, of the subscriber and of the service package. *)
Definition limitsExceeded (subscriber : Subscriber) (groups : gmap activeKey activeState) (m : policyMatch)
    : bool * bool :=
  let bandwidth := ac_ImputedBandwidth (ma_acl m) in
  let groupExceeded :=
    negb (su_MaxSimultaneousGroups subscriber =? 0) &&
    (su_MaxSimultaneousGroups subscriber <=? activeStreamCount groups None) in
  let bandwidthExceeded :=
    exceedsBandwidth (activeBandwidth groups None) bandwidth (su_MaxMulticastBandwidth subscriber) in
  match ma_service m with
  | None => (groupExceeded, bandwidthExceeded)
  | Some service =>
      (groupExceeded ||
         (negb (sp_MaxSimultaneousGroups service =? 0) &&
          (sp_MaxSimultaneousGroups service <=? activePackageGroups groups (sp_RowKey service))),
       bandwidthExceeded ||
         exceedsBandwidth (activeBandwidth groups (Some (sp_RowKey service))) bandwidth
           (sp_MaxMulticastBandwidth service))
  end.

(** The end of [Join]: a new stream within the limits, its preview started. *)
Definition admitJoin p (offset : Z) request (now : Z) (subscriber : Subscriber) (state : subscriberState)
    (m : policyMatch) : Decision_ * Policy :=
  let '(groupExceeded, bandwidthExceeded) := limitsExceeded subscriber (ss_groups state) m in
  let state := mkSubscriberState (ss_groups state) (ss_joinMessages state)
                 (if bandwidthExceeded then u32 (ss_bandwidthExceeded state + 1) else ss_bandwidthExceeded state) in
  let p := withState p (jn_SubscriberID request) state in
  if groupExceeded
  then (withBandwidthExceeded (rejected ReasonGroupLimit 0 0) bandwidthExceeded, p)
  else if bandwidthExceeded && su_BandwidthEnforcement subscriber
  then (withBandwidthExceeded (rejected ReasonBandwidthExceeded 0 0) true, p)
  else
    let '(started, p) :=
      if bool_decide (ma_reason m = ReasonPreview)
      then let '(d, p) := startPreview p offset (jn_SubscriberID request) m request now in (Some d, p)
      else (None, p) in
    match started with
    | Some d =>
        if negb (de_Accepted d) then (withBandwidthExceeded d bandwidthExceeded, p)
        else
          let active := newActive request m (de_PreviewUntil d) now in
          (withBandwidthExceeded (decisionFromActive active (ma_reason m)) bandwidthExceeded,
           withState p (jn_SubscriberID request)
             (mkSubscriberState (<[activeKeyOf request := active]> (ss_groups state))
                (u32 (ss_joinMessages state + 1)) (ss_bandwidthExceeded state)))
    | None =>
        let active := newActive request m (ma_previewUntil m) now in
        (withBandwidthExceeded (decisionFromActive active (ma_reason m)) bandwidthExceeded,
         withState p (jn_SubscriberID request)
           (mkSubscriberState (<[activeKeyOf request := active]> (ss_groups state))
              (u32 (ss_joinMessages state + 1)) (ss_bandwidthExceeded state)))
    end.

(** [Join]. *)
Definition join p (offset : Z) request (now : Z) : Decision_ * Policy :=
  let p := (expire p now).2 in
  match po_subscribers p !! jn_SubscriberID request with
  | None => (rejected ReasonUnknownSubscriber 0 0, p)
  | Some subscriber =>
      if negb (validJoin request) then (rejected ReasonUnauthorized 0 0, p)
      else
        let state := default noSubscriberState (po_state p !! jn_SubscriberID request) in
        let keep active :=
          (decisionFromActive active (as_reason active),
           withState p (jn_SubscriberID request)
             (mkSubscriberState (<[activeKeyOf request := active]> (ss_groups state))
                (u32 (ss_joinMessages state + 1)) (ss_bandwidthExceeded state))) in
        match ss_groups state !! activeKeyOf request with
        | Some active => keep (rejoined active None now)
        | None =>
            match activeStream (ss_groups state) (streamKeyOf request) with
            | Some active => keep (rejoined active (Some (jn_Client request)) now)
            | None =>
                let p := withState p (jn_SubscriberID request) state in
                match matchRequest p subscriber request now with
                | (None, forward, forwardID) =>
                    (mkDecision false forward false ReasonUnauthorized forwardID 0 0 0 0 false None, p)
                | (Some m, _, _) => admitJoin p offset request now (co_subscriber subscriber) state m
                end
            end
        end
  end.

(** [Leave]: of one client, or of the whole stream when the client is not known. *)
Definition leave p request : bool * Policy :=
  match po_state p !! jn_SubscriberID request with
  | None => (false, p)
  | Some state =>
      let remove groups :=
        withState p (jn_SubscriberID request)
          (mkSubscriberState groups (ss_joinMessages state) (ss_bandwidthExceeded state)) in
      if IsValid (jn_Client request) then
        match ss_groups state !! activeKeyOf request with
        | None => (false, p)
        | Some _ => (true, remove (delete (activeKeyOf request) (ss_groups state)))
        end
      else
        let groups := filter (λ '(key, _), key.1 ≠ streamKeyOf request) (ss_groups state) in
        (negb (bool_decide (size groups = size (ss_groups state))), remove groups)
  end.

(** ** Reports *)

(** The order of the groups of a monitor: group, source, client. *)
Definition groupLe (a b : ActiveGroup) : bool :=
  match Compare (ag_Group a) (ag_Group b) with
  | Lt => true
  | Gt => false
  | Eq => match Compare (ag_Source a) (ag_Source b) with
          | Lt => true
          | Gt => false
          | Eq => addrLe (ag_Client a) (ag_Client b)
          end
  end.
Definition group_le (a b : ActiveGroup) : Prop := groupLe a b = true.
#[export] Instance group_le_dec a b : Decision (group_le a b).
Proof. unfold group_le. apply _. Defined.

(** The group as reported at [now]. *)
Definition reportedGroup (now : Z) (active : activeState) : ActiveGroup :=
  let g := as_group active in
  let elapsed := now - as_joinedAt active in
  mkActiveGroup (ag_Interface g) (ag_Source g) (ag_IncludedSources g) (ag_ExcludedSources g) (ag_Group g)
    (ag_Client g) (ag_UNIVLAN g) (ag_ANIVLAN g) (ag_ProfileID g) (ag_ACLRowKey g) (ag_GEMPortID g)
    (ag_ImputedBandwidth g)
    (if 0xffffffff * second <? elapsed then 0xffffffff
     else if 0 <? elapsed then u32 (elapsed / second) else ag_TimeSinceJoin g)
    (ag_PreviewUntil g).

(** [Engine.Monitor]. *)
Definition monitor p (subscriberID now : Z) : Monitor * Policy :=
  let p := (expire p now).2 in
  match po_state p !! subscriberID with
  | None => (noMonitor, p)
  | Some state =>
      let bandwidth := activeBandwidth (ss_groups state) None in
      (mkMonitor (if 0xffffffff <? bandwidth then 0xffffffff else u32 bandwidth) (ss_joinMessages state)
         (ss_bandwidthExceeded state)
         (merge_sort group_le (map (λ '(_, active), reportedGroup now active) (range (ss_groups state)))), p)
  end.

(** The timer of one allowed preview row: the minutes left, rounded up. *)
Definition previewTimer (subscriber : compiledSubscriber) (now : Z) (preview : AllowedPreview)
    : AllowedPreviewTimer :=
  mkPreviewTimer (ap_RowKey preview) (ap_Duration preview)
    (match co_previewExpiry subscriber !! ap_RowKey preview with
     | Some deadline =>
         if now <? deadline then
           let left := (deadline - now + minutes 1 - 1) / minutes 1 in
           if 0xffff <? left then 0xffff else u16 left
         else 0
     | None => 0
     end).

(** [AllowedPreviewTimers]. *)
Definition AllowedPreviewTimers p (subscriberID now : Z) : list AllowedPreviewTimer :=
  match po_subscribers p !! subscriberID with
  | None => []
  | Some subscriber =>
      merge_sort (byKey tm_RowKey)
        (map (previewTimer subscriber now) (su_AllowedPreviews (co_subscriber subscriber)))
  end.
End policy.
