(* ===== verification/McProps.v ===== *)
(** * Multicast: what the policy guarantees

    The groups a subscriber receives are always within the limits of its configuration, and
    each was granted by a row of the access control lists that apply to it. *)

From S2P Require Import Prelude Maps Netip McPolicy.

(** ** Streams

    Several clients may receive one stream.  What the policy counts are streams, so its
    accounting is described by the set of streams of the groups, with the package each was
    admitted under and its bandwidth. *)

Abbreviation stream := (streamKey * option Z * Z)%type.

Definition streamRecord (a : activeState) : stream :=
  (streamOf a, as_package a, ag_ImputedBandwidth (as_group a)).

Definition streams (groups : gmap activeKey activeState) : gset stream :=
  list_to_set (streamRecord <$> (map_to_list groups).*2).

(** The streams of one package, or of all. *)
Definition inside (package : option Z) (t : stream) : Prop := package = None ∨ t.1.2 = package.
#[export] Instance inside_dec package t : Decision (inside package t).
Proof. unfold inside. apply _. Defined.
Definition within (package : option Z) (T : gset stream) : gset stream := filter (inside package) T.

(** The bandwidth of a set of streams. *)
Definition bandwidthOf (T : gset stream) : Z := set_fold (λ t total, t.2 + total) 0 T.

(** The members of one stream agree on its package and bandwidth. *)
Definition coherent (T : gset stream) : Prop := ∀ t u, t ∈ T → u ∈ T → t.1.1 = u.1.1 → t = u.

Lemma elem_of_streams groups t :
  t ∈ streams groups ↔ ∃ key a, groups !! key = Some a ∧ t = streamRecord a.
Proof.
  unfold streams. rewrite elem_of_list_to_set, list_elem_of_fmap. setoid_rewrite list_elem_of_fmap.
  split.
  - intros (a & -> & [key b] & -> & ?%elem_of_map_to_list). by exists key, b.
  - intros (key & a & Ha & ->). exists a. split; [done|]. exists (key, a). by rewrite elem_of_map_to_list.
Qed.

Lemma bandwidthOf_empty : bandwidthOf ∅ = 0.
Proof. apply set_fold_empty. Qed.

Lemma bandwidthOf_add t T : t ∉ T → bandwidthOf ({[t]} ∪ T) = t.2 + bandwidthOf T.
Proof.
  intros Ht. unfold bandwidthOf. rewrite (union_comm_L {[t]}).
  rewrite (set_fold_disj_union_strong (=) _ _ T {[t]}).
  - by rewrite set_fold_singleton.
  - intros x. solve_proper.
  - intros x1 x2 b _ _ _. lia.
  - set_solver.
Qed.

Lemma bandwidthOf_nonneg T : (∀ t, t ∈ T → 0 ≤ t.2) → 0 ≤ bandwidthOf T.
Proof.
  induction T as [|t T Ht IH] using set_ind_L; [by rewrite bandwidthOf_empty|].
  intros Hb. rewrite bandwidthOf_add by done.
  assert (0 ≤ t.2) by (apply Hb; set_solver). assert (0 ≤ bandwidthOf T) by (apply IH; set_solver). lia.
Qed.

Lemma bandwidthOf_mono S T : S ⊆ T → (∀ t, t ∈ T → 0 ≤ t.2) → bandwidthOf S ≤ bandwidthOf T.
Proof.
  revert S. induction T as [|t T Ht IH] using set_ind_L; intros S HS Hb.
  { by replace S with (∅ : gset stream) by set_solver. }
  rewrite bandwidthOf_add by done. assert (0 ≤ t.2) by (apply Hb; set_solver).
  assert (bandwidthOf (S ∖ {[t]}) ≤ bandwidthOf T) by (apply IH; set_solver).
  destruct (decide (t ∈ S)).
  - rewrite (union_difference_L {[t]} S) by set_solver. rewrite bandwidthOf_add by set_solver. lia.
  - replace S with (S ∖ {[t]}) by set_solver. lia.
Qed.

(** ** The counters of the code *)

Lemma outsidePackage_inside package a :
  outsidePackage package a = false ↔ inside package (streamRecord a).
Proof.
  unfold outsidePackage, inside. destruct package; cbn; [|split; [by left|done]].
  rewrite negb_false_iff, bool_decide_eq_true. naive_solver.
Qed.

(** The loop over the groups, after the streams [seen]. *)
Lemma bandwidthStep_fold package l : ∀ T,
  coherent (list_to_set (streamRecord <$> l) ∪ T) →
  fold_left (bandwidthStep package) l (set_map (λ t, t.1.1) (within package T), u64 (bandwidthOf (within package T))) =
  (let T' := within package (list_to_set (streamRecord <$> l) ∪ T) in
   (set_map (λ t, t.1.1) T', u64 (bandwidthOf T'))).
Proof.
  unfold within. induction l as [|a l IH]; intros T Hc; cbn [fold_left fmap list_fmap list_to_set].
  { by rewrite (left_id_L ∅ _). }
  set (L := list_to_set (streamRecord <$> l)) in *. cbn zeta.
  assert (∀ X : gset stream, {[streamRecord a]} ∪ L ∪ X = L ∪ ({[streamRecord a]} ∪ X)) as Hswap by set_solver.
  rewrite Hswap. rewrite fmap_cons, list_to_set_cons, Hswap in Hc.
  rewrite <- (IH ({[streamRecord a]} ∪ T)) by done. f_equal. unfold bandwidthStep.
  rewrite filter_union_L by apply _. destruct (outsidePackage package a) eqn:Ho; cbn [orb].
  - rewrite filter_singleton_False_L by first [apply _|rewrite <- outsidePackage_inside; congruence].
    by rewrite (left_id_L ∅ _).
  - rewrite outsidePackage_inside in Ho. rewrite filter_singleton_True_L by first [apply _|done].
    case_bool_decide as Hin.
    + apply elem_of_map in Hin as (t & Hk & [Hi Ht]%elem_of_filter).
      assert (streamRecord a = t) as -> by (apply Hc; [set_solver..|done]).
      replace ({[t]} ∪ filter (inside package) T) with (filter (inside package) T) by set_solver. done.
    + assert (streamRecord a ∉ filter (inside package) T).
      { intros Ht. apply Hin. apply elem_of_map. by exists (streamRecord a). }
      rewrite bandwidthOf_add by done. rewrite set_map_union_L, set_map_singleton_L. f_equal.
      unfold u64, wrap. cbn [snd streamRecord]. rewrite Zplus_mod_idemp_l. f_equal. lia.
Qed.

Lemma fold_snd {A B S} (f : S → B → S) (l : list (A * B)) s :
  fold_left (λ s '(_, b), f s b) l s = fold_left f l.*2 s.
Proof. revert s. induction l as [|[a b] l IH]; intros s; [done|]. apply IH. Qed.

(** Streams of which no two have the same key are as many as their keys. *)
Lemma size_stream_keys T : coherent T → size (set_map (D:=gset streamKey) (λ t, t.1.1) T) = size T.
Proof.
  induction T as [|t T Ht IH] using set_ind_L; intros Hc; [by rewrite set_map_empty, !size_empty|].
  assert (t.1.1 ∉ set_map (D:=gset streamKey) (λ t : stream, t.1.1) T).
  { intros (u & Hk & Hu)%elem_of_map. assert (t = u) as -> by (apply Hc; [set_solver..|done]). done. }
  rewrite set_map_union_L, set_map_singleton_L, 2!size_union, !size_singleton, IH; [done|..].
  - intros x y ??. apply Hc; set_solver.
  - set_solver.
  - set_solver.
Qed.

Section accounting.
Context {MR : MapRange}.

Lemma range_streams groups : list_to_set (streamRecord <$> (range groups).*2) = streams groups.
Proof. unfold streams. by rewrite range_perm. Qed.

Lemma coherent_subset S T : S ⊆ T → coherent T → coherent S.
Proof. intros HS HT t u ??. apply HT; set_solver. Qed.

Lemma within_subset package T : within package T ⊆ T.
Proof. unfold within. set_solver. Qed.

Lemma streamsSeen_streams groups package :
  streamsSeen groups package = set_map (λ t, t.1.1) (within package (streams groups)).
Proof.
  unfold streamsSeen. rewrite <- range_streams.
  rewrite (fold_snd (λ seen active, if outsidePackage package active then seen else {[streamOf active]} ∪ seen)).
  generalize (range groups).*2 as l. intros l.
  assert (∀ S : gset streamKey,
    fold_left (λ seen active, if outsidePackage package active then seen else {[streamOf active]} ∪ seen) l S =
    set_map (λ t, t.1.1) (within package (list_to_set (streamRecord <$> l))) ∪ S) as Hf; [|by rewrite Hf, (right_id_L ∅ _)].
  unfold within. induction l as [|a l IH]; intros S; cbn [fold_left fmap list_fmap list_to_set].
  { rewrite filter_empty_L by apply _. rewrite set_map_empty. by rewrite (left_id_L ∅ _). }
  rewrite filter_union_L by apply _. rewrite IH. destruct (outsidePackage package a) eqn:Ho.
  - rewrite filter_singleton_False_L by first [apply _|rewrite <- outsidePackage_inside; congruence].
    by rewrite (left_id_L ∅ _).
  - rewrite outsidePackage_inside in Ho. rewrite filter_singleton_True_L by first [apply _|done].
    rewrite set_map_union_L, set_map_singleton_L. by rewrite (assoc_L (∪)), (comm_L (∪) (set_map _ _)).
Qed.

Lemma activeBandwidth_streams groups package :
  coherent (streams groups) →
  activeBandwidth groups package = u64 (bandwidthOf (within package (streams groups))).
Proof.
  intros Hc. unfold activeBandwidth. rewrite fold_snd. rewrite <- range_streams in *.
  pose proof (bandwidthStep_fold package (range groups).*2 ∅) as Hf. cbv zeta in Hf.
  rewrite (right_id_L ∅ _) in Hf. unfold within in Hf at 1 2.
  rewrite filter_empty_L in Hf by apply _. rewrite set_map_empty, bandwidthOf_empty in Hf. change (u64 0) with 0 in Hf.
  by rewrite Hf.
Qed.

Lemma activeStreamCount_streams groups package :
  coherent (streams groups) →
  activeStreamCount groups package = Z.of_nat (size (within package (streams groups))).
Proof.
  intros Hc. unfold activeStreamCount. rewrite streamsSeen_streams, size_stream_keys; [done|].
  eapply coherent_subset; [apply within_subset|done].
Qed.
End accounting.

(** ** Limits *)

(** A set of streams within a group limit and, when enforced, a bandwidth limit; 0 is none. *)
Definition quota (enforced : bool) (groups bandwidth : Z) (T : gset stream) : Prop :=
  (groups ≠ 0 → Z.of_nat (size T) ≤ groups) ∧
  (enforced = true → bandwidth ≠ 0 → bandwidthOf T ≤ bandwidth).

(** The streams of a subscriber within its limits and those of its service packages. *)
Definition within_limits (sub : Subscriber) (T : gset stream) : Prop :=
  quota (su_BandwidthEnforcement sub) (su_MaxSimultaneousGroups sub) (su_MaxMulticastBandwidth sub) T ∧
  ∀ service, service ∈ su_ServicePackages sub →
    quota (su_BandwidthEnforcement sub) (sp_MaxSimultaneousGroups service) (sp_MaxMulticastBandwidth service)
      (within (Some (sp_RowKey service)) T).

Definition measured (T : gset stream) : Prop := ∀ t, t ∈ T → is_u 32 t.2.

Lemma quota_mono enforced groups bandwidth S T :
  S ⊆ T → measured T → quota enforced groups bandwidth T → quota enforced groups bandwidth S.
Proof.
  intros HS HT [Hg Hb]. split.
  - intros Hn. specialize (Hg Hn). apply subseteq_size in HS. lia.
  - intros He Hn. specialize (Hb He Hn).
    assert (bandwidthOf S ≤ bandwidthOf T); [|lia].
    apply bandwidthOf_mono; [done|]. intros t Ht. by apply HT in Ht as [? _].
Qed.

Lemma within_mono package S T : S ⊆ T → within package S ⊆ within package T.
Proof. unfold within. intros HS t. rewrite !elem_of_filter. intros [? ?]. auto. Qed.

Lemma measured_subset S T : S ⊆ T → measured T → measured S.
Proof. intros HS HT t Ht. by apply HT, HS. Qed.

Lemma within_limits_mono sub S T : S ⊆ T → measured T → within_limits sub T → within_limits sub S.
Proof.
  intros HS HT [Ht Hs]. split; [by eapply quota_mono|]. intros service Hin.
  eapply quota_mono; [by apply within_mono| |by apply Hs].
  eapply measured_subset; [apply within_subset|done].
Qed.

(** One more stream within a limit. *)
Lemma quota_add enforced groups bandwidth T t :
  measured T → is_u 32 t.2 → is_u 32 bandwidth → t ∉ T →
  (groups ≠ 0 → Z.of_nat (size T) < groups) →
  (enforced = true → exceedsBandwidth (u64 (bandwidthOf T)) t.2 bandwidth = false) →
  quota enforced groups bandwidth T → quota enforced groups bandwidth ({[t]} ∪ T).
Proof.
  intros HT Htb Hlim Ht Hg Hb [_ Hq]. split.
  - intros Hn. specialize (Hg Hn). rewrite size_union, size_singleton by set_solver. lia.
  - intros He Hn. specialize (Hb He). specialize (Hq He Hn).
    assert (0 ≤ bandwidthOf T) by (apply bandwidthOf_nonneg; intros u Hu; by apply HT in Hu as [? _]).
    rewrite bandwidthOf_add by done. unfold is_u in Htb, Hlim. unfold exceedsBandwidth, u64, wrap in Hb.
    rewrite (proj2 (Z.eqb_neq bandwidth 0)) in Hb by done. cbn [negb andb] in Hb.
    apply orb_false_iff in Hb as [Hb1%Z.ltb_ge Hb2%Z.ltb_ge].
    rewrite !Z.mod_small in Hb2; lia.
Qed.

(** ** Grants *)

(** The candidates that apply to a subscriber and a VLAN, and the row that grants a group. *)
Record grant (p : Policy) (sub : Subscriber) (request : Join) (m : policyMatch) : Prop := {
  gr_candidate : (ma_profile m, ma_service m) ∈ candidates p sub request;
  gr_row : ma_acl m ∈ pr_DynamicACL (ma_profile m);
  gr_matches : aclMatches (ma_acl m) (jn_Source request) (jn_Group request) = true;
}.

(** What the reason of a match says. *)
Definition reason_ok (subscriber : compiledSubscriber) (request : Join) (now : Z) (m : policyMatch) : Prop :=
  if ac_PreviewLength (ma_acl m) =? 0
  then ma_reason m = ReasonAuthorized ∧ ma_previewUntil m = None
  else (ma_reason m = ReasonPreview ∧ ma_previewUntil m = None) ∨
       (ma_reason m = ReasonAllowedPreview ∧
        ∃ allowed, allowed ∈ su_AllowedPreviews (co_subscriber subscriber) ∧
          ma_previewUntil m = co_previewExpiry subscriber !! ap_RowKey allowed ∧
          allowedPreviewMatches allowed (ma_previewUntil m) request (ac_VLANID (ma_acl m)) now = true).

Section matching.
Context (p : Policy) (subscriber : compiledSubscriber) (request : Join) (now : Z).
Let sub := co_subscriber subscriber.

(** A row that offers a preview. *)
Definition offer (m : policyMatch) : Prop := grant p sub request m ∧ ac_PreviewLength (ma_acl m) ≠ 0.

Lemma scanACL_sound profile service entries : ∀ previews,
  (profile, service) ∈ candidates p sub request → (∀ acl, acl ∈ entries → acl ∈ pr_DynamicACL profile) →
  Forall offer previews →
  match scanACL profile service request entries previews with
  | inl m => grant p sub request m ∧ reason_ok subscriber request now m
  | inr previews' => Forall offer previews'
  end.
Proof.
  induction entries as [|acl entries IH]; intros previews Hc Hin Hp; cbn [scanACL]; [done|].
  assert (acl ∈ pr_DynamicACL profile) by (apply Hin; left).
  assert (∀ acl, acl ∈ entries → acl ∈ pr_DynamicACL profile) by (intros; apply Hin; by right).
  destruct (aclMatches acl _ _) eqn:Hm; cbn [negb]; [|by apply IH].
  destruct (ac_PreviewLength acl =? 0) eqn:Hl.
  - split; [by split|]. unfold reason_ok. cbn. by rewrite Hl.
  - apply IH; [done..|]. apply Forall_app. split; [done|]. apply Forall_singleton.
    split; [by split|]. cbn. by apply Z.eqb_neq.
Qed.

Lemma scanCandidates_sound cs : ∀ forward forwardID previews,
  (∀ c, c ∈ cs → c ∈ candidates p sub request) → Forall offer previews →
  match scanCandidates request cs forward forwardID previews with
  | inl m => grant p sub request m ∧ reason_ok subscriber request now m
  | inr (_, _, previews') => Forall offer previews'
  end.
Proof.
  induction cs as [|[profile service] cs IH]; intros forward forwardID previews Hc Hp; cbn [scanCandidates]; [done|].
  destruct (if pr_UnauthorizedJoinBehaviour profile then _ else _) as [f id].
  pose proof (scanACL_sound profile service (pr_DynamicACL profile) previews) as Hs.
  destruct (scanACL _ _ _ _ _) as [m|previews']; [apply Hs; [apply Hc; left|done..]|].
  apply IH; [intros; apply Hc; by right|]. apply Hs; [apply Hc; left|done..].
Qed.

Lemma allowedMatch_sound previews m :
  Forall offer previews → allowedMatch subscriber request now previews = Some m →
  grant p sub request m ∧ reason_ok subscriber request now m.
Proof.
  unfold allowedMatch. intros Hp Hh. apply head_Some_elem_of, list_elem_of_omap in Hh as (m' & Hin & Hm).
  rewrite Forall_forall in Hp. apply Hp in Hin as [[Hc Hr Ha] Hl].
  destruct (List.find _ _) as [allowed|] eqn:Hf; [|done]. cbn in Hm. injection Hm as <-.
  apply List.find_some in Hf as [Hin Hmatch]. split; [by split|].
  unfold reason_ok. cbn. rewrite (proj2 (Z.eqb_neq _ _)) by done. right. split; [done|].
  exists allowed. split_and!; [by apply list_elem_of_In|done|done].
Qed.

(** [matchLocked] only finds what a row of an applicable list grants. *)
Lemma matchRequest_sound m forward id :
  matchRequest p subscriber request now = (Some m, forward, id) →
  grant p sub request m ∧ reason_ok subscriber request now m.
Proof.
  unfold matchRequest. fold sub.
  pose proof (scanCandidates_sound (candidates p sub request) false 0 []) as Hs.
  destruct (scanCandidates _ _ _ _ _) as [m'|[[f i] previews]].
  - intros [= <- _ _]. by apply Hs.
  - assert (Forall offer previews) as Hp by (by apply Hs).
    destruct (allowedMatch _ _ _ _) as [m'|] eqn:Ha; [intros [= <- _ _]; by eapply allowedMatch_sound|].
    destruct previews as [|m' previews]; [done|]. intros [= <- _ _].
    apply Forall_cons in Hp as [[[Hc Hr Hm] Hl] _]. split; [by split|].
    unfold reason_ok. cbn. rewrite (proj2 (Z.eqb_neq _ _)) by done. by left.
Qed.
End matching.

(** ** Configurations *)

(** The widths of the fields the accounting uses. *)
Record config_typed (config : Config) : Prop := {
  ct_rows : ∀ profile acl, profile ∈ cf_Profiles config → acl ∈ pr_DynamicACL profile →
    is_u 32 (ac_ImputedBandwidth acl);
  ct_subscribers : ∀ sub, sub ∈ cf_Subscribers config →
    is_u 16 (su_MaxSimultaneousGroups sub) ∧ is_u 32 (su_MaxMulticastBandwidth sub) ∧
    ∀ service, service ∈ su_ServicePackages sub →
      is_u 16 (sp_MaxSimultaneousGroups service) ∧ is_u 32 (sp_MaxMulticastBandwidth service)
}.

Definition subscriber_ok (sub : Subscriber) : Prop :=
  is_u 16 (su_MaxSimultaneousGroups sub) ∧ is_u 32 (su_MaxMulticastBandwidth sub) ∧
  NoDup (sp_RowKey <$> su_ServicePackages sub) ∧
  ∀ service, service ∈ su_ServicePackages sub →
    is_u 16 (sp_MaxSimultaneousGroups service) ∧ is_u 32 (sp_MaxMulticastBandwidth service).

Record config_ok (profiles : gmap Z Profile) (subscribers : gmap Z compiledSubscriber) : Prop := {
  co_profiles : ∀ id profile acl, profiles !! id = Some profile → acl ∈ pr_DynamicACL profile →
    is_u 32 (ac_ImputedBandwidth acl);
  co_subscribers : ∀ id c, subscribers !! id = Some c → subscriber_ok (co_subscriber c)
}.

Lemma checkPackage_NoDup profiles services : ∀ seen seen',
  foldM_res (checkPackage profiles) services seen = Ok seen' →
  NoDup (sp_RowKey <$> services) ∧ ∀ k, k ∈ sp_RowKey <$> services → k ∉ seen.
Proof.
  induction services as [|service services IH]; intros seen seen' H; cbn [foldM_res] in H.
  { split; [constructor|]. intros k Hk. by apply elem_of_nil in Hk. }
  apply Res_bind_Ok in H as (s1 & H1 & H). unfold checkPackage in H1. inv_ok H1. subst s1.
  apply bool_decide_eq_false in Hg. apply IH in H as [Hn Hk]. rewrite fmap_cons. split.
  - constructor; [|done]. intros Hin. apply Hk in Hin. set_solver.
  - intros k [->|Hin]%elem_of_cons; [done|]. apply Hk in Hin. set_solver.
Qed.

Lemma compile_ok config now profiles subscribers :
  config_typed config → compile config now = Ok (profiles, subscribers) → config_ok profiles subscribers.
Proof.
  intros [Hrows Hsubs] H. unfold compile in H. inv_ok H. subst. split.
  - set (P (s : gmap Z Profile) := ∀ id profile, s !! id = Some profile → ∃ original,
      original ∈ cf_Profiles config ∧ pr_DynamicACL profile ≡ₚ pr_DynamicACL original).
    assert (P profiles) as Hp.
    { eapply (foldM_inv P); [|intros ??; by rewrite lookup_empty|exact Hr].
      intros s original s' Hin IH Hc id profile. unfold compileProfile in Hc. inv_ok Hc. subst s'.
      rewrite lookup_insert_Some. intros [[_ <-]|[_ Hl]]; [|by eapply IH].
      exists original. split; [done|]. cbn. apply merge_sort_Permutation. }
    intros id profile acl Hl Hin. destruct (Hp _ _ Hl) as (original & Ho & Hperm).
    rewrite Hperm in Hin. by eapply Hrows.
  - set (P (s : gmap Z compiledSubscriber) := ∀ id c, s !! id = Some c → subscriber_ok (co_subscriber c)). change (P subscribers).
    eapply (foldM_inv P); [|intros ??; by rewrite lookup_empty|exact Hr0].
    intros s sub s' Hin IH Hc id c. unfold compileSubscriber in Hc. inv_ok Hc. subst s'.
    rewrite lookup_insert_Some. intros [[_ <-]|[_ Hl]]; [|by eapply IH]. unfold subscriber_ok. cbn.
    destruct (Hsubs _ Hin) as (Hn & Hb & Hsp). split_and!; [done..| |].
    + by eapply checkPackage_NoDup.
    + intros service Hser. rewrite merge_sort_Permutation in Hser. by apply Hsp.
Qed.

(** ** The groups of a subscriber *)

(** A group is granted by a row of a dynamic list that applies to its VLAN: it forwards what
    the row says, and a row with a preview length grants it only for a time or against an
    allowed preview of the subscriber. *)
Definition granted (p : Policy) (sub : Subscriber) (a : activeState) : Prop :=
  let g := as_group a in
  ∃ profile service acl,
    (profile, service) ∈ candidates p sub (mkJoin 0 "" (ag_UNIVLAN g) NoAddr NoAddr NoAddr) ∧
    acl ∈ pr_DynamicACL profile ∧ aclMatches acl (ag_Source g) (ag_Group g) = true ∧
    ag_ProfileID g = pr_EntityID profile ∧ ag_ACLRowKey g = ac_RowKey acl ∧
    ag_GEMPortID g = ac_GEMPortID acl ∧ ag_ANIVLAN g = ac_VLANID acl ∧
    ag_ImputedBandwidth g = ac_ImputedBandwidth acl ∧ as_package a = sp_RowKey <$> service ∧
    (ac_PreviewLength acl ≠ 0 →
       (as_reason a = ReasonPreview ∧ is_Some (ag_PreviewUntil g)) ∨
       (as_reason a = ReasonAllowedPreview ∧
        ∃ allowed, allowed ∈ su_AllowedPreviews sub ∧ ap_Destination allowed = ag_Group g)).

Record groups_ok (p : Policy) (sub : Subscriber) (groups : gmap activeKey activeState) : Prop := {
  go_key : ∀ key a, groups !! key = Some a → key = (streamOf a, ag_Client (as_group a));
  go_granted : ∀ key a, groups !! key = Some a → granted p sub a;
  go_coherent : coherent (streams groups);
  go_limits : within_limits sub (streams groups)
}.

Record policy_inv (p : Policy) : Prop := {
  pi_config : config_ok (po_profiles p) (po_subscribers p);
  pi_groups : ∀ id state, po_state p !! id = Some state →
    ∃ c, po_subscribers p !! id = Some c ∧ groups_ok p (co_subscriber c) (ss_groups state)
}.

Lemma candidates_vlan p p' sub request request' :
  po_profiles p' = po_profiles p → jn_UNIVLAN request' = jn_UNIVLAN request →
  candidates p' sub request' = candidates p sub request.
Proof. unfold candidates. by intros -> ->. Qed.

Lemma granted_profiles p p' sub a : po_profiles p' = po_profiles p → granted p sub a → granted p' sub a.
Proof.
  intros Hp (profile & service & acl & Hc & H). exists profile, service, acl. split; [|exact H].
  by erewrite candidates_vlan.
Qed.

Lemma groups_ok_profiles p p' sub groups :
  po_profiles p' = po_profiles p → groups_ok p sub groups → groups_ok p' sub groups.
Proof. intros Hp []. split; [done| |done..]. intros ???. by eapply granted_profiles, go_granted0. Qed.

(** A row of a candidate belongs to a configured profile. *)
Lemma candidate_row p sub request profile service acl :
  config_ok (po_profiles p) (po_subscribers p) →
  (profile, service) ∈ candidates p sub request → acl ∈ pr_DynamicACL profile → is_u 32 (ac_ImputedBandwidth acl).
Proof.
  intros [Hp _] Hc Hr.
  assert (∃ id, profile = default noProfile (po_profiles p !! id)) as (id & ->).
  { unfold candidates in Hc. destruct (su_ServicePackages sub).
    - apply list_elem_of_singleton in Hc as [= -> _]. by eexists.
    - apply list_elem_of_fmap in Hc as (s' & [= -> _] & _). by eexists. }
  destruct (po_profiles p !! id) as [pr|] eqn:Hl; [by eapply Hp|].
  cbn in Hr. by apply elem_of_nil in Hr.
Qed.

Lemma granted_measured p sub groups :
  config_ok (po_profiles p) (po_subscribers p) →
  (∀ key a, groups !! key = Some a → granted p sub a) → measured (streams groups).
Proof.
  intros Hc Hg t (key & a & Ha & ->)%elem_of_streams. apply Hg in Ha as (pr & s & acl & Hin & Hr & H).
  destruct_and! H. cbn. replace (ag_ImputedBandwidth _) with (ac_ImputedBandwidth acl) by done.
  by eapply candidate_row.
Qed.

Lemma streams_subset groups groups' : groups' ⊆ groups → streams groups' ⊆ streams groups.
Proof.
  intros Hs t. rewrite !elem_of_streams. intros (key & a & Ha & ->). exists key, a.
  split; [by eapply lookup_weaken|done].
Qed.

Lemma quota_empty enforced groups bandwidth : 0 ≤ groups → 0 ≤ bandwidth → quota enforced groups bandwidth ∅.
Proof. intros Hg Hb. split; [rewrite size_empty|rewrite bandwidthOf_empty]; lia. Qed.

Lemma groups_ok_empty p sub : subscriber_ok sub → groups_ok p sub ∅.
Proof.
  intros ([Hn _] & [Hb _] & _ & Hs). assert (streams ∅ = ∅) as He by done.
  split; try by intros ??; rewrite lookup_empty.
  - by intros t u ?%elem_of_empty.
  - rewrite He. split; [by apply quota_empty|]. intros service [[? _] [? _]]%Hs.
    unfold within. rewrite filter_empty_L by apply _. by apply quota_empty.
Qed.

(** Leaving and expiring. *)
Lemma groups_ok_subset p sub groups groups' :
  config_ok (po_profiles p) (po_subscribers p) → groups' ⊆ groups →
  groups_ok p sub groups → groups_ok p sub groups'.
Proof.
  intros Hc Hs [Hk Hg Hco Hl].
  assert (∀ key a, groups' !! key = Some a → groups !! key = Some a) as Hw by (intros; by eapply lookup_weaken).
  split; [by eauto..| |].
  - by eapply coherent_subset; [apply streams_subset|].
  - eapply within_limits_mono; [by apply streams_subset| |done]. by eapply granted_measured.
Qed.

(** Another client of a stream, or the same one again. *)
Lemma groups_ok_again p sub groups key a client now :
  config_ok (po_profiles p) (po_subscribers p) → groups !! key = Some a → groups_ok p sub groups →
  groups_ok p sub (<[(streamOf a, default (ag_Client (as_group a)) client) := rejoined a client now]> groups).
Proof.
  intros Hc Ha [Hk Hg Hco Hl]. set (key' := (streamOf a, _)).
  assert (streams (<[key' := rejoined a client now]> groups) ⊆ streams groups) as Hs.
  { intros t (k & b & Hb & ->)%elem_of_streams. apply elem_of_streams.
    apply lookup_insert_Some in Hb as [[_ <-]|[_ Hb]]; [by exists key, a|by exists k, b]. }
  split.
  - intros k b [[<- <-]|[_ Hb]]%lookup_insert_Some; [done|by apply Hk].
  - intros k b [[<- <-]|[_ Hb]]%lookup_insert_Some; [exact (Hg _ _ Ha)|by eapply Hg].
  - by eapply coherent_subset.
  - eapply within_limits_mono; [done| |done]. by eapply granted_measured.
Qed.

(** ** A new stream *)

Lemma NoDup_fmap_inj {A B} (f : A → B) l x y : NoDup (f <$> l) → x ∈ l → y ∈ l → f x = f y → x = y.
Proof.
  intros Hn [i Hi]%list_elem_of_lookup [j Hj]%list_elem_of_lookup Hf.
  assert (i = j) as ->; [|by rewrite Hi in Hj; injection Hj].
  eapply NoDup_lookup; [exact Hn|by rewrite list_lookup_fmap, Hi|by rewrite list_lookup_fmap, Hj, Hf].
Qed.

Lemma within_None T : within None T = T.
Proof.
  apply leibniz_equiv. intros t. unfold within. rewrite elem_of_filter. unfold inside. naive_solver.
Qed.

Lemma within_add package t T :
  within package ({[t]} ∪ T) = if decide (inside package t) then {[t]} ∪ within package T else within package T.
Proof.
  unfold within. rewrite filter_union_L by apply _. case_decide.
  - by rewrite filter_singleton_True_L by first [apply _|done].
  - rewrite filter_singleton_False_L by first [apply _|done]. by rewrite (left_id_L ∅ _).
Qed.

Lemma grant_service p sub request m service :
  grant p sub request m → ma_service m = Some service →
  service ∈ su_ServicePackages sub.
Proof.
  intros [Hc _ _] Hs. unfold candidates in Hc. destruct (su_ServicePackages sub) as [|s l] eqn:Hl.
  - apply list_elem_of_singleton in Hc as [= _ Hn]. congruence.
  - apply list_elem_of_fmap in Hc as (s' & [= _ Hn] & Hin).
    rewrite Hs in Hn. injection Hn as ->. by apply list_elem_of_filter in Hin as [_ Hin].
Qed.

Section admission.
Context {MR : MapRange}.

Lemma activeStream_None groups wanted key a :
  activeStream groups wanted = None → groups !! key = Some a → streamOf a ≠ wanted.
Proof.
  unfold activeStream. intros Hf Ha Hs. destruct (List.find _ _) eqn:He; [done|].
  eapply List.find_none in He; [|apply list_elem_of_In; rewrite range_perm; by apply elem_of_map_to_list].
  cbn in He. by apply bool_decide_eq_false in He.
Qed.

Lemma activeStream_Some groups wanted a :
  activeStream groups wanted = Some a → streamOf a = wanted ∧ ∃ key, groups !! key = Some a.
Proof.
  unfold activeStream. destruct (List.find _ _) as [[key b]|] eqn:He; [|done]. intros [= <-].
  apply List.find_some in He as [Hin%list_elem_of_In Hw]. rewrite range_perm in Hin.
  apply elem_of_map_to_list in Hin. apply bool_decide_eq_true in Hw. eauto.
Qed.

(** The limits leave room for the stream of a match. *)
Lemma within_limits_new p sub request groups m until now be :
  config_ok (po_profiles p) (po_subscribers p) → subscriber_ok sub → groups_ok p sub groups →
  grant p sub request m → limitsExceeded sub groups m = (false, be) →
  be && su_BandwidthEnforcement sub = false →
  streamRecord (newActive request m until now) ∉ streams groups →
  within_limits sub ({[streamRecord (newActive request m until now)]} ∪ streams groups).
Proof.
  intros Hc (_ & Hbw & Hnd & Hsp) [Hk Hg Hco [Hq Hqs]] Hgr Hle Hbe Ht. set (t := streamRecord _) in *.
  assert (measured (streams groups)) as HT by (by eapply granted_measured).
  assert (is_u 32 t.2) as Htb by (cbn; by eapply candidate_row, gr_row; [|apply Hgr|]).
  unfold limitsExceeded in Hle. rewrite !activeStreamCount_streams, !activeBandwidth_streams, within_None in Hle by done.
  unfold activePackageGroups in Hle.
  assert ((su_MaxSimultaneousGroups sub ≠ 0 → Z.of_nat (size (streams groups)) < su_MaxSimultaneousGroups sub) ∧
    (exceedsBandwidth (u64 (bandwidthOf (streams groups))) t.2 (su_MaxMulticastBandwidth sub) = true → be = true))
    as [H1 H2].
  { destruct (ma_service m); injection Hle as Hgx Hbx; [apply orb_false_iff in Hgx as [Hgx _]|];
      (split; [lia|cbn; intros Hx; rewrite Hx in Hbx; cbn in Hbx; congruence]). }
  split.
  - apply quota_add; [done..| |done]. intros He. rewrite He, andb_true_r in Hbe.
    destruct (exceedsBandwidth _ _ _); [|done]. rewrite H2 in Hbe; done.
  - intros service Hin. rewrite within_add. case_decide as Hi; [|by apply Hqs].
    destruct Hi as [|Hi]; [done|]. cbn in Hi.
    destruct (ma_service m) as [s|] eqn:Hs; [|done]. cbn in Hi. injection Hi as Hrow.
    assert (s = service) as -> by (eapply NoDup_fmap_inj; [exact Hnd|by eapply grant_service|done|done]).
    rewrite !activeStreamCount_streams, !activeBandwidth_streams in Hle by done.
    injection Hle as Hgx Hbx. apply orb_false_iff in Hgx as [_ Hgx].
    apply quota_add; [|done|by apply Hsp| | | |by apply Hqs].
    + eapply measured_subset; [apply within_subset|done].
    + intros Hx. by apply within_subset in Hx.
    + lia.
    + intros He. rewrite He, andb_true_r in Hbe. subst be. by apply orb_false_iff in Hbe as [_ ?].
Qed.

(** The deadline a membership gets: that of the match, or of the preview it starts. *)
Definition until_ok (m : policyMatch) (until : option Z) : Prop :=
  if decide (ma_reason m = ReasonPreview) then is_Some until else until = ma_previewUntil m.

Lemma groups_ok_new p (c : compiledSubscriber) request groups m until now be :
  let sub := co_subscriber c in
  config_ok (po_profiles p) (po_subscribers p) → subscriber_ok sub → groups_ok p sub groups →
  grant p sub request m → reason_ok c request now m → until_ok m until →
  activeStream groups (streamKeyOf request) = None → limitsExceeded sub groups m = (false, be) →
  be && su_BandwidthEnforcement sub = false →
  groups_ok p sub (<[activeKeyOf request := newActive request m until now]> groups).
Proof.
  intros sub Hc Hsub Hgo Hgr Hre Hu Hst Hle Hbe. pose proof Hgo as [Hk Hg Hco Hl].
  set (a := newActive request m until now). set (t := streamRecord a).
  assert (∀ u, u ∈ streams groups → u.1.1 ≠ t.1.1) as Hnew.
  { intros u (key & b & Hb & ->)%elem_of_streams. by eapply activeStream_None. }
  assert (streams (<[activeKeyOf request := a]> groups) ⊆ {[t]} ∪ streams groups) as Hsub'.
  { intros u (key & b & Hb & ->)%elem_of_streams. apply elem_of_union.
    apply lookup_insert_Some in Hb as [[_ <-]|[_ Hb]]; [left; by apply elem_of_singleton|].
    right. apply elem_of_streams. eauto. }
  assert (granted p sub a) as Hga.
  { destruct Hgr as [Hcand Hrow Hm]. exists (ma_profile m), (ma_service m), (ma_acl m). cbn.
    split_and!; try done. intros Hn. unfold reason_ok, until_ok in *.
    rewrite (proj2 (Z.eqb_neq _ _)) in Hre by done.
    destruct Hre as [[Hr Hp]|(Hr & allowed & Hin & Hp & Ha)]; rewrite Hr in Hu |- *; [by left; rewrite decide_True in Hu|].
    right. split; [done|]. exists allowed. split; [done|]. unfold allowedPreviewMatches in Ha.
    rewrite !andb_true_iff, !negb_true_iff, !orb_false_iff, !negb_false_iff in Ha.
    destruct Ha as [[[_ [Ha _]] _] _]. by apply bool_decide_eq_true in Ha. }
  assert (∀ key b, <[activeKeyOf request := a]> groups !! key = Some b → granted p sub b) as Hg'.
  { intros key b [[_ <-]|[_ Hb]]%lookup_insert_Some; [done|by eapply Hg]. }
  split; [|done| |].
  - intros key b [[<- <-]|[_ Hb]]%lookup_insert_Some; [done|by apply Hk].
  - eapply coherent_subset; [exact Hsub'|].
    intros u v [->%elem_of_singleton|Hu']%elem_of_union [->%elem_of_singleton|Hv]%elem_of_union Hq;
      [done|by destruct (Hnew _ Hv)|by destruct (Hnew _ Hu')|by apply Hco].
  - eapply within_limits_mono; [exact Hsub'| |].
    + intros u [->%elem_of_singleton|Hu']%elem_of_union; [|by apply (granted_measured p sub groups)].
      cbn. by eapply candidate_row; [|apply Hgr|apply Hgr].
    + eapply within_limits_new; [done..|]. intros Hin. by apply Hnew in Hin.
Qed.

(** ** Policies *)

Lemma policy_inv_withState p id c state :
  policy_inv p → po_subscribers p !! id = Some c → groups_ok p (co_subscriber c) (ss_groups state) →
  policy_inv (McPolicy.withState p id state).
Proof.
  intros [Hc Hg] Hl Hs. split; [done|]. intros id' state'. cbn.
  intros [[<- <-]|[_ Hst]]%lookup_insert_Some.
  - exists c. split; [done|]. by apply (groups_ok_profiles p).
  - apply Hg in Hst as (c' & ? & ?). exists c'. split; [done|]. by apply (groups_ok_profiles p).
Qed.

Lemma policy_inv_previews p previews : policy_inv p → policy_inv (withPreviews p previews).
Proof.
  intros [Hc Hg]. split; [done|]. intros id state Hs. apply Hg in Hs as (c & ? & ?).
  exists c. split; [done|]. by apply (groups_ok_profiles p).
Qed.

Lemma policy_inv_state p id c :
  policy_inv p → po_subscribers p !! id = Some c →
  groups_ok p (co_subscriber c) (ss_groups (default noSubscriberState (po_state p !! id))).
Proof.
  intros [Hc Hg] Hl. destruct (po_state p !! id) as [state|] eqn:Hs; cbn.
  - apply Hg in Hs as (c' & Hc' & ?). by simplify_eq.
  - apply groups_ok_empty. by eapply co_subscribers.
Qed.

Lemma expire_inv p now : policy_inv p → policy_inv (expire p now).2.
Proof.
  intros [Hc Hg]. split; [done|]. intros id state. cbn. rewrite lookup_fmap. intros Hs.
  destruct (po_state p !! id) as [old|] eqn:Ho; [|done]. injection Hs as <-. cbn.
  apply Hg in Ho as (c & Hcl & Hgo). exists c. split; [done|]. apply (groups_ok_profiles p); [done|].
  eapply groups_ok_subset; [done|apply map_filter_subseteq|done].
Qed.

(** A preview that starts has a deadline, and only the preview counters change. *)
Lemma startPreview_previews p offset id m request now d p' :
  startPreview p offset id m request now = (d, p') →
  (∃ previews, p' = withPreviews p previews) ∧ (de_Accepted d = true → is_Some (de_PreviewUntil d)).
Proof.
  unfold startPreview. cbv zeta. intros H. repeat case_match; apply pair_equal_spec in H as [<- <-].
  all: split; [by eexists|]; cbn; first [done|by eexists].
Qed.

Lemma admit_inv p offset request now c state m d p' :
  policy_inv p → po_subscribers p !! jn_SubscriberID request = Some c →
  groups_ok p (co_subscriber c) (ss_groups state) →
  grant p (co_subscriber c) request m → reason_ok c request now m →
  activeStream (ss_groups state) (streamKeyOf request) = None →
  admitJoin p offset request now (co_subscriber c) state m = (d, p') → policy_inv p'.
Proof.
  intros Hp Hl Hgo Hgr Hre Hst H. unfold admitJoin in H.
  destruct (limitsExceeded _ _ _) as [ge be] eqn:Hle. cbv zeta in H.
  set (state' := mkSubscriberState _ _ _) in H.
  assert (policy_inv (McPolicy.withState p (jn_SubscriberID request) state')) as Hp'.
  { by eapply policy_inv_withState. }
  destruct ge; [by apply pair_equal_spec in H as [_ <-]|].
  destruct (be && _) eqn:Hbe; [by apply pair_equal_spec in H as [_ <-]|].
  assert (subscriber_ok (co_subscriber c)) as Hsub by (eapply co_subscribers; [apply Hp|done]).
  assert (∀ deadline, until_ok m deadline → groups_ok p (co_subscriber c)
    (<[activeKeyOf request := newActive request m deadline now]> (ss_groups state))) as Hnew.
  { intros deadline Hu. eapply groups_ok_new; [apply Hp|done..]. }
  unfold until_ok in Hnew. case_bool_decide as Hpre.
  - destruct (startPreview _ _ _ _ _ _) as [pd p1] eqn:Hsp.
    apply startPreview_previews in Hsp as [[previews ->] Hu].
    destruct (de_Accepted pd); cbn [negb] in H; apply pair_equal_spec in H as [_ <-].
    + eapply policy_inv_withState; [by apply policy_inv_previews|done|].
      apply (groups_ok_profiles p); [done|]. apply Hnew. rewrite decide_True by done. by apply Hu.
    + by apply policy_inv_previews.
  - apply pair_equal_spec in H as [_ <-].
    eapply policy_inv_withState; [done|done|]. apply (groups_ok_profiles p); [done|]. apply Hnew. by rewrite decide_False by done.
Qed.

Lemma join_inv p offset request now d p' :
  policy_inv p → join p offset request now = (d, p') → policy_inv p'.
Proof.
  intros Hp%(expire_inv _ now). unfold join. generalize dependent (expire p now).2. clear p. intros p Hp H.
  cbv zeta in H. destruct (po_subscribers p !! _) as [c|] eqn:Hl; [|by apply pair_equal_spec in H as [_ <-]].
  destruct (validJoin request); cbn [negb] in H; [|by apply pair_equal_spec in H as [_ <-]].
  pose proof (policy_inv_state _ _ _ Hp Hl) as Hgo.
  set (state := default noSubscriberState _) in *. pose proof (pi_config _ Hp) as Hc.
  destruct (ss_groups state !! _) as [a|] eqn:Ha.
  { apply pair_equal_spec in H as [_ <-]. eapply policy_inv_withState; [done..|]. cbn.
    pose proof (groups_ok_again p _ _ _ _ None now Hc Ha Hgo) as Hag. cbn in Hag.
    by rewrite <- (go_key _ _ _ Hgo _ _ Ha) in Hag. }
  destruct (activeStream _ _) as [a|] eqn:Hs.
  { apply pair_equal_spec in H as [_ <-]. eapply policy_inv_withState; [done..|]. cbn.
    apply activeStream_Some in Hs as [Hw [key Hk]].
    pose proof (groups_ok_again p _ _ _ _ (Some (jn_Client request)) now Hc Hk Hgo) as Hag.
    cbn [default from_option id] in Hag. by rewrite Hw in Hag. }
  assert (policy_inv (McPolicy.withState p (jn_SubscriberID request) state)) as Hp'.
  { by eapply policy_inv_withState. }
  destruct (matchRequest _ _ _ _) as [[[m|] forward] id] eqn:Hm; [|by apply pair_equal_spec in H as [_ <-]].
  apply matchRequest_sound in Hm as [Hgr Hre].
  eapply admit_inv; [exact Hp'| | | | | |exact H]; try done. by apply (groups_ok_profiles p).
Qed.
End admission.

(** ** Running policies *)

Section policies.
Context {MR : MapRange}.

(** What the multicast daemon does with a policy, at any times. *)
Inductive policy_step (offset : Z) : relation Policy :=
| ps_join p request now d p' : join p offset request now = (d, p') → policy_step offset p p'
| ps_leave p request left p' : leave p request = (left, p') → policy_step offset p p'
| ps_expire p now expired p' : expire p now = (expired, p') → policy_step offset p p'
| ps_monitor p id now report p' : monitor p id now = (report, p') → policy_step offset p p'
| ps_preserve p previous : policy_step offset p (preserveExpiries previous p).

Definition policy_run (offset : Z) (config : Config) (p : Policy) : Prop :=
  ∃ now p0, NewPolicy config now = Ok p0 ∧ rtc (policy_step offset) p0 p.

Lemma joining offset p request now : policy_step offset p (join p offset request now).2.
Proof. apply (ps_join offset p request now (join p offset request now).1). apply surjective_pairing. Qed.

Lemma leave_inv p request left p' : policy_inv p → leave p request = (left, p') → policy_inv p'.
Proof.
  intros Hp H. unfold leave in H. cbv zeta in H.
  destruct (po_state p !! _) as [state|] eqn:Hs; [|by apply pair_equal_spec in H as [_ <-]].
  pose proof (pi_groups _ Hp _ _ Hs) as (c & Hc & Hgo).
  assert (∀ groups, groups ⊆ ss_groups state → policy_inv (McPolicy.withState p (jn_SubscriberID request)
    (mkSubscriberState groups (ss_joinMessages state) (ss_bandwidthExceeded state)))) as Hsub.
  { intros groups Hg. eapply policy_inv_withState; [done..|]. eapply groups_ok_subset; [apply Hp|done..]. }
  destruct (IsValid _); [destruct (ss_groups state !! _)|]; apply pair_equal_spec in H as [_ <-]; [|done|].
  - apply Hsub, delete_subseteq.
  - apply Hsub, map_filter_subseteq.
Qed.

Lemma preserveExpiries_subscriber previous p id c :
  po_subscribers (preserveExpiries previous p) !! id = Some c →
  ∃ c0, po_subscribers p !! id = Some c0 ∧ co_subscriber c = co_subscriber c0.
Proof.
  cbn. rewrite map_lookup_imap. destruct (po_subscribers p !! id) as [c0|]; cbn; [|done].
  intros H. exists c0. split; [done|]. by destruct (po_subscribers previous !! id); injection H as <-.
Qed.

Lemma preserveExpiries_inv previous p : policy_inv p → policy_inv (preserveExpiries previous p).
Proof.
  intros [[Hp Hs] Hg]. split; [split; [exact Hp|]|].
  - intros id c (c0 & H0 & ->)%preserveExpiries_subscriber. by eapply Hs.
  - intros id state (c & Hc & Hgo)%Hg.
    destruct (po_subscribers (preserveExpiries previous p) !! id) as [c'|] eqn:He.
    + exists c'. split; [done|]. apply preserveExpiries_subscriber in He as (c0 & H0 & ->).
      replace c0 with c by congruence. by apply (groups_ok_profiles p).
    + exfalso. cbn in He. rewrite map_lookup_imap, Hc in He. cbn in He. by destruct (po_subscribers previous !! id).
Qed.

Lemma policy_run_inv offset config p : config_typed config → policy_run offset config p → policy_inv p.
Proof.
  intros Ht (now & p0 & Hn & Hr).
  assert (policy_inv p0) as H0.
  { unfold NewPolicy in Hn. inv_ok Hn. subst p0. destruct x as [profiles subscribers].
    split; [by eapply compile_ok|]. intros id state. cbn. by rewrite lookup_empty. }
  clear Hn. induction Hr as [|p1 p2 p3 Hstep _ IH]; [done|]. apply IH. clear IH.
  destruct Hstep as [p request now' d p' H|p request left p' H|p now' expired p' H|p id now' report p' H|p previous].
  - by eapply join_inv.
  - by eapply leave_inv.
  - pose proof (expire_inv p now' H0) as He. by rewrite H in He.
  - pose proof (expire_inv p now' H0) as He. unfold monitor in H. cbv zeta in H.
    destruct (po_state _ !! _); by apply pair_equal_spec in H as [_ <-].
  - by apply preserveExpiries_inv.
Qed.

(** C29: Whatever joins, leaves, expirations and reports come, the streams a subscriber
    receives never exceed its group limit nor the group limit of one of its service packages,
    and under enforcement neither the bandwidth limit of the subscriber nor that of a package;
    a stream counts once, however many clients receive it. *)
Theorem policy_limits offset config p id state :
  config_typed config → policy_run offset config p → po_state p !! id = Some state →
  ∃ c, po_subscribers p !! id = Some c ∧ within_limits (co_subscriber c) (streams (ss_groups state)).
Proof.
  intros Ht Hr Hs. apply policy_run_inv in Hr; [|done].
  apply (pi_groups _ Hr) in Hs as (c & Hc & Hgo). exists c. split; [done|apply Hgo].
Qed.

(** The counters the policy compares with its limits are, in whatever order Go ranges
    over the groups, the number of distinct streams and the sum of their bandwidths, of all
    groups or of one service package. *)
Theorem policy_accounting offset config p id state package :
  config_typed config → policy_run offset config p → po_state p !! id = Some state →
  let T := within package (streams (ss_groups state)) in
  activeStreamCount (ss_groups state) package = Z.of_nat (size T) ∧
  activeBandwidth (ss_groups state) package = u64 (bandwidthOf T).
Proof.
  intros Ht Hr Hs T. apply policy_run_inv in Hr; [|done].
  apply (pi_groups _ Hr) in Hs as (c & Hc & [_ _ Hco _]).
  split; [by apply activeStreamCount_streams|by apply activeBandwidth_streams].
Qed.

(** ** The answers of Join *)

Definition groupsOf (p : Policy) (id : Z) : gmap activeKey activeState :=
  ss_groups (default noSubscriberState (po_state p !! id)).

(** What an answer forwards. *)
Definition forwards (d : Decision_) (a : activeState) : Prop :=
  let g := as_group a in
  de_GEMPortID d = ag_GEMPortID g ∧ de_ANIVLAN d = ag_ANIVLAN g ∧ de_ImputedBandwidth d = ag_ImputedBandwidth g ∧
  de_ProfileID d = ag_ProfileID g ∧ de_ACLRowKey d = ag_ACLRowKey g ∧ de_PreviewUntil d = ag_PreviewUntil g.

(** The answer [d] of a join of [request] that took [p] to [p']. *)
Definition answers (p p' : Policy) (request : Join) (d : Decision_) : Prop :=
  if de_Accepted d
  then po_subscribers p' = po_subscribers p ∧
       ∃ a, groupsOf p' (jn_SubscriberID request) !! activeKeyOf request = Some a ∧ forwards d a
  else ∀ id, groupsOf p' id = groupsOf p id.

Lemma groupsOf_withState p id state id' :
  groupsOf (McPolicy.withState p id state) id' = if decide (id = id') then ss_groups state else groupsOf p id'.
Proof. unfold groupsOf. cbn. case_decide as Hd; [subst; by rewrite lookup_insert_eq|by rewrite lookup_insert_ne]. Qed.

Lemma groupsOf_keep p id groups joins exceeded id' :
  groups = groupsOf p id → groupsOf (McPolicy.withState p id (mkSubscriberState groups joins exceeded)) id' = groupsOf p id'.
Proof. intros ->. rewrite groupsOf_withState. by case_decide as Hd; [subst|]. Qed.

(** The acceptance of a membership that is stored. *)
Lemma answers_stored p0 p request a reason exceeded joins count :
  po_subscribers p = po_subscribers p0 →
  answers p0 (McPolicy.withState p (jn_SubscriberID request)
                (mkSubscriberState (<[activeKeyOf request := a]>
                   (ss_groups (default noSubscriberState (po_state p0 !! jn_SubscriberID request)))) joins count))
    request (withBandwidthExceeded (decisionFromActive a reason) exceeded).
Proof.
  intros Hs. split; [done|]. exists a. split; [|done]. rewrite groupsOf_withState, decide_True by done.
  cbn [ss_groups]. by rewrite lookup_insert_eq.
Qed.

Lemma admit_answers p0 p offset request now sub m d p' :
  po_subscribers p = po_subscribers p0 → (∀ id, groupsOf p id = groupsOf p0 id) →
  admitJoin p offset request now sub (default noSubscriberState (po_state p0 !! jn_SubscriberID request)) m = (d, p') →
  answers p0 p' request d.
Proof.
  intros Hs Hg H. unfold admitJoin in H. destruct (limitsExceeded _ _ _) as [ge be]. cbv zeta in H.
  set (p1 := McPolicy.withState p _ _) in H.
  assert (∀ id, groupsOf p1 id = groupsOf p0 id) as Hp1.
  { intros id. rewrite <- Hg. apply groupsOf_keep. by rewrite Hg. }
  destruct ge; [by apply pair_equal_spec in H as [<- <-]|].
  destruct (be && _); [by apply pair_equal_spec in H as [<- <-]|].
  case_bool_decide; [destruct (startPreview _ _ _ _ _ _) as [pd p2] eqn:Hsp|].
  - apply startPreview_previews in Hsp as [[previews ->] _].
    destruct (de_Accepted pd) eqn:Ha; cbn [negb] in H; apply pair_equal_spec in H as [<- <-].
    + by apply answers_stored.
    + unfold answers. cbn [de_Accepted withBandwidthExceeded]. rewrite Ha. exact Hp1.
  - apply pair_equal_spec in H as [<- <-]. by apply answers_stored.
Qed.

Lemma join_answers p offset request now d p' :
  join p offset request now = (d, p') → answers (expire p now).2 p' request d.
Proof.
  unfold join. generalize (expire p now).2. clear p. intros p H. cbv zeta in H.
  destruct (po_subscribers p !! _) as [c|] eqn:Hl; [|by apply pair_equal_spec in H as [<- <-]].
  destruct (validJoin request); cbn [negb] in H; [|by apply pair_equal_spec in H as [<- <-]].
  destruct (ss_groups _ !! _) as [a|].
  { apply pair_equal_spec in H as [<- <-]. by apply (answers_stored p p request (rejoined a None now) _ false). }
  destruct (activeStream _ _) as [a|].
  { apply pair_equal_spec in H as [<- <-].
    by apply (answers_stored p p request (rejoined a (Some (jn_Client request)) now) _ false). }
  assert (∀ id, groupsOf (McPolicy.withState p (jn_SubscriberID request)
    (default noSubscriberState (po_state p !! jn_SubscriberID request))) id = groupsOf p id) as Hg.
  { intros id. rewrite groupsOf_withState. case_decide as Hd; [|done]. by subst. }
  destruct (matchRequest _ _ _ _) as [[[m|] forward] id]; [by eapply admit_answers in H|].
  by apply pair_equal_spec in H as [<- <-].
Qed.

(** C30: A join is accepted only with a membership of the requested stream, for the requesting
    client, that a row of a dynamic access control list of the subscriber grants for that
    source, group and VLAN, and the answer forwards what the row says; a join that is not
    accepted adds no membership to any subscriber. *)
Theorem join_authorized offset config p request now d p' :
  config_typed config → policy_run offset config p → join p offset request now = (d, p') →
  if de_Accepted d
  then ∃ c a, po_subscribers p !! jn_SubscriberID request = Some c ∧
         groupsOf p' (jn_SubscriberID request) !! activeKeyOf request = Some a ∧
         streamOf a = streamKeyOf request ∧ ag_Client (as_group a) = jn_Client request ∧
         granted p' (co_subscriber c) a ∧ forwards d a
  else ∀ id, groupsOf p' id = groupsOf (expire p now).2 id.
Proof.
  intros Ht Hr Hj. apply policy_run_inv in Hr; [|done]. pose proof (join_inv _ _ _ _ _ _ Hr Hj) as Hp'.
  apply join_answers in Hj. unfold answers in Hj. destruct (de_Accepted d); [|done].
  destruct Hj as (Hs & a & Ha & Hf). change (po_subscribers (expire p now).2) with (po_subscribers p) in Hs.
  unfold groupsOf in Ha. destruct (po_state p' !! _) as [state|] eqn:Hst; cbn in Ha; [|by rewrite lookup_empty in Ha].
  destruct (pi_groups _ Hp' _ _ Hst) as (c & Hc & Hgo). exists c, a. rewrite <- Hs.
  pose proof (go_key _ _ _ Hgo _ _ Ha) as Hk. injection Hk as Hk1 Hk2 Hk3 Hk4 Hk5.
  split_and!; [done| | |done|by eapply go_granted|done].
  - unfold groupsOf. by rewrite Hst.
  - unfold streamOf, streamKeyOf. cbv zeta. congruence.
Qed.
End policies.

(** ** A sample policy, for the witnesses

    One subscriber of one profile, with room for one stream: the groups 239.0.0.0 to
    239.0.0.255 are granted, those of 239.0.1.0 to 239.0.1.255 as previews of a minute. *)

Definition sampleRow (key start stop preview : Z) : ACLEntry :=
  mkACLEntry key 4 100 200 NoAddr (V4 start) (V4 stop) 1000 preview 60 2 0.
Definition sampleProfile : Profile :=
  mkProfile 1 3 0 false 0 0 0 2 0 125 100 10 false 0 0
    [sampleRow 2 0xef000100 0xef0001ff 60; sampleRow 1 0xef000000 0xef0000ff 0] [].
Definition sampleSubscriber : Subscriber := mkSubscriber 7 [] 1 1 5000 true [] [].
Definition sampleConfig : Config := mkConfig [sampleProfile] [sampleSubscriber].
Definition samplePolicy : Policy :=
  match NewPolicy sampleConfig 0 with Ok p => p | Err _ => mkPolicy ∅ ∅ ∅ ∅ end.
Definition sampleJoin (group client : Z) : Join := mkJoin 7 "eth0" (true, 30) (V4 0) (V4 group) (V4 client).
Definition sampleJoined : Decision_ * Policy := @join canonical_range samplePolicy 0 (sampleJoin 0xef000001 1) 0.
Definition sampleSecond : Decision_ * Policy := @join canonical_range sampleJoined.2 0 (sampleJoin 0xef000001 2) second.
Definition sampleRefused : Decision_ * Policy := @join canonical_range sampleSecond.2 0 (sampleJoin 0xef000102 1) second.

Lemma sampleConfig_typed : config_typed sampleConfig.
Proof.
  split.
  - intros profile acl ->%list_elem_of_singleton. cbn [pr_DynamicACL sampleProfile].
    intros [-> | ->%list_elem_of_singleton]%elem_of_cons; by_decide.
  - intros sub ->%list_elem_of_singleton. split_and!; [by_decide..|]. by intros service ?%elem_of_nil.
Qed.

Lemma sampleSecond_run : @policy_run canonical_range 0 sampleConfig sampleSecond.2.
Proof.
  exists 0, samplePolicy. split; [vm_compute; reflexivity|].
  apply (rtc_l _ _ sampleJoined.2); [exact (joining 0 samplePolicy _ 0)|].
  apply rtc_once. exact (joining 0 sampleJoined.2 _ second).
Qed.

(** Two clients receive the one stream the subscriber has room for; a second stream is refused. *)
Lemma policy_limits_witness :
  let state := default noSubscriberState (po_state sampleSecond.2 !! 7) in
  size (ss_groups state) = 2%nat ∧ de_Reason sampleRefused.1 = ReasonGroupLimit ∧
  ∃ c, po_subscribers sampleSecond.2 !! 7 = Some c ∧ within_limits (co_subscriber c) (streams (ss_groups state)).
Proof.
  split; [vm_compute; reflexivity|]. split; [vm_compute; reflexivity|].
  apply (@policy_limits canonical_range 0 sampleConfig sampleSecond.2 7);
    [apply sampleConfig_typed|apply sampleSecond_run|vm_compute; reflexivity].
Defined.

Lemma policy_accounting_witness :
  let state := default noSubscriberState (po_state sampleSecond.2 !! 7) in
  @activeStreamCount canonical_range (ss_groups state) None = 1 ∧
  @activeStreamCount canonical_range (ss_groups state) None = Z.of_nat (size (within None (streams (ss_groups state)))) ∧
  @activeBandwidth canonical_range (ss_groups state) None = u64 (bandwidthOf (within None (streams (ss_groups state)))).
Proof.
  split; [vm_compute; reflexivity|].
  apply (@policy_accounting canonical_range 0 sampleConfig sampleSecond.2 7);
    [apply sampleConfig_typed|apply sampleSecond_run|vm_compute; reflexivity].
Defined.

Lemma join_authorized_witness :
  de_Accepted sampleSecond.1 = true ∧ de_Accepted sampleRefused.1 = false ∧
  ∀ id, groupsOf sampleRefused.2 id = groupsOf (@expire canonical_range sampleSecond.2 second).2 id.
Proof.
  split; [vm_compute; reflexivity|]. split; [vm_compute; reflexivity|].
  assert (de_Accepted sampleRefused.1 = false) as Hd by (vm_compute; reflexivity).
  pose proof (@join_authorized canonical_range 0 sampleConfig sampleSecond.2 (sampleJoin 0xef000102 1) second
                sampleRefused.1 sampleRefused.2 sampleConfig_typed sampleSecond_run (surjective_pairing _)) as Hj.
  rewrite Hd in Hj. exact Hj.
Defined.
