(* ===== verification/McReport.v ===== *)
(** * Multicast: IGMP and MLD frames

    src/internal/multicast/report.go, report_build.go and query_build.go: the parser of the
    Ethernet frames that carry IGMPv1 to IGMPv3 and MLDv1 and MLDv2 messages, and the builders
    of upstream reports and downstream queries.  McReportProps.v shows that the parser reads
    back what the builders write. *)

From S2P Require Import Prelude Maps Netip McPolicy.

(** ** Messages *)

(** An error of the parser: not a membership message ([ErrNotMembership]), or a bad one. *)
Inductive MembershipError := ErrNotMembership | Malformed.
#[export] Instance MembershipError_eq_dec : EqDecision MembershipError.
Proof. solve_decision. Defined.

Inductive MessageKind := NoMessage | MessageQuery | MessageReport.
#[export] Instance MessageKind_eq_dec : EqDecision MessageKind.
Proof. solve_decision. Defined.

Definition ModeIsInclude : Z := 1.
Definition ModeIsExclude : Z := 2.
Definition ChangeToIncludeMode : Z := 3.
Definition ChangeToExcludeMode : Z := 4.
Definition AllowNewSources : Z := 5.
Definition BlockOldSources : Z := 6.

(** The record of a query has the zero type. *)
Record MembershipRecord := mkRecord {
  mr_Type : Z;
  mr_Group : Addr;
  mr_Sources : list Addr
}.

Record VLANTag := mkTag { TPID : Z; TCI : Z }.
#[export] Instance VLANTag_eq_dec : EqDecision VLANTag.
Proof. solve_decision. Defined.

Record MembershipMessage := mkMessage {
  mm_Kind : MessageKind;
  mm_Version : Z;
  mm_Downstream : bool;
  mm_VLAN : VLAN;
  mm_Client : Addr;
  mm_SourceMAC : list Z;
  mm_DestinationMAC : list Z;
  mm_QueryRobustness : Z;
  mm_QueryInterval : Z;
  mm_QueryMaxResponseTime : Z;
  mm_Tags : list VLANTag;
  mm_Records : list MembershipRecord
}.

(** The message after its Ethernet header, and its client and contents filled in. *)
Definition linkMessage (source destination : list Z) (vlan : VLAN) (tags : list VLANTag) : MembershipMessage :=
  mkMessage NoMessage 0 false vlan NoAddr source destination 0 0 0 tags [].
Definition withContents (m : MembershipMessage) (kind : MessageKind) (version : Z) (client : Addr)
    (robustness interval response : Z) (records : list MembershipRecord) : MembershipMessage :=
  mkMessage kind version (mm_Downstream m) (mm_VLAN m) client (mm_SourceMAC m) (mm_DestinationMAC m)
    robustness interval response (mm_Tags m) records.

(** ** Checksums *)

(** The loop over the 16-bit words, on a [uint32]. *)
Fixpoint sumWords (data : list Z) (sum : Z) : Z :=
  match data with
  | a :: b :: data => sumWords data (u32 (sum + be [a; b]))
  | [a] => u32 (sum + u32 (Z.shiftl a 8))
  | [] => sum
  end.

(** [for sum>>16 != 0]; two rounds are enough for a [uint32], the third sees there is no carry left. *)
Fixpoint foldCarry (fuel : nat) (sum : Z) : Z :=
  match fuel with
  | O => sum
  | S fuel =>
      if Z.shiftr sum 16 =? 0 then sum
      else foldCarry fuel (u32 (Z.land sum 0xffff + Z.shiftr sum 16))
  end.

Definition internetChecksum (data : list Z) : Z :=
  Z.lxor (u16 (foldCarry 3 (sumWords data 0))) 0xffff.

Definition icmpv6Checksum (source destination payload : list Z) : Z :=
  internetChecksum (source ++ destination ++ put_be 4 (u32 (Z.of_nat (length payload))) ++ [0; 0; 0; 58] ++ payload).

(** ** Floating-point codes of IGMPv3 and MLDv2 *)

Definition decodeFloating8 (code : Z) : Z :=
  if code <? 128 then code
  else
    let exponent := u32 (Z.land (Z.shiftr code 4) 7 + 3) in
    let mantissa := Z.lor (Z.land code 15) 16 in
    u32 (Z.shiftl mantissa exponent).

Definition encodeFloating8 (value : Z) : Z :=
  if value <? 128 then u8 value
  else default 255 (List.find (λ code, value <=? decodeFloating8 code) (seqZ 128 128)).

Definition decodeFloating16 (code : Z) : Z :=
  if code <? 0x8000 then code
  else
    let exponent := u64 (Z.land (Z.shiftr code 12) 7 + 3) in
    let mantissa := Z.lor (Z.land code 0x0fff) 0x1000 in
    u64 (Z.shiftl mantissa exponent).

Definition encodeFloating16 (value : Z) : Z :=
  if value <? 0x8000 then u16 value
  else default 0xffff (List.find (λ code, value <=? decodeFloating16 code) (seqZ 0x8000 0x8000)).

(** ** Parsing *)

(** [count] addresses of [size] octets from [start]. *)
Definition readSources (size : nat) (from : list Z → Addr) (payload : list Z) (start count : nat) : list Addr :=
  map (λ index, from (slice payload (start + index * size) (start + index * size + size))) (seq 0 count).

(** The record loop of [parseIGMPv3Records] and [parseMLDv2Records], for addresses of [size]
    octets. *)
Fixpoint parseRecords (size : nat) (from : list Z → Addr) (payload : list Z) (count offset : nat)
    (records : list MembershipRecord) : Res MembershipError (list MembershipRecord) :=
  match count with
  | O => if (offset =? length payload)%nat then Ok records else Err Malformed
  | S count =>
      _ ← guard_err (length payload - offset <? 4 + size)%nat Malformed;
      let typeValue := nth8 payload offset in
      _ ← guard_err ((typeValue <? ModeIsInclude) || (BlockOldSources <? typeValue)) Malformed;
      let auxLength := (Z.to_nat (nth8 payload (offset + 1)) * 4)%nat in
      let sourceCount := Z.to_nat (Uint16 payload (offset + 2)) in
      let recordLength := (4 + size + sourceCount * size + auxLength)%nat in
      _ ← guard_err (length payload - offset <? recordLength)%nat Malformed;
      let group := from (slice payload (offset + 4) (offset + 4 + size)) in
      _ ← guard_err (negb (IsMulticast group)) Malformed;
      parseRecords size from payload count (offset + recordLength)
        (records ++ [mkRecord typeValue group (readSources size from payload (offset + 4 + size) sourceCount)])
  end.

Definition parseReportRecords (size : nat) (from : list Z → Addr) (payload : list Z)
    : Res MembershipError (list MembershipRecord) :=
  _ ← guard_err (length payload <? 8)%nat Malformed;
  parseRecords size from payload (Z.to_nat (Uint16 payload 6)) 8 [].

Definition parseIGMPv3Records (payload : list Z) : Res MembershipError (list MembershipRecord) :=
  parseReportRecords 4 AddrFrom4 payload.
Definition parseMLDv2Records (payload : list Z) : Res MembershipError (list MembershipRecord) :=
  parseReportRecords 16 AddrFrom16 payload.

(** The case of type 0x11 of [parseIGMP]. *)
Definition parseIGMPQuery (payload : list Z) (client : Addr) (result : MembershipMessage)
    : Res MembershipError MembershipMessage :=
  let group := AddrFrom4 (slice payload 4 8) in
  _ ← guard_err (negb (bool_decide (group = V4 0)) && negb (IsMulticast group)) Malformed;
  if (length payload =? 8)%nat then
    if nth8 payload 1 =? 0
    then Ok (withContents result MessageQuery 1 client 0 0 0 [mkRecord 0 group []])
    else Ok (withContents result MessageQuery 2 client 0 0 (nth8 payload 1) [mkRecord 0 group []])
  else
    _ ← guard_err (length payload <? 12)%nat Malformed;
    let sourceCount := Z.to_nat (Uint16 payload 10) in
    _ ← guard_err (negb (length payload =? 12 + sourceCount * 4)%nat) Malformed;
    Ok (withContents result MessageQuery 3 client (Z.land (nth8 payload 8) 7)
          (decodeFloating8 (nth8 payload 9)) (decodeFloating8 (nth8 payload 1))
          [mkRecord 0 group (readSources 4 AddrFrom4 payload 12 sourceCount)]).

(** [parseIGMP] from the IGMP payload on. *)
Definition parseIGMPPayload (payload : list Z) (client : Addr) (result : MembershipMessage)
    : Res MembershipError MembershipMessage :=
  _ ← guard_err (negb (internetChecksum payload =? 0)) Malformed;
  let kind := nth8 payload 0 in
  if kind =? 0x11 then parseIGMPQuery payload client result
  else if (kind =? 0x12) || (kind =? 0x16) || (kind =? 0x17) then
    let group := AddrFrom4 (slice payload 4 8) in
    _ ← guard_err (negb (IsMulticast group)) Malformed;
    let version := if kind =? 0x12 then 1 else 2 in
    let recordType := if kind =? 0x17 then ChangeToIncludeMode else ModeIsExclude in
    Ok (withContents result MessageReport version client 0 0 0 [mkRecord recordType group []])
  else if kind =? 0x22 then
    records ← parseIGMPv3Records payload;
    Ok (withContents result MessageReport 3 client 0 0 0 records)
  else Err ErrNotMembership.

Definition parseIGMP (packet : list Z) (result : MembershipMessage) : Res MembershipError MembershipMessage :=
  _ ← guard_err ((length packet <? 20)%nat || negb (Z.shiftr (nth8 packet 0) 4 =? 4)) Malformed;
  let headerLength := (Z.to_nat (Z.land (nth8 packet 0) 0x0f) * 4)%nat in
  let totalLength := Z.to_nat (Uint16 packet 2) in
  _ ← guard_err ((headerLength <? 20) || (totalLength <? headerLength + 8) || (length packet <? totalLength))%nat
        Malformed;
  _ ← guard_err (negb (nth8 packet 9 =? 2)) ErrNotMembership;
  _ ← guard_err (negb (Z.land (Uint16 packet 6) 0x3fff =? 0)) Malformed;
  parseIGMPPayload (slice packet headerLength totalLength) (AddrFrom4 (slice packet 12 16)) result.

(** The loop over the IPv6 extension headers: the upper-layer header and its offset.  [None] is
    the end of the fuel; every round advances by at least eight octets ([skipExtensions_total] in McReportProps). *)
Fixpoint skipExtensions (fuel : nat) (packet : list Z) (end_ offset : nat) (nextHeader : Z)
    : option (Res MembershipError (Z * nat)) :=
  match fuel with
  | O => None
  | S fuel =>
      if (nextHeader =? 0) || (nextHeader =? 43) || (nextHeader =? 60) then
        if (end_ - offset <? 8)%nat then Some (Err Malformed)
        else
          let length := (Z.to_nat (nth8 packet (offset + 1) + 1) * 8)%nat in
          if (end_ - offset <? length)%nat then Some (Err Malformed)
          else skipExtensions fuel packet end_ (offset + length) (nth8 packet offset)
      else Some (Ok (nextHeader, offset))
  end.

(** The case of type 130 of [parseMLD]. *)
Definition parseMLDQuery (payload : list Z) (client : Addr) (result : MembershipMessage)
    : Res MembershipError MembershipMessage :=
  _ ← guard_err (length payload <? 24)%nat Malformed;
  let group := AddrFrom16 (slice payload 8 24) in
  _ ← guard_err (negb (bool_decide (group = V6 0 "")) && negb (IsMulticast group)) Malformed;
  if (length payload =? 24)%nat then
    let milliseconds := Uint16 payload 4 in
    Ok (withContents result MessageQuery 16 client 0 0 (u32 (milliseconds + 99) / 100) [mkRecord 0 group []])
  else
    _ ← guard_err (length payload <? 28)%nat Malformed;
    let sourceCount := Z.to_nat (Uint16 payload 26) in
    _ ← guard_err (negb (length payload =? 28 + sourceCount * 16)%nat) Malformed;
    let milliseconds := decodeFloating16 (Uint16 payload 4) in
    Ok (withContents result MessageQuery 17 client (Z.land (nth8 payload 24) 7)
          (decodeFloating8 (nth8 payload 25)) (u32 (Z.min (u64 (milliseconds + 99) / 100) 0xffffffff))
          [mkRecord 0 group (readSources 16 AddrFrom16 payload 28 sourceCount)]).

(** [parseMLD] from the ICMPv6 payload on. *)
Definition parseICMPv6 (packet payload : list Z) (result : MembershipMessage)
    : Res MembershipError MembershipMessage :=
  _ ← guard_err (length payload <? 8)%nat Malformed;
  let source := slice packet 8 24 in
  let destination := slice packet 24 40 in
  _ ← guard_err (negb (icmpv6Checksum source destination payload =? 0)) Malformed;
  let client := AddrFrom16 source in
  let kind := nth8 payload 0 in
  if kind =? 130 then parseMLDQuery payload client result
  else if (kind =? 131) || (kind =? 132) then
    _ ← guard_err (negb (length payload =? 24)%nat) Malformed;
    let group := AddrFrom16 (slice payload 8 24) in
    _ ← guard_err (negb (IsMulticast group)) Malformed;
    let recordType := if kind =? 132 then ChangeToIncludeMode else ModeIsExclude in
    Ok (withContents result MessageReport 16 client 0 0 0 [mkRecord recordType group []])
  else if kind =? 143 then
    records ← parseMLDv2Records payload;
    Ok (withContents result MessageReport 17 client 0 0 0 records)
  else Err ErrNotMembership.

Definition parseMLD (packet : list Z) (result : MembershipMessage) : Res MembershipError MembershipMessage :=
  _ ← guard_err ((length packet <? 48)%nat || negb (Z.shiftr (nth8 packet 0) 4 =? 6)) Malformed;
  let payloadLength := Z.to_nat (Uint16 packet 4) in
  _ ← guard_err (length packet <? payloadLength + 40)%nat Malformed;
  let end_ := (40 + payloadLength)%nat in
  '(nextHeader, offset) ← default (Err Malformed) (skipExtensions (S payloadLength) packet end_ 40 (nth8 packet 6));
  _ ← guard_err (nextHeader =? 44) Malformed;
  _ ← guard_err (negb (nextHeader =? 58)) ErrNotMembership;
  parseICMPv6 packet (slice packet offset end_) result.

Definition isTagType (etherType : Z) : bool :=
  (etherType =? 0x8100) || (etherType =? 0x88a8) || (etherType =? 0x9100).

(** The loop over the VLAN headers, of which [remaining] are still accepted. *)
Fixpoint parseTags (remaining : nat) (frame : list Z) (offset : nat) (etherType : Z) (tags : list VLANTag)
    : Res MembershipError (list VLANTag * nat * Z) :=
  if isTagType etherType then
    match remaining with
    | O => Err Malformed
    | S remaining =>
        _ ← guard_err (length frame <? offset + 4)%nat Malformed;
        parseTags remaining frame (offset + 4) (Uint16 frame (offset + 2))
          (tags ++ [mkTag etherType (Uint16 frame offset)])
    end
  else Ok (tags, offset, etherType).

(** The VLAN of a frame is that of its first tag. *)
Definition vlanOf (tags : list VLANTag) : VLAN :=
  match tags with [] => (false, 0) | tag :: _ => (true, Z.land (TCI tag) 0x0fff) end.

Definition ParseMembershipFrame (frame : list Z) : Res MembershipError MembershipMessage :=
  _ ← guard_err (length frame <? 14)%nat Malformed;
  '(tags, offset, etherType) ← parseTags 2 frame 14 (Uint16 frame 12) [];
  let result := linkMessage (slice frame 6 12) (slice frame 0 6) (vlanOf tags) tags in
  if etherType =? 0x0800 then parseIGMP (drop offset frame) result
  else if etherType =? 0x86dd then parseMLD (drop offset frame) result
  else Err ErrNotMembership.

(** ** Building reports *)

Record UpstreamReport := mkReport {
  ur_Join : bool;
  ur_Subscriber : Subscriber;
  ur_Attachment : Attachment;
  ur_Profile : Profile;
  ur_Group : ActiveGroup;
  ur_SourceMAC : list Z;
  ur_Tags : list VLANTag
}.

(** [AsSlice] of a valid address. *)
Definition AsSlice (a : Addr) : list Z :=
  match a with NoAddr => [] | V4 _ => As4 a | V6 _ _ => As16 a end.

Definition routerAlert4 : list Z := [0x94; 0x04; 0x00; 0x00].
Definition allRouters4 : Addr := V4 0xe0000002.
Definition igmpRouters : Addr := V4 0xe0000016.
Definition allHosts4 : Addr := V4 0xe0000001.
Definition allRouters6 : Addr := V6 0xff020000000000000000000000000002 "".
Definition mldRouters : Addr := V6 0xff020000000000000000000000000016 "".
Definition allNodes6 : Addr := V6 0xff020000000000000000000000000001 "".

(** The IPv4 header with the Router Alert option, its checksum filled in, and the message. *)
Definition ipv4Packet (client destination igmp : list Z) : list Z :=
  let ip := [0x46; 0] ++ put_be 2 (u16 (Z.of_nat (24 + length igmp))) ++ [0; 0; 0; 0; 1; 2; 0; 0] ++
            client ++ destination ++ routerAlert4 in
  put_at ip 10 (put_be 2 (internetChecksum ip)) ++ igmp.

(** The IPv6 header with the hop-by-hop Router Alert and the message. *)
Definition ipv6Packet (source destination icmp : list Z) : list Z :=
  [0x60; 0; 0; 0] ++ put_be 2 (u16 (Z.of_nat (8 + length icmp))) ++ [0; 1] ++ source ++ destination ++
  [58; 0; 5; 2; 0; 0; 1; 0] ++ icmp.

(** The message with its checksum, which is computed with the field zero. *)
Definition withChecksum (checksum : list Z → Z) (message : list Z) : list Z :=
  put_at message 2 (put_be 2 (checksum message)).

(** The group record of an IGMPv3 or MLDv2 report: its type and sources.  [family] tells addresses
    of the family. *)
Definition groupRecord (family : Addr → bool) (wildcard : bool) (report : UpstreamReport)
    : Res MembershipError (Z * list Addr) :=
  let group := ur_Group report in
  _ ← guard_err (65535 <? Z.of_nat (length (ag_ExcludedSources group))) Malformed;
  let included := if bool_decide (ag_IncludedSources group = []) && negb wildcard
                  then [ag_Source group] else ag_IncludedSources group in
  _ ← guard_err (65535 <? Z.of_nat (length included)) Malformed;
  if ur_Join report then
    if wildcard then
      _ ← guard_err (negb (forallb family (ag_ExcludedSources group))) Malformed;
      Ok (ChangeToExcludeMode, ag_ExcludedSources group)
    else
      _ ← guard_err (negb (forallb family included)) Malformed;
      Ok (ChangeToIncludeMode, included)
  else if wildcard then Ok (ChangeToIncludeMode, [])
  else Ok (BlockOldSources, [ag_Source group]).

(** The octets of a report with one group record. *)
Definition reportMessage (kind : Z) (recordType : Z) (group : list Z) (sources : list Addr) : list Z :=
  [kind; 0; 0; 0; 0; 0; 0; 1; recordType; 0] ++ put_be 2 (u16 (Z.of_nat (length sources))) ++ group ++
  flat_map AsSlice sources.

(** [None] is the nil packet of an IGMPv1 leave. *)
Definition buildIGMPPacket (report : UpstreamReport) : Res MembershipError (option (list Z)) :=
  let version := pr_IGMPVersion (ur_Profile report) in
  let group := As4 (ag_Group (ur_Group report)) in
  let wildcard := bool_decide (ag_Source (ur_Group report) = V4 0) in
  let ip destination igmp :=
    Ok (Some (ipv4Packet (AsSlice (ag_Client (ur_Group report))) destination
                (withChecksum internetChecksum igmp))) in
  if version =? 1 then
    if negb (ur_Join report) then Ok None else ip group ([0x12; 0; 0; 0] ++ group)
  else if version =? 2 then
    if ur_Join report then ip group ([0x16; 0; 0; 0] ++ group)
    else ip (As4 allRouters4) ([0x17; 0; 0; 0] ++ group)
  else if version =? 3 then
    '(recordType, sources) ← groupRecord Is4 wildcard report;
    ip (As4 igmpRouters) (reportMessage 0x22 recordType group sources)
  else Err Malformed.

Definition buildMLDPacket (report : UpstreamReport) : Res MembershipError (list Z) :=
  let version := pr_IGMPVersion (ur_Profile report) in
  let group := As16 (ag_Group (ur_Group report)) in
  let wildcard := bool_decide (ag_Source (ur_Group report) = V6 0 "") in
  let source := As16 (ag_Client (ur_Group report)) in
  let ip destination icmp :=
    Ok (ipv6Packet source destination (withChecksum (icmpv6Checksum source destination) icmp)) in
  if version =? 16 then
    if ur_Join report then ip group ([131; 0; 0; 0; 0; 0; 0; 0] ++ group)
    else ip (As16 allRouters6) ([132; 0; 0; 0; 0; 0; 0; 0] ++ group)
  else if version =? 17 then
    '(recordType, sources) ← groupRecord (λ a, Is6 a && negb (Is4In6 a)) wildcard report;
    ip (As16 mldRouters) (reportMessage 143 recordType group sources)
  else Err Malformed.

Definition ipv4Destination (report : UpstreamReport) : Addr :=
  if pr_IGMPVersion (ur_Profile report) =? 3 then igmpRouters
  else if negb (ur_Join report) && (pr_IGMPVersion (ur_Profile report) =? 2) then allRouters4
  else ag_Group (ur_Group report).

Definition ipv6Destination (report : UpstreamReport) : Addr :=
  if pr_IGMPVersion (ur_Profile report) =? 17 then mldRouters
  else if negb (ur_Join report) then allRouters6
  else ag_Group (ur_Group report).

Definition ipv4MulticastMAC (address : Addr) : list Z :=
  let value := As4 address in
  [0x01; 0x00; 0x5e; Z.land (nth8 value 1) 0x7f; nth8 value 2; nth8 value 3].

Definition ipv6MulticastMAC (address : Addr) : list Z :=
  let value := As16 address in
  [0x33; 0x33; nth8 value 12; nth8 value 13; nth8 value 14; nth8 value 15].

Definition upstreamTags (tags : list VLANTag) (control tci : Z) : Res MembershipError (list VLANTag) :=
  _ ← guard_err (3 <? control) Malformed;
  Ok (if control =? 0 then tags
      else if control =? 1 then mkTag 0x8100 tci :: tags
      else match tags with
           | [] => [mkTag 0x8100 tci]
           | tag :: tags =>
               mkTag (TPID tag)
                 (if control =? 2 then tci else Z.lor (Z.land (TCI tag) 0xf000) (Z.land tci 0x0fff)) :: tags
           end).

(** The Ethernet frame: addresses, tags, type and packet. *)
Definition ethernetFrame (destination source : list Z) (tags : list VLANTag) (etherType : Z) (packet : list Z)
    : list Z :=
  destination ++ source ++ flat_map (λ tag, put_be 2 (TPID tag) ++ put_be 2 (TCI tag)) tags ++
  put_be 2 etherType ++ packet.

Definition BuildUpstreamFrame (report : UpstreamReport) : Res MembershipError (option (list Z)) :=
  let g := ur_Group report in
  let profile := ur_Profile report in
  let group := ag_Group g in
  let finish destination etherType payload :=
    tags ← upstreamTags (ur_Tags report) (pr_UpstreamTagControl profile) (pr_UpstreamTCI profile);
    Ok (Some (ethernetFrame destination (ur_SourceMAC report) tags etherType payload)) in
  _ ← guard_err (negb (IsValid group) || negb (IsMulticast group)) Malformed;
  _ ← guard_err (negb (IsValid (ag_Source g)) || negb (BitLen (ag_Source g) =? BitLen group) ||
                 negb (IsValid (ag_Client g)) || negb (BitLen (ag_Client g) =? BitLen group)) Malformed;
  if Is4 group then
    _ ← guard_err ((pr_IGMPVersion profile <? 1) || (3 <? pr_IGMPVersion profile)) Malformed;
    payload ← buildIGMPPacket report;
    match payload with
    | None => Ok None
    | Some payload => finish (ipv4MulticastMAC (ipv4Destination report)) 0x0800 payload
    end
  else
    _ ← guard_err (negb (pr_IGMPVersion profile =? 16) && negb (pr_IGMPVersion profile =? 17)) Malformed;
    payload ← buildMLDPacket report;
    finish (ipv6MulticastMAC (ipv6Destination report)) 0x86dd payload.

(** ** Building queries *)

Record DownstreamQuery := mkQuery {
  dq_Subscriber : Subscriber;
  dq_Attachment : Attachment;
  dq_Profile : Profile;
  dq_Group : Addr;
  dq_Source : Addr;
  dq_Tags : list VLANTag
}.

Definition effectiveRobustness (profile : Profile) : Z :=
  if pr_Robustness profile =? 0 then 2 else pr_Robustness profile.
Definition effectiveQueryInterval (profile : Profile) : Z :=
  if pr_QueryInterval profile =? 0 then 125 else pr_QueryInterval profile.
Definition effectiveQueryResponse (profile : Profile) : Z :=
  if pr_QueryMaxResponseTime profile =? 0 then 100 else pr_QueryMaxResponseTime profile.

(** Durations in nanoseconds, which saturate at the greatest [int64]. *)
Definition maxDuration : Z := 2 ^ 63 - 1.
Definition secondsDuration (value : Z) : Z :=
  if maxDuration / second <? value then maxDuration else value * second.
Definition decisecondsDuration (value : Z) : Z :=
  if maxDuration / 100000000 <? value then maxDuration else value * 100000000.

Definition effectiveLastMemberInterval (profile : Profile) : Z :=
  decisecondsDuration (if pr_LastMemberQueryInterval profile =? 0 then 10 else pr_LastMemberQueryInterval profile).

Definition queryResponseDeciseconds (query : DownstreamQuery) : Z :=
  if IsValid (dq_Group query) then
    if pr_LastMemberQueryInterval (dq_Profile query) =? 0 then 10
    else pr_LastMemberQueryInterval (dq_Profile query)
  else effectiveQueryResponse (dq_Profile query).

Definition membershipInterval (profile : Profile) : Z :=
  let first := secondsDuration (u64 (effectiveRobustness profile * effectiveQueryInterval profile)) in
  let second := decisecondsDuration (effectiveQueryResponse profile) in
  if maxDuration - second <? first then maxDuration else first + second.

(** [query.Source.IsValid() && !query.Source.IsUnspecified()]. *)
Definition hasSource (query : DownstreamQuery) : bool :=
  IsValid (dq_Source query) && negb (IsUnspecified (dq_Source query)).

(** The robustness variable as a query carries it: zero when it does not fit three bits. *)
Definition queryRobustness (query : DownstreamQuery) : Z :=
  let robustness := effectiveRobustness (dq_Profile query) in
  if robustness <=? 7 then robustness else 0.

(** The trailer of an IGMPv3 or MLDv2 query. *)
Definition queryTrailer (query : DownstreamQuery) : list Z :=
  [queryRobustness query; encodeFloating8 (effectiveQueryInterval (dq_Profile query))] ++
  (if hasSource query then put_be 2 1 ++ AsSlice (dq_Source query) else put_be 2 0).

Definition buildIGMPQuery (query : DownstreamQuery) : list Z :=
  let version := pr_IGMPVersion (dq_Profile query) in
  let response := queryResponseDeciseconds query in
  let code := if version =? 2 then u8 (Z.min response 255)
              else if version =? 3 then encodeFloating8 response else 0 in
  let group := if IsValid (dq_Group query) then As4 (dq_Group query) else replicate 4 0 in
  let igmp := [0x11; code; 0; 0] ++ group ++ (if version =? 3 then queryTrailer query else []) in
  let destination := if IsValid (dq_Group query) then As4 (dq_Group query) else As4 allHosts4 in
  ipv4Packet (put_be 4 (pr_QuerierIPAddress (dq_Profile query))) destination
    (withChecksum internetChecksum igmp).

Definition buildMLDQuery (query : DownstreamQuery) : list Z :=
  let version := pr_IGMPVersion (dq_Profile query) in
  let responseMilliseconds := u64 (queryResponseDeciseconds query * 100) in
  let code := if version =? 16 then u16 (Z.min responseMilliseconds 0xffff)
              else encodeFloating16 responseMilliseconds in
  let group := if IsValid (dq_Group query) then As16 (dq_Group query) else replicate 16 0 in
  let icmp := [130; 0; 0; 0] ++ put_be 2 code ++ [0; 0] ++ group ++
              (if version =? 17 then queryTrailer query else []) in
  let destination := if IsValid (dq_Group query) then As16 (dq_Group query) else As16 allNodes6 in
  let source := replicate 16 0 in
  ipv6Packet source destination (withChecksum (icmpv6Checksum source destination) icmp).

Definition BuildDownstreamQueryFrame (query : DownstreamQuery) (sourceMAC : list Z)
    : Res MembershipError (list Z) :=
  let version := pr_IGMPVersion (dq_Profile query) in
  let ipv4 := (1 <=? version) && (version <=? 3) in
  _ ← guard_err (negb ipv4 && negb (version =? 16) && negb (version =? 17)) Malformed;
  _ ← guard_err (IsValid (dq_Group query) &&
                 (negb (IsMulticast (dq_Group query)) || negb (eqb (Is4 (dq_Group query)) ipv4))) Malformed;
  _ ← guard_err (hasSource query &&
                 (negb (IsValid (dq_Group query)) || negb (eqb (Is4 (dq_Source query)) ipv4))) Malformed;
  _ ← guard_err (hasSource query && negb (version =? 3) && negb (version =? 17)) Malformed;
  _ ← guard_err (2 <? length (dq_Tags query))%nat Malformed;
  _ ← guard_err (negb (forallb (λ tag, isTagType (TPID tag)) (dq_Tags query))) Malformed;
  let address other := if IsValid (dq_Group query) then dq_Group query else other in
  Ok (if ipv4
      then ethernetFrame (ipv4MulticastMAC (address allHosts4)) sourceMAC (dq_Tags query) 0x0800
             (buildIGMPQuery query)
      else ethernetFrame (ipv6MulticastMAC (address allNodes6)) sourceMAC (dq_Tags query) 0x86dd
             (buildMLDQuery query)).
