(* ===== verification/McReportProps.v ===== *)
(** * Multicast: the frames the gateway sends are the ones it reads

    The Internet checksum, the floating-point codes, and the round trip of reports and queries
    through the builders and the parser of McReport.v. *)

From S2P Require Import Prelude Maps Netip McPolicy McReport.

(** ** The Internet checksum *)

(** The sum of the 16-bit words of a byte string, without overflow. *)
Fixpoint wordSum (data : list Z) : Z :=
  match data with
  | a :: b :: data => be [a; b] + wordSum data
  | [a] => 256 * a
  | [] => 0
  end.

(** Ones' complement reduction: the representative of a sum between 1 and 65535. *)
Definition carry (s : Z) : Z := if s =? 0 then 0 else (s - 1) mod 65535 + 1.

Lemma list_ind2 {A} (P : list A → Prop) :
  P [] → (∀ a, P [a]) → (∀ a b l, P l → P (a :: b :: l)) → ∀ l, P l.
Proof.
  intros H0 H1 H2. fix IH 1. intros [|a [|b l]]; [apply H0|apply H1|apply H2, IH].
Qed.

Lemma be_2 a b : be [a; b] = a * 256 + b.
Proof. rewrite !be_cons, be_nil. cbn [length]. lia. Qed.

Lemma wordSum_bound data : bytes_ok data → 0 ≤ 2 * wordSum data ≤ 65535 * (Z.of_nat (length data) + 1).
Proof.
  induction data as [|a|a b data IH] using list_ind2; intros Hok; cbn [wordSum length]; [lia| |].
  - apply Forall_cons_1 in Hok as [Ha _]. unfold is_u in Ha. lia.
  - apply Forall_cons_1 in Hok as [Ha Hok]. apply Forall_cons_1 in Hok as [Hb Hok].
    specialize (IH Hok). rewrite be_2. unfold is_u in *. lia.
Qed.

Lemma wordSum_app a b : Nat.Even (length a) → wordSum (a ++ b) = wordSum a + wordSum b.
Proof.
  induction a as [|x|x y a IH] using list_ind2; intros He; cbn [wordSum app]; [lia| |].
  - destruct He as [k Hk]. cbn in Hk. lia.
  - rewrite IH; [lia|]. destruct He as [k Hk]. cbn in Hk. exists (k - 1)%nat. lia.
Qed.

Lemma sumWords_exact data : ∀ s, bytes_ok data → 0 ≤ s → s + wordSum data < 2 ^ 32 →
  sumWords data s = s + wordSum data.
Proof.
  induction data as [|a|a b data IH] using list_ind2; intros s Hok Hs Hb; cbn [sumWords wordSum] in *; [lia| |].
  - apply Forall_cons_1 in Hok as [Ha _]. unfold is_u in Ha. rewrite Z.shiftl_mul_pow2 by lia.
    unfold wrap. lia.
  - apply Forall_cons_1 in Hok as [Ha Hok]. apply Forall_cons_1 in Hok as [Hb' Hok].
    pose proof (wordSum_bound data Hok). rewrite be_2 in *. unfold is_u in *.
    rewrite (wrap_small 32) by (unfold is_u; lia). rewrite IH by (done || lia). lia.
Qed.

(** The loop ends within its fuel, with the reduced sum. *)
Lemma foldCarry_enough s : is_u 32 s → foldCarry 3 s = carry s ∧ Z.shiftr (foldCarry 3 s) 16 = 0.
Proof.
  intros Hs. unfold is_u in Hs.
  assert (∀ s n, 0 ≤ s < 2 ^ 32 → foldCarry (S n) s =
    if s / 65536 =? 0 then s else foldCarry n (s mod 65536 + s / 65536)) as Hstep.
  { intros x n Hx. cbn [foldCarry]. rewrite shiftr_div, (land_mask 16) by (done || lia).
    change (2 ^ 16) with 65536. branch; [done|]. f_equal. apply wrap_small. unfold is_u. lia. }
  assert (∀ x, 0 ≤ x < 2 ^ 32 → let y := x mod 65536 + x / 65536 in carry y = carry x ∧ 0 ≤ y < 2 ^ 32) as Hc.
  { intros x Hx. unfold carry. cbv zeta. destruct (Z.eqb_spec x 0) as [->|]; [done|].
    case_match; lia. }
  assert (∀ x, 0 ≤ x < 65536 → carry x = x) as Hd.
  { intros x Hx. unfold carry. case_match; lia. }
  assert (foldCarry 3 s = carry s ∧ 0 ≤ carry s < 65536) as [-> ?].
  { split; [|unfold carry; case_match; lia].
    pose proof (Hc s Hs) as [<- H1]. rewrite Hstep by done.
    destruct (Z.eqb_spec (s / 65536) 0); [rewrite Hd by lia; lia|].
    set (x := s mod 65536 + s / 65536) in *. assert (x ≤ 131070) by lia.
    pose proof (Hc x H1) as [<- H2]. rewrite Hstep by done.
    destruct (Z.eqb_spec (x / 65536) 0); [rewrite Hd by lia; lia|].
    set (y := x mod 65536 + x / 65536) in *. assert (y < 65536) by lia.
    rewrite Hstep, Hd by lia. by rewrite (Z.div_small y) by lia. }
  split; [done|]. rewrite shiftr_div by lia. lia.
Qed.

Lemma internetChecksum_carry data : bytes_ok data → Z.of_nat (length data) ≤ 100000 →
  internetChecksum data = 65535 - carry (wordSum data).
Proof.
  intros Hok Hlen. pose proof (wordSum_bound data Hok).
  unfold internetChecksum. rewrite sumWords_exact by (done || lia).
  rewrite (proj1 (foldCarry_enough (0 + wordSum data) ltac:(unfold is_u; lia))), Z.add_0_l.
  assert (0 ≤ carry (wordSum data) < 65536) as Hc by (unfold carry; case_match; lia).
  rewrite (wrap_small 16) by done. change 65535 with (Z.ones 16) at 1.
  apply Z.bits_inj'. intros i Hi.
  assert (65535 - carry (wordSum data) = Z.ldiff (Z.ones 16) (carry (wordSum data))) as ->.
  { rewrite <- Z.sub_nocarry_ldiff; [done|]. apply Z.bits_inj'. intros j Hj.
    rewrite Z.ldiff_spec, Z.bits_0. destruct (Z.lt_ge_cases j 16).
    - rewrite Z.ones_spec_low by lia. apply andb_false_r.
    - rewrite (testbit_above 16) by (done || lia). done. }
  rewrite Z.lxor_spec, Z.ldiff_spec. destruct (Z.lt_ge_cases i 16).
  - rewrite Z.ones_spec_low by lia. by destruct (Z.testbit _ _).
  - rewrite Z.ones_spec_high, (testbit_above 16) by (done || lia). done.
Qed.

(** A message carries a valid checksum when the checksum was computed with its field zero. *)
Lemma checksum_verifies pre post : bytes_ok pre → bytes_ok post → Nat.Even (length pre) →
  Z.of_nat (length pre + length post) ≤ 99998 →
  internetChecksum (pre ++ put_be 2 (internetChecksum (pre ++ [0; 0] ++ post)) ++ post) = 0.
Proof.
  intros Hpre Hpost He Hlen.
  set (c := internetChecksum (pre ++ [0; 0] ++ post)).
  assert (c = 65535 - carry (wordSum pre + wordSum post)) as Hc.
  { subst c. rewrite internetChecksum_carry.
    - rewrite wordSum_app by done. reflexivity.
    - repeat (apply Forall_app; split); (done || by_decide).
    - rewrite !length_app. cbn [length]. lia. }
  pose proof (wordSum_bound pre Hpre). pose proof (wordSum_bound post Hpost).
  assert (0 ≤ c < 65536) as Hb by (rewrite Hc; unfold carry; case_match; lia).
  rewrite internetChecksum_carry.
  - rewrite wordSum_app by done. rewrite !put_be_S, put_be_0.
    cbn [app wordSum]. rewrite be_2. change (256 ^ Z.of_nat 1) with 256. change (256 ^ Z.of_nat 0) with 1.
    unfold carry in Hc |- *. case_match; case_match; lia.
  - repeat (apply Forall_app; split); (done || apply bytes_ok_put_be).
  - rewrite !length_app, length_put_be. lia.
Qed.

(** ** Lists of addresses and tags *)

(** The addresses that octets can stand for. *)
Definition addr_ok (a : Addr) : Prop :=
  match a with NoAddr => False | V4 value => is_u 32 value | V6 value zone => is_u 128 value ∧ zone = "" end.

Definition tag_ok (tag : VLANTag) : Prop := isTagType (TPID tag) = true ∧ is_u 16 (TPID tag) ∧ is_u 16 (TCI tag).

(** The size in octets of an address of the family of [a], and the address of such octets. *)
Definition addrSize (four : bool) : nat := if four then 4 else 16.
Definition addrFrom (four : bool) : list Z → Addr := if four then AddrFrom4 else AddrFrom16.

Lemma length_AsSlice a : IsValid a = true → length (AsSlice a) = addrSize (Is4 a).
Proof. destruct a; [done| |]; intros _; apply length_put_be. Qed.

Lemma bytes_ok_AsSlice a : bytes_ok (AsSlice a).
Proof. destruct a; [constructor| |]; apply bytes_ok_put_be. Qed.

Lemma addrFrom_AsSlice a : addr_ok a → addrFrom (Is4 a) (AsSlice a) = a.
Proof.
  destruct a as [|v|v z]; [done| |]; cbn [addr_ok Is4 addrFrom AsSlice].
  - intros Hv. unfold AddrFrom4, As4. by rewrite be_put_be_small.
  - intros [Hv ->]. unfold AddrFrom16, As16. by rewrite be_put_be_small.
Qed.

Lemma addr_ok_valid a : addr_ok a → IsValid a = true.
Proof. by destruct a. Qed.

Lemma bytes_ok_flat_map {A} (f : A → list Z) l : (∀ x, bytes_ok (f x)) → bytes_ok (flat_map f l).
Proof. intros Hf. induction l; cbn [flat_map]; [constructor|]. apply Forall_app. split; [apply Hf|done]. Qed.

(** Addresses of one family, written one after another, are read back. *)
Lemma length_addresses four sources : Forall (λ a, addr_ok a ∧ Is4 a = four) sources →
  length (flat_map AsSlice sources) = (length sources * addrSize four)%nat.
Proof.
  induction 1 as [|a l [Ha Hf] _ IH]; [done|]. cbn [flat_map length].
  rewrite length_app, length_AsSlice, Hf, IH by (by apply addr_ok_valid). lia.
Qed.

Lemma readSources_addresses four sources pre post start :
  Forall (λ a, addr_ok a ∧ Is4 a = four) sources → length pre = start →
  readSources (addrSize four) (addrFrom four) (pre ++ flat_map AsSlice sources ++ post) start (length sources) = sources.
Proof.
  intros Hs <-. unfold readSources. revert pre.
  induction Hs as [|a l [Ha Hf] _ IH]; intros pre; [done|]. cbn [length seq map flat_map].
  assert (length (AsSlice a) = addrSize four) as Hlen by by rewrite length_AsSlice, Hf by (by apply addr_ok_valid).
  f_equal.
  - rewrite Nat.mul_0_l, Nat.add_0_r. rewrite (slice_skip pre _ (length pre)) by (done || lia).
    rewrite Nat.sub_diag. replace (length pre + addrSize four - length pre)%nat with (addrSize four) by lia.
    rewrite <- app_assoc, slice_0_app by done. rewrite <- Hf. by apply addrFrom_AsSlice.
  - rewrite <- seq_shift, map_map. rewrite <- (IH (pre ++ AsSlice a)) at 2. apply map_ext. intros i.
    rewrite <- !app_assoc, length_app, Hlen. do 2 f_equal; lia.
Qed.

(** The octets of a VLAN tag. *)
Definition tagOctets (tag : VLANTag) : list Z := put_be 2 (TPID tag) ++ put_be 2 (TCI tag).

Lemma length_tags tags : length (flat_map tagOctets tags) = (4 * length tags)%nat.
Proof.
  induction tags; [done|]. cbn [flat_map length]. rewrite length_app, IHtags. cbn [length]. unfold tagOctets.
  rewrite length_app, !length_put_be. lia.
Qed.

Lemma parseTags_frame tags : ∀ remaining pre acc etherType rest,
  Forall tag_ok tags → (length tags ≤ remaining)%nat → is_u 16 etherType → isTagType etherType = false →
  let frame := pre ++ flat_map tagOctets tags ++ put_be 2 etherType ++ rest in
  parseTags remaining frame (length pre + 2) (Uint16 frame (length pre)) acc =
    Ok (acc ++ tags, (length pre + 4 * length tags + 2)%nat, etherType).
Proof.
  induction tags as [|tag tags IH]; intros remaining pre acc etherType rest Hok Hlen Ht Hn; cbv zeta.
  - cbn [flat_map app length]. unfold Uint16. rewrite (slice_skip pre _ (length pre)) by (done || lia).
    rewrite Nat.sub_diag. replace (length pre + 2 - length pre)%nat with 2%nat by lia.
    rewrite slice_0_app, be_put_be_small by (apply length_put_be || done).
    rewrite app_nil_r, Nat.mul_0_r, Nat.add_0_r. destruct remaining; cbn [parseTags]; by rewrite Hn.
  - apply Forall_cons in Hok as [(Htpid & Hu1 & Hu2) Hok]. destruct remaining as [|remaining]; [cbn in Hlen; lia|].
    cbn [flat_map parseTags length]. set (rest' := flat_map tagOctets tags ++ put_be 2 etherType ++ rest).
    set (frame := pre ++ (tagOctets tag ++ flat_map tagOctets tags) ++ put_be 2 etherType ++ rest).
    assert (frame = pre ++ put_be 2 (TPID tag) ++ put_be 2 (TCI tag) ++ rest') as Hframe.
    { subst frame rest'. unfold tagOctets at 1. by rewrite <- !app_assoc. }
    assert (frame = (pre ++ tagOctets tag) ++ rest') as Hframe2.
    { rewrite Hframe. unfold tagOctets. by rewrite <- !app_assoc. }
    assert (length (pre ++ tagOctets tag) = length pre + 4)%nat as Hpre.
    { unfold tagOctets. rewrite !length_app, !length_put_be. lia. }
    assert (Uint16 frame (length pre) = TPID tag) as ->.
    { rewrite Hframe. unfold Uint16. rewrite (slice_skip pre _ (length pre)) by (done || lia).
      rewrite Nat.sub_diag. replace (length pre + 2 - length pre)%nat with 2%nat by lia.
      by rewrite slice_0_app, be_put_be_small by (apply length_put_be || done). }
    assert (Uint16 frame (length pre + 2) = TCI tag) as ->.
    { rewrite Hframe, app_assoc. unfold Uint16.
      rewrite (slice_skip _ _ (length pre + 2)) by (rewrite ?length_app, ?length_put_be; lia).
      rewrite Nat.sub_diag. replace (length pre + 2 + 2 - (length pre + 2))%nat with 2%nat by lia.
      by rewrite slice_0_app, be_put_be_small by (apply length_put_be || done). }
    rewrite Htpid. assert (length pre + 6 ≤ length frame)%nat as Hl.
    { rewrite Hframe2, length_app, Hpre. unfold rest'. rewrite !length_app, !length_put_be. lia. }
    rewrite (proj2 (guard_err_iff _ _ tt)) by lia. cbn [mbind Res_bind].
    rewrite Hframe2. specialize (IH remaining (pre ++ tagOctets tag) (acc ++ [mkTag (TPID tag) (TCI tag)]) etherType
      rest Hok ltac:(cbn in Hlen; lia) Ht Hn). cbv zeta in IH. fold rest' in IH. rewrite Hpre in IH.
    replace (length pre + 2 + 4)%nat with (length pre + 4 + 2)%nat by lia.
    replace (length pre + 2 + 2)%nat with (length pre + 4)%nat by lia. rewrite IH.
    rewrite <- app_assoc. cbn [app]. destruct tag. do 3 f_equal. lia.
Qed.

(** The frame around a packet is taken apart into its addresses, tags and packet. *)
Lemma ParseMembershipFrame_ethernet destination source tags etherType packet :
  length destination = 6%nat → length source = 6%nat → Forall tag_ok tags → (length tags ≤ 2)%nat →
  is_u 16 etherType → isTagType etherType = false →
  ParseMembershipFrame (ethernetFrame destination source tags etherType packet) =
    let result := linkMessage source destination (vlanOf tags) tags in
    if etherType =? 0x0800 then parseIGMP packet result
    else if etherType =? 0x86dd then parseMLD packet result else Err ErrNotMembership.
Proof.
  intros Hd Hs Hok Hlen Ht Hn. unfold ParseMembershipFrame.
  set (frame := ethernetFrame destination source tags etherType packet).
  assert (frame = (destination ++ source) ++ flat_map tagOctets tags ++ put_be 2 etherType ++ packet) as Hf.
  { subst frame. unfold ethernetFrame. by rewrite <- app_assoc. }
  assert (length (destination ++ source) = 12%nat) as Hpre by (rewrite length_app; lia).
  rewrite (proj2 (guard_err_iff _ _ tt))
    by (rewrite Hf, !length_app, Hd, Hs, length_put_be; lia). cbn [mbind Res_bind].
  pose proof (parseTags_frame tags 2 (destination ++ source) [] etherType packet Hok Hlen Ht Hn) as Hp.
  cbv zeta in Hp. rewrite <- Hf, Hpre in Hp. change (12 + 2)%nat with 14%nat in Hp. rewrite Hp.
  cbn [app mbind Res_bind]. assert (slice frame 6 12 = source) as ->.
  { subst frame. unfold ethernetFrame. rewrite (slice_skip _ _ 6) by (done || lia). by rewrite slice_0_app. }
  assert (slice frame 0 6 = destination) as -> by (subst frame; by apply slice_0_app).
  assert (drop (12 + 4 * length tags + 2) frame = packet) as ->.
  { rewrite Hf, (app_assoc (flat_map _ _)), app_assoc. apply drop_app_length'.
    rewrite !length_app, length_tags, length_put_be, Hd, Hs. lia. }
  done.
Qed.

(** ** Packets *)

Lemma withChecksum_eq checksum k c post :
  withChecksum checksum ([k; c; 0; 0] ++ post) =
  [k; c] ++ put_be 2 (checksum ([k; c; 0; 0] ++ post)) ++ post.
Proof. reflexivity. Qed.

Lemma length_withChecksum checksum k c post :
  length (withChecksum checksum ([k; c; 0; 0] ++ post)) = length ([k; c; 0; 0] ++ post).
Proof. rewrite withChecksum_eq, !length_app, length_put_be. done. Qed.

Lemma bytes_ok_2 a b : is_u 8 a → is_u 8 b → bytes_ok [a; b].
Proof. intros. by constructor; [|constructor]. Qed.

Lemma igmp_verifies k c post : is_u 8 k → is_u 8 c → bytes_ok post → Z.of_nat (length post) ≤ 65531 →
  internetChecksum (withChecksum internetChecksum ([k; c; 0; 0] ++ post)) = 0.
Proof.
  intros Hk Hc Hp Hlen. rewrite withChecksum_eq. apply (checksum_verifies [k; c]); [|done| |].
  - by apply bytes_ok_2.
  - by exists 1%nat.
  - cbn [length]. lia.
Qed.

Lemma icmp_verifies source destination k post :
  bytes_ok source → bytes_ok destination → length source = 16%nat → length destination = 16%nat →
  is_u 8 k → bytes_ok post → Z.of_nat (length post) ≤ 65531 →
  icmpv6Checksum source destination (withChecksum (icmpv6Checksum source destination) ([k; 0; 0; 0] ++ post)) = 0.
Proof.
  intros Hs Hd Hls Hld Hk Hp Hlen. rewrite withChecksum_eq.
  set (pre := source ++ destination ++ put_be 4 (u32 (Z.of_nat (4 + length post))) ++ [0; 0; 0; 58] ++ [k; 0]).
  pose proof (checksum_verifies pre post) as H. unfold icmpv6Checksum.
  assert (∀ x, length x = 2%nat → source ++ destination ++
     put_be 4 (u32 (Z.of_nat (length ([k; 0] ++ x ++ post)))) ++ [0; 0; 0; 58] ++ [k; 0] ++ x ++ post =
     pre ++ x ++ post) as Hx.
  { intros x Hx. subst pre. rewrite !length_app, Hx, <- !app_assoc. reflexivity. }
  rewrite Hx by apply length_put_be. change ([k; 0; 0; 0] ++ post) with ([k; 0] ++ [0; 0] ++ post).
  rewrite Hx by done. apply H; [|done| |].
  - subst pre. repeat (apply Forall_app; split); try done; [apply bytes_ok_put_be|by_decide|].
    by apply bytes_ok_2.
  - exists 21%nat. subst pre. rewrite !length_app, Hls, Hld, length_put_be. reflexivity.
  - subst pre. rewrite !length_app, Hls, Hld, length_put_be. cbn [length]. lia.
Qed.

Lemma parseIGMP_packet client destination igmp result :
  length client = 4%nat → length destination = 4%nat → (8 ≤ length igmp)%nat → Z.of_nat (length igmp) ≤ 65511 →
  parseIGMP (ipv4Packet client destination igmp) result = parseIGMPPayload igmp (AddrFrom4 client) result.
Proof.
  intros Hc Hd Hlen8 Hlen. unfold ipv4Packet. set (len := u16 (Z.of_nat (24 + length igmp))).
  set (sum := internetChecksum _). set (packet := put_at _ _ _ ++ igmp).
  assert (packet = [0x46; 0] ++ put_be 2 len ++ [0; 0; 0; 0] ++ [1; 2] ++ put_be 2 sum ++
                   client ++ destination ++ routerAlert4 ++ igmp) as Hp.
  { subst packet. unfold put_at. cbn [app length]. rewrite length_put_be. rewrite !put_be_S, !put_be_0.
    cbn [app take drop Nat.add]. rewrite drop_0. by rewrite <- !app_assoc. }
  assert (Uint16 packet 2 = Z.of_nat (24 + length igmp)) as Hl.
  { rewrite Hp. unfold Uint16. read_field. subst len.
    rewrite wrap_small, be_put_be_small by (unfold is_u; lia). done. }
  assert (length packet = 24 + length igmp)%nat as Hlp.
  { rewrite Hp, !length_app, !length_put_be, Hc, Hd. cbn [length routerAlert4]. lia. }
  assert (nth8 packet 0 = 0x46) as H0 by by rewrite Hp.
  assert (nth8 packet 9 = 2) as H9 by by rewrite Hp.
  assert (Uint16 packet 6 = 0) as H6 by by rewrite Hp.
  assert (slice packet 12 16 = client) as Hcl.
  { rewrite Hp. read_field. by rewrite slice_0_app. }
  assert (slice packet 24 (24 + length igmp) = igmp) as Hpay.
  { rewrite <- Hlp, slice_drop, Hp, !app_assoc. apply drop_app_length'.
    rewrite !length_app, !length_put_be, Hc, Hd. done. }
  unfold parseIGMP. cbv zeta. rewrite H0, H9, H6, Hl, Nat2Z.id, Hcl.
  change (Z.to_nat (Z.land 70 15) * 4)%nat with 24%nat. rewrite Hpay.
  rewrite (proj2 (guard_err_iff ((length packet <? 20)%nat || _) _ tt)) by (change (Z.shiftr 70 4) with 4; lia). cbn [mbind Res_bind].
  rewrite (proj2 (guard_err_iff ((24 <? 20)%nat || _ || _) _ tt)) by lia. reflexivity.
Qed.

Lemma parseMLD_packet source destination icmp result :
  length source = 16%nat → length destination = 16%nat → (8 ≤ length icmp)%nat → Z.of_nat (length icmp) ≤ 65527 →
  ∃ packet, slice packet 8 24 = source ∧ slice packet 24 40 = destination ∧
    parseMLD (ipv6Packet source destination icmp) result = parseICMPv6 packet icmp result.
Proof.
  intros Hs Hd Hlen8 Hlen. set (packet := ipv6Packet source destination icmp). exists packet.
  unfold ipv6Packet in packet.
  assert (Uint16 packet 4 = Z.of_nat (8 + length icmp)) as Hl.
  { subst packet. unfold Uint16. read_field.
    rewrite wrap_small, be_put_be_small by (unfold is_u; lia). done. }
  assert (length packet = 48 + length icmp)%nat as Hlp.
  { subst packet. rewrite !length_app, !length_put_be, Hs, Hd. cbn [length]. lia. }
  assert (slice packet 8 24 = source) as H1.
  { subst packet. read_field. by rewrite slice_0_app. }
  assert (slice packet 24 40 = destination) as H2.
  { subst packet. read_field. rewrite Hs. by rewrite slice_0_app. }
  assert (packet = ([0x60; 0; 0; 0] ++ put_be 2 (u16 (Z.of_nat (8 + length icmp))) ++ [0; 1] ++ source ++ destination)
     ++ [58; 0; 5; 2; 0; 0; 1; 0] ++ icmp) as Hp.
  { subst packet. by rewrite <- !app_assoc. }
  set (pre := [0x60; 0; 0; 0] ++ _) in Hp.
  assert (length pre = 40%nat) as Hpre.
  { subst pre. rewrite !length_app, length_put_be, Hs, Hd. done. }
  assert (∀ i, (i < 8)%nat → nth8 packet (40 + i) = nth8 [58; 0; 5; 2; 0; 0; 1; 0] i) as Hext.
  { intros i Hi. rewrite Hp, (nth8_skip _ _ 40) by (done || lia). unfold nth8. rewrite app_nth1 by (cbn; lia).
    f_equal. lia. }
  assert (slice packet 48 (48 + length icmp) = icmp) as Hpay.
  { rewrite <- Hlp, slice_drop, Hp, app_assoc. apply drop_app_length'. rewrite length_app, Hpre. done. }
  assert (nth8 packet 0 = 0x60) as H0 by done. assert (nth8 packet 6 = 0) as H6 by done.
  split_and!; [done|done|]. clearbody packet. unfold parseMLD. cbv zeta. rewrite H0, H6, Hl, Nat2Z.id.
  rewrite (proj2 (guard_err_iff ((length packet <? 48)%nat || _) _ tt)) by (change (Z.shiftr 96 4) with 6; lia). cbn [mbind Res_bind].
  rewrite (proj2 (guard_err_iff (length packet <? _)%nat _ tt)) by lia. cbn [mbind Res_bind].
  replace (S (8 + length icmp)) with (S (S (7 + length icmp))) by lia. cbn [skipExtensions].
  change (0 =? 0) with true. cbn [orb]. rewrite (Hext 1%nat ltac:(lia)), (proj2 (Nat.ltb_ge _ _)) by lia.
  change (Z.to_nat (nth8 [58; 0; 5; 2; 0; 0; 1; 0] 1 + 1)) with 1%nat. change (1 * 8)%nat with 8%nat.
  rewrite (proj2 (Nat.ltb_ge _ _)) by lia.
  pose proof (Hext 0%nat ltac:(lia)) as H40. cbn [Nat.add] in H40. rewrite H40.
  change (nth8 [58; 0; 5; 2; 0; 0; 1; 0] 0) with 58. cbn [skipExtensions default].
  change (40 + (8 + length icmp))%nat with (48 + length icmp)%nat. change (40 + 8)%nat with 48%nat.
  change ((58 =? 0) || (58 =? 43) || (58 =? 60)) with false. cbn [mbind Res_bind]. cbv iota.
  transitivity (parseICMPv6 packet (slice packet 48 (48 + length icmp)) result); [reflexivity|by rewrite Hpay].
Qed.

(** ** Reports *)

(** The octets of a report with one group record are parsed to that record. *)
Lemma parse_record four k sum recordType group sources :
  length sum = 2%nat → addr_ok group → Is4 group = four → IsMulticast group = true →
  ModeIsInclude ≤ recordType ≤ BlockOldSources →
  Forall (λ a, addr_ok a ∧ Is4 a = four) sources → Z.of_nat (length sources) < 65536 →
  parseReportRecords (addrSize four) (addrFrom four)
    ([k; 0] ++ sum ++ [0; 0; 0; 1; recordType; 0] ++ put_be 2 (u16 (Z.of_nat (length sources))) ++
     AsSlice group ++ flat_map AsSlice sources) = Ok [mkRecord recordType group sources].
Proof.
  intros Hsum Hg Hf Hm Ht Hs Hn. set (payload := [k; 0] ++ _).
  assert (length (AsSlice group) = addrSize four) as Hlg by by rewrite length_AsSlice, Hf by (by apply addr_ok_valid).
  assert (length payload = 12 + addrSize four + length sources * addrSize four)%nat as Hlen.
  { subst payload. rewrite !length_app, Hsum, length_put_be, Hlg, (length_addresses four) by done. cbn [length]. lia. }
  assert (Uint16 payload 6 = 1) as Hcount.
  { subst payload. destruct sum as [|? [|? [|]]]; done. }
  assert (nth8 payload 8 = recordType ∧ nth8 payload 9 = 0) as [H8 H9].
  { subst payload. destruct sum as [|? [|? [|]]]; done. }
  assert (Uint16 payload 10 = Z.of_nat (length sources)) as H10.
  { subst payload. rewrite (app_assoc sum), (app_assoc [k; 0]). unfold Uint16.
    rewrite (slice_skip _ _ 10) by (rewrite ?length_app, ?Hsum; (done || lia)).
    change (10 - 10)%nat with 0%nat. change (10 + 2 - 10)%nat with 2%nat. rewrite slice_0_app by apply length_put_be.
    rewrite wrap_small, be_put_be_small by (unfold is_u; lia). done. }
  set (pre := [k; 0] ++ sum ++ [0; 0; 0; 1; recordType; 0] ++ put_be 2 (u16 (Z.of_nat (length sources)))).
  assert (payload = pre ++ AsSlice group ++ flat_map AsSlice sources) as Hp.
  { subst payload pre. by rewrite <- !app_assoc. }
  assert (length pre = 12%nat) as Hpre by (subst pre; rewrite !length_app, Hsum, length_put_be; done).
  assert (slice payload 12 (12 + addrSize four) = AsSlice group) as Hgroup.
  { rewrite Hp, (slice_skip pre _ 12) by (done || lia). rewrite Nat.sub_diag.
    replace (12 + addrSize four - 12)%nat with (addrSize four) by lia. by apply slice_0_app. }
  assert (readSources (addrSize four) (addrFrom four) payload (12 + addrSize four) (length sources) = sources) as Hsrc.
  { rewrite Hp, app_assoc, <- (app_nil_r (flat_map _ _)). apply readSources_addresses; [done|].
    rewrite length_app, Hpre, Hlg. done. }
  assert (addrFrom four (AsSlice group) = group) as Hfrom by (rewrite <- Hf; by apply addrFrom_AsSlice).
  clearbody payload. unfold parseReportRecords. rewrite (proj2 (guard_err_iff _ _ tt)) by lia.
  cbn [mbind Res_bind]. rewrite Hcount. change (Z.to_nat 1) with 1%nat. cbn [parseRecords]. cbv zeta.
  change (8 + 1)%nat with 9%nat. change (8 + 2)%nat with 10%nat. change (8 + 4)%nat with 12%nat.
  rewrite H8, H9, H10, Nat2Z.id. change (Z.to_nat 0 * 4)%nat with 0%nat. rewrite Hgroup, Hsrc.
  rewrite Hfrom, Hm.
  rewrite (proj2 (guard_err_iff (length payload - 8 <? 4 + addrSize four)%nat _ tt)) by lia. cbn [mbind Res_bind].
  rewrite (proj2 (guard_err_iff ((recordType <? ModeIsInclude) || _) _ tt)) by lia. cbn [mbind Res_bind].
  rewrite (proj2 (guard_err_iff (length payload - 8 <? _)%nat _ tt)) by lia. cbn [mbind Res_bind].
  cbn [negb guard_err]. rewrite (proj2 (Nat.eqb_eq _ _)) by lia. done.
Qed.

(** The membership record a report stands for. *)
Definition reportRecord (report : UpstreamReport) : MembershipRecord :=
  let g := ur_Group report in
  let version := pr_IGMPVersion (ur_Profile report) in
  let any := IsUnspecified (ag_Source g) in
  if (version =? 3) || (version =? 17) then
    if ur_Join report then
      if any then mkRecord ChangeToExcludeMode (ag_Group g) (ag_ExcludedSources g)
      else mkRecord ChangeToIncludeMode (ag_Group g)
             (if bool_decide (ag_IncludedSources g = []) then [ag_Source g] else ag_IncludedSources g)
    else if any then mkRecord ChangeToIncludeMode (ag_Group g) []
    else mkRecord BlockOldSources (ag_Group g) [ag_Source g]
  else mkRecord (if ur_Join report then ModeIsExclude else ChangeToIncludeMode) (ag_Group g) [].

(** The values the fields of a report can have in the program. *)
Definition report_ok (report : UpstreamReport) : Prop :=
  let g := ur_Group report in
  addr_ok (ag_Group g) ∧ addr_ok (ag_Source g) ∧ addr_ok (ag_Client g) ∧
  Forall addr_ok (ag_IncludedSources g) ∧ Forall addr_ok (ag_ExcludedSources g) ∧
  length (ur_SourceMAC report) = 6%nat ∧ Forall tag_ok (ur_Tags report) ∧
  is_u 16 (pr_UpstreamTCI (ur_Profile report)).

(** Whether the report fits a datagram, whose length is a 16-bit field. *)
Definition report_fits (report : UpstreamReport) : Prop :=
  Z.of_nat (length (mr_Sources (reportRecord report))) ≤
    if Is4 (ag_Group (ur_Group report)) then 16373 else 4092.

Lemma upstreamTags_ok tags control tci tags' : Forall tag_ok tags → is_u 16 tci →
  upstreamTags tags control tci = Ok tags' → Forall tag_ok tags'.
Proof.
  intros Ht Hu H. unfold upstreamTags in H. inv_ok H. subst tags'.
  assert (tag_ok (mkTag 0x8100 tci)) as Hd by (split; [done|split; [by_decide|done]]).
  branch; [done|]. branch; [by constructor|]. destruct Ht as [|tag tags (H1 & H2 & H3) Ht]; [by constructor|].
  constructor; [|done]. split_and!; [done|done|]. cbn [TCI]. branch; [done|].
  apply is_u_lor; [done|by apply is_u_land|by apply is_u_land].
Qed.

Lemma IsUnspecified_ok a : addr_ok a → IsUnspecified a = bool_decide (a = if Is4 a then V4 0 else V6 0 "").
Proof.
  destruct a as [|v|v z]; [done| |]; cbn [addr_ok Is4 IsUnspecified].
  - intros _. destruct (Z.eqb_spec v 0) as [->|]; [done|]. by rewrite bool_decide_false by congruence.
  - intros [_ ->]. rewrite andb_true_r. destruct (Z.eqb_spec v 0) as [->|]; [done|].
    by rewrite bool_decide_false by congruence.
Qed.

Lemma same_family a b : addr_ok a → addr_ok b → BitLen a = BitLen b → Is4 a = Is4 b.
Proof. by destruct a, b. Qed.

(** The group record that the builders write is the record the report stands for. *)
Lemma groupRecord_record four family report recordType sources :
  report_ok report → (∀ a, addr_ok a → family a = true → Is4 a = four) →
  Is4 (ag_Group (ur_Group report)) = four → BitLen (ag_Source (ur_Group report)) = BitLen (ag_Group (ur_Group report)) →
  (pr_IGMPVersion (ur_Profile report) =? 3) || (pr_IGMPVersion (ur_Profile report) =? 17) = true →
  groupRecord family (bool_decide (ag_Source (ur_Group report) = if four then V4 0 else V6 0 "")) report
    = Ok (recordType, sources) →
  reportRecord report = mkRecord recordType (ag_Group (ur_Group report)) sources ∧
  ModeIsInclude ≤ recordType ≤ BlockOldSources ∧
  Forall (λ a, addr_ok a ∧ Is4 a = four) sources ∧ Z.of_nat (length sources) < 65536.
Proof.
  intros (Hg & Hs & _ & Hi & He & _) Hfam Hf Hb Hv H. unfold reportRecord. rewrite Hv.
  pose proof (same_family _ _ Hs Hg Hb) as Hfs. rewrite Hf in Hfs.
  rewrite (IsUnspecified_ok _ Hs), Hfs. set (any := bool_decide (ag_Source _ = _)) in *.
  assert (∀ l, Forall addr_ok l → forallb family l = true → Forall (λ a, addr_ok a ∧ Is4 a = four) l) as Hall.
  { intros l Hl Hfl. rewrite Forall_forall in Hl |- *. rewrite forallb_forall in Hfl.
    intros x Hx. split; [by apply Hl|]. apply Hfam; [by apply Hl|]. by apply Hfl, list_elem_of_In. }
  unfold groupRecord in H. inv_ok H. destruct (ur_Join report); destruct any; inv_ok H; subst.
  - split_and!; [done|done|done| |lia]. apply Hall; [done|]. by apply negb_false_iff.
  - rewrite andb_true_r in *. split_and!; [done|done|done| |].
    + apply Hall; [case_bool_decide; [by constructor|done]|]. by apply negb_false_iff.
    + case_bool_decide; cbn [length]; lia.
  - split_and!; [done|done|done|constructor|done].
  - split_and!; [done|done|done| |done]. by repeat constructor.
Qed.

(** The payloads of the legacy messages and of the version 3 report. *)
Lemma parse_old_igmp k g client result : k = 0x12 ∨ k = 0x16 ∨ k = 0x17 → is_u 32 g → IsMulticast (V4 g) = true →
  parseIGMPPayload (withChecksum internetChecksum ([k; 0; 0; 0] ++ As4 (V4 g))) client result =
    Ok (withContents result MessageReport (if k =? 0x12 then 1 else 2) client 0 0 0
          [mkRecord (if k =? 0x17 then ChangeToIncludeMode else ModeIsExclude) (V4 g) []]).
Proof.
  intros Hk Hg Hm. assert (is_u 8 k) as Hu by (unfold is_u; lia).
  unfold parseIGMPPayload. rewrite igmp_verifies by (done || apply bytes_ok_put_be || by vm_compute).
  cbn [negb Z.eqb guard_err mbind Res_bind]. rewrite withChecksum_eq. set (sum := put_be 2 _).
  set (payload := [k; 0] ++ sum ++ As4 (V4 g)).
  assert (nth8 payload 0 = k) as -> by done. assert (AddrFrom4 (slice payload 4 8) = V4 g) as ->.
  { subst payload. rewrite app_assoc. rewrite (slice_skip ([k; 0] ++ sum) _ 4) by (done || lia).
    unfold AddrFrom4. rewrite slice_full by done. cbn [As4 addrValue]. unfold As4. by rewrite be_put_be_small. }
  cbv zeta. rewrite Hm. by destruct Hk as [->|[->| ->]].
Qed.

Lemma parse_igmp3 recordType g sources client result : is_u 32 g → IsMulticast (V4 g) = true →
  ModeIsInclude ≤ recordType ≤ BlockOldSources → Forall (λ a, addr_ok a ∧ Is4 a = true) sources →
  Z.of_nat (length sources) ≤ 16373 →
  parseIGMPPayload (withChecksum internetChecksum (reportMessage 0x22 recordType (As4 (V4 g)) sources)) client result =
    Ok (withContents result MessageReport 3 client 0 0 0 [mkRecord recordType (V4 g) sources]).
Proof.
  intros Hg Hm Ht Hs Hn. set (post := [0; 0; 0; 1; recordType; 0] ++
    put_be 2 (u16 (Z.of_nat (length sources))) ++ As4 (V4 g) ++ flat_map AsSlice sources).
  change (reportMessage 0x22 recordType (As4 (V4 g)) sources) with ([0x22; 0; 0; 0] ++ post).
  assert (bytes_ok post) as Hok.
  { subst post. repeat (apply Forall_app; split); try apply bytes_ok_put_be.
    - unfold ModeIsInclude, BlockOldSources in Ht. do 4 (constructor; [done|]).
      constructor; [unfold is_u; lia|]. by constructor.
    - apply bytes_ok_flat_map, bytes_ok_AsSlice. }
  assert (length post = 12 + length sources * 4)%nat as Hlen.
  { subst post. rewrite !length_app, length_put_be, (length_addresses true) by done. unfold As4.
    rewrite length_put_be. cbn [length addrSize]. lia. }
  unfold parseIGMPPayload. rewrite igmp_verifies by (done || lia).
  cbn [negb Z.eqb guard_err mbind Res_bind]. rewrite withChecksum_eq. set (sum := put_be 2 _).
  assert (nth8 ([0x22; 0] ++ sum ++ post) 0 = 0x22) as -> by done. cbv zeta.
  cbn [Z.eqb Pos.eqb orb]. unfold parseIGMPv3Records. subst post.
  pose proof (parse_record true 0x22 sum recordType (V4 g) sources (length_put_be _ _) Hg eq_refl Hm Ht Hs ltac:(lia)) as Hp.
  cbn [addrSize addrFrom AsSlice] in Hp. rewrite Hp. done.
Qed.

Lemma length_reportMessage four checksum k recordType group sources :
  Forall (λ a, addr_ok a ∧ Is4 a = four) sources →
  length (withChecksum checksum (reportMessage k recordType group sources)) =
    (12 + length group + length sources * addrSize four)%nat.
Proof.
  intros Hs. unfold withChecksum. rewrite length_put_at by (rewrite length_put_be; cbn; lia).
  unfold reportMessage. rewrite !length_app, length_put_be, (length_addresses four) by done. cbn [length]. lia.
Qed.

Lemma parse_igmp_report report packet result :
  report_ok report → report_fits report → IsMulticast (ag_Group (ur_Group report)) = true →
  Is4 (ag_Group (ur_Group report)) = true →
  BitLen (ag_Source (ur_Group report)) = BitLen (ag_Group (ur_Group report)) →
  BitLen (ag_Client (ur_Group report)) = BitLen (ag_Group (ur_Group report)) →
  buildIGMPPacket report = Ok (Some packet) →
  parseIGMP packet result = Ok (withContents result MessageReport (pr_IGMPVersion (ur_Profile report))
    (ag_Client (ur_Group report)) 0 0 0 [reportRecord report]).
Proof.
  intros Hok Hfits Hm H4 Hbs Hbc H. pose proof Hok as (Hg & Hs & Hc & Hi & He & _).
  pose proof (same_family _ _ Hc Hg Hbc) as Hfc. rewrite H4 in Hfc.
  assert (length (AsSlice (ag_Client (ur_Group report))) = 4%nat) as Hlc
    by (rewrite length_AsSlice, Hfc by (by apply addr_ok_valid); done).
  assert (AddrFrom4 (AsSlice (ag_Client (ur_Group report))) = ag_Client (ur_Group report)) as Hfrom.
  { pose proof (addrFrom_AsSlice _ Hc) as Hx. by rewrite Hfc in Hx. }
  destruct (ag_Group (ur_Group report)) as [|g|] eqn:Hgroup; try done.
  assert (∀ destination k, length destination = 4%nat → is_u 8 k →
    parseIGMP (ipv4Packet (AsSlice (ag_Client (ur_Group report))) destination
      (withChecksum internetChecksum ([k; 0; 0; 0] ++ As4 (V4 g)))) result =
    parseIGMPPayload (withChecksum internetChecksum ([k; 0; 0; 0] ++ As4 (V4 g))) (ag_Client (ur_Group report)) result) as Hold.
  { intros destination k Hd Hk. rewrite <- Hfrom at 2. apply parseIGMP_packet; [done|done| |]; by vm_compute. }
  unfold buildIGMPPacket in H. cbv zeta in H. rewrite Hgroup in H.
  destruct (Z.eqb_spec (pr_IGMPVersion (ur_Profile report)) 3) as [Hv|Hv3].
  { rewrite Hv in H. cbn [Z.eqb Pos.eqb] in H. apply Res_bind_Ok in H as ([recordType sources] & Hr & H).
    apply Ok_injective, (inj Some) in H; subst packet.
    destruct (groupRecord_record true Is4 report recordType sources) as (Hrec & Ht & Hsrc & _);
      [done|done|by rewrite Hgroup|by rewrite Hgroup|by rewrite Hv|done|].
    unfold report_fits in Hfits. rewrite Hrec, Hgroup in *. cbn [mr_Sources Is4] in Hfits.
    rewrite parseIGMP_packet
      by (done || (rewrite (length_reportMessage true) by done; unfold As4; rewrite length_put_be; cbn [addrSize]; lia)).
    rewrite Hfrom, parse_igmp3, Hv by done. done. }
  unfold reportRecord. rewrite Hgroup.
  destruct (Z.eqb_spec (pr_IGMPVersion (ur_Profile report)) 1) as [Hv|Hv1].
  { destruct (ur_Join report) eqn:Hj; [|done]. apply Ok_injective, (inj Some) in H; subst packet. rewrite Hold by done.
    rewrite parse_old_igmp by auto. by rewrite Hv. }
  destruct (Z.eqb_spec (pr_IGMPVersion (ur_Profile report)) 2) as [Hv|Hv2]; [|done].
  rewrite Hv. destruct (ur_Join report) eqn:Hj; apply Ok_injective, (inj Some) in H; subst packet;
    rewrite Hold by done; rewrite parse_old_igmp by auto; done.
Qed.

Lemma parse_old_mld k g source destination packet result :
  k = 131 ∨ k = 132 → is_u 128 g → IsMulticast (V6 g "") = true → bytes_ok source → bytes_ok destination →
  length source = 16%nat → length destination = 16%nat →
  slice packet 8 24 = source → slice packet 24 40 = destination →
  parseICMPv6 packet (withChecksum (icmpv6Checksum source destination) ([k; 0; 0; 0] ++ replicate 4 0 ++ As16 (V6 g ""))) result =
    Ok (withContents result MessageReport 16 (AddrFrom16 source) 0 0 0
          [mkRecord (if k =? 132 then ChangeToIncludeMode else ModeIsExclude) (V6 g "") []]).
Proof.
  intros Hk Hg Hm Hos Hod Hls Hld Hs Hd. assert (is_u 8 k) as Hu by (unfold is_u; lia).
  unfold parseICMPv6. rewrite Hs, Hd. rewrite icmp_verifies;
    [|done|done|done|done|done|by apply Forall_app; split; [by_decide|apply bytes_ok_put_be]|by vm_compute].
  rewrite withChecksum_eq. set (sum := put_be 2 _).
  set (payload := [k; 0] ++ sum ++ replicate 4 0 ++ As16 (V6 g "")).
  assert (nth8 payload 0 = k) as -> by done. assert (length payload = 24%nat) as -> by done.
  assert (AddrFrom16 (slice payload 8 24) = V6 g "") as ->.
  { subst payload. rewrite (app_assoc sum), app_assoc.
    rewrite (slice_skip ([k; 0] ++ sum ++ replicate 4 0) _ 8) by (done || lia).
    unfold AddrFrom16. rewrite slice_full by done. cbn [addrValue]. unfold As16. by rewrite be_put_be_small. }
  cbv zeta. rewrite Hm. by destruct Hk as [->| ->].
Qed.

Lemma parse_mld2 recordType g sources source destination packet result :
  is_u 128 g → IsMulticast (V6 g "") = true →
  ModeIsInclude ≤ recordType ≤ BlockOldSources → Forall (λ a, addr_ok a ∧ Is4 a = false) sources →
  Z.of_nat (length sources) ≤ 4092 → bytes_ok source → bytes_ok destination →
  length source = 16%nat → length destination = 16%nat →
  slice packet 8 24 = source → slice packet 24 40 = destination →
  parseICMPv6 packet (withChecksum (icmpv6Checksum source destination)
    (reportMessage 143 recordType (As16 (V6 g "")) sources)) result =
    Ok (withContents result MessageReport 17 (AddrFrom16 source) 0 0 0 [mkRecord recordType (V6 g "") sources]).
Proof.
  intros Hg Hm Ht Hs Hn Hos Hod Hls Hld Hps Hpd. set (post := [0; 0; 0; 1; recordType; 0] ++
    put_be 2 (u16 (Z.of_nat (length sources))) ++ As16 (V6 g "") ++ flat_map AsSlice sources).
  change (reportMessage 143 recordType (As16 (V6 g "")) sources) with ([143; 0; 0; 0] ++ post).
  assert (bytes_ok post) as Hok.
  { subst post. repeat (apply Forall_app; split); try apply bytes_ok_put_be.
    - unfold ModeIsInclude, BlockOldSources in Ht. do 4 (constructor; [done|]).
      constructor; [unfold is_u; lia|]. by constructor.
    - apply bytes_ok_flat_map, bytes_ok_AsSlice. }
  assert (length post = 24 + length sources * 16)%nat as Hlen.
  { subst post. rewrite !length_app, length_put_be, (length_addresses false) by done. unfold As16.
    rewrite length_put_be. cbn [length addrSize]. lia. }
  unfold parseICMPv6. rewrite Hps, Hpd. rewrite icmp_verifies by (done || lia).
  rewrite withChecksum_eq. set (sum := put_be 2 _).
  assert (nth8 ([143; 0] ++ sum ++ post) 0 = 143) as -> by done. cbv zeta.
  rewrite (proj2 (guard_err_iff (length _ <? 8)%nat _ tt)); [|apply Nat.ltb_ge; rewrite !length_app, Hlen; cbn [length]; lia].
  cbn [mbind Res_bind].
  cbn [Z.eqb Pos.eqb orb negb guard_err mbind Res_bind]. unfold parseMLDv2Records. subst post.
  pose proof (parse_record false 143 sum recordType (V6 g "") sources (length_put_be _ _) (conj Hg eq_refl) eq_refl
    Hm Ht Hs ltac:(lia)) as Hp.
  cbn [addrSize addrFrom AsSlice] in Hp. rewrite Hp. done.
Qed.

Lemma parse_mld_report report packet result :
  report_ok report → report_fits report → IsMulticast (ag_Group (ur_Group report)) = true →
  Is4 (ag_Group (ur_Group report)) = false →
  BitLen (ag_Source (ur_Group report)) = BitLen (ag_Group (ur_Group report)) →
  BitLen (ag_Client (ur_Group report)) = BitLen (ag_Group (ur_Group report)) →
  buildMLDPacket report = Ok packet →
  parseMLD packet result = Ok (withContents result MessageReport (pr_IGMPVersion (ur_Profile report))
    (ag_Client (ur_Group report)) 0 0 0 [reportRecord report]).
Proof.
  intros Hok Hfits Hm H4 Hbs Hbc H. pose proof Hok as (Hg & Hs & Hc & Hi & He & _).
  pose proof (same_family _ _ Hc Hg Hbc) as Hfc. rewrite H4 in Hfc.
  assert (AddrFrom16 (As16 (ag_Client (ur_Group report))) = ag_Client (ur_Group report)) as Hfrom.
  { pose proof (addrFrom_AsSlice _ Hc) as Hx. rewrite Hfc in Hx. by destruct (ag_Client _). }
  set (source := As16 (ag_Client (ur_Group report))) in *.
  assert (length source = 16%nat) as Hls by apply length_put_be.
  assert (bytes_ok source) as Hos by apply bytes_ok_put_be.
  destruct (ag_Group (ur_Group report)) as [| |g z] eqn:Hgroup; try done. destruct Hg as [Hg ->].
  assert (∀ destination k, length destination = 16%nat → bytes_ok destination → k = 131 ∨ k = 132 →
    parseMLD (ipv6Packet source destination (withChecksum (icmpv6Checksum source destination)
      ([k; 0; 0; 0] ++ replicate 4 0 ++ As16 (V6 g "")))) result =
    Ok (withContents result MessageReport 16 (ag_Client (ur_Group report)) 0 0 0
      [mkRecord (if k =? 132 then ChangeToIncludeMode else ModeIsExclude) (V6 g "") []])) as Hold.
  { intros destination k Hd Hod Hk.
    destruct (parseMLD_packet source destination (withChecksum (icmpv6Checksum source destination)
      ([k; 0; 0; 0] ++ replicate 4 0 ++ As16 (V6 g ""))) result) as (p & H1 & H2 & ->);
      [done|done|by apply Nat.leb_le|by vm_compute|].
    by rewrite parse_old_mld, Hfrom by done. }
  unfold buildMLDPacket in H. cbv zeta in H. fold source in H. rewrite Hgroup in H.
  destruct (Z.eqb_spec (pr_IGMPVersion (ur_Profile report)) 17) as [Hv|Hv17].
  { rewrite Hv in H. cbn [Z.eqb Pos.eqb] in H. apply Res_bind_Ok in H as ([recordType sources] & Hr & H).
    apply Ok_injective in H; subst packet.
    destruct (groupRecord_record false (λ a, Is6 a && negb (Is4In6 a)) report recordType sources)
      as (Hrec & Ht & Hsrc & _); [done|by intros [] ?|by rewrite Hgroup|by rewrite Hgroup|by rewrite Hv|done|].
    unfold report_fits in Hfits. rewrite Hrec, Hgroup in *. cbn [mr_Sources Is4] in Hfits.
    destruct (parseMLD_packet source (As16 mldRouters) (withChecksum (icmpv6Checksum source (As16 mldRouters))
      (reportMessage 143 recordType (As16 (V6 g "")) sources)) result) as (p & H1 & H2 & ->);
      [done|done|rewrite (length_reportMessage false) by done; unfold As16; rewrite length_put_be; cbn [addrSize]; lia..|].
    rewrite parse_mld2, Hfrom, Hv by (done || apply bytes_ok_put_be). done. }
  unfold reportRecord. rewrite Hgroup.
  destruct (Z.eqb_spec (pr_IGMPVersion (ur_Profile report)) 16) as [Hv|]; [|done].
  rewrite Hv. destruct (ur_Join report) eqn:Hj; apply Ok_injective in H; subst packet.
  - rewrite (Hold _ 131) by (done || apply bytes_ok_put_be || auto). done.
  - rewrite (Hold _ 132) by (done || apply bytes_ok_put_be || auto). done.
Qed.


(** ** The codes of the times *)

Lemma find_app {A} (P : A → bool) l1 l2 :
  List.find P (l1 ++ l2) = match List.find P l1 with Some x => Some x | None => List.find P l2 end.
Proof. induction l1 as [|x l1 IH]; [done|]. cbn [app List.find]. by destruct (P x). Qed.

Lemma find_seqZ (P : Z → bool) start n v : List.find P (seqZ start n) = Some v →
  start ≤ v < start + n ∧ P v = true ∧ ∀ c, start ≤ c < v → P c = false.
Proof.
  intros H. apply List.find_some in H as Hp. destruct Hp as [Hin Hp].
  apply list_elem_of_In, elem_of_seqZ in Hin. split_and!; [lia|lia|done|].
  intros c Hc. destruct (P c) eqn:HPc; [|done]. exfalso.
  revert H. replace n with ((v - start) + (n - (v - start))) by lia.
  rewrite seqZ_app by lia. rewrite find_app.
  destruct (List.find P (seqZ start (v - start))) as [w|] eqn:Hw.
  - intros [= ->]. apply List.find_some in Hw as [Hw _]. apply list_elem_of_In, elem_of_seqZ in Hw. lia.
  - intros _. eapply List.find_none in Hw; [by rewrite HPc in Hw|]. apply list_elem_of_In, elem_of_seqZ. lia.
Qed.

(** The least code not below a value, for a code that is its own value below [limit]; values above
    the greatest saturate. *)
Lemma least_code decode limit greatest value :
  0 < limit → (∀ c, 0 ≤ c < limit → decode c = c) → (∀ c, 0 ≤ c < 2 * limit → 0 ≤ decode c ≤ greatest) →
  decode (2 * limit - 1) = greatest → 0 ≤ value →
  let code := if value <? limit then value
              else default (2 * limit - 1) (List.find (λ c, value <=? decode c) (seqZ limit limit)) in
  0 ≤ code < 2 * limit ∧ (value ≤ greatest → value ≤ decode code) ∧
  (greatest < value → code = 2 * limit - 1) ∧
  ∀ c, 0 ≤ c < 2 * limit → value ≤ decode c → code ≤ c.
Proof.
  intros Hpos Hlow Hrange Htop Hv. cbv zeta. destruct (Z.ltb_spec value limit) as [Hlt|Hge].
  { split_and!; [lia|lia| | |].
    - intros _. rewrite Hlow by lia. lia.
    - pose proof (Hrange (limit - 1) ltac:(lia)) as Hr. rewrite (Hlow (limit - 1)) in Hr by lia. lia.
    - intros c Hc Hd. destruct (Z.lt_ge_cases c limit); [rewrite Hlow in Hd by lia|]; lia. }
  destruct (List.find _ _) as [code|] eqn:Hf; cbn [from_option]; unfold id.
  - apply find_seqZ in Hf as (Hr & Hp%Z.leb_le & Hbefore). split_and!; [lia|lia|done| |].
    + pose proof (Hrange code ltac:(lia)). lia.
    + intros c Hc Hd. destruct (Z.le_gt_cases code c); [done|]. destruct (Z.lt_ge_cases c limit).
      * rewrite Hlow in Hd by lia. lia.
      * specialize (Hbefore c ltac:(lia)). cbn beta in Hbefore. lia.
  - assert (greatest < value).
    { pose proof (List.find_none _ _ Hf (2 * limit - 1)) as Hn. cbn beta in Hn. rewrite Htop, Z.leb_gt in Hn.
      apply Hn, list_elem_of_In, elem_of_seqZ. lia. }
    split_and!; [lia|lia|lia|done|]. intros c Hc Hd. pose proof (Hrange c Hc). lia.
Qed.

Lemma decodeFloating8_range code : 0 ≤ code < 256 → 0 ≤ decodeFloating8 code ≤ 31744.
Proof.
  intros Hc. pose proof (forall_u 8 (λ c, (0 <=? decodeFloating8 c) && (decodeFloating8 c <=? 31744))
    ltac:(vm_compute; reflexivity) code Hc) as H. cbn beta in H. lia.
Qed.

Lemma decodeFloating16_range code : 0 ≤ code < 65536 → 0 ≤ decodeFloating16 code ≤ 8387584.
Proof.
  intros Hc. unfold decodeFloating16. branch; [lia|].
  assert (is_u 3 (Z.land (Z.shiftr code 12) 7)) as He.
  { rewrite (land_mask 3) by done. apply Z.mod_pos_bound. done. }
  assert (is_u 13 (Z.lor (Z.land code 0x0fff) 0x1000)) as Hm.
  { apply is_u_lor; [done| |by_decide]. rewrite (land_mask 12) by done.
    pose proof (Z.mod_pos_bound code (2 ^ 12) eq_refl). unfold is_u. lia. }
  set (e := Z.land _ 7) in *. set (m := Z.lor _ _) in *. clearbody e m. unfold is_u in He, Hm.
  rewrite (wrap_small 64 (e + 3)) by (unfold is_u; lia). rewrite Z.shiftl_mul_pow2 by lia.
  assert (2 ^ (e + 3) ≤ 2 ^ 10) as Hp by (apply Z.pow_le_mono_r; lia).
  pose proof (Z.pow_pos_nonneg 2 (e + 3) eq_refl ltac:(lia)).
  rewrite wrap_small by (unfold is_u; nia). nia.
Qed.

(** Both codes of a time are the least that are not below it, and saturate. *)
Lemma encodeFloating8_least value : 0 ≤ value →
  is_u 8 (encodeFloating8 value) ∧
  (value ≤ 31744 → value ≤ decodeFloating8 (encodeFloating8 value)) ∧
  (31744 < value → encodeFloating8 value = 255) ∧
  ∀ code, is_u 8 code → value ≤ decodeFloating8 code → encodeFloating8 value ≤ code.
Proof.
  intros Hv. unfold encodeFloating8.
  replace (if value <? 128 then u8 value else _) with (if value <? 128 then value
    else default 255 (List.find (λ code, value <=? decodeFloating8 code) (seqZ 128 128)))
    by (branch; [|done]; symmetry; apply wrap_small; unfold is_u; lia).
  apply (least_code decodeFloating8 128 31744); [done| |exact decodeFloating8_range|done|done].
  intros c Hc. unfold decodeFloating8. branch; lia.
Qed.

Lemma encodeFloating16_least value : 0 ≤ value →
  is_u 16 (encodeFloating16 value) ∧
  (value ≤ 8387584 → value ≤ decodeFloating16 (encodeFloating16 value)) ∧
  (8387584 < value → encodeFloating16 value = 65535) ∧
  ∀ code, is_u 16 code → value ≤ decodeFloating16 code → encodeFloating16 value ≤ code.
Proof.
  intros Hv. unfold encodeFloating16.
  replace (if value <? 0x8000 then u16 value else _) with (if value <? 0x8000 then value
    else default 65535 (List.find (λ code, value <=? decodeFloating16 code) (seqZ 0x8000 0x8000)))
    by (branch; [|done]; symmetry; apply wrap_small; unfold is_u; lia).
  apply (least_code decodeFloating16 0x8000 8387584); [done| |exact decodeFloating16_range|done|done].
  intros c Hc. unfold decodeFloating16. branch; lia.
Qed.

(** ** Queries *)

(** The values the fields of a query can have in the program; no group is a general query. *)
Definition query_ok (query : DownstreamQuery) (sourceMAC : list Z) : Prop :=
  (dq_Group query = NoAddr ∨ addr_ok (dq_Group query)) ∧ (dq_Source query = NoAddr ∨ addr_ok (dq_Source query)) ∧
  Forall (λ tag, is_u 16 (TPID tag) ∧ is_u 16 (TCI tag)) (dq_Tags query) ∧ length sourceMAC = 6%nat ∧
  is_u 8 (pr_Robustness (dq_Profile query)) ∧ is_u 32 (pr_QuerierIPAddress (dq_Profile query)) ∧
  is_u 32 (pr_QueryInterval (dq_Profile query)) ∧ is_u 32 (pr_QueryMaxResponseTime (dq_Profile query)) ∧
  is_u 32 (pr_LastMemberQueryInterval (dq_Profile query)).

(** The contents of the message a query stands for; the version 2 and version 3 codes round the
    times. *)
Definition queryContents (query : DownstreamQuery) (link : MembershipMessage) : MembershipMessage :=
  let version := pr_IGMPVersion (dq_Profile query) in
  let four := version <=? 3 in
  let response := queryResponseDeciseconds query in
  let interval := decodeFloating8 (encodeFloating8 (effectiveQueryInterval (dq_Profile query))) in
  let group := if IsValid (dq_Group query) then dq_Group query else if four then V4 0 else V6 0 "" in
  let client := if four then V4 (pr_QuerierIPAddress (dq_Profile query)) else V6 0 "" in
  let sources := if hasSource query then [dq_Source query] else [] in
  let message := withContents link MessageQuery version client in
  if version =? 1 then message 0 0 0 [mkRecord 0 group []]
  else if version =? 2 then message 0 0 (Z.min response 255) [mkRecord 0 group []]
  else if version =? 3 then
    message (queryRobustness query) interval (decodeFloating8 (encodeFloating8 response)) [mkRecord 0 group sources]
  else if version =? 16 then
    message 0 0 ((Z.min (response * 100) 65535 + 99) / 100) [mkRecord 0 group []]
  else
    message (queryRobustness query) interval
      (Z.min ((decodeFloating16 (encodeFloating16 (response * 100)) + 99) / 100) 0xffffffff)
      [mkRecord 0 group sources].

(** The sources of a query, and its trailer as their list. *)
Definition querySources (query : DownstreamQuery) : list Addr :=
  if hasSource query then [dq_Source query] else [].

Lemma queryTrailer_sources query : queryTrailer query =
  [queryRobustness query; encodeFloating8 (effectiveQueryInterval (dq_Profile query))] ++
  put_be 2 (Z.of_nat (length (querySources query))) ++ flat_map AsSlice (querySources query).
Proof.
  unfold queryTrailer, querySources. destruct (hasSource query); cbn [length flat_map]; by rewrite app_nil_r.
Qed.

(** The payload of an IGMP query without and with a trailer. *)
Lemma parse_igmp_query code g client result : is_u 8 code → is_u 32 g →
  g = 0 ∨ IsMulticast (V4 g) = true →
  parseIGMPPayload (withChecksum internetChecksum ([0x11; code; 0; 0] ++ As4 (V4 g) ++ [])) client result =
    Ok (withContents result MessageQuery (if code =? 0 then 1 else 2) client 0 0 code [mkRecord 0 (V4 g) []]).
Proof.
  intros Hc Hg Hm. rewrite app_nil_r. unfold parseIGMPPayload.
  rewrite igmp_verifies by (done || apply bytes_ok_put_be || by vm_compute).
  cbn [negb Z.eqb guard_err mbind Res_bind]. rewrite withChecksum_eq. set (sum := put_be 2 _).
  set (payload := [0x11; code] ++ sum ++ As4 (V4 g)).
  assert (nth8 payload 0 = 0x11) as -> by done. cbv zeta. cbn [Z.eqb Pos.eqb]. unfold parseIGMPQuery. cbv zeta.
  assert (nth8 payload 1 = code) as -> by done. assert (length payload = 8%nat) as -> by done.
  assert (AddrFrom4 (slice payload 4 8) = V4 g) as ->.
  { subst payload. rewrite app_assoc. rewrite (slice_skip ([0x11; code] ++ sum) _ 4) by (done || lia).
    unfold AddrFrom4. rewrite slice_full by done. cbn [As4 addrValue]. unfold As4. by rewrite be_put_be_small. }
  assert (negb (bool_decide (V4 g = V4 0)) && negb (IsMulticast (V4 g)) = false) as ->.
  { destruct Hm as [->| ->]; [done|apply andb_false_r]. }
  cbn [guard_err mbind Res_bind Nat.eqb]. destruct (Z.eqb_spec code 0) as [->|]; done.
Qed.

Lemma parse_igmp3_query code g robustness interval sources client result :
  is_u 8 code → is_u 32 g → g = 0 ∨ IsMulticast (V4 g) = true → is_u 3 robustness → is_u 8 interval →
  Forall (λ a, addr_ok a ∧ Is4 a = true) sources → (length sources ≤ 1000)%nat →
  parseIGMPPayload (withChecksum internetChecksum ([0x11; code; 0; 0] ++ As4 (V4 g) ++
    [robustness; interval] ++ put_be 2 (Z.of_nat (length sources)) ++ flat_map AsSlice sources)) client result =
    Ok (withContents result MessageQuery 3 client robustness (decodeFloating8 interval) (decodeFloating8 code)
          [mkRecord 0 (V4 g) sources]).
Proof.
  intros Hc Hg Hm Hr Hi Hs Hn. unfold parseIGMPPayload.
  set (post := As4 (V4 g) ++ [robustness; interval] ++ put_be 2 (Z.of_nat (length sources)) ++ flat_map AsSlice sources).
  assert (length post = 8 + length sources * 4)%nat as Hlen.
  { subst post. rewrite !length_app, !length_put_be, (length_addresses true) by done. change (length (As4 (V4 g))) with 4%nat. cbn [length addrSize]. lia. }
  assert (is_u 8 robustness) as Hr8 by (unfold is_u in *; lia).
  assert (bytes_ok post) as Hok.
  { subst post. repeat (apply Forall_app; split); try apply bytes_ok_put_be; [by apply bytes_ok_2|].
    apply bytes_ok_flat_map, bytes_ok_AsSlice. }
  rewrite igmp_verifies by (done || lia).
  cbn [negb Z.eqb guard_err mbind Res_bind]. rewrite withChecksum_eq. set (sum := put_be 2 _).
  set (payload := [0x11; code] ++ sum ++ post).
  assert (length payload = 12 + length sources * 4)%nat as Hlp.
  { subst payload. rewrite !length_app, Hlen. cbn [length]. unfold sum. rewrite length_put_be. lia. }
  assert (nth8 payload 0 = 0x11) as -> by done. cbv zeta. cbn [Z.eqb Pos.eqb]. unfold parseIGMPQuery. cbv zeta.
  assert (nth8 payload 1 = code) as -> by done. assert (nth8 payload 8 = robustness) as -> by done.
  assert (nth8 payload 9 = interval) as -> by done.
  assert (AddrFrom4 (slice payload 4 8) = V4 g) as ->.
  { subst payload. rewrite app_assoc. rewrite (slice_skip ([0x11; code] ++ sum) _ 4) by (done || lia).
    subst post. unfold AddrFrom4. cbn [Nat.sub]. rewrite slice_0_app by done. cbn [As4 addrValue]. unfold As4.
    by rewrite be_put_be_small. }
  set (pre := [0x11; code] ++ sum ++ As4 (V4 g) ++ [robustness; interval] ++ put_be 2 (Z.of_nat (length sources))).
  assert (payload = pre ++ flat_map AsSlice sources ++ []) as Hp.
  { subst payload post pre. rewrite app_nil_r, <- !app_assoc. reflexivity. }
  assert (Uint16 payload 10 = Z.of_nat (length sources)) as ->.
  { rewrite Hp. assert (pre = ([0x11; code] ++ sum ++ As4 (V4 g) ++ [robustness; interval]) ++
      put_be 2 (Z.of_nat (length sources))) as -> by (subst pre; by rewrite <- !app_assoc).
    rewrite <- app_assoc. unfold Uint16. rewrite (slice_skip _ _ 10) by (done || lia). cbn [Nat.sub Nat.add]. rewrite slice_0_app by apply length_put_be.
    apply be_put_be_small. unfold is_u. lia. }
  rewrite Nat2Z.id. assert (readSources 4 AddrFrom4 payload 12 (length sources) = sources) as ->.
  { rewrite Hp. by apply (readSources_addresses true). }
  assert (negb (bool_decide (V4 g = V4 0)) && negb (IsMulticast (V4 g)) = false) as ->.
  { destruct Hm as [->| ->]; [done|apply andb_false_r]. }
  cbn [guard_err mbind Res_bind Nat.eqb].
  rewrite (proj2 (Nat.eqb_neq (length payload) 8)) by lia.
  rewrite (proj2 (guard_err_iff (length payload <? 12)%nat _ tt)) by lia. cbn [mbind Res_bind].
  rewrite (proj2 (guard_err_iff (negb _) _ tt)) by lia. cbn [mbind Res_bind].
  rewrite (land_mask 3), Z.mod_small by done. done.
Qed.

(** The payload of an MLD query without and with a trailer. *)
Lemma parse_mld_query code g source destination packet result : is_u 16 code → is_u 128 g →
  g = 0 ∨ IsMulticast (V6 g "") = true → bytes_ok source → bytes_ok destination →
  length source = 16%nat → length destination = 16%nat →
  slice packet 8 24 = source → slice packet 24 40 = destination →
  parseICMPv6 packet (withChecksum (icmpv6Checksum source destination)
    ([130; 0; 0; 0] ++ put_be 2 code ++ [0; 0] ++ As16 (V6 g "") ++ [])) result =
    Ok (withContents result MessageQuery 16 (AddrFrom16 source) 0 0 ((code + 99) / 100) [mkRecord 0 (V6 g "") []]).
Proof.
  intros Hc Hg Hm Hos Hod Hls Hld Hs Hd. rewrite app_nil_r. unfold parseICMPv6. rewrite Hs, Hd.
  rewrite icmp_verifies; [|done|done|done|done|done| |by vm_compute].
  2: { apply Forall_app; split; [apply bytes_ok_put_be|]. apply Forall_app; split; [by_decide|apply bytes_ok_put_be]. }
  rewrite withChecksum_eq. set (sum := put_be 2 (icmpv6Checksum _ _ _)).
  set (payload := [130; 0] ++ sum ++ put_be 2 code ++ [0; 0] ++ As16 (V6 g "")).
  assert (nth8 payload 0 = 130) as -> by done. assert (length payload = 24%nat) as Hlen by done. rewrite Hlen.
  cbv zeta. cbn [Z.eqb Pos.eqb Nat.ltb Nat.leb negb guard_err mbind Res_bind]. unfold parseMLDQuery. cbv zeta. rewrite Hlen.
  assert (AddrFrom16 (slice payload 8 24) = V6 g "") as ->.
  { subst payload. rewrite (app_assoc (put_be 2 code)), (app_assoc sum), app_assoc.
    rewrite (slice_skip ([130; 0] ++ sum ++ put_be 2 code ++ [0; 0]) _ 8) by (done || lia).
    unfold AddrFrom16. rewrite slice_full by done. cbn [addrValue]. unfold As16. by rewrite be_put_be_small. }
  assert (Uint16 payload 4 = code) as ->.
  { subst payload. rewrite app_assoc. unfold Uint16. rewrite (slice_skip ([130; 0] ++ sum) _ 4) by (done || lia).
    cbn [Nat.sub Nat.add]. rewrite slice_0_app by done. by apply be_put_be_small. }
  assert (negb (bool_decide (V6 g "" = V6 0 "")) && negb (IsMulticast (V6 g "")) = false) as ->.
  { destruct Hm as [->| ->]; [done|apply andb_false_r]. }
  cbn [guard_err mbind Res_bind Nat.eqb Nat.ltb Nat.leb]. unfold is_u in Hc.
  rewrite (wrap_small 32) by (unfold is_u; lia). done.
Qed.

Lemma parse_mld2_query code g robustness interval sources source destination packet result :
  is_u 16 code → is_u 128 g → g = 0 ∨ IsMulticast (V6 g "") = true → is_u 3 robustness → is_u 8 interval →
  Forall (λ a, addr_ok a ∧ Is4 a = false) sources → (length sources ≤ 1000)%nat →
  bytes_ok source → bytes_ok destination → length source = 16%nat → length destination = 16%nat →
  slice packet 8 24 = source → slice packet 24 40 = destination →
  parseICMPv6 packet (withChecksum (icmpv6Checksum source destination)
    ([130; 0; 0; 0] ++ put_be 2 code ++ [0; 0] ++ As16 (V6 g "") ++
     [robustness; interval] ++ put_be 2 (Z.of_nat (length sources)) ++ flat_map AsSlice sources)) result =
    Ok (withContents result MessageQuery 17 (AddrFrom16 source) robustness (decodeFloating8 interval)
          (Z.min ((decodeFloating16 code + 99) / 100) 0xffffffff) [mkRecord 0 (V6 g "") sources]).
Proof.
  intros Hc Hg Hm Hr Hi Hsrc Hn Hos Hod Hls Hld Hs Hd. unfold parseICMPv6. rewrite Hs, Hd.
  set (post := put_be 2 code ++ [0; 0] ++ As16 (V6 g "") ++
     [robustness; interval] ++ put_be 2 (Z.of_nat (length sources)) ++ flat_map AsSlice sources).
  assert (length post = 24 + length sources * 16)%nat as Hlen.
  { subst post. rewrite !length_app, !length_put_be, (length_addresses false) by done.
    change (length (As16 (V6 g ""))) with 16%nat. cbn [length addrSize]. lia. }
  assert (is_u 8 robustness) as Hr8 by (unfold is_u in *; lia).
  assert (bytes_ok post) as Hok.
  { subst post. repeat (apply Forall_app; split); try apply bytes_ok_put_be; [by_decide|by apply bytes_ok_2|].
    apply bytes_ok_flat_map, bytes_ok_AsSlice. }
  rewrite icmp_verifies by (done || lia). rewrite withChecksum_eq. set (sum := put_be 2 (icmpv6Checksum _ _ _)).
  set (payload := [130; 0] ++ sum ++ post).
  assert (length payload = 28 + length sources * 16)%nat as Hlp.
  { subst payload. rewrite !length_app, Hlen. cbn [length]. unfold sum. rewrite length_put_be. lia. }
  assert (nth8 payload 0 = 130) as -> by done. cbv zeta.
  rewrite (proj2 (guard_err_iff (length payload <? 8)%nat _ tt)) by lia.
  cbn [Z.eqb Pos.eqb negb guard_err mbind Res_bind]. unfold parseMLDQuery. cbv zeta.
  set (pre := [130; 0] ++ sum ++ put_be 2 code ++ [0; 0] ++ As16 (V6 g "") ++ [robustness; interval]).
  assert (length pre = 26%nat) as Hpre by done.
  assert (payload = pre ++ put_be 2 (Z.of_nat (length sources)) ++ flat_map AsSlice sources) as Hp.
  { subst payload post pre. by rewrite <- !app_assoc. }
  assert (nth8 payload 24 = robustness) as -> by done. assert (nth8 payload 25 = interval) as -> by done.
  assert (AddrFrom16 (slice payload 8 24) = V6 g "") as ->.
  { rewrite Hp. subst pre. rewrite slice_app_l by (rewrite Hpre; lia).
    rewrite (app_assoc (put_be 2 code)), (app_assoc sum), app_assoc.
    rewrite (slice_skip ([130; 0] ++ sum ++ put_be 2 code ++ [0; 0]) _ 8) by (done || lia).
    unfold AddrFrom16. cbn [Nat.sub]. rewrite slice_0_app by done. cbn [addrValue]. unfold As16. by rewrite be_put_be_small. }
  assert (Uint16 payload 4 = code) as ->.
  { subst payload post. rewrite app_assoc. unfold Uint16. rewrite (slice_skip ([130; 0] ++ sum) _ 4) by (done || lia).
    cbn [Nat.sub Nat.add]. rewrite slice_0_app by done. by apply be_put_be_small. }
  assert (Uint16 payload 26 = Z.of_nat (length sources)) as ->.
  { rewrite Hp. unfold Uint16. rewrite (slice_skip pre _ 26) by (done || lia).
    cbn [Nat.sub Nat.add]. rewrite slice_0_app by done. apply be_put_be_small. unfold is_u. lia. }
  rewrite Nat2Z.id. assert (readSources 16 AddrFrom16 payload 28 (length sources) = sources) as ->.
  { rewrite Hp, app_assoc, <- (app_nil_r (flat_map _ _)). apply (readSources_addresses false); [done|].
    by rewrite length_app, Hpre, length_put_be. }
  assert (negb (bool_decide (V6 g "" = V6 0 "")) && negb (IsMulticast (V6 g "")) = false) as ->.
  { destruct Hm as [->| ->]; [done|apply andb_false_r]. }
  rewrite (proj2 (guard_err_iff (length payload <? 24)%nat _ tt)) by lia. cbn [guard_err mbind Res_bind].
  rewrite (proj2 (Nat.eqb_neq (length payload) 24)) by lia.
  rewrite (proj2 (guard_err_iff (length payload <? 28)%nat _ tt)) by lia. cbn [mbind Res_bind].
  rewrite (proj2 (guard_err_iff (negb _) _ tt)) by lia. cbn [mbind Res_bind].
  rewrite (land_mask 3), Z.mod_small by done.
  pose proof (decodeFloating16_range code Hc).
  rewrite (wrap_small 64), (wrap_small 32) by (unfold is_u; lia). done.
Qed.

Lemma response_range query sourceMAC : query_ok query sourceMAC →
  0 < queryResponseDeciseconds query < 2 ^ 32.
Proof.
  intros (_ & _ & _ & _ & _ & _ & _ & Hr & Hl). unfold is_u in *.
  unfold queryResponseDeciseconds, effectiveQueryResponse. repeat case_match; lia.
Qed.

Lemma queryRobustness_is_u query : is_u 8 (pr_Robustness (dq_Profile query)) → is_u 3 (queryRobustness query).
Proof. unfold queryRobustness, effectiveRobustness, is_u. intros. repeat case_match; lia. Qed.

Lemma interval_code query sourceMAC : query_ok query sourceMAC →
  is_u 8 (encodeFloating8 (effectiveQueryInterval (dq_Profile query))).
Proof.
  intros (_ & _ & _ & _ & _ & _ & Hi & _). apply encodeFloating8_least. unfold effectiveQueryInterval, is_u in *.
  case_match; lia.
Qed.

(** The group of a query, as an address of the family [four]. *)
Definition queryGroup (four : bool) (query : DownstreamQuery) : Addr :=
  if IsValid (dq_Group query) then dq_Group query else if four then V4 0 else V6 0 "".

Lemma queryGroup_ok four query : dq_Group query = NoAddr ∨ addr_ok (dq_Group query) →
  IsValid (dq_Group query) && (negb (IsMulticast (dq_Group query)) || negb (eqb (Is4 (dq_Group query)) four)) = false →
  ∃ g, queryGroup four query = (if four then V4 g else V6 g "") ∧ is_u (if four then 32 else 128) g ∧
    (g = 0 ∨ IsMulticast (if four then V4 g else V6 g "") = true) ∧
    (if IsValid (dq_Group query) then AsSlice (dq_Group query) else replicate (addrSize four) 0) =
      AsSlice (if four then V4 g else V6 g "").
Proof.
  intros Hok Hg. unfold queryGroup. destruct (IsValid (dq_Group query)) eqn:Hv.
  - destruct Hok as [Hok|Hok]; [by rewrite Hok in Hv|]. cbn [andb] in Hg. apply orb_false_iff in Hg as [Hm Hf].
    apply negb_false_iff in Hm, Hf. apply eqb_prop in Hf. subst four.
    destruct (dq_Group query) as [|g|g z]; [done| |]; cbn [Is4 addr_ok] in *.
    + exists g. auto.
    + destruct Hok as [? ->]. exists g. auto.
  - exists 0. destruct four; by repeat split; auto.
Qed.

Lemma querySources_ok four query : dq_Source query = NoAddr ∨ addr_ok (dq_Source query) →
  hasSource query && (negb (IsValid (dq_Group query)) || negb (eqb (Is4 (dq_Source query)) four)) = false →
  Forall (λ a, addr_ok a ∧ Is4 a = four) (querySources query) ∧ (length (querySources query) ≤ 1000)%nat.
Proof.
  intros Hok Hs. unfold querySources. destruct (hasSource query) eqn:Hh; [|split; [constructor|cbn; lia]].
  cbn [andb] in Hs. apply orb_false_iff in Hs as [_ Hf%negb_false_iff%eqb_prop].
  destruct Hok as [Hok|Hok]; [by unfold hasSource in Hh; rewrite Hok in Hh|].
  split; [by repeat constructor|cbn; lia].
Qed.

Lemma parse_built_igmp query sourceMAC link : query_ok query sourceMAC →
  let version := pr_IGMPVersion (dq_Profile query) in
  version = 1 ∨ version = 2 ∨ version = 3 →
  IsValid (dq_Group query) && (negb (IsMulticast (dq_Group query)) || negb (eqb (Is4 (dq_Group query)) true)) = false →
  hasSource query && (negb (IsValid (dq_Group query)) || negb (eqb (Is4 (dq_Source query)) true)) = false →
  parseIGMP (buildIGMPQuery query) link = Ok (queryContents query link).
Proof.
  intros Hok version Hv Hg Hs. pose proof Hok as (Hgo & Hso & _ & _ & Hrob & Hip & _).
  destruct (queryGroup_ok true query Hgo Hg) as (g & Hgroup & Hug & Hm & Hoct).
  destruct (querySources_ok true query Hso Hs) as [Hsrc Hns].
  pose proof (response_range _ _ Hok) as Hresp. pose proof (interval_code _ _ Hok) as Hint.
  pose proof (queryRobustness_is_u _ Hrob) as Hur.
  unfold buildIGMPQuery. cbv zeta. fold version.
  replace (if IsValid (dq_Group query) then As4 (dq_Group query) else replicate 4 0) with (As4 (V4 g)).
  2: { change (AsSlice (V4 g)) with (As4 (V4 g)) in Hoct. rewrite <- Hoct. destruct (dq_Group query) as [| |] eqn:E; try done. }
  assert (∀ d, IsValid d = true → Is4 d = true → length (As4 d) = 4%nat) as Hl by (intros; apply length_put_be).
  assert (∀ payload, (8 ≤ length payload)%nat → Z.of_nat (length payload) ≤ 65511 →
    parseIGMP (ipv4Packet (put_be 4 (pr_QuerierIPAddress (dq_Profile query)))
      (if IsValid (dq_Group query) then As4 (dq_Group query) else As4 allHosts4) payload) link =
    parseIGMPPayload payload (V4 (pr_QuerierIPAddress (dq_Profile query))) link) as Hpacket.
  { intros payload H8 Hmax. rewrite parseIGMP_packet; [|apply length_put_be|case_match; apply length_put_be|done|done].
    unfold AddrFrom4. by rewrite be_put_be_small. }
  unfold queryContents. cbv zeta. fold version. fold (queryGroup (version <=? 3) query).
  assert ((version <=? 3) = true) as -> by lia. rewrite Hgroup. cbv iota.
  destruct Hv as [Hv|[Hv|Hv]]; rewrite Hv; cbn [Z.eqb Pos.eqb].
  - rewrite Hpacket by (by vm_compute || by apply Nat.leb_le). by rewrite parse_igmp_query.
  - assert (is_u 8 (Z.min (queryResponseDeciseconds query) 255)) as Hu by (unfold is_u; lia).
    rewrite Hpacket by (by vm_compute || by apply Nat.leb_le). rewrite wrap_small, parse_igmp_query by done.
    by rewrite (proj2 (Z.eqb_neq _ _)) by lia.
  - rewrite queryTrailer_sources. set (sources := querySources query) in *.
    assert (is_u 8 (encodeFloating8 (queryResponseDeciseconds query))) as Hu by (apply encodeFloating8_least; lia).
    set (post := As4 (V4 g) ++ _ ++ _ ++ _).
    assert (length post = 8 + length sources * 4)%nat as Hlen.
    { subst post. rewrite !length_app, length_put_be, (length_addresses true) by done.
      change (length (As4 (V4 g))) with 4%nat. cbn [length addrSize]. lia. }
    rewrite Hpacket; [by subst post; rewrite parse_igmp3_query|..];
      rewrite length_withChecksum; cbn [length app]; lia.
Qed.

Lemma parse_built_mld query sourceMAC link : query_ok query sourceMAC →
  let version := pr_IGMPVersion (dq_Profile query) in
  version = 16 ∨ version = 17 →
  IsValid (dq_Group query) && (negb (IsMulticast (dq_Group query)) || negb (eqb (Is4 (dq_Group query)) false)) = false →
  hasSource query && (negb (IsValid (dq_Group query)) || negb (eqb (Is4 (dq_Source query)) false)) = false →
  parseMLD (buildMLDQuery query) link = Ok (queryContents query link).
Proof.
  intros Hok version Hv Hg Hs. pose proof Hok as (Hgo & Hso & _ & _ & Hrob & Hip & _).
  destruct (queryGroup_ok false query Hgo Hg) as (g & Hgroup & Hug & Hm & Hoct).
  destruct (querySources_ok false query Hso Hs) as [Hsrc Hns].
  pose proof (response_range _ _ Hok) as Hresp. pose proof (interval_code _ _ Hok) as Hint.
  pose proof (queryRobustness_is_u _ Hrob) as Hur.
  unfold buildMLDQuery. cbv zeta. fold version.
  replace (if IsValid (dq_Group query) then As16 (dq_Group query) else replicate 16 0) with (As16 (V6 g "")).
  2: { change (AsSlice (V6 g "")) with (As16 (V6 g "")) in Hoct. rewrite <- Hoct. by destruct (dq_Group query). }
  set (destination := if IsValid (dq_Group query) then As16 (dq_Group query) else As16 allNodes6).
  assert (length destination = 16%nat ∧ bytes_ok destination) as [Hld Hod].
  { subst destination. case_match; (split; [apply length_put_be|apply bytes_ok_put_be]). }
  set (source := replicate 16 0). assert (bytes_ok source) as Hos by by_decide.
  unfold queryContents. cbv zeta. fold version. fold (queryGroup (version <=? 3) query).
  assert ((version <=? 3) = false) as -> by lia. rewrite Hgroup. cbv iota.
  rewrite (wrap_small 64) by (unfold is_u; lia).
  destruct Hv as [Hv|Hv]; rewrite Hv; cbn [Z.eqb Pos.eqb].
  - assert (is_u 16 (Z.min (queryResponseDeciseconds query * 100) 65535)) as Hu by (unfold is_u; lia).
    rewrite wrap_small by done.
    set (post := put_be 2 _ ++ [0; 0] ++ As16 (V6 g "") ++ []). assert (length post = 20%nat) as Hlen by done.
    edestruct (parseMLD_packet source destination) as (p & H1 & H2 & ->);
      [done|done| | |by subst post; rewrite parse_mld_query]; rewrite length_withChecksum; cbn [app length]; lia.
  - rewrite queryTrailer_sources. set (sources := querySources query) in *.
    assert (is_u 16 (encodeFloating16 (queryResponseDeciseconds query * 100))) as Hu by (apply encodeFloating16_least; lia).
    set (code := encodeFloating16 _) in *. set (interval := encodeFloating8 _) in *. clearbody code interval.
    set (post := put_be 2 _ ++ [0; 0] ++ As16 (V6 g "") ++ _ ++ _ ++ _).
    assert (length post = 24 + length sources * 16)%nat as Hlen.
    { subst post. rewrite !length_app, !length_put_be, (length_addresses false) by done.
      change (length (As16 (V6 g ""))) with 16%nat. cbn [length addrSize]. lia. }
    edestruct (parseMLD_packet source destination) as (p & H1 & H2 & ->);
      [done|done| | |by subst post; rewrite parse_mld2_query];
      rewrite length_withChecksum; cbn [length app]; lia.
Qed.

(** Every query the gateway sends to its subscribers is, for every version of IGMP and MLD, parsed to
    exactly that query: the group and source it asks for, the querier, the tags, the robustness, and
    the times up to the rounding of their codes. *)
Theorem query_roundtrip query sourceMAC frame :
  query_ok query sourceMAC → BuildDownstreamQueryFrame query sourceMAC = Ok frame →
  ∃ mac, slice frame 0 6 = mac ∧
    ParseMembershipFrame frame =
      Ok (queryContents query (linkMessage sourceMAC mac (vlanOf (dq_Tags query)) (dq_Tags query))).
Proof.
  intros Hok H. pose proof Hok as (_ & _ & Htags & Hmac & _).
  unfold BuildDownstreamQueryFrame in H. cbv zeta in H. set (version := pr_IGMPVersion (dq_Profile query)) in *.
  apply guard_err_bind_Ok in H as [Hv H]. apply guard_err_bind_Ok in H as [Hg H].
  apply guard_err_bind_Ok in H as [Hs H]. apply guard_err_bind_Ok in H as [_ H].
  apply guard_err_bind_Ok in H as [Hlen%Nat.ltb_ge H]. apply guard_err_bind_Ok in H as [Htp%negb_false_iff H].
  assert (Forall tag_ok (dq_Tags query)) as Hto.
  { rewrite Forall_forall in Htags |- *. rewrite forallb_forall in Htp. intros tag Ht.
    split; [by apply Htp, list_elem_of_In|by apply Htags]. }
  destruct ((1 <=? version) && (version <=? 3)) eqn:H4; apply Ok_injective in H; subst frame.
  - eexists. split; [by apply slice_0_app|]. rewrite ParseMembershipFrame_ethernet by (done || by_decide).
    cbv zeta. change (2048 =? 2048) with true. cbv iota. eapply parse_built_igmp; [done|fold version; lia|done|done].
  - eexists. split; [by apply slice_0_app|]. rewrite ParseMembershipFrame_ethernet by (done || by_decide).
    cbv zeta. change (34525 =? 2048) with false. change (34525 =? 34525) with true. cbv iota.
    eapply parse_built_mld; [done|fold version; lia|done|done].
Qed.

(** ** Termination of the header loop *)

(** The loop over the IPv6 extension headers ends, whatever the packet says: with more fuel than octets
    left the answer is there and does not depend on the fuel; it is an error, or an upper-layer
    header that is not an extension, found between the start and the end of the packet. *)
Theorem skipExtensions_total packet end_ offset nextHeader :
  bytes_ok packet →
  ∃ answer, (∀ fuel, (end_ - offset < fuel)%nat → skipExtensions fuel packet end_ offset nextHeader = Some answer) ∧
    match answer with
    | Ok (upper, position) => (upper ∉ [0; 43; 60]) ∧ (offset ≤ position)%nat ∧ (position ≤ Nat.max offset end_)%nat
    | Err e => e = Malformed
    end.
Proof.
  intros Hok. remember (end_ - offset)%nat as left eqn:Hleft. revert offset nextHeader Hleft.
  induction (lt_wf left) as [left _ IH]; intros offset nextHeader ->.
  destruct ((nextHeader =? 0) || (nextHeader =? 43) || (nextHeader =? 60)) eqn:Hext.
  - destruct (end_ - offset <? 8)%nat eqn:H8.
    { exists (Err Malformed). split; [|done]. intros [|fuel] Hf; [lia|]. cbn [skipExtensions]. by rewrite Hext, H8. }
    set (n := (Z.to_nat (nth8 packet (offset + 1) + 1) * 8)%nat).
    destruct (end_ - offset <? n)%nat eqn:Hn.
    { exists (Err Malformed). split; [|done]. intros [|fuel] Hf; [lia|]. cbn [skipExtensions]. fold n.
      by rewrite Hext, H8, Hn. }
    assert (8 ≤ n)%nat as Hpos.
    { assert (0 ≤ nth8 packet (offset + 1)); [|lia]. unfold nth8. destruct (decide (offset + 1 < length packet)%nat) as [Hi|].
      - destruct (lookup_lt_is_Some_2 _ _ Hi) as [x Hx]. rewrite (nth_lookup_Some _ _ _ _ Hx).
        assert (is_u 8 x) as [? _] by (eapply Forall_lookup; [apply Hok|apply Hx]). done.
      - rewrite nth_overflow by lia. done. }
    destruct (IH (end_ - (offset + n))%nat ltac:(lia) (offset + n)%nat (nth8 packet offset) eq_refl) as (answer & Ha & Hs).
    exists answer. split.
    + intros [|fuel] Hf; [lia|]. cbn [skipExtensions]. fold n. rewrite Hext, H8, Hn. apply Ha. lia.
    + destruct answer as [[upper position]|]; [|done]. destruct Hs as (? & ? & ?). split_and!; [done|lia|lia].
  - exists (Ok (nextHeader, offset)). split.
    + intros [|fuel] Hf; [lia|]. cbn [skipExtensions]. by rewrite Hext.
    + split_and!; [set_solver by lia|lia|lia].
Qed.

(** ** Witnesses *)

Definition sampleProfile (version : Z) : Profile :=
  mkProfile 5 version 2 false 0x2064 3 0 0 0xc0a80001 0 0 0 false 0 0 [] [].
Definition sampleSubscriber : Subscriber := mkSubscriber 7 [] 5 0 0 false [] [].
Definition sampleAttachment : Attachment := mkAttachment "lan1" 1 1 None.
Definition sampleReport (version : Z) (join : bool) (excluded : list Addr) : UpstreamReport :=
  mkReport join sampleSubscriber sampleAttachment (sampleProfile version)
    (mkActiveGroup "lan1" (V4 0) [] excluded (V4 0xefff0102) (V4 0xc0a80102) (true, 100) 100 5 1 300 0 0 None)
    [2; 0; 0; 0; 0; 1] [mkTag 0x8100 0x6064].
Definition sampleQuery : DownstreamQuery :=
  mkQuery sampleSubscriber sampleAttachment (sampleProfile 17) (V6 0xff3e0000000000000000000000000101 "")
    (V6 0x20010db8000000000000000000000001 "") [mkTag 0x8100 100].

(** The frame of a built report or query. *)
Definition frameOf {A} (built : Res MembershipError A) (d : A) : A := match built with Ok a => a | Err _ => d end.


Lemma query_roundtrip_witness :
  let frame := frameOf (BuildDownstreamQueryFrame sampleQuery [2; 0; 0; 0; 0; 9]) [] in
  length frame = 110%nat ∧
  ∃ message, ParseMembershipFrame frame = Ok message ∧ mm_Version message = 17 ∧ mm_QueryInterval message = 125 ∧
    mm_Records message = [mkRecord 0 (V6 0xff3e0000000000000000000000000101 "") [V6 0x20010db8000000000000000000000001 ""]].
Proof.
  cbv zeta. split; [by vm_compute|].
  destruct (query_roundtrip sampleQuery [2; 0; 0; 0; 0; 9]
    (frameOf (BuildDownstreamQueryFrame sampleQuery [2; 0; 0; 0; 0; 9]) [])) as (mac & _ & Hp).
  { split_and!; by_decide. }
  { by vm_compute. }
  rewrite Hp. eexists. split; [reflexivity|]. clear Hp. by vm_compute.
Defined.

Lemma skipExtensions_total_witness :
  let packet := replicate 40 0 ++ [43; 0; 0; 0; 0; 0; 0; 0; 58; 1] ++ replicate 14 0 ++ [131] in
  ∃ answer, (∀ fuel, (25 < fuel)%nat → skipExtensions fuel packet 65 40 0 = Some answer) ∧ answer = Ok (58, 64%nat).
Proof.
  cbv zeta. edestruct (skipExtensions_total (replicate 40 0 ++ [43; 0; 0; 0; 0; 0; 0; 0; 58; 1] ++ replicate 14 0 ++ [131])
    65 40 0) as (answer & Ha & _); [by_decide|]. exists answer. split; [exact Ha|].
  specialize (Ha 30%nat ltac:(lia)). vm_compute in Ha. congruence.
Defined.
