(* ===== verification/McRuntime.v ===== *)
(** * Multicast: the membership runtime

    src/internal/multicast/runtime.go: the state that joins the IGMP and MLD messages of
    McReport.v to the authorization policy of McPolicy.v, and drives replication, reports and
    queries through a backend.  A method is a computation over the runtime and the world behind
    its backend that may fail ([M]); what was changed before a failure stays changed, as in the
    code.  One call reads the clock once: [now] is its time in nanoseconds. *)

From S2P Require Import Prelude Maps GoStd Netip McPolicy McReport.

(** ** The backend *)

Record ReplicationChange := mkChange {
  rc_Enable : bool;
  rc_Subscriber : Subscriber;
  rc_Attachment : Attachment;
  rc_Profile : Profile;
  rc_Group : ActiveGroup
}.

(** [BandwidthKey]: subscriber, interface, source, group and VLAN. *)
Abbreviation BandwidthKey := (Z * string * Addr * Addr * VLAN)%type.

(** [RuntimeBackend], acting on a world [W]; a call that fails answers [false].  The sampler is
    that of a [RuntimeBandwidthSampler]; [None] is its error. *)
Class RuntimeBackend (W : Type) := {
  Configure : Config → W → bool * W;
  SetReplication : ReplicationChange → W → bool * W;
  SendReport : UpstreamReport → W → bool * W;
  SendQuery : DownstreamQuery → W → bool * W;
  BandwidthSampler : option (W → option (gmap BandwidthKey Z) * W)
}.

(** ** State *)

Record subscriberBinding := mkBinding { sb_subscriber : Subscriber; sb_attachment : Attachment }.
Definition noBinding : subscriberBinding :=
  mkBinding (mkSubscriber 0 [] 0 0 0 false [] []) (mkAttachment "" 0 0 None).

(** [clientGroupKey]: subscriber, interface, client, source MAC, VLAN and group. *)
Abbreviation clientGroupKey := (Z * string * Addr * list Z * VLAN * Addr)%type.
(** [runtimeStreamKey]: subscriber, interface, source, group and VLAN. *)
Abbreviation runtimeStreamKey := (Z * string * Addr * Addr * VLAN)%type.
(** [clientIdentity]: address and MAC. *)
Abbreviation clientIdentity := (Addr * list Z)%type.
Abbreviation pendingLeaveKey := (runtimeStreamKey * clientIdentity)%type.
(** [rateKey]: subscriber, interface and profile; [robustnessKey]: interface and profile. *)
Abbreviation rateKey := (Z * string * Z)%type.
Abbreviation robustnessKey := (string * Z)%type.

Inductive filterMode := filterModeInclude | filterModeExclude.
#[export] Instance filterMode_eq_dec : EqDecision filterMode.
Proof. solve_decision. Defined.

Record membershipState := mkMembership { ms_mode : filterMode; ms_sources : gset Addr }.
Definition noMembership : membershipState := mkMembership filterModeInclude ∅.

Record runtimeClient := mkClient { cl_group : ActiveGroup; cl_tags : list VLANTag; cl_lastSeen : Z }.
Definition noActiveGroup : ActiveGroup :=
  mkActiveGroup "" NoAddr [] [] NoAddr NoAddr (false, 0) 0 0 0 0 0 0 None.

(** The clients of a stream. *)
Abbreviation runtimeStream := (gmap clientIdentity runtimeClient).

Record pendingLeave := mkPending {
  pl_binding : subscriberBinding;
  pl_profile : Profile;
  pl_group : ActiveGroup;
  pl_tags : list VLANTag;
  pl_remaining : Z;
  pl_next : Z
}.

Record generalQuery := mkGeneralQuery {
  gq_binding : subscriberBinding;
  gq_profile : Profile;
  gq_tags : list VLANTag;
  gq_next : Z
}.

Record rateWindow := mkWindow { rw_second : Z; rw_count : Z }.

Record Runtime := mkRuntime {
  rt_engine : Policy;
  rt_config : Config;
  rt_profiles : gmap Z Profile;
  rt_bindings : gmap string subscriberBinding;
  rt_memberships : gmap clientGroupKey membershipState;
  rt_streams : gmap runtimeStreamKey runtimeStream;
  rt_pending : gmap pendingLeaveKey pendingLeave;
  rt_queries : list generalQuery;
  rt_rates : gmap rateKey rateWindow;
  rt_robustness : gmap robustnessKey Z;
  rt_bandwidth : gmap BandwidthKey Z
}.

Definition set_engine (r : Runtime) engine := mkRuntime engine (rt_config r) (rt_profiles r) (rt_bindings r)
  (rt_memberships r) (rt_streams r) (rt_pending r) (rt_queries r) (rt_rates r) (rt_robustness r) (rt_bandwidth r).
Definition set_memberships (r : Runtime) memberships := mkRuntime (rt_engine r) (rt_config r) (rt_profiles r)
  (rt_bindings r) memberships (rt_streams r) (rt_pending r) (rt_queries r) (rt_rates r) (rt_robustness r) (rt_bandwidth r).
Definition set_streams (r : Runtime) streams := mkRuntime (rt_engine r) (rt_config r) (rt_profiles r)
  (rt_bindings r) (rt_memberships r) streams (rt_pending r) (rt_queries r) (rt_rates r) (rt_robustness r) (rt_bandwidth r).
Definition set_pending (r : Runtime) pending := mkRuntime (rt_engine r) (rt_config r) (rt_profiles r)
  (rt_bindings r) (rt_memberships r) (rt_streams r) pending (rt_queries r) (rt_rates r) (rt_robustness r) (rt_bandwidth r).
Definition set_queries (r : Runtime) queries := mkRuntime (rt_engine r) (rt_config r) (rt_profiles r)
  (rt_bindings r) (rt_memberships r) (rt_streams r) (rt_pending r) queries (rt_rates r) (rt_robustness r) (rt_bandwidth r).
Definition set_rates (r : Runtime) rates := mkRuntime (rt_engine r) (rt_config r) (rt_profiles r)
  (rt_bindings r) (rt_memberships r) (rt_streams r) (rt_pending r) (rt_queries r) rates (rt_robustness r) (rt_bandwidth r).
Definition set_robustness (r : Runtime) robustness := mkRuntime (rt_engine r) (rt_config r) (rt_profiles r)
  (rt_bindings r) (rt_memberships r) (rt_streams r) (rt_pending r) (rt_queries r) (rt_rates r) robustness (rt_bandwidth r).
Definition set_bandwidth (r : Runtime) bandwidth := mkRuntime (rt_engine r) (rt_config r) (rt_profiles r)
  (rt_bindings r) (rt_memberships r) (rt_streams r) (rt_pending r) (rt_queries r) (rt_rates r) (rt_robustness r) bandwidth.

(** One constructor for each [fmt.Errorf] of the file. *)
Inductive RuntimeError :=
| InvalidConfig
| NoAttachment
| EmptyInterface
| SharedInterface
| BackendFailed
| UnmanagedInterface
| MissingProfile
| RefreshRejected
| NoStreamState
| MissingFromPolicy.
#[export] Instance RuntimeError_eq_dec : EqDecision RuntimeError.
Proof. solve_decision. Defined.

(** ** Computations *)

(** A computation on the runtime and the world: an error keeps what was done before it. *)
Definition M (W A : Type) : Type := Runtime * W → Res RuntimeError A * (Runtime * W).

#[export] Instance M_ret {W} : MRet (M W) := λ A a s, (Ok a, s).
#[export] Instance M_bind {W} : MBind (M W) := λ A B f c s,
  match c s with
  | (Ok a, s) => f a s
  | (Err e, s) => (Err e, s)
  end.

Definition failM {W A} (e : RuntimeError) : M W A := λ s, (Err e, s).
Definition gets {W A} (f : Runtime → A) : M W A := λ s, (Ok (f s.1), s).
Definition modify {W} (f : Runtime → Runtime) : M W unit := λ s, (Ok tt, (f s.1, s.2)).
(** A call of the policy engine, and a call of the backend. *)
Definition policy {W A} (f : Policy → A * Policy) : M W A := λ s,
  let '(a, engine) := f (rt_engine s.1) in (Ok a, (set_engine s.1 engine, s.2)).
Definition backend {W} (call : W → bool * W) : M W bool := λ s,
  let '(ok, w) := call s.2 in (Ok ok, (s.1, w)).
(** [if err := call; err != nil { return err }]. *)
Definition backendCall {W} (call : W → bool * W) : M W unit :=
  ok ← backend call; if ok : bool then mret tt else failM BackendFailed.

(** A loop that returns on the first error. *)
Fixpoint forM {W A} (l : list A) (f : A → M W unit) : M W unit :=
  match l with
  | [] => mret tt
  | x :: l => _ ← f x; forM l f
  end.

(** ** Membership states *)

Definition sourceSet (sources : list Addr) : gset Addr := list_to_set sources.

Definition transitionMembership (before : membershipState) (record : MembershipRecord) : membershipState :=
  let sources := sourceSet (mr_Sources record) in
  let result := ms_sources before in
  let exclude := bool_decide (ms_mode before = filterModeExclude) in
  if (mr_Type record =? ModeIsInclude) || (mr_Type record =? ChangeToIncludeMode)
  then mkMembership filterModeInclude sources
  else if (mr_Type record =? ModeIsExclude) || (mr_Type record =? ChangeToExcludeMode)
  then mkMembership filterModeExclude sources
  else if mr_Type record =? AllowNewSources
  then mkMembership (ms_mode before) (if exclude then result ∖ sources else result ∪ sources)
  else if mr_Type record =? BlockOldSources
  then mkMembership (ms_mode before) (if exclude then result ∪ sources else result ∖ sources)
  else before.

Definition forwardingSources (state : membershipState) (bitLength : Z) : gset Addr :=
  if negb (bool_decide (ms_mode state = filterModeExclude)) then ms_sources state
  else {[if bitLength =? 128 then V6 0 "" else V4 0]}.

Definition addr_le (a b : Addr) : Prop := addrLe a b = true.
#[export] Instance addr_le_dec a b : Decision (addr_le a b).
Proof. unfold addr_le. apply _. Defined.

(** [sort.Slice] by [Addr.Compare]. *)
Definition sortedSources (sources : gset Addr) : list Addr := merge_sort addr_le (elements sources).
Definition sortedSourceDifference (left right : gset Addr) : list Addr := sortedSources (left ∖ right).
Definition sortedSourceIntersection (left right : gset Addr) : list Addr := sortedSources (left ∩ right).

Definition activeGroup (request : Join) (decision : Decision_) : ActiveGroup :=
  mkActiveGroup (jn_Interface request) (jn_Source request) [] [] (jn_Group request) (jn_Client request)
    (jn_UNIVLAN request) (de_ANIVLAN decision) (de_ProfileID decision) (de_ACLRowKey decision)
    (de_GEMPortID decision) (de_ImputedBandwidth decision) 0 (de_PreviewUntil decision).

(** A group with other sources. *)
Definition withSources (g : ActiveGroup) (source : Addr) (included excluded : list Addr) : ActiveGroup :=
  mkActiveGroup (ag_Interface g) source included excluded (ag_Group g) (ag_Client g) (ag_UNIVLAN g) (ag_ANIVLAN g)
    (ag_ProfileID g) (ag_ACLRowKey g) (ag_GEMPortID g) (ag_ImputedBandwidth g) (ag_TimeSinceJoin g) (ag_PreviewUntil g).

(** The unspecified address of the family of [group]. *)
Definition wildcardOf (group : Addr) : Addr := if Is4 group then V4 0 else V6 0 "".

Definition emptyMembershipGroup (previous : ActiveGroup) : ActiveGroup :=
  withSources previous (wildcardOf (ag_Group previous)) [] [].

Definition sameMembershipGroup (left right : ActiveGroup) : bool :=
  eqb (IsUnspecified (ag_Source left)) (IsUnspecified (ag_Source right)) &&
  bool_decide (ag_IncludedSources left = ag_IncludedSources right) &&
  bool_decide (ag_ExcludedSources left = ag_ExcludedSources right).

Definition sameReplicationGroup (left right : ActiveGroup) : bool :=
  bool_decide (ag_Source left = ag_Source right) && bool_decide (ag_Group left = ag_Group right) &&
  bool_decide (ag_UNIVLAN left = ag_UNIVLAN right) && (ag_ANIVLAN left =? ag_ANIVLAN right) &&
  (ag_GEMPortID left =? ag_GEMPortID right) &&
  bool_decide (ag_IncludedSources left = ag_IncludedSources right) &&
  bool_decide (ag_ExcludedSources left = ag_ExcludedSources right).

(** ** General queries *)

(** ["%04x.%04x/"] for each tag. *)
Definition vlanTagsKey (tags : list VLANTag) : list Z :=
  flat_map (λ tag, hexEncodeToString (put_be 2 (TPID tag)) ++ bytesOf "." ++
                   hexEncodeToString (put_be 2 (TCI tag)) ++ bytesOf "/") tags.

Definition proxyQueryTags (profile : Profile) (service : option ServicePackage) : list VLANTag :=
  let default_ := if 2 <=? pr_DownstreamTagControl profile then [mkTag 0x8100 (pr_DownstreamTCI profile)] else [] in
  match service with
  | Some service =>
      if sp_VLANID service =? 4096 then []
      else if (sp_VLANID service =? 4097) || (sp_VLANID service =? 0xffff) then default_
      else [mkTag 0x8100 (Z.lor (Z.land (pr_DownstreamTCI profile) 0xf000) (sp_VLANID service))]
  | None => default_
  end.

(** [appendQuery]: the profile and the tags of a query, unless they were seen.  The key of the
    code joins the two by a colon, which neither contains. *)
Definition appendQuery (binding : subscriberBinding) (now : Z)
    (acc : gset (Z * list Z) * list generalQuery) (query : Profile * list VLANTag)
    : gset (Z * list Z) * list generalQuery :=
  let '(seen, result) := acc in
  let '(profile, tags) := query in
  let key := (pr_EntityID profile, vlanTagsKey tags) in
  if negb (pr_IGMPFunction profile =? 2) || bool_decide (key ∈ seen) then acc
  else ({[key]} ∪ seen, result ++ [mkGeneralQuery binding profile tags now]).

Definition proxyQueries (subscriber : Subscriber) (attachment : Attachment) (profiles : gmap Z Profile) (now : Z)
    : list generalQuery :=
  let profileOf id := default noProfile (profiles !! id) in
  let wanted :=
    match su_ServicePackages subscriber with
    | [] => [(profileOf (su_Profile subscriber), proxyQueryTags (profileOf (su_Profile subscriber)) None)]
    | services => map (λ service, (profileOf (sp_OperationsProfile service),
                                   proxyQueryTags (profileOf (sp_OperationsProfile service)) (Some service))) services
    end in
  (fold_left (appendQuery (mkBinding subscriber attachment) now) wanted (∅, [])).2.

(** The order of the queries: interface, profile, tags. *)
Definition queryLe (a b : generalQuery) : bool :=
  match String.compare (at_Interface (sb_attachment (gq_binding a))) (at_Interface (sb_attachment (gq_binding b))) with
  | Lt => true
  | Gt => false
  | Eq => match Z.compare (pr_EntityID (gq_profile a)) (pr_EntityID (gq_profile b)) with
          | Lt => true
          | Gt => false
          | Eq => bytesLe (vlanTagsKey (gq_tags a)) (vlanTagsKey (gq_tags b))
          end
  end.
Definition query_le (a b : generalQuery) : Prop := queryLe a b = true.
#[export] Instance query_le_dec a b : Decision (query_le a b).
Proof. unfold query_le. apply _. Defined.

(** The order of the pending leaves: interface, group, client. *)
Definition pendingLe (a b : pendingLeaveKey) : bool :=
  let '(((_, interfaceA, _, groupA, _), (addressA, _))) := a in
  let '(((_, interfaceB, _, groupB, _), (addressB, _))) := b in
  match String.compare interfaceA interfaceB with
  | Lt => true
  | Gt => false
  | Eq => match Netip.Compare groupA groupB with
          | Lt => true
          | Gt => false
          | Eq => addrLe addressA addressB
          end
  end.
Definition pending_le (a b : pendingLeaveKey) : Prop := pendingLe a b = true.
#[export] Instance pending_le_dec a b : Decision (pending_le a b).
Proof. unfold pending_le. apply _. Defined.

(** ** Configuration *)

(** The configuration is compared by [reflect.DeepEqual]. *)
#[export] Instance ACLEntry_eq_dec : EqDecision ACLEntry.
Proof. solve_decision. Defined.
#[export] Instance Profile_eq_dec : EqDecision Profile.
Proof. solve_decision. Defined.
#[export] Instance ServicePackage_eq_dec : EqDecision ServicePackage.
Proof. solve_decision. Defined.
#[export] Instance UpstreamMapper_eq_dec : EqDecision UpstreamMapper.
Proof. solve_decision. Defined.
#[export] Instance Attachment_eq_dec : EqDecision Attachment.
Proof. solve_decision. Defined.
#[export] Instance Subscriber_eq_dec : EqDecision Subscriber.
Proof. solve_decision. Defined.
#[export] Instance Config_eq_dec : EqDecision Config.
Proof. solve_decision. Defined.

(** The body of the loop over the attachments of a subscriber. *)
Definition bindAttachment (subscriber : Subscriber) (profiles : gmap Z Profile) (now : Z)
    (acc : gmap string subscriberBinding * list generalQuery) (attachment : Attachment)
    : Res RuntimeError (gmap string subscriberBinding * list generalQuery) :=
  let '(bindings, queries) := acc in
  _ ← guard_err (bool_decide (at_Interface attachment = "")) EmptyInterface;
  _ ← guard_err (bool_decide (is_Some (bindings !! at_Interface attachment))) SharedInterface;
  Ok (<[at_Interface attachment := mkBinding subscriber attachment]> bindings,
      queries ++ proxyQueries subscriber attachment profiles now).

Definition bindSubscriber (profiles : gmap Z Profile) (now : Z)
    (acc : gmap string subscriberBinding * list generalQuery) (subscriber : Subscriber)
    : Res RuntimeError (gmap string subscriberBinding * list generalQuery) :=
  _ ← guard_err (bool_decide (su_Attachments subscriber = [])) NoAttachment;
  foldM_res (bindAttachment subscriber profiles now) (su_Attachments subscriber) acc.

Section runtime.
Context {MR : MapRange} {W : Type} {B : RuntimeBackend W}.
Implicit Types (r : Runtime) (w : W) (now offset : Z).

(** [configureLocked]; [None] is the runtime that [NewRuntime] fills in. *)
Definition configure (previous : option Runtime) (config : Config) (now : Z) (w : W) : Res RuntimeError Runtime * W :=
  let fresh :=
    let profiles := fold_left (λ profiles profile, <[pr_EntityID profile := profile]> profiles) (cf_Profiles config) ∅ in
    match foldM_res (bindSubscriber profiles now) (cf_Subscribers config) (∅, []) with
    | Err e => (Err e, w)
    | Ok (bindings, queries) =>
        match NewPolicy config now with
        | Err _ => (Err InvalidConfig, w)
        | Ok engine =>
            let engine := match previous with Some r => preserveExpiries (rt_engine r) engine | None => engine end in
            let '(ok, w) := Configure config w in
            if negb ok then (Err BackendFailed, w)
            else (Ok (mkRuntime engine config profiles bindings ∅ ∅ ∅ (merge_sort query_le queries) ∅ ∅ ∅), w)
        end
    end in
  if negb (validConfig config now) then (Err InvalidConfig, w)
  else match previous with
       | Some r => if bool_decide (config = rt_config r) then (Ok r, w) else fresh
       | None => fresh
       end.

(** [NewRuntime] and [Runtime.Configure]. *)
Definition NewRuntime (config : Config) (now : Z) (w : W) : Res RuntimeError Runtime * W := configure None config now w.
Definition ConfigureRuntime (config : Config) (now : Z) : M W unit := λ '(r, w),
  match configure (Some r) config now w with
  | (Ok r, w) => (Ok tt, (r, w))
  | (Err e, w) => (Err e, (r, w))
  end.

(** ** Queries learned and rates *)

Definition learnQueryLocked (binding : subscriberBinding) (message : MembershipMessage) : M W unit :=
  if mm_QueryRobustness message =? 0 then mret tt
  else
    let subscriber := sb_subscriber binding in
    let profileIDs :=
      match su_ServicePackages subscriber with
      | [] => [su_Profile subscriber]
      | services => map sp_OperationsProfile
                      (filter (λ service, serviceVLANMatches (sp_VLANID service) (mm_VLAN message) = true) services)
      end in
    forM profileIDs (λ profileID,
      profiles ← gets rt_profiles;
      match profiles !! profileID with
      | None => mret tt
      | Some profile =>
          if negb (pr_Robustness profile =? 0) ||
             negb (eqb (pr_IGMPVersion profile <=? 3) (mm_Version message <=? 3))
          then mret tt
          else modify (λ r, set_robustness r
                 (<[(at_Interface (sb_attachment binding), profileID) := mm_QueryRobustness message]> (rt_robustness r)))
      end).

Definition withRobustness (profile : Profile) (robustness : Z) : Profile :=
  mkProfile (pr_EntityID profile) (pr_IGMPVersion profile) (pr_IGMPFunction profile) (pr_ImmediateLeave profile)
    (pr_UpstreamTCI profile) (pr_UpstreamTagControl profile) (pr_UpstreamRate profile) robustness
    (pr_QuerierIPAddress profile) (pr_QueryInterval profile) (pr_QueryMaxResponseTime profile)
    (pr_LastMemberQueryInterval profile) (pr_UnauthorizedJoinBehaviour profile) (pr_DownstreamTagControl profile)
    (pr_DownstreamTCI profile) (pr_DynamicACL profile) (pr_StaticACL profile).

Definition effectiveProfile (r : Runtime) (interfaceName : string) (profile : Profile) : Profile :=
  if negb (pr_Robustness profile =? 0) then profile
  else
    let learned := default 0 (rt_robustness r !! (interfaceName, pr_EntityID profile)) in
    if negb (learned =? 0) then withRobustness profile learned else profile.

Definition sendReport (now : Z) (report : UpstreamReport) : M W unit :=
  let limit := pr_UpstreamRate (ur_Profile report) in
  let send := backendCall (SendReport report) in
  if limit =? 0 then send
  else
    let key := (su_EntityID (ur_Subscriber report), at_Interface (ur_Attachment report), pr_EntityID (ur_Profile report)) in
    rates ← gets rt_rates;
    let stored := default (mkWindow 0 0) (rates !! key) in
    let window := if rw_second stored =? now / second then stored else mkWindow (now / second) 0 in
    if limit <=? rw_count window then modify (λ r, set_rates r (<[key := window]> (rt_rates r)))
    else
      _ ← modify (λ r, set_rates r (<[key := mkWindow (rw_second window) (u32 (rw_count window + 1))]> (rt_rates r)));
      send.

(** ** Groups of streams *)

(** The loop body of [effectiveReplicationGroup]: the sources every wildcard client excludes. *)
Definition excludedStep (excluded : option (gset Addr)) (client : runtimeClient) : option (gset Addr) :=
  if negb (IsUnspecified (ag_Source (cl_group client))) then excluded
  else
    let candidate := sourceSet (ag_ExcludedSources (cl_group client)) in
    Some (match excluded with None => candidate | Some excluded => excluded ∩ candidate end).

Definition effectiveReplicationGroup (stream : runtimeStream) : ActiveGroup :=
  let clients := (range stream).*2 in
  let result := match clients with [] => noActiveGroup | client :: _ => cl_group client end in
  withSources result (ag_Source result) (ag_IncludedSources result)
    (sortedSources (default ∅ (fold_left excludedStep clients None))).

(** The loop body of [effectiveUpstreamGroup]: the first group, the included and the excluded
    sources. *)
Definition upstreamStep (acc : ActiveGroup * gset Addr * option (gset Addr)) (entry : runtimeStreamKey * runtimeStream)
    : ActiveGroup * gset Addr * option (gset Addr) :=
  let '(result, included, excluded) := acc in
  let '(_, _, source, _, _) := entry.1 in
  let current := effectiveReplicationGroup entry.2 in
  let result := if IsValid (ag_Group result) then result else current in
  if IsUnspecified source then
    let sources := sourceSet (ag_ExcludedSources current) in
    (result, included, Some (match excluded with None => sources | Some excluded => excluded ∩ sources end))
  else (result, {[source]} ∪ included, excluded).

Definition sameButSource (wanted key : runtimeStreamKey) : bool :=
  let '(subscriberA, interfaceA, _, groupA, vlanA) := key in
  let '(subscriberB, interfaceB, _, groupB, vlanB) := wanted in
  bool_decide (subscriberA = subscriberB) && bool_decide (interfaceA = interfaceB) &&
  bool_decide (groupA = groupB) && bool_decide (vlanA = vlanB).

Definition effectiveUpstreamGroup (streams : gmap runtimeStreamKey runtimeStream) (wanted : runtimeStreamKey)
    : option ActiveGroup :=
  let entries := filter (λ '(key, stream), sameButSource wanted key = true ∧ stream ≠ ∅) (range streams) in
  let '(result, included, excluded) := fold_left upstreamStep entries (noActiveGroup, ∅, None) in
  if negb (IsValid (ag_Group result)) then None
  else match excluded with
       | Some excluded => Some (withSources result (wildcardOf (ag_Group result)) [] (sortedSources (excluded ∖ included)))
       | None => Some (withSources result (hd NoAddr (sortedSources included)) (sortedSources included) [])
       end.

(** ** Memberships *)

Definition requestOf (binding : subscriberBinding) (client : clientGroupKey) (source : Addr) : Join :=
  let '(_, _, address, _, vlan, group) := client in
  mkJoin (su_EntityID (sb_subscriber binding)) (at_Interface (sb_attachment binding)) vlan source group address.
Definition streamKeyFor (request : Join) : runtimeStreamKey :=
  (jn_SubscriberID request, jn_Interface request, jn_Source request, jn_Group request, jn_UNIVLAN request).
Definition identityOf (client : clientGroupKey) : clientIdentity :=
  let '(_, _, address, mac, _, _) := client in (address, mac).

Definition setStream (key : runtimeStreamKey) (stream : runtimeStream) : M W unit :=
  modify (λ r, set_streams r (<[key := stream]> (rt_streams r))).
Definition dropStream (key : runtimeStreamKey) : M W unit :=
  modify (λ r, set_streams r (delete key (rt_streams r))).
Definition dropPending (key : pendingLeaveKey) : M W unit :=
  modify (λ r, set_pending r (delete key (rt_pending r))).

(** The group of a decision, with the sources a wildcard membership excludes. *)
Definition decidedGroup (request : Join) (decision : Decision_) (excluded : list Addr) : ActiveGroup :=
  let group := activeGroup request decision in
  if IsUnspecified (jn_Source request) then withSources group (ag_Source group) (ag_IncludedSources group) excluded
  else group.

(** The report of a changed membership: every client's for a transparent profile, otherwise
    that of all streams of the group. *)
Definition reportGroup (profile : Profile) (streams : gmap runtimeStreamKey runtimeStream) (key : runtimeStreamKey)
    (own current : ActiveGroup) : ActiveGroup :=
  if pr_IGMPFunction profile =? 0 then own else default current (effectiveUpstreamGroup streams key).

Definition replicate_ (enable : bool) (binding : subscriberBinding) (profile : Profile) (group : ActiveGroup)
    : M W bool :=
  backend (SetReplication (mkChange enable (sb_subscriber binding) (sb_attachment binding) profile group)).
Definition report_ (now : Z) (isJoin : bool) (binding : subscriberBinding) (profile : Profile) (group : ActiveGroup)
    (mac : list Z) (tags : list VLANTag) : M W unit :=
  sendReport now (mkReport isJoin (sb_subscriber binding) (sb_attachment binding) profile group mac tags).

(** The client joins its stream: a new stream starts replication, an old one updates it when
    its group changes.  The answer is the stream and whether replication changed. *)
Definition enterStream (binding : subscriberBinding) (request : Join) (client_id : clientIdentity) (profile : Profile)
    (client : runtimeClient) : M W (runtimeStream * bool) :=
  let key := streamKeyFor request in
  streams ← gets rt_streams;
  match streams !! key with
  | None =>
      let stream := {[client_id := client]} in
      ok ← replicate_ true binding profile (effectiveReplicationGroup stream);
      if negb ok then
        _ ← policy (λ p, leave p request); failM BackendFailed
      else
        _ ← setStream key stream; mret (stream, true)
  | Some stream =>
      let previous := effectiveReplicationGroup stream in
      let entered := <[client_id := client]> stream in
      _ ← setStream key entered;
      let current := effectiveReplicationGroup entered in
      if sameReplicationGroup previous current then mret (entered, false)
      else
        ok ← replicate_ true binding profile current;
        if negb ok then
          _ ← setStream key (delete client_id entered);
          _ ← policy (λ p, leave p request); failM BackendFailed
        else mret (entered, true)
  end.

Definition addLocked (offset now : Z) (binding : subscriberBinding) (client : clientGroupKey) (source : Addr)
    (excluded : list Addr) (tags : list VLANTag) : M W bool :=
  let request := requestOf binding client source in
  let client_id := identityOf client in
  decision ← policy (λ p, join p offset request now);
  let group := decidedGroup request decision excluded in
  profiles ← gets rt_profiles;
  match profiles !! de_ProfileID decision with
  | None =>
      if negb (de_Accepted decision) then mret false
      else _ ← policy (λ p, leave p request); failM MissingProfile
  | Some profile =>
      if negb (de_Accepted decision) then
        if de_ForwardUpstream decision then
          _ ← report_ now true binding profile group client_id.2 tags; mret false
        else mret false
      else
        _ ← dropPending (streamKeyFor request, client_id);
        '(stream, changed) ← enterStream binding request client_id profile (mkClient group tags now);
        if (pr_IGMPFunction profile =? 0) || changed then
          streams ← gets rt_streams;
          _ ← report_ now true binding profile
                (reportGroup profile streams (streamKeyFor request) group (effectiveReplicationGroup stream))
                client_id.2 tags;
          mret true
        else mret true
  end.

Definition refreshLocked (offset now : Z) (binding : subscriberBinding) (client : clientGroupKey) (source : Addr)
    (excluded : list Addr) (tags : list VLANTag) : M W unit :=
  let request := requestOf binding client source in
  let key := streamKeyFor request in
  let client_id := identityOf client in
  decision ← policy (λ p, join p offset request now);
  if negb (de_Accepted decision) then failM RefreshRejected
  else
    profiles ← gets rt_profiles;
    match profiles !! de_ProfileID decision with
    | None => failM MissingProfile
    | Some profile =>
        streams ← gets rt_streams;
        match streams !! key with
        | None => failM NoStreamState
        | Some stream =>
            let group := decidedGroup request decision excluded in
            _ ← dropPending (key, client_id);
            let previous := effectiveReplicationGroup stream in
            let entered := <[client_id := mkClient group tags now]> stream in
            _ ← setStream key entered;
            let current := effectiveReplicationGroup entered in
            let changed := negb (sameReplicationGroup previous current) in
            ok ← (if changed then replicate_ true binding profile current else mret true);
            if negb ok then
              _ ← setStream key (<[client_id := default (mkClient noActiveGroup [] 0) (stream !! client_id)]> stream);
              failM BackendFailed
            else if (pr_IGMPFunction profile =? 0) || changed then
              streams ← gets rt_streams;
              report_ now true binding profile (reportGroup profile streams key group current) client_id.2 tags
            else mret tt
        end
    end.

(** The report that follows the departure of a client from its stream. *)
Definition departureReport (now : Z) (binding : subscriberBinding) (key : runtimeStreamKey) (profile : Profile)
    (previousUpstream : option ActiveGroup) (own : ActiveGroup) (mac : list Z) (tags : list VLANTag) : M W unit :=
  if pr_IGMPFunction profile =? 0 then report_ now false binding profile own mac tags
  else match previousUpstream with
       | None => mret tt
       | Some previous =>
           streams ← gets rt_streams;
           match effectiveUpstreamGroup streams key with
           | Some current =>
               if sameMembershipGroup previous current then mret tt
               else report_ now true binding profile current mac tags
           | None => report_ now false binding profile (emptyMembershipGroup previous) mac tags
           end
       end.

Definition finalizeClient (now : Z) (binding : subscriberBinding) (key : runtimeStreamKey) (client_id : clientIdentity)
    (profile : Profile) (active : runtimeClient) (withReport : bool) : M W unit :=
  streams ← gets rt_streams;
  match streams !! key with
  | None => mret tt
  | Some stream =>
      if bool_decide (stream !! client_id = None) then mret tt
      else
        let group := cl_group active in
        let previousUpstream := effectiveUpstreamGroup streams key in
        let last := bool_decide (size stream = 1%nat) in
        let previous := effectiveReplicationGroup stream in
        ok ← (if last then replicate_ false binding profile group else mret true);
        if negb ok then failM BackendFailed
        else
          left ← policy (λ p, leave p (mkJoin (su_EntityID (sb_subscriber binding)) (at_Interface (sb_attachment binding))
                                         (ag_UNIVLAN group) (ag_Source group) (ag_Group group) (ag_Client group)));
          if negb left then failM MissingFromPolicy
          else
            let rest := delete client_id stream in
            _ ← setStream key rest;
            _ ← dropPending (key, client_id);
            _ ← (if last then dropStream key
                 else
                   let current := effectiveReplicationGroup rest in
                   if sameReplicationGroup previous current then mret tt
                   else ok ← replicate_ true binding profile current;
                        if negb ok then failM BackendFailed else mret tt);
            if withReport
            then departureReport now binding key profile previousUpstream group client_id.2 (cl_tags active)
            else mret tt
  end.

(** The query a leave sends: for the group, or for the group and source. *)
Definition leaveQuery (binding : subscriberBinding) (profile : Profile) (group : ActiveGroup) (tags : list VLANTag)
    : DownstreamQuery :=
  mkQuery (sb_subscriber binding) (sb_attachment binding) profile (ag_Group group)
    (if IsUnspecified (ag_Source group) then NoAddr else ag_Source group) tags.

Definition removeLocked (now : Z) (binding : subscriberBinding) (client : clientGroupKey) (source : Addr)
    (tags : list VLANTag) : M W unit :=
  let key := streamKeyFor (requestOf binding client source) in
  let client_id := identityOf client in
  r ← gets id;
  match rt_streams r !! key ≫= λ stream, active ← stream !! client_id; Some (stream, active) with
  | None => mret tt
  | Some (stream, active) =>
      let group := cl_group active in
      match rt_profiles r !! ag_ProfileID group with
      | None => failM MissingProfile
      | Some profile =>
          let effective := effectiveProfile r (at_Interface (sb_attachment binding)) profile in
          if negb (bool_decide (size stream = 1%nat)) || pr_ImmediateLeave profile
          then finalizeClient now binding key client_id profile active true
          else
            _ ← backendCall (SendQuery (leaveQuery binding effective group tags));
            _ ← (if pr_IGMPFunction profile =? 0
                 then report_ now false binding profile group client_id.2 tags else mret tt);
            modify (λ r, set_pending r (<[(key, client_id) :=
              mkPending binding effective group tags (u8 (effectiveRobustness effective - 1))
                (now + effectiveLastMemberInterval effective)]> (rt_pending r)))
      end
  end.

Definition applyRecord (offset now : Z) (binding : subscriberBinding) (message : MembershipMessage)
    (record : MembershipRecord) : M W unit :=
  let key : clientGroupKey :=
    (su_EntityID (sb_subscriber binding), at_Interface (sb_attachment binding), mm_Client message,
     mm_SourceMAC message, mm_VLAN message, mr_Group record) in
  memberships ← gets rt_memberships;
  let before := default noMembership (memberships !! key) in
  let wanted := transitionMembership before record in
  let beforeForwarding := forwardingSources before (BitLen (mm_Client message)) in
  let wantedForwarding := forwardingSources wanted (BitLen (mm_Client message)) in
  let excluded := sortedSources (ms_sources wanted) in
  _ ← forM (sortedSourceDifference beforeForwarding wantedForwarding)
        (λ source, removeLocked now binding key source (mm_Tags message));
  afterForwarding ← (fix add (sources : list Addr) (after : gset Addr) : M W (gset Addr) :=
      match sources with
      | [] => mret after
      | source :: sources =>
          accepted ← addLocked offset now binding key source excluded (mm_Tags message);
          add sources (if accepted : bool then {[source]} ∪ after else after)
      end) (sortedSourceDifference wantedForwarding beforeForwarding) (beforeForwarding ∩ wantedForwarding);
  _ ← forM (sortedSourceIntersection beforeForwarding wantedForwarding)
        (λ source, refreshLocked offset now binding key source excluded (mm_Tags message));
  modify (λ r, set_memberships r
    (if bool_decide (afterForwarding = ∅) then delete key (rt_memberships r)
     else <[key := if bool_decide (ms_mode wanted = filterModeInclude)
                   then mkMembership filterModeInclude afterForwarding else wanted]> (rt_memberships r))).

Definition Handle (offset now : Z) (interfaceName : string) (message : MembershipMessage) : M W unit :=
  bindings ← gets rt_bindings;
  match bindings !! interfaceName with
  | None => failM UnmanagedInterface
  | Some binding =>
      if mm_Downstream message then
        if bool_decide (mm_Kind message = MessageQuery) then learnQueryLocked binding message else mret tt
      else if negb (bool_decide (mm_Kind message = MessageReport)) then mret tt
      else forM (mm_Records message) (applyRecord offset now binding message)
  end.

(** ** Timers *)

(** The membership of an expired group: the source is forgotten. *)
Definition expireMembership (subscriberID : Z) (group : ActiveGroup) (key : clientGroupKey) (state : membershipState)
    : option membershipState :=
  let '(subscriber, interfaceName, address, _, vlan, groupAddress) := key in
  if bool_decide (subscriber = subscriberID) && bool_decide (interfaceName = ag_Interface group) &&
     bool_decide (address = ag_Client group) && bool_decide (vlan = ag_UNIVLAN group) &&
     bool_decide (groupAddress = ag_Group group)
  then
    if bool_decide (ms_mode state = filterModeExclude) && IsUnspecified (ag_Source group) then None
    else
      let sources := ms_sources state ∖ {[ag_Source group]} in
      if bool_decide (sources = ∅) then None else Some (mkMembership (ms_mode state) sources)
  else Some state.

(** The client of an expired group in its stream; the zero identity when there is none. *)
Definition expiredClient (stream : runtimeStream) (group : ActiveGroup) : clientIdentity * runtimeClient :=
  default ((NoAddr, replicate 6 0), mkClient noActiveGroup [] 0)
    (List.find (λ '(client_id, _), bool_decide (client_id.1 = ag_Client group)) (range stream)).

Definition expireGroup (now : Z) (group : ActiveGroup) : M W unit :=
  r ← gets id;
  let bound := rt_bindings r !! ag_Interface group in
  let binding := default noBinding bound in
  let key : runtimeStreamKey :=
    (su_EntityID (sb_subscriber binding), ag_Interface group, ag_Source group, ag_Group group, ag_UNIVLAN group) in
  match rt_streams r !! key with
  | None => mret tt
  | Some stream =>
      let previousUpstream := effectiveUpstreamGroup (rt_streams r) key in
      let '(client_id, active) := expiredClient stream group in
      let profile := default noProfile (rt_profiles r !! ag_ProfileID group) in
      let previous := effectiveReplicationGroup stream in
      let rest := delete client_id stream in
      _ ← dropPending (key, client_id);
      _ ← setStream key rest;
      _ ← (if bool_decide (rest = ∅) then
             ok ← replicate_ false binding profile group;
             if negb ok then failM BackendFailed else dropStream key
           else
             let current := effectiveReplicationGroup rest in
             if sameReplicationGroup previous current then mret tt
             else ok ← replicate_ true binding profile current;
                  if negb ok then failM BackendFailed else mret tt);
      _ ← modify (λ r, set_memberships r
            (map_imap (expireMembership (su_EntityID (sb_subscriber binding)) group) (rt_memberships r)));
      departureReport now binding key profile previousUpstream group client_id.2 (cl_tags active)
  end.

Definition runGeneralQueries (now : Z) : M W unit :=
  queries ← gets rt_queries;
  forM (seq 0 (length queries)) (λ index,
    r ← gets id;
    match rt_queries r !! index with
    | None => mret tt
    | Some query =>
        if now <? gq_next query then mret tt
        else
          let profile := effectiveProfile r (at_Interface (sb_attachment (gq_binding query))) (gq_profile query) in
          _ ← backendCall (SendQuery (mkQuery (sb_subscriber (gq_binding query)) (sb_attachment (gq_binding query))
                                        profile NoAddr NoAddr (gq_tags query)));
          modify (λ r, set_queries r (<[index := mkGeneralQuery (gq_binding query) (gq_profile query) (gq_tags query)
            (now + secondsDuration (effectiveQueryInterval profile))]> (rt_queries r)))
    end).

Definition runPendingLeave (now : Z) (key : pendingLeaveKey) : M W unit :=
  r ← gets id;
  match rt_pending r !! key with
  | None => mret tt
  | Some pending =>
      if now <? pl_next pending then mret tt
      else
        match rt_streams r !! key.1 ≫= (.!! key.2) with
        | None => dropPending key
        | Some active =>
            if negb (pl_remaining pending =? 0) then
              _ ← backendCall (SendQuery (leaveQuery (pl_binding pending) (pl_profile pending) (pl_group pending)
                                            (pl_tags pending)));
              modify (λ r, set_pending r (<[key := mkPending (pl_binding pending) (pl_profile pending)
                (pl_group pending) (pl_tags pending) (pl_remaining pending - 1)
                (now + effectiveLastMemberInterval (pl_profile pending))]> (rt_pending r)))
            else
              finalizeClient now (pl_binding pending) key.1 key.2 (pl_profile pending) active
                (negb (pr_IGMPFunction (pl_profile pending) =? 0))
        end
  end.

Definition runPendingLeaves (now : Z) : M W unit :=
  pending ← gets rt_pending;
  forM (merge_sort pending_le (range pending).*1) (runPendingLeave now).

(** The memberships of proxy profiles that were not renewed in time. *)
Definition staleClients (r : Runtime) (now : Z) : list (runtimeStreamKey * clientIdentity * runtimeClient * Profile) :=
  flat_map (λ '(key, stream),
    let '(_, interfaceName, _, _, _) := key in
    omap (λ '(client_id, active),
      let profile := effectiveProfile r interfaceName
                       (default noProfile (rt_profiles r !! ag_ProfileID (cl_group active))) in
      if negb (pr_IGMPFunction profile =? 2) || bool_decide (is_Some (rt_pending r !! (key, client_id)))
         || (now <? cl_lastSeen active + membershipInterval profile)
      then None
      else Some (key, client_id, active, profile)) (range stream)) (range (rt_streams r)).

Definition expireProxyMemberships (now : Z) : M W unit :=
  r ← gets id;
  forM (staleClients r now) (λ '(key, client_id, active, profile),
    let '(_, interfaceName, _, _, _) := key in
    finalizeClient now (default noBinding (rt_bindings r !! interfaceName)) key client_id profile active true).

Definition Expire (now : Z) : M W unit :=
  expired ← policy (λ p, expire p now);
  _ ← forM expired (expireGroup now);
  _ ← runGeneralQueries now;
  _ ← runPendingLeaves now;
  expireProxyMemberships now.

(** ** Reports to the engine *)

(** The loop over the groups of the monitor: every stream once, at its sampled rate. *)
Definition sampleStep (bandwidth : gmap BandwidthKey Z) (subscriberID : Z) (acc : gset BandwidthKey * Z)
    (group : ActiveGroup) : gset BandwidthKey * Z :=
  let '(seen, total) := acc in
  let key : BandwidthKey := (subscriberID, ag_Interface group, ag_Source group, ag_Group group, ag_UNIVLAN group) in
  if bool_decide (key ∈ seen) then acc
  else ({[key]} ∪ seen, u64 (total + default (ag_ImputedBandwidth group) (bandwidth !! key))).

Definition RuntimeMonitor (now subscriberID : Z) : M W Monitor :=
  result ← policy (λ p, monitor p subscriberID now);
  match BandwidthSampler with
  | None => mret result
  | Some _ =>
      bandwidth ← gets rt_bandwidth;
      let total := (fold_left (sampleStep bandwidth subscriberID) (mo_Groups result) (∅, 0)).2 in
      mret (mkMonitor (if 0xffffffff <? total then 0xffffffff else u32 total) (mo_JoinMessages result)
              (mo_BandwidthExceeded result) (mo_Groups result))
  end.

(** [SampleBandwidth]: an incomplete sample is discarded. *)
Definition SampleBandwidth : M W unit := λ '(r, w),
  match BandwidthSampler with
  | None => (Ok tt, (set_bandwidth r ∅, w))
  | Some sampler =>
      match sampler w with
      | (None, w) => (Err BackendFailed, (set_bandwidth r ∅, w))
      | (Some values, w) => (Ok tt, (set_bandwidth r values, w))
      end
  end.

Definition RuntimePreviewTimers (r : Runtime) (subscriberID now : Z) : list McPolicy.AllowedPreviewTimer :=
  AllowedPreviewTimers (rt_engine r) subscriberID now.

Definition SubscriberIDs (r : Runtime) : list Z :=
  merge_sort Z.le (elements (list_to_set (su_EntityID <$> cf_Subscribers (rt_config r)) : gset Z)).

Definition Interfaces (r : Runtime) : list string := merge_sort string_le (range (rt_bindings r)).*1.
End runtime.
