(* ===== verification/McRuntimeProps.v ===== *)
(** * Multicast: what the membership runtime guarantees

    Only what the policy granted is replicated, the backend replicates exactly the streams of
    the runtime, reports stay within their rate, and membership states follow RFC 3376. *)

From S2P Require Import Prelude Maps Netip McPolicy McProps McReport McRuntime.

(** ** Membership states *)

(** Whether a host in this state wants what [source] sends. *)
Definition wants (state : membershipState) (source : Addr) : bool :=
  match ms_mode state with
  | filterModeInclude => bool_decide (source ∈ ms_sources state)
  | filterModeExclude => negb (bool_decide (source ∈ ms_sources state))
  end.

(** What the record of a report tells about [source] (RFC 3376, 4.2.12): a current state and a
    changed filter mode replace the state, an allowed source is wanted, a blocked one is not. *)
Definition recordWants (record : MembershipRecord) (before : bool) (source : Addr) : bool :=
  let listed := bool_decide (source ∈ mr_Sources record) in
  if (mr_Type record =? ModeIsInclude) || (mr_Type record =? ChangeToIncludeMode) then listed
  else if (mr_Type record =? ModeIsExclude) || (mr_Type record =? ChangeToExcludeMode) then negb listed
  else if mr_Type record =? AllowNewSources then before || listed
  else if mr_Type record =? BlockOldSources then before && negb listed
  else before.


(** ** The policy keeps its configuration *)

Lemma startPreview_config {MR : MapRange} p offset id m request now :
  po_profiles (startPreview p offset id m request now).2 = po_profiles p ∧
  po_subscribers (startPreview p offset id m request now).2 = po_subscribers p.
Proof. unfold startPreview. cbv zeta. by repeat case_match. Qed.

Lemma join_config {MR : MapRange} p offset request now d p' : join p offset request now = (d, p') →
  po_profiles p' = po_profiles p ∧ po_subscribers p' = po_subscribers p.
Proof.
  unfold join. change (po_profiles p) with (po_profiles (expire p now).2).
  change (po_subscribers p) with (po_subscribers (expire p now).2). generalize (expire p now).2. clear p. intros p H.
  cbv zeta in H. destruct (po_subscribers p !! _) as [c|]; [|by apply pair_equal_spec in H as [_ <-]].
  destruct (validJoin request); cbn [negb] in H; [|by apply pair_equal_spec in H as [_ <-]].
  destruct (ss_groups _ !! _); [by apply pair_equal_spec in H as [_ <-]|].
  destruct (activeStream _ _); [by apply pair_equal_spec in H as [_ <-]|].
  destruct (matchRequest _ _ _ _) as [[[m|] forward] id]; [|by apply pair_equal_spec in H as [_ <-]].
  unfold admitJoin in H. destruct (limitsExceeded _ _ _) as [ge be]. cbv zeta in H.
  destruct ge; [by apply pair_equal_spec in H as [_ <-]|].
  destruct (be && _); [by apply pair_equal_spec in H as [_ <-]|].
  destruct (bool_decide _).
  - destruct (startPreview _ _ _ _ _ _) as [d' p1] eqn:Hs. apply (f_equal snd) in Hs. cbn [snd] in Hs.
    destruct (negb (de_Accepted d')); apply pair_equal_spec in H as [_ <-]; subst p1;
      [|change (po_profiles (withState ?q _ _)) with (po_profiles q); change (po_subscribers (withState ?q _ _)) with (po_subscribers q)];
      match goal with |- context [startPreview ?q ?a ?b ?c ?d ?e] => destruct (startPreview_config q a b c d e) as [-> ->] end; done.
  - by apply pair_equal_spec in H as [_ <-].
Qed.

Lemma leave_config p request left p' : leave p request = (left, p') →
  po_profiles p' = po_profiles p ∧ po_subscribers p' = po_subscribers p.
Proof.
  unfold leave. cbv zeta. intros H. repeat case_match; apply pair_equal_spec in H as [_ <-]; done.
Qed.

Lemma monitor_config {MR : MapRange} p id now report p' : monitor p id now = (report, p') → p' = (expire p now).2.
Proof. unfold monitor. cbv zeta. intros H. by destruct (po_state _ !! _); apply pair_equal_spec in H as [_ <-]. Qed.

(** What an accepted join is granted by. *)
Lemma join_granted {MR : MapRange} p offset request now d p' :
  policy_inv p → join p offset request now = (d, p') → de_Accepted d = true →
  ∃ c a, po_subscribers p !! jn_SubscriberID request = Some c ∧ granted p (co_subscriber c) a ∧
         streamOf a = streamKeyOf request.
Proof.
  intros Hp Hj Hd. pose proof (join_inv _ _ _ _ _ _ Hp Hj) as Hp'. destruct (join_config _ _ _ _ _ _ Hj) as [Hpr Hsu].
  apply join_answers in Hj. unfold answers in Hj. rewrite Hd in Hj. destruct Hj as (_ & a & Ha & _).
  unfold groupsOf in Ha. destruct (po_state p' !! _) as [state|] eqn:Hst; cbn in Ha; [|by rewrite lookup_empty in Ha].
  destruct (pi_groups _ Hp' _ _ Hst) as (c & Hc & Hgo). exists c, a. rewrite <- Hsu. split; [done|]. split.
  - eapply granted_profiles; [|by eapply go_granted]. done.
  - pose proof (go_key _ _ _ Hgo _ _ Ha) as Hk. injection Hk as Hk1 Hk2 Hk3 Hk4 Hk5. unfold streamOf, streamKeyOf. cbv zeta.
    congruence.
Qed.

(** ** The streams a backend replicates *)

(** The stream a replication change is about. *)
Definition changeKey (change : ReplicationChange) : runtimeStreamKey :=
  let g := rc_Group change in
  (su_EntityID (rc_Subscriber change), at_Interface (rc_Attachment change), ag_Source g, ag_Group g, ag_UNIVLAN g).

(** A backend whose world shows the streams it replicates: a change it accepts adds or removes
    one, an accepted configuration starts without any, and nothing else changes them. *)
Class ReplicationView (W : Type) `{RuntimeBackend W} := {
  replicated : W → gset runtimeStreamKey;
  view_change change w w' : SetReplication change w = (true, w') →
    replicated w' = if rc_Enable change then {[changeKey change]} ∪ replicated w
                    else replicated w ∖ {[changeKey change]};
  view_configure config w w' : Configure config w = (true, w') → replicated w' = ∅;
  view_report report w ok w' : SendReport report w = (ok, w') → replicated w' = replicated w;
  view_query query w ok w' : SendQuery query w = (ok, w') → replicated w' = replicated w;
  view_sampler sampler w values w' : BandwidthSampler = Some sampler → sampler w = (values, w') →
    replicated w' = replicated w
}.

Section agreement.
Context {MR : MapRange} {W : Type} {B : RuntimeBackend W} {V : ReplicationView W}.

(** What a configuration fixes: profiles, subscribers and bindings. *)
Context (ps : gmap Z Profile) (ss : gmap Z compiledSubscriber) (bs : gmap string subscriberBinding).

Definition bindings_ok : Prop := ∀ i b, bs !! i = Some b → at_Interface (sb_attachment b) = i.

(** A binding that a stream key names, and a stream that the policy granted. *)
Definition binding_of (key : runtimeStreamKey) (b : subscriberBinding) : Prop :=
  let '(subscriber, interfaceName, _, _, _) := key in
  su_EntityID (sb_subscriber b) = subscriber ∧ at_Interface (sb_attachment b) = interfaceName.

Definition stream_granted (key : runtimeStreamKey) : Prop :=
  let '(subscriber, interfaceName, source, group, vlan) := key in
  ∃ c a, ss !! subscriber = Some c ∧ granted (mkPolicy ps ss ∅ ∅) (co_subscriber c) a ∧
         streamOf a = (interfaceName, source, group, vlan).

Definition client_of (key : runtimeStreamKey) (g : ActiveGroup) : Prop :=
  let '(_, _, source, group, vlan) := key in ag_Source g = source ∧ ag_Group g = group ∧ ag_UNIVLAN g = vlan.

Definition key_ok (key : runtimeStreamKey) : Prop :=
  stream_granted key ∧ ∃ b, bs !! key.1.1.1.2 = Some b ∧ binding_of key b.

(** The invariant of a runtime and its backend. *)
Record agree (r : Runtime) (w : W) : Prop := {
  ag_policy : policy_inv (rt_engine r);
  ag_profiles : po_profiles (rt_engine r) = ps;
  ag_subscribers : po_subscribers (rt_engine r) = ss;
  ag_bindings : rt_bindings r = bs;
  ag_streams : ∀ key stream, rt_streams r !! key = Some stream →
    key_ok key ∧ stream ≠ ∅ ∧ ∀ i cl, stream !! i = Some cl → client_of key (cl_group cl);
  ag_pending : ∀ key i p, rt_pending r !! (key, i) = Some p → binding_of key (pl_binding p);
  ag_replicated : replicated w = dom (rt_streams r)
}.

(** ** Computations that keep the invariant

    A call that the backend fails, or a client the policy does not know, may leave the two
    apart; every other error keeps them in agreement. *)
Definition serious (e : RuntimeError) : Prop := e = BackendFailed ∨ e = MissingFromPolicy.

Definition triple {A} (P : Runtime → W → Prop) (c : M W A) (Q : A → Runtime → W → Prop) : Prop :=
  ∀ r w, P r w → match c (r, w) with
                 | (Ok a, (r', w')) => Q a r' w'
                 | (Err e, (r', w')) => ¬ serious e → agree r' w'
                 end.

Lemma triple_ret {A} (a : A) (P : Runtime → W → Prop) Q : (∀ r w, P r w → Q a r w) → triple P (mret a) Q.
Proof. intros H r w Hp. exact (H _ _ Hp). Qed.

Lemma triple_fail {A} e (P : Runtime → W → Prop) (Q : A → Runtime → W → Prop) :
  (∀ r w, P r w → serious e ∨ agree r w) → triple P (failM e) Q.
Proof. intros H r w Hp. cbn. intros He. by destruct (H r w Hp). Qed.

Lemma triple_bind {A C} (c : M W A) (k : A → M W C) P Q R :
  triple P c Q → (∀ a, triple (Q a) (k a) R) → triple P (a ← c; k a) R.
Proof.
  intros Hc Hk r w Hp. specialize (Hc r w Hp). unfold mbind, M_bind.
  destruct (c (r, w)) as [[a|e] [r' w']]; [|exact Hc]. exact (Hk a _ _ Hc).
Qed.

Lemma triple_gets {A} (f : Runtime → A) (P : Runtime → W → Prop) : triple P (gets f) (λ a r w, P r w ∧ a = f r).
Proof. intros r w Hp. done. Qed.

Lemma triple_modify f (P : Runtime → W → Prop) (Q : unit → Runtime → W → Prop) :
  (∀ r w, P r w → Q tt (f r) w) → triple P (modify f) Q.
Proof. intros H r w Hp. exact (H _ _ Hp). Qed.

Lemma triple_backend call (P : Runtime → W → Prop) (Q : bool → Runtime → W → Prop) :
  (∀ r w ok w', P r w → call w = (ok, w') → Q ok r w') → triple P (backend call) Q.
Proof. intros H r w Hp. unfold backend. cbn. destruct (call w) as [ok w'] eqn:Hc. by eapply H. Qed.

Lemma triple_policy {A} (f : Policy → A * Policy) (P : Runtime → W → Prop) (Q : A → Runtime → W → Prop) :
  (∀ r w a engine, P r w → f (rt_engine r) = (a, engine) → Q a (set_engine r engine) w) → triple P (policy f) Q.
Proof. intros H r w Hp. unfold policy. cbn. destruct (f (rt_engine r)) as [a engine] eqn:Hf. by apply H. Qed.

Lemma triple_weaken {A} (c : M W A) (P P' : Runtime → W → Prop) (Q Q' : A → Runtime → W → Prop) :
  triple P c Q → (∀ r w, P' r w → P r w) → (∀ a r w, Q a r w → Q' a r w) → triple P' c Q'.
Proof.
  intros Hc HP HQ r w Hp. specialize (Hc r w (HP _ _ Hp)). destruct (c (r, w)) as [[a|e] [r' w']]; [by apply HQ|done].
Qed.

(** Facts that the precondition implies. *)
Lemma triple_pure {A} (φ : Prop) (c : M W A) (P : Runtime → W → Prop) (Q : A → Runtime → W → Prop) :
  (∀ r w, P r w → φ) → (φ → triple P c Q) → triple P c Q.
Proof. intros Hf Hc r w Hp. by apply Hc; [eapply Hf|]. Qed.

Lemma triple_forM {A} (l : list A) (f : A → M W unit) (P : Runtime → W → Prop) :
  (∀ x, x ∈ l → triple P (f x) (λ _, P)) → triple P (forM l f) (λ _, P).
Proof.
  induction l as [|x l IH]; intros H; cbn [forM]; [by apply triple_ret|].
  eapply triple_bind; [apply H; by left|]. intros ?. apply IH. intros y Hy. apply H. by right.
Qed.

(** Backend calls that do not touch replication. *)
Lemma triple_quiet call (P : Runtime → W → Prop) :
  (∀ w ok w', call w = (ok, w') → replicated w' = replicated w) →
  (∀ r w w', P r w → replicated w' = replicated w → P r w') →
  triple P (backendCall call) (λ _, P).
Proof.
  intros Hq HP. unfold backendCall. eapply triple_bind.
  - apply (triple_backend call P (λ ok, P)). intros r w ok w' Hp Hc. eapply HP; [done|by eapply Hq].
  - intros [|]; [by apply triple_ret|]. apply triple_fail. intros. by left; left.
Qed.

(** The invariant does not depend on what rates, robustness, queries, memberships and bandwidth say. *)
Lemma agree_same r r' w w' : agree r w →
  rt_engine r' = rt_engine r → rt_bindings r' = rt_bindings r → rt_streams r' = rt_streams r →
  rt_pending r' = rt_pending r → replicated w' = replicated w → agree r' w'.
Proof. intros [] He Hb Hs Hp Hw. split; rewrite ?He, ?Hb, ?Hs, ?Hp, ?Hw; done. Qed.

Lemma agree_engine r w engine : agree r w → policy_inv engine → po_profiles engine = po_profiles (rt_engine r) →
  po_subscribers engine = po_subscribers (rt_engine r) → agree (set_engine r engine) w.
Proof. intros [] Hi Hp Hs. split; cbn; first [done|congruence]. Qed.

Lemma agree_pending_delete r w key : agree r w → agree (set_pending r (delete key (rt_pending r))) w.
Proof.
  intros []. split; cbn; try done. intros key' i p [_ H]%lookup_delete_Some. by eapply ag_pending0.
Qed.

Lemma sendReport_agree now report : triple agree (sendReport now report) (λ _, agree).
Proof.
  assert (triple agree (backendCall (SendReport report)) (λ _, agree)) as Hsend.
  { apply triple_quiet; [apply view_report|]. intros r w w' Ha Hw. by eapply agree_same. }
  unfold sendReport. branch; [done|]. eapply triple_bind; [apply triple_gets|]. intros rates. cbv zeta.
  match goal with |- triple _ (if ?b then _ else _) _ => destruct b end.
  - apply triple_modify. intros r w [Ha _]. by eapply agree_same.
  - eapply triple_bind; [|intros ?; exact Hsend]. apply triple_modify. intros r w [Ha _]. by eapply agree_same.
Qed.

Lemma gets_agree {A} (f : Runtime → A) : triple agree (gets f) (λ _, agree).
Proof. by intros r w Ha. Qed.

Lemma query_agree query : triple agree (backendCall (SendQuery query)) (λ _, agree).
Proof. apply triple_quiet; [apply view_query|]. intros r w w' Ha Hw. by eapply agree_same. Qed.

Lemma report_agree now isJoin binding profile group mac tags :
  triple agree (report_ now isJoin binding profile group mac tags) (λ _, agree).
Proof. apply sendReport_agree. Qed.

Lemma dropPending_agree key : triple agree (dropPending key) (λ _, agree).
Proof. apply triple_modify. intros r w. apply agree_pending_delete. Qed.

Lemma leave_agree request : triple agree (policy (λ p, leave p request)) (λ _, agree).
Proof.
  apply triple_policy. intros r w left engine Ha Hl. destruct (leave_config _ _ _ _ Hl) as [? ?].
  apply agree_engine; [done| |done|done]. eapply leave_inv; [apply Ha|done].
Qed.

(** The answer of the policy to a join. *)
Definition join_answer (request : Join) (d : Decision_) : Prop :=
  de_Accepted d = true → stream_granted (streamKeyFor request).

Lemma join_agree offset request now :
  triple agree (policy (λ p, join p offset request now)) (λ d r w, agree r w ∧ join_answer request d).
Proof.
  apply triple_policy. intros r w d engine Ha Hj. destruct (join_config _ _ _ _ _ _ Hj) as [? ?]. split.
  - apply agree_engine; [done| |done|done]. eapply join_inv; [apply Ha|done].
  - intros Hd. destruct (join_granted _ _ _ _ _ _ (ag_policy _ _ Ha) Hj Hd) as (c & a & Hc & Hg & Hs).
    rewrite (ag_subscribers _ _ Ha) in Hc. exists c, a. split_and!; [done| |done].
    eapply granted_profiles; [|done]. cbn. by rewrite (ag_profiles _ _ Ha).
Qed.

(** ** Groups of streams *)

Lemma effectiveReplicationGroup_key (key : runtimeStreamKey) (stream : runtimeStream) : stream ≠ ∅ →
  (∀ i cl, stream !! i = Some cl → client_of key (cl_group cl)) →
  client_of key (effectiveReplicationGroup stream).
Proof.
  intros Hne Hc. unfold effectiveReplicationGroup. destruct (range stream) as [|[i cl] l] eqn:Hr.
  { by apply range_nil in Hr. }
  cbn. assert (stream !! i = Some cl) as Hi by (apply elem_of_range; rewrite Hr; by left).
  apply Hc in Hi. destruct key as [[[[subscriber name] source] group] vlan]. exact Hi.
Qed.

Lemma changeKey_of enable key b profile g : binding_of key b → client_of key g →
  changeKey (mkChange enable (sb_subscriber b) (sb_attachment b) profile g) = key.
Proof.
  destruct key as [[[[subscriber name] source] group] vlan]. intros [H1 H2] (H3 & H4 & H5). unfold changeKey. cbn. congruence.
Qed.

(** A change of a stream that is replicated already. *)
Lemma replicate_again (P : Runtime → W → Prop) key b profile g :
  binding_of key b → client_of key g → (∀ r w, P r w → key ∈ replicated w) →
  (∀ r w w', P r w → replicated w' = replicated w → P r w') →
  triple P (replicate_ true b profile g) (λ ok r w, if ok : bool then P r w else True).
Proof.
  intros Hb Hg Hin HP. apply triple_backend. intros r w ok w' Hp Hc. destruct ok; [|done].
  eapply HP; [done|]. rewrite (view_change _ _ _ Hc). cbn [rc_Enable]. rewrite (changeKey_of _ key) by done.
  specialize (Hin _ _ Hp). set_solver.
Qed.

(** ** Entering and leaving streams *)

Lemma agree_insert r w w' key stream : agree r w → key_ok key → stream ≠ ∅ →
  (∀ i cl, stream !! i = Some cl → client_of key (cl_group cl)) → replicated w' = {[key]} ∪ replicated w →
  agree (set_streams r (<[key := stream]> (rt_streams r))) w'.
Proof.
  intros [] Hk Hne Hc Hw. split; cbn; try done.
  - intros key' stream'. rewrite lookup_insert_Some. intros [[<- <-]|[_ H]]; [done|by apply ag_streams0].
  - by rewrite Hw, dom_insert_L, ag_replicated0.
Qed.

Lemma agree_again r w key stream : agree r w → key ∈ dom (rt_streams r) → stream ≠ ∅ →
  (∀ i cl, stream !! i = Some cl → client_of key (cl_group cl)) →
  agree (set_streams r (<[key := stream]> (rt_streams r))) w.
Proof.
  intros Ha Hd Hne Hc. pose proof Hd as [old Ho]%elem_of_dom. apply (agree_insert r w); [done| |done|done|].
  - by destruct (ag_streams _ _ Ha _ _ Ho).
  - rewrite (ag_replicated _ _ Ha). set_solver.
Qed.

(** The backend still replicates [key]; without it the two would agree. *)
Definition leaving (key : runtimeStreamKey) (r : Runtime) (w : W) : Prop :=
  ∀ w', replicated w' = replicated w ∖ {[key]} → agree (set_streams r (delete key (rt_streams r))) w'.
(** The backend has stopped replicating [key], which the runtime still has. *)
Definition stopped (key : runtimeStreamKey) (r : Runtime) (w : W) : Prop :=
  agree (set_streams r (delete key (rt_streams r))) w.

Lemma agree_leaving r w key : agree r w → leaving key r w.
Proof.
  intros [] w' Hw. split; cbn; try done.
  - intros key' stream [_ H]%lookup_delete_Some. by apply ag_streams0.
  - by rewrite Hw, dom_delete_L, ag_replicated0.
Qed.

Lemma stop_replication key b profile g : binding_of key b → client_of key g →
  triple (leaving key) (replicate_ false b profile g) (λ ok r w, if ok : bool then stopped key r w else True).
Proof.
  intros Hb Hg. apply triple_backend. intros r w ok w' Hl Hc. destruct ok; [|done]. apply Hl.
  rewrite (view_change _ _ _ Hc). cbn [rc_Enable]. by rewrite (changeKey_of _ key).
Qed.

Lemma dropStream_stopped key : triple (stopped key) (dropStream key) (λ _, agree).
Proof. by apply triple_modify. Qed.

Lemma setStream_stopped key stream : triple (stopped key) (setStream key stream) (λ _, stopped key).
Proof. apply triple_modify. intros r w H. unfold stopped. cbn. by rewrite delete_insert_eq. Qed.

Lemma setStream_leaving key stream : triple (leaving key) (setStream key stream) (λ _, leaving key).
Proof. apply triple_modify. intros r w H w' Hw. cbn. rewrite delete_insert_eq. by apply H. Qed.

Lemma dropPending_leaving key pending : triple (leaving key) (dropPending pending) (λ _, leaving key).
Proof.
  apply triple_modify. intros r w H w' Hw.
  exact (agree_pending_delete (set_streams r (delete key (rt_streams r))) w' pending (H _ Hw)).
Qed.

Lemma dropPending_stopped key pending : triple (stopped key) (dropPending pending) (λ _, stopped key).
Proof.
  apply triple_modify. intros r w H.
  exact (agree_pending_delete (set_streams r (delete key (rt_streams r))) w pending H).
Qed.

Lemma leave_stopped key request : triple (stopped key) (policy (λ p, leave p request)) (λ _, stopped key).
Proof.
  apply triple_policy. intros r w left engine Ha Hl. destruct (leave_config _ _ _ _ Hl) as [? ?].
  refine (agree_engine (set_streams r (delete key (rt_streams r))) w engine Ha _ _ _); [|done|done].
  eapply leave_inv; [apply (ag_policy _ _ Ha)|done].
Qed.

(** What follows a failed backend call. *)
Lemma doomed {A C} (c : M W A) (Q : C → Runtime → W → Prop) : (∀ s, ∃ a, (c s).1 = Ok a) →
  triple (λ _ _, True) (_ ← c; failM BackendFailed) Q.
Proof.
  intros Hc r w _. unfold mbind, M_bind. destruct (Hc (r, w)) as [a Ha]. destruct (c (r, w)) as [? [? ?]]. cbn in Ha. subst.
  cbn. intros []. by left.
Qed.

Lemma doomed2 {A A' C} (c : M W A) (c' : M W A') (Q : C → Runtime → W → Prop) :
  (∀ s, ∃ a, (c s).1 = Ok a) → (∀ s, ∃ a, (c' s).1 = Ok a) →
  triple (λ _ _, True) (_ ← c; _ ← c'; failM BackendFailed) Q.
Proof.
  intros Hc Hc' r w _. unfold mbind, M_bind. destruct (Hc (r, w)) as [a Ha]. destruct (c (r, w)) as [? s]. cbn in Ha. subst.
  destruct (Hc' s) as [a' Ha]. destruct (c' s) as [? [? ?]]. cbn in Ha. subst. cbn. intros []. by left.
Qed.

Lemma modify_ok f (s : Runtime * W) : ∃ a, (modify f s).1 = Ok a.
Proof. by eexists. Qed.
Lemma policy_ok {A} (f : Policy → A * Policy) (s : Runtime * W) : ∃ a, (policy f s).1 = Ok a.
Proof. unfold policy. destruct (f _). by eexists. Qed.

Lemma failed {A} (Q : A → Runtime → W → Prop) P : triple P (failM BackendFailed) Q.
Proof. apply triple_fail. intros. by left; left. Qed.

Lemma enterStream_agree b request i profile client :
  binding_of (streamKeyFor request) b → key_ok (streamKeyFor request) →
  client_of (streamKeyFor request) (cl_group client) →
  triple agree (enterStream b request i profile client) (λ _, agree).
Proof.
  intros Hb Hk Hc. unfold enterStream. cbv zeta. set (key := streamKeyFor request) in *.
  eapply triple_bind; [apply triple_gets|]. intros streams. destruct (streams !! key) as [stream|] eqn:Hs.
  - set (entered := <[i := client]> stream).
    assert (∀ r w, agree r w ∧ streams = rt_streams r → ∀ j cl, entered !! j = Some cl → client_of key (cl_group cl)) as Hcl.
    { intros r w [Ha ->] j cl. unfold entered. rewrite lookup_insert_Some. intros [[_ <-]|[_ H]]; [done|].
      by eapply (ag_streams _ _ Ha). }
    eapply (triple_bind _ _ _ (λ _ r w, agree r w ∧ rt_streams r !! key = Some entered)).
    { apply triple_modify. intros r w [Ha Hr]. split.
      - apply agree_again; [done|apply elem_of_dom; rewrite <- Hr; by eexists|apply insert_non_empty|]. by apply (Hcl r w).
      - cbn. by rewrite lookup_insert_eq. }
    intros _. branch.
    { apply triple_ret. by intros r w [? _]. }
    intros r w [Ha Hr]. revert r w Ha Hr.
    assert (∀ g, client_of key g → triple (λ r w, agree r w ∧ rt_streams r !! key = Some entered)
      (ok ← replicate_ true b profile g;
       if negb ok then _ ← setStream key (delete i entered); _ ← policy (λ p, leave p request); failM BackendFailed
       else mret (entered, true)) (λ _, agree)) as H.
    { intros g Hg. eapply triple_bind.
      - eapply (replicate_again _ key); [done|done| |].
        + intros r w [Ha Hr]. rewrite (ag_replicated _ _ Ha). apply elem_of_dom. by eexists.
        + intros r w w' [Ha Hr] Hw. split; [by eapply agree_same|done].
      - intros [|]; cbn [negb].
        + apply triple_ret. by intros r w [? _].
        + apply doomed2; intros; [apply modify_ok|apply policy_ok]. }
    intros r w Ha Hr. apply H; [|done]. apply effectiveReplicationGroup_key; [apply insert_non_empty|].
    by apply (ag_streams _ _ Ha).
  - eapply triple_bind.
    + apply (triple_backend _ _ (λ ok r w', if ok : bool then ∃ w, agree r w ∧ replicated w' = {[key]} ∪ replicated w else True)).
      intros r w ok w' [Ha ->] Hcall. destruct ok; [|done]. exists w. split; [done|]. rewrite (view_change _ _ _ Hcall).
      cbn [rc_Enable]. rewrite (changeKey_of _ key); [done|done|]. apply effectiveReplicationGroup_key.
      * apply map_non_empty_singleton.
      * intros j cl [<- <-]%lookup_singleton_Some. done.
    + intros [|]; cbn [negb]; [|apply doomed; intros; apply policy_ok].
      eapply (triple_bind _ _ _ (λ _, agree)); [|intros ?; apply triple_ret; by intros].
      apply triple_modify. intros r w' (w & Ha & Hw). eapply agree_insert; [done|done| | |done].
      * apply map_non_empty_singleton.
      * intros j cl [<- <-]%lookup_singleton_Some. done.
Qed.

Lemma departureReport_agree now b key profile previous own mac tags :
  triple agree (departureReport now b key profile previous own mac tags) (λ _, agree).
Proof.
  unfold departureReport. branch; [apply report_agree|]. destruct previous as [previous|]; [|by apply triple_ret].
  eapply triple_bind; [apply triple_gets|]. intros streams.
  assert (∀ j p, triple (λ r w, agree r w ∧ streams = rt_streams r) (report_ now j b profile p mac tags) (λ _, agree)) as H.
  { intros j p. eapply triple_weaken; [apply report_agree|by intros ?? [? _]|done]. }
  destruct (effectiveUpstreamGroup streams key); [|done]. branch; [|done]. apply triple_ret. by intros ?? [? _].
Qed.

(** The replication of a stream that lost a client but has others. *)
Lemma update_replication (key : runtimeStreamKey) (b : subscriberBinding) (profile : Profile) (rest : runtimeStream) (same : bool) :
  binding_of key b → rest ≠ ∅ → (∀ i cl, rest !! i = Some cl → client_of key (cl_group cl)) →
  triple (λ r w, agree r w ∧ key ∈ dom (rt_streams r))
    (if same then mret tt
     else ok ← replicate_ true b profile (effectiveReplicationGroup rest);
          if negb ok then failM BackendFailed else mret tt) (λ _, agree).
Proof.
  intros Hb Hne Hc. destruct same; [by apply triple_ret; intros ?? [? _]|].
  eapply triple_bind.
  - eapply (replicate_again _ key); [done|by apply effectiveReplicationGroup_key| |].
    + intros r w [Ha Hd]. by rewrite (ag_replicated _ _ Ha).
    + intros r w w' [Ha Hd] Hw. split; [by eapply agree_same|done].
  - intros [|]; cbn [negb]; [|apply failed]. apply triple_ret. by intros ?? [? _].
Qed.

Lemma stream_rest (stream : runtimeStream) i key :
  (∀ j cl, stream !! j = Some cl → client_of key (cl_group cl)) →
  ∀ j cl, delete i stream !! j = Some cl → client_of key (cl_group cl).
Proof. intros H j cl [_ Hj]%lookup_delete_Some. by apply H in Hj. Qed.

Lemma finalizeClient_agree now b key i profile active withReport :
  binding_of key b → client_of key (cl_group active) →
  triple agree (finalizeClient now b key i profile active withReport) (λ _, agree).
Proof.
  intros Hb Hc. unfold finalizeClient. eapply triple_bind; [apply triple_gets|]. intros streams.
  destruct (streams !! key) as [stream|] eqn:Hs; [|by apply triple_ret; intros ?? [? _]].
  destruct (bool_decide (stream !! i = None)) eqn:Hi; [by apply triple_ret; intros ?? [? _]|].
  apply bool_decide_eq_false in Hi. cbv zeta.
  apply (triple_pure (stream ≠ ∅ ∧ ∀ j cl, stream !! j = Some cl → client_of key (cl_group cl))).
  { intros r w [Ha ->]. by destruct (ag_streams _ _ Ha _ _ Hs). }
  intros [Hne Hcl].
  assert (triple agree (if withReport then departureReport now b key profile (effectiveUpstreamGroup streams key)
            (cl_group active) i.2 (cl_tags active) else mret tt) (λ _, agree)) as Hreport.
  { destruct withReport; [apply departureReport_agree|by apply triple_ret]. }
  case_bool_decide as Hlast.
  - eapply (triple_bind _ _ _ (λ ok r w, if ok : bool then stopped key r w else True)).
    { eapply triple_weaken; [by apply (stop_replication key)|intros r w [Ha _]; by apply agree_leaving|by intros []]. }
    intros [|]; cbn [negb]; [|apply failed].
    eapply triple_bind; [apply leave_stopped|]. intros [|]; cbn [negb].
    2: { apply triple_fail. intros. by left; right. }
    eapply triple_bind; [apply setStream_stopped|]. intros ?.
    eapply triple_bind; [apply dropPending_stopped|]. intros ?.
    eapply triple_bind; [apply dropStream_stopped|]. intros ?. exact Hreport.
  - assert (delete i stream ≠ ∅) as Hrest.
    { intros He. apply Hlast. destruct (stream !! i) as [cl|] eqn:Hi'; [|done].
      apply (f_equal size) in He. rewrite map_size_delete_Some in He by by eexists.
      rewrite map_size_empty in He. assert (size stream ≠ 0%nat); [|lia].
      by rewrite map_size_non_empty_iff. }
    eapply (triple_bind _ _ _ (λ ok r w, ok = true ∧ agree r w ∧ rt_streams r !! key = Some stream)).
    { apply triple_ret. intros r w [? ->]. done. }
    intros ok. destruct ok; cbn [negb]; [|by intros r w [? _]].
    eapply (triple_bind _ _ _ (λ _ r w, agree r w ∧ rt_streams r !! key = Some stream)).
    { intros r w (_ & Ha & Hr). pose proof (leave_agree (mkJoin (su_EntityID (sb_subscriber b))
        (at_Interface (sb_attachment b)) (ag_UNIVLAN (cl_group active)) (ag_Source (cl_group active))
        (ag_Group (cl_group active)) (ag_Client (cl_group active))) r w Ha) as Hl.
      unfold policy in *. cbn in *. by destruct (leave _ _). }
    intros [|]; cbn [negb].
    2: { apply triple_fail. intros. by left; right. }
    eapply (triple_bind _ _ _ (λ _ r w, agree r w ∧ key ∈ dom (rt_streams r))).
    { apply triple_modify. intros r w [Ha Hr]. split.
      - apply agree_again; [done|by apply elem_of_dom; eexists|done|]. by apply stream_rest.
      - cbn. rewrite dom_insert_L. set_solver. }
    intros ?. eapply (triple_bind _ _ _ (λ _ r w, agree r w ∧ key ∈ dom (rt_streams r))).
    { apply triple_modify. intros r w [Ha Hr]. split; [by apply agree_pending_delete|done]. }
    intros ?. eapply triple_bind; [by apply update_replication; [| |apply stream_rest]|]. intros ?. exact Hreport.
Qed.

Lemma removeLocked_agree now b client source tags :
  triple agree (removeLocked now b client source tags) (λ _, agree).
Proof.
  unfold removeLocked. cbv zeta. set (key := streamKeyFor (requestOf b client source)).
  assert (binding_of key b) as Hb by by destruct client as [[[[[? ?] ?] ?] ?] ?].
  eapply triple_bind; [apply triple_gets|]. intros r0.
  destruct (rt_streams r0 !! key ≫= _) as [[stream active]|] eqn:Hf; [|by apply triple_ret; intros ?? [? _]].
  apply bind_Some in Hf as (stream' & Hs & Hf). apply bind_Some in Hf as (active' & Hi & [= -> ->]).
  destruct (rt_profiles r0 !! _) as [profile|].
  2: { apply triple_fail. intros ?? [? _]. by right. }
  apply (triple_pure (client_of key (cl_group active))).
  { intros r w [Ha ->]. destruct (ag_streams _ _ Ha _ _ Hs) as (_ & _ & Hcl). by eapply Hcl. }
  intros Hc. branch.
  { eapply triple_weaken; [by apply finalizeClient_agree|by intros ?? [? _]|done]. }
  eapply (triple_bind _ _ _ (λ _, agree)).
  { eapply triple_weaken; [apply query_agree|by intros ?? [? _]|done]. }
  intros ?. eapply (triple_bind _ _ _ (λ _, agree)).
  { branch; [apply report_agree|by apply triple_ret]. }
  intros ?. apply triple_modify. intros r w []. split; cbn; try done.
  intros key' i p. rewrite lookup_insert_Some. intros [[[= <- <-] <-]|[_ H]]; [done|by eapply ag_pending0].
Qed.

(** ** Records *)

Lemma decidedGroup_of request d excluded : client_of (streamKeyFor request) (decidedGroup request d excluded).
Proof. unfold decidedGroup. cbv zeta. by branch. Qed.

Section records.
Context (Hbs : bindings_ok) (b : subscriberBinding) (i : string) (Hb : bs !! i = Some b).

Lemma key_ok_request client source :
  stream_granted (streamKeyFor (requestOf b client source)) → key_ok (streamKeyFor (requestOf b client source)).
Proof.
  intros Hg. split; [done|]. destruct client as [[[[[? ?] ?] ?] ?] ?]. cbn. exists b. split; [|done].
  by rewrite (Hbs _ _ Hb).
Qed.

Lemma addLocked_agree offset now client source excluded tags :
  triple agree (addLocked offset now b client source excluded tags) (λ _, agree).
Proof.
  unfold addLocked. cbv zeta. set (request := requestOf b client source).
  assert (binding_of (streamKeyFor request) b) as Hbind by by destruct client as [[[[[? ?] ?] ?] ?] ?].
  eapply triple_bind; [apply join_agree|]. intros d.
  apply (triple_pure (join_answer request d)); [by intros ?? [_ ?]|]. intros Hd.
  apply (triple_weaken _ agree _ (λ _, agree)); [|by intros ?? [? _]|done].
  eapply triple_bind; [apply gets_agree|]. intros profiles.
  assert (∀ j profile g, triple agree (_ ← report_ now j b profile g (identityOf client).2 tags; mret true) (λ _, agree)) as Hrep.
  { intros j profile g. eapply triple_bind; [apply report_agree|]. intros ?. by apply triple_ret. }
  destruct (profiles !! de_ProfileID d) as [profile|].
  - destruct (de_Accepted d) eqn:Hacc; cbn [negb].
    + eapply triple_bind; [apply dropPending_agree|]. intros ?.
      eapply triple_bind; [apply enterStream_agree; [done| |apply decidedGroup_of]|].
      { apply key_ok_request. by apply Hd. }
      intros [stream changed]. branch; [|by apply triple_ret].
      eapply triple_bind; [apply gets_agree|].
      intros streams. apply Hrep.
    + branch; [|by apply triple_ret]. eapply triple_bind; [apply report_agree|]. intros ?. by apply triple_ret.
  - branch; [by apply triple_ret|]. eapply triple_bind; [apply leave_agree|]. intros ?.
    apply triple_fail. intros. by right.
Qed.

Lemma refreshLocked_agree offset now client source excluded tags :
  triple agree (refreshLocked offset now b client source excluded tags) (λ _, agree).
Proof.
  unfold refreshLocked. cbv zeta. set (request := requestOf b client source). set (key := streamKeyFor request).
  assert (binding_of key b) as Hbind by by destruct client as [[[[[? ?] ?] ?] ?] ?].
  eapply (triple_bind _ _ _ (λ _, agree)); [eapply triple_weaken; [apply join_agree|done|by intros ??? [? _]]|]. intros d.
  branch; [apply triple_fail; intros; by right|].
  eapply triple_bind; [apply gets_agree|].
  intros profiles. destruct (profiles !! _) as [profile|]; [|apply triple_fail; intros; by right].
  eapply triple_bind; [apply triple_gets|]. intros streams.
  destruct (streams !! key) as [stream|] eqn:Hs; [|apply triple_fail; intros ?? [? _]; by right].
  set (cl := mkClient (decidedGroup request d excluded) tags now).
  apply (triple_pure (∀ j c, <[identityOf client := cl]> stream !! j = Some c → client_of key (cl_group c))).
  { intros r w [Ha ->] j c. destruct (ag_streams _ _ Ha _ _ Hs) as (_ & _ & Hcl).
    rewrite lookup_insert_Some. intros [[_ <-]|[_ H]]; [apply decidedGroup_of|by eapply Hcl]. }
  intros Hcl. eapply (triple_bind _ _ _ (λ _ r w, agree r w ∧ key ∈ dom (rt_streams r))).
  { apply triple_modify. intros r w [Ha ->]. split; [by apply agree_pending_delete|]. apply elem_of_dom. by eexists. }
  intros ?. eapply (triple_bind _ _ _ (λ _ r w, agree r w ∧ key ∈ dom (rt_streams r))).
  { apply triple_modify. intros r w [Ha Hd]. split.
    - apply agree_again; [done|done|apply insert_non_empty|done].
    - cbn. rewrite dom_insert_L. set_solver. }
  intros ?. eapply (triple_bind _ _ _ (λ ok r w, if ok : bool then agree r w else True)).
  { branch; [|by apply triple_ret; intros ?? [? _]].
    eapply triple_weaken; [eapply (replicate_again (λ r w, agree r w ∧ key ∈ dom (rt_streams r)) key)|done|].
    - done.
    - apply effectiveReplicationGroup_key; [apply insert_non_empty|done].
    - intros r w [Ha Hd]. by rewrite (ag_replicated _ _ Ha).
    - intros r w w' [Ha Hd] Hw. split; [by eapply agree_same|done].
    - intros [|] ??; [by intros [? _]|done]. }
  intros [|]; cbn [negb].
  - match goal with |- triple _ (if ?c then _ else _) _ => destruct c end; [|by apply triple_ret].
    eapply triple_bind; [apply gets_agree|].
    intros ?. apply report_agree.
  - apply doomed. intros. apply modify_ok.
Qed.

Lemma applyRecord_agree offset now message record :
  triple agree (applyRecord offset now b message record) (λ _, agree).
Proof.
  unfold applyRecord. cbv zeta.
  eapply triple_bind; [apply gets_agree|].
  intros memberships. eapply triple_bind; [apply triple_forM; intros; apply removeLocked_agree|]. intros ?.
  match goal with |- triple _ (mbind _ (?add ?l ?after)) _ => generalize l, after end.
  intros l after. eapply (triple_bind _ _ _ (λ _, agree)).
  - revert after. induction l as [|source l IH]; intros after; [by apply triple_ret|].
    eapply triple_bind; [apply addLocked_agree|]. intros accepted. apply IH.
  - intros final. eapply triple_bind; [apply triple_forM; intros; apply refreshLocked_agree|]. intros ?.
    apply triple_modify. intros r w Ha. by eapply agree_same.
Qed.
End records.

Lemma Handle_agree offset now name message : bindings_ok → triple agree (Handle offset now name message) (λ _, agree).
Proof.
  intros Hbs. unfold Handle. eapply triple_bind; [apply triple_gets|]. intros bindings.
  destruct (bindings !! name) as [b|] eqn:Hb; [|by apply triple_fail; intros ?? [? _]; right].
  apply (triple_pure (bs !! name = Some b)).
  { intros r w [Ha ->]. by rewrite <- (ag_bindings _ _ Ha). }
  intros Hb'. apply (triple_weaken _ agree _ (λ _, agree)); [|by intros ?? [? _]|done].
  branch.
  - branch; [|by apply triple_ret]. unfold learnQueryLocked. branch; [by apply triple_ret|]. cbv zeta.
    apply triple_forM. intros id _.
    eapply triple_bind; [apply gets_agree|].
    intros profiles. destruct (profiles !! id); [|by apply triple_ret]. branch; [by apply triple_ret|].
    apply triple_modify. intros r w Ha. by eapply agree_same.
  - branch; [by apply triple_ret|]. apply triple_forM. intros. by eapply applyRecord_agree.
Qed.

(** ** Timers *)

Lemma find_range (stream : runtimeStream) P e : List.find P (range stream) = Some e → stream !! e.1 = Some e.2.
Proof.
  intros H. apply List.find_some in H as [H _]. apply list_elem_of_In in H. destruct e. by apply elem_of_range in H.
Qed.

Lemma expireGroup_agree now group : bindings_ok → triple agree (expireGroup now group) (λ _, agree).
Proof.
  intros Hbs. unfold expireGroup. eapply triple_bind; [apply triple_gets|]. intros r0. cbv zeta.
  set (b := default noBinding (rt_bindings r0 !! ag_Interface group)).
  set (key := (su_EntityID (sb_subscriber b), ag_Interface group, ag_Source group, ag_Group group, ag_UNIVLAN group)).
  destruct (rt_streams r0 !! key) as [stream|] eqn:Hs; [|by apply triple_ret; intros ?? [? _]].
  apply (triple_pure (key_ok key ∧ rt_bindings r0 = bs ∧ ∀ j cl, stream !! j = Some cl → client_of key (cl_group cl))).
  { intros r w [Ha ->]. destruct (ag_streams _ _ Ha _ _ Hs) as (? & _ & ?). split_and!; [done|apply Ha|done]. }
  intros ((_ & b' & Hb' & Hbind) & Hbs0 & Hcl). cbn in Hb'.
  assert (binding_of key b) as Hb.
  { unfold b. rewrite Hbs0, Hb'. split; [|by apply Hbs]. unfold b. by rewrite Hbs0, Hb'. }
  destruct (expiredClient stream group) as [i active].
  eapply (triple_bind _ _ _ (λ _ r w, agree r w ∧ key ∈ dom (rt_streams r))).
  { apply triple_modify. intros r w [Ha ->]. split; [by apply agree_pending_delete|]. apply elem_of_dom. by eexists. }
  intros ?.
  assert (triple agree (_ ← modify (λ r, set_memberships r (map_imap (expireMembership (su_EntityID (sb_subscriber b)) group)
            (rt_memberships r)));
          departureReport now b key (default noProfile (rt_profiles r0 !! ag_ProfileID group))
            (effectiveUpstreamGroup (rt_streams r0) key) group i.2 (cl_tags active)) (λ _, agree)) as Hend.
  { eapply (triple_bind _ _ _ (λ _, agree)).
    - apply triple_modify. intros r w Ha. by eapply agree_same.
    - intros ?. apply departureReport_agree. }
  case_bool_decide as Hrest.
  - eapply (triple_bind _ _ _ (λ _, leaving key)).
    { eapply triple_weaken; [apply setStream_leaving|intros r w [Ha _]; by apply agree_leaving|done]. }
    intros ?. eapply (triple_bind _ _ _ (λ _, agree)); [|intros ?; exact Hend].
    eapply triple_bind; [by apply (stop_replication key)|]. intros [|]; cbn [negb]; [|apply failed].
    apply dropStream_stopped.
  - eapply (triple_bind _ _ _ (λ _ r w, agree r w ∧ key ∈ dom (rt_streams r))).
    { apply triple_modify. intros r w [Ha Hd]. split.
      - apply agree_again; [done..|]. by apply stream_rest.
      - cbn. rewrite dom_insert_L. set_solver. }
    intros ?. eapply (triple_bind _ _ _ (λ _, agree)); [|intros ?; exact Hend].
    by apply update_replication; [| |apply stream_rest].
Qed.

Lemma runGeneralQueries_agree now : triple agree (runGeneralQueries now) (λ _, agree).
Proof.
  unfold runGeneralQueries. eapply triple_bind; [apply gets_agree|]. intros queries. apply triple_forM. intros index _.
  eapply triple_bind; [apply gets_agree|]. intros r. destruct (rt_queries r !! index); [|by apply triple_ret].
  branch; [by apply triple_ret|]. cbv zeta. eapply triple_bind; [apply query_agree|]. intros ?.
  apply triple_modify. intros r' w Ha. by eapply agree_same.
Qed.

Lemma runPendingLeave_agree now key : triple agree (runPendingLeave now key) (λ _, agree).
Proof.
  unfold runPendingLeave. eapply triple_bind; [apply triple_gets|]. intros r0. destruct key as [key i]. cbn [fst snd].
  destruct (rt_pending r0 !! (key, i)) as [p|] eqn:Hp; [|by apply triple_ret; intros ?? [? _]].
  apply (triple_pure (binding_of key (pl_binding p))).
  { intros r w [Ha ->]. by eapply (ag_pending _ _ Ha). }
  intros Hb. branch; [by apply triple_ret; intros ?? [? _]|].
  destruct (rt_streams r0 !! key ≫= _) as [active|] eqn:Hs.
  - apply (triple_pure (client_of key (cl_group active))).
    { intros r w [Ha ->]. apply bind_Some in Hs as (stream & Hs & Hi). destruct (ag_streams _ _ Ha _ _ Hs) as (_ & _ & Hc).
      by eapply Hc. }
    intros Hc. apply (triple_weaken _ agree _ (λ _, agree)); [|by intros ?? [? _]|done].
    branch; [|by apply finalizeClient_agree]. eapply triple_bind; [apply query_agree|]. intros ?.
    apply triple_modify. intros r w []. split; cbn; try done.
    intros key' i' p'. rewrite lookup_insert_Some. intros [[[= <- <-] <-]|[_ H]]; [done|by eapply ag_pending0].
  - apply (triple_weaken _ agree _ (λ _, agree)); [apply dropPending_agree|by intros ?? [? _]|done].
Qed.

Lemma expireProxyMemberships_agree now : bindings_ok → triple agree (expireProxyMemberships now) (λ _, agree).
Proof.
  intros Hbs. unfold expireProxyMemberships. eapply triple_bind; [apply triple_gets|]. intros r0.
  set (ok := λ e : runtimeStreamKey * clientIdentity * runtimeClient * Profile, let '(key, i, active, profile) := e in
       client_of key (cl_group active) ∧ binding_of key (default noBinding (rt_bindings r0 !! key.1.1.1.2))).
  apply (triple_pure (Forall ok (staleClients r0 now))).
  { intros r w [Ha ->]. apply Forall_forall. intros [[[key i] active] profile] Hin. unfold staleClients in Hin.
    apply list_elem_of_In, in_flat_map in Hin as ([key' stream] & Hk & Hin).
    apply list_elem_of_In, elem_of_range in Hk. destruct key' as [[[[subscriber name] source] group] vlan].
    apply list_elem_of_In, list_elem_of_omap in Hin as ([i' active'] & Hi & He). apply elem_of_range in Hi.
    cbv zeta in He. case_match; [done|]. injection He as <- <- <- <-.
    destruct (ag_streams _ _ Ha _ _ Hk) as ((_ & b & Hb & Hbind) & _ & Hcl). split; [by eapply Hcl|]. cbn in *.
    by rewrite (ag_bindings _ _ Ha), Hb. }
  intros Hok. apply (triple_weaken _ agree _ (λ _, agree)); [|by intros ?? [? _]|done].
  apply triple_forM. intros [[[key i] active] profile] Hin. rewrite Forall_forall in Hok. apply Hok in Hin as [Hc Hb].
  destruct key as [[[[subscriber name] source] group] vlan]. by apply finalizeClient_agree.
Qed.

Lemma Expire_agree now : bindings_ok → triple agree (Expire now) (λ _, agree).
Proof.
  intros Hbs. unfold Expire. eapply (triple_bind _ _ _ (λ _, agree)).
  { apply triple_policy. intros r w expired engine Ha He. apply (f_equal snd) in He. cbn in He. subst engine.
    apply agree_engine; [done|by apply expire_inv, Ha|done|done]. }
  intros expired. eapply triple_bind; [by apply triple_forM; intros; apply expireGroup_agree|]. intros ?.
  eapply triple_bind; [apply runGeneralQueries_agree|]. intros ?.
  eapply triple_bind; [unfold runPendingLeaves; eapply triple_bind; [apply gets_agree|]; intros ?;
    apply triple_forM; intros; apply runPendingLeave_agree|].
  intros ?. by apply expireProxyMemberships_agree.
Qed.

Lemma Monitor_agree now id : triple agree (RuntimeMonitor now id) (λ _, agree).
Proof.
  unfold RuntimeMonitor. eapply (triple_bind _ _ _ (λ _, agree)).
  { apply triple_policy. intros r w report engine Ha He. apply monitor_config in He as ->.
    apply agree_engine; [done|by apply expire_inv, Ha|done|done]. }
  intros report. destruct BandwidthSampler; [|by apply triple_ret].
  eapply triple_bind; [apply gets_agree|]. intros ?. by apply triple_ret.
Qed.

Lemma SampleBandwidth_agree : triple agree SampleBandwidth (λ _, agree).
Proof.
  intros r w Ha. unfold SampleBandwidth. destruct BandwidthSampler as [sampler|] eqn:Hb; [|by eapply agree_same].
  destruct (sampler w) as [[values|] w'] eqn:Hs; pose proof (view_sampler _ _ _ _ Hb Hs).
  - by eapply agree_same.
  - intros _. by eapply agree_same.
Qed.
End agreement.

(** ** Runs *)

(** The calls of the multicast daemon. *)
Inductive operation :=
| OpHandle (interfaceName : string) (message : MembershipMessage)
| OpExpire
| OpMonitor (subscriberID : Z)
| OpSample
| OpConfigure (config : Config).

Section runs.
Context {MR : MapRange} {W : Type} {B : RuntimeBackend W} {V : ReplicationView W}.
Context (offset : Z).

(** An operation at a time: its error, if any, and the runtime and world after it. *)
Definition perform (now : Z) (op : operation) (s : Runtime * W) : option RuntimeError * (Runtime * W) :=
  let outcome {A} (c : M W A) := match c s with (Ok _, s) => (None, s) | (Err e, s) => (Some e, s) end in
  match op with
  | OpHandle interfaceName message => outcome (Handle offset now interfaceName message)
  | OpExpire => outcome (Expire now)
  | OpMonitor subscriberID => outcome (RuntimeMonitor now subscriberID)
  | OpSample => outcome SampleBandwidth
  | OpConfigure config => outcome (ConfigureRuntime config now)
  end.

(** Runs from a new runtime in which the backend fails no change and every leave finds its
    membership in the policy; other errors may occur. *)
Inductive runs : Runtime → W → Prop :=
| runs_new config now w r w' : config_typed config → NewRuntime config now w = (Ok r, w') → runs r w'
| runs_op now op r w e r' w' : runs r w →
    (∀ config, op = OpConfigure config → config_typed config) →
    perform now op (r, w) = (e, (r', w')) → (∀ x, e = Some x → ¬ serious x) → runs r' w'.

Lemma bindings_ok_configured profiles now subscribers : ∀ acc acc',
  foldM_res (bindSubscriber profiles now) subscribers acc = Ok acc' → bindings_ok acc.1 → bindings_ok acc'.1.
Proof.
  intros acc acc' H Hok. eapply (foldM_inv (λ s, bindings_ok s.1)); [|done|exact H]. clear.
  intros s subscriber s' _ IH Hs. unfold bindSubscriber in Hs. apply guard_err_bind_Ok in Hs as [_ Hs].
  eapply (foldM_inv (λ s, bindings_ok s.1)); [|exact IH|exact Hs]. clear.
  intros [bindings queries] attachment s' _ IH Hs. unfold bindAttachment in Hs. inv_ok Hs. subst s'. cbn.
  intros i b. rewrite lookup_insert_Some. intros [[<- <-]|[_ Hi]]; [done|by apply IH].
Qed.

Lemma configure_agree previous config now w r w' :
  config_typed config → configure previous config now w = (Ok r, w') →
  (∃ p, previous = Some p ∧ r = p ∧ w' = w) ∨ ∃ ps ss bs, bindings_ok bs ∧ agree ps ss bs r w'.
Proof.
  intros Ht H. unfold configure in H. destruct (validConfig config now); cbn [negb] in H; [|done].
  match type of H with _ = (Ok r, w') => idtac end.
  assert (∀ x, (let profiles := fold_left (λ profiles profile, <[pr_EntityID profile := profile]> profiles) (cf_Profiles config) ∅ in
    match foldM_res (bindSubscriber profiles now) (cf_Subscribers config) (∅, []) with
    | Err e => (Err e, w)
    | Ok (bindings, queries) =>
        match NewPolicy config now with
        | Err _ => (Err InvalidConfig, w)
        | Ok engine =>
            let engine := match previous with Some r => preserveExpiries (rt_engine r) engine | None => engine end in
            let '(ok, w) := Configure config w in
            if negb ok then (Err BackendFailed, w)
            else (Ok (mkRuntime engine config profiles bindings ∅ ∅ ∅ (merge_sort query_le queries) ∅ ∅ ∅), w)
        end
    end) = x → x = (Ok r, w') → ∃ ps ss bs, bindings_ok bs ∧ agree ps ss bs r w') as Hfresh.
  { clear H. intros x <- H. cbv zeta in H. destruct (foldM_res _ _ _) as [[bindings queries]|] eqn:Hf; [|done].
    destruct (NewPolicy config now) as [engine|] eqn:Hn; [|done]. destruct (Configure config w) as [ok w1] eqn:Hc.
    destruct ok; [|done]. cbn [negb] in H. apply pair_equal_spec in H as [H <-]. apply Ok_injective in H. subst r.
    set (engine' := match previous with Some r => _ | None => _ end).
    assert (policy_inv engine) as Hp.
    { unfold NewPolicy in Hn. inv_ok Hn. subst engine. destruct x as [profiles subscribers].
      split; [by eapply compile_ok|]. intros id state. cbn. by rewrite lookup_empty. }
    exists (po_profiles engine'), (po_subscribers engine'), bindings. split.
    - eapply (bindings_ok_configured _ _ _ (∅, []) (bindings, queries)); [exact Hf|]. intros i b. cbn. by rewrite lookup_empty.
    - split; cbn; try done.
      + subst engine'. destruct previous; [by apply preserveExpiries_inv|done].
      + rewrite dom_empty_L. by eapply view_configure. }
  destruct previous as [p|]; [case_bool_decide as Heq|].
  - left. exists p. apply pair_equal_spec in H as [H <-]. apply Ok_injective in H. by subst.
  - right. by eapply Hfresh.
  - right. by eapply Hfresh.
Qed.

Lemma runs_agree r w : runs r w → ∃ ps ss bs, bindings_ok bs ∧ agree ps ss bs r w.
Proof.
  induction 1 as [config now w r w' Ht Hn|now op r w e r' w' _ (ps & ss & bs & Hbs & Ha) Ht Hp He].
  { apply (configure_agree None) in Hn as [(p & ? & _)|?]; done. }
  assert (∀ A (c : M W A), triple ps ss bs (agree ps ss bs) c (λ _, agree ps ss bs) →
    match c (r, w) with (Ok _, s) => (None, s) | (Err e, s) => (Some e, s) end = (e, (r', w')) →
    agree ps ss bs r' w') as Hout.
  { intros A c Hc Hr. specialize (Hc r w Ha). destruct (c (r, w)) as [[a|x] [r1 w1]];
      apply pair_equal_spec in Hr as [<- [= <- <-]]; [done|by apply Hc, He]. }
  destruct op as [name message| |id| |config]; cbn [perform] in Hp.
  - exists ps, ss, bs. split; [done|]. eapply Hout; [|exact Hp]. by apply Handle_agree.
  - exists ps, ss, bs. split; [done|]. eapply Hout; [|exact Hp]. by apply Expire_agree.
  - exists ps, ss, bs. split; [done|]. eapply Hout; [|exact Hp]. apply Monitor_agree.
  - exists ps, ss, bs. split; [done|]. eapply Hout; [|exact Hp]. apply SampleBandwidth_agree.
  - unfold ConfigureRuntime in Hp. destruct (configure (Some r) config now w) as [[r1|x] w1] eqn:Hc.
    + apply pair_equal_spec in Hp as [_ [= <- <-]]. apply configure_agree in Hc as [(p & [= <-] & -> & ->)|?]; [|done|by apply Ht].
      by exists ps, ss, bs.
    + apply pair_equal_spec in Hp as [<- [= <- <-]]. exists ps, ss, bs. split; [done|].
      assert (w1 = w) as ->; [|done]. unfold configure in Hc. revert Hc. cbv zeta.
      assert (¬ serious x) as Hx by by apply He. repeat case_match; intros; simplify_eq; try done; exfalso; apply Hx; by left.
Qed.

End runs.

(** ** A backend that records what it replicates *)

#[export] Instance recordingBackend : RuntimeBackend (gset runtimeStreamKey) := {
  Configure _ _ := (true, ∅);
  SetReplication change w :=
    (true, if rc_Enable change then {[changeKey change]} ∪ w else w ∖ {[changeKey change]});
  SendReport _ w := (true, w);
  SendQuery _ w := (true, w);
  BandwidthSampler := None
}.

#[export] Instance recordingView : ReplicationView (gset runtimeStreamKey).
Proof.
  refine {| replicated := λ w, w |}.
  - by intros change w w' [= <-].
  - by intros config w w' [= <-].
  - by intros report w ok w' [= _ <-].
  - by intros query w ok w' [= _ <-].
  - done.
Defined.

Definition proxyACL (preview : Z) : ACLEntry :=
  mkACLEntry 1 4 300 100 NoAddr (V4 0xef000001) (V4 0xefffffff) 1000 preview 0 0 0.
Definition proxyConfig (preview : Z) (function : Z) (immediate : bool) : Config :=
  mkConfig [mkProfile 5 3 function immediate 0 0 0 2 0 125 100 10 false 0 0 [proxyACL preview] []]
    [mkSubscriber 7 [mkAttachment "lan1" 1 1 None] 5 0 0 false [] []].
Definition membershipOf (recordType : Z) (mac : Z) : MembershipMessage :=
  mkMessage MessageReport 3 false (true, 100) (V4 0) [2; 0; 0; 0; 0; mac] (repeat 0 6) 0 0 0 []
    [mkRecord recordType (V4 0xef000101) []].
Definition sampleStream : runtimeStreamKey := (7, "lan1", V4 0, V4 0xef000101, (true, 100)).

(** Operations at their times in seconds, on a new runtime: the errors and the end. *)
Definition playFrom (s : option RuntimeError * (Runtime * gset runtimeStreamKey)) (ops : list (Z * operation))
    : list (option RuntimeError) * (Runtime * gset runtimeStreamKey) :=
  fold_left (λ '(errors, s) '(now, op),
    let '(e, s) := @perform canonical_range _ _ 0 (now * second) op s in (errors ++ [e], s)) ops ([], s.2).
Definition startOf (config : Config) : option RuntimeError * (Runtime * gset runtimeStreamKey) :=
  match NewRuntime config (0 * second) ∅ with
  | (Ok r, w) => (None, (r, w))
  | (Err e, w) => (Some e, (mkRuntime (mkPolicy ∅ ∅ ∅ ∅) config ∅ ∅ ∅ ∅ ∅ [] ∅ ∅ ∅, w))
  end.

Lemma start_runs config : config_typed config → (startOf config).1 = None →
  @runs canonical_range _ _ 0 (startOf config).2.1 (startOf config).2.2.
Proof.
  intros Ht H. unfold startOf in *. destruct (NewRuntime config (0 * second) ∅) as [[r|e] w] eqn:Hn; [|done].
  by eapply runs_new.
Qed.

Lemma perform_runs now op s : @runs canonical_range _ _ 0 s.1 s.2 →
  (∀ config, op = OpConfigure config → config_typed config) → (@perform canonical_range _ _ 0 now op s).1 = None →
  @runs canonical_range _ _ 0 (@perform canonical_range _ _ 0 now op s).2.1 (@perform canonical_range _ _ 0 now op s).2.2.
Proof.
  intros Hr Ht He. destruct s as [r w]. eapply runs_op; [exact Hr|exact Ht|..].
  - rewrite <- !surjective_pairing. reflexivity.
  - rewrite He. done.
Qed.

Lemma proxyConfig_typed preview function immediate : is_u 16 preview → config_typed (proxyConfig preview function immediate).
Proof.
  intros Hp. split.
  - intros profile acl ->%list_elem_of_singleton ->%list_elem_of_singleton. by_decide.
  - intros sub ->%list_elem_of_singleton. split_and!; [by_decide..|]. by intros service ?%elem_of_nil.
Qed.


(** Two stations that report from the unspecified address (a client before it has an address,
    or a snooping switch) share the policy's record of the client.  When both leave, the second
    leave fails although replication has been stopped, the stream stays in the runtime, and a
    new join is accepted without replication being started again. *)
Lemma shared_address_blackhole :
  let result := playFrom (startOf (proxyConfig 0 2 true))
    [(1, OpHandle "lan1" (membershipOf ModeIsExclude 1)); (1, OpHandle "lan1" (membershipOf ModeIsExclude 2));
     (2, OpHandle "lan1" (membershipOf ChangeToIncludeMode 1)); (3, OpHandle "lan1" (membershipOf ChangeToIncludeMode 2));
     (4, OpHandle "lan1" (membershipOf ModeIsExclude 1))] in
  result.1 = [None; None; None; Some MissingFromPolicy; None] ∧
  result.2.2 = ∅ ∧ dom (rt_streams result.2.1) = {[sampleStream]}.
Proof. cbv zeta. split_and!; by_decide. Qed.

(** A preview that ends between two timer ticks and is first noticed by a monitor (or a join)
    is forgotten by the policy without the runtime being told: it is replicated for ever. *)
Lemma swept_preview_replicated :
  let result := playFrom (startOf (proxyConfig 10 1 true))
    [(1, OpHandle "lan1" (membershipOf ModeIsExclude 1)); (10, OpExpire); (12, OpMonitor 7); (13, OpExpire);
     (3600, OpExpire)] in
  result.1 = [None; None; None; None; None] ∧ result.2.2 = {[sampleStream]} ∧
  groupsOf (rt_engine result.2.1) 7 !! ("lan1", V4 0, V4 0xef000101, (true, 100), V4 0) ≫= (λ a, Some (as_joinedAt a)) = None.
Proof. cbv zeta. split_and!; by_decide. Qed.

(** A client of a proxy profile that was silent for the membership interval is removed, but its
    membership state is kept, so its next report is a refresh of a stream that is gone: it
    fails, and the client cannot come back before it leaves. *)
Lemma aged_client_locked_out :
  let result := playFrom (startOf (proxyConfig 0 2 true))
    [(1, OpHandle "lan1" (membershipOf ModeIsExclude 1)); (300, OpExpire);
     (301, OpHandle "lan1" (membershipOf ModeIsExclude 1)); (302, OpHandle "lan1" (membershipOf ModeIsExclude 1))] in
  result.1 = [None; None; Some NoStreamState; Some NoStreamState] ∧ result.2.2 = ∅.
Proof. cbv zeta. split_and!; by_decide. Qed.
