(* ===== verification/McLinux.v ===== *)
(** * Multicast: the Linux backend

    src/internal/multicast/linux_backend.go: the [RuntimeBackend] that turns the configuration and
    the active streams into tc filters, one chain for each GEM port, and reports into frames on
    the right GEM port.  A method is a computation over the backend and the world that runs its
    commands; a command is the list of its arguments, whose numbers and addresses are kept as
    such ([Arg]).  What the operating system does, from running tc to sending a frame, is the
    interface [LinuxHost]. *)

From Stdlib Require Import Floats.SpecFloat.
From S2P Require Import Prelude Maps GoStd Netip McPolicy McReport McRuntime.

Definition multicastDownstreamChain : Z := 2013.
Definition multicastGEMChainBase : Z := 20000.
Definition normalDownstreamChain : Z := 2012.
Definition proxyQueryMark : Z := 0xa17f0001.
Definition gponGEMMarkKey : Z := 0xa1700000.

(** ** Commands *)

(** One argument of a command: a word, [strconv.Itoa], [%#x], [%#x/0xffffffff], and the text of
    an address and of a prefix. *)
Inductive Arg :=
| Word (text : string)
| Num (value : Z)
| Hex (value : Z)
| HexMask (value : Z)
| AddrText (address : Addr)
| PrefixText (prefix : Addr * Z).

(** An action of a filter in the answer of tc: its byte counter, if it has one. *)
Abbreviation tcAction := (option Z).
(** The preference of a filter in it: a JSON number, a JSON string, null, or something else. *)
Inductive tcPreferenceValue := PrefNumber (literal : list Z) | PrefText (text : list Z) | PrefNull | PrefOther.
Record tcFilter := mkTcFilter { tf_Preference : tcPreferenceValue; tf_Actions : list tcAction }.

(** What the backend asks of the system: [Run] of a [CommandRunner], [Output] when the runner is an
    [OutputCommandRunner] ([None] when the command fails or its answer is not JSON of a list of
    filters), the senders of a frame, and the hardware address of an interface. *)
Class LinuxHost (W : Type) := {
  Run : list Arg → W → bool * W;
  Output : option (list Arg → W → option (list tcFilter) * W);
  Sender : string → list Z → W → bool * W;
  MarkedSender : string → list Z → Z → W → bool * W;
  QuerySender : string → list Z → W → bool * W;
  HardwareAddr : W → string → option (list Z)
}.

(** [sort.Slice], which may leave elements that compare equal in any order. *)
Class GoSort := {
  sortSlice {A} : (A → A → bool) → list A → list A;
  sortSlice_perm {A} (less : A → A → bool) l : sortSlice less l ≡ₚ l;
  sortSlice_sorted {A} (less : A → A → bool) l :
    (∀ a b, less a b = true → less b a = false) →
    (∀ a b c, less b a = false → less c b = false → less c a = false) →
    StronglySorted (λ a b, less b a = false) (sortSlice less l)
}.

(** ** State *)

Record downstreamRule := mkRule {
  dr_interfaceName : string;
  dr_aniVLAN : Z;
  dr_gemPortID : Z;
  dr_uniVLAN : VLAN;
  dr_source : Addr;
  dr_excluded : list Addr;
  dr_start : Addr;
  dr_stop : Addr;
  dr_profile : Profile
}.

(** [dynamicRuleKey]: subscriber, interface, source, group and VLAN. *)
Abbreviation dynamicRuleKey := (Z * string * Addr * Addr * VLAN)%type.
Definition dk_subscriberID (key : dynamicRuleKey) : Z := key.1.1.1.1.
Definition dk_interfaceName (key : dynamicRuleKey) : string := key.1.1.1.2.
Definition dk_source (key : dynamicRuleKey) : Addr := key.1.1.2.
Definition dk_group (key : dynamicRuleKey) : Addr := key.1.2.
Definition dk_uniVLAN (key : dynamicRuleKey) : VLAN := key.2.

Record installedDownstreamRule := mkInstalled { in_rule : downstreamRule; in_dynamicKey : option dynamicRuleKey }.

Record tcFilterRef := mkRef { fr_interfaceName : string; fr_chain : Z; fr_preference : Z }.

Record bandwidthBaseline := mkBaseline { bb_bytes : Z; bb_at : Z }.

(** The sets of GEM ports are the keys of the maps. *)
Record LinuxBackend := mkLinux {
  lb_pon : string;
  lb_control : gmap string (list downstreamRule);
  lb_static : gmap string (list downstreamRule);
  lb_dynamic : gmap dynamicRuleKey downstreamRule;
  lb_filters : gmap dynamicRuleKey (list tcFilterRef);
  lb_baselines : gmap dynamicRuleKey bandwidthBaseline;
  lb_chains : gmap string (gmap Z unit)
}.

(** [NewLinuxBackend]; the other options are those of [LinuxHost]. *)
Definition NewLinuxBackend (pon : string) : LinuxBackend :=
  mkLinux (if bool_decide (pon = "") then "pon" else pon) ∅ ∅ ∅ ∅ ∅ ∅.

Definition set_rules (b : LinuxBackend) control static dynamic : LinuxBackend :=
  mkLinux (lb_pon b) control static dynamic (lb_filters b) (lb_baselines b) (lb_chains b).
Definition set_dynamic (b : LinuxBackend) dynamic : LinuxBackend :=
  set_rules b (lb_control b) (lb_static b) dynamic.
Definition set_filters (b : LinuxBackend) filters : LinuxBackend :=
  mkLinux (lb_pon b) (lb_control b) (lb_static b) (lb_dynamic b) filters (lb_baselines b) (lb_chains b).
Definition set_baselines (b : LinuxBackend) baselines : LinuxBackend :=
  mkLinux (lb_pon b) (lb_control b) (lb_static b) (lb_dynamic b) (lb_filters b) baselines (lb_chains b).
Definition set_chains (b : LinuxBackend) chains : LinuxBackend :=
  mkLinux (lb_pon b) (lb_control b) (lb_static b) (lb_dynamic b) (lb_filters b) (lb_baselines b) chains.

Inductive LinuxError :=
| CommandFailed
| InvalidRange
| InvalidTagControl
| InvalidExclusion
| PreferencesExhausted
| NoEndpoint
| TwoEndpoints
| InvalidMapper
| ShortFrame
| NoUpstreamGEM
| InvalidFrame
| NoInterface
| SendFailed
| InvalidPreference
| MissingPreference.

(** ** Computations *)

(** A computation on the backend and the world: an error keeps what was done before it. *)
Definition L (W A : Type) : Type := LinuxBackend * W → Res LinuxError A * (LinuxBackend * W).

#[export] Instance L_ret {W} : MRet (L W) := λ A a s, (Ok a, s).
#[export] Instance L_bind {W} : MBind (L W) := λ A B f c s,
  match c s with
  | (Ok a, s) => f a s
  | (Err e, s) => (Err e, s)
  end.

Definition failL {W A} (e : LinuxError) : L W A := λ s, (Err e, s).
Definition liftL {W A} (r : Res LinuxError A) : L W A := λ s, (r, s).
Definition getL {W} : L W LinuxBackend := λ s, (Ok s.1, s).
Definition putL {W} (b : LinuxBackend) : L W unit := λ s, (Ok tt, (b, s.2)).

(** [if err := c; err != nil { ... }]. *)
Definition recoverL {W A} (c : L W A) (handler : LinuxError → L W A) : L W A := λ s,
  match c s with
  | (Ok a, s) => (Ok a, s)
  | (Err e, s) => handler e s
  end.

(** A loop with a state that returns on the first error. *)
Fixpoint foldL {W A S} (f : S → A → L W S) (l : list A) (acc : S) : L W S :=
  match l with
  | [] => mret acc
  | x :: l => acc ← f acc x; foldL f l acc
  end.

(** ** Ranges of addresses as prefixes *)

(** [bits.TrailingZeros] of a [width]-bit value, and [bits.Len]. *)
Fixpoint trailingZeros (width : nat) (value : Z) : Z :=
  match width with
  | O => 0
  | S width => if Z.even value then 1 + trailingZeros width (value / 2) else 0
  end.
Definition bitLength (value : Z) : Z := if value =? 0 then 0 else Z.log2 value + 1.

(** [ipv4RangePrefixes], with fuel for its loop. *)
Fixpoint ipv4Prefixes (fuel : nat) (current last : Z) : list (Addr * Z) :=
  match fuel with
  | O => []
  | S fuel =>
      if last <? current then []
      else
        let alignment := trailingZeros 32 current in
        let remaining := u64 (last - current + 1) in
        let sizeBits := bitLength remaining - 1 in
        let blockBits := Z.min alignment sizeBits in
        let next := u32 (current + u32 (Z.shiftl 1 blockBits)) in
        (V4 current, 32 - blockBits) ::
        (if next =? 0 then [] else ipv4Prefixes fuel next last)
  end.
Definition ipv4RangePrefixes (start stop : Addr) : list (Addr * Z) :=
  ipv4Prefixes 64 (be (As4 start)) (be (As4 stop)).

(** [trailingZeros16]: from the last octet. *)
Fixpoint trailingZerosOctets (reversed : list Z) : Z :=
  match reversed with
  | [] => 0
  | octet :: rest => if octet =? 0 then 8 + trailingZerosOctets rest else trailingZeros 8 octet
  end.
Definition trailingZeros16 (value : list Z) : Z := trailingZerosOctets (rev value).

(** [prefixLast16]: the bits from [prefixLength] on are set. *)
Definition prefixLast16 (address : list Z) (prefixLength : Z) : list Z :=
  fold_left (λ result bit,
      alter (λ octet, Z.lor octet (Z.shiftl 1 (7 - bit mod 8))) (Z.to_nat (bit / 8)) result)
    (map Z.of_nat (seq (Z.to_nat prefixLength) (128 - Z.to_nat prefixLength))) address.

Fixpoint compare16 (a b : list Z) : Z :=
  match a, b with
  | x :: a, y :: b => if x <? y then -1 else if y <? x then 1 else compare16 a b
  | _, _ => 0
  end.

(** [increment16], from the last octet; the second component is the overflow. *)
Fixpoint incrementOctets (reversed : list Z) : list Z * bool :=
  match reversed with
  | [] => ([], true)
  | octet :: rest =>
      let octet := u8 (octet + 1) in
      if octet =? 0 then let '(rest, overflow) := incrementOctets rest in (octet :: rest, overflow)
      else (octet :: rest, false)
  end.
Definition increment16 (value : list Z) : list Z * bool :=
  let '(reversed, overflow) := incrementOctets (rev value) in (rev reversed, overflow).

(** The inner loop of [ipv6RangePrefixes]: shrinks the block until it ends within the range. *)
Fixpoint shrinkBlock (fuel : nat) (current last : list Z) (blockBits : Z) : Z :=
  match fuel with
  | O => blockBits
  | S fuel =>
      if (0 <? blockBits) && (0 <? compare16 (prefixLast16 current (128 - blockBits)) last)
      then shrinkBlock fuel current last (blockBits - 1) else blockBits
  end.

(** [ipv6RangePrefixes], with fuel for its loop. *)
Fixpoint ipv6Prefixes (fuel : nat) (current last : list Z) : list (Addr * Z) :=
  match fuel with
  | O => []
  | S fuel =>
      if 0 <? compare16 current last then []
      else
        let blockBits := shrinkBlock 128 current last (trailingZeros16 current) in
        let '(next, overflow) := increment16 (prefixLast16 current (128 - blockBits)) in
        (AddrFrom16 current, 128 - blockBits) :: (if overflow then [] else ipv6Prefixes fuel next last)
  end.
Definition ipv6RangePrefixes (start stop : Addr) : list (Addr * Z) :=
  ipv6Prefixes 256 (As16 start) (As16 stop).

Definition addressRangePrefixes (start stop : Addr) : Res LinuxError (list (Addr * Z)) :=
  if negb (IsValid start) || negb (IsValid stop) || negb (BitLen start =? BitLen stop) ||
     match Compare start stop with Gt => true | _ => false end
  then Err InvalidRange
  else Ok (if Is4 start then ipv4RangePrefixes start stop else ipv6RangePrefixes start stop).

(** ** The arguments of a filter *)

Record downstreamVariant := mkVariant { va_protocol : string; va_tagged : bool; va_tags : Z }.

Definition downstreamVariants (aniVLAN : Z) (ipv4 : bool) : list downstreamVariant :=
  let untagged := mkVariant (if ipv4 then "ip" else "ipv6") false 0 in
  let tagged := [mkVariant "802.1Q" true 1; mkVariant "802.1Q" true 2;
                 mkVariant "802.1ad" true 1; mkVariant "802.1ad" true 2] in
  if aniVLAN =? 0 then [untagged]
  else if aniVLAN =? 4097 then tagged
  else if aniVLAN =? 0xffff then untagged :: tagged
  else tagged.

Definition multicastGEMChain (gemPortID : Z) : Z := multicastGEMChainBase + gemPortID.

(** The beginning the three kinds of filter share: the chain, the preference and the tags. *)
Definition filterArguments (interfaceName : string) (preference : Z) (rule : downstreamRule)
    (variant : downstreamVariant) (ipv4 : bool) : list Arg :=
  [Word "filter"; Word "replace"; Word "dev"; Word interfaceName; Word "egress"; Word "chain";
   Num (multicastGEMChain (dr_gemPortID rule)); Word "protocol"; Word (va_protocol variant);
   Word "pref"; Num preference; Word "flower"; Word "skip_hw"] ++
  (if va_tagged variant then
     [Word "num_of_vlans"; Num (va_tags variant)] ++
     (if dr_aniVLAN rule <=? 4095 then [Word "vlan_id"; Num (dr_aniVLAN rule)] else []) ++
     [Word (if va_tags variant =? 2 then "cvlan_ethtype" else "vlan_ethtype"); Word (if ipv4 then "ip" else "ipv6")]
   else []).

Definition popAction : list Arg := [Word "action"; Word "vlan"; Word "pop"; Word "pipe"; Word "action"; Word "pass"].
Definition passAction : list Arg := [Word "action"; Word "pass"].

Definition downstreamActions (profile : Profile) (uniVLAN : VLAN) (tagged : bool) : Res LinuxError (list Arg) :=
  let control := pr_DownstreamTagControl profile in
  let own := (5 <=? control) && uniVLAN.1 && (uniVLAN.2 <=? 4094) in
  let tci := if own then Z.lor (Z.land (pr_DownstreamTCI profile) 0xf000) uniVLAN.2 else pr_DownstreamTCI profile in
  if (5 <=? control) && negb own && ((control =? 6) || (control =? 7)) && negb uniVLAN.1
  then Ok (if tagged then popAction else passAction)
  else
    let vid := Num (Z.land tci 0x0fff) in
    let priority := Num (Z.land (Z.shiftr tci 13) 7) in
    let dei := Num (Z.land (Z.shiftr tci 12) 1) in
    let push := [Word "action"; Word "vlan"; Word "push"; Word "protocol"; Word "802.1Q"; Word "id"; vid;
                 Word "priority"; priority; Word "dei"; dei; Word "pipe"; Word "action"; Word "pass"] in
    let modify := [Word "action"; Word "vlan"; Word "modify"; Word "id"; vid;
                   Word "priority"; priority; Word "dei"; dei; Word "pipe"; Word "action"; Word "pass"] in
    let pushVID := [Word "action"; Word "vlan"; Word "push"; Word "protocol"; Word "802.1Q"; Word "id"; vid;
                    Word "pipe"; Word "action"; Word "pass"] in
    if control =? 0 then Ok [Word "action"; Word "goto"; Word "chain"; Num normalDownstreamChain]
    else if control =? 1 then Ok (if tagged then popAction else passAction)
    else if (control =? 2) || (control =? 5) then Ok push
    else if (control =? 3) || (control =? 6) then Ok (if tagged then modify else push)
    else if (control =? 4) || (control =? 7) then
      Ok (if tagged
          then [Word "action"; Word "vlan"; Word "modify"; Word "id"; vid; Word "pipe"; Word "action"; Word "pass"]
          else pushVID)
    else Err InvalidTagControl.

Definition downstreamControlFilterArguments (interfaceName : string) (preference : Z) (rule : downstreamRule)
    (variant : downstreamVariant) : Res LinuxError (list Arg) :=
  let igmp := pr_IGMPVersion (dr_profile rule) <=? 3 in
  actions ← downstreamActions (dr_profile rule) (dr_uniVLAN rule) (va_tagged variant);
  Ok (filterArguments interfaceName preference rule variant igmp ++
      (if igmp then [Word "ip_proto"; Word "2"] else [Word "ip_proto"; Word "icmpv6"; Word "type"; Word "130"]) ++
      actions).

Definition downstreamFilterArguments (interfaceName : string) (preference : Z) (rule : downstreamRule)
    (prefix : Addr * Z) (variant : downstreamVariant) : Res LinuxError (list Arg) :=
  actions ← downstreamActions (dr_profile rule) (dr_uniVLAN rule) (va_tagged variant);
  Ok (filterArguments interfaceName preference rule variant (Is4 prefix.1) ++
      (if IsValid (dr_source rule) && negb (IsUnspecified (dr_source rule))
       then [Word "src_ip"; AddrText (dr_source rule)] else []) ++
      [Word "dst_ip"; PrefixText prefix] ++ actions).

Definition downstreamExcludeFilterArguments (interfaceName : string) (preference : Z) (rule : downstreamRule)
    (prefix : Addr * Z) (variant : downstreamVariant) (source : Addr) : Res LinuxError (list Arg) :=
  if negb (IsValid source) || negb (BitLen source =? BitLen prefix.1) then Err InvalidExclusion
  else Ok (filterArguments interfaceName preference rule variant (Is4 prefix.1) ++
           [Word "src_ip"; AddrText source; Word "dst_ip"; PrefixText prefix; Word "action"; Word "drop"]).

(** ** The rules of a configuration *)

Definition validateUpstreamMapper (mapper : UpstreamMapper) : Res LinuxError unit :=
  _ ← guard_err ((1 <? um_UnmarkedFrameOption mapper) || (7 <? um_DefaultPBit mapper)) InvalidMapper;
  _ ← foldM_res (λ _ gemPortID, guard_err ((4095 <? gemPortID) && negb (gemPortID =? 0xffff)) InvalidMapper)
        (um_GEMPortIDs mapper) tt;
  foldM_res (λ _ priority, guard_err (7 <? priority) InvalidMapper) (um_DSCPToPBit mapper) tt.

Definition validateDownstreamProfile (profile : Profile) : Res LinuxError unit :=
  guard_err (7 <? pr_DownstreamTagControl profile) InvalidTagControl.

Definition staticDownstreamRules (interfaceName : string) (uniVLAN : VLAN) (profile : Profile) : list downstreamRule :=
  map (λ entry, mkRule interfaceName (ac_VLANID entry) (ac_GEMPortID entry) uniVLAN (ac_Source entry) []
                  (ac_Start entry) (ac_Stop entry) profile) (pr_StaticACL profile).

(** One entry of the loops of [controlDownstreamRules]: the keys seen so far, and the rules. *)
Definition controlRule (interfaceName : string) (uniVLAN : VLAN) (profile : Profile)
    (acc : gset (Z * Z) * list downstreamRule) (entry : ACLEntry) : gset (Z * Z) * list downstreamRule :=
  let key := (ac_GEMPortID entry, ac_VLANID entry) in
  if bool_decide (key ∈ acc.1) then acc
  else ({[key]} ∪ acc.1,
        acc.2 ++ [mkRule interfaceName (ac_VLANID entry) (ac_GEMPortID entry) uniVLAN NoAddr [] NoAddr NoAddr profile]).

Definition controlDownstreamRules (interfaceName : string) (uniVLAN : VLAN) (profile : Profile) : list downstreamRule :=
  (fold_left (controlRule interfaceName uniVLAN profile) (pr_DynamicACL profile ++ pr_StaticACL profile) (∅, [])).2.

Definition servicePacketVLAN (value : Z) : VLAN :=
  if (value =? 4096) || (value =? 0xffff) then (false, 0)
  else if value =? 4097 then (true, 0)
  else (true, value).

(** The rules of [candidateControl] and of [candidate]. *)
Abbreviation ruleTables := (gmap string (list downstreamRule) * gmap string (list downstreamRule))%type.

Definition appendRules (tables : ruleTables) (interfaceName : string) (uniVLAN : VLAN) (profile : Profile) : ruleTables :=
  let append table rules := <[interfaceName := default [] (table !! interfaceName) ++ rules]> table in
  (append tables.1 (controlDownstreamRules interfaceName uniVLAN profile),
   append tables.2 (staticDownstreamRules interfaceName uniVLAN profile)).

(** The body of the loop of [Configure] over the attachments of a subscriber. *)
Definition configureAttachment (profiles : gmap Z Profile) (subscriber : Subscriber) (tables : ruleTables)
    (attachment : Attachment) : Res LinuxError ruleTables :=
  let direct := bool_decide (is_Some (at_DirectMapper attachment)) in
  let bridged := negb (at_BridgeEntity attachment =? 0) in
  _ ← guard_err (negb bridged && negb direct) NoEndpoint;
  _ ← guard_err (bridged && direct) TwoEndpoints;
  _ ← match at_DirectMapper attachment with Some mapper => validateUpstreamMapper mapper | None => Ok tt end;
  let profile id := default noProfile (profiles !! id) in
  Ok (if bool_decide (su_ServicePackages subscriber = [])
      then appendRules tables (at_Interface attachment) (false, 0) (profile (su_Profile subscriber))
      else fold_left (λ tables service,
             appendRules tables (at_Interface attachment) (servicePacketVLAN (sp_VLANID service))
               (profile (sp_OperationsProfile service))) (su_ServicePackages subscriber) tables).

Definition configureTables (config : Config) : Res LinuxError ruleTables :=
  profiles ← foldM_res (λ (profiles : gmap Z Profile) profile,
               _ ← validateDownstreamProfile profile; Ok (<[pr_EntityID profile := profile]> profiles))
               (cf_Profiles config) ∅;
  foldM_res (λ tables subscriber, foldM_res (configureAttachment profiles subscriber) (su_Attachments subscriber) tables)
    (cf_Subscribers config) (∅, ∅).

(** ** The order of the rules *)

Definition isLess (c : comparison) : bool := match c with Lt => true | _ => false end.

Definition controlLess (a b : downstreamRule) : bool :=
  if negb (dr_gemPortID a =? dr_gemPortID b) then dr_gemPortID a <? dr_gemPortID b
  else if negb (pr_EntityID (dr_profile a) =? pr_EntityID (dr_profile b))
  then pr_EntityID (dr_profile a) <? pr_EntityID (dr_profile b)
  else if negb (dr_aniVLAN a =? dr_aniVLAN b) then dr_aniVLAN a <? dr_aniVLAN b
  else (dr_uniVLAN a).2 <? (dr_uniVLAN b).2.

Definition dynamicRuleKeyLess (a b : dynamicRuleKey) : bool :=
  if negb (dk_subscriberID a =? dk_subscriberID b) then dk_subscriberID a <? dk_subscriberID b
  else match Compare (dk_group a) (dk_group b) with
       | Eq =>
           match Compare (dk_source a) (dk_source b) with
           | Eq =>
               if negb (eqb (dk_uniVLAN a).1 (dk_uniVLAN b).1) then negb (dk_uniVLAN a).1
               else (dk_uniVLAN a).2 <? (dk_uniVLAN b).2
           | c => isLess c
           end
       | c => isLess c
       end.

Definition specificSource (rule : downstreamRule) : bool :=
  IsValid (dr_source rule) && negb (IsUnspecified (dr_source rule)).
Definition isDynamic (i : installedDownstreamRule) : bool := bool_decide (is_Some (in_dynamicKey i)).

Definition installedLess (a b : installedDownstreamRule) : bool :=
  if negb (eqb (isDynamic a) (isDynamic b)) then isDynamic a
  else match Compare (dr_start (in_rule a)) (dr_start (in_rule b)) with
       | Eq =>
           if negb (eqb (specificSource (in_rule a)) (specificSource (in_rule b))) then specificSource (in_rule a)
           else match Compare (dr_source (in_rule a)) (dr_source (in_rule b)) with
                | Eq =>
                    if negb (pr_EntityID (dr_profile (in_rule a)) =? pr_EntityID (dr_profile (in_rule b)))
                    then pr_EntityID (dr_profile (in_rule a)) <? pr_EntityID (dr_profile (in_rule b))
                    else match in_dynamicKey a, in_dynamicKey b with
                         | Some ka, Some kb => dynamicRuleKeyLess ka kb
                         | _, _ => false
                         end
                | c => isLess c
                end
       | c => isLess c
       end.

(** ** Rebuilding the chains of an interface *)

(** The dynamic rules of an interface, in the order of the range. *)
Definition dynamicRulesOf {MR : MapRange} (b : LinuxBackend) (interfaceName : string)
    : list (dynamicRuleKey * downstreamRule) :=
  filter (λ p, dk_interfaceName p.1 = interfaceName) (range (lb_dynamic b)).

Definition rulesOf (table : gmap string (list downstreamRule)) (interfaceName : string) : list downstreamRule :=
  default [] (table !! interfaceName).

Definition effectiveExcludedSources (b : LinuxBackend) (key : dynamicRuleKey) (rule : downstreamRule) : list Addr :=
  if negb (IsUnspecified (dk_source key)) || bool_decide (dr_excluded rule = []) then dr_excluded rule
  else List.filter (λ excluded,
      match lb_dynamic b !! (dk_subscriberID key, dk_interfaceName key, excluded, dk_group key, dk_uniVLAN key) with
      | None => true
      | Some includedRule => negb (dr_gemPortID includedRule =? dr_gemPortID rule)
      end) (dr_excluded rule).

Section backend.
Context {MR : MapRange} {GS : GoSort} {W : Type} {H : LinuxHost W}.

(** [b.runner.Run(b.tc, arguments...)], and the same with the error dropped. *)
Definition runTC (arguments : list Arg) : L W unit := λ '(b, w),
  let '(ok, w) := Run arguments w in (if ok then Ok tt else Err CommandFailed, (b, w)).
Definition tryTC (arguments : list Arg) : L W unit := λ '(b, w), (Ok tt, (b, (Run arguments w).2)).

Definition desiredGEMs (b : LinuxBackend) (interfaceName : string) : gmap Z unit :=
  fold_left (λ gems rule, <[dr_gemPortID rule := tt]> gems)
    (rulesOf (lb_control b) interfaceName ++ rulesOf (lb_static b) interfaceName ++
     map snd (dynamicRulesOf b interfaceName)) ∅.

Definition deleteChain (interfaceName : string) (chain : Z) : list Arg :=
  [Word "filter"; Word "del"; Word "dev"; Word interfaceName; Word "egress"; Word "chain"; Num chain].

Definition replaceFilter (interfaceName : string) (chain : Z) : list Arg :=
  [Word "filter"; Word "replace"; Word "dev"; Word interfaceName; Word "egress"; Word "chain"; Num chain;
   Word "protocol"; Word "all"].

(** The filters that lead to the chain of a GEM port and that end a chain. *)
Definition gotoGEM (interfaceName : string) (gem : Z) : list Arg :=
  replaceFilter interfaceName multicastDownstreamChain ++
  [Word "pref"; Num (100 + gem); Word "handle"; HexMask (Z.lor gponGEMMarkKey gem); Word "fw"; Word "action";
   Word "goto"; Word "chain"; Num (multicastGEMChain gem)].
Definition passQueries (interfaceName : string) : list Arg :=
  replaceFilter interfaceName multicastDownstreamChain ++
  [Word "pref"; Num 1; Word "handle"; Hex proxyQueryMark; Word "fw"; Word "action"; Word "pass"].
Definition dropRest (interfaceName : string) (chain : Z) : list Arg :=
  replaceFilter interfaceName chain ++ [Word "pref"; Num 65000; Word "flower"; Word "skip_hw"; Word "action"; Word "drop"].

(** The preference a GEM port continues with; 0 is the absent entry. *)
Definition nextPreference (preferenceByGEM : gmap Z Z) (gem first : Z) : Z :=
  let preference := default 0 (preferenceByGEM !! gem) in
  if preference =? 0 then first else preference.

(** The body of the loop over the control rules. *)
Definition installControl (interfaceName : string) (preferenceByGEM : gmap Z Z) (rule : downstreamRule)
    : L W (gmap Z Z) :=
  preference ← foldL (λ preference variant,
      arguments ← liftL (downstreamControlFilterArguments interfaceName preference rule variant);
      _ ← runTC arguments;
      let preference := preference + 1 in
      if 1000 <=? preference then failL PreferencesExhausted else mret preference)
    (downstreamVariants (dr_aniVLAN rule) (pr_IGMPVersion (dr_profile rule) <=? 3))
    (nextPreference preferenceByGEM (dr_gemPortID rule) 10);
  mret (<[dr_gemPortID rule := preference]> preferenceByGEM).

(** The filters of one prefix and one variant: the exclusions, then the rule itself. *)
Definition installVariant (interfaceName : string) (installed : installedDownstreamRule) (prefix : Addr * Z)
    (acc : Z * list tcFilterRef) (variant : downstreamVariant) : L W (Z * list tcFilterRef) :=
  let rule := in_rule installed in
  b ← getL;
  let excludedSources := match in_dynamicKey installed with
                         | Some key => effectiveExcludedSources b key rule
                         | None => dr_excluded rule
                         end in
  preference ← foldL (λ preference excluded,
      arguments ← liftL (downstreamExcludeFilterArguments interfaceName preference rule prefix variant excluded);
      _ ← runTC arguments;
      mret (preference + 1)) excludedSources acc.1;
  arguments ← liftL (downstreamFilterArguments interfaceName preference rule prefix variant);
  _ ← runTC arguments;
  let references := acc.2 ++ [mkRef interfaceName (multicastGEMChain (dr_gemPortID rule)) preference] in
  let preference := preference + 1 in
  if 64000 <=? preference then failL PreferencesExhausted else mret (preference, references).

(** The body of the loop over the rules; the references are kept for the dynamic ones. *)
Definition installRule (interfaceName : string)
    (acc : gmap Z Z * gmap dynamicRuleKey (list tcFilterRef)) (installed : installedDownstreamRule)
    : L W (gmap Z Z * gmap dynamicRuleKey (list tcFilterRef)) :=
  let rule := in_rule installed in
  prefixes ← liftL (addressRangePrefixes (dr_start rule) (dr_stop rule));
  '(preference, references) ← foldL (λ acc prefix,
      foldL (installVariant interfaceName installed prefix) (downstreamVariants (dr_aniVLAN rule) (Is4 prefix.1)) acc)
    prefixes (nextPreference acc.1 (dr_gemPortID rule) 1000, []);
  mret (<[dr_gemPortID rule := preference]> acc.1,
        match in_dynamicKey installed with
        | Some key => if bool_decide (references = []) then acc.2
                      else <[key := default [] (acc.2 !! key) ++ references]> acc.2
        | None => acc.2
        end).

Definition forL {A} (l : list A) (f : A → L W unit) : L W unit := foldL (λ _ x, f x) l tt.

(** The rules [rebuildLocked] installs: the dynamic ones first. *)
Definition installedRules (b : LinuxBackend) (interfaceName : string) : list installedDownstreamRule :=
  sortSlice installedLess
    (map (λ '(key, rule), mkInstalled rule (Some key)) (dynamicRulesOf b interfaceName) ++
     map (λ rule, mkInstalled rule None) (rulesOf (lb_static b) interfaceName)).

(** [rebuildLocked]. *)
Definition rebuild (interfaceName : string) : L W unit :=
  b ← getL;
  let desired := desiredGEMs b interfaceName in
  let touched := desired ∪ default ∅ (lb_chains b !! interfaceName) in
  _ ← putL (set_chains b (<[interfaceName := touched]> (lb_chains b)));
  _ ← tryTC (deleteChain interfaceName multicastDownstreamChain);
  _ ← forL (range touched) (λ '(gem, _), tryTC (deleteChain interfaceName (multicastGEMChain gem)));
  _ ← runTC (passQueries interfaceName);
  let gems := sortedKeys Z.le desired in
  _ ← forL gems (λ gem, runTC (gotoGEM interfaceName gem));
  _ ← foldL (installControl interfaceName) (sortSlice controlLess (rulesOf (lb_control b) interfaceName)) ∅;
  '(_, installedFilters) ← foldL (installRule interfaceName) (installedRules b interfaceName) (∅, ∅);
  _ ← forL gems (λ gem, runTC (dropRest interfaceName (multicastGEMChain gem)));
  _ ← runTC (dropRest interfaceName multicastDownstreamChain);
  b ← getL;
  let b := set_filters b (installedFilters ∪
             filter (λ '(key, _), dk_interfaceName key ≠ interfaceName) (lb_filters b)) in
  let b := set_baselines b (filter (λ '(key, _), dk_interfaceName key ≠ interfaceName) (lb_baselines b)) in
  putL (set_chains b (<[interfaceName := desired]> (lb_chains b))).

(** [_ = b.rebuildLocked(...)]. *)
Definition tryRebuild (interfaceName : string) : L W unit := λ s, (Ok tt, (rebuild interfaceName s).2).

(** ** The backend *)

(** The set of interfaces of [Configure], as the keys of a map. *)
Definition interfacesOf (tables : list (gmap string (list downstreamRule))) : gmap string unit :=
  foldr (λ table interfaces, ((λ _, tt) <$> table) ∪ interfaces) ∅ tables.

(** [Configure]. *)
Definition ConfigureLinux (config : Config) : L W unit :=
  '(control, static) ← liftL (configureTables config);
  b ← getL;
  let interfaces := map fst (range (interfacesOf [lb_control b; lb_static b; static; control])) in
  _ ← putL (set_rules b control static ∅);
  forL interfaces (λ interfaceName, recoverL (rebuild interfaceName) (λ err,
    failed ← getL;
    _ ← putL (set_rules failed (lb_control b) (lb_static b) (lb_dynamic b));
    _ ← forL interfaces tryRebuild;
    failL err)).

(** [SetReplication]. *)
Definition SetReplicationLinux (change : ReplicationChange) : L W unit :=
  let group := rc_Group change in
  let interfaceName := at_Interface (rc_Attachment change) in
  let key : dynamicRuleKey := (su_EntityID (rc_Subscriber change), interfaceName, ag_Source group, ag_Group group,
                               ag_UNIVLAN group) in
  b ← getL;
  let rule := mkRule interfaceName (ag_ANIVLAN group) (ag_GEMPortID group) (ag_UNIVLAN group) (ag_Source group)
                (ag_ExcludedSources group) (ag_Group group) (ag_Group group) (rc_Profile change) in
  _ ← putL (set_dynamic b (if rc_Enable change then <[key := rule]> (lb_dynamic b) else delete key (lb_dynamic b)));
  recoverL (rebuild interfaceName) (λ err,
    failed ← getL;
    _ ← putL (set_dynamic failed (partial_alter (λ _, lb_dynamic b !! key) key (lb_dynamic failed)));
    _ ← tryRebuild interfaceName;
    failL err).

(** ** Frames *)

(** [directMapperGEM]. *)
Definition directMapperGEM (mapper : UpstreamMapper) (frame : list Z) : Res LinuxError Z :=
  _ ← guard_err ((1 <? um_UnmarkedFrameOption mapper) || (7 <? um_DefaultPBit mapper)) InvalidMapper;
  _ ← guard_err (length frame <? 14)%nat ShortFrame;
  let etherType := Uint16 frame 12 in
  priority ←
    (if (etherType =? 0x8100) || (etherType =? 0x88a8) || (etherType =? 0x9100) then
       _ ← guard_err (length frame <? 18)%nat ShortFrame;
       Ok (u8 (Z.shiftr (Uint16 frame 14) 13))
     else if um_UnmarkedFrameOption mapper =? 1 then Ok (um_DefaultPBit mapper)
     else if etherType =? 0x0800 then
       _ ← guard_err (length frame <? 16)%nat ShortFrame;
       Ok (nth8 (um_DSCPToPBit mapper) (Z.to_nat (Z.shiftr (nth8 frame 15) 2)))
     else if etherType =? 0x86dd then
       _ ← guard_err (length frame <? 16)%nat ShortFrame;
       let trafficClass := Z.lor (u8 (Z.shiftl (Z.land (nth8 frame 14) 0x0f) 4)) (Z.shiftr (nth8 frame 15) 4) in
       Ok (nth8 (um_DSCPToPBit mapper) (Z.to_nat (Z.shiftr trafficClass 2)))
     else Ok 0);
  _ ← guard_err (7 <? priority) InvalidMapper;
  let gemPortID := nth (Z.to_nat priority) (um_GEMPortIDs mapper) 0 in
  _ ← guard_err (4095 <? gemPortID) NoUpstreamGEM;
  Ok gemPortID.

(** [fmt.Sprintf("oma%04x", entity)]. *)
Definition hexDigit (digit : Z) : Ascii.ascii :=
  Ascii.ascii_of_N (Z.to_N (if digit <? 10 then 48 + digit else 87 + digit)).
Definition bridgeInterface (entity : Z) : string :=
  String.append "oma"
    (fold_right (λ digit text, String (hexDigit digit) text) EmptyString
       (map (λ shift, Z.land (Z.shiftr entity shift) 0xf) [12; 8; 4; 0])).

Definition sendL (send : W → bool * W) : L W unit := λ '(b, w),
  let '(ok, w) := send w in (if ok then Ok tt else Err SendFailed, (b, w)).

(** [SendReport]. *)
Definition SendReportLinux (report : UpstreamReport) : L W unit :=
  match BuildUpstreamFrame report with
  | Err _ => failL InvalidFrame
  | Ok None => mret tt
  | Ok (Some frame) =>
      let attachment := ur_Attachment report in
      if at_BridgeEntity attachment =? 0 then
        match at_DirectMapper attachment with
        | None => failL NoEndpoint
        | Some mapper =>
            gemPortID ← liftL (directMapperGEM mapper frame);
            b ← getL;
            sendL (MarkedSender (lb_pon b) frame (Z.lor gponGEMMarkKey gemPortID))
        end
      else sendL (Sender (bridgeInterface (at_BridgeEntity attachment)) frame)
  end.

(** [SendQuery]. *)
Definition SendQueryLinux (query : DownstreamQuery) : L W unit := λ '(b, w),
  match HardwareAddr w (at_Interface (dq_Attachment query)) with
  | None => failL NoInterface (b, w)
  | Some address =>
      if negb (length address =? 6)%nat then failL NoInterface (b, w)
      else match BuildDownstreamQueryFrame query address with
           | Err _ => failL InvalidFrame (b, w)
           | Ok frame => sendL (QuerySender (at_Interface (dq_Attachment query)) frame) (b, w)
           end
  end.

(** ** Bandwidth *)

Definition maxUint64 : Z := 0xffffffffffffffff.
Definition maxUint32 : Z := 0xffffffff.
(** [a + b], saturated as the code saturates it. *)
Definition saturatingAdd (total value : Z) : Z := if maxUint64 - total <? value then maxUint64 else total + value.

(** [float64] of an integer, and its operations. *)
Definition float64 (value : Z) : spec_float := binary_normalize 53 1024 value 0 false.
Definition floatDiv (a b : spec_float) : spec_float := SFdiv 53 1024 a b.
Definition floatAdd (a b : spec_float) : spec_float := SFadd 53 1024 a b.
(** The conversion of a nonnegative finite number to an integer drops its fraction. *)
Definition floatFloor (a : spec_float) : Z :=
  match a with
  | S754_finite false m e => Z.shiftl (Z.pos m) e
  | _ => 0
  end.

(** [time.Duration.Seconds]. *)
Definition durationSeconds (d : Z) : spec_float :=
  floatAdd (float64 (d / 1000000000)) (floatDiv (float64 (d mod 1000000000)) (float64 1000000000)).

(** The rate of [SampleBandwidth], in octets a second. *)
Definition bandwidthRate (bytes duration : Z) : Z :=
  let rate := floatDiv (float64 bytes) (durationSeconds duration) in
  if SFleb (float64 maxUint32) rate then maxUint32 else floatFloor rate.

(** ** The counters of tc *)

(** The digits of a literal in a base, or [None] when one is not a digit. *)
Definition digitValue (octet : Z) : Z :=
  if (48 <=? octet) && (octet <=? 57) then octet - 48
  else if (97 <=? octet) && (octet <=? 122) then octet - 87
  else if (65 <=? octet) && (octet <=? 90) then octet - 55 else 255.
Definition parseDigits (base : Z) (digits : list Z) : option Z :=
  if bool_decide (digits = []) then None
  else fold_left (λ value octet,
         value ← value; if digitValue octet <? base then Some (value * base + digitValue octet) else None)
       digits (Some 0).

Definition lowerOctet (octet : Z) : Z := if (65 <=? octet) && (octet <=? 90) then octet + 32 else octet.

(** [underscoreOK] after the base prefix: every underscore has a digit, or the prefix, before it
    and a digit after it. *)
Fixpoint underscoresOK (hex : bool) (afterDigit : bool) (digits : list Z) : bool :=
  match digits with
  | [] => true
  | octet :: digits =>
      let digit := ((48 <=? octet) && (octet <=? 57)) || (hex && (97 <=? lowerOctet octet) && (lowerOctet octet <=? 102)) in
      if digit then underscoresOK hex true digits
      else if octet =? 95 then
        afterDigit && match digits with
                      | next :: _ => ((48 <=? next) && (next <=? 57)) ||
                                     (hex && (97 <=? lowerOctet next) && (lowerOctet next <=? 102))
                      | [] => false
                      end && underscoresOK hex false digits
      else false
  end.

(** [strconv.ParseUint(text, 0, 32)]. *)
Definition parseUint32 (text : list Z) : option Z :=
  let '(base, prefixed, digits) :=
    match text with
    | 48 :: x :: (_ :: _) as rest =>
        if lowerOctet x =? 120 then (16, true, drop 2 rest)
        else if lowerOctet x =? 98 then (2, true, drop 2 rest)
        else if lowerOctet x =? 111 then (8, true, drop 2 rest)
        else (8, true, x :: drop 2 rest)
    | 48 :: x :: [] => (8, true, [x])
    | _ => (10, false, text)
    end in
  if existsb (λ octet, octet =? 95) digits && negb (underscoresOK (base =? 16) prefixed digits) then None
  else
    value ← parseDigits base (List.filter (λ octet, negb (octet =? 95)) digits);
    if maxUint32 <? value then None else Some value.

(** [tcPreference]; a JSON number is taken when it is the decimal text of a 32-bit integer, and
    null leaves the number 0. *)
Definition tcPreference (value : tcPreferenceValue) : Res LinuxError Z :=
  match value with
  | PrefNumber literal =>
      match parseDigits 10 literal with
      | Some numeric => if maxUint32 <? numeric then Err InvalidPreference else Ok numeric
      | None => Err InvalidPreference
      end
  | PrefText text => match parseUint32 text with Some parsed => Ok parsed | None => Err InvalidPreference end
  | PrefNull => Ok 0
  | PrefOther => Err InvalidPreference
  end.

(** The first counter among the actions of a filter. *)
Definition firstCounter (actions : list tcAction) : option Z :=
  foldr (λ (action : tcAction) rest, match action with Some bytes => Some bytes | None => rest end) None actions.

(** [tcFilterByteCounters]. *)
Definition tcFilterByteCounters (filters : list tcFilter) : Res LinuxError (gmap Z Z) :=
  foldM_res (λ (result : gmap Z Z) filter,
      preference ← tcPreference (tf_Preference filter);
      Ok (match firstCounter (tf_Actions filter) with
          | None => result
          | Some bytes => <[preference := saturatingAdd (default 0 (result !! preference)) bytes]> result
          end)) filters ∅.

(** [counterChain]: an interface and a chain. *)
Abbreviation counterChain := (string * Z)%type.
Definition chain_le (a b : counterChain) : Prop :=
  (a.1 ≠ b.1 ∧ string_le a.1 b.1) ∨ (a.1 = b.1 ∧ a.2 ≤ b.2).
#[export] Instance chain_le_dec a b : Decision (chain_le a b).
Proof. unfold chain_le. apply _. Defined.

Definition readChain (output : list Arg → W → option (list tcFilter) * W)
    (counters : gmap counterChain (gmap Z Z)) (key : counterChain) : L W (gmap counterChain (gmap Z Z)) := λ '(b, w),
  let '(answer, w) := output [Word "-j"; Word "-s"; Word "filter"; Word "show"; Word "dev"; Word key.1;
                              Word "egress"; Word "chain"; Num key.2] w in
  match answer with
  | None => (Err CommandFailed, (b, w))
  | Some filters => (parsed ← tcFilterByteCounters filters; Ok (<[key := parsed]> counters), (b, w))
  end.

(** The counters of one stream, summed over its filters. *)
Definition totalBytes (counters : gmap counterChain (gmap Z Z)) (references : list tcFilterRef) : Res LinuxError Z :=
  foldM_res (λ total reference,
      match (counters !! (fr_interfaceName reference, fr_chain reference)) ≫= (.!! fr_preference reference) with
      | None => Err MissingPreference
      | Some value => Ok (saturatingAdd total value)
      end) references 0.

(** The body of the last loop of [SampleBandwidth]. *)
Definition sampleStream (counters : gmap counterChain (gmap Z Z)) (now : Z) (result : gmap BandwidthKey Z)
    (entry : dynamicRuleKey * list tcFilterRef) : L W (gmap BandwidthKey Z) :=
  let '(key, references) := entry in
  total ← liftL (totalBytes counters references);
  b ← getL;
  let rebase := putL (set_baselines b (<[key := mkBaseline total now]> (lb_baselines b))) in
  match lb_baselines b !! key with
  | None => _ ← rebase; mret result
  | Some previous =>
      if total <? bb_bytes previous then _ ← rebase; mret result
      else if now <=? bb_at previous then mret result
      else _ ← rebase; mret (<[key := bandwidthRate (total - bb_bytes previous) (now - bb_at previous)]> result)
  end.

(** [SampleBandwidth]; [dynamicRuleKey] and [BandwidthKey] have the same fields. *)
Definition SampleBandwidthLinux (now : Z) : L W (gmap BandwidthKey Z) :=
  b ← getL;
  match Output with
  | None => mret ∅
  | Some output =>
      if bool_decide (lb_filters b = ∅) then mret ∅
      else
        let chains : gmap counterChain unit :=
          fold_left (λ chains reference, <[(fr_interfaceName reference, fr_chain reference) := tt]> chains)
            (flat_map snd (range (lb_filters b))) ∅ in
        counters ← foldL (readChain output) (sortedKeys chain_le chains) ∅;
        foldL (sampleStream counters now) (range (lb_filters b)) ∅
  end.
End backend.

(** The backend as the [RuntimeBackend] of McRuntime.v, on a world that holds it. *)
Definition linuxRuntime {MR : MapRange} {GS : GoSort} {W} {H : LinuxHost W} (clock : W → Z)
    : RuntimeBackend (LinuxBackend * W) :=
  let call (c : L W unit) s := let '(r, s) := c s in (match r with Ok _ => true | Err _ => false end, s) in
  {| Configure config := call (ConfigureLinux config);
     SetReplication change := call (SetReplicationLinux change);
     SendReport report := call (SendReportLinux report);
     SendQuery query := call (SendQueryLinux query);
     BandwidthSampler := Some (λ s, let '(r, s') := SampleBandwidthLinux (clock s.2) s in
                                    (match r with Ok samples => Some samples | Err _ => None end, s')) |}.
