(* ===== verification/McPrefixes.v ===== *)
(** * Multicast: ranges of addresses as prefixes

    The two loops of linux_backend.go that cut a range of addresses into prefixes compute the same
    tiling: consecutive aligned blocks from the first address of the range to the last, each as
    large as its alignment and the rest of the range allow. *)

From S2P Require Import Prelude Maps Netip McPolicy McReport McRuntime McLinux.

(** ** Trailing zeros *)

Lemma trailingZeros_range w v : 0 ≤ trailingZeros w v ≤ Z.of_nat w.
Proof. revert v. induction w as [|w IH]; intros v; cbn [trailingZeros]; [lia|]. specialize (IH (v / 2)). case_match; lia. Qed.

Lemma trailingZeros_divides w v : (2 ^ trailingZeros w v | v).
Proof.
  revert v. induction w as [|w IH]; intros v; cbn [trailingZeros]; [apply Z.divide_1_l|].
  destruct (Z.even v) eqn:He; [|apply Z.divide_1_l]. apply Z.even_spec in He as [h ->].
  pose proof (trailingZeros_range w (2 * h / 2)). rewrite Z.pow_add_r, Z.pow_1_r by lia.
  apply Z.mul_divide_mono_l. rewrite (Z.mul_comm 2 h), Z.div_mul by lia. apply IH.
Qed.

(** The trailing zeros are all there are. *)
Lemma trailingZeros_maximal w v i : 0 ≤ i ≤ Z.of_nat w → (2 ^ i | v) → i ≤ trailingZeros w v.
Proof.
  revert v i. induction w as [|w IH]; intros v i Hi Hd; cbn [trailingZeros]; [lia|].
  destruct (decide (i = 0)) as [->|Hne]; [pose proof (trailingZeros_range w (v / 2)); case_match; lia|].
  destruct Hd as [q ->]. replace (2 ^ i) with (2 * 2 ^ (i - 1)).
  2: { rewrite <- Z.pow_succ_r by lia. f_equal. lia. }
  replace (q * (2 * 2 ^ (i - 1))) with (2 * (q * 2 ^ (i - 1))) by lia.
  rewrite Z.even_mul. cbn [Z.even orb]. rewrite (Z.mul_comm 2 (q * _)), Z.div_mul by lia.
  assert (i - 1 ≤ trailingZeros w (q * 2 ^ (i - 1))); [|lia].
  apply IH; [lia|]. apply Z.divide_factor_r.
Qed.

Lemma trailingZeros_zero w : trailingZeros w 0 = Z.of_nat w.
Proof.
  apply Z.le_antisymm; [apply trailingZeros_range|]. apply trailingZeros_maximal; [lia|]. apply Z.divide_0_r.
Qed.

(** ** The tiling of a range *)

(** Consecutive aligned blocks from [cur] to [last]; a block is its first address and the number
    of bits of its size. *)
Inductive tiles : Z → Z → list (Z * Z) → Prop :=
| tiles_nil cur last : cur = last + 1 → tiles cur last []
| tiles_cons cur last k l :
    0 ≤ k → (2 ^ k | cur) → cur + 2 ^ k - 1 ≤ last → tiles (cur + 2 ^ k) last l → tiles cur last ((cur, k) :: l).

(** What both loops compute. *)
Fixpoint blocks (w fuel : nat) (cur last : Z) : list (Z * Z) :=
  match fuel with
  | O => []
  | S fuel =>
      if last <? cur then []
      else
        let k := Z.min (trailingZeros w cur) (Z.log2 (last - cur + 1)) in
        (cur, k) :: (if cur + 2 ^ k =? 2 ^ Z.of_nat w then [] else blocks w fuel (cur + 2 ^ k) last)
  end.

Section tiling.
Variable w : nat.
Hypothesis Hw0 : (0 < w)%nat.

Lemma block_fits cur last :
  0 ≤ cur ≤ last →
  let k := Z.min (trailingZeros w cur) (Z.log2 (last - cur + 1)) in
  0 ≤ k ∧ (2 ^ k | cur) ∧ cur + 2 ^ k - 1 ≤ last.
Proof.
  intros Hc k. pose proof (trailingZeros_range w cur) as Ht. pose proof (Z.log2_nonneg (last - cur + 1)) as Hl.
  split_and!; [lia| |].
  - apply (Z.divide_trans _ (2 ^ trailingZeros w cur)); [|apply trailingZeros_divides].
    exists (2 ^ (trailingZeros w cur - k)). rewrite <- Z.pow_add_r by lia. f_equal. lia.
  - assert (2 ^ k ≤ last - cur + 1); [|lia].
    transitivity (2 ^ Z.log2 (last - cur + 1)); [apply Z.pow_le_mono_r; lia|]. by apply Z.log2_spec; lia.
Qed.

(** One step of the loop. *)
Lemma blocks_step fuel cur last :
  0 ≤ cur ≤ last → last < 2 ^ Z.of_nat w →
  let k := Z.min (trailingZeros w cur) (Z.log2 (last - cur + 1)) in
  (cur + 2 ^ k ≤ last → tiles (cur + 2 ^ k) last (blocks w fuel (cur + 2 ^ k) last)) →
  tiles cur last (blocks w (S fuel) cur last).
Proof.
  intros Hc Hl k Hrest. destruct (block_fits cur last Hc) as (Hk & Hd & Hf). fold k in Hk, Hd, Hf.
  cbn [blocks]. rewrite (proj2 (Z.ltb_ge _ _)) by lia. fold k. apply tiles_cons; [done..|].
  destruct (decide (cur + 2 ^ k ≤ last)) as [Hle|Hle].
  - rewrite (proj2 (Z.eqb_neq _ _)) by lia. by apply Hrest.
  - case_match; [apply tiles_nil; lia|].
    assert (blocks w fuel (cur + 2 ^ k) last = []) as ->; [|apply tiles_nil; lia].
    destruct fuel; [done|]. cbn [blocks]. by rewrite (proj2 (Z.ltb_lt _ _)) by lia.
Qed.

(** Once the rest is smaller than the alignment, every block is smaller than the one before. *)
Lemma blocks_descend (j : nat) fuel cur last :
  (2 ^ Z.of_nat j | cur) → last - cur + 1 < 2 ^ Z.of_nat j → (j ≤ fuel)%nat → (j ≤ w)%nat →
  0 ≤ cur ≤ last → last < 2 ^ Z.of_nat w → tiles cur last (blocks w fuel cur last).
Proof.
  revert fuel cur. induction j as [j IH] using lt_wf_ind. intros fuel cur Hd Hr Hj Hw Hc Hl.
  destruct j as [|j]; [cbn in Hr; lia|]. destruct fuel as [|fuel]; [lia|].
  apply blocks_step; [done|done|]. cbv zeta. intros Hnext.
  set (k := Z.min (trailingZeros w cur) (Z.log2 (last - cur + 1))) in *.
  assert (Z.log2 (last - cur + 1) < Z.of_nat (S j)) as Hlog by (apply Z.log2_lt_pow2; lia).
  assert (Z.of_nat (S j) ≤ trailingZeros w cur) as Htz by (apply trailingZeros_maximal; [lia|done]).
  assert (k = Z.log2 (last - cur + 1)) as Hk by lia. pose proof (Z.log2_nonneg (last - cur + 1)).
  assert (2 ^ k ≤ last - cur + 1 < 2 ^ (k + 1)) as Hlg by (rewrite Hk; apply Z.log2_spec; lia).
  rewrite Z.pow_add_r, Z.pow_1_r in Hlg by lia.
  apply (IH (Z.to_nat k)); rewrite ?Z2Nat.id by lia; [lia| |lia|lia|lia|lia|done].
  apply Z.divide_add_r; [|apply Z.divide_refl]. destruct (block_fits cur last) as (_ & Hx & _); [lia|exact Hx].
Qed.

(** Before that, the alignment grows with every block. *)
Lemma blocks_ascend (i : nat) fuel cur last :
  (2 ^ Z.of_nat i | cur) → (i ≤ w)%nat → ((w - i) + w ≤ fuel)%nat → 0 ≤ cur ≤ last → last < 2 ^ Z.of_nat w →
  tiles cur last (blocks w fuel cur last).
Proof.
  remember (w - i)%nat as d eqn:Hd. revert i Hd fuel cur. induction d as [d IH] using lt_wf_ind.
  intros i Hdi fuel cur Hi Hw Hf Hc Hl. set (t := trailingZeros w cur).
  assert (cur = 0 ∨ t < Z.of_nat w) as Ht.
  { destruct (decide (cur = 0)) as [|Hne]; [by left|right]. pose proof (trailingZeros_range w cur) as Hr.
    destruct (decide (trailingZeros w cur = Z.of_nat w)) as [He|]; [|unfold t; lia].
    pose proof (trailingZeros_divides w cur) as Hx. rewrite He in Hx. apply Z.divide_pos_le in Hx; lia. }
  destruct fuel as [|fuel]; [lia|]. apply blocks_step; [done|done|]. cbv zeta. intros Hnext.
  set (k := Z.min (trailingZeros w cur) (Z.log2 (last - cur + 1))) in *. fold t in k.
  destruct (block_fits cur last Hc) as (Hk & Hkd & Hkf). fold t k in Hk, Hkd, Hkf.
  pose proof (trailingZeros_range w cur) as Htr. fold t in Htr.
  assert (k < Z.of_nat w) as Hkw by (apply (Z.pow_lt_mono_r_iff 2); lia).
  destruct (decide (Z.log2 (last - cur + 1) ≤ t)) as [Hlog|Hlog].
  - assert (k = Z.log2 (last - cur + 1)) as Hke by lia. pose proof (Z.log2_nonneg (last - cur + 1)).
    assert (2 ^ k ≤ last - cur + 1 < 2 ^ (k + 1)) as Hlg by (rewrite Hke; apply Z.log2_spec; lia).
    rewrite Z.pow_add_r, Z.pow_1_r in Hlg by lia.
    apply (blocks_descend (Z.to_nat k)); rewrite ?Z2Nat.id by lia; [|lia|lia|lia|lia|done].
    apply Z.divide_add_r; [exact Hkd|apply Z.divide_refl].
  - assert (k = t) as Hke by lia.
    destruct Ht as [->|Ht].
    { unfold t in Hlog. rewrite trailingZeros_zero in Hlog.
      assert (Z.log2 (last - 0 + 1) ≤ Z.of_nat w); [|lia]. rewrite <- (Z.log2_pow2 (Z.of_nat w)) by lia.
      apply Z.log2_le_mono. lia. }
    assert (Z.of_nat i ≤ t) as Hit by (apply trailingZeros_maximal; [lia|done]).
    assert ((2 ^ Z.of_nat (S (Z.to_nat t)) | cur + 2 ^ k)) as Hnd.
    { rewrite Nat2Z.inj_succ, Z2Nat.id by lia. rewrite Hke. pose proof (trailingZeros_divides w cur) as [q Hq]. fold t in Hq.
      destruct (Z.Even_or_Odd q) as [[h ->]|[h ->]].
      - assert (t + 1 ≤ t); [|lia]. apply trailingZeros_maximal; [lia|]. exists h.
        rewrite Hq at 1. rewrite Z.pow_add_r, Z.pow_1_r by lia. lia.
      - exists (h + 1). rewrite Hq at 1. rewrite Z.pow_succ_r by lia. lia. }
    eapply (IH (w - S (Z.to_nat t))%nat); [lia|reflexivity|exact Hnd|lia|lia|lia|done].
Qed.

(** Twice the width is fuel enough. *)
Lemma blocks_tiles cur last :
  0 ≤ cur ≤ last → last < 2 ^ Z.of_nat w → tiles cur last (blocks w (w + w) cur last).
Proof. intros Hc Hl. apply (blocks_ascend 0); [apply Z.divide_1_l|lia|lia|done|done]. Qed.
End tiling.

(** ** What a tiling covers *)

Lemma tiles_cover cur last l a :
  tiles cur last l → cur ≤ last + 1 → cur ≤ a ≤ last ↔ ∃ b k, (b, k) ∈ l ∧ b ≤ a < b + 2 ^ k.
Proof.
  induction 1 as [cur last He|cur last k l Hk Hd Hf Ht IH]; intros Hle.
  - split; [lia|]. by intros (b & k & ?%elem_of_nil & _).
  - specialize (IH ltac:(lia)). setoid_rewrite elem_of_cons. split.
    + intros Ha. destruct (decide (a < cur + 2 ^ k)) as [|Hx]; [exists cur, k; split; [by left|lia]|].
      destruct (proj1 IH ltac:(lia)) as (b & k' & Hin & Hb). exists b, k'. split; [by right|done].
    + intros (b & k' & [[= -> ->]|Hin] & Hb); [lia|]. assert (cur + 2 ^ k ≤ a ≤ last); [|lia].
      apply IH. by exists b, k'.
Qed.

Lemma tiles_block cur last l b k :
  tiles cur last l → (b, k) ∈ l → cur ≤ b ∧ b + 2 ^ k - 1 ≤ last ∧ 0 ≤ k ∧ (2 ^ k | b).
Proof.
  induction 1 as [|cur last k' l Hk Hd Hf Ht IH]; [by intros ?%elem_of_nil|].
  intros [[= -> ->]|Hin]%elem_of_cons; [split_and!; (done || lia)|]. destruct (IH Hin) as (? & ? & ? & ?).
  assert (0 < 2 ^ k') by (apply Z.pow_pos_nonneg; lia). split_and!; (done || lia).
Qed.

(** No address is in two blocks. *)
Lemma tiles_disjoint cur last l i j b k b' k' a :
  tiles cur last l → l !! i = Some (b, k) → l !! j = Some (b', k') →
  b ≤ a < b + 2 ^ k → b' ≤ a < b' + 2 ^ k' → i = j.
Proof.
  intros Ht. revert i j. induction Ht as [|cur last k0 l Hk Hd Hf Ht IH]; intros i j Hi Hj Ha Ha'; [done|].
  destruct i as [|i], j as [|j]; cbn in Hi, Hj; [done| | |f_equal; by apply IH].
  - injection Hi as <- <-. apply list_elem_of_lookup_2 in Hj.
    destruct (tiles_block _ _ _ _ _ Ht Hj) as (? & _). lia.
  - injection Hj as <- <-. apply list_elem_of_lookup_2 in Hi.
    destruct (tiles_block _ _ _ _ _ Ht Hi) as (? & _). lia.
Qed.

(** ** IPv4 *)

Lemma bitLength_log2 v : 0 < v → bitLength v - 1 = Z.log2 v.
Proof. intros Hv. unfold bitLength. rewrite (proj2 (Z.eqb_neq _ _)) by lia. lia. Qed.

Lemma ipv4Prefixes_blocks fuel cur last :
  is_u 32 cur → is_u 32 last →
  ipv4Prefixes fuel cur last = map (λ '(b, k), (V4 b, 32 - k)) (blocks 32 fuel cur last).
Proof.
  intros Hc Hl. revert cur Hc. induction fuel as [|fuel IH]; intros cur Hc; [done|].
  cbn [ipv4Prefixes blocks]. destruct (last <? cur) eqn:Hlt; [done|]. apply Z.ltb_ge in Hlt.
  unfold is_u in *. change (2 ^ 32) with 4294967296 in *.
  assert (u64 (last - cur + 1) = last - cur + 1) as -> by (apply Z.mod_small; change (2 ^ 64) with 18446744073709551616; lia).
  rewrite bitLength_log2 by lia. destruct (block_fits 32 ltac:(lia) cur last) as (Hk & Hd & Hf); [lia|].
  set (k := Z.min _ _) in *. cbn [map]. f_equal. change (2 ^ Z.of_nat 32) with 4294967296.
  rewrite Z.shiftl_1_l. assert (k ≤ 32) as Hk32 by (pose proof (trailingZeros_range 32 cur); lia).
  destruct (decide (k = 32)) as [He|He].
  - assert (cur = 0) as ->.
    { destruct (decide (cur = 0)) as [|Hne]; [done|]. apply Z.divide_pos_le in Hd; [|lia].
      rewrite He in Hd. change (2 ^ 32) with 4294967296 in Hd. lia. }
    by rewrite He.
  - assert (2 ^ k ≤ 2 ^ 31) as Hp by (apply Z.pow_le_mono_r; lia). change (2 ^ 31) with 2147483648 in Hp.
    assert (0 < 2 ^ k) by (apply Z.pow_pos_nonneg; lia).
    assert (u32 (2 ^ k) = 2 ^ k) as -> by (apply Z.mod_small; change (2 ^ 32) with 4294967296; lia).
    unfold wrap. change (2 ^ 32) with 4294967296.
    destruct (Z.eqb_spec (cur + 2 ^ k) 4294967296) as [->|Hne]; [done|].
    rewrite Z.mod_small by lia. rewrite (proj2 (Z.eqb_neq _ _)) by lia. apply IH. lia.
Qed.

(** ** IPv6, on octets *)

Lemma trailingZeros_char w v t :
  0 ≤ t ≤ Z.of_nat w → (2 ^ t | v) → (t < Z.of_nat w → ¬ (2 ^ (t + 1) | v)) → trailingZeros w v = t.
Proof.
  intros Ht Hd Hn. apply Z.le_antisymm; [|by apply trailingZeros_maximal].
  destruct (Z.le_gt_cases (trailingZeros w v) t) as [|Hlt]; [done|]. pose proof (trailingZeros_range w v).
  destruct Hn; [lia|]. apply (Z.divide_trans _ (2 ^ trailingZeros w v)); [|apply trailingZeros_divides].
  exists (2 ^ (trailingZeros w v - (t + 1))). rewrite <- Z.pow_add_r by lia. f_equal. lia.
Qed.

Lemma be_snoc l x : be (l ++ [x]) = be l * 256 + x.
Proof.
  rewrite be_app, be_cons, be_nil. cbn [length]. change (256 ^ Z.of_nat 1) with 256.
  change (256 ^ Z.of_nat 0) with 1. lia.
Qed.

Lemma trailingZeros_octets l :
  bytes_ok l → trailingZerosOctets (rev l) = trailingZeros (8 * length l) (be l).
Proof.
  induction l as [|x l IH] using rev_ind; intros Hok; [done|].
  apply bytes_ok_app in Hok as [Hl Hx]. apply (proj1 (Forall_singleton _ _)) in Hx. unfold is_u in Hx.
  change (2 ^ 8) with 256 in Hx. rewrite rev_app_distr, be_snoc. cbn [rev app trailingZerosOctets].
  rewrite (IH Hl), length_app. cbn [length]. pose proof (trailingZeros_range (8 * length l) (be l)) as Hr.
  destruct (Z.eqb_spec x 0) as [->|Hne].
  - symmetry. apply trailingZeros_char; [lia| |].
    + rewrite Z.add_comm, Z.pow_add_r by lia. replace (be l * 256 + 0) with (be l * 2 ^ 8) by (change (2 ^ 8) with 256; lia).
      apply Z.mul_divide_mono_r, trailingZeros_divides.
    + intros Hlt [q Hq]. replace (8 + trailingZeros (8 * length l) (be l) + 1)
        with (trailingZeros (8 * length l) (be l) + 1 + 8) in Hq by lia.
      rewrite Z.pow_add_r in Hq by lia. change (2 ^ 8) with 256 in Hq.
      assert (trailingZeros (8 * length l) (be l) + 1 ≤ trailingZeros (8 * length l) (be l)); [|lia].
      apply trailingZeros_maximal; [lia|]. exists q. lia.
  - pose proof (trailingZeros_range 8 x) as H8.
    assert (trailingZeros 8 x < 8) as Hlt.
    { destruct (decide (trailingZeros 8 x = 8)) as [He|]; [|lia].
      pose proof (trailingZeros_divides 8 x) as Hd. rewrite He in Hd. apply Z.divide_pos_le in Hd; [|lia].
      change (2 ^ 8) with 256 in *. lia. }
    assert (∀ i, 0 ≤ i ≤ 8 → (2 ^ i | be l * 256)) as Hdl.
    { intros i Hi. exists (be l * 2 ^ (8 - i)). rewrite <- Z.mul_assoc, <- Z.pow_add_r by lia.
      replace (8 - i + i) with 8 by lia. done. }
    symmetry. apply trailingZeros_char; [lia| |].
    + apply Z.divide_add_r; [apply Hdl; lia|apply trailingZeros_divides].
    + intros _ Hd. apply Z.divide_add_cancel_r in Hd; [|apply Hdl; lia].
      apply trailingZeros_maximal with (w := 8%nat) in Hd; lia.
Qed.

Lemma compare16_be a b :
  bytes_ok a → bytes_ok b → length a = length b → (0 <? compare16 a b) = (be b <? be a).
Proof.
  intros Ha. revert b. induction Ha as [|x a Hx Ha IH]; intros [|y b] Hb Hlen; try done.
  apply Forall_cons in Hb as [Hy Hb]. cbn [length] in Hlen. injection Hlen as Hlen. cbn [compare16].
  rewrite !be_cons, Hlen. unfold is_u in *.
  pose proof (be_bound a Ha) as Hba. pose proof (be_bound b Hb) as Hbb. rewrite Hlen in Hba.
  set (p := 256 ^ Z.of_nat (length b)) in *. change (2 ^ 8) with 256 in *.
  destruct (Z.ltb_spec x y) as [|]; [rewrite (proj2 (Z.ltb_ge _ _)) by nia; symmetry; apply Z.ltb_ge; nia|].
  destruct (Z.ltb_spec y x) as [|]; [rewrite (proj2 (Z.ltb_lt _ _)) by lia; symmetry; apply Z.ltb_lt; nia|].
  assert (x = y) as -> by lia. rewrite (IH b Hb Hlen).
  destruct (Z.ltb_spec (be b) (be a)); symmetry; [apply Z.ltb_lt|apply Z.ltb_ge]; lia.
Qed.

Lemma incrementOctets_be l :
  bytes_ok l →
  let '(r, overflow) := incrementOctets (rev l) in
  bytes_ok (rev r) ∧ length r = length l ∧
  (if overflow : bool then be l + 1 = 256 ^ Z.of_nat (length l) else be (rev r) = be l + 1).
Proof.
  induction l as [|x l IH] using rev_ind; intros Hok; [done|].
  apply bytes_ok_app in Hok as [Hl Hx]. specialize (IH Hl). pose proof (proj1 (Forall_singleton _ _) Hx) as Hu.
  rewrite rev_app_distr. cbn [rev app incrementOctets]. unfold is_u in Hu. change (2 ^ 8) with 256 in Hu.
  unfold wrap. change (2 ^ 8) with 256.
  destruct (Z.eqb_spec ((x + 1) mod 256) 0) as [H0|H0].
  - assert (x = 255) as -> by lia. destruct (incrementOctets (rev l)) as [r overflow].
    destruct IH as (Hr & Hlen & Hv). cbn [rev]. rewrite H0, length_app. split_and!.
    + apply bytes_ok_app. split; [done|]. by apply Forall_singleton.
    + cbn [length]. lia.
    + rewrite be_snoc. cbn [length]. rewrite Nat2Z.inj_add, Z.pow_add_r by lia. change (256 ^ Z.of_nat 1) with 256.
      destruct overflow; [lia|]. rewrite be_snoc. lia.
  - assert ((x + 1) mod 256 = x + 1) as He by (apply Z.mod_small; lia). rewrite He. cbn [rev].
    rewrite rev_involutive, length_app. split_and!.
    + apply bytes_ok_app. split; [done|]. apply Forall_singleton. unfold is_u. change (2 ^ 8) with 256. lia.
    + cbn [length]. rewrite length_rev. lia.
    + rewrite !be_snoc. lia.
Qed.

(** Setting a bit below the alignment adds it. *)
Lemma lor_aligned v p : 0 ≤ p → (2 ^ (p + 1) | v) → Z.lor v (2 ^ p) = v + 2 ^ p.
Proof.
  intros Hp [q ->]. assert (Z.land (q * 2 ^ (p + 1)) (2 ^ p) = 0) as H0.
  { apply Z.bits_inj'. intros n Hn. rewrite Z.land_spec, Z.bits_0, Z.pow2_bits_eqb by lia.
    destruct (Z.eqb_spec p n) as [->|]; [|by rewrite andb_false_r]. by rewrite Z.mul_pow2_bits_low by lia. }
  by rewrite (Z.add_nocarry_lxor _ _ H0), (Z.lxor_lor _ _ H0).
Qed.

Lemma setBit_be l i j :
  bytes_ok l → (i < length l)%nat → 0 ≤ j < 8 →
  (2 ^ (8 * Z.of_nat (length l - 1 - i) + j + 1) | be l) →
  let l' := alter (λ octet, Z.lor octet (Z.shiftl 1 j)) i l in
  bytes_ok l' ∧ length l' = length l ∧ be l' = be l + 2 ^ (8 * Z.of_nat (length l - 1 - i) + j).
Proof.
  intros Hok Hi Hj Hd l'. destruct (lookup_lt_is_Some_2 l i Hi) as [x Hx].
  assert (is_u 8 x) as Hu by (eapply Forall_lookup_1; [exact Hok|exact Hx]).
  set (n := (length l - 1 - i)%nat) in *.
  assert ((2 ^ (j + 1) | x)) as Hdx.
  { pose proof (nth8_be l i Hok Hi) as Hn. unfold nth8 in Hn. rewrite (nth_lookup_Some l i 0 x Hx) in Hn. rewrite Hn.
    fold n. destruct Hd as [q ->]. replace (8 * Z.of_nat n + j + 1) with (j + 1 + 8 * Z.of_nat n) by lia.
    rewrite (Z.pow_add_r 2 (j + 1)), (Z.pow_mul_r 2 8) by lia. change (2 ^ 8) with 256.
    rewrite Z.mul_assoc, Z.div_mul by (apply Z.pow_nonzero; lia).
    apply Z.divide_add_cancel_r with (m := 256 * (q * 2 ^ (j + 1) / 256)).
    - apply Z.divide_mul_l. exists (2 ^ (8 - (j + 1))). rewrite <- Z.pow_add_r by lia.
      by replace (8 - (j + 1) + (j + 1)) with 8 by lia.
    - rewrite <- Z.div_mod by lia. apply Z.divide_factor_r. }
  assert (Z.lor x (Z.shiftl 1 j) = x + 2 ^ j) as Hor by (rewrite Z.shiftl_1_l; apply lor_aligned; [lia|done]).
  assert (length (take i l) = i) as Hti by (rewrite length_take; lia).
  assert (l' = take i l ++ Z.lor x (Z.shiftl 1 j) :: drop (S i) l) as ->.
  { unfold l'. rewrite <- (take_drop_middle l i x Hx) at 1. rewrite alter_app_r_alt by lia. by rewrite Hti, Nat.sub_diag. }
  assert (be l = be (take i l) * 256 ^ Z.of_nat (S n) + x * 256 ^ Z.of_nat n + be (drop (S i) l)) as Hbl.
  { rewrite <- (take_drop_middle l i x Hx) at 1. rewrite be_app, be_cons. cbn [length]. rewrite length_drop.
    replace (length l - S i)%nat with n by (unfold n; lia). lia. }
  split_and!.
  - apply Forall_app. split; [by apply Forall_take|]. apply Forall_cons. split; [|by apply Forall_drop].
    apply is_u_lor; [lia|done|]. rewrite Z.shiftl_1_l. split; [apply Z.pow_nonneg; lia|apply Z.pow_lt_mono_r; lia].
  - rewrite length_app. cbn [length]. rewrite length_drop, Hti. lia.
  - rewrite Hbl, !be_app, !be_cons, Hor. cbn [length]. rewrite length_drop.
    replace (length l - S i)%nat with n by (unfold n; lia).
    rewrite (Z.pow_add_r 2 (8 * Z.of_nat n)), (Z.pow_mul_r 2 8) by lia. change (2 ^ 8) with 256. lia.
Qed.

(** [prefixLast16] of an aligned address is the last address of its block. *)
Lemma prefixLast16_be l (k : nat) :
  bytes_ok l → length l = 16%nat → (k ≤ 128)%nat → (2 ^ Z.of_nat k | be l) →
  let l' := prefixLast16 l (128 - Z.of_nat k) in
  bytes_ok l' ∧ length l' = 16%nat ∧ be l' = be l + 2 ^ Z.of_nat k - 1.
Proof.
  revert l. induction k as [|k IH]; intros l Hok Hlen Hk Hd; unfold prefixLast16.
  { change (2 ^ Z.of_nat 0) with 1. replace (128 - Z.to_nat (128 - Z.of_nat 0))%nat with 0%nat by lia.
    cbn [seq map fold_left]. split_and!; [done|done|lia]. }
  replace (Z.to_nat (128 - Z.of_nat (S k))) with (127 - k)%nat by lia.
  replace (128 - (127 - k))%nat with (S k) by lia. cbn [seq map fold_left].
  set (i := (127 - k)%nat). assert (Z.of_nat i = 127 - Z.of_nat k) as Hi by (unfold i; lia).
  set (l1 := alter _ _ l).
  pose proof (Z.div_mod (Z.of_nat i) 8 ltac:(lia)) as Hdm. pose proof (Z.mod_pos_bound (Z.of_nat i) 8 ltac:(lia)) as Hm.
  assert (0 ≤ Z.of_nat i / 8 < 16) as Hq by (split; [apply Z.div_pos; lia|apply Z.div_lt_upper_bound; lia]).
  assert (8 * Z.of_nat (length l - 1 - Z.to_nat (Z.of_nat i / 8)) + (7 - Z.of_nat i mod 8) = Z.of_nat k) as Hp by lia.
  destruct (setBit_be l (Z.to_nat (Z.of_nat i / 8)) (7 - Z.of_nat i mod 8)) as (Hok1 & Hlen1 & Hbe1);
    [done|lia|lia|by rewrite Hp, <- Z.add_1_r, <- Nat2Z.inj_succ || (rewrite Hp; replace (Z.of_nat k + 1) with (Z.of_nat (S k)) by lia; done)|].
  fold l1 in Hok1, Hlen1, Hbe1. rewrite Hp in Hbe1.
  assert ((2 ^ Z.of_nat k | be l1)) as Hd1.
  { rewrite Hbe1. apply Z.divide_add_r; [|apply Z.divide_refl]. apply (Z.divide_trans _ (2 ^ Z.of_nat (S k))); [|done].
    exists 2. rewrite Nat2Z.inj_succ, Z.pow_succ_r by lia. done. }
  destruct (IH l1 Hok1 ltac:(lia) ltac:(lia) Hd1) as (Hok2 & Hlen2 & Hbe2). unfold prefixLast16 in Hok2, Hlen2, Hbe2.
  replace (Z.to_nat (128 - Z.of_nat k)) with (S i) in Hok2, Hlen2, Hbe2 by lia.
  replace (128 - S i)%nat with k in Hok2, Hlen2, Hbe2 by lia.
  split_and!; [done|done|]. rewrite Hbe2, Hbe1, Nat2Z.inj_succ, Z.pow_succ_r by lia. lia.
Qed.

Lemma shrinkBlock_spec fuel cur last t :
  bytes_ok cur → bytes_ok last → length cur = 16%nat → length last = 16%nat →
  0 ≤ t ≤ 128 → t ≤ Z.of_nat fuel → (2 ^ t | be cur) → be cur ≤ be last →
  shrinkBlock fuel cur last t = Z.min t (Z.log2 (be last - be cur + 1)).
Proof.
  intros Hoc Hol Hlc Hll. revert t. induction fuel as [|fuel IH]; intros t Ht Hf Hd Hle; cbn [shrinkBlock].
  { pose proof (Z.log2_nonneg (be last - be cur + 1)). lia. }
  pose proof (Z.log2_nonneg (be last - be cur + 1)) as Hlog.
  destruct (Z.ltb_spec 0 t) as [Hpos|]; cbn [andb]; [|lia].
  destruct (prefixLast16_be cur (Z.to_nat t)) as (Hop & Hlp & Hbp); [done|done|lia|by rewrite Z2Nat.id by lia|].
  rewrite Z2Nat.id in Hop, Hlp, Hbp by lia. rewrite compare16_be by (done || congruence). rewrite Hbp.
  destruct (Z.ltb_spec (be last) (be cur + 2 ^ t - 1)) as [Hlt|Hge].
  - assert (Z.log2 (be last - be cur + 1) < t) by (apply Z.log2_lt_pow2; lia).
    rewrite IH by first [lia|apply (Z.divide_trans _ (2 ^ t)); [|done]; exists 2; rewrite <- Z.pow_succ_r by lia; f_equal; lia]. lia.
  - assert (t ≤ Z.log2 (be last - be cur + 1)) by (apply Z.log2_le_pow2; lia). lia.
Qed.

Lemma ipv6Prefixes_blocks fuel cur last :
  bytes_ok cur → bytes_ok last → length cur = 16%nat → length last = 16%nat →
  ipv6Prefixes fuel cur last = map (λ '(b, k), (V6 b "", 128 - k)) (blocks 128 fuel (be cur) (be last)).
Proof.
  intros Hoc Hol Hlc Hll. revert cur Hoc Hlc. induction fuel as [|fuel IH]; intros cur Hoc Hlc; [done|].
  cbn [ipv6Prefixes blocks]. rewrite compare16_be by (done || congruence).
  destruct (Z.ltb_spec (be last) (be cur)) as [Hlt|Hle]; [done|].
  assert (trailingZeros16 cur = trailingZeros 128 (be cur)) as Htz.
  { unfold trailingZeros16. rewrite trailingZeros_octets by done. by rewrite Hlc. }
  pose proof (trailingZeros_range 128 (be cur)) as Hr. change (Z.of_nat 128) with 128 in Hr.
  rewrite Htz, shrinkBlock_spec by first [done|lia|apply trailingZeros_divides].
  pose proof (be_bound cur Hoc) as Hbc. destruct (block_fits 128 ltac:(lia) (be cur) (be last)) as (Hk & Hd & Hf); [lia|].
  set (k := Z.min _ _) in *. assert (k ≤ 128) as Hk128 by lia.
  destruct (prefixLast16_be cur (Z.to_nat k)) as (Hop & Hlp & Hbp); [done|done|lia|by rewrite Z2Nat.id by lia|].
  rewrite Z2Nat.id in Hop, Hlp, Hbp by lia. pose proof (incrementOctets_be _ Hop) as Hi. unfold increment16.
  destruct (incrementOctets (rev (prefixLast16 cur (128 - k)))) as [r overflow]. destruct Hi as (Hor & Hlr & Hbr).
  cbn [map]. unfold AddrFrom16. f_equal. rewrite Hlp, Hbp in Hbr. change (256 ^ Z.of_nat 16) with (2 ^ Z.of_nat 128) in Hbr.
  destruct overflow.
  - by rewrite (proj2 (Z.eqb_eq _ _)) by lia.
  - assert (be (rev r) < 2 ^ Z.of_nat 128) as Hb.
    { pose proof (be_bound (rev r) Hor) as Hx. rewrite length_rev, Hlr, Hlp in Hx. exact (proj2 Hx). }
    rewrite (proj2 (Z.eqb_neq _ _)) by lia.
    rewrite IH by (done || (rewrite length_rev; congruence)). by replace (be (rev r)) with (be cur + 2 ^ k) by lia.
Qed.

(** ** Ranges *)

(** [netip.Prefix.Contains]: same family, and the same bits up to the length of the prefix. *)
Definition Contains (prefix : Addr * Z) (a : Addr) : Prop :=
  BitLen prefix.1 = BitLen a ∧
  addrValue a / 2 ^ (BitLen a - prefix.2) = addrValue prefix.1 / 2 ^ (BitLen a - prefix.2).

(** An address as [net/netip] holds it, without a zone. *)
Definition plainAddr (a : Addr) : Prop :=
  match a with
  | NoAddr => False
  | V4 v => is_u 32 v
  | V6 v zone => is_u 128 v ∧ zone = ""
  end.

Lemma block_div b k a : 0 ≤ k → (2 ^ k | b) → a / 2 ^ k = b / 2 ^ k ↔ b ≤ a < b + 2 ^ k.
Proof.
  intros Hk [q ->]. assert (0 < 2 ^ k) as Hp by (apply Z.pow_pos_nonneg; lia). rewrite Z.div_mul by lia.
  pose proof (Z.div_mod a (2 ^ k) ltac:(lia)). pose proof (Z.mod_pos_bound a (2 ^ k) Hp). split; [nia|].
  intros [Hlo Hhi]. apply Z.le_antisymm; [apply Z.lt_succ_r, Z.div_lt_upper_bound; nia|apply Z.div_le_lower_bound; nia].
Qed.

(** The prefixes of a tiling, for a family of addresses. *)
Lemma tiles_prefixes (mk : Z → Addr) (w : Z) cur last l :
  (∀ v, BitLen (mk v) = w ∧ addrValue (mk v) = v) → tiles cur last l → cur ≤ last →
  let prefixes := map (λ '(b, k), (mk b, w - k)) l in
  (∀ a, BitLen a = w → cur ≤ addrValue a ≤ last ↔ ∃ p, p ∈ prefixes ∧ Contains p a) ∧
  (∀ i j p q a, prefixes !! i = Some p → prefixes !! j = Some q → Contains p a → Contains q a → i = j).
Proof.
  intros Hmk Ht Hle prefixes.
  assert (∀ b k a, (b, k) ∈ l → BitLen a = w → Contains (mk b, w - k) a ↔ b ≤ addrValue a < b + 2 ^ k) as Hc.
  { intros b k a Hin Ha. destruct (tiles_block _ _ _ _ _ Ht Hin) as (_ & _ & Hk & Hd). unfold Contains. cbn [fst snd].
    rewrite (proj1 (Hmk b)), (proj2 (Hmk b)), Ha. replace (w - (w - k)) with k by lia.
    rewrite block_div by done. tauto. }
  split.
  - intros a Ha. rewrite (tiles_cover _ _ _ _ Ht) by lia. split.
    + intros (b & k & Hin & Hb). exists (mk b, w - k). split; [|by apply Hc].
      apply list_elem_of_fmap. by exists (b, k).
    + intros (p & ([b k] & -> & Hin)%list_elem_of_fmap & Hp). exists b, k. split; [done|]. by apply Hc.
  - intros i j p q a Hi Hj Hp Hq. unfold prefixes in Hi, Hj. rewrite list_lookup_fmap in Hi, Hj.
    apply fmap_Some in Hi as ([b k] & Hi & ->), Hj as ([b' k'] & Hj & ->).
    assert (BitLen a = w) as Ha by (destruct Hp as [Hp _]; cbn [fst] in Hp; by rewrite <- Hp, (proj1 (Hmk b))).
    pose proof (proj1 (Hc b k a (list_elem_of_lookup_2 _ _ _ Hi) Ha) Hp) as Hpb.
    pose proof (proj1 (Hc b' k' a (list_elem_of_lookup_2 _ _ _ Hj) Ha) Hq) as Hqb.
    by eapply tiles_disjoint.
Qed.

(** A tiling that is complete does not need more fuel. *)
Lemma blocks_fuel w fuel extra cur last :
  tiles cur last (blocks w fuel cur last) → blocks w (fuel + extra) cur last = blocks w fuel cur last.
Proof.
  revert cur. induction fuel as [|fuel IH]; intros cur Ht.
  - cbn [blocks] in Ht. inversion Ht; subst. destruct extra; [done|]. cbn [Nat.add blocks].
    by rewrite (proj2 (Z.ltb_lt _ _)) by lia.
  - cbn [Nat.add blocks] in *. destruct (last <? cur); [done|]. f_equal. inversion Ht as [|? ? ? ? _ _ _ Hrest]; subst.
    case_match; [done|]. by apply IH.
Qed.

Lemma be_As4 v : is_u 32 v → be (As4 (V4 v)) = v.
Proof. intros. unfold As4. by apply be_put_be_small. Qed.
Lemma be_As16 v zone : is_u 128 v → be (As16 (V6 v zone)) = v.
Proof. intros. unfold As16. by apply be_put_be_small. Qed.

Lemma length_blocks w fuel cur last : (length (blocks w fuel cur last) ≤ fuel)%nat.
Proof.
  revert cur. induction fuel as [|fuel IH]; intros cur; [done|]. cbn [blocks].
  destruct (last <? cur); [cbn; lia|]. cbn [length]. destruct (_ =? _); [cbn; lia|]. apply le_n_S, IH.
Qed.

(** The prefixes of a range are those of a tiling of its values; with any more fuel they are the
    same. *)
Lemma range_blocks start stop prefixes :
  plainAddr start → plainAddr stop → addressRangePrefixes start stop = Ok prefixes →
  ∃ (mk : Z → Addr) (w : nat),
    BitLen start = Z.of_nat w ∧ BitLen stop = Z.of_nat w ∧ addrValue start ≤ addrValue stop ∧
    (∀ v, BitLen (mk v) = Z.of_nat w ∧ addrValue (mk v) = v) ∧
    tiles (addrValue start) (addrValue stop) (blocks w (2 * w) (addrValue start) (addrValue stop)) ∧
    (∀ extra, (if Is4 start then ipv4Prefixes (64 + extra) (be (As4 start)) (be (As4 stop))
               else ipv6Prefixes (256 + extra) (As16 start) (As16 stop)) =
       map (λ '(b, k), (mk b, Z.of_nat w - k)) (blocks w (2 * w + extra) (addrValue start) (addrValue stop))) ∧
    prefixes = map (λ '(b, k), (mk b, Z.of_nat w - k)) (blocks w (2 * w) (addrValue start) (addrValue stop)).
Proof.
  intros Hstart Hstop H. unfold addressRangePrefixes in H.
  destruct (negb (IsValid start) || _ || _ || _) eqn:Hg; [done|]. injection H as <-.
  rewrite !orb_false_iff in Hg. destruct Hg as [[_ Hlen%negb_false_iff%Z.eqb_eq] Hcmp].
  unfold Compare in Hcmp. rewrite Hlen, Z.compare_refl in Hcmp.
  assert (addrValue start ≤ addrValue stop) as Hle by (destruct (Z.compare_spec (addrValue start) (addrValue stop)); [lia|lia|done]).
  destruct start as [|a|a za], stop as [|b|b zb]; try contradiction; try discriminate Hlen; cbn [Is4 BitLen addrValue plainAddr] in *.
  - exists V4, 32%nat. do 4 (split; [done|]). split; [|split].
    + apply (blocks_tiles 32 ltac:(lia)); unfold is_u in *; [lia|exact (proj2 Hstop)].
    + intros extra. rewrite !be_As4 by done. by apply (ipv4Prefixes_blocks).
    + unfold ipv4RangePrefixes. rewrite !be_As4 by done. by apply ipv4Prefixes_blocks.
  - destruct Hstart as [Ha _], Hstop as [Hb _]. exists (λ v, V6 v ""), 128%nat. do 4 (split; [done|]).
    assert (∀ fuel, ipv6Prefixes fuel (As16 (V6 a za)) (As16 (V6 b zb)) =
      map (λ '(b, k), (V6 b "", 128 - k)) (blocks 128 fuel a b)) as He.
    { intros fuel. rewrite ipv6Prefixes_blocks by first [apply bytes_ok_put_be|apply length_put_be]. by rewrite !be_As16. }
    split; [|split; [intros extra|]; apply He].
    apply (blocks_tiles 128 ltac:(lia)); unfold is_u in *; [lia|exact (proj2 Hb)].
Qed.

(** The addresses of the prefixes of a range are those of the range, each in one prefix only. *)
Lemma range_cover start stop prefixes :
  plainAddr start → plainAddr stop → addressRangePrefixes start stop = Ok prefixes →
  (∀ a, BitLen a = BitLen start →
     addrValue start ≤ addrValue a ≤ addrValue stop ↔ ∃ p, p ∈ prefixes ∧ Contains p a) ∧
  (∀ i j p q a, prefixes !! i = Some p → prefixes !! j = Some q → Contains p a → Contains q a → i = j) ∧
  (∀ p, p ∈ prefixes → BitLen p.1 = BitLen start) ∧ BitLen stop = BitLen start.
Proof.
  intros Hstart Hstop H. destruct (range_blocks _ _ _ Hstart Hstop H) as (mk & w & Hw & Hw' & Hle & Hmk & Ht & _ & ->).
  rewrite Hw. destruct (tiles_prefixes mk (Z.of_nat w) _ _ _ Hmk Ht Hle) as [Hc Hd].
  split; [exact Hc|split; [exact Hd|split; [|done]]].
  intros p ([b k] & -> & _)%list_elem_of_fmap. apply Hmk.
Qed.

(** C36: a range of addresses is cut into prefixes that contain exactly its addresses, each in one
    prefix only; and the loops end: with any more fuel they return the same prefixes, of which
    there are at most twice as many as an address has bits. *)
Theorem range_prefixes_exact start stop prefixes :
  plainAddr start → plainAddr stop → addressRangePrefixes start stop = Ok prefixes →
  (∀ a, BitLen a = BitLen start →
     addrValue start ≤ addrValue a ≤ addrValue stop ↔ ∃ p, p ∈ prefixes ∧ Contains p a) ∧
  (∀ i j p q a, prefixes !! i = Some p → prefixes !! j = Some q → Contains p a → Contains q a → i = j) ∧
  (∀ extra, prefixes = if Is4 start then ipv4Prefixes (64 + extra) (be (As4 start)) (be (As4 stop))
                       else ipv6Prefixes (256 + extra) (As16 start) (As16 stop)) ∧
  (Z.of_nat (length prefixes) ≤ 2 * BitLen start).
Proof.
  intros Hstart Hstop H. destruct (range_cover _ _ _ Hstart Hstop H) as (Hc & Hd & _ & _).
  destruct (range_blocks _ _ _ Hstart Hstop H) as (mk & w & Hw & _ & _ & _ & Ht & Hfuel & Hp).
  split; [exact Hc|split; [exact Hd|split]].
  - intros extra. by rewrite Hfuel, Hp, (blocks_fuel w (2 * w)).
  - rewrite Hp, length_map, Hw. pose proof (length_blocks w (2 * w) (addrValue start) (addrValue stop)). lia.
Qed.

(** From 224.0.0.1 to 224.0.0.6: four prefixes. *)
Lemma range_prefixes_exact_witness :
  addressRangePrefixes (V4 0xe0000001) (V4 0xe0000006) =
    Ok [(V4 0xe0000001, 32); (V4 0xe0000002, 31); (V4 0xe0000004, 31); (V4 0xe0000006, 32)] ∧
  ∃ p, p ∈ [(V4 0xe0000001, 32); (V4 0xe0000002, 31); (V4 0xe0000004, 31); (V4 0xe0000006, 32)] ∧
       Contains p (V4 0xe0000005).
Proof.
  split; [vm_compute; reflexivity|].
  apply (range_prefixes_exact (V4 0xe0000001) (V4 0xe0000006)); [split; vm_compute; congruence..|
    vm_compute; reflexivity|reflexivity|cbn; lia].
Defined.
