(* ===== verification/McLinuxProps.v ===== *)
(** * Multicast: the filters of the Linux backend

    Proofs about McLinux.v: what tc keeps after [rebuild], and after [ConfigureLinux] and
    [SetReplicationLinux].  What the backend relies on of tc is the interface [TcKernel]; the
    order the filters of a chain are meant to have is [gemChain] and [entryChain]. *)

From S2P Require Import Prelude Maps GoStd Netip McPolicy McReport McRuntime McLinux.

(** ** What tc keeps *)

(** A filter is found by its interface and chain, and its preference. *)
Abbreviation filterSlot := ((string * Z) * Z)%type.
Abbreviation filterTable := (gmap filterSlot (list Arg)).

(** The slot of a [tc filter replace]. *)
Definition slotOf (arguments : list Arg) : option filterSlot :=
  match arguments with
  | Word _ :: Word verb :: Word _ :: Word interfaceName :: Word _ :: Word _ :: Num chain ::
    Word _ :: Word _ :: Word _ :: Num preference :: _ =>
      if bool_decide (verb = "replace") then Some ((interfaceName, chain), preference) else None
  | _ => None
  end.

(** The documented behaviour of tc: deleting a chain leaves none of its filters (there may have
    been none, which tc reports as a failure), and a filter added at a free slot is there. *)
Class TcKernel (W : Type) `{LinuxHost W} := {
  tcFilters : W → filterTable;
  tc_delete w interfaceName chain :
    tcFilters (Run (deleteChain interfaceName chain) w).2 =
    filter (λ p, p.1.1 ≠ (interfaceName, chain)) (tcFilters w);
  tc_replace w w' arguments slot :
    slotOf arguments = Some slot → tcFilters w !! slot = None → Run arguments w = (true, w') →
    tcFilters w' = <[slot := arguments]> (tcFilters w)
}.

(** ** What the chains are meant to hold *)

Inductive slotFilter :=
| QueryFilter (rule : downstreamRule) (variant : downstreamVariant)
| ExcludeFilter (installed : installedDownstreamRule) (prefix : Addr * Z) (variant : downstreamVariant) (source : Addr)
| AcceptFilter (installed : installedDownstreamRule) (prefix : Addr * Z) (variant : downstreamVariant)
| GotoFilter (gem : Z)
| PassFilter
| DropFilter (chain : Z).

Definition slotArguments (interfaceName : string) (preference : Z) (f : slotFilter) : Res LinuxError (list Arg) :=
  match f with
  | QueryFilter rule variant => downstreamControlFilterArguments interfaceName preference rule variant
  | ExcludeFilter installed prefix variant source =>
      downstreamExcludeFilterArguments interfaceName preference (in_rule installed) prefix variant source
  | AcceptFilter installed prefix variant =>
      downstreamFilterArguments interfaceName preference (in_rule installed) prefix variant
  | GotoFilter gem => Ok (gotoGEM interfaceName gem)
  | PassFilter => Ok (passQueries interfaceName)
  | DropFilter chain => Ok (dropRest interfaceName chain)
  end.

(** The filters of one control rule, and of one rule: for each prefix and each variant of the
    tags, the sources it excludes are dropped before the rest is accepted. *)
Definition controlFilters (rule : downstreamRule) : list slotFilter :=
  map (QueryFilter rule) (downstreamVariants (dr_aniVLAN rule) (pr_IGMPVersion (dr_profile rule) <=? 3)).

Definition excludedSources (b : LinuxBackend) (installed : installedDownstreamRule) : list Addr :=
  match in_dynamicKey installed with
  | Some key => effectiveExcludedSources b key (in_rule installed)
  | None => dr_excluded (in_rule installed)
  end.
Definition variantFilters (b : LinuxBackend) (installed : installedDownstreamRule) (prefix : Addr * Z)
    (variant : downstreamVariant) : list slotFilter :=
  map (ExcludeFilter installed prefix variant) (excludedSources b installed) ++ [AcceptFilter installed prefix variant].
Definition prefixFilters (b : LinuxBackend) (installed : installedDownstreamRule) (prefix : Addr * Z) : list slotFilter :=
  flat_map (variantFilters b installed prefix) (downstreamVariants (dr_aniVLAN (in_rule installed)) (Is4 prefix.1)).
Definition rulePrefixes (rule : downstreamRule) : list (Addr * Z) :=
  match addressRangePrefixes (dr_start rule) (dr_stop rule) with Ok prefixes => prefixes | Err _ => [] end.
Definition ruleFilters (b : LinuxBackend) (installed : installedDownstreamRule) : list slotFilter :=
  flat_map (prefixFilters b installed) (rulePrefixes (in_rule installed)).

Section chains.
Context {MR : MapRange} {GS : GoSort}.

(** The filters of the chain of a GEM port: control messages, then the rules. *)
Definition gemControls (b : LinuxBackend) (interfaceName : string) (gem : Z) : list slotFilter :=
  flat_map controlFilters
    (List.filter (λ rule, dr_gemPortID rule =? gem) (sortSlice controlLess (rulesOf (lb_control b) interfaceName))).
Definition gemRules (b : LinuxBackend) (interfaceName : string) (gem : Z) : list slotFilter :=
  flat_map (ruleFilters b)
    (List.filter (λ installed, dr_gemPortID (in_rule installed) =? gem) (installedRules b interfaceName)).

(** The filter at each preference of the chain of a GEM port. *)
Definition gemChain (b : LinuxBackend) (interfaceName : string) (gem preference : Z) : option slotFilter :=
  if preference =? 65000 then Some (DropFilter (multicastGEMChain gem))
  else if 1000 <=? preference then gemRules b interfaceName gem !! Z.to_nat (preference - 1000)
  else if 10 <=? preference then gemControls b interfaceName gem !! Z.to_nat (preference - 10)
  else None.

(** The filter at each preference of the chain all multicast traffic enters. *)
Definition entryChain (b : LinuxBackend) (interfaceName : string) (preference : Z) : option slotFilter :=
  if preference =? 65000 then Some (DropFilter multicastDownstreamChain)
  else if preference =? 1 then Some PassFilter
  else if bool_decide (is_Some (desiredGEMs b interfaceName !! (preference - 100)))
  then Some (GotoFilter (preference - 100))
  else None.

(** What tc has at a slot is the command of the filter that is meant to be there. *)
Definition filterAt (interfaceName : string) (preference : Z) (f : option slotFilter) (found : option (list Arg)) : Prop :=
  match f with
  | Some f => ∃ arguments, slotArguments interfaceName preference f = Ok arguments ∧ found = Some arguments
  | None => found = None
  end.

(** tc holds the chains of an interface, and the filters of the GEM ports fit below the drops. *)
Definition chainsHold (b : LinuxBackend) (interfaceName : string) (T : filterTable) : Prop :=
  (∀ gem preference, is_Some (desiredGEMs b interfaceName !! gem) →
     filterAt interfaceName preference (gemChain b interfaceName gem preference)
       (T !! ((interfaceName, multicastGEMChain gem), preference))) ∧
  (∀ preference, filterAt interfaceName preference (entryChain b interfaceName preference)
     (T !! ((interfaceName, multicastDownstreamChain), preference))) ∧
  ∀ gem, is_Some (desiredGEMs b interfaceName !! gem) →
    10 + Z.of_nat (length (gemControls b interfaceName gem)) < 1000 ∧
    1000 + Z.of_nat (length (gemRules b interfaceName gem)) < 64000.

(** The GEM ports of an interface are GEM ports of GPON. *)
Definition gemsInRange (b : LinuxBackend) (interfaceName : string) : Prop :=
  ∀ gem, is_Some (desiredGEMs b interfaceName !! gem) → 0 ≤ gem ≤ 4095.
End chains.

(** ** Computations *)

Section computations.
Context {W : Type}.

Lemma bindL_ok {A B} (c : L W A) (f : A → L W B) s r s2 :
  mbind f c s = (Ok r, s2) → ∃ a s1, c s = (Ok a, s1) ∧ f a s1 = (Ok r, s2).
Proof. unfold mbind, L_bind. destruct (c s) as [[a|e] s1]; [eauto|done]. Qed.

Lemma liftL_ok {A} (r : Res LinuxError A) (s : LinuxBackend * W) a s' :
  liftL r s = (Ok a, s') → r = Ok a ∧ s' = s.
Proof. by intros [= -> ->]. Qed.

(** A loop that ends well keeps an invariant over the elements it has done. *)
Lemma foldL_inv {A S} (P : S → list A → LinuxBackend * W → Prop) (f : S → A → L W S) l acc s acc' s' :
  (∀ acc done x s acc' s', x ∈ l → P acc done s → f acc x s = (Ok acc', s') → P acc' (done ++ [x]) s') →
  P acc [] s → foldL f l acc s = (Ok acc', s') → P acc' l s'.
Proof.
  intros Hstep HP Hf. change l with ([] ++ l).
  assert (∀ x, x ∈ l → x ∈ l) as Hin by done. revert HP Hin Hf. generalize (@nil A) as prior, acc, s.
  generalize l at 1 3 4 as rest. intros rest. induction rest as [|x rest IH]; intros prior acc0 s0 HP Hin Hf.
  - injection Hf as <- <-. by rewrite app_nil_r.
  - cbn [foldL] in Hf. apply bindL_ok in Hf as (acc1 & s1 & H1 & Hf).
    rewrite cons_middle, app_assoc. apply (IH _ acc1 s1); [|by intros y Hy; apply Hin; right|done].
    eapply Hstep; [apply Hin; by left|done|done].
Qed.
End computations.

Ltac bind_ok H x Hx := apply bindL_ok in H as (x & ? & Hx & H).

Section kernel.
Context {MR : MapRange} {GS : GoSort} {W : Type} `{TK : TcKernel W}.

Lemma runTC_ok arguments (b : LinuxBackend) (w : W) u s' :
  runTC arguments (b, w) = (Ok u, s') → ∃ w', s' = (b, w') ∧ Run arguments w = (true, w').
Proof. unfold runTC. destruct (Run arguments w) as [[] w'] eqn:Hr; [|done]. intros [= _ <-]. eauto. Qed.

Lemma tryTC_eq arguments (b : LinuxBackend) (w : W) : tryTC arguments (b, w) = (Ok tt, (b, (Run arguments w).2)).
Proof. done. Qed.

Lemma runTC_install arguments slot (b : LinuxBackend) (w : W) u s' :
  runTC arguments (b, w) = (Ok u, s') → slotOf arguments = Some slot → tcFilters w !! slot = None →
  ∃ w', s' = (b, w') ∧ tcFilters w' = <[slot := arguments]> (tcFilters w).
Proof. intros (w' & -> & Hr)%runTC_ok Hs Hn. exists w'. split; [done|]. by eapply tc_replace. Qed.

(** Commands that each fill a slot of their own. *)
Lemma forL_install {A} (k : A → filterSlot) (command : A → list Arg) l (b : LinuxBackend) (w : W) u s' :
  (∀ x, x ∈ l → slotOf (command x) = Some (k x)) → (∀ x, x ∈ l → tcFilters w !! k x = None) → NoDup (map k l) →
  forL l (λ x, runTC (command x)) (b, w) = (Ok u, s') →
  ∃ w', s' = (b, w') ∧ (∀ x, x ∈ l → tcFilters w' !! k x = Some (command x)) ∧
    (∀ slot, slot ∉ map k l → tcFilters w' !! slot = tcFilters w !! slot).
Proof.
  unfold forL. revert u w. induction l as [|x l IH]; intros u w Hk Hfree Hnd H1.
  - injection H1 as <- <-. exists w. split; [done|]. split; [by intros x ?%not_elem_of_nil|done].
  - cbn [foldL] in H1. bind_ok H1 u1 Hx. cbn [map] in Hnd. apply NoDup_cons in Hnd as [Hnx Hnd].
    destruct (runTC_install _ (k x) _ _ _ _ Hx) as (w1 & -> & Hw1); [apply Hk; by left|apply Hfree; by left|].
    destruct u1. destruct (IH tt w1) as (w' & -> & Hin & Hout); [by intros; apply Hk; right| |done|by destruct u|].
    { intros y Hy. rewrite Hw1, lookup_insert_ne; [apply Hfree; by right|].
      intros Heq. apply Hnx. rewrite Heq. by apply list_elem_of_fmap_2. }
    exists w'. split; [done|]. split.
    + intros y [->|Hy]%elem_of_cons; [|by apply Hin]. by rewrite (Hout _ Hnx), Hw1, lookup_insert_eq.
    + intros slot Hs. cbn [map] in Hs. apply not_elem_of_cons in Hs as [Hsx Hs].
      by rewrite (Hout _ Hs), Hw1, lookup_insert_ne by done.
Qed.

(** Deleting chains. *)
Lemma forL_delete {A} (chain : A → Z) interfaceName l (body : A → L W unit) (b : LinuxBackend) (w : W) :
  (∀ x, body x = tryTC (deleteChain interfaceName (chain x))) →
  ∃ w', forL l body (b, w) = (Ok tt, (b, w')) ∧
    ∀ slot, tcFilters w' !! slot =
      if bool_decide (slot.1 ∈ map (λ x, (interfaceName, chain x)) l) then None else tcFilters w !! slot.
Proof.
  intros Hbody. unfold forL. revert w. induction l as [|x l IH]; intros w.
  - exists w. split; [done|]. intros slot. cbn [map]. by rewrite bool_decide_false by apply not_elem_of_nil.
  - cbn [foldL]. unfold mbind at 1, L_bind. rewrite Hbody, tryTC_eq.
    destruct (IH (Run (deleteChain interfaceName (chain x)) w).2) as (w' & -> & Hw'). exists w'. split; [done|].
    intros slot. rewrite Hw', tc_delete. cbn [map].
    destruct (bool_decide_reflect (slot.1 ∈ map (λ x, (interfaceName, chain x)) l)) as [Hin|Hnin].
    + by rewrite bool_decide_true by (by right).
    + destruct (decide (slot.1 = (interfaceName, chain x))) as [Heq|Hne].
      * rewrite bool_decide_true by (rewrite Heq; by left).
        apply map_lookup_filter_None. right. intros arguments _ Hf. by apply Hf.
      * rewrite bool_decide_false by (rewrite not_elem_of_cons; done).
        destruct (tcFilters w !! slot) as [arguments|] eqn:Hs;
          [by apply map_lookup_filter_Some|apply map_lookup_filter_None; by left].
Qed.
End kernel.

(** ** The filters added to the chains of the GEM ports *)

(** The filters added to the chain of a GEM port, out of the filters added in order. *)
Definition ofGEM (gem : Z) (log : list (Z * slotFilter)) : list slotFilter :=
  map snd (List.filter (λ e, e.1 =? gem) log).

Lemma ofGEM_app gem log1 log2 : ofGEM gem (log1 ++ log2) = ofGEM gem log1 ++ ofGEM gem log2.
Proof. unfold ofGEM. by rewrite List.filter_app, map_app. Qed.

Lemma ofGEM_eq gem fs : ofGEM gem (map (pair gem) fs) = fs.
Proof. unfold ofGEM. induction fs as [|f fs IH]; [done|]. cbn. rewrite Z.eqb_refl. cbn. by rewrite IH. Qed.

Lemma ofGEM_ne gem g fs : g ≠ gem → ofGEM gem (map (pair g) fs) = [].
Proof. intros Hne. unfold ofGEM. induction fs as [|f fs IH]; [done|]. cbn. by rewrite (proj2 (Z.eqb_neq _ _)). Qed.

Lemma ofGEM_one gem f : ofGEM gem [(gem, f)] = [f].
Proof. exact (ofGEM_eq gem [f]). Qed.

Lemma ofGEM_one_ne gem g f : g ≠ gem → ofGEM gem [(g, f)] = [].
Proof. exact (ofGEM_ne gem g [f]). Qed.

Lemma ofGEM_flat_map {A} gem (gemOf : A → Z) (fs : A → list slotFilter) l :
  ofGEM gem (flat_map (λ x, map (pair (gemOf x)) (fs x)) l) = flat_map fs (List.filter (λ x, gemOf x =? gem) l).
Proof.
  induction l as [|x l IH]; [done|]. cbn [flat_map List.filter]. rewrite ofGEM_app, IH.
  destruct (Z.eqb_spec (gemOf x) gem) as [<-|Hne]; [by rewrite ofGEM_eq|by rewrite ofGEM_ne].
Qed.

(** The chains of the GEM ports [D] hold the filters [log] from the preference [base] on; nothing
    else has changed since [T0]. *)
Record region (interfaceName : string) (D : Z → Prop) (base : Z) (log : list (Z * slotFilter)) (T0 T : filterTable)
    : Prop := {
  region_in gem preference : D gem → base ≤ preference →
    filterAt interfaceName preference (ofGEM gem log !! Z.to_nat (preference - base))
      (T !! ((interfaceName, multicastGEMChain gem), preference));
  region_out slot : (∀ gem preference, D gem → base ≤ preference → slot ≠ ((interfaceName, multicastGEMChain gem), preference)) →
    T !! slot = T0 !! slot
}.

(** The preference that comes next in the chain of a GEM port. *)
Definition nextFree (base : Z) (log : list (Z * slotFilter)) (gem : Z) : Z := base + Z.of_nat (length (ofGEM gem log)).

Lemma nextFree_eq base log gem f : nextFree base (log ++ [(gem, f)]) gem = nextFree base log gem + 1.
Proof. unfold nextFree. rewrite ofGEM_app, length_app, ofGEM_one. cbn [length]. lia. Qed.

Lemma nextFree_ne base log g fs gem : g ≠ gem → nextFree base (log ++ map (pair g) fs) gem = nextFree base log gem.
Proof. intros. unfold nextFree. by rewrite ofGEM_app, ofGEM_ne, app_nil_r. Qed.

Lemma multicastGEMChain_inj g h : multicastGEMChain g = multicastGEMChain h → g = h.
Proof. unfold multicastGEMChain. lia. Qed.

Section region.
Context (interfaceName : string) (D : Z → Prop) (base : Z).

Lemma region_nil T :
  (∀ gem preference, D gem → base ≤ preference → T !! ((interfaceName, multicastGEMChain gem), preference) = None) →
  region interfaceName D base [] T T.
Proof. intros Hn. split; [|done]. intros gem preference Hg Hp. cbn. by apply Hn. Qed.

Lemma region_free log T0 T gem :
  region interfaceName D base log T0 T → D gem →
  T !! ((interfaceName, multicastGEMChain gem), nextFree base log gem) = None.
Proof.
  intros [Hin _] Hg. specialize (Hin gem (nextFree base log gem) Hg). unfold nextFree in *.
  rewrite lookup_ge_None_2 in Hin by lia. apply Hin. lia.
Qed.

Lemma region_step log T0 T gem f arguments :
  region interfaceName D base log T0 T → D gem → slotArguments interfaceName (nextFree base log gem) f = Ok arguments →
  region interfaceName D base (log ++ [(gem, f)]) T0
    (<[((interfaceName, multicastGEMChain gem), nextFree base log gem) := arguments]> T).
Proof.
  intros [Hin Hout] Hg Hf. split.
  - intros g preference Hd Hp. rewrite ofGEM_app. destruct (decide (g = gem)) as [->|Hne].
    + rewrite ofGEM_one. destruct (decide (preference = nextFree base log gem)) as [->|Hpn].
      * rewrite lookup_insert_eq. unfold nextFree.
        rewrite list_lookup_middle by lia. exists arguments. done.
      * rewrite lookup_insert_ne by congruence. unfold nextFree in Hpn.
        specialize (Hin gem preference Hd Hp). destruct (decide (preference < base + Z.of_nat (length (ofGEM gem log)))).
        -- by rewrite lookup_app_l by lia.
        -- rewrite lookup_ge_None_2 in Hin by lia. rewrite lookup_ge_None_2; [done|]. rewrite length_app. cbn [length]. lia.
    + rewrite ofGEM_one_ne by done. rewrite app_nil_r, lookup_insert_ne; [by apply Hin|].
      intros [= Hc _]. unfold multicastGEMChain in Hc. lia.
  - intros slot Hs. rewrite lookup_insert_ne; [by apply Hout|].
    intros <-. apply (Hs gem (nextFree base log gem)); [done|unfold nextFree; lia|done].
Qed.
End region.

(** The preferences the loops keep for each GEM port are the next free ones. *)
Definition preferencesAt (D : Z → Prop) (base limit : Z) (preferences : gmap Z Z) (log : list (Z * slotFilter)) : Prop :=
  ∀ gem, D gem → nextPreference preferences gem base = nextFree base log gem ∧ nextFree base log gem < limit.

Lemma preferencesAt_step (D : Z → Prop) base limit preferences log gem fs :
  0 < base → preferencesAt D base limit preferences log → nextFree base (log ++ map (pair gem) fs) gem < limit →
  preferencesAt D base limit (<[gem := nextFree base (log ++ map (pair gem) fs) gem]> preferences) (log ++ map (pair gem) fs).
Proof.
  intros Hb Hp Hl g Hg. unfold nextPreference. destruct (decide (g = gem)) as [->|Hne].
  - rewrite lookup_insert_eq. cbn [default from_option id].
    destruct (Z.eqb_spec (nextFree base (log ++ map (pair gem) fs) gem) 0) as [H0|_]; [unfold nextFree in H0; lia|done].
  - rewrite lookup_insert_ne by done. rewrite (nextFree_ne base log gem fs g) by done. by apply Hp.
Qed.

Lemma preferencesAt_nil (D : Z → Prop) base limit : base < limit → preferencesAt D base limit ∅ [].
Proof.
  intros Hb gem _. unfold nextPreference, nextFree. rewrite lookup_empty. cbn. lia.
Qed.

(** ** The slots of the commands *)

Lemma slotOf_filterArguments interfaceName preference rule variant ipv4 rest :
  slotOf (filterArguments interfaceName preference rule variant ipv4 ++ rest) =
  Some ((interfaceName, multicastGEMChain (dr_gemPortID rule)), preference).
Proof. done. Qed.

Definition filterGEM (f : slotFilter) : option Z :=
  match f with
  | QueryFilter rule _ => Some (dr_gemPortID rule)
  | ExcludeFilter installed _ _ _ | AcceptFilter installed _ _ => Some (dr_gemPortID (in_rule installed))
  | _ => None
  end.

Lemma slotOf_slotArguments interfaceName preference f gem arguments :
  slotArguments interfaceName preference f = Ok arguments → filterGEM f = Some gem →
  slotOf arguments = Some ((interfaceName, multicastGEMChain gem), preference).
Proof.
  destruct f as [rule variant|installed prefix variant source|installed prefix variant| | |];
    cbn [slotArguments filterGEM]; intros Ha Hg; try discriminate Hg; injection Hg as <-.
  - unfold downstreamControlFilterArguments in Ha. destruct (downstreamActions _ _ _); [|done]. injection Ha as <-.
    done.
  - unfold downstreamExcludeFilterArguments in Ha. destruct (_ || _); [done|]. injection Ha as <-. done.
  - unfold downstreamFilterArguments in Ha. destruct (downstreamActions _ _ _); [|done]. injection Ha as <-.
    done.
Qed.

(** ** The loops over the rules *)

(** The accept filters of a stream among the filters added in order, after those of [prior]. *)
Fixpoint refsFrom (interfaceName : string) (base : Z) (key : dynamicRuleKey) (prior log : list (Z * slotFilter))
    : list tcFilterRef :=
  match log with
  | [] => []
  | (gem, f) :: log =>
      match f with
      | AcceptFilter installed _ _ =>
          if bool_decide (in_dynamicKey installed = Some key)
          then [mkRef interfaceName (multicastGEMChain gem) (nextFree base prior gem)] else []
      | _ => []
      end ++ refsFrom interfaceName base key (prior ++ [(gem, f)]) log
  end.

Lemma refsFrom_app interfaceName base key prior log1 log2 :
  refsFrom interfaceName base key prior (log1 ++ log2) =
  refsFrom interfaceName base key prior log1 ++ refsFrom interfaceName base key (prior ++ log1) log2.
Proof.
  revert prior. induction log1 as [|[gem f] log1 IH]; intros prior; [by rewrite app_nil_r|].
  cbn [app refsFrom]. by rewrite IH, <- !app_assoc.
Qed.

(** A reference is to an accept filter of the stream, where it is. *)
Lemma elem_of_refsFrom interfaceName base key log r :
  r ∈ refsFrom interfaceName base key [] log ↔
  ∃ gem i installed prefix variant, ofGEM gem log !! i = Some (AcceptFilter installed prefix variant) ∧
    in_dynamicKey installed = Some key ∧ r = mkRef interfaceName (multicastGEMChain gem) (base + Z.of_nat i).
Proof.
  induction log as [|[gem f] log IH] using rev_ind.
  - cbn. split; [by intros ?%not_elem_of_nil|]. by intros (? & ? & ? & ? & ? & ? & _).
  - rewrite refsFrom_app, elem_of_app, IH. clear IH. split.
    + intros [(g & i & installed & prefix & variant & Hi & Hk & ->)|Hr].
      * exists g, i, installed, prefix, variant. split; [|done]. rewrite ofGEM_app. by apply lookup_app_l_Some.
      * cbn [refsFrom app] in Hr. rewrite app_nil_r in Hr.
        destruct f as [| |installed prefix variant| | |]; try by apply not_elem_of_nil in Hr.
        destruct (bool_decide_reflect (in_dynamicKey installed = Some key)) as [Hk|]; [|by apply not_elem_of_nil in Hr].
        apply list_elem_of_singleton in Hr as ->. exists gem, (length (ofGEM gem log)), installed, prefix, variant.
        split; [|done]. rewrite ofGEM_app, ofGEM_one. by apply list_lookup_middle.
    + intros (g & i & installed & prefix & variant & Hi & Hk & ->). rewrite ofGEM_app in Hi.
      apply lookup_app_Some in Hi as [Hi|[Hle Hi]]; [left; by exists g, i, installed, prefix, variant|right].
      destruct (decide (gem = g)) as [->|Hne]; [|by rewrite ofGEM_one_ne in Hi].
      rewrite ofGEM_one in Hi. apply list_lookup_singleton_Some in Hi as [Hi ->].
      cbn [refsFrom app]. rewrite bool_decide_true by done. apply elem_of_app. left.
      apply list_elem_of_singleton. unfold nextFree. f_equal. lia.
Qed.

Lemma log_snoc (gem : Z) (log : list (Z * slotFilter)) fs f :
  log ++ map (pair gem) (fs ++ [f]) = (log ++ map (pair gem) fs) ++ [(gem, f)].
Proof. by rewrite map_app, app_assoc. Qed.

Lemma log_snoc_map {A} (gem : Z) (log : list (Z * slotFilter)) (f : A → slotFilter) l x :
  log ++ map (pair gem) (map f (l ++ [x])) = (log ++ map (pair gem) (map f l)) ++ [(gem, f x)].
Proof. rewrite (map_app f). apply log_snoc. Qed.

Definition acceptOf (installed : installedDownstreamRule) (f : slotFilter) : Prop :=
  match f with AcceptFilter i _ _ => i = installed | _ => True end.

Lemma acceptOf_ruleFilters b installed : Forall (acceptOf installed) (ruleFilters b installed).
Proof.
  apply Forall_flat_map, Forall_true. intros prefix. apply Forall_flat_map, Forall_true. intros variant.
  apply Forall_app. split; [|by apply Forall_singleton]. apply Forall_map, Forall_true. done.
Qed.

Lemma refsFrom_other interfaceName base key prior gem installed fs :
  Forall (acceptOf installed) fs → in_dynamicKey installed ≠ Some key →
  refsFrom interfaceName base key prior (map (pair gem) fs) = [].
Proof.
  intros Hfs Hkey. revert prior. induction Hfs as [|f fs Hf _ IH]; intros prior; [done|]. cbn [map refsFrom].
  rewrite IH, app_nil_r. destruct f; try done. cbn in Hf. subst. by rewrite bool_decide_false.
Qed.

(** The references kept for the streams are those to their accept filters. *)
Definition nonEmpty {A} (l : list A) : option (list A) := if l is [] then None else Some l.

Lemma default_nonEmpty {A} (l : list A) : default [] (nonEmpty l) = l.
Proof. by destruct l. Qed.
Lemma nonEmpty_app {A} (l1 l2 : list A) : l2 ≠ [] → nonEmpty (l1 ++ l2) = Some (l1 ++ l2).
Proof. by destruct l1, l2. Qed.

Definition filtersAt (interfaceName : string) (filters : gmap dynamicRuleKey (list tcFilterRef)) log : Prop :=
  ∀ key, filters !! key = nonEmpty (refsFrom interfaceName 1000 key [] log).

Section loops.
Context {MR : MapRange} {GS : GoSort} {W : Type} `{TK : TcKernel W}.
Context (interfaceName : string) (D : Z → Prop) (T0 : filterTable).

(** A filter is added at the next free preference. *)
Lemma install_step base log gem f arguments (b : LinuxBackend) (w : W) u s' :
  region interfaceName D base log T0 (tcFilters w) → D gem → filterGEM f = Some gem →
  slotArguments interfaceName (nextFree base log gem) f = Ok arguments →
  runTC arguments (b, w) = (Ok u, s') →
  ∃ w', s' = (b, w') ∧ region interfaceName D base (log ++ [(gem, f)]) T0 (tcFilters w').
Proof.
  intros Hr Hg Hf Ha Hrun.
  destruct (runTC_install _ _ _ _ _ _ Hrun (slotOf_slotArguments _ _ _ _ _ Ha Hf)) as (w' & -> & Hw').
  { by eapply region_free. }
  exists w'. split; [done|]. rewrite Hw'. by apply region_step.
Qed.

Lemma installControl_region log preferences rule (b : LinuxBackend) (w : W) preferences' s' :
  region interfaceName D 10 log T0 (tcFilters w) → preferencesAt D 10 1000 preferences log → D (dr_gemPortID rule) →
  installControl interfaceName preferences rule (b, w) = (Ok preferences', s') →
  let log' := log ++ map (pair (dr_gemPortID rule)) (controlFilters rule) in
  ∃ w', s' = (b, w') ∧ region interfaceName D 10 log' T0 (tcFilters w') ∧ preferencesAt D 10 1000 preferences' log'.
Proof.
  intros Hr Hp Hg H1 log'. unfold installControl in H1. bind_ok H1 preference Hloop. injection H1 as <- <-.
  set (gem := dr_gemPortID rule) in *.
  eapply (foldL_inv (λ preference done s, ∃ w', s = (b, w') ∧
    let log' := log ++ map (pair gem) (map (QueryFilter rule) done) in
    preference = nextFree 10 log' gem ∧ preference < 1000 ∧ region interfaceName D 10 log' T0 (tcFilters w')))
    in Hloop as (w' & -> & -> & Hlt & Hr').
  - exists w'. split; [done|]. split; [done|]. by apply preferencesAt_step.
  - intros acc variants variant s acc' s' _ (w1 & -> & -> & _ & Hr1) Hs.
    bind_ok Hs arguments Ha. apply liftL_ok in Ha as [Ha ->]. bind_ok Hs u Hrun.
    destruct (install_step 10 _ gem (QueryFilter rule variant) _ _ _ _ _ Hr1 Hg eq_refl Ha Hrun) as (w2 & -> & Hr2).
    destruct (1000 <=? _) eqn:Hle; [done|]. apply Z.leb_gt in Hle. injection Hs as <- <-. exists w2. split; [done|].
    cbv zeta. rewrite log_snoc_map, nextFree_eq. done.
  - exists w. cbn [map]. rewrite app_nil_r. destruct (Hp gem Hg) as [-> ?]. done.
Qed.

(** The filters of one prefix and one variant. *)
Lemma installVariant_region log installed prefix variant acc (b : LinuxBackend) (w : W) acc' s' :
  let gem := dr_gemPortID (in_rule installed) in
  region interfaceName D 1000 log T0 (tcFilters w) → D gem → acc.1 = nextFree 1000 log gem →
  installVariant interfaceName installed prefix acc variant (b, w) = (Ok acc', s') →
  let added := map (pair gem) (variantFilters b installed prefix variant) in
  ∃ w', s' = (b, w') ∧ region interfaceName D 1000 (log ++ added) T0 (tcFilters w') ∧
    acc'.1 = nextFree 1000 (log ++ added) gem ∧ acc'.1 < 64000 ∧
    (∀ key, in_dynamicKey installed = Some key → acc'.2 = acc.2 ++ refsFrom interfaceName 1000 key log added).
Proof.
  intros gem Hr Hg Hacc H1 added. unfold installVariant in H1.
  bind_ok H1 b1 Hb. injection Hb as <- <-. cbn [fst] in H1. fold (excludedSources b installed) in H1.
  bind_ok H1 preference Hloop.
  eapply (foldL_inv (λ preference done s, ∃ w', s = (b, w') ∧
    let log' := log ++ map (pair gem) (map (ExcludeFilter installed prefix variant) done) in
    preference = nextFree 1000 log' gem ∧ region interfaceName D 1000 log' T0 (tcFilters w')))
    in Hloop as (w1 & -> & -> & Hr1).
  - bind_ok H1 arguments Ha. apply liftL_ok in Ha as [Ha ->]. bind_ok H1 u Hrun.
    destruct (install_step 1000 _ gem (AcceptFilter installed prefix variant) _ _ _ _ _ Hr1 Hg eq_refl Ha Hrun)
      as (w2 & -> & Hr2).
    destruct (64000 <=? _) eqn:Hle; [done|]. apply Z.leb_gt in Hle. injection H1 as <- <-. cbn [fst snd].
    unfold added, variantFilters. rewrite log_snoc, nextFree_eq. exists w2. do 4 (split; [done|]).
    intros key Hkey. f_equal. rewrite map_app, refsFrom_app. cbn [map refsFrom].
    rewrite bool_decide_true by done. replace (refsFrom _ _ _ log _) with (@nil tcFilterRef); [done|].
    clear. generalize (excludedSources b installed) as sources, log.
    induction sources as [|source sources IH]; intros prior; [done|]. cbn [map refsFrom app]. apply IH.
  - intros acc0 sources source s acc1 s1 _ (w2 & -> & -> & Hr2) Hs.
    bind_ok Hs arguments Ha. apply liftL_ok in Ha as [Ha ->]. bind_ok Hs u Hrun. injection Hs as <- <-.
    destruct (install_step 1000 _ gem (ExcludeFilter installed prefix variant source) _ _ _ _ _ Hr2 Hg eq_refl Ha Hrun)
      as (w3 & -> & Hr3).
    exists w3. split; [done|]. cbv zeta. rewrite log_snoc_map, nextFree_eq. done.
  - exists w. cbn [map]. by rewrite app_nil_r.
Qed.

(** What a loop over the filters of one rule has done. *)
Definition ruleStep (b : LinuxBackend) installed log (references : list tcFilterRef) fs
    (acc : Z * list tcFilterRef) (s : LinuxBackend * W) : Prop :=
  let gem := dr_gemPortID (in_rule installed) in
  let added := map (pair gem) fs in
  ∃ w', s = (b, w') ∧ region interfaceName D 1000 (log ++ added) T0 (tcFilters w') ∧
    acc.1 = nextFree 1000 (log ++ added) gem ∧ acc.1 < 64000 ∧
    (∀ key, in_dynamicKey installed = Some key → acc.2 = references ++ refsFrom interfaceName 1000 key log added).

(** A loop whose body adds the filters [fs x] adds them all. *)
Lemma ruleStep_fold {A} (fs : A → list slotFilter) f l b installed log references acc w acc' s' :
  (∀ x log acc w acc' s', region interfaceName D 1000 log T0 (tcFilters w) →
     acc.1 = nextFree 1000 log (dr_gemPortID (in_rule installed)) → acc.1 < 64000 →
     f acc x (b, w) = (Ok acc', s') → ruleStep b installed log acc.2 (fs x) acc' s') →
  ruleStep b installed log references [] acc (b, w) → foldL f l acc (b, w) = (Ok acc', s') →
  ruleStep b installed log references (flat_map fs l) acc' s'.
Proof.
  intros Hf H0 Hloop.
  refine (foldL_inv (λ acc done s, ruleStep b installed log references (flat_map fs done) acc s) f l _ _ _ _ _ H0 Hloop).
  clear -Hf. intros acc done x s acc' s' _ (w & -> & Hr & Hp & Hl & Href) Hs.
  destruct (Hf _ _ _ _ _ _ Hr Hp Hl Hs) as (w' & -> & Hr' & Hp' & Hl' & Href').
  exists w'. rewrite flat_map_app, map_app. cbn [flat_map]. rewrite app_nil_r, app_assoc. do 4 (split; [done|]).
  intros key Hkey. rewrite (Href' _ Hkey), (Href _ Hkey), refsFrom_app, app_assoc. done.
Qed.
Lemma installRule_region log acc installed (b : LinuxBackend) (w : W) acc' s' :
  region interfaceName D 1000 log T0 (tcFilters w) → preferencesAt D 1000 64000 acc.1 log →
  filtersAt interfaceName acc.2 log → D (dr_gemPortID (in_rule installed)) →
  installRule interfaceName acc installed (b, w) = (Ok acc', s') →
  let log' := log ++ map (pair (dr_gemPortID (in_rule installed))) (ruleFilters b installed) in
  ∃ w', s' = (b, w') ∧ region interfaceName D 1000 log' T0 (tcFilters w') ∧
    preferencesAt D 1000 64000 acc'.1 log' ∧ filtersAt interfaceName acc'.2 log'.
Proof.
  intros Hr Hp Hf Hg H1 log'. unfold installRule in H1. bind_ok H1 prefixes Hprefixes.
  apply liftL_ok in Hprefixes as [Hprefixes ->]. apply bindL_ok in H1 as ([preference references] & s1 & Hloop & H1).
  injection H1 as <- <-. set (gem := dr_gemPortID (in_rule installed)) in *.
  destruct (Hp gem Hg) as [Hnext Hlimit].
  assert (ruleStep b installed log [] (flat_map (prefixFilters b installed) prefixes) (preference, references) s1) as Hstep.
  { eapply (ruleStep_fold (prefixFilters b installed)); [| |exact Hloop].
    - intros prefix log1 acc1 w1 acc2 s2 Hr1 Hp1 Hl1 Hs. eapply (ruleStep_fold (variantFilters b installed prefix)); [| |exact Hs].
      + intros variant log2 acc3 w2 acc4 s4 Hr2 Hp2 _ Hv.
        exact (installVariant_region log2 installed prefix variant acc3 b w2 acc4 s4 Hr2 Hg Hp2 Hv).
      + exists w1. cbn [map]. rewrite !app_nil_r. do 4 (split; [done|]). intros. by rewrite app_nil_r.
    - exists w. cbn [map fst snd]. rewrite Hnext, !app_nil_r. done. }
  destruct Hstep as (w' & -> & Hr' & Hp' & Hl' & Href). cbn [fst snd] in *.
  assert (flat_map (prefixFilters b installed) prefixes = ruleFilters b installed) as Heq
    by (unfold ruleFilters, rulePrefixes; by rewrite Hprefixes).
  rewrite Heq in *. fold log' in Hr'. exists w'. split; [done|]. split; [done|]. split.
  - rewrite Hp'. apply preferencesAt_step; [done|done|]. by rewrite <- Hp'.
  - intros key. unfold log'. rewrite refsFrom_app. cbn [app]. specialize (Hf key) as Hfk.
    destruct (in_dynamicKey installed) as [key'|] eqn:Hkey.
    + destruct (decide (key' = key)) as [->|Hne].
      * specialize (Href key eq_refl). cbn [app] in Href. fold gem. fold gem in Href. rewrite <- Href. case_bool_decide as Hn; [by rewrite Hn, app_nil_r|].
        by rewrite lookup_insert_eq, Hfk, default_nonEmpty, nonEmpty_app.
      * rewrite (refsFrom_other _ _ _ _ _ installed), app_nil_r; [|apply acceptOf_ruleFilters|congruence].
        case_bool_decide; [done|]. by rewrite lookup_insert_ne.
    + rewrite (refsFrom_other _ _ _ _ _ installed), app_nil_r; [done|apply acceptOf_ruleFilters|congruence].
Qed.

(** The loop over the control rules. *)
Lemma controls_region rules (b : LinuxBackend) (w : W) preferences s' :
  region interfaceName D 10 [] T0 (tcFilters w) → (∀ rule, rule ∈ rules → D (dr_gemPortID rule)) →
  foldL (installControl interfaceName) rules ∅ (b, w) = (Ok preferences, s') →
  let log := flat_map (λ rule, map (pair (dr_gemPortID rule)) (controlFilters rule)) rules in
  ∃ w', s' = (b, w') ∧ region interfaceName D 10 log T0 (tcFilters w') ∧ preferencesAt D 10 1000 preferences log.
Proof.
  intros Hr HD Hloop.
  refine (foldL_inv (λ preferences done s, ∃ w', s = (b, w') ∧
    let log := flat_map (λ rule, map (pair (dr_gemPortID rule)) (controlFilters rule)) done in
    region interfaceName D 10 log T0 (tcFilters w') ∧ preferencesAt D 10 1000 preferences log) _ _ _ _ _ _ _ _ Hloop).
  - intros acc done rule s acc' s2 Hin (w1 & -> & Hr1 & Hp1) Hs. cbv zeta. rewrite flat_map_app. cbn [flat_map].
    rewrite app_nil_r. exact (installControl_region _ _ _ _ _ _ _ Hr1 Hp1 (HD _ Hin) Hs).
  - exists w. split; [done|]. split; [done|]. by apply preferencesAt_nil.
Qed.

(** The loop over the rules. *)
Lemma rules_region rules (b : LinuxBackend) (w : W) acc s' :
  region interfaceName D 1000 [] T0 (tcFilters w) → (∀ installed, installed ∈ rules → D (dr_gemPortID (in_rule installed))) →
  foldL (installRule interfaceName) rules (∅, ∅) (b, w) = (Ok acc, s') →
  let log := flat_map (λ installed, map (pair (dr_gemPortID (in_rule installed))) (ruleFilters b installed)) rules in
  ∃ w', s' = (b, w') ∧ region interfaceName D 1000 log T0 (tcFilters w') ∧
    preferencesAt D 1000 64000 acc.1 log ∧ filtersAt interfaceName acc.2 log.
Proof.
  intros Hr HD Hloop.
  refine (foldL_inv (λ acc done s, ∃ w', s = (b, w') ∧
    let log := flat_map (λ installed, map (pair (dr_gemPortID (in_rule installed))) (ruleFilters b installed)) done in
    region interfaceName D 1000 log T0 (tcFilters w') ∧ preferencesAt D 1000 64000 acc.1 log ∧
    filtersAt interfaceName acc.2 log) _ _ _ _ _ _ _ _ Hloop).
  - intros acc0 done installed s acc' s2 Hin (w1 & -> & Hr1 & Hp1 & Hf1) Hs. cbv zeta. rewrite flat_map_app.
    cbn [flat_map]. rewrite app_nil_r. exact (installRule_region _ _ _ _ _ _ _ Hr1 Hp1 Hf1 (HD _ Hin) Hs).
  - exists w. split; [done|]. split; [done|]. split; [by apply preferencesAt_nil|done].
Qed.
End loops.

(** ** Accept filters *)

(** Every accept filter is of a rule, a prefix and a variant that [Q] allows, and comes after the
    filters of the sources its rule excludes. *)
Definition guarded (b : LinuxBackend) (Q : installedDownstreamRule → Addr * Z → downstreamVariant → Prop)
    (fs : list slotFilter) : Prop :=
  ∀ i installed prefix variant, fs !! i = Some (AcceptFilter installed prefix variant) →
    Q installed prefix variant ∧
    ∀ source, source ∈ excludedSources b installed →
      ∃ j, (j < i)%nat ∧ fs !! j = Some (ExcludeFilter installed prefix variant source).

Lemma lookup_flat_map_Some {A B} (f : A → list B) l i y :
  flat_map f l !! i = Some y →
  ∃ x n j, x ∈ l ∧ f x !! j = Some y ∧ i = (n + j)%nat ∧
    ∀ j' z, f x !! j' = Some z → flat_map f l !! (n + j')%nat = Some z.
Proof.
  revert i. induction l as [|a l IH]; intros i Hi; [done|]. cbn [flat_map] in *.
  apply lookup_app_Some in Hi as [Hi|[Hle Hi]].
  - exists a, O, i. split; [by left|]. split; [done|]. split; [done|]. intros j z Hz. by apply lookup_app_l_Some.
  - destruct (IH _ Hi) as (x & n & j & Hx & Hj & Heq & Hf). exists x, (length (f a) + n)%nat, j.
    split; [by right|]. split; [done|]. split; [lia|]. intros j' z Hz. rewrite lookup_app_r by lia.
    replace (length (f a) + n + j' - length (f a))%nat with (n + j')%nat by lia. by apply Hf.
Qed.

Lemma guarded_flat_map {A} b Q (f : A → list slotFilter) l :
  (∀ x, x ∈ l → guarded b Q (f x)) → guarded b Q (flat_map f l).
Proof.
  intros Hf i installed prefix variant Hi. apply lookup_flat_map_Some in Hi as (x & n & j & Hx & Hj & -> & Hl).
  destruct (Hf x Hx j _ _ _ Hj) as [HQ Hs]. split; [done|]. intros source Hsource.
  destruct (Hs source Hsource) as (j' & Hlt & Hj'). exists (n + j')%nat. split; [lia|]. by apply Hl.
Qed.

Lemma guarded_variantFilters b (Q : _ → _ → _ → Prop) installed prefix variant :
  Q installed prefix variant → guarded b Q (variantFilters b installed prefix variant).
Proof.
  intros HQ i installed' prefix' variant' Hi. unfold variantFilters in Hi.
  apply lookup_app_Some in Hi as [Hi|[Hle Hi]].
  - apply list_lookup_fmap_Some in Hi as (source & ? & _). done.
  - apply list_lookup_singleton_Some in Hi as [Hi [= <- <- <-]]. split; [done|]. intros source Hs.
    apply list_elem_of_lookup_1 in Hs as [j Hj]. exists j. pose proof (lookup_lt_Some _ _ _ Hj) as Hlt.
    rewrite length_map in Hle, Hi. split; [lia|]. apply lookup_app_l_Some. rewrite list_lookup_fmap. by rewrite Hj.
Qed.

(** ** Rebuilding an interface *)

Section rebuild.
Context {MR : MapRange} {GS : GoSort}.

(** The accept filters of a GEM port are those of its rules. *)
Lemma gemRules_guarded b interfaceName gem :
  guarded b (λ installed prefix variant,
      installed ∈ installedRules b interfaceName ∧ dr_gemPortID (in_rule installed) = gem ∧
      prefix ∈ rulePrefixes (in_rule installed) ∧
      variant ∈ downstreamVariants (dr_aniVLAN (in_rule installed)) (Is4 prefix.1))
    (gemRules b interfaceName gem).
Proof.
  apply guarded_flat_map. intros installed Hin. rewrite list_elem_of_In, filter_In in Hin.
  destruct Hin as [Hin Hg%Z.eqb_eq]. apply list_elem_of_In in Hin.
  apply guarded_flat_map. intros prefix Hp. apply guarded_flat_map. intros variant Hv.
  by apply guarded_variantFilters.
Qed.

Lemma gemRules_accept b interfaceName gem i installed prefix variant :
  gemRules b interfaceName gem !! i = Some (AcceptFilter installed prefix variant) →
  installed ∈ installedRules b interfaceName ∧ dr_gemPortID (in_rule installed) = gem.
Proof. intros Hi. destruct (gemRules_guarded b interfaceName gem i _ _ _ Hi) as [(? & ? & _) _]. done. Qed.

(** The GEM ports of the rules are the desired ones. *)
Lemma desiredGEMs_spec b interfaceName gem :
  is_Some (desiredGEMs b interfaceName !! gem) ↔
  ∃ rule, rule ∈ rulesOf (lb_control b) interfaceName ++ rulesOf (lb_static b) interfaceName ++
                 map snd (dynamicRulesOf b interfaceName) ∧ dr_gemPortID rule = gem.
Proof.
  unfold desiredGEMs. generalize (rulesOf (lb_control b) interfaceName ++ rulesOf (lb_static b) interfaceName ++
    map snd (dynamicRulesOf b interfaceName)) as rules.
  assert (∀ rules (gems : gmap Z unit), is_Some (fold_left (λ gems rule, <[dr_gemPortID rule := tt]> gems) rules gems !! gem) ↔
    is_Some (gems !! gem) ∨ ∃ rule, rule ∈ rules ∧ dr_gemPortID rule = gem) as Hfold.
  { intros rules. induction rules as [|rule rules IH]; intros gems; cbn [fold_left].
    - split; [by left|]. intros [?|(rule & ?%not_elem_of_nil & _)]; done.
    - rewrite IH, lookup_insert_is_Some. setoid_rewrite elem_of_cons. split.
      + intros [[<-|[_ ?]]|(r & ? & ?)]; [right; exists rule; auto|by left|right; exists r; auto].
      + intros [?|(r & [->|?] & <-)]; [|left; by left|right; eauto].
        left. destruct (decide (dr_gemPortID rule = gem)); auto. }
  intros rules. rewrite Hfold, lookup_empty. split; [intros [[? ?]|?]; done|by right].
Qed.

Lemma desiredGEMs_control b interfaceName rule :
  rule ∈ sortSlice controlLess (rulesOf (lb_control b) interfaceName) →
  is_Some (desiredGEMs b interfaceName !! dr_gemPortID rule).
Proof.
  rewrite sortSlice_perm. intros Hin. apply desiredGEMs_spec. exists rule. split; [|done]. apply elem_of_app. by left.
Qed.

Lemma desiredGEMs_installed b interfaceName installed :
  installed ∈ installedRules b interfaceName →
  is_Some (desiredGEMs b interfaceName !! dr_gemPortID (in_rule installed)).
Proof.
  unfold installedRules. rewrite sortSlice_perm, elem_of_app. intros Hin. apply desiredGEMs_spec.
  exists (in_rule installed). split; [|done]. rewrite !elem_of_app. right. destruct Hin as [Hin|Hin].
  - right. apply list_elem_of_fmap in Hin as ([key rule] & -> & Hin). by apply (list_elem_of_fmap_2 snd _ (key, rule)).
  - left. apply list_elem_of_fmap in Hin as (rule & -> & Hin). done.
Qed.

(** The slots of the two kinds of chain. *)
Definition entrySlot (interfaceName : string) (preference : Z) : filterSlot :=
  ((interfaceName, multicastDownstreamChain), preference).
Definition gemSlot (interfaceName : string) (gem preference : Z) : filterSlot :=
  ((interfaceName, multicastGEMChain gem), preference).

(** The tables between the steps of a rebuild: after the deletes, after the filters of the entry
    chain, after the control rules, after the rules, after the drops of the GEM ports. *)
Record rebuilding (interfaceName : string) (gems : list Z) (logC logR : list (Z * slotFilter))
    (Ta Tb Tc Td Te Tf : filterTable) : Prop := {
  rb_range gem : gem ∈ gems → 0 ≤ gem ≤ 4095;
  rb_entry preference : Ta !! entrySlot interfaceName preference = None;
  rb_gem gem preference : gem ∈ gems → Ta !! gemSlot interfaceName gem preference = None;
  rb_goto gem : gem ∈ gems → Tb !! entrySlot interfaceName (100 + gem) = Some (gotoGEM interfaceName gem);
  rb_Tb slot : slot ∉ map (λ gem, entrySlot interfaceName (100 + gem)) gems →
    Tb !! slot = (<[entrySlot interfaceName 1 := passQueries interfaceName]> Ta : filterTable) !! slot;
  rb_controls : region interfaceName (.∈ gems) 10 logC Tb Tc;
  rb_controlsEnd gem : gem ∈ gems → nextFree 10 logC gem < 1000;
  rb_rules : region interfaceName (.∈ gems) 1000 logR Tc Td;
  rb_rulesEnd gem : gem ∈ gems → nextFree 1000 logR gem < 64000;
  rb_drop gem : gem ∈ gems →
    Te !! gemSlot interfaceName gem 65000 = Some (dropRest interfaceName (multicastGEMChain gem));
  rb_Te slot : slot ∉ map (λ gem, gemSlot interfaceName gem 65000) gems → Te !! slot = Td !! slot;
  rb_Tf : Tf = <[entrySlot interfaceName 65000 := dropRest interfaceName multicastDownstreamChain]> Te
}.

Lemma gemSlot_entrySlot interfaceName gem preference preference' :
  0 ≤ gem → gemSlot interfaceName gem preference ≠ entrySlot interfaceName preference'.
Proof.
  intros Hg [= Heq _]. unfold multicastGEMChain, multicastGEMChainBase, multicastDownstreamChain in Heq. lia.
Qed.

Section tables.
Context (interfaceName : string) (gems : list Z) (logC logR : list (Z * slotFilter)) (Ta Tb Tc Td Te Tf : filterTable).
Context (HT : rebuilding interfaceName gems logC logR Ta Tb Tc Td Te Tf).

(** Slots that are of no chain of a GEM port of the interface. *)
Lemma rebuilding_other slot :
  (∀ gem preference, gem ∈ gems → slot ≠ gemSlot interfaceName gem preference) →
  Tf !! slot = (<[entrySlot interfaceName 65000 := dropRest interfaceName multicastDownstreamChain]> Tb : filterTable) !! slot.
Proof.
  intros Hs. rewrite (rb_Tf _ _ _ _ _ _ _ _ _ _ HT).
  assert (Te !! slot = Tb !! slot) as Heq.
  { rewrite (rb_Te _ _ _ _ _ _ _ _ _ _ HT), (region_out _ _ _ _ _ _ (rb_rules _ _ _ _ _ _ _ _ _ _ HT)),
      (region_out _ _ _ _ _ _ (rb_controls _ _ _ _ _ _ _ _ _ _ HT)); [done| | |].
    - intros gem preference Hg _. by apply Hs.
    - intros gem preference Hg _. by apply Hs.
    - intros (gem & -> & Hg)%list_elem_of_fmap. by eapply Hs. }
  destruct (decide (slot = entrySlot interfaceName 65000)) as [->|Hne]; [by rewrite !lookup_insert_eq|].
  by rewrite !lookup_insert_ne by done.
Qed.

Lemma rebuilding_entry preference :
  Tf !! entrySlot interfaceName preference =
    if preference =? 65000 then Some (dropRest interfaceName multicastDownstreamChain)
    else if preference =? 1 then Some (passQueries interfaceName)
    else if bool_decide (preference - 100 ∈ gems) then Some (gotoGEM interfaceName (preference - 100)) else None.
Proof.
  rewrite rebuilding_other.
  2: { intros gem p Hg Heq. symmetry in Heq. apply gemSlot_entrySlot in Heq; [done|].
       apply (rb_range _ _ _ _ _ _ _ _ _ _ HT gem Hg). }
  destruct (Z.eqb_spec preference 65000) as [->|H65]; [by rewrite lookup_insert_eq|].
  rewrite lookup_insert_ne by (intros [= ?]; lia).
  case_bool_decide as Hg.
  - pose proof (rb_range _ _ _ _ _ _ _ _ _ _ HT _ Hg) as Hr. destruct (Z.eqb_spec preference 1) as [->|H1]; [lia|].
    pose proof (rb_goto _ _ _ _ _ _ _ _ _ _ HT _ Hg) as Hb. by replace (100 + (preference - 100)) with preference in Hb by lia.
  - rewrite (rb_Tb _ _ _ _ _ _ _ _ _ _ HT).
    + destruct (Z.eqb_spec preference 1) as [->|H1]; [by rewrite lookup_insert_eq|].
      rewrite lookup_insert_ne by (intros [= ?]; lia). apply (rb_entry _ _ _ _ _ _ _ _ _ _ HT).
    + intros (gem & [= Heq] & Hin)%list_elem_of_fmap. apply Hg. by replace (preference - 100) with gem by lia.
Qed.

(** The slots of a GEM port before the rules. *)
Lemma rebuilding_before gem preference :
  gem ∈ gems → preference < 10 ∨ 1000 ≤ preference → Tc !! gemSlot interfaceName gem preference = None.
Proof.
  intros Hg [Hp|Hp].
  - rewrite (region_out _ _ _ _ _ _ (rb_controls _ _ _ _ _ _ _ _ _ _ HT)); [|intros g p _ Hp' [= _ ?]; lia].
    rewrite (rb_Tb _ _ _ _ _ _ _ _ _ _ HT), lookup_insert_ne.
    + by apply (rb_gem _ _ _ _ _ _ _ _ _ _ HT).
    + intros Heq. symmetry in Heq. apply gemSlot_entrySlot in Heq; [done|]. apply (rb_range _ _ _ _ _ _ _ _ _ _ HT gem Hg).
    + intros (g & Heq & _)%list_elem_of_fmap. apply gemSlot_entrySlot in Heq; [done|].
      apply (rb_range _ _ _ _ _ _ _ _ _ _ HT gem Hg).
  - pose proof (region_in _ _ _ _ _ _ (rb_controls _ _ _ _ _ _ _ _ _ _ HT) gem preference Hg ltac:(lia)) as Hin.
    pose proof (rb_controlsEnd _ _ _ _ _ _ _ _ _ _ HT gem Hg) as Hl. unfold nextFree in Hl.
    by rewrite lookup_ge_None_2 in Hin by lia.
Qed.

Lemma rebuilding_gem gem preference : gem ∈ gems →
  filterAt interfaceName preference
    (if preference =? 65000 then Some (DropFilter (multicastGEMChain gem))
     else if 1000 <=? preference then ofGEM gem logR !! Z.to_nat (preference - 1000)
     else if 10 <=? preference then ofGEM gem logC !! Z.to_nat (preference - 10) else None)
    (Tf !! gemSlot interfaceName gem preference).
Proof.
  intros Hg. pose proof (rb_range _ _ _ _ _ _ _ _ _ _ HT gem Hg) as Hr.
  rewrite (rb_Tf _ _ _ _ _ _ _ _ _ _ HT), lookup_insert_ne
    by (intros Heq; symmetry in Heq; apply gemSlot_entrySlot in Heq; [done|lia]).
  destruct (Z.eqb_spec preference 65000) as [->|H65].
  { rewrite (rb_drop _ _ _ _ _ _ _ _ _ _ HT) by done. by eexists. }
  rewrite (rb_Te _ _ _ _ _ _ _ _ _ _ HT) by (intros (g & [= _ ?] & _)%list_elem_of_fmap; lia).
  destruct (Z.leb_spec 1000 preference) as [Hp|Hp].
  - by apply (region_in _ _ _ _ _ _ (rb_rules _ _ _ _ _ _ _ _ _ _ HT)).
  - rewrite (region_out _ _ _ _ _ _ (rb_rules _ _ _ _ _ _ _ _ _ _ HT)) by (intros g p _ Hp' [= _ ?]; lia).
    destruct (Z.leb_spec 10 preference) as [Hp'|Hp'].
    + by apply (region_in _ _ _ _ _ _ (rb_controls _ _ _ _ _ _ _ _ _ _ HT)).
    + apply rebuilding_before; [done|lia].
Qed.
End tables.

(** The rules of the backend are the same. *)
Definition sameRules (b b' : LinuxBackend) : Prop :=
  lb_pon b' = lb_pon b ∧ lb_control b' = lb_control b ∧ lb_static b' = lb_static b ∧ lb_dynamic b' = lb_dynamic b.

Lemma chainsHold_same b b' interfaceName T : sameRules b b' → chainsHold b interfaceName T → chainsHold b' interfaceName T.
Proof. destruct b, b'. unfold sameRules. cbn. by intros (-> & -> & -> & ->). Qed.

Lemma gemRules_same b b' interfaceName gem : sameRules b b' → gemRules b' interfaceName gem = gemRules b interfaceName gem.
Proof. destruct b, b'. unfold sameRules. cbn. by intros (-> & -> & -> & ->). Qed.

(** The references kept for the streams of an interface are those to their accept filters, each
    where it is. *)
Definition streamsHold (b : LinuxBackend) (interfaceName : string) : Prop :=
  ∀ key r, dk_interfaceName key = interfaceName →
    r ∈ default [] (lb_filters b !! key) ↔
    ∃ gem i installed prefix variant,
      gemRules b interfaceName gem !! i = Some (AcceptFilter installed prefix variant) ∧
      in_dynamicKey installed = Some key ∧ r = mkRef interfaceName (multicastGEMChain gem) (1000 + Z.of_nat i).

Context {W : Type} `{TK : TcKernel W}.

(** A rebuild touches the chains of its interface only: those of the GEM ports it had and has. *)
Definition touchedChain (b : LinuxBackend) (interfaceName : string) (chain : string * Z) : Prop :=
  chain = (interfaceName, multicastDownstreamChain) ∨
  ∃ gem, (is_Some (desiredGEMs b interfaceName !! gem) ∨ is_Some (default ∅ (lb_chains b !! interfaceName) !! gem)) ∧
         chain = (interfaceName, multicastGEMChain gem).

(** The deletes empty the chains a rebuild touches, and no other. *)
Lemma rebuild_deletes b b1 (w : W) interfaceName :
  let touched := desiredGEMs b interfaceName ∪ default ∅ (lb_chains b !! interfaceName) in
  ∃ w', forL (range touched) (λ '(gem, _), tryTC (deleteChain interfaceName (multicastGEMChain gem)))
          (b1, (Run (deleteChain interfaceName multicastDownstreamChain) w).2) = (Ok tt, (b1, w')) ∧
    (∀ slot, touchedChain b interfaceName slot.1 → tcFilters w' !! slot = None) ∧
    (∀ slot, ¬ touchedChain b interfaceName slot.1 → tcFilters w' !! slot = tcFilters w !! slot).
Proof.
  intros touched.
  edestruct (forL_delete (λ p : Z * unit, multicastGEMChain p.1) interfaceName (range touched)) as (w' & -> & Hw');
    [by intros []|].
  exists w'. split; [done|]. split; intros slot Hs; rewrite Hw', tc_delete; case_bool_decide as Hin.
  - done.
  - apply map_lookup_filter_None. right. intros arguments _ Hf. destruct Hs as [Hs|(gem & Hg & Hs)]; [by apply Hf|].
    apply Hin. rewrite Hs. assert (is_Some (touched !! gem)) as [[] Ht] by (unfold touched; by rewrite lookup_union_is_Some).
    apply (list_elem_of_fmap_2 (λ p : Z * unit, (interfaceName, multicastGEMChain p.1)) _ (gem, tt)).
    by apply elem_of_range.
  - exfalso. apply Hs. apply list_elem_of_fmap in Hin as ([gem []] & Heq & Hin%elem_of_range). right. exists gem.
    split; [|done]. assert (is_Some (touched !! gem)) as Ht by eauto. unfold touched in Ht.
    by rewrite lookup_union_is_Some in Ht.
  - destruct (tcFilters w !! slot) as [arguments|] eqn:Hw; [apply map_lookup_filter_Some|apply map_lookup_filter_None; by left].
    split; [done|]. intros Heq. apply Hs. by left.
Qed.

(** The GEM ports of a rebuild, in order. *)
Lemma elem_of_desired b interfaceName gem :
  gem ∈ sortedKeys Z.le (desiredGEMs b interfaceName) ↔ is_Some (desiredGEMs b interfaceName !! gem).
Proof. apply elem_of_sortedKeys. Qed.

Definition controlLog (b : LinuxBackend) (interfaceName : string) : list (Z * slotFilter) :=
  flat_map (λ rule, map (pair (dr_gemPortID rule)) (controlFilters rule))
    (sortSlice controlLess (rulesOf (lb_control b) interfaceName)).
Definition ruleLog (b : LinuxBackend) (interfaceName : string) : list (Z * slotFilter) :=
  flat_map (λ installed, map (pair (dr_gemPortID (in_rule installed))) (ruleFilters b installed))
    (installedRules b interfaceName).

(** The steps of a rebuild that ends well. *)
Lemma rebuild_steps b (w : W) interfaceName u s' :
  gemsInRange b interfaceName → rebuild interfaceName (b, w) = (Ok u, s') →
  let gems := sortedKeys Z.le (desiredGEMs b interfaceName) in
  ∃ w' filters Ta Tb Tc Td Te,
    s' = (set_chains (set_baselines (set_filters b
             (filters ∪ filter (λ '(key, _), dk_interfaceName key ≠ interfaceName) (lb_filters b)))
             (filter (λ '(key, _), dk_interfaceName key ≠ interfaceName) (lb_baselines b)))
           (<[interfaceName := desiredGEMs b interfaceName]> (lb_chains b)), w') ∧
    rebuilding interfaceName gems (controlLog b interfaceName) (ruleLog b interfaceName) Ta Tb Tc Td Te (tcFilters w') ∧
    (∀ slot, touchedChain b interfaceName slot.1 → Ta !! slot = None) ∧
    (∀ slot, ¬ touchedChain b interfaceName slot.1 → Ta !! slot = tcFilters w !! slot) ∧
    filtersAt interfaceName filters (ruleLog b interfaceName).
Proof.
  intros Hrange H1 gems. unfold rebuild in H1. bind_ok H1 b0 Hget. injection Hget as <- <-. cbn [fst] in H1.
  bind_ok H1 u1 Hput. injection Hput as <- <-. cbn [snd] in H1. set (b1 := set_chains b _) in H1.
  bind_ok H1 u2 Hdel. rewrite tryTC_eq in Hdel. injection Hdel as <- <-.
  bind_ok H1 u3 Hdel. destruct (rebuild_deletes b b1 w interfaceName) as (wa & Ha & Htouched & Huntouched).
  rewrite Ha in Hdel. clear Ha. injection Hdel as <- <-.
  assert (∀ gem, gem ∈ gems → 0 ≤ gem ≤ 4095) as Hr by (intros gem Hg; by apply Hrange, elem_of_desired).
  assert (∀ preference, tcFilters wa !! entrySlot interfaceName preference = None) as HaE by (intros; apply Htouched; by left).
  assert (∀ gem preference, gem ∈ gems → tcFilters wa !! gemSlot interfaceName gem preference = None) as HaG.
  { intros gem preference Hg%elem_of_desired. apply Htouched. right. exists gem. auto. }
  bind_ok H1 u4 Hpass. destruct (runTC_install _ (entrySlot interfaceName 1) _ _ _ _ Hpass eq_refl (HaE 1)) as (wp & -> & Hwp).
  bind_ok H1 u5 Hgoto.
  apply (forL_install (λ gem, entrySlot interfaceName (100 + gem)) (gotoGEM interfaceName)) in Hgoto as (wb & -> & HbI & HbO);
    [|done| |apply NoDup_fmap_2_strong; [intros ? ? _ _ [= ?]; lia|apply NoDup_sortedKeys]].
  2: { intros gem Hg. rewrite Hwp, lookup_insert_ne by (specialize (Hr gem Hg); intros [= ?]; lia). apply HaE. }
  assert (region interfaceName (.∈ gems) 10 [] (tcFilters wb) (tcFilters wb)) as Hreg.
  { apply region_nil. intros gem preference Hg _. specialize (Hr gem Hg).
    change (tcFilters wb !! gemSlot interfaceName gem preference = None). rewrite HbO, Hwp, lookup_insert_ne; [by apply HaG| |].
    - intros Heq. symmetry in Heq. apply gemSlot_entrySlot in Heq; [done|lia].
    - intros (g & Heq & _)%list_elem_of_fmap. apply gemSlot_entrySlot in Heq; [done|lia]. }
  bind_ok H1 preferences Hcontrols.
  apply (controls_region interfaceName (.∈ gems) (tcFilters wb)) in Hcontrols as (wc & -> & HcR & HcP);
    [|done|intros rule Hin; by apply elem_of_desired, desiredGEMs_control].
  apply bindL_ok in H1 as ([preferences2 filters] & s2 & Hrules & H1).
  apply (rules_region interfaceName (.∈ gems) (tcFilters wc)) in Hrules as (wd & -> & HdR & HdP & HdF);
    [|apply region_nil; intros gem preference Hg Hp|intros installed Hin; by apply elem_of_desired, desiredGEMs_installed].
  2: { destruct (HcP gem Hg) as [_ Hl]. unfold nextFree in Hl.
       pose proof (region_in _ _ _ _ _ _ HcR gem preference Hg ltac:(lia)) as Hin.
       by rewrite lookup_ge_None_2 in Hin by lia. }
  bind_ok H1 u6 Hdrops.
  apply (forL_install (λ gem, gemSlot interfaceName gem 65000) (λ gem, dropRest interfaceName (multicastGEMChain gem)))
    in Hdrops as (we & -> & HeI & HeO); [|done| |apply NoDup_fmap_2_strong; [|apply NoDup_sortedKeys]].
  2: { intros gem Hg. destruct (HdP gem Hg) as [_ Hl]. unfold nextFree in Hl.
       pose proof (region_in _ _ _ _ _ _ HdR gem 65000 Hg ltac:(lia)) as Hin.
       by rewrite lookup_ge_None_2 in Hin by lia. }
  2: { intros g h _ _ [= Heq]. by apply multicastGEMChain_inj. }
  bind_ok H1 u7 Hlast. 
  destruct (runTC_install _ (entrySlot interfaceName 65000) _ _ _ _ Hlast eq_refl) as (wf & -> & Hwf).
  { assert (∀ gem preference preference', gem ∈ gems →
      entrySlot interfaceName preference ≠ gemSlot interfaceName gem preference') as Hne.
    { intros gem preference preference' Hg Heq. symmetry in Heq. apply gemSlot_entrySlot in Heq; [done|].
      specialize (Hr gem Hg). lia. }
    rewrite HeO, (region_out _ _ _ _ _ _ HdR), (region_out _ _ _ _ _ _ HcR), HbO, Hwp, lookup_insert_ne; [apply HaE|..].
    - by intros [= ?].
    - intros (gem & [= Heq] & Hg)%list_elem_of_fmap. specialize (Hr gem Hg). lia.
    - intros gem preference Hg _. by apply Hne.
    - intros gem preference Hg _. by apply Hne.
    - intros (gem & Heq & Hg)%list_elem_of_fmap. by apply Hne in Heq. }
  bind_ok H1 b8 Hget. injection Hget as <- <-. injection H1 as _ <-.
  exists wf, filters, (tcFilters wa), (tcFilters wb), (tcFilters wc), (tcFilters wd), (tcFilters we).
  split; [unfold b1, set_baselines, set_filters, set_chains; cbn; by rewrite insert_insert_eq|]. split; [|by split; [|split]]. split; try done.
  - intros slot Hs. by rewrite HbO, Hwp.
  - intros gem Hg. by apply HcP.
  - intros gem Hg. by apply HdP.
Qed.

(** tc holds what the backend says of an interface: its chains, filters of no other GEM port, and
    the references of its streams. *)
Definition interfaceHolds (b : LinuxBackend) (w : W) (interfaceName : string) : Prop :=
  chainsHold b interfaceName (tcFilters w) ∧ streamsHold b interfaceName ∧
  ∀ gem preference, 0 ≤ gem → is_Some (tcFilters w !! gemSlot interfaceName gem preference) →
    is_Some (desiredGEMs b interfaceName !! gem).

(** Every filter in the chain of a GEM port is one the backend knows of. *)
Definition noStrays (b : LinuxBackend) (w : W) : Prop :=
  ∀ interfaceName gem preference, 0 ≤ gem → is_Some (tcFilters w !! gemSlot interfaceName gem preference) →
    is_Some (default ∅ (lb_chains b !! interfaceName) !! gem).

(** Nothing has changed for an interface. *)
Definition untouched (interfaceName : string) (s s' : LinuxBackend * W) : Prop :=
  (∀ slot, slot.1.1 = interfaceName → tcFilters s'.2 !! slot = tcFilters s.2 !! slot) ∧
  (∀ key, dk_interfaceName key = interfaceName → lb_filters s'.1 !! key = lb_filters s.1 !! key).

Lemma interfaceHolds_untouched b b' w w' interfaceName :
  sameRules b b' → untouched interfaceName (b, w) (b', w') → interfaceHolds b w interfaceName →
  interfaceHolds b' w' interfaceName.
Proof.
  intros Hs [Hslots Hkeys] ((HG & HE & HB) & HS & HN). cbn [fst snd] in *.
  assert (∀ gem, desiredGEMs b' interfaceName !! gem = desiredGEMs b interfaceName !! gem) as Hd
    by (destruct b, b'; destruct Hs as (? & ? & ? & ?); cbn in *; by subst).
  split; [|split].
  - apply (chainsHold_same b); [done|]. split; [intros gem preference Hg; rewrite Hslots by done; exact (HG gem preference Hg)|].
    split; [intros preference; rewrite Hslots by done; exact (HE preference)|exact HB].
  - intros key r Hkey. rewrite Hkeys by done. rewrite (HS key r Hkey).
    by setoid_rewrite (gemRules_same b b' _ _ Hs).
  - intros gem preference Hg. rewrite Hslots by done. rewrite Hd. by apply HN.
Qed.

Lemma ofGEM_controlLog b interfaceName gem : ofGEM gem (controlLog b interfaceName) = gemControls b interfaceName gem.
Proof. apply (ofGEM_flat_map gem dr_gemPortID controlFilters). Qed.
Lemma ofGEM_ruleLog b interfaceName gem : ofGEM gem (ruleLog b interfaceName) = gemRules b interfaceName gem.
Proof. apply (ofGEM_flat_map gem (λ installed, dr_gemPortID (in_rule installed)) (ruleFilters b)). Qed.

Lemma installed_interface b interfaceName installed :
  installed ∈ installedRules b interfaceName →
  match in_dynamicKey installed with Some key => dk_interfaceName key = interfaceName | None => True end.
Proof.
  unfold installedRules. rewrite sortSlice_perm, elem_of_app. intros [Hin|Hin].
  - apply list_elem_of_fmap in Hin as ([key rule] & -> & Hin). cbn. unfold dynamicRulesOf in Hin.
    by apply list_elem_of_filter in Hin as [? _].
  - by apply list_elem_of_fmap in Hin as (rule & -> & _).
Qed.

(** A rebuild that ends well leaves the chains of its interface as they are meant to be. *)
Lemma rebuild_holds b (w : W) interfaceName u s' :
  gemsInRange b interfaceName → noStrays b w → rebuild interfaceName (b, w) = (Ok u, s') →
  ∃ b' w', s' = (b', w') ∧ sameRules b b' ∧ interfaceHolds b' w' interfaceName ∧ noStrays b' w' ∧
    ∀ other, other ≠ interfaceName → untouched other (b, w) (b', w').
Proof.
  intros Hrange Hstrays H1.
  destruct (rebuild_steps _ _ _ _ _ Hrange H1) as (w' & filters & Ta & Tb & Tc & Td & Te & -> & HT & Htouched & Huntouched & Hf).
  eexists _, w'. split; [done|]. set (b' := set_chains _ _).
  assert (sameRules b b') as Hsame by done. split; [done|].
  (* a slot of no desired GEM port, outside the entry chain *)
  assert (∀ slot, (∀ preference, slot ≠ entrySlot interfaceName preference) →
    (∀ gem preference, is_Some (desiredGEMs b interfaceName !! gem) → slot ≠ gemSlot interfaceName gem preference) →
    tcFilters w' !! slot = Ta !! slot) as Hother.
  { intros slot He Hg. rewrite (rebuilding_other _ _ _ _ _ _ _ _ _ _ HT) by (intros gem p Hin%elem_of_desired; by apply Hg).
    rewrite lookup_insert_ne, (rb_Tb _ _ _ _ _ _ _ _ _ _ HT), lookup_insert_ne; [done| | |].
    - intros Heq. by apply (He 1).
    - intros (gem & -> & _)%list_elem_of_fmap. by eapply He.
    - intros Heq. by apply (He 65000). }
  assert (∀ gem preference, 0 ≤ gem → desiredGEMs b interfaceName !! gem = None →
    tcFilters w' !! gemSlot interfaceName gem preference = None) as Hretired.
  { intros gem preference Hg Hn. rewrite Hother.
    - destruct (Ta !! gemSlot interfaceName gem preference) eqn:Ha; [|done]. exfalso.
      assert (¬ touchedChain b interfaceName (gemSlot interfaceName gem preference).1) as Ht
        by (intros Ht%Htouched; congruence).
      rewrite Huntouched in Ha by done. apply Ht. right. exists gem. split; [right|done].
      apply (Hstrays interfaceName gem preference Hg). by eexists.
    - intros p Heq. by apply gemSlot_entrySlot in Heq.
    - intros g p [x Hx] [= Heq _]. apply multicastGEMChain_inj in Heq as ->. congruence. }
  assert (∀ slot, slot.1.1 ≠ interfaceName → tcFilters w' !! slot = tcFilters w !! slot) as Hframe.
  { intros slot Hne. rewrite Hother; [|by intros ? ->|by intros ? ? _ ->]. apply Huntouched.
    intros [Heq|(gem & _ & Heq)]; rewrite Heq in Hne; done. }
  split; [split; [|split]|split].
  - apply (chainsHold_same b); [done|]. split; [|split].
    + intros gem preference Hg%elem_of_desired. unfold gemChain. rewrite <- ofGEM_ruleLog, <- ofGEM_controlLog.
      by apply (rebuilding_gem _ _ _ _ _ _ _ _ _ _ HT).
    + intros preference. pose proof (rebuilding_entry _ _ _ _ _ _ _ _ _ _ HT preference) as He. unfold entrySlot in He.
      rewrite He. unfold entryChain. do 2 (case_match; [by eexists|]).
      rewrite (bool_decide_ext (is_Some _) (preference - 100 ∈ sortedKeys Z.le (desiredGEMs b interfaceName)))
        by (symmetry; apply elem_of_desired).
      case_bool_decide; [by eexists|done].
    + intros gem Hg%elem_of_desired. rewrite <- ofGEM_ruleLog, <- ofGEM_controlLog.
      split; [exact (rb_controlsEnd _ _ _ _ _ _ _ _ _ _ HT gem Hg)|exact (rb_rulesEnd _ _ _ _ _ _ _ _ _ _ HT gem Hg)].
  - intros key r Hkey. setoid_rewrite (gemRules_same b b' interfaceName _ Hsame).
    setoid_rewrite <- ofGEM_ruleLog. rewrite <- elem_of_refsFrom, <- (default_nonEmpty (refsFrom _ _ _ _ _)), <- Hf. cbn [b' lb_filters set_chains set_baselines set_filters].
    rewrite lookup_union_l; [done|]. apply map_lookup_filter_None. right. intros refs _ Hne. by apply Hne.
  - intros gem preference Hg Hs. change (desiredGEMs b' interfaceName) with (desiredGEMs b interfaceName).
    destruct (desiredGEMs b interfaceName !! gem) eqn:Hn; [by eexists|]. rewrite Hretired in Hs by done. by destruct Hs.
  - intros other gem preference Hg Hs. cbn [b' lb_chains set_chains].
    destruct (decide (other = interfaceName)) as [->|Hne].
    + rewrite lookup_insert_eq. cbn [default from_option id].
      destruct (desiredGEMs b interfaceName !! gem) eqn:Hn; [by eexists|]. rewrite Hretired in Hs by done. by destruct Hs.
    + rewrite lookup_insert_ne by done. rewrite Hframe in Hs by done. by apply (Hstrays other gem preference).
  - intros other Hne. split; [intros slot Heq; apply Hframe; cbn; congruence|]. intros key Hkey. cbn [fst].
    cbn [b' lb_filters set_chains set_baselines set_filters]. rewrite lookup_union_r.
    + destruct (lb_filters b !! key) as [refs|] eqn:Hk; [apply map_lookup_filter_Some; split; [done|]; congruence|].
      apply map_lookup_filter_None. by left.
    + specialize (Hf key). destruct (refsFrom interfaceName 1000 key [] (ruleLog b interfaceName)) as [|r refs] eqn:Hk; [done|].
      exfalso. assert (r ∈ refsFrom interfaceName 1000 key [] (ruleLog b interfaceName)) as Hr by (rewrite Hk; by left).
      apply elem_of_refsFrom in Hr as (gem & i & installed & prefix & variant & Hi & Hin & _).
      rewrite ofGEM_ruleLog in Hi. apply gemRules_accept in Hi as (Hinst & _). apply installed_interface in Hinst.
      rewrite Hin in Hinst. congruence.
Qed.
End rebuild.
