(* ===== verification/McBackendProps.v ===== *)
(** * Multicast: what the Linux backend makes tc accept

    The properties of McLinux.v: the operations of the backend leave tc with the chains McLinuxProps.v
    defines, those chains accept the addresses of the rules after the sources the rules exclude,
    and an operation that fails puts the rules of the backend back. *)

From S2P Require Import Prelude Maps GoStd Netip McPolicy McReport McRuntime McLinux McPrefixes McLinuxProps.

(** ** The rules in force *)

(** A rule the backend has: a stream of the interface, or a static rule of it. *)
Definition inForce (b : LinuxBackend) (interfaceName : string) (installed : installedDownstreamRule) : Prop :=
  match in_dynamicKey installed with
  | Some key => lb_dynamic b !! key = Some (in_rule installed) ∧ dk_interfaceName key = interfaceName
  | None => in_rule installed ∈ rulesOf (lb_static b) interfaceName
  end.

(** A rule covers an address: it is of the family of its range, and within it. *)
Definition covers (rule : downstreamRule) (a : Addr) : Prop :=
  BitLen a = BitLen (dr_start rule) ∧ BitLen a = BitLen (dr_stop rule) ∧
  addrValue (dr_start rule) ≤ addrValue a ≤ addrValue (dr_stop rule).

Section rules.
Context {MR : MapRange} {GS : GoSort}.

Lemma elem_of_installedRules b interfaceName installed :
  installed ∈ installedRules b interfaceName ↔ inForce b interfaceName installed.
Proof.
  unfold installedRules, inForce. rewrite sortSlice_perm, elem_of_app. destruct installed as [rule [key|]]; cbn.
  - split.
    + intros [Hin|Hin]; apply list_elem_of_fmap in Hin.
      * destruct Hin as ([key' rule'] & [= -> ->] & Hin). unfold dynamicRulesOf in Hin.
        apply list_elem_of_filter in Hin as [Hk Hin]. by apply elem_of_range in Hin.
      * by destruct Hin as (rule' & ? & _).
    + intros [Hk Hi]. left. apply (list_elem_of_fmap_2 (λ '(key, rule), mkInstalled rule (Some key)) _ (key, rule)).
      unfold dynamicRulesOf. apply list_elem_of_filter. split; [done|]. by apply elem_of_range.
  - split.
    + intros [Hin|Hin]; apply list_elem_of_fmap in Hin.
      * by destruct Hin as ([key' rule'] & ? & _).
      * by destruct Hin as (rule' & [= ->] & Hin).
    + intros Hin. right. by apply (list_elem_of_fmap_2 (λ rule, mkInstalled rule None)).
Qed.

(** A rule in force has an accept filter for each of its prefixes and variants. *)
Lemma elem_of_gemRules b interfaceName installed prefix variant :
  inForce b interfaceName installed → prefix ∈ rulePrefixes (in_rule installed) →
  variant ∈ downstreamVariants (dr_aniVLAN (in_rule installed)) (Is4 prefix.1) →
  AcceptFilter installed prefix variant ∈ gemRules b interfaceName (dr_gemPortID (in_rule installed)).
Proof.
  intros Hin Hp%list_elem_of_In Hv%list_elem_of_In. unfold gemRules. apply list_elem_of_In.
  apply in_flat_map. exists installed. split.
  { apply filter_In. split; [by apply list_elem_of_In, elem_of_installedRules|apply Z.eqb_refl]. }
  apply in_flat_map. exists prefix. split; [done|]. apply in_flat_map. exists variant. split; [done|].
  apply in_app_iff. right. by left.
Qed.

(** The prefixes of a rule hold the addresses it covers. *)
Lemma rulePrefixes_cover rule a :
  plainAddr (dr_start rule) → plainAddr (dr_stop rule) →
  covers rule a ↔ ∃ p, p ∈ rulePrefixes rule ∧ Contains p a.
Proof.
  intros Hstart Hstop. unfold rulePrefixes, covers. split.
  - intros (Hb & Hb' & Hr). destruct (addressRangePrefixes (dr_start rule) (dr_stop rule)) as [prefixes|e] eqn:Hp.
    + by apply (range_cover _ _ _ Hstart Hstop Hp).
    + exfalso. unfold addressRangePrefixes in Hp. rewrite Hb in Hb'.
      destruct (negb (IsValid (dr_start rule)) || _ || _ || _) eqn:Hg; [|done]. revert Hg.
      unfold Compare. rewrite Hb', !Z.compare_refl, Z.eqb_refl.
      destruct (dr_start rule) as [|v|v zone], (dr_stop rule) as [|v'|v' zone']; try contradiction; try discriminate Hb';
        cbn [IsValid negb orb addrValue addrZone] in *.
      * destruct (Z.compare_spec v v'); [done|done|lia].
      * destruct Hstart as [_ ->], Hstop as [_ ->]. destruct (Z.compare_spec v v'); [done|done|lia].
  - intros (p & Hp & Hc). destruct (addressRangePrefixes (dr_start rule) (dr_stop rule)) as [prefixes|e] eqn:Hr;
      [|by apply not_elem_of_nil in Hp].
    destruct (range_cover _ _ _ Hstart Hstop Hr) as (Hcov & _ & Hbits & Hstops).
    assert (BitLen a = BitLen (dr_start rule)) as Ha by (rewrite <- (Hbits p Hp); symmetry; apply Hc).
    split; [done|]. split; [congruence|]. apply (Hcov a Ha). by exists p.
Qed.

Lemma Contains_Is4 prefix a : Contains prefix a → Is4 prefix.1 = Is4 a.
Proof. intros [Hb _]. destruct a, (prefix.1); done. Qed.

Lemma gemChain_rules b interfaceName gem i f :
  1000 + Z.of_nat (length (gemRules b interfaceName gem)) < 64000 → gemRules b interfaceName gem !! i = Some f →
  gemChain b interfaceName gem (1000 + Z.of_nat i) = Some f.
Proof.
  intros Hl Hi. pose proof (lookup_lt_Some _ _ _ Hi). unfold gemChain.
  destruct (Z.eqb_spec (1000 + Z.of_nat i) 65000); [lia|]. destruct (Z.leb_spec 1000 (1000 + Z.of_nat i)); [|lia].
  by replace (Z.to_nat (1000 + Z.of_nat i - 1000)) with i by lia.
Qed.

Lemma gemChain_accept b interfaceName gem preference installed prefix variant :
  gemChain b interfaceName gem preference = Some (AcceptFilter installed prefix variant) →
  ∃ i, preference = 1000 + Z.of_nat i ∧ gemRules b interfaceName gem !! i = Some (AcceptFilter installed prefix variant).
Proof.
  unfold gemChain. destruct (Z.eqb_spec preference 65000); [done|]. destruct (Z.leb_spec 1000 preference).
  - intros Hi. exists (Z.to_nat (preference - 1000)). split; [lia|done].
  - destruct (10 <=? preference); [|done]. intros Hi%list_elem_of_lookup_2. exfalso.
    unfold gemControls in Hi. rewrite list_elem_of_In in Hi. apply in_flat_map in Hi as (rule & _ & Hi).
    unfold controlFilters in Hi. apply in_map_iff in Hi as (v & ? & _). done.
Qed.

End rules.

Section enforced.
Context {MR : MapRange} {GS : GoSort} {W : Type} `{TK : TcKernel W}.

(** A filter of the chain of a GEM port is in tc. *)
Lemma interfaceHolds_gem b w interfaceName gem preference f :
  interfaceHolds b w interfaceName → is_Some (desiredGEMs b interfaceName !! gem) →
  gemChain b interfaceName gem preference = Some f →
  ∃ arguments, slotArguments interfaceName preference f = Ok arguments ∧
    tcFilters w !! gemSlot interfaceName gem preference = Some arguments.
Proof. intros ((HG & _ & _) & _) Hg Hf. specialize (HG gem preference Hg). by rewrite Hf in HG. Qed.


(** ** The operations *)

(** The rules a configuration gives the backend: no stream is left. *)
Definition configured (b : LinuxBackend) (tables : ruleTables) : LinuxBackend := set_rules b tables.1 tables.2 ∅.

Lemma recoverL_ok {A} (c : L W A) handler s (r : A) s' :
  (∀ e s r s', handler e s ≠ (Ok r, s')) → recoverL c handler s = (Ok r, s') → c s = (Ok r, s').
Proof. unfold recoverL. intros Hh. destruct (c s) as [[a|e] s1]; [done|]. intros Hr. by apply Hh in Hr. Qed.

Lemma sameRules_trans b b1 b2 : sameRules b b1 → sameRules b1 b2 → sameRules b b2.
Proof. intros (? & ? & ? & ?) (? & ? & ? & ?). repeat split; congruence. Qed.

Lemma gemsInRange_same b b' interfaceName : sameRules b b' → gemsInRange b interfaceName → gemsInRange b' interfaceName.
Proof. destruct b, b'. unfold sameRules. cbn. by intros (-> & -> & -> & ->). Qed.

Lemma untouched_trans interfaceName (s s1 s2 : LinuxBackend * W) :
  untouched interfaceName s s1 → untouched interfaceName s1 s2 → untouched interfaceName s s2.
Proof.
  intros [H1 H2] [H3 H4]. split.
  - intros slot Hs. by rewrite H3, H1.
  - intros key Hk. by rewrite H4, H2.
Qed.

(** Rebuilding interfaces one after the other. *)
Lemma rebuilds_hold b (w : W) interfaces handler u s' :
  (∀ interfaceName e s r s', handler interfaceName e s ≠ (Ok r, s')) →
  (∀ interfaceName, gemsInRange b interfaceName) → noStrays b w →
  forL interfaces (λ interfaceName, recoverL (rebuild interfaceName) (handler interfaceName)) (b, w) = (Ok u, s') →
  ∃ b' w', s' = (b', w') ∧ sameRules b b' ∧ noStrays b' w' ∧
    (∀ interfaceName, interfaceName ∈ interfaces → interfaceHolds b' w' interfaceName) ∧
    (∀ interfaceName, interfaceName ∉ interfaces → untouched interfaceName (b, w) (b', w')).
Proof.
  intros Hhandler Hrange Hstrays Hloop.
  refine (foldL_inv (λ _ done s, ∃ b' w', s = (b', w') ∧ sameRules b b' ∧ noStrays b' w' ∧
    (∀ interfaceName, interfaceName ∈ done → interfaceHolds b' w' interfaceName) ∧
    (∀ interfaceName, interfaceName ∉ done → untouched interfaceName (b, w) (b', w'))) _ _ _ _ _ _ _ _ Hloop).
  - intros _ done x s u' s1 _ (b1 & w1 & -> & Hsame & Hs1 & Hin & Hout) Hx.
    apply recoverL_ok in Hx; [|apply Hhandler].
    destruct (rebuild_holds _ _ _ _ _ (gemsInRange_same _ _ _ Hsame (Hrange x)) Hs1 Hx)
      as (b2 & w2 & -> & Hsame2 & Hh & Hs2 & Hother).
    exists b2, w2. split; [done|]. split; [by eapply sameRules_trans|]. split; [done|]. split.
    + intros i Hi. destruct (decide (i = x)) as [->|Hne]; [done|].
      apply elem_of_app in Hi as [Hi|Hi%list_elem_of_singleton]; [|done].
      eapply interfaceHolds_untouched; [exact Hsame2|by apply Hother|by apply Hin].
    + intros i Hi. rewrite not_elem_of_app, not_elem_of_cons in Hi. destruct Hi as (Hi & Hne & _).
      eapply untouched_trans; [by apply Hout|by apply Hother].
  - exists b, w. do 3 (split; [done|]). split; [by intros i ?%not_elem_of_nil|done].
Qed.
End enforced.

(** ** Rebuilding never changes the rules *)

Section keeps.
Context {MR : MapRange} {GS : GoSort} {W : Type} {H : LinuxHost W}.

Definition keepsRules {A} (c : L W A) : Prop := ∀ b w, sameRules b (c (b, w)).2.1.

Lemma keeps_bind {A B} (c : L W A) (f : A → L W B) : keepsRules c → (∀ a, keepsRules (f a)) → keepsRules (c ≫= f).
Proof.
  intros Hc Hf b w. unfold mbind, L_bind. specialize (Hc b w). destruct (c (b, w)) as [[a|e] [b1 w1]]; cbn in *; [|done].
  eapply sameRules_trans; [exact Hc|apply Hf].
Qed.
Lemma keeps_ret {A} (a : A) : keepsRules (mret a : L W A).
Proof. done. Qed.
Lemma keeps_fail {A} e : keepsRules (failL e : L W A).
Proof. done. Qed.
Lemma keeps_lift {A} (r : Res LinuxError A) : keepsRules (liftL r : L W A).
Proof. done. Qed.
Lemma keeps_get : keepsRules (getL : L W LinuxBackend).
Proof. done. Qed.
Lemma keeps_runTC arguments : keepsRules (runTC arguments).
Proof. intros b w. unfold runTC. by destruct (Run arguments w). Qed.
Lemma keeps_tryTC arguments : keepsRules (tryTC arguments).
Proof. done. Qed.
Lemma keeps_foldL {A S} (f : S → A → L W S) l acc : (∀ acc x, keepsRules (f acc x)) → keepsRules (foldL f l acc).
Proof.
  intros Hf. revert acc. induction l as [|x l IH]; intros acc; [apply keeps_ret|]. cbn [foldL]. by apply keeps_bind.
Qed.

Lemma keeps_installControl interfaceName preferences rule : keepsRules (installControl interfaceName preferences rule).
Proof.
  apply keeps_bind; [|intros; apply keeps_ret]. apply keeps_foldL. intros preference variant.
  apply keeps_bind; [apply keeps_lift|]. intros arguments. apply keeps_bind; [apply keeps_runTC|]. intros _.
  cbv zeta. destruct (1000 <=? preference + 1); [apply keeps_fail|apply keeps_ret].
Qed.

Lemma keeps_installVariant interfaceName installed prefix acc variant :
  keepsRules (installVariant interfaceName installed prefix acc variant).
Proof.
  apply keeps_bind; [apply keeps_get|]. intros b. apply keeps_bind.
  - apply keeps_foldL. intros preference excluded. apply keeps_bind; [apply keeps_lift|]. intros arguments.
    apply keeps_bind; [apply keeps_runTC|intros; apply keeps_ret].
  - intros preference. apply keeps_bind; [apply keeps_lift|]. intros arguments.
    apply keeps_bind; [apply keeps_runTC|]. intros _. cbv zeta.
    destruct (64000 <=? preference + 1); [apply keeps_fail|apply keeps_ret].
Qed.

Lemma keeps_installRule interfaceName acc installed : keepsRules (installRule interfaceName acc installed).
Proof.
  apply keeps_bind; [apply keeps_lift|]. intros prefixes. apply keeps_bind; [|by intros [preference references]].
  apply keeps_foldL. intros acc1 prefix. apply keeps_foldL. intros acc2 variant. apply keeps_installVariant.
Qed.

Lemma keeps_forL {A} (l : list A) (f : A → L W unit) : (∀ x, keepsRules (f x)) → keepsRules (forL l f).
Proof. intros Hf. by apply keeps_foldL. Qed.

Lemma keeps_getbind {A} (k : LinuxBackend → L W A) :
  (∀ b w, sameRules b (k b (b, w)).2.1) → keepsRules (getL ≫= k).
Proof. done. Qed.
Lemma keeps_putbind {A} b b1 w (k : unit → L W A) :
  sameRules b b1 → keepsRules (k tt) → sameRules b ((putL b1 ≫= k) (b, w)).2.1.
Proof. intros Hs Hk. eapply sameRules_trans; [exact Hs|apply (Hk b1 w)]. Qed.

Lemma keeps_rebuild interfaceName : keepsRules (rebuild interfaceName).
Proof.
  apply keeps_getbind. intros b w. apply keeps_putbind; [done|].
  apply keeps_bind; [apply keeps_tryTC|intros _]. apply keeps_bind; [apply keeps_forL; intros [gem []]; apply keeps_tryTC|intros _].
  apply keeps_bind; [apply keeps_runTC|intros _]. apply keeps_bind; [apply keeps_forL; intros gem; apply keeps_runTC|intros _].
  apply keeps_bind; [apply keeps_foldL; intros preferences rule; apply keeps_installControl|intros _].
  apply keeps_bind; [apply keeps_foldL; intros acc installed; apply keeps_installRule|intros [preferences filters]].
  apply keeps_bind; [apply keeps_forL; intros gem; apply keeps_runTC|intros _].
  apply keeps_bind; [apply keeps_runTC|intros _]. by apply keeps_getbind.
Qed.

Lemma keeps_tryRebuild interfaceName : keepsRules (tryRebuild interfaceName).
Proof. intros b w. apply (keeps_rebuild interfaceName b w). Qed.

(** A loop that fails has failed in one of its steps, the invariant holding before it. *)
Lemma foldL_err {A S} (P : LinuxBackend * W → Prop) (f : S → A → L W S) l acc s e s' :
  (∀ acc x s acc' s', P s → f acc x s = (Ok acc', s') → P s') → P s → foldL f l acc s = (Err e, s') →
  ∃ acc1 x s1, P s1 ∧ f acc1 x s1 = (Err e, s').
Proof.
  intros Hstep. revert acc s. induction l as [|x l IH]; intros acc s HP Hf; [done|].
  cbn [foldL] in Hf. unfold mbind, L_bind in Hf. destruct (f acc x s) as [[acc1|e1] s1] eqn:Hx.
  - apply (IH _ _ (Hstep _ _ _ _ _ HP Hx) Hf).
  - injection Hf as -> ->. by exists acc, x, s.
Qed.

(** The handler of a failed rebuild: the rules [b] had are put back, whatever happens then. *)
Lemma restore_rules {A} b (back : LinuxBackend → LinuxBackend) (retry : L W unit) (err : LinuxError) s :
  sameRules b (back s.1) → keepsRules retry →
  sameRules b ((failed ← getL; _ ← putL (back failed); _ ← retry; failL err : L W A) s).2.1.
Proof.
  intros Hb Hretry. destruct s as [failed w]. eapply sameRules_trans; [exact Hb|].
  apply (keeps_bind retry (λ _, failL err : L W A) Hretry (λ _, keeps_fail err) (back failed) w).
Qed.

Lemma handler_fails {A} (back : LinuxBackend → LinuxBackend) (retry : L W unit) (err : LinuxError) s (r : A) s' :
  (failed ← getL; _ ← putL (back failed); _ ← retry; failL err : L W A) s ≠ (Ok r, s').
Proof.
  intros Hx. apply bindL_ok in Hx as (b1 & s1 & _ & Hx). apply bindL_ok in Hx as (u2 & s2 & _ & Hx).
  by apply bindL_ok in Hx as (u3 & s3 & _ & Hx).
Qed.

(** The loop of [Configure]: when it fails, the rules are those it had. *)
Lemma configure_fails b control static interfaces w e s' :
  forL interfaces (λ interfaceName, recoverL (rebuild interfaceName) (λ err,
    failed ← getL;
    _ ← putL (set_rules failed (lb_control b) (lb_static b) (lb_dynamic b));
    _ ← forL interfaces tryRebuild;
    failL err)) (set_rules b control static ∅, w) = (Err e, s') → sameRules b s'.1.
Proof.
  intros Hf. apply (foldL_err (λ s, lb_pon s.1 = lb_pon b)) in Hf as (u & x & [b1 w1] & Hpon & Hx); [| |done].
  - unfold recoverL in Hx. destruct (rebuild x (b1, w1)) as [[?|err] s2] eqn:Hr; [done|].
    match type of Hx with ?c = _ => assert (s' = c.2) as -> by (by rewrite Hx) end.
    apply restore_rules; [|apply keeps_forL; intros; apply keeps_tryRebuild].
    pose proof (keeps_rebuild x b1 w1) as [Hp _]. rewrite Hr in Hp. cbn in *. split; [|done].
    change (lb_pon s2.1 = lb_pon b). congruence.
  - intros u x [b1 w1] u' s2 Hpon Hx. unfold recoverL in Hx.
    destruct (rebuild x (b1, w1)) as [[?|err] s3] eqn:Hr; [injection Hx as _ <-|by apply handler_fails in Hx].
    pose proof (keeps_rebuild x b1 w1) as [Hp _]. rewrite Hr in Hp. cbn in *. congruence.
Qed.

(** [SetReplication]: when it fails, the streams are those it had. *)
Lemma replication_fails b interfaceName key dynamic w e s' :
  (∀ other, other ≠ key → dynamic !! other = lb_dynamic b !! other) →
  recoverL (rebuild interfaceName) (λ err,
    failed ← getL;
    _ ← putL (set_dynamic failed (partial_alter (λ _, lb_dynamic b !! key) key (lb_dynamic failed)));
    _ ← tryRebuild interfaceName;
    failL err) (set_dynamic b dynamic, w) = (Err e, s') → sameRules b s'.1.
Proof.
  intros Hdynamic Hx. unfold recoverL in Hx.
  destruct (rebuild interfaceName (set_dynamic b dynamic, w)) as [[?|err] s2] eqn:Hr; [done|].
  match type of Hx with ?c = _ => assert (s' = c.2) as -> by (by rewrite Hx) end.
  apply restore_rules; [|apply keeps_tryRebuild].
  pose proof (keeps_rebuild interfaceName (set_dynamic b dynamic) w) as (Hp & Hc & Hs & Hd). rewrite Hr in Hp, Hc, Hs, Hd.
  change (lb_pon s2.1 = lb_pon b) in Hp. change (lb_control s2.1 = lb_control b) in Hc.
  change (lb_static s2.1 = lb_static b) in Hs. change (lb_dynamic s2.1 = dynamic) in Hd.
  do 3 (split; [done|]). cbn [set_dynamic set_rules lb_dynamic]. rewrite Hd. apply map_eq. intros other.
  destruct (decide (other = key)) as [->|Hne]; [apply lookup_partial_alter_eq|].
  by rewrite lookup_partial_alter_ne, Hdynamic.
Qed.
End keeps.

(** ** GEM ports of a configuration *)

(** The GEM ports of the access control lists, as [Compile] of the policy checks them. *)
Definition profileGEMs (profile : Profile) : Prop :=
  Forall (λ entry, 0 ≤ ac_GEMPortID entry ≤ 4095) (pr_DynamicACL profile ++ pr_StaticACL profile).

Definition tableGEMs (table : gmap string (list downstreamRule)) : Prop :=
  ∀ interfaceName, Forall (λ rule, 0 ≤ dr_gemPortID rule ≤ 4095) (rulesOf table interfaceName).

Lemma tableGEMs_append table interfaceName rules :
  tableGEMs table → Forall (λ rule, 0 ≤ dr_gemPortID rule ≤ 4095) rules →
  tableGEMs (<[interfaceName := default [] (table !! interfaceName) ++ rules]> table).
Proof.
  intros Ht Hr other. unfold rulesOf. destruct (decide (other = interfaceName)) as [->|Hne].
  - rewrite lookup_insert_eq. apply Forall_app. split; [apply Ht|done].
  - rewrite lookup_insert_ne by done. apply Ht.
Qed.

Lemma controlDownstreamRules_gems interfaceName uniVLAN profile :
  profileGEMs profile → Forall (λ rule, 0 ≤ dr_gemPortID rule ≤ 4095) (controlDownstreamRules interfaceName uniVLAN profile).
Proof.
  unfold controlDownstreamRules, profileGEMs. generalize (pr_DynamicACL profile ++ pr_StaticACL profile) as entries.
  assert (∀ entries acc, Forall (λ rule, 0 ≤ dr_gemPortID rule ≤ 4095) acc.2 →
    Forall (λ entry, 0 ≤ ac_GEMPortID entry ≤ 4095) entries →
    Forall (λ rule, 0 ≤ dr_gemPortID rule ≤ 4095) (fold_left (controlRule interfaceName uniVLAN profile) entries acc).2) as Hfold.
  { intros entries. induction entries as [|entry entries IH]; intros acc Hacc Hin; [done|].
    apply Forall_cons in Hin as [He Hin]. cbn [fold_left]. apply IH; [|done]. unfold controlRule.
    case_bool_decide; [done|]. apply Forall_app. split; [done|]. by constructor. }
  intros entries Hin. by apply Hfold.
Qed.

Lemma appendRules_gems tables interfaceName uniVLAN profile :
  profileGEMs profile → tableGEMs tables.1 ∧ tableGEMs tables.2 →
  let tables' := appendRules tables interfaceName uniVLAN profile in tableGEMs tables'.1 ∧ tableGEMs tables'.2.
Proof.
  intros Hp [H1 H2]. split; apply tableGEMs_append; [done|by apply controlDownstreamRules_gems|done|].
  unfold staticDownstreamRules. apply Forall_map. unfold profileGEMs in Hp. apply Forall_app in Hp as [_ Hp].
  by eapply Forall_impl.
Qed.

Lemma configureAttachment_gems profiles subscriber tables attachment tables' :
  (∀ id, profileGEMs (default noProfile (profiles !! id))) → tableGEMs tables.1 ∧ tableGEMs tables.2 →
  configureAttachment profiles subscriber tables attachment = Ok tables' → tableGEMs tables'.1 ∧ tableGEMs tables'.2.
Proof.
  intros Hp Ht H1. unfold configureAttachment in H1.
  destruct (guard_err (_ && _) NoEndpoint) as [[]|]; [|done]. cbn [mbind Res_bind] in H1.
  destruct (guard_err (_ && _) TwoEndpoints) as [[]|]; [|done]. cbn [mbind Res_bind] in H1.
  destruct (match at_DirectMapper attachment with Some _ => _ | None => _ end) as [[]|]; [|done].
  injection H1 as <-. case_bool_decide; [by apply appendRules_gems|].
  generalize dependent tables. induction (su_ServicePackages subscriber) as [|service services IH]; intros tables Ht; [done|].
  cbn [fold_left]. clear H. destruct services as [|s2 services]; [by apply appendRules_gems|].
  apply IH; [done|]. by apply appendRules_gems.
Qed.

(** The tables of a configuration have GEM ports of GPON. *)
Lemma configureTables_gems config tables :
  Forall profileGEMs (cf_Profiles config) → configureTables config = Ok tables → tableGEMs tables.1 ∧ tableGEMs tables.2.
Proof.
  intros Hconfig H1. unfold configureTables in H1. apply Res_bind_Ok in H1 as (profiles & Hprofiles & H1).
  assert (∀ id, profileGEMs (default noProfile (profiles !! id))) as Hp.
  { assert (map_Forall (λ _, profileGEMs) profiles) as Hall.
    { refine (foldM_inv (λ profiles, map_Forall (λ _, profileGEMs) profiles) _ _ _ _ _ (map_Forall_empty _) Hprofiles).
      intros acc profile acc' Hin Hacc Hs. apply Res_bind_Ok in Hs as (u & _ & [= <-]).
      apply map_Forall_insert_2; [|done]. by eapply Forall_forall in Hconfig. }
    intros id. destruct (profiles !! id) as [profile|] eqn:Hid; [by apply (Hall id)|by constructor]. }
  refine (foldM_inv (λ tables : ruleTables, tableGEMs tables.1 ∧ tableGEMs tables.2) _ _ _ _ _ _ H1).
  - intros acc subscriber acc' _ Hacc Hs.
    refine (foldM_inv (λ tables : ruleTables, tableGEMs tables.1 ∧ tableGEMs tables.2) _ _ _ _ _ Hacc Hs).
    intros acc1 attachment acc2 _ Ht Ha. by eapply configureAttachment_gems.
  - split; intros i; unfold rulesOf; cbn; rewrite lookup_empty; constructor.
Qed.

(** ** The operations *)

Section operations.
Context {MR : MapRange} {GS : GoSort} {W : Type} `{TK : TcKernel W}.

(** The GEM ports of every interface are those of GPON, and tc has no filter the backend does not
    know of. *)
Definition backendOk (b : LinuxBackend) (w : W) : Prop :=
  (∀ interfaceName, gemsInRange b interfaceName) ∧ noStrays b w.

Lemma gemsInRange_rules b interfaceName :
  Forall (λ rule, 0 ≤ dr_gemPortID rule ≤ 4095) (rulesOf (lb_control b) interfaceName) →
  Forall (λ rule, 0 ≤ dr_gemPortID rule ≤ 4095) (rulesOf (lb_static b) interfaceName) →
  (∀ key rule, lb_dynamic b !! key = Some rule → dk_interfaceName key = interfaceName → 0 ≤ dr_gemPortID rule ≤ 4095) →
  gemsInRange b interfaceName.
Proof.
  intros Hc Hs Hd gem (rule & Hin & <-)%desiredGEMs_spec. rewrite !elem_of_app in Hin.
  destruct Hin as [Hin|[Hin|Hin]]; [by eapply Forall_forall in Hc|by eapply Forall_forall in Hs|].
  apply list_elem_of_fmap in Hin as ([key rule'] & -> & Hin). unfold dynamicRulesOf in Hin.
  apply list_elem_of_filter in Hin as [Hk Hin]. apply elem_of_range in Hin. by apply (Hd key).
Qed.

Lemma gemsInRange_dynamic b interfaceName key rule :
  gemsInRange b interfaceName → lb_dynamic b !! key = Some rule → dk_interfaceName key = interfaceName →
  0 ≤ dr_gemPortID rule ≤ 4095.
Proof.
  intros Hr Hd Hk. apply Hr, desiredGEMs_spec. exists rule. split; [|done]. rewrite !elem_of_app. right. right.
  apply (list_elem_of_fmap_2 snd _ (key, rule)). unfold dynamicRulesOf. apply list_elem_of_filter.
  split; [done|]. by apply elem_of_range.
Qed.

Lemma elem_of_interfacesOf tables interfaceName :
  interfaceName ∈ map fst (range (interfacesOf tables)) ↔ ∃ table, table ∈ tables ∧ is_Some (table !! interfaceName).
Proof.
  rewrite list_elem_of_fmap. transitivity (is_Some (interfacesOf tables !! interfaceName)).
  { split.
    - intros ([i []] & -> & Hin%elem_of_range). by eexists.
    - intros [[] Hi]. exists (interfaceName, tt). split; [done|]. by apply elem_of_range. }
  induction tables as [|table tables IH]; cbn [interfacesOf foldr].
  - rewrite lookup_empty. split; [by intros []|]. by intros (t & ?%not_elem_of_nil & _).
  - rewrite lookup_union_is_Some, lookup_fmap, fmap_is_Some. fold (interfacesOf tables). rewrite IH.
    setoid_rewrite elem_of_cons. naive_solver.
Qed.

(** The two operations after their first steps. *)
Lemma ConfigureLinux_eq config control static b w :
  configureTables config = Ok (control, static) →
  ConfigureLinux config (b, w) =
  let interfaces := map fst (range (interfacesOf [lb_control b; lb_static b; static; control])) in
  forL interfaces (λ interfaceName, recoverL (rebuild interfaceName) (λ err,
    failed ← getL;
    _ ← putL (set_rules failed (lb_control b) (lb_static b) (lb_dynamic b));
    _ ← forL interfaces tryRebuild;
    failL err)) (set_rules b control static ∅, w).
Proof. unfold ConfigureLinux. by intros ->. Qed.


Lemma SetReplicationLinux_eq change b w :
  let group := rc_Group change in
  let interfaceName := at_Interface (rc_Attachment change) in
  let key := (su_EntityID (rc_Subscriber change), interfaceName, ag_Source group, ag_Group group, ag_UNIVLAN group) in
  let rule := mkRule interfaceName (ag_ANIVLAN group) (ag_GEMPortID group) (ag_UNIVLAN group) (ag_Source group)
                (ag_ExcludedSources group) (ag_Group group) (ag_Group group) (rc_Profile change) in
  SetReplicationLinux change (b, w) =
  recoverL (rebuild interfaceName) (λ err,
    failed ← getL;
    _ ← putL (set_dynamic failed (partial_alter (λ _, lb_dynamic b !! key) key (lb_dynamic failed)));
    _ ← tryRebuild interfaceName;
    failL err)
    (set_dynamic b (if rc_Enable change then <[key := rule]> (lb_dynamic b) else delete key (lb_dynamic b)), w).
Proof. done. Qed.

End operations.

(** ** A kernel and a sort to run the backend with *)

Section tableKernel.

(** The chain of a [tc filter del]. *)
Definition deletedChain (arguments : list Arg) : option (string * Z) :=
  match arguments with
  | [Word _; Word verb; Word _; Word interfaceName; Word _; Word _; Num chain] =>
      if bool_decide (verb = "del") then Some (interfaceName, chain) else None
  | _ => None
  end.

(** A table of filters: a filter is added at a free slot only, and a chain without filters cannot
    be deleted. *)
Definition runTable (arguments : list Arg) (T : filterTable) : bool * filterTable :=
  match slotOf arguments with
  | Some slot => match T !! slot with None => (true, <[slot := arguments]> T) | Some _ => (false, T) end
  | None =>
      match deletedChain arguments with
      | Some chain => let T' := filter (λ p, p.1.1 ≠ chain) T in (bool_decide (size T' ≠ size T), T')
      | None => (false, T)
      end
  end.

#[export] Instance tableHost : LinuxHost filterTable := {|
  Run := runTable;
  Output := None;
  Sender _ _ T := (true, T);
  MarkedSender _ _ _ T := (true, T);
  QuerySender _ _ T := (true, T);
  HardwareAddr _ _ := None
|}.

#[export] Instance tableKernel : TcKernel filterTable.
Proof.
  refine {| tcFilters T := T |}.
  - intros T interfaceName chain. done.
  - intros T T' arguments slot Hs Hn Hr. cbn [Run tableHost] in Hr. unfold runTable in Hr. rewrite Hs, Hn in Hr.
    by injection Hr as <-.
Defined.

Definition notAfter {A} (less : A → A → bool) (a b : A) : Prop := less b a = false.
#[export] Instance notAfter_dec {A} (less : A → A → bool) : RelDecision (notAfter less).
Proof. intros a b. unfold notAfter. apply _. Defined.
Definition sortByLess {A} (less : A → A → bool) : list A → list A := merge_sort (notAfter less).
Definition goSort : GoSort.
Proof.
  refine {| sortSlice A := @sortByLess A |}.
  - intros A less l. apply merge_sort_Permutation.
  - intros A less l Hasym Htrans.
    assert (Transitive (notAfter less)) as HT by (intros a b c; apply Htrans).
    assert (Total (notAfter less)) as HTotal.
    { intros a b. unfold notAfter. destruct (less b a) eqn:Hb; [right; by apply Hasym|by left]. }
    apply (StronglySorted_merge_sort (notAfter less)).
Defined.
End tableKernel.

Definition sampleProfileLinux : Profile :=
  mkProfile 1 3 0 false 0 0 0 0 0 0 0 0 false 0 0 []
    [mkACLEntry 1 4 5 100 (V4 0) (V4 0xe0000001) (V4 0xe0000006) 0 0 0 0 0].
Definition sampleAttachmentLinux : Attachment := mkAttachment "lan1" 1 1 None.
Definition sampleSubscriberLinux : Subscriber := mkSubscriber 7 [sampleAttachmentLinux] 1 0 0 false [] [].
Definition sampleConfigLinux : Config := mkConfig [sampleProfileLinux] [sampleSubscriberLinux].
Definition sampleGroupLinux : ActiveGroup :=
  mkActiveGroup "lan1" (V4 0) [] [V4 0x0a000001] (V4 0xe8000001) (V4 0xc0a80002) (false, 0) 0 1 1 9 0 0 None.
Definition sampleChangeLinux : ReplicationChange :=
  mkChange true sampleSubscriberLinux sampleAttachmentLinux sampleProfileLinux sampleGroupLinux.

Definition sampleConfigured : Res LinuxError unit * (LinuxBackend * filterTable) :=
  @ConfigureLinux canonical_range goSort _ _ sampleConfigLinux (NewLinuxBackend "", ∅).
Definition sampleReplicated : Res LinuxError unit * (LinuxBackend * filterTable) :=
  @SetReplicationLinux canonical_range goSort _ _ sampleChangeLinux (NewLinuxBackend "", ∅).

Lemma backendOk_new (MR : MapRange) (GS : GoSort) pon : backendOk (NewLinuxBackend pon) (∅ : filterTable).
Proof.
  split.
  - intros interfaceName. apply gemsInRange_rules; [constructor|constructor|].
    intros key rule Hk. cbn in Hk. by rewrite lookup_empty in Hk.
  - intros interfaceName gem preference _ Hs. cbn in Hs. by rewrite lookup_empty in Hs; destruct Hs.
Qed.



(** A backend with the stream, and the state a rebuild of its interface leaves. *)
Definition sampleStreamKey : dynamicRuleKey := (7, "lan1", V4 0, V4 0xe8000001, (false, 0)).
Definition sampleStreamRule : downstreamRule :=
  mkRule "lan1" 0 9 (false, 0) (V4 0) [V4 0x0a000001] (V4 0xe8000001) (V4 0xe8000001) sampleProfileLinux.
Definition sampleBackend : LinuxBackend := set_dynamic (NewLinuxBackend "") {[sampleStreamKey := sampleStreamRule]}.
Definition sampleRebuilt : Res LinuxError unit * (LinuxBackend * filterTable) :=
  @rebuild canonical_range goSort _ _ "lan1" (sampleBackend, ∅).

Lemma sampleRebuilt_holds :
  sameRules sampleBackend sampleRebuilt.2.1 ∧
  @interfaceHolds canonical_range goSort _ _ _ sampleRebuilt.2.1 sampleRebuilt.2.2 "lan1".
Proof.
  assert (sampleRebuilt.1 = Ok tt) as Hok by (vm_compute; reflexivity).
  assert (@gemsInRange canonical_range sampleBackend "lan1") as Hr.
  { apply gemsInRange_rules; [constructor|constructor|].
    intros key rule Hk _. change (lb_dynamic sampleBackend) with ({[sampleStreamKey := sampleStreamRule]} : gmap _ _) in Hk.
    apply lookup_singleton_Some in Hk as [_ <-]. cbn. lia. }
  destruct sampleRebuilt as [r s'] eqn:Hs. cbn in Hok. subst r.
  destruct (@rebuild_holds canonical_range goSort _ _ _ _ _ _ _ _ Hr (proj2 (backendOk_new canonical_range goSort "")) Hs)
    as (b' & w' & -> & Hsame & Hh & _). exact (conj Hsame Hh).
Qed.

