(* ===== verification/Graph.v ===== *)
(** * The service graph: its data and the builders of its nodes

    src/internal/platform/graph.go: the typed reading of MIB attributes, the nodes of the service
    graph and the functions that build one node from one managed entity.  The text forms of
    addresses in the graph are kept as the addresses they print. *)

From S2P Require Import Prelude Maps Netip MeTypes MeClasses MeLib Mib MeNames Vlan Table Store Model.

(** What is wrong with the MIB; the code returns a text. *)
Inductive GraphError :=
| MissingAttribute (name : string)
| WrongType (name : string)
| OutOfRange
| Unsupported
| Duplicate
| Dangling (classID entityID : Z)
| Inconsistent
| BadRow
| VLANRow (e : VlanError).

Definition nullPointer : Z := 0xffff.

(** ** Typed attributes *)

Section attributes.
Implicit Types instance : Instance_.

Definition uint16Attribute instance (name : string) : Res GraphError Z :=
  match i_Attributes instance !! name with
  | None => Err (MissingAttribute name)
  | Some (VU16 typed) => Ok typed
  | Some _ => Err (WrongType name)
  end.

Definition uint16AttributeDefault instance (name : string) (fallback : Z) : Res GraphError Z :=
  if bool_decide (i_Attributes instance !! name = None) then Ok fallback
  else uint16Attribute instance name.

Definition uint8Attribute instance (name : string) : Res GraphError Z :=
  match i_Attributes instance !! name with
  | None => Err (MissingAttribute name)
  | Some (VU8 typed) => Ok typed
  | Some _ => Err (WrongType name)
  end.

Definition uint8AttributeDefault instance (name : string) (fallback : Z) : Res GraphError Z :=
  if bool_decide (i_Attributes instance !! name = None) then Ok fallback
  else uint8Attribute instance name.

Definition uint32Attribute instance (name : string) : Res GraphError Z :=
  match i_Attributes instance !! name with
  | None => Err (MissingAttribute name)
  | Some (VU32 typed) => Ok typed
  | Some _ => Err (WrongType name)
  end.

Definition uint32AttributeDefault instance (name : string) (fallback : Z) : Res GraphError Z :=
  if bool_decide (i_Attributes instance !! name = None) then Ok fallback
  else uint32Attribute instance name.

Definition bytesAttribute instance (name : string) (size : nat) : Res GraphError (list Z) :=
  match i_Attributes instance !! name with
  | None => Err (MissingAttribute name)
  | Some (VOctets typed) => if (length typed =? size)%nat then Ok typed else Err (WrongType name)
  | Some _ => Err (WrongType name)
  end.

Definition bytesAttributeDefault instance (name : string) (size : nat) (fallback : list Z)
    : Res GraphError (list Z) :=
  if bool_decide (i_Attributes instance !! name = None)
  then if (length fallback =? size)%nat then Ok fallback else Err (WrongType name)
  else bytesAttribute instance name size.

Definition tableAttributeDefault instance (name : string) (rowSize : nat) : Res GraphError TableRows :=
  match i_Attributes instance !! name with
  | None | Some VNil => Ok (mkRows 0 [])
  | Some (VTable typed) =>
      if (NumRows typed <? 0) || negb (Z.of_nat (length (Rows typed)) =? NumRows typed * Z.of_nat rowSize)
      then Err (WrongType name) else Ok typed
  | Some _ => Err (WrongType name)
  end.

Definition booleanAttributeDefault instance (name : string) (fallback : Z) : Res GraphError Z :=
  value ← uint8AttributeDefault instance name fallback;
  _ ← guard_err (1 <? value) OutOfRange;
  Ok value.

Definition administrativeState instance (name : string) : Res GraphError Z :=
  state ← uint8AttributeDefault instance name 0;
  _ ← guard_err (1 <? state) OutOfRange;
  Ok state.
End attributes.

Definition zeroBytes (value : list Z) : bool := forallb (λ current, current =? 0) value.

(** The instances of a snapshot by their key. *)
Abbreviation InstanceMap := (gmap Key Instance_).

Definition hasInstance (instances : InstanceMap) (classID entityID : Z) : bool :=
  bool_decide (is_Some (instances !! (classID, entityID))).

(** [sort.Slice] by a numeric field. *)
Definition sortBy {A} (key : A → Z) : list A → list A := merge_sort (byKey key).

(** ** The nodes *)

Record EthernetUNI := mkUNI {
  eu_EntityID : Z;
  eu_Interface : string;
  eu_AdministrativeState : Z;
  eu_OperationalState : Z;
  eu_Configuration : Z
}.

Record TCONT := mkTCONT {
  tc_EntityID : Z;
  tc_AllocID : Z;
  tc_SchedulerPolicy : Z;
  tc_SchedulerWeight : Z;
  tc_QueueEntities : list Z;
  tc_QueueWeights : list Z
}.

Record GEMPort := mkGEMPort {
  gp_EntityID : Z;
  gp_PortID : Z;
  gp_TCONT : Z;
  gp_AllocID : Z;
  gp_Direction : Z;
  gp_UpstreamQueue : Z;
  gp_DownstreamQueue : Z;
  gp_UpstreamTD : Z;
  gp_DownstreamTD : Z;
  gp_EncryptionKeyRing : Z
}.

Record TrafficDescriptor := mkDescriptor {
  td_EntityID : Z;
  td_CIR : Z;
  td_PIR : Z;
  td_CBS : Z;
  td_PBS : Z;
  td_ColourMode : Z;
  td_IngressColourMarking : Z;
  td_EgressColourMarking : Z;
  td_MeterType : Z
}.

Record Dot1RateLimiter := mkLimiter {
  rl_EntityID : Z;
  rl_ParentME : Z;
  rl_TPType : Z;
  rl_UpstreamUnicastFloodTD : Z;
  rl_UpstreamBroadcastTD : Z;
  rl_UpstreamMulticastPayloadTD : Z
}.

Record GEMInterworking := mkInterworking {
  iw_EntityID : Z;
  iw_GEMPort : Z;
  iw_Option : Z;
  iw_ServiceProfile : Z;
  iw_InterworkingTermination : Z;
  iw_GALProfile : Z
}.
Definition noInterworking : GEMInterworking := mkInterworking 0 0 0 0 0 0.

(** [MulticastIPv4Range] and [MulticastIPv6Range]. *)
Record MulticastRange := mkMulticastRange {
  mr_GEMPortID : Z;
  mr_SecondaryKey : Z;
  mr_Start : Addr;
  mr_Stop : Addr
}.

Record MulticastGEMInterworking := mkMulticastInterworking {
  mi_EntityID : Z;
  mi_GEMPort : Z;
  mi_PortID : Z;
  mi_TCONT : Z;
  mi_AllocID : Z;
  mi_Option : Z;
  mi_ServiceProfile : Z;
  mi_GALProfile : Z;
  mi_IPv4Ranges : list MulticastRange;
  mi_IPv6Ranges : list MulticastRange
}.
Definition noMulticastInterworking : MulticastGEMInterworking :=
  mkMulticastInterworking 0 0 0 0 0 0 0 0 [] [].

Record MulticastACLEntry := mkMulticastACLEntry {
  ae_RowKey : Z;
  ae_IPVersion : Z;
  ae_GEMPortID : Z;
  ae_VLANID : Z;
  ae_Source : Addr;
  ae_Start : Addr;
  ae_Stop : Addr;
  ae_ImputedBandwidth : Z;
  ae_PreviewLength : Z;
  ae_PreviewRepeatTime : Z;
  ae_PreviewRepeatCount : Z;
  ae_PreviewResetTime : Z
}.

Record MulticastOperationsProfile := mkOperationsProfile {
  mp_EntityID : Z;
  mp_IGMPVersion : Z;
  mp_IGMPFunction : Z;
  mp_ImmediateLeave : Z;
  mp_UpstreamTCI : Z;
  mp_UpstreamTagControl : Z;
  mp_UpstreamRate : Z;
  mp_DynamicACL : list MulticastACLEntry;
  mp_StaticACL : list MulticastACLEntry;
  mp_Robustness : Z;
  mp_QuerierIPAddress : Z;
  mp_QueryInterval : Z;
  mp_QueryMaxResponseTime : Z;
  mp_LastMemberQueryInterval : Z;
  mp_UnauthorizedJoinBehaviour : Z;
  mp_DownstreamTagControl : Z;
  mp_DownstreamTCI : Z
}.

Record MulticastServicePackage := mkServicePackage_ {
  sv_RowKey : Z;
  sv_VLANID : Z;
  sv_MaxSimultaneousGroups : Z;
  sv_MaxMulticastBandwidth : Z;
  sv_OperationsProfile : Z
}.

Record AllowedPreviewGroup := mkPreviewGroup {
  pg_RowKey : Z;
  pg_IPVersion : Z;
  pg_Source : Addr;
  pg_Destination : Addr;
  pg_ANIVLAN : Z;
  pg_UNIVLAN : Z;
  pg_Duration : Z;
  pg_TimeLeft : Z
}.

Record MulticastSubscriberConfigInfo := mkSubscriberConfig {
  mc_EntityID : Z;
  mc_METype : Z;
  mc_Profile : Z;
  mc_MaxSimultaneousGroups : Z;
  mc_MaxMulticastBandwidth : Z;
  mc_BandwidthEnforcement : Z;
  mc_ServicePackages : list MulticastServicePackage;
  mc_AllowedPreviewGroups : list AllowedPreviewGroup
}.

Record PBitMapper := mkMapper {
  pm_EntityID : Z;
  pm_TPType : Z;
  pm_TPPointer : Z;
  pm_PBits : list Z;
  pm_UnmarkedFrameOption : Z;
  pm_DefaultPBit : Z;
  pm_DSCPToPBit : list Z
}.

Record MACBridgePort := mkBridgePort {
  bp_EntityID : Z;
  bp_Port : Z;
  bp_TPType : Z;
  bp_TP : Z;
  bp_Priority : Z;
  bp_PathCost : Z;
  bp_SpanningTree : Z;
  bp_OutboundTD : Z;
  bp_InboundTD : Z;
  bp_MACLearningDepth : Z
}.

Record MACBridge := mkBridge {
  br_EntityID : Z;
  br_SpanningTree : Z;
  br_Learning : Z;
  br_PortBridging : Z;
  br_Priority : Z;
  br_MaxAge : Z;
  br_HelloTime : Z;
  br_ForwardDelay : Z;
  br_UnknownMACDiscard : Z;
  br_MACLearningDepth : Z;
  br_DynamicFilteringAgeTime : Z;
  br_Ports : list MACBridgePort
}.

Inductive VLANFilterAction :=
| VLANFilterActionBridge
| VLANFilterActionDiscard
| VLANFilterActionNegative
| VLANFilterActionPositive
| VLANFilterActionPositiveDA.

Inductive VLANFilterCriterion :=
| VLANFilterCriterionNone
| VLANFilterCriterionVID
| VLANFilterCriterionPriority
| VLANFilterCriterionTCI.

Record VLANFilter := mkVLANFilter {
  vf_EntityID : Z;
  vf_BridgePort : Z;
  vf_ForwardOperation : Z;
  vf_TaggedAction : VLANFilterAction;
  vf_TaggedCriterion : VLANFilterCriterion;
  vf_UntaggedAction : VLANFilterAction;
  vf_Entries : list Z
}.

Record ExtendedVLAN := mkExtendedVLAN {
  xv_EntityID : Z;
  xv_AssociationType : Z;
  xv_AssociatedClass : Z;
  xv_AssociatedME : Z;
  xv_InputTPID : Z;
  xv_OutputTPID : Z;
  xv_DownstreamMode : Z;
  xv_EnhancedMode : Z;
  xv_DSCPToPBit : list Z;
  xv_Rules : list Rule
}.

Record VLANOperation := mkVLANOperation {
  vo_EntityID : Z;
  vo_AssociationType : Z;
  vo_AssociatedClass : Z;
  vo_AssociatedME : Z;
  vo_UpstreamMode : Z;
  vo_UpstreamTCI : Z;
  vo_DownstreamMode : Z
}.

Record ServiceGraph := mkGraph {
  sg_PONMode : string;
  sg_UNIs : list EthernetUNI;
  sg_TCONTs : list TCONT;
  sg_TrafficDescs : list TrafficDescriptor;
  sg_Dot1RateLimiters : list Dot1RateLimiter;
  sg_GEMPorts : list GEMPort;
  sg_Interworking : list GEMInterworking;
  sg_MulticastInterworking : list MulticastGEMInterworking;
  sg_MulticastProfiles : list MulticastOperationsProfile;
  sg_MulticastSubscribers : list MulticastSubscriberConfigInfo;
  sg_Mappers : list PBitMapper;
  sg_Bridges : list MACBridge;
  sg_VLANFilters : list VLANFilter;
  sg_VLANOperations : list VLANOperation;
  sg_ExtendedVLANs : list ExtendedVLAN
}.

(** ** Interfaces, bridges and mappers *)

Definition ethernetUNIInterface (entityID : Z) : Res GraphError string :=
  if entityID =? 0x0101 then Ok "lan1"
  else if entityID =? 0x0102 then Ok "lan2"
  else if entityID =? 0x0103 then Ok "lan3"
  else if entityID =? 0x0104 then Ok "lan4"
  else Err Unsupported.

Definition buildMACBridge (instance : Instance_) : Res GraphError MACBridge :=
  spanningTree ← booleanAttributeDefault instance MacBridgeServiceProfile_SpanningTreeInd 0;
  learning ← booleanAttributeDefault instance MacBridgeServiceProfile_LearningInd 0;
  portBridging ← booleanAttributeDefault instance MacBridgeServiceProfile_PortBridgingInd 0;
  priority ← uint16AttributeDefault instance MacBridgeServiceProfile_Priority 0;
  maxAge ← uint16AttributeDefault instance MacBridgeServiceProfile_MaxAge 0x0600;
  _ ← guard_err ((maxAge <? 0x0600) || (0x2800 <? maxAge)) OutOfRange;
  helloTime ← uint16AttributeDefault instance MacBridgeServiceProfile_HelloTime 0x0100;
  _ ← guard_err ((helloTime <? 0x0100) || (0x0a00 <? helloTime)) OutOfRange;
  forwardDelay ← uint16AttributeDefault instance MacBridgeServiceProfile_ForwardDelay 0x0400;
  _ ← guard_err ((forwardDelay <? 0x0400) || (0x1e00 <? forwardDelay)) OutOfRange;
  unknownMACDiscard ← booleanAttributeDefault instance MacBridgeServiceProfile_UnknownMacAddressDiscard 0;
  macLearningDepth ← uint8AttributeDefault instance MacBridgeServiceProfile_MacLearningDepth 0;
  ageTime ← uint32AttributeDefault instance MacBridgeServiceProfile_DynamicFilteringAgeingTime 300;
  _ ← guard_err (negb (ageTime =? 0) && ((ageTime <? 10) || (1000000 <? ageTime))) OutOfRange;
  Ok (mkBridge (EntityID_of instance) spanningTree learning portBridging priority maxAge helloTime forwardDelay
        unknownMACDiscard macLearningDepth ageTime []).

(** A zero traffic descriptor pointer is the null pointer. *)
Definition nullIfZero (pointer : Z) : Z := if pointer =? 0 then nullPointer else pointer.

Definition buildMACBridgePort (instance : Instance_) (portNumber tpType tp : Z) : Res GraphError MACBridgePort :=
  priority ← uint16AttributeDefault instance MacBridgePortConfigurationData_PortPriority 0;
  pathCost ← uint16AttributeDefault instance MacBridgePortConfigurationData_PortPathCost 1;
  _ ← guard_err (pathCost =? 0) OutOfRange;
  spanningTree ← booleanAttributeDefault instance MacBridgePortConfigurationData_PortSpanningTreeInd 0;
  outboundTD ← uint16AttributeDefault instance MacBridgePortConfigurationData_OutboundTdPointer 0;
  inboundTD ← uint16AttributeDefault instance MacBridgePortConfigurationData_InboundTdPointer 0;
  macLearningDepth ← uint8AttributeDefault instance MacBridgePortConfigurationData_MacLearningDepth 0;
  Ok (mkBridgePort (EntityID_of instance) portNumber tpType tp priority pathCost spanningTree
        (nullIfZero outboundTD) (nullIfZero inboundTD) macLearningDepth).

Definition mapperPBitAttributes : list string :=
  [Ieee8021PMapperServiceProfile_InterworkTpPointerForPBitPriority0;
   Ieee8021PMapperServiceProfile_InterworkTpPointerForPBitPriority1;
   Ieee8021PMapperServiceProfile_InterworkTpPointerForPBitPriority2;
   Ieee8021PMapperServiceProfile_InterworkTpPointerForPBitPriority3;
   Ieee8021PMapperServiceProfile_InterworkTpPointerForPBitPriority4;
   Ieee8021PMapperServiceProfile_InterworkTpPointerForPBitPriority5;
   Ieee8021PMapperServiceProfile_InterworkTpPointerForPBitPriority6;
   Ieee8021PMapperServiceProfile_InterworkTpPointerForPBitPriority7].

Definition vlanResult {A} (r : Res VlanError A) : Res GraphError A :=
  match r with Ok a => Ok a | Err e => Err (VLANRow e) end.

(** The DSCP map of a mapper or an extended VLAN entity: 24 zero octets when it has none. *)
Definition dscpMapping (instance : Instance_) (name : string) : Res GraphError (list Z) :=
  dscpBytes ← (if bool_decide (i_Attributes instance !! name = None) then Ok (replicate 24 0)
               else bytesAttribute instance name 24);
  vlanResult (DecodeDSCPMapping dscpBytes).

Definition buildMapper (instance : Instance_) : Res GraphError PBitMapper :=
  tpPointer ← uint16Attribute instance Ieee8021PMapperServiceProfile_TpPointer;
  tpType ← uint8AttributeDefault instance Ieee8021PMapperServiceProfile_TpType 0;
  pBits ← mapM_res (uint16Attribute instance) mapperPBitAttributes;
  unmarked ← uint8AttributeDefault instance Ieee8021PMapperServiceProfile_UnmarkedFrameOption 0;
  _ ← guard_err (1 <? unmarked) OutOfRange;
  defaultPBit ← uint8AttributeDefault instance Ieee8021PMapperServiceProfile_DefaultPBitAssumption 0;
  _ ← guard_err (7 <? defaultPBit) OutOfRange;
  dscp ← dscpMapping instance Ieee8021PMapperServiceProfile_DscpToPBitMapping;
  Ok (mkMapper (EntityID_of instance) tpType tpPointer pBits unmarked defaultPBit dscp).

(** The check of one P-bit pointer of a mapper. *)
Definition validatePBit (mapper : PBitMapper) (interworking : gmap Z GEMInterworking) (pointer : Z)
    : Res GraphError unit :=
  if pointer =? nullPointer then Ok tt
  else
    match interworking !! pointer with
    | None => Err (Dangling GemInterworkingTerminationPointClassID pointer)
    | Some iw =>
        _ ← guard_err (negb (iw_Option iw =? 5) || negb (iw_ServiceProfile iw =? pm_EntityID mapper)) Inconsistent;
        _ ← guard_err ((pm_TPType mapper =? 0) && negb (iw_InterworkingTermination iw =? 0) &&
                       negb (iw_InterworkingTermination iw =? nullPointer)) Inconsistent;
        guard_err ((pm_TPType mapper =? 1) && negb (iw_InterworkingTermination iw =? pm_TPPointer mapper)) Inconsistent
    end.

Definition validateMapper (mapper : PBitMapper) (instances : InstanceMap) (interworking : gmap Z GEMInterworking)
    : Res GraphError unit :=
  _ ← (if pm_TPType mapper =? 0 then guard_err (negb (pm_TPPointer mapper =? nullPointer)) Inconsistent
       else if pm_TPType mapper =? 1 then
         guard_err (negb (hasInstance instances PhysicalPathTerminationPointEthernetUniClassID (pm_TPPointer mapper)))
           (Dangling PhysicalPathTerminationPointEthernetUniClassID (pm_TPPointer mapper))
       else Err Unsupported);
  foldM_res (λ _ pointer, validatePBit mapper interworking pointer) (pm_PBits mapper) tt.

(** ** GEM interworking *)

Definition validateGALProfile (instances : InstanceMap) (gal : Z) : Res GraphError unit :=
  match instances !! (GalEthernetProfileClassID, gal) with
  | None => Err (Dangling GalEthernetProfileClassID gal)
  | Some profile =>
      payload ← uint16Attribute profile GalEthernetProfile_MaximumGemPayloadSize;
      guard_err (negb (payload =? 48)) Unsupported
  end.

Definition present {A} (m : gmap Z A) (key : Z) : bool := bool_decide (is_Some (m !! key)).

Definition buildGEMInterworking (instance : Instance_) (instances : InstanceMap) (gemPorts : gmap Z GEMPort)
    (bridges : gmap Z MACBridge) (mappers : gmap Z PBitMapper) : Res GraphError GEMInterworking :=
  pointer ← uint16Attribute instance GemInterworkingTerminationPoint_GemPortNetworkCtpConnectivityPointer;
  _ ← guard_err (negb (present gemPorts pointer)) (Dangling GemPortNetworkCtpClassID pointer);
  option_ ← uint8Attribute instance GemInterworkingTerminationPoint_InterworkingOption;
  service ← uint16Attribute instance GemInterworkingTerminationPoint_ServiceProfilePointer;
  _ ← (if option_ =? 1 then
         guard_err (negb (present bridges service)) (Dangling MacBridgeServiceProfileClassID service)
       else if option_ =? 5 then
         guard_err (negb (present mappers service)) (Dangling Ieee8021PMapperServiceProfileClassID service)
       else Err Unsupported);
  interworkingTP ← uint16Attribute instance GemInterworkingTerminationPoint_InterworkingTerminationPointPointer;
  _ ← guard_err ((option_ =? 5) && negb (interworkingTP =? 0) && negb (interworkingTP =? nullPointer) &&
                 negb (hasInstance instances PhysicalPathTerminationPointEthernetUniClassID interworkingTP))
        (Dangling PhysicalPathTerminationPointEthernetUniClassID interworkingTP);
  gal ← uint16Attribute instance GemInterworkingTerminationPoint_GalProfilePointer;
  _ ← validateGALProfile instances gal;
  loopback ← uint8AttributeDefault instance GemInterworkingTerminationPoint_GalLoopbackConfiguration 0;
  _ ← guard_err (negb (loopback =? 0)) Unsupported;
  Ok (mkInterworking (EntityID_of instance) pointer option_ service interworkingTP gal).

(** [gemPortID] of a multicast row: at most 12 bits on GPON, not the null pointer on XGS-PON. *)
Definition badMulticastPort (mode : string) (portID : Z) : bool :=
  (bool_decide (mode = GPON) && (0x0fff <? portID)) || (bool_decide (mode = XGSPON) && (portID =? 0xffff)).

(** One row of the IPv4 address table: the row keys seen and the ranges. *)
Definition multicastIPv4Range (mode : string) (acc : gset Z * list MulticastRange) (row : list Z)
    : Res GraphError (gset Z * list MulticastRange) :=
  let '(keys, ranges) := acc in
  let portID := Uint16 row 0 in
  let secondary := Uint16 row 2 in
  let start := Uint32 row 4 in
  let stop := Uint32 row 8 in
  _ ← guard_err (badMulticastPort mode portID || negb (Z.shiftr start 28 =? 0xe) ||
                 negb (Z.shiftr stop 28 =? 0xe) || (stop <? start)) BadRow;
  let key := Z.lor (u32 (Z.shiftl portID 16)) secondary in
  _ ← guard_err (bool_decide (key ∈ keys)) Duplicate;
  Ok ({[key]} ∪ keys,
      ranges ++ [mkMulticastRange portID secondary (AddrFrom4 (put_be 4 start)) (AddrFrom4 (put_be 4 stop))]).

(** One row of the IPv6 address table; the upper 96 bits are common to both ends. *)
Definition multicastIPv6Range (mode : string) (acc : gset Z * list MulticastRange) (row : list Z)
    : Res GraphError (gset Z * list MulticastRange) :=
  let '(keys, ranges) := acc in
  let portID := Uint16 row 0 in
  let secondary := Uint16 row 2 in
  let startLow := Uint32 row 4 in
  let stopLow := Uint32 row 8 in
  _ ← guard_err (badMulticastPort mode portID || negb (nth8 row 12 =? 0xff) || (stopLow <? startLow)) BadRow;
  let key := Z.lor (u32 (Z.shiftl portID 16)) secondary in
  _ ← guard_err (bool_decide (key ∈ keys)) Duplicate;
  Ok ({[key]} ∪ keys,
      ranges ++ [mkMulticastRange portID secondary (AddrFrom16 (slice row 12 24 ++ slice row 4 8))
                   (AddrFrom16 (slice row 12 24 ++ slice row 8 12))]).

(** The order of the ranges: by port, then by secondary key. *)
Definition byPort (a b : MulticastRange) : Prop :=
  pair_le (mr_GEMPortID a, mr_SecondaryKey a) (mr_GEMPortID b, mr_SecondaryKey b).
#[export] Instance byPort_dec a b : Decision (byPort a b).
Proof. unfold byPort. apply _. Defined.

Definition multicastIPv4Ranges (instance : Instance_) (mode : string) : Res GraphError (list MulticastRange) :=
  rows ← tableAttributeDefault instance McastGem_Ipv4Table 12;
  '(_, ranges) ← foldM_res (multicastIPv4Range mode) (rowsOf 12 (Rows rows)) (∅, []);
  Ok (merge_sort byPort ranges).

Definition multicastIPv6Ranges (instance : Instance_) (mode : string) : Res GraphError (list MulticastRange) :=
  rows ← tableAttributeDefault instance McastGem_Ipv6Table 24;
  '(_, ranges) ← foldM_res (multicastIPv6Range mode) (rowsOf 24 (Rows rows)) (∅, []);
  Ok (merge_sort byPort ranges).

Definition buildMulticastGEMInterworking (instance : Instance_) (instances : InstanceMap)
    (gemPorts : gmap Z GEMPort) (bridges : gmap Z MACBridge) (mappers : gmap Z PBitMapper) (mode : string)
    : Res GraphError MulticastGEMInterworking :=
  pointer ← uint16Attribute instance MulticastGemInterworkingTerminationPoint_GemPortNetworkCtpConnectivityPointer;
  match gemPorts !! pointer with
  | None => Err (Dangling GemPortNetworkCtpClassID pointer)
  | Some gem =>
      _ ← guard_err (Z.land (gp_Direction gem) 1 =? 0) Inconsistent;
      option_ ← uint8Attribute instance MulticastGemInterworkingTerminationPoint_InterworkingOption;
      service ← uint16Attribute instance MulticastGemInterworkingTerminationPoint_ServiceProfilePointer;
      _ ← (if option_ =? 0 then Ok tt
           else if option_ =? 1 then
             guard_err (negb (service =? 0) && negb (present bridges service))
               (Dangling MacBridgeServiceProfileClassID service)
           else if option_ =? 5 then
             guard_err (negb (service =? 0) && negb (present mappers service))
               (Dangling Ieee8021PMapperServiceProfileClassID service)
           else Err Unsupported);
      notUsed1 ← uint16AttributeDefault instance MulticastGemInterworkingTerminationPoint_NotUsed1 0;
      notUsed2 ← uint8AttributeDefault instance MulticastGemInterworkingTerminationPoint_NotUsed2 0;
      _ ← guard_err (negb (notUsed1 =? 0) || negb (notUsed2 =? 0)) Unsupported;
      gal ← uint16AttributeDefault instance MulticastGemInterworkingTerminationPoint_GalProfilePointer 0;
      _ ← (if negb (gal =? 0) then validateGALProfile instances gal else Ok tt);
      ipv4 ← multicastIPv4Ranges instance mode;
      ipv6 ← multicastIPv6Ranges instance mode;
      Ok (mkMulticastInterworking (EntityID_of instance) pointer (gp_PortID gem) (gp_TCONT gem) (gp_AllocID gem)
            option_ service gal ipv4 ipv6)
  end.

(** ** Multicast profiles and subscribers *)

(** [netip.Addr.String] prints [::ffff:a.b.c.d] for a mapped address and [MustParseAddr] reads it back,
    so the address itself stands for its text. *)
Definition ipv4AddressPrefix (prefix : list Z) : bool :=
  zeroBytes (take 10 prefix) &&
  (((nth8 prefix 10 =? 0) && (nth8 prefix 11 =? 0)) || ((nth8 prefix 10 =? 0xff) && (nth8 prefix 11 =? 0xff))).

Definition multicastACLAddress (prefixPart : option (list Z)) (low : list Z) : Addr * bool :=
  match prefixPart with
  | None => (AddrFrom4 low, false)
  | Some part =>
      if ipv4AddressPrefix (slice part 2 14) then (AddrFrom4 low, false)
      else (AddrFrom16 (slice part 2 14 ++ low), true)
  end.

Definition multicastTableAddress (value : list Z) : Addr * bool :=
  if zeroBytes (take 12 value) then (AddrFrom4 (slice value 12 16), false) else (AddrFrom16 value, true).

(** The parts of a logical row; a part that is missing is nil. *)
Abbreviation Parts := (list (option (list Z))).
Definition part (parts : Parts) (n : nat) : option (list Z) := mjoin (parts !! n).

(** Collects the row parts of a table of [limit] parts a row, which may come in any order. *)
Definition collectPart (limit : nat) (logical : gmap Z Parts) (row : list Z) : Res GraphError (gmap Z Parts) :=
  let control := Uint16 row 0 in
  let number := Z.to_nat (Z.land (Z.shiftr control 11) 0x07) in
  let key := Z.land control 0x03ff in
  _ ← guard_err (negb (Z.land control 0xc400 =? 0) || (limit <=? number)%nat) BadRow;
  let entry := default (replicate limit None) (logical !! key) in
  _ ← guard_err (bool_decide (is_Some (part entry number))) Duplicate;
  Ok (<[key := <[number := Some row]> entry]> logical).

(** [name] tells the dynamic from the static table. *)
Definition resolveMulticastACLEntry (name : string) (key : Z) (parts : Parts) (part0 : list Z) (mode : string)
    : Res GraphError MulticastACLEntry :=
  let gemPortID := Uint16 part0 2 in
  let vlanID := Uint16 part0 4 in
  _ ← guard_err (badMulticastPort mode gemPortID) OutOfRange;
  _ ← guard_err ((vlanID =? 4096) || (4097 <? vlanID) && negb (vlanID =? 0xffff)) OutOfRange;
  _ ← guard_err (negb (zeroBytes (slice part0 22 24))) BadRow;
  let '(source, _) := multicastACLAddress (part parts 1) (slice part0 6 10) in
  let '(start, destinationIPv6) := multicastACLAddress (part parts 2) (slice part0 10 14) in
  let '(stop, stopIPv6) := multicastACLAddress (part parts 2) (slice part0 14 18) in
  _ ← guard_err (negb (eqb destinationIPv6 stopIPv6) || bool_decide (Compare start stop = Gt) ||
                 ((negb destinationIPv6 && negb (Is4 start)) || (negb destinationIPv6 && negb (Is4 stop))) ||
                 ((destinationIPv6 && negb (Is6 start)) || (destinationIPv6 && negb (Is6 stop))) ||
                 negb (IsMulticast start) || negb (IsMulticast stop)) BadRow;
  '(previewLength, repeatTime, repeatCount, resetTime) ←
    match part parts 1 with
    | None => Ok (0, 0, 0, 0)
    | Some part1 =>
        _ ← guard_err (negb (zeroBytes (slice part1 22 24))) BadRow;
        let resetTime := Uint16 part1 20 in
        _ ← guard_err (bool_decide (name = McastOps_DynamicTable) && (24 <? resetTime) && (resetTime <? 241)) OutOfRange;
        Ok (Uint16 part1 14, Uint16 part1 16, Uint16 part1 18, resetTime)
    end;
  _ ← match part parts 2 with
      | None => Ok tt
      | Some part2 => guard_err (negb (zeroBytes (slice part2 14 24))) BadRow
      end;
  Ok (mkMulticastACLEntry key (if destinationIPv6 then 6 else 4) gemPortID vlanID source start stop
        (Uint32 part0 18) previewLength repeatTime repeatCount resetTime).

(** The destination ranges of two entries of one address family share no address. *)
Definition separateEntries (previous resolved : MulticastACLEntry) : bool :=
  negb (ae_IPVersion previous =? ae_IPVersion resolved) ||
  bool_decide (Compare (ae_Stop previous) (ae_Start resolved) = Lt) ||
  bool_decide (Compare (ae_Stop resolved) (ae_Start previous) = Lt).

(** One logical row; extension parts without part 0 have no meaning yet. *)
Definition aclEntry (name : string) (mode : string) (logical : gmap Z Parts) (result : list MulticastACLEntry)
    (key : Z) : Res GraphError (list MulticastACLEntry) :=
  let entry := default [] (logical !! key) in
  match part entry 0 with
  | None => Ok result
  | Some part0 =>
      resolved ← resolveMulticastACLEntry name key entry part0 mode;
      _ ← guard_err (negb (forallb (λ previous, separateEntries previous resolved) result)) Duplicate;
      Ok (result ++ [resolved])
  end.

Section maps.
Context {MR : MapRange}.

Definition multicastACL (instance : Instance_) (name mode : string) : Res GraphError (list MulticastACLEntry) :=
  rows ← tableAttributeDefault instance name 24;
  logical ← foldM_res (collectPart 3) (rowsOf 24 (Rows rows)) ∅;
  foldM_res (aclEntry name mode logical) (sortedKeys Z.le logical) [].

Definition buildMulticastOperationsProfile (instance : Instance_) (mode : string)
    : Res GraphError MulticastOperationsProfile :=
  igmpVersion ← uint8Attribute instance MulticastOperationsProfile_IgmpVersion;
  _ ← guard_err (negb (bool_decide (igmpVersion ∈ [1; 2; 3; 16; 17]))) OutOfRange;
  igmpFunction ← uint8Attribute instance MulticastOperationsProfile_IgmpFunction;
  _ ← guard_err (2 <? igmpFunction) OutOfRange;
  immediateLeave ← booleanAttributeDefault instance MulticastOperationsProfile_ImmediateLeave 0;
  upstreamTCI ← uint16AttributeDefault instance MulticastOperationsProfile_UpstreamIgmpTci 0;
  upstreamTagControl ← uint8AttributeDefault instance MulticastOperationsProfile_UpstreamIgmpTagControl 0;
  _ ← guard_err ((3 <? upstreamTagControl) ||
                 (negb (upstreamTagControl =? 0) && (Z.land upstreamTCI 0x0fff =? 0x0fff))) OutOfRange;
  upstreamRate ← uint32AttributeDefault instance MulticastOperationsProfile_UpstreamIgmpRate 0;
  dynamicACL ← multicastACL instance McastOps_DynamicTable mode;
  staticACL ← multicastACL instance McastOps_StaticTable mode;
  robustness ← uint8AttributeDefault instance MulticastOperationsProfile_Robustness 0;
  querier ← uint32AttributeDefault instance MulticastOperationsProfile_QuerierIpAddress 0;
  queryInterval ← uint32AttributeDefault instance MulticastOperationsProfile_QueryInterval 0;
  maxResponse ← uint32AttributeDefault instance MulticastOperationsProfile_QueryMaxResponseTime 0;
  lastMember ← uint32AttributeDefault instance MulticastOperationsProfile_LastMemberQueryInterval 0;
  unauthorized ← uint8AttributeDefault instance MulticastOperationsProfile_UnauthorizedJoinRequestBehaviour 0;
  _ ← guard_err (1 <? unauthorized) OutOfRange;
  downstream ← bytesAttributeDefault instance MulticastOperationsProfile_DownstreamIgmpAndMulticastTci 3 [0; 0; 0];
  let downstreamTagControl := nth8 downstream 0 in
  let downstreamTCI := Uint16 downstream 1 in
  _ ← guard_err ((7 <? downstreamTagControl) ||
                 ((2 <=? downstreamTagControl) && (Z.land downstreamTCI 0x0fff =? 0x0fff))) OutOfRange;
  Ok (mkOperationsProfile (EntityID_of instance) igmpVersion igmpFunction immediateLeave upstreamTCI
        upstreamTagControl upstreamRate dynamicACL staticACL robustness querier queryInterval maxResponse
        lastMember unauthorized downstreamTagControl downstreamTCI).

(** One service package row: the row keys seen and the packages. *)
Definition servicePackageRow (profiles : gmap Z MulticastOperationsProfile)
    (acc : gset Z * list MulticastServicePackage) (row : list Z)
    : Res GraphError (gset Z * list MulticastServicePackage) :=
  let '(seen, result) := acc in
  let control := Uint16 row 0 in
  let key := Z.land control 0x03ff in
  _ ← guard_err (negb (Z.land control 0xfc00 =? 0)) BadRow;
  _ ← guard_err (bool_decide (key ∈ seen)) Duplicate;
  let entry := mkServicePackage_ key (Uint16 row 2) (Uint16 row 4) (Uint32 row 6) (Uint16 row 10) in
  _ ← guard_err ((4097 <? sv_VLANID entry) && negb (sv_VLANID entry =? 0xffff)) OutOfRange;
  _ ← guard_err (negb (present profiles (sv_OperationsProfile entry)))
        (Dangling MulticastOperationsProfileClassID (sv_OperationsProfile entry));
  _ ← guard_err (negb (zeroBytes (slice row 12 20))) BadRow;
  Ok ({[key]} ∪ seen, result ++ [entry]).

Definition multicastServicePackages (instance : Instance_) (profiles : gmap Z MulticastOperationsProfile)
    : Res GraphError (list MulticastServicePackage) :=
  rows ← tableAttributeDefault instance McastSub_ServicePackageTable 20;
  '(_, result) ← foldM_res (servicePackageRow profiles) (rowsOf 20 (Rows rows)) (∅, []);
  Ok (sortBy sv_RowKey result).

(** One logical preview row; it means nothing until both its parts are there. *)
Definition previewGroup (logical : gmap Z Parts) (result : list AllowedPreviewGroup) (key : Z)
    : Res GraphError (list AllowedPreviewGroup) :=
  let parts := default [] (logical !! key) in
  match part parts 0, part parts 1 with
  | Some part0, Some part1 =>
      let '(source, _) := multicastTableAddress (slice part0 2 18) in
      let '(destination, ipv6) := multicastTableAddress (slice part1 2 18) in
      let aniVLAN := Uint16 part0 18 in
      let uniVLAN := Uint16 part0 20 in
      _ ← guard_err ((4095 <? aniVLAN) || (4095 <? uniVLAN) || negb (IsMulticast destination)) BadRow;
      Ok (result ++ [mkPreviewGroup key (if ipv6 : bool then 6 else 4) source destination aniVLAN uniVLAN
                       (Uint16 part1 18) (Uint16 part1 20)])
  | _, _ => Ok result
  end.

Definition allowedPreviewGroups (instance : Instance_) : Res GraphError (list AllowedPreviewGroup) :=
  rows ← tableAttributeDefault instance McastSub_PreviewTable 22;
  logical ← foldM_res (collectPart 2) (rowsOf 22 (Rows rows)) ∅;
  foldM_res (previewGroup logical) (sortedKeys Z.le logical) [].

Definition buildMulticastSubscriber (instance : Instance_) (bridgePorts : gmap Z MACBridgePort)
    (mappers : gmap Z PBitMapper) (profiles : gmap Z MulticastOperationsProfile)
    : Res GraphError MulticastSubscriberConfigInfo :=
  let entityID := EntityID_of instance in
  meType ← uint8Attribute instance MulticastSubscriberConfigInfo_MeType;
  _ ← (if meType =? 0 then
         match bridgePorts !! entityID with
         | None => Err (Dangling MacBridgePortConfigurationDataClassID entityID)
         | Some port => guard_err (negb (bp_TPType port =? 1)) Inconsistent
         end
       else if meType =? 1 then
         guard_err (negb (present mappers entityID)) (Dangling Ieee8021PMapperServiceProfileClassID entityID)
       else Err Unsupported);
  profile ← uint16Attribute instance MulticastSubscriberConfigInfo_MulticastOperationsProfilePointer;
  maxGroups ← uint16AttributeDefault instance MulticastSubscriberConfigInfo_MaxSimultaneousGroups 0;
  maxBandwidth ← uint32AttributeDefault instance MulticastSubscriberConfigInfo_MaxMulticastBandwidth 0;
  enforcement ← booleanAttributeDefault instance MulticastSubscriberConfigInfo_BandwidthEnforcement 0;
  packages ← multicastServicePackages instance profiles;
  _ ← guard_err ((length packages =? 0)%nat && negb (present profiles profile))
        (Dangling MulticastOperationsProfileClassID profile);
  previews ← allowedPreviewGroups instance;
  Ok (mkSubscriberConfig entityID meType profile maxGroups maxBandwidth enforcement packages previews).
End maps.

(** ** VLAN handling *)

Definition decodeVLANForwardOperation (operation : Z)
    : Res GraphError (VLANFilterAction * VLANFilterCriterion * VLANFilterAction) :=
  let untagged :=
    if bool_decide (operation ∈ [0x02; 0x04; 0x06; 0x08; 0x0a; 0x0c; 0x0e; 0x10; 0x12; 0x14; 0x15; 0x17; 0x19;
                                 0x1b; 0x1d; 0x1f; 0x21])
    then VLANFilterActionDiscard else VLANFilterActionBridge in
  let among codes := bool_decide (operation ∈ codes) in
  if among [0x00; 0x02; 0x15] then Ok (VLANFilterActionBridge, VLANFilterCriterionNone, untagged)
  else if among [0x01] then Ok (VLANFilterActionDiscard, VLANFilterCriterionNone, untagged)
  else if among [0x03; 0x04; 0x0f; 0x10; 0x1c; 0x1d] then Ok (VLANFilterActionPositive, VLANFilterCriterionVID, untagged)
  else if among [0x05; 0x06] then Ok (VLANFilterActionNegative, VLANFilterCriterionVID, untagged)
  else if among [0x07; 0x08; 0x11; 0x12; 0x1e; 0x1f]
  then Ok (VLANFilterActionPositive, VLANFilterCriterionPriority, untagged)
  else if among [0x09; 0x0a] then Ok (VLANFilterActionNegative, VLANFilterCriterionPriority, untagged)
  else if among [0x0b; 0x0c; 0x13; 0x14; 0x20; 0x21] then Ok (VLANFilterActionPositive, VLANFilterCriterionTCI, untagged)
  else if among [0x0d; 0x0e] then Ok (VLANFilterActionNegative, VLANFilterCriterionTCI, untagged)
  else if among [0x16; 0x17] then Ok (VLANFilterActionPositiveDA, VLANFilterCriterionVID, untagged)
  else if among [0x18; 0x19] then Ok (VLANFilterActionPositiveDA, VLANFilterCriterionPriority, untagged)
  else if among [0x1a; 0x1b] then Ok (VLANFilterActionPositiveDA, VLANFilterCriterionTCI, untagged)
  else Err Unsupported.

(** Entry [index] of the filter list. *)
Definition filterEntry (list_ : list Z) (index : nat) : Res GraphError Z :=
  let entry := Z.lor (u16 (Z.shiftl (nth8 list_ (index * 2)) 8)) (nth8 list_ (index * 2 + 1)) in
  _ ← guard_err (Z.land entry 0x0fff =? 0x0fff) OutOfRange;
  Ok entry.

Definition buildVLANFilter (instance : Instance_) (bridgePorts : gmap Z MACBridgePort) : Res GraphError VLANFilter :=
  let entityID := EntityID_of instance in
  _ ← guard_err (negb (present bridgePorts entityID)) (Dangling MacBridgePortConfigurationDataClassID entityID);
  list_ ← bytesAttribute instance VlanTaggingFilterData_VlanFilterList 24;
  count ← uint8Attribute instance VlanTaggingFilterData_NumberOfEntries;
  _ ← guard_err (12 <? count) OutOfRange;
  entries ← mapM_res (filterEntry list_) (seq 0 (Z.to_nat count));
  operation ← uint8Attribute instance VlanTaggingFilterData_ForwardOperation;
  '(taggedAction, criterion, untaggedAction) ← decodeVLANForwardOperation operation;
  Ok (mkVLANFilter entityID entityID operation taggedAction criterion untaggedAction entries).

Definition buildVLANOperation (instance : Instance_) (instances : InstanceMap) : Res GraphError VLANOperation :=
  let entityID := EntityID_of instance in
  upstreamMode ← uint8Attribute instance VlanTaggingOperationConfigurationData_UpstreamVlanTaggingOperationMode;
  _ ← guard_err (2 <? upstreamMode) OutOfRange;
  tci ← uint16Attribute instance VlanTaggingOperationConfigurationData_UpstreamVlanTagTciValue;
  _ ← guard_err (negb (upstreamMode =? 0) && (Z.land tci 0x0fff =? 0x0fff)) OutOfRange;
  downstreamMode ← uint8Attribute instance VlanTaggingOperationConfigurationData_DownstreamVlanTaggingOperationMode;
  _ ← guard_err (1 <? downstreamMode) OutOfRange;
  associationType ← uint8AttributeDefault instance VlanTaggingOperationConfigurationData_AssociationType 0;
  pointer ← (if negb (associationType =? 0)
             then uint16Attribute instance VlanTaggingOperationConfigurationData_AssociatedMePointer
             else Ok entityID);
  targetClass ← (if (associationType =? 0) || (associationType =? 10)
                 then Ok PhysicalPathTerminationPointEthernetUniClassID
                 else if associationType =? 2 then Ok Ieee8021PMapperServiceProfileClassID
                 else if associationType =? 3 then Ok MacBridgePortConfigurationDataClassID
                 else if associationType =? 5 then Ok GemInterworkingTerminationPointClassID
                 else Err Unsupported);
  _ ← guard_err (negb (hasInstance instances targetClass pointer)) (Dangling targetClass pointer);
  Ok (mkVLANOperation entityID associationType targetClass pointer upstreamMode tci downstreamMode).

Definition buildExtendedVLAN (instance : Instance_) (instances : InstanceMap) : Res GraphError ExtendedVLAN :=
  associationType ← uint8Attribute instance ExtendedVlanTaggingOperationConfigurationData_AssociationType;
  pointer ← uint16Attribute instance ExtendedVlanTaggingOperationConfigurationData_AssociatedMePointer;
  targetClass ← (if associationType =? 0 then Ok MacBridgePortConfigurationDataClassID
                 else if associationType =? 1 then Ok Ieee8021PMapperServiceProfileClassID
                 else if associationType =? 2 then Ok PhysicalPathTerminationPointEthernetUniClassID
                 else if associationType =? 5 then Ok GemInterworkingTerminationPointClassID
                 else Err Unsupported);
  _ ← guard_err (negb (hasInstance instances targetClass pointer)) (Dangling targetClass pointer);
  inputTPID ← uint16Attribute instance ExtendedVlanTaggingOperationConfigurationData_InputTpid;
  outputTPID ← uint16Attribute instance ExtendedVlanTaggingOperationConfigurationData_OutputTpid;
  downstream ← uint8Attribute instance ExtendedVlanTaggingOperationConfigurationData_DownstreamMode;
  _ ← guard_err (8 <? downstream) OutOfRange;
  enhanced ← uint8AttributeDefault instance ExtendedVlanTaggingOperationConfigurationData_EnhancedMode 0;
  _ ← guard_err (1 <? enhanced) OutOfRange;
  let '(name, rowSize) := if enhanced =? 1 then (ExtVlan_EnhancedTable, EnhancedRowSize)
                          else (ExtVlan_Table, ClassicRowSize) in
  rules ← tableAttributeDefault instance name rowSize;
  maximum ← uint16AttributeDefault instance ExtVlan_MaxSize 0;
  _ ← guard_err (negb (maximum =? 0) && (maximum <? NumRows rules)) OutOfRange;
  parsedRules ← vlanResult (ParseRows (Rows rules) (enhanced =? 1));
  dscp ← dscpMapping instance ExtendedVlanTaggingOperationConfigurationData_DscpToPBitMapping;
  Ok (mkExtendedVLAN (EntityID_of instance) associationType targetClass pointer inputTPID outputTPID downstream
        enhanced dscp parsedRules).

(** ** Traffic management *)

Definition validateUpstreamTrafficPointer (instances : InstanceMap) (tcont pointer option_ : Z)
    : Res GraphError unit :=
  if option_ =? 1 then guard_err (negb (pointer =? tcont)) Inconsistent
  else
    match instances !! (PriorityQueueClassID, pointer) with
    | None => Err (Dangling PriorityQueueClassID pointer)
    | Some queue =>
        related ← uint32Attribute queue PriorityQueue_RelatedPort;
        guard_err (negb (u16 (Z.shiftr related 16) =? tcont)) Inconsistent
    end.

(** [validateTrafficDescriptorPointer] and [validateBridgePortTrafficDescriptorPointer], which differ in
    the text of their error. *)
Definition validateTrafficDescriptorPointer (instances : InstanceMap) (pointer : Z) : Res GraphError unit :=
  if pointer =? nullPointer then Ok tt
  else guard_err (negb (hasInstance instances TrafficDescriptorClassID pointer))
         (Dangling TrafficDescriptorClassID pointer).

Definition buildTrafficDescriptor (instance : Instance_) : Res GraphError TrafficDescriptor :=
  cir ← uint32AttributeDefault instance TrafficDescriptor_Cir 0;
  pir ← uint32AttributeDefault instance TrafficDescriptor_Pir 0;
  cbs ← uint32AttributeDefault instance TrafficDescriptor_Cbs 0;
  pbs ← uint32AttributeDefault instance TrafficDescriptor_Pbs 0;
  colourMode ← uint8AttributeDefault instance TrafficDescriptor_ColourMode 0;
  ingress ← uint8AttributeDefault instance TrafficDescriptor_IngressColourMarking 0;
  egress ← uint8AttributeDefault instance TrafficDescriptor_EgressColourMarking 0;
  meterType ← uint8AttributeDefault instance TrafficDescriptor_MeterType 0;
  _ ← guard_err (negb (pir =? 0) && (pir <? cir)) Inconsistent;
  _ ← guard_err (1 <? colourMode) OutOfRange;
  _ ← guard_err ((ingress =? 1) || (7 <? ingress)) OutOfRange;
  _ ← guard_err (7 <? egress) OutOfRange;
  _ ← guard_err (2 <? meterType) OutOfRange;
  Ok (mkDescriptor (EntityID_of instance) cir pir cbs pbs colourMode ingress egress meterType).

(** One pointer of a rate limiter. *)
Definition limiterPointer (instance : Instance_) (instances : InstanceMap) (field : string) : Res GraphError Z :=
  target ← uint16AttributeDefault instance field 0;
  let target := nullIfZero target in
  _ ← guard_err (negb (target =? nullPointer) && negb (hasInstance instances TrafficDescriptorClassID target))
        (Dangling TrafficDescriptorClassID target);
  Ok target.

Definition buildDot1RateLimiter (instance : Instance_) (instances : InstanceMap)
    : Res GraphError (Dot1RateLimiter * Key) :=
  parentME ← uint16Attribute instance Dot1RateLimiter_ParentMePointer;
  tpType ← uint8Attribute instance Dot1RateLimiter_TpType;
  parentClass ← (if tpType =? 1 then Ok MacBridgeServiceProfileClassID
                 else if tpType =? 2 then Ok Ieee8021PMapperServiceProfileClassID
                 else Err OutOfRange);
  let parent : Key := (parentClass, parentME) in
  _ ← guard_err (negb (hasInstance instances parentClass parentME)) (Dangling parentClass parentME);
  flood ← limiterPointer instance instances Dot1RateLimiter_UpstreamUnicastFloodRatePointer;
  broadcast ← limiterPointer instance instances Dot1RateLimiter_UpstreamBroadcastRatePointer;
  payload ← limiterPointer instance instances Dot1RateLimiter_UpstreamMulticastPayloadRatePointer;
  Ok (mkLimiter (EntityID_of instance) parentME tpType flood broadcast payload, parent).
