(* ===== verification/GraphBuild.v ===== *)
(** * The service graph: its construction

    [BuildServiceGraph] of src/internal/platform/graph.go: the passes over the snapshot of the MIB
    that resolve its managed entities into the nodes of a graph, and their order. *)

From S2P Require Import Prelude Maps Netip MeTypes MeClasses MeLib Mib MeNames Vlan Table Store Model Graph.

Section build.
Context {MR : MapRange}.
Implicit Types (instance : Instance_) (instances : InstanceMap) (snapshot : list Instance_).

(** The instances of [classID] of a snapshot. *)
Definition ofClass (classID : Z) snapshot : list Instance_ :=
  filter (λ instance, ClassID_of instance = classID) snapshot.

Definition indexInstance (instances : InstanceMap) instance : Res GraphError InstanceMap :=
  _ ← guard_err (bool_decide (is_Some (instances !! i_Key instance))) Duplicate;
  Ok (<[i_Key instance := instance]> instances).

(** ** The first pass: entities that refer to no other *)

Record survey := mkSurvey {
  su_unis : list EthernetUNI;
  su_tconts : gmap Z TCONT;
  su_alloc : gmap Z Z;
  su_indexes : gmap Z nat;
  su_tcontList : list TCONT;
  su_bridges : gmap Z MACBridge;
  su_mappers : gmap Z PBitMapper;
  su_mapperList : list PBitMapper;
  su_profiles : gmap Z MulticastOperationsProfile;
  su_profileList : list MulticastOperationsProfile
}.
Definition noSurvey : survey := mkSurvey [] ∅ ∅ ∅ [] ∅ ∅ [] ∅ [].

Definition circuitPackState (states : gmap Z Z) (entry : Key * Instance_) : Res GraphError (gmap Z Z) :=
  let instance := entry.2 in
  if negb (ClassID_of instance =? CircuitPackClassID) then Ok states
  else
    let slot := u8 (EntityID_of instance) in
    _ ← guard_err (present states slot) Duplicate;
    state ← administrativeState instance CircuitPack_AdministrativeState;
    Ok (<[slot := state]> states).

Definition circuitPackAdministrativeStates (instances : InstanceMap) : Res GraphError (gmap Z Z) :=
  foldM_res circuitPackState (range instances) ∅.

(** The administrative state of an Ethernet UNI: locked as well by its UNI-G, its circuit pack and
    the ONU. *)
Definition buildUNI instance (instances : InstanceMap) (circuitPacks : gmap Z Z) (onuState : Z)
    : Res GraphError EthernetUNI :=
  let entityID := EntityID_of instance in
  interfaceName ← ethernetUNIInterface entityID;
  administrative ← uint8AttributeDefault instance PhysicalPathTerminationPointEthernetUni_AdministrativeState 0;
  _ ← guard_err (1 <? administrative) OutOfRange;
  administrative ← match instances !! (UniGClassID, entityID) with
                   | None => Ok administrative
                   | Some uniG =>
                       state ← administrativeState uniG UniG_AdministrativeState;
                       Ok (if state =? 1 then 1 else administrative)
                   end;
  let administrative :=
    if (default 0 (circuitPacks !! u8 (Z.shiftr entityID 8)) =? 1) || (onuState =? 1) then 1 else administrative in
  operational ← uint8AttributeDefault instance PhysicalPathTerminationPointEthernetUni_OperationalState 1;
  configuration ← uint8AttributeDefault instance PhysicalPathTerminationPointEthernetUni_ConfigurationInd 0;
  Ok (mkUNI entityID interfaceName administrative operational configuration).

Definition surveyTCONT (allocIDLimit : Z) (s : survey) instance : Res GraphError survey :=
  let entityID := EntityID_of instance in
  allocID ← uint16Attribute instance TCont_AllocId;
  _ ← guard_err (negb (allocID =? nullPointer) && (allocIDLimit <? allocID)) OutOfRange;
  _ ← guard_err (negb (allocID =? nullPointer) && present (su_alloc s) allocID) Duplicate;
  let alloc := if negb (allocID =? nullPointer) then <[allocID := entityID]> (su_alloc s) else su_alloc s in
  policy ← uint8AttributeDefault instance TCont_Policy 0;
  _ ← guard_err (2 <? policy) Unsupported;
  let tcont := mkTCONT entityID allocID policy 0 (replicate 8 0) (replicate 8 0) in
  Ok (mkSurvey (su_unis s) (<[entityID := tcont]> (su_tconts s)) alloc
        (<[entityID := length (su_tcontList s)]> (su_indexes s)) (su_tcontList s ++ [tcont])
        (su_bridges s) (su_mappers s) (su_mapperList s) (su_profiles s) (su_profileList s)).

Definition surveyInstance (mode : string) (allocIDLimit : Z) (instances : InstanceMap) (circuitPacks : gmap Z Z)
    (onuState : Z) (s : survey) instance : Res GraphError survey :=
  let entityID := EntityID_of instance in
  let classID := ClassID_of instance in
  if classID =? PhysicalPathTerminationPointEthernetUniClassID then
    uni ← buildUNI instance instances circuitPacks onuState;
    Ok (mkSurvey (su_unis s ++ [uni]) (su_tconts s) (su_alloc s) (su_indexes s) (su_tcontList s) (su_bridges s)
          (su_mappers s) (su_mapperList s) (su_profiles s) (su_profileList s))
  else if classID =? TContClassID then surveyTCONT allocIDLimit s instance
  else if classID =? MacBridgeServiceProfileClassID then
    bridge ← buildMACBridge instance;
    Ok (mkSurvey (su_unis s) (su_tconts s) (su_alloc s) (su_indexes s) (su_tcontList s)
          (<[entityID := bridge]> (su_bridges s)) (su_mappers s) (su_mapperList s) (su_profiles s) (su_profileList s))
  else if classID =? Ieee8021PMapperServiceProfileClassID then
    mapper ← buildMapper instance;
    Ok (mkSurvey (su_unis s) (su_tconts s) (su_alloc s) (su_indexes s) (su_tcontList s) (su_bridges s)
          (<[entityID := mapper]> (su_mappers s)) (su_mapperList s ++ [mapper]) (su_profiles s) (su_profileList s))
  else if classID =? MulticastOperationsProfileClassID then
    profile ← buildMulticastOperationsProfile instance mode;
    Ok (mkSurvey (su_unis s) (su_tconts s) (su_alloc s) (su_indexes s) (su_tcontList s) (su_bridges s)
          (su_mappers s) (su_mapperList s) (<[entityID := profile]> (su_profiles s)) (su_profileList s ++ [profile]))
  else Ok s.

(** ** T-CONT schedulers and queues *)

(** The loop over the traffic schedulers: the scheduler that serves the T-CONT, if any yet. *)
Definition scheduleTCONT (tcontID : Z) (acc : TCONT * option Z) instance : Res GraphError (TCONT * option Z) :=
  let '(tcont, scheduler) := acc in
  pointer ← uint16AttributeDefault instance TrafficScheduler_TContPointer nullPointer;
  if negb (pointer =? tcontID) then Ok acc
  else
    _ ← guard_err (bool_decide (is_Some scheduler)) Duplicate;
    policy ← uint8AttributeDefault instance TrafficScheduler_Policy (tc_SchedulerPolicy tcont);
    weight ← uint8AttributeDefault instance TrafficScheduler_PriorityWeight 0;
    _ ← guard_err (2 <? policy) Unsupported;
    Ok (mkTCONT (tc_EntityID tcont) (tc_AllocID tcont) policy weight (tc_QueueEntities tcont) (tc_QueueWeights tcont),
        Some (EntityID_of instance)).

(** The loop over the priority queues; [slots] are the priorities taken. *)
Definition queueTCONT (instances : InstanceMap) (tcontID : Z) (acc : TCONT * gset Z) instance
    : Res GraphError (TCONT * gset Z) :=
  let '(tcont, slots) := acc in
  related ← uint32AttributeDefault instance PriorityQueue_RelatedPort 0xffffffff;
  if negb (u16 (Z.shiftr related 16) =? tcontID) then Ok acc
  else
    let priority := u8 (Z.land related 0xff) in
    _ ← guard_err (8 <=? priority) OutOfRange;
    _ ← guard_err (bool_decide (priority ∈ slots)) Duplicate;
    queueScheduler ← uint16AttributeDefault instance PriorityQueue_TrafficSchedulerPointer 0;
    _ ← (if negb (queueScheduler =? 0) then
           match instances !! (TrafficSchedulerClassID, queueScheduler) with
           | None => Err (Dangling TrafficSchedulerClassID queueScheduler)
           | Some scheduler =>
               schedulerTCONT ← uint16AttributeDefault scheduler TrafficScheduler_TContPointer nullPointer;
               guard_err (negb (schedulerTCONT =? tcontID)) Inconsistent
           end
         else Ok tt);
    queueWeight ← uint8AttributeDefault instance PriorityQueue_Weight 1;
    let index := Z.to_nat priority in
    Ok (mkTCONT (tc_EntityID tcont) (tc_AllocID tcont) (tc_SchedulerPolicy tcont) (tc_SchedulerWeight tcont)
          (<[index := EntityID_of instance]> (tc_QueueEntities tcont)) (<[index := queueWeight]> (tc_QueueWeights tcont)),
        {[priority]} ∪ slots).

Definition resolveTCONT snapshot (instances : InstanceMap) (tcontID : Z) (tcont : TCONT) : Res GraphError TCONT :=
  '(tcont, _) ← foldM_res (scheduleTCONT tcontID) (ofClass TrafficSchedulerClassID snapshot) (tcont, None);
  '(tcont, _) ← foldM_res (queueTCONT instances tcontID) (ofClass PriorityQueueClassID snapshot) (tcont, ∅);
  _ ← guard_err ((tc_SchedulerPolicy tcont =? 2) &&
                 negb (existsb (λ weight, negb (weight =? 0)) (tc_QueueWeights tcont))) Inconsistent;
  Ok tcont.

(** [for tcontID, tcont := range tconts]: the resolved T-CONT replaces its entry of the list. *)
Definition resolveTCONTs snapshot (instances : InstanceMap) (s : survey) : Res GraphError (list TCONT) :=
  foldM_res (λ list_ entry,
      tcont ← resolveTCONT snapshot instances entry.1 entry.2;
      Ok (match su_indexes s !! entry.1 with Some index => <[index := tcont]> list_ | None => list_ end))
    (range (su_tconts s)) (su_tcontList s).

(** ** Rate limiters and GEM ports *)

Definition limiterStep (instances : InstanceMap) (acc : gmap Key Z * list Dot1RateLimiter) instance
    : Res GraphError (gmap Key Z * list Dot1RateLimiter) :=
  let '(parents, limiters) := acc in
  '(limiter, parent) ← buildDot1RateLimiter instance instances;
  _ ← guard_err (bool_decide (is_Some (parents !! parent))) Duplicate;
  Ok (<[parent := EntityID_of instance]> parents, limiters ++ [limiter]).

(** The loop over the GEM ports: the entity of each port ID, and the ports. *)
Definition gemPortStep (gemPortLimit trafficOption : Z) (instances : InstanceMap) (tconts : gmap Z TCONT)
    (acc : gmap Z Z * gmap Z GEMPort * list GEMPort) instance
    : Res GraphError (gmap Z Z * gmap Z GEMPort * list GEMPort) :=
  let '(portIDs, ports, list_) := acc in
  let entityID := EntityID_of instance in
  portID ← uint16Attribute instance GemPortNetworkCtp_PortId;
  _ ← guard_err (gemPortLimit <? portID) OutOfRange;
  _ ← guard_err (present portIDs portID) Duplicate;
  let portIDs := <[portID := entityID]> portIDs in
  tcontID ← uint16Attribute instance GemPortNetworkCtp_TContPointer;
  match tconts !! tcontID with
  | None => Err (Dangling TContClassID tcontID)
  | Some tcont =>
      direction ← uint8Attribute instance GemPortNetworkCtp_Direction;
      _ ← guard_err ((direction <? 1) || (3 <? direction)) OutOfRange;
      upstreamQueue ← uint16Attribute instance GemPortNetworkCtp_TrafficManagementPointerForUpstream;
      _ ← validateUpstreamTrafficPointer instances tcontID upstreamQueue trafficOption;
      downstreamQueue ← uint16Attribute instance GemPortNetworkCtp_PriorityQueuePointerForDownStream;
      _ ← guard_err (negb (downstreamQueue =? nullPointer) &&
                     negb (hasInstance instances PriorityQueueClassID downstreamQueue))
            (Dangling PriorityQueueClassID downstreamQueue);
      upstreamTD ← uint16AttributeDefault instance GemPortNetworkCtp_TrafficDescriptorProfilePointerForUpstream nullPointer;
      downstreamTD ← uint16AttributeDefault instance GemPortNetworkCtp_TrafficDescriptorProfilePointerForDownstream nullPointer;
      _ ← validateTrafficDescriptorPointer instances upstreamTD;
      _ ← validateTrafficDescriptorPointer instances downstreamTD;
      keyRing ← uint8AttributeDefault instance GemPortNetworkCtp_EncryptionKeyRing 0;
      _ ← guard_err (3 <? keyRing) OutOfRange;
      let port := mkGEMPort entityID portID tcontID (tc_AllocID tcont) direction upstreamQueue downstreamQueue
                    upstreamTD downstreamTD keyRing in
      Ok (portIDs, <[entityID := port]> ports, list_ ++ [port])
  end.

(** The loops that build one node an entity, in a map and in a list. *)
Definition nodeStep {A} (build : Instance_ → Res GraphError A) (acc : gmap Z A * list A) instance
    : Res GraphError (gmap Z A * list A) :=
  node ← build instance;
  Ok (<[EntityID_of instance := node]> acc.1, acc.2 ++ [node]).

(** ** Bridge ports *)

Definition validateBridgePortTP (bridgeID tpType pointer : Z) (instances : InstanceMap)
    (interworking : gmap Z GEMInterworking) (multicast : gmap Z MulticastGEMInterworking) : Res GraphError unit :=
  classID ← (if tpType =? 1 then Ok PhysicalPathTerminationPointEthernetUniClassID
             else if tpType =? 3 then Ok Ieee8021PMapperServiceProfileClassID
             else if tpType =? 5 then Ok GemInterworkingTerminationPointClassID
             else if tpType =? 6 then Ok MulticastGemInterworkingTerminationPointClassID
             else Err Unsupported);
  match instances !! (classID, pointer) with
  | None => Err (Dangling classID pointer)
  | Some target =>
      if tpType =? 5 then
        let iw := default noInterworking (interworking !! pointer) in
        guard_err (negb (iw_Option iw =? 1) || negb (iw_ServiceProfile iw =? bridgeID)) Inconsistent
      else if tpType =? 6 then
        let iw := default noMulticastInterworking (multicast !! pointer) in
        guard_err ((mi_Option iw =? 1) && negb (mi_ServiceProfile iw =? 0) && negb (mi_ServiceProfile iw =? bridgeID))
          Inconsistent
      else if tpType =? 3 then
        mapperTPType ← uint8AttributeDefault target Ieee8021PMapperServiceProfile_TpType 0;
        guard_err (negb (mapperTPType =? 0)) Inconsistent
      else Ok tt
  end.

Definition addPort (bridge : MACBridge) (ports : list MACBridgePort) : MACBridge :=
  mkBridge (br_EntityID bridge) (br_SpanningTree bridge) (br_Learning bridge) (br_PortBridging bridge)
    (br_Priority bridge) (br_MaxAge bridge) (br_HelloTime bridge) (br_ForwardDelay bridge)
    (br_UnknownMACDiscard bridge) (br_MACLearningDepth bridge) (br_DynamicFilteringAgeTime bridge) ports.

(** The loop over the bridge ports: the port numbers in use of each bridge, the ports, and the
    bridges, which the code holds by pointer. *)
Definition bridgePortStep (instances : InstanceMap) (interworking : gmap Z GEMInterworking)
    (multicast : gmap Z MulticastGEMInterworking)
    (acc : gmap Z (gmap Z Z) * gmap Z MACBridgePort * gmap Z MACBridge) instance
    : Res GraphError (gmap Z (gmap Z Z) * gmap Z MACBridgePort * gmap Z MACBridge) :=
  let '(numbers, ports, bridges) := acc in
  let entityID := EntityID_of instance in
  bridgeID ← uint16Attribute instance MacBridgePortConfigurationData_BridgeIdPointer;
  match bridges !! bridgeID with
  | None => Err (Dangling MacBridgeServiceProfileClassID bridgeID)
  | Some bridge =>
      portNumber ← uint8Attribute instance MacBridgePortConfigurationData_PortNum;
      let used := default ∅ (numbers !! bridgeID) in
      _ ← guard_err (present used portNumber) Duplicate;
      tpType ← uint8Attribute instance MacBridgePortConfigurationData_TpType;
      tp ← uint16Attribute instance MacBridgePortConfigurationData_TpPointer;
      _ ← validateBridgePortTP bridgeID tpType tp instances interworking multicast;
      port ← buildMACBridgePort instance portNumber tpType tp;
      _ ← validateTrafficDescriptorPointer instances (bp_OutboundTD port);
      _ ← validateTrafficDescriptorPointer instances (bp_InboundTD port);
      Ok (<[bridgeID := <[portNumber := entityID]> used]> numbers, <[entityID := port]> ports,
          <[bridgeID := addPort bridge (br_Ports bridge ++ [port])]> bridges)
  end.

(** ** VLAN entities *)

Record vlanNodes := mkVLANNodes {
  vn_associations : gmap Key Z;
  vn_filters : list VLANFilter;
  vn_operations : list VLANOperation;
  vn_extended : list ExtendedVLAN
}.

Definition vlanStep (instances : InstanceMap) (bridgePorts : gmap Z MACBridgePort) (acc : vlanNodes) instance
    : Res GraphError vlanNodes :=
  let classID := ClassID_of instance in
  if classID =? VlanTaggingFilterDataClassID then
    filter_ ← buildVLANFilter instance bridgePorts;
    Ok (mkVLANNodes (vn_associations acc) (vn_filters acc ++ [filter_]) (vn_operations acc) (vn_extended acc))
  else if classID =? VlanTaggingOperationConfigurationDataClassID then
    operation ← buildVLANOperation instance instances;
    let association : Key := (vo_AssociatedClass operation, vo_AssociatedME operation) in
    _ ← guard_err (bool_decide (is_Some (vn_associations acc !! association))) Duplicate;
    Ok (mkVLANNodes (<[association := vo_EntityID operation]> (vn_associations acc)) (vn_filters acc)
          (vn_operations acc ++ [operation]) (vn_extended acc))
  else if classID =? ExtendedVlanTaggingOperationConfigurationDataClassID then
    extended ← buildExtendedVLAN instance instances;
    let association : Key := (xv_AssociatedClass extended, xv_AssociatedME extended) in
    _ ← guard_err (bool_decide (is_Some (vn_associations acc !! association))) Duplicate;
    Ok (mkVLANNodes (<[association := xv_EntityID extended]> (vn_associations acc)) (vn_filters acc)
          (vn_operations acc) (vn_extended acc ++ [extended]))
  else Ok acc.

(** ** The graph *)

Definition sortServiceGraph (g : ServiceGraph) : ServiceGraph :=
  mkGraph (sg_PONMode g) (sortBy eu_EntityID (sg_UNIs g)) (sortBy tc_EntityID (sg_TCONTs g))
    (sortBy td_EntityID (sg_TrafficDescs g)) (sortBy rl_EntityID (sg_Dot1RateLimiters g))
    (sortBy gp_EntityID (sg_GEMPorts g)) (sortBy iw_EntityID (sg_Interworking g))
    (sortBy mi_EntityID (sg_MulticastInterworking g)) (sortBy mp_EntityID (sg_MulticastProfiles g))
    (sortBy mc_EntityID (sg_MulticastSubscribers g)) (sortBy pm_EntityID (sg_Mappers g))
    (sortBy br_EntityID (sg_Bridges g)) (sortBy vf_EntityID (sg_VLANFilters g))
    (sortBy vo_EntityID (sg_VLANOperations g)) (sortBy xv_EntityID (sg_ExtendedVLANs g)).

(** The traffic management option and the administrative state of the ONU. *)
Definition onuSettings (instances : InstanceMap) : Res GraphError (Z * Z) :=
  match instances !! (OnuGClassID, 0) with
  | None => Ok (0, 0)
  | Some onu =>
      option_ ← uint8AttributeDefault onu OnuG_TrafficManagementOption 0;
      _ ← guard_err (2 <? option_) OutOfRange;
      state ← administrativeState onu OnuG_AdministrativeState;
      Ok (option_, state)
  end.

Definition buildServiceGraph_ snapshot (mode : string) (explicitMode : bool) : Res GraphError ServiceGraph :=
  instances ← foldM_res indexInstance snapshot ∅;
  let xgs := bool_decide (mode = XGSPON) in
  let allocIDLimit := if xgs then 0x3fff else 0x0fff in
  let gemPortLimit := if xgs then 0xfffe else 0x0fff in
  '(trafficOption, onuState) ← onuSettings instances;
  circuitPacks ← circuitPackAdministrativeStates instances;
  s ← foldM_res (surveyInstance mode allocIDLimit instances circuitPacks onuState) snapshot noSurvey;
  tconts ← resolveTCONTs snapshot instances s;
  descriptors ← mapM_res buildTrafficDescriptor (ofClass TrafficDescriptorClassID snapshot);
  '(_, limiters) ← foldM_res (limiterStep instances) (ofClass Dot1RateLimiterClassID snapshot) (∅, []);
  '(_, gemPorts, gemPortList) ← foldM_res (gemPortStep gemPortLimit trafficOption instances (su_tconts s))
                                  (ofClass GemPortNetworkCtpClassID snapshot) (∅, ∅, []);
  '(interworking, interworkingList) ←
    foldM_res (nodeStep (λ instance, buildGEMInterworking instance instances gemPorts (su_bridges s) (su_mappers s)))
      (ofClass GemInterworkingTerminationPointClassID snapshot) (∅, []);
  '(multicast, multicastList) ←
    foldM_res (nodeStep (λ instance, buildMulticastGEMInterworking instance instances gemPorts (su_bridges s)
                                       (su_mappers s) mode))
      (ofClass MulticastGemInterworkingTerminationPointClassID snapshot) (∅, []);
  _ ← foldM_res (λ _ mapper, validateMapper mapper instances interworking) (su_mapperList s) tt;
  '(_, bridgePorts, bridges) ← foldM_res (bridgePortStep instances interworking multicast)
                                 (ofClass MacBridgePortConfigurationDataClassID snapshot) (∅, ∅, su_bridges s);
  subscribers ← mapM_res (λ instance, buildMulticastSubscriber instance bridgePorts (su_mappers s) (su_profiles s))
                  (ofClass MulticastSubscriberConfigInfoClassID snapshot);
  v ← foldM_res (vlanStep instances bridgePorts) snapshot (mkVLANNodes ∅ [] [] []);
  let bridgeList := map (λ entry, addPort entry.2 (sortBy bp_Port (br_Ports entry.2))) (range bridges) in
  Ok (sortServiceGraph
        (mkGraph (if explicitMode then mode else "") (su_unis s) tconts descriptors limiters gemPortList
           interworkingList multicastList (su_profileList s) subscribers (su_mapperList s) bridgeList
           (vn_filters v) (vn_operations v) (vn_extended v))).

Definition BuildServiceGraph snapshot : Res GraphError ServiceGraph := buildServiceGraph_ snapshot GPON false.

Definition BuildServiceGraphForMode snapshot (mode : string) : Res GraphError ServiceGraph :=
  match Validate mode with
  | Err _ => Err Unsupported
  | Ok _ => buildServiceGraph_ snapshot mode true
  end.

Definition ValidateServiceGraph snapshot : Res GraphError unit :=
  _ ← BuildServiceGraph snapshot; Ok tt.
End build.
