(* ===== verification/GraphProps.v ===== *)
(** * The service graph: what a graph that was built guarantees

    The references between the nodes of a service graph all resolve within the graph, and the names
    the hardware is programmed with are unique.  The proof follows the passes of the construction:
    after each pass the nodes are known by the managed entities they come from. *)

From S2P Require Import Prelude Maps Netip MeTypes MeClasses MeLib Mib MeNames Vlan Table Semantics Store Model.
From S2P Require Import Graph GraphBuild.

(** ** Nodes filed by their entity id *)

(** [m] holds the nodes of [l] under their ids. *)
Definition tracks {A} (key : A → Z) (m : gmap Z A) (l : list A) : Prop :=
  ∀ k a, m !! k = Some a ↔ a ∈ l ∧ key a = k.

Section tracks.
Context {A : Type} (key : A → Z).
Implicit Types (m : gmap Z A) (l : list A).

Lemma tracks_empty : tracks key ∅ [].
Proof. intros k a. rewrite lookup_empty. split; [done|]. by intros [?%elem_of_nil _]. Qed.

Lemma tracks_snoc m l a k : tracks key m l → key a = k → k ∉ key <$> l → tracks key (<[k := a]> m) (l ++ [a]).
Proof.
  intros Ht <- Hk k' a'. rewrite lookup_insert_Some, (Ht k' a'), elem_of_app, list_elem_of_singleton. split.
  - intros [[<- <-]|[Hne [Hin ?]]]; auto.
  - intros [[Hin| ->] <-]; [right; split_and!; [|done|done]|by left].
    intros He. apply Hk. rewrite He. by apply list_elem_of_fmap_2.
Qed.

Lemma tracks_present m l k : tracks key m l → is_Some (m !! k) ↔ k ∈ key <$> l.
Proof.
  intros Ht. rewrite list_elem_of_fmap. split.
  - intros [a Ha]. apply Ht in Ha as [? ?]. by exists a.
  - intros (a & -> & Ha). exists a. by apply Ht.
Qed.

Lemma tracks_lookup m l k a : tracks key m l → m !! k = Some a → a ∈ l ∧ key a = k.
Proof. intros Ht. apply Ht. Qed.
End tracks.

Lemma present_true {A} (m : gmap Z A) k : present m k = true ↔ is_Some (m !! k).
Proof. apply bool_decide_eq_true. Qed.

Lemma present_false {A} (m : gmap Z A) k : present m k = false ↔ m !! k = None.
Proof. unfold present. by rewrite bool_decide_eq_false, <- eq_None_not_Some. Qed.

Lemma sortBy_perm {A} (key : A → Z) l : sortBy key l ≡ₚ l.
Proof. apply merge_sort_Permutation. Qed.

Lemma elem_of_sortBy {A} (key : A → Z) l a : a ∈ sortBy key l ↔ a ∈ l.
Proof. by rewrite (sortBy_perm key l). Qed.

(** ** The entities of a snapshot *)

Definition ids (classID : Z) (snapshot : list Instance_) : list Z := EntityID_of <$> ofClass classID snapshot.

Lemma ofClass_snoc c pre x : ofClass c (pre ++ [x]) = ofClass c pre ++ (if decide (ClassID_of x = c) then [x] else []).
Proof. unfold ofClass. by rewrite filter_app, filter_cons, filter_nil. Qed.

Lemma ids_snoc c pre x : ids c (pre ++ [x]) = ids c pre ++ (if decide (ClassID_of x = c) then [EntityID_of x] else []).
Proof. unfold ids. rewrite ofClass_snoc, fmap_app. by case_decide. Qed.

Lemma elem_of_ids c k (snapshot : list Instance_) : k ∈ ids c snapshot ↔ ∃ i, i ∈ snapshot ∧ i_Key i = (c, k).
Proof.
  unfold ids, ofClass. rewrite list_elem_of_fmap. split.
  - intros (i & -> & Hi). rewrite list_elem_of_filter in Hi. destruct Hi as [<- Hi].
    exists i. split; [done|]. unfold ClassID_of, EntityID_of. by destruct (i_Key i).
  - intros (i & Hi & Hk). exists i. rewrite list_elem_of_filter. unfold EntityID_of, ClassID_of. by rewrite Hk.
Qed.

Lemma NoDup_ids c snapshot : NoDup (i_Key <$> snapshot) → NoDup (ids c snapshot).
Proof.
  induction snapshot as [|x l IH]; cbn [fmap list_fmap]; [constructor|]. rewrite NoDup_cons. intros [Hx Hl].
  unfold ids, ofClass. rewrite filter_cons. case_decide as Hc; [|by apply IH].
  cbn [fmap list_fmap]. constructor; [|by apply IH]. intros Hin. apply Hx.
  apply elem_of_ids in Hin as (i & Hi & Hk). rewrite list_elem_of_fmap. exists i. split; [|done].
  rewrite Hk, <- Hc. unfold ClassID_of, EntityID_of. by destruct (i_Key x).
Qed.

Lemma NoDup_keys_prefix (pre post : list Instance_) x :
  NoDup (i_Key <$> pre ++ x :: post) → NoDup (i_Key <$> pre) ∧ i_Key x ∉ i_Key <$> pre.
Proof.
  rewrite fmap_app, NoDup_app. cbn. intros (Hn & Hd & _). split; [done|]. intros Hx.
  apply (Hd _ Hx). by left.
Qed.

(** An entity id is fresh among those of its class before it. *)
Lemma fresh_id c (pre post : list Instance_) x :
  NoDup (i_Key <$> pre ++ x :: post) → ClassID_of x = c → EntityID_of x ∉ ids c pre.
Proof.
  intros [_ Hx]%NoDup_keys_prefix <- Hin. apply Hx. apply elem_of_ids in Hin as (i & Hi & Hk).
  rewrite list_elem_of_fmap. exists i. split; [|done]. rewrite Hk. unfold ClassID_of, EntityID_of. by destruct (i_Key x).
Qed.

(** The same for a pass over the entities of one class. *)
Lemma fresh_class (pre post : list Instance_) x :
  NoDup (EntityID_of <$> pre ++ x :: post) → EntityID_of x ∉ EntityID_of <$> pre.
Proof. rewrite fmap_app, NoDup_app. cbn. intros (_ & Hd & _) Hx. apply (Hd _ Hx). by left. Qed.

(** The instance map of a snapshot. *)
Lemma indexInstance_spec (snapshot : list Instance_) (instances : InstanceMap) :
  foldM_res indexInstance snapshot ∅ = Ok instances →
  NoDup (i_Key <$> snapshot) ∧ ∀ k i, instances !! k = Some i ↔ i ∈ snapshot ∧ i_Key i = k.
Proof.
  apply (foldM_prefix (λ pre (m : InstanceMap), NoDup (i_Key <$> pre) ∧ ∀ k i, m !! k = Some i ↔ i ∈ pre ∧ i_Key i = k)).
  - split; [constructor|]. intros k i. rewrite lookup_empty. split; [done|]. by intros [?%elem_of_nil _].
  - intros pre x post m m' _ [Hn Hm] Hf. unfold indexInstance in Hf. inv_ok Hf. subst m'.
    apply bool_decide_eq_false in Hg.
    assert (i_Key x ∉ i_Key <$> pre) as Hx.
    { rewrite list_elem_of_fmap. intros (i & Hk & Hi). apply Hg. exists i. by apply Hm. }
    split.
    + rewrite fmap_app. apply NoDup_app. split_and!; [done| |apply NoDup_singleton].
      intros k Hk ->%list_elem_of_singleton. by apply Hx.
    + intros k i. rewrite lookup_insert_Some, Hm, elem_of_app, list_elem_of_singleton. split.
      * intros [[<- <-]|[Hne [Hi <-]]]; auto.
      * intros [[Hi| ->] <-]; [right; split_and!; [|done|done]|by left].
        intros He. apply Hx. rewrite He. by apply list_elem_of_fmap_2.
Qed.

Lemma hasInstance_ids (snapshot : list Instance_) (instances : InstanceMap) c k :
  (∀ k i, instances !! k = Some i ↔ i ∈ snapshot ∧ i_Key i = k) →
  hasInstance instances c k = true ↔ k ∈ ids c snapshot.
Proof.
  intros Hm. unfold hasInstance. rewrite bool_decide_eq_true, elem_of_ids. split.
  - intros [i Hi]. apply Hm in Hi as [? ?]. by exists i.
  - intros (i & ? & ?). exists i. by apply Hm.
Qed.

(** ** The first pass *)

Ltac finish_build H := inv_ok H; first [subst|injection H as <-]; cbn; try done.

Lemma buildUNI_id i instances packs state u : buildUNI i instances packs state = Ok u → eu_EntityID u = EntityID_of i.
Proof. unfold buildUNI. intros H. inv_ok H. by subst. Qed.

Lemma buildMACBridge_id i b : buildMACBridge i = Ok b → br_EntityID b = EntityID_of i ∧ br_Ports b = [].
Proof. unfold buildMACBridge. intros H. inv_ok H. by subst. Qed.

Lemma buildMapper_id i m : buildMapper i = Ok m → pm_EntityID m = EntityID_of i.
Proof. unfold buildMapper. intros H. inv_ok H. by subst. Qed.

Lemma buildProfile_id {MR : MapRange} i mode p :
  buildMulticastOperationsProfile i mode = Ok p → mp_EntityID p = EntityID_of i.
Proof. unfold buildMulticastOperationsProfile. intros H. inv_ok H. by subst. Qed.

(** The Alloc-IDs in use: those that are not the null pointer. *)
Definition activeAllocIDs (l : list TCONT) : list Z := filter (λ a, a ≠ nullPointer) (tc_AllocID <$> l).

Record surveyed (pre : list Instance_) (s : survey) : Prop := {
  so_unis : eu_EntityID <$> su_unis s = ids PhysicalPathTerminationPointEthernetUniClassID pre;
  so_tconts : tracks tc_EntityID (su_tconts s) (su_tcontList s);
  so_tcont_ids : tc_EntityID <$> su_tcontList s = ids TContClassID pre;
  so_indexes : ∀ k n, su_indexes s !! k = Some n → ∃ t, su_tcontList s !! n = Some t ∧ su_tconts s !! k = Some t;
  so_alloc : ∀ a, a ∈ activeAllocIDs (su_tcontList s) → is_Some (su_alloc s !! a);
  so_alloc_unique : NoDup (activeAllocIDs (su_tcontList s));
  so_bridges : ∀ k b, su_bridges s !! k = Some b → br_EntityID b = k ∧ br_Ports b = [];
  so_bridge_ids : ∀ k, is_Some (su_bridges s !! k) ↔ k ∈ ids MacBridgeServiceProfileClassID pre;
  so_mappers : tracks pm_EntityID (su_mappers s) (su_mapperList s);
  so_mapper_ids : pm_EntityID <$> su_mapperList s = ids Ieee8021PMapperServiceProfileClassID pre;
  so_profiles : tracks mp_EntityID (su_profiles s) (su_profileList s);
  so_profile_ids : mp_EntityID <$> su_profileList s = ids MulticastOperationsProfileClassID pre
}.

(** Computes the ids of [pre ++ [x]] when the class of [x] is known. *)
Ltac snoc_ids :=
  rewrite ?ids_snoc;
  repeat match goal with
  | |- context [decide (ClassID_of ?x = ?c)] =>
      destruct (decide (ClassID_of x = c)); try (exfalso; congruence);
      try (exfalso; match goal with
           | H1 : ClassID_of x = ?a, H2 : ClassID_of x = ?b |- _ =>
               lazymatch a with b => fail | _ => rewrite H1 in H2; discriminate H2 end
           end)
  end; rewrite ?app_nil_r.

Lemma surveyTCONT_spec limit pre s x s' :
  surveyTCONT limit s x = Ok s' →
  EntityID_of x ∉ ids TContClassID pre → ClassID_of x = TContClassID →
  surveyed pre s → surveyed (pre ++ [x]) s'.
Proof.
  intros Hf Hfresh Hc Hs. unfold surveyTCONT in Hf. inv_ok Hf. subst s'.
  rename x0 into allocID. set (t := mkTCONT _ _ _ _ _ _) in *.
  assert (EntityID_of x ∉ tc_EntityID <$> su_tcontList s) as Hk by by rewrite (so_tcont_ids _ _ Hs).
  split; cbn [su_unis su_tconts su_alloc su_indexes su_tcontList su_bridges su_mappers su_mapperList su_profiles su_profileList];
    try (intros k); snoc_ids; rewrite ?fmap_app; try apply Hs.
  - apply tracks_snoc; [apply Hs|done|done].
  - by rewrite (so_tcont_ids _ _ Hs).
  - intros n. rewrite lookup_insert_Some. intros [[<- <-]|[Hne Hn]].
    + exists t. rewrite lookup_insert_eq. split; [|done]. rewrite lookup_app_r by lia. by rewrite Nat.sub_diag.
    + apply (so_indexes _ _ Hs) in Hn as (t' & Ht' & Hm). exists t'. rewrite lookup_insert_ne by done.
      split; [|done]. by apply lookup_app_l_Some.
  - unfold activeAllocIDs. rewrite fmap_app, filter_app, elem_of_app. cbn [fmap list_fmap tc_AllocID t].
    rewrite filter_cons, filter_nil. intros [Hin|Hin].
    + apply (so_alloc _ _ Hs) in Hin. destruct (negb (allocID =? nullPointer)); [|done].
      destruct (decide (allocID = k)) as [->|]; [by rewrite lookup_insert_eq|by rewrite lookup_insert_ne].
    + case_decide as Hn; [|by apply elem_of_nil in Hin]. apply list_elem_of_singleton in Hin as ->.
      rewrite (proj2 (negb_true_iff _)) by lia. rewrite lookup_insert_eq. by eexists.
  - unfold activeAllocIDs. rewrite fmap_app, filter_app. cbn [fmap list_fmap tc_AllocID t].
    rewrite filter_cons, filter_nil. case_decide as Hn; [|rewrite app_nil_r; apply Hs].
    apply NoDup_app. split_and!; [apply Hs| |apply NoDup_singleton].
    intros a Ha ->%list_elem_of_singleton. apply (so_alloc _ _ Hs), present_true in Ha.
    rewrite Ha in Hg0. lia.
Qed.

Lemma surveyInstance_spec {MR : MapRange} mode limit instances packs state snapshot s :
  NoDup (i_Key <$> snapshot) →
  foldM_res (surveyInstance mode limit instances packs state) snapshot noSurvey = Ok s → surveyed snapshot s.
Proof.
  intros Hn. apply (foldM_prefix surveyed).
  { split; cbn; try done; try apply tracks_empty; try (intros k; rewrite lookup_empty; naive_solver).
    - intros a. unfold activeAllocIDs. by intros ?%elem_of_nil.
    - constructor.
    - intros k. rewrite lookup_empty. split; [by intros [? ?]|by intros ?%elem_of_nil]. }
  intros pre x post s1 s2 -> Hs Hf.
  pose proof (fresh_id (ClassID_of x) _ _ _ Hn eq_refl) as Hfresh. unfold surveyInstance in Hf. cbv zeta in Hf.
  destruct (ClassID_of x =? _) eqn:Hc in Hf; [apply Z.eqb_eq in Hc|apply Z.eqb_neq in Hc].
  { inv_ok Hf. subst s2. apply buildUNI_id in Hr.
    split; cbn; try (intros k); snoc_ids; rewrite ?fmap_app; try apply Hs. cbn. by rewrite Hr, (so_unis _ _ Hs). }
  destruct (ClassID_of x =? TContClassID) eqn:Hc1; [apply Z.eqb_eq in Hc1|apply Z.eqb_neq in Hc1].
  { rewrite Hc1 in Hfresh. by eapply surveyTCONT_spec. }
  destruct (ClassID_of x =? MacBridgeServiceProfileClassID) eqn:Hc2; [apply Z.eqb_eq in Hc2|apply Z.eqb_neq in Hc2].
  { inv_ok Hf. subst s2. apply buildMACBridge_id in Hr as [Hid Hp].
    split; cbn; try (intros k); snoc_ids; rewrite ?fmap_app; try apply Hs.
    - intros b. rewrite lookup_insert_Some. intros [[<- <-]|[_ Hb]]; [done|by apply Hs].
    - rewrite elem_of_app, list_elem_of_singleton, <- (so_bridge_ids _ _ Hs k).
      destruct (decide (EntityID_of x = k)) as [->|]; [rewrite lookup_insert_eq|rewrite lookup_insert_ne by done];
        naive_solver. }
  destruct (ClassID_of x =? Ieee8021PMapperServiceProfileClassID) eqn:Hc3; [apply Z.eqb_eq in Hc3|apply Z.eqb_neq in Hc3].
  { inv_ok Hf. subst s2. apply buildMapper_id in Hr.
    split; cbn; try (intros k); snoc_ids; rewrite ?fmap_app; try apply Hs.
    - apply tracks_snoc; [apply Hs|done|]. rewrite (so_mapper_ids _ _ Hs). by rewrite <- Hc3.
    - cbn. by rewrite Hr, (so_mapper_ids _ _ Hs). }
  destruct (ClassID_of x =? MulticastOperationsProfileClassID) eqn:Hc4; [apply Z.eqb_eq in Hc4|apply Z.eqb_neq in Hc4].
  { inv_ok Hf. subst s2. apply buildProfile_id in Hr.
    split; cbn; try (intros k); snoc_ids; rewrite ?fmap_app; try apply Hs.
    - apply tracks_snoc; [apply Hs|done|]. rewrite (so_profile_ids _ _ Hs). by rewrite <- Hc4.
    - cbn. by rewrite Hr, (so_profile_ids _ _ Hs). }
  injection Hf as <-. split; try (intros k); snoc_ids; apply Hs.
Qed.

(** ** T-CONTs *)

Definition tcontName (t : TCONT) : Z * Z := (tc_EntityID t, tc_AllocID t).

Lemma resolveTCONT_name snapshot instances k t t' :
  resolveTCONT snapshot instances k t = Ok t' → tcontName t' = tcontName t.
Proof.
  unfold resolveTCONT. intros H. apply Res_bind_Ok in H as ([t1 sched] & H1 & H).
  apply Res_bind_Ok in H as ([t2 slots] & H2 & H). inv_ok H. subst t'.
  assert (tcontName t1 = tcontName t) as <-.
  { apply (foldM_inv (λ acc : TCONT * option Z, tcontName acc.1 = tcontName t)) in H1; [done| |done].
    intros [t3 o] i [t4 o'] _ He Hst. unfold scheduleTCONT in Hst. apply Res_bind_Ok in Hst as (ptr & _ & Hst).
    destruct (negb (ptr =? k)) in Hst; [by injection Hst as <- <-|]. inv_ok Hst. by subst. }
  apply (foldM_inv (λ acc : TCONT * gset Z, tcontName acc.1 = tcontName t1)) in H2; [done| |done].
  intros [t3 o] i [t4 o'] _ He Hst. unfold queueTCONT in Hst. cbv zeta in Hst. apply Res_bind_Ok in Hst as (rel & _ & Hst).
  destruct (negb (u16 _ =? k)) in Hst; [by injection Hst as <- <-|]. inv_ok Hst. by subst.
Qed.

Lemma resolveTCONTs_names {MR : MapRange} pre snapshot instances s l :
  surveyed pre s → resolveTCONTs snapshot instances s = Ok l → tcontName <$> l = tcontName <$> su_tcontList s.
Proof.
  intros Hs Hr. unfold resolveTCONTs in Hr.
  apply (foldM_inv (λ l, tcontName <$> l = tcontName <$> su_tcontList s)) in Hr; [done| |done].
  intros l1 [k t] l2 Hin Hl Hst. apply elem_of_range in Hin. inv_ok Hst. subst l2.
  apply resolveTCONT_name in Hr0. cbn [fst snd] in *.
  destruct (su_indexes s !! k) as [n|] eqn:Hidx; [|done].
  apply (so_indexes _ _ Hs) in Hidx as (t' & Hn & Hk). assert (t' = t) as -> by congruence.
  rewrite list_fmap_insert, Hl, Hr0. apply list_insert_id. by rewrite list_lookup_fmap, Hn.
Qed.

(** ** Passes that build one node an entity *)

Lemma nodeStep_spec {A} (key : A → Z) (Q : A → Prop) (build : Instance_ → Res GraphError A) l m nodes :
  NoDup (EntityID_of <$> l) → (∀ i a, build i = Ok a → key a = EntityID_of i ∧ Q a) →
  foldM_res (nodeStep build) l (∅, []) = Ok (m, nodes) →
  tracks key m nodes ∧ key <$> nodes = EntityID_of <$> l ∧ Forall Q nodes.
Proof.
  intros Hn Hb. apply (foldM_prefix (λ pre (acc : gmap Z A * list A),
    tracks key acc.1 acc.2 ∧ key <$> acc.2 = EntityID_of <$> pre ∧ Forall Q acc.2)).
  - split_and!; [apply tracks_empty|done|constructor].
  - intros pre x post [m1 l1] [m2 l2] -> (Ht & Hk & HQ) Hf. unfold nodeStep in Hf. cbn [fst snd] in *. inv_ok Hf.
    subst. apply Hb in Hr as [Hid Hq]. split_and!.
    + apply tracks_snoc; [done|done|]. rewrite Hk. by eapply fresh_class.
    + rewrite !fmap_app, Hk. cbn. by rewrite Hid.
    + apply Forall_app. by repeat constructor.
Qed.

(** A traffic descriptor pointer is null or names a descriptor. *)
Definition descriptor_ok (descriptors : list Z) (pointer : Z) : Prop := pointer = nullPointer ∨ pointer ∈ descriptors.

Lemma validateTrafficDescriptorPointer_ok snapshot instances p :
  (∀ k i, (instances : InstanceMap) !! k = Some i ↔ i ∈ snapshot ∧ i_Key i = k) →
  validateTrafficDescriptorPointer instances p = Ok tt → descriptor_ok (ids TrafficDescriptorClassID snapshot) p.
Proof.
  intros Hm. unfold validateTrafficDescriptorPointer. destruct (Z.eqb_spec p nullPointer) as [->|]; [by left|].
  intros H. apply guard_err_iff, negb_false_iff in H. right. by apply (hasInstance_ids snapshot instances).
Qed.

(** What a GEM port refers to. *)
Record gem_port_ok (descriptors : list Z) (tconts : list (Z * Z)) (limit : Z) (p : GEMPort) : Prop := {
  go_tcont : (gp_TCONT p, gp_AllocID p) ∈ tconts;
  go_direction : 1 ≤ gp_Direction p ≤ 3;
  go_limit : gp_PortID p ≤ limit;
  go_up : descriptor_ok descriptors (gp_UpstreamTD p);
  go_down : descriptor_ok descriptors (gp_DownstreamTD p)
}.

Lemma gemPorts_spec limit option_ snapshot instances tconts tcontList l portIDs ports nodes :
  (∀ k i, (instances : InstanceMap) !! k = Some i ↔ i ∈ snapshot ∧ i_Key i = k) →
  NoDup (EntityID_of <$> l) → tracks tc_EntityID tconts tcontList →
  foldM_res (gemPortStep limit option_ instances tconts) l (∅, ∅, []) = Ok (portIDs, ports, nodes) →
  tracks gp_EntityID ports nodes ∧ gp_EntityID <$> nodes = EntityID_of <$> l ∧ NoDup (gp_PortID <$> nodes) ∧
  Forall (gem_port_ok (ids TrafficDescriptorClassID snapshot) (tcontName <$> tcontList) limit) nodes.
Proof.
  intros Hm Hn Ht Hf.
  apply (foldM_prefix (λ pre (acc : gmap Z Z * gmap Z GEMPort * list GEMPort),
    tracks gp_EntityID acc.1.2 acc.2 ∧ gp_EntityID <$> acc.2 = EntityID_of <$> pre ∧
    (NoDup (gp_PortID <$> acc.2) ∧ ∀ p, p ∈ gp_PortID <$> acc.2 → is_Some (acc.1.1 !! p)) ∧
    Forall (gem_port_ok (ids TrafficDescriptorClassID snapshot) (tcontName <$> tcontList) limit) acc.2)) in Hf.
  - cbn in Hf. naive_solver.
  - cbn. split_and!; [apply tracks_empty|done|constructor|by intros p ?%elem_of_nil|constructor].
  - intros pre x post [[ids1 m1] l1] [[ids2 m2] l2] -> (Htr & Hk & [Hnp Hids] & HQ) Hst. cbn [fst snd] in *.
    unfold gemPortStep in Hst. cbv zeta in Hst. inv_ok Hst.
    destruct (tconts !! x1) as [t|] eqn:Htc; [|discriminate Hst]. inv_ok Hst. subst.
    apply Ht in Htc as [Htl Hid]. apply present_false in Hg0. rewrite !fmap_app. cbn [fmap list_fmap gp_EntityID gp_PortID].
    split_and!.
    + apply tracks_snoc; [done|done|]. rewrite Hk. by eapply fresh_class.
    + by rewrite Hk.
    + apply NoDup_app. split_and!; [done| |apply NoDup_singleton].
      intros p Hp ->%list_elem_of_singleton. apply Hids in Hp as [? ?]. congruence.
    + intros p. rewrite elem_of_app, list_elem_of_singleton. intros [Hp| ->].
      * apply Hids in Hp as [v Hv]. destruct (decide (p = x0)) as [->|]; [congruence|]. rewrite lookup_insert_ne by done. by exists v.
      * rewrite lookup_insert_eq. by eexists.
    + apply Forall_app. split; [done|]. constructor; [|constructor]. repeat match goal with u : unit |- _ => destruct u end.
      split; cbn; [| lia |lia| |].
      * apply list_elem_of_fmap. exists t. split; [|done]. by rewrite <- Hid.
      * by eapply validateTrafficDescriptorPointer_ok.
      * by eapply validateTrafficDescriptorPointer_ok.
Qed.

(** ** Interworking and mappers *)

(** What a GEM interworking point refers to: a GEM port, and a bridge or a mapper. *)
Definition interworking_ok (ports bridges mappers : list Z) (w : GEMInterworking) : Prop :=
  iw_GEMPort w ∈ ports ∧
  ((iw_Option w = 1 ∧ iw_ServiceProfile w ∈ bridges) ∨ (iw_Option w = 5 ∧ iw_ServiceProfile w ∈ mappers)).

Lemma buildGEMInterworking_spec i instances ports portList bridges bridgeIDs mappers mapperList w :
  tracks gp_EntityID ports portList → (∀ k, is_Some (bridges !! k) ↔ k ∈ bridgeIDs) →
  tracks pm_EntityID mappers mapperList →
  buildGEMInterworking i instances ports bridges mappers = Ok w →
  iw_EntityID w = EntityID_of i ∧ interworking_ok (gp_EntityID <$> portList) bridgeIDs (pm_EntityID <$> mapperList) w.
Proof.
  intros Hp Hb Hm H. unfold buildGEMInterworking in H. inv_ok H. subst w. split; [done|].
  apply negb_false_iff, present_true, (tracks_present gp_EntityID _ portList) in Hg; [|done]. split; [done|]. cbn.
  destruct (x0 =? 1) eqn:Ho1.
  { left. split; [lia|]. apply guard_err_iff, negb_false_iff, present_true in Hr2. by apply Hb. }
  destruct (x0 =? 5) eqn:Ho5; [|discriminate Hr2]. right. split; [lia|].
  apply guard_err_iff, negb_false_iff, present_true in Hr2. by apply (tracks_present pm_EntityID mappers).
Qed.

(** What a multicast interworking point shows of its GEM port, which has a downstream direction. *)
Definition multicast_ok (ports : list GEMPort) (w : MulticastGEMInterworking) : Prop :=
  ∃ p, p ∈ ports ∧ gp_EntityID p = mi_GEMPort w ∧ gp_PortID p = mi_PortID w ∧ gp_TCONT p = mi_TCONT w ∧
    gp_AllocID p = mi_AllocID w ∧ Z.odd (gp_Direction p) = true.

Lemma land_1_odd x : (Z.land x 1 =? 0) = false → Z.odd x = true.
Proof.
  rewrite (land_mask 1 1 x eq_refl) by lia. change (2 ^ 1) with 2. rewrite Zmod_odd. by destruct (Z.odd x).
Qed.

Lemma buildMulticastGEMInterworking_spec i instances ports portList bridges mappers mode w :
  tracks gp_EntityID ports portList →
  buildMulticastGEMInterworking i instances ports bridges mappers mode = Ok w →
  mi_EntityID w = EntityID_of i ∧ multicast_ok portList w.
Proof.
  intros Hp H. unfold buildMulticastGEMInterworking in H. inv_ok H.
  destruct (ports !! x) as [gem|] eqn:Hgem; [|discriminate H]. inv_ok H. subst w. split; [done|].
  apply Hp in Hgem as [Hin Hid]. exists gem. split_and!; try done. by apply land_1_odd.
Qed.

(** The pointers of a mapper: bridging mappers have none to a UNI, direct ones have; every P-bit is
    unused or leads to an interworking point that serves this mapper. *)
Definition mapper_ok (unis : list Z) (interworking : list GEMInterworking) (m : PBitMapper) : Prop :=
  ((pm_TPType m = 0 ∧ pm_TPPointer m = nullPointer) ∨ (pm_TPType m = 1 ∧ pm_TPPointer m ∈ unis)) ∧
  ∀ pointer, pointer ∈ pm_PBits m → pointer = nullPointer ∨
    ∃ w, w ∈ interworking ∧ iw_EntityID w = pointer ∧ iw_Option w = 5 ∧ iw_ServiceProfile w = pm_EntityID m ∧
      (pm_TPType m = 1 → iw_InterworkingTermination w = pm_TPPointer m).

Lemma validateMapper_spec m snapshot instances interworking nodes :
  (∀ k i, (instances : InstanceMap) !! k = Some i ↔ i ∈ snapshot ∧ i_Key i = k) →
  tracks iw_EntityID interworking nodes → validateMapper m instances interworking = Ok tt →
  mapper_ok (ids PhysicalPathTerminationPointEthernetUniClassID snapshot) nodes m.
Proof.
  intros Hm Ht H. unfold validateMapper in H. apply Res_bind_Ok in H as ([] & Htp & H). split.
  - destruct (pm_TPType m =? 0) eqn:H0; [left; apply guard_err_iff in Htp; split; lia|].
    destruct (pm_TPType m =? 1) eqn:H1; [|discriminate Htp]. right. split; [lia|].
    apply guard_err_iff, negb_false_iff in Htp. by apply (hasInstance_ids snapshot instances).
  - rewrite foldM_unit, Forall_forall in H. intros pointer Hin. specialize (H _ Hin). unfold validatePBit in H. clear Hin. rename H into Hin.
    destruct (pointer =? nullPointer) eqn:Hne in Hin; [left; lia|]. right.
    destruct (interworking !! pointer) as [w|] eqn:Hw; [|discriminate Hin]. inv_ok Hin.
    apply Ht in Hw as [Hw <-]. exists w. split_and!; try done; lia.
Qed.

(** ** Bridge ports *)

(** What a port of bridge [k] is attached to. *)
Definition port_ok (unis mappers : list Z) (interworking : list GEMInterworking) (multicast descriptors : list Z)
    (k : Z) (p : MACBridgePort) : Prop :=
  ((bp_TPType p = 1 ∧ bp_TP p ∈ unis) ∨ (bp_TPType p = 3 ∧ bp_TP p ∈ mappers) ∨
   (bp_TPType p = 5 ∧ ∃ w, w ∈ interworking ∧ iw_EntityID w = bp_TP p ∧ iw_Option w = 1 ∧ iw_ServiceProfile w = k) ∨
   (bp_TPType p = 6 ∧ bp_TP p ∈ multicast)) ∧
  descriptor_ok descriptors (bp_OutboundTD p) ∧ descriptor_ok descriptors (bp_InboundTD p) ∧ bp_PathCost p ≠ 0.

Lemma buildMACBridgePort_spec i number tpType tp p :
  buildMACBridgePort i number tpType tp = Ok p →
  bp_EntityID p = EntityID_of i ∧ bp_Port p = number ∧ bp_TPType p = tpType ∧ bp_TP p = tp ∧ bp_PathCost p ≠ 0.
Proof. unfold buildMACBridgePort. intros H. inv_ok H. subst p. cbn. split_and!; try done. lia. Qed.

Lemma bridge_port_ok i number tpType tp snapshot instances k interworking nodes multicast p u1 u2 u3 :
  (∀ k i, (instances : InstanceMap) !! k = Some i ↔ i ∈ snapshot ∧ i_Key i = k) →
  tracks iw_EntityID interworking nodes →
  validateBridgePortTP k tpType tp instances interworking multicast = Ok u1 →
  buildMACBridgePort i number tpType tp = Ok p →
  validateTrafficDescriptorPointer instances (bp_OutboundTD p) = Ok u2 →
  validateTrafficDescriptorPointer instances (bp_InboundTD p) = Ok u3 →
  port_ok (ids PhysicalPathTerminationPointEthernetUniClassID snapshot)
    (ids Ieee8021PMapperServiceProfileClassID snapshot) nodes
    (ids MulticastGemInterworkingTerminationPointClassID snapshot) (ids TrafficDescriptorClassID snapshot) k p.
Proof.
  intros Hm Ht Hv Hb Ho Hi. destruct u2, u3. apply buildMACBridgePort_spec in Hb as (_ & _ & Hty & Htp & Hc).
  split; [|split_and!; [by eapply validateTrafficDescriptorPointer_ok|by eapply validateTrafficDescriptorPointer_ok|done]].
  rewrite Hty, Htp. unfold validateBridgePortTP in Hv. apply Res_bind_Ok in Hv as (c & Hcl & Hv).
  destruct (instances !! (c, tp)) as [target|] eqn:Hin; [|discriminate Hv].
  assert (tp ∈ ids c snapshot) as Hids by (apply elem_of_ids; exists target; by apply Hm).
  destruct (tpType =? 1) eqn:H1; [injection Hcl as <-; left; split; [lia|done]|].
  destruct (tpType =? 3) eqn:H3; [injection Hcl as <-; right; left; split; [lia|done]|].
  destruct (tpType =? 5) eqn:H5.
  { right; right; left. split; [lia|]. apply guard_err_iff, orb_false_iff in Hv as [Ho1 Ho2].
    destruct (interworking !! tp) as [w|] eqn:Hw; [|discriminate Ho1]. apply Ht in Hw as [? ?]. cbn in Ho1, Ho2.
    exists w. split_and!; [done|done|lia|lia]. }
  destruct (tpType =? 6) eqn:H6; [|discriminate Hcl]. injection Hcl as <-. right; right; right. split; [lia|done].
Qed.

Section bridges.
Context (ok : Z → MACBridgePort → Prop) (initial : gmap Z MACBridge).

(** The state of the loop over the bridge ports, of which [done_] are the entity ids so far. *)
Record bridging (done_ : list Z) (numbers : gmap Z (gmap Z Z)) (ports : gmap Z MACBridgePort) (bridges : gmap Z MACBridge)
    : Prop := {
  bg_dom : ∀ k, is_Some (bridges !! k) ↔ is_Some (initial !! k);
  bg_id : ∀ k b, bridges !! k = Some b → br_EntityID b = k;
  bg_done : ∀ e, is_Some (ports !! e) ↔ e ∈ done_;
  bg_home : ∀ e p, ports !! e = Some p → bp_EntityID p = e ∧ ∃ k b, bridges !! k = Some b ∧ p ∈ br_Ports b;
  bg_ports : ∀ k b p, bridges !! k = Some b → p ∈ br_Ports b → ports !! bp_EntityID p = Some p ∧ ok k p;
  bg_one : ∀ k b p k' b' p', bridges !! k = Some b → p ∈ br_Ports b → bridges !! k' = Some b' → p' ∈ br_Ports b' →
    bp_EntityID p = bp_EntityID p' → k = k';
  bg_ids : ∀ k b, bridges !! k = Some b → NoDup (bp_EntityID <$> br_Ports b);
  bg_numbers : ∀ k b, bridges !! k = Some b → NoDup (bp_Port <$> br_Ports b);
  bg_used : ∀ k b p, bridges !! k = Some b → p ∈ br_Ports b → is_Some (default ∅ (numbers !! k) !! bp_Port p)
}.

Lemma bridging_step done_ numbers ports bridges k bridge p :
  bridging done_ numbers ports bridges → bridges !! k = Some bridge → bp_EntityID p ∉ done_ → ok k p →
  default ∅ (numbers !! k) !! bp_Port p = None →
  bridging (done_ ++ [bp_EntityID p]) (<[k := <[bp_Port p := bp_EntityID p]> (default ∅ (numbers !! k))]> numbers)
    (<[bp_EntityID p := p]> ports) (<[k := addPort bridge (br_Ports bridge ++ [p])]> bridges).
Proof.
  intros Hb Hk He Hok Hn. set (bridge' := addPort bridge (br_Ports bridge ++ [p])).
  assert (Hnew : ports !! bp_EntityID p = None).
  { apply eq_None_not_Some. intros Hs. by apply (bg_done _ _ _ _ Hb) in Hs. }
  assert (Hfresh : ∀ k b q, bridges !! k = Some b → q ∈ br_Ports b → bp_EntityID q ≠ bp_EntityID p).
  { intros k1 b1 q H1 H2 Heq. destruct (bg_ports _ _ _ _ Hb _ _ _ H1 H2) as [Hq _]. congruence. }
  assert (Hold : ∀ k1 b1 q, <[k := bridge']> bridges !! k1 = Some b1 → q ∈ br_Ports b1 →
            (k1 = k ∧ q = p) ∨ ∃ b0, bridges !! k1 = Some b0 ∧ q ∈ br_Ports b0).
  { intros k1 b1 q [[<- <-]|[_ H1]]%lookup_insert_Some Hq; [|by right; exists b1].
    cbn in Hq. apply elem_of_app in Hq as [Hq|Hq%list_elem_of_singleton]; [right; by exists bridge|by left]. }
  split.
  - intros k1. rewrite <- (bg_dom _ _ _ _ Hb k1). destruct (decide (k = k1)) as [<-|];
      [rewrite lookup_insert_eq, Hk; split; by eexists|by rewrite lookup_insert_ne].
  - intros k1 b1 [[<- <-]|[_ H1]]%lookup_insert_Some; [by apply (bg_id _ _ _ _ Hb k bridge)|by apply (bg_id _ _ _ _ Hb)].
  - intros e. rewrite elem_of_app, list_elem_of_singleton, <- (bg_done _ _ _ _ Hb e).
    destruct (decide (e = bp_EntityID p)) as [->|]; [rewrite lookup_insert_eq|rewrite lookup_insert_ne by done]; naive_solver.
  - intros e q [[<- <-]|[_ Hq]]%lookup_insert_Some.
    + split; [done|]. exists k, bridge'. rewrite lookup_insert_eq. split; [done|]. cbn. apply elem_of_app. right. by apply list_elem_of_singleton.
    + apply (bg_home _ _ _ _ Hb) in Hq as (? & k1 & b1 & H1 & H2). split; [done|].
      destruct (decide (k = k1)) as [<-|]; [|exists k1, b1; by rewrite lookup_insert_ne].
      exists k, bridge'. rewrite lookup_insert_eq. split; [done|]. assert (b1 = bridge) as -> by congruence. apply elem_of_app. by left.
  - intros k1 b1 q H1 H2. destruct (Hold _ _ _ H1 H2) as [[-> ->]|(b0 & H0 & Hq)].
    + by rewrite lookup_insert_eq.
    + destruct (bg_ports _ _ _ _ Hb _ _ _ H0 Hq) as [Hl ?]. split; [|done]. rewrite lookup_insert_ne; [done|].
      intros Heq. by apply (Hfresh _ _ _ H0 Hq).
  - intros k1 b1 p1 k2 b2 p2 H1 H2 H3 H4 Heq.
    destruct (Hold _ _ _ H1 H2) as [[-> ->]|(c1 & G1 & I1)], (Hold _ _ _ H3 H4) as [[-> ->]|(c2 & G2 & I2)]; [done| | |].
    + exfalso. by apply (Hfresh _ _ _ G2 I2).
    + exfalso. by apply (Hfresh _ _ _ G1 I1).
    + by eapply (bg_one _ _ _ _ Hb k1 c1 p1 k2 c2 p2).
  - intros k1 b1 [[<- <-]|[_ H1]]%lookup_insert_Some; [|by apply (bg_ids _ _ _ _ Hb k1)].
    cbn. rewrite fmap_app. apply NoDup_app. split_and!; [by apply (bg_ids _ _ _ _ Hb k)| |apply NoDup_singleton].
    intros e Hin ->%list_elem_of_singleton. apply list_elem_of_fmap in Hin as (q & Heq & Hq). by apply (Hfresh _ _ _ Hk Hq).
  - intros k1 b1 [[<- <-]|[_ H1]]%lookup_insert_Some; [|by apply (bg_numbers _ _ _ _ Hb k1)].
    cbn. rewrite fmap_app. apply NoDup_app. split_and!; [by apply (bg_numbers _ _ _ _ Hb k)| |apply NoDup_singleton].
    intros e Hin ->%list_elem_of_singleton. apply list_elem_of_fmap in Hin as (q & Heq & Hq).
    destruct (bg_used _ _ _ _ Hb _ _ _ Hk Hq) as [v Hv]. congruence.
  - intros k1 b1 q H1 H2. destruct (Hold _ _ _ H1 H2) as [[-> ->]|(c1 & G1 & I1)].
    + rewrite lookup_insert_eq. cbn [default from_option]. unfold id. rewrite lookup_insert_eq. by eexists.
    + pose proof (bg_used _ _ _ _ Hb _ _ _ G1 I1) as Hu. destruct (decide (k = k1)) as [<-|]; [|by rewrite lookup_insert_ne].
      rewrite lookup_insert_eq. cbn [default from_option]. unfold id.
      destruct (decide (bp_Port p = bp_Port q)) as [->|]; [rewrite lookup_insert_eq; by eexists|by rewrite lookup_insert_ne].
Qed.
End bridges.

Lemma bridgePorts_spec snapshot instances interworking nodes multicast l initial numbers ports bridges :
  (∀ k i, (instances : InstanceMap) !! k = Some i ↔ i ∈ snapshot ∧ i_Key i = k) →
  tracks iw_EntityID interworking nodes → NoDup (EntityID_of <$> l) →
  (∀ k b, initial !! k = Some b → br_EntityID b = k ∧ br_Ports b = []) →
  foldM_res (bridgePortStep instances interworking multicast) l (∅, ∅, initial) = Ok (numbers, ports, bridges) →
  bridging (port_ok (ids PhysicalPathTerminationPointEthernetUniClassID snapshot)
              (ids Ieee8021PMapperServiceProfileClassID snapshot) nodes
              (ids MulticastGemInterworkingTerminationPointClassID snapshot) (ids TrafficDescriptorClassID snapshot))
    initial (EntityID_of <$> l) numbers ports bridges.
Proof.
  intros Hm Ht Hn Hi Hf.
  apply (foldM_prefix (λ pre acc, bridging (port_ok (ids PhysicalPathTerminationPointEthernetUniClassID snapshot)
              (ids Ieee8021PMapperServiceProfileClassID snapshot) nodes
              (ids MulticastGemInterworkingTerminationPointClassID snapshot) (ids TrafficDescriptorClassID snapshot))
    initial (EntityID_of <$> pre) acc.1.1 acc.1.2 acc.2)) in Hf; [done| |].
  - split; cbn; try done.
    + intros k b Hb. by apply Hi in Hb as [? _].
    + intros e. rewrite lookup_empty. split; [by intros [? ?]|by intros ?%elem_of_nil].
    + intros k b p Hb. apply Hi in Hb as [_ ->]. by intros ?%elem_of_nil.
    + intros k b p k' b' p' Hb. apply Hi in Hb as [_ ->]. by intros ?%elem_of_nil.
    + intros k b Hb. apply Hi in Hb as [_ ->]. constructor.
    + intros k b Hb. apply Hi in Hb as [_ ->]. constructor.
    + intros k b p Hb. apply Hi in Hb as [_ ->]. by intros ?%elem_of_nil.
  - intros pre x post [[n1 p1] b1] [[n2 p2] b2] -> Hb Hst. cbn [fst snd] in *. unfold bridgePortStep in Hst.
    cbv zeta in Hst. inv_ok Hst. destruct (b1 !! x0) as [bridge|] eqn:Hk; [|discriminate Hst]. inv_ok Hst. subst.
    assert (port_ok (ids PhysicalPathTerminationPointEthernetUniClassID snapshot)
              (ids Ieee8021PMapperServiceProfileClassID snapshot) nodes
              (ids MulticastGemInterworkingTerminationPointClassID snapshot) (ids TrafficDescriptorClassID snapshot) x0 x5) as Hok
      by by eapply bridge_port_ok.
    apply buildMACBridgePort_spec in Hr4 as (Hid & Hport & _). apply present_false in Hg.
    rewrite fmap_app. cbn. rewrite <- Hid, <- Hport. apply bridging_step; try done.
    + rewrite Hid. by eapply fresh_class.
    + by rewrite Hport.
Qed.

(** ** Subscribers *)

(** The profiles and the attachment point of a multicast subscriber. *)
Definition subscriber_ok (uniPort : Z → Prop) (mappers profiles : list Z) (c : MulticastSubscriberConfigInfo) : Prop :=
  ((mc_METype c = 0 ∧ uniPort (mc_EntityID c)) ∨
   (mc_METype c = 1 ∧ mc_EntityID c ∈ mappers)) ∧
  (mc_ServicePackages c = [] → mc_Profile c ∈ profiles) ∧
  Forall (λ package, sv_OperationsProfile package ∈ profiles) (mc_ServicePackages c) ∧
  NoDup (sv_RowKey <$> mc_ServicePackages c).

Lemma multicastServicePackages_spec i profiles profileList packages :
  tracks mp_EntityID profiles profileList → multicastServicePackages i profiles = Ok packages →
  Forall (λ package, sv_OperationsProfile package ∈ mp_EntityID <$> profileList) packages ∧
  NoDup (sv_RowKey <$> packages).
Proof.
  intros Ht H. unfold multicastServicePackages in H. inv_ok H. destruct x0 as [seen result]. inv_ok H. subst packages.
  assert (Forall (λ package, sv_OperationsProfile package ∈ mp_EntityID <$> profileList) result ∧
          NoDup (sv_RowKey <$> result) ∧ ∀ k, k ∈ sv_RowKey <$> result → k ∈ seen) as (HF & HN & _).
  { apply (foldM_inv (λ acc : gset Z * list MulticastServicePackage,
      Forall (λ package, sv_OperationsProfile package ∈ mp_EntityID <$> profileList) acc.2 ∧
      NoDup (sv_RowKey <$> acc.2) ∧ ∀ k, k ∈ sv_RowKey <$> acc.2 → k ∈ acc.1)) in Hr0; [done| |].
    - intros [seen1 l1] row [seen2 l2] _ (HF & HN & Hs) Hst. cbn [fst snd] in *. unfold servicePackageRow in Hst.
      cbv zeta in Hst. inv_ok Hst. subst. apply bool_decide_eq_false in Hg0. cbn in Hg2.
      apply negb_false_iff, present_true in Hg2. rewrite fmap_app. cbn [fmap list_fmap sv_RowKey]. split_and!.
      + apply Forall_app. repeat constructor; [done|]. cbn. by apply (tracks_present mp_EntityID profiles).
      + apply NoDup_app. split_and!; [done| |apply NoDup_singleton]. intros k Hk ->%list_elem_of_singleton. by apply Hg0, Hs.
      + intros k. rewrite elem_of_app, list_elem_of_singleton. set_solver.
    - cbn. split_and!; [constructor|constructor|by intros k ?%elem_of_nil]. }
  split; [by rewrite (sortBy_perm sv_RowKey result)|]. by rewrite (sortBy_perm sv_RowKey result).
Qed.

Lemma buildMulticastSubscriber_spec {MR : MapRange} i ports mappers mapperList profiles profileList c :
  tracks pm_EntityID mappers mapperList → tracks mp_EntityID profiles profileList →
  buildMulticastSubscriber i ports mappers profiles = Ok c →
  mc_EntityID c = EntityID_of i ∧
  subscriber_ok (λ e, ∃ p, ports !! e = Some p ∧ bp_TPType p = 1) (pm_EntityID <$> mapperList) (mp_EntityID <$> profileList) c.
Proof.
  intros Hm Hp H. unfold buildMulticastSubscriber in H. inv_ok H. subst c. split; [done|].
  pose proof (multicastServicePackages_spec _ _ _ _ Hp Hr5) as [HF HN]. split_and!; cbn; [| |done|done].
  - destruct (x =? 0) eqn:H0.
    + left. split; [lia|]. destruct (ports !! EntityID_of i) as [p|]; [|discriminate Hr0].
      apply guard_err_iff in Hr0. exists p. split; [done|lia].
    + destruct (x =? 1) eqn:H1; [|discriminate Hr0]. right. split; [lia|].
      apply guard_err_iff, negb_false_iff, present_true in Hr0. by apply (tracks_present pm_EntityID mappers).
  - intros ->. cbn in Hg. apply negb_false_iff, present_true in Hg. by apply (tracks_present mp_EntityID profiles).
Qed.

(** ** VLAN entities and rate limiters *)

Definition operationTarget (o : VLANOperation) : Key := (vo_AssociatedClass o, vo_AssociatedME o).
Definition extendedTarget (x : ExtendedVLAN) : Key := (xv_AssociatedClass x, xv_AssociatedME x).

(** The classes a VLAN operation can be associated with. *)
Definition vlanClasses : list Z :=
  [PhysicalPathTerminationPointEthernetUniClassID; Ieee8021PMapperServiceProfileClassID;
   MacBridgePortConfigurationDataClassID; GemInterworkingTerminationPointClassID].

Definition target_ok (snapshot : list Instance_) (target : Key) : Prop :=
  target.1 ∈ vlanClasses ∧ target.2 ∈ ids target.1 snapshot.

Lemma buildVLANOperation_spec i snapshot instances o :
  (∀ k i, (instances : InstanceMap) !! k = Some i ↔ i ∈ snapshot ∧ i_Key i = k) →
  buildVLANOperation i instances = Ok o → target_ok snapshot (operationTarget o).
Proof.
  intros Hm H. unfold buildVLANOperation in H. inv_ok H. subst o. split; cbn.
  - repeat match type of Hr4 with (if ?b then _ else _) = _ => destruct b end;
      first [discriminate Hr4|injection Hr4 as <-; unfold vlanClasses; set_solver].
  - by apply (hasInstance_ids snapshot instances), negb_false_iff.
Qed.

Lemma buildExtendedVLAN_spec i snapshot instances x :
  (∀ k i, (instances : InstanceMap) !! k = Some i ↔ i ∈ snapshot ∧ i_Key i = k) →
  buildExtendedVLAN i instances = Ok x → target_ok snapshot (extendedTarget x).
Proof.
  intros Hm H. unfold buildExtendedVLAN in H. inv_ok H.
  destruct (if x6 =? 1 then _ else _) as [name rowSize] eqn:Hn in H. inv_ok H. subst x. split; cbn.
  - repeat match type of Hr1 with (if ?b then _ else _) = _ => destruct b end;
      first [discriminate Hr1|injection Hr1 as <-; unfold vlanClasses; set_solver].
  - by apply (hasInstance_ids snapshot instances), negb_false_iff.
Qed.

Record vlan_ok (snapshot : list Instance_) (ports : gmap Z MACBridgePort) (v : vlanNodes) : Prop := {
  vk_filters : Forall (λ f, is_Some (ports !! vf_BridgePort f) ∧ (length (vf_Entries f) ≤ 12)%nat) (vn_filters v);
  vk_targets : Forall (target_ok snapshot) ((operationTarget <$> vn_operations v) ++ (extendedTarget <$> vn_extended v));
  vk_unique : NoDup ((operationTarget <$> vn_operations v) ++ (extendedTarget <$> vn_extended v));
  vk_known : ∀ t, t ∈ (operationTarget <$> vn_operations v) ++ (extendedTarget <$> vn_extended v) → is_Some (vn_associations v !! t)
}.

Lemma buildVLANFilter_spec i ports f :
  buildVLANFilter i ports = Ok f → is_Some (ports !! vf_BridgePort f) ∧ (length (vf_Entries f) ≤ 12)%nat.
Proof.
  unfold buildVLANFilter. cbv zeta. intros H. inv_ok H. destruct x3 as [[tagged criterion] untagged]. inv_ok H. subst f. cbn.
  split; [by apply present_true, negb_false_iff|].
  apply mapM_res_Forall2, Forall2_length in Hr1. rewrite length_seq in Hr1. lia.
Qed.

(** A new association joins the targets. *)
Lemma associate_targets (snapshot : list Instance_) (l1 l2 l1' l2' : list Key) (m : gmap Key Z) (t : Key) (e : Z) :
  Forall (target_ok snapshot) (l1 ++ l2) → NoDup (l1 ++ l2) → (∀ t, t ∈ l1 ++ l2 → is_Some (m !! t)) →
  m !! t = None → target_ok snapshot t → l1' ++ l2' ≡ₚ t :: l1 ++ l2 →
  Forall (target_ok snapshot) (l1' ++ l2') ∧ NoDup (l1' ++ l2') ∧ ∀ t', t' ∈ l1' ++ l2' → is_Some (<[t := e]> m !! t').
Proof.
  intros HF HN Hk Hm Ht Hp. rewrite Hp. split_and!.
  - by constructor.
  - constructor; [|done]. intros Hin%Hk. rewrite Hm in Hin. by destruct Hin.
  - intros t'. rewrite Hp. intros [->|Hin]%elem_of_cons; [rewrite lookup_insert_eq; by eexists|].
    destruct (decide (t = t')) as [->|]; [rewrite lookup_insert_eq; by eexists|]. rewrite lookup_insert_ne by done. by apply Hk.
Qed.

Lemma vlanStep_spec snapshot instances ports l v :
  (∀ k i, (instances : InstanceMap) !! k = Some i ↔ i ∈ snapshot ∧ i_Key i = k) →
  foldM_res (vlanStep instances ports) l (mkVLANNodes ∅ [] [] []) = Ok v → vlan_ok snapshot ports v.
Proof.
  intros Hm Hf. apply (foldM_inv (vlan_ok snapshot ports)) in Hf; [done| |].
  - intros v1 x v2 _ [Hfi HF HN Hk] Hst. unfold vlanStep in Hst. cbv zeta in Hst.
    destruct (ClassID_of x =? _) in Hst.
    { inv_ok Hst. subst v2. split; cbn; try done. apply Forall_app. split; [done|].
      constructor; [by apply buildVLANFilter_spec in Hr|constructor]. }
    destruct (ClassID_of x =? _) in Hst.
    { inv_ok Hst. subst v2. apply bool_decide_eq_false, eq_None_not_Some in Hg.
      pose proof (buildVLANOperation_spec _ _ _ _ Hm Hr) as Ht.
      destruct (associate_targets snapshot _ _ (operationTarget <$> vn_operations v1 ++ [x0])
        (extendedTarget <$> vn_extended v1) _ _ (vo_EntityID x0) HF HN Hk Hg Ht) as (? & ? & ?); [|by split].
      rewrite fmap_app. cbn [fmap list_fmap]. rewrite <- app_assoc. cbn [app]. by rewrite <- Permutation_middle. }
    destruct (ClassID_of x =? _) in Hst; [|injection Hst as <-; by split].
    inv_ok Hst. subst v2. apply bool_decide_eq_false, eq_None_not_Some in Hg.
    pose proof (buildExtendedVLAN_spec _ _ _ _ Hm Hr) as Ht.
    destruct (associate_targets snapshot _ _ (operationTarget <$> vn_operations v1)
      (extendedTarget <$> vn_extended v1 ++ [x0]) _ _ (xv_EntityID x0) HF HN Hk Hg Ht) as (? & ? & ?); [|by split].
    rewrite fmap_app. cbn [fmap list_fmap]. rewrite app_assoc, Permutation_app_comm. done.
  - split; cbn; try constructor. by intros t ?%elem_of_nil.
Qed.

(** The entity a rate limiter limits, and the descriptors it uses. *)
Definition limiterParent (l : Dot1RateLimiter) : Key :=
  (if rl_TPType l =? 1 then MacBridgeServiceProfileClassID else Ieee8021PMapperServiceProfileClassID, rl_ParentME l).

Definition limiter_ok (descriptors : list Z) (l : Dot1RateLimiter) : Prop :=
  1 ≤ rl_TPType l ≤ 2 ∧ descriptor_ok descriptors (rl_UpstreamUnicastFloodTD l) ∧
  descriptor_ok descriptors (rl_UpstreamBroadcastTD l) ∧ descriptor_ok descriptors (rl_UpstreamMulticastPayloadTD l).

Lemma limiterPointer_ok i snapshot instances field p :
  (∀ k i, (instances : InstanceMap) !! k = Some i ↔ i ∈ snapshot ∧ i_Key i = k) →
  limiterPointer i instances field = Ok p → descriptor_ok (ids TrafficDescriptorClassID snapshot) p.
Proof.
  intros Hm H. unfold limiterPointer in H. inv_ok H. subst p. apply andb_false_iff in Hg as [Hg|Hg].
  - left. lia.
  - right. by apply (hasInstance_ids snapshot instances), negb_false_iff.
Qed.

Lemma buildDot1RateLimiter_spec i snapshot instances l parent :
  (∀ k i, (instances : InstanceMap) !! k = Some i ↔ i ∈ snapshot ∧ i_Key i = k) →
  buildDot1RateLimiter i instances = Ok (l, parent) →
  rl_EntityID l = EntityID_of i ∧ parent = limiterParent l ∧ parent.2 ∈ ids parent.1 snapshot ∧
  limiter_ok (ids TrafficDescriptorClassID snapshot) l.
Proof.
  intros Hm H. unfold buildDot1RateLimiter in H. inv_ok H. subst. unfold limiterParent, limiter_ok. cbn.
  apply negb_false_iff, (hasInstance_ids snapshot) in Hg; [|done].
  destruct (x0 =? 1) eqn:H1; [|destruct (x0 =? 2) eqn:H2; [|discriminate Hr1]]; injection Hr1 as <-;
    split_and!; try done; try lia; by eapply limiterPointer_ok.
Qed.

Lemma limiters_spec snapshot instances l parents limiters :
  (∀ k i, (instances : InstanceMap) !! k = Some i ↔ i ∈ snapshot ∧ i_Key i = k) →
  foldM_res (limiterStep instances) l (∅, []) = Ok (parents, limiters) →
  rl_EntityID <$> limiters = EntityID_of <$> l ∧ NoDup (limiterParent <$> limiters) ∧
  Forall (λ l, (limiterParent l).2 ∈ ids (limiterParent l).1 snapshot ∧ limiter_ok (ids TrafficDescriptorClassID snapshot) l) limiters.
Proof.
  intros Hm Hf. apply (foldM_prefix (λ pre (acc : gmap Key Z * list Dot1RateLimiter),
    rl_EntityID <$> acc.2 = EntityID_of <$> pre ∧
    (NoDup (limiterParent <$> acc.2) ∧ ∀ k, k ∈ limiterParent <$> acc.2 → is_Some (acc.1 !! k)) ∧
    Forall (λ l, (limiterParent l).2 ∈ ids (limiterParent l).1 snapshot ∧
                 limiter_ok (ids TrafficDescriptorClassID snapshot) l) acc.2)) in Hf.
  - cbn in Hf. naive_solver.
  - cbn. split_and!; [done|constructor|by intros k ?%elem_of_nil|constructor].
  - intros pre x post [p1 l1] [p2 l2] _ (Hid & [HN Hk] & HF) Hst. cbn [fst snd] in *. unfold limiterStep in Hst.
    apply Res_bind_Ok in Hst as ([l0 parent] & Hb & Hst). inv_ok Hst. subst.
    apply bool_decide_eq_false, eq_None_not_Some in Hg.
    destruct (buildDot1RateLimiter_spec _ _ _ _ _ Hm Hb) as (He & -> & Hin & Hok). rewrite !fmap_app. cbn [fmap list_fmap].
    split_and!.
    + by rewrite Hid, He.
    + apply NoDup_app. split_and!; [done| |apply NoDup_singleton].
      intros k Hk' ->%list_elem_of_singleton. apply Hk in Hk'. rewrite Hg in Hk'. by destruct Hk'.
    + intros k. rewrite elem_of_app, list_elem_of_singleton. intros [Hin'| ->]; [|rewrite lookup_insert_eq; by eexists].
      destruct (decide (limiterParent l0 = k)) as [->|]; [rewrite lookup_insert_eq; by eexists|].
      rewrite lookup_insert_ne by done. by apply Hk.
    + apply Forall_app. split; [done|]. constructor; [done|constructor].
Qed.

(** ** A graph is closed *)

Definition allPorts (g : ServiceGraph) : list MACBridgePort := concat (map br_Ports (sg_Bridges g)).

(** The entity ids of the nodes that stand for entities of a class. *)
Definition nodeIDs (g : ServiceGraph) (classID : Z) : list Z :=
  if classID =? PhysicalPathTerminationPointEthernetUniClassID then eu_EntityID <$> sg_UNIs g
  else if classID =? Ieee8021PMapperServiceProfileClassID then pm_EntityID <$> sg_Mappers g
  else if classID =? MacBridgePortConfigurationDataClassID then bp_EntityID <$> allPorts g
  else if classID =? GemInterworkingTerminationPointClassID then iw_EntityID <$> sg_Interworking g
  else if classID =? MacBridgeServiceProfileClassID then br_EntityID <$> sg_Bridges g
  else if classID =? MulticastGemInterworkingTerminationPointClassID then mi_EntityID <$> sg_MulticastInterworking g
  else if classID =? TrafficDescriptorClassID then td_EntityID <$> sg_TrafficDescs g
  else if classID =? MulticastOperationsProfileClassID then mp_EntityID <$> sg_MulticastProfiles g
  else [].

(** An Ethernet port of a bridge of the graph. *)
Definition uniPort (g : ServiceGraph) (e : Z) : Prop := ∃ p, p ∈ allPorts g ∧ bp_EntityID p = e ∧ bp_TPType p = 1.

(** The targets of the VLAN operations of a graph. *)
Definition vlanTargets (g : ServiceGraph) : list Key :=
  (operationTarget <$> sg_VLANOperations g) ++ (extendedTarget <$> sg_ExtendedVLANs g).

(** Every reference of a graph leads to a node of the graph that serves it, and what the hardware is
    addressed by is unique. *)
Record closed (gemPortLimit : Z) (g : ServiceGraph) : Prop := {
  cl_names : NoDup (tc_EntityID <$> sg_TCONTs g) ∧ NoDup (gp_EntityID <$> sg_GEMPorts g) ∧
    ∀ c, NoDup (nodeIDs g c);
  cl_alloc : NoDup (activeAllocIDs (sg_TCONTs g));
  cl_ports : NoDup (gp_PortID <$> sg_GEMPorts g);
  cl_gem : Forall (gem_port_ok (nodeIDs g TrafficDescriptorClassID) (tcontName <$> sg_TCONTs g) gemPortLimit) (sg_GEMPorts g);
  cl_interworking : Forall (interworking_ok (gp_EntityID <$> sg_GEMPorts g) (nodeIDs g MacBridgeServiceProfileClassID)
    (nodeIDs g Ieee8021PMapperServiceProfileClassID)) (sg_Interworking g);
  cl_multicast : Forall (multicast_ok (sg_GEMPorts g)) (sg_MulticastInterworking g);
  cl_mappers : Forall (mapper_ok (nodeIDs g PhysicalPathTerminationPointEthernetUniClassID) (sg_Interworking g)) (sg_Mappers g);
  cl_bridges : ∀ b, b ∈ sg_Bridges g → NoDup (bp_Port <$> br_Ports b) ∧
    Forall (port_ok (nodeIDs g PhysicalPathTerminationPointEthernetUniClassID)
      (nodeIDs g Ieee8021PMapperServiceProfileClassID) (sg_Interworking g)
      (nodeIDs g MulticastGemInterworkingTerminationPointClassID) (nodeIDs g TrafficDescriptorClassID) (br_EntityID b)) (br_Ports b);
  cl_subscribers : Forall (subscriber_ok (uniPort g) (nodeIDs g Ieee8021PMapperServiceProfileClassID)
    (nodeIDs g MulticastOperationsProfileClassID)) (sg_MulticastSubscribers g);
  cl_filters : Forall (λ f, vf_BridgePort f ∈ nodeIDs g MacBridgePortConfigurationDataClassID) (sg_VLANFilters g);
  cl_targets : Forall (λ t : Key, t.1 ∈ vlanClasses ∧ t.2 ∈ nodeIDs g t.1) (vlanTargets g);
  cl_targets_unique : NoDup (vlanTargets g);
  cl_limiters : NoDup (limiterParent <$> sg_Dot1RateLimiters g) ∧
    Forall (λ l, (limiterParent l).2 ∈ nodeIDs g (limiterParent l).1 ∧
                 limiter_ok (nodeIDs g TrafficDescriptorClassID) l) (sg_Dot1RateLimiters g)
}.

(** What the passes leave behind before the graph is sorted. *)
Record built (snapshot : list Instance_) (limit : Z) (g : ServiceGraph) : Prop := {
  bu_keys : NoDup (i_Key <$> snapshot);
  bu_unis : eu_EntityID <$> sg_UNIs g = ids PhysicalPathTerminationPointEthernetUniClassID snapshot;
  bu_tconts : tc_EntityID <$> sg_TCONTs g = ids TContClassID snapshot;
  bu_alloc : NoDup (activeAllocIDs (sg_TCONTs g));
  bu_descriptors : td_EntityID <$> sg_TrafficDescs g = ids TrafficDescriptorClassID snapshot;
  bu_limiters : NoDup (limiterParent <$> sg_Dot1RateLimiters g) ∧
    Forall (λ l, (limiterParent l).2 ∈ ids (limiterParent l).1 snapshot ∧
                 limiter_ok (ids TrafficDescriptorClassID snapshot) l) (sg_Dot1RateLimiters g);
  bu_gem_ids : gp_EntityID <$> sg_GEMPorts g = ids GemPortNetworkCtpClassID snapshot;
  bu_gem_ports : NoDup (gp_PortID <$> sg_GEMPorts g);
  bu_gem : Forall (gem_port_ok (ids TrafficDescriptorClassID snapshot) (tcontName <$> sg_TCONTs g) limit) (sg_GEMPorts g);
  bu_interworking_ids : iw_EntityID <$> sg_Interworking g = ids GemInterworkingTerminationPointClassID snapshot;
  bu_interworking : Forall (interworking_ok (gp_EntityID <$> sg_GEMPorts g) (ids MacBridgeServiceProfileClassID snapshot)
    (ids Ieee8021PMapperServiceProfileClassID snapshot)) (sg_Interworking g);
  bu_multicast_ids : mi_EntityID <$> sg_MulticastInterworking g = ids MulticastGemInterworkingTerminationPointClassID snapshot;
  bu_multicast : Forall (multicast_ok (sg_GEMPorts g)) (sg_MulticastInterworking g);
  bu_mapper_ids : pm_EntityID <$> sg_Mappers g = ids Ieee8021PMapperServiceProfileClassID snapshot;
  bu_mappers : Forall (mapper_ok (ids PhysicalPathTerminationPointEthernetUniClassID snapshot) (sg_Interworking g)) (sg_Mappers g);
  bu_profiles : mp_EntityID <$> sg_MulticastProfiles g = ids MulticastOperationsProfileClassID snapshot;
  bu_bridge_ids : br_EntityID <$> sg_Bridges g ≡ₚ ids MacBridgeServiceProfileClassID snapshot;
  bu_port_ids : bp_EntityID <$> allPorts g ≡ₚ ids MacBridgePortConfigurationDataClassID snapshot;
  bu_bridges : ∀ b, b ∈ sg_Bridges g → NoDup (bp_Port <$> br_Ports b) ∧
    Forall (port_ok (ids PhysicalPathTerminationPointEthernetUniClassID snapshot)
      (ids Ieee8021PMapperServiceProfileClassID snapshot) (sg_Interworking g)
      (ids MulticastGemInterworkingTerminationPointClassID snapshot) (ids TrafficDescriptorClassID snapshot) (br_EntityID b)) (br_Ports b);
  bu_subscribers : Forall (subscriber_ok (uniPort g) (ids Ieee8021PMapperServiceProfileClassID snapshot)
    (ids MulticastOperationsProfileClassID snapshot)) (sg_MulticastSubscribers g);
  bu_filters : Forall (λ f, vf_BridgePort f ∈ ids MacBridgePortConfigurationDataClassID snapshot) (sg_VLANFilters g);
  bu_targets : Forall (target_ok snapshot) (vlanTargets g);
  bu_targets_unique : NoDup (vlanTargets g)
}.

(** What the predicates say of a node grows with the nodes there are. *)
Section monotone.
Context (descriptors descriptors' unis unis' mappers mappers' bridges bridges' ports ports' : list Z).

Lemma descriptor_ok_mono p : descriptors ⊆ descriptors' → descriptor_ok descriptors p → descriptor_ok descriptors' p.
Proof. intros Hs [?|?]; [by left|right; by apply Hs]. Qed.

Lemma gem_port_ok_mono tconts tconts' limit p :
  descriptors ⊆ descriptors' → tconts ⊆ tconts' → gem_port_ok descriptors tconts limit p →
  gem_port_ok descriptors' tconts' limit p.
Proof. intros Hd Ht []. split; auto using descriptor_ok_mono. Qed.

Lemma interworking_ok_mono w :
  ports ⊆ ports' → bridges ⊆ bridges' → mappers ⊆ mappers' → interworking_ok ports bridges mappers w →
  interworking_ok ports' bridges' mappers' w.
Proof. intros Hp Hb Hm [? Ho]. split; [auto|]. destruct Ho as [[? ?]|[? ?]]; auto. Qed.

Lemma multicast_ok_mono l l' w : l ⊆ l' → multicast_ok l w → multicast_ok l' w.
Proof. intros Hl (p & Hp & ?). exists p. split; [by apply Hl|done]. Qed.

Lemma mapper_ok_mono l l' m : unis ⊆ unis' → l ⊆ l' → mapper_ok unis l m → mapper_ok unis' l' m.
Proof.
  intros Hu Hl [Ht Hp]. split.
  - destruct Ht as [?|[? ?]]; [by left|right; auto].
  - intros q Hq. destruct (Hp q Hq) as [?|(w & ? & ?)]; [by left|right; exists w; auto].
Qed.

Lemma port_ok_mono l l' k p :
  unis ⊆ unis' → mappers ⊆ mappers' → l ⊆ l' → ports ⊆ ports' → descriptors ⊆ descriptors' →
  port_ok unis mappers l ports descriptors k p → port_ok unis' mappers' l' ports' descriptors' k p.
Proof.
  intros Hu Hm Hl Hp Hd (Ht & Ho & Hi & ?). split_and!; auto using descriptor_ok_mono.
  destruct Ht as [[? ?]|[[? ?]|[(? & w & ? & ?)|[? ?]]]]; [left; auto|right; left; auto| |do 3 right; auto].
  do 2 right. left. split; [done|]. exists w. auto.
Qed.

Lemma subscriber_ok_mono (P Q : Z → Prop) c :
  (∀ e, P e → Q e) → mappers ⊆ mappers' → ports ⊆ ports' → subscriber_ok P mappers ports c → subscriber_ok Q mappers' ports' c.
Proof.
  intros HP Hm Hp (Ht & Hd & HF & ?). split_and!; [destruct Ht as [[? ?]|[? ?]]; auto|auto| |done].
  eapply Forall_impl; [exact HF|]. auto.
Qed.

Lemma limiter_ok_mono l : descriptors ⊆ descriptors' → limiter_ok descriptors l → limiter_ok descriptors' l.
Proof. intros Hd ([? ?] & ? & ? & ?). split_and!; auto using descriptor_ok_mono. Qed.
End monotone.

Lemma perm_subseteq {A} (l l' : list A) : l ≡ₚ l' → l ⊆ l'.
Proof. intros Hp a. by rewrite Hp. Qed.

Lemma fmap_sortBy {A B} (key : A → Z) (f : A → B) l : f <$> sortBy key l ≡ₚ f <$> l.
Proof. by rewrite (sortBy_perm key l). Qed.

Lemma allPorts_sort g : allPorts (sortServiceGraph g) ≡ₚ allPorts g.
Proof. unfold allPorts. cbn. by rewrite (sortBy_perm br_EntityID (sg_Bridges g)). Qed.

(** The classes of [nodeIDs]. *)
Definition nodeClasses : list Z :=
  vlanClasses ++ [MacBridgeServiceProfileClassID; MulticastGemInterworkingTerminationPointClassID;
                  TrafficDescriptorClassID; MulticastOperationsProfileClassID].

Lemma nodeIDs_built snapshot limit g c :
  built snapshot limit g → c ∈ nodeClasses → nodeIDs (sortServiceGraph g) c ≡ₚ ids c snapshot.
Proof.
  intros Hb Hc. unfold nodeClasses, vlanClasses in Hc. cbn [app] in Hc. rewrite !elem_of_cons in Hc.
  destruct Hc as [->|[->|[->|[->|[->|[->|[->|[->|?%elem_of_nil]]]]]]]]; [..|done];
    unfold nodeIDs; cbn [sortServiceGraph sg_UNIs sg_Mappers sg_Interworking sg_Bridges sg_MulticastInterworking
      sg_TrafficDescs sg_MulticastProfiles Z.eqb Pos.eqb];
    repeat match goal with |- context [if ?b then _ else _] => let v := eval vm_compute in b in change b with v; cbn iota end;
    rewrite ?allPorts_sort, ?fmap_sortBy.
  - by rewrite (bu_unis _ _ _ Hb).
  - by rewrite (bu_mapper_ids _ _ _ Hb).
  - apply Hb.
  - by rewrite (bu_interworking_ids _ _ _ Hb).
  - apply Hb.
  - by rewrite (bu_multicast_ids _ _ _ Hb).
  - by rewrite (bu_descriptors _ _ _ Hb).
  - by rewrite (bu_profiles _ _ _ Hb).
Qed.

Lemma nodeIDs_other g c : c ∉ nodeClasses → nodeIDs g c = [].
Proof.
  intros Hc. unfold nodeIDs. repeat (destruct (c =? _) eqn:? in |- *; [exfalso; apply Hc; unfold nodeClasses, vlanClasses; set_solver by lia|]).
  done.
Qed.

Lemma Forall_sortBy {A} (key : A → Z) (P Q : A → Prop) l : (∀ a, P a → Q a) → Forall P l → Forall Q (sortBy key l).
Proof. intros HPQ HP. rewrite (sortBy_perm key l). by eapply Forall_impl. Qed.

Lemma built_closed snapshot limit g : built snapshot limit g → closed limit (sortServiceGraph g).
Proof.
  intros Hb.
  assert (Hids : ∀ c, c ∈ nodeClasses → ids c snapshot ⊆ nodeIDs (sortServiceGraph g) c).
  { intros c Hc. apply perm_subseteq. symmetry. by apply (nodeIDs_built snapshot limit). }
  assert (H1 : ids TrafficDescriptorClassID snapshot ⊆ nodeIDs (sortServiceGraph g) TrafficDescriptorClassID) by (apply Hids; by_decide).
  assert (H2 : ids MacBridgeServiceProfileClassID snapshot ⊆ nodeIDs (sortServiceGraph g) MacBridgeServiceProfileClassID) by (apply Hids; by_decide).
  assert (H3 : ids Ieee8021PMapperServiceProfileClassID snapshot ⊆ nodeIDs (sortServiceGraph g) Ieee8021PMapperServiceProfileClassID) by (apply Hids; by_decide).
  assert (H4 : ids PhysicalPathTerminationPointEthernetUniClassID snapshot ⊆ nodeIDs (sortServiceGraph g) PhysicalPathTerminationPointEthernetUniClassID) by (apply Hids; by_decide).
  assert (H5 : ids MulticastGemInterworkingTerminationPointClassID snapshot ⊆ nodeIDs (sortServiceGraph g) MulticastGemInterworkingTerminationPointClassID) by (apply Hids; by_decide).
  assert (H6 : ids MulticastOperationsProfileClassID snapshot ⊆ nodeIDs (sortServiceGraph g) MulticastOperationsProfileClassID) by (apply Hids; by_decide).
  assert (H7 : ids MacBridgePortConfigurationDataClassID snapshot ⊆ nodeIDs (sortServiceGraph g) MacBridgePortConfigurationDataClassID) by (apply Hids; by_decide).
  assert (Hgem : sg_GEMPorts g ⊆ sortBy gp_EntityID (sg_GEMPorts g)) by (apply perm_subseteq; by rewrite sortBy_perm).
  assert (Hiw : sg_Interworking g ⊆ sortBy iw_EntityID (sg_Interworking g)) by (apply perm_subseteq; by rewrite sortBy_perm).
  assert (Ht : vlanTargets (sortServiceGraph g) ≡ₚ vlanTargets g).
  { unfold vlanTargets. cbn. by rewrite !fmap_sortBy. }
  split; cbn [sortServiceGraph sg_TCONTs sg_GEMPorts sg_Interworking sg_MulticastInterworking sg_Mappers sg_Bridges
    sg_MulticastSubscribers sg_VLANFilters sg_Dot1RateLimiters].
  - split_and!.
    + rewrite fmap_sortBy, (bu_tconts _ _ _ Hb). apply NoDup_ids, Hb.
    + rewrite fmap_sortBy, (bu_gem_ids _ _ _ Hb). apply NoDup_ids, Hb.
    + intros c. destruct (decide (c ∈ nodeClasses)) as [Hc|Hc]; [|rewrite nodeIDs_other by done; constructor].
      rewrite (nodeIDs_built snapshot limit) by done. apply NoDup_ids, Hb.
  - unfold activeAllocIDs. rewrite fmap_sortBy. apply Hb.
  - rewrite fmap_sortBy. apply Hb.
  - eapply Forall_sortBy, Hb. intros p. apply gem_port_ok_mono; [done|]. apply perm_subseteq. by rewrite fmap_sortBy.
  - eapply Forall_sortBy, Hb. intros w. apply interworking_ok_mono; [|done|done]. apply perm_subseteq. by rewrite fmap_sortBy.
  - eapply Forall_sortBy, Hb. intros w. by apply multicast_ok_mono.
  - eapply Forall_sortBy, Hb. intros m. by apply mapper_ok_mono.
  - intros b. rewrite elem_of_sortBy. intros Hin. destruct (bu_bridges _ _ _ Hb b Hin) as [Hn Hp]. split; [done|].
    eapply Forall_impl; [exact Hp|]. intros p. by apply port_ok_mono.
  - eapply Forall_sortBy, Hb. intros c. apply subscriber_ok_mono; [|done|done].
    intros e (p & Hp & ?). exists p. split; [|done]. by rewrite allPorts_sort.
  - eapply Forall_sortBy, Hb. intros f. apply H7.
  - rewrite Ht. eapply Forall_impl; [apply Hb|]. intros t [Hc Hin]. split; [done|]. apply Hids; [|done].
    unfold nodeClasses. apply elem_of_app. by left.
  - rewrite Ht. apply Hb.
  - destruct (bu_limiters _ _ _ Hb) as [Hn Hl]. split; [by rewrite fmap_sortBy|].
    eapply Forall_sortBy, Hl. intros l [Hin Hok]. split; [|by eapply limiter_ok_mono].
    apply Hids; [|done]. unfold limiterParent. cbn [fst]. destruct (rl_TPType l =? 1); by_decide.
Qed.

Lemma NoDup_bridge_ports (l : list (Z * MACBridge)) :
  NoDup l.*1 → (∀ k b, (k, b) ∈ l → NoDup (bp_EntityID <$> br_Ports b)) →
  (∀ k b p k' b' p', (k, b) ∈ l → p ∈ br_Ports b → (k', b') ∈ l → p' ∈ br_Ports b' →
     bp_EntityID p = bp_EntityID p' → k = k') →
  NoDup (bp_EntityID <$> concat (map (λ e, br_Ports e.2) l)).
Proof.
  induction l as [|[k b] l IH]; intros Hn Hids Hone; [constructor|].
  cbn [map concat fmap list_fmap fst] in *. rewrite fmap_app. apply NoDup_cons in Hn as [Hk Hn].
  apply NoDup_app. split_and!.
  - apply (Hids k). by left.
  - intros e He Hin. apply list_elem_of_fmap in He as (p & -> & Hp). apply list_elem_of_fmap in Hin as (q & Heq & Hq).
    apply list_elem_of_In, in_concat in Hq as (ps & Hps & Hq). apply in_map_iff in Hps as ([k' b'] & <- & Hin').
    apply list_elem_of_In in Hin', Hq.
    assert (k = k') as <- by (eapply (Hone k b p k' b' q); [by left|done|by right|done|done]).
    apply Hk. by apply (list_elem_of_fmap_2 fst) in Hin'.
  - apply IH; [done| |].
    + intros k1 b1 Hin. apply (Hids k1). by right.
    + intros k1 b1 p1 k2 b2 p2 G1 G2 G3 G4. apply (Hone k1 b1 p1 k2 b2 p2); first [done|by right].
Qed.

Lemma allPorts_bridging {MR : MapRange} ok initial done_ numbers ports bridges (bridgeList : list MACBridge) :
  bridging ok initial done_ numbers ports bridges → NoDup done_ →
  bridgeList = map (λ entry, addPort entry.2 (sortBy bp_Port (br_Ports entry.2))) (range bridges) →
  bp_EntityID <$> concat (map br_Ports bridgeList) ≡ₚ done_ ∧
  (∀ p, p ∈ concat (map br_Ports bridgeList) ↔ ports !! bp_EntityID p = Some p).
Proof.
  intros Hb Hn ->.
  assert (Hconcat : ∀ l : list (Z * MACBridge), concat (map br_Ports (map (λ entry : Z * MACBridge, addPort entry.2 (sortBy bp_Port (br_Ports entry.2))) l))
            ≡ₚ concat (map (λ e : Z * MACBridge, br_Ports e.2) l)).
  { induction l as [|[k b] l IH]; [done|]. cbn [map concat snd br_Ports addPort]. by rewrite IH, (sortBy_perm bp_Port (br_Ports b)). }
  assert (Hmem : ∀ p, p ∈ concat (map (λ e : Z * MACBridge, br_Ports e.2) (range bridges)) ↔ ports !! bp_EntityID p = Some p).
  { intros p. rewrite list_elem_of_In, in_concat. split.
    - intros (ps & Hps & Hp). apply in_map_iff in Hps as ([k b] & <- & Hin). apply list_elem_of_In, elem_of_range in Hin.
      apply list_elem_of_In in Hp. by apply (bg_ports _ _ _ _ _ _ Hb k b).
    - intros Hp. apply (bg_home _ _ _ _ _ _ Hb) in Hp as (_ & k & b & Hk & Hp). exists (br_Ports b).
      split; [|by apply list_elem_of_In]. apply in_map_iff. exists (k, b). split; [done|]. apply list_elem_of_In. by apply elem_of_range. }
  split; [|intros p; by rewrite Hconcat].
  rewrite Hconcat. apply NoDup_Permutation.
  - apply NoDup_bridge_ports; [apply NoDup_range_fst| |].
    + intros k b Hin%elem_of_range. by apply (bg_ids _ _ _ _ _ _ Hb k).
    + intros k b p k' b' p' H1%elem_of_range H2 H3%elem_of_range H4. by eapply (bg_one _ _ _ _ _ _ Hb).
  - done.
  - intros e. rewrite <- (bg_done _ _ _ _ _ _ Hb e), list_elem_of_fmap. split.
    + intros (p & -> & Hp). apply Hmem in Hp. by eexists.
    + intros [p Hp]. pose proof (bg_home _ _ _ _ _ _ Hb _ _ Hp) as [<- _]. exists p. split; [done|]. by apply Hmem.
Qed.

Definition gemPortLimitOf (mode : string) : Z := if bool_decide (mode = XGSPON) then 0xfffe else 0x0fff.

Lemma activeAllocIDs_names (l l' : list TCONT) : tcontName <$> l = tcontName <$> l' → activeAllocIDs l = activeAllocIDs l'.
Proof.
  intros H. unfold activeAllocIDs. f_equal. apply (f_equal (fmap snd)) in H. by rewrite <- !list_fmap_compose in H.
Qed.

Lemma tcont_ids_names (l l' : list TCONT) : tcontName <$> l = tcontName <$> l' → tc_EntityID <$> l = tc_EntityID <$> l'.
Proof. intros H. apply (f_equal (fmap fst)) in H. by rewrite <- !list_fmap_compose in H. Qed.

Lemma mapM_res_ids {A} (key : A → Z) (build : Instance_ → Res GraphError A) l nodes :
  (∀ i a, build i = Ok a → key a = EntityID_of i) → mapM_res build l = Ok nodes → key <$> nodes = EntityID_of <$> l.
Proof.
  intros Hk H. apply mapM_res_Forall2 in H. induction H as [|i a l nodes Hi _ IH]; [done|].
  cbn [fmap list_fmap]. by rewrite IH, (Hk i a).
Qed.

Lemma mapM_res_Forall {A} (Q : A → Prop) (build : Instance_ → Res GraphError A) l nodes :
  (∀ i a, build i = Ok a → Q a) → mapM_res build l = Ok nodes → Forall Q nodes.
Proof. intros HQ H. apply mapM_res_Forall2 in H. induction H; constructor; eauto. Qed.

Lemma buildTrafficDescriptor_id i d : buildTrafficDescriptor i = Ok d → td_EntityID d = EntityID_of i.
Proof. unfold buildTrafficDescriptor. intros H. inv_ok H. by subst. Qed.

Lemma validateMappers_spec snapshot instances interworking nodes mappers :
  (∀ k i, (instances : InstanceMap) !! k = Some i ↔ i ∈ snapshot ∧ i_Key i = k) →
  tracks iw_EntityID interworking nodes →
  foldM_res (λ _ mapper, validateMapper mapper instances interworking) mappers tt = Ok tt →
  Forall (mapper_ok (ids PhysicalPathTerminationPointEthernetUniClassID snapshot) nodes) mappers.
Proof.
  intros Hm Ht H%foldM_unit. eapply Forall_impl; [exact H|]. intros m Hv. by eapply validateMapper_spec.
Qed.

Lemma build_built {MR : MapRange} snapshot mode explicit g :
  buildServiceGraph_ snapshot mode explicit = Ok g →
  ∃ g0, g = sortServiceGraph g0 ∧ built snapshot (gemPortLimitOf mode) g0.
Proof.
  intros H. unfold buildServiceGraph_ in H. cbv zeta in H.
  apply Res_bind_Ok in H as (instances & Hi & H). apply indexInstance_spec in Hi as [Hn Hm].
  apply Res_bind_Ok in H as ([trafficOption onuState] & _ & H). apply Res_bind_Ok in H as (packs & _ & H).
  apply Res_bind_Ok in H as (s & Hs & H). apply surveyInstance_spec in Hs; [|done].
  apply Res_bind_Ok in H as (tconts & Htc & H). apply (resolveTCONTs_names _ _ _ _ _ Hs) in Htc.
  apply Res_bind_Ok in H as (descriptors & Hd & H).
  apply (mapM_res_ids td_EntityID) in Hd; [|apply buildTrafficDescriptor_id].
  apply Res_bind_Ok in H as ([parents limiters] & Hl & H). apply (limiters_spec _ _ _ _ _ Hm) in Hl as (_ & Hln & Hlf).
  apply Res_bind_Ok in H as ([[portIDs gemPorts] gemPortList] & Hg & H).
  apply (gemPorts_spec _ _ snapshot _ _ (su_tcontList s)) in Hg as (Hgt & Hgi & Hgp & Hgf); [|done|by apply NoDup_ids|apply Hs].
  apply Res_bind_Ok in H as ([interworking interworkingList] & Hw & H).
  apply (nodeStep_spec iw_EntityID (interworking_ok (gp_EntityID <$> gemPortList) (ids MacBridgeServiceProfileClassID snapshot)
    (ids Ieee8021PMapperServiceProfileClassID snapshot))) in Hw as (Hwt & Hwi & Hwf);
    [|by apply NoDup_ids|intros i w Hb; rewrite <- (so_mapper_ids _ _ Hs); by apply (buildGEMInterworking_spec _ _ _ _ _ _ _ _ _ Hgt (so_bridge_ids _ _ Hs) (so_mappers _ _ Hs)) in Hb].
  apply Res_bind_Ok in H as ([multicast multicastList] & Hc & H).
  apply (nodeStep_spec mi_EntityID (multicast_ok gemPortList)) in Hc as (Hct & Hci & Hcf);
    [|by apply NoDup_ids|intros i w Hb; by apply (buildMulticastGEMInterworking_spec _ _ _ _ _ _ _ _ Hgt) in Hb].
  apply Res_bind_Ok in H as ([] & Hv & H). apply (validateMappers_spec _ _ _ _ _ Hm Hwt) in Hv.
  apply Res_bind_Ok in H as ([[numbers ports] bridges] & Hb & H).
  apply (bridgePorts_spec _ _ _ _ _ _ _ _ _ _ Hm Hwt) in Hb; [|by apply NoDup_ids|apply Hs].
  apply Res_bind_Ok in H as (subscribers & Hsub & H).
  apply (mapM_res_Forall (subscriber_ok (λ e, ∃ p, ports !! e = Some p ∧ bp_TPType p = 1)
    (pm_EntityID <$> su_mapperList s) (mp_EntityID <$> su_profileList s))) in Hsub;
    [|intros i c Hb'; eapply buildMulticastSubscriber_spec in Hb' as [_ Hb']; [exact Hb'|apply Hs|apply Hs]].
  rewrite (so_mapper_ids _ _ Hs), (so_profile_ids _ _ Hs) in Hsub.
  apply Res_bind_Ok in H as (v & Hvl & H). apply (vlanStep_spec _ _ _ _ _ Hm) in Hvl.
  injection H as <-. eexists. split; [reflexivity|].
  destruct (allPorts_bridging _ _ _ _ _ _ _ Hb (NoDup_ids _ _ Hn) eq_refl) as [Hpi Hpm].
  split; cbn [sg_UNIs sg_TCONTs sg_TrafficDescs sg_Dot1RateLimiters sg_GEMPorts sg_Interworking sg_MulticastInterworking
    sg_MulticastProfiles sg_MulticastSubscribers sg_Mappers sg_Bridges sg_VLANFilters sg_VLANOperations sg_ExtendedVLANs];
    try done; try apply Hs.
  - rewrite (tcont_ids_names _ _ Htc). apply Hs.
  - rewrite (activeAllocIDs_names _ _ Htc). apply Hs.
  - by rewrite Htc.
  - assert (Hbr : br_EntityID <$> map (λ entry : Z * MACBridge, addPort entry.2 (sortBy bp_Port (br_Ports entry.2))) (range bridges)
              = (range bridges).*1).
    { change (map ?f ?l) with (f <$> l). rewrite <- list_fmap_compose. apply list_fmap_ext. intros n [k b] Hkb. cbn.
      apply list_elem_of_lookup_2, elem_of_range in Hkb. by apply (bg_id _ _ _ _ _ _ Hb). }
    rewrite Hbr. apply NoDup_Permutation; [apply NoDup_range_fst|by apply NoDup_ids|].
    intros k. rewrite <- (so_bridge_ids _ _ Hs k), <- (bg_dom _ _ _ _ _ _ Hb k), list_elem_of_fmap. split.
    + intros ([k' b] & -> & Hin%elem_of_range). by exists b.
    + intros [b Hk]. exists (k, b). by rewrite elem_of_range.
  - intros b Hin. apply list_elem_of_In, in_map_iff in Hin as ([k b0] & <- & Hin). apply list_elem_of_In, elem_of_range in Hin.
    cbn [br_Ports addPort snd br_EntityID]. rewrite (bg_id _ _ _ _ _ _ Hb _ _ Hin). split.
    + rewrite fmap_sortBy. by apply (bg_numbers _ _ _ _ _ _ Hb k).
    + rewrite (sortBy_perm bp_Port (br_Ports b0)). apply Forall_forall. intros p Hp. by apply (bg_ports _ _ _ _ _ _ Hb k b0).
  - eapply Forall_impl; [exact Hsub|]. intros c. apply subscriber_ok_mono; [|done|done].
    intros e (p & Hp & Ht). pose proof (bg_home _ _ _ _ _ _ Hb _ _ Hp) as [<- _]. exists p. split_and!; [|done|done].
    unfold allPorts. cbn [sg_Bridges]. by apply Hpm.
  - eapply Forall_impl; [apply Hvl|]. intros f [Hf _]. apply (bg_done _ _ _ _ _ _ Hb) in Hf. done.
  - apply (vk_targets _ _ _ Hvl).
  - apply (vk_unique _ _ _ Hvl).
Qed.


(** ** The graph does not depend on the iteration order of the maps *)

Lemma foldM_perm {E S A K} (key : A → K) (f : S → A → Res E S) l l' s s' :
  (∀ s a b s1 s2, key a ≠ key b → f s a = Ok s1 → f s1 b = Ok s2 → ∃ s1', f s b = Ok s1' ∧ f s1' a = Ok s2) →
  l ≡ₚ l' → NoDup (key <$> l) → foldM_res f l s = Ok s' → foldM_res f l' s = Ok s'.
Proof.
  intros Hcomm Hp. revert s. induction Hp as [|x l l' Hp IH|x y l|l1 l2 l3 H1 IH1 H2 IH2]; intros s Hn Hf.
  - done.
  - cbn [foldM_res] in *. cbn [fmap list_fmap] in Hn. apply NoDup_cons in Hn as [_ Hn].
    apply Res_bind_Ok in Hf as (s1 & Hx & Hf). rewrite Hx. cbn [mbind Res_bind]. by apply IH.
  - cbn [foldM_res] in *. cbn [fmap list_fmap] in Hn. apply NoDup_cons in Hn as [Hy Hn].
    apply Res_bind_Ok in Hf as (s1 & H1 & Hf). apply Res_bind_Ok in Hf as (s2 & H2 & Hf).
    destruct (Hcomm s y x s1 s2) as (s1' & -> & Hs); [|done|done|].
    { intros He. apply Hy. rewrite He. by left. }
    cbn [mbind Res_bind]. rewrite Hs. by cbn [mbind Res_bind].
  - apply IH2; [by rewrite <- H1|]. by apply IH1.
Qed.

Lemma sortBy_unique {A} (key : A → Z) (l l' : list A) : l ≡ₚ l' → NoDup (key <$> l) → sortBy key l = sortBy key l'.
Proof.
  intros Hp Hn. assert (Hs : ∀ m, StronglySorted (byKey key) (sortBy key m)).
  { intros m. apply StronglySorted_merge_sort; unfold byKey; [intros a b c; lia|intros a b; lia]. }
  apply (sorted_by_key_unique (byKey key)); [by rewrite !sortBy_perm| |apply Hs..].
  intros a b. rewrite !elem_of_sortBy. unfold byKey. intros Ha Hb ??. apply (NoDup_key_inj key l); [done..|lia].
Qed.

Lemma multicastACL_order (MR1 MR2 : MapRange) i name mode :
  @multicastACL MR1 i name mode = @multicastACL MR2 i name mode.
Proof.
  unfold multicastACL. destruct (tableAttributeDefault i name 24); [|done]. cbn [mbind Res_bind].
  destruct (foldM_res _ _ _); [|done]. cbn [mbind Res_bind]. by rewrite (sortedKeys_unique _ _ MR1 MR2).
Qed.

Lemma buildProfile_order (MR1 MR2 : MapRange) i mode :
  @buildMulticastOperationsProfile MR1 i mode = @buildMulticastOperationsProfile MR2 i mode.
Proof. unfold buildMulticastOperationsProfile. by rewrite !(multicastACL_order MR1 MR2). Qed.

Lemma buildSubscriber_order (MR1 MR2 : MapRange) i ports mappers profiles :
  @buildMulticastSubscriber MR1 i ports mappers profiles = @buildMulticastSubscriber MR2 i ports mappers profiles.
Proof.
  unfold buildMulticastSubscriber. assert (@allowedPreviewGroups MR1 i = @allowedPreviewGroups MR2 i) as ->; [|done].
  unfold allowedPreviewGroups. destruct (tableAttributeDefault _ _ _); [|done]. cbn [mbind Res_bind].
  destruct (foldM_res _ _ _); [|done]. cbn [mbind Res_bind]. by rewrite (sortedKeys_unique _ _ MR1 MR2).
Qed.

Lemma surveyInstance_order (MR1 MR2 : MapRange) mode limit instances packs state s x :
  @surveyInstance MR1 mode limit instances packs state s x = @surveyInstance MR2 mode limit instances packs state s x.
Proof. unfold surveyInstance. by rewrite (buildProfile_order MR1 MR2). Qed.

Lemma range_orders (MR1 MR2 : MapRange) {K V} `{Countable K} (m : gmap K V) : @range MR1 _ _ _ _ m ≡ₚ @range MR2 _ _ _ _ m.
Proof. by rewrite !range_perm. Qed.

Lemma circuitPacks_order (MR1 MR2 : MapRange) instances states :
  @circuitPackAdministrativeStates MR1 instances = Ok states → @circuitPackAdministrativeStates MR2 instances = Ok states.
Proof.
  unfold circuitPackAdministrativeStates. apply (foldM_perm fst); [|apply range_orders|apply NoDup_range_fst].
  intros s [k1 a] [k2 b] s1 s2 _ Ha Hb. unfold circuitPackState in *. cbn [snd] in *. cbv zeta in *.
  destruct (negb (ClassID_of a =? _)) eqn:Hca; [injection Ha as <-; exists s2; by rewrite Hb|].
  destruct (negb (ClassID_of b =? _)) eqn:Hcb.
  { injection Hb as <-. exists s. split; [done|]. by rewrite Ha. }
  inv_ok Ha. inv_ok Hb. subst s1 s2. apply present_false in Hg, Hg0.
  rewrite lookup_insert_None in Hg0. destruct Hg0 as [Hb0 Hne].
  exists (<[u8 (EntityID_of b) := x0]> s).
  rewrite (proj2 (present_false s (u8 (EntityID_of b))) Hb0). cbn [guard_err mbind Res_bind]. rewrite Hr0. split; [done|].
  rewrite (proj2 (present_false (<[u8 (EntityID_of b) := x0]> s) (u8 (EntityID_of a)))); [|by rewrite lookup_insert_ne].
  cbn [guard_err mbind Res_bind]. rewrite Hr. cbn [mbind Res_bind]. f_equal. by apply insert_insert_ne.
Qed.

Lemma resolveTCONTs_order (MR1 MR2 : MapRange) pre snapshot instances s l :
  surveyed pre s → @resolveTCONTs MR1 snapshot instances s = Ok l → @resolveTCONTs MR2 snapshot instances s = Ok l.
Proof.
  intros Hs. unfold resolveTCONTs. apply (foldM_perm fst); [|apply range_orders|apply NoDup_range_fst].
  intros l1 [k1 a] [k2 b] l2 l3 Hne Ha Hb. cbn [fst snd] in *. inv_ok Ha. inv_ok Hb. subst l2 l3.
  rewrite Hr0, Hr. cbn [mbind Res_bind]. eexists. split; [done|]. f_equal.
  destruct (su_indexes s !! k1) as [n1|] eqn:H1; destruct (su_indexes s !! k2) as [n2|] eqn:H2; try done.
  apply list_insert_insert_ne. intros ->.
  apply (so_indexes _ _ Hs) in H1 as (t1 & Hl1 & Ht1). apply (so_indexes _ _ Hs) in H2 as (t2 & Hl2 & Ht2).
  apply (so_tconts _ _ Hs) in Ht1 as [_ Hid1]. apply (so_tconts _ _ Hs) in Ht2 as [_ Hid2]. congruence.
Qed.

(** C6: the service graph of a MIB does not depend on the order in which Go ranges over the maps of the
    construction (the T-CONTs, the bridges, the circuit packs, the rows of a table): a graph that is
    built in one order is built, equal in every node and in the order of its nodes, in any other. *)
Theorem service_graph_deterministic (MR1 MR2 : MapRange) snapshot mode explicit g :
  @buildServiceGraph_ MR1 snapshot mode explicit = Ok g → @buildServiceGraph_ MR2 snapshot mode explicit = Ok g.
Proof.
  intros H. pose proof (@build_built MR1 _ _ _ _ H) as (g0 & Hg & Hbuilt). unfold buildServiceGraph_ in *. cbv zeta in *.
  apply Res_bind_Ok in H as (instances & Hi & H). rewrite Hi. cbn [mbind Res_bind]. apply indexInstance_spec in Hi as [Hn Hm].
  apply Res_bind_Ok in H as ([trafficOption onuState] & Ho & H). rewrite Ho. cbn [mbind Res_bind].
  apply Res_bind_Ok in H as (packs & Hp & H). rewrite (circuitPacks_order MR1 MR2 _ _ Hp). cbn [mbind Res_bind].
  apply Res_bind_Ok in H as (s & Hs & H).
  rewrite (foldM_ext _ (@surveyInstance MR1 mode (if bool_decide (mode = XGSPON) then 0x3fff else 0x0fff) instances packs onuState))
    by (intros; apply surveyInstance_order).
  rewrite Hs. cbn [mbind Res_bind]. apply surveyInstance_spec in Hs; [|done].
  apply Res_bind_Ok in H as (tconts & Ht & H). rewrite (resolveTCONTs_order MR1 MR2 _ _ _ _ _ Hs Ht). cbn [mbind Res_bind].
  apply Res_bind_Ok in H as (descriptors & Hd & H). rewrite Hd. cbn [mbind Res_bind].
  apply Res_bind_Ok in H as ([parents limiters] & Hl & H). rewrite Hl. cbn [mbind Res_bind].
  apply Res_bind_Ok in H as ([[portIDs gemPorts] gemPortList] & Hgp & H). rewrite Hgp. cbn [mbind Res_bind].
  apply Res_bind_Ok in H as ([interworking interworkingList] & Hw & H). rewrite Hw. cbn [mbind Res_bind].
  apply Res_bind_Ok in H as ([multicast multicastList] & Hc & H). rewrite Hc. cbn [mbind Res_bind].
  apply Res_bind_Ok in H as ([] & Hv & H). rewrite Hv. cbn [mbind Res_bind].
  apply Res_bind_Ok in H as ([[numbers ports] bridges] & Hb & H). rewrite Hb. cbn [mbind Res_bind].
  apply Res_bind_Ok in H as (subscribers & Hsub & H).
  rewrite (mapM_ext _ (λ instance, @buildMulticastSubscriber MR1 instance ports (su_mappers s) (su_profiles s)))
    by (intros; apply buildSubscriber_order).
  rewrite Hsub. cbn [mbind Res_bind].
  apply Res_bind_Ok in H as (v & Hvl & H). rewrite Hvl. cbn [mbind Res_bind]. f_equal.
  injection H as <-. pose proof (f_equal sg_Bridges Hg) as Hbr. cbn in Hbr.
  unfold sortServiceGraph. cbn. f_equal.
  assert (∀ MR, map (λ entry : Z * MACBridge, addPort entry.2 (sortBy bp_Port (br_Ports entry.2))) (@range MR _ _ _ _ bridges)
     ≡ₚ map (λ entry, addPort entry.2 (sortBy bp_Port (br_Ports entry.2))) (@range MR1 _ _ _ _ bridges)) as Hperm.
  { intros MR. by rewrite (range_orders MR MR1 bridges). }
  symmetry. apply sortBy_unique; [by rewrite (Hperm MR2)|].
  assert (NoDup (br_EntityID <$> sortBy br_EntityID (sg_Bridges g0))) as Hnd.
  { rewrite (sortBy_perm br_EntityID (sg_Bridges g0)), (bu_bridge_ids _ _ _ Hbuilt). apply NoDup_ids, Hbuilt. }
  rewrite <- Hbr in Hnd. by rewrite (sortBy_perm br_EntityID _) in Hnd.
Qed.

(** ** A small service: one UNI bridged to one GEM port *)

Definition sampleEntity (classID entityID : Z) (attributes : list (string * Value)) : Instance_ :=
  mkInstance (classID, entityID) (<[ManagedEntityID := VU16 entityID]> (list_to_map attributes)) OriginOLT.

(** Part 0 of access control row 1: GEM port 100, group 239.0.0.1. *)
Definition sampleACLRow : list Z :=
  [0; 1; 0; 100; 0; 0; 0; 0; 0; 0; 239; 0; 0; 1; 239; 0; 0; 1; 0; 0; 0; 0; 0; 0].

Definition sampleService : list Instance_ :=
  [ sampleEntity OnuDataClassID 0 [(OnuData_MibDataSync, VU8 7)];
    sampleEntity PhysicalPathTerminationPointEthernetUniClassID 0x101 [];
    sampleEntity TContClassID 0x8001 [(TCont_AllocId, VU16 1024)];
    sampleEntity PriorityQueueClassID 0x8001 [(PriorityQueue_RelatedPort, VU32 0x80010000)];
    sampleEntity GalEthernetProfileClassID 1 [(GalEthernetProfile_MaximumGemPayloadSize, VU16 48)];
    sampleEntity MacBridgeServiceProfileClassID 1 [];
    sampleEntity MacBridgePortConfigurationDataClassID 1
      [(MacBridgePortConfigurationData_BridgeIdPointer, VU16 1); (MacBridgePortConfigurationData_PortNum, VU8 1);
       (MacBridgePortConfigurationData_TpType, VU8 1); (MacBridgePortConfigurationData_TpPointer, VU16 0x101)];
    sampleEntity MacBridgePortConfigurationDataClassID 2
      [(MacBridgePortConfigurationData_BridgeIdPointer, VU16 1); (MacBridgePortConfigurationData_PortNum, VU8 2);
       (MacBridgePortConfigurationData_TpType, VU8 3); (MacBridgePortConfigurationData_TpPointer, VU16 1)];
    sampleEntity Ieee8021PMapperServiceProfileClassID 1
      ((Ieee8021PMapperServiceProfile_TpPointer, VU16 0xffff) ::
       map (λ name, (name, VU16 1)) mapperPBitAttributes);
    sampleEntity GemPortNetworkCtpClassID 1
      [(GemPortNetworkCtp_PortId, VU16 100); (GemPortNetworkCtp_TContPointer, VU16 0x8001);
       (GemPortNetworkCtp_Direction, VU8 3); (GemPortNetworkCtp_TrafficManagementPointerForUpstream, VU16 0x8001);
       (GemPortNetworkCtp_PriorityQueuePointerForDownStream, VU16 0xffff)];
    sampleEntity GemInterworkingTerminationPointClassID 1
      [(GemInterworkingTerminationPoint_GemPortNetworkCtpConnectivityPointer, VU16 1);
       (GemInterworkingTerminationPoint_InterworkingOption, VU8 5);
       (GemInterworkingTerminationPoint_ServiceProfilePointer, VU16 1);
       (GemInterworkingTerminationPoint_InterworkingTerminationPointPointer, VU16 0);
       (GemInterworkingTerminationPoint_GalProfilePointer, VU16 1)];
    sampleEntity MulticastOperationsProfileClassID 1
      [(MulticastOperationsProfile_IgmpVersion, VU8 3); (MulticastOperationsProfile_IgmpFunction, VU8 0);
       (McastOps_DynamicTable, VTable (mkRows 1 sampleACLRow))];
    sampleEntity MulticastSubscriberConfigInfoClassID 1
      [(MulticastSubscriberConfigInfo_MeType, VU8 0);
       (MulticastSubscriberConfigInfo_MulticastOperationsProfilePointer, VU16 1)];
    sampleEntity VlanTaggingOperationConfigurationDataClassID 0x101
      [(VlanTaggingOperationConfigurationData_UpstreamVlanTaggingOperationMode, VU8 1);
       (VlanTaggingOperationConfigurationData_UpstreamVlanTagTciValue, VU16 100);
       (VlanTaggingOperationConfigurationData_DownstreamVlanTaggingOperationMode, VU8 1)] ].

Definition sampleGraph : ServiceGraph :=
  match @BuildServiceGraph canonical_range sampleService with
  | Ok g => g
  | Err _ => mkGraph "" [] [] [] [] [] [] [] [] [] [] [] [] [] []
  end.

Lemma sampleGraph_built : @buildServiceGraph_ canonical_range sampleService GPON false = Ok sampleGraph.
Proof. vm_compute. reflexivity. Qed.


(** Another order of iteration. *)
Definition reversed_range : MapRange :=
  {| range K V _ _ m := reverse (map_to_list m); range_perm K V _ _ m := reverse_Permutation (map_to_list m) |}.

Lemma service_graph_deterministic_witness :
  @buildServiceGraph_ reversed_range sampleService GPON false = Ok sampleGraph.
Proof. apply (service_graph_deterministic canonical_range reversed_range), sampleGraph_built. Defined.
