(* ===== verification/Platform.v ===== *)
(** * The platform boundary

    src/internal/platform/multicast.go, the conversion of the service graph to the multicast policy,
    and src/internal/platform/exec.go, the applier behind the MIB store: it accepts a change when
    the new MIB has a service graph, the graph a valid multicast policy, and the helper process
    accepts the request.  The helper is a parameter. *)

From S2P Require Import Prelude Maps Netip MeTypes MeClasses MeLib Mib MeNames Vlan Table Semantics Store Model.
From S2P Require Import McPolicy MibState Graph GraphBuild.

(** ** The multicast policy of a graph *)

Definition convertEntry (source : MulticastACLEntry) : ACLEntry :=
  mkACLEntry (ae_RowKey source) (ae_IPVersion source) (ae_GEMPortID source) (ae_VLANID source) (ae_Source source)
    (ae_Start source) (ae_Stop source) (ae_ImputedBandwidth source) (ae_PreviewLength source)
    (ae_PreviewRepeatTime source) (ae_PreviewRepeatCount source) (ae_PreviewResetTime source).

(** [netip.ParseAddr] of the text of an address. *)
Definition parsed (a : Addr) : Res GraphError Addr := if IsValid a then Ok a else Err BadRow.

Definition convertMulticastACL (entries : list MulticastACLEntry) : Res GraphError (list ACLEntry) :=
  mapM_res (λ source,
    _ ← parsed (ae_Source source);
    _ ← parsed (ae_Start source);
    _ ← parsed (ae_Stop source);
    Ok (convertEntry source)) entries.

Definition convertProfile (source : MulticastOperationsProfile) : Res GraphError Profile :=
  dynamicACL ← convertMulticastACL (mp_DynamicACL source);
  staticACL ← convertMulticastACL (mp_StaticACL source);
  Ok (mkProfile (mp_EntityID source) (mp_IGMPVersion source) (mp_IGMPFunction source)
        (negb (mp_ImmediateLeave source =? 0)) (mp_UpstreamTCI source) (mp_UpstreamTagControl source)
        (mp_UpstreamRate source) (mp_Robustness source) (mp_QuerierIPAddress source) (mp_QueryInterval source)
        (mp_QueryMaxResponseTime source) (mp_LastMemberQueryInterval source)
        (negb (mp_UnauthorizedJoinBehaviour source =? 0)) (mp_DownstreamTagControl source) (mp_DownstreamTCI source)
        dynamicACL staticACL).

Definition convertPreview (preview : AllowedPreviewGroup) : Res GraphError AllowedPreview :=
  source ← parsed (pg_Source preview);
  destination ← parsed (pg_Destination preview);
  Ok (mkAllowedPreview (pg_RowKey preview) source destination (pg_ANIVLAN preview) (pg_UNIVLAN preview)
        (pg_Duration preview) (pg_TimeLeft preview)).

Definition convertService (service : MulticastServicePackage) : ServicePackage :=
  mkServicePackage (sv_RowKey service) (sv_VLANID service) (sv_MaxSimultaneousGroups service)
    (sv_MaxMulticastBandwidth service) (sv_OperationsProfile service).

Section graph.
Implicit Types g : ServiceGraph.

(** The interface of each Ethernet UNI. *)
Definition uniInterfaces g : gmap Z string :=
  fold_left (λ unis uni, <[eu_EntityID uni := eu_Interface uni]> unis) (sg_UNIs g) ∅.

(** The port of the mapper at one priority. *)
Definition directGEMPort g (mapper : PBitMapper) (pointer : Z) : Res GraphError Z :=
  if pointer =? 0xffff then Ok 0xffff
  else
    match List.find (λ iw, iw_EntityID iw =? pointer) (sg_Interworking g) with
    | None => Err (Dangling GemInterworkingTerminationPointClassID pointer)
    | Some interworking =>
        _ ← guard_err (negb (iw_Option interworking =? 5) || negb (iw_ServiceProfile interworking =? pm_EntityID mapper))
              (Dangling GemInterworkingTerminationPointClassID pointer);
        match List.find (λ gem, gp_EntityID gem =? iw_GEMPort interworking) (sg_GEMPorts g) with
        | None => Err (Dangling GemPortNetworkCtpClassID (iw_GEMPort interworking))
        | Some gem =>
            _ ← guard_err (Z.land (gp_Direction gem) 2 =? 0) Inconsistent;
            Ok (gp_PortID gem)
        end
    end.

Definition directMulticastMapper g (mapper : PBitMapper) : Res GraphError UpstreamMapper :=
  ports ← mapM_res (directGEMPort g mapper) (pm_PBits mapper);
  Ok (mkUpstreamMapper ports (pm_UnmarkedFrameOption mapper) (pm_DefaultPBit mapper) (pm_DSCPToPBit mapper)).

(** [addBridgeUNI]. *)
Definition addBridgeUNI (unis : gmap Z string) (bridge : MACBridge) (attachments : list Attachment)
    (port : MACBridgePort) : Res GraphError (list Attachment) :=
  match unis !! bp_TP port with
  | None => Err (Dangling PhysicalPathTerminationPointEthernetUniClassID (bp_TP port))
  | Some ifname => Ok (attachments ++ [mkAttachment ifname (br_EntityID bridge) (bp_EntityID port) None])
  end.

(** The ports of a bridge that [wanted] selects. *)
Definition attachPorts (unis : gmap Z string) (wanted : MACBridgePort → bool) (attachments : list Attachment)
    (bridge : MACBridge) : Res GraphError (list Attachment) :=
  foldM_res (λ attachments port,
      if wanted port then addBridgeUNI unis bridge attachments port else Ok attachments)
    (br_Ports bridge) attachments.

(** A bridge counts for a mapper that is one of its ports, or for any mapper of an Ethernet UNI. *)
Definition mapperBridge (mapper : PBitMapper) (bridge : MACBridge) : bool :=
  if pm_TPType mapper =? 0
  then existsb (λ port, (bp_TPType port =? 3) && (bp_TP port =? pm_EntityID mapper)) (br_Ports bridge)
  else pm_TPType mapper =? 1.

Definition mapperPort (mapper : PBitMapper) (port : MACBridgePort) : bool :=
  (bp_TPType port =? 1) && ((pm_TPType mapper =? 0) || (bp_TP port =? pm_TPPointer mapper)).

(** The order of attachments: bridge, port, interface. *)
Definition attachment_le (a b : Attachment) : Prop :=
  at_BridgeEntity a < at_BridgeEntity b ∨
  (at_BridgeEntity a = at_BridgeEntity b ∧
   (at_BridgePortEntity a < at_BridgePortEntity b ∨
    (at_BridgePortEntity a = at_BridgePortEntity b ∧ string_le (at_Interface a) (at_Interface b)))).
#[export] Instance attachment_le_dec a b : Decision (attachment_le a b).
Proof. unfold attachment_le. apply _. Defined.

Definition multicastAttachments g (source : MulticastSubscriberConfigInfo) : Res GraphError (list Attachment) :=
  let unis := uniInterfaces g in
  attachments ←
    (if mc_METype source =? 0 then
       foldM_res (attachPorts unis (λ port, (bp_EntityID port =? mc_EntityID source) && (bp_TPType port =? 1)))
         (sg_Bridges g) []
     else if mc_METype source =? 1 then
       match List.find (λ mapper, pm_EntityID mapper =? mc_EntityID source) (sg_Mappers g) with
       | None => Err (Dangling Ieee8021PMapperServiceProfileClassID (mc_EntityID source))
       | Some mapper =>
           attachments ← foldM_res (λ attachments bridge,
               if negb (mapperBridge mapper bridge) then Ok attachments
               else attachPorts unis (mapperPort mapper) attachments bridge) (sg_Bridges g) [];
           if (length attachments =? 0)%nat && (pm_TPType mapper =? 1) then
             match unis !! pm_TPPointer mapper with
             | None => Err (Dangling PhysicalPathTerminationPointEthernetUniClassID (pm_TPPointer mapper))
             | Some ifname =>
                 upstream ← directMulticastMapper g mapper;
                 Ok [mkAttachment ifname 0 0 (Some upstream)]
             end
           else Ok attachments
       end
     else Err Unsupported);
  _ ← guard_err (length attachments =? 0)%nat Inconsistent;
  Ok (merge_sort attachment_le attachments).

Definition convertSubscriber g (source : MulticastSubscriberConfigInfo) : Res GraphError Subscriber :=
  attachments ← multicastAttachments g source;
  previews ← mapM_res convertPreview (mc_AllowedPreviewGroups source);
  Ok (mkSubscriber (mc_EntityID source) attachments (mc_Profile source) (mc_MaxSimultaneousGroups source)
        (mc_MaxMulticastBandwidth source) (negb (mc_BandwidthEnforcement source =? 0))
        (map convertService (mc_ServicePackages source)) previews).

Definition MulticastPolicy g : Res GraphError Config :=
  profiles ← mapM_res convertProfile (sg_MulticastProfiles g);
  subscribers ← mapM_res (convertSubscriber g) (sg_MulticastSubscribers g);
  Ok (mkConfig profiles subscribers).
End graph.

(** ** The applier *)

Inductive PlatformError :=
| NoHelper
| BadDomain (domain : string)
| BadGraph (e : GraphError)
| BadPolicy
| BadState (e : MibError)
| BadVersion
| NoDomain
| NoState
| DomainMismatch
| SyncMismatch
| ModeMismatch
| HelperFailed.

Definition ApplyABIVersion : Z := 7.

(** [Operation] is one of the constants; the decoder's check of it is in its type. *)
Record ApplyRequest := mkApplyRequest {
  ar_Version : Z;
  ar_StateDomain : string;
  ar_Operation : Operation;
  ar_MIBDataSync : Z;
  ar_MIBState : option State;
  ar_Service : ServiceGraph
}.

Definition graphResult {A} (r : Res GraphError A) : Res PlatformError A :=
  match r with Ok a => Ok a | Err e => Err (BadGraph e) end.
Definition stateResult {A} (r : Res MibError A) : Res PlatformError A :=
  match r with Ok a => Ok a | Err e => Err (BadState e) end.

Definition modeFromStateDomain (domain : string) : Res PlatformError string :=
  let prefix := "xg2010g:" in
  if String.prefix prefix domain then
    match ParseMode (String.substring (String.length prefix) (String.length domain - String.length prefix) domain) with
    | Ok mode => Ok mode
    | Err _ => Err (BadDomain domain)
    end
  else Err (BadDomain domain).

Section platform.
Context {MR : MapRange}.

Definition graphForMode (snapshot : list Instance_) (mode : string) : Res GraphError ServiceGraph :=
  if bool_decide (mode = GPON) then BuildServiceGraph snapshot else BuildServiceGraphForMode snapshot mode.

(** The checks of [DecodeApplyRequest] on the decoded JSON document, at the time [now] of the policy. *)
Definition validateApplyRequest (now : Z) (request : ApplyRequest) : Res PlatformError ApplyRequest :=
  _ ← guard_err (negb (ar_Version request =? ApplyABIVersion)) BadVersion;
  _ ← guard_err (bool_decide (ar_StateDomain request = "")) NoDomain;
  match ar_MIBState request with
  | None => Err NoState
  | Some state =>
      _ ← guard_err (negb (bool_decide (st_StateDomain state = ar_StateDomain request))) DomainMismatch;
      _ ← stateResult (validateState state);
      _ ← guard_err (negb (st_MIBDataSync state =? ar_MIBDataSync request)) SyncMismatch;
      mode ← modeFromStateDomain (ar_StateDomain request);
      let graphMode := sg_PONMode (ar_Service request) in
      _ ← guard_err (bool_decide (mode = XGSPON) && negb (bool_decide (graphMode = XGSPON))) ModeMismatch;
      _ ← guard_err (bool_decide (mode = GPON) && negb (bool_decide (graphMode = "")) &&
                     negb (bool_decide (graphMode = GPON))) ModeMismatch;
      policy ← graphResult (MulticastPolicy (ar_Service request));
      _ ← guard_err (negb (validConfig policy now)) BadPolicy;
      Ok request
  end.

(** [Apply] up to the start of the helper: the request it is sent. *)
Definition applyRequest (now : Z) (change : Change) : Res PlatformError ApplyRequest :=
  mode ← modeFromStateDomain (ch_StateDomain change);
  graph ← graphResult (graphForMode (ch_Snapshot change) mode);
  policy ← graphResult (MulticastPolicy graph);
  _ ← guard_err (negb (validConfig policy now)) BadPolicy;
  _ ← guard_err (bool_decide (ch_StateDomain change = "")) NoDomain;
  mibState ← stateResult (ExportState (ch_Snapshot change) (ch_MIBDataSync change) [ch_StateDomain change]);
  Ok (mkApplyRequest ApplyABIVersion (ch_StateDomain change) (ch_Operation change) (ch_MIBDataSync change)
        (Some mibState) graph).

(** [ExecApplier.Apply]: [helper] runs the process at the configured path, with the argument [record]
    for a command, and tells whether it accepted the request.  [clock] reads the time of the policy check. *)
Definition Apply {W} (path : string) (clock : W → Z) (helper : list string → ApplyRequest → W → bool * W)
    (change : Change) (w : W) : bool * W :=
  if bool_decide (path = "") then (false, w)
  else
    match applyRequest (clock w) change with
    | Err _ => (false, w)
    | Ok request =>
        helper (match ch_Operation change with OperationCommand => ["record"] | _ => [] end) request w
    end.
End platform.
