(* ===== verification/PlatformProps.v ===== *)
(** * The platform boundary: its properties

    What the applier sends is what the decoder of the platform ABI accepts, and the MIB a store with
    the applier shows after a committed request has a closed service graph and a valid policy. *)

From S2P Require Import Prelude Maps Netip MeTypes MeClasses MeLib Mib MeNames Vlan Table Semantics Store StoreLemmas StoreInvariant.
From S2P Require Import StoreProps Model McPolicy MibState Graph GraphBuild GraphProps Platform.

(** ** The validity of a policy does not depend on the time *)

(** Two maps with the same keys. *)
Definition same_keys {A B} (m : gmap Z A) (m' : gmap Z B) : Prop := ∀ k, is_Some (m !! k) ↔ is_Some (m' !! k).

Lemma compileSubscriber_now profiles now now' m m' subscriber :
  same_keys m m' →
  match compileSubscriber profiles now m subscriber, compileSubscriber profiles now' m' subscriber with
  | Ok s, Ok s' => same_keys s s'
  | Err e, Err e' => e = e'
  | _, _ => False
  end.
Proof.
  intros Hd. unfold compileSubscriber. cbv zeta.
  assert (bool_decide (is_Some (m !! su_EntityID subscriber)) = bool_decide (is_Some (m' !! su_EntityID subscriber))) as ->.
  { apply bool_decide_ext, Hd. }
  destruct (guard_err (bool_decide (is_Some (m' !! _))) _) as [[]|[]]; cbn [mbind Res_bind]; [|done].
  destruct (foldM_res (checkPackage profiles) _ _) as [?|[]]; cbn [mbind Res_bind]; [|done].
  destruct (guard_err _ _) as [[]|[]]; cbn [mbind Res_bind]; [|done].
  assert (∀ l (a b : gset Z * gmap Z Z), a.1 = b.1 →
    match foldM_res (compilePreview now) l a, foldM_res (compilePreview now') l b with
    | Ok s', Ok t' => s'.1 = t'.1 | Err e, Err e' => e = e' | _, _ => False end) as Hp.
  { intros l acc acc'. apply (foldM_rel (λ a b : gset Z * gmap Z Z, a.1 = b.1)).
    intros [s1 e1] [s2 e2] x Hs. cbn [fst] in Hs. subst s2. unfold compilePreview.
    destruct (guard_err (bool_decide _) _) as [[]|[]]; cbn [mbind Res_bind]; [|done].
    destruct (guard_err _ _) as [[]|[]]; cbn [mbind Res_bind]; done. }
  specialize (Hp (su_AllowedPreviews subscriber) (∅, ∅) (∅, ∅) eq_refl).
  destruct (foldM_res (compilePreview now) _ _) as [?|[]], (foldM_res (compilePreview now') _ _) as [?|[]]; try done.
  cbn [mbind Res_bind]. intros k. by rewrite !lookup_insert_is_Some', (Hd k).
Qed.

Lemma validConfig_now config now now' : validConfig config now = validConfig config now'.
Proof.
  unfold validConfig, compile. destruct (foldM_res compileProfile _ _) as [profiles|]; [|done]. cbn [mbind Res_bind].
  assert (match foldM_res (compileSubscriber profiles now) (cf_Subscribers config) ∅,
                foldM_res (compileSubscriber profiles now') (cf_Subscribers config) ∅ with
          | Ok s, Ok s' => same_keys s s' | Err e, Err e' => e = e' | _, _ => False end) as H.
  { apply (foldM_rel same_keys); [|done].
    intros m m' x Hm. by apply compileSubscriber_now. }
  destruct (foldM_res (compileSubscriber profiles now) _ _) as [?|[]], (foldM_res (compileSubscriber profiles now') _ _) as [?|[]];
    try done; contradiction.
Qed.

(** ** The applier and the decoder agree *)

Lemma modeFromStateDomain_mode domain mode :
  modeFromStateDomain domain = Ok mode → mode = GPON ∨ mode = XGSPON.
Proof.
  unfold modeFromStateDomain. cbv zeta. destruct (String.prefix _ _); [|done].
  set (suffix := String.substring _ _ _). unfold ParseMode, Validate.
  destruct (bool_decide (suffix = GPON) || bool_decide (suffix = XGSPON)) eqn:Hs; [|done].
  cbn [mbind Res_bind]. intros [= <-]. apply orb_true_iff in Hs as [Hs|Hs]; apply bool_decide_eq_true in Hs; auto.
Qed.

Section platform.
Context {MR : MapRange}.

Lemma graphResult_Ok {A} (r : Res GraphError A) a : graphResult r = Ok a ↔ r = Ok a.
Proof. destruct r; cbn; naive_solver. Qed.
Lemma stateResult_Ok {A} (r : Res MibError A) a : stateResult r = Ok a ↔ r = Ok a.
Proof. destruct r; cbn; naive_solver. Qed.

(** The graph of a mode says its mode, except that of the legacy GPON wrapper. *)
Lemma graphForMode_mode snapshot mode g :
  mode = GPON ∨ mode = XGSPON → graphForMode snapshot mode = Ok g →
  closed (gemPortLimitOf mode) g ∧ sg_PONMode g = (if bool_decide (mode = GPON) then "" else mode).
Proof.
  intros Hmode Hg. unfold graphForMode in Hg.
  assert (∀ explicit, buildServiceGraph_ snapshot mode explicit = Ok g →
            closed (gemPortLimitOf mode) g ∧ sg_PONMode g = (if explicit : bool then mode else "")) as Hb.
  { intros explicit H. pose proof (build_built _ _ _ _ H) as (g0 & Hs & Hb). split; [subst; by eapply built_closed|].
    clear Hs Hb. unfold buildServiceGraph_ in H. cbv zeta in H.
    repeat match type of H with
    | mbind _ _ = Ok _ => apply Res_bind_Ok in H as (? & _ & H)
    | (let '(_, _) := ?x in _) = Ok _ => destruct x
    end. by injection H as <-. }
  destruct Hmode as [-> | ->].
  - rewrite bool_decide_true in Hg by done. rewrite bool_decide_true by done. by apply (Hb false).
  - rewrite bool_decide_false in Hg by done. rewrite bool_decide_false by done. by apply (Hb true).
Qed.

Lemma ExportState_fields snapshot sync domain state :
  ExportState snapshot sync [domain] = Ok state →
  st_StateDomain state = domain ∧ st_MIBDataSync state = sync ∧ validateState state = Ok tt.
Proof.
  unfold ExportState. intros H. inv_ok H. subst state. cbn in *. by destruct x0.
Qed.

(** C8: whatever change of the MIB the applier accepts, the request it sends to the helper passes every
    check of the platform ABI that the helper's decoder makes, at whatever time it makes them. *)
Theorem apply_request_accepted now now' change request :
  applyRequest now change = Ok request → validateApplyRequest now' request = Ok request.
Proof.
  intros H. unfold applyRequest in H. apply Res_bind_Ok in H as (mode & Hmode & H).
  apply Res_bind_Ok in H as (g & Hg & H). apply graphResult_Ok in Hg.
  apply Res_bind_Ok in H as (policy & Hp & H). apply guard_err_bind_Ok in H as [Hv H].
  apply guard_err_bind_Ok in H as [Hd H]. apply Res_bind_Ok in H as (state & Hs & H). apply stateResult_Ok in Hs.
  injection H as <-. unfold validateApplyRequest.
  cbn [ar_Version ar_StateDomain ar_MIBState ar_MIBDataSync ar_Service guard_err mbind Res_bind]. rewrite Hd.
  apply ExportState_fields in Hs as (Hdom & Hsync & Hval). rewrite Hval, Hsync, Hdom, Z.eqb_refl, Hmode, Hp.
  rewrite (bool_decide_true (ch_StateDomain change = ch_StateDomain change)) by done.
  pose proof (modeFromStateDomain_mode _ _ Hmode) as Hm.
  destruct (graphForMode_mode _ _ _ Hm Hg) as [_ Hpon]. cbn [guard_err negb stateResult mbind Res_bind].
  rewrite Hpon. rewrite (validConfig_now policy now now') in Hv. destruct Hm as [-> | ->]; cbn [mbind Res_bind]; by rewrite Hv.
Qed.

(** ** The MIB behind the applier *)

Lemma Apply_accepted {W} path clock (helper : list string → ApplyRequest → W → bool * W) change w w' :
  Apply path clock helper change w = (true, w') → ∃ request, applyRequest (clock w) change = Ok request.
Proof.
  unfold Apply. destruct (bool_decide _); [done|]. destruct (applyRequest (clock w) change) as [request|]; [|done]. eauto.
Qed.

(** C7: after a request the platform is asked about has changed the store, the MIB it shows has a service
    graph for the PON mode of the state domain, closed under its references, and this graph has a
    multicast policy that the policy engine accepts at any time. *)
Theorem committed_mib_has_service {W} (s : Store W) path clock helper w r u s' w'
    (Ha : applier s = Some (Apply path clock helper)) (Hr : asks_platform r = true)
    (Hx : execute s w r = (Ok u, s', w')) :
  s' = s ∨ ∃ mode g policy,
    modeFromStateDomain (stateDomain s) = Ok mode ∧ graphForMode (Snapshot s') mode = Ok g ∧
    closed (gemPortLimitOf mode) g ∧ MulticastPolicy g = Ok policy ∧ ∀ now, validConfig policy now = true.
Proof.
  apply (commit_applied _ _ _ _ _ _ _ Ha Hr) in Hx as [->|(change & w1 & w2 & Hap & Hsn & _ & Hdom)]; [by left|right].
  apply Apply_accepted in Hap as [request H]. unfold applyRequest in H. rewrite Hsn, Hdom in H.
  apply Res_bind_Ok in H as (mode & Hmode & H). apply Res_bind_Ok in H as (g & Hg & H). apply graphResult_Ok in Hg.
  apply Res_bind_Ok in H as (policy & Hp & H). apply graphResult_Ok in Hp. apply guard_err_bind_Ok in H as [Hv _].
  exists mode, g, policy. split_and!; try done.
  - by apply (graphForMode_mode (Snapshot s') mode g (modeFromStateDomain_mode _ _ Hmode)) in Hg as [? _].
  - intros now. rewrite (validConfig_now policy now (clock w1)). by apply negb_false_iff.
Qed.
End platform.

(** ** Witnesses *)

Definition sampleChange : Change := mkChange OperationSet "xg2010g:gpon" None None sampleService 7.

Definition sampleRequest : ApplyRequest :=
  match applyRequest (MR := canonical_range) 5 sampleChange with
  | Ok request => request
  | Err _ => mkApplyRequest 0 "" OperationSet 0 None sampleGraph
  end.

Lemma apply_request_accepted_witness :
  validateApplyRequest 9 sampleRequest = Ok sampleRequest ∧ ar_MIBDataSync sampleRequest = 7.
Proof.
  split; [|vm_compute; reflexivity].
  apply (@apply_request_accepted canonical_range 5 9 sampleChange). vm_compute. reflexivity.
Defined.

(** A helper that accepts every request, and logs the data sync counter of each. *)
Definition sampleApplier : Applier (list Z) :=
  Apply (MR := canonical_range) (W := list Z) "/usr/sbin/airoha-omci-apply" (λ log, Z.of_nat (length log))
    (λ _ request log, (true, log ++ [ar_MIBDataSync request])).

Definition platformOptions : Options (list Z) :=
  mkOptions (Some sampleApplier) 0 "xg2010g:gpon" [] None None ∅.

Definition platformStore : Store (list Z) :=
  match @NewWithOptions canonical_range _ sample_factory platformOptions with
  | Ok s => s
  | Err _ => mkStore ∅ ∅ 0 None 0 "" None None ∅ None
  end.

Definition platformRequest : Request (list Z) := RCreate 272 1 {[ "MaximumGemPayloadSize" := VU16 48 ]}.

Definition platformCreated : outcome (list Z) unit := @execute canonical_range _ platformStore [] platformRequest.

Lemma platformStore_applier : applier platformStore = Some sampleApplier.
Proof.
  unfold platformStore. destruct (NewWithOptions _ _) as [s|e] eqn:Hn; [by apply NewWithOptions_frame in Hn as [-> _]|].
  assert (match @NewWithOptions canonical_range _ sample_factory platformOptions with Ok _ => true | Err _ => false end = true)
    as Hok by (vm_compute; reflexivity). by rewrite Hn in Hok.
Qed.

Lemma platformCreated_pair :
  @execute canonical_range _ platformStore [] platformRequest = (Ok tt, platformCreated.1.2, platformCreated.2).
Proof.
  assert (platformCreated.1.1 = Ok tt) as <- by (vm_compute; reflexivity). apply surjective_pairing_triple.
Qed.

Lemma committed_mib_has_service_witness :
  platformCreated.1.2 = platformStore ∨ ∃ mode g policy,
    modeFromStateDomain (stateDomain platformStore) = Ok mode ∧
    graphForMode (MR := canonical_range) (@Snapshot canonical_range _ platformCreated.1.2) mode = Ok g ∧
    closed (gemPortLimitOf mode) g ∧ MulticastPolicy g = Ok policy ∧ ∀ now, validConfig policy now = true.
Proof.
  apply (@committed_mib_has_service canonical_range _ platformStore "/usr/sbin/airoha-omci-apply"
    (λ log, Z.of_nat (length log)) (λ _ request log, (true, log ++ [ar_MIBDataSync request]))
    [] platformRequest tt platformCreated.1.2 platformCreated.2).
  - apply platformStore_applier.
  - reflexivity.
  - apply platformCreated_pair.
Defined.

Example platform_created : platformCreated.1.1 = Ok tt ∧ platformCreated.2 = [1] ∧
  is_Some (current platformCreated.1.2 !! (272, 1)).
Proof. vm_compute. by eauto. Qed.

(** ** A configuration the graph accepts and the policy refuses

    The access control row of the sample service with XGEM port 0x1004, which an XGS-PON system has and
    GPON has not. *)

Definition xgsService : list Instance_ :=
  map (λ i, if bool_decide (i_Key i = (MulticastOperationsProfileClassID, 1))
            then withAttribute i McastOps_DynamicTable (VTable (mkRows 1 (put_at sampleACLRow 2 [0x10; 0x04])))
            else i) sampleService.

Definition xgsChange : Change := mkChange OperationSet "xg2010g:xgspon" None None xgsService 7.

(** The service graph accepts the port in XGS-PON mode, the multicast policy refuses it, so no such
    configuration reaches the helper. *)
Theorem xgs_multicast_refused :
  match graphForMode (MR := canonical_range) xgsService XGSPON with Ok _ => True | Err _ => False end ∧
  applyRequest (MR := canonical_range) 5 xgsChange = Err BadPolicy.
Proof. vm_compute. auto. Qed.
