(* ===== verification/Controllers.v ===== *)
(** * What the engine asks of the platform

    The interfaces of src/internal/engine/engine.go (Controller), performance/performance.go and
    multicast/policy.go through which the engine reaches the hardware: the operations that act
    on it change the world [W], the ones that only read it are functions of the world. *)

From S2P Require Import Prelude Counters Optics Netip McPolicy.

(** [engine.Controller]; an operation answers whether it succeeded. *)
Record ControlOps (W : Type) := mkControlOps {
  controlSynchronizeTime : W → Z → bool * W;
  controlReboot : W → Z → bool * W;
  controlOpticalLineSupervision : W → option Diagnostics * W
}.
Arguments mkControlOps {W} _ _ _.
Arguments controlSynchronizeTime {W} _.
Arguments controlReboot {W} _.
Arguments controlOpticalLineSupervision {W} _.

(** The controllers an engine has: [performance.Controller], [FECController],
    [EthernetController] and [XGSPONController], and [multicast.Controller] and
    [PreviewController].  [None] for a reading is an error. *)
Record Controllers (W : Type) := mkControllers {
  c_controller : option (ControlOps W);
  c_performance : option (W → Z → option GEMPortCounters);
  c_fecPerformance : option (W → Z → option FECCounters);
  c_ethernetPerformance : option (W → Z → option EthernetCounters);
  c_xgsPerformance : option (W → Z → option XGSPONCounters);
  c_multicast : option (W → Z → option Monitor);
  c_multicastPreview : option (W → Z → option AllowedPreviewSnapshot)
}.
Arguments mkControllers {W} _ _ _ _ _ _ _.
Arguments c_controller {W} _.
Arguments c_performance {W} _.
Arguments c_fecPerformance {W} _.
Arguments c_ethernetPerformance {W} _.
Arguments c_xgsPerformance {W} _.
Arguments c_multicast {W} _.
Arguments c_multicastPreview {W} _.

Definition noControllers {W} : Controllers W := mkControllers None None None None None None None.

(** ** The state of the performance histories *)

(** [performanceState], [fecPerformanceState], [ethernetPerformanceState] and
    [xgsPerformanceState]: what is monitored, and its counters when the interval began. *)
Record counterState (C : Type) := mkCounterState { ct_parent : Z; ct_baseline : C }.
Arguments mkCounterState {C} _ _.
Arguments ct_parent {C} _.
Arguments ct_baseline {C} _.

Record PmState := mkPm {
  performanceState : gmap (Z * Z) (counterState GEMPortCounters);
  fecPMState : gmap (Z * Z) (counterState FECCounters);
  ethernetPMState : gmap (Z * Z) (counterState EthernetCounters);
  xgsPMState : gmap (Z * Z) (counterState XGSPONCounters);
  performanceTCA : gmap (Z * Z) (list Z);
  performanceNext : option Z;
  performanceIntervalEnd : Z
}.

Definition noPm : PmState := mkPm ∅ ∅ ∅ ∅ ∅ None 0.

(** Assignments to its fields. *)
Definition set_performanceState (s : PmState) v : PmState :=
  mkPm v (fecPMState s) (ethernetPMState s) (xgsPMState s) (performanceTCA s) (performanceNext s)
    (performanceIntervalEnd s).
Definition set_fecPMState (s : PmState) v : PmState :=
  mkPm (performanceState s) v (ethernetPMState s) (xgsPMState s) (performanceTCA s) (performanceNext s)
    (performanceIntervalEnd s).
Definition set_ethernetPMState (s : PmState) v : PmState :=
  mkPm (performanceState s) (fecPMState s) v (xgsPMState s) (performanceTCA s) (performanceNext s)
    (performanceIntervalEnd s).
Definition set_xgsPMState (s : PmState) v : PmState :=
  mkPm (performanceState s) (fecPMState s) (ethernetPMState s) v (performanceTCA s) (performanceNext s)
    (performanceIntervalEnd s).
Definition set_performanceTCA (s : PmState) v : PmState :=
  mkPm (performanceState s) (fecPMState s) (ethernetPMState s) (xgsPMState s) v (performanceNext s)
    (performanceIntervalEnd s).
Definition set_performanceNext (s : PmState) v : PmState :=
  mkPm (performanceState s) (fecPMState s) (ethernetPMState s) (xgsPMState s) (performanceTCA s) v
    (performanceIntervalEnd s).
Definition set_performanceIntervalEnd (s : PmState) v : PmState :=
  mkPm (performanceState s) (fecPMState s) (ethernetPMState s) (xgsPMState s) (performanceTCA s)
    (performanceNext s) v.

(** [engine.BERSample]. *)
Record BERSample := mkBERSample {
  be_Sequence : Z;
  be_BIPCount : Z;
  be_IntervalMS : Z;
  be_BootID : string
}.
