(* ===== verification/ExecControl.v ===== *)
(** * Platform: the control helper

    src/internal/platform/control.go: the controllers of the engine on top of a helper program
    that is given one JSON request and answers one JSON value.  The program is the interface
    [ControlHelper], encoding/json is [ControlJSON]: a response is a record whose absent fields
    are [None]; a value with unknown fields, or followed by another, is no response. *)

From S2P Require Import Prelude Counters Optics Netip McPolicy Controllers.

(** ** Requests *)

Record controlRequest := mkControlRequest {
  cq_Action : string;
  cq_UnixTime : Z;
  cq_RebootCondition : Z;
  cq_GEMPortID : option Z;
  cq_ANIEntityID : option Z;
  cq_EthernetEntityID : option Z;
  cq_MulticastSubscriberID : option Z
}.
Definition actionRequest (action : string) : controlRequest := mkControlRequest action 0 0 None None None None.

(** ** Responses *)

Record gemPortResponse := mkGemPortResponse {
  gr_GEMPortID : option Z;
  gr_ReceivedGEMFrames : option Z;
  gr_ReceivedPayloadBytes : option Z;
  gr_TransmittedGEMFrames : option Z;
  gr_TransmittedPayloadBytes : option Z
}.

Record fecResponse := mkFecResponse {
  fr_ANIEntityID : option Z;
  fr_CorrectedBytes : option Z;
  fr_CorrectedCodeWords : option Z;
  fr_UncorrectableCodeWords : option Z;
  fr_TotalCodeWords : option Z;
  fr_FECSeconds : option Z
}.

Record ethernetDirectionResponse := mkEthernetDirectionResponse {
  er_Frames : option Z;
  er_Octets : option Z;
  er_DropEvents : option Z;
  er_BroadcastFrames : option Z;
  er_MulticastFrames : option Z;
  er_CRCErrors : option Z;
  er_BufferOverflows : option Z;
  er_InternalErrors : option Z;
  er_UndersizeFrames : option Z;
  er_Fragments : option Z;
  er_Jabbers : option Z;
  er_OversizeFrames : option Z;
  er_SizeBuckets : option (list Z)
}.
Record ethernetResponse := mkEthernetResponse {
  er_EthernetEntityID : option Z;
  er_Received : option ethernetDirectionResponse;
  er_Transmitted : option ethernetDirectionResponse
}.

Record multicastGroupResponse := mkMulticastGroupResponse {
  mr_Source : option string;
  mr_Group : option string;
  mr_Client : option string;
  mr_UNITagged : option bool;
  mr_UNIVLAN : option Z;
  mr_ANIVLAN : option Z;
  mr_ProfileID : option Z;
  mr_ACLRowKey : option Z;
  mr_GEMPortID : option Z;
  mr_ImputedBandwidth : option Z;
  mr_TimeSinceJoin : option Z;
  mr_PreviewUntil : option Z
}.
Record multicastPreviewResponse := mkMulticastPreviewResponse {
  mr_RowKey : option Z;
  mr_Duration : option Z;
  mr_TimeLeft : option Z
}.
Record multicastStateResponse := mkMulticastStateResponse {
  mr_SubscriberID : option Z;
  mr_MIBDataSync : option Z;
  mr_CurrentBandwidth : option Z;
  mr_JoinMessages : option Z;
  mr_BandwidthExceeded : option Z;
  mr_Groups : option (list multicastGroupResponse);
  mr_AllowedPreviews : option (list multicastPreviewResponse)
}.

Record xgsPMSamplingResponse := mkXgsSampling { xs_IntervalMS : Z; xs_Assumption : string }.
Record xgsPMValidResponse := mkXgsValid {
  xv_TC : Z;
  xv_TCRequired : Z;
  xv_DownstreamManagement : Z;
  xv_DownstreamRequired : Z;
  xv_UpstreamManagement : Z;
  xv_UpstreamRequired : Z
}.
Record xgsPMResponse := mkXgsPM {
  xp_ANIEntityID : Z;
  xp_Version : Z;
  xp_Complete : bool;
  xp_Semantics : string;
  xp_KernelInstanceGeneration : Z;
  xp_KernelSessionGeneration : Z;
  xp_DispatcherGeneration : Z;
  xp_Sequence : Z;
  xp_Sampling : xgsPMSamplingResponse;
  xp_Valid : xgsPMValidResponse;
  xp_TC : XGSPONTCCounters;
  xp_Downstream : XGSPONDownstreamManagementCounters;
  xp_Upstream : XGSPONUpstreamManagementCounters
}.

Record opticalResponse := mkOpticalResponse {
  or_Temperature : option Z;
  or_SupplyVoltage : option Z;
  or_LaserBiasCurrent : option Z;
  or_TransmitPower : option Z;
  or_ReceivePower : option Z
}.

(** ** The helper and the decoder *)

(** Running the helper: its output, or an error. *)
Class ControlHelper (J W : Type) := { execute : W → controlRequest → option J * W }.

(** Decoding its output, the fields of a JSON object, and [netip.ParseAddr]. *)
Class ControlJSON (J : Type) := {
  jsonGEMPort : J → option gemPortResponse;
  jsonFEC : J → option fecResponse;
  jsonXGSPM : J → option xgsPMResponse;
  jsonEthernet : J → option ethernetResponse;
  jsonMulticastState : J → option multicastStateResponse;
  jsonOptical : J → option opticalResponse;
  jsonObject : J → option (gmap string J);
  ParseAddr : string → option Addr
}.

(** ** The controllers *)

(** [if *value != expected] of a field that must be present. *)
Definition matching (value : option Z) (expected : Z) : option unit :=
  match value with Some value => if value =? expected then Some tt else None | None => None end.
Definition check (condition : bool) : option unit := if condition then Some tt else None.

(** [requiredJSONObject]. *)
Definition requiredJSONObject {J} `{ControlJSON J} (input : J) (required : list string) : option (gmap string J) :=
  fields ← jsonObject input;
  _ ← check (size fields =? length required)%nat;
  _ ← check (forallb (λ field, bool_decide (is_Some (fields !! field))) required);
  Some fields.

Section controllers.
Context {J W : Type} `{ControlJSON J} `{ControlHelper J W}.

(** The output for a request that only reads. *)
Definition output (w : W) (request : controlRequest) : option J := (execute w request).1.

Definition GEMPortCounters_ (w : W) (portID : Z) : option GEMPortCounters :=
  output ← output w (mkControlRequest "gem-port-counters" 0 0 (Some portID) None None None);
  value ← jsonGEMPort output;
  _ ← matching (gr_GEMPortID value) portID;
  receivedFrames ← gr_ReceivedGEMFrames value;
  receivedBytes ← gr_ReceivedPayloadBytes value;
  transmittedFrames ← gr_TransmittedGEMFrames value;
  transmittedBytes ← gr_TransmittedPayloadBytes value;
  Some (mkGEMPortCounters receivedFrames receivedBytes transmittedFrames transmittedBytes).

Definition FECCounters_ (w : W) (entityID : Z) : option FECCounters :=
  output ← output w (mkControlRequest "fec-counters" 0 0 None (Some entityID) None None);
  value ← jsonFEC output;
  _ ← matching (fr_ANIEntityID value) entityID;
  correctedBytes ← fr_CorrectedBytes value;
  correctedCodeWords ← fr_CorrectedCodeWords value;
  uncorrectable ← fr_UncorrectableCodeWords value;
  total ← fr_TotalCodeWords value;
  seconds ← fr_FECSeconds value;
  Some (mkFECCounters correctedBytes correctedCodeWords uncorrectable total seconds).

Definition responseFields : list string :=
  ["ani_entity_id"; "version"; "complete"; "semantics"; "kernel_instance_generation"; "kernel_session_generation";
   "dispatcher_generation"; "sequence"; "sampling"; "valid"; "tc"; "downstream_management"; "upstream_management"].
Definition samplingFields : list string := ["interval_ms"; "assumption"].
Definition validFields : list string :=
  ["tc"; "tc_required"; "downstream_management"; "downstream_required"; "upstream_management"; "upstream_required"].
Definition tcFields : list string :=
  ["psbd_hec_errors"; "xgtc_hec_errors"; "unknown_profiles"; "transmitted_xgem_frames"; "fragment_xgem_frames";
   "xgem_hec_lost_words"; "xgem_key_errors"; "xgem_hec_errors"; "transmitted_non_idle_bytes";
   "received_non_idle_bytes"; "lods_events"; "lods_restored"; "onu_reactivations_by_lods"].
Definition downstreamFields : list string :=
  ["ploam_mic_errors"; "ploam_messages"; "profile_messages"; "ranging_time_messages"; "deactivate_onu_id_messages";
   "disable_serial_number_messages"; "request_registration_messages"; "assign_alloc_id_messages";
   "key_control_messages"; "sleep_allow_messages"; "baseline_omci_messages"; "extended_omci_messages";
   "assign_onu_id_messages"; "omci_mic_errors"].
Definition upstreamFields : list string :=
  ["ploam_messages"; "serial_number_messages"; "registration_messages"; "key_report_messages";
   "acknowledge_messages"; "sleep_request_messages"].

(** A part of the response has exactly its fields. *)
Definition requiredPart (fields : gmap string J) (part : string) (required : list string) : option unit :=
  input ← fields !! part;
  _ ← requiredJSONObject input required;
  Some tt.

Definition expectedVersion : Z := 2.
Definition expectedSemantics : string := "cross-layer-instance-session-consistent-partial".
Definition expectedSamplingInterval : Z := 10.
Definition expectedAssumption : string := "single-wrap-no-reset-per-interval-unverified".
Definition expectedTCMask : Z := 8191.
Definition expectedDownstreamMask : Z := 16383.
Definition expectedUpstreamMask : Z := 63.

(** The masks of [valid] are complete. *)
Definition masksComplete (valid : xgsPMValidResponse) : bool :=
  (xv_TC valid =? expectedTCMask) && (xv_TCRequired valid =? expectedTCMask) &&
  (xv_DownstreamManagement valid =? expectedDownstreamMask) && (xv_DownstreamRequired valid =? expectedDownstreamMask) &&
  (xv_UpstreamManagement valid =? expectedUpstreamMask) && (xv_UpstreamRequired valid =? expectedUpstreamMask).

Definition XGSPONCounters_ (w : W) (entityID : Z) : option XGSPONCounters :=
  output ← output w (mkControlRequest "xgs-pm-evidence" 0 0 None (Some entityID) None None);
  value ← jsonXGSPM output;
  fields ← requiredJSONObject output responseFields;
  _ ← requiredPart fields "sampling" samplingFields;
  _ ← requiredPart fields "valid" validFields;
  _ ← requiredPart fields "tc" tcFields;
  _ ← requiredPart fields "downstream_management" downstreamFields;
  _ ← requiredPart fields "upstream_management" upstreamFields;
  _ ← check (xp_ANIEntityID value =? entityID);
  _ ← check ((xp_Version value =? expectedVersion) && negb (xp_Complete value) &&
             bool_decide (xp_Semantics value = expectedSemantics));
  _ ← check ((Z.land (xp_Sequence value) 1 =? 0) && (xs_IntervalMS (xp_Sampling value) =? expectedSamplingInterval) &&
             bool_decide (xs_Assumption (xp_Sampling value) = expectedAssumption));
  _ ← check (masksComplete (xp_Valid value));
  Some (mkXGSPONCounters (xp_KernelInstanceGeneration value) (xp_KernelSessionGeneration value)
          (xp_DispatcherGeneration value) (xp_Sequence value) (xp_TC value) (xp_Downstream value) (xp_Upstream value)).

Definition decodeEthernetDirection (value : ethernetDirectionResponse) : option EthernetDirectionCounters :=
  frames ← er_Frames value;
  octets ← er_Octets value;
  dropEvents ← er_DropEvents value;
  broadcast ← er_BroadcastFrames value;
  multicast ← er_MulticastFrames value;
  crcErrors ← er_CRCErrors value;
  bufferOverflows ← er_BufferOverflows value;
  internalErrors ← er_InternalErrors value;
  undersize ← er_UndersizeFrames value;
  fragments ← er_Fragments value;
  jabbers ← er_Jabbers value;
  oversize ← er_OversizeFrames value;
  sizeBuckets ← er_SizeBuckets value;
  Some (mkEthernetDirectionCounters frames octets dropEvents broadcast multicast crcErrors bufferOverflows
          internalErrors undersize fragments jabbers oversize sizeBuckets).

Definition EthernetCounters_ (w : W) (entityID : Z) : option EthernetCounters :=
  output ← output w (mkControlRequest "ethernet-counters" 0 0 None None (Some entityID) None);
  value ← jsonEthernet output;
  _ ← matching (er_EthernetEntityID value) entityID;
  received ← er_Received value;
  transmitted ← er_Transmitted value;
  received ← decodeEthernetDirection received;
  transmitted ← decodeEthernetDirection transmitted;
  Some (mkEthernetCounters received transmitted).

Definition decodeMulticastState (output : J) (entityID : Z) : option multicastStateResponse :=
  value ← jsonMulticastState output;
  _ ← matching (mr_SubscriberID value) entityID;
  Some value.

(** The body of the loop of [SubscriberMonitor]. *)
Definition decodeGroup (group : multicastGroupResponse) : option ActiveGroup :=
  source ← mr_Source group;
  destination ← mr_Group group;
  client ← mr_Client group;
  uniTagged ← mr_UNITagged group;
  uniVLAN ← mr_UNIVLAN group;
  aniVLAN ← mr_ANIVLAN group;
  profileID ← mr_ProfileID group;
  aclRowKey ← mr_ACLRowKey group;
  gemPortID ← mr_GEMPortID group;
  imputed ← mr_ImputedBandwidth group;
  timeSinceJoin ← mr_TimeSinceJoin group;
  source ← ParseAddr source;
  destination ← ParseAddr destination;
  client ← (if bool_decide (client = "") then Some NoAddr else ParseAddr client);
  Some (mkActiveGroup "" source [] [] destination client (uniTagged, uniVLAN) aniVLAN profileID aclRowKey gemPortID
          imputed timeSinceJoin (mr_PreviewUntil group)).

Definition SubscriberMonitor (w : W) (entityID : Z) : option Monitor :=
  output ← output w (mkControlRequest "multicast-subscriber-monitor" 0 0 None None None (Some entityID));
  value ← decodeMulticastState output entityID;
  bandwidth ← mr_CurrentBandwidth value;
  joins ← mr_JoinMessages value;
  exceeded ← mr_BandwidthExceeded value;
  groups ← mr_Groups value;
  groups ← mapM decodeGroup groups;
  Some (mkMonitor bandwidth joins exceeded groups).

(** The body of the loop of [AllowedPreviewStatus]: the row keys seen, and the timers. *)
Definition decodeTimer (acc : gset Z * list AllowedPreviewTimer) (timer : multicastPreviewResponse)
    : option (gset Z * list AllowedPreviewTimer) :=
  rowKey ← mr_RowKey timer;
  duration ← mr_Duration timer;
  timeLeft ← mr_TimeLeft timer;
  _ ← check (negb ((1023 <? rowKey) || ((duration =? 0) && negb (timeLeft =? 0)) ||
                   (negb (duration =? 0) && (duration <? timeLeft))));
  _ ← check (negb (bool_decide (rowKey ∈ acc.1)));
  Some ({[rowKey]} ∪ acc.1, acc.2 ++ [mkPreviewTimer rowKey duration timeLeft]).

Fixpoint foldTimers (timers : list multicastPreviewResponse) (acc : gset Z * list AllowedPreviewTimer)
    : option (gset Z * list AllowedPreviewTimer) :=
  match timers with
  | [] => Some acc
  | timer :: timers => acc ← decodeTimer acc timer; foldTimers timers acc
  end.

Definition AllowedPreviewStatus (w : W) (entityID : Z) : option AllowedPreviewSnapshot :=
  output ← output w (mkControlRequest "multicast-preview-status" 0 0 None None None (Some entityID));
  value ← decodeMulticastState output entityID;
  sync ← mr_MIBDataSync value;
  previews ← mr_AllowedPreviews value;
  '(_, timers) ← foldTimers previews (∅, []);
  Some (mkPreviewSnapshot sync timers).

(** The requests that act: whether the helper succeeded. *)
Definition act (w : W) (request : controlRequest) : bool * W :=
  let '(output, w) := execute w request in (bool_decide (is_Some output), w).

(** [SynchronizeTime], of a Unix time. *)
Definition SynchronizeTime (w : W) (unixTime : Z) : bool * W :=
  act w (mkControlRequest "synchronize-time" unixTime 0 None None None None).
Definition Reboot (w : W) (condition : Z) : bool * W :=
  act w (mkControlRequest "reboot" 0 condition None None None None).

Definition OpticalLineSupervision (w : W) : option Diagnostics * W :=
  let '(output, w) := execute w (actionRequest "optical-line-supervision") in
  (output ← output;
   value ← jsonOptical output;
   temperature ← or_Temperature value;
   voltage ← or_SupplyVoltage value;
   bias ← or_LaserBiasCurrent value;
   transmit ← or_TransmitPower value;
   receive ← or_ReceivePower value;
   Some (OMCI_ (mkSample temperature voltage bias transmit receive)), w).

(** [ExecController] as the controllers of the engine. *)
Definition execControllers : Controllers W :=
  mkControllers (Some (mkControlOps SynchronizeTime Reboot OpticalLineSupervision))
    (Some GEMPortCounters_) (Some FECCounters_) (Some EthernetCounters_) (Some XGSPONCounters_)
    (Some SubscriberMonitor) (Some AllowedPreviewStatus).
End controllers.

(** ** Properties *)

Lemma check_Some b u : check b = Some u ↔ b = true.
Proof. destruct u. by destruct b. Qed.

Lemma matching_Some value expected u : matching value expected = Some u → value = Some expected.
Proof. destruct value as [v|]; [|done]. cbn. by destruct (Z.eqb_spec v expected) as [->|]. Qed.

(** The fields of an object are exactly those required. *)
Lemma requiredJSONObject_exact {J} `{ControlJSON J} input required fields :
  NoDup required → requiredJSONObject input required = Some fields →
  jsonObject input = Some fields ∧ ∀ field, is_Some (fields !! field) ↔ field ∈ required.
Proof.
  intros Hnd Hr. unfold requiredJSONObject in Hr. destruct (jsonObject input) as [found|]; [|done]. cbn in Hr.
  destruct (check (size found =? length required)%nat) as [[]|] eqn:Hs; [|done]. cbn in Hr.
  destruct (check (forallb _ required)) as [[]|] eqn:Hall; [|done]. injection Hr as <-. split; [done|].
  apply check_Some in Hs, Hall. apply Nat.eqb_eq in Hs. rewrite forallb_forall in Hall.
  assert (∀ field, field ∈ required → field ∈ dom found) as Hin.
  { intros field Hf. apply elem_of_dom. apply list_elem_of_In, Hall, bool_decide_eq_true in Hf. done. }
  intros field. rewrite <- elem_of_dom. split; [|apply Hin]. intros Hf.
  assert (dom found ⊆ list_to_set required) as Hsub; [|by apply Hsub, elem_of_list_to_set in Hf].
  assert (list_to_set required ⊆ dom found) as Hsup by (intros x Hx%elem_of_list_to_set; by apply Hin).
  destruct (decide (dom found ⊆ list_to_set required)) as [|Hn]; [done|exfalso].
  assert (size (list_to_set required : gset string) < size (dom found))%nat as Hlt by (apply subset_size; split; done).
  rewrite size_list_to_set, size_dom in Hlt by done. lia.
Qed.

(** A timer of an allowed preview: its row exists, and no more time is left than it has. *)
Definition timer_ok (timer : AllowedPreviewTimer) : Prop :=
  tm_RowKey timer ≤ 1023 ∧ (tm_Duration timer = 0 → tm_TimeLeft timer = 0) ∧
  (tm_Duration timer ≠ 0 → tm_TimeLeft timer ≤ tm_Duration timer).

Lemma foldTimers_ok previews : ∀ acc acc',
  (∀ timer, timer ∈ acc.2 → tm_RowKey timer ∈ acc.1) → NoDup (map tm_RowKey acc.2) → Forall timer_ok acc.2 →
  foldTimers previews acc = Some acc' →
  NoDup (map tm_RowKey acc'.2) ∧ Forall timer_ok acc'.2 ∧ length acc'.2 = (length acc.2 + length previews)%nat.
Proof.
  induction previews as [|timer previews IH]; intros acc acc' Hseen Hnd Hok Hf; cbn [foldTimers] in Hf.
  { injection Hf as <-. cbn. split; [done|split; [done|lia]]. }
  destruct (decodeTimer acc timer) as [acc1|] eqn:Hd; [|done]. cbn [mbind option_bind] in Hf.
  unfold decodeTimer in Hd. destruct (mr_RowKey timer) as [rowKey|]; [|done]. cbn in Hd.
  destruct (mr_Duration timer) as [duration|]; [|done]. cbn in Hd. destruct (mr_TimeLeft timer) as [timeLeft|]; [|done].
  cbn in Hd. destruct (check (negb (_ || _))) as [[]|] eqn:Hv; [|done]. cbn in Hd.
  destruct (check (negb (bool_decide _))) as [[]|] eqn:Hnew; [|done]. injection Hd as <-.
  apply check_Some in Hv, Hnew. apply negb_true_iff, bool_decide_eq_false in Hnew.
  pose proof (λ A B C, IH _ _ A B C Hf) as Hrest.
  destruct Hrest as (H1 & H2 & H3); [| | |split; [done|split; [done|]]].
  - intros t [Ht| ->%list_elem_of_singleton]%elem_of_app; cbn; [|set_solver]. apply elem_of_union_r. by apply Hseen.
  - cbn [snd]. rewrite map_app. apply NoDup_app. split; [done|]. split; [|apply NoDup_singleton].
    intros row Hin ->%list_elem_of_singleton. apply Hnew. apply list_elem_of_fmap in Hin as (t & Heq & Hin).
    change rowKey with (tm_RowKey (mkPreviewTimer rowKey duration timeLeft)). rewrite Heq. by apply Hseen.
  - cbn [snd]. apply Forall_app. split; [done|]. constructor; [|constructor]. unfold timer_ok. cbn. lia.
  - rewrite H3. cbn [snd]. rewrite length_app. cbn [length]. lia.
Qed.

Section checked.
Context {J W : Type} `{ControlJSON J} `{ControlHelper J W}.

Lemma decodeMulticastState_Some (output : J) entityID value :
  decodeMulticastState output entityID = Some value →
  jsonMulticastState output = Some value ∧ mr_SubscriberID value = Some entityID.
Proof.
  unfold decodeMulticastState. destruct (jsonMulticastState output) as [v|]; [|done]. cbn.
  destruct (matching (mr_SubscriberID v) entityID) as [u|] eqn:Hm; [|done]. intros [= <-]. split; [done|].
  by eapply matching_Some.
Qed.

Lemma requiredPart_exact (fields : gmap string J) part required u :
  NoDup required → requiredPart fields part required = Some u →
  ∃ input object, fields !! part = Some input ∧ jsonObject input = Some object ∧
    ∀ field, is_Some (object !! field) ↔ field ∈ required.
Proof.
  intros Hnd Hp. unfold requiredPart in Hp. destruct (fields !! part) as [input|] eqn:Hi; [|done]. cbn in Hp.
  destruct (requiredJSONObject input required) as [object|] eqn:Ho; [|done].
  apply requiredJSONObject_exact in Ho as [Hj Hf]; [|done]. by exists input, object.
Qed.

(** What the engine reads through the helper has been checked: counters and monitors are those of
    the entity asked for; the timers of a preview status have distinct rows that exist and no more
    time left than they have; and the evidence of XGS-PON counters is complete by its own masks,
    taken between two writes of the kernel, and has exactly the fields of the contract. *)
Theorem control_readings_checked (w : W) entityID :
  (∀ counters, GEMPortCounters_ w entityID = Some counters → ∃ request output value,
     (execute w request).1 = Some output ∧ jsonGEMPort output = Some value ∧ gr_GEMPortID value = Some entityID) ∧
  (∀ monitor, SubscriberMonitor w entityID = Some monitor → ∃ request output value,
     (execute w request).1 = Some output ∧ jsonMulticastState output = Some value ∧
     mr_SubscriberID value = Some entityID ∧ length (mo_Groups monitor) = length (default [] (mr_Groups value))) ∧
  (∀ snapshot, AllowedPreviewStatus w entityID = Some snapshot →
     NoDup (map tm_RowKey (ps_Timers snapshot)) ∧ Forall timer_ok (ps_Timers snapshot)) ∧
  (∀ counters, XGSPONCounters_ w entityID = Some counters → ∃ request output value fields,
     (execute w request).1 = Some output ∧ jsonXGSPM output = Some value ∧ xp_ANIEntityID value = entityID ∧
     Z.odd (xgs_Sequence counters) = false ∧ masksComplete (xp_Valid value) = true ∧
     jsonObject output = Some fields ∧ (∀ field, is_Some (fields !! field) ↔ field ∈ responseFields) ∧
     Forall (λ '(part, required), ∃ input object, fields !! part = Some input ∧ jsonObject input = Some object ∧
         ∀ field, is_Some (object !! field) ↔ field ∈ required)
       [("sampling", samplingFields); ("valid", validFields); ("tc", tcFields);
        ("downstream_management", downstreamFields); ("upstream_management", upstreamFields)]).
Proof.
  split; [|split; [|split]].
  - intros counters Hc. unfold GEMPortCounters_, output in Hc.
    destruct (execute w _).1 as [out|] eqn:He; [|done]. cbn in Hc. destruct (jsonGEMPort out) as [value|] eqn:Hj; [|done].
    cbn in Hc. destruct (matching _ _) eqn:Hm; [|done]. exists (mkControlRequest "gem-port-counters" 0 0 (Some entityID) None None None), out, value.
    split; [done|split; [done|by eapply matching_Some]].
  - intros monitor Hc. unfold SubscriberMonitor, output in Hc.
    destruct (execute w _).1 as [out|] eqn:He; [|done]. cbn in Hc.
    destruct (decodeMulticastState out entityID) as [value|] eqn:Hd; [|done]. apply decodeMulticastState_Some in Hd as [Hj Hs].
    cbn in Hc. destruct (mr_CurrentBandwidth value); [|done]. cbn in Hc. destruct (mr_JoinMessages value); [|done]. cbn in Hc.
    destruct (mr_BandwidthExceeded value); [|done]. cbn in Hc. destruct (mr_Groups value) as [groups|] eqn:Hg; [|done]. cbn in Hc.
    destruct (mapM decodeGroup groups) as [active|] eqn:Hm; [|done]. injection Hc as <-.
    exists (mkControlRequest "multicast-subscriber-monitor" 0 0 None None None (Some entityID)), out, value.
    do 3 (split; [done|]). rewrite Hg. cbn. symmetry. by eapply length_mapM.
  - intros snapshot Hc. unfold AllowedPreviewStatus, output in Hc.
    destruct (execute w _).1 as [out|] eqn:He; [|done]. cbn in Hc.
    destruct (decodeMulticastState out entityID) as [value|] eqn:Hd; [|done]. cbn in Hc.
    destruct (mr_MIBDataSync value); [|done]. cbn in Hc. destruct (mr_AllowedPreviews value) as [previews|]; [|done]. cbn in Hc.
    destruct (foldTimers previews (∅, [])) as [[seen timers]|] eqn:Hf; [|done]. injection Hc as <-.
    apply foldTimers_ok in Hf as (H1 & H2 & _); [done|by intros t ?%not_elem_of_nil|constructor|constructor].
  - intros counters Hc. unfold XGSPONCounters_, output in Hc.
    destruct (execute w _).1 as [out|] eqn:He; [|done]. cbn [mbind option_bind] in Hc.
    destruct (jsonXGSPM out) as [value|] eqn:Hj; [|done]. cbn [mbind option_bind] in Hc.
    destruct (requiredJSONObject out responseFields) as [fields|] eqn:Hr; [|done]. cbn [mbind option_bind] in Hc.
    apply requiredJSONObject_exact in Hr as [Ho Hfields]; [|by apply (bool_decide_unpack _); vm_compute].
    do 5 (match type of Hc with (requiredPart ?f ?p ?r ≫= _) = _ =>
      let Hp := fresh "Hpart" in destruct (requiredPart f p r) as [[]|] eqn:Hp; [|done]; cbn [mbind option_bind] in Hc;
      apply requiredPart_exact in Hp; [|by apply (bool_decide_unpack _); vm_compute] end).
    do 4 (match type of Hc with (check ?b ≫= _) = _ =>
      let Hk := fresh "Hcheck" in destruct (check b) as [[]|] eqn:Hk; [|done]; cbn [mbind option_bind] in Hc;
      apply check_Some in Hk end).
    injection Hc as <-. exists (mkControlRequest "xgs-pm-evidence" 0 0 None (Some entityID) None None), out, value, fields.
    do 2 (split; [done|]). split; [lia|]. split.
    { cbn [xgs_Sequence]. rewrite !andb_true_iff in *. destruct Hcheck1 as [[Hodd%Z.eqb_eq _] _].
      change 1 with (Z.ones 1) in Hodd. rewrite Z.land_ones in Hodd by lia. change (2 ^ 1) with 2 in Hodd.
      rewrite Zmod_odd in Hodd. by destruct (Z.odd (xp_Sequence value)). }
    do 3 (split; [done|]). repeat constructor; done.
Qed.
End checked.
