(* ===== verification/Engine.v ===== *)
(** * Engine: the session

    The state of src/internal/engine/engine.go and its transaction layer: every downstream frame
    goes through [HandleFrame], which filters it, answers a retransmission from the replay
    buffer of its priority channel, and otherwise hands it to the request handlers.  The
    handlers are an interface, so that what is shown of the transaction layer holds whatever
    they do.  One call reads the clock once: [now] is its time in nanoseconds. *)

From S2P Require Import Prelude Maps MeTypes MeLib Mib MeNames Semantics Store.
From S2P Require Import Model Frames Codec Software Optics Controllers.

(** ** State *)

Definition minute : Z := 60000000000.
Definition mibUploadTimeout : Z := minute.
Definition alarmUploadTimeout : Z := minute.

Record transactionReplay := mkReplay {
  valid : bool;
  transactionID : Z;
  response : list Z;
  refreshUpload : bool;
  refreshAlarmUpload : bool
}.
Definition noReplay : transactionReplay := mkReplay false 0 [] false false.

(** [uploadCommand]: the managed entities of one MIB upload next response. *)
Abbreviation uploadCommand := (list ManagedEntity).

Record uploadSession := mkUpload { up_commands : list uploadCommand; up_expires : Z }.
Record alarmUploadSession := mkAlarmUpload { au_alarms : list Alarm; au_expires : Z }.

(** [tableKey]: the device, the class, the entity id and the mask. *)
Abbreviation tableKey := (Z * Z * Z * Z)%type.

(** The fields of [Engine]; [core] holds those the software handlers use. *)
Record Engine (W Sink : Type) := mkState {
  core : engine W Sink;
  ponMode : string;
  transactions : list transactionReplay;
  oneWayDigest : list Z;
  oneWayValid : bool;
  upload : gmap Z uploadSession;
  tables : gmap tableKey (list Z);
  alarms : gmap Key (list Z);
  alarmUpload : gmap Z alarmUploadSession;
  alarmSequence : Z;
  arcFreeSince : gmap Key Z;
  pending : list (list Z);
  pendingError : bool;
  extendedSeen : bool;
  controllers : Controllers W;
  pm : PmState;
  opticalSample : gmap Key Sample;
  berSample : gmap Key BERSample
}.
Arguments mkState {W Sink} _ _ _ _ _ _ _ _ _ _ _ _ _ _ _ _ _ _.
Arguments core {W Sink} _.
Arguments ponMode {W Sink} _.
Arguments transactions {W Sink} _.
Arguments oneWayDigest {W Sink} _.
Arguments oneWayValid {W Sink} _.
Arguments upload {W Sink} _.
Arguments tables {W Sink} _.
Arguments alarms {W Sink} _.
Arguments alarmUpload {W Sink} _.
Arguments alarmSequence {W Sink} _.
Arguments arcFreeSince {W Sink} _.
Arguments pending {W Sink} _.
Arguments pendingError {W Sink} _.
Arguments extendedSeen {W Sink} _.
Arguments controllers {W Sink} _.
Arguments pm {W Sink} _.
Arguments opticalSample {W Sink} _.
Arguments berSample {W Sink} _.

(** ** Assignments to its fields *)

Section assignments.
Context {W Sink : Type}.
Implicit Types e : Engine W Sink.

Definition set_core e (v : engine W Sink) : Engine W Sink :=
    mkState v (ponMode e) (transactions e) (oneWayDigest e) (oneWayValid e) (upload e) (tables
    e) (alarms e) (alarmUpload e) (alarmSequence e) (arcFreeSince e) (pending e) (pendingError
    e) (extendedSeen e) (controllers e) (pm e) (opticalSample e) (berSample e).
Definition set_ponMode e (v : string) : Engine W Sink :=
    mkState (core e) v (transactions e) (oneWayDigest e) (oneWayValid e) (upload e) (tables e)
    (alarms e) (alarmUpload e) (alarmSequence e) (arcFreeSince e) (pending e) (pendingError e)
    (extendedSeen e) (controllers e) (pm e) (opticalSample e) (berSample e).
Definition set_transactions e (v : list transactionReplay) : Engine W Sink :=
    mkState (core e) (ponMode e) v (oneWayDigest e) (oneWayValid e) (upload e) (tables e)
    (alarms e) (alarmUpload e) (alarmSequence e) (arcFreeSince e) (pending e) (pendingError e)
    (extendedSeen e) (controllers e) (pm e) (opticalSample e) (berSample e).
Definition set_oneWayDigest e (v : list Z) : Engine W Sink :=
    mkState (core e) (ponMode e) (transactions e) v (oneWayValid e) (upload e) (tables e)
    (alarms e) (alarmUpload e) (alarmSequence e) (arcFreeSince e) (pending e) (pendingError e)
    (extendedSeen e) (controllers e) (pm e) (opticalSample e) (berSample e).
Definition set_oneWayValid e (v : bool) : Engine W Sink :=
    mkState (core e) (ponMode e) (transactions e) (oneWayDigest e) v (upload e) (tables e)
    (alarms e) (alarmUpload e) (alarmSequence e) (arcFreeSince e) (pending e) (pendingError e)
    (extendedSeen e) (controllers e) (pm e) (opticalSample e) (berSample e).
Definition set_upload e (v : gmap Z uploadSession) : Engine W Sink :=
    mkState (core e) (ponMode e) (transactions e) (oneWayDigest e) (oneWayValid e) v (tables e)
    (alarms e) (alarmUpload e) (alarmSequence e) (arcFreeSince e) (pending e) (pendingError e)
    (extendedSeen e) (controllers e) (pm e) (opticalSample e) (berSample e).
Definition set_tables e (v : gmap tableKey (list Z)) : Engine W Sink :=
    mkState (core e) (ponMode e) (transactions e) (oneWayDigest e) (oneWayValid e) (upload e) v
    (alarms e) (alarmUpload e) (alarmSequence e) (arcFreeSince e) (pending e) (pendingError e)
    (extendedSeen e) (controllers e) (pm e) (opticalSample e) (berSample e).
Definition set_alarms e (v : gmap Key (list Z)) : Engine W Sink :=
    mkState (core e) (ponMode e) (transactions e) (oneWayDigest e) (oneWayValid e) (upload e)
    (tables e) v (alarmUpload e) (alarmSequence e) (arcFreeSince e) (pending e) (pendingError e)
    (extendedSeen e) (controllers e) (pm e) (opticalSample e) (berSample e).
Definition set_alarmUpload e (v : gmap Z alarmUploadSession) : Engine W Sink :=
    mkState (core e) (ponMode e) (transactions e) (oneWayDigest e) (oneWayValid e) (upload e)
    (tables e) (alarms e) v (alarmSequence e) (arcFreeSince e) (pending e) (pendingError e)
    (extendedSeen e) (controllers e) (pm e) (opticalSample e) (berSample e).
Definition set_alarmSequence e (v : Z) : Engine W Sink :=
    mkState (core e) (ponMode e) (transactions e) (oneWayDigest e) (oneWayValid e) (upload e)
    (tables e) (alarms e) (alarmUpload e) v (arcFreeSince e) (pending e) (pendingError e)
    (extendedSeen e) (controllers e) (pm e) (opticalSample e) (berSample e).
Definition set_arcFreeSince e (v : gmap Key Z) : Engine W Sink :=
    mkState (core e) (ponMode e) (transactions e) (oneWayDigest e) (oneWayValid e) (upload e)
    (tables e) (alarms e) (alarmUpload e) (alarmSequence e) v (pending e) (pendingError e)
    (extendedSeen e) (controllers e) (pm e) (opticalSample e) (berSample e).
Definition set_pending e (v : list (list Z)) : Engine W Sink :=
    mkState (core e) (ponMode e) (transactions e) (oneWayDigest e) (oneWayValid e) (upload e)
    (tables e) (alarms e) (alarmUpload e) (alarmSequence e) (arcFreeSince e) v (pendingError e)
    (extendedSeen e) (controllers e) (pm e) (opticalSample e) (berSample e).
Definition set_pendingError e (v : bool) : Engine W Sink :=
    mkState (core e) (ponMode e) (transactions e) (oneWayDigest e) (oneWayValid e) (upload e)
    (tables e) (alarms e) (alarmUpload e) (alarmSequence e) (arcFreeSince e) (pending e) v
    (extendedSeen e) (controllers e) (pm e) (opticalSample e) (berSample e).
Definition set_extendedSeen e (v : bool) : Engine W Sink :=
    mkState (core e) (ponMode e) (transactions e) (oneWayDigest e) (oneWayValid e) (upload e)
    (tables e) (alarms e) (alarmUpload e) (alarmSequence e) (arcFreeSince e) (pending e)
    (pendingError e) v (controllers e) (pm e) (opticalSample e) (berSample e).
Definition set_controllers e (v : Controllers W) : Engine W Sink :=
    mkState (core e) (ponMode e) (transactions e) (oneWayDigest e) (oneWayValid e) (upload e)
    (tables e) (alarms e) (alarmUpload e) (alarmSequence e) (arcFreeSince e) (pending e)
    (pendingError e) (extendedSeen e) v (pm e) (opticalSample e) (berSample e).
Definition set_pm e (v : PmState) : Engine W Sink :=
    mkState (core e) (ponMode e) (transactions e) (oneWayDigest e) (oneWayValid e) (upload e)
    (tables e) (alarms e) (alarmUpload e) (alarmSequence e) (arcFreeSince e) (pending e)
    (pendingError e) (extendedSeen e) (controllers e) v (opticalSample e) (berSample e).
Definition set_opticalSample e (v : gmap Key Sample) : Engine W Sink :=
    mkState (core e) (ponMode e) (transactions e) (oneWayDigest e) (oneWayValid e) (upload e)
    (tables e) (alarms e) (alarmUpload e) (alarmSequence e) (arcFreeSince e) (pending e)
    (pendingError e) (extendedSeen e) (controllers e) (pm e) v (berSample e).
Definition set_berSample e (v : gmap Key BERSample) : Engine W Sink :=
    mkState (core e) (ponMode e) (transactions e) (oneWayDigest e) (oneWayValid e) (upload e)
    (tables e) (alarms e) (alarmUpload e) (alarmSequence e) (arcFreeSince e) (pending e)
    (pendingError e) (extendedSeen e) (controllers e) (pm e) (opticalSample e) v.
End assignments.

Definition zeroBitmap : list Z := repeat 0 28.
Definition zeroDigest : list Z := repeat 0 32.

(** [NewForMode]. *)
Definition NewForMode {W Sink} (store : Store W) (controllers : Controllers W)
    (software : option (Controller W Sink)) (mode : string) : Engine W Sink :=
  mkState (mkEngine store software None (mkStatus "idle" 0 0 0 [])) mode
    (repeat noReplay transactionChannelCount) zeroDigest false ∅ ∅ ∅ ∅ 0 ∅ [] false false
    controllers noPm ∅ ∅.

(** What the engine calls to handle a request: [digest] is SHA-256; [decodeError] tells whether
    the vendored decoder rejects the frame; [None] of the two partial handlers means that they
    leave the frame to the next one. *)
Inductive EngineError :=
| FrameRejected (e : FrameError)
| HeaderMissing
| UnexpectedMessageType (messageType : Z)
| DecodeError
| HandlerError.

Class Handlers (W Sink : Type) := {
  digest : list Z → list Z;
  decodeError : list Z → bool;
  handleRawSpecial : Engine W Sink → W → Z → OMCI → list Z →
    option (Res EngineError (list Z)) * Engine W Sink * W;
  decodeFailureResponse : Engine W Sink → OMCI → list Z → option (Res EngineError (list Z));
  dispatch : Engine W Sink → W → Z → OMCI → list Z → Res EngineError (list Z) * Engine W Sink * W
}.

Section session.
Context {W Sink : Type} {H : Handlers W Sink}.
Implicit Types (e : Engine W Sink) (w : W).

(** ** Accessors *)

Definition SetAlarm e (key : Key) (bitmap : list Z) : Engine W Sink :=
  if bool_decide (bitmap = zeroBitmap) then set_alarms e (delete key (alarms e))
  else set_alarms e (<[key := bitmap]> (alarms e)).

Definition DrainNotifications e : list (list Z) * Engine W Sink := (pending e, set_pending e []).

Definition DrainNotificationError e : bool * Engine W Sink := (pendingError e, set_pendingError e false).

(** [ResetCommunicationSession]. *)
Definition ResetCommunicationSession e : Engine W Sink :=
  let e := set_transactions e (repeat noReplay transactionChannelCount) in
  let e := set_oneWayValid (set_oneWayDigest e zeroDigest) false in
  let e := set_tables (set_upload e ∅) ∅ in
  let e := set_alarmSequence (set_alarmUpload e ∅) 0 in
  let e := set_berSample e ∅ in
  let e := set_pendingError (set_pending e []) false in
  set_extendedSeen e false.

(** ** Replay *)

Definition hasFlag (messageType flag : Z) : bool := negb (Z.land messageType flag =? 0).

(** [now.Before(session.expires)], and the session with its timer restarted. *)
Definition refreshedUpload (now : Z) (session : uploadSession) : uploadSession :=
  mkUpload (up_commands session) (now + mibUploadTimeout).
Definition refreshedAlarmUpload (now : Z) (session : alarmUploadSession) : alarmUploadSession :=
  mkAlarmUpload (au_alarms session) (now + alarmUploadTimeout).

Definition replayTransaction e (now : Z) (header : OMCI) : option (list Z) * Engine W Sink :=
  if negb (hasFlag (MessageType header) AR) then (None, e)
  else
    let replay := default noReplay (transactions e !! transactionPriority header) in
    if negb (valid replay) || negb (transactionID replay =? TransactionID header) then (None, e)
    else
      let device := DeviceIdentifier header in
      let messageType := MessageType header in
      if (messageType =? MibUploadNextRequestType) && refreshUpload replay &&
         match upload e !! device with
         | Some session => negb (now <? up_expires session)
         | None => true
         end
      then (None, set_upload e (delete device (upload e)))
      else
        let e := if (messageType =? MibUploadNextRequestType) && refreshUpload replay
                 then set_upload e (alter (refreshedUpload now) device (upload e)) else e in
        if (messageType =? GetAllAlarmsNextRequestType) && refreshAlarmUpload replay &&
           match alarmUpload e !! device with
           | Some session => negb (now <? au_expires session)
           | None => true
           end
        then (None, set_alarmUpload e (delete device (alarmUpload e)))
        else
          let e := if (messageType =? GetAllAlarmsNextRequestType) && refreshAlarmUpload replay
                   then set_alarmUpload e (alter (refreshedAlarmUpload now) device (alarmUpload e)) else e in
          let e := if messageType =? MibUploadRequestType
                   then set_upload e (alter (refreshedUpload now) device (upload e)) else e in
          let e := if messageType =? GetAllAlarmsRequestType
                   then set_alarmUpload e (alter (refreshedAlarmUpload now) device (alarmUpload e)) else e in
          (Some (response replay), e).

Definition rememberTransaction e (header : OMCI) (response : list Z) : Engine W Sink :=
  if negb (hasFlag (MessageType header) AR) then e
  else
    let device := DeviceIdentifier header in
    set_transactions e (<[transactionPriority header :=
      mkReplay true (TransactionID header) response
        ((MessageType header =? MibUploadNextRequestType) && mibUploadNextHasContents response device)
        ((MessageType header =? GetAllAlarmsNextRequestType) && getAllAlarmsNextHasContents response device)]>
      (transactions e)).

(** ** HandleFrame *)

(** A handled frame: its response remembered. *)
Definition remembered (header : OMCI) (r : Res EngineError (list Z)) e w
    : Res EngineError (list Z) * Engine W Sink * W :=
  match r with
  | Err err => (Err err, e, w)
  | Ok response => (Ok response, rememberTransaction e header response, w)
  end.

(** [HandleFrame] once the frame has passed the filter and the replay buffer. *)
Definition handleRequest e w (now : Z) (header : OMCI) (contents : list Z)
    : Res EngineError (list Z) * Engine W Sink * W :=
  let noResponseDownload := MessageType header =? DownloadSectionRequestType in
  if noResponseDownload && oneWayValid e && bool_decide (digest contents = oneWayDigest e)
  then (Ok [], e, w)
  else
    let '(special, e, w) := handleRawSpecial e w now header contents in
    match special with
    | Some r => remembered header r e w
    | None =>
        if decodeError contents then
          match decodeFailureResponse e header contents with
          | Some r => remembered header r e w
          | None => (Err DecodeError, e, w)
          end
        else
          let '(r, e, w) := dispatch e w now header contents in
          match r with
          | Err err => (Err err, e, w)
          | Ok response =>
              if noResponseDownload
              then (Ok response, set_oneWayValid (set_oneWayDigest e (digest contents)) true, w)
              else (Ok response, rememberTransaction e header response, w)
          end
    end.

Definition HandleFrame e w (now : Z) (frame : DownstreamFrame)
    : Res EngineError (list Z) * Engine W Sink * W :=
  match validateFrame (ponMode e) frame with
  | Err err => (Err (FrameRejected err), e, w)
  | Ok _ =>
      let contents := df_Contents frame in
      let e := if nth8 contents 3 =? ExtendedIdent then set_extendedSeen e true else e in
      match decodeOMCI contents with
      | None => (Err HeaderMissing, e, w)
      | Some header =>
          let noResponseDownload := MessageType header =? DownloadSectionRequestType in
          if hasFlag (MessageType header) AK ||
             (negb (hasFlag (MessageType header) AR) && negb noResponseDownload)
          then (Err (UnexpectedMessageType (MessageType header)), e, w)
          else
            let '(replayed, e) := replayTransaction e now header in
            match replayed with
            | Some response => (Ok response, e, w)
            | None => handleRequest e w now header contents
            end
      end
  end.

(** [Handle]. *)
Definition Handle e w (now : Z) (frame : list Z) := HandleFrame e w now (mkDownstream frame false).
End session.
