(* ===== verification/EngineProps.v ===== *)
(** * Engine: what the transaction layer guarantees

    G.988 is stop and wait: the OLT retransmits a request until it sees its response.  These
    theorems hold for every implementation of the request handlers that leaves the replay
    buffer and the PON mode alone. *)

From S2P Require Import Prelude Maps MeTypes MeLib Mib MeNames Semantics Store.
From S2P Require Import Model Frames Software Controllers Engine.

(** What the transaction layer relies on: the handlers leave its buffers alone, raw special
    frames are tests and time synchronizations, and a frame that cannot be decoded is answered
    only if it asks for an answer. *)
Class HandlersLaws (W Sink : Type) {H : Handlers W Sink} : Prop := {
  special_frame e w now h c r e' w' :
    handleRawSpecial e w now h c = (r, e', w') → transactions e' = transactions e ∧ ponMode e' = ponMode e;
  special_other e w now h c :
    MessageType h = DownloadSectionRequestType → handleRawSpecial e w now h c = (None, e, w);
  dispatch_frame e w now h c r e' w' :
    dispatch e w now h c = (r, e', w') → transactions e' = transactions e ∧ ponMode e' = ponMode e;
  failure_asked e h c : hasFlag (MessageType h) AR = false → decodeFailureResponse e h c = None
}.

(** Two states that differ at most in the timers of the upload sessions and in the flag that an
    extended frame was seen: the MIB, downloads, alarms, tables, pending notifications, the
    contents of the upload sessions and the replay buffers are the same. *)
Definition same_but_timers {W Sink} (e1 e2 : Engine W Sink) : Prop :=
  core e1 = core e2 ∧ ponMode e1 = ponMode e2 ∧ transactions e1 = transactions e2 ∧
  oneWayDigest e1 = oneWayDigest e2 ∧ oneWayValid e1 = oneWayValid e2 ∧
  up_commands <$> upload e1 = up_commands <$> upload e2 ∧ tables e1 = tables e2 ∧
  alarms e1 = alarms e2 ∧ au_alarms <$> alarmUpload e1 = au_alarms <$> alarmUpload e2 ∧
  alarmSequence e1 = alarmSequence e2 ∧ arcFreeSince e1 = arcFreeSince e2 ∧
  pending e1 = pending e2 ∧ pendingError e1 = pendingError e2 ∧
  controllers e1 = controllers e2 ∧ pm e1 = pm e2 ∧
  opticalSample e1 = opticalSample e2 ∧ berSample e1 = berSample e2.

#[export] Instance same_but_timers_equiv {W Sink} : Equivalence (@same_but_timers W Sink).
Proof.
  split.
  - intros e. by split_and!.
  - intros a b Hab. unfold same_but_timers in *. destruct_and! Hab. by split_and!.
  - intros a b c Hab Hbc. unfold same_but_timers in *. destruct_and! Hab. destruct_and! Hbc.
    split_and!; by etrans.
Qed.

Section props.
Context {W Sink : Type} {H : Handlers W Sink} {L : HandlersLaws W Sink}.
Implicit Types (e : Engine W Sink) (w : W).

(** ** Reachable sessions *)

(** What the daemon does with an engine. *)
Inductive estep : Engine W Sink → W → Engine W Sink → W → Prop :=
| st_frame e w now f r e' w' : HandleFrame e w now f = (r, e', w') → estep e w e' w'
| st_alarm e w key bitmap : estep e w (SetAlarm e key bitmap) w
| st_drain e w : estep e w (DrainNotifications e).2 w
| st_drain_error e w : estep e w (DrainNotificationError e).2 w
| st_reset e w : estep e w (ResetCommunicationSession e) w.

Inductive ereachable : Engine W Sink → W → Prop :=
| er_new store controllers software mode w : ereachable (NewForMode store controllers software mode) w
| er_step e w e' w' : ereachable e w → estep e w e' w' → ereachable e' w'.

Lemma set_upload_same e f device :
  (∀ s, up_commands (f s) = up_commands s) →
  same_but_timers e (set_upload e (alter f device (upload e))).
Proof.
  intros Hf. split_and!; try done. apply map_eq. intros k. cbn. rewrite !lookup_fmap.
  destruct (decide (k = device)) as [->|]; [|by rewrite lookup_alter_ne].
  rewrite lookup_alter_eq. destruct (upload e !! device); cbn; [|done]. by rewrite Hf.
Qed.

Lemma set_alarmUpload_same e f device :
  (∀ s, au_alarms (f s) = au_alarms s) →
  same_but_timers e (set_alarmUpload e (alter f device (alarmUpload e))).
Proof.
  intros Hf. split_and!; try done. apply map_eq. intros k. cbn. rewrite !lookup_fmap.
  destruct (decide (k = device)) as [->|]; [|by rewrite lookup_alter_ne].
  rewrite lookup_alter_eq. destruct (alarmUpload e !! device); cbn; [|done]. by rewrite Hf.
Qed.

(** The replay buffer of the channel of [header]. *)
Definition replayOf e (header : OMCI) : transactionReplay :=
  default noReplay (transactions e !! transactionPriority header).

(** Whether the upload session a replayed next request belongs to is still alive. *)
Definition replay_live e (now : Z) (header : OMCI) : Prop :=
  (MessageType header = MibUploadNextRequestType → refreshUpload (replayOf e header) = true →
     ∃ s, upload e !! DeviceIdentifier header = Some s ∧ now < up_expires s) ∧
  (MessageType header = GetAllAlarmsNextRequestType → refreshAlarmUpload (replayOf e header) = true →
     ∃ s, alarmUpload e !! DeviceIdentifier header = Some s ∧ now < au_expires s).

(** The conditional timer updates of [replayTransaction]. *)
Lemma upload_timer_same (b : bool) e now device :
  same_but_timers e (if b then set_upload e (alter (refreshedUpload now) device (upload e)) else e).
Proof. destruct b; [by apply set_upload_same|reflexivity]. Qed.

Lemma alarmUpload_timer_same (b : bool) e now device :
  same_but_timers e (if b then set_alarmUpload e (alter (refreshedAlarmUpload now) device (alarmUpload e)) else e).
Proof. destruct b; [by apply set_alarmUpload_same|reflexivity]. Qed.

Lemma replay_frame e now header r e' :
  replayTransaction e now header = (r, e') →
  core e' = core e ∧ ponMode e' = ponMode e ∧ transactions e' = transactions e ∧
  (is_Some r → same_but_timers e e').
Proof.
  unfold replayTransaction.
  do 3 (branch; [intros [= <- <-]; split_and!; try done; by intros [? [=]]|]).
  cbv zeta. intros Hr.
  pose proof (upload_timer_same ((MessageType header =? MibUploadNextRequestType) &&
    refreshUpload (default noReplay (transactions e !! transactionPriority header)))
    e now (DeviceIdentifier header)) as H1.
  match type of H1 with same_but_timers _ ?x => set (e1 := x) in * end.
  destruct (_ && _ && _) in Hr.
  - injection Hr as <- <-. destruct H1 as (? & ? & ? & _). split_and!; (done || by intros [? [=]]).
  - injection Hr as <- <-. match goal with |- core ?x = _ ∧ _ => assert (same_but_timers e x) as Hs end.
    + etrans; [exact H1|]. etrans; [apply alarmUpload_timer_same|]. etrans; [apply upload_timer_same|].
      apply alarmUpload_timer_same.
    + destruct Hs as (? & ? & ? & Hs). by split_and!.
Qed.

(** A remembered, live transaction is answered from the buffer. *)
Lemma replay_answers e now header :
  hasFlag (MessageType header) AR = true → valid (replayOf e header) = true →
  transactionID (replayOf e header) = TransactionID header → replay_live e now header →
  (replayTransaction e now header).1 = Some (response (replayOf e header)).
Proof.
  intros Har Hv Ht [Hu Ha]. unfold replayTransaction. fold (replayOf e header).
  rewrite Har, Hv, Ht, Z.eqb_refl. cbn [negb orb].
  assert ((MessageType header =? MibUploadNextRequestType) && refreshUpload (replayOf e header) &&
    match upload e !! DeviceIdentifier header with
    | Some session => negb (now <? up_expires session) | None => true end = false) as ->.
  { destruct (MessageType header =? MibUploadNextRequestType) eqn:Hm; [|done].
    destruct (refreshUpload _) eqn:Hf; [|done]. apply Z.eqb_eq in Hm.
    destruct (Hu Hm eq_refl) as (s & -> & ?). cbn. lia. }
  assert (∀ e', alarmUpload e' = alarmUpload e →
    (MessageType header =? GetAllAlarmsNextRequestType) && refreshAlarmUpload (replayOf e header) &&
    match alarmUpload e' !! DeviceIdentifier header with
    | Some session => negb (now <? au_expires session) | None => true end = false) as Hal.
  { intros e' ->. destruct (MessageType header =? GetAllAlarmsNextRequestType) eqn:Hm; [|done].
    destruct (refreshAlarmUpload _) eqn:Hf; [|done]. apply Z.eqb_eq in Hm.
    destruct (Ha Hm eq_refl) as (s & -> & ?). cbn. lia. }
  rewrite Hal; [done|]. branch; reflexivity.
Qed.

(** A frame that passes the filter, with its header. *)
Definition passes e (f : DownstreamFrame) (header : OMCI) : Prop :=
  validateFrame (ponMode e) f = Ok tt ∧ decodeOMCI (df_Contents f) = Some header ∧
  hasFlag (MessageType header) AK = false.

Lemma HandleFrame_passes e w now f header :
  passes e f header →
  hasFlag (MessageType header) AR = true ∨ MessageType header = DownloadSectionRequestType →
  HandleFrame e w now f =
  let e := if nth8 (df_Contents f) 3 =? ExtendedIdent then set_extendedSeen e true else e in
  let '(replayed, e) := replayTransaction e now header in
  match replayed with
  | Some response => (Ok response, e, w)
  | None => handleRequest e w now header (df_Contents f)
  end.
Proof.
  intros (Hv & Hh & Hk) Hr. unfold HandleFrame. rewrite Hv, Hh, Hk. cbn [orb].
  replace (negb (hasFlag (MessageType header) AR) && negb (MessageType header =? DownloadSectionRequestType))
    with false; [done|].
  destruct Hr as [-> | ->]; [done|]. rewrite Z.eqb_refl. by destruct (hasFlag _ _).
Qed.

Lemma HandleFrame_Ok e w now f r e' w' :
  HandleFrame e w now f = (Ok r, e', w') →
  ∃ header, passes e f header ∧
    (hasFlag (MessageType header) AR = true ∨ MessageType header = DownloadSectionRequestType).
Proof.
  unfold HandleFrame, passes. destruct (validateFrame _ f) as [[]|] eqn:Hv; [|discriminate].
  destruct (decodeOMCI _) as [header|] eqn:Hh; [|discriminate]. branch; [discriminate|].
  intros _. exists header. apply orb_false_iff in Hb as [Hk Hr].
  destruct (hasFlag _ AR); [by auto|]. cbn in Hr. apply negb_false_iff, Z.eqb_eq in Hr. by auto.
Qed.

(** ** What a handled frame leaves in the buffers *)

Lemma channel_bound header : (transactionPriority header < transactionChannelCount)%nat.
Proof. unfold transactionPriority. by repeat branch; cbv; lia. Qed.

Lemma remembered_Ok header res e w r e' w' :
  length (transactions e) = transactionChannelCount → hasFlag (MessageType header) AR = true →
  remembered header res e w = (Ok r, e', w') →
  valid (replayOf e' header) = true ∧ transactionID (replayOf e' header) = TransactionID header ∧
  response (replayOf e' header) = r.
Proof.
  intros Hl Har. unfold remembered, rememberTransaction. destruct res as [r0|]; [|discriminate].
  rewrite Har. cbn [negb]. intros [= <- <- <-]. unfold replayOf. cbn [transactions set_transactions].
  rewrite list_lookup_insert_eq by (rewrite Hl; apply channel_bound). done.
Qed.

Lemma remembered_frame header res e w r e' w' :
  length (transactions e) = transactionChannelCount →
  remembered header res e w = (r, e', w') →
  length (transactions e') = transactionChannelCount ∧ ponMode e' = ponMode e.
Proof.
  intros Hl. unfold remembered, rememberTransaction. destruct res; [|by intros [= _ <- _]].
  branch; intros [= _ <- _]; [done|]. cbn. by rewrite length_insert.
Qed.

Lemma handleRequest_frame e w now header contents r e' w' :
  length (transactions e) = transactionChannelCount →
  handleRequest e w now header contents = (r, e', w') →
  length (transactions e') = transactionChannelCount ∧ ponMode e' = ponMode e.
Proof.
  intros Hl. unfold handleRequest. branch; [by intros [= _ <- _]|].
  destruct (handleRawSpecial _ _ _ _ _) as [[s e1] w1] eqn:Hs. apply special_frame in Hs as [Ht Hp].
  rewrite <- Ht in Hl. rewrite <- Hp. destruct s as [res|]; [by apply remembered_frame|].
  destruct (decodeError contents).
  { destruct (decodeFailureResponse _ _ _); [by apply remembered_frame|by intros [= _ <- _]]. }
  destruct (dispatch _ _ _ _ _) as [[res e2] w2] eqn:Hd. apply dispatch_frame in Hd as [Ht2 Hp2].
  rewrite <- Ht2 in Hl. rewrite <- Hp2. destruct res as [r0|]; [|by intros [= _ <- _]].
  destruct (MessageType header =? DownloadSectionRequestType); [by intros [= _ <- _]|].
  intros Hr. by apply (remembered_frame header (Ok r0) e2 w2 _ _ _ Hl Hr).
Qed.

Lemma HandleFrame_frame e w now f r e' w' :
  length (transactions e) = transactionChannelCount → HandleFrame e w now f = (r, e', w') →
  length (transactions e') = transactionChannelCount ∧ ponMode e' = ponMode e.
Proof.
  intros Hl. unfold HandleFrame. destruct (validateFrame _ _); [|by intros [= _ <- _]].
  set (e0 := if nth8 _ 3 =? ExtendedIdent then _ else e).
  assert (transactions e0 = transactions e ∧ ponMode e0 = ponMode e) as [Ht <-] by (unfold e0; by branch).
  rewrite <- Ht in Hl. clearbody e0.
  destruct (decodeOMCI _) as [header|]; [|by intros [= _ <- _]]. branch; [by intros [= _ <- _]|].
  destruct (replayTransaction e0 now header) as [rep e1] eqn:Hr.
  apply replay_frame in Hr as (_ & Hp & Ht1 & _). rewrite <- Ht1 in Hl. rewrite <- Hp.
  destruct rep; [by intros [= _ <- _]|]. by apply handleRequest_frame.
Qed.

Lemma reachable_channels e w : ereachable e w → length (transactions e) = transactionChannelCount.
Proof.
  induction 1 as [store software mode w|e w e' w' _ IH Hs]; [done|].
  destruct Hs as [e w now f r e' w' Hf|e w key bitmap|e w|e w|e w];
    [by apply HandleFrame_frame in Hf as [? _]|unfold SetAlarm; by branch|exact IH|exact IH|reflexivity].
Qed.

(** ** The theorems *)

Lemma same_extendedSeen e b : same_but_timers e (set_extendedSeen e b).
Proof. by split_and!. Qed.

(** What [HandleFrame] stored with the response it returned. *)
Lemma HandleFrame_remembers e w now f header r e1 w1 :
  length (transactions e) = transactionChannelCount → HandleFrame e w now f = (Ok r, e1, w1) →
  passes e f header → hasFlag (MessageType header) AR = true →
  valid (replayOf e1 header) = true ∧ transactionID (replayOf e1 header) = TransactionID header ∧
  response (replayOf e1 header) = r.
Proof.
  intros Hl Hx Hp Har. rewrite (HandleFrame_passes _ _ _ _ _ Hp (or_introl Har)) in Hx.
  set (e0 := if nth8 _ 3 =? ExtendedIdent then _ else e) in Hx. cbv zeta in Hx.
  assert (transactions e0 = transactions e) as Ht by (unfold e0; by branch). rewrite <- Ht in Hl. clearbody e0.
  destruct (replayTransaction e0 now header) as [rep e2] eqn:Hr.
  pose proof Hr as (_ & _ & Ht2 & _)%replay_frame. destruct rep as [r0|].
  - injection Hx as <- <- <-. unfold replayTransaction in Hr. rewrite Har in Hr. cbn [negb] in Hr.
    fold (replayOf e0 header) in Hr. unfold replayOf at 1 2 3. rewrite Ht2. fold (replayOf e0 header).
    destruct (negb (valid (replayOf e0 header)) || _) eqn:Hv; [discriminate Hr|].
    apply orb_false_iff in Hv as [Hv Hid]. apply negb_false_iff in Hv, Hid. apply Z.eqb_eq in Hid.
    split_and!; [done|done|]. repeat (destruct (_ && _ && _) in Hr; [discriminate Hr|]). by injection Hr.
  - rewrite <- Ht2 in Hl. unfold handleRequest in Hx.
    destruct (MessageType header =? DownloadSectionRequestType) eqn:Hm.
    { apply Z.eqb_eq in Hm. rewrite Hm in Har. discriminate Har. }
    cbn [andb] in Hx.
    destruct (handleRawSpecial _ _ _ _ _) as [[s e3] w3] eqn:Hs. apply special_frame in Hs as [Ht3 _].
    rewrite <- Ht3 in Hl. destruct s as [res|]; [by eapply remembered_Ok|].
    destruct (decodeError _).
    { destruct (decodeFailureResponse _ _ _); [by eapply remembered_Ok|discriminate Hx]. }
    destruct (dispatch _ _ _ _ _) as [[res e4] w4] eqn:Hd. apply dispatch_frame in Hd as [Ht4 _].
    rewrite <- Ht4 in Hl. destruct res as [r0|]; [|discriminate Hx].
    exact (remembered_Ok header (Ok r0) e4 w4 r e1 w1 Hl Har Hx).
Qed.


(** A download section without acknowledgement that is received twice in a row is taken once:
    the second copy changes nothing but the flag that an extended frame was seen. *)
Theorem section_taken_once e w now f header r e1 w1 now'
    (Hr : ereachable e w) (Hx : HandleFrame e w now f = (Ok r, e1, w1))
    (Hp : passes e f header) (Hm : MessageType header = DownloadSectionRequestType) :
  ∃ e2, HandleFrame e1 w1 now' f = (Ok [], e2, w1) ∧ same_but_timers e1 e2.
Proof.
  pose proof (reachable_channels _ _ Hr) as Hl.
  destruct (HandleFrame_frame _ _ _ _ _ _ _ Hl Hx) as [_ Hmode].
  assert (∀ e now, replayTransaction e now header = (None, e)) as Hnone
    by (intros; unfold replayTransaction; by rewrite Hm).
  assert (oneWayValid e1 = true ∧ oneWayDigest e1 = digest (df_Contents f)) as [Hv Hd].
  { rewrite (HandleFrame_passes _ _ _ _ _ Hp (or_intror Hm)) in Hx. cbv zeta in Hx.
    rewrite Hnone in Hx. unfold handleRequest in Hx. rewrite special_other in Hx by done.
    rewrite failure_asked in Hx by by rewrite Hm. rewrite Hm, Z.eqb_refl in Hx. cbn [andb] in Hx.
    match type of Hx with context [if ?b then (Ok [], _, _) else _] => destruct b eqn:Hb end.
    - injection Hx as _ <- _. by apply andb_true_iff in Hb as [? ?%bool_decide_eq_true].
    - destruct (decodeError _); [discriminate Hx|].
      destruct (dispatch _ _ _ _ _) as [[[r0|] e4] w4]; [|discriminate Hx]. by injection Hx as _ <- _. }
  assert (passes e1 f header) as Hp1 by (unfold passes in *; by rewrite Hmode).
  rewrite (HandleFrame_passes _ _ _ _ _ Hp1 (or_intror Hm)). cbv zeta. rewrite Hnone.
  eexists. split.
  - unfold handleRequest. rewrite Hm, Z.eqb_refl. cbn [andb].
    match goal with |- context [oneWayValid ?x] =>
      assert (oneWayValid x = true ∧ oneWayDigest x = digest (df_Contents f)) as [-> ->] by by branch end.
    by rewrite bool_decide_eq_true_2.
  - branch; [apply same_extendedSeen|reflexivity].
Qed.

(** A new communication session starts clean: after the reset no request is answered from the
    buffers of the old session, nothing of it is pending, and the MIB, the download, the
    current alarms and the alarm reporting timers are untouched. *)
Theorem session_reset e now header :
  let e' := ResetCommunicationSession e in
  replayTransaction e' now header = (None, e') ∧ oneWayValid e' = false ∧
  upload e' = ∅ ∧ tables e' = ∅ ∧ alarmUpload e' = ∅ ∧ pending e' = [] ∧ pendingError e' = false ∧
  core e' = core e ∧ alarms e' = alarms e ∧ arcFreeSince e' = arcFreeSince e.
Proof.
  split_and!; try done. unfold replayTransaction. branch; [done|].
  assert (default noReplay (transactions (ResetCommunicationSession e) !! transactionPriority header) = noReplay) as ->;
    [|done].
  unfold transactionPriority. by repeat branch.
Qed.
End props.

(** ** Concrete handlers

    A dispatcher that counts its calls in the platform state and answers with the raw result
    of the request. *)
Definition countingHandlers : Handlers Z unit := {|
  digest := λ l, l;
  decodeError := λ _, false;
  handleRawSpecial := λ e w _ _ _, (None, e, w);
  decodeFailureResponse := λ _ _ _, None;
  dispatch := λ e w _ h _,
    (match serializeRawResult h OnuDataClassID 0 Success with Some r => Ok r | None => Err HandlerError end,
     e, w + 1)
|}.

#[export] Instance countingLaws : @HandlersLaws Z unit countingHandlers.
Proof.
  split; cbn.
  - by intros ????? ? ? ? [= _ <- _].
  - done.
  - by intros ????? ? ? ? [= _ <- _].
  - done.
Qed.

Definition emptyStore {W} : Store W := mkStore ∅ ∅ 0 None 64 "" None None ∅ None.
Definition sampleSession : Engine Z unit := NewForMode emptyStore noControllers None XGSPON.
Definition sampleFrame : DownstreamFrame := mkDownstream sampleContents true.
Definition sampleHeader : OMCI :=
  default (mkOMCI 0 0 0 []) (decodeOMCI sampleContents).


(** A download section without acknowledgement. *)
Definition sampleSection : DownstreamFrame :=
  mkDownstream ([0; 5; DownloadSectionRequestType; BaselineIdent; 0; 7; 0; 1] ++ repeat 9 32 ++ [0; 0; 0; 40]) true.
Definition sampleSectionHeader : OMCI :=
  default (mkOMCI 0 0 0 []) (decodeOMCI (df_Contents sampleSection)).

Lemma section_taken_once_witness :
  let '(r, e1, w1) := @HandleFrame _ _ countingHandlers sampleSession 0 7 sampleSection in
  w1 = 1 ∧ ∃ e2, @HandleFrame _ _ countingHandlers e1 w1 8 sampleSection = (Ok [], e2, 1) ∧
    same_but_timers e1 e2.
Proof.
  assert (∃ response, (@HandleFrame _ _ countingHandlers sampleSession 0 7 sampleSection).1.1 = Ok response ∧
    (@HandleFrame _ _ countingHandlers sampleSession 0 7 sampleSection).2 = 1) as (response & Hr & Hw)
    by (vm_compute; by eexists).
  destruct (@HandleFrame _ _ countingHandlers sampleSession 0 7 sampleSection) as [[r e1] w1] eqn:Hx.
  cbn [fst snd] in Hr, Hw. subst r w1.
  split; [reflexivity|].
  apply (@section_taken_once Z unit countingHandlers countingLaws sampleSession 0 7 sampleSection
           sampleSectionHeader response e1 1 8);
    [by apply er_new|exact Hx|split_and!; vm_compute; reflexivity|reflexivity].
Defined.
