(* ===== verification/PmRules.v ===== *)
(** * Engine: performance classes and thresholds

    The performance monitoring classes, the threshold crossing rules of each and the checks on
    threshold pointers: src/internal/engine/performance_threshold.go, and from performance.go
    the resolution of the UNI an Ethernet history monitors. *)

From S2P Require Import Prelude Maps MeTypes MeLib Mib MeNames Semantics Store.

Definition isEthernetPerformanceClass (classID : Z) : bool :=
  bool_decide (classID ∈
    [EthernetPerformanceMonitoringHistoryDataClassID; EthernetPerformanceMonitoringHistoryData3ClassID;
     EthernetFramePerformanceMonitoringHistoryDataDownstreamClassID;
     EthernetFramePerformanceMonitoringHistoryDataUpstreamClassID]).

Definition isXGSPONPerformanceClass (classID : Z) : bool :=
  bool_decide (classID ∈
    [XgPonTcPerformanceMonitoringHistoryDataClassID;
     XgPonDownstreamManagementPerformanceMonitoringHistoryDataClassID;
     XgPonUpstreamManagementPerformanceMonitoringHistoryDataClassID]).

Definition isPerformanceClass (classID : Z) : bool :=
  (classID =? GemPortNetworkCtpPerformanceMonitoringHistoryDataClassID) ||
  (classID =? FecPerformanceMonitoringHistoryDataClassID) ||
  isEthernetPerformanceClass classID || isXGSPONPerformanceClass classID.

(** [performanceThresholdRule]; the name and the value of the threshold are filled in by
    [performanceThresholdsLocked]. *)
Record performanceThresholdRule := mkRule_ {
  ru_counter : string;
  ru_threshold : nat;
  ru_thresholdName : string;
  ru_value : Z;
  ru_alarm : Z
}.

Definition rule (counter : string) (threshold : nat) (alarm : Z) : performanceThresholdRule :=
  mkRule_ counter threshold "" 0 alarm.

Definition sequentialPerformanceThresholdRules (counters : list string) : list performanceThresholdRule :=
  imap (λ index counter, rule counter (S index) (Z.of_nat index)) counters.

Definition performanceThresholdRules (classID : Z) : list performanceThresholdRule :=
  if classID =? GemPortNetworkCtpPerformanceMonitoringHistoryDataClassID then
    []
  else if classID =? XgPonTcPerformanceMonitoringHistoryDataClassID then
    [rule XgPonTcPerformanceMonitoringHistoryData_PsbdHecErrorCount 1 1;
     rule XgPonTcPerformanceMonitoringHistoryData_XgtcHecErrorCount 2 2;
     rule XgPonTcPerformanceMonitoringHistoryData_UnknownProfileCount 3 3;
     rule XgPonTcPerformanceMonitoringHistoryData_XgemHecLostWordsCount 4 4;
     rule XgPonTcPerformanceMonitoringHistoryData_XgemKeyErrors 5 5;
     rule XgPonTcPerformanceMonitoringHistoryData_XgemHecErrorCount 6 6]
  else if classID =? XgPonDownstreamManagementPerformanceMonitoringHistoryDataClassID then
    [rule XgPonDownstreamManagementPerformanceMonitoringHistoryData_PloamMessageIntegrityCheckMicErrorCount 1 1;
     rule XgPonDownstreamManagementPerformanceMonitoringHistoryData_OmciMicErrorCount 2 2]
  else if classID =? XgPonUpstreamManagementPerformanceMonitoringHistoryDataClassID then
    []
  else if classID =? FecPerformanceMonitoringHistoryDataClassID then
    [rule FecPerformanceMonitoringHistoryData_CorrectedBytes 1 0;
     rule FecPerformanceMonitoringHistoryData_CorrectedCodeWords 2 1;
     rule FecPerformanceMonitoringHistoryData_UncorrectableCodeWords 3 2;
     rule FecPerformanceMonitoringHistoryData_FecSeconds 4 4]
  else if classID =? EthernetPerformanceMonitoringHistoryDataClassID then
    sequentialPerformanceThresholdRules
    [EthernetPerformanceMonitoringHistoryData_FcsErrors;
     EthernetPerformanceMonitoringHistoryData_ExcessiveCollisionCounter;
     EthernetPerformanceMonitoringHistoryData_LateCollisionCounter;
     EthernetPerformanceMonitoringHistoryData_FramesTooLong;
     EthernetPerformanceMonitoringHistoryData_BufferOverflowsOnReceive;
     EthernetPerformanceMonitoringHistoryData_BufferOverflowsOnTransmit;
     EthernetPerformanceMonitoringHistoryData_SingleCollisionFrameCounter;
     EthernetPerformanceMonitoringHistoryData_MultipleCollisionsFrameCounter;
     EthernetPerformanceMonitoringHistoryData_SqeCounter;
     EthernetPerformanceMonitoringHistoryData_DeferredTransmissionCounter;
     EthernetPerformanceMonitoringHistoryData_InternalMacTransmitErrorCounter;
     EthernetPerformanceMonitoringHistoryData_CarrierSenseErrorCounter;
     EthernetPerformanceMonitoringHistoryData_AlignmentErrorCounter;
     EthernetPerformanceMonitoringHistoryData_InternalMacReceiveErrorCounter]
  else if classID =? EthernetPerformanceMonitoringHistoryData3ClassID then
    [rule EthernetPerformanceMonitoringHistoryData3_DropEvents 1 0;
     rule EthernetPerformanceMonitoringHistoryData3_UndersizePackets 2 1;
     rule EthernetPerformanceMonitoringHistoryData3_Fragments 3 2;
     rule EthernetPerformanceMonitoringHistoryData3_Jabbers 4 3]
  else if classID =? EthernetFramePerformanceMonitoringHistoryDataDownstreamClassID then
    [rule EthernetFramePerformanceMonitoringHistoryDataDownstream_DropEvents 1 0;
     rule EthernetFramePerformanceMonitoringHistoryDataDownstream_CrcErroredPackets 2 1;
     rule EthernetFramePerformanceMonitoringHistoryDataDownstream_UndersizePackets 3 2;
     rule EthernetFramePerformanceMonitoringHistoryDataDownstream_OversizePackets 4 3]
  else if classID =? EthernetFramePerformanceMonitoringHistoryDataUpstreamClassID then
    [rule EthernetFramePerformanceMonitoringHistoryDataUpstream_DropEvents 1 0;
     rule EthernetFramePerformanceMonitoringHistoryDataUpstream_CrcErroredPackets 2 1;
     rule EthernetFramePerformanceMonitoringHistoryDataUpstream_UndersizePackets 3 2;
     rule EthernetFramePerformanceMonitoringHistoryDataUpstream_OversizePackets 4 3]
  else [].

Definition performanceThresholdAttribute : string :=
  GemPortNetworkCtpPerformanceMonitoringHistoryData_ThresholdData12Id.

Definition performanceThresholdValueNames : list string :=
  [""; ThresholdData1_ThresholdValue1; ThresholdData1_ThresholdValue2; ThresholdData1_ThresholdValue3;
   ThresholdData1_ThresholdValue4; ThresholdData1_ThresholdValue5; ThresholdData1_ThresholdValue6;
   ThresholdData1_ThresholdValue7; ThresholdData2_ThresholdValue8; ThresholdData2_ThresholdValue9;
   ThresholdData2_ThresholdValue10; ThresholdData2_ThresholdValue11; ThresholdData2_ThresholdValue12;
   ThresholdData2_ThresholdValue13; ThresholdData2_ThresholdValue14].

(** [e.mib.Get] where an error ends the caller: the attributes. *)
Definition getAttributes {MR : MapRange} {W} (s : Store W) (key : Key) (mask : Z)
    : Res MibError AttributeValueMap :=
  match Get s key mask with
  | (Ok instance, None) => Ok (i_Attributes instance)
  | (Ok _, Some err) => Err err
  | (Err err, _) => Err err
  end.

Definition octetValue (attributes : AttributeValueMap) (name : string) : option Z :=
  match attributes !! name with Some (VU8 value) => Some value | _ => None end.
Definition shortValue (attributes : AttributeValueMap) (name : string) : option Z :=
  match attributes !! name with Some (VU16 value) => Some value | _ => None end.

Section rules.
Context {MR : MapRange} {W : Type}.
Implicit Types s : Store W.

(** [resolveEthernetPerformanceUNILocked]. *)
Definition resolveEthernetPerformanceUNI s (key : Key) : Res MibError Z :=
  uniEntityID ←
    (if (key.1 =? EthernetPerformanceMonitoringHistoryDataClassID) ||
        (key.1 =? EthernetPerformanceMonitoringHistoryData3ClassID) then Ok key.2
     else if (key.1 =? EthernetFramePerformanceMonitoringHistoryDataDownstreamClassID) ||
             (key.1 =? EthernetFramePerformanceMonitoringHistoryDataUpstreamClassID) then
       bridgePort ← getAttributes s (MacBridgePortConfigurationDataClassID, key.2) 0x3000;
       match octetValue bridgePort MacBridgePortConfigurationData_TpType with
       | Some 1 =>
           match shortValue bridgePort MacBridgePortConfigurationData_TpPointer with
           | Some uniEntityID => Ok uniEntityID
           | None => Err (PlainError "invalid TP pointer")
           end
       | _ => Err (PlainError "requires a PPTP Ethernet UNI bridge port")
       end
     else Err (PlainError "unsupported Ethernet performance class"));
  if negb (Exists_ s (PhysicalPathTerminationPointEthernetUniClassID, uniEntityID))
  then Err (PlainError "missing PPTP Ethernet UNI")
  else Ok uniEntityID.

(** [validatePerformanceThresholdPointerLocked]. *)
Definition validatePerformanceThresholdPointer s (classID : Z) (attributes : AttributeValueMap)
    : Res MibError unit :=
  if negb (isPerformanceClass classID) then Ok tt
  else match attributes !! performanceThresholdAttribute with
       | None => Ok tt
       | Some (VU16 thresholdID) =>
           guard_err (negb (thresholdID =? 0) && negb (Exists_ s (ThresholdData1ClassID, thresholdID)))
             (result ParameterError)
       | Some _ => Err (result ParameterError)
       end.

(** [performanceThresholdReferencedLocked]. *)
Definition performanceThresholdReferenced s (thresholdID : Z) : bool :=
  existsb (λ instance,
      isPerformanceClass (ClassID_of instance) &&
      match shortValue (i_Attributes instance) performanceThresholdAttribute with
      | Some value => value =? thresholdID
      | None => false
      end) (Snapshot s).

(** [performanceThresholdsLocked]. *)
Definition performanceThresholds s (key : Key) : Res MibError (list performanceThresholdRule) :=
  instance ← getAttributes s key 0x4000;
  match shortValue instance performanceThresholdAttribute with
  | None => Err (PlainError "performance threshold pointer is missing")
  | Some thresholdID =>
      if thresholdID =? 0 then Ok []
      else
        threshold1 ← getAttributes s (ThresholdData1ClassID, thresholdID) 0xfe00;
        let threshold2 := getAttributes s (ThresholdData2ClassID, thresholdID) 0xfe00 in
        _ ← guard_err (match threshold2 with Ok _ => false | Err _ => true end &&
                       Exists_ s (ThresholdData2ClassID, thresholdID)) (PlainError "resolve threshold data 2");
        foldM_res (λ configured r,
            match (if (ru_threshold r <=? 7)%nat then Some threshold1
                   else match threshold2 with Ok attributes => Some attributes | Err _ => None end) with
            | None => Ok configured
            | Some attributes =>
                let name := nth (ru_threshold r) performanceThresholdValueNames "" in
                match attributes !! name with
                | None => Ok configured
                | Some (VU32 value) =>
                    if negb (value =? 0) && negb (value =? 0xffff)
                    then Ok (configured ++ [mkRule_ (ru_counter r) (ru_threshold r) name value (ru_alarm r)])
                    else Ok configured
                | Some _ => Err (PlainError "threshold data has invalid type")
                end
            end) (performanceThresholdRules key.1) []
  end.
End rules.

(** [performanceCounterValue]. *)
Definition performanceCounterValue (value : option Value) : option Z :=
  match value with
  | Some (VU8 counter) | Some (VU16 counter) | Some (VU32 counter) | Some (VU64 counter) => Some counter
  | _ => None
  end.
