(* ===== verification/Notify.v ===== *)
(** * Engine: alarms, attribute value changes and alarm reporting control

    src/internal/engine/notifications.go and arc.go: the alarm table with its sequence number,
    the suppression of notifications by administrative locks, the AVC frames of an attribute
    change, test results, and alarm reporting control (ARC) with its problem-free timers. *)

From S2P Require Import Prelude Maps MeTypes MeLib Mib MeNames Semantics Store.
From S2P Require Import Model Frames Codec Software Engine PmRules.

Section notify.
Context {MR : MapRange} {W Sink : Type}.
Implicit Types e : Engine W Sink.

Definition mibOf e : Store W := e_mib (core e).
Definition setMib e (mib : Store W) : Engine W Sink := set_core e (withMib (core e) mib).

Definition serializeAutonomous (device transactionID messageType : Z) (key : Key) (payload : Message)
    : Res MibError (list Z) :=
  match encodeMessage (device =? ExtendedIdent) key payload with
  | Err _ => Err (PlainError "serialize")
  | Ok body =>
      match serializeLayers transactionID messageType device body with
      | None => Err (PlainError "serialize")
      | Some frame => Ok frame
      end
  end.

Definition validateDeviceIdentifier (device : Z) : Res MibError unit :=
  guard_err (negb (device =? BaselineIdent) && negb (device =? ExtendedIdent))
    (PlainError "unsupported OMCI device identifier").

(** [notificationDeviceLocked]. *)
Definition notificationDevice e (requested : Z) : Z :=
  if (requested =? ExtendedIdent) && negb (extendedSeen e) then BaselineIdent else requested.

(** [bitmap[alarm/8] & (1 << (7 - alarm%8)) != 0]. *)
Definition alarmBit (bitmap : list Z) (alarm : Z) : bool :=
  negb (Z.land (nth8 bitmap (Z.to_nat (alarm / 8))) (Z.shiftl 1 (7 - alarm mod 8)) =? 0).

Definition AlarmBitmapSize : Z := 224.
Definition alarmNumbers : list Z := map Z.of_nat (seq 0 (Z.to_nat AlarmBitmapSize)).

Definition validateAlarmBitmap (alarmMap bitmap : list Z) : Res MibError unit :=
  _ ← guard_err (bool_decide (alarmMap = [])) (PlainError "managed entity has no alarm map");
  foldM_res (λ _ alarm,
    guard_err (alarmBit bitmap alarm && negb (bool_decide (alarm ∈ alarmMap)))
      (PlainError "alarm bit is not defined")) alarmNumbers tt.

(** [capabilityAlarmCodes] of capability.go. *)
Definition capabilityAlarmCodes (classID : Z) : list Z :=
  if classID =? AniGClassID then [0; 1; 2; 3; 4; 5; 6]
  else if classID =? PhysicalPathTerminationPointEthernetUniClassID then [0]
  else merge_sort Z.le (remove_dups (map ru_alarm (performanceThresholdRules classID))).

(** [capabilityAVCIndexes] of capability.go. *)
Definition capabilityAVCIndexes (classID : Z) : list Z :=
  if classID =? OnuGClassID then [8]
  else if classID =? AniGClassID then [8; 10; 14]
  else if classID =? PhysicalPathTerminationPointEthernetUniClassID then [6; 12]
  else if classID =? Onu3GClassID then [4; 5]
  else [].

Definition containsCapabilityCode (codes : list Z) (candidate : Z) : bool :=
  existsb (λ code, code =? candidate) codes.

(** [validateCapabilityAlarmLocked]. *)
Definition validateCapabilityAlarm e (classID : Z) (bitmap : list Z) : Res MibError unit :=
  match SupportedAttributeMask (mibOf e) classID with
  | None => Ok tt
  | Some _ =>
      foldM_res (λ _ alarm,
        guard_err (alarmBit bitmap alarm && negb (containsCapabilityCode (capabilityAlarmCodes classID) alarm))
          (PlainError "alarm bit is not advertised by the ONU capability")) alarmNumbers tt
  end.

(** [me.LoadManagedEntityDefinition] where an error ends the caller. *)
Definition loadEntity (key : Key) : Res MibError ManagedEntity :=
  match LoadManagedEntityDefinition key.1 (Some (mkParams key.2 ∅)) with
  | Ok entity => Ok entity
  | Err _ => Err (PlainError "load managed entity")
  end.

(** [validateCapabilityAVCLocked]. *)
Definition validateCapabilityAVC e (key : Key) (attributes : AttributeValueMap) : Res MibError unit :=
  match SupportedAttributeMask (mibOf e) key.1 with
  | None => Ok tt
  | Some _ =>
      entity ← loadEntity key;
      foldM_res (λ _ '(name, _),
        match GetAttributeDefinitionByName (AttributeDefinitions (definition entity)) name with
        | None => Err (PlainError "AVC attribute is not defined")
        | Some attribute =>
            guard_err ((255 <? Index attribute) ||
                       negb (containsCapabilityCode (capabilityAVCIndexes key.1) (u8 (Index attribute))))
              (PlainError "AVC attribute is not advertised by the ONU capability")
        end) (range attributes) tt
  end.

(** ** Alarm reporting control: the configuration *)

Definition arcAttribute : string := "Arc".
Definition arcIntervalAttribute : string := "ArcInterval".

(** [arcConfigurationLocked]: enabled and interval, [None] for a class without ARC. *)
Definition arcConfiguration (s : Store W) (key : Key) : Res MibError (option (bool * Z)) :=
  entity ← loadEntity key;
  let definitions := AttributeDefinitions (definition entity) in
  match GetAttributeDefinitionByName definitions arcAttribute,
        GetAttributeDefinitionByName definitions arcIntervalAttribute with
  | Some arcDefinition, Some intervalDefinition =>
      attributes ← getAttributes s key (Z.lor (Mask arcDefinition) (Mask intervalDefinition));
      Ok (Some (default 0 (octetValue attributes arcAttribute) =? 1,
                default 0 (octetValue attributes arcIntervalAttribute)))
  | _, _ => Ok None
  end.

(** The loop of [arcOwnerLocked] over the snapshot: the only ANI-G. *)
Fixpoint onlyAniG (owner : option Key) (instances : list Instance_) : option Key :=
  match instances with
  | [] => owner
  | instance :: instances =>
      if negb (ClassID_of instance =? AniGClassID) then onlyAniG owner instances
      else match owner with
           | Some _ => None
           | None => onlyAniG (Some (i_Key instance)) instances
           end
  end.

(** [arcOwnerLocked]: the entity whose ARC controls the alarms of [key], if one does. *)
Definition arcOwner (s : Store W) (key : Key) : Res MibError (option Key) :=
  configuration ← arcConfiguration s key;
  match configuration with
  | Some _ => Ok (Some key)
  | None =>
      owner ←
        (if isEthernetPerformanceClass key.1 then
           entityID ← resolveEthernetPerformanceUNI s key;
           Ok (Some (PhysicalPathTerminationPointEthernetUniClassID, entityID))
         else if key.1 =? GemPortNetworkCtpPerformanceMonitoringHistoryDataClassID then
           Ok (onlyAniG None (Snapshot s))
         else if key.1 =? FecPerformanceMonitoringHistoryDataClassID then
           let owner := (AniGClassID, key.2) in
           Ok (if Exists_ s owner then Some owner else None)
         else Ok None);
      match owner with
      | None => Ok None
      | Some owner =>
          configuration ← arcConfiguration s owner;
          Ok (match configuration with Some _ => Some owner | None => None end)
      end
  end.

(** [arcEnabledLocked]. *)
Definition arcEnabled (s : Store W) (key : Key) : bool :=
  match arcOwner s key with
  | Ok (Some owner) =>
      match arcConfiguration s owner with
      | Ok (Some (enabled, _)) => enabled
      | _ => false
      end
  | _ => false
  end.

(** [arcGroupHasAlarmLocked]. *)
Definition arcGroupHasAlarm e (owner : Key) : bool :=
  existsb (λ '(key, bitmap),
      negb (bool_decide (bitmap = zeroBitmap)) &&
      match arcOwner (mibOf e) key with
      | Ok (Some candidate) => bool_decide (candidate = owner)
      | _ => false
      end) (range (alarms e)).

(** ** Suppression *)

(** [administrativelyLockedLocked]. *)
Definition administrativelyLocked (s : Store W) (key : Key) (attribute : string) : Res MibError bool :=
  if negb (Exists_ s key) then Ok false
  else match GetAttributesDefinitions key.1 with
  | Err _ => Err (PlainError "load attributes")
  | Ok definitions =>
      match GetAttributeDefinitionByName definitions attribute with
      | None => Err (PlainError "attribute")
      | Some definition =>
          attributes ← getAttributes s key (Mask definition);
          match attributes !! attribute with
          | None => Ok false
          | Some (VU8 state) =>
              if 1 <? state then Err (PlainError "invalid administrative state") else Ok (state =? 1)
          | Some _ => Err (PlainError "invalid administrative state")
          end
      end
  end.

(** The circuit pack of [slot], the first of the snapshot. *)
Definition circuitPackLocked (s : Store W) (slot : Z) : Res MibError bool :=
  match List.find (λ instance, (ClassID_of instance =? CircuitPackClassID) && (u8 (EntityID_of instance) =? slot))
          (Snapshot s) with
  | Some instance => administrativelyLocked s (i_Key instance) CircuitPack_AdministrativeState
  | None => Ok false
  end.

(** [if locked, err = ...; err != nil || locked { return locked, err }] *)
Definition orLocked (r k : Res MibError bool) : Res MibError bool :=
  match r with
  | Err err => Err err
  | Ok true => Ok true
  | Ok false => k
  end.

(** [notificationsSuppressedLocked]. *)
Definition notificationsSuppressed (s : Store W) (key : Key) : Res MibError bool :=
  orLocked (administrativelyLocked s (OnuGClassID, 0) OnuG_AdministrativeState)
  (if key.1 =? CircuitPackClassID then administrativelyLocked s key CircuitPack_AdministrativeState
   else
    parent ←
      (if isEthernetPerformanceClass key.1 then
         entityID ← resolveEthernetPerformanceUNI s key;
         Ok (PhysicalPathTerminationPointEthernetUniClassID, entityID)
       else if (key.1 =? GemPortNetworkCtpPerformanceMonitoringHistoryDataClassID) ||
               (key.1 =? FecPerformanceMonitoringHistoryDataClassID) then
         owner ← arcOwner s key;
         Ok (default key owner)
       else Ok key);
    if (parent.1 =? PhysicalPathTerminationPointEthernetUniClassID) || (parent.1 =? UniGClassID) then
      orLocked (administrativelyLocked s (PhysicalPathTerminationPointEthernetUniClassID, parent.2)
                  PhysicalPathTerminationPointEthernetUni_AdministrativeState)
      (orLocked (administrativelyLocked s (UniGClassID, parent.2) UniG_AdministrativeState)
      (circuitPackLocked s (u8 (Z.shiftr parent.2 8))))
    else if parent.1 =? AniGClassID then circuitPackLocked s (u8 (Z.shiftr parent.2 8))
    else Ok false).

(** ** Attribute value changes *)

Definition baselineAVCPayloadLimit : Z := 30.

Record avcAttribute := mkAvc { av_name : string; av_mask : Z; av_size : Z; av_value : Value }.

Definition avcLimit (device : Z) : Z :=
  if device =? BaselineIdent then baselineAVCPayloadLimit
  else Z.of_nat MaxExtendedLength - 12 - 4.

(** The loop that collects the changed AVC attributes in the order of their indices. *)
Definition avcOrdered (definitions : gmap Z AttributeDefinition) (changed : AttributeValueMap) (limit : Z)
    : Res MibError (list avcAttribute) :=
  foldM_res (λ ordered index,
      if index =? 0 then Ok ordered
      else match definitions !! index with
      | None => Ok ordered
      | Some definition =>
          match changed !! Name definition with
          | None => Ok ordered
          | Some value =>
              if negb (Avc definition) then Ok ordered
              else if IsTableAttribute definition || (Size definition <=? 0) || (limit <? Size definition)
              then Err (PlainError "AVC attribute cannot fit")
              else Ok (ordered ++ [mkAvc (Name definition) (Mask definition) (Size definition) value])
          end
      end) (GetAttributeDefinitionMapKeys definitions) [].

(** The frames built so far, and the message being filled: its attributes, its mask and the
    octets used. *)
Record avcState := mkAvcState {
  as_frames : list (list Z); as_current : AttributeValueMap; as_mask : Z; as_used : Z
}.

Definition avcFlush (key : Key) (device : Z) (st : avcState) : Res MibError avcState :=
  frame ← serializeAutonomous device 0 AttributeValueChangeType key
            (AttributeValueChangeMsg (as_mask st) (as_current st));
  Ok (mkAvcState (as_frames st ++ [frame]) ∅ 0 0).

Definition avcAdd (key : Key) (device limit : Z) (st : avcState) (attribute : avcAttribute)
    : Res MibError avcState :=
  st ← (if negb (as_used st =? 0) && (limit <? as_used st + av_size attribute)
        then avcFlush key device st else Ok st);
  Ok (mkAvcState (as_frames st) (<[av_name attribute := av_value attribute]> (as_current st))
        (Z.lor (as_mask st) (av_mask attribute)) (as_used st + av_size attribute)).

Definition avcFrames (key : Key) (device limit : Z) (ordered : list avcAttribute)
    : Res MibError (list (list Z)) :=
  st ← foldM_res (avcAdd key device limit) ordered (mkAvcState [] ∅ 0 0);
  st ← (if bool_decide (as_current st = ∅) then Ok st else avcFlush key device st);
  Ok (as_frames st).

(** [attributeValueChangeFramesLocked]. *)
Definition attributeValueChangeFrames e (key : Key) (changed : AttributeValueMap) (device : Z)
    : Res MibError (list (list Z)) :=
  _ ← validateDeviceIdentifier device;
  if bool_decide (changed = ∅) then Ok []
  else
    let device := notificationDevice e device in
    suppressed ← notificationsSuppressed (mibOf e) key;
    if suppressed : bool then Ok []
    else
      entity ← loadEntity key;
      ordered ← avcOrdered (AttributeDefinitions (definition entity)) changed (avcLimit device);
      match ordered with
      | [] => Ok []
      | _ => avcFrames key device (avcLimit device) ordered
      end.

(** [notifyAttributeChangeLocked]; [NotifyAttributeChange] is the call under the lock. *)
Definition NotifyAttributeChange e (key : Key) (attributes : AttributeValueMap) (device : Z)
    : Res MibError (list (list Z)) * Engine W Sink :=
  match validateCapabilityAVC e key attributes with
  | Err err => (Err err, e)
  | Ok _ =>
      let '(r, mib) := UpdateAutonomous (mibOf e) key attributes in
      let e := setMib e mib in
      match r with
      | Err err => (Err err, e)
      | Ok changed => (attributeValueChangeFrames e key changed device, e)
      end
  end.

(** ** Alarm reporting control: the timers *)

(** [pollARCKeyLocked]. *)
Definition pollARCKey e (now : Z) (key : Key) (device : Z)
    : Res MibError (list (list Z)) * Engine W Sink :=
  match arcConfiguration (mibOf e) key with
  | Err err => (Err err, e)
  | Ok None | Ok (Some (false, _)) => (Ok [], set_arcFreeSince e (delete key (arcFreeSince e)))
  | Ok (Some (true, interval)) =>
      if arcGroupHasAlarm e key then (Ok [], set_arcFreeSince e (delete key (arcFreeSince e)))
      else
        let since := default now (arcFreeSince e !! key) in
        let e := set_arcFreeSince e (<[key := since]> (arcFreeSince e)) in
        if (interval =? 255) || (now <? since + interval * minute) then (Ok [], e)
        else
          NotifyAttributeChange (set_arcFreeSince e (delete key (arcFreeSince e))) key
            {[arcAttribute := VU8 0]} device
  end.

(** The loop of [PollARC] over the sorted keys; an error drops the frames. *)
Fixpoint pollARCKeys e (now : Z) (keys : list Key) (device : Z) (frames : list (list Z))
    : Res MibError (list (list Z)) * Engine W Sink :=
  match keys with
  | [] => (Ok frames, e)
  | key :: keys =>
      match pollARCKey e now key device with
      | (Err err, e) => (Err err, e)
      | (Ok generated, e) => pollARCKeys e now keys device (frames ++ generated)
      end
  end.

Definition PollARC e (now : Z) (device : Z) : Res MibError (list (list Z)) * Engine W Sink :=
  match validateDeviceIdentifier device with
  | Err err => (Err err, e)
  | Ok _ => pollARCKeys e now (sortedKeys pair_le (arcFreeSince e)) (notificationDevice e device) []
  end.

(** ** Alarms *)

(** [nextAlarmSequenceLocked]. *)
Definition nextAlarmSequence (sequence : Z) : Z :=
  if (sequence =? 0) || (sequence =? 255) then 1 else u8 (sequence + 1).

(** The checks of [notifyAlarmLocked] on its arguments. *)
Definition validateAlarm e (key : Key) (bitmap : list Z) (device : Z) : Res MibError unit :=
  _ ← validateDeviceIdentifier device;
  _ ← guard_err (negb (Exists_ (mibOf e) key)) (PlainError "alarm target does not exist");
  entity ← loadEntity key;
  _ ← validateAlarmBitmap (Alarms (definition entity)) bitmap;
  validateCapabilityAlarm e key.1 bitmap.

(** The switch of [notifyAlarmLocked]: suppressed, and the ARC owner when ARC is enabled. *)
Definition alarmReporting (s : Store W) (key : Key) : Res MibError (bool * option Key) :=
  suppressed ← notificationsSuppressed s key;
  owner ← arcOwner s key;
  match owner with
  | None => Ok (suppressed, None)
  | Some owner =>
      configuration ← arcConfiguration s owner;
      Ok (suppressed, match configuration with Some (true, _) => Some owner | _ => None end)
  end.

Definition recordAlarm e (key : Key) (bitmap : list Z) : Engine W Sink :=
  if bool_decide (bitmap = zeroBitmap) then set_alarms e (delete key (alarms e))
  else set_alarms e (<[key := bitmap]> (alarms e)).

(** [notifyAlarmLocked]; [NotifyAlarm] is the call under the lock.  [Ok None] is no frame. *)
Definition NotifyAlarm e (now : Z) (key : Key) (bitmap : list Z) (device : Z)
    : Res MibError (option (list Z)) * Engine W Sink :=
  match validateAlarm e key bitmap device with
  | Err err => (Err err, e)
  | Ok _ =>
      let device := notificationDevice e device in
      let previous := alarms e !! key in
      if bool_decide (default zeroBitmap previous = bitmap) then (Ok None, e)
      else
        let recorded := recordAlarm e key bitmap in
        match alarmReporting (mibOf e) key with
        | Err err => (Err err, recorded)
        | Ok (suppressed, Some owner) =>
            let e :=
              if arcGroupHasAlarm recorded owner
              then set_arcFreeSince recorded (delete owner (arcFreeSince e))
              else set_arcFreeSince recorded
                     (<[owner := default now (arcFreeSince e !! owner)]> (arcFreeSince e)) in
            match pollARCKey e now owner device with
            | (Err err, e) => (Err err, e)
            | (Ok [], e) => (Ok None, e)
            | (Ok (frame :: _), e) => (Ok (if suppressed then None else Some frame), e)
            end
        | Ok (true, None) => (Ok None, recorded)
        | Ok (false, None) =>
            let sequence := nextAlarmSequence (alarmSequence e) in
            match serializeAutonomous device 0 AlarmNotificationType key
                    (AlarmNotificationMsg bitmap sequence) with
            | Err err => (Err err, set_alarms recorded (partial_alter (λ _, previous) key (alarms recorded)))
            | Ok frame => (Ok (Some frame), set_alarmSequence recorded sequence)
            end
        end
  end.

Definition setAlarmBit (bitmap : list Z) (alarm : Z) (active : bool) : list Z :=
  let octet := Z.to_nat (alarm / 8) in
  let bit := Z.shiftl 1 (7 - alarm mod 8) in
  <[octet := if active then Z.lor (nth8 bitmap octet) bit else Z.ldiff (nth8 bitmap octet) bit]> bitmap.

Definition NotifyAlarmBit e (now : Z) (key : Key) (alarm : Z) (active : bool) (device : Z)
    : Res MibError (option (list Z)) * Engine W Sink :=
  if AlarmBitmapSize <=? alarm then (Err (PlainError "alarm bit is outside the bitmap"), e)
  else NotifyAlarm e now key (setAlarmBit (default zeroBitmap (alarms e !! key)) alarm active) device.

(** ** Test results *)

(** [Engine.TestResult]; no frame is the empty list. *)
Definition TestResult_ e (transactionID : Z) (key : Key) (payload : list Z) (device : Z)
    : Res MibError (list Z) :=
  _ ← validateDeviceIdentifier device;
  let device := notificationDevice e device in
  _ ← guard_err (negb (Exists_ (mibOf e) key)) (PlainError "test target does not exist");
  entity ← loadEntity key;
  _ ← guard_err (negb (SupportsMsgType entity TestMsg)) (PlainError "managed entity does not support Test");
  suppressed ← (if transactionID =? 0 then notificationsSuppressed (mibOf e) key else Ok false);
  if suppressed : bool then Ok []
  else serializeAutonomous device transactionID TestResultType key (TestResultNotification payload).
End notify.
