(* ===== verification/Upload.v ===== *)
(** * Engine: MIB upload, alarm upload and table transfers

    The request handlers of src/internal/engine/engine.go that page data to the OLT: MIB upload
    and upload next with [buildUpload], get all alarms and its next, get next with
    [prepareTableGet], and set table.  A handler answers the decoded request and returns the
    new state; one call reads the clock once. *)

From S2P Require Import Prelude Maps MeTypes MeLib Mib MeNames Semantics Store.
From S2P Require Import Model Frames Codec Software Engine PmRules Notify.

Definition extendedMibUploadEntryOverhead : Z := 2 + 2 + 2 + 2.
Definition extendedAlarmEntryLength : Z := 2 + 2 + 28.
Definition maxExtendedAlarmsPerResponse : nat :=
  Z.to_nat ((Z.of_nat MaxExtendedLength - 10 - 4) / extendedAlarmEntryLength).

Definition MaxAttributeMibUploadNextBaselineLength : Z := Z.of_nat MaxBaselineLength - 14 - 8.
Definition MaxManagedEntityMibUploadNextExtendedLength : Z := Z.of_nat MaxExtendedLength - 10 - 4.
Definition MaxAttributeGetNextBaselineLength : nat := MaxBaselineLength - 11 - 8.
Definition MaxAttributeGetNextExtendedLength : nat := MaxExtendedLength - 13 - 4.

Definition excludedFromMibUpload (classID : Z) : bool :=
  bool_decide (classID ∈
    [PhysicalPathTerminationPointLctUniClassID; SipConfigPortalClassID; MgcConfigPortalClassID;
     OmciClassID; ManagedEntityMeClassID; AttributeMeClassID; GeneralPurposeBufferClassID]).

(** [strings.Contains]. *)
Fixpoint contains (s sub : string) : bool :=
  String.prefix sub s || match s with EmptyString => false | String _ s => contains s sub end.

Definition isPerformanceMonitoringDefinition (name : string) : bool :=
  contains name "PerformanceMonitoringHistoryData" || contains name "ExtendedPm".

Definition isPerformanceControlBlock (attribute : AttributeDefinition) : bool :=
  bool_decide (Name attribute = "ControlBlock") || String.prefix "ThresholdData" (Name attribute).

Definition IsCounter (attribute : AttributeDefinition) : bool :=
  bool_decide (AttrType attribute = CounterAttributeType).

Section upload.
Context {MR : MapRange}.

(** ** [buildUpload] *)

(** Whether [buildUpload] skips a readable value of the instance. *)
Definition skipsAttribute (performanceMonitoring : bool) (attribute : AttributeDefinition) : bool :=
  negb (SupportsAttributeAccess attribute MeTypes.Read) || IsTableAttribute attribute ||
  IsCounter attribute || (performanceMonitoring && negb (isPerformanceControlBlock attribute)).

Definition attributeLimit (device : Z) : Z :=
  if device =? ExtendedIdent
  then MaxManagedEntityMibUploadNextExtendedLength - extendedMibUploadEntryOverhead
  else MaxAttributeMibUploadNextBaselineLength.

(** The entities built so far, and the one being filled. *)
Record uploadState := mkUploadState {
  us_entities : list ManagedEntity; us_attributes : AttributeValueMap; us_used : Z
}.

Definition uploadFlush (key : Key) (st : uploadState) : Res MibError uploadState :=
  match LoadManagedEntityDefinition key.1 (Some (mkParams key.2 (us_attributes st))) with
  | Err _ => Err (PlainError "load MIB upload entity")
  | Ok entity => Ok (mkUploadState (us_entities st ++ [entity]) ∅ 0)
  end.

Definition uploadAttribute (instance : Instance_) (definitions : gmap Z AttributeDefinition)
    (performanceMonitoring : bool) (limit : Z) (st : uploadState) (index : Z) : Res MibError uploadState :=
  if index =? 0 then Ok st
  else match definitions !! index with
  | None => Ok st
  | Some attribute =>
      match i_Attributes instance !! Name attribute with
      | None => Ok st
      | Some value =>
          if skipsAttribute performanceMonitoring attribute then Ok st
          else
            let size := Size attribute in
            if limit <? size then Ok st
            else
              st ← (if (0 <? us_used st) && (limit <? us_used st + size)
                    then uploadFlush (i_Key instance) st else Ok st);
              Ok (mkUploadState (us_entities st) (<[Name attribute := value]> (us_attributes st))
                    (us_used st + size))
      end
  end.

(** The body of the first loop of [buildUpload]. *)
Definition uploadInstance (limit : Z) (entities : list ManagedEntity) (instance : Instance_)
    : Res MibError (list ManagedEntity) :=
  if excludedFromMibUpload (ClassID_of instance) then Ok entities
  else
    entity ← loadEntity (i_Key instance);
    let definitions := AttributeDefinitions (definition entity) in
    let performanceMonitoring := isPerformanceMonitoringDefinition (DefName (definition entity)) in
    st ← foldM_res (uploadAttribute instance definitions performanceMonitoring limit)
           (GetAttributeDefinitionMapKeys definitions) (mkUploadState entities ∅ 0);
    st ← (if negb (bool_decide (us_attributes st = ∅)) || (us_used st =? 0)
          then uploadFlush (i_Key instance) st else Ok st);
    Ok (us_entities st).

(** The second loop, for the extended message set: entities share a command while they fit. *)
Record packState := mkPack { pk_commands : list uploadCommand; pk_current : uploadCommand; pk_used : Z }.

Definition packEntity (limit : Z) (st : packState) (entity : ManagedEntity) : Res MibError packState :=
  match entitySerializeTo entity MibUploadNextResponseType limit true with
  | Err _ => Err (PlainError "size extended MIB upload ME")
  | Ok bytes =>
      let cost := 2 + Z.of_nat (length bytes) in
      let st :=
        if negb (bool_decide (pk_current st = [])) && (limit <? pk_used st + cost)
        then mkPack (pk_commands st ++ [pk_current st]) [] 0 else st in
      Ok (mkPack (pk_commands st) (pk_current st ++ [entity]) (pk_used st + cost))
  end.

Definition buildUpload (snapshot : list Instance_) (device : Z) : Res MibError (list uploadCommand) :=
  entities ← foldM_res (uploadInstance (attributeLimit device)) snapshot [];
  if negb (device =? ExtendedIdent) then Ok (map (λ entity, [entity]) entities)
  else
    st ← foldM_res (packEntity MaxManagedEntityMibUploadNextExtendedLength) entities (mkPack [] [] 0);
    Ok (if bool_decide (pk_current st = []) then pk_commands st else pk_commands st ++ [pk_current st]).
End upload.

Section handlers.
Context {MR : MapRange} {W Sink : Type}.
Implicit Types e : Engine W Sink.

(** [serialize]. *)
Definition serialize (header : OMCI) (responseType : Z) (key : Key) (response : Message)
    : Res EngineError (list Z) :=
  match encodeMessage (DeviceIdentifier header =? ExtendedIdent) key response with
  | Err _ => Err HandlerError
  | Ok body =>
      match serializeLayers (TransactionID header) responseType (DeviceIdentifier header) body with
      | None => Err HandlerError
      | Some frame => Ok frame
      end
  end.

Definition rawFrame (frame : option (list Z)) : Res EngineError (list Z) :=
  match frame with Some frame => Ok frame | None => Err HandlerError end.

(** ** MIB upload *)

(** [case MibUploadRequestType]. *)
Definition mibUpload e (now : Z) (header : OMCI) (key : Key) : Res EngineError (list Z) * Engine W Sink :=
  match buildUpload (Snapshot (mibOf e)) (DeviceIdentifier header) with
  | Err _ => (Err HandlerError, e)
  | Ok commands =>
      (serialize header MibUploadResponseType key (MibUploadResponse (u16 (Z.of_nat (length commands)))),
       set_upload e (<[DeviceIdentifier header := mkUpload commands (now + mibUploadTimeout)]> (upload e)))
  end.

(** [case MibUploadNextRequestType]; a command always holds an entity. *)
Definition mibUploadNext e (now : Z) (header : OMCI) (key : Key) (sequence : Z)
    : Res EngineError (list Z) * Engine W Sink :=
  let device := DeviceIdentifier header in
  let empty e := (rawFrame (serializeEmptyMibUploadNext header key.1 key.2), e) in
  match upload e !! device with
  | None => empty e
  | Some session =>
      if negb (now <? up_expires session) then empty (set_upload e (delete device (upload e)))
      else
        match up_commands session !! Z.to_nat sequence with
        | None => empty e
        | Some command =>
            let e := set_upload e (<[device := refreshedUpload now session]> (upload e)) in
            match command with
            | [] => (Err HandlerError, e)
            | reported :: additional =>
                (serialize header MibUploadNextResponseType key (MibUploadNextResponse reported additional), e)
            end
        end
  end.

(** ** Alarm upload *)

Definition alarm_le (a b : Alarm) : Prop := pair_le (a_Key a) (a_Key b).
#[export] Instance alarm_le_dec a b : Decision (alarm_le a b).
Proof. unfold alarm_le. apply _. Defined.

(** The alarms a session reports, sorted: mode 1 leaves out those under ARC. *)
Definition reportedAlarms e (mode : Z) : list Alarm :=
  merge_sort alarm_le
    (map (λ '(key, bitmap), mkAlarm key bitmap)
       (filter (λ '(key, _), ¬ (mode = 1 ∧ arcEnabled (mibOf e) key = true)) (range (alarms e)))).

(** [case GetAllAlarmsRequestType]. *)
Definition getAllAlarms e (now : Z) (header : OMCI) (key : Key) (mode : Z)
    : Res EngineError (list Z) * Engine W Sink :=
  let reported := reportedAlarms e mode in
  let e := set_alarmSequence e 0 in
  (serialize header GetAllAlarmsResponseType key (GetAllAlarmsResponse (u16 (Z.of_nat (length reported)))),
   set_alarmUpload e
     (<[DeviceIdentifier header := mkAlarmUpload reported (now + alarmUploadTimeout)]> (alarmUpload e))).

(** The alarms of a session that the response to [start] carries. *)
Definition alarmPage (device : Z) (alarms : list Alarm) (start : nat) : list Alarm :=
  take (if device =? ExtendedIdent then maxExtendedAlarmsPerResponse else 1%nat) (drop start alarms).

(** [case GetAllAlarmsNextRequestType]. *)
Definition getAllAlarmsNext e (now : Z) (header : OMCI) (key : Key) (sequence : Z)
    : Res EngineError (list Z) * Engine W Sink :=
  let device := DeviceIdentifier header in
  let empty e := (rawFrame (serializeEmptyGetAllAlarmsNext header key.1 key.2), e) in
  match alarmUpload e !! device with
  | None => empty e
  | Some session =>
      if negb (now <? au_expires session) then empty (set_alarmUpload e (delete device (alarmUpload e)))
      else
        match alarmPage device (au_alarms session) (Z.to_nat sequence) with
        | [] => empty e
        | alarm :: additional =>
            (serialize header GetAllAlarmsNextResponseType key (GetAllAlarmsNextResponse alarm additional),
             set_alarmUpload e (<[device := refreshedAlarmUpload now session]> (alarmUpload e)))
        end
  end.

(** ** Tables *)

(** The loop of [prepareTableGet] over the attribute definitions. *)
Fixpoint prepareTables e (requestedMask device : Z) (definitions : list (Z * AttributeDefinition))
    (instance : Instance_) : Res MibError Instance_ * Engine W Sink :=
  match definitions with
  | [] => (Ok instance, e)
  | (index, attribute) :: definitions =>
      if (index =? 0) || (Z.land requestedMask (Mask attribute) =? 0) || negb (IsTableAttribute attribute)
      then prepareTables e requestedMask device definitions instance
      else
        let store rows :=
          prepareTables
            (set_tables e
               (<[(device, ClassID_of instance, EntityID_of instance, Mask attribute) := rows]> (tables e)))
            requestedMask device definitions
            (withAttribute instance (Name attribute) (VU32 (u32 (Z.of_nat (length rows))))) in
        match i_Attributes instance !! Name attribute with
        | None => prepareTables e requestedMask device definitions instance
        | Some (VTable rows) => store (Rows rows)
        | Some (VOctets rows) => store rows
        | Some (VU32 _) => prepareTables e requestedMask device definitions instance
        | Some _ => (Err (PlainError "table attribute has unsupported value type"), e)
        end
  end.

(** [prepareTableGet]: the tables of a get response are kept for get next, and replaced by
    their sizes. *)
Definition prepareTableGet e (instance : Instance_) (requestedMask device : Z)
    : Res MibError Instance_ * Engine W Sink :=
  match loadEntity (i_Key instance) with
  | Err err => (Err err, e)
  | Ok entity =>
      prepareTables e requestedMask device (range (AttributeDefinitions (definition entity))) instance
  end.

(** The block of a table that get next number [sequence] returns. *)
Definition tableBlock (device : Z) (data : list Z) (sequence : Z) : option (list Z) :=
  let limit := if device =? ExtendedIdent then MaxAttributeGetNextExtendedLength
               else MaxAttributeGetNextBaselineLength in
  let offset := (Z.to_nat sequence * limit)%nat in
  if (length data <=? offset)%nat then None else Some (take limit (drop offset data)).

(** The attributes of the get next response: the one whose mask was asked for. *)
Definition blockAttributes (key : Key) (mask : Z) (block : list Z) : Res Z AttributeValueMap :=
  match LoadManagedEntityDefinition key.1 (Some (mkParams key.2 ∅)) with
  | Err code => Err code
  | Ok entity =>
      match List.find (λ '(index, attribute), negb (index =? 0) && (Mask attribute =? mask))
              (range (AttributeDefinitions (definition entity))) with
      | Some (_, attribute) => Ok {[Name attribute := VOctets block]}
      | None => Err AttributeFailure
      end
  end.

(** [case GetNextRequestType]. *)
Definition getNext e (header : OMCI) (key : Key) (mask sequence : Z) : Res EngineError (list Z) :=
  let device := DeviceIdentifier header in
  let '(result, attributes) :=
    match tables e !! (device, key.1, key.2, mask) with
    | None => (ProcessingError, ∅)
    | Some data =>
        match tableBlock device data sequence with
        | None => (ProcessingError, ∅)
        | Some block =>
            match blockAttributes key mask block with
            | Ok attributes => (Success, attributes)
            | Err code => (code, ∅)
            end
        end
    end in
  serialize header GetNextResponseType key (GetNextResponse result mask attributes).

Definition errorOf {A} (r : Res MibError A) : option MibError :=
  match r with Ok _ => None | Err err => Some err end.

(** [case SetTableRequestType]. *)
Definition setTable e (w : W) (header : OMCI) (key : Key) (mask : Z) (attributes : AttributeValueMap)
    : Res EngineError (list Z) * Engine W Sink * W :=
  let '(r, mib, w) := SetTable (mibOf e) w key mask attributes in
  let e := setMib e mib in
  let '(result, _, _) := operationResult (errorOf r) in
  let e := if result =? Success then set_tables e ∅ else e in
  (serialize header SetTableResponseType key (SetTableResponse result), e, w).
End handlers.
