(* ===== verification/Performance.v ===== *)
(** * Engine: performance monitoring

    src/internal/engine/performance.go and the threshold crossing alerts of
    performance_threshold.go.  The four kinds of history (GEM port, FEC, Ethernet, XGS-PON)
    are handled by the same code over different counters, which is written once here, over a
    [counterKind], and instantiated four times. *)

From S2P Require Import Prelude Maps MeTypes MeLib Mib MeNames Semantics Store.
From S2P Require Import Model Frames Codec Software Counters Controllers Engine PmRules Notify.

Definition performanceInterval : Z := 15 * minute.

(** [time.Time.Sub], which saturates. *)
Definition timeSub (a b : Z) : Z := Z.min (a - b) (2 ^ 63 - 1).

(** What the code does differently for each kind of history. *)
Record counterKind (W C : Type) := mkKind {
  ck_monitors : Z → bool;
  ck_source : Controllers W → option (W → Z → option C);
  ck_states : PmState → gmap Key (counterState C);
  ck_setStates : PmState → gmap Key (counterState C) → PmState;
  ck_parent : Store W → Key → Res MibError Z;
  ck_same : Z → Z → bool;
  ck_attributes : Z → Z → C → AttributeValueMap;
  ck_delta : C → C → C;
  ck_zero : C
}.
Arguments mkKind {W C} _ _ _ _ _ _ _ _ _.
Arguments ck_monitors {W C} _.
Arguments ck_source {W C} _.
Arguments ck_states {W C} _.
Arguments ck_setStates {W C} _.
Arguments ck_parent {W C} _.
Arguments ck_same {W C} _.
Arguments ck_attributes {W C} _.
Arguments ck_delta {W C} _.
Arguments ck_zero {W C} _.

(** ** The kinds *)

Section kinds.
Context {MR : MapRange} {W : Type}.

Definition isGEMPerformanceClass (classID : Z) : bool :=
  classID =? GemPortNetworkCtpPerformanceMonitoringHistoryDataClassID.
Definition isFECPerformanceClass (classID : Z) : bool :=
  classID =? FecPerformanceMonitoringHistoryDataClassID.

(** The GEM port of a GEM history: the port identifier of its GEM port network CTP. *)
Definition gemParent (s : Store W) (key : Key) : Res MibError Z :=
  attributes ← getAttributes s (GemPortNetworkCtpClassID, key.2) 0x8000;
  match shortValue attributes GemPortNetworkCtp_PortId with
  | Some portID => if 0x0fff <? portID then Err (PlainError "invalid port ID") else Ok portID
  | None => Err (PlainError "invalid port ID")
  end.

(** The ANI-G of an FEC or XGS-PON history: the one with its entity id. *)
Definition aniParent (s : Store W) (key : Key) : Res MibError Z :=
  if negb (Exists_ s (AniGClassID, key.2)) then Err (PlainError "missing ANI-G") else Ok key.2.

Definition gemKind : counterKind W GEMPortCounters :=
  mkKind isGEMPerformanceClass c_performance performanceState set_performanceState gemParent Z.eqb
    (λ _, gemPerformanceAttributes) deltaGEMCounters noGEMPortCounters.

Definition fecKind : counterKind W FECCounters :=
  mkKind isFECPerformanceClass c_fecPerformance fecPMState set_fecPMState aniParent (λ _ _, true)
    (λ _, fecPerformanceAttributes) deltaFECCounters noFECCounters.

Definition ethernetKind : counterKind W EthernetCounters :=
  mkKind isEthernetPerformanceClass c_ethernetPerformance ethernetPMState set_ethernetPMState
    resolveEthernetPerformanceUNI Z.eqb ethernetPerformanceAttributes deltaEthernetCounters noEthernetCounters.

Definition xgsKind : counterKind W XGSPONCounters :=
  mkKind isXGSPONPerformanceClass c_xgsPerformance xgsPMState set_xgsPMState aniParent (λ _ _, true)
    xgsPerformanceAttributes deltaXGSPONCounters noXGSPONCounters.
End kinds.

Section performance.
Context {MR : MapRange} {W Sink : Type}.
Implicit Types (e : Engine W Sink) (w : W).

Definition setStates {C} (k : counterKind W C) e (states : gmap Key (counterState C)) : Engine W Sink :=
  set_pm e (ck_setStates k (pm e) states).

(** ** Creation *)

(** [prepareGEMPerformanceCreateLocked] and its three siblings. *)
Definition preparePerformanceCreate {C} (k : counterKind W C) e w (key : Key)
    : Res MibError (option (counterState C)) :=
  if Exists_ (mibOf e) key then Ok None
  else match ck_source k (controllers e) with
  | None => Err (result NotSupported)
  | Some read =>
      match ck_parent k (mibOf e) key with
      | Err _ => Err (result ParameterError)
      | Ok parent =>
          match read w parent with
          | None => Err (result ProcessingError)
          | Some baseline => Ok (Some (mkCounterState parent baseline))
          end
      end
  end.

Definition bridgePortHasPerformance (s : Store W) (entityID : Z) : bool :=
  Exists_ s (EthernetFramePerformanceMonitoringHistoryDataDownstreamClassID, entityID) ||
  Exists_ s (EthernetFramePerformanceMonitoringHistoryDataUpstreamClassID, entityID).

Definition bridgePortAssociationChanged (attributes : AttributeValueMap) : bool :=
  bool_decide (is_Some (attributes !! MacBridgePortConfigurationData_TpType)) ||
  bool_decide (is_Some (attributes !! MacBridgePortConfigurationData_TpPointer)).

(** ** Reconciliation with the MIB *)

(** The histories of a kind the MIB holds. *)
Definition activeKeys {C} (k : counterKind W C) (s : Store W) : list Key :=
  map i_Key (filter (λ instance, ck_monitors k (ClassID_of instance) = true) (Snapshot s)).

Fixpoint reconcileKeys {C} (k : counterKind W C) (s : Store W) (read : Z → option C) (keys : list Key)
    (states : gmap Key (counterState C)) : Res MibError unit * gmap Key (counterState C) :=
  match keys with
  | [] => (Ok tt, states)
  | key :: keys =>
      match ck_parent k s key with
      | Err err => (Err err, states)
      | Ok parent =>
          if match states !! key with Some state => ck_same k (ct_parent state) parent | None => false end
          then reconcileKeys k s read keys states
          else match read parent with
               | None => (Err (PlainError "initialize performance counters"), states)
               | Some baseline => reconcileKeys k s read keys (<[key := mkCounterState parent baseline]> states)
               end
      end
  end.

Definition reconcileKind {C} (k : counterKind W C) e w : Res MibError unit * Engine W Sink :=
  match ck_source k (controllers e) with
  | None => (Ok tt, setStates k e ∅)
  | Some read =>
      let keys := activeKeys k (mibOf e) in
      let '(r, states) := reconcileKeys k (mibOf e) (read w) keys (ck_states k (pm e)) in
      match r with
      | Err err => (Err err, setStates k e states)
      | Ok _ => (Ok tt, setStates k e (filter (λ '(key, _), key ∈ keys) states))
      end
  end.

(** [reconcilePerformanceLocked]. *)
Definition reconcilePerformance e w : Res MibError unit * Engine W Sink :=
  match reconcileKind gemKind e w with
  | (Err err, e) => (Err err, e)
  | (Ok _, e) =>
      match reconcileKind fecKind e w with
      | (Err err, e) => (Err err, e)
      | (Ok _, e) =>
          match reconcileKind ethernetKind e w with
          | (Err err, e) => (Err err, e)
          | (Ok _, e) => reconcileKind xgsKind e w
          end
      end
  end.

Definition noPerformance (c : Controllers W) : bool :=
  match c_performance c, c_fecPerformance c, c_ethernetPerformance c, c_xgsPerformance c with
  | None, None, None, None => true
  | _, _, _, _ => false
  end.

(** [state.baseline = baseline] for every key of [baselines]. *)
Definition rebase {C} (states : gmap Key (counterState C)) (baselines : gmap Key C)
    : gmap Key (counterState C) :=
  merge (λ state baseline,
      match baseline with
      | Some baseline => Some (mkCounterState (default 0 (ct_parent <$> state)) baseline)
      | None => state
      end) states baselines.

Definition rebaseKind {C} (k : counterKind W C) e (baselines : gmap Key C) : Engine W Sink :=
  setStates k e (rebase (ck_states k (pm e)) baselines).

(** [performanceSynchronization], also the baselines a poll collects. *)
Record performanceSynchronization := mkSynchronization {
  sy_gem : gmap Key GEMPortCounters;
  sy_fec : gmap Key FECCounters;
  sy_ethernet : gmap Key EthernetCounters;
  sy_xgs : gmap Key XGSPONCounters
}.
Definition noSynchronization : performanceSynchronization := mkSynchronization ∅ ∅ ∅ ∅.

Definition rebaseAll e (b : performanceSynchronization) : Engine W Sink :=
  let e := rebaseKind gemKind e (sy_gem b) in
  let e := rebaseKind fecKind e (sy_fec b) in
  let e := rebaseKind ethernetKind e (sy_ethernet b) in
  rebaseKind xgsKind e (sy_xgs b).

(** ** Threshold crossing alerts *)

(** The loop of [evaluatePerformanceTCALocked]: the bitmap and whether it changed. *)
Definition crossThreshold (attributes : AttributeValueMap) (acc : list Z * bool) (r : performanceThresholdRule)
    : Res MibError (list Z * bool) :=
  match performanceCounterValue (attributes !! ru_counter r) with
  | None => Err (PlainError "performance counter has invalid type")
  | Some counter =>
      Ok (if (ru_value r <=? counter) && negb (alarmBit acc.1 (ru_alarm r))
          then (setAlarmBit acc.1 (ru_alarm r) true, true) else acc)
  end.

(** [evaluatePerformanceTCALocked]. *)
Definition evaluatePerformanceTCA e (now : Z) (key : Key) (attributes : AttributeValueMap)
    (rules : list performanceThresholdRule) (device : Z) : Res MibError (option (list Z)) * Engine W Sink :=
  match rules with
  | [] => (Ok None, e)
  | _ =>
      match foldM_res (crossThreshold attributes) rules
              (default zeroBitmap (performanceTCA (pm e) !! key), false) with
      | Err err => (Err err, e)
      | Ok (_, false) => (Ok None, e)
      | Ok (bitmap, true) =>
          match NotifyAlarm e now key bitmap device with
          | (Err err, e) => (Err err, e)
          | (Ok None, e) => (Ok None, e)
          | (Ok (Some frame), e) =>
              (Ok (Some frame), set_pm e (set_performanceTCA (pm e) (<[key := bitmap]> (performanceTCA (pm e)))))
          end
      end
  end.

(** [clearPerformanceTCAKeyLocked]. *)
Definition clearPerformanceTCAKey e (key : Key) : Engine W Sink :=
  match performanceTCA (pm e) !! key with
  | None => e
  | Some _ =>
      set_alarms (set_pm e (set_performanceTCA (pm e) (delete key (performanceTCA (pm e)))))
        (delete key (alarms e))
  end.

(** [clearAllPerformanceTCAsLocked]. *)
Definition clearAllPerformanceTCAs e : Engine W Sink :=
  set_pm (set_alarms e (filter (λ '(key, _), performanceTCA (pm e) !! key = None) (alarms e)))
    (set_performanceTCA (pm e) ∅).

(** The loop of [clearPerformanceTCANotificationsLocked]. *)
Fixpoint clearTCAs e (now device : Z) (keys : list Key) (frames : list (list Z))
    : list (list Z) * option MibError * Engine W Sink :=
  match keys with
  | [] => (frames, None, e)
  | key :: keys =>
      match NotifyAlarm e now key zeroBitmap device with
      | (Err err, e) => (frames, Some err, e)
      | (Ok frame, e) =>
          clearTCAs (set_pm e (set_performanceTCA (pm e) (delete key (performanceTCA (pm e))))) now device keys
            (frames ++ option_list frame)
      end
  end.

(** [clearPerformanceTCANotificationsLocked]. *)
Definition clearPerformanceTCANotifications e (now device : Z)
    : list (list Z) * option MibError * Engine W Sink :=
  clearTCAs e now device (sortedKeys pair_le (performanceTCA (pm e))) [].

(** ** Polling *)

Record pollAcc := mkPollAcc {
  pa_updates : gmap Key AttributeValueMap;
  pa_evaluations : gmap Key (AttributeValueMap * list performanceThresholdRule)
}.

(** The body of the loop over the histories of a kind. *)
Definition pollState {C} (k : counterKind W C) (s : Store W) (read : Z → option C) (intervals intervalEnd : Z)
    (acc : pollAcc * gmap Key C) (entry : Key * counterState C) : Res MibError (pollAcc * gmap Key C) :=
  let '(key, state) := entry in
  rules ← performanceThresholds s key;
  if (intervals =? 0) && bool_decide (length rules = 0%nat) then Ok acc
  else
    match read (ct_parent state) with
    | None => Err (PlainError "read performance counters")
    | Some current =>
        let attributes :=
          if intervals <=? 1 then ck_attributes k key.1 intervalEnd (ck_delta k (ct_baseline state) current)
          else ck_attributes k key.1 intervalEnd (ck_zero k) in
        let updates := if negb (intervals =? 0) then <[key := attributes]> (pa_updates acc.1)
                       else pa_updates acc.1 in
        let baselines := if negb (intervals =? 0) then <[key := current]> acc.2 else acc.2 in
        let evaluations :=
          if (intervals <=? 1) && negb (bool_decide (length rules = 0%nat))
          then <[key := (attributes, rules)]> (pa_evaluations acc.1) else pa_evaluations acc.1 in
        Ok (mkPollAcc updates evaluations, baselines)
    end.

Definition pollKind {C} (k : counterKind W C) e w (intervals intervalEnd : Z) (acc : pollAcc)
    : Res MibError (pollAcc * gmap Key C) :=
  match ck_source k (controllers e) with
  | None => Ok (acc, ∅)
  | Some read =>
      foldM_res (pollState k (mibOf e) (read w) intervals intervalEnd) (range (ck_states k (pm e))) (acc, ∅)
  end.

(** The four loops of [pollPerformanceLocked]. *)
Definition pollKinds e w (intervals intervalEnd : Z) : Res MibError (pollAcc * performanceSynchronization) :=
  gem ← pollKind gemKind e w intervals intervalEnd (mkPollAcc ∅ ∅);
  fec ← pollKind fecKind e w intervals intervalEnd gem.1;
  ethernet ← pollKind ethernetKind e w intervals intervalEnd fec.1;
  xgs ← pollKind xgsKind e w intervals intervalEnd ethernet.1;
  Ok (xgs.1, mkSynchronization gem.2 fec.2 ethernet.2 xgs.2).

(** The loop over the evaluations, in the order of their keys. *)
Fixpoint evaluateTCAs e (now device : Z)
    (evaluations : gmap Key (AttributeValueMap * list performanceThresholdRule)) (keys : list Key)
    (frames : list (list Z)) : list (list Z) * option MibError * Engine W Sink :=
  match keys with
  | [] => (frames, None, e)
  | key :: keys =>
      let '(attributes, rules) := default (∅, []) (evaluations !! key) in
      match evaluatePerformanceTCA e now key attributes rules device with
      | (Err err, e) => (frames, Some err, e)
      | (Ok frame, e) => evaluateTCAs e now device evaluations keys (frames ++ option_list frame)
      end
  end.

(** The end of completed intervals: the histories updated, the baselines moved. *)
Definition completeIntervals e (intervals intervalEnd next : Z) (acc : pollAcc)
    (baselines : performanceSynchronization) : Res MibError unit * Engine W Sink :=
  if intervals =? 0 then (Ok tt, e)
  else
    match UpdateAutonomousBatch (mibOf e) (pa_updates acc) with
    | (Err err, _) => (Err err, e)
    | (Ok _, mib) =>
        let e := rebaseAll (setMib e mib) baselines in
        (Ok tt, set_pm e (set_performanceNext (set_performanceIntervalEnd (pm e) intervalEnd)
                            (Some (next + intervals * performanceInterval))))
    end.

(** The intervals completed at [now]. *)
Definition completedIntervals (now next : Z) : Z :=
  if now <? next then 0 else timeSub now next / performanceInterval + 1.

(** [pollPerformanceLocked]: the frames, and the error it returns with them. *)
Definition pollPerformance e w (now device : Z) : list (list Z) * option MibError * Engine W Sink :=
  if noPerformance (controllers e) then ([], None, e)
  else
    match reconcilePerformance e w with
    | (Err err, e) => ([], Some err, e)
    | (Ok _, e) =>
        match performanceNext (pm e) with
        | None => ([], None, set_pm e (set_performanceNext (pm e) (Some (now + performanceInterval))))
        | Some next =>
            let intervals := completedIntervals now next in
            let intervalEnd := u8 (performanceIntervalEnd (pm e) + intervals) in
            match pollKinds e w intervals intervalEnd with
            | Err err => ([], Some err, e)
            | Ok (acc, baselines) =>
                match completeIntervals e intervals intervalEnd next acc baselines with
                | (Err err, e) => ([], Some err, e)
                | (Ok _, e) =>
                    match evaluateTCAs e now device (pa_evaluations acc)
                            (sortedKeys pair_le (pa_evaluations acc)) [] with
                    | (frames, Some err, e) => (frames, Some err, e)
                    | (frames, None, e) =>
                        if intervals =? 0 then (frames, None, e)
                        else
                          match clearPerformanceTCANotifications e now device with
                          | (_, Some err, e) => (frames, Some err, e)
                          | (clears, None, e) => (frames ++ clears, None, e)
                          end
                    end
                end
            end
        end
    end.

Definition PollPerformance e w (now device : Z) : list (list Z) * option MibError * Engine W Sink :=
  match validateDeviceIdentifier device with
  | Err err => ([], Some err, e)
  | Ok _ => pollPerformance e w now (notificationDevice e device)
  end.

(** [SetPerformanceController]. *)
Definition SetPerformanceController e (source : Controllers W) : Engine W Sink :=
  let c := controllers e in
  let e := set_controllers e
    (mkControllers (c_controller c) (c_performance source) (c_fecPerformance source)
       (c_ethernetPerformance source) (c_xgsPerformance source) (c_multicast c) (c_multicastPreview c)) in
  let e := clearAllPerformanceTCAs e in
  set_pm e noPm.

(** ** Current data *)

Definition currentDataSize (classID mask : Z) : Z :=
  match LoadManagedEntityDefinition classID (Some (mkParams 0 ∅)) with
  | Err _ => 0
  | Ok entity =>
      fold_left (λ size '(index, attribute),
          if negb (index =? 0) && negb (Z.land mask (Mask attribute) =? 0) then size + Size attribute else size)
        (range (AttributeDefinitions (definition entity))) 0
  end.

(** The counters of a history since its baseline. *)
Definition currentValues {C} (k : counterKind W C) e w (key : Key) : Res MibError AttributeValueMap :=
  match ck_states k (pm e) !! key with
  | None => Err (result UnknownInstance)
  | Some state =>
      match (read ← ck_source k (controllers e); read w (ct_parent state)) with
      | None => Err (result ProcessingError)
      | Some current =>
          Ok (ck_attributes k key.1 (performanceIntervalEnd (pm e)) (ck_delta k (ct_baseline state) current))
      end
  end.

Definition monitored {C} (k : counterKind W C) e (classID : Z) : bool :=
  ck_monitors k classID && match ck_source k (controllers e) with Some _ => true | None => false end.

(** [getCurrentPerformanceLocked]; what it returns is what [Get] returns. *)
Definition getCurrentPerformance e w (key : Key) (mask : Z)
    : Res MibError Instance_ * option MibError * Engine W Sink :=
  if negb (monitored gemKind e key.1 || monitored fecKind e key.1 || monitored ethernetKind e key.1 ||
           monitored xgsKind e key.1)
  then (Err (result NotSupported), None, e)
  else if 25 <? currentDataSize key.1 mask then (Err (result ParameterError), None, e)
  else
    match reconcilePerformance e w with
    | (Err _, e) => (Err (result ProcessingError), None, e)
    | (Ok _, e) =>
        match Get (mibOf e) key mask with
        | (Err err, getErr) => (Err err, getErr, e)
        | (Ok instance, getErr) =>
            match (if ck_monitors (@gemKind MR W) key.1 then currentValues gemKind e w key
                   else if ck_monitors (@fecKind W) key.1 then currentValues fecKind e w key
                   else if ck_monitors (@ethernetKind MR W) key.1 then currentValues ethernetKind e w key
                   else currentValues xgsKind e w key) with
            | Err err => (Err err, None, e)
            | Ok values =>
                (Ok (mkInstance (i_Key instance)
                       (map_imap (λ name value, Some (default value (values !! name))) (i_Attributes instance))
                       (i_Origin instance)), getErr, e)
            end
        end
    end.

(** ** Time synchronization *)

Definition sampleKind {C} (k : counterKind W C) e w : Res MibError (gmap Key C) :=
  match ck_source k (controllers e) with
  | None => Ok ∅
  | Some read =>
      foldM_res (λ baselines '(key, state),
          match read w (ct_parent state) with
          | None => Err (PlainError "synchronize performance counters")
          | Some current => Ok (<[key := current]> baselines)
          end) (range (ck_states k (pm e))) ∅
  end.

(** [preparePerformanceSynchronizationLocked]. *)
Definition preparePerformanceSynchronization e w
    : Res MibError performanceSynchronization * Engine W Sink :=
  if noPerformance (controllers e) then (Ok noSynchronization, e)
  else
    match reconcilePerformance e w with
    | (Err err, e) => (Err err, e)
    | (Ok _, e) =>
        (gem ← sampleKind gemKind e w;
         fec ← sampleKind fecKind e w;
         ethernet ← sampleKind ethernetKind e w;
         xgs ← sampleKind xgsKind e w;
         Ok (mkSynchronization gem fec ethernet xgs), e)
    end.

Definition zeroUpdates {C} (k : counterKind W C) (baselines : gmap Key C) : gmap Key AttributeValueMap :=
  map_imap (λ (key : Key) _, Some (ck_attributes k key.1 0 (ck_zero k))) baselines.

(** [commitPerformanceSynchronizationLocked]: the later loops overwrite, which the order of the
    unions says. *)
Definition commitPerformanceSynchronization e (now : Z) (b : performanceSynchronization)
    : Res MibError unit * Engine W Sink :=
  let updates := zeroUpdates xgsKind (sy_xgs b) ∪ (zeroUpdates ethernetKind (sy_ethernet b) ∪
                 (zeroUpdates fecKind (sy_fec b) ∪ zeroUpdates gemKind (sy_gem b))) in
  match UpdateAutonomousBatch (mibOf e) updates with
  | (Err err, _) => (Err err, e)
  | (Ok _, mib) =>
      let e := rebaseAll (setMib e mib) b in
      (Ok tt, set_pm e (set_performanceNext (set_performanceIntervalEnd (pm e) 0)
                          (Some (now + performanceInterval))))
  end.
End performance.
