(* ===== verification/OpticalAlarms.v ===== *)
(** * Engine: optical samples and bit error rates

    src/internal/engine/optical.go: the alarms of ANI-G from the optical power samples, with
    hysteresis, and from the bit error rate; and from arc.go what follows a Set
    ([afterSetLocked]). *)

From S2P Require Import Prelude GoStd Maps MeTypes MeLib Mib MeNames Semantics Store.
From S2P Require Import Model Frames Codec Software Optics Controllers Engine PmRules Notify.

Definition aniLowReceiveAlarm : Z := 0.
Definition aniHighReceiveAlarm : Z := 1.
Definition aniSignalFailAlarm : Z := 2.
Definition aniSignalDegradeAlarm : Z := 3.
Definition aniLowTransmitAlarm : Z := 4.
Definition aniHighTransmitAlarm : Z := 5.
Definition aniLaserBiasAlarm : Z := 6.

Definition opticalHysteresis : Z := 250.

Definition internalRXLowAlarm : Z := 1.
Definition internalRXLowClear : Z := 3.
Definition internalRXHighAlarm : Z := 0x3124.
Definition internalRXHighClear : Z := 0x2710.
Definition internalTXLowAlarm : Z := 0.
Definition internalTXLowClear : Z := 0.
Definition internalTXHighAlarm : Z := 0xffff.
Definition internalTXHighClear : Z := 0xffff.
Definition internalBiasHighAlarm : Z := 0xa605.
Definition internalBiasHighClear : Z := 0x9c40.
Definition gponDownstreamBitRate : Z := 2488320000.

(** ** Conditions *)

Definition lowPowerAlarm (active : bool) (value threshold : Z) : bool :=
  if active then value <? threshold + opticalHysteresis else value <? threshold.
Definition highPowerAlarm (active : bool) (value threshold : Z) : bool :=
  if active then threshold - opticalHysteresis <? value else threshold <? value.
Definition lowRawAlarm (active : bool) (value alarm clear : Z) : bool :=
  if active then value <? clear else value <? alarm.
Definition highRawAlarm (active : bool) (value alarm clear : Z) : bool :=
  if active then clear <? value else alarm <? value.

(** [int8(code)]. *)
Definition int8 (code : Z) : Z := if code <? 128 then code else code - 256.

Definition lowReceiveAlarm (active : bool) (sample : Sample) (levels : ANILevels) (code : Z) : bool :=
  if code =? 0xff then lowRawAlarm active (sm_ReceivePower sample) internalRXLowAlarm internalRXLowClear
  else lowPowerAlarm active (lv_ReceiveDBm levels) (- code * 250).
Definition highReceiveAlarm (active : bool) (sample : Sample) (levels : ANILevels) (code : Z) : bool :=
  if code =? 0xff then highRawAlarm active (sm_ReceivePower sample) internalRXHighAlarm internalRXHighClear
  else highPowerAlarm active (lv_ReceiveDBm levels) (- code * 250).
Definition lowTransmitAlarm (active : bool) (sample : Sample) (levels : ANILevels) (code : Z) : bool :=
  if code =? 0x81 then lowRawAlarm active (sm_TransmitPower sample) internalTXLowAlarm internalTXLowClear
  else lowPowerAlarm active (lv_TransmitDBm levels) (int8 code * 250).
Definition highTransmitAlarm (active : bool) (sample : Sample) (levels : ANILevels) (code : Z) : bool :=
  if code =? 0x81 then highRawAlarm active (sm_TransmitPower sample) internalTXHighAlarm internalTXHighClear
  else highPowerAlarm active (lv_TransmitDBm levels) (int8 code * 250).

(** [alarmCondition] and [setAlarmCondition] are the bit operations of notifications.go. *)
Definition alarmCondition (bitmap : list Z) (alarm : Z) : bool := alarmBit bitmap alarm.
Definition setAlarmCondition (bitmap : list Z) (alarm : Z) (active : bool) : list Z :=
  setAlarmBit bitmap alarm active.

(** ** Bit error rates *)

Definition isHexDigit (c : Z) : bool :=
  ((48 <=? c) && (c <=? 57)) || ((97 <=? c) && (c <=? 102)) || ((65 <=? c) && (c <=? 70)).

(** [validBootID]: the shape of a UUID. *)
Definition validBootID (value : string) : bool :=
  let octets := bytesOf value in
  (length octets =? 36)%nat &&
  forallb (λ index, nth8 octets index =? 45) [8; 13; 18; 23]%nat &&
  forallb (λ index, bool_decide (index ∈ [8; 13; 18; 23]%nat) || isHexDigit (nth8 octets index)) (seq 0 36).

Definition validateBERSample (sample : BERSample) : Res MibError unit :=
  _ ← guard_err (be_Sequence sample =? 0) (PlainError "BER sample sequence is zero");
  _ ← guard_err (be_IntervalMS sample =? 0) (PlainError "BER sample interval is zero");
  guard_err (negb (validBootID (be_BootID sample))) (PlainError "BER sample boot ID is invalid").

(** [berThresholdExceeded]; [None] is the panic of a division by zero. *)
Definition berThresholdExceeded (sample : BERSample) (exponent : Z) : option bool :=
  let scale := Nat.iter (Z.to_nat exponent) (λ scale, u64 (scale * 10)) 1000 in
  if scale =? 0 then None
  else
    let windowBits := u64 (gponDownstreamBitRate * be_IntervalMS sample) in
    let minimumBIP := windowBits / scale in
    let minimumBIP := if negb (windowBits mod scale =? 0) then u64 (minimumBIP + 1) else minimumBIP in
    Some (minimumBIP <=? be_BIPCount sample).

Record aniOpticalConfiguration := mkOpticalConfiguration {
  oc_lowerReceive : Z;
  oc_upperReceive : Z;
  oc_lowerTransmit : Z;
  oc_upperTransmit : Z
}.

Section optical.
Context {MR : MapRange} {W Sink : Type}.
Implicit Types e : Engine W Sink.

(** [aniOpticalConfigurationLocked]. *)
Definition aniOpticalConfigurationOf (s : Store W) (key : Key) : Res MibError aniOpticalConfiguration :=
  attributes ← getAttributes s key 0x0033;
  let read name :=
    match octetValue attributes name with
    | Some value => Ok value
    | None => Err (PlainError "ANI-G threshold is missing")
    end in
  lowerReceive ← read AniG_LowerOpticalThreshold;
  upperReceive ← read AniG_UpperOpticalThreshold;
  lowerTransmit ← read AniG_LowerTransmitPowerThreshold;
  upperTransmit ← read AniG_UpperTransmitPowerThreshold;
  Ok (mkOpticalConfiguration lowerReceive upperReceive lowerTransmit upperTransmit).

(** The five alarms of one sample. *)
Definition opticalBitmap (configuration : aniOpticalConfiguration) (sample : Sample) (bitmap : list Z) : list Z :=
  let levels := ANI sample in
  let set alarm condition bitmap := setAlarmCondition bitmap alarm (condition (alarmCondition bitmap alarm)) in
  let bitmap := set aniLowReceiveAlarm
    (λ active, lowReceiveAlarm active sample levels (oc_lowerReceive configuration)) bitmap in
  let bitmap := set aniHighReceiveAlarm
    (λ active, highReceiveAlarm active sample levels (oc_upperReceive configuration)) bitmap in
  let bitmap := set aniLowTransmitAlarm
    (λ active, lowTransmitAlarm active sample levels (oc_lowerTransmit configuration)) bitmap in
  let bitmap := set aniHighTransmitAlarm
    (λ active, highTransmitAlarm active sample levels (oc_upperTransmit configuration)) bitmap in
  set aniLaserBiasAlarm
    (λ active, highRawAlarm active (sm_LaserBiasCurrent sample) internalBiasHighAlarm internalBiasHighClear) bitmap.

(** [evaluateOpticalSampleLocked]. *)
Definition evaluateOpticalSample e (now : Z) (key : Key) (sample : Sample) (device : Z)
    : Res MibError (list (list Z)) * Engine W Sink :=
  let levels := ANI sample in
  match NotifyAttributeChange e key
          (list_to_map [(AniG_OpticalSignalLevel, VU16 (lv_OpticalSignalLevel levels));
                        (AniG_TransmitOpticalLevel, VU16 (lv_TransmitOpticalLevel levels))]) device with
  | (Err err, e) => (Err err, e)
  | (Ok frames, e) =>
      match aniOpticalConfigurationOf (mibOf e) key with
      | Err err => (Err err, e)
      | Ok configuration =>
          let bitmap := opticalBitmap configuration sample (default zeroBitmap (alarms e !! key)) in
          match NotifyAlarm e now key bitmap device with
          | (Err err, e) => (Err err, e)
          | (Ok frame, e) => (Ok (frames ++ option_list frame), e)
          end
      end
  end.

Definition NotifyOpticalSample e (now : Z) (key : Key) (sample : Sample) (device : Z)
    : Res MibError (list (list Z)) * Engine W Sink :=
  match validateDeviceIdentifier device with
  | Err err => (Err err, e)
  | Ok _ =>
      let device := notificationDevice e device in
      if negb (key.1 =? AniGClassID) then (Err (PlainError "optical sample target is not ANI-G"), e)
      else evaluateOpticalSample (set_opticalSample e (<[key := sample]> (opticalSample e))) now key sample device
  end.

(** [evaluateBERSampleLocked]; the error of a division by zero stands for the panic. *)
Definition evaluateBERSample e (now : Z) (key : Key) (sample : BERSample) (device : Z)
    : Res MibError (list (list Z)) * Engine W Sink :=
  match getAttributes (mibOf e) key 0x0600 with
  | Err err => (Err err, e)
  | Ok attributes =>
      match octetValue attributes AniG_SignalFailThreshold, octetValue attributes AniG_SignalDegradeThreshold with
      | Some sf, Some sd =>
          match berThresholdExceeded sample sf, berThresholdExceeded sample sd with
          | Some fail, Some degrade =>
              let bitmap := default zeroBitmap (alarms e !! key) in
              let bitmap := setAlarmCondition bitmap aniSignalFailAlarm fail in
              let bitmap := setAlarmCondition bitmap aniSignalDegradeAlarm degrade in
              match NotifyAlarm e now key bitmap device with
              | (Err err, e) => (Err err, e)
              | (Ok frame, e) => (Ok (option_list frame), e)
              end
          | _, _ => (Err (PlainError "integer divide by zero"), e)
          end
      | _, _ => (Err (PlainError "ANI-G BER thresholds are missing"), e)
      end
  end.

Definition NotifyBERSample e (now : Z) (key : Key) (sample : BERSample) (device : Z)
    : Res MibError (list (list Z)) * Engine W Sink :=
  match validateDeviceIdentifier device with
  | Err err => (Err err, e)
  | Ok _ =>
      let device := notificationDevice e device in
      if negb (key.1 =? AniGClassID) then (Err (PlainError "BER sample target is not ANI-G"), e)
      else
        match validateBERSample sample with
        | Err err => (Err err, e)
        | Ok _ =>
            if match berSample e !! key with
               | Some previous => bool_decide (be_BootID sample = be_BootID previous) &&
                                  (be_Sequence sample <=? be_Sequence previous)
               | None => false
               end
            then (Err (PlainError "BER sample sequence is not newer"), e)
            else
              match evaluateBERSample e now key sample device with
              | (Err err, e) => (Err err, e)
              | (Ok frames, e) => (Ok frames, set_berSample e (<[key := sample]> (berSample e)))
              end
        end
  end.

(** ** After a Set *)

Definition present (attributes : AttributeValueMap) (name : string) : bool :=
  bool_decide (is_Some (attributes !! name)).

Definition berConfigurationChanged (attributes : AttributeValueMap) : bool :=
  present attributes AniG_SignalFailThreshold || present attributes AniG_SignalDegradeThreshold.

Definition opticalConfigurationChanged (attributes : AttributeValueMap) : bool :=
  existsb (present attributes)
    [AniG_LowerOpticalThreshold; AniG_UpperOpticalThreshold; AniG_LowerTransmitPowerThreshold;
     AniG_UpperTransmitPowerThreshold; arcAttribute; arcIntervalAttribute].

(** The first part of [afterSetLocked]: the problem-free timer of a changed ARC configuration. *)
Definition restartARC e (now : Z) (key : Key) : Res MibError unit * Engine W Sink :=
  match arcConfiguration (mibOf e) key with
  | Err err => (Err err, e)
  | Ok (Some (true, _)) =>
      (Ok tt,
       if arcGroupHasAlarm e key then set_arcFreeSince e (delete key (arcFreeSince e))
       else set_arcFreeSince e (<[key := default now (arcFreeSince e !! key)]> (arcFreeSince e)))
  | Ok _ => (Ok tt, set_arcFreeSince e (delete key (arcFreeSince e)))
  end.

(** A step of [afterSetLocked] that adds frames when [condition] holds. *)
Definition generate (condition : bool) (step : Engine W Sink → Res MibError (list (list Z)) * Engine W Sink)
    (r : Res MibError (list (list Z)) * Engine W Sink) : Res MibError (list (list Z)) * Engine W Sink :=
  match r with
  | (Ok frames, e) =>
      if condition then
        match step e with
        | (Ok generated, e) => (Ok (frames ++ generated), e)
        | (Err err, e) => (Err err, e)
        end
      else (Ok frames, e)
  | (Err err, e) => (Err err, e)
  end.

(** [afterSetLocked]. *)
Definition afterSet e (now : Z) (key : Key) (attributes : AttributeValueMap) (device : Z)
    : Res MibError (list (list Z)) * Engine W Sink :=
  let arcChanged := present attributes arcAttribute || present attributes arcIntervalAttribute in
  match (if arcChanged then restartARC e now key else (Ok tt, e)) with
  | (Err err, e) => (Err err, e)
  | (Ok _, e) =>
      let r := (Ok [], e) in
      let r := match opticalSample e !! key with
               | Some sample => generate (opticalConfigurationChanged attributes)
                                  (λ e, evaluateOpticalSample e now key sample device) r
               | None => r
               end in
      let r := match berSample e !! key with
               | Some sample => generate (berConfigurationChanged attributes)
                                  (λ e, evaluateBERSample e now key sample device) r
               | None => r
               end in
      generate arcChanged (λ e, pollARCKey e now key device) r
  end.
End optical.
