(* ===== verification/RuntimeState.v ===== *)
(** * Engine: the runtime state that survives a restart

    src/internal/engine/runtime_state.go: the document of the alarms, the ARC timers, the bit
    error samples and the performance histories, its export and its restoration.  The four
    kinds of history are handled by the same code over different counters, which is written
    once, over a [runtimeKind].  The fingerprint of the MIB is the SHA-256 of the JSON text of a
    filtered snapshot: the text and its digest are the parameter [mibDigest]. *)

From S2P Require Import Prelude Maps MeTypes MeLib Mib MeNames Semantics Store.
From S2P Require Import Model Frames Codec Software Counters Controllers Engine PmRules Notify.
From S2P Require Import Performance OpticalAlarms.

Definition RuntimeStateVersion : Z := 2.

(** ** The document *)

Record RuntimeAlarm := mkRuntimeAlarm { ra_Key : Key; ra_Bitmap : list Z }.

(** [None] is the zero time. *)
Record RuntimeARC := mkRuntimeARC { rr_Key : Key; rr_FreeSince : option Z }.

Record RuntimeBERSample := mkRuntimeBERSample { rb_Key : Key; rb_Sample : BERSample }.

Record RuntimeCounter := mkRuntimeCounter { rc_Name : string; rc_Value : Z }.

(** The records of the four kinds of history: the key, what is monitored, its counters when the
    interval began, and the counters of the history in the MIB. *)
Record RuntimePerformance (C : Type) := mkRuntimePerformance {
  rp_Key : Key;
  rp_Parent : Z;
  rp_Baseline : C;
  rp_History : list RuntimeCounter
}.
Arguments mkRuntimePerformance {C} _ _ _ _.
Arguments rp_Key {C} _.
Arguments rp_Parent {C} _.
Arguments rp_Baseline {C} _.
Arguments rp_History {C} _.

Definition RuntimeGEMPerformance : Type := RuntimePerformance GEMPortCounters.
Definition RuntimeFECPerformance : Type := RuntimePerformance FECCounters.
Definition RuntimeEthernetPerformance : Type := RuntimePerformance EthernetCounters.
Definition RuntimeXGSPerformance : Type := RuntimePerformance XGSPONCounters.

Record RuntimeState := mkRuntimeState {
  rs_Version : Z;
  rs_PONMode : string;
  rs_MIBDataSync : Z;
  rs_MIBFingerprint : string;
  rs_AlarmSequence : Z;
  rs_Alarms : list RuntimeAlarm;
  rs_ARC : list RuntimeARC;
  rs_BERSamples : list RuntimeBERSample;
  rs_PerformanceNext : option Z;
  rs_PerformanceIntervalEnd : Z;
  rs_GEMPerformance : list RuntimeGEMPerformance;
  rs_FECPerformance : list RuntimeFECPerformance;
  rs_EthernetPerformance : list RuntimeEthernetPerformance;
  rs_XGSPerformance : list RuntimeXGSPerformance;
  rs_PerformanceTCA : list RuntimeAlarm
}.

(** [lessRuntimeKey], the order of [sortRuntimeState]. *)
Definition byRuntimeKey {A} (key : A → Key) (a b : A) : Prop := pair_le (key a) (key b).
#[export] Instance byRuntimeKey_dec {A} (key : A → Key) a b : Decision (byRuntimeKey key a b).
Proof. unfold byRuntimeKey. apply _. Defined.

(** The order of the counters of a history. *)
Definition byCounterName (a b : RuntimeCounter) : Prop := string_le (rc_Name a) (rc_Name b).
#[export] Instance byCounterName_dec a b : Decision (byCounterName a b).
Proof. unfold byCounterName. apply _. Defined.

Definition sortRuntimeState (state : RuntimeState) : RuntimeState :=
  mkRuntimeState (rs_Version state) (rs_PONMode state) (rs_MIBDataSync state) (rs_MIBFingerprint state)
    (rs_AlarmSequence state) (merge_sort (byRuntimeKey ra_Key) (rs_Alarms state))
    (merge_sort (byRuntimeKey rr_Key) (rs_ARC state))
    (merge_sort (byRuntimeKey rb_Key) (rs_BERSamples state))
    (rs_PerformanceNext state) (rs_PerformanceIntervalEnd state)
    (merge_sort (byRuntimeKey rp_Key) (rs_GEMPerformance state))
    (merge_sort (byRuntimeKey rp_Key) (rs_FECPerformance state))
    (merge_sort (byRuntimeKey rp_Key) (rs_EthernetPerformance state))
    (merge_sort (byRuntimeKey rp_Key) (rs_XGSPerformance state))
    (merge_sort (byRuntimeKey ra_Key) (rs_PerformanceTCA state)).

(** ** Counter values *)

Definition runtimeUnsigned (value : Value) : option Z :=
  match value with
  | VU8 typed | VU16 typed | VU32 typed | VU64 typed => Some typed
  | _ => None
  end.

Definition runtimeConvertUnsigned (current : Value) (value : Z) : Res MibError Value :=
  match current with
  | VU8 _ => if 0xff <? value then Err (PlainError "value exceeds uint8") else Ok (VU8 value)
  | VU16 _ => if 0xffff <? value then Err (PlainError "value exceeds uint16") else Ok (VU16 value)
  | VU32 _ => if 0xffffffff <? value then Err (PlainError "value exceeds uint32") else Ok (VU32 value)
  | VU64 _ => Ok (VU64 value)
  | _ => Err (PlainError "unsupported current type")
  end.

(** ** Counters that did not fall below a baseline *)

Definition gemCountersAtLeast (current baseline : GEMPortCounters) : bool :=
  (gem_ReceivedGEMFrames baseline <=? gem_ReceivedGEMFrames current) &&
  (gem_ReceivedPayloadBytes baseline <=? gem_ReceivedPayloadBytes current) &&
  (gem_TransmittedGEMFrames baseline <=? gem_TransmittedGEMFrames current) &&
  (gem_TransmittedPayloadBytes baseline <=? gem_TransmittedPayloadBytes current).

Definition fecCountersAtLeast (current baseline : FECCounters) : bool :=
  (fec_CorrectedBytes baseline <=? fec_CorrectedBytes current) &&
  (fec_CorrectedCodeWords baseline <=? fec_CorrectedCodeWords current) &&
  (fec_UncorrectableCodeWords baseline <=? fec_UncorrectableCodeWords current) &&
  (fec_TotalCodeWords baseline <=? fec_TotalCodeWords current) &&
  (fec_FECSeconds baseline <=? fec_FECSeconds current).

Definition xgsCounterValues (value : XGSPONCounters) : list Z :=
  let tc := xgs_TC value in
  let ds := xgs_Downstream value in
  let us := xgs_Upstream value in
  [tc_PSBdHECErrors tc; tc_XGTCHECErrors tc; tc_UnknownProfiles tc;
   tc_TransmittedXGEMFrames tc; tc_FragmentXGEMFrames tc;
   tc_XGEMHECLostWords tc; tc_XGEMKeyErrors tc; tc_XGEMHECErrors tc;
   tc_TransmittedNonIdleBytes tc; tc_ReceivedNonIdleBytes tc;
   tc_LODSEvents tc; tc_LODSRestored tc; tc_ONUReactivationsByLODS tc;
   ds_PLOAMMICErrors ds; ds_PLOAMMessages ds;
   ds_ProfileMessages ds; ds_RangingTimeMessages ds;
   ds_DeactivateONUIDMessages ds; ds_DisableSerialNumberMessages ds;
   ds_RequestRegistrationMessages ds; ds_AssignAllocIDMessages ds;
   ds_KeyControlMessages ds; ds_SleepAllowMessages ds;
   ds_BaselineOMCIMessages ds; ds_ExtendedOMCIMessages ds;
   ds_AssignONUIDMessages ds; ds_OMCIMICErrors ds;
   us_PLOAMMessages us; us_SerialNumberMessages us;
   us_RegistrationMessages us; us_KeyReportMessages us;
   us_AcknowledgeMessages us; us_SleepRequestMessages us].

(** [values[index] >= baseline[index]] for every index of [values]. *)
Definition valuesAtLeast (values baseline : list Z) : bool :=
  forallb (λ index, nth index baseline 0 <=? nth index values 0) (seq 0 (length values)).

Definition xgsCountersAtLeast (current baseline : XGSPONCounters) : bool :=
  sameXGSPONCounterSession current baseline &&
  valuesAtLeast (xgsCounterValues current) (xgsCounterValues baseline).

Definition ethernetDirectionAtLeast (current baseline : EthernetDirectionCounters) : bool :=
  negb ((ed_Frames current <? ed_Frames baseline) || (ed_Octets current <? ed_Octets baseline) ||
        (ed_DropEvents current <? ed_DropEvents baseline) ||
        (ed_BroadcastFrames current <? ed_BroadcastFrames baseline) ||
        (ed_MulticastFrames current <? ed_MulticastFrames baseline) ||
        (ed_CRCErrors current <? ed_CRCErrors baseline) ||
        (ed_BufferOverflows current <? ed_BufferOverflows baseline) ||
        (ed_InternalErrors current <? ed_InternalErrors baseline) ||
        (ed_UndersizeFrames current <? ed_UndersizeFrames baseline) ||
        (ed_Fragments current <? ed_Fragments baseline) ||
        (ed_Jabbers current <? ed_Jabbers baseline) ||
        (ed_OversizeFrames current <? ed_OversizeFrames baseline)) &&
  valuesAtLeast (ed_SizeBuckets current) (ed_SizeBuckets baseline).

Definition ethernetCountersAtLeast (current baseline : EthernetCounters) : bool :=
  ethernetDirectionAtLeast (eth_Received current) (eth_Received baseline) &&
  ethernetDirectionAtLeast (eth_Transmitted current) (eth_Transmitted baseline).

Section history.
Context {MR : MapRange}.

(** ** The history in the MIB *)

Definition writtenAttribute (definition : AttributeDefinition) : bool :=
  SupportsAttributeAccess definition Write || SupportsAttributeAccess definition SetByCreate.

(** One attribute of the loop of [runtimePerformanceHistory]. *)
Definition historyCounter (definitions : gmap Z AttributeDefinition) (acc : list RuntimeCounter)
    (entry : string * Value) : Res MibError (list RuntimeCounter) :=
  let '(name, value) := entry in
  if bool_decide (name = ManagedEntityID) then Ok acc
  else match GetAttributeDefinitionByName definitions name with
  | None => Err (PlainError "attribute")
  | Some definition =>
      if writtenAttribute definition then Ok acc
      else match runtimeUnsigned value with
      | None => Err (PlainError "read-only attribute has unsupported type")
      | Some unsigned => Ok (acc ++ [mkRuntimeCounter name unsigned])
      end
  end.

(** [None] is the instance a Go map returns for a missing key. *)
Definition runtimePerformanceHistory (instance : option Instance_) : Res MibError (list RuntimeCounter) :=
  match instance with
  | None => Err (PlainError "performance ME does not exist")
  | Some instance =>
      entity ← loadEntity (i_Key instance);
      counters ← foldM_res (historyCounter (AttributeDefinitions (definition entity)))
                   (range (i_Attributes instance)) [];
      Ok (merge_sort byCounterName counters)
  end.

(** One counter of the loop of [restoreRuntimeHistory]; the keys of [seen] are those of the
    result. *)
Definition restoreCounter (attributes : AttributeValueMap) (result : AttributeValueMap) (value : RuntimeCounter)
    : Res MibError AttributeValueMap :=
  _ ← guard_err (bool_decide (is_Some (result !! rc_Name value))) (PlainError "duplicate history counter");
  match attributes !! rc_Name value with
  | None => Err (PlainError "unknown history counter")
  | Some current =>
      converted ← runtimeConvertUnsigned current (rc_Value value);
      Ok (<[rc_Name value := converted]> result)
  end.

Definition restoreRuntimeHistory (instance : option Instance_) (values : list RuntimeCounter)
    : Res MibError AttributeValueMap :=
  expected ← runtimePerformanceHistory instance;
  _ ← guard_err (negb (length values =? length expected)%nat) (PlainError "history has the wrong length");
  let attributes := match instance with Some instance => i_Attributes instance | None => ∅ end in
  result ← foldM_res (restoreCounter attributes) values ∅;
  _ ← foldM_res (λ _ value, guard_err (negb (bool_decide (is_Some (result !! rc_Name value))))
                              (PlainError "missing history counter")) expected tt;
  Ok result.

(** ** The fingerprint of the MIB *)

Definition identityAttribute (classID : Z) (name : string) : bool :=
  (classID =? OnuGClassID) && bool_decide (name = OnuG_VendorId ∨ name = OnuG_SerialNumber).

(** One attribute of the inner loop of [runtimeMIBFingerprint]. *)
Definition fingerprintAttribute (classID : Z) (definitions : gmap Z AttributeDefinition)
    (attributes : AttributeValueMap) (entry : string * Value) : Res MibError AttributeValueMap :=
  let '(name, value) := entry in
  let identity := identityAttribute classID name in
  include ← (if negb identity && negb (bool_decide (name = ManagedEntityID)) then
               match GetAttributeDefinitionByName definitions name with
               | None => Err (PlainError "attribute")
               | Some definition => Ok (writtenAttribute definition)
               end
             else Ok identity);
  Ok (if include : bool then <[name := value]> attributes else attributes).

Definition fingerprintInstance (instance : Instance_) : Res MibError Instance_ :=
  entity ← loadEntity (i_Key instance);
  attributes ← foldM_res (fingerprintAttribute (ClassID_of instance) (AttributeDefinitions (definition entity)))
                 (range (i_Attributes instance)) ∅;
  Ok (mkInstance (i_Key instance) attributes (i_Origin instance)).

(** [runtimeMIBFingerprint], without the digest of the encoded snapshot. *)
Definition runtimeMIBDocument (snapshot : list Instance_) : Res MibError (list Instance_) :=
  mapM_res fingerprintInstance snapshot.
End history.

(** The map of a snapshot by key. *)
Definition instancesByKey (snapshot : list Instance_) : gmap Key Instance_ :=
  fold_left (λ instances instance, <[i_Key instance := instance]> instances) snapshot ∅.

(** ** The kinds of history *)

(** What the restoration of a kind checks: whether the monitored entity is the one of the
    history's own entity id, whether the document still names it, and its counters. *)
Record runtimeKind (W C : Type) := mkRuntimeKind {
  rk_kind : counterKind W C;
  rk_ownEntity : bool;
  rk_fresh : Store W → Key → Z → bool;
  rk_atLeast : C → C → bool
}.
Arguments mkRuntimeKind {W C} _ _ _ _.
Arguments rk_kind {W C} _.
Arguments rk_ownEntity {W C} _.
Arguments rk_fresh {W C} _.
Arguments rk_atLeast {W C} _.

Section kinds.
Context {MR : MapRange} {W : Type}.
Implicit Types s : Store W.

Definition freshGEM s (key : Key) (portID : Z) : bool :=
  match getAttributes s (GemPortNetworkCtpClassID, key.2) 0x8000 with
  | Ok attributes => bool_decide (attributes !! GemPortNetworkCtp_PortId = Some (VU16 portID))
  | Err _ => false
  end.

Definition freshANI s (_ : Key) (aniEntityID : Z) : bool := Exists_ s (AniGClassID, aniEntityID).

Definition freshUNI s (key : Key) (uniEntityID : Z) : bool :=
  match resolveEthernetPerformanceUNI s key with
  | Ok resolved => resolved =? uniEntityID
  | Err _ => false
  end.

Definition gemRuntime : runtimeKind W GEMPortCounters := mkRuntimeKind gemKind false freshGEM gemCountersAtLeast.
Definition fecRuntime : runtimeKind W FECCounters := mkRuntimeKind fecKind true freshANI fecCountersAtLeast.
Definition ethernetRuntime : runtimeKind W EthernetCounters :=
  mkRuntimeKind ethernetKind false freshUNI ethernetCountersAtLeast.
Definition xgsRuntime : runtimeKind W XGSPONCounters := mkRuntimeKind xgsKind true freshANI xgsCountersAtLeast.
End kinds.

Section runtime.
Context {MR : MapRange} {W Sink : Type}.
Variable mibDigest : list Instance_ → string.
Implicit Types (e : Engine W Sink) (w : W).

Definition runtimeMIBFingerprint (snapshot : list Instance_) : Res MibError string :=
  filtered ← runtimeMIBDocument snapshot;
  Ok (mibDigest filtered).

(** ** Export *)

(** One history of the loops of [ExportRuntimeState]. *)
Definition exportPerformance {C : Type} (instances : gmap Key Instance_) (entry : Key * counterState C)
    : Res MibError (RuntimePerformance C) :=
  let '(key, value) := entry in
  history ← runtimePerformanceHistory (instances !! key);
  Ok (mkRuntimePerformance key (ct_parent value) (ct_baseline value) history).

Definition exportKind {C} (k : counterKind W C) e (instances : gmap Key Instance_)
    : Res MibError (list (RuntimePerformance C)) :=
  mapM_res (exportPerformance instances) (range (ck_states k (pm e))).

(** [ExportRuntimeState] once the histories are reconciled. *)
Definition exportReconciled e : Res MibError RuntimeState :=
  let snapshot := Snapshot (mibOf e) in
  fingerprint ← runtimeMIBFingerprint snapshot;
  let instances := instancesByKey snapshot in
  gem ← exportKind gemKind e instances;
  fec ← exportKind fecKind e instances;
  ethernet ← exportKind ethernetKind e instances;
  xgs ← exportKind xgsKind e instances;
  Ok (sortRuntimeState
        (mkRuntimeState RuntimeStateVersion (ponMode e) (dataSync (mibOf e)) fingerprint (alarmSequence e)
           (map (λ '(key, bitmap), mkRuntimeAlarm key bitmap) (range (alarms e)))
           (map (λ '(key, since), mkRuntimeARC key (Some since)) (range (arcFreeSince e)))
           (map (λ '(key, sample), mkRuntimeBERSample key sample) (range (berSample e)))
           (performanceNext (pm e)) (performanceIntervalEnd (pm e)) gem fec ethernet xgs
           (map (λ '(key, bitmap), mkRuntimeAlarm key bitmap) (range (performanceTCA (pm e)))))).

Definition ExportRuntimeState e w : Res MibError RuntimeState * Engine W Sink :=
  match reconcilePerformance e w with
  | (Err err, e) => (Err err, e)
  | (Ok _, e) => (exportReconciled e, e)
  end.

(** ** Validation *)

Definition validateRuntimeBERSample e (result : gmap Key BERSample) (value : RuntimeBERSample)
    : Res MibError (gmap Key BERSample) :=
  let key := rb_Key value in
  _ ← guard_err (negb (key.1 =? AniGClassID)) (PlainError "runtime BER sample target is not ANI-G");
  _ ← guard_err (bool_decide (is_Some (result !! key))) (PlainError "duplicate runtime BER sample");
  _ ← guard_err (negb (Exists_ (mibOf e) key)) (PlainError "runtime BER sample target does not exist");
  _ ← validateBERSample (rb_Sample value);
  Ok (<[key := rb_Sample value]> result).

(** [validateRuntimeBERSamplesLocked]. *)
Definition validateRuntimeBERSamples e (values : list RuntimeBERSample) : Res MibError (gmap Key BERSample) :=
  foldM_res (validateRuntimeBERSample e) values ∅.

Definition validateRuntimeAlarm e (result : gmap Key (list Z)) (value : RuntimeAlarm)
    : Res MibError (gmap Key (list Z)) :=
  let key := ra_Key value in
  _ ← guard_err (bool_decide (is_Some (result !! key))) (PlainError "duplicate runtime alarm");
  _ ← guard_err (bool_decide (ra_Bitmap value = zeroBitmap)) (PlainError "runtime alarm has an empty bitmap");
  _ ← guard_err (negb (Exists_ (mibOf e) key)) (PlainError "runtime alarm target does not exist");
  entity ← loadEntity key;
  _ ← validateAlarmBitmap (Alarms (definition entity)) (ra_Bitmap value);
  _ ← validateCapabilityAlarm e key.1 (ra_Bitmap value);
  Ok (<[key := ra_Bitmap value]> result).

(** [validateRuntimeAlarmsLocked]. *)
Definition validateRuntimeAlarms e (values : list RuntimeAlarm) : Res MibError (gmap Key (list Z)) :=
  foldM_res (validateRuntimeAlarm e) values ∅.

Definition validateRuntimeTCA (alarms : gmap Key (list Z)) (result : gmap Key (list Z)) (value : RuntimeAlarm)
    : Res MibError (gmap Key (list Z)) :=
  let key := ra_Key value in
  _ ← guard_err (bool_decide (is_Some (result !! key))) (PlainError "duplicate runtime performance TCA");
  _ ← guard_err (negb (isPerformanceClass key.1)) (PlainError "runtime TCA target is not a performance ME");
  _ ← guard_err (negb (bool_decide (alarms !! key = Some (ra_Bitmap value))) ||
                 bool_decide (ra_Bitmap value = zeroBitmap)) (PlainError "runtime TCA does not match the alarm audit");
  Ok (<[key := ra_Bitmap value]> result).

(** [validateRuntimeTCALocked]. *)
Definition validateRuntimeTCAs (values : list RuntimeAlarm) (alarms : gmap Key (list Z))
    : Res MibError (gmap Key (list Z)) :=
  foldM_res (validateRuntimeTCA alarms) values ∅.

(** [arcGroupHasAlarm] of this file: of a map of alarms that is not the engine's yet. *)
Definition runtimeArcGroupHasAlarm (owner : Key) (alarms : gmap Key (list Z)) e : bool :=
  existsb (λ '(key, bitmap),
      negb (bool_decide (bitmap = zeroBitmap)) &&
      match arcOwner (mibOf e) key with
      | Ok (Some candidate) => bool_decide (candidate = owner)
      | _ => false
      end) (range alarms).

Definition validateRuntimeARC e (now : Z) (alarms : gmap Key (list Z)) (result : gmap Key Z) (value : RuntimeARC)
    : Res MibError (gmap Key Z) :=
  let key := rr_Key value in
  _ ← guard_err (bool_decide (is_Some (result !! key))) (PlainError "duplicate runtime ARC timer");
  match rr_FreeSince value with
  | None => Err (PlainError "runtime ARC timer has invalid start time")
  | Some since =>
      _ ← guard_err (now + minute <? since) (PlainError "runtime ARC timer has invalid start time");
      _ ← match arcConfiguration (mibOf e) key with
          | Ok (Some (true, _)) => Ok tt
          | Ok _ => Err (PlainError "ARC is not enabled")
          | Err err => Err err
          end;
      _ ← guard_err (runtimeArcGroupHasAlarm key alarms e) (PlainError "runtime ARC timer has an active alarm");
      Ok (<[key := since]> result)
  end.

(** [validateRuntimeARCLocked]. *)
Definition validateRuntimeARCs e (now : Z) (values : list RuntimeARC) (alarms : gmap Key (list Z))
    : Res MibError (gmap Key Z) :=
  foldM_res (validateRuntimeARC e now alarms) values ∅.

(** One history of the loops of [validateRuntimePerformanceLocked]: the states of the kind, and
    the histories of all kinds so far. *)
Definition validateRuntimeHistory {C} (k : runtimeKind W C) e w (instances : gmap Key Instance_)
    (acc : gmap Key (counterState C) * gmap Key AttributeValueMap) (value : RuntimePerformance C)
    : Res MibError (gmap Key (counterState C) * gmap Key AttributeValueMap) :=
  let key := rp_Key value in
  _ ← guard_err (negb (ck_monitors (rk_kind k) key.1) || (rk_ownEntity k && negb (rp_Parent value =? key.2)))
        (PlainError "invalid runtime key");
  _ ← guard_err (bool_decide (is_Some (acc.1 !! key))) (PlainError "duplicate runtime key");
  match ck_source (rk_kind k) (controllers e) with
  | None => Err (PlainError "runtime state has no counter backend")
  | Some read =>
      _ ← guard_err (negb (rk_fresh k (mibOf e) key (rp_Parent value))) (PlainError "runtime key is stale");
      match read w (rp_Parent value) with
      | None => Err (PlainError "validate counters")
      | Some current =>
          _ ← guard_err (negb (rk_atLeast k current (rp_Baseline value)))
                (PlainError "counters reset below the saved baseline");
          history ← restoreRuntimeHistory (instances !! key) (rp_History value);
          Ok (<[key := mkCounterState (rp_Parent value) (rp_Baseline value)]> acc.1, <[key := history]> acc.2)
      end
  end.

Definition validateKind {C} (k : runtimeKind W C) e w (instances : gmap Key Instance_)
    (values : list (RuntimePerformance C)) (histories : gmap Key AttributeValueMap)
    : Res MibError (gmap Key (counterState C) * gmap Key AttributeValueMap) :=
  foldM_res (validateRuntimeHistory k e w instances) values (∅, histories).

(** The case of a kind in the last loop of [validateRuntimePerformanceLocked]. *)
Definition missingHistory {C} (k : counterKind W C) e (states : gmap Key (counterState C)) (key : Key) : bool :=
  monitored k e key.1 && bool_decide (states !! key = None).

(** The states [validateRuntimePerformanceLocked] returns, and the histories. *)
Record runtimeHistories := mkRuntimeHistories {
  rh_gem : gmap Key (counterState GEMPortCounters);
  rh_fec : gmap Key (counterState FECCounters);
  rh_ethernet : gmap Key (counterState EthernetCounters);
  rh_xgs : gmap Key (counterState XGSPONCounters);
  rh_histories : gmap Key AttributeValueMap
}.

(** The last loop. *)
Definition validateComplete e (h : runtimeHistories) (instances : gmap Key Instance_) : Res MibError unit :=
  foldM_res (λ _ '(key, _),
    guard_err (missingHistory gemKind e (rh_gem h) key || missingHistory fecKind e (rh_fec h) key ||
               missingHistory ethernetKind e (rh_ethernet h) key || missingHistory xgsKind e (rh_xgs h) key)
      (PlainError "runtime state is missing performance")) (range instances) tt.

(** [validateRuntimePerformanceLocked]. *)
Definition validateRuntimePerformance e w (state : RuntimeState) (instances : gmap Key Instance_)
    : Res MibError runtimeHistories :=
  gem ← validateKind gemRuntime e w instances (rs_GEMPerformance state) ∅;
  fec ← validateKind fecRuntime e w instances (rs_FECPerformance state) gem.2;
  ethernet ← validateKind ethernetRuntime e w instances (rs_EthernetPerformance state) fec.2;
  xgs ← validateKind xgsRuntime e w instances (rs_XGSPerformance state) ethernet.2;
  let h := mkRuntimeHistories gem.1 fec.1 ethernet.1 xgs.1 xgs.2 in
  _ ← validateComplete e h instances;
  Ok h.

(** ** Restoration *)

(** What a document restores. *)
Record restoredRuntime := mkRestored {
  re_alarms : gmap Key (list Z);
  re_tca : gmap Key (list Z);
  re_arc : gmap Key Z;
  re_ber : gmap Key BERSample;
  re_histories : runtimeHistories
}.

(** The validation of [RestoreRuntimeState]. *)
Definition validateRuntimeState e w (now : Z) (state : RuntimeState) : Res MibError restoredRuntime :=
  _ ← guard_err (negb (rs_Version state =? RuntimeStateVersion)) (PlainError "unsupported runtime state version");
  _ ← guard_err (negb (bool_decide (rs_PONMode state = ponMode e))) (PlainError "runtime PON mode does not match");
  _ ← guard_err (negb (rs_MIBDataSync state =? dataSync (mibOf e))) (PlainError "runtime MIB data sync does not match");
  let snapshot := Snapshot (mibOf e) in
  fingerprint ← runtimeMIBFingerprint snapshot;
  _ ← guard_err (negb (bool_decide (rs_MIBFingerprint state = fingerprint)))
        (PlainError "runtime MIB fingerprint does not match");
  alarms ← validateRuntimeAlarms e (rs_Alarms state);
  tca ← validateRuntimeTCAs (rs_PerformanceTCA state) alarms;
  arc ← validateRuntimeARCs e now (rs_ARC state) alarms;
  ber ← validateRuntimeBERSamples e (rs_BERSamples state);
  histories ← validateRuntimePerformance e w state (instancesByKey snapshot);
  Ok (mkRestored alarms tca arc ber histories).

Definition RestoreRuntimeState e w (now : Z) (state : RuntimeState) : Res MibError unit * Engine W Sink :=
  match validateRuntimeState e w now state with
  | Err err => (Err err, e)
  | Ok r =>
      let h := re_histories r in
      match UpdateAutonomousBatch (mibOf e) (rh_histories h) with
      | (Err err, _) => (Err (PlainError "restore performance history"), e)
      | (Ok _, mib) =>
          let e := set_alarms (setMib e mib) (re_alarms r) in
          let e := set_alarmSequence e (rs_AlarmSequence state) in
          let e := set_berSample (set_arcFreeSince e (re_arc r)) (re_ber r) in
          (Ok tt, set_pm e (mkPm (rh_gem h) (rh_fec h) (rh_ethernet h) (rh_xgs h) (re_tca r)
                              (rs_PerformanceNext state) (rs_PerformanceIntervalEnd state)))
      end
  end.
End runtime.
