(* ===== verification/Event.v ===== *)
(** * Platform events

    src/internal/event/event.go: the events a helper reports, and what the engine does with each:
    alarms, attribute value changes, test results, optical and bit error samples, and the reset
    of the session.  An event is what encoding/json makes of its line; the values of the
    attributes of an AVC, which the code decodes itself, are [RawMessage]. *)

From S2P Require Import Prelude Maps GoStd Hex MeTypes MeLib Mib MeNames Semantics Store.
From S2P Require Import Model Frames Codec Software Optics Controllers Engine PmRules Notify Performance OpticalAlarms.

(** ** Data *)

(** A [json.RawMessage] by what its decoders see of it: the text of a number, the bytes of a
    string, an array (its octets, when [[]uint8] takes it), null, and anything else. *)
Inductive RawMessage :=
| RawNumber (literal : list Z)
| RawString (text : list Z)
| RawArray (octets : option (list Z))
| RawNull
| RawOther.

Record Event := mkEvent {
  ev_Type : string;
  ev_ClassID : Z;
  ev_EntityID : Z;
  ev_Format : string;
  ev_AlarmBit : option Z;
  ev_Active : option bool;
  ev_Attributes : gmap string RawMessage;
  ev_TransactionID : Z;
  ev_Payload : list Z;
  ev_Temperature : option Z;
  ev_SupplyVoltage : option Z;
  ev_LaserBiasCurrent : option Z;
  ev_TransmitPower : option Z;
  ev_ReceivePower : option Z;
  ev_Sequence : option Z;
  ev_BIPCount : option Z;
  ev_IntervalMS : option Z;
  ev_BootID : option string
}.

(** An error is of the event, or of the engine. *)
Inductive EventError := EventFault (detail : string) | EngineFault (error : MibError).

(** ** Numbers *)

(** [strconv.ParseUint(text, 10, bits)]; without bits they are 64, and there are at most 64. *)
Definition parseDigit (value : option Z) (octet : Z) : option Z :=
  match value with
  | Some value => if (48 <=? octet) && (octet <=? 57) then Some (value * 10 + (octet - 48)) else None
  | None => None
  end.
Definition digitsValue (text : list Z) : option Z :=
  if bool_decide (text = []) then None else fold_left parseDigit text (Some 0).
Definition numberBits (bits : Z) : Z := if bits =? 0 then 64 else bits.

Definition ParseUint (text : list Z) (bits : Z) : option Z :=
  match digitsValue text with
  | None => None
  | Some value =>
      if 64 <? numberBits bits then None else if value <? 2 ^ numberBits bits then Some value else None
  end.

(** [strconv.ParseInt(text, 10, bits)]. *)
Definition ParseInt (text : list Z) (bits : Z) : option Z :=
  let '(negative, digits) :=
    match text with
    | 45 :: digits => (true, digits)
    | 43 :: digits => (false, digits)
    | _ => (false, text)
    end in
  match digitsValue digits with
  | None => None
  | Some value =>
      let limit := 2 ^ (numberBits bits - 1) in
      if 64 <? numberBits bits then None
      else if negative then (if value <=? limit then Some (- value) else None)
      else if value <? limit then Some value else None
  end.

(** ** Attributes *)

Definition decodeHex (value : list Z) : Res EventError (list Z) :=
  let value := TrimSpace value in
  if negb (length value mod 2 =? 0)%nat then Err (EventFault "hex value has odd length")
  else match hexDecodeString value with
       | Some octets => Ok octets
       | None => Err (EventFault "invalid hexadecimal digit")
       end.

Section event.
Context {MR : MapRange} {W Sink : Type}.

(** The number branch of [decodeAttribute]: [null] decodes to the empty number. *)
Definition decodeNumber (definition : AttributeDefinition) (literal : list Z) : Res EventError Value :=
  let bits := Size definition * 8 in
  let parsed :=
    if bool_decide (AttrType definition = SignedIntegerAttributeType)
    then (λ signed, u64 signed) <$> ParseInt literal bits
    else ParseUint literal bits in
  match parsed with
  | None => Err (EventFault "number")
  | Some value =>
      let size := Size definition in
      if size =? 1 then Ok (VU8 (u8 value))
      else if size =? 2 then Ok (VU16 (u16 value))
      else if size =? 4 then Ok (VU32 (u32 value))
      else if size =? 8 then Ok (VU64 value)
      else Err (EventFault "numeric value has unsupported size")
  end.

Definition hexPrefix : list Z := bytesOf "hex:".

Definition decodeText (definition : AttributeDefinition) (text : list Z) : Res EventError Value :=
  value ← (if bool_decide (take 4 text = hexPrefix) then decodeHex (drop 4 text) else Ok text);
  if Size definition <? Z.of_nat (length value) then Err (EventFault "value is too long")
  else Ok (VOctets (value ++ repeat 0 (Z.to_nat (Size definition) - length value))).

Definition decodeAttribute (definition : AttributeDefinition) (raw : RawMessage) : Res EventError Value :=
  if IsTableAttribute definition then Err (EventFault "table attributes are not accepted from the event stream")
  else
    match raw with
    | RawNumber literal => decodeNumber definition literal
    | RawNull => decodeNumber definition []
    | RawString text => decodeText definition text
    | RawArray (Some octets) =>
        if negb (Z.of_nat (length octets) =? Size definition) then Err (EventFault "byte array")
        else Ok (VOctets octets)
    | RawArray None | RawOther => Err (EventFault "expected an unsigned integer, string, or byte array")
    end.

(** The body of the loop of [decodeAttributes]. *)
Definition decodeEntry (definitions : gmap Z AttributeDefinition) (attributes : AttributeValueMap)
    (entry : string * RawMessage) : Res EventError AttributeValueMap :=
  match GetAttributeDefinitionByName definitions entry.1 with
  | None => Err (EventFault "AVC attribute is not defined")
  | Some definition =>
      if Index definition =? 0 then Err (EventFault "AVC attribute is not defined")
      else
        value ← decodeAttribute definition entry.2;
        Ok (<[Name definition := value]> attributes)
  end.

Definition decodeAttributes (event : Event) : Res EventError AttributeValueMap :=
  if bool_decide (ev_Attributes event = ∅) then Err (EventFault "AVC event has no attributes")
  else
    match LoadManagedEntityDefinition (ev_ClassID event) (Some (mkParams (ev_EntityID event) ∅)) with
    | Err _ => Err (EventFault "load managed entity")
    | Ok entity => foldM_res (decodeEntry (AttributeDefinitions (definition entity))) (range (ev_Attributes event)) ∅
    end.

(** ** Dispatch *)

(** [deviceIdentifier], of an ASCII format. *)
Definition deviceIdentifier (event : Event) : Res EventError Z :=
  let format := ToLower (ev_Format event) in
  if bool_decide (format = "") || bool_decide (format = "baseline") then Ok BaselineIdent
  else if bool_decide (format = "extended") then Ok ExtendedIdent
  else Err (EventFault "unsupported platform event format").

Definition engineFrames (r : Res MibError (list (list Z))) : Res EventError (list (list Z)) :=
  match r with Ok frames => Ok frames | Err err => Err (EngineFault err) end.

(** [Dispatch]; the engine reads the clock at [now]. *)
Definition DispatchEvent (event : Event) (e : Engine W Sink) (now : Z)
    : Res EventError (list (list Z)) * Engine W Sink :=
  match deviceIdentifier event with
  | Err err => (Err err, e)
  | Ok device =>
      let key := (ev_ClassID event, ev_EntityID event) in
      let typed name := bool_decide (ev_Type event = name) in
      if typed "omcc-session-reset" then (Ok [], ResetCommunicationSession e)
      else if typed "alarm" then
        match ev_AlarmBit event, ev_Active event with
        | Some alarm, Some active =>
            let '(r, e) := NotifyAlarmBit e now key alarm active device in
            (match r with
             | Err err => Err (EngineFault err)
             | Ok None => Ok []
             | Ok (Some frame) => Ok [frame]
             end, e)
        | _, _ => (Err (EventFault "alarm event requires alarm_bit and active"), e)
        end
      else if typed "avc" then
        match decodeAttributes event with
        | Err err => (Err err, e)
        | Ok attributes =>
            let '(r, e) := NotifyAttributeChange e key attributes device in
            (engineFrames r, e)
        end
      else if typed "test-result" then
        match decodeHex (ev_Payload event) with
        | Err err => (Err err, e)
        | Ok payload =>
            (match TestResult_ e (ev_TransactionID event) key payload device with
             | Err err => Err (EngineFault err)
             | Ok frame => Ok [frame]
             end, e)
        end
      else if typed "optical-sample" then
        match ev_Temperature event, ev_SupplyVoltage event, ev_LaserBiasCurrent event, ev_TransmitPower event,
              ev_ReceivePower event with
        | Some temperature, Some voltage, Some bias, Some transmit, Some receive =>
            let '(r, e) := NotifyOpticalSample e now key (mkSample temperature voltage bias transmit receive) device in
            (engineFrames r, e)
        | _, _, _, _, _ => (Err (EventFault "optical sample requires all five diagnostics fields"), e)
        end
      else if typed "ber-sample" then
        match ev_Sequence event, ev_BIPCount event, ev_IntervalMS event, ev_BootID event with
        | Some sequence, Some bipCount, Some intervalMS, Some bootID =>
            let '(r, e) := NotifyBERSample e now key (mkBERSample sequence bipCount intervalMS bootID) device in
            (engineFrames r, e)
        | _, _, _, _ => (Err (EventFault "BER sample requires sequence, bip_count, interval_ms and boot_id"), e)
        end
      else (Err (EventFault "unsupported platform event type"), e)
  end.
End event.
