(* ===== verification/Onu3.v ===== *)
(** * Engine: ONU3-G status snapshots

    src/internal/engine/onu3.go: the Snap and Reset actions over the ring of status records
    the ONU3-G instance holds. *)

From S2P Require Import Prelude Maps MeTypes MeLib Mib MeNames Semantics Store.
From S2P Require Import Model Frames Codec Software Counters Controllers Engine PmRules Notify.

Definition onu3SnapshotStateMask : Z := 0x3d00.

(** [bits.OnesCount8]. *)
Definition OnesCount8 (x : Z) : Z :=
  fold_left (λ n i, n + Z.b2z (Z.testbit x (Z.of_nat i))) (seq 0 8) 0.

(** [onu3AttributeMask]. *)
Definition onu3AttributeMask {MR : MapRange} (name : string) : Z :=
  match GetAttributesDefinitions Onu3GClassID with
  | Err _ => 0xffff
  | Ok definitions =>
      match GetAttributeDefinitionByName definitions name with
      | None => 0xffff
      | Some definition => Mask definition
      end
  end.

(** The loop over the attributes of the Set: whether it asks for a snap, and for a reset. *)
Definition onu3Action {MR : MapRange} (acc : bool * bool) (entry : string * Value) : Res MibError (bool * bool) :=
  let '(name, value) := entry in
  let octet := match value with VU8 _ => true | _ => false end in
  if bool_decide (name = ManagedEntityID) then Ok acc
  else if bool_decide (name = Onu3G_SnapAction) then
    _ ← guard_err (negb octet) (result ParameterError); Ok (true, acc.2)
  else if bool_decide (name = Onu3G_ResetAction) then
    _ ← guard_err (negb octet) (result ParameterError); Ok (acc.1, true)
  else Err (ResultError AttributeFailure 0 (onu3AttributeMask name)).

(** The error that stands for a panic of the code: a failed type assertion, an index out of
    range, a division by zero. *)
Definition panic : MibError := PlainError "panic".

Definition asserted {A} (value : option A) : Res MibError A :=
  match value with Some value => Ok value | None => Err panic end.

Definition tableOf (attributes : AttributeValueMap) (name : string) : option TableRows :=
  match attributes !! name with Some (VTable table) => Some table | _ => None end.

(** The state of the ring: the number of valid records, the next index and the records. *)
Definition resetUpdates : AttributeValueMap :=
  list_to_map
    [(Onu3G_NumberOfValidStatusSnapshots, VU16 0);
     (Onu3G_NextStatusSnapshotIndex, VU16 0);
     (Onu3G_StatusSnapshotRecordTable, VTable (mkRows 0 []));
     (Onu3G_MostRecentStatusSnapshot, VOctets (repeat 0 RecordSize))].

(** The [else] branch of the action: the ring after one more record. *)
Definition snapUpdates (attributes : AttributeValueMap) (valid next : Z) (record : list Z)
    : Res MibError AttributeValueMap :=
  total ← asserted (shortValue attributes Onu3G_TotalNumberOfStatusSnapshots);
  table ← asserted (tableOf attributes Onu3G_StatusSnapshotRecordTable);
  ring ←
    (if valid <? total then Ok (Rows table ++ record, u16 (valid + 1))
     else
       let offset := (Z.to_nat next * RecordSize)%nat in
       if (length (Rows table) <? offset + RecordSize)%nat then Err panic
       else Ok (take offset (Rows table) ++ record ++ drop (offset + RecordSize) (Rows table), valid));
  _ ← guard_err (total =? 0) panic;
  Ok (list_to_map
        [(Onu3G_NumberOfValidStatusSnapshots, VU16 ring.2);
         (Onu3G_NextStatusSnapshotIndex, VU16 (u16 (next + 1) mod total));
         (Onu3G_StatusSnapshotRecordTable, VTable (mkRows ring.2 ring.1));
         (Onu3G_MostRecentStatusSnapshot, VOctets record)]).

Section onu3.
Context {MR : MapRange} {W Sink : Type}.
Implicit Types (e : Engine W Sink) (w : W).

(** [activeAlarmCountLocked]. *)
Definition activeAlarmCount e : Z :=
  saturatingUint16
    (fold_left (λ count '(_, bitmap), fold_left (λ count octet, count + OnesCount8 octet) bitmap count)
       (range (alarms e)) 0).

(** The record a snap takes at [now]. *)
Definition statusRecord e (now : Z) : StatusRecord :=
  mkStatusRecord TriggerOLTSnap (now / 1000000000) (DataSync (mibOf e))
    (saturatingUint16 (Z.of_nat (length (Snapshot (mibOf e))))) (activeAlarmCount e) (extendedSeen e).

(** [setONU3Locked]: the changed attributes to notify. *)
Definition setONU3 e w (now : Z) (key : Key) (attributes : AttributeValueMap)
    : Res MibError AttributeValueMap * Engine W Sink * W :=
  if negb (key.2 =? 0) || negb (Exists_ (mibOf e) key) then (Err (result UnknownInstance), e, w)
  else
    match foldM_res onu3Action (range attributes) (false, false) with
    | Err err => (Err err, e, w)
    | Ok (snap, reset) =>
        if Bool.eqb snap reset then (Err (result ParameterError), e, w)
        else
          match (current ← getAttributes (mibOf e) key onu3SnapshotStateMask;
                 previousValid ← asserted (shortValue current Onu3G_NumberOfValidStatusSnapshots);
                 previousNext ← asserted (shortValue current Onu3G_NextStatusSnapshotIndex);
                 updates ← (if reset : bool then Ok resetUpdates
                            else snapUpdates current previousValid previousNext (Encode (statusRecord e now)));
                 Ok (previousValid, previousNext, updates)) with
          | Err err => (Err err, e, w)
          | Ok (previousValid, previousNext, updates) =>
              match UpdateByCommand (mibOf e) w {[ key := updates ]} with
              | (Err err, mib, w) => (Err err, setMib e mib, w)
              | (Ok _, mib, w) =>
                  let changed name previous :=
                    match shortValue updates name with
                    | Some value => if value =? previous then ∅ else {[ name := VU16 value ]}
                    | None => ∅
                    end in
                  (Ok (changed Onu3G_NumberOfValidStatusSnapshots previousValid ∪
                       changed Onu3G_NextStatusSnapshotIndex previousNext), setMib e mib, w)
              end
          end
    end.
End onu3.
