(* ===== verification/Capability.v ===== *)
(** * Engine: capability entities

    src/internal/engine/capability.go: the OMCI, managed entity and attribute entities (classes
    287 to 289), which describe the implementation, are synthesized from the class tables and
    the store's policy. *)

From S2P Require Import Prelude GoStd Maps MeTypes MeLib Mib MeNames Semantics Store.
From S2P Require Import Model Frames Codec Software Controllers Engine PmRules Notify.

Definition capabilityAttributeIDShift : Z := 5.

Definition capabilityMessageTypes : list Z :=
  [MeTypes.Create; MeTypes.Delete; SetMsg; GetMsg; GetAllAlarms; GetAllAlarmsNext; MibUpload; MibUploadNext;
   MibReset; AlarmNotification; AttributeValueChange; TestMsg; StartSoftwareDownload; DownloadSection;
   EndSoftwareDownload; ActivateSoftware; CommitSoftware; SynchronizeTime; RebootMsg; GetNextMsg; TestResult;
   GetCurrentData; SetTableMsg].

Definition isCapabilityClass (classID : Z) : bool :=
  bool_decide (classID ∈ [OmciClassID; ManagedEntityMeClassID; AttributeMeClassID]).

(** ** Encodings *)

Definition capabilityAttributeID (classID index : Z) : Z :=
  Z.lor (u16 (Z.shiftl classID capabilityAttributeIDShift)) (u16 index).

Definition decodeCapabilityAttributeID (entityID : Z) : Z * Z :=
  (Z.shiftr entityID capabilityAttributeIDShift, Z.land entityID (Z.shiftl 1 capabilityAttributeIDShift - 1)).

(** The numbers of [ClassAccess], [AttributeAccess] and [ClassSupport]. *)
Definition classAccessCode (access : ClassAccess) : Z :=
  match access with UnknownAccess => 0 | CreatedByOnu => 1 | CreatedByOlt => 2 | CreatedByBoth => 3 end.
Definition attributeAccessCode (access : AttributeAccess) : Z :=
  match access with Read => 1 | Write => 2 | SetByCreate => 4 end.
Definition PartiallySupportedCode : Z := 3.

Definition capabilityAttributeAccess (attribute : AttributeDefinition) : Z :=
  fold_left (λ access candidate,
      if SupportsAttributeAccess attribute candidate then Z.lor access (attributeAccessCode candidate) else access)
    [Read; Write; SetByCreate] 0.

Definition capabilityAttributeFormat (attributeType : AttributeType) : Z :=
  match attributeType with
  | PointerAttributeType => 1
  | BitFieldAttributeType => 2
  | SignedIntegerAttributeType => 3
  | UnsignedIntegerAttributeType | CounterAttributeType => 4
  | OctetsAttributeType | StringAttributeType | UnknownAttributeType => 5
  | EnumerationAttributeType => 6
  | TableAttributeType => 7
  end.

(** The lower limit, the upper limit and the bit field. *)
Definition capabilityAttributeBounds (attribute : AttributeDefinition) : Z * Z * Z :=
  let bits := Size attribute * 8 in
  if (bits <=? 0) || (32 <? bits) || IsTableAttribute attribute ||
     bool_decide (AttrType attribute ∈ [OctetsAttributeType; StringAttributeType; UnknownAttributeType])
  then (0, 0, 0)
  else
    let maximum := if bits <? 32 then u32 (Z.shiftl 1 bits) - 1 else 0xffffffff in
    if bool_decide (AttrType attribute = SignedIntegerAttributeType) then
      let upper := Z.shiftr maximum 1 in
      (Z.lxor upper 0xffffffff, upper, 0)
    else if bool_decide (AttrType attribute = BitFieldAttributeType) then (0, maximum, maximum)
    else (0, maximum, 0).

Definition fixedCapabilityName (value : string) : list Z :=
  let octets := take 25 (bytesOf value) in octets ++ repeat 0 (25 - length octets).

Definition tableValue (rows : list Z) (rowSize : Z) : Value :=
  VTable (mkRows (Z.of_nat (length rows) / rowSize) rows).

(** [sort.Search] over the sorted classes finds the class exactly when it is among them. *)
Definition classInSortedList (classes : list Z) (wanted : Z) : bool := bool_decide (wanted ∈ classes).

Definition validateCapabilityClasses (classes : list Z) : bool :=
  forallb (λ classID, classID <? Z.shiftl 1 (16 - capabilityAttributeIDShift)) classes.

Definition shorts (ids : list Z) : list Z := flat_map (put_be 2) ids.

(** ** Actions *)

Definition capabilityActionImplemented (classID : Z) (access : ClassAccess) (messageType : Z) : bool :=
  if bool_decide (messageType ∈ [MeTypes.Create; MeTypes.Delete]) then
    bool_decide (access = CreatedByOlt) || bool_decide (access = CreatedByBoth)
  else if messageType =? TestMsg then classID =? AniGClassID
  else if bool_decide (messageType ∈ [RebootMsg; SynchronizeTime]) then classID =? OnuGClassID
  else if bool_decide (messageType ∈
            [StartSoftwareDownload; DownloadSection; EndSoftwareDownload; ActivateSoftware; CommitSoftware])
  then classID =? SoftwareImageClassID
  else if bool_decide (messageType ∈ [GetAllAlarms; GetAllAlarmsNext; MibUpload; MibUploadNext; MibReset])
  then classID =? OnuDataClassID
  else if messageType =? GetCurrentData then isPerformanceClass classID
  else if messageType =? SetTableMsg then
    bool_decide (classID ∈
      [ExtendedVlanTaggingOperationConfigurationDataClassID; MulticastGemInterworkingTerminationPointClassID;
       MulticastOperationsProfileClassID; MulticastSubscriberConfigInfoClassID])
  else true.

Definition capabilityActions (classID : Z) (d : ManagedEntityDefinition) : Z :=
  fold_left (λ actions messageType,
      if (32 <=? messageType) || negb (bool_decide (messageType ∈ MessageTypes d)) ||
         negb (capabilityActionImplemented classID (DefAccess d) messageType)
      then actions
      else Z.lor actions (Z.shiftl 1 messageType)) capabilityMessageTypes 0.

Definition capabilityDefinition {MR : MapRange} (classID : Z) : Res MibError ManagedEntityDefinition :=
  match LoadManagedEntityDefinition classID (Some (mkParams 0 ∅)) with
  | Err _ => Err (result UnknownEntity)
  | Ok entity => Ok (definition entity)
  end.

Section capability.
Context {MR : MapRange} {W : Type}.
Implicit Types s : Store W.

(** [capabilityAttributeDefinitionsLocked]. *)
Definition capabilityAttributeDefinitions s (classID : Z) (d : ManagedEntityDefinition)
    : list AttributeDefinition :=
  omap (λ index,
      if index =? 0 then None
      else
        attribute ← AttributeDefinitions d !! index;
        match SupportedAttributeMask s classID with
        | Some supported => if Z.land (Mask attribute) supported =? 0 then None else Some attribute
        | None => Some attribute
        end) (GetAttributeDefinitionMapKeys (AttributeDefinitions d)).

(** [capabilityInstanceIDsLocked]. *)
Definition capabilityInstanceIDs s (classID : Z) (classes : list Z) : list Z :=
  shorts
    (if classID =? OmciClassID then [0]
     else if classID =? ManagedEntityMeClassID then classes
     else if classID =? AttributeMeClassID then
       merge_sort Z.le
         (flat_map (λ candidate,
              match capabilityDefinition candidate with
              | Err _ => []
              | Ok d => map (λ attribute, capabilityAttributeID candidate (Index attribute))
                          (capabilityAttributeDefinitions s candidate d)
              end) classes)
     else map EntityID_of (filter (λ instance, ClassID_of instance = classID) (Snapshot s))).

(** The attributes of the entity that describes a class. *)
Definition managedEntityAttributes s (key : Key) (classes : list Z) (d : ManagedEntityDefinition)
    : AttributeValueMap :=
  let classID := key.2 in
  list_to_map
    [(ManagedEntityID, VU16 key.2);
     (ManagedEntityMe_Name, VOctets (fixedCapabilityName (DefName d)));
     (ManagedEntityMe_AttributesTable,
      tableValue (shorts (map (λ attribute, capabilityAttributeID classID (Index attribute))
                            (capabilityAttributeDefinitions s classID d))) 2);
     (ManagedEntityMe_Access, VU8 (classAccessCode (DefAccess d)));
     (ManagedEntityMe_AlarmsTable, tableValue (capabilityAlarmCodes classID) 1);
     (ManagedEntityMe_AvcsTable, tableValue (capabilityAVCIndexes classID) 1);
     (ManagedEntityMe_Actions, VU32 (capabilityActions classID d));
     (ManagedEntityMe_InstancesTable, tableValue (capabilityInstanceIDs s classID classes) 2);
     (ManagedEntityMe_Support, VU8 PartiallySupportedCode)].

(** The attributes of the entity that describes an attribute. *)
Definition attributeAttributes s (key : Key) (classID : Z) (attribute : AttributeDefinition)
    : AttributeValueMap :=
  let '(lower, upper, bitField, codePoints) :=
    match AttributeCapability_ s classID (Name attribute) with
    | Some capability =>
        (LowerLimit capability, UpperLimit capability, BitField capability, shorts (CodePoints capability))
    | None => let '(lower, upper, bitField) := capabilityAttributeBounds attribute in (lower, upper, bitField, [])
    end in
  list_to_map
    [(ManagedEntityID, VU16 key.2);
     (AttributeMe_Name, VOctets (fixedCapabilityName (Name attribute)));
     (AttributeMe_Size, VU16 (u16 (Size attribute)));
     (AttributeMe_Access, VU8 (capabilityAttributeAccess attribute));
     (AttributeMe_Format, VU8 (capabilityAttributeFormat (AttrType attribute)));
     (AttributeMe_LowerLimit, VU32 lower);
     (AttributeMe_UpperLimit, VU32 upper);
     (AttributeMe_BitField, VU32 bitField);
     (AttributeMe_CodePointsTable, tableValue codePoints 2);
     (AttributeMe_Support, VU8 PartiallySupportedCode)].

(** [capabilityInstanceLocked]. *)
Definition capabilityInstance s (key : Key) (classes : list Z) : Res MibError Instance_ :=
  let built attributes := Ok (mkInstance key attributes OriginONU) in
  if key.1 =? OmciClassID then
    if negb (key.2 =? 0) then Err (result UnknownInstance)
    else
      built (list_to_map
        [(ManagedEntityID, VU16 key.2);
         (Omci_MeTypeTable, tableValue (shorts classes) 2);
         (Omci_MessageTypeTable, tableValue capabilityMessageTypes 1)])
  else if key.1 =? ManagedEntityMeClassID then
    if negb (classInSortedList classes key.2) then Err (result UnknownInstance)
    else
      d ← capabilityDefinition key.2;
      built (managedEntityAttributes s key classes d)
  else if key.1 =? AttributeMeClassID then
    let '(classID, attributeIndex) := decodeCapabilityAttributeID key.2 in
    if negb (classInSortedList classes classID) then Err (result UnknownInstance)
    else
      d ← capabilityDefinition classID;
      match List.find (λ candidate, Index candidate =? attributeIndex) (capabilityAttributeDefinitions s classID d) with
      | None => Err (result UnknownInstance)
      | Some attribute => built (attributeAttributes s key classID attribute)
      end
  else built {[ ManagedEntityID := VU16 key.2 ]}.

(** [capabilityInstanceExistsLocked]. *)
Definition capabilityInstanceExists s (key : Key) : bool :=
  isCapabilityClass key.1 &&
  negb (bool_decide (SupportedClasses s = [])) && validateCapabilityClasses (SupportedClasses s) &&
  match capabilityInstance s key (SupportedClasses s) with Ok _ => true | Err _ => false end.

(** [getCapabilityLocked]; [None] leaves the request to the store, [Some] is what [Get] returns. *)
Definition getCapability s (key : Key) (mask : Z) : option (Res MibError Instance_ * option MibError) :=
  if negb (isCapabilityClass key.1) then None
  else
    let classes := SupportedClasses s in
    if bool_decide (classes = []) then None
    else if negb (validateCapabilityClasses classes) then Some (Err (result ProcessingError), None)
    else
      match capabilityInstance s key classes with
      | Err err => Some (Err err, None)
      | Ok instance =>
          match LoadManagedEntityDefinition key.1 (Some (mkParams key.2 ∅)) with
          | Err code => Some (Err (result code), None)
          | Ok entity =>
              let unsupported := Z.ldiff mask (AllowedAttributeMask (definition entity)) in
              let selected :=
                fold_left (λ selected '(index, attribute),
                    if (index =? 0) || (Z.land mask (Mask attribute) =? 0) then selected
                    else match i_Attributes instance !! Name attribute with
                         | Some value => <[Name attribute := value]> selected
                         | None => selected
                         end)
                  (range (AttributeDefinitions (definition entity))) {[ ManagedEntityID := VU16 key.2 ]} in
              Some (Ok (mkInstance key selected OriginONU),
                    if negb (unsupported =? 0) then Some (ResultError AttributeFailure 0 unsupported) else None)
          end
      end.
End capability.
