(* ===== verification/McMonitor.v ===== *)
(** * Engine: multicast status

    src/internal/engine/multicast.go: the live values of multicast subscribers (class 310, the
    time left of allowed previews) and multicast subscriber monitors (class 311), read from the
    multicast controllers when the OLT asks for them. *)

From S2P Require Import Prelude Maps MeTypes MeLib Mib MeNames Semantics Table Store.
From S2P Require Import Model Frames Codec Software Netip McPolicy Controllers Engine PmRules Notify.

Definition multicastSubscriberAllowedPreviewMask : Z := 0x0200.
Definition multicastMonitorCurrentBandwidthMask : Z := 0x4000.
Definition multicastMonitorJoinCounterMask : Z := 0x2000.
Definition multicastMonitorExceededCounterMask : Z := 0x1000.
Definition multicastMonitorIPv4TableMask : Z := 0x0800.
Definition multicastMonitorIPv6TableMask : Z := 0x0400.

(** ** The group tables of a monitor *)

(** [putMonitorIPv4] and [putMonitorIPv6]: the octets of an address field. *)
Definition putMonitorIPv4 (address : Addr) : Res MibError (list Z) :=
  if negb (IsValid address) || IsUnspecified address then Ok (repeat 0 4)
  else if negb (Is4 address) then Err (PlainError "non-IPv4 address")
  else Ok (As4 address).

Definition putMonitorIPv6 (address : Addr) : Res MibError (list Z) :=
  if negb (IsValid address) || IsUnspecified address then Ok (repeat 0 16)
  else if Is4 address then Ok (repeat 0 12 ++ As4 address)
  else if negb (Is6 address) then Err (PlainError "invalid address")
  else Ok (As16 address).

Definition multicastMonitorIPv4Row (group : ActiveGroup) : Res MibError (list Z) :=
  source ← putMonitorIPv4 (ag_Source group);
  address ← putMonitorIPv4 (ag_Group group);
  client ← putMonitorIPv4 (ag_Client group);
  Ok (put_be 2 (ag_ANIVLAN group) ++ source ++ address ++ put_be 4 (ag_ImputedBandwidth group) ++ client ++
      put_be 4 (ag_TimeSinceJoin group) ++ repeat 0 2).

Definition multicastMonitorIPv6Row (group : ActiveGroup) : Res MibError (list Z) :=
  source ← putMonitorIPv6 (ag_Source group);
  address ← putMonitorIPv6 (ag_Group group);
  client ← putMonitorIPv6 (ag_Client group);
  Ok (put_be 2 (ag_ANIVLAN group) ++ source ++ address ++ put_be 4 (ag_ImputedBandwidth group) ++ client ++
      put_be 4 (ag_TimeSinceJoin group)).

(** The loop of [multicastMonitorTables] over the sorted groups. *)
Definition monitorTablesStep (acc : list Z * list Z) (group : ActiveGroup) : Res MibError (list Z * list Z) :=
  let '(ipv4, ipv6) := acc in
  _ ← guard_err (negb (IsValid (ag_Group group)) || negb (IsMulticast (ag_Group group)) ||
                 (4095 <? ag_ANIVLAN group)) (PlainError "multicast monitor contains invalid group");
  if Is4 (ag_Group group) then row ← multicastMonitorIPv4Row group; Ok (ipv4 ++ row, ipv6)
  else row ← multicastMonitorIPv6Row group; Ok (ipv4, ipv6 ++ row).

Definition multicastMonitorTables (groups : list ActiveGroup) : Res MibError (TableRows * TableRows) :=
  tables ← foldM_res monitorTablesStep (merge_sort group_le groups) ([], []);
  Ok (mkRows (Z.of_nat (length tables.1) / 24) tables.1, mkRows (Z.of_nat (length tables.2) / 58) tables.2).

Definition mibAllowedPreviewTimers (timers : list McPolicy.AllowedPreviewTimer) : list Table.AllowedPreviewTimer :=
  map (λ timer, mkTimer (tm_RowKey timer) (tm_Duration timer) (tm_TimeLeft timer)) timers.

Section multicast.
Context {MR : MapRange} {W Sink : Type}.
Implicit Types (e : Engine W Sink) (w : W).

(** [refreshAllowedPreviewLocked]. *)
Definition refreshAllowedPreview e w (entityID : Z)
    : Res MibError (option AllowedPreviewSnapshot) * Engine W Sink * W :=
  match c_multicastPreview (controllers e) with
  | None => (Ok None, e, w)
  | Some status =>
      match status w entityID with
      | None => (Err (result ProcessingError), e, w)
      | Some snapshot =>
          if negb (ps_MIBDataSync snapshot =? DataSync (mibOf e)) then (Ok None, e, w)
          else
            match ExpireAllowedPreviewRows (mibOf e) w (MulticastSubscriberConfigInfoClassID, entityID)
                    (mibAllowedPreviewTimers (ps_Timers snapshot)) with
            | (Err _, mib, w) => (Err (result ProcessingError), setMib e mib, w)
            | (Ok changed, mib, w) =>
                let e := setMib e mib in
                (Ok (Some snapshot), if changed : bool then set_tables e ∅ else e, w)
            end
      end
  end.

(** The loop of [PollMulticast] over the subscribers of the snapshot. *)
Fixpoint pollSubscribers e w (subscribers : list Z) : option MibError * Engine W Sink * W :=
  match subscribers with
  | [] => (None, e, w)
  | entityID :: subscribers =>
      match refreshAllowedPreview e w entityID with
      | (Err err, e, w) => (Some err, e, w)
      | (Ok _, e, w) => pollSubscribers e w subscribers
      end
  end.

Definition PollMulticast e w : option MibError * Engine W Sink * W :=
  match c_multicastPreview (controllers e) with
  | None => (None, e, w)
  | Some _ =>
      pollSubscribers e w
        (map EntityID_of
           (filter (λ instance, ClassID_of instance = MulticastSubscriberConfigInfoClassID) (Snapshot (mibOf e))))
  end.

(** [getAllowedPreviewLocked]; an error comes without an instance. *)
Definition getAllowedPreview e w (instance : Instance_) (mask : Z) : Res MibError Instance_ * Engine W Sink * W :=
  match c_multicastPreview (controllers e) with
  | None => (Ok instance, e, w)
  | Some _ =>
      if Z.land mask multicastSubscriberAllowedPreviewMask =? 0 then (Ok instance, e, w)
      else
        match refreshAllowedPreview e w (EntityID_of instance) with
        | (Err err, e, w) => (Err err, e, w)
        | (Ok None, e, w) => (Ok instance, e, w)
        | (Ok (Some snapshot), e, w) =>
            match Get (mibOf e) (i_Key instance) mask with
            | (Err err, _) | (Ok _, Some err) => (Err err, e, w)
            | (Ok instance, None) =>
                (OverlayAllowedPreviewTimers instance (mibAllowedPreviewTimers (ps_Timers snapshot)), e, w)
            end
        end
  end.

(** [getMulticastMonitorLocked]. *)
Definition getMulticastMonitor e w (instance : Instance_) (mask : Z) : Res MibError Instance_ :=
  match c_multicast (controllers e) with
  | None => Err (result ProcessingError)
  | Some subscriberMonitor =>
      match subscriberMonitor w (EntityID_of instance) with
      | None => Err (result ProcessingError)
      | Some monitor =>
          let asked flag := negb (Z.land mask flag =? 0) in
          let set (flag : bool) name value instance :=
            if flag then withAttribute instance name value else instance in
          let instance := set (asked multicastMonitorCurrentBandwidthMask)
            MulticastSubscriberMonitor_CurrentMulticastBandwidth (VU32 (mo_CurrentBandwidth monitor)) instance in
          let instance := set (asked multicastMonitorJoinCounterMask)
            MulticastSubscriberMonitor_JoinMessagesCounter (VU32 (mo_JoinMessages monitor)) instance in
          let instance := set (asked multicastMonitorExceededCounterMask)
            MulticastSubscriberMonitor_BandwidthExceededCounter (VU32 (mo_BandwidthExceeded monitor)) instance in
          if asked (Z.lor multicastMonitorIPv4TableMask multicastMonitorIPv6TableMask) then
            match multicastMonitorTables (mo_Groups monitor) with
            | Err _ => Err (result ProcessingError)
            | Ok (ipv4, ipv6) =>
                let instance := set (asked multicastMonitorIPv4TableMask) McastMon_Ipv4Groups (VTable ipv4) instance in
                Ok (set (asked multicastMonitorIPv6TableMask) McastMon_Ipv6Groups (VTable ipv6) instance)
            end
          else Ok instance
      end
  end.
End multicast.
