(* ===== verification/Dispatch.v ===== *)
(** * Engine: the requests

    The whole of [dispatch] of src/internal/engine/engine.go with the handlers it calls,
    [handleRawSpecial], [synchronizeTime] and [decodeFailureResponse], and the engine that
    results: an instance of the handler interface of Engine.v.  Decoding the request layer is
    the vendored library's and is a parameter. *)

From S2P Require Import Prelude Maps MeTypes MeLib Mib MeNames Semantics Store.
From S2P Require Import Model Frames Codec Software Optics Controllers Engine PmRules Notify Upload.
From S2P Require Import Performance OpticalAlarms Onu3 Capability McMonitor.

(** ** Decoded requests *)

Inductive Request :=
| CreateRequest (key : Key) (attributes : AttributeValueMap)
| DeleteRequest (key : Key)
| SetRequest (key : Key) (attributes : AttributeValueMap)
| GetRequest (key : Key) (mask : Z)
| MibResetRequest (key : Key)
| MibUploadRequest (key : Key)
| MibUploadNextRequest (key : Key) (sequence : Z)
| GetAllAlarmsRequest (key : Key) (mode : Z)
| GetAllAlarmsNextRequest (key : Key) (sequence : Z)
| GetNextRequest (key : Key) (mask sequence : Z)
| SetTableRequest (key : Key) (mask : Z) (attributes : AttributeValueMap)
| GetCurrentDataRequest (key : Key) (mask : Z)
| StartSoftwareDownloadRequest_ (request : StartSoftwareDownloadRequest)
| DownloadSectionRequest_ (request : DownloadSectionRequest)
| EndSoftwareDownloadRequest_ (request : EndSoftwareDownloadRequest)
| ActivateSoftwareRequest_ (request : ActivateSoftwareRequest)
| CommitSoftwareRequest_ (request : CommitSoftwareRequest)
| OpticalLineSupervisionTestRequest (key : Key) (selectTest generalPurposeBuffer vendorSpecificParameters : Z)
| SynchronizeTimeRequest (key : Key) (year month day hour minute second : Z)
| RebootRequest (key : Key) (condition : Z).

(** The layer the vendored decoder finds behind the header, or its error: an [OmciError] with
    a status code, or another error.  [frameDigest] is SHA-256. *)
Class Decoder := {
  decodeLayer : OMCI → list Z → Res (option Z) Request;
  frameDigest : list Z → list Z
}.

Definition CreateResponseType : Z := Z.lor MeTypes.Create AK.
Definition DeleteResponseType : Z := Z.lor MeTypes.Delete AK.
Definition SetResponseType : Z := Z.lor SetMsg AK.
Definition GetResponseType : Z := Z.lor GetMsg AK.
Definition MibResetResponseType : Z := Z.lor MibReset AK.
Definition GetCurrentDataResponseType : Z := Z.lor GetCurrentData AK.
Definition StartSoftwareDownloadResponseType : Z := Z.lor StartSoftwareDownload AK.
Definition DownloadSectionResponseType : Z := Z.lor DownloadSection AK.
Definition EndSoftwareDownloadResponseType : Z := Z.lor EndSoftwareDownload AK.
Definition ActivateSoftwareResponseType : Z := Z.lor ActivateSoftware AK.
Definition CommitSoftwareResponseType : Z := Z.lor CommitSoftware AK.
Definition TestResponseType : Z := Z.lor TestMsg AK.
Definition SynchronizeTimeResponseType : Z := Z.lor SynchronizeTime AK.
Definition RebootResponseType : Z := Z.lor RebootMsg AK.

(** ** Calendar *)

Definition leapYear (year : Z) : bool :=
  (year mod 4 =? 0) && (negb (year mod 100 =? 0) || (year mod 400 =? 0)).

Definition daysIn (year month : Z) : Z :=
  if month =? 2 then (if leapYear year then 29 else 28)
  else if bool_decide (month ∈ [4; 6; 9; 11]) then 30 else 31.

(** [time.Date] normalizes its fields, so they come back unchanged exactly when they are a
    date and a time of day. *)
Definition validDate (year month day hour minute second : Z) : bool :=
  (1 <=? month) && (month <=? 12) && (1 <=? day) && (day <=? daysIn year month) &&
  (hour <? 24) && (minute <? 60) && (second <? 60).

(** The days from 1970-01-01 to a date, with years counted from March. *)
Definition daysFromCivil (year month day : Z) : Z :=
  let y := if month <=? 2 then year - 1 else year in
  let m := if month <=? 2 then month + 9 else month - 3 in
  365 * y + y / 4 - y / 100 + y / 400 + (153 * m + 2) / 5 + day - 1 - 719468.

(** [time.Date(...)] in UTC, in nanoseconds. *)
Definition dateTime (year month day hour minute second : Z) : Z :=
  (daysFromCivil year month day * 86400 + hour * 3600 + minute * 60 + second) * 1000000000.

Section requests.
Context {MR : MapRange} {W Sink : Type}.
Implicit Types (e : Engine W Sink) (w : W).

Definition outcomeOf : Type := (Res EngineError (list Z) * Engine W Sink * W)%type.

(** ** Create and delete *)

(** What [dispatch] prepares for a performance history before it creates it. *)
Inductive preparedPerformance :=
| NoPerformance
| PreparedGEM (state : counterState Counters.GEMPortCounters)
| PreparedFEC (state : counterState Counters.FECCounters)
| PreparedEthernet (state : counterState Counters.EthernetCounters)
| PreparedXGS (state : counterState Counters.XGSPONCounters).

Definition preparePerformance e w (key : Key) : Res MibError preparedPerformance :=
  let prepared {C} (make : counterState C → preparedPerformance) (state : option (counterState C)) :=
    match state with Some state => make state | None => NoPerformance end in
  if isGEMPerformanceClass key.1 then
    state ← preparePerformanceCreate gemKind e w key; Ok (prepared PreparedGEM state)
  else if isFECPerformanceClass key.1 then
    state ← preparePerformanceCreate fecKind e w key; Ok (prepared PreparedFEC state)
  else if isEthernetPerformanceClass key.1 then
    state ← preparePerformanceCreate ethernetKind e w key; Ok (prepared PreparedEthernet state)
  else if isXGSPONPerformanceClass key.1 then
    state ← preparePerformanceCreate xgsKind e w key; Ok (prepared PreparedXGS state)
  else Ok NoPerformance.

Definition storePrepared e (key : Key) (prepared : preparedPerformance) : Engine W Sink :=
  match prepared with
  | NoPerformance => e
  | PreparedGEM state => setStates gemKind e (<[key := state]> (performanceState (pm e)))
  | PreparedFEC state => setStates fecKind e (<[key := state]> (fecPMState (pm e)))
  | PreparedEthernet state => setStates ethernetKind e (<[key := state]> (ethernetPMState (pm e)))
  | PreparedXGS state => setStates xgsKind e (<[key := state]> (xgsPMState (pm e)))
  end.

(** [case CreateRequestType]. *)
Definition dispatchCreate e w (header : OMCI) (key : Key) (attributes : AttributeValueMap) : outcomeOf :=
  let '(err, prepared, e, w) :=
    match (_ ← (if Exists_ (mibOf e) key then Ok tt
                else validatePerformanceThresholdPointer (mibOf e) key.1 attributes);
           preparePerformance e w key) with
    | Err err => (Some err, NoPerformance, e, w)
    | Ok prepared =>
        let '(r, mib, w) := Store.Create (mibOf e) w key.1 key.2 attributes in
        (errorOf r, prepared, setMib e mib, w)
    end in
  let '(result, failed, _) := operationResult err in
  let e := if result =? Success then storePrepared (set_tables e ∅) key prepared else e in
  (serialize header CreateResponseType key (CreateResponse result failed), e, w).

(** The guards of [case DeleteRequestType] on what still depends on the instance. *)
Definition deleteBlocked (s : Store W) (key : Key) : bool :=
  ((key.1 =? GemPortNetworkCtpClassID) &&
     Exists_ s (GemPortNetworkCtpPerformanceMonitoringHistoryDataClassID, key.2)) ||
  ((key.1 =? MacBridgePortConfigurationDataClassID) && bridgePortHasPerformance s key.2) ||
  ((key.1 =? ThresholdData1ClassID) && performanceThresholdReferenced s key.2).

(** The performance state of a deleted history. *)
Definition dropPerformance e (key : Key) : Engine W Sink :=
  let p := pm e in
  set_pm e (mkPm (delete key (performanceState p)) (delete key (fecPMState p)) (delete key (ethernetPMState p))
              (delete key (xgsPMState p)) (performanceTCA p) (performanceNext p) (performanceIntervalEnd p)).

(** [case DeleteRequestType]. *)
Definition dispatchDelete e w (header : OMCI) (key : Key) : outcomeOf :=
  let '(err, e, w) :=
    if deleteBlocked (mibOf e) key then (Some (result ParameterError), e, w)
    else let '(r, mib, w) := Store.Delete (mibOf e) w key in (errorOf r, setMib e mib, w) in
  let '(result, _, _) := operationResult err in
  let e := if result =? Success
           then clearPerformanceTCAKey (dropPerformance (set_tables e ∅) key) key else e in
  (serialize header DeleteResponseType key (DeleteResponse result), e, w).

(** ** Set and get *)

(** The operation of [case SetRequestType], and the changes an ONU3-G action made. *)
Definition setOperation e w (now : Z) (key : Key) (attributes : AttributeValueMap)
    : option MibError * AttributeValueMap * Engine W Sink * W :=
  if key.1 =? Onu3GClassID then
    match setONU3 e w now key attributes with
    | (Ok changes, e, w) => (None, changes, e, w)
    | (Err err, e, w) => (Some err, ∅, e, w)
    end
  else
    match (if Exists_ (mibOf e) key then validatePerformanceThresholdPointer (mibOf e) key.1 attributes
           else Ok tt) with
    | Err err => (Some err, ∅, e, w)
    | Ok _ =>
        if (key.1 =? MacBridgePortConfigurationDataClassID) && bridgePortHasPerformance (mibOf e) key.2 &&
           bridgePortAssociationChanged attributes
        then (Some (result ParameterError), ∅, e, w)
        else let '(r, mib, w) := Set_ (mibOf e) w key attributes in (errorOf r, ∅, setMib e mib, w)
    end.

(** [case SetRequestType]. *)
Definition dispatchSet e w (now : Z) (header : OMCI) (key : Key) (attributes : AttributeValueMap) : outcomeOf :=
  let '(err, changes, e, w) := setOperation e w now key attributes in
  let '(result, failed, unsupported) := operationResult err in
  let e :=
    if result =? Success then
      let e := set_tables e ∅ in
      let '(notifications, e) :=
        if key.1 =? Onu3GClassID then (attributeValueChangeFrames e key changes (DeviceIdentifier header), e)
        else afterSet e now key attributes (DeviceIdentifier header) in
      match notifications with
      | Err _ => set_pendingError e true
      | Ok frames => set_pending e (pending e ++ frames)
      end
    else e in
  (serialize header SetResponseType key (SetResponse result failed unsupported), e, w).

(** The masks and attributes of a get response: nothing unless the result is success or an
    attribute failure. *)
Definition getAnswer (mask : Z) (r : Res MibError Instance_ * option MibError)
    : Z * Z * option Instance_ * Z * Z :=
  let '(instance, err) :=
    match r with (Ok instance, err) => (Some instance, err) | (Err err, _) => (None, Some err) end in
  let '(result, failed, unsupported) := operationResult err in
  if negb (result =? Success) && negb (result =? AttributeFailure) then (result, 0, None, failed, unsupported)
  else (result, Z.ldiff (Z.ldiff mask unsupported) failed, instance, failed, unsupported).

(** The live values of the multicast classes, over what the store returned. *)
Definition getMulticast e w (key : Key) (mask : Z) (r : Res MibError Instance_ * option MibError)
    : Res MibError Instance_ * option MibError * Engine W Sink * W :=
  match r with
  | (Err err, o) => (Err err, o, e, w)
  | (Ok instance, o) =>
      if (key.1 =? MulticastSubscriberConfigInfoClassID) &&
         negb (Z.land mask multicastSubscriberAllowedPreviewMask =? 0)
      then let '(r, e, w) := getAllowedPreview e w instance mask in
           match r with Ok instance => (Ok instance, o, e, w) | Err err => (Err err, None, e, w) end
      else if (key.1 =? MulticastSubscriberMonitorClassID) && negb (Z.land mask 0x7c00 =? 0)
      then match getMulticastMonitor e w instance mask with
           | Ok instance => (Ok instance, o, e, w)
           | Err err => (Err err, None, e, w)
           end
      else (Ok instance, o, e, w)
  end.

(** [case GetRequestType]. *)
Definition dispatchGet e w (header : OMCI) (key : Key) (mask : Z) : outcomeOf :=
  let r := match getCapability (mibOf e) key mask with Some r => r | None => Get (mibOf e) key mask end in
  let '(r, o, e, w) := getMulticast e w key mask r in
  let '(result, responseMask, instance, failed, unsupported) := getAnswer mask (r, o) in
  let answer attributes :=
    serialize header GetResponseType key (GetResponse result responseMask attributes failed unsupported) in
  match instance with
  | None => (answer ∅, e, w)
  | Some instance =>
      match prepareTableGet e instance mask (DeviceIdentifier header) with
      | (Err _, e) => (Err HandlerError, e, w)
      | (Ok instance, e) => (answer (i_Attributes instance), e, w)
      end
  end.

(** [case GetCurrentDataRequestType]. *)
Definition dispatchGetCurrentData e w (header : OMCI) (key : Key) (mask : Z) : outcomeOf :=
  let '(r, e) := getCurrentPerformance e w key mask in
  let '(result, responseMask, instance, failed, unsupported) := getAnswer mask r in
  (serialize header GetCurrentDataResponseType key
     (GetCurrentDataResponse result responseMask
        (match instance with Some instance => i_Attributes instance | None => ∅ end) failed unsupported), e, w).

(** [case MibResetRequestType]. *)
Definition dispatchMibReset e w (header : OMCI) (key : Key) : outcomeOf :=
  let '(r, mib, w) := Reset_ (mibOf e) w in
  let e := setMib e mib in
  let '(result, _, _) := operationResult (errorOf r) in
  let e :=
    if result =? Success then
      let e := set_tables (set_upload e ∅) ∅ in
      let e := set_berSample (set_arcFreeSince e ∅) ∅ in
      set_pm (clearAllPerformanceTCAs e) noPm
    else e in
  (serialize header MibResetResponseType key (MibResetResponse result), e, w).

(** ** Tests, time and reboot *)

(** [opticalLineSupervision]: the result; the test result itself is queued. *)
Definition opticalLineSupervision e w (header : OMCI) (key : Key)
    (selectTest generalPurposeBuffer vendorSpecificParameters : Z) : Z * Engine W Sink * W :=
  if negb (key.1 =? AniGClassID) then (UnknownEntity, e, w)
  else if negb (Exists_ (mibOf e) key) then (UnknownInstance, e, w)
  else if negb (selectTest =? 7) || negb (generalPurposeBuffer =? 0) || negb (vendorSpecificParameters =? 0)
  then (ParameterError, e, w)
  else match c_controller (controllers e) with
  | None => (NotSupported, e, w)
  | Some controller =>
      let '(diagnostics, w) := controlOpticalLineSupervision controller w in
      match diagnostics with
      | None => (ProcessingError, e, w)
      | Some d =>
          match serializeAutonomous (DeviceIdentifier header) (TransactionID header) TestResultType key
                  (OpticalLineSupervisionTestResult (dg_PowerFeedVoltage d) (dg_ReceivedOpticalPower d)
                     (dg_MeanOpticalLaunch d) (dg_LaserBiasCurrent d) (dg_Temperature d)) with
          | Err _ => (ProcessingError, e, w)
          | Ok frame => (Success, set_pending e (pending e ++ [frame]), w)
          end
      end
  end.

(** [synchronizeTime]. *)
Definition synchronizeTime e w (now year month day hour minute second device : Z) : Z * Engine W Sink * W :=
  match c_controller (controllers e) with
  | None => (NotSupported, e, w)
  | Some controller =>
      if negb (validDate year month day hour minute second) then (ParameterError, e, w)
      else
        let requested := dateTime year month day hour minute second in
        match preparePerformanceSynchronization e w with
        | (Err _, e) => (ProcessingError, e, w)
        | (Ok baselines, e) =>
            let '(accepted, w) := controlSynchronizeTime controller w requested in
            if negb accepted then (ProcessingError, e, w)
            else
              match commitPerformanceSynchronization e requested baselines with
              | (Err _, e) => (ProcessingError, e, w)
              | (Ok _, e) =>
                  match clearPerformanceTCANotifications e now (notificationDevice e device) with
                  | (_, Some _, e) => (Success, clearAllPerformanceTCAs (set_pendingError e true), w)
                  | (frames, None, e) => (Success, set_pending e (pending e ++ frames), w)
                  end
              end
        end
  end.

(** [case RebootRequestType]. *)
Definition reboot e w (key : Key) (condition : Z) : Z * W :=
  if negb (key.1 =? OnuGClassID) then (UnknownEntity, w)
  else if negb (key.2 =? 0) || negb (Exists_ (mibOf e) (OnuGClassID, 0)) then (UnknownInstance, w)
  else if 2 <? condition then (ParameterError, w)
  else match c_controller (controllers e) with
       | None => (NotSupported, w)
       | Some controller =>
           let '(accepted, w) := controlReboot controller w condition in
           (if accepted : bool then Success else ProcessingError, w)
       end.

(** [handleRawSpecial]: extended tests and time synchronization, read from the frame. *)
Definition rawSpecial e w (now : Z) (header : OMCI) (frame : list Z)
    : option (Res EngineError (list Z)) * Engine W Sink * W :=
  let classID := Uint16 frame 4 in
  let entityID := Uint16 frame 6 in
  let answer result := Some (rawFrame (serializeRawResult header classID entityID result)) in
  if (MessageType header =? TestRequestType) && (DeviceIdentifier header =? ExtendedIdent) then
    if (length frame <? 8)%nat then (None, e, w)
    else if (length frame <? 15)%nat then (answer ProcessingError, e, w)
    else if negb (Uint16 frame 8 =? 5) then (answer ParameterError, e, w)
    else
      let '(result, e, w) :=
        opticalLineSupervision e w header (classID, entityID) (nth8 frame 10) (Uint16 frame 11) (Uint16 frame 13) in
      (answer result, e, w)
  else if negb (MessageType header =? SynchronizeTimeRequestType) || (length frame <? 8)%nat then (None, e, w)
  else if negb (classID =? OnuGClassID) then (answer UnknownEntity, e, w)
  else if negb (entityID =? 0) then (answer UnknownInstance, e, w)
  else
    let offset := if DeviceIdentifier header =? ExtendedIdent then 10%nat else 8%nat in
    if (length frame <? offset + 7)%nat then (answer ProcessingError, e, w)
    else
      let '(result, e, w) :=
        synchronizeTime e w now (Uint16 frame offset) (nth8 frame (offset + 2)) (nth8 frame (offset + 3))
          (nth8 frame (offset + 4)) (nth8 frame (offset + 5)) (nth8 frame (offset + 6)) (DeviceIdentifier header) in
      (answer result, e, w).

(** ** Software download *)

Definition setCore e (core : engine W Sink) : Engine W Sink := set_core e core.

(** A handler of Software.v on the state it uses; without a software controller there is no
    download. *)
Definition withSoftware e w (handler : Controller W Sink → engine W Sink → W → Z * engine W Sink * W)
    : Z * Engine W Sink * W :=
  match e_software (core e) with
  | None => (ProcessingError, e, w)
  | Some controller => let '(result, core, w) := handler controller (core e) w in (result, setCore e core, w)
  end.

(** [case DownloadSectionRequestType] and its variant with a response: only the latter answers. *)
Definition dispatchSection e w (header : OMCI) (request : DownloadSectionRequest) : outcomeOf :=
  let acknowledged := MessageType header =? DownloadSectionRequestWithResponseType in
  let '(result, e, w) :=
    withSoftware e w (λ controller core w,
      downloadSoftwareSection controller core w request (DeviceIdentifier header) acknowledged) in
  if MessageType header =? DownloadSectionRequestType then (Ok [], e, w)
  else (serialize header DownloadSectionResponseType (ds_EntityClass request, ds_EntityInstance request)
          (DownloadSectionResponse result (ds_SectionNumber request)), e, w).

Definition dispatchSoftware e w (header : OMCI) (responseType : Z) (key : Key) (response : Z → Message)
    (r : Z * engine W Sink * W) : outcomeOf :=
  let '(result, core, w) := r in
  (serialize header responseType key (response result), setCore e core, w).

(** ** Dispatch *)

(** [dispatch] on a decoded request: the case of the message type, or an error when the layer
    is not the one of the type. *)
Definition dispatchRequest e w (now : Z) (header : OMCI) (request : Request) : outcomeOf :=
  let type := MessageType header in
  let missing := (Err DecodeError, e, w) in
  if type =? CreateRequestType then
    match request with CreateRequest key attributes => dispatchCreate e w header key attributes | _ => missing end
  else if type =? DeleteRequestType then
    match request with DeleteRequest key => dispatchDelete e w header key | _ => missing end
  else if type =? SetRequestType then
    match request with SetRequest key attributes => dispatchSet e w now header key attributes | _ => missing end
  else if type =? GetRequestType then
    match request with GetRequest key mask => dispatchGet e w header key mask | _ => missing end
  else if type =? MibResetRequestType then
    match request with MibResetRequest key => dispatchMibReset e w header key | _ => missing end
  else if type =? MibUploadRequestType then
    match request with
    | MibUploadRequest key => let '(r, e) := mibUpload e now header key in (r, e, w)
    | _ => missing
    end
  else if type =? MibUploadNextRequestType then
    match request with
    | MibUploadNextRequest key sequence => let '(r, e) := mibUploadNext e now header key sequence in (r, e, w)
    | _ => missing
    end
  else if type =? GetAllAlarmsRequestType then
    match request with
    | GetAllAlarmsRequest key mode => let '(r, e) := getAllAlarms e now header key mode in (r, e, w)
    | _ => missing
    end
  else if type =? GetAllAlarmsNextRequestType then
    match request with
    | GetAllAlarmsNextRequest key sequence => let '(r, e) := getAllAlarmsNext e now header key sequence in (r, e, w)
    | _ => missing
    end
  else if type =? GetNextRequestType then
    match request with
    | GetNextRequest key mask sequence => (getNext e header key mask sequence, e, w)
    | _ => missing
    end
  else if type =? SetTableRequestType then
    match request with
    | SetTableRequest key mask attributes => setTable e w header key mask attributes
    | _ => missing
    end
  else if type =? GetCurrentDataRequestType then
    match request with
    | GetCurrentDataRequest key mask => dispatchGetCurrentData e w header key mask
    | _ => missing
    end
  else if type =? StartSoftwareDownloadRequestType then
    match request with
    | StartSoftwareDownloadRequest_ r =>
        dispatchSoftware e w header StartSoftwareDownloadResponseType (st_EntityClass r, st_EntityInstance r)
          (λ result, StartSoftwareDownloadResponse result (st_WindowSize r))
          (startSoftwareDownload (core e) w r (DeviceIdentifier header))
    | _ => missing
    end
  else if (type =? DownloadSectionRequestType) || (type =? DownloadSectionRequestWithResponseType) then
    match request with DownloadSectionRequest_ r => dispatchSection e w header r | _ => missing end
  else if type =? EndSoftwareDownloadRequestType then
    match request with
    | EndSoftwareDownloadRequest_ r =>
        let '(result, e, w) :=
          withSoftware e w (λ controller core w,
            endSoftwareDownload controller core w r (DeviceIdentifier header)) in
        (serialize header EndSoftwareDownloadResponseType (en_EntityClass r, en_EntityInstance r)
           (EndSoftwareDownloadResponse result), e, w)
    | _ => missing
    end
  else if type =? ActivateSoftwareRequestType then
    match request with
    | ActivateSoftwareRequest_ r =>
        dispatchSoftware e w header ActivateSoftwareResponseType (ac_EntityClass r, ac_EntityInstance r)
          ActivateSoftwareResponse (activateSoftware (core e) w r)
    | _ => missing
    end
  else if type =? CommitSoftwareRequestType then
    match request with
    | CommitSoftwareRequest_ r =>
        dispatchSoftware e w header CommitSoftwareResponseType (cm_EntityClass r, cm_EntityInstance r)
          CommitSoftwareResponse (commitSoftware (core e) w r)
    | _ => missing
    end
  else if type =? TestRequestType then
    match request with
    | OpticalLineSupervisionTestRequest key selectTest buffer vendor =>
        let '(result, e, w) := opticalLineSupervision e w header key selectTest buffer vendor in
        (serialize header TestResponseType key (TestResponse result), e, w)
    | _ => missing
    end
  else if type =? SynchronizeTimeRequestType then
    match request with
    | SynchronizeTimeRequest key year month day hour minute second =>
        let '(result, e, w) :=
          synchronizeTime e w now year month day hour minute second (DeviceIdentifier header) in
        (serialize header SynchronizeTimeResponseType key (SynchronizeTimeResponse result), e, w)
    | _ => missing
    end
  else if type =? RebootRequestType then
    match request with
    | RebootRequest key condition =>
        let '(result, w) := reboot e w key condition in
        (serialize header RebootResponseType key (RebootResponse result), e, w)
    | _ => missing
    end
  else if (4 <=? length (LayerPayload header))%nat && resultBearingRequest type then
    (rawFrame (serializeRawResult header (Uint16 (LayerPayload header) 0) (Uint16 (LayerPayload header) 2)
                 NotSupported), e, w)
  else (Err HandlerError, e, w).

(** [decodeFailureResponse]: [status] is the code of the decoder's [OmciError], if it is one. *)
Definition failureResponse e (header : OMCI) (frame : list Z) (status : option Z)
    : option (Res EngineError (list Z)) :=
  if (length frame <? 8)%nat || negb (hasFlag (MessageType header) AR) ||
     negb (resultBearingRequest (MessageType header))
  then None
  else
    let result := match status with
                  | Some code => if code =? Success then ProcessingError else code
                  | None => ProcessingError
                  end in
    let key := (Uint16 frame 4, Uint16 frame 6) in
    let result :=
      match LoadManagedEntityDefinition key.1 (Some (mkParams key.2 ∅)) with
      | Err _ => UnknownEntity
      | Ok entity =>
          if negb (SupportsClass (mibOf e) key.1) then UnknownEntity
          else if bool_decide (Support (definition entity) ∈
                    [UnsupportedManagedEntity; UnsupportedVendorSpecificManagedEntity]) then UnknownEntity
          else if negb (MessageType header =? CreateRequestType) && negb (Exists_ (mibOf e) key) &&
                  negb (capabilityInstanceExists (mibOf e) key) then UnknownInstance
          else result
      end in
    Some (rawFrame (serializeRawResult header key.1 key.2 result)).
End requests.

(** The handlers of the engine. *)
#[export] Instance engineHandlers {MR : MapRange} {W Sink : Type} {D : Decoder} : Handlers W Sink := {|
  digest := frameDigest;
  decodeError contents :=
    match decodeOMCI contents with
    | None => true
    | Some header => match decodeLayer header contents with Ok _ => false | Err _ => true end
    end;
  handleRawSpecial := rawSpecial;
  decodeFailureResponse e header contents :=
    failureResponse e header contents
      (match decodeLayer header contents with Ok _ => None | Err status => status end);
  dispatch e w now header contents :=
    match decodeLayer header contents with
    | Ok request => dispatchRequest e w now header request
    | Err _ => (Err DecodeError, e, w)
    end
|}.
