(* ===== verification/UploadProps.v ===== *)
(** * Engine: what the OLT receives from an upload

    The loops of [buildUpload] are shown equal to the greedy filling of Paging.v, which gives
    what a MIB upload reports; the sessions of uploads, alarm uploads and table transfers are
    shown to hand out every page in order. *)

From S2P Require Import Prelude Maps Paging MeTypes MeLib Mib MeNames Semantics Store.
From S2P Require Import StoreLemmas StoreInvariant StoreProps.
From S2P Require Import Model Frames Codec Software Controllers Engine PmRules Notify Upload.

(** A loop that skips some items is the loop over the others. *)
Lemma foldM_res_omap {E A B S} (f : S → A → Res E S) (g : S → B → Res E S) (pick : A → option B) l s :
  (∀ s a, f s a = match pick a with Some b => g s b | None => Ok s end) →
  foldM_res f l s = foldM_res g (omap pick l) s.
Proof.
  intros Hf. revert s. induction l as [|a l IH]; intros s; [done|].
  cbn. rewrite Hf. destruct (pick a); cbn; [|done]. destruct (g s b); cbn; [apply IH|done].
Qed.

Lemma filter_none {A} (P : A → Prop) `{∀ x, Decision (P x)} l : Forall (λ x, ¬ P x) l → filter P l = [].
Proof. induction 1 as [|x l Hx _ IH]; [done|]. by rewrite filter_cons, decide_False. Qed.

Lemma filter_every {A} (P : A → Prop) `{∀ x, Decision (P x)} l : Forall P l → filter P l = l.
Proof. induction 1 as [|x l Hx _ IH]; [done|]. by rewrite filter_cons, decide_True, IH. Qed.

Section build.
Context {MR : MapRange}.

Abbreviation item := (AttributeDefinition * Value)%type.
Definition itemSize (x : item) : Z := Size x.1.

(** The attribute of [instance] at [index], if an upload reports it. *)
Definition pickItem (instance : Instance_) (definitions : gmap Z AttributeDefinition)
    (performanceMonitoring : bool) (limit : Z) (index : Z) : option item :=
  if index =? 0 then None
  else match definitions !! index with
  | None => None
  | Some attribute =>
      match i_Attributes instance !! Name attribute with
      | None => None
      | Some value =>
          if skipsAttribute performanceMonitoring attribute || (limit <? Size attribute)
          then None else Some (attribute, value)
      end
  end.

(** The attributes of [instance] that an upload reports, by index. *)
Definition uploadable (limit : Z) (instance : Instance_) : list item :=
  match loadEntity (i_Key instance) with
  | Err _ => []
  | Ok entity =>
      let definitions := AttributeDefinitions (definition entity) in
      omap (pickItem instance definitions (isPerformanceMonitoringDefinition (DefName (definition entity))) limit)
        (GetAttributeDefinitionMapKeys definitions)
  end.

Definition groupAttributes (group : list item) : AttributeValueMap :=
  foldl (λ attributes x, <[Name x.1 := x.2]> attributes) ∅ group.

(** The entity that reports a group of attributes. *)
Definition entityOf (key : Key) (group : list item) : Res MibError ManagedEntity :=
  match LoadManagedEntityDefinition key.1 (Some (mkParams key.2 (groupAttributes group))) with
  | Err _ => Err (PlainError "load MIB upload entity")
  | Ok entity => Ok entity
  end.

(** The reference: the parts of an upload, as keys with groups of attributes. *)
Definition instanceParts (limit : Z) (instance : Instance_) : list (Key * list item) :=
  if excludedFromMibUpload (ClassID_of instance) then []
  else map (pair (i_Key instance)) (greedyFrom itemSize limit [] (uploadable limit instance)).

Definition uploadParts (limit : Z) (snapshot : list Instance_) : list (Key * list item) :=
  concat (map (instanceParts limit) snapshot).

Definition addItem (key : Key) (limit : Z) (st : uploadState) (x : item) : Res MibError uploadState :=
  st ← (if (0 <? us_used st) && (limit <? us_used st + itemSize x) then uploadFlush key st else Ok st);
  Ok (mkUploadState (us_entities st) (<[Name x.1 := x.2]> (us_attributes st)) (us_used st + itemSize x)).

Lemma groupAttributes_snoc group x : groupAttributes (group ++ [x]) = <[Name x.1 := x.2]> (groupAttributes group).
Proof. unfold groupAttributes. by rewrite foldl_app. Qed.

Lemma groupAttributes_empty group : groupAttributes group = ∅ ↔ group = [].
Proof.
  split; [|by intros ->]. destruct group as [|x group _] using rev_ind; [done|].
  rewrite groupAttributes_snoc. intros H%(f_equal (lookup (Name x.1))). by rewrite lookup_insert_eq in H.
Qed.

Lemma uploadFlush_entityOf key entities group used :
  uploadFlush key (mkUploadState entities (groupAttributes group) used) =
  (entity ← entityOf key group; Ok (mkUploadState (entities ++ [entity]) ∅ 0)).
Proof. unfold uploadFlush, entityOf. cbn. by destruct (LoadManagedEntityDefinition _ _). Qed.

Definition finishInstance (key : Key) (st : uploadState) : Res MibError (list ManagedEntity) :=
  st ← (if negb (bool_decide (us_attributes st = ∅)) || (us_used st =? 0)
        then uploadFlush key st else Ok st);
  Ok (us_entities st).

Lemma addItems_greedy key limit items entities current :
  Forall (λ x, itemSize x ≤ limit) items → total itemSize current ≤ limit →
  (st ← foldM_res (addItem key limit) items
          (mkUploadState entities (groupAttributes current) (total itemSize current));
   finishInstance key st) =
  (es ← mapM_res (entityOf key) (greedyFrom itemSize limit current items); Ok (entities ++ es)).
Proof.
  intros Hi Hc.
  apply (fill_greedy itemSize limit
    (λ entities current, mkUploadState entities (groupAttributes current) (total itemSize current))
    (λ st x, (0 <? us_used st) && (limit <? us_used st + itemSize x)) (uploadFlush key)
    (λ st x, mkUploadState (us_entities st) (<[Name x.1 := x.2]> (us_attributes st)) (us_used st + itemSize x))
    (entityOf key) (finishInstance key) True); try done.
  - intros es group x Hg Hx. cbn [us_used]. destruct group as [|y group].
    + rewrite bool_decide_eq_true_2 by done. done.
    + rewrite bool_decide_eq_false_2 by done. cbn [negb andb]. destruct (limit <? _) eqn:Hl; lia.
  - intros es group. by rewrite uploadFlush_entityOf.
  - intros es group x. cbn. rewrite groupAttributes_snoc, total_app. unfold total. cbn. do 2 f_equal. lia.
  - intros es group _. unfold finishInstance. cbn [us_attributes us_used].
    assert (negb (bool_decide (groupAttributes group = ∅)) || (total itemSize group =? 0) = true) as ->.
    { destruct group as [|y group]; [done|]. rewrite bool_decide_eq_false_2; [done|].
      by rewrite groupAttributes_empty. }
    rewrite uploadFlush_entityOf. by destruct (entityOf key group).
Qed.

(** The loop of [buildUpload] over the attributes of an instance is the greedy filling. *)
Lemma uploadInstance_greedy limit entities instance :
  0 ≤ limit →
  uploadInstance limit entities instance =
  if excludedFromMibUpload (ClassID_of instance) then Ok entities
  else
    _ ← loadEntity (i_Key instance);
    es ← mapM_res (entityOf (i_Key instance)) (greedyFrom itemSize limit [] (uploadable limit instance));
    Ok (entities ++ es).
Proof.
  intros Hl. unfold uploadInstance, uploadable. destruct (excludedFromMibUpload _); [done|].
  destruct (loadEntity (i_Key instance)) as [entity|]; [|done]. cbn [mbind Res_bind].
  set (pm := isPerformanceMonitoringDefinition _). set (definitions := AttributeDefinitions _).
  rewrite <- (addItems_greedy _ _ _ entities []); [| |done].
  - rewrite (foldM_res_omap _ (addItem (i_Key instance) limit) (pickItem instance definitions pm limit)); [done|].
    intros st index. unfold uploadAttribute, pickItem, addItem.
    destruct (index =? 0); [done|]. destruct (definitions !! index) as [a|]; [|done].
    destruct (i_Attributes instance !! Name a); [|done]. destruct (skipsAttribute pm a); [done|].
    cbn [orb]. destruct (limit <? Size a) eqn:Hs; [done|]. done.
  - apply Forall_forall. intros x (index & _ & Hx)%list_elem_of_omap. unfold pickItem in Hx.
    destruct (index =? 0); [done|]. destruct (definitions !! index) as [a|]; [|done].
    destruct (i_Attributes instance !! Name a); [|done].
    destruct (skipsAttribute pm a || (limit <? Size a)) eqn:Hs; [done|]. injection Hx as <-.
    apply orb_false_iff in Hs as [_ Hs]. unfold itemSize. cbn. lia.
Qed.

(** ** What the entities of an upload report *)

Definition entityKey (entity : ManagedEntity) : Key := (ClassID (definition entity), GetEntityID entity).

(** [entity] carries the attributes of a group, and its entity id. *)
Definition reports (part : Key * list item) (entity : ManagedEntity) : Prop :=
  definition entity = definition_of part.1.1 ∧
  attributes entity = <[ManagedEntityID := VU16 part.1.2]> (groupAttributes part.2).

Lemma reports_key part entity : reports part entity → entityKey entity = part.1.
Proof.
  intros [Hd Ha]. unfold entityKey, GetEntityID. rewrite Hd, Ha, ClassID_definition_of.
  rewrite (eidName_ok _ (definition_ok_of _)), lookup_insert_eq. by destruct part as [[] ?].
Qed.

(** A group of attributes of the class. *)
Definition of_class (classID : Z) (group : list item) : Prop :=
  Forall (λ x, ∃ index, AttributeDefinitions (definition_of classID) !! index = Some x.1) group.

Lemma loadEntity_ok key : ∃ entity, loadEntity key = Ok entity ∧ definition entity = definition_of key.1.
Proof.
  unfold loadEntity. pose proof (Load_spec key.1 key.2 ∅) as H.
  destruct (LoadManagedEntityDefinition _ _) as [entity|].
  - exists entity. by destruct H.
  - destruct H as [_ []]. apply map_Forall_empty.
Qed.

Lemma entityOf_reports key group :
  of_class key.1 group → ∃ entity, entityOf key group = Ok entity ∧ reports (key, group) entity.
Proof.
  intros Hg. unfold entityOf. pose proof (Load_spec key.1 key.2 (groupAttributes group)) as H.
  destruct (LoadManagedEntityDefinition _ _) as [entity|].
  - exists entity. destruct H as (Hd & Ha & _). by repeat split.
  - destruct H as [_ []]. induction group as [|x group IH] using rev_ind; [apply map_Forall_empty|].
    apply Forall_app in Hg as [Hg Hx]. rewrite groupAttributes_snoc. apply map_Forall_insert_2; [|by apply IH].
    right. unfold known_name. apply bool_decide_eq_true_2. apply Forall_singleton in Hx as [index Hx].
    eexists. by apply (attr_named_exact _ (definition_ok_of _) index).
Qed.

Lemma uploadable_class limit instance : of_class (ClassID_of instance) (uploadable limit instance).
Proof.
  unfold uploadable. destruct (loadEntity_ok (i_Key instance)) as (entity & -> & ->).
  apply Forall_forall. intros x (index & _ & Hx)%list_elem_of_omap. exists index. unfold pickItem in Hx.
  destruct (index =? 0); [done|]. destruct (AttributeDefinitions _ !! index) as [a|]; [|done].
  destruct (i_Attributes instance !! Name a); [|done]. destruct (_ || _); [done|]. by injection Hx as <-.
Qed.

Lemma greedyFrom_class classID limit current items :
  of_class classID current → of_class classID items →
  Forall (of_class classID) (greedyFrom itemSize limit current items).
Proof.
  intros Hc Hi. apply Forall_forall. intros g Hg. unfold of_class in *.
  assert (Forall (λ x, ∃ index, AttributeDefinitions (definition_of classID) !! index = Some x.1)
            (concat (greedyFrom itemSize limit current items))) as Hall
    by (rewrite concat_greedyFrom; by apply Forall_app).
  rewrite Forall_concat, Forall_forall in Hall. by apply Hall.
Qed.

Lemma mapM_entityOf key groups :
  Forall (of_class key.1) groups →
  ∃ es, mapM_res (entityOf key) groups = Ok es ∧ Forall2 reports (map (pair key) groups) es.
Proof.
  induction 1 as [|g groups Hg _ (es & Hes & IH)]; [by exists []|].
  destruct (entityOf_reports key g Hg) as (entity & He & Hr).
  exists (entity :: es). cbn. rewrite He. cbn. rewrite Hes. split; [done|]. by constructor.
Qed.

(** The first loop never fails, and its entities report the parts of the snapshot. *)
Lemma upload_entities limit snapshot entities :
  0 ≤ limit →
  ∃ es, foldM_res (uploadInstance limit) snapshot entities = Ok (entities ++ es) ∧
    Forall2 reports (uploadParts limit snapshot) es.
Proof.
  intros Hl. revert entities. induction snapshot as [|instance snapshot IH]; intros entities.
  { exists []. by rewrite app_nil_r. }
  cbn [foldM_res]. rewrite uploadInstance_greedy by done.
  unfold uploadParts. cbn [map concat]. fold (uploadParts limit snapshot). unfold instanceParts.
  destruct (excludedFromMibUpload _); [apply IH|].
  destruct (loadEntity_ok (i_Key instance)) as (entity & -> & _). cbn [mbind Res_bind].
  destruct (mapM_entityOf (i_Key instance) (greedyFrom itemSize limit [] (uploadable limit instance)))
    as (es & -> & Hes).
  { apply greedyFrom_class; [constructor|apply uploadable_class]. }
  cbn [mbind Res_bind]. destruct (IH (entities ++ es)) as (es' & -> & Hes').
  exists (es ++ es'). split; [by rewrite <- app_assoc|]. by apply Forall2_app.
Qed.

(** ** Packing the extended message set *)

(** The octets an entity takes in an extended upload response. *)
Definition entityCost (entity : ManagedEntity) : Z :=
  match entitySerializeTo entity MibUploadNextResponseType MaxManagedEntityMibUploadNextExtendedLength true with
  | Ok bytes => 2 + Z.of_nat (length bytes)
  | Err _ => 0
  end.

Definition finishPack (st : packState) : list uploadCommand :=
  if bool_decide (pk_current st = []) then pk_commands st else pk_commands st ++ [pk_current st].

Lemma pack_greedy commands current entities st :
  foldM_res (packEntity MaxManagedEntityMibUploadNextExtendedLength) entities
    (mkPack commands current (total entityCost current)) = Ok st →
  current ≠ [] ∨ entities ≠ [] →
  finishPack st =
    commands ++ greedyFrom entityCost MaxManagedEntityMibUploadNextExtendedLength current entities.
Proof.
  revert commands current. induction entities as [|x entities IH]; intros commands current; cbn [foldM_res].
  - intros [= <-] [Hc|]; [|done]. unfold finishPack. cbn. by rewrite bool_decide_eq_false_2.
  - intros Hst _. apply Res_bind_Ok in Hst as (st1 & H1 & Hst). unfold packEntity in H1.
    destruct (entitySerializeTo x _ _ true) as [bytes|] eqn:Hb; [|done].
    assert (entityCost x = 2 + Z.of_nat (length bytes)) as Hcost by (unfold entityCost; by rewrite Hb).
    rewrite <- Hcost in H1. injection H1 as <-. cbn [pk_commands pk_current pk_used] in Hst. cbn [greedyFrom].
    destruct current as [|y current].
    + rewrite bool_decide_eq_true_2 in Hst by done. cbn [negb andb pk_commands pk_current pk_used app] in Hst.
      apply (IH commands [x]); [|by left]. rewrite <- Hst. f_equal. f_equal. unfold total. cbn. lia.
    + rewrite bool_decide_eq_false_2 in Hst by done. cbn [negb andb] in Hst.
      destruct (_ <? _) eqn:Hl; cbn [pk_commands pk_current pk_used app] in Hst.
      * rewrite (IH (commands ++ [y :: current]) [x]); [by rewrite <- app_assoc| |by left].
        rewrite <- Hst. f_equal. f_equal. unfold total. cbn. lia.
      * apply IH; [|by left]. rewrite <- Hst. f_equal. f_equal. rewrite total_app. unfold total. cbn. lia.
Qed.

Lemma packed_costs entities st st' :
  foldM_res (packEntity MaxManagedEntityMibUploadNextExtendedLength) entities st = Ok st' →
  Forall (λ x, ∃ bytes, entitySerializeTo x MibUploadNextResponseType
    MaxManagedEntityMibUploadNextExtendedLength true = Ok bytes) entities.
Proof.
  revert st. induction entities as [|x entities IH]; intros st Hst; [constructor|].
  apply Res_bind_Ok in Hst as (st1 & H1 & Hst). unfold packEntity in H1.
  destruct (entitySerializeTo x _ _ true) as [bytes|] eqn:Hb; [|done]. constructor; [by eexists|by eapply IH].
Qed.

Lemma attributeLimit_nonneg device : 0 ≤ attributeLimit device.
Proof. unfold attributeLimit. branch; vm_compute; discriminate. Qed.

(** The commands of an upload are the entities of the parts of the snapshot. *)
Lemma buildUpload_parts snapshot device commands :
  buildUpload snapshot device = Ok commands →
  Forall2 reports (uploadParts (attributeLimit device) snapshot) (concat commands) ∧
  Forall (λ command, command ≠ []) commands.
Proof.
  destruct (upload_entities (attributeLimit device) snapshot [] (attributeLimit_nonneg device)) as (es & Hes & Hr).
  unfold buildUpload. rewrite Hes. cbn [mbind Res_bind app].
  destruct (device =? ExtendedIdent); cbn [negb].
  - intros Hc. apply Res_bind_Ok in Hc as (st & Hst & Hc). apply Ok_injective in Hc as <-.
    fold (finishPack st). destruct es as [|x es]; [cbn in Hst; apply Ok_injective in Hst as <-; by split|].
    rewrite (pack_greedy [] [] (x :: es)); [|exact Hst|by right]. split.
    + by rewrite concat_app, concat_greedyFrom.
    + apply greedyFrom_nonempty. by right.
  - intros Hc. apply Ok_injective in Hc as <-. split.
    + by replace (concat (map (λ entity, [entity]) es)) with es by (clear; induction es; cbn; congruence).
    + apply Forall_forall. by intros ? (? & -> & _)%list_elem_of_fmap.
Qed.

(** The parts of one instance among those of a snapshot. *)
Lemma uploadParts_instance limit snapshot instance :
  NoDup (map i_Key snapshot) → instance ∈ snapshot →
  filter (λ part, part.1 = i_Key instance) (uploadParts limit snapshot) = instanceParts limit instance.
Proof.
  assert (∀ i, Forall (λ part, part.1 = i_Key i) (instanceParts limit i)) as Hown.
  { intros i. unfold instanceParts. branch; [constructor|]. apply Forall_forall.
    by intros ? (? & -> & _)%list_elem_of_fmap. }
  assert (∀ k l, k ∉ map i_Key l → filter (λ part, part.1 = k) (uploadParts limit l) = []) as Hnone.
  { intros k l Hk. apply filter_none. apply Forall_forall. intros part Hp Hpk. cbn beta in Hpk. subst k.
    unfold uploadParts in Hp. apply list_elem_of_In, in_concat in Hp as (ps & Hps & Hp).
    apply list_elem_of_In, list_elem_of_fmap in Hps as (i & -> & Hi). apply Hk.
    specialize (Hown i). rewrite Forall_forall in Hown. apply list_elem_of_In in Hp.
    pose proof (Hown _ Hp) as Hk'. cbn beta in Hk'. rewrite Hk'.
    by apply list_elem_of_fmap_2. }
  induction snapshot as [|i snapshot IH]; [by intros _ ?%not_elem_of_nil|].
  cbn [map]. intros [Hi Hnd]%NoDup_cons Hin. unfold uploadParts. cbn [map concat].
  fold (uploadParts limit snapshot). rewrite filter_app. apply elem_of_cons in Hin as [->|Hin].
  - rewrite Hnone by done. rewrite app_nil_r. by apply filter_every.
  - rewrite (IH Hnd Hin). rewrite filter_none; [done|].
     eapply Forall_impl; [apply Hown|]. intros part Hp Hk. cbn beta in Hp, Hk.
    apply Hi. rewrite <- Hp, Hk. by apply list_elem_of_fmap_2.
Qed.

Lemma Forall2_filter_reports key parts entities :
  Forall2 reports parts entities →
  Forall2 reports (filter (λ part, part.1 = key) parts) (filter (λ entity, entityKey entity = key) entities).
Proof.
  induction 1 as [|part entity parts entities Hr _ IH]; [constructor|].
  rewrite !filter_cons, (reports_key _ _ Hr). case_decide; [by constructor|done].
Qed.

Lemma uploadable_fits limit instance : Forall (λ x, itemSize x ≤ limit) (uploadable limit instance).
Proof.
  unfold uploadable. destruct (loadEntity _); [|constructor].
  apply Forall_forall. intros x (index & _ & Hx)%list_elem_of_omap. unfold pickItem in Hx.
  destruct (index =? 0); [done|]. destruct (_ !! index) as [b|]; [|done].
  destruct (i_Attributes instance !! Name b); [|done].
  destruct (_ || _) eqn:Hs; [done|]. injection Hx as <-. apply orb_false_iff in Hs as [_ Hs].
  unfold itemSize. cbn. lia.
Qed.
End build.

Section complete.
Context {MR : MapRange} {W : Type}.

End complete.

(** ** Sessions *)

Section sessions.
Context {MR : MapRange} {W Sink : Type}.
Implicit Types e : Engine W Sink.

(** A next request: what happened since the previous one, its time and its header. *)
Record nextRequest := mkNext { nx_before : Engine W Sink → Engine W Sink; nx_time : Z; nx_header : OMCI }.

(** Each request arrives in less than [timeout] after the one before it. *)
Fixpoint in_time (timeout last : Z) (requests : list nextRequest) : Prop :=
  match requests with
  | [] => True
  | r :: requests => nx_time r < last + timeout ∧ in_time timeout (nx_time r) requests
  end.

(** The responses to requests with the sequence numbers [start], [start + step], ... *)
Fixpoint pollNext (handler : Engine W Sink → Z → OMCI → Z → Res EngineError (list Z) * Engine W Sink)
    e (start step : nat) (requests : list nextRequest) : list (Res EngineError (list Z)) :=
  match requests with
  | [] => []
  | r :: requests =>
      let '(response, e) := handler (nx_before r e) (nx_time r) (nx_header r) (Z.of_nat start) in
      response :: pollNext handler e (start + step) step requests
  end.

Lemma pollUpload e key device commands last (k : nat) requests :
  upload e !! device = Some (mkUpload commands (last + mibUploadTimeout)) →
  Forall (λ c, c ≠ []) commands →
  Forall (λ r, DeviceIdentifier (nx_header r) = device ∧ ∀ e, upload (nx_before r e) = upload e) requests →
  in_time mibUploadTimeout last requests → length requests = (length commands - k)%nat →
  pollNext (λ e now header, mibUploadNext e now header key) e k 1 requests =
  zip_with (λ r command, serialize (nx_header r) MibUploadNextResponseType key
      (MibUploadNextResponse (List.hd (mkEntity (definition_of 0) 0 ∅) command) (List.tl command)))
    requests (drop k commands).
Proof.
  intros Hs Hne Hr. revert e last k Hs. induction Hr as [|r requests [Hd Hup] Hr IH]; intros e last k Hs; [done|].
  cbn [in_time pollNext]. intros [Ht Hin] Hlen. cbn [length] in Hlen.
  destruct (lookup_lt_is_Some_2 commands k) as [command Hk]; [lia|].
  rewrite (drop_S _ command) by done. unfold mibUploadNext at 1. rewrite Hup, Hd, Hs. cbn [up_expires up_commands].
  rewrite (proj2 (Z.ltb_lt _ _)) by done. cbn [negb]. rewrite Nat2Z.id, Hk.
  destruct command as [|reported additional]; [by rewrite Forall_lookup in Hne; destruct (Hne _ _ Hk)|].
  cbn [zip_with List.hd List.tl]. f_equal. rewrite Nat.add_1_r. apply (IH _ (nx_time r)); [|done|lia].
  cbn. by rewrite lookup_insert_eq.
Qed.


(** ** Alarms *)

Lemma pollAlarms e key device reported last (k : nat) requests :
  let n := if device =? ExtendedIdent then maxExtendedAlarmsPerResponse else 1%nat in
  alarmUpload e !! device = Some (mkAlarmUpload reported (last + alarmUploadTimeout)) →
  Forall (λ r, DeviceIdentifier (nx_header r) = device ∧ ∀ e, alarmUpload (nx_before r e) = alarmUpload e) requests →
  in_time alarmUploadTimeout last requests → (length requests = pageCount n reported - k)%nat →
  pollNext (λ e now header, getAllAlarmsNext e now header key) e (k * n) n requests =
  zip_with (λ r page, serialize (nx_header r) GetAllAlarmsNextResponseType key
      (GetAllAlarmsNextResponse (List.hd (mkAlarm (0, 0) []) page) (List.tl page)))
    requests (map (page n reported) (seq k (length requests))).
Proof.
  intros n Hs Hr. revert e last k Hs. induction Hr as [|r requests [Hd Hup] Hr IH]; intros e last k Hs; [done|].
  assert (0 < n)%nat as Hn by (unfold n; destruct (_ =? _); [vm_compute; lia|lia]).
  cbn [in_time pollNext]. intros [Ht Hin] Hlen. cbn [length] in Hlen. cbn [length seq map].
  unfold getAllAlarmsNext at 1. rewrite Hup, Hd, Hs. cbn [au_expires au_alarms].
  rewrite (proj2 (Z.ltb_lt _ _)) by done. cbn [negb]. rewrite Nat2Z.id.
  change (alarmPage device reported (k * n)) with (page n reported k).
  pose proof (page_nonempty n reported k Hn ltac:(lia)) as Hp.
  destruct (page n reported k) as [|alarm additional] eqn:Hpage; [done|].
  cbn [zip_with List.hd List.tl]. f_equal. replace (k * n + n)%nat with (S k * n)%nat by lia.
  apply (IH _ (nx_time r)); [|done|lia]. cbn. by rewrite lookup_insert_eq.
Qed.

(** An alarm upload is an audit of the alarm table: the answers to an OLT that polls in
    time carry each alarm of the table exactly once, in the order of their keys, without those
    that alarm reporting control inhibits when it asks so; and the notification sequence
    restarts. *)
Theorem alarm_session e now header key mode requests
    (Hr : Forall (λ r, DeviceIdentifier (nx_header r) = DeviceIdentifier header ∧
                       ∀ e, alarmUpload (nx_before r e) = alarmUpload e) requests)
    (Ht : in_time alarmUploadTimeout now requests) :
  let n := if DeviceIdentifier header =? ExtendedIdent then maxExtendedAlarmsPerResponse else 1%nat in
  let reported := reportedAlarms e mode in
  let e' := (getAllAlarms e now header key mode).2 in
  length requests = pageCount n reported →
  alarmSequence e' = 0 ∧
  (∃ pages, concat pages = reported ∧ Forall (λ p, p ≠ [] ∧ (length p ≤ n)%nat) pages ∧
     pollNext (λ e now header, getAllAlarmsNext e now header key) e' 0 n requests =
     zip_with (λ r page, serialize (nx_header r) GetAllAlarmsNextResponseType key
         (GetAllAlarmsNextResponse (List.hd (mkAlarm (0, 0) []) page) (List.tl page))) requests pages) ∧
  StronglySorted alarm_le reported ∧ NoDup (map a_Key reported) ∧
  ∀ k bitmap, mkAlarm k bitmap ∈ reported ↔
    alarms e !! k = Some bitmap ∧ ¬ (mode = 1 ∧ arcEnabled (mibOf e) k = true).
Proof.
  cbv zeta. set (n := if _ =? _ then _ else _). intros Hl.
  assert (0 < n)%nat as Hn by (unfold n; destruct (_ =? _); [vm_compute; lia|lia]).
  split_and!; [done| | | |].
  - exists (map (page n (reportedAlarms e mode)) (seq 0 (pageCount n (reportedAlarms e mode)))). split_and!.
    + by apply pages_concat.
    + apply Forall_forall. intros p (i & -> & Hi%elem_of_seq)%list_elem_of_fmap.
      split; [apply page_nonempty; [done|apply Hi]|apply length_page].
    + rewrite <- Hl. apply (pollAlarms _ _ _ _ now 0); [|done|done|rewrite Nat.sub_0_r; exact Hl]. cbn. by rewrite lookup_insert_eq.
  - unfold reportedAlarms. apply StronglySorted_merge_sort.
    + intros a b c. apply (key_trans (le := pair_le)).
    + intros a b. apply (key_total (le := pair_le)).
  - unfold reportedAlarms. rewrite merge_sort_Permutation, map_map.
    rewrite (map_ext _ fst) by by intros [].
    eapply sublist_NoDup; [apply (NoDup_range_fst (alarms e))|]. apply fmap_sublist, sublist_filter.
  - intros k bitmap. unfold reportedAlarms. rewrite merge_sort_Permutation, list_elem_of_fmap. split.
    + intros ([k' b'] & [= -> ->] & [Hf Hin]%list_elem_of_filter). by apply elem_of_range in Hin.
    + intros [Ha Hf]. exists (k, bitmap). split; [done|]. apply list_elem_of_filter. split; [done|].
      by apply elem_of_range.
Qed.
End sessions.

(** ** Tables *)

Section tables.
Context {MR : MapRange} {W Sink : Type}.
Implicit Types e : Engine W Sink.

(** What [prepareTables] leaves alone: the key, the attributes and the kept tables of the
    definitions that it does not visit. *)
Definition same_table (device : Z) (a : AttributeDefinition) (i1 i2 : Instance_) (e1 e2 : Engine W Sink) : Prop :=
  i_Key i2 = i_Key i1 ∧ i_Attributes i2 !! Name a = i_Attributes i1 !! Name a ∧
  tables e2 !! (device, (i_Key i1).1, (i_Key i1).2, Mask a) = tables e1 !! (device, (i_Key i1).1, (i_Key i1).2, Mask a).

Lemma prepareTables_other (d : ManagedEntityDefinition) requestedMask device l i a :
  definition_ok d = true → AttributeDefinitions d !! i = Some a → i ≠ 0 → i ∉ l.*1 →
  Forall (λ p, AttributeDefinitions d !! p.1 = Some p.2) l →
  ∀ e instance instance' e', prepareTables e requestedMask device l instance = (Ok instance', e') →
  same_table device a instance instance' e e'.
Proof.
  intros Hd Ha Hi Hnot Hl. induction Hl as [|[j b] l Hb Hl IH]; intros e instance instance' e'; cbn [prepareTables].
  { by intros [= <- <-]. }
  rewrite fmap_cons, not_elem_of_cons in Hnot. destruct Hnot as [Hij Hnot]. cbn in Hij, Hb.
  destruct ((j =? 0) || _ || _) eqn:Hskip; [by apply IH|].
  apply orb_false_iff in Hskip as [[Hj _]%orb_false_iff _]. apply Z.eqb_neq in Hj.
  assert (Name b ≠ Name a ∧ Mask b ≠ Mask a) as [Hn Hm].
  { split.
    - intros Heq. destruct (name_unique d Hd j i b a) as [? _]; congruence.
    - destruct (attribute_inv d Hd i a Ha) as (_ & ? & _ & [_ ->]); [done|].
      destruct (attribute_inv d Hd j b Hb) as (_ & ? & _ & [_ ->]); [done|].
      intros Heq%Z.pow_inj_r; lia. }
  assert (∀ rows instance' e',
    prepareTables (set_tables e (<[(device, ClassID_of instance, EntityID_of instance, Mask b) := rows]> (tables e)))
      requestedMask device l (withAttribute instance (Name b) (VU32 (u32 (Z.of_nat (length rows))))) = (Ok instance', e') →
    same_table device a instance instance' e e') as Hstore.
  { intros rows i1 e1 H1. destruct (IH Hnot _ _ _ _ H1) as (Hk & Hat & Htb). cbn in Hk, Hat, Htb. split_and!; [done| |].
    - by rewrite Hat, lookup_insert_ne.
    - rewrite Htb, lookup_insert_ne; [done|]. congruence. }
  destruct (i_Attributes instance !! Name b) as [[]|]; try (intros [=]; fail); try (by apply IH); try (by apply Hstore).
Qed.

Lemma prepareTables_stores (d : ManagedEntityDefinition) requestedMask device l i a rows :
  definition_ok d = true → AttributeDefinitions d !! i = Some a → i ≠ 0 → (i, a) ∈ l → NoDup l.*1 →
  IsTableAttribute a = true → Z.land requestedMask (Mask a) ≠ 0 →
  Forall (λ p, AttributeDefinitions d !! p.1 = Some p.2) l →
  ∀ e instance instance' e',
  i_Attributes instance !! Name a = Some (VTable rows) →
  prepareTables e requestedMask device l instance = (Ok instance', e') →
  i_Key instance' = i_Key instance ∧
  i_Attributes instance' !! Name a = Some (VU32 (u32 (Z.of_nat (length (Rows rows))))) ∧
  tables e' !! (device, (i_Key instance).1, (i_Key instance).2, Mask a) = Some (Rows rows).
Proof.
  intros Hd Ha Hi Hin Hnd Htable Hmask Hl.
  induction Hl as [|[j b] l Hb Hl IH]; intros e instance instance' e' Hv; [by apply not_elem_of_nil in Hin|].
  cbn [prepareTables]. rewrite fmap_cons in Hnd. apply NoDup_cons in Hnd as [Hj Hnd].
  apply elem_of_cons in Hin as [[= <- <-]|Hin].
  - rewrite (proj2 (Z.eqb_neq _ _) Hi), (proj2 (Z.eqb_neq _ _) Hmask), Htable. cbn [orb negb]. rewrite Hv.
    intros H. destruct (prepareTables_other d requestedMask device l i a Hd Ha Hi Hj Hl _ _ _ _ H) as (Hk & Hat & Htb).
    cbn in Hk, Hat, Htb. split_and!; [done| |].
    + by rewrite Hat, lookup_insert_eq.
    + by rewrite Htb, lookup_insert_eq.
  - specialize (IH Hin Hnd). cbn in Hb.
    assert (i ≠ j) as Hij.
    { intros ->. apply Hj. apply list_elem_of_fmap. by exists (j, a). }
    destruct ((j =? 0) || _ || _); [by apply IH|].
    assert (∀ x, i_Attributes (withAttribute instance (Name b) x) !! Name a = Some (VTable rows)) as Hkeep.
    { intros x. cbn. rewrite lookup_insert_ne; [done|]. intros Heq.
      destruct (name_unique d Hd j i b a) as [? _]; congruence. }
    destruct (i_Attributes instance !! Name b) as [[]|]; try (intros [=]; fail);
      try (intros H; apply (IH _ _ _ _ Hv H)); intros H; apply (IH _ _ _ _ (Hkeep _) H).
Qed.

(** The blocks of get next are the pages of the kept table. *)
Lemma tableBlock_page device data (sequence : nat) :
  let n := if device =? ExtendedIdent then MaxAttributeGetNextExtendedLength else MaxAttributeGetNextBaselineLength in
  tableBlock device data (Z.of_nat sequence) =
  if decide (sequence < pageCount n data)%nat then Some (page n data sequence) else None.
Proof.
  cbv zeta. unfold tableBlock. set (n := if device =? ExtendedIdent then _ else _).
  assert (0 < n)%nat as Hn by (unfold n; destruct (_ =? _); vm_compute; lia).
  rewrite Nat2Z.id. case_decide as Hs.
  - apply page_inside in Hs; [|done]. rewrite (proj2 (Nat.leb_gt _ _)) by done. done.
  - rewrite page_inside in Hs by done. rewrite (proj2 (Nat.leb_le _ _)) by lia. done.
Qed.

Lemma blockAttributes_named key i a block :
  AttributeDefinitions (definition_of key.1) !! i = Some a → i ≠ 0 →
  blockAttributes key (Mask a) block = Ok {[Name a := VOctets block]}.
Proof.
  intros Ha Hi. unfold blockAttributes. pose proof (Load_spec key.1 key.2 ∅) as H.
  destruct (LoadManagedEntityDefinition _ _) as [entity|]; [|destruct H as [_ []]; apply map_Forall_empty].
  destruct H as [-> _]. pose proof (definition_ok_of key.1) as Hd.
  destruct (List.find _ _) as [[j b]|] eqn:Hf.
  - apply find_some in Hf as [Hin Hb]. apply andb_true_iff in Hb as [Hj Hm].
    apply list_elem_of_In, elem_of_range in Hin. apply negb_true_iff, Z.eqb_neq in Hj. apply Z.eqb_eq in Hm.
    destruct (attribute_inv _ Hd i a Ha) as (_ & ? & _ & [_ Hma]); [done|].
    destruct (attribute_inv _ Hd j b Hin) as (_ & ? & _ & [_ Hmb]); [done|].
    assert (i = j) as <- by (rewrite Hma, Hmb in Hm; apply Z.pow_inj_r in Hm; lia). congruence.
  - exfalso. apply elem_of_range, list_elem_of_In in Ha. eapply find_none in Hf; [|exact Ha].
    cbn in Hf. rewrite Z.eqb_refl, andb_true_r, negb_false_iff, Z.eqb_eq in Hf. done.
Qed.

(** C26: A table is transferred whole: a get answers with the size of the table, and get next
    with the numbers 0, 1, ... returns blocks that put together are the table as it was then;
    any further number is refused. *)
Theorem table_transfer e instance mask device instance' e' i a rows
    (Hp : prepareTableGet e instance mask device = (Ok instance', e'))
    (Ha : AttributeDefinitions (definition_of (ClassID_of instance)) !! i = Some a) (Hi : i ≠ 0)
    (Ht : IsTableAttribute a = true) (Hm : Z.land mask (Mask a) ≠ 0)
    (Hv : i_Attributes instance !! Name a = Some (VTable rows)) :
  i_Attributes instance' !! Name a = Some (VU32 (u32 (Z.of_nat (length (Rows rows))))) ∧
  ∃ blocks, concat blocks = Rows rows ∧
    ∀ header (sequence : nat), DeviceIdentifier header = device →
      getNext e' header (i_Key instance) (Mask a) (Z.of_nat sequence) =
      serialize header GetNextResponseType (i_Key instance)
        (match blocks !! sequence with
         | Some block => GetNextResponse Success (Mask a) {[Name a := VOctets block]}
         | None => GetNextResponse ProcessingError (Mask a) ∅
         end).
Proof.
  unfold prepareTableGet in Hp. destruct (loadEntity_ok (i_Key instance)) as (entity & He & Hd). rewrite He, Hd in Hp.
  assert (Forall (λ p, AttributeDefinitions (definition_of (i_Key instance).1) !! p.1 = Some p.2)
            (range (AttributeDefinitions (definition_of (i_Key instance).1)))) as Hall
    by (apply Forall_forall; intros [j b]; apply elem_of_range).
  destruct (prepareTables_stores _ mask device _ i a rows (definition_ok_of _) Ha Hi
    (proj2 (elem_of_range _ _ _) Ha) (NoDup_range_fst _) Ht Hm Hall _ _ _ _ Hv Hp) as (_ & Hsize & Htable).
  split; [done|].
  set (n := if device =? ExtendedIdent then MaxAttributeGetNextExtendedLength else MaxAttributeGetNextBaselineLength).
  assert (0 < n)%nat as Hn by (unfold n; destruct (_ =? _); vm_compute; lia).
  exists (map (page n (Rows rows)) (seq 0 (pageCount n (Rows rows)))). split; [by apply pages_concat|].
  intros header sequence <-. unfold getNext. rewrite Htable, tableBlock_page. fold n. rewrite list_lookup_fmap.
  case_decide as Hs.
  - rewrite lookup_seq_lt by done. cbn. by rewrite (blockAttributes_named _ i).
  - by rewrite lookup_seq_ge by lia.
Qed.
End tables.

(** ** Concrete uploads *)

Definition is_Ok {E A} (r : Res E A) : bool := match r with Ok _ => true | Err _ => false end.

Definition uploadEngine : Engine (list Change) unit := NewForMode sample_store noControllers None XGSPON.
Definition uploadHeader : OMCI := mkOMCI 1 MibUploadRequestType BaselineIdent [].
Definition alarmHeader : OMCI := mkOMCI 1 GetAllAlarmsRequestType BaselineIdent [].
Definition sampleCommands : list uploadCommand :=
  match @buildUpload canonical_range (@Snapshot canonical_range _ sample_store) BaselineIdent with
  | Ok commands => commands | Err _ => []
  end.

Lemma sampleCommands_ok :
  @buildUpload canonical_range (@Snapshot canonical_range _ sample_store) BaselineIdent = Ok sampleCommands.
Proof. exact eq_refl. Qed.


(** An OLT that polls once a second. *)
Definition polls (header : OMCI) (n : nat) : list (nextRequest (W := list Change) (Sink := unit)) :=
  map (λ i, mkNext (λ e, e) (Z.of_nat i * 1000000000) header) (seq 1 n).


(** An ANI-G with a loss of signal. *)
Definition alarmedEngine : Engine (list Change) unit := SetAlarm uploadEngine (AniGClassID, 0x8001) (128 :: repeat 0 27).

Lemma alarm_session_witness :
  @reportedAlarms canonical_range _ _ alarmedEngine 0 = [mkAlarm (AniGClassID, 0x8001) (128 :: repeat 0 27)] ∧
  alarmSequence (@getAllAlarms canonical_range _ _ alarmedEngine 0 alarmHeader (OnuDataClassID, 0) 0).2 = 0.
Proof.
  split; [vm_compute; reflexivity|].
  apply (@alarm_session canonical_range _ _ alarmedEngine 0 alarmHeader (OnuDataClassID, 0) 0
    (polls alarmHeader 1)).
  - apply Forall_forall. by intros r (i & -> & _)%list_elem_of_fmap.
  - vm_compute. repeat split.
  - vm_compute. reflexivity.
Defined.

(** A table of two rows of nine octets and three of sixteen. *)
Definition tableInstance : Instance_ :=
  mkInstance (ExtendedVlanTaggingOperationConfigurationDataClassID, 1)
    {["ReceivedFrameVlanTaggingOperationTable" := VTable (mkRows 3 (map Z.of_nat (seq 0 48)))]} OriginOLT.

Definition tableAttribute : AttributeDefinition :=
  TableField "ReceivedFrameVlanTaggingOperationTable" TableAttributeType 1024 16 [MeTypes.Read; Write]
    false false false 6.

Lemma table_transfer_witness :
  ∃ (e' : Engine (list Change) unit) blocks, blocks ≠ [] ∧ concat blocks = map Z.of_nat (seq 0 48) ∧
    @getNext canonical_range _ _ e' (mkOMCI 1 GetNextRequestType BaselineIdent []) (i_Key tableInstance) 1024 0 =
    @serialize canonical_range (mkOMCI 1 GetNextRequestType BaselineIdent []) GetNextResponseType
      (i_Key tableInstance)
      (match blocks !! 0%nat with
       | Some block => GetNextResponse Success 1024 {[Name tableAttribute := VOctets block]}
       | None => GetNextResponse ProcessingError 1024 ∅
       end).
Proof.
  destruct (@prepareTableGet canonical_range _ _ uploadEngine tableInstance 1024 BaselineIdent) as [r e'] eqn:Hp.
  assert (is_Ok (@prepareTableGet canonical_range _ _ uploadEngine tableInstance 1024 BaselineIdent).1 = true) as Hr
    by (vm_compute; reflexivity).
  rewrite Hp in Hr.
  destruct r as [instance'|]; [|discriminate Hr].
  destruct (@table_transfer canonical_range _ _ uploadEngine tableInstance 1024 BaselineIdent instance' e' 6
    tableAttribute (mkRows 3 (map Z.of_nat (seq 0 48)))) as (_ & blocks & Hb & Hn);
    [exact Hp|vm_compute; reflexivity|discriminate|vm_compute; reflexivity|vm_compute; discriminate|vm_compute; reflexivity|].
  exists e', blocks. split; [|split; [exact Hb|apply (Hn (mkOMCI 1 GetNextRequestType BaselineIdent []) 0%nat); reflexivity]].
  intros ->. discriminate Hb.
Defined.

(** ** The extended packing

    [buildUpload] lets the entities of a command take [MaxManagedEntityMibUploadNextExtendedLength]
    octets; the serializer counts two more octets for the first entity and refuses a further one
    when eight octets or less are left.  A threshold data and 193 histories that use it: *)
Definition thresholdInstance : Instance_ :=
  mkInstance (ThresholdData1ClassID, 1)
    (list_to_map ((ManagedEntityID, VU16 1) ::
       map (λ name, (name, VU32 100)) (take 7 (tail performanceThresholdValueNames)))) OriginOLT.
Definition historyInstance (id : Z) : Instance_ :=
  mkInstance (GemPortNetworkCtpPerformanceMonitoringHistoryDataClassID, id)
    {[ManagedEntityID := VU16 id; performanceThresholdAttribute := VU16 1]} OriginOLT.
Definition manyHistories : list Instance_ := thresholdInstance :: map historyInstance (map Z.of_nat (seq 1 193)).

(** An extended MIB upload can be built whose responses cannot be sent: the one command of
    this upload has 194 entities, within the limit of [buildUpload], and the serializer rejects
    it, so the engine answers the request with an error instead of a response. *)
Theorem extended_upload_unserializable :
  ∃ command,
    @buildUpload canonical_range manyHistories ExtendedIdent = Ok [command] ∧ length command = 194%nat ∧
    total (@entityCost canonical_range) command <= MaxManagedEntityMibUploadNextExtendedLength ∧
    @serialize canonical_range (mkOMCI 1 MibUploadNextRequestType ExtendedIdent []) MibUploadNextResponseType
      (OnuDataClassID, 0)
      (MibUploadNextResponse (List.hd (mkEntity (definition_of 0) 0 ∅) command) (List.tl command)) = Err HandlerError.
Proof.
  destruct (@buildUpload canonical_range manyHistories ExtendedIdent) as [commands|] eqn:Hb.
  - assert (length commands = 1%nat) as Hl.
    { assert (match @buildUpload canonical_range manyHistories ExtendedIdent with
              | Ok cs => length cs | Err _ => 0%nat end = 1%nat) as H by (vm_compute; reflexivity).
      by rewrite Hb in H. }
    destruct commands as [|command [|]]; [discriminate Hl| |discriminate Hl]. exists command.
    assert (match @buildUpload canonical_range manyHistories ExtendedIdent with
            | Ok [c] =>
                ((length c =? 194)%nat &&
                 (total (@entityCost canonical_range) c <=? MaxManagedEntityMibUploadNextExtendedLength) &&
                 match @serialize canonical_range (mkOMCI 1 MibUploadNextRequestType ExtendedIdent [])
                         MibUploadNextResponseType (OnuDataClassID, 0)
                         (MibUploadNextResponse (List.hd (mkEntity (definition_of 0) 0 ∅) c) (List.tl c)) with
                 | Err HandlerError => true | _ => false end)
            | _ => false end = true) as H by (vm_compute; reflexivity).
    rewrite Hb in H. apply andb_true_iff in H as [[?%Nat.eqb_eq ?%Z.leb_le]%andb_true_iff Hs].
    split_and!; [reflexivity|done|done|]. by destruct (serialize _ _ _ _) as [|[]].
  - exfalso. assert (is_Ok (@buildUpload canonical_range manyHistories ExtendedIdent) = true) as H
      by (vm_compute; reflexivity). by rewrite Hb in H.
Qed.
