(* ===== verification/NotifyProps.v ===== *)
(** * Engine: what the OLT is told

    The attribute value change frames of an autonomous change, the alarm table and its sequence
    numbers, and the quiet period of alarm reporting control. *)

From S2P Require Import Prelude Maps Paging MeTypes MeLib Mib MeNames Semantics Store.
From S2P Require Import StoreLemmas StoreInvariant StoreProps.
From S2P Require Import Model Frames Codec Software Controllers Engine PmRules Notify Upload UploadProps.

Section avc.
Context {MR : MapRange} {W Sink : Type}.
Implicit Types e : Engine W Sink.

(** The attribute at [index], if its change is notified. *)
Definition pickAvc (definitions : gmap Z AttributeDefinition) (changed : AttributeValueMap) (index : Z)
    : option avcAttribute :=
  if index =? 0 then None
  else match definitions !! index with
  | None => None
  | Some definition =>
      match changed !! Name definition with
      | Some value =>
          if Avc definition
          then Some (mkAvc (Name definition) (Mask definition) (Size definition) value) else None
      | None => None
      end
  end.

(** The changed attributes that are notified, by index. *)
Definition notified (definitions : gmap Z AttributeDefinition) (changed : AttributeValueMap) : list avcAttribute :=
  omap (pickAvc definitions changed) (GetAttributeDefinitionMapKeys definitions).

Lemma avcOrdered_notified definitions changed limit ordered :
  avcOrdered definitions changed limit = Ok ordered →
  ordered = notified definitions changed ∧ Forall (λ a, 0 < av_size a ≤ limit) ordered.
Proof.
  unfold avcOrdered, notified. set (keys := GetAttributeDefinitionMapKeys definitions).
  assert (∀ acc, Forall (λ a, 0 < av_size a ≤ limit) acc →
    foldM_res (λ ordered index,
      if index =? 0 then Ok ordered
      else match definitions !! index with
      | None => Ok ordered
      | Some definition =>
          match changed !! Name definition with
          | None => Ok ordered
          | Some value =>
              if negb (Avc definition) then Ok ordered
              else if IsTableAttribute definition || (Size definition <=? 0) || (limit <? Size definition)
              then Err (PlainError "AVC attribute cannot fit")
              else Ok (ordered ++ [mkAvc (Name definition) (Mask definition) (Size definition) value])
          end
      end) keys acc = Ok ordered →
    ordered = acc ++ omap (pickAvc definitions changed) keys ∧ Forall (λ a, 0 < av_size a ≤ limit) ordered) as H.
  { induction keys as [|index keys IH]; intros acc Hacc.
    { cbn. intros [= <-]. by rewrite app_nil_r. }
    cbn [foldM_res]. intros Ho. apply Res_bind_Ok in Ho as (acc' & H1 & Ho).
    assert (acc' = acc ++ omap (pickAvc definitions changed) [index] ∧ Forall (λ a, 0 < av_size a ≤ limit) acc')
      as [-> Hacc'].
    { cbn. unfold pickAvc. destruct (index =? 0); [injection H1 as <-; by rewrite app_nil_r|].
      destruct (definitions !! index) as [d|]; [|injection H1 as <-; by rewrite app_nil_r].
      destruct (changed !! Name d); [|injection H1 as <-; by rewrite app_nil_r].
      destruct (Avc d); cbn [negb] in H1; [|injection H1 as <-; by rewrite app_nil_r].
      destruct (_ || _) eqn:Hs; [done|]. injection H1 as <-. split; [done|].
      apply Forall_app. split; [done|]. apply Forall_singleton. cbn. lia. }
    destruct (IH _ Hacc' Ho) as [-> ?]. split; [|done]. rewrite <- app_assoc. f_equal.
    change (index :: keys) with ([index] ++ keys). by rewrite omap_app. }
  intros Ho. by apply (H []).
Qed.

(** The message of a group of attributes. *)
Definition groupMask (group : list avcAttribute) : Z := foldl (λ mask a, Z.lor mask (av_mask a)) 0 group.
Definition groupValues (group : list avcAttribute) : AttributeValueMap :=
  foldl (λ values a, <[av_name a := av_value a]> values) ∅ group.
Definition avcFrame (key : Key) (device : Z) (group : list avcAttribute) : Res MibError (list Z) :=
  serializeAutonomous device 0 AttributeValueChangeType key
    (AttributeValueChangeMsg (groupMask group) (groupValues group)).

Lemma groupValues_empty group : groupValues group = ∅ ↔ group = [].
Proof.
  split; [|by intros ->]. destruct group as [|a group _] using rev_ind; [done|].
  unfold groupValues. rewrite foldl_app. cbn. intros H%(f_equal (lookup (av_name a))).
  by rewrite lookup_insert_eq in H.
Qed.

(** The loop over the attributes is the greedy filling. *)
Lemma avcFrames_greedy key device limit ordered :
  Forall (λ a, av_size a ≤ limit) ordered → ordered ≠ [] → 0 ≤ limit →
  avcFrames key device limit ordered = mapM_res (avcFrame key device) (greedy av_size limit ordered).
Proof.
  intros Ho Hne Hl.
  transitivity (os ← mapM_res (avcFrame key device) (greedyFrom av_size limit [] ordered); Ok ([] ++ os));
    [|destruct ordered; [done|]; unfold greedy; by destruct (mapM_res _ _)].
  refine (fill_greedy av_size limit
    (λ frames group, mkAvcState frames (groupValues group) (groupMask group) (total av_size group))
    (λ st a, negb (as_used st =? 0) && (limit <? as_used st + av_size a)) (avcFlush key device)
    (λ st a, mkAvcState (as_frames st) (<[av_name a := av_value a]> (as_current st))
               (Z.lor (as_mask st) (av_mask a)) (as_used st + av_size a))
    (avcFrame key device)
    (λ st, st ← (if bool_decide (as_current st = ∅) then Ok st else avcFlush key device st); Ok (as_frames st))
    False ordered _ _ _ _ _ [] [] _ _); try done.
  - intros frames group a Hg Ha. cbn [as_used]. destruct group as [|b group].
    + rewrite bool_decide_eq_true_2 by done. done.
    + rewrite bool_decide_eq_false_2 by done. cbn [negb andb]. destruct (limit <? _) eqn:Hlt; lia.
  - intros frames group a. cbn. unfold groupValues, groupMask. rewrite !foldl_app, total_app.
    unfold total. cbn. do 2 f_equal. lia.
  - intros frames group Hg. cbn [as_current].
    assert (group ≠ []) as Hn by (intros ->; by apply Hg). rewrite bool_decide_eq_false_2 by by rewrite groupValues_empty.
    unfold avcFlush. cbn [as_mask as_current as_frames]. fold (avcFrame key device group).
    by destruct (avcFrame key device group).
Qed.

(** The notifications of an autonomous change are complete: unless an administrative lock
    suppresses them, the frames returned carry exactly the AVC attributes whose value changed,
    with the values the MIB now holds, each in one frame, in the order of their indices, and
    no frame carries more than its format allows. *)
Theorem attribute_change_notified e key attributes device frames e'
    (Hx : NotifyAttributeChange e key attributes device = (Ok frames, e'))
    (Hs : notificationsSuppressed (mibOf e') key = Ok false) :
  let format := notificationDevice e device in
  ∃ changed groups,
    UpdateAutonomous (mibOf e) key attributes = (Ok changed, mibOf e') ∧ e' = setMib e (mibOf e') ∧
    concat groups = notified (AttributeDefinitions (definition_of key.1)) changed ∧
    Forall (λ group, group ≠ [] ∧ total av_size group ≤ avcLimit format) groups ∧
    mapM_res (avcFrame key format) groups = Ok frames.
Proof.
  intros format. unfold NotifyAttributeChange in Hx. destruct (validateCapabilityAVC _ _ _); [|discriminate Hx].
  destruct (UpdateAutonomous (mibOf e) key attributes) as [[changed|] mib] eqn:Hu; [|discriminate Hx].
  injection Hx as Hf <-. cbn in Hs. exists changed.
  unfold attributeValueChangeFrames in Hf. apply Res_bind_Ok in Hf as (? & _ & Hf).
  assert (∀ d, notified d (∅ : AttributeValueMap) = []) as Hnone.
  { intros d. unfold notified. induction (GetAttributeDefinitionMapKeys d) as [|index l IH]; [done|].
    cbn. unfold pickAvc at 1. destruct (index =? 0); [done|]. by destruct (d !! index). }
  case_bool_decide as Hc.
  { injection Hf as <-. subst changed. exists []. rewrite Hnone. by repeat split. }
  change (notificationDevice (setMib e mib) device) with format in Hf. cbv zeta in Hf.
  change (mibOf (setMib e mib)) with mib in *. rewrite Hs in Hf. cbn [mbind Res_bind] in Hf.
  destruct (loadEntity_ok key) as (entity & He & Hd). rewrite He in Hf. cbn [mbind Res_bind] in Hf. rewrite Hd in Hf.
  apply Res_bind_Ok in Hf as (ordered & Ho & Hf). destruct (avcOrdered_notified _ _ _ _ Ho) as [Heq Hsize].
  rewrite <- Heq. destruct ordered as [|a0 ordered]; [injection Hf as <-; exists []; by repeat split|].
  assert (0 ≤ avcLimit format) as Hl by (unfold avcLimit; destruct (_ =? _); vm_compute; discriminate).
  assert (Forall (λ a, av_size a ≤ avcLimit format) (a0 :: ordered)) as Hfit
    by (eapply Forall_impl; [exact Hsize|]; cbn; lia).
  rewrite avcFrames_greedy in Hf by done.
  exists (greedy av_size (avcLimit format) (a0 :: ordered)). split_and!; try done.
  - apply concat_greedy.
  - apply Forall_and. split; [apply greedy_nonempty|by apply greedy_fits].
Qed.
End avc.

(** ** Alarms and their control *)

Section alarms.
Context {MR : MapRange} {W Sink : Type}.
Implicit Types e : Engine W Sink.

Lemma NotifyAttributeChange_frame e key attributes device r e' :
  NotifyAttributeChange e key attributes device = (r, e') → e' = setMib e (mibOf e').
Proof.
  unfold NotifyAttributeChange. destruct (validateCapabilityAVC _ _ _); [|intros [= _ <-]; by destruct e as [[]]].
  destruct (UpdateAutonomous _ _ _) as [[changed|] mib]; by intros [= _ <-].
Qed.

Lemma pollARCKey_frame e now key device r e' :
  pollARCKey e now key device = (r, e') →
  alarms e' = alarms e ∧ alarmSequence e' = alarmSequence e ∧ ∀ k, k ≠ key → arcFreeSince e' !! k = arcFreeSince e !! k.
Proof.
  unfold pollARCKey.
  assert (∀ e1 e2, (∃ m, arcFreeSince e1 = m ∧ ∀ k, k ≠ key → m !! k = arcFreeSince e !! k) →
    alarms e1 = alarms e → alarmSequence e1 = alarmSequence e → e2 = setMib e1 (mibOf e2) →
    alarms e2 = alarms e ∧ alarmSequence e2 = alarmSequence e ∧
    ∀ k, k ≠ key → arcFreeSince e2 !! k = arcFreeSince e !! k) as Hset.
  { intros e1 e2 (m & Hm & Hk) Ha Hs ->. split_and!; [done|done|]. intros k Hne. cbn. rewrite Hm. by apply Hk. }
  destruct (arcConfiguration _ _) as [[[[] interval]|]|].
  - destruct (arcGroupHasAlarm e key).
    + intros [= _ <-]. split_and!; [done..|]. intros k Hk. cbn. by rewrite lookup_delete_ne.
    + cbv zeta. destruct (_ || _).
      * intros [= _ <-]. split_and!; [done..|]. intros k Hk. cbn. by rewrite lookup_insert_ne.
      * intros Hn%NotifyAttributeChange_frame. refine (Hset _ _ _ _ _ Hn); [|done|done].
        eexists. split; [done|]. intros k Hk. cbn. by rewrite lookup_delete_ne, lookup_insert_ne.
  - intros [= _ <-]. split_and!; [done..|]. intros k Hk. cbn. by rewrite lookup_delete_ne.
  - intros [= _ <-]. split_and!; [done..|]. intros k Hk. cbn. by rewrite lookup_delete_ne.
  - by intros [= _ <-].
Qed.

(** The quiet period of [key] is over at [now]: alarm reporting control is on and not for ever,
    no alarm of its group is active, and its timer has run for the configured interval. *)
Definition quiet_period_over e (now : Z) (key : Key) : Prop :=
  ∃ interval since, arcConfiguration (mibOf e) key = Ok (Some (true, interval)) ∧ interval ≠ 255 ∧
    arcGroupHasAlarm e key = false ∧ default now (arcFreeSince e !! key) = since ∧
    since + interval * minute ≤ now.

Lemma pollARCKey_quiet e now key device r e' :
  pollARCKey e now key device = (r, e') →
  (mibOf e' ≠ mibOf e ∨ ∃ frame frames, r = Ok (frame :: frames)) → quiet_period_over e now key.
Proof.
  unfold pollARCKey, quiet_period_over. intros Hp Hr.
  destruct (arcConfiguration _ _) as [[[[] interval]|]|] eqn:Hc;
    try (exfalso; injection Hp as <- <-; destruct Hr as [|(? & ? & ?)]; done).
  destruct (arcGroupHasAlarm e key) eqn:Hg;
    [exfalso; injection Hp as <- <-; destruct Hr as [|(? & ? & ?)]; done|].
  cbv zeta in Hp. destruct ((interval =? 255) || _) eqn:Hi;
    [exfalso; injection Hp as <- <-; destruct Hr as [|(? & ? & ?)]; done|].
  apply orb_false_iff in Hi as [Hi Ht]. exists interval, (default now (arcFreeSince e !! key)).
  split_and!; [done|lia|done|done|lia].
Qed.

Lemma recordAlarm_table e key bitmap :
  default zeroBitmap (alarms (recordAlarm e key bitmap) !! key) = bitmap ∧
  ∀ k, k ≠ key → alarms (recordAlarm e key bitmap) !! k = alarms e !! k.
Proof.
  unfold recordAlarm. case_bool_decide as Hz; cbn; split; intros.
  - by rewrite lookup_delete_eq.
  - by rewrite lookup_delete_ne.
  - by rewrite lookup_insert_eq.
  - by rewrite lookup_insert_ne.
Qed.

Lemma recordAlarm_fields e key bitmap :
  alarmSequence (recordAlarm e key bitmap) = alarmSequence e ∧ mibOf (recordAlarm e key bitmap) = mibOf e ∧
  arcFreeSince (recordAlarm e key bitmap) = arcFreeSince e.
Proof. unfold recordAlarm. by case_bool_decide. Qed.

(** An accepted alarm is in the table, and no other alarm changes. *)
Lemma NotifyAlarm_table e now key bitmap device r e' :
  NotifyAlarm e now key bitmap device = (Ok r, e') →
  default zeroBitmap (alarms e' !! key) = bitmap ∧ ∀ k, k ≠ key → alarms e' !! k = alarms e !! k.
Proof.
  unfold NotifyAlarm. destruct (validateAlarm _ _ _ _); [|discriminate]. cbv zeta.
  case_bool_decide as Hsame; [by intros [= <- <-]|].
  pose proof (recordAlarm_table e key bitmap) as Hr.
  assert (∀ f o, alarms (if arcGroupHasAlarm (recordAlarm e key bitmap) o
    then set_arcFreeSince (recordAlarm e key bitmap) f.1 else set_arcFreeSince (recordAlarm e key bitmap) f.2) =
    alarms (recordAlarm e key bitmap)) as Hset by (intros; by case_match).
  destruct (alarmReporting (mibOf e) key) as [[suppressed [owner|]]|]; [| |discriminate].
  - specialize (Hset (delete owner (arcFreeSince e), <[owner := default now (arcFreeSince e !! owner)]> (arcFreeSince e)) owner).
    cbn [fst snd] in Hset.
    destruct (pollARCKey _ now owner _) as [[frames|] e2] eqn:Hp; [|by destruct suppressed].
    destruct (pollARCKey_frame _ _ _ _ _ _ Hp) as (Ha & _). rewrite Hset in Ha.
    destruct frames as [|frame frames], suppressed; intros [_ <-]%pair_equal_spec; by rewrite Ha.
  - destruct suppressed; [by intros [_ <-]%pair_equal_spec|].
    destruct (serializeAutonomous _ _ _ _ _); [|discriminate]. by intros [_ <-]%pair_equal_spec.
Qed.


Lemma pollARCKey_unchanged e now key device r e' :
  pollARCKey e now key device = (r, e') → ¬ quiet_period_over e now key →
  (∀ frames, r = Ok frames → frames = []) ∧
  ∃ m, e' = set_arcFreeSince e m ∧ ∀ k, k ≠ key → m !! k = arcFreeSince e !! k.
Proof.
  intros Hp Hq. unfold pollARCKey, quiet_period_over in *.
  assert (∀ frames : list (list Z), Ok [] = (Ok frames : Res MibError _) → frames = []) as Hnil by by intros ? [=].
  destruct (arcConfiguration _ _) as [[[[] interval]|]|] eqn:Hc.
  - destruct (arcGroupHasAlarm e key) eqn:Hg.
    + injection Hp as <- <-. split; [done|]. eexists. split; [done|]. intros. by rewrite lookup_delete_ne.
    + cbv zeta in Hp. destruct ((interval =? 255) || _) eqn:Hi.
      * injection Hp as <- <-. split; [done|]. eexists. split; [done|]. intros. by rewrite lookup_insert_ne.
      * destruct Hq. apply orb_false_iff in Hi as [Hi Ht]. exists interval, (default now (arcFreeSince e !! key)).
        split_and!; [done|lia|done|done|lia].
  - injection Hp as <- <-. split; [done|]. eexists. split; [done|]. intros. by rewrite lookup_delete_ne.
  - injection Hp as <- <-. split; [done|]. eexists. split; [done|]. intros. by rewrite lookup_delete_ne.
  - injection Hp as <- <-. split; [done|]. exists (arcFreeSince e). split; [by destruct e|done].
Qed.

(** Alarm reporting control ends only after its quiet period: a poll while no quiet period is
    over (the control is off, or unlimited, or an alarm of the group is active, or its timer
    has not run out) changes nothing but timers and returns no frame. *)
Theorem arc_holds_until_quiet e now device r e'
    (Hq : ∀ key since, arcFreeSince e !! key = Some since → ¬ quiet_period_over e now key)
    (Hx : PollARC e now device = (r, e')) :
  (∃ m, e' = set_arcFreeSince e m) ∧ ∀ frames, r = Ok frames → frames = [].
Proof.
  unfold PollARC in Hx. destruct (validateDeviceIdentifier device);
    [|injection Hx as <- <-; split; [exists (arcFreeSince e); by destruct e|done]].
  set (format := notificationDevice e device) in Hx. clearbody format.
  assert (∀ keys m, NoDup keys →
    (∀ key, key ∈ keys → is_Some (arcFreeSince e !! key) ∧ m !! key = arcFreeSince e !! key) →
    pollARCKeys (set_arcFreeSince e m) now keys format [] = (r, e') →
    (∃ m, e' = set_arcFreeSince e m) ∧ ∀ frames, r = Ok frames → frames = []) as Hloop.
  { induction keys as [|key keys IH]; intros m Hnd Hkeys; cbn [pollARCKeys].
    { intros [= <- <-]. split; [by eexists|]. by intros ? [=]. }
    apply NoDup_cons in Hnd as [Hnot Hnd]. destruct (Hkeys key) as [[since Hs] Hm]; [by left|].
    destruct (pollARCKey (set_arcFreeSince e m) now key format) as [r1 e1] eqn:Hp.
    apply pollARCKey_unchanged in Hp as (Hr1 & m1 & -> & Hm1).
    - destruct r1 as [generated|err]; [|intros [= <- <-]; split; [by exists m1|done]].
      rewrite (Hr1 generated) by done. cbn [app].
      change (set_arcFreeSince (set_arcFreeSince e m) m1) with (set_arcFreeSince e m1).
      apply IH; [done|]. intros k Hk. destruct (Hkeys k) as [? Hmk]; [by right|]. split; [done|].
      rewrite Hm1; [done|]. intros ->. done.
    - intros (interval & since' & Hc & Hi & Hg & Hsi & Hle). apply (Hq _ _ Hs).
      exists interval, since'. split_and!; try done. by rewrite <- Hm. }
  apply (Hloop (sortedKeys pair_le (arcFreeSince e)) (arcFreeSince e)).
  - apply NoDup_sortedKeys.
  - intros key Hk%elem_of_sortedKeys. done.
  - by destruct e.
Qed.
End alarms.

(** ** Concrete notifications *)

Lemma attribute_change_notified_witness :
  let o := @NotifyAttributeChange canonical_range _ _ uploadEngine (OnuGClassID, 0)
             {[ "OperationalState" := VU8 1 ]} BaselineIdent in
  ∃ changed groups frames, o.1 = Ok frames ∧ length frames = 1%nat ∧
    @UpdateAutonomous canonical_range _ (mibOf uploadEngine) (OnuGClassID, 0)
      {[ "OperationalState" := VU8 1 ]} = (Ok changed, mibOf o.2) ∧
    concat groups = @notified canonical_range (AttributeDefinitions (definition_of OnuGClassID)) changed.
Proof.
  intros o. destruct o as [r e'] eqn:Ho. subst o.
  assert (match (@NotifyAttributeChange canonical_range _ _ uploadEngine (OnuGClassID, 0)
                   {[ "OperationalState" := VU8 1 ]} BaselineIdent) with
          | (Ok frames, e') => length frames = 1%nat ∧
              @notificationsSuppressed canonical_range _ (mibOf e') (OnuGClassID, 0) = Ok false
          | _ => False end) as H by (vm_compute; split; reflexivity).
  rewrite Ho in H. destruct r as [frames|]; [|destruct H]. destruct H as [Hl Hs].
  destruct (@attribute_change_notified canonical_range _ _ uploadEngine (OnuGClassID, 0)
    {[ "OperationalState" := VU8 1 ]} BaselineIdent frames e' Ho Hs) as (changed & groups & Hu & _ & Hg & _).
  exists changed, groups, frames. exact (conj eq_refl (conj Hl (conj Hu Hg))).
Defined.

Definition failedBitmap : list Z := 128 :: repeat 0 27.


(** An Ethernet UNI with alarm reporting control on for a minute since the time 100. *)
Definition arcKey : Key := (PhysicalPathTerminationPointEthernetUniClassID, 0x0101).
Definition arcEngine : Engine unit unit :=
  let uni := mkInstance arcKey
    {[ ManagedEntityID := VU16 0x0101; arcAttribute := VU8 1; arcIntervalAttribute := VU8 1 ]} OriginONU in
  set_arcFreeSince (NewForMode (mkStore ∅ {[ arcKey := uni ]} 0 None 64 "" None None ∅ None) noControllers None XGSPON)
    {[ arcKey := 100 ]}.

Lemma arc_holds_until_quiet_witness :
  (@PollARC canonical_range _ _ arcEngine (100 + minute) BaselineIdent).1 ≠ Ok [] ∧
  ∀ frames, (@PollARC canonical_range _ _ arcEngine 200 BaselineIdent).1 = Ok frames → frames = [].
Proof.
  split; [vm_compute; discriminate|].
  destruct (@PollARC canonical_range _ _ arcEngine 200 BaselineIdent) as [r e'] eqn:Hx.
  destruct (@arc_holds_until_quiet canonical_range _ _ arcEngine 200 BaselineIdent r e') as [_ H]; [|exact Hx|exact H].
  intros key since Hk (interval & since' & Hc & _ & _ & Hs & Hle).
  assert (key = arcKey) as -> by (cbn in Hk; by apply lookup_singleton_Some in Hk as [<- _]).
  assert (@arcConfiguration canonical_range _ (mibOf arcEngine) arcKey = Ok (Some (true, 1))) as Hc' by (vm_compute; reflexivity).
  rewrite Hc' in Hc. assert (interval = 1) as -> by congruence.
  assert (default 200 (arcFreeSince arcEngine !! arcKey) = 100) as Hd by (vm_compute; reflexivity).
  rewrite Hd in Hs. unfold minute in Hle. lia.
Defined.
