(* ===== verification/DispatchProps.v ===== *)
(** * Engine: what no request can break

    Every handler of the engine leaves the transaction layer and the PON mode alone and changes
    the MIB only through the operations of the store.  So the theorems of EngineProps.v hold of
    the real handlers, and the MIB of a running engine is always well formed. *)

From S2P Require Import Prelude Maps MeTypes MeLib Mib MeNames Semantics Table Store.
From S2P Require Import StoreLemmas StoreInvariant StoreProps.
From S2P Require Import Model Frames Codec Software Optics Netip McPolicy Controllers Engine EngineProps.
From S2P Require Import PmRules Notify Upload Performance OpticalAlarms Onu3 Capability McMonitor Dispatch.

(** ** Stores and engines that come from one another *)

Section served.
Context {MR : MapRange} {W : Type}.
Implicit Types s : Store W.

(** One operation of the store; the autonomous ones do not reach the platform. *)
Inductive serves : relation (Store W) :=
| sv_execute s w r res s' w' : execute s w r = (res, s', w') → serves s s'
| sv_autonomous s key attributes r s' : UpdateAutonomous s key attributes = (r, s') → serves s s'
| sv_batch s updates r s' : UpdateAutonomousBatch s updates = (r, s') → serves s s'.

(** [s'] comes from [s] by store operations. *)
Definition served : relation (Store W) := rtc serves.

Lemma served_refl s : served s s.
Proof. apply rtc_refl. Qed.

Lemma serves_inv s s' : serves s s' → store_inv s → store_inv s'.
Proof.
  intros [s1 w r res s2 w' Hx|s1 key attributes r s2 Hx|s1 updates r s2 Hx] Hs; [by eapply execute_inv| |].
  - unfold UpdateAutonomous in Hx. destruct (prepareUpdate s1 key _ attributes) eqn:Hp; [|by injection Hx as _ <-].
    case_bool_decide; injection Hx as _ <-; [done|]. by eapply proposes_inv, p_autonomous.
  - unfold UpdateAutonomousBatch in Hx.
    destruct (foldM_res _ _ _) eqn:Hp; injection Hx as _ <-; [|done]. by eapply proposes_inv, p_batch.
Qed.

Lemma served_inv s s' : served s s' → store_inv s → store_inv s'.
Proof. induction 1 as [|s1 s2 s3 Hx _ IH]; [done|]. intros Hs. by eapply IH, serves_inv. Qed.

Lemma served_execute s w r res s' w' : execute s w r = (res, s', w') → served s s'.
Proof. intros Hx. by eapply rtc_once, sv_execute. Qed.

Lemma served_create s w c i a r s' w' : Store.Create s w c i a = (r, s', w') → served s s'.
Proof. intros H. by eapply (served_execute s w (RCreate c i a)). Qed.
Lemma served_set s w k a r s' w' : Set_ s w k a = (r, s', w') → served s s'.
Proof. intros H. by eapply (served_execute s w (RSet k a)). Qed.
Lemma served_set_table s w k m a r s' w' : SetTable s w k m a = (r, s', w') → served s s'.
Proof. intros H. by eapply (served_execute s w (RSetTable k m a)). Qed.
Lemma served_delete s w k r s' w' : Store.Delete s w k = (r, s', w') → served s s'.
Proof. intros H. by eapply (served_execute s w (RDelete k)). Qed.
Lemma served_reset s w r s' w' : Reset_ s w = (r, s', w') → served s s'.
Proof. intros H. by eapply (served_execute s w RReset). Qed.
Lemma served_expire s w k t r s' w' : ExpireAllowedPreviewRows s w k t = (r, s', w') → served s s'.
Proof.
  intros H. eapply (served_execute s w (RExpire k t) (r ← r; Ok tt) s' w'). cbn [execute]. rewrite H.
  by destruct r.
Qed.
Lemma served_autonomous s k a r s' : UpdateAutonomous s k a = (r, s') → served s s'.
Proof. intros H. by eapply rtc_once, sv_autonomous. Qed.
Lemma served_batch s u r s' : UpdateAutonomousBatch s u = (r, s') → served s s'.
Proof. intros H. by eapply rtc_once, sv_batch. Qed.
Lemma served_command s w u r s' w' : UpdateByCommand s w u = (r, s', w') → served s s'.
Proof. intros H. by eapply (served_execute s w (RCommand u)). Qed.
Lemma served_transaction s w u t r s' w' : UpdateByCommandTransactional s w u t = (r, s', w') → served s s'.
Proof. intros H. by eapply (served_execute s w (RTransaction u t)). Qed.
End served.

Create HintDb served discriminated.
#[export] Hint Constants Opaque : served.
#[export] Hint Resolve served_create served_set served_set_table served_delete served_reset served_expire
  served_autonomous served_batch served_command served_transaction served_refl : served.

(** [e'] has the transaction layer and the PON mode of [e], and a MIB that comes from its MIB. *)
Definition keeps {MR : MapRange} {W Sink} (e e' : Engine W Sink) : Prop :=
  transactions e' = transactions e ∧ ponMode e' = ponMode e ∧ served (mibOf e) (mibOf e').

Section keeps.
Context {MR : MapRange} {W Sink : Type}.
Implicit Types (e : Engine W Sink) (w : W).

#[local] Instance keeps_refl : Reflexive (@keeps MR W Sink).
Proof. intros e. by split_and!; [..|apply rtc_refl]. Qed.
#[local] Instance keeps_trans : Transitive (@keeps MR W Sink).
Proof.
  intros a b c (Ht & Hp & Hm) (Ht' & Hp' & Hm'). split_and!; [congruence|congruence|].
  by etrans.
Qed.

(** An assignment to other fields. *)
Lemma keeps_fields e e' :
  transactions e' = transactions e → ponMode e' = ponMode e → mibOf e' = mibOf e → keeps e e'.
Proof. intros Ht Hp Hm. split_and!; [done..|]. rewrite Hm. apply rtc_refl. Qed.

Lemma keeps_mib e mib : served (mibOf e) mib → keeps e (setMib e mib).
Proof. intros H. repeat split. exact H. Qed.
End keeps.
#[export] Existing Instances keeps_refl keeps_trans.

Create HintDb keeps discriminated.
#[export] Hint Constants Opaque : keeps.

(** [keeps e e'] from the equations that say how [e'] was computed. *)
Ltac keeps_chain :=
  lazymatch goal with
  | |- keeps ?e ?e => reflexivity
  | H : keeps ?e ?e' |- keeps ?e ?e' => exact H
  | |- keeps _ (match ?b with _ => _ end) => destruct b; keeps_chain
  | |- keeps _ (setMib ?e1 _) =>
      transitivity e1; [keeps_chain|apply keeps_mib; solve [eauto 3 with served nocore]]
  | |- keeps _ (clearAllPerformanceTCAs ?e1) => transitivity e1; [keeps_chain|generalize e1; intros; apply keeps_fields; reflexivity]
  | |- keeps _ (?f ?e1 _) =>
      transitivity e1; [keeps_chain|first [solve [eauto 2 with keeps nocore]|generalize e1; intros; apply keeps_fields; reflexivity]]
  | |- keeps _ _ => etransitivity; [|solve [eauto 2 with keeps nocore]]; keeps_chain
  end.

(** Follows the branches of a computation that returned a tuple. *)
Ltac keeps_cases :=
  repeat lazymatch goal with
  | H : (let _ := _ in _) = (_, _) |- _ => cbv zeta in H
  | H : match ?x with _ => _ end = (_, _) |- _ => destruct x eqn:?; cbn beta iota in H
  | H : (_, _) = (_, _) |- _ => apply pair_equal_spec in H as [? ?]; subst
  end.

(** For [f e ... = (r, e') → keeps e e'] once [f] is unfolded in [H]. *)
Ltac keeps_tac := intros; keeps_cases; keeps_chain.

Section handlers.
Context {MR : MapRange} {W Sink : Type}.
Implicit Types (e : Engine W Sink) (w : W).

(** ** Notifications *)

Lemma NotifyAttributeChange_keeps e key attributes device r e' :
  NotifyAttributeChange e key attributes device = (r, e') → keeps e e'.
Proof. unfold NotifyAttributeChange. keeps_tac. Qed.
#[local] Hint Resolve NotifyAttributeChange_keeps : keeps.

Lemma pollARCKey_keeps e now key device r e' : pollARCKey e now key device = (r, e') → keeps e e'.
Proof. unfold pollARCKey. keeps_tac. Qed.
#[local] Hint Resolve pollARCKey_keeps : keeps.

Lemma recordAlarm_keeps e key bitmap : keeps e (recordAlarm e key bitmap).
Proof. unfold recordAlarm. keeps_tac. Qed.

Lemma NotifyAlarm_keeps e now key bitmap device r e' :
  NotifyAlarm e now key bitmap device = (r, e') → keeps e e'.
Proof.
  unfold NotifyAlarm. pose proof (recordAlarm_keeps e key bitmap) as Hr.
  generalize dependent (recordAlarm e key bitmap). keeps_tac.
Qed.
#[local] Hint Resolve NotifyAlarm_keeps : keeps.

Lemma pollARCKeys_keeps keys : ∀ e now device frames r e',
  pollARCKeys e now keys device frames = (r, e') → keeps e e'.
Proof.
  induction keys as [|key keys IH]; intros * H; cbn [pollARCKeys] in H; keeps_cases; keeps_chain.
Qed.
#[local] Hint Resolve pollARCKeys_keeps : keeps.

Lemma PollARC_keeps e now device r e' : PollARC e now device = (r, e') → keeps e e'.
Proof. unfold PollARC. keeps_tac. Qed.

Lemma NotifyAlarmBit_keeps e now key alarm active device r e' :
  NotifyAlarmBit e now key alarm active device = (r, e') → keeps e e'.
Proof. unfold NotifyAlarmBit. keeps_tac. Qed.

(** ** Optical samples *)

Lemma evaluateOpticalSample_keeps e now key sample device r e' :
  evaluateOpticalSample e now key sample device = (r, e') → keeps e e'.
Proof. unfold evaluateOpticalSample. keeps_tac. Qed.
#[local] Hint Resolve evaluateOpticalSample_keeps : keeps.

Lemma NotifyOpticalSample_keeps e now key sample device r e' :
  NotifyOpticalSample e now key sample device = (r, e') → keeps e e'.
Proof. unfold NotifyOpticalSample. keeps_tac. Qed.

Lemma evaluateBERSample_keeps e now key sample device r e' :
  evaluateBERSample e now key sample device = (r, e') → keeps e e'.
Proof. unfold evaluateBERSample. keeps_tac. Qed.
#[local] Hint Resolve evaluateBERSample_keeps : keeps.

Lemma NotifyBERSample_keeps e now key sample device r e' :
  NotifyBERSample e now key sample device = (r, e') → keeps e e'.
Proof. unfold NotifyBERSample. keeps_tac. Qed.

Lemma restartARC_keeps e now key r e' : restartARC e now key = (r, e') → keeps e e'.
Proof. unfold restartARC. keeps_tac. Qed.
#[local] Hint Resolve restartARC_keeps : keeps.

Lemma generate_keeps condition step e0 r0 e1 r e' :
  (∀ e r e', step e = (r, e') → keeps e e') → keeps e0 e1 →
  @generate W Sink condition step (r0, e1) = (r, e') → keeps e0 e'.
Proof.
  unfold generate. intros Hs H0 H. keeps_cases; try exact H0; etrans; try exact H0; by eapply Hs.
Qed.

Lemma afterSet_keeps e now key attributes device r e' :
  afterSet e now key attributes device = (r, e') → keeps e e'.
Proof.
  unfold afterSet. cbv zeta. generalize (present attributes arcAttribute || present attributes arcIntervalAttribute).
  intros changed. destruct (if changed then restartARC e now key else (Ok (), e)) as [r0 e0] eqn:H0.
  assert (keeps e e0) as Hk0 by (destruct changed; [eapply restartARC_keeps; exact H0|injection H0 as _ <-; reflexivity]).
  destruct r0; [|intros [= _ <-]; done].
  destruct (match opticalSample e0 !! key with Some _ => _ | None => _ end) as [r1 e1] eqn:H1.
  assert (keeps e e1) as Hk1.
  { destruct (opticalSample e0 !! key); [|by injection H1 as _ <-].
    eapply generate_keeps; [|exact Hk0|exact H1]. intros ??? Hx. eapply evaluateOpticalSample_keeps. exact Hx. }
  clear H0 H1. destruct (match berSample e0 !! key with Some _ => _ | None => _ end) as [r2 e2] eqn:H2.
  assert (keeps e e2) as Hk2.
  { destruct (berSample e0 !! key); [|by injection H2 as _ <-].
    eapply generate_keeps; [|exact Hk1|exact H2]. intros ??? Hx. eapply evaluateBERSample_keeps. exact Hx. }
  intros H3. eapply generate_keeps; [|exact Hk2|exact H3]. intros ??? Hx. eapply pollARCKey_keeps. exact Hx.
Qed.
#[local] Hint Resolve afterSet_keeps : keeps.

(** ** Uploads and tables *)

Lemma mibUpload_keeps e now header key r e' : mibUpload e now header key = (r, e') → keeps e e'.
Proof. unfold mibUpload. keeps_tac. Qed.
Lemma mibUploadNext_keeps e now header key sequence r e' :
  mibUploadNext e now header key sequence = (r, e') → keeps e e'.
Proof. unfold mibUploadNext. keeps_tac. Qed.
Lemma getAllAlarms_keeps e now header key mode r e' : getAllAlarms e now header key mode = (r, e') → keeps e e'.
Proof. unfold getAllAlarms. keeps_tac. Qed.
Lemma getAllAlarmsNext_keeps e now header key sequence r e' :
  getAllAlarmsNext e now header key sequence = (r, e') → keeps e e'.
Proof. unfold getAllAlarmsNext. keeps_tac. Qed.

Lemma prepareTables_keeps definitions : ∀ e mask device instance r e',
  prepareTables e mask device definitions instance = (r, e') → keeps e e'.
Proof.
  induction definitions as [|[index attribute] definitions IH]; intros * H; cbn [prepareTables] in H;
    keeps_cases; keeps_chain.
Qed.

Lemma prepareTableGet_keeps e instance mask device r e' :
  prepareTableGet e instance mask device = (r, e') → keeps e e'.
Proof. unfold prepareTableGet. intros. keeps_cases; [by eapply prepareTables_keeps|keeps_chain]. Qed.
#[local] Hint Resolve prepareTableGet_keeps : keeps.

Lemma setTable_keeps e w header key mask attributes r e' w' :
  setTable e w header key mask attributes = (r, e', w') → keeps e e'.
Proof. unfold setTable. keeps_tac. Qed.

(** ** Performance *)

Lemma setStates_keeps {C} (k : counterKind W C) e states : keeps e (setStates k e states).
Proof. by apply keeps_fields. Qed.

Lemma reconcileKind_keeps {C} (k : counterKind W C) e w r e' : reconcileKind k e w = (r, e') → keeps e e'.
Proof. unfold reconcileKind. intros. keeps_cases; apply setStates_keeps. Qed.
#[local] Hint Resolve reconcileKind_keeps : keeps.

Lemma reconcilePerformance_keeps e w r e' : reconcilePerformance e w = (r, e') → keeps e e'.
Proof. unfold reconcilePerformance. keeps_tac. Qed.
#[local] Hint Resolve reconcilePerformance_keeps : keeps.

Lemma rebaseAll_keeps e b : keeps e (rebaseAll e b).
Proof. by apply keeps_fields. Qed.

Lemma evaluatePerformanceTCA_keeps e now key attributes rules device r e' :
  evaluatePerformanceTCA e now key attributes rules device = (r, e') → keeps e e'.
Proof. unfold evaluatePerformanceTCA. keeps_tac. Qed.
#[local] Hint Resolve evaluatePerformanceTCA_keeps : keeps.

Lemma clearPerformanceTCAKey_keeps e key : keeps e (clearPerformanceTCAKey e key).
Proof. unfold clearPerformanceTCAKey. case_match; by apply keeps_fields. Qed.
#[local] Hint Resolve clearPerformanceTCAKey_keeps : keeps.

Lemma clearAllPerformanceTCAs_keeps e : keeps e (clearAllPerformanceTCAs e).
Proof. by apply keeps_fields. Qed.
#[local] Hint Resolve clearAllPerformanceTCAs_keeps : keeps.

Lemma clearTCAs_keeps keys : ∀ e now device frames r e',
  clearTCAs e now device keys frames = (r, e') → keeps e e'.
Proof. induction keys as [|key keys IH]; intros * H; cbn [clearTCAs] in H; keeps_cases; keeps_chain. Qed.

Lemma clearPerformanceTCANotifications_keeps e now device r e' :
  clearPerformanceTCANotifications e now device = (r, e') → keeps e e'.
Proof. apply clearTCAs_keeps. Qed.
#[local] Hint Resolve clearPerformanceTCANotifications_keeps : keeps.

Lemma evaluateTCAs_keeps evaluations keys : ∀ e now device frames r e',
  evaluateTCAs e now device evaluations keys frames = (r, e') → keeps e e'.
Proof. induction keys as [|key keys IH]; intros * H; cbn [evaluateTCAs] in H; keeps_cases; keeps_chain. Qed.
#[local] Hint Resolve evaluateTCAs_keeps : keeps.

Lemma completeIntervals_keeps e intervals intervalEnd next acc baselines r e' :
  completeIntervals e intervals intervalEnd next acc baselines = (r, e') → keeps e e'.
Proof.
  unfold completeIntervals. intros. keeps_cases; [reflexivity| |reflexivity].
  etrans; [apply keeps_mib; eapply served_batch; eassumption|]. by apply keeps_fields.
Qed.
#[local] Hint Resolve completeIntervals_keeps : keeps.

Lemma pollPerformance_keeps e w now device r e' : pollPerformance e w now device = (r, e') → keeps e e'.
Proof. unfold pollPerformance. keeps_tac. Qed.
#[local] Hint Resolve pollPerformance_keeps : keeps.

Lemma PollPerformance_keeps e w now device r e' : PollPerformance e w now device = (r, e') → keeps e e'.
Proof. unfold PollPerformance. keeps_tac. Qed.

Lemma SetPerformanceController_keeps e source : keeps e (SetPerformanceController e source).
Proof. by apply keeps_fields. Qed.

Lemma getCurrentPerformance_keeps e w key mask r e' :
  getCurrentPerformance e w key mask = (r, e') → keeps e e'.
Proof. unfold getCurrentPerformance. keeps_tac. Qed.
#[local] Hint Resolve getCurrentPerformance_keeps : keeps.

Lemma preparePerformanceSynchronization_keeps e w r e' :
  preparePerformanceSynchronization e w = (r, e') → keeps e e'.
Proof. unfold preparePerformanceSynchronization. keeps_tac. Qed.
#[local] Hint Resolve preparePerformanceSynchronization_keeps : keeps.

Lemma commitPerformanceSynchronization_keeps e now b r e' :
  commitPerformanceSynchronization e now b = (r, e') → keeps e e'.
Proof.
  unfold commitPerformanceSynchronization. cbv zeta. intros. keeps_cases; [|reflexivity].
  etrans; [apply keeps_mib; eapply served_batch; eassumption|]. by apply keeps_fields.
Qed.
#[local] Hint Resolve commitPerformanceSynchronization_keeps : keeps.

(** ** ONU3-G and multicast *)

Lemma setONU3_keeps e w now key attributes r e' w' :
  setONU3 e w now key attributes = (r, e', w') → keeps e e'.
Proof. unfold setONU3. keeps_tac. Qed.
#[local] Hint Resolve setONU3_keeps : keeps.

Lemma refreshAllowedPreview_keeps e w entityID r e' w' :
  refreshAllowedPreview e w entityID = (r, e', w') → keeps e e'.
Proof. unfold refreshAllowedPreview. keeps_tac. Qed.
#[local] Hint Resolve refreshAllowedPreview_keeps : keeps.

Lemma pollSubscribers_keeps subscribers : ∀ e w r e' w',
  pollSubscribers e w subscribers = (r, e', w') → keeps e e'.
Proof. induction subscribers as [|id ids IH]; intros * H; cbn [pollSubscribers] in H; keeps_cases; keeps_chain. Qed.
#[local] Hint Resolve pollSubscribers_keeps : keeps.

Lemma PollMulticast_keeps e w r e' w' : PollMulticast e w = (r, e', w') → keeps e e'.
Proof. unfold PollMulticast. keeps_tac. Qed.

Lemma getAllowedPreview_keeps e w instance mask r e' w' :
  getAllowedPreview e w instance mask = (r, e', w') → keeps e e'.
Proof. unfold getAllowedPreview. keeps_tac. Qed.
#[local] Hint Resolve getAllowedPreview_keeps : keeps.

(** ** Software download *)

Implicit Types c : engine W Sink.

(** [served] from the equations that say how the state was computed. *)
Ltac served_tac :=
  keeps_cases;
  repeat match goal with
         | H : UpdateByCommand _ _ _ = _ |- _ => progress cbn [withMib withDownload withStatus withPhase e_mib] in H
         end;
  cbn [withMib withDownload withStatus withPhase withBytes withSelected e_mib];
  try solve [eauto 3 with served nocore].

Lemma setExclusiveSoftwareFlag_served c w selected attribute transaction r c' w' :
  setExclusiveSoftwareFlag c w selected attribute transaction = (r, c', w') → served (e_mib c) (e_mib c').
Proof. unfold setExclusiveSoftwareFlag. intros. served_tac. Qed.
#[local] Hint Resolve setExclusiveSoftwareFlag_served : served.

Lemma failSoftwareDownload_served controller c w c' w' :
  failSoftwareDownload controller c w = (c', w') → e_mib c' = e_mib c.
Proof. unfold failSoftwareDownload. intros. keeps_cases; done. Qed.

Lemma startSoftwareDownload_served c w request device r c' w' :
  startSoftwareDownload c w request device = (r, c', w') → served (e_mib c) (e_mib c').
Proof. unfold startSoftwareDownload. intros. served_tac. Qed.

Lemma downloadSoftwareSection_served controller c w request device acknowledged r c' w' :
  downloadSoftwareSection controller c w request device acknowledged = (r, c', w') →
  served (e_mib c) (e_mib c').
Proof.
  unfold downloadSoftwareSection. intros. served_tac.
  match goal with H : failSoftwareDownload _ _ _ = _ |- _ => apply failSoftwareDownload_served in H; rewrite H end.
  apply served_refl.
Qed.

Lemma softwareFinishStatus_served c w d r c' w' :
  softwareFinishStatus c w d = (r, c', w') → served (e_mib c) (e_mib c').
Proof. unfold softwareFinishStatus, publishFinished. intros. served_tac. Qed.
#[local] Hint Resolve softwareFinishStatus_served : served.

Lemma endSoftwareDownload_served controller c w request device r c' w' :
  endSoftwareDownload controller c w request device = (r, c', w') → served (e_mib c) (e_mib c').
Proof.
  unfold endSoftwareDownload. intros. served_tac.
  match goal with H : failSoftwareDownload _ _ _ = _ |- _ => apply failSoftwareDownload_served in H; rewrite H end.
  apply served_refl.
Qed.

Lemma activateSoftware_served c w request r c' w' :
  activateSoftware c w request = (r, c', w') → served (e_mib c) (e_mib c').
Proof. unfold activateSoftware. intros. served_tac. Qed.

Lemma commitSoftware_served c w request r c' w' :
  commitSoftware c w request = (r, c', w') → served (e_mib c) (e_mib c').
Proof. unfold commitSoftware. intros. served_tac. Qed.

Lemma keeps_core e c : served (mibOf e) (e_mib c) → keeps e (setCore e c).
Proof. intros H. repeat split. exact H. Qed.

(** ** Requests *)

Lemma storePrepared_keeps e key prepared : keeps e (storePrepared e key prepared).
Proof. destruct prepared; by apply keeps_fields. Qed.

Lemma dispatchCreate_keeps e w header key attributes r e' w' :
  dispatchCreate e w header key attributes = (r, e', w') → keeps e e'.
Proof.
  unfold dispatchCreate. cbv zeta. destruct (mbind _ _) as [prepared|err]; intros H.
  - destruct (Store.Create (mibOf e) w key.1 key.2 attributes) as [[r0 mib] w0] eqn:Hc. cbn beta iota in H.
    destruct (operationResult (errorOf r0)) as [[result failed] u]. cbn beta iota in H. apply pair_equal_spec in H as [[_ <-]%pair_equal_spec _].
    assert (keeps e (setMib e mib)) as Hk by (apply keeps_mib; eauto 3 with served nocore).
    destruct (result =? Success); [|exact Hk]. etrans; [exact Hk|]. etrans; [|apply storePrepared_keeps].
    by apply keeps_fields.
  - destruct (operationResult (Some err)) as [[result failed] u]. cbn beta iota in H. apply pair_equal_spec in H as [[_ <-]%pair_equal_spec _].
    destruct (result =? Success); [|reflexivity]. by apply keeps_fields.
Qed.

Lemma dispatchDelete_keeps e w header key r e' w' :
  dispatchDelete e w header key = (r, e', w') → keeps e e'.
Proof.
  unfold dispatchDelete. keeps_tac.
Qed.

Lemma setOperation_keeps e w now key attributes err changes e' w' :
  setOperation e w now key attributes = (err, changes, e', w') → keeps e e'.
Proof. unfold setOperation. keeps_tac. Qed.
#[local] Hint Resolve setOperation_keeps : keeps.

Lemma dispatchSet_keeps e w now header key attributes r e' w' :
  dispatchSet e w now header key attributes = (r, e', w') → keeps e e'.
Proof.
  unfold dispatchSet. cbv zeta. intros H. keeps_cases; try keeps_chain.
  all: repeat case_match; simplify_eq; try keeps_chain.
Qed.

Lemma getMulticast_keeps e w key mask a r o e' w' :
  getMulticast e w key mask a = (r, o, e', w') → keeps e e'.
Proof. unfold getMulticast. keeps_tac. Qed.
#[local] Hint Resolve getMulticast_keeps : keeps.

Lemma dispatchGet_keeps e w header key mask r e' w' :
  dispatchGet e w header key mask = (r, e', w') → keeps e e'.
Proof. unfold dispatchGet. keeps_tac. Qed.

Lemma dispatchGetCurrentData_keeps e w header key mask r e' w' :
  dispatchGetCurrentData e w header key mask = (r, e', w') → keeps e e'.
Proof. unfold dispatchGetCurrentData. keeps_tac. Qed.

Lemma dispatchMibReset_keeps e w header key r e' w' :
  dispatchMibReset e w header key = (r, e', w') → keeps e e'.
Proof. unfold dispatchMibReset. keeps_tac. Qed.

Lemma opticalLineSupervision_keeps e w header key test buffer vendor r e' w' :
  opticalLineSupervision e w header key test buffer vendor = (r, e', w') → keeps e e'.
Proof. unfold opticalLineSupervision. keeps_tac. Qed.
#[local] Hint Resolve opticalLineSupervision_keeps : keeps.

Lemma synchronizeTime_keeps e w now year month day hour minute second device r e' w' :
  synchronizeTime e w now year month day hour minute second device = (r, e', w') → keeps e e'.
Proof.
  unfold synchronizeTime. keeps_tac.
Qed.
#[local] Hint Resolve synchronizeTime_keeps : keeps.

Lemma rawSpecial_keeps e w now header frame r e' w' :
  rawSpecial e w now header frame = (r, e', w') → keeps e e'.
Proof. unfold rawSpecial. keeps_tac. Qed.

Lemma withSoftware_keeps e w handler r e' w' :
  (∀ controller c w r c' w', handler controller c w = (r, c', w') → served (e_mib c) (e_mib c')) →
  withSoftware e w handler = (r, e', w') → keeps e e'.
Proof.
  unfold withSoftware. intros Hh H. keeps_cases; [|reflexivity]. apply keeps_core. eapply Hh. eassumption.
Qed.

Lemma dispatchSection_keeps e w header request r e' w' :
  dispatchSection e w header request = (r, e', w') → keeps e e'.
Proof.
  unfold dispatchSection. intros H. keeps_cases; (eapply withSoftware_keeps; [|eassumption]);
    intros ?????? Hd; eapply downloadSoftwareSection_served; exact Hd.
Qed.

Lemma dispatchSoftware_keeps e w header type key response result c w0 r e' w' :
  dispatchSoftware e w header type key response (result, c, w0) = (r, e', w') →
  served (mibOf e) (e_mib c) → keeps e e'.
Proof. unfold dispatchSoftware. intros H Hs. keeps_cases. by apply keeps_core. Qed.

#[local] Hint Resolve dispatchCreate_keeps dispatchDelete_keeps dispatchSet_keeps dispatchGet_keeps
  dispatchGetCurrentData_keeps dispatchMibReset_keeps mibUpload_keeps mibUploadNext_keeps getAllAlarms_keeps
  getAllAlarmsNext_keeps setTable_keeps dispatchSection_keeps : keeps.

Lemma dispatchRequest_keeps e w now header request r e' w' :
  dispatchRequest e w now header request = (r, e', w') → keeps e e'.
Proof.
  unfold dispatchRequest. cbv zeta. intros H.
  repeat match type of H with (if ?b then _ else _) = _ => destruct b end.
  all: try (destruct request; try (apply pair_equal_spec in H as [[_ <-]%pair_equal_spec _]; reflexivity)).
  all: keeps_cases; try solve [keeps_chain].
  all: try match goal with
    | H : dispatchSoftware _ _ _ _ _ _ ?c = _ |- _ =>
        destruct c as [[? ?] ?] eqn:?; eapply dispatchSoftware_keeps; [exact H|]
    | H : withSoftware _ _ _ = _ |- _ =>
        eapply withSoftware_keeps; [|exact H]; intros ?????? Hd; eapply endSoftwareDownload_served; exact Hd
    end.
  - eapply startSoftwareDownload_served. eassumption.
  - eapply activateSoftware_served. eassumption.
  - eapply commitSoftware_served. eassumption.
Qed.
End handlers.

(** ** The transaction layer over the real handlers *)

Section engine.
Context {MR : MapRange} {W Sink : Type} {D : Decoder}.
Implicit Types (e : Engine W Sink) (w : W).

Lemma request_types_differ h :
  MessageType h = DownloadSectionRequestType →
  (MessageType h =? TestRequestType) = false ∧ (MessageType h =? SynchronizeTimeRequestType) = false.
Proof. by intros ->. Qed.

#[export] Instance engineLaws : HandlersLaws W Sink.
Proof.
  split.
  - intros e w now h c r e' w' H. apply rawSpecial_keeps in H as (? & ? & _). done.
  - intros e w now h c [Ht Hs]%request_types_differ. cbn [handleRawSpecial engineHandlers]. unfold rawSpecial.
    by rewrite Ht, Hs.
  - intros e w now h c r e' w' H. cbn [dispatch engineHandlers] in H.
    destruct (decodeLayer h c); [|by injection H as _ <- _].
    apply dispatchRequest_keeps in H as (? & ? & _). done.
  - intros e h c Ha. cbn [decodeFailureResponse engineHandlers]. unfold failureResponse. rewrite Ha.
    by rewrite orb_true_r.
Qed.

Lemma replayTransaction_mib e now header r e' : replayTransaction e now header = (r, e') → mibOf e' = mibOf e.
Proof. unfold replayTransaction. cbv zeta. intros H. keeps_cases; by repeat case_match. Qed.

Lemma rememberTransaction_mib e header response : mibOf (rememberTransaction e header response) = mibOf e.
Proof. unfold rememberTransaction. by case_match. Qed.

Lemma handleRequest_served e w now header contents r e' w' :
  handleRequest e w now header contents = (r, e', w') → served (mibOf e) (mibOf e').
Proof.
  unfold handleRequest. cbv zeta.
  destruct (_ && _ && _); [intros H; keeps_cases; apply served_refl|].
  destruct (handleRawSpecial e w now header contents) as [[special e1] w1] eqn:Hr. cbn beta iota.
  assert (served (mibOf e) (mibOf e1)) as Hs1 by (by apply rawSpecial_keeps in Hr as (_ & _ & ?)).
  assert (∀ a r e' w', remembered header a e1 w1 = (r, e', w') → mibOf e' = mibOf e1) as Hrem.
  { unfold remembered. intros [] ??? H; keeps_cases; [apply rememberTransaction_mib|done]. }
  destruct special as [a|]; [intros H; by rewrite (Hrem _ _ _ _ H)|].
  destruct (decodeError contents).
  - destruct (decodeFailureResponse e1 header contents); intros H; [by rewrite (Hrem _ _ _ _ H)|].
    keeps_cases. done.
  - destruct (dispatch e1 w1 now header contents) as [[a e2] w2] eqn:Hd. cbn beta iota.
    assert (served (mibOf e1) (mibOf e2)) as Hs2.
    { cbn [dispatch engineHandlers] in Hd. destruct (decodeLayer header contents); [|keeps_cases; apply served_refl].
      by apply dispatchRequest_keeps in Hd as (_ & _ & ?). }
    intros H. etrans; [exact Hs1|]. keeps_cases; rewrite ?rememberTransaction_mib; exact Hs2.
Qed.

Lemma HandleFrame_served e w now frame r e' w' :
  HandleFrame e w now frame = (r, e', w') → served (mibOf e) (mibOf e').
Proof.
  unfold HandleFrame. cbv zeta. destruct (validateFrame _ frame); [|intros H; keeps_cases; apply served_refl].
  set (e1 := if _ =? ExtendedIdent then _ else e).
  assert (mibOf e1 = mibOf e) as <- by (unfold e1; by case_match). clearbody e1.
  destruct (decodeOMCI _) as [header|]; [|intros H; keeps_cases; apply served_refl].
  destruct (_ || _); [intros H; keeps_cases; apply served_refl|].
  destruct (replayTransaction e1 now header) as [replayed e2] eqn:Hr.
  rewrite <- (replayTransaction_mib _ _ _ _ _ Hr).
  destruct replayed; intros H; [keeps_cases; apply served_refl|]. by eapply handleRequest_served.
Qed.

(** ** Running engines *)

(** What the daemon does with an engine: it hands it frames, alarms, samples and polls, drains
    its notifications, resets its session; a finishing image completes; the platform's world
    changes by itself. *)
Inductive run_step : Engine W Sink → W → Engine W Sink → W → Prop :=
| rs_frame e w now frame r e' w' : HandleFrame e w now frame = (r, e', w') → run_step e w e' w'
| rs_change e w key attributes device r e' :
    NotifyAttributeChange e key attributes device = (r, e') → run_step e w e' w
| rs_alarm e w now key bitmap device r e' : NotifyAlarm e now key bitmap device = (r, e') → run_step e w e' w
| rs_alarm_bit e w now key alarm active device r e' :
    NotifyAlarmBit e now key alarm active device = (r, e') → run_step e w e' w
| rs_optical e w now key sample device r e' :
    NotifyOpticalSample e now key sample device = (r, e') → run_step e w e' w
| rs_ber e w now key sample device r e' :
    NotifyBERSample e now key sample device = (r, e') → run_step e w e' w
| rs_arc e w now device r e' : PollARC e now device = (r, e') → run_step e w e' w
| rs_performance e w now device r e' : PollPerformance e w now device = (r, e') → run_step e w e' w
| rs_multicast e w r e' w' : PollMulticast e w = (r, e', w') → run_step e w e' w'
| rs_set_alarm e w key bitmap : run_step e w (SetAlarm e key bitmap) w
| rs_drain e w : run_step e w (DrainNotifications e).2 w
| rs_drain_error e w : run_step e w (DrainNotificationError e).2 w
| rs_reset e w : run_step e w (ResetCommunicationSession e) w
| rs_controller e w source : run_step e w (SetPerformanceController e source) w
| rs_finish e w controller core' w' :
    finishGoroutine controller (core e) w = Some (core', w') → run_step e w (setCore e core') w'
| rs_refresh e w r core' w' :
    RefreshSoftwareImages (core e) w = (r, core', w') → run_step e w (setCore e core') w'
| rs_world e w w' : run_step e w e w'.

Inductive running (store : Store W) : Engine W Sink → W → Prop :=
| run_new controllers software mode w : running store (NewForMode store controllers software mode) w
| run_more e w e' w' : running store e w → run_step e w e' w' → running store e' w'.

Lemma importImages_served images : ∀ mib : Store W, served mib (importImages mib images).2.
Proof.
  induction images as [|image images IH]; intros mib; cbn [importImages]; [apply served_refl|].
  destruct (UpdateAutonomous _ _ _) as [[] s] eqn:Hu; cbn [snd].
  - etrans; [by eapply served_autonomous|apply IH].
  - by eapply served_autonomous.
Qed.

Lemma run_step_served e w e' w' : run_step e w e' w' → served (mibOf e) (mibOf e').
Proof.
  intros [].
  all: lazymatch goal with
  | H : HandleFrame _ _ _ _ = _ |- _ => by apply HandleFrame_served in H
  | H : NotifyAttributeChange _ _ _ _ = _ |- _ => by apply NotifyAttributeChange_keeps in H as (_ & _ & ?)
  | H : NotifyAlarm _ _ _ _ _ = _ |- _ => by apply NotifyAlarm_keeps in H as (_ & _ & ?)
  | H : NotifyAlarmBit _ _ _ _ _ _ = _ |- _ => by apply NotifyAlarmBit_keeps in H as (_ & _ & ?)
  | H : NotifyOpticalSample _ _ _ _ _ = _ |- _ => by apply NotifyOpticalSample_keeps in H as (_ & _ & ?)
  | H : NotifyBERSample _ _ _ _ _ = _ |- _ => by apply NotifyBERSample_keeps in H as (_ & _ & ?)
  | H : PollARC _ _ _ = _ |- _ => by apply PollARC_keeps in H as (_ & _ & ?)
  | H : PollPerformance _ _ _ _ = _ |- _ => by apply PollPerformance_keeps in H as (_ & _ & ?)
  | H : PollMulticast _ _ = _ |- _ => by apply PollMulticast_keeps in H as (_ & _ & ?)
  | H : finishGoroutine _ _ _ = _ |- _ => idtac
  | H : RefreshSoftwareImages _ _ = _ |- _ => idtac
  | |- context [SetAlarm] => unfold SetAlarm; case_bool_decide; apply served_refl
  | |- _ => apply served_refl
  end.
  - unfold finishGoroutine in *. repeat case_match; simplify_eq. apply served_refl.
  - unfold RefreshSoftwareImages in *. keeps_cases; try apply served_refl.
    match goal with H : importImages ?m ?l = _ |- _ => pose proof (importImages_served l m) as Hi; rewrite H in Hi end.
    exact Hi.
Qed.
End engine.

(** ** What a running engine keeps *)

Section running.
Context {MR : MapRange} {W Sink : Type} {D : Decoder}.

End running.

(** A decoder for one message: the creation of a GAL Ethernet profile. *)
Definition sampleDecoder : Decoder := {|
  decodeLayer _ _ := Ok (CreateRequest (272, 1) {[ "MaximumGemPayloadSize" := VU16 48 ]});
  frameDigest contents := contents
|}.
Definition createFrame : DownstreamFrame :=
  mkDownstream ([0; 5; CreateRequestType; BaselineIdent; 1; 16; 0; 1] ++ repeat 0 32 ++ [0; 0; 0; 40]) true.
Definition runningEngine : Engine (list Change) unit := NewForMode sample_store noControllers None XGSPON.
Definition createdEngine : Res EngineError (list Z) * Engine (list Change) unit * list Change :=
  @HandleFrame _ _ (@engineHandlers canonical_range _ _ sampleDecoder) runningEngine [] 0 createFrame.

