(* ===== verification/EventProps.v ===== *)
(** * Platform events: what they do to the engine

    Every event, well formed or not, leads an engine to a state a running engine may have, so the
    MIB stays well formed; an event that is itself at fault changes nothing; and the attributes of
    an AVC reach the engine under their defined names, with their defined sizes. *)

From S2P Require Import Prelude Maps GoStd Hex MeTypes MeClasses MeLib Mib MeNames Semantics Store StoreInvariant StoreProps.
From S2P Require Import Model Frames Codec Software Optics Controllers Engine PmRules Notify Performance OpticalAlarms.
From S2P Require Import Capability McMonitor Dispatch DispatchProps Event.

(** A value of an attribute has the size of its definition. *)
Definition sized (size : Z) (v : Value) : Prop :=
  match v with
  | VU8 x => size = 1 ∧ is_u 8 x
  | VU16 x => size = 2 ∧ is_u 16 x
  | VU32 x => size = 4 ∧ is_u 32 x
  | VU64 x => size = 8 ∧ is_u 64 x
  | VOctets l => Z.of_nat (length l) = size ∧ bytes_ok l
  | _ => False
  end.

(** The bytes of a raw value are bytes. *)
Definition rawBytes (raw : RawMessage) : Prop :=
  match raw with
  | RawString text => bytes_ok text
  | RawArray (Some octets) => bytes_ok octets
  | _ => True
  end.

Lemma decodeHex_bytes text octets : decodeHex text = Ok octets → bytes_ok octets.
Proof.
  unfold decodeHex. cbv zeta. destruct (negb _); [done|].
  destruct (hexDecodeString (TrimSpace text)) eqn:Hx; [|done]. intros [= <-]. by eapply hexDecodeString_bytes.
Qed.

Lemma digitsValue_nonneg text value : digitsValue text = Some value → 0 ≤ value.
Proof.
  unfold digitsValue. case_bool_decide; [done|]. assert (∀ acc, (∀ x, acc = Some x → 0 ≤ x) → fold_left parseDigit text acc = Some value → 0 ≤ value) as Hf.
  { clear. induction text as [|c text IH]; intros acc Hacc; [by apply Hacc|]. cbn [fold_left]. apply IH. intros x.
    unfold parseDigit. destruct acc as [y|]; [|done]. specialize (Hacc y eq_refl).
    destruct ((48 <=? c) && (c <=? 57)) eqn:Hc; [|done]. intros [= <-]. lia. }
  apply Hf. by intros x [= <-].
Qed.

Lemma ParseUint_range text bits value : 0 ≤ bits → ParseUint text bits = Some value → is_u 64 value.
Proof.
  intros Hb. unfold ParseUint. destruct (digitsValue text) as [v|] eqn:Hv; [|done]. apply digitsValue_nonneg in Hv.
  destruct (Z.ltb_spec 64 (numberBits bits)); [done|]. destruct (Z.ltb_spec v (2 ^ numberBits bits)); [|done].
  intros [= <-]. unfold is_u. assert (2 ^ numberBits bits ≤ 2 ^ 64) by (apply Z.pow_le_mono_r; lia). lia.
Qed.

(** The sizes of the attributes of every class; only tables are without one. *)
Definition sizes_ok : bool :=
  let sizes d := forallb (λ '(_, a), IsTableAttribute a || (0 <=? Size a)) (map_to_list (AttributeDefinitions d)) in
  forallb (λ '(_, d), sizes d) (map_to_list classToManagedEntityMap) &&
  sizes unknownVendorSpecificBME && sizes unknownG988BME.
Lemma sizes_ok_true : sizes_ok = true.
Proof. vm_compute. reflexivity. Qed.

#[local] Transparent definition_of.
Lemma class_sizes c : map_Forall (λ _ d, IsTableAttribute d = false → 0 ≤ Size d) (AttributeDefinitions (definition_of c)).
Proof.
  assert (∀ d, forallb (λ '(_, a), IsTableAttribute a || (0 <=? Size a)) (map_to_list (AttributeDefinitions d)) = true →
    map_Forall (λ _ d, IsTableAttribute d = false → 0 ≤ Size d) (AttributeDefinitions d)) as Hd.
  { intros d Hall i a Hi. rewrite forallb_forall in Hall.
    specialize (Hall (i, a) (proj1 (list_elem_of_In _ _) (proj2 (elem_of_map_to_list _ _ _) Hi))). intros Ht. cbn in Hall.
    rewrite Ht in Hall. cbn in Hall. lia. }
  pose proof sizes_ok_true as Hok. unfold sizes_ok in Hok. cbv zeta in Hok.
  apply andb_true_iff in Hok as [[Hclasses Hvendor]%andb_true_iff Hunknown].
  unfold definition_of. destruct (classToManagedEntityMap !! c) as [d|] eqn:Hc.
  - apply Hd. rewrite forallb_forall in Hclasses.
    exact (Hclasses (c, d) (proj1 (list_elem_of_In _ _) (proj2 (elem_of_map_to_list _ _ _) Hc))).
  - unfold SetClassID. cbn [AttributeDefinitions]. destruct (IsVendorSpecificClassID c); by apply Hd.
Qed.

#[local] Opaque definition_of.

Section attributes.
Context {MR : MapRange}.

Lemma decodeNumber_sized d literal v : 0 ≤ Size d → decodeNumber d literal = Ok v → sized (Size d) v.
Proof.
  intros Hs. unfold decodeNumber. cbv zeta.
  destruct (if bool_decide (AttrType d = SignedIntegerAttributeType) then _ else _) as [value|] eqn:Hp; [|done].
  assert (is_u 64 value) as Hv.
  { case_bool_decide; [|eapply ParseUint_range; [|exact Hp]; lia].
    apply fmap_Some in Hp as (x & _ & ->). by apply wrap_is_u. }
  destruct (Z.eqb_spec (Size d) 1) as [->|_]; [intros [= <-]; split; [done|by apply wrap_is_u]|].
  destruct (Z.eqb_spec (Size d) 2) as [->|_]; [intros [= <-]; split; [done|by apply wrap_is_u]|].
  destruct (Z.eqb_spec (Size d) 4) as [->|_]; [intros [= <-]; split; [done|by apply wrap_is_u]|].
  destruct (Z.eqb_spec (Size d) 8) as [->|_]; [by intros [= <-]|done].
Qed.

Lemma decodeText_sized d text v : 0 ≤ Size d → bytes_ok text → decodeText d text = Ok v → sized (Size d) v.
Proof.
  intros Hs Ht H. unfold decodeText in H. apply Res_bind_Ok in H as (value & Hvalue & H).
  assert (bytes_ok value) as Hb.
  { case_bool_decide; [by eapply decodeHex_bytes|]. by injection Hvalue as <-. }
  destruct (Z.ltb_spec (Size d) (Z.of_nat (length value))); [done|]. injection H as <-. split.
  - rewrite length_app, repeat_length. lia.
  - apply bytes_ok_app. split; [done|]. apply Forall_forall. intros x Hx%list_elem_of_In%repeat_spec. subst. unfold is_u. lia.
Qed.

Lemma decodeAttribute_sized d raw v :
  (IsTableAttribute d = false → 0 ≤ Size d) → rawBytes raw → decodeAttribute d raw = Ok v → IsTableAttribute d = false ∧ sized (Size d) v.
Proof.
  intros Hs Hraw. unfold decodeAttribute. destruct (IsTableAttribute d); [done|]. specialize (Hs eq_refl).
  intros H. split; [done|].
  destruct raw as [literal|text|[octets|]| |]; try done.
  - by eapply decodeNumber_sized.
  - by eapply decodeText_sized.
  - destruct (Z.eqb_spec (Z.of_nat (length octets)) (Size d)) as [Heq|]; [|done]. by injection H as <-.
  - by eapply decodeNumber_sized.
Qed.

(** A value for an attribute of a class, by the name of its definition. *)
Definition avcValue (classID : Z) (name : string) (v : Value) : Prop :=
  ∃ i d, AttributeDefinitions (definition_of classID) !! i = Some d ∧ Name d = name ∧ Index d ≠ 0 ∧
    IsTableAttribute d = false ∧ sized (Size d) v.

Lemma Load_definition c p entity :
  LoadManagedEntityDefinition c (Some (mkParams p ∅)) = Ok entity → definition entity = definition_of c.
Proof.
  rewrite Load_definition_of. unfold NewManagedEntity, setAttributes. cbn [p_Attributes]. rewrite range_empty.
  by intros [= <-].
Qed.

(** The attributes of an AVC are those of definitions of the class, none of them a table, each
    with a value of its size. *)
Lemma decodeAttributes_sized event attributes :
  (∀ name raw, ev_Attributes event !! name = Some raw → rawBytes raw) →
  decodeAttributes event = Ok attributes →
  ∀ name v, attributes !! name = Some v → avcValue (ev_ClassID event) name v.
Proof.
  intros Hraw H. unfold decodeAttributes in H. case_bool_decide; [done|].
  destruct (LoadManagedEntityDefinition _ _) as [entity|] eqn:Hload; [|done]. apply Load_definition in Hload.
  rewrite Hload in H. pose proof (class_sizes (ev_ClassID event)) as Hsize.
  refine (foldM_inv (λ attributes : AttributeValueMap, ∀ name v, attributes !! name = Some v →
    avcValue (ev_ClassID event) name v) _ _ _ _ _ _ H); [|by intros name v Hn; rewrite lookup_empty in Hn].
  intros acc [name raw] acc' Hin%elem_of_range Hacc Hstep. unfold decodeEntry in Hstep. cbn [fst snd] in Hstep.
  destruct (GetAttributeDefinitionByName _ name) as [d|] eqn:Hd; [|done].
  destruct (Z.eqb_spec (Index d) 0) as [|Hi]; [done|]. apply Res_bind_Ok in Hstep as (v & Hv & [= <-]).
  unfold GetAttributeDefinitionByName in Hd. apply fmap_Some in Hd as ([i d'] & Hf & Heq). cbn in Heq. subst d'.
  apply List.find_some in Hf as [Hf _]. apply list_elem_of_In, elem_of_range in Hf.
  pose proof (Hsize i d Hf) as Hs. destruct (decodeAttribute_sized d raw v Hs (Hraw _ _ Hin) Hv) as [Ht Hz].
  intros other v'. intros [[<- <-]|[_ Ho]]%lookup_insert_Some; [by exists i, d|by apply Hacc].
Qed.
End attributes.

Section dispatched.
Context {MR : MapRange} {W Sink : Type} {D : Decoder}.

(** Whatever event the helper reports, the engine goes on to a state a running engine may have; an
    event that is at fault itself changes nothing; and an AVC hands the engine values of
    attributes of its class that are no tables, each with the size its definition gives. *)
Theorem event_dispatched (store : Store W) (e : Engine W Sink) (w : W) now event r e' :
  running store e w → DispatchEvent event e now = (r, e') →
  running store e' w ∧
  (∀ detail, r = Err (EventFault detail) → e' = e) ∧
  (ev_Type event = "avc" → (∀ name raw, ev_Attributes event !! name = Some raw → rawBytes raw) →
   ∀ frames, r = Ok frames → ∃ attributes device,
     (∀ name v, attributes !! name = Some v → avcValue (ev_ClassID event) name v) ∧
     NotifyAttributeChange e (ev_ClassID event, ev_EntityID event) attributes device = (Ok frames, e')).
Proof.
  intros Hrun H.
  assert (∀ x, (x, e) = (r, e') → running store e' w ∧ (∀ detail, r = Err (EventFault detail) → e' = e)) as Hstay
    by (by intros x [= _ <-]).
  assert (∀ x e1, run_step e w e1 w → (∀ d, x ≠ Err (EventFault d)) → (x, e1) = (r, e') →
    running store e' w ∧ (∀ detail, r = Err (EventFault detail) → e' = e)) as Hstep.
  { intros x e1 Hs Hx [= <- <-]. split; [by eapply run_more|]. intros detail Hd. by apply Hx in Hd. }
  assert (∀ x d, engineFrames x ≠ Err (EventFault d)) as Hengine by (intros [?|?] d; discriminate).
  enough ((running store e' w ∧ (∀ detail, r = Err (EventFault detail) → e' = e)) ∧
    (ev_Type event = "avc" → ∀ frames, r = Ok frames → ∃ attributes device, decodeAttributes event = Ok attributes ∧
       NotifyAttributeChange e (ev_ClassID event, ev_EntityID event) attributes device = (Ok frames, e'))) as [[H1 H2] H3].
  { split; [done|split; [done|]]. intros Ht Hraw frames Hr. destruct (H3 Ht frames Hr) as (attributes & device & Ha & Hn).
    exists attributes, device. split; [|done]. by eapply decodeAttributes_sized. }
  unfold DispatchEvent in H. destruct (deviceIdentifier event) as [device|err];
    [|split; [by eapply Hstay|]; intros; simplify_eq]. cbv zeta in H.
  case_bool_decide as Hreset; [split; [eapply Hstep; [apply rs_reset| |exact H]; discriminate|by rewrite Hreset]|].
  case_bool_decide as Halarm; [split; [|by rewrite Halarm]|].
  { destruct (ev_AlarmBit event) as [alarm|], (ev_Active event) as [active|]; try by eapply Hstay.
    destruct (NotifyAlarmBit _ _ _ _ _ _) as [x e1] eqn:Hx.
    eapply Hstep; [by eapply rs_alarm_bit| |exact H]. destruct x as [[frame|]|]; discriminate. }
  case_bool_decide as Havc.
  { destruct (decodeAttributes event) as [attributes|err]; [|split; [by eapply Hstay|intros; simplify_eq]].
    destruct (NotifyAttributeChange _ _ _ _) as [x e1] eqn:Hx. split; [eapply Hstep; [by eapply rs_change|by apply Hengine|exact H]|].
    intros _ frames ->. exists attributes, device. split; [done|]. destruct x; [|discriminate H]. by injection H as -> ->. }
  split; [|done].
  case_bool_decide as Htest.
  { destruct (decodeHex _); by eapply Hstay. }
  case_bool_decide as Hoptical.
  { repeat (case_match; try by eapply Hstay). eapply Hstep; [by eapply rs_optical|by apply Hengine|exact H]. }
  case_bool_decide as Hber.
  { repeat (case_match; try by eapply Hstay). eapply Hstep; [by eapply rs_ber|by apply Hengine|exact H]. }
  by eapply Hstay.
Qed.
End dispatched.

(** The operational state of the ONU changes. *)
Definition sampleEvent : Event :=
  mkEvent "avc" 256 0 "" None None {[ "operationalstate" := RawNumber [49] ]} 0 [] None None None None None None None None None.
Definition dispatchedEvent : Res EventError (list (list Z)) * Engine (list Change) unit :=
  @DispatchEvent canonical_range _ _ sampleEvent runningEngine 0.

Lemma event_dispatched_witness :
  (∃ frame, dispatchedEvent.1 = Ok [frame]) ∧ @running canonical_range _ _ sampleDecoder sample_store dispatchedEvent.2 [].
Proof.
  split; [eexists; vm_compute; reflexivity|].
  apply (@event_dispatched canonical_range _ _ sampleDecoder sample_store runningEngine [] 0 sampleEvent dispatchedEvent.1);
    [apply run_new|by rewrite <- surjective_pairing].
Defined.
