(* ===== verification/OpticalProps.v ===== *)
(** * Engine: the ANI-G alarms

    The bit error rate alarms follow the exact rate with the thresholds of the MIB, and the
    optical alarms are stable: a sample that repeats changes no alarm. *)

From S2P Require Import Prelude Maps GoStd MeTypes MeLib Mib MeNames Semantics Store.
From S2P Require Import StoreLemmas StoreInvariant StoreProps.
From S2P Require Import Model Frames Codec Software Optics Controllers Engine PmRules Notify Upload UploadProps.
From S2P Require Import OpticalAlarms NotifyProps.

(** ** Alarm bitmaps *)

Lemma bit_mask_set x i : 0 ≤ i → (Z.land x (Z.shiftl 1 i) =? 0) = negb (Z.testbit x i).
Proof.
  intros Hi. rewrite Z.shiftl_1_l. apply eq_true_iff_eq. rewrite Z.eqb_eq, negb_true_iff. split.
  - intros H. assert (Z.testbit (Z.land x (2 ^ i)) i = false) as Hb by (by rewrite H, Z.bits_0).
    by rewrite Z.land_spec, Z.pow2_bits_true, andb_true_r in Hb.
  - intros H. apply Z.bits_inj_0. intros n. rewrite Z.land_spec.
    destruct (decide (n = i)) as [->|Hn]; [by rewrite H|]. by rewrite Z.pow2_bits_false, andb_false_r.
Qed.

Lemma alarmBit_testbit bitmap alarm :
  alarmBit bitmap alarm = Z.testbit (nth8 bitmap (Z.to_nat (alarm / 8))) (7 - alarm mod 8).
Proof. unfold alarmBit. rewrite bit_mask_set, negb_involutive; [done|]. lia. Qed.

Lemma nth8_insert (l : list Z) i j x : (i < length l)%nat → nth8 (<[i := x]> l) j = if decide (i = j) then x else nth8 l j.
Proof.
  intros Hi. unfold nth8. rewrite !nth_lookup. case_decide as Hd.
  - subst. by rewrite list_lookup_insert_eq.
  - by rewrite list_lookup_insert_ne.
Qed.

(** Setting an alarm sets its bit and no other. *)
Lemma alarmBit_set bitmap alarm other active :
  length bitmap = 28%nat → 0 ≤ alarm < 224 → 0 ≤ other →
  alarmBit (setAlarmBit bitmap alarm active) other = if other =? alarm then active else alarmBit bitmap other.
Proof.
  intros Hl Ha Ho. rewrite !alarmBit_testbit. unfold setAlarmBit. cbv zeta.
  rewrite nth8_insert by lia. rewrite !Z.shiftl_1_l. case_decide as Hd.
  - assert (alarm / 8 = other / 8) as Hq by lia.
    destruct active; [rewrite Z.lor_spec|rewrite Z.ldiff_spec]; rewrite Z.pow2_bits_eqb by lia;
      replace (7 - alarm mod 8 =? 7 - other mod 8) with (other =? alarm) by lia; rewrite Hd;
      by destruct (other =? alarm), (Z.testbit _ _).
  - replace (other =? alarm) with false by lia. done.
Qed.

Lemma length_setAlarmBit bitmap alarm active : length (setAlarmBit bitmap alarm active) = length bitmap.
Proof. apply length_insert. Qed.

(** Setting a bit to what it is. *)
Lemma setAlarmBit_same bitmap alarm :
  length bitmap = 28%nat → 0 ≤ alarm < 224 → setAlarmBit bitmap alarm (alarmBit bitmap alarm) = bitmap.
Proof.
  intros Hl Ha. rewrite alarmBit_testbit. unfold setAlarmBit. cbv zeta. rewrite Z.shiftl_1_l.
  set (octet := Z.to_nat (alarm / 8)). set (i := 7 - alarm mod 8).
  replace (if Z.testbit _ _ then _ else _) with (nth8 bitmap octet).
  - unfold nth8. apply list_eq. intros j. destruct (decide (octet = j)) as [<-|Hj].
    + rewrite list_lookup_insert_eq by lia.
      destruct (lookup_lt_is_Some_2 bitmap octet) as [x Hx]; [lia|]. by rewrite nth_lookup, Hx.
    + by rewrite list_lookup_insert_ne.
  - assert (0 ≤ i) by lia. apply Z.bits_inj'. intros n Hn. destruct (Z.testbit (nth8 bitmap octet) i) eqn:Hb.
    + rewrite Z.lor_spec. destruct (decide (n = i)) as [->|]; [by rewrite Hb|].
      by rewrite Z.pow2_bits_false, orb_false_r.
    + rewrite Z.ldiff_spec. destruct (decide (n = i)) as [->|]; [by rewrite Hb|].
      by rewrite Z.pow2_bits_false, andb_true_r.
Qed.

(** ** Bit error rates *)

Lemma scale_iter n : (n ≤ 16)%nat → Nat.iter n (λ scale, u64 (scale * 10)) 1000 = 10 ^ (3 + Z.of_nat n).
Proof.
  induction n as [|n IH]; intros Hn; [done|]. rewrite Nat.iter_succ, IH by lia.
  replace (3 + Z.of_nat (S n)) with (Z.succ (3 + Z.of_nat n)) by lia. rewrite Z.pow_succ_r by lia.
  rewrite wrap_small; [lia|]. split; [lia|].
  assert (10 ^ (3 + Z.of_nat n) ≤ 10 ^ 18) by (apply Z.pow_le_mono_r; lia). lia.
Qed.

(** The errors of a window reach the rate 10^-exponent; no division by zero. *)
Lemma berThresholdExceeded_exact sample exponent :
  is_u 32 (be_IntervalMS sample) → 0 ≤ exponent ≤ 16 →
  berThresholdExceeded sample exponent =
  Some (gponDownstreamBitRate * be_IntervalMS sample <=? be_BIPCount sample * 10 ^ (3 + exponent)).
Proof.
  intros Hi He. unfold berThresholdExceeded. rewrite scale_iter by lia. rewrite Z2Nat.id by lia.
  set (scale := 10 ^ (3 + exponent)). assert (0 < scale) by (apply Z.pow_pos_nonneg; lia).
  rewrite (proj2 (Z.eqb_neq _ _)) by lia. cbv zeta. unfold gponDownstreamBitRate in *. unfold is_u in Hi.
  rewrite (wrap_small 64 (_ * _)) by (unfold is_u; lia). set (bits := 2488320000 * be_IntervalMS sample).
  assert (0 ≤ bits < 2 ^ 64) by (unfold bits; lia). f_equal.
  assert (bits = scale * (bits / scale) + bits mod scale) by (apply Z.div_mod; lia).
  assert (0 ≤ bits mod scale < scale) by (by apply Z.mod_pos_bound).
  destruct (Z.eqb_spec (bits mod scale) 0) as [Hz|Hz]; cbn [negb].
  - apply eq_true_iff_eq. rewrite !Z.leb_le. nia.
  - assert (1000 ≤ scale) by (replace 1000 with (10 ^ 3) by done; apply Z.pow_le_mono_r; lia).
    assert (bits / scale < 2 ^ 63) by (apply Z.div_lt_upper_bound; lia).
    assert (0 ≤ bits / scale) by (apply Z.div_pos; lia).
    rewrite wrap_small by (unfold is_u; lia). apply eq_true_iff_eq. rewrite !Z.leb_le. nia.
Qed.

Section alarms.
Context {MR : MapRange} {W Sink : Type}.
Implicit Types e : Engine W Sink.

(** What [getAttributes] reads is what the instance has. *)
Lemma getAttributes_value (s : Store W) key mask attrs :
  store_inv s → getAttributes s key mask = Ok attrs →
  ∃ instance, current s !! key = Some instance ∧ ∀ n v, attrs !! n = Some v → i_Attributes instance !! n = Some v.
Proof.
  intros Hs H. pose proof (Get_selects s key mask Hs) as Hg. unfold getAttributes in H.
  destruct (current s !! key) as [instance|].
  - destruct Hg as (selected & Hg & _ & Hv). rewrite Hg in H. cbv zeta in H. destruct (_ =? 0); [|discriminate H].
    injection H as <-. exists instance. split; [done|]. intros n v Hn. cbn in Hn. rewrite Hv in Hn.
    unfold get_selected in Hn. destruct (attr_named _ _); [|done]. by destruct (_ && _).
  - by rewrite Hg in H.
Qed.

(** The thresholds of an ANI-G of a well-formed store: fail within 10^-3 to 10^-8, degrade
    within 10^-4 to 10^-10 and beyond fail. *)
Lemma aniG_thresholds (s : Store W) key instance :
  store_inv s → key.1 = AniGClassID → current s !! key = Some instance →
  (∀ sf, byteAttribute (i_Attributes instance) AniG_SignalFailThreshold = Some sf → 3 ≤ sf ≤ 8) ∧
  (∀ sd, byteAttribute (i_Attributes instance) AniG_SignalDegradeThreshold = Some sd → 4 ≤ sd ≤ 10) ∧
  (∀ sf sd, byteAttribute (i_Attributes instance) AniG_SignalFailThreshold = Some sf →
    byteAttribute (i_Attributes instance) AniG_SignalDegradeThreshold = Some sd → sf < sd).
Proof.
  intros Hs Hk Hc. destruct key as [c id]. cbn in Hk. subst c.
  pose proof (si_current _ Hs _ _ Hc) as Hi. pose proof (inv_key _ _ _ Hi) as Hik.
  assert (normalizeIn s instance = Ok instance) as Hn by (by apply Hi).
  unfold normalizeIn in Hn. apply Res_bind_Ok in Hn as (i' & Hn & Hrest).
  apply normalize_Ok in Hn as (-> & _ & _ & Hv).
  assert (normalized instance = instance) as Heq.
  { apply Res_bind_Ok in Hrest as (? & _ & Hrest). apply Res_bind_Ok in Hrest as (? & _ & Hrest).
    by injection Hrest. }
  rewrite Heq in Hv. unfold validateSemantics in Hv. unfold ClassID_of in Hv. rewrite Hik in Hv. inv_ok Hv.
  change (validateAniG (i_Attributes instance) = Ok tt) in Hv. unfold validateAniG in Hv. inv_ok Hv.
  clear -Hg0 Hg1 Hg2.
  split_and!; intros; repeat match goal with H : byteAttribute _ _ = Some _ |- _ => rewrite H in * end; lia.
Qed.

(** The signal fail and signal degrade alarms of an ANI-G are raised exactly when the
    errors counted in a window reach the thresholds of its instance in the MIB, at the line
    rate over the length of the window and without rounding or overflow; signal fail never
    comes without signal degrade, no other alarm of the ANI-G changes, and the thresholds of a
    well-formed MIB never make the computation divide by zero. *)
Theorem ber_alarms e now key sample device r e'
    (Hs : store_inv (mibOf e)) (Hk : key.1 = AniGClassID)
    (Hi : is_u 32 (be_IntervalMS sample)) (Hb : is_u 32 (be_BIPCount sample))
    (Hl : length (default zeroBitmap (alarms e !! key)) = 28%nat)
    (Hx : evaluateBERSample e now key sample device = (r, e')) :
  (∀ attrs name exponent, getAttributes (mibOf e) key 0x0600 = Ok attrs →
     name ∈ [AniG_SignalFailThreshold; AniG_SignalDegradeThreshold] →
     octetValue attrs name = Some exponent → is_Some (berThresholdExceeded sample exponent)) ∧
  ∀ frames, r = Ok frames → ∃ instance sf sd,
    current (mibOf e) !! key = Some instance ∧
    i_Attributes instance !! AniG_SignalFailThreshold = Some (VU8 sf) ∧
    i_Attributes instance !! AniG_SignalDegradeThreshold = Some (VU8 sd) ∧
    let bitmap := default zeroBitmap (alarms e' !! key) in
    let reached exponent := gponDownstreamBitRate * be_IntervalMS sample <=? be_BIPCount sample * 10 ^ (3 + exponent) in
    alarmBit bitmap aniSignalFailAlarm = reached sf ∧
    alarmBit bitmap aniSignalDegradeAlarm = reached sd ∧
    (alarmBit bitmap aniSignalFailAlarm = true → alarmBit bitmap aniSignalDegradeAlarm = true) ∧
    ∀ other, 0 ≤ other → other ≠ aniSignalFailAlarm → other ≠ aniSignalDegradeAlarm →
      alarmBit bitmap other = alarmBit (default zeroBitmap (alarms e !! key)) other.
Proof.
  assert (∀ attrs name exponent, getAttributes (mibOf e) key 0x0600 = Ok attrs →
    octetValue attrs name = Some exponent → ∃ instance, current (mibOf e) !! key = Some instance ∧
    i_Attributes instance !! name = Some (VU8 exponent)) as Hread.
  { intros attrs name x Ha Ho. destruct (getAttributes_value _ _ _ _ Hs Ha) as (instance & Hc & Hv).
    exists instance. split; [done|]. apply Hv. unfold octetValue in Ho.
    destruct (attrs !! name) as [[]|]; try discriminate Ho. by injection Ho as ->. }
  assert (∀ instance name x, i_Attributes instance !! name = Some (VU8 x) →
    byteAttribute (i_Attributes instance) name = Some x) as Hbyte by (intros ? ? ? Hn; unfold byteAttribute; by rewrite Hn).
  split.
  - intros attrs name x Ha Hn Ho. destruct (Hread _ _ _ Ha Ho) as (instance & Hc & Hv%Hbyte).
    destruct (aniG_thresholds _ _ _ Hs Hk Hc) as (Hsf & Hsd & _).
    rewrite berThresholdExceeded_exact; [by eexists|done|].
    apply elem_of_cons in Hn as [->|Hn%list_elem_of_singleton]; [apply Hsf in Hv; lia|].
    subst name. apply Hsd in Hv. lia.
  - intros frames ->. unfold evaluateBERSample in Hx. destruct (getAttributes _ _ _) as [attrs|] eqn:Ha; [|discriminate Hx].
    destruct (octetValue attrs AniG_SignalFailThreshold) as [sf|] eqn:Hf; [|discriminate Hx].
    destruct (octetValue attrs AniG_SignalDegradeThreshold) as [sd|] eqn:Hd; [|discriminate Hx].
    destruct (Hread _ _ _ eq_refl Hf) as (instance & Hc & Hvf).
    destruct (Hread _ _ _ eq_refl Hd) as (instance' & Hc' & Hvd). rewrite Hc in Hc'. injection Hc' as <-.
    destruct (aniG_thresholds _ _ _ Hs Hk Hc) as (Hsf & Hsd & Hlt).
    specialize (Hlt _ _ (Hbyte _ _ _ Hvf) (Hbyte _ _ _ Hvd)).
    pose proof (Hsf _ (Hbyte _ _ _ Hvf)) as Hbf. pose proof (Hsd _ (Hbyte _ _ _ Hvd)) as Hbd.
    rewrite !berThresholdExceeded_exact in Hx by first [done|lia].
    exists instance, sf, sd. split; [done|]. split; [done|]. split; [done|]. cbv zeta.
    unfold setAlarmCondition in Hx. set (bitmap := setAlarmBit _ _ _) in Hx.
    destruct (NotifyAlarm e now key bitmap device) as [[frame|] e1] eqn:Hn; [|discriminate Hx].
    apply pair_equal_spec in Hx as [_ <-]. apply NotifyAlarm_table in Hn as [-> _].
    assert (∀ other, 0 ≤ other → alarmBit bitmap other =
      if other =? aniSignalDegradeAlarm then gponDownstreamBitRate * be_IntervalMS sample <=? be_BIPCount sample * 10 ^ (3 + sd)
      else if other =? aniSignalFailAlarm then gponDownstreamBitRate * be_IntervalMS sample <=? be_BIPCount sample * 10 ^ (3 + sf)
      else alarmBit (default zeroBitmap (alarms e !! key)) other) as Hbits.
    { intros other Ho. unfold bitmap. rewrite !alarmBit_set; rewrite ?length_setAlarmBit;
        first [reflexivity|exact Ho|exact Hl|unfold aniSignalDegradeAlarm, aniSignalFailAlarm; lia]. }
    rewrite !Hbits by done. cbn [Z.eqb aniSignalDegradeAlarm aniSignalFailAlarm Pos.eqb].
    split_and!; [done|done| |].
    + rewrite !Z.leb_le. intros Hle. etrans; [exact Hle|]. apply Z.mul_le_mono_nonneg_l; [apply Hb|].
      apply Z.pow_le_mono_r; lia.
    + intros other Ho Hof Hod. rewrite Hbits by done.
      by rewrite (proj2 (Z.eqb_neq _ _) Hod), (proj2 (Z.eqb_neq _ _) Hof).
Qed.
End alarms.

(** ** Hysteresis *)

(** The alarms of a sample, with the condition of each. *)
Definition opticalConditions (c : aniOpticalConfiguration) (sample : Sample) : list (Z * (bool → bool)) :=
  let levels := ANI sample in
  [(aniLowReceiveAlarm, λ active, lowReceiveAlarm active sample levels (oc_lowerReceive c));
   (aniHighReceiveAlarm, λ active, highReceiveAlarm active sample levels (oc_upperReceive c));
   (aniLowTransmitAlarm, λ active, lowTransmitAlarm active sample levels (oc_lowerTransmit c));
   (aniHighTransmitAlarm, λ active, highTransmitAlarm active sample levels (oc_upperTransmit c));
   (aniLaserBiasAlarm, λ active, highRawAlarm active (sm_LaserBiasCurrent sample) internalBiasHighAlarm internalBiasHighClear)].

Definition applyCondition (bitmap : list Z) (entry : Z * (bool → bool)) : list Z :=
  setAlarmBit bitmap entry.1 (entry.2 (alarmBit bitmap entry.1)).

Lemma opticalBitmap_fold c sample bitmap :
  opticalBitmap c sample bitmap = fold_left applyCondition (opticalConditions c sample) bitmap.
Proof. reflexivity. Qed.

Lemma conditions_length l bitmap : length (fold_left applyCondition l bitmap) = length bitmap.
Proof. revert bitmap. induction l as [|x l IH]; intros bitmap; [done|]. cbn. rewrite IH. apply length_setAlarmBit. Qed.

(** Each alarm gets the condition of what it was; the others stay. *)
Lemma conditions_bits l bitmap :
  length bitmap = 28%nat → NoDup l.*1 → (∀ x, x ∈ l → 0 ≤ x.1 < 224) →
  (∀ x, x ∈ l → alarmBit (fold_left applyCondition l bitmap) x.1 = x.2 (alarmBit bitmap x.1)) ∧
  (∀ other, 0 ≤ other → other ∉ l.*1 → alarmBit (fold_left applyCondition l bitmap) other = alarmBit bitmap other).
Proof.
  revert bitmap. induction l as [|x l IH]; intros bitmap Hl Hn Hr.
  { split; [intros x Hx; by apply elem_of_nil in Hx|done]. }
  cbn [fold_left]. rewrite fmap_cons in *. apply NoDup_cons in Hn as [Hx Hn].
  assert (0 ≤ x.1 < 224) by (apply Hr; left).
  assert (∀ other, 0 ≤ other → alarmBit (applyCondition bitmap x) other =
    if other =? x.1 then x.2 (alarmBit bitmap x.1) else alarmBit bitmap other) as Hset
    by (intros; by apply alarmBit_set).
  destruct (IH (applyCondition bitmap x)) as [IH1 IH2]; [by unfold applyCondition; rewrite length_setAlarmBit|done|intros; apply Hr; by right|].
  split.
  - intros y [->|Hy]%elem_of_cons.
    + rewrite IH2 by (lia || done). rewrite Hset by lia. by rewrite Z.eqb_refl.
    + rewrite IH1 by done. assert (0 ≤ y.1 < 224) by (apply Hr; by right). rewrite Hset by lia.
      rewrite (proj2 (Z.eqb_neq _ _)); [done|]. intros He. apply Hx. rewrite <- He. by apply list_elem_of_fmap_2.
  - intros other Ho Hno. apply not_elem_of_cons in Hno as [Hne Hno].
    rewrite IH2, Hset by done. by rewrite (proj2 (Z.eqb_neq _ _)).
Qed.

(** A bitmap in which every alarm satisfies its own condition stays. *)
Lemma conditions_settled l bitmap :
  length bitmap = 28%nat → (∀ x, x ∈ l → 0 ≤ x.1 < 224 ∧ x.2 (alarmBit bitmap x.1) = alarmBit bitmap x.1) →
  fold_left applyCondition l bitmap = bitmap.
Proof.
  intros Hl. induction l as [|x l IH]; intros Hx; [done|]. cbn [fold_left].
  destruct (Hx x) as [Hr He]; [left|].
  replace (applyCondition bitmap x) with bitmap; [apply IH; intros; apply Hx; by right|].
  unfold applyCondition. rewrite He. by rewrite setAlarmBit_same.
Qed.

Lemma condition_settles c sample x active : x ∈ opticalConditions c sample → x.2 (x.2 active) = x.2 active.
Proof.
  unfold opticalConditions. rewrite !elem_of_cons, elem_of_nil.
  intros [->|[->|[->|[->|[->|[]]]]]]; cbn [snd];
    unfold lowReceiveAlarm, highReceiveAlarm, lowTransmitAlarm, highTransmitAlarm, lowPowerAlarm, highPowerAlarm,
      lowRawAlarm, highRawAlarm, opticalHysteresis, internalRXLowAlarm, internalRXLowClear, internalRXHighAlarm,
      internalRXHighClear, internalTXLowAlarm, internalTXLowClear, internalTXHighAlarm, internalTXHighClear,
      internalBiasHighAlarm, internalBiasHighClear;
    try case_match; destruct active; try case_match; try reflexivity; lia.
Qed.

Lemma condition_range c sample :
  NoDup (opticalConditions c sample).*1 ∧ ∀ x, x ∈ opticalConditions c sample → 0 ≤ x.1 < 224.
Proof.
  assert (Forall (λ alarm, 0 ≤ alarm < 224) (opticalConditions c sample).*1) as Hall by by_decide.
  split; [by_decide|]. intros x Hx. rewrite Forall_forall in Hall. by apply Hall, list_elem_of_fmap_2.
Qed.

(** The optical alarms have hysteresis: evaluating a sample leaves a bitmap that the same
    sample no longer changes, whatever thresholds are set and whatever alarms were raised
    before; a receive level alarm that has a threshold is raised below it and cleared only at
    the hysteresis above; and no other alarm changes. *)
Theorem optical_alarms_settle c sample bitmap (Hl : length bitmap = 28%nat) :
  let settled := opticalBitmap c sample bitmap in
  opticalBitmap c sample settled = settled ∧
  (oc_lowerReceive c ≠ 0xff →
   let level := lv_ReceiveDBm (ANI sample) in
   let threshold := - oc_lowerReceive c * 250 in
   (level < threshold → alarmBit settled aniLowReceiveAlarm = true) ∧
   (alarmBit bitmap aniLowReceiveAlarm = true → alarmBit settled aniLowReceiveAlarm = false →
    threshold + opticalHysteresis ≤ level)) ∧
  ∀ other, 0 ≤ other → other ∉ (opticalConditions c sample).*1 → alarmBit settled other = alarmBit bitmap other.
Proof.
  intros settled. unfold settled. rewrite !opticalBitmap_fold.
  destruct (condition_range c sample) as [Hn Hr].
  destruct (conditions_bits (opticalConditions c sample) bitmap Hl Hn Hr) as [Hbits Hother].
  split_and!; [|intros Hc; cbv zeta|exact Hother].
  - apply conditions_settled; [by rewrite conditions_length|]. intros x Hx. split; [by apply Hr|].
    rewrite Hbits by done. by eapply condition_settles.
  - pose proof (Hbits (aniLowReceiveAlarm, _) (list_elem_of_here _ _)) as Hlow. cbn [fst snd] in Hlow. rewrite Hlow.
    unfold lowReceiveAlarm. rewrite (proj2 (Z.eqb_neq _ _)) by done. unfold lowPowerAlarm, opticalHysteresis.
    split; intros; case_match; lia.
Qed.

(** ** A concrete ANI-G *)

Definition aniFactory : list Instance_ :=
  sample_factory ++
  [mkInstance (AniGClassID, 0x8001)
     {[ "Arc" := VU8 0; "ArcInterval" := VU8 0; AniG_SignalFailThreshold := VU8 5; AniG_SignalDegradeThreshold := VU8 9;
        AniG_LowerOpticalThreshold := VU8 100; AniG_UpperOpticalThreshold := VU8 20 ]} OriginONU].
Definition aniStore : Store (list Change) :=
  sample_outcome empty_store (@NewWithOptions canonical_range _ aniFactory sample_options).
Definition aniEngine : Engine (list Change) unit := NewForMode aniStore noControllers None GPON.
(** Nine errors in ten milliseconds: a rate of some 10^-7. *)
Definition aniErrors : BERSample := mkBERSample 1 9 10 "".
Definition aniAlarmed := @evaluateBERSample canonical_range _ _ aniEngine 0 (AniGClassID, 0x8001) aniErrors BaselineIdent.

Lemma ber_alarms_witness :
  is_Ok aniAlarmed.1 = true ∧
  let bitmap := default zeroBitmap (alarms aniAlarmed.2 !! (AniGClassID, 0x8001)) in
  alarmBit bitmap aniSignalFailAlarm = false ∧ alarmBit bitmap aniSignalDegradeAlarm = true ∧
  (alarmBit bitmap aniSignalFailAlarm = true → alarmBit bitmap aniSignalDegradeAlarm = true).
Proof.
  assert (is_Ok aniAlarmed.1 = true) as Hok by (vm_compute; reflexivity). split; [exact Hok|].
  split; [vm_compute; reflexivity|]. split; [vm_compute; reflexivity|].
  assert (@NewWithOptions canonical_range _ aniFactory sample_options = Ok aniStore) as Hn by (vm_compute; reflexivity).
  destruct (@ber_alarms canonical_range _ _ aniEngine 0 (AniGClassID, 0x8001) aniErrors BaselineIdent
              aniAlarmed.1 aniAlarmed.2) as [_ H].
  - eapply (@reachable_inv canonical_range). apply reach_new. exact Hn.
  - reflexivity.
  - by_decide.
  - by_decide.
  - reflexivity.
  - apply surjective_pairing.
  - destruct aniAlarmed.1 as [frames|] eqn:Hr; [|discriminate Hok].
    destruct (H frames eq_refl) as (instance & sf & sd & _ & _ & _ & Hb). apply Hb.
Defined.

Lemma optical_alarms_settle_witness :
  let c := mkOpticalConfiguration 100 20 0x81 0x81 in
  let sample := mkSample 0 0 0 1 0 in
  let settled := opticalBitmap c sample zeroBitmap in
  settled ≠ zeroBitmap ∧ opticalBitmap c sample settled = settled.
Proof.
  split; [vm_compute; congruence|].
  exact (proj1 (optical_alarms_settle (mkOpticalConfiguration 100 20 0x81 0x81) (mkSample 0 0 0 1 0) zeroBitmap eq_refl)).
Defined.
