(* ===== verification/Onu3Props.v ===== *)
(** * Engine: the ring of status snapshots

    The snapshot attributes of ONU3-G implement a bounded sequence of records: a snap appends
    one and drops the oldest when the ring is full, and no state the store accepts makes it
    panic. *)

From S2P Require Import Prelude Maps MeTypes MeLib Mib MeNames Semantics Store.
From S2P Require Import Model Frames Codec Software Controllers Engine PmRules Notify Onu3.

(** The ring the attributes hold. *)
Record ring := mkRing { rg_total : Z; rg_valid : Z; rg_next : Z; rg_rows : list Z; rg_recent : list Z }.

Definition ringOf (attributes : AttributeValueMap) : option ring :=
  match attributes !! Onu3G_TotalNumberOfStatusSnapshots, attributes !! Onu3G_NumberOfValidStatusSnapshots,
        attributes !! Onu3G_NextStatusSnapshotIndex, attributes !! Onu3G_StatusSnapshotRecordTable,
        attributes !! Onu3G_MostRecentStatusSnapshot with
  | Some (VU16 total), Some (VU16 valid), Some (VU16 next), Some (VTable table), Some (VOctets recent) =>
      Some (mkRing total valid next (Rows table) recent)
  | _, _, _, _, _ => None
  end.

Definition recordAt (rows : list Z) (i : nat) : list Z := slice rows (i * RecordSize) (i * RecordSize + RecordSize).

(** The records from the oldest to the newest. *)
Definition chronological (r : ring) : list (list Z) :=
  if rg_valid r <? rg_total r then map (recordAt (rg_rows r)) (seq 0 (Z.to_nat (rg_valid r)))
  else map (recordAt (rg_rows r))
         (seq (Z.to_nat (rg_next r)) (Z.to_nat (rg_total r - rg_next r)) ++ seq 0 (Z.to_nat (rg_next r))).

Definition snapshots (attributes : AttributeValueMap) : list (list Z) :=
  match ringOf attributes with Some r => chronological r | None => [] end.

(** The last [n] elements. *)
Definition lastn {A} (n : nat) (l : list A) : list A := drop (length l - n) l.

Record ring_ok (r : ring) : Prop := {
  ro_total : 0 < rg_total r;
  ro_valid : 0 ≤ rg_valid r ≤ rg_total r;
  ro_next : 0 ≤ rg_next r < rg_total r;
  ro_filling : rg_valid r < rg_total r → rg_next r = rg_valid r;
  ro_rows : length (rg_rows r) = (Z.to_nat (rg_valid r) * RecordSize)%nat;
  ro_recent : length (rg_recent r) = RecordSize;
  ro_latest : rg_valid r ≠ 0 →
    rg_recent r = recordAt (rg_rows r) (Z.to_nat ((rg_next r + rg_total r - 1) mod rg_total r))
}.

(** The attributes hold values of their widths. *)
Definition ring_typed (r : ring) : Prop := is_u 16 (rg_total r) ∧ is_u 16 (rg_valid r) ∧ is_u 16 (rg_next r).

Definition mode_ok (attributes : AttributeValueMap) : Prop :=
  ∀ enhanced, attributes !! Onu3G_EnhancedMode = Some (VU8 enhanced) → enhanced ≤ 1.

Definition table_counts (attributes : AttributeValueMap) (r : ring) : Prop :=
  ∀ table, attributes !! Onu3G_StatusSnapshotRecordTable = Some (VTable table) → NumRows table = rg_valid r.

(** The attributes of a ring. *)
Definition ring_attributes (attributes : AttributeValueMap) (r : ring) (table : TableRows) : Prop :=
  attributes !! Onu3G_TotalNumberOfStatusSnapshots = Some (VU16 (rg_total r)) ∧
  attributes !! Onu3G_NumberOfValidStatusSnapshots = Some (VU16 (rg_valid r)) ∧
  attributes !! Onu3G_NextStatusSnapshotIndex = Some (VU16 (rg_next r)) ∧
  attributes !! Onu3G_StatusSnapshotRecordTable = Some (VTable table) ∧ Rows table = rg_rows r ∧
  attributes !! Onu3G_MostRecentStatusSnapshot = Some (VOctets (rg_recent r)).

Lemma ringOf_attributes attributes r :
  ringOf attributes = Some r ↔ ∃ table, ring_attributes attributes r table.
Proof.
  split.
  - unfold ringOf, ring_attributes. intros H. repeat case_match; try discriminate H. injection H as <-. eexists. done.
  - intros (table & Ht & Hv & Hn & Hs & Hr & Hm). unfold ringOf. rewrite Ht, Hv, Hn, Hs, Hm, Hr. by destruct r.
Qed.

(** What the store checks is that the ring is in order. *)
Lemma validateONU3State_ring attributes r table :
  ring_typed r → ring_attributes attributes r table →
  validateONU3State attributes = Ok tt ↔ ring_ok r ∧ NumRows table = rg_valid r ∧ mode_ok attributes.
Proof.
  intros (Htt & Htv & Htn) (Ht & Hv & Hn & Hs & Hr & Hm). unfold is_u in *.
  unfold validateONU3State, mode_ok. rewrite Ht, Hv, Hn, Hs, Hm, Hr.
  assert (match attributes !! Onu3G_EnhancedMode with Some (VU8 enhanced) => 1 <? enhanced | _ => false end = false ↔
    ∀ enhanced, attributes !! Onu3G_EnhancedMode = Some (VU8 enhanced) → enhanced ≤ 1) as Hmode.
  { destruct (attributes !! Onu3G_EnhancedMode) as [[]|]; try (split; [intros _ ? [=]|done]).
    split; [intros H ? [= <-]; lia|intros H; specialize (H _ eq_refl); lia]. }
  set (offset := (Z.to_nat ((rg_next r + rg_total r - 1) mod rg_total r) * RecordSize)%nat).
  assert (0 < rg_total r → length (rg_rows r) = (Z.to_nat (rg_valid r) * RecordSize)%nat → rg_valid r ≤ rg_total r →
    rg_next r < rg_total r → (rg_valid r < rg_total r → rg_next r = rg_valid r) → rg_valid r ≠ 0 →
    (offset + RecordSize ≤ length (rg_rows r))%nat) as Hroom.
  { intros H0 Hlen Hle Hlt Hf Hz. rewrite Hlen. unfold offset, RecordSize.
    assert ((rg_next r + rg_total r - 1) mod rg_total r < rg_valid r); [|lia].
    destruct (decide (rg_valid r < rg_total r)) as [Hd|Hd].
    - rewrite (Hf Hd). replace (rg_valid r + rg_total r - 1) with (rg_valid r - 1 + 1 * rg_total r) by lia.
      rewrite Z.mod_add, Z.mod_small by lia. lia.
    - assert ((rg_next r + rg_total r - 1) mod rg_total r < rg_total r) by (apply Z.mod_pos_bound; lia). lia. }
  split.
  - intros H. inv_ok H. fold offset in H. unfold RecordSize in *.
    destruct (negb (rg_valid r =? 0)) eqn:Hz.
    + apply guard_err_iff in H. split; [split|split; [lia|by apply Hmode]]; unfold RecordSize; try lia.
      intros _. apply orb_false_iff in H as [_ H]. by apply negb_false_iff, bool_decide_eq_true in H.
    + split; [split|split; [lia|by apply Hmode]]; unfold RecordSize; lia.
  - intros ([? ? ? Hf Hlen Hrec Hlat] & Hnum & Hmo). apply Hmode in Hmo. unfold RecordSize in *.
    assert (rg_valid r < rg_total r → (rg_next r =? rg_valid r) = true) by (intros; rewrite Hf; lia).
    rewrite Hmo. pass_guards. cbv zeta. fold offset. destruct (negb (rg_valid r =? 0)) eqn:Hz; [|done].
    apply guard_err_iff, orb_false_iff. split; [apply Nat.ltb_ge, Hroom; lia|].
    apply negb_false_iff, bool_decide_eq_true, Hlat. lia.
Qed.

(** ** One more record *)

Definition snapRing (r : ring) (record : list Z) : ring :=
  let next := (rg_next r + 1) mod rg_total r in
  if rg_valid r <? rg_total r
  then mkRing (rg_total r) (rg_valid r + 1) next (rg_rows r ++ record) record
  else
    let offset := (Z.to_nat (rg_next r) * RecordSize)%nat in
    mkRing (rg_total r) (rg_valid r) next
      (take offset (rg_rows r) ++ record ++ drop (offset + RecordSize) (rg_rows r)) record.

Lemma recordAt_app rows record i :
  length record = RecordSize →
  (i * RecordSize + RecordSize ≤ length rows)%nat → recordAt (rows ++ record) i = recordAt rows i.
Proof.
  intros _ Hi. unfold recordAt, slice. rewrite drop_app_le by lia. rewrite take_app_le; [done|].
  rewrite length_drop. lia.
Qed.

Lemma recordAt_last rows record i :
  length record = RecordSize → length rows = (i * RecordSize)%nat → recordAt (rows ++ record) i = record.
Proof.
  intros Hr Hl. unfold recordAt, slice. rewrite <- Hl, drop_app_length.
  replace (length rows + RecordSize - length rows)%nat with (length record) by lia. apply firstn_all.
Qed.

Lemma recordAt_replace rows record k i :
  length record = RecordSize → (k * RecordSize + RecordSize ≤ length rows)%nat →
  recordAt (take (k * RecordSize) rows ++ record ++ drop (k * RecordSize + RecordSize) rows) i =
  if decide (i = k) then record else recordAt rows i.
Proof.
  intros Hr Hl. unfold recordAt, slice, RecordSize in *. set (a := (k * 25)%nat) in *.
  assert (length (take a rows) = a) as Ha by (rewrite length_take; lia).
  case_decide as Hd; [subst i; fold a|].
  - replace (drop a (take a rows ++ record ++ drop (a + 25) rows)) with (record ++ drop (a + 25) rows)
      by (by rewrite drop_app_length' by done).
    replace (a + 25 - a)%nat with (length record) by lia. by rewrite take_app_length.
  - apply list_eq. intros j. destruct (decide (j < 25)%nat).
    + replace (i * 25 + 25 - i * 25)%nat with 25%nat by lia. rewrite !lookup_take_lt, !lookup_drop by lia.
      destruct (decide (i < k)%nat).
      * rewrite lookup_app_l by lia. by rewrite lookup_take_lt by lia.
      * rewrite app_assoc, lookup_app_r by (rewrite length_app; lia). rewrite lookup_drop, length_app.
        f_equal. lia.
    + rewrite !lookup_take_ge by lia. done.
Qed.

Lemma snapRing_ok r record : ring_ok r → length record = RecordSize → ring_ok (snapRing r record).
Proof.
  intros [Ht Hv Hn Hf Hrows Hrec Hlat] Hl. unfold snapRing. cbv zeta.
  assert (0 ≤ (rg_next r + 1) mod rg_total r < rg_total r) by (by apply Z.mod_pos_bound).
  assert (((rg_next r + 1) mod rg_total r + rg_total r - 1) mod rg_total r = rg_next r) as Hprev.
  { destruct (decide (rg_next r + 1 = rg_total r)) as [He|].
    - rewrite He, Z.mod_same by lia. rewrite Z.mod_small; lia.
    - rewrite (Z.mod_small (_ + 1)) by lia.
      replace (rg_next r + 1 + rg_total r - 1) with (rg_next r + 1 * rg_total r) by lia.
      rewrite Z.mod_add by lia. apply Z.mod_small. lia. }
  destruct (rg_valid r <? rg_total r) eqn:Hfill.
  - assert (rg_next r = rg_valid r) as He by (apply Hf; lia).
    split; cbn; rewrite ?Hprev; try done; try lia.
    + intros. rewrite He, Z.mod_small; lia.
    + rewrite length_app, Hl, Hrows. unfold RecordSize. lia.
    + intros _. rewrite recordAt_last; [done|done|]. by rewrite He, Hrows.
  - split; cbn; rewrite ?Hprev; try done; try lia.
    + rewrite !length_app, length_take, length_drop, Hl, Hrows. unfold RecordSize in *. lia.
    + intros _. rewrite recordAt_replace, decide_True; [done..|]. rewrite Hrows. unfold RecordSize. lia.
Qed.

Lemma length_chronological r : ring_ok r → length (chronological r) = Z.to_nat (rg_valid r).
Proof.
  intros [Ht Hv Hn Hf _ _ _]. unfold chronological. destruct (_ <? _) eqn:Hfill; rewrite length_map.
  - apply length_seq.
  - rewrite length_app, !length_seq. lia.
Qed.

Lemma lastn_all {A} n (l : list A) : (length l ≤ n)%nat → lastn n l = l.
Proof. intros H. unfold lastn. by replace (length l - n)%nat with 0%nat by lia. Qed.

(** The ring is a bounded sequence: a snap appends, and drops the oldest when it is full. *)
Lemma snapRing_chronological r record :
  ring_ok r → length record = RecordSize →
  chronological (snapRing r record) = lastn (Z.to_nat (rg_total r)) (chronological r ++ [record]).
Proof.
  intros Hok Hl. pose proof (length_chronological r Hok) as Hlen. destruct Hok as [Ht Hv Hn Hf Hrows Hrec _].
  set (n := Z.to_nat (rg_valid r)) in *.
  destruct (rg_valid r <? rg_total r) eqn:Hfill.
  - rewrite lastn_all by (rewrite length_app; cbn; lia).
    assert (map (recordAt (rg_rows r ++ record)) (seq 0 (S n)) = map (recordAt (rg_rows r)) (seq 0 n) ++ [record]) as Hm.
    { rewrite seq_S, map_app. cbn [map Nat.add]. rewrite recordAt_last by (done || lia). f_equal.
      apply map_ext_in. intros i [_ Hi]%in_seq. apply recordAt_app; [done|]. rewrite Hrows.
      unfold RecordSize. fold n. lia. }
    unfold chronological, snapRing. rewrite Hfill. cbn. fold n. rewrite <- Hm.
    destruct (rg_valid r + 1 <? rg_total r) eqn:Hmore; [by replace (Z.to_nat (rg_valid r + 1)) with (S n) by lia|].
    replace ((rg_next r + 1) mod rg_total r) with 0 by (rewrite Hf by lia; replace (rg_valid r + 1) with (rg_total r) by lia; by rewrite Z.mod_same by lia).
    cbn [Z.to_nat seq app]. rewrite app_nil_r. by replace (Z.to_nat (rg_total r - 0)) with (S n) by lia.
  - set (k := Z.to_nat (rg_next r)). set (rows := rg_rows r) in *.
    assert (∀ i, recordAt (take (k * RecordSize) rows ++ record ++ drop (k * RecordSize + RecordSize) rows) i =
      if decide (i = k) then record else recordAt rows i) as Hat.
    { intros i. apply recordAt_replace; [done|]. rewrite Hrows. unfold RecordSize. lia. }
    unfold lastn. rewrite length_app, Hlen. cbn [length].
    replace (n + 1 - Z.to_nat (rg_total r))%nat with 1%nat by lia.
    unfold chronological, snapRing. rewrite Hfill. cbn. rewrite Hfill. fold k rows.
    replace (Z.to_nat (rg_total r - rg_next r)) with (S (n - k - 1)) by lia. cbn [seq map app drop].
    rewrite drop_0.
    assert (∀ l, k ∉ l → map (recordAt (take (k * RecordSize) rows ++ record ++ drop (k * RecordSize + RecordSize) rows)) l =
      map (recordAt rows) l) as Hrest.
    { intros l Hk. apply map_ext_in. intros i Hi. rewrite Hat, decide_False; [done|]. intros ->. apply Hk.
      by apply list_elem_of_In. }
    assert (∀ a m, (k < a ∨ a + m ≤ k)%nat → k ∉ seq a m) as Hout by (intros a m Ha Hin; apply elem_of_seq in Hin; lia).
    destruct (decide (rg_next r + 1 = rg_total r)) as [He|He].
    + rewrite He, Z.mod_same by lia. cbn [Z.to_nat seq app]. rewrite app_nil_r.
      replace (Z.to_nat (rg_total r - 0)) with (S k) by lia. replace (n - k - 1)%nat with 0%nat by lia.
      change (seq (S k) 0) with (@nil nat). cbn [app]. rewrite seq_S, map_app. cbn [map Nat.add]. rewrite Hat, decide_True by done.
      rewrite Hrest; [done|]. apply Hout. lia.
    + rewrite Z.mod_small by lia. replace (Z.to_nat (rg_next r + 1)) with (S k) by lia.
      replace (Z.to_nat (rg_total r - (rg_next r + 1))) with (n - k - 1)%nat by lia.
      rewrite seq_S, !map_app. cbn [map Nat.add]. rewrite Hat, decide_True by done.
      rewrite !Hrest by (apply Hout; lia). by rewrite app_assoc.
Qed.

(** ** The attributes after a snap *)

(** Looks a name up in the explicit map [updates] over [attributes]. *)
Ltac lookup_update :=
  first
  [ solve [apply lookup_union_Some_l; cbn [list_to_map foldr];
           repeat first [by rewrite lookup_insert_eq|rewrite lookup_insert_ne by done]]
  | rewrite lookup_union_r; [assumption|]; cbn [list_to_map foldr];
    repeat first [apply lookup_empty|rewrite lookup_insert_ne by done] ].

Lemma mode_ok_update (updates attributes : AttributeValueMap) :
  updates !! Onu3G_EnhancedMode = None → mode_ok attributes → mode_ok (updates ∪ attributes).
Proof. intros Hu Hm x. rewrite lookup_union_r by done. apply Hm. Qed.

Lemma snapUpdates_ring attributes r table record :
  ring_attributes attributes r table → ring_typed r → ring_ok r → NumRows table = rg_valid r →
  length record = RecordSize →
  ∃ updates table', snapUpdates attributes (rg_valid r) (rg_next r) record = Ok updates ∧
    updates !! Onu3G_EnhancedMode = None ∧
    ring_attributes (updates ∪ attributes) (snapRing r record) table' ∧ NumRows table' = rg_valid (snapRing r record).
Proof.
  intros (Ht & Hv & Hn & Hs & Hr & Hm) (Htt & Htv & Htn) [H0 Hva Hne Hf Hrows Hrec _] Hnum Hl. unfold is_u in *.
  unfold snapUpdates, shortValue, tableOf. rewrite Ht, Hs. cbn [asserted mbind Res_bind]. rewrite Hr.
  set (new := mkRows (rg_valid (snapRing r record)) (rg_rows (snapRing r record))).
  assert (∃ updates : AttributeValueMap, updates = list_to_map
    [(Onu3G_NumberOfValidStatusSnapshots, VU16 (rg_valid (snapRing r record)));
     (Onu3G_NextStatusSnapshotIndex, VU16 (rg_next (snapRing r record)));
     (Onu3G_StatusSnapshotRecordTable, VTable new);
     (Onu3G_MostRecentStatusSnapshot, VOctets record)]) as [updates Hu] by by eexists.
  exists updates, new. assert (rg_next (snapRing r record) = u16 (rg_next r + 1) mod rg_total r) as Hnext.
  { rewrite wrap_small by (unfold is_u; lia). unfold snapRing. by case_match. }
  assert (rg_total (snapRing r record) = rg_total r ∧ rg_recent (snapRing r record) = record) as [Htot Hre]
    by (unfold snapRing; by case_match).
  split_and!.
  - unfold new in Hu. rewrite Hu, Hnext. unfold snapRing. cbv zeta. destruct (rg_valid r <? rg_total r) eqn:Hfill.
    + cbn [mbind Res_bind]. rewrite (proj2 (Z.eqb_neq _ _)) by lia. cbn [guard_err mbind Res_bind fst snd rg_valid rg_rows].
      by rewrite (wrap_small 16 (rg_valid r + 1)) by (unfold is_u; lia).
    + assert ((length (rg_rows r) <? Z.to_nat (rg_next r) * RecordSize + RecordSize)%nat = false) as ->
        by (apply Nat.ltb_ge; rewrite Hrows; unfold RecordSize; lia).
      cbn [mbind Res_bind]. by rewrite (proj2 (Z.eqb_neq _ _)) by lia.
  - rewrite Hu. cbn [list_to_map foldr]. by rewrite !lookup_insert_ne by done.
  - unfold ring_attributes. rewrite Htot, Hre, Hu. split_and!; try reflexivity; lookup_update.
  - done.
Qed.

(** C40: The snapshot attributes of an ONU3-G implement a bounded sequence of status records:
    in every state the store accepts a snap succeeds without an index out of range, a failed
    type assertion or a division by zero, the state it leaves is accepted again, and the
    records in it from oldest to newest are the ones before with the new one appended and, when
    the ring was full, the oldest dropped; a reset leaves the empty sequence. *)
Theorem onu3_ring attributes r table record
    (Ha : ring_attributes attributes r table) (Ht : ring_typed r)
    (Hv : validateONU3State attributes = Ok tt) (Hl : length record = RecordSize) :
  (∃ updates, snapUpdates attributes (rg_valid r) (rg_next r) record = Ok updates ∧
     validateONU3State (updates ∪ attributes) = Ok tt ∧
     snapshots (updates ∪ attributes) = lastn (Z.to_nat (rg_total r)) (snapshots attributes ++ [record])) ∧
  validateONU3State (resetUpdates ∪ attributes) = Ok tt ∧ snapshots (resetUpdates ∪ attributes) = [].
Proof.
  assert (∀ attrs r' table', ring_attributes attrs r' table' → snapshots attrs = chronological r') as Hsnap.
  { intros attrs r' table' H. unfold snapshots. by rewrite (proj2 (ringOf_attributes attrs r')) by by eexists. }
  apply (validateONU3State_ring _ _ _ Ht Ha) in Hv as (Hok & Hnum & Hmode). split.
  - destruct (snapUpdates_ring _ _ _ _ Ha Ht Hok Hnum Hl) as (updates & table' & Hu & Hem & Ha' & Hnum').
    exists updates. split; [exact Hu|]. pose proof (snapRing_ok r record Hok Hl) as Hok'.
    assert (ring_typed (snapRing r record)) as Ht'.
    { destruct Ht as (Htt & _ & _), Hok' as [_ Hv' Hn' _ _ _ _].
      assert (rg_total (snapRing r record) = rg_total r) as Htot by (unfold snapRing; by case_match).
      rewrite Htot in *. unfold ring_typed, is_u in *. rewrite Htot. lia. }
    split; [apply (validateONU3State_ring _ _ _ Ht' Ha'); split_and!; [done..|by apply mode_ok_update]|].
    rewrite (Hsnap _ _ _ Ha'), (Hsnap _ _ _ Ha). by apply snapRing_chronological.
  - destruct Ha as (Hat & Hav & Han & Has & Har & Ham), Ht as (Htt & _ & _), Hok as [H0 _ _ _ _ _ _].
    set (empty := mkRing (rg_total r) 0 0 [] (repeat 0 RecordSize)).
    assert (ring_attributes (resetUpdates ∪ attributes) empty (mkRows 0 [])) as He.
    { unfold ring_attributes, resetUpdates. split_and!; try reflexivity; lookup_update. }
    split.
    + apply (validateONU3State_ring _ empty (mkRows 0 [])); [by split_and!|exact He|].
      split_and!; [split; cbn; try done; lia|done|]. apply mode_ok_update; [|done].
      unfold resetUpdates. cbn [list_to_map foldr]. by rewrite !lookup_insert_ne by done.
    + rewrite (Hsnap _ _ _ He). unfold chronological. cbn. by rewrite (proj2 (Z.ltb_lt _ _)).
Qed.

(** ** A concrete ring: two slots, one taken *)

Definition sampleRecord (x : Z) : list Z := repeat x RecordSize.
Definition sampleRing : AttributeValueMap :=
  list_to_map
    [(Onu3G_TotalNumberOfStatusSnapshots, VU16 2); (Onu3G_NumberOfValidStatusSnapshots, VU16 2);
     (Onu3G_NextStatusSnapshotIndex, VU16 1);
     (Onu3G_StatusSnapshotRecordTable, VTable (mkRows 2 (sampleRecord 3 ++ sampleRecord 2)));
     (Onu3G_MostRecentStatusSnapshot, VOctets (sampleRecord 3))].

Lemma onu3_ring_witness :
  snapshots sampleRing = [sampleRecord 2; sampleRecord 3] ∧
  ∃ updates, snapUpdates sampleRing 2 1 (sampleRecord 4) = Ok updates ∧
    snapshots (updates ∪ sampleRing) = [sampleRecord 3; sampleRecord 4].
Proof.
  split; [vm_compute; reflexivity|].
  destruct (onu3_ring sampleRing (mkRing 2 2 1 (sampleRecord 3 ++ sampleRecord 2) (sampleRecord 3))
              (mkRows 2 (sampleRecord 3 ++ sampleRecord 2)) (sampleRecord 4)) as [(updates & Hu & _ & Hs) _].
  - split_and!; vm_compute; reflexivity.
  - split_and!; by_decide.
  - vm_compute. reflexivity.
  - reflexivity.
  - exists updates. split; [exact Hu|]. rewrite Hs. vm_compute. reflexivity.
Defined.
