(* ===== verification/RuntimeLemmas.v ===== *)
(** * Engine: lemmas on the runtime state

    What the loops of RuntimeState.v compute: the keyed loops that turn a list of the document
    into a map, the counters of a history and their restoration, the fingerprinted snapshot,
    and the MIB after a batch of histories. *)

From S2P Require Import Prelude Maps MeTypes MeClasses MeLib Mib MeNames Semantics Store.
From S2P Require Import StoreLemmas StoreInvariant StoreProps.
From S2P Require Import Model Frames Codec Software Counters Controllers Engine PmRules Notify.
From S2P Require Import Performance OpticalAlarms UploadProps RuntimeState.

(** ** Loops that file a list under its keys *)

Section keyed.
Context {A V : Type} (key : A → Key) (val : A → V).

(** A loop that refuses duplicates: the map holds exactly the list. *)
Lemma keyed_loop {E} (f : gmap Key V → A → Res E (gmap Key V)) l m m' :
  (∀ m x m', f m x = Ok m' → m !! key x = None ∧ m' = <[key x := val x]> m) →
  foldM_res f l m = Ok m' → map_to_list m' ≡ₚ map (λ x, (key x, val x)) l ++ map_to_list m.
Proof.
  intros Hf. revert m. induction l as [|x l IH]; intros m H; cbn [foldM_res] in H; [by injection H as <-|].
  apply Res_bind_Ok in H as (m1 & [Hx ->]%Hf & H). rewrite (IH _ H), map_to_list_insert by done.
  by rewrite <- Permutation_middle.
Qed.

Lemma keyed_NoDup (m : gmap Key V) l :
  map_to_list m ≡ₚ map (λ x, (key x, val x)) l → NoDup (key <$> l).
Proof.
  intros Hp. pose proof (NoDup_fst_map_to_list m) as Hn. rewrite Hp in Hn.
  by rewrite <- list_fmap_compose in Hn.
Qed.

Lemma keyed_lookup (m : gmap Key V) l k v :
  map_to_list m ≡ₚ map (λ x, (key x, val x)) l → m !! k = Some v ↔ ∃ x, x ∈ l ∧ key x = k ∧ val x = v.
Proof.
  intros Hp. rewrite <- elem_of_map_to_list, Hp, list_elem_of_fmap.
  split; [intros (x & [= -> ->] & Hx); by exists x|intros (x & Hx & <- & <-); by exists x].
Qed.

(** What is emitted from the map, in the order of its range, is the list up to its order. *)
Lemma keyed_emit {MR : MapRange} {B} (mk : Key * V → B) (m : gmap Key V) l :
  map_to_list m ≡ₚ map (λ x, (key x, val x)) l → map mk (range m) ≡ₚ map (λ x, mk (key x, val x)) l.
Proof. intros Hp. rewrite range_perm, Hp, map_map. done. Qed.
End keyed.

(** Sorting by keys that no two elements share does not depend on the order. *)
Lemma merge_sort_unique {A K} (key : A → K) (le : relation A) `{∀ a b, Decision (le a b)} l l' :
  Transitive le → Total le → (∀ a b, le a b → le b a → key a = key b) →
  l ≡ₚ l' → NoDup (key <$> l) → merge_sort le l = merge_sort le l'.
Proof.
  intros Ht Htot Hanti Hp Hn.
  apply (sorted_by_key_unique le); [by rewrite !merge_sort_Permutation| |by apply StronglySorted_merge_sort..].
  intros a b Ha Hb Hab Hba. rewrite merge_sort_Permutation in Ha, Hb.
  by apply (NoDup_key_inj key l); [|..|apply Hanti].
Qed.

#[export] Instance byRuntimeKey_trans {A} (key : A → Key) : Transitive (byRuntimeKey key).
Proof. intros a b c. apply (key_trans (le := pair_le)). Qed.
#[export] Instance byRuntimeKey_total {A} (key : A → Key) : Total (byRuntimeKey key).
Proof. intros a b. apply (key_total (le := pair_le)). Qed.
#[export] Instance byCounterName_trans : Transitive byCounterName.
Proof. intros a b c. apply (key_trans (le := string_le)). Qed.
#[export] Instance byCounterName_total : Total byCounterName.
Proof. intros a b. apply (key_total (le := string_le)). Qed.

Lemma sort_by_key {A} (key : A → Key) l l' :
  l ≡ₚ l' → NoDup (key <$> l) → merge_sort (byRuntimeKey key) l = merge_sort (byRuntimeKey key) l'.
Proof.
  apply merge_sort_unique; [apply _..|]. intros a b. apply (key_antisymm (le := pair_le)).
Qed.

Lemma sort_by_name l l' :
  l ≡ₚ l' → NoDup (rc_Name <$> l) → merge_sort byCounterName l = merge_sort byCounterName l'.
Proof.
  apply merge_sort_unique; [apply _..|]. intros a b. apply (key_antisymm (le := string_le)).
Qed.

(** A loop whose every element succeeds. *)
Lemma mapM_res_map {E A B} (f : A → Res E B) (g : A → B) l :
  (∀ x, x ∈ l → f x = Ok (g x)) → mapM_res f l = Ok (map g l).
Proof.
  induction l as [|x l IH]; intros Hl; [done|]. cbn [mapM_res].
  rewrite (Hl x) by left. cbn [mbind Res_bind]. rewrite IH by (intros; apply Hl; by right). done.
Qed.

Lemma mapM_res_rel {E A B} (f : A → Res E B) l l' :
  Forall2 (λ x y, f x = f y) l l' → mapM_res f l = mapM_res f l'.
Proof. induction 1 as [|x y l l' Hxy _ IH]; [done|]. cbn [mapM_res]. by rewrite Hxy, IH. Qed.

Section history.
Context {MR : MapRange}.

(** ** The counters of a history *)

(** The attributes of a class that are neither written nor set by create. *)
Definition volatileName (classID : Z) (name : string) : bool :=
  negb (bool_decide (name = ManagedEntityID)) &&
  match attr_named (definition_of classID) name with
  | Some definition => negb (writtenAttribute definition)
  | None => false
  end.

Definition readCounter (classID : Z) (entry : string * Value) : option RuntimeCounter :=
  if volatileName classID entry.1 then mkRuntimeCounter entry.1 <$> runtimeUnsigned entry.2 else None.

(** The read-only attributes of an instance are integers. *)
Definition readable (classID : Z) (entry : string * Value) : Prop :=
  volatileName classID entry.1 = true → is_Some (runtimeUnsigned entry.2).

Lemma known_attr_named c n : known_name (definition_of c) n = true → ∃ d, attr_named (definition_of c) n = Some d.
Proof. unfold known_name. intros H%bool_decide_eq_true. exact H. Qed.

Lemma historyCounter_spec c acc n v acc' :
  n = ManagedEntityID ∨ known_name (definition_of c) n = true →
  historyCounter (AttributeDefinitions (definition_of c)) acc (n, v) = Ok acc' ↔
  readable c (n, v) ∧ acc' = acc ++ option_list (readCounter c (n, v)).
Proof.
  intros Hk. unfold historyCounter, readable, readCounter, volatileName. cbn [fst snd].
  rewrite GetAttributeDefinitionByName_named by apply definition_ok_of.
  case_bool_decide as He; cbn [negb andb].
  { cbn. rewrite app_nil_r. split; [intros [= <-]; done|by intros [_ ->]]. }
  destruct Hk as [|(d & ->)%known_attr_named]; [done|].
  destruct (writtenAttribute d); cbn [negb].
  { cbn. rewrite app_nil_r. split; [intros [= <-]; done|by intros [_ ->]]. }
  destruct (runtimeUnsigned v) as [u|]; cbn.
  - split; [intros [= <-]; eauto|by intros [_ ->]].
  - split; [done|]. intros [Hr _]. by destruct Hr.
Qed.

Lemma historyCounters_spec c l acc acc' :
  Forall (λ p : string * Value, p.1 = ManagedEntityID ∨ known_name (definition_of c) p.1 = true) l →
  foldM_res (historyCounter (AttributeDefinitions (definition_of c))) l acc = Ok acc' ↔
  Forall (readable c) l ∧ acc' = acc ++ omap (readCounter c) l.
Proof.
  intros Hl. revert acc. induction Hl as [|[n v] l Hk _ IH]; intros acc; cbn [foldM_res].
  { cbn. rewrite app_nil_r. split; [intros [= <-]; by split; [constructor|]|by intros [_ ->]]. }
  rewrite Res_bind_Ok, Forall_cons. cbn [omap list_omap].
  setoid_rewrite (historyCounter_spec c acc n v _ Hk). setoid_rewrite IH. split.
  - intros (acc1 & [Hr ->] & [Hrs ->]). split; [done|]. rewrite <- app_assoc. by destruct (readCounter c (n, v)).
  - intros [[Hr Hrs] ->]. eexists. split; [by split|]. split; [done|]. rewrite <- app_assoc.
    by destruct (readCounter c (n, v)).
Qed.

Lemma runtimePerformanceHistory_spec i expected :
  names_known (ClassID_of i) (i_Attributes i) →
  runtimePerformanceHistory (Some i) = Ok expected ↔
  Forall (readable (ClassID_of i)) (range (i_Attributes i)) ∧
  expected = merge_sort byCounterName (omap (readCounter (ClassID_of i)) (range (i_Attributes i))).
Proof.
  intros Hk. unfold runtimePerformanceHistory. destruct (loadEntity_ok (i_Key i)) as (entity & -> & Hd).
  cbn [mbind Res_bind]. rewrite Hd, Res_bind_Ok.
  setoid_rewrite (historyCounters_spec (ClassID_of i)).
  2: { apply Forall_forall. intros [n v] Hin%elem_of_range. by apply (Hk n v). }
  split; [intros (l & [Hr ->] & [= <-]); by split|intros [Hr ->]; eexists; by split].
Qed.

(** The counters a history lists. *)
Lemma elem_of_counters c (attrs : AttributeValueMap) r :
  r ∈ omap (readCounter c) (range attrs) ↔
  volatileName c (rc_Name r) = true ∧ ∃ v, attrs !! rc_Name r = Some v ∧ runtimeUnsigned v = Some (rc_Value r).
Proof.
  rewrite list_elem_of_omap. unfold readCounter. split.
  - intros ([n v] & Hin%elem_of_range & Hr). cbn [fst snd] in *.
    destruct (volatileName c n) eqn:Hv; [|done]. apply fmap_Some in Hr as (u & Hu & ->). eauto.
  - intros (Hv & v & Ha & Hu). exists (rc_Name r, v). rewrite elem_of_range. cbn [fst snd]. split; [done|].
    rewrite Hv, Hu. by destruct r.
Qed.

Lemma counters_NoDup c (attrs : AttributeValueMap) : NoDup (rc_Name <$> omap (readCounter c) (range attrs)).
Proof.
  pose proof (NoDup_range_fst attrs) as Hn. induction (range attrs) as [|[n v] l IH]; [constructor|].
  rewrite fmap_cons, NoDup_cons in Hn. destruct Hn as [Hnot Hn]. cbn [omap list_omap].
  destruct (readCounter c (n, v)) as [r|] eqn:Hr; [|by apply IH]. rewrite fmap_cons, NoDup_cons.
  split; [|by apply IH]. unfold readCounter in Hr. cbn [fst snd] in Hr. destruct (volatileName c n); [|done].
  apply fmap_Some in Hr as (u & _ & ->). cbn [rc_Name]. intros Hin. apply Hnot.
  apply list_elem_of_fmap in Hin as (r & -> & (p & Hp & Hx)%list_elem_of_omap).
  unfold readCounter in Hx. destruct (volatileName c p.1); [|done]. apply fmap_Some in Hx as (? & _ & ->).
  apply list_elem_of_fmap. by exists p.
Qed.

(** ** Restoring them *)

Lemma runtimeConvert_unsigned current value v : runtimeConvertUnsigned current value = Ok v → runtimeUnsigned v = Some value.
Proof. destruct current; cbn; try done; intros H; repeat case_match; try done; by injection H as <-. Qed.

Lemma restoreCounters_spec (attrs : AttributeValueMap) values m :
  foldM_res (restoreCounter attrs) values ∅ = Ok m →
  NoDup (rc_Name <$> values) ∧
  (∀ n, is_Some (m !! n) ↔ n ∈ (rc_Name <$> values)) ∧
  (∀ r, r ∈ values → is_Some (attrs !! rc_Name r) ∧
                     ∃ v, m !! rc_Name r = Some v ∧ runtimeUnsigned v = Some (rc_Value r)).
Proof.
  intros Hf. refine (foldM_prefix (λ pre m, NoDup (rc_Name <$> pre) ∧
    (∀ n, is_Some (m !! n) ↔ n ∈ (rc_Name <$> pre)) ∧
    (∀ r, r ∈ pre → is_Some (attrs !! rc_Name r) ∧
       ∃ v, m !! rc_Name r = Some v ∧ runtimeUnsigned v = Some (rc_Value r))) _ _ _ _ _ _ Hf).
  - split_and!; [constructor| |by intros ? ?%elem_of_nil]. intros n. rewrite lookup_empty. cbn.
    rewrite elem_of_nil. split; [by intros []|done].
  - intros pre x post m1 m2 _ (Hn & Hd & Hv) Hx. unfold restoreCounter in Hx. inv_ok Hx.
    apply bool_decide_eq_false in Hg. destruct (attrs !! rc_Name x) as [cur|] eqn:Hc; [|done]. inv_ok Hx. subst m2.
    pose proof (runtimeConvert_unsigned _ _ _ Hr) as Hu. rewrite Hd in Hg. rewrite fmap_app. split_and!.
    + apply NoDup_app. split_and!; [done| |by apply NoDup_singleton].
      intros n Hin Hy%list_elem_of_singleton. subst n. done.
    + intros n. rewrite lookup_insert_is_Some, Hd, elem_of_app. cbn [fmap list_fmap]. rewrite list_elem_of_singleton.
      split; [intros [->|[_ ?]]; tauto|]. intros [?| ->]; [|by left]. destruct (decide (rc_Name x = n)) as [->|]; tauto.
    + intros r [Hin| ->%list_elem_of_singleton]%elem_of_app.
      * destruct (Hv r Hin) as (Ha & v & Hm & Hru). split; [done|]. exists v. split; [|done].
        rewrite lookup_insert_ne; [done|]. intros He. apply Hg. rewrite He. apply list_elem_of_fmap. by exists r.
      * split; [by rewrite Hc|]. exists x0. by rewrite lookup_insert_eq.
Qed.

(** What a restored history holds: a value for every volatile attribute of the instance. *)
Record restores (i : Instance_) (values : list RuntimeCounter) (h : AttributeValueMap) : Prop := {
  rst_names : NoDup (rc_Name <$> values);
  rst_dom : ∀ n, is_Some (h !! n) ↔ n ∈ (rc_Name <$> values);
  rst_volatile : ∀ n, is_Some (h !! n) ↔ volatileName (ClassID_of i) n = true ∧ is_Some (i_Attributes i !! n);
  rst_value : ∀ r, r ∈ values → ∃ v, h !! rc_Name r = Some v ∧ runtimeUnsigned v = Some (rc_Value r);
  rst_readable : Forall (readable (ClassID_of i)) (range (i_Attributes i))
}.

Lemma restoreRuntimeHistory_spec i values h :
  names_known (ClassID_of i) (i_Attributes i) → restoreRuntimeHistory (Some i) values = Ok h → restores i values h.
Proof.
  intros Hk H. unfold restoreRuntimeHistory in H. inv_ok H. subst x0. destruct x1.
  apply (runtimePerformanceHistory_spec _ _ Hk) in Hr as [Hread ->].
  apply restoreCounters_spec in Hr0 as (Hn & Hd & Hv). apply foldM_unit in Hr1. rewrite Forall_forall in Hr1.
  set (expected := omap _ _) in *.
  assert ((rc_Name <$> expected) ≡ₚ (rc_Name <$> values)) as Hp.
  { apply submseteq_length_Permutation.
    - apply NoDup_submseteq; [apply counters_NoDup|]. intros n (r & -> & Hr)%list_elem_of_fmap.
      apply Hd. assert (r ∈ merge_sort byCounterName expected) as Hr' by by rewrite merge_sort_Permutation.
      specialize (Hr1 r Hr'). apply guard_err_iff, negb_false_iff, bool_decide_eq_true in Hr1. exact Hr1.
    - rewrite !length_fmap. rewrite merge_sort_Permutation in Hg. lia. }
  split; [done|done| |intros r Hr; by apply Hv|done].
  intros n. rewrite Hd, <- Hp. split.
  - intros (r & -> & Hr)%list_elem_of_fmap. apply elem_of_counters in Hr as (? & v & ? & _). eauto.
  - intros [Hvol [v Ha]]. rewrite Forall_forall in Hread.
    destruct (Hread (n, v)) as [u Hu]; [by apply elem_of_range|done|]. apply list_elem_of_fmap.
    exists (mkRuntimeCounter n u). split; [done|]. apply elem_of_counters. eauto.
Qed.

(** A history that was restored reads back as it was saved, sorted by name. *)
Lemma history_reads_back i values h j :
  restores i values h → i_Key j = i_Key i → names_known (ClassID_of j) (i_Attributes j) →
  (∀ n, i_Attributes j !! n = match h !! n with Some v => Some v | None => i_Attributes i !! n end) →
  runtimePerformanceHistory (Some j) = Ok (merge_sort byCounterName values).
Proof.
  intros [Hn Hd Hvol Hv Hread] He Hk Ha. apply runtimePerformanceHistory_spec; [done|].
  assert (ClassID_of j = ClassID_of i) as -> by by unfold ClassID_of; rewrite He.
  assert (∀ n v, h !! n = Some v → ∃ r, r ∈ values ∧ rc_Name r = n ∧ runtimeUnsigned v = Some (rc_Value r)) as Hof.
  { intros n v Hh. assert (n ∈ (rc_Name <$> values)) as (r & -> & Hr)%list_elem_of_fmap by by apply Hd.
    destruct (Hv r Hr) as (v' & Hh' & Hu). exists r. split_and!; [done..|]. congruence. }
  split.
  - apply Forall_forall. intros [n v] Hin%elem_of_range Hvn. cbn [fst snd] in *. rewrite Ha in Hin.
    destruct (h !! n) as [v'|] eqn:Hh.
    + injection Hin as <-. destruct (Hof _ _ Hh) as (r & _ & _ & ->). by eexists.
    + rewrite Forall_forall in Hread. apply (Hread (n, v)); [by apply elem_of_range|done].
  - apply sort_by_name; [|done]. apply NoDup_Permutation;
      [by eapply NoDup_fmap_1|eapply NoDup_fmap_1, counters_NoDup|].
    intros r. rewrite elem_of_counters. setoid_rewrite Ha. split.
    + intros Hr. destruct (Hv r Hr) as (v & Hh & Hu).
      split; [apply Hvol; by eexists|]. exists v. by rewrite Hh.
    + intros (Hvn & v & Hin & Hu). assert (is_Some (h !! rc_Name r)) as [v' Hh].
      { apply Hvol. split; [done|]. destruct (h !! rc_Name r) eqn:Hh; [|by eexists]. apply Hvol. by eexists. }
      rewrite Hh in Hin. injection Hin as ->. destruct (Hof _ _ Hh) as (r' & Hr' & Hname & Hu').
      assert (r = r') as ->; [|done]. destruct r, r'; cbn in *. congruence.
Qed.

(** ** The fingerprint *)

(** The attributes of a class that are part of the fingerprint. *)
Definition fingerprinted (classID : Z) (name : string) : bool :=
  identityAttribute classID name ||
  negb (bool_decide (name = ManagedEntityID)) &&
  match attr_named (definition_of classID) name with Some definition => writtenAttribute definition | None => false end.

Lemma fingerprintAttribute_spec c attrs n v :
  n = ManagedEntityID ∨ known_name (definition_of c) n = true →
  fingerprintAttribute c (AttributeDefinitions (definition_of c)) attrs (n, v) =
  Ok (if fingerprinted c n then <[n := v]> attrs else attrs).
Proof.
  intros Hk. unfold fingerprintAttribute, fingerprinted.
  rewrite GetAttributeDefinitionByName_named by apply definition_ok_of.
  destruct (identityAttribute c n); cbn [negb andb orb]; [done|].
  case_bool_decide; cbn [negb andb]; [done|].
  by destruct Hk as [|(d & ->)%known_attr_named].
Qed.

Lemma fingerprintInstance_spec i :
  names_known (ClassID_of i) (i_Attributes i) →
  fingerprintInstance i =
  Ok (mkInstance (i_Key i) (filter (λ p, fingerprinted (ClassID_of i) p.1 = true) (i_Attributes i)) (i_Origin i)).
Proof.
  intros Hk. unfold fingerprintInstance. destruct (loadEntity_ok (i_Key i)) as (entity & -> & Hd).
  cbn [mbind Res_bind]. rewrite Hd. set (c := ClassID_of i) in *. fold c in Hk. change (i_Key i).1 with c.
  assert (∀ l (m : AttributeValueMap), NoDup l.*1 →
    Forall (λ p : string * Value, p.1 = ManagedEntityID ∨ known_name (definition_of c) p.1 = true) l →
    foldM_res (fingerprintAttribute c (AttributeDefinitions (definition_of c))) l m =
    Ok (filter (λ p, fingerprinted c p.1 = true) (list_to_map l : AttributeValueMap) ∪ m)) as Hl.
  { intros l. induction l as [|[n v] l IH]; intros m; [cbn [foldM_res list_to_map foldr]; by rewrite map_filter_empty, map_empty_union|].
    rewrite fmap_cons, NoDup_cons, Forall_cons. intros [Hn Hnd] [Hkn Hks]. cbn [foldM_res].
    rewrite (fingerprintAttribute_spec c m n v Hkn). cbn [mbind Res_bind]. rewrite (IH _ Hnd Hks). f_equal.
    cbn [list_to_map foldr uncurry fst snd]. destruct (fingerprinted c n) eqn:Hf.
    - rewrite map_filter_insert_True by done. symmetry. rewrite <- insert_union_l. apply insert_union_r.
      apply map_lookup_filter_None_2. left. by apply not_elem_of_list_to_map_1.
    - rewrite map_filter_insert_not by (intros; cbn; congruence). done. }
  rewrite Hl; [by rewrite range_to_map, map_union_empty|apply NoDup_range_fst|].
  apply Forall_forall. intros [n v] Hin%elem_of_range. by apply (Hk n v).
Qed.

Lemma volatile_not_fingerprinted c n :
  c ≠ OnuGClassID → volatileName c n = true → fingerprinted c n = false.
Proof.
  intros Hc. unfold volatileName, fingerprinted, identityAttribute.
  rewrite (proj2 (Z.eqb_neq c _) Hc). cbn [andb orb]. case_bool_decide; [done|]. cbn [negb andb].
  destruct (attr_named _ n) as [d|]; [|done]. by destruct (writtenAttribute d).
Qed.

(** Overwriting volatile attributes does not change the fingerprint. *)
Lemma fingerprint_same i j :
  names_known (ClassID_of i) (i_Attributes i) → names_known (ClassID_of j) (i_Attributes j) →
  i_Key j = i_Key i → i_Origin j = i_Origin i →
  (∀ n, fingerprinted (ClassID_of i) n = true → i_Attributes j !! n = i_Attributes i !! n) →
  fingerprintInstance j = fingerprintInstance i.
Proof.
  intros Hi Hj He Ho Ha. rewrite !fingerprintInstance_spec by done.
  assert (ClassID_of j = ClassID_of i) as -> by by unfold ClassID_of; rewrite He.
  do 2 f_equal; [done| |done]. apply map_eq. intros n. apply option_eq. intros v.
  rewrite !map_lookup_filter_Some. cbn [fst]. split; intros [Hv Hf]; (split; [|done]).
  - by rewrite <- Ha.
  - by rewrite Ha.
Qed.
End history.

Lemma keys_Forall2 {A B K} (f : A → K) (g : B → K) (P : A → B → Prop) l l' :
  map f l = map g l' → (∀ x y, x ∈ l → y ∈ l' → f x = g y → P x y) → Forall2 P l l'.
Proof.
  revert l'. induction l as [|x l IH]; intros [|y l'] He HP; try done.
  injection He as Hxy He. constructor; [apply HP; [left|left|done]|].
  apply IH; [done|]. intros. apply HP; [by right|by right|done].
Qed.

(** ** The MIB after a batch of histories *)

Section batch.
Context {MR : MapRange} {W : Type}.
Implicit Types s : Store W.

Lemma prepareUpdate_shape s k cur attrs n :
  instance_inv s k cur → prepareUpdate s k (Some cur) attrs = Ok n →
  i_Key n = i_Key cur ∧ i_Origin n = i_Origin cur ∧
  ∀ x, i_Attributes n !! x = match attrs !! x with Some v => Some v | None => i_Attributes cur !! x end.
Proof.
  intros Hi Hp. unfold prepareUpdate in Hp. inv_ok Hp. destruct x0.
  apply loadDefinition_Ok in Hr as (Hd & _). rewrite Hd in Hp.
  destruct (updateMasks k _ _) as [f u] eqn:Hm. inv_ok Hp.
  assert (f = 0 ∧ u = 0) as [-> ->] by lia. apply updateMasks_zero in Hm.
  apply normalizeIn_shape in Hp as (-> & _). split_and!; [done|done|]. intros y.
  unfold normalized, withAttribute, withAttributes, EntityID_of. cbn [i_Attributes i_Key].
  rewrite (inv_key _ _ _ Hi). destruct (decide (y = ManagedEntityID)) as [->|Hne].
  - rewrite lookup_insert_eq. destruct (attrs !! ManagedEntityID) as [v|] eqn:Ha; [by destruct (Hm _ _ Ha)|].
    symmetry. by apply Hi.
  - rewrite lookup_insert_ne by done. by rewrite overwrite_lookup.
Qed.

Lemma batch_lookup s updates s' :
  UpdateAutonomousBatch s updates = (Ok tt, s') →
  s' = withState s (current s') (dataSync s) ∧
  ∀ k, match updates !! k with
       | None => current s' !! k = current s !! k
       | Some attrs => ∃ n, current s' !! k = Some n ∧ prepareUpdate s k (current s !! k) attrs = Ok n
       end.
Proof.
  unfold UpdateAutonomousBatch. destruct (foldM_res _ _ _) as [proposed|] eqn:Hf; intros [= <-].
  split; [done|]. cbn [current withState]. intros k.
  set (step := λ (proposed : gmap Key Instance_) '(key, attributes),
    normalized ← prepareUpdate s key (proposed !! key) attributes; Ok (<[key := normalized]> proposed)) in Hf.
  assert (∀ l m, NoDup l.*1 → foldM_res step l m = Ok proposed →
    match (list_to_map l : gmap Key AttributeValueMap) !! k with
    | None => proposed !! k = m !! k
    | Some attrs => ∃ n, proposed !! k = Some n ∧ prepareUpdate s k (m !! k) attrs = Ok n
    end) as Hl.
  { induction l as [|[key attrs] l IH]; intros m Hnd Hx; [by injection Hx as ->|].
    rewrite fmap_cons, NoDup_cons in Hnd. destruct Hnd as [Hnot Hnd].
    cbn [foldM_res step] in Hx. inv_ok Hx. inv_ok Hr. subst x. specialize (IH _ Hnd Hx).
    cbn [list_to_map foldr uncurry fst snd]. destruct (decide (k = key)) as [->|Hne].
    - rewrite lookup_insert_eq. rewrite (not_elem_of_list_to_map_1 l key) in IH by exact Hnot.
      rewrite lookup_insert_eq in IH. by exists x0.
    - rewrite lookup_insert_ne by done. by rewrite (lookup_insert_ne m) in IH by done. }
  specialize (Hl _ _ (NoDup_range_fst updates) Hf). by rewrite range_to_map in Hl.
Qed.

Lemma elem_of_snapshot_keys s k (Hs : store_inv s) : k ∈ map i_Key (Snapshot s) ↔ is_Some (current s !! k).
Proof.
  rewrite (Snapshot_keys s Hs), list_elem_of_fmap. split.
  - intros ([k' i] & -> & Hi%elem_of_map_to_list). by exists i.
  - intros [i Hi]. exists (k, i). by rewrite elem_of_map_to_list.
Qed.

(** [s'] is [s] with the histories written over the instances they belong to. *)
Record historyFrame s s' (histories : gmap Key AttributeValueMap) : Prop := {
  hf_store : s' = withState s (current s') (dataSync s);
  hf_other k : histories !! k = None → current s' !! k = current s !! k;
  hf_updated k h i : histories !! k = Some h → current s !! k = Some i →
    ∃ j, current s' !! k = Some j ∧ i_Key j = i_Key i ∧ i_Origin j = i_Origin i ∧
         ∀ n, i_Attributes j !! n = match h !! n with Some v => Some v | None => i_Attributes i !! n end;
  hf_exists k : is_Some (current s' !! k) ↔ is_Some (current s !! k)
}.

Lemma batch_frame s updates s' :
  store_inv s → UpdateAutonomousBatch s updates = (Ok tt, s') → historyFrame s s' updates.
Proof.
  intros Hs Hu. apply batch_lookup in Hu as [He Hl]. split; [done| | |].
  - intros k Hk. specialize (Hl k). by rewrite Hk in Hl.
  - intros k h i Hk Hi. specialize (Hl k). rewrite Hk, Hi in Hl. destruct Hl as (j & Hj & Hp).
    exists j. split; [done|]. by apply (prepareUpdate_shape s k); [apply Hs|].
  - intros k. specialize (Hl k). destruct (updates !! k); [|by rewrite Hl]. destruct Hl as (n & -> & Hp).
    split; [intros _|by eexists]. destruct (current s !! k); [by eexists|done].
Qed.

Section frame.
Context {s s' : Store W} {histories : gmap Key AttributeValueMap}.
Hypothesis Hf : historyFrame s s' histories.

Lemma frame_Exists k : Exists_ s' k = Exists_ s k.
Proof. unfold Exists_. apply bool_decide_ext, Hf. Qed.

Lemma frame_getAttributes k mask : histories !! k = None → getAttributes s' k mask = getAttributes s k mask.
Proof.
  intros Hk. unfold getAttributes, Get. rewrite (hf_other _ _ _ Hf _ Hk).
  assert (storeUnknownKeyError s' k = storeUnknownKeyError s k) as -> by by rewrite (hf_store _ _ _ Hf).
  assert (supportedAttributeMask s' k.1 = supportedAttributeMask s k.1) as -> by by rewrite (hf_store _ _ _ Hf).
  done.
Qed.

Lemma frame_gemParent key :
  histories !! (GemPortNetworkCtpClassID, key.2) = None → gemParent s' key = gemParent s key.
Proof. intros Hk. unfold gemParent. by rewrite frame_getAttributes. Qed.

Lemma frame_aniParent key : aniParent s' key = aniParent s key.
Proof. unfold aniParent. by rewrite frame_Exists. Qed.

Lemma frame_resolveUNI key :
  histories !! (MacBridgePortConfigurationDataClassID, key.2) = None →
  resolveEthernetPerformanceUNI s' key = resolveEthernetPerformanceUNI s key.
Proof.
  intros Hk. unfold resolveEthernetPerformanceUNI. rewrite frame_getAttributes by done.
  match goal with |- mbind _ ?r = mbind _ ?r => destruct r; [|done] end.
  cbn [mbind Res_bind]. by rewrite frame_Exists.
Qed.

(** The snapshots before and after list the same keys. *)
Lemma frame_snapshot :
  store_inv s → store_inv s' →
  Forall2 (λ i j, i_Key i = i_Key j ∧ current s !! i_Key i = Some i ∧ current s' !! i_Key j = Some j)
    (Snapshot s) (Snapshot s').
Proof.
  intros Hs Hs'. apply (keys_Forall2 i_Key i_Key).
  - apply (sorted_by_key_unique pair_le).
    + apply NoDup_Permutation; [by apply Snapshot_NoDup..|]. intros k.
      by rewrite !elem_of_snapshot_keys, (hf_exists _ _ _ Hf).
    + intros a b _ _. apply (key_antisymm (le := pair_le)).
    + apply (StronglySorted_fmap i_Key instance_le pair_le); [by intros|apply Snapshot_sorted].
    + apply (StronglySorted_fmap i_Key instance_le pair_le); [by intros|apply Snapshot_sorted].
  - intros i j Hi Hj He. split_and!; [done|by apply elem_of_Snapshot|by apply elem_of_Snapshot].
Qed.
End frame.

Lemma instancesByKey_lookup s k : store_inv s → instancesByKey (Snapshot s) !! k = current s !! k.
Proof.
  intros Hs. pose proof (elem_of_Snapshot s Hs) as Hin. pose proof (Snapshot_NoDup s Hs) as Hn. unfold instancesByKey.
  assert (∀ l (m : gmap Key Instance_), NoDup (map i_Key l) →
    fold_left (λ m i, <[i_Key i := i]> m) l m !! k =
    match List.find (λ i, bool_decide (i_Key i = k)) l with Some i => Some i | None => m !! k end) as Hl.
  { induction l as [|i l IH]; intros m Hd; [done|]. cbn [map] in Hd. apply NoDup_cons in Hd as [Hnot Hd].
    cbn [fold_left List.find]. rewrite (IH _ Hd). case_bool_decide as He.
    - destruct (List.find _ l) as [j|] eqn:Hj; [|by rewrite He, lookup_insert_eq].
      apply find_some in Hj as [Hj Hk%bool_decide_eq_true]. destruct Hnot. rewrite He, <- Hk.
      apply list_elem_of_fmap. exists j. split; [done|by apply list_elem_of_In].
    - destruct (List.find _ l); [done|]. by rewrite lookup_insert_ne. }
  rewrite (Hl _ _ Hn). destruct (List.find _ _) as [i|] eqn:Hi.
  - apply find_some in Hi as [Hi <-%bool_decide_eq_true]. symmetry. apply Hin. by apply list_elem_of_In.
  - rewrite lookup_empty. destruct (current s !! k) as [i|] eqn:Hc; [|done].
    assert (i_Key i = k) as <- by by apply (inv_key _ _ _ (si_current _ Hs _ _ Hc)).
    apply Hin, list_elem_of_In in Hc. apply (find_none _ _ Hi) in Hc. by rewrite bool_decide_eq_true_2 in Hc.
Qed.
End batch.
