(* ===== verification/RuntimeStateProps.v ===== *)
(** * Engine: a restart keeps the runtime state

    A document that RestoreRuntimeState accepts is the document the restored engine exports; a
    document it refuses changes nothing; and what it writes into the MIB are counters only. *)

From S2P Require Import Prelude Maps MeTypes MeClasses MeLib Mib MeNames Semantics Store.
From S2P Require Import StoreLemmas StoreInvariant StoreProps.
From S2P Require Import Model Frames Codec Software Counters Controllers Engine PmRules Notify.
From S2P Require Import Performance OpticalAlarms RuntimeState RuntimeLemmas UploadProps DispatchProps.

Section kinds.
Context {MR : MapRange} {W Sink : Type}.
Implicit Types (e : Engine W Sink) (w : W).

(** ** A kind of history *)

(** What was checked of a history, and where its counters went. *)
Record checkedHistory {C : Type} (k : runtimeKind W C) e w (instances : gmap Key Instance_)
    (histories : gmap Key AttributeValueMap) (v : RuntimePerformance C) : Prop := {
  ch_monitors : ck_monitors (rk_kind k) (rp_Key v).1 = true;
  ch_own : rk_ownEntity k = true → rp_Parent v = (rp_Key v).2;
  ch_source : ∃ read cur, ck_source (rk_kind k) (controllers e) = Some read ∧
    read w (rp_Parent v) = Some cur ∧ rk_atLeast k cur (rp_Baseline v) = true;
  ch_fresh : rk_fresh k (mibOf e) (rp_Key v) (rp_Parent v) = true;
  ch_history : ∃ h, restoreRuntimeHistory (instances !! rp_Key v) (rp_History v) = Ok h ∧
    histories !! rp_Key v = Some h
}.

Definition savedState {C} (v : RuntimePerformance C) : counterState C :=
  mkCounterState (rp_Parent v) (rp_Baseline v).

Lemma validateRuntimeHistory_spec {C} (k : runtimeKind W C) e w instances acc v acc' :
  validateRuntimeHistory k e w instances acc v = Ok acc' →
  acc.1 !! rp_Key v = None ∧ acc'.1 = <[rp_Key v := savedState v]> acc.1 ∧
  checkedHistory k e w instances acc'.2 v ∧ ∀ key, key ≠ rp_Key v → acc'.2 !! key = acc.2 !! key.
Proof.
  intros H. unfold validateRuntimeHistory in H. inv_ok H.
  destruct (ck_source _ _) as [read|] eqn:Hsrc; [|done]. inv_ok H.
  destruct (read w _) as [cur|] eqn:Hcur; [|done]. inv_ok H. subst acc'. cbn [fst snd].
  apply orb_false_iff in Hg as [Hm%negb_false_iff Hown]. apply bool_decide_eq_false in Hg0.
  apply negb_false_iff in Hg1, Hg2. split_and!; [by destruct (acc.1 !! _); [destruct Hg0|]|done| |].
  - split; [done| |by exists read, cur|done|exists x; split; [done|by rewrite lookup_insert_eq]].
    intros Ho. rewrite Ho in Hown. cbn in Hown. lia.
  - intros key Hne. by rewrite lookup_insert_ne.
Qed.

Lemma checkedHistory_mono {C} (k : runtimeKind W C) e w instances h h' v :
  h' !! rp_Key v = h !! rp_Key v → checkedHistory k e w instances h v → checkedHistory k e w instances h' v.
Proof. intros He []. split; [done..|]. by rewrite He. Qed.

Lemma validateKind_spec {C} (k : runtimeKind W C) e w instances values h0 states h :
  validateKind k e w instances values h0 = Ok (states, h) →
  map_to_list states ≡ₚ map (λ v, (rp_Key v, savedState v)) values ∧
  Forall (checkedHistory k e w instances h) values ∧
  ∀ key, key ∉ (rp_Key <$> values) → h !! key = h0 !! key.
Proof.
  intros H. unfold validateKind in H.
  refine (foldM_prefix (λ pre acc, map_to_list acc.1 ≡ₚ map (λ v, (rp_Key v, savedState v)) pre ∧
    Forall (checkedHistory k e w instances acc.2) pre ∧
    ∀ key, key ∉ (rp_Key <$> pre) → acc.2 !! key = h0 !! key) _ _ _ (states, h) _ _ H).
  { cbn [fst snd]. by rewrite map_to_list_empty. }
  intros pre v post acc acc' _ (Hp & Hc & Hk) (Hnew & Hst & Hv & Hother)%validateRuntimeHistory_spec. split_and!.
  - rewrite Hst, map_to_list_insert by done. rewrite Hp, map_app. cbn [map]. by rewrite Permutation_app_comm.
  - apply Forall_app. split; [|by apply Forall_singleton]. apply Forall_forall. intros x Hx.
    rewrite Forall_forall in Hc. apply (checkedHistory_mono k e w instances acc.2); [|by apply Hc].
    apply Hother. intros He. assert (acc.1 !! rp_Key x = Some (savedState x)) as Hx'.
    { apply (keyed_lookup rp_Key savedState _ pre); [done|by exists x]. }
    congruence.
  - intros key. rewrite fmap_app, not_elem_of_app. intros [Hnot Hv']. rewrite Hother; [by apply Hk|].
    intros ->. by apply Hv', list_elem_of_singleton.
Qed.

(** ** The four kinds *)

(** The classes of the kinds are disjoint. *)
Lemma kind_classes c :
  (if isGEMPerformanceClass c then 1 else 0) + (if isFECPerformanceClass c then 1 else 0) +
  (if isEthernetPerformanceClass c then 1 else 0) + (if isXGSPONPerformanceClass c then 1 else 0) ≤ 1.
Proof.
  set (classes := [GemPortNetworkCtpPerformanceMonitoringHistoryDataClassID;
    FecPerformanceMonitoringHistoryDataClassID; EthernetPerformanceMonitoringHistoryDataClassID;
    EthernetPerformanceMonitoringHistoryData3ClassID;
    EthernetFramePerformanceMonitoringHistoryDataDownstreamClassID;
    EthernetFramePerformanceMonitoringHistoryDataUpstreamClassID; XgPonTcPerformanceMonitoringHistoryDataClassID;
    XgPonDownstreamManagementPerformanceMonitoringHistoryDataClassID;
    XgPonUpstreamManagementPerformanceMonitoringHistoryDataClassID]).
  destruct (decide (c ∈ classes)) as [Hc|Hc].
  - unfold classes in Hc. set_unfold in Hc. repeat destruct Hc as [->|Hc]; [by vm_compute..|done].
  - unfold classes in Hc. set_unfold in Hc. unfold isGEMPerformanceClass, isFECPerformanceClass.
    rewrite (proj2 (Z.eqb_neq c _)) by tauto. rewrite (proj2 (Z.eqb_neq c _)) by tauto.
    unfold isEthernetPerformanceClass, isXGSPONPerformanceClass.
    rewrite !bool_decide_eq_false_2 by (set_unfold; tauto). done.
Qed.

(** Ends a goal whose key has two kinds. *)
Ltac one_kind c :=
  let H := fresh in
  pose proof (kind_classes c) as H;
  repeat match goal with Hm : _ c = true |- _ => rewrite Hm in H end; exfalso; repeat case_match; lia.

(** The four kinds of a document, checked. *)
Record checkedDocument e w (instances : gmap Key Instance_) (st : RuntimeState) (r : runtimeHistories) : Prop := {
  cd_gem : map_to_list (rh_gem r) ≡ₚ map (λ v, (rp_Key v, savedState v)) (rs_GEMPerformance st);
  cd_fec : map_to_list (rh_fec r) ≡ₚ map (λ v, (rp_Key v, savedState v)) (rs_FECPerformance st);
  cd_ethernet : map_to_list (rh_ethernet r) ≡ₚ map (λ v, (rp_Key v, savedState v)) (rs_EthernetPerformance st);
  cd_xgs : map_to_list (rh_xgs r) ≡ₚ map (λ v, (rp_Key v, savedState v)) (rs_XGSPerformance st);
  cd_gemChecked : Forall (checkedHistory gemRuntime e w instances (rh_histories r)) (rs_GEMPerformance st);
  cd_fecChecked : Forall (checkedHistory fecRuntime e w instances (rh_histories r)) (rs_FECPerformance st);
  cd_ethernetChecked :
    Forall (checkedHistory ethernetRuntime e w instances (rh_histories r)) (rs_EthernetPerformance st);
  cd_xgsChecked : Forall (checkedHistory xgsRuntime e w instances (rh_histories r)) (rs_XGSPerformance st);
  cd_histories key h : rh_histories r !! key = Some h →
    isPerformanceClass key.1 = true ∧ ∃ values, restoreRuntimeHistory (instances !! key) values = Ok h;
  cd_complete : validateComplete e r instances = Ok tt
}.

Lemma checkedHistory_monitors {C} (k : runtimeKind W C) e w instances h values key :
  Forall (checkedHistory k e w instances h) values → key ∈ (rp_Key <$> values) →
  ck_monitors (rk_kind k) key.1 = true.
Proof. intros Hf (v & -> & Hv)%list_elem_of_fmap. rewrite Forall_forall in Hf. by apply (Hf v Hv). Qed.

Lemma checkedHistory_outside {C D} (k : runtimeKind W C) (k' : runtimeKind W D) e w instances h h' values others :
  Forall (checkedHistory k e w instances h) values →
  (∀ c, ck_monitors (rk_kind k) c = true → ck_monitors (rk_kind k') c = true → False) →
  (∀ key : Key, key ∈ (rp_Key <$> (others : list (RuntimePerformance D))) → ck_monitors (rk_kind k') key.1 = true) →
  (∀ key, key ∉ (rp_Key <$> others) → h' !! key = h !! key) →
  Forall (checkedHistory k e w instances h') values.
Proof.
  intros Hf Hd Ho He. apply Forall_forall. intros v Hv. pose proof Hf as Hf'. rewrite Forall_forall in Hf'.
  apply (checkedHistory_mono k e w instances h); [|by apply Hf']. apply He. intros Hin.
  apply (Hd (rp_Key v).1); [by apply Hf'|by apply Ho].
Qed.

(** The histories collected so far stem from performance classes. *)
Definition fromDocument (instances : gmap Key Instance_) (h : gmap Key AttributeValueMap) : Prop :=
  ∀ key a, h !! key = Some a →
    isPerformanceClass key.1 = true ∧ ∃ values, restoreRuntimeHistory (instances !! key) values = Ok a.

Lemma fromDocument_kind {C} (k : runtimeKind W C) e w instances h h' values :
  (∀ c, ck_monitors (rk_kind k) c = true → isPerformanceClass c = true) →
  Forall (checkedHistory k e w instances h') values →
  (∀ key, key ∉ (rp_Key <$> values) → h' !! key = h !! key) →
  fromDocument instances h → fromDocument instances h'.
Proof.
  intros Hc Hf Ho Hh key a Ha. destruct (decide (key ∈ (rp_Key <$> values))) as [Hin|Hin].
  - pose proof (checkedHistory_monitors _ _ _ _ _ _ _ Hf Hin) as Hm. split; [by apply Hc|].
    apply list_elem_of_fmap in Hin as (v & -> & Hv). rewrite Forall_forall in Hf.
    destruct (ch_history _ _ _ _ _ _ (Hf v Hv)) as (a' & Hr & Ha'). exists (rp_History v). congruence.
  - rewrite Ho in Ha by done. by apply Hh.
Qed.

Lemma validateRuntimePerformance_spec e w st instances r :
  validateRuntimePerformance e w st instances = Ok r → checkedDocument e w instances st r.
Proof.
  intros H. unfold validateRuntimePerformance in H. inv_ok H. subst r. destruct x3.
  destruct x as [gem h1], x0 as [fec h2], x1 as [ethernet h3], x2 as [xgs h4]. cbn [fst snd] in *.
  apply validateKind_spec in Hr as (Hp1 & Hc1 & Ho1), Hr0 as (Hp2 & Hc2 & Ho2), Hr1 as (Hp3 & Hc3 & Ho3),
    Hr2 as (Hp4 & Hc4 & Ho4).
  pose proof (λ key, checkedHistory_monitors _ _ _ _ _ _ key Hc2) as Hm2.
  pose proof (λ key, checkedHistory_monitors _ _ _ _ _ _ key Hc3) as Hm3.
  pose proof (λ key, checkedHistory_monitors _ _ _ _ _ _ key Hc4) as Hm4.
  assert (fromDocument instances h4) as Hfrom.
  { assert (fromDocument instances ∅) as H0 by (intros ? ? Hx; by rewrite lookup_empty in Hx).
    unfold isPerformanceClass in *.
    eapply (fromDocument_kind xgsRuntime _ _ _ h3); [|exact Hc4|exact Ho4|].
    { intros c Hc. cbn in Hc. unfold isPerformanceClass. by rewrite Hc, !orb_true_r. }
    eapply (fromDocument_kind ethernetRuntime _ _ _ h2); [|exact Hc3|exact Ho3|].
    { intros c Hc. cbn in Hc. unfold isPerformanceClass. by rewrite Hc, !orb_true_r. }
    eapply (fromDocument_kind fecRuntime _ _ _ h1); [|exact Hc2|exact Ho2|].
    { intros c Hc. cbn in Hc. unfold isPerformanceClass, isFECPerformanceClass in *. by rewrite Hc, !orb_true_r. }
    eapply (fromDocument_kind gemRuntime _ _ _ ∅); [|exact Hc1|exact Ho1|exact H0].
    intros c Hc. cbn in Hc. unfold isPerformanceClass, isGEMPerformanceClass in *. by rewrite Hc. }
  split; cbn [rh_gem rh_fec rh_ethernet rh_xgs rh_histories]; [done..| | | |done|exact Hfrom|done].
  - eapply (checkedHistory_outside gemRuntime xgsRuntime _ _ _ h3); [|cbn; intros c ? ?; one_kind c|exact Hm4|exact Ho4].
    eapply (checkedHistory_outside gemRuntime ethernetRuntime _ _ _ h2); [|cbn; intros c ? ?; one_kind c|exact Hm3|exact Ho3].
    eapply (checkedHistory_outside gemRuntime fecRuntime _ _ _ h1); [exact Hc1|cbn; intros c ? ?; one_kind c|exact Hm2|exact Ho2].
  - eapply (checkedHistory_outside fecRuntime xgsRuntime _ _ _ h3); [|cbn; intros c ? ?; one_kind c|exact Hm4|exact Ho4].
    eapply (checkedHistory_outside fecRuntime ethernetRuntime _ _ _ h2); [exact Hc2|cbn; intros c ? ?; one_kind c|exact Hm3|exact Ho3].
  - eapply (checkedHistory_outside ethernetRuntime xgsRuntime _ _ _ h3); [exact Hc3|cbn; intros c ? ?; one_kind c|exact Hm4|exact Ho4].
Qed.
End kinds.

(** ** The restored MIB *)

Section restored.
Context {MR : MapRange} {W Sink : Type}.
Context {e : Engine W Sink} {w : W} {st : RuntimeState} {r : runtimeHistories} {s' : Store W}.
Hypothesis Hs : store_inv (mibOf e).
Hypothesis Hdoc : checkedDocument e w (instancesByKey (Snapshot (mibOf e))) st r.
Hypothesis Hbatch : UpdateAutonomousBatch (mibOf e) (rh_histories r) = (Ok tt, s').

Lemma restored_frame : historyFrame (mibOf e) s' (rh_histories r).
Proof. by apply batch_frame. Qed.

Lemma restored_inv : store_inv s'.
Proof. eapply serves_inv; [by eapply sv_batch|done]. Qed.

Lemma not_history (key : Key) : isPerformanceClass key.1 = false → rh_histories r !! key = None.
Proof.
  intros Hc. destruct (rh_histories r !! key) as [h|] eqn:Hh; [|done].
  apply (cd_histories _ _ _ _ _ Hdoc) in Hh as [Hp _]. congruence.
Qed.

Lemma instance_names (s : Store W) (key : Key) i : store_inv s → current s !! key = Some i → names_known (ClassID_of i) (i_Attributes i).
Proof.
  intros Hinv Hi. unfold ClassID_of. rewrite (inv_key _ _ _ (si_current _ Hinv _ _ Hi)).
  apply (inv_names _ _ _ (si_current _ Hinv _ _ Hi)).
Qed.

(** A history that was restored is one of an instance. *)
Lemma restored_instance key values h :
  restoreRuntimeHistory (instancesByKey (Snapshot (mibOf e)) !! key) values = Ok h →
  ∃ i, current (mibOf e) !! key = Some i ∧ restores i values h.
Proof.
  rewrite instancesByKey_lookup by done. destruct (current (mibOf e) !! key) as [i|] eqn:Hi; [|done].
  intros Hh. exists i. split; [done|]. by apply restoreRuntimeHistory_spec; [eapply instance_names|].
Qed.

(** The fingerprint does not see the histories. *)
Lemma restored_document : runtimeMIBDocument (Snapshot s') = runtimeMIBDocument (Snapshot (mibOf e)).
Proof.
  unfold runtimeMIBDocument. symmetry. apply mapM_res_rel.
  eapply Forall2_impl; [apply (frame_snapshot restored_frame Hs restored_inv)|].
  intros i j (He & Hi & Hj). destruct (rh_histories r !! i_Key i) as [h|] eqn:Hh.
  - destruct (hf_updated _ _ _ restored_frame _ _ _ Hh Hi) as (j' & Hj' & Hk & Ho & Ha).
    assert (j' = j) as -> by congruence. symmetry.
    apply (cd_histories _ _ _ _ _ Hdoc) in Hh as [Hc (values & (i' & Hi' & Hr)%restored_instance)].
    assert (i' = i) as -> by congruence.
    apply fingerprint_same; [eapply instance_names; [exact Hs|exact Hi]|
      eapply instance_names; [exact restored_inv|exact Hj]|done..|].
    intros n Hf. rewrite Ha. destruct (h !! n) as [v|] eqn:Hv; [|done].
    assert (volatileName (ClassID_of i) n = true) as Hvol by (apply (rst_volatile _ _ _ Hr); by eexists).
    rewrite volatile_not_fingerprinted in Hf; [done| |exact Hvol]. intros Hx. unfold ClassID_of in Hx.
    rewrite Hx in Hc. by vm_compute in Hc.
  - assert (i = j) as ->; [|done]. rewrite <- He in Hj. rewrite (hf_other _ _ _ restored_frame _ Hh) in Hj. congruence.
Qed.

Definition canonicalHistory {C : Type} (v : RuntimePerformance C) : RuntimePerformance C :=
  mkRuntimePerformance (rp_Key v) (rp_Parent v) (rp_Baseline v) (merge_sort byCounterName (rp_History v)).

(** The export of one restored history. *)
Lemma restored_export {C} (k : runtimeKind W C) v :
  checkedHistory k e w (instancesByKey (Snapshot (mibOf e))) (rh_histories r) v →
  exportPerformance (instancesByKey (Snapshot s')) (rp_Key v, savedState v) = Ok (canonicalHistory v).
Proof.
  intros Hv. destruct (ch_history _ _ _ _ _ _ Hv) as (h & (i & Hi & Hr)%restored_instance & Hh).
  destruct (hf_updated _ _ _ restored_frame _ _ _ Hh Hi) as (j & Hj & Hk & _ & Ha).
  unfold exportPerformance. rewrite instancesByKey_lookup by apply restored_inv. rewrite Hj.
  rewrite (history_reads_back i (rp_History v) h j); [done|done|done| |done].
  by eapply instance_names; [apply restored_inv|].
Qed.

Lemma restored_exportKind {C} (k : runtimeKind W C) (e' : Engine W Sink) values :
  Forall (checkedHistory k e w (instancesByKey (Snapshot (mibOf e))) (rh_histories r)) values →
  map_to_list (ck_states (rk_kind k) (pm e')) ≡ₚ map (λ v, (rp_Key v, savedState v)) values →
  ∃ exported, exportKind (rk_kind k) e' (instancesByKey (Snapshot s')) = Ok exported ∧
              exported ≡ₚ map canonicalHistory values.
Proof.
  intros Hc Hp. rewrite <- (range_perm (ck_states (rk_kind k) (pm e'))) in Hp.
  apply Permutation_map_inv in Hp as (values' & He & Hp).
  exists (map canonicalHistory values'). split; [|by rewrite Hp].
  unfold exportKind. rewrite He. clear He. rewrite Forall_forall in Hc.
  assert (∀ v, v ∈ values' → exportPerformance (instancesByKey (Snapshot s')) (rp_Key v, savedState v) =
    Ok (canonicalHistory v)) as Hx by (intros v Hv; rewrite <- Hp in Hv; by eapply restored_export, Hc).
  clear Hp. induction values' as [|v l IH]; [done|]. cbn [map mapM_res].
  rewrite (Hx v) by left. cbn [mbind Res_bind]. rewrite IH by (intros; apply Hx; by right). done.
Qed.

(** ** Reconciliation finds nothing to do *)

Lemma reconcileKeys_settled {C} (k : counterKind W C) (s : Store W) read keys states :
  (∀ key, key ∈ keys → ∃ parent state, ck_parent k s key = Ok parent ∧ states !! key = Some state ∧
    ck_same k (ct_parent state) parent = true) →
  reconcileKeys k s read keys states = (Ok tt, states).
Proof.
  induction keys as [|key keys IH]; intros Hk; [done|]. cbn [reconcileKeys].
  destruct (Hk key) as (parent & state & -> & -> & ->); [left|]. apply IH. intros. apply Hk. by right.
Qed.

Lemma elem_of_activeKeys {C} (k : counterKind W C) key :
  key ∈ activeKeys k s' ↔ is_Some (current s' !! key) ∧ ck_monitors k key.1 = true.
Proof.
  unfold activeKeys. rewrite list_elem_of_fmap. split.
  - intros (i & -> & [Hm Hi]%list_elem_of_filter). apply elem_of_Snapshot in Hi; [|apply restored_inv].
    split; [by eexists|done].
  - intros [[i Hi] Hm]. pose proof (inv_key _ _ _ (si_current _ restored_inv _ _ Hi)) as He.
    exists i. split; [done|]. apply list_elem_of_filter. unfold ClassID_of. rewrite He. split; [done|].
    apply elem_of_Snapshot; [apply restored_inv|]. by rewrite He.
Qed.

Lemma reconcileKind_settled {C} (k : runtimeKind W C) (e' : Engine W Sink) values :
  mibOf e' = s' → controllers e' = controllers e →
  Forall (checkedHistory k e w (instancesByKey (Snapshot (mibOf e))) (rh_histories r)) values →
  map_to_list (ck_states (rk_kind k) (pm e')) ≡ₚ map (λ v, (rp_Key v, savedState v)) values →
  ck_setStates (rk_kind k) (pm e') (ck_states (rk_kind k) (pm e')) = pm e' →
  (∀ key, is_Some (current (mibOf e) !! key) → monitored (rk_kind k) e key.1 = true →
     is_Some (ck_states (rk_kind k) (pm e') !! key)) →
  (∀ v, v ∈ values → ∃ parent, ck_parent (rk_kind k) s' (rp_Key v) = Ok parent ∧
     ck_same (rk_kind k) (rp_Parent v) parent = true) →
  reconcileKind (rk_kind k) e' w = (Ok tt, e').
Proof.
  intros Hmib Hctl Hc Hp Hset Hcomplete Hparent. unfold reconcileKind. rewrite Hctl, Hmib.
  assert (setStates (rk_kind k) e' (ck_states (rk_kind k) (pm e')) = e') as Hsame.
  { unfold setStates. rewrite Hset. by destruct e'. }
  destruct (ck_source _ _) as [read|] eqn:Hsrc.
  - assert (∀ key, ck_states (rk_kind k) (pm e') !! key = None ∨ ∃ v, v ∈ values ∧ rp_Key v = key ∧
      ck_states (rk_kind k) (pm e') !! key = Some (savedState v)) as Hst.
    { intros key. destruct (ck_states _ _ !! key) as [state|] eqn:Hx; [right|by left].
      apply (keyed_lookup rp_Key savedState _ values) in Hx as (v & Hv & Hk & He); [|done].
      exists v. by rewrite He. }
    rewrite reconcileKeys_settled.
    + rewrite map_filter_id; [by rewrite Hsame|]. intros key state Hx. apply elem_of_activeKeys.
      destruct (Hst key) as [?|(v & Hv & <- & _)]; [congruence|]. rewrite Forall_forall in Hc.
      specialize (Hc v Hv). split; [|apply Hc]. apply (hf_exists _ _ _ restored_frame).
      destruct (ch_history _ _ _ _ _ _ Hc) as (h & (i & Hi & _)%restored_instance & _). by eexists.
    + intros key [Hex Hm]%elem_of_activeKeys. apply (hf_exists _ _ _ restored_frame) in Hex.
      assert (is_Some (ck_states (rk_kind k) (pm e') !! key)) as [state Hx].
      { apply Hcomplete; [done|]. unfold monitored. by rewrite Hm, Hsrc. }
      destruct (Hst key) as [?|(v & Hv & <- & Hx')]; [congruence|].
      destruct (Hparent v Hv) as (parent & Hpar & Hsp). exists parent, (savedState v). by split_and!.
  - assert (ck_states (rk_kind k) (pm e') = ∅) as Hempty; [|by rewrite Hempty in Hsame; rewrite Hsame].
    destruct values as [|v values].
    + apply map_to_list_empty_iff, Permutation_nil. by symmetry.
    + apply Forall_cons in Hc as [Hv _]. destruct (ch_source _ _ _ _ _ _ Hv) as (read & cur & Hr & _). congruence.
Qed.
(** ** The parents of the restored histories, after the batch *)

(** No GEM port of a history is beyond what reconciliation accepts. *)
Definition gemPortsInRange : Prop :=
  Forall (λ v : RuntimeGEMPerformance, rp_Parent v ≤ 0x0fff) (rs_GEMPerformance st).

Lemma not_history_class c eid : isPerformanceClass c = false → rh_histories r !! (c, eid) = None.
Proof. intros Hc. by apply not_history. Qed.

Lemma gem_parent v :
  gemPortsInRange → v ∈ rs_GEMPerformance st → gemParent s' (rp_Key v) = Ok (rp_Parent v).
Proof.
  intros Hports Hv. pose proof (cd_gemChecked _ _ _ _ _ Hdoc) as Hc. unfold gemPortsInRange in Hports.
  rewrite Forall_forall in Hc, Hports. pose proof (ch_fresh _ _ _ _ _ _ (Hc v Hv)) as Hx.
  rewrite (frame_gemParent restored_frame) by by apply not_history_class.
  cbn [rk_fresh gemRuntime] in Hx. unfold freshGEM in Hx. unfold gemParent, shortValue.
  destruct (getAttributes _ _ _) as [attrs|]; [|done]. apply bool_decide_eq_true in Hx.
  cbn [mbind Res_bind]. rewrite Hx. specialize (Hports v Hv). by rewrite (proj2 (Z.ltb_ge _ _)).
Qed.

Lemma ani_parent {C} (k : runtimeKind W C) values v :
  Forall (checkedHistory k e w (instancesByKey (Snapshot (mibOf e))) (rh_histories r)) values →
  rk_fresh k = freshANI → rk_ownEntity k = true → v ∈ values → ∃ parent, aniParent s' (rp_Key v) = Ok parent.
Proof.
  intros Hc Hfresh Hown Hv. rewrite Forall_forall in Hc. specialize (Hc v Hv).
  pose proof (ch_fresh _ _ _ _ _ _ Hc) as Hx. rewrite Hfresh in Hx. unfold freshANI in Hx.
  rewrite (ch_own _ _ _ _ _ _ Hc Hown) in Hx. unfold aniParent.
  rewrite (frame_Exists restored_frame), Hx. by eexists.
Qed.

Lemma uni_parent v :
  v ∈ rs_EthernetPerformance st → resolveEthernetPerformanceUNI s' (rp_Key v) = Ok (rp_Parent v).
Proof.
  intros Hv. pose proof (cd_ethernetChecked _ _ _ _ _ Hdoc) as Hc. rewrite Forall_forall in Hc.
  pose proof (ch_fresh _ _ _ _ _ _ (Hc v Hv)) as Hx. cbn [rk_fresh ethernetRuntime] in Hx. unfold freshUNI in Hx.
  rewrite (frame_resolveUNI restored_frame) by by apply not_history_class.
  destruct (resolveEthernetPerformanceUNI _ _); [|done]. apply Z.eqb_eq in Hx. by rewrite Hx.
Qed.
End restored.

(** ** The lists of the document *)

Section lists.
Context {MR : MapRange} {W Sink : Type}.
Implicit Types e : Engine W Sink.

(** An alarm that may be restored: not empty, of an instance, defined and advertised. *)
Definition validAlarm e (key : Key) (bitmap : list Z) : Prop :=
  bitmap ≠ zeroBitmap ∧ Exists_ (mibOf e) key = true ∧ validateAlarm e key bitmap BaselineIdent = Ok tt.

Lemma validateRuntimeAlarm_spec e m x m' :
  validateRuntimeAlarm e m x = Ok m' →
  m !! ra_Key x = None ∧ m' = <[ra_Key x := ra_Bitmap x]> m ∧ validAlarm e (ra_Key x) (ra_Bitmap x).
Proof.
  intros H. unfold validateRuntimeAlarm in H. inv_ok H. apply bool_decide_eq_false in Hg, Hg0.
  apply negb_false_iff in Hg1. destruct x1, x2. split_and!.
  - by destruct (m !! ra_Key x) eqn:He; [destruct Hg|].
  - done.
  - split_and!; [done|done|]. unfold validateAlarm. rewrite Hg1, Hr. cbn [mbind Res_bind guard_err negb].
    rewrite Hr0. cbn [mbind Res_bind]. by rewrite Hr1.
Qed.

Lemma validateRuntimeAlarms_spec e l m :
  validateRuntimeAlarms e l = Ok m →
  map_to_list m ≡ₚ map (λ x, (ra_Key x, ra_Bitmap x)) l ∧ ∀ key bitmap, m !! key = Some bitmap → validAlarm e key bitmap.
Proof.
  intros H. split.
  - apply (keyed_loop ra_Key ra_Bitmap) in H; [by rewrite map_to_list_empty, app_nil_r in H|].
    intros m1 x m2 (? & ? & _)%validateRuntimeAlarm_spec. by split.
  - unfold validateRuntimeAlarms in H. revert H.
    apply (foldM_inv (λ m : gmap Key (list Z), ∀ key bitmap, m !! key = Some bitmap → validAlarm e key bitmap));
      [|intros ? ? Hx; by rewrite lookup_empty in Hx].
    intros m1 x m2 _ Hm (_ & -> & Hv)%validateRuntimeAlarm_spec key bitmap.
    rewrite lookup_insert_Some. intros [[<- <-]|[_ Hx]]; [done|by apply Hm].
Qed.

Lemma validateRuntimeTCAs_spec l alarms m :
  validateRuntimeTCAs l alarms = Ok m →
  map_to_list m ≡ₚ map (λ x, (ra_Key x, ra_Bitmap x)) l ∧
  ∀ key bitmap, m !! key = Some bitmap → alarms !! key = Some bitmap ∧ isPerformanceClass key.1 = true.
Proof.
  assert (∀ m x m', validateRuntimeTCA alarms m x = Ok m' →
    m !! ra_Key x = None ∧ m' = <[ra_Key x := ra_Bitmap x]> m ∧
    alarms !! ra_Key x = Some (ra_Bitmap x) ∧ isPerformanceClass (ra_Key x).1 = true) as Hstep.
  { intros m1 x m2 Hx. unfold validateRuntimeTCA in Hx. inv_ok Hx. apply bool_decide_eq_false in Hg.
    apply negb_false_iff in Hg0. apply orb_false_iff in Hg1 as [Ha%negb_false_iff%bool_decide_eq_true _].
    split_and!; [by destruct (m1 !! ra_Key x) eqn:He; [destruct Hg|]|done..]. }
  intros H. split.
  - apply (keyed_loop ra_Key ra_Bitmap) in H; [by rewrite map_to_list_empty, app_nil_r in H|].
    intros m1 x m2 (? & ? & _)%Hstep. by split.
  - unfold validateRuntimeTCAs in H. revert H.
    apply (foldM_inv (λ m : gmap Key (list Z), ∀ key bitmap, m !! key = Some bitmap →
      alarms !! key = Some bitmap ∧ isPerformanceClass key.1 = true)); [|intros ? ? Hx; by rewrite lookup_empty in Hx].
    intros m1 x m2 _ Hm (_ & -> & Ha & Hp)%Hstep key bitmap.
    rewrite lookup_insert_Some. intros [[<- <-]|[_ Hx]]; [done|by apply Hm].
Qed.

Definition arcSince (x : RuntimeARC) : Z := default 0 (rr_FreeSince x).

(** An ARC timer that may be restored: its entity holds back its alarms and has none. *)
Definition validTimer e (now : Z) (alarms : gmap Key (list Z)) (key : Key) (since : Z) : Prop :=
  since ≤ now + minute ∧ (∃ interval, arcConfiguration (mibOf e) key = Ok (Some (true, interval))) ∧
  arcGroupHasAlarm (set_alarms e alarms) key = false.

Lemma validateRuntimeARC_spec e now alarms m x m' :
  validateRuntimeARC e now alarms m x = Ok m' →
  m !! rr_Key x = None ∧ m' = <[rr_Key x := arcSince x]> m ∧ rr_FreeSince x = Some (arcSince x) ∧
  validTimer e now alarms (rr_Key x) (arcSince x).
Proof.
  intros H. unfold validateRuntimeARC in H. unfold arcSince. inv_ok H. apply bool_decide_eq_false in Hg.
  destruct (rr_FreeSince x) as [since|]; [|done]. inv_ok H. change (default 0 (Some since)) with since.
  split_and!; [by destruct (m !! rr_Key x) eqn:He; [destruct Hg|]|done|done|]. split; [lia|].
  destruct (arcConfiguration _ _) as [[[[] interval]|]|]; try done. split; [by exists interval|].
  exact Hg1.
Qed.

Lemma validateRuntimeARCs_spec e now l alarms m :
  validateRuntimeARCs e now l alarms = Ok m →
  map_to_list m ≡ₚ map (λ x, (rr_Key x, arcSince x)) l ∧ Forall (λ x, rr_FreeSince x = Some (arcSince x)) l ∧
  ∀ key since, m !! key = Some since → validTimer e now alarms key since.
Proof.
  intros H. split_and!.
  - apply (keyed_loop rr_Key arcSince) in H; [by rewrite map_to_list_empty, app_nil_r in H|].
    intros m1 x m2 (? & ? & _)%validateRuntimeARC_spec. by split.
  - refine (foldM_prefix (λ pre _, Forall (λ x, rr_FreeSince x = Some (arcSince x)) pre) _ _ _ _ _ _ H); [done|].
    intros pre x post m1 m2 _ Hp (_ & _ & Hx & _)%validateRuntimeARC_spec. apply Forall_app.
    split; [done|by apply Forall_singleton].
  - unfold validateRuntimeARCs in H. revert H.
    apply (foldM_inv (λ m : gmap Key Z, ∀ key since, m !! key = Some since → validTimer e now alarms key since));
      [|intros ? ? Hx; by rewrite lookup_empty in Hx].
    intros m1 x m2 _ Hm (_ & -> & _ & Hv)%validateRuntimeARC_spec key since.
    rewrite lookup_insert_Some. intros [[<- <-]|[_ Hx]]; [done|by apply Hm].
Qed.

Lemma validateRuntimeBERSamples_spec e l m :
  validateRuntimeBERSamples e l = Ok m → map_to_list m ≡ₚ map (λ x, (rb_Key x, rb_Sample x)) l.
Proof.
  intros H. apply (keyed_loop rb_Key rb_Sample) in H; [by rewrite map_to_list_empty, app_nil_r in H|].
  intros m1 x m2 Hx. unfold validateRuntimeBERSample in Hx. inv_ok Hx. apply bool_decide_eq_false in Hg0.
  split; [by destruct (m1 !! rb_Key x) eqn:He; [destruct Hg0|]|done].
Qed.
End lists.

(** ** The theorems *)

(** The document in the order of its keys, each history in the order of its names. *)
Definition canonicalRuntimeState (st : RuntimeState) : RuntimeState :=
  sortRuntimeState
    (mkRuntimeState (rs_Version st) (rs_PONMode st) (rs_MIBDataSync st) (rs_MIBFingerprint st) (rs_AlarmSequence st)
       (rs_Alarms st) (rs_ARC st) (rs_BERSamples st) (rs_PerformanceNext st) (rs_PerformanceIntervalEnd st)
       (map canonicalHistory (rs_GEMPerformance st)) (map canonicalHistory (rs_FECPerformance st))
       (map canonicalHistory (rs_EthernetPerformance st)) (map canonicalHistory (rs_XGSPerformance st))
       (rs_PerformanceTCA st)).

Section restart.
Context {MR : MapRange} {W Sink : Type}.
Variable mibDigest : list Instance_ → string.
Implicit Types (e : Engine W Sink) (w : W).

(** The engine a document leaves behind. *)
Definition restoredEngine e (mib : Store W) (r : restoredRuntime) (st : RuntimeState) : Engine W Sink :=
  let h := re_histories r in
  let e := set_alarmSequence (set_alarms (setMib e mib) (re_alarms r)) (rs_AlarmSequence st) in
  set_pm (set_berSample (set_arcFreeSince e (re_arc r)) (re_ber r))
    (mkPm (rh_gem h) (rh_fec h) (rh_ethernet h) (rh_xgs h) (re_tca r) (rs_PerformanceNext st)
       (rs_PerformanceIntervalEnd st)).

Lemma restore_cases e w now st res e' :
  RestoreRuntimeState mibDigest e w now st = (res, e') →
  (∃ err, res = Err err ∧ e' = e) ∨
  ∃ r mib, res = Ok tt ∧ validateRuntimeState mibDigest e w now st = Ok r ∧
    UpdateAutonomousBatch (mibOf e) (rh_histories (re_histories r)) = (Ok tt, mib) ∧ e' = restoredEngine e mib r st.
Proof.
  unfold RestoreRuntimeState. intros H.
  destruct (validateRuntimeState mibDigest e w now st) as [r|] eqn:Hv; [|injection H as <- <-; left; eauto].
  destruct (UpdateAutonomousBatch _ _) as [[[]|] mib] eqn:Hb; injection H as <- <-; [right|left; eauto].
  by exists r, mib.
Qed.

(** What the validation of a document found. *)
Record validDocument e w (now : Z) (st : RuntimeState) (r : restoredRuntime) : Prop := {
  vd_version : rs_Version st = RuntimeStateVersion;
  vd_mode : rs_PONMode st = ponMode e;
  vd_sync : rs_MIBDataSync st = dataSync (mibOf e);
  vd_fingerprint : runtimeMIBFingerprint mibDigest (Snapshot (mibOf e)) = Ok (rs_MIBFingerprint st);
  vd_alarms : validateRuntimeAlarms e (rs_Alarms st) = Ok (re_alarms r);
  vd_tca : validateRuntimeTCAs (rs_PerformanceTCA st) (re_alarms r) = Ok (re_tca r);
  vd_arc : validateRuntimeARCs e now (rs_ARC st) (re_alarms r) = Ok (re_arc r);
  vd_ber : validateRuntimeBERSamples e (rs_BERSamples st) = Ok (re_ber r);
  vd_histories : checkedDocument e w (instancesByKey (Snapshot (mibOf e))) st (re_histories r)
}.

Lemma validateRuntimeState_spec e w now st r :
  validateRuntimeState mibDigest e w now st = Ok r → validDocument e w now st r.
Proof.
  intros H. unfold validateRuntimeState in H. inv_ok H. subst r.
  apply negb_false_iff in Hg, Hg0, Hg1, Hg2. apply bool_decide_eq_true in Hg0, Hg2.
  apply Z.eqb_eq in Hg, Hg1.
  split; cbn [re_alarms re_tca re_arc re_ber re_histories]; try assumption.
  - by rewrite Hg2.
  - by apply validateRuntimePerformance_spec.
Qed.

Lemma complete_kind e w st r instances key :
  checkedDocument e w instances st r → is_Some (instances !! key) →
  missingHistory gemKind e (rh_gem r) key = false ∧ missingHistory fecKind e (rh_fec r) key = false ∧
  missingHistory ethernetKind e (rh_ethernet r) key = false ∧ missingHistory xgsKind e (rh_xgs r) key = false.
Proof.
  intros Hd [i Hi]. pose proof (cd_complete _ _ _ _ _ Hd) as Hc. unfold validateComplete in Hc.
  apply foldM_unit in Hc. rewrite Forall_forall in Hc. specialize (Hc (key, i) ltac:(by apply elem_of_range)).
  cbn beta iota in Hc. apply guard_err_iff in Hc. rewrite !orb_false_iff in Hc. tauto.
Qed.

Lemma not_missing {C} (k : counterKind W C) e states key :
  missingHistory k e states key = false → monitored k e key.1 = true → is_Some (states !! key).
Proof.
  unfold missingHistory. intros Hm Hk. rewrite Hk in Hm. cbn in Hm. apply bool_decide_eq_false in Hm.
  by apply not_eq_None_Some.
Qed.

(** A restored engine has nothing to reconcile. *)
Lemma restored_settled e w now st r mib :
  store_inv (mibOf e) → @gemPortsInRange st → validDocument e w now st r →
  UpdateAutonomousBatch (mibOf e) (rh_histories (re_histories r)) = (Ok tt, mib) →
  reconcilePerformance (restoredEngine e mib r st) w = (Ok tt, restoredEngine e mib r st).
Proof.
  intros Hs Hports Hd Hb. pose proof (vd_histories _ _ _ _ _ Hd) as Hdoc.
  set (e' := restoredEngine e mib r st).
  assert (∀ key, is_Some (current (mibOf e) !! key) →
    missingHistory gemKind e (rh_gem (re_histories r)) key = false ∧
    missingHistory fecKind e (rh_fec (re_histories r)) key = false ∧
    missingHistory ethernetKind e (rh_ethernet (re_histories r)) key = false ∧
    missingHistory xgsKind e (rh_xgs (re_histories r)) key = false) as Hcomplete.
  { intros key Hk. apply (complete_kind _ _ _ _ _ key Hdoc). by rewrite instancesByKey_lookup. }
  assert (∀ {C} (k : counterKind W C) (states : gmap Key (counterState C)),
    (∀ key, is_Some (current (mibOf e) !! key) → missingHistory k e states key = false) →
    ∀ key, is_Some (current (mibOf e) !! key) → monitored k e key.1 = true → is_Some (states !! key)) as Hmiss.
  { intros C k states Hm key Hk. by apply not_missing, Hm. }
  unfold reconcilePerformance.
  assert (reconcileKind gemKind e' w = (Ok tt, e')) as ->.
  { apply (reconcileKind_settled Hs Hb gemRuntime e' (rs_GEMPerformance st)); [done|done|apply Hdoc|apply Hdoc|done| |].
    - apply Hmiss. intros key Hk. by apply Hcomplete.
    - intros v Hv. exists (rp_Parent v). split; [by apply (gem_parent Hs Hdoc Hb)|apply Z.eqb_refl]. }
  assert (reconcileKind fecKind e' w = (Ok tt, e')) as ->.
  { apply (reconcileKind_settled Hs Hb fecRuntime e' (rs_FECPerformance st)); [done|done|apply Hdoc|apply Hdoc|done| |].
    - apply Hmiss. intros key Hk. by apply Hcomplete.
    - intros v Hv. pose proof (cd_fecChecked _ _ _ _ _ Hdoc) as Hc.
      destruct (ani_parent Hs Hb fecRuntime _ v Hc eq_refl eq_refl Hv) as [p Hp]. by exists p. }
  assert (reconcileKind ethernetKind e' w = (Ok tt, e')) as ->.
  { apply (reconcileKind_settled Hs Hb ethernetRuntime e' (rs_EthernetPerformance st));
      [done|done|apply Hdoc|apply Hdoc|done| |].
    - apply Hmiss. intros key Hk. by apply Hcomplete.
    - intros v Hv. exists (rp_Parent v). split; [by apply (uni_parent Hs Hdoc Hb)|apply Z.eqb_refl]. }
  apply (reconcileKind_settled Hs Hb xgsRuntime e' (rs_XGSPerformance st)); [done|done|apply Hdoc|apply Hdoc|done| |].
  - apply Hmiss. intros key Hk. by apply Hcomplete.
  - intros v Hv. pose proof (cd_xgsChecked _ _ _ _ _ Hdoc) as Hc.
      destruct (ani_parent Hs Hb xgsRuntime _ v Hc eq_refl eq_refl Hv) as [p Hp]. by exists p.
Qed.

(** A list of the document is what its map lists, in the order of the keys. *)
Lemma emitted_sorted {A V} (key : A → Key) (val : A → V) (mk : Key * V → A) (m : gmap Key V) l :
  map_to_list m ≡ₚ map (λ x, (key x, val x)) l → (∀ x, x ∈ l → mk (key x, val x) = x) →
  merge_sort (byRuntimeKey key) (map mk (range m)) = merge_sort (byRuntimeKey key) l.
Proof.
  intros Hp Hmk. pose proof (keyed_emit key val mk m l Hp) as He.
  assert (map (λ x, mk (key x, val x)) l = l) as Hl.
  { clear He Hp. induction l as [|x l IH]; [done|]. cbn [map]. rewrite Hmk by left. f_equal.
    apply IH. intros. apply Hmk. by right. }
  rewrite Hl in He. symmetry. apply sort_by_key; [by symmetry|]. by apply (keyed_NoDup key val m).
Qed.

Lemma exported_sorted {C} (states : gmap Key (counterState C)) (exported values : list (RuntimePerformance C)) :
  map_to_list states ≡ₚ map (λ v, (rp_Key v, savedState v)) values →
  exported ≡ₚ map canonicalHistory values →
  merge_sort (byRuntimeKey rp_Key) exported = merge_sort (byRuntimeKey rp_Key) (map canonicalHistory values).
Proof.
  intros Hst Hp. symmetry. apply sort_by_key; [by symmetry|].
  rewrite <- list_fmap_compose. by apply (keyed_NoDup rp_Key savedState states).
Qed.

Lemma restored_exported e w now st r mib :
  store_inv (mibOf e) → validDocument e w now st r →
  UpdateAutonomousBatch (mibOf e) (rh_histories (re_histories r)) = (Ok tt, mib) →
  exportReconciled mibDigest (restoredEngine e mib r st) = Ok (canonicalRuntimeState st).
Proof.
  intros Hs Hd Hb. pose proof (vd_histories _ _ _ _ _ Hd) as Hdoc.
  set (e' := restoredEngine e mib r st). unfold exportReconciled. change (mibOf e') with mib.
  unfold runtimeMIBFingerprint. rewrite (restored_document Hs Hdoc Hb).
  pose proof (vd_fingerprint _ _ _ _ _ Hd) as Hfp. unfold runtimeMIBFingerprint in Hfp. rewrite Hfp.
  cbn [mbind Res_bind].
  destruct (restored_exportKind Hs Hb gemRuntime e' _ (cd_gemChecked _ _ _ _ _ Hdoc) (cd_gem _ _ _ _ _ Hdoc))
    as (gem & Hgem & Pgem). cbn [rk_kind gemRuntime] in Hgem. rewrite Hgem. cbn [mbind Res_bind].
  destruct (restored_exportKind Hs Hb fecRuntime e' _ (cd_fecChecked _ _ _ _ _ Hdoc) (cd_fec _ _ _ _ _ Hdoc))
    as (fec & Hfec & Pfec). cbn [rk_kind fecRuntime] in Hfec. rewrite Hfec. cbn [mbind Res_bind].
  destruct (restored_exportKind Hs Hb ethernetRuntime e' _ (cd_ethernetChecked _ _ _ _ _ Hdoc) (cd_ethernet _ _ _ _ _ Hdoc))
    as (eth & Heth & Peth). cbn [rk_kind ethernetRuntime] in Heth. rewrite Heth. cbn [mbind Res_bind].
  destruct (restored_exportKind Hs Hb xgsRuntime e' _ (cd_xgsChecked _ _ _ _ _ Hdoc) (cd_xgs _ _ _ _ _ Hdoc))
    as (xgs & Hxgs & Pxgs). cbn [rk_kind xgsRuntime] in Hxgs. rewrite Hxgs. cbn [mbind Res_bind].
  f_equal. unfold canonicalRuntimeState, sortRuntimeState.
  cbn [rs_Version rs_PONMode rs_MIBDataSync rs_MIBFingerprint rs_AlarmSequence rs_Alarms rs_ARC rs_BERSamples
    rs_PerformanceNext rs_PerformanceIntervalEnd rs_GEMPerformance rs_FECPerformance rs_EthernetPerformance
    rs_XGSPerformance rs_PerformanceTCA].
  destruct (validateRuntimeAlarms_spec _ _ _ (vd_alarms _ _ _ _ _ Hd)) as [Palarms _].
  destruct (validateRuntimeTCAs_spec _ _ _ (vd_tca _ _ _ _ _ Hd)) as [Ptca _].
  destruct (validateRuntimeARCs_spec _ _ _ _ _ (vd_arc _ _ _ _ _ Hd)) as (Parc & Harc & _).
  pose proof (validateRuntimeBERSamples_spec _ _ _ (vd_ber _ _ _ _ _ Hd)) as Pber. rewrite Forall_forall in Harc.
  f_equal.
  - by rewrite (vd_version _ _ _ _ _ Hd).
  - by rewrite (vd_mode _ _ _ _ _ Hd).
  - rewrite (vd_sync _ _ _ _ _ Hd). destruct (batch_lookup _ _ _ Hb) as [Heq _]. by rewrite Heq.
  - apply (emitted_sorted ra_Key ra_Bitmap); [exact Palarms|]. by intros [] _.
  - apply (emitted_sorted rr_Key arcSince); [exact Parc|]. intros x Hx. rewrite <- (Harc x Hx). by destruct x.
  - apply (emitted_sorted rb_Key rb_Sample); [exact Pber|]. by intros [] _.
  - by apply (exported_sorted (rh_gem (re_histories r))); [apply Hdoc|].
  - by apply (exported_sorted (rh_fec (re_histories r))); [apply Hdoc|].
  - by apply (exported_sorted (rh_ethernet (re_histories r))); [apply Hdoc|].
  - by apply (exported_sorted (rh_xgs (re_histories r))); [apply Hdoc|].
  - apply (emitted_sorted ra_Key ra_Bitmap); [exact Ptca|]. by intros [] _.
Qed.

Lemma runtime_state_restart_ok e w now st e' :
  store_inv (mibOf e) → @gemPortsInRange st →
  RestoreRuntimeState mibDigest e w now st = (Ok tt, e') →
  ExportRuntimeState mibDigest e' w = (Ok (canonicalRuntimeState st), e').
Proof.
  intros Hs Hports H. apply restore_cases in H as [(err & ? & _)|(r & mib & _ & Hv & Hb & ->)]; [done|].
  apply validateRuntimeState_spec in Hv. unfold ExportRuntimeState.
  rewrite (restored_settled e w now st r mib Hs Hports Hv Hb).
  by rewrite (restored_exported e w now st r mib Hs Hv Hb).
Qed.

(** ** What an engine exports *)

(** After reconciliation every GEM history is on the port of its GEM port network CTP. *)
Lemma reconcileKeys_parents {C} (k : counterKind W C) (s : Store W) read keys states states' :
  reconcileKeys k s read keys states = (Ok tt, states') →
  ∀ key, (key ∈ keys ∨ ∃ parent state, states !! key = Some state ∧ ck_parent k s key = Ok parent ∧
            (ck_same k (ct_parent state) parent = true ∨ ct_parent state = parent)) →
  ∃ parent state, states' !! key = Some state ∧ ck_parent k s key = Ok parent ∧
    (ck_same k (ct_parent state) parent = true ∨ ct_parent state = parent).
Proof.
  revert states. induction keys as [|x keys IH]; intros states H key Hk; cbn [reconcileKeys] in H.
  { injection H as <-. by destruct Hk as [?%elem_of_nil|]. }
  destruct (ck_parent k s x) as [parent|] eqn:Hp; [|done].
  assert (∀ states1, (∃ state, states1 !! x = Some state ∧
      (ck_same k (ct_parent state) parent = true ∨ ct_parent state = parent)) →
    (∀ y, y ≠ x → states1 !! y = states !! y) → reconcileKeys k s read keys states1 = (Ok tt, states') →
    ∃ parent state, states' !! key = Some state ∧ ck_parent k s key = Ok parent ∧
      (ck_same k (ct_parent state) parent = true ∨ ct_parent state = parent)) as Hgo.
  { intros states1 (state & Hx & Hsame) Hother Hrec. apply (IH _ Hrec).
    destruct (decide (key = x)) as [->|Hne]; [right; by exists parent, state|].
    destruct Hk as [[?|?]%elem_of_cons|Hk]; [done|by left|right]. by rewrite Hother. }
  destruct (states !! x) as [state|] eqn:Hx.
  - destruct (ck_same k (ct_parent state) parent) eqn:Hsame; [by apply (Hgo states); [eauto|..]|].
    destruct (read parent) as [c|]; [|done]. eapply Hgo; [| |exact H]; [|intros; by rewrite lookup_insert_ne].
    exists (mkCounterState parent c). rewrite lookup_insert_eq. split; [done|by right].
  - destruct (read parent) as [c|]; [|done]. eapply Hgo; [| |exact H]; [|intros; by rewrite lookup_insert_ne].
    exists (mkCounterState parent c). rewrite lookup_insert_eq. split; [done|by right].
Qed.

Lemma reconcileKind_frame {C} (k : counterKind W C) e w r e' :
  reconcileKind k e w = (r, e') → ∃ states, e' = setStates k e states.
Proof.
  unfold reconcileKind. destruct (ck_source _ _) as [read|]; [|intros [= _ <-]; eauto].
  destruct (reconcileKeys _ _ _ _ _) as [[[]|] states]; intros [= _ <-]; eauto.
Qed.

Lemma reconcile_gem_range e w e' :
  reconcilePerformance e w = (Ok tt, e') → ∀ key state, performanceState (pm e') !! key = Some state → ct_parent state ≤ 0x0fff.
Proof.
  unfold reconcilePerformance. destruct (reconcileKind gemKind e w) as [[[]|] e1] eqn:H1; [|done].
  destruct (reconcileKind fecKind e1 w) as [[[]|] e2] eqn:H2; [|done].
  destruct (reconcileKind ethernetKind e2 w) as [[[]|] e3] eqn:H3; [|done]. intros H4 key state.
  apply reconcileKind_frame in H2 as [m2 ->], H3 as [m3 ->], H4 as [m4 ->].
  change (performanceState (pm e1) !! key = Some state → ct_parent state ≤ 0xfff).
  unfold reconcileKind in H1. destruct (ck_source _ _) as [read|]; [|by injection H1 as <-].
  destruct (reconcileKeys _ _ _ _ _) as [[[]|] states] eqn:Hr; [|done]. injection H1 as <-.
  change (filter (λ '(key, _), key ∈ activeKeys gemKind (mibOf e)) states !! key = Some state → ct_parent state ≤ 0xfff).
  intros [Hst Hin]%map_lookup_filter_Some.
  destruct (reconcileKeys_parents _ _ _ _ _ _ Hr key) as (parent & state' & Hs' & Hp & Hsame); [by left|].
  assert (state' = state) as -> by congruence. cbn [ck_parent ck_same gemKind] in *. rewrite Z.eqb_eq in Hsame.
  assert (ct_parent state = parent) as -> by tauto. unfold gemParent in Hp. inv_ok Hp.
  destruct (shortValue _ _) as [port|]; [|done]. destruct (0xfff <? port) eqn:Hport; [done|].
  injection Hp as <-. lia.
Qed.

Lemma reconcile_mib e w r e' : reconcilePerformance e w = (r, e') → mibOf e' = mibOf e.
Proof.
  unfold reconcilePerformance.
  destruct (reconcileKind gemKind e w) as [[[]|] e1] eqn:H1; apply reconcileKind_frame in H1 as [m1 ->];
    [|by intros [= _ <-]].
  destruct (reconcileKind fecKind _ w) as [[[]|] e2] eqn:H2; apply reconcileKind_frame in H2 as [m2 ->];
    [|by intros [= _ <-]].
  destruct (reconcileKind ethernetKind _ w) as [[[]|] e3] eqn:H3; apply reconcileKind_frame in H3 as [m3 ->];
    [|by intros [= _ <-]].
  intros H4. by apply reconcileKind_frame in H4 as [m4 ->].
Qed.

Lemma sort_twice {A} (key : A → Key) l :
  NoDup (key <$> l) → merge_sort (byRuntimeKey key) (merge_sort (byRuntimeKey key) l) = merge_sort (byRuntimeKey key) l.
Proof.
  intros Hn. symmetry. apply sort_by_key; [|done]. by rewrite merge_sort_Permutation.
Qed.

(** The exported histories of a kind: one for each state, in canonical form. *)
Lemma exportKind_spec {C} (k : counterKind W C) e exported :
  store_inv (mibOf e) → exportKind k e (instancesByKey (Snapshot (mibOf e))) = Ok exported →
  map (λ v, (rp_Key v, savedState v)) exported = range (ck_states k (pm e)) ∧
  map canonicalHistory exported = exported.
Proof.
  intros Hs H. unfold exportKind in H. apply mapM_res_Forall2 in H.
  induction H as [|[key state] v l l' Hv _ [IH1 IH2]]; [done|]. cbn [map]. rewrite IH1, IH2. clear IH1 IH2.
  unfold exportPerformance in Hv. rewrite instancesByKey_lookup in Hv by done. inv_ok Hv. subst v.
  cbn [rp_Key]. split; [f_equal; unfold savedState; cbn [rp_Parent rp_Baseline]; by destruct state|].
  f_equal. unfold canonicalHistory. cbn [rp_Key rp_Parent rp_Baseline rp_History]. f_equal.
  destruct (current (mibOf e) !! key) as [i|] eqn:Hi; [|done].
  apply runtimePerformanceHistory_spec in Hr as [_ ->]; [|by eapply instance_names].
  symmetry. apply sort_by_name; [by rewrite merge_sort_Permutation|]. apply counters_NoDup.
Qed.

(** What an exported document lists. *)
Record exportedDocument e (st : RuntimeState) : Prop := {
  ed_sequence : rs_AlarmSequence st = alarmSequence e;
  ed_next : rs_PerformanceNext st = performanceNext (pm e);
  ed_end : rs_PerformanceIntervalEnd st = performanceIntervalEnd (pm e);
  ed_alarms : map (λ x, (ra_Key x, ra_Bitmap x)) (rs_Alarms st) ≡ₚ map_to_list (alarms e);
  ed_arc : map (λ x, (rr_Key x, arcSince x)) (rs_ARC st) ≡ₚ map_to_list (arcFreeSince e);
  ed_ber : map (λ x, (rb_Key x, rb_Sample x)) (rs_BERSamples st) ≡ₚ map_to_list (berSample e);
  ed_tca : map (λ x, (ra_Key x, ra_Bitmap x)) (rs_PerformanceTCA st) ≡ₚ map_to_list (performanceTCA (pm e));
  ed_gem : map (λ v, (rp_Key v, savedState v)) (rs_GEMPerformance st) ≡ₚ map_to_list (performanceState (pm e));
  ed_fec : map (λ v, (rp_Key v, savedState v)) (rs_FECPerformance st) ≡ₚ map_to_list (fecPMState (pm e));
  ed_ethernet :
    map (λ v, (rp_Key v, savedState v)) (rs_EthernetPerformance st) ≡ₚ map_to_list (ethernetPMState (pm e));
  ed_xgs : map (λ v, (rp_Key v, savedState v)) (rs_XGSPerformance st) ≡ₚ map_to_list (xgsPMState (pm e));
  ed_canonical : canonicalRuntimeState st = st
}.

Lemma emitted_back {A V} (key : A → Key) (val : A → V) (mk : Key * V → A) (m : gmap Key V) :
  (∀ p, (key (mk p), val (mk p)) = p) →
  map (λ x, (key x, val x)) (merge_sort (byRuntimeKey key) (map mk (range m))) ≡ₚ map_to_list m ∧
  merge_sort (byRuntimeKey key) (merge_sort (byRuntimeKey key) (map mk (range m))) =
  merge_sort (byRuntimeKey key) (map mk (range m)).
Proof.
  intros Hmk. assert (map (λ x, (key x, val x)) (map mk (range m)) = range m) as He.
  { rewrite map_map. rewrite <- (map_id (range m)) at 2. apply map_ext. exact Hmk. }
  assert (map (λ x, (key x, val x)) (merge_sort (byRuntimeKey key) (map mk (range m))) ≡ₚ map_to_list m) as Hp.
  { rewrite merge_sort_Permutation, He. apply range_perm. }
  split; [exact Hp|]. apply sort_twice. apply (keyed_NoDup key val m). by rewrite He, range_perm.
Qed.

Lemma exported_back {C} (k : counterKind W C) e exported :
  store_inv (mibOf e) → exportKind k e (instancesByKey (Snapshot (mibOf e))) = Ok exported →
  map (λ v, (rp_Key v, savedState v)) (merge_sort (byRuntimeKey rp_Key) exported) ≡ₚ map_to_list (ck_states k (pm e)) ∧
  merge_sort (byRuntimeKey rp_Key) (map canonicalHistory (merge_sort (byRuntimeKey rp_Key) exported)) =
  merge_sort (byRuntimeKey rp_Key) exported.
Proof.
  intros Hs H. destruct (exportKind_spec _ _ _ Hs H) as [He Hc].
  assert (NoDup (rp_Key <$> exported)) as Hn.
  { apply (keyed_NoDup rp_Key savedState (ck_states k (pm e))). by rewrite He, range_perm. }
  split; [by rewrite merge_sort_Permutation, He, range_perm|].
  symmetry. apply sort_by_key; [|done]. rewrite merge_sort_Permutation. by rewrite Hc.
Qed.

Lemma exportReconciled_spec e st :
  store_inv (mibOf e) → exportReconciled mibDigest e = Ok st → exportedDocument e st.
Proof.
  intros Hs H. unfold exportReconciled in H. inv_ok H. subst st.
  apply (exported_back _ _ _ Hs) in Hr0 as [Pgem Cgem], Hr1 as [Pfec Cfec], Hr2 as [Peth Ceth], Hr3 as [Pxgs Cxgs].
  destruct (emitted_back ra_Key ra_Bitmap (λ '(key, bitmap), mkRuntimeAlarm key bitmap) (alarms e)) as [Pa Ca];
    [by intros []|].
  destruct (emitted_back ra_Key ra_Bitmap (λ '(key, bitmap), mkRuntimeAlarm key bitmap) (performanceTCA (pm e)))
    as [Pt Ct]; [by intros []|].
  destruct (emitted_back rr_Key arcSince (λ '(key, since), mkRuntimeARC key (Some since)) (arcFreeSince e)) as [Pr Cr];
    [by intros []|].
  destruct (emitted_back rb_Key rb_Sample (λ '(key, sample), mkRuntimeBERSample key sample) (berSample e)) as [Pb Cb];
    [by intros []|].
  split; unfold canonicalRuntimeState, sortRuntimeState;
    cbn [rs_Version rs_PONMode rs_MIBDataSync rs_MIBFingerprint rs_AlarmSequence rs_Alarms rs_ARC rs_BERSamples
      rs_PerformanceNext rs_PerformanceIntervalEnd rs_GEMPerformance rs_FECPerformance rs_EthernetPerformance
      rs_XGSPerformance rs_PerformanceTCA]; try reflexivity; try assumption.
  by rewrite Ca, Cr, Cb, Ct, Cgem, Cfec, Ceth, Cxgs.
Qed.

(** Two maps that list the same document are the same. *)
Lemma same_document {A V} (key : A → Key) (val : A → V) (m m' : gmap Key V) l :
  map_to_list m ≡ₚ map (λ x, (key x, val x)) l → map (λ x, (key x, val x)) l ≡ₚ map_to_list m' → m = m'.
Proof. intros Hm Hm'. apply map_to_list_inj. by rewrite Hm. Qed.

(** C34: an engine that is restored from what another engine exported resumes where that engine
    stopped: the same alarms and alarm sequence, the same ARC timers and bit error samples, the
    same baselines and intervals of the performance histories; and it exports the same document,
    so that the counters of the histories in its MIB are the same as well.  The MIB it starts
    from need not be the one of the exporting engine: the document binds its configuration. *)
Theorem runtime_state_resumes e w st e1 e0 w0 now e2 :
  store_inv (mibOf e) → store_inv (mibOf e0) →
  ExportRuntimeState mibDigest e w = (Ok st, e1) →
  RestoreRuntimeState mibDigest e0 w0 now st = (Ok tt, e2) →
  alarms e2 = alarms e1 ∧ alarmSequence e2 = alarmSequence e1 ∧ arcFreeSince e2 = arcFreeSince e1 ∧
  berSample e2 = berSample e1 ∧ pm e2 = pm e1 ∧ ExportRuntimeState mibDigest e2 w0 = (Ok st, e2).
Proof.
  intros Hs Hs0 Hexp Hres. unfold ExportRuntimeState in Hexp.
  destruct (reconcilePerformance e w) as [[[]|] er] eqn:Hrec; [|done]. injection Hexp as Hexp <-.
  assert (store_inv (mibOf er)) as Hs1 by by rewrite (reconcile_mib _ _ _ _ Hrec).
  pose proof (exportReconciled_spec _ _ Hs1 Hexp) as Hed.
  assert (@gemPortsInRange st) as Hports.
  { unfold gemPortsInRange. apply Forall_forall. intros v Hv.
    apply (reconcile_gem_range _ _ _ Hrec (rp_Key v) (savedState v)). apply elem_of_map_to_list.
    rewrite <- (ed_gem _ _ Hed). apply list_elem_of_fmap. by exists v. }
  pose proof (runtime_state_restart_ok e0 w0 now st e2 Hs0 Hports Hres) as Hex. rewrite (ed_canonical _ _ Hed) in Hex.
  apply restore_cases in Hres as [(err & ? & _)|(r & mib & _ & Hv & Hb & ->)]; [done|].
  apply validateRuntimeState_spec in Hv. pose proof (vd_histories _ _ _ _ _ Hv) as Hdoc.
  destruct (validateRuntimeAlarms_spec _ _ _ (vd_alarms _ _ _ _ _ Hv)) as [Palarms _].
  destruct (validateRuntimeTCAs_spec _ _ _ (vd_tca _ _ _ _ _ Hv)) as [Ptca _].
  destruct (validateRuntimeARCs_spec _ _ _ _ _ (vd_arc _ _ _ _ _ Hv)) as (Parc & _).
  pose proof (validateRuntimeBERSamples_spec _ _ _ (vd_ber _ _ _ _ _ Hv)) as Pber.
  split_and!; [by apply (same_document _ _ _ _ _ Palarms), Hed|by apply (ed_sequence _ _ Hed)|
    by apply (same_document _ _ _ _ _ Parc), Hed|by apply (same_document _ _ _ _ _ Pber), Hed| |exact Hex].
  change (pm (restoredEngine e0 mib r st)) with
    (mkPm (rh_gem (re_histories r)) (rh_fec (re_histories r)) (rh_ethernet (re_histories r))
       (rh_xgs (re_histories r)) (re_tca r) (rs_PerformanceNext st) (rs_PerformanceIntervalEnd st)).
  rewrite (same_document _ _ _ _ _ (cd_gem _ _ _ _ _ Hdoc) (ed_gem _ _ Hed)),
    (same_document _ _ _ _ _ (cd_fec _ _ _ _ _ Hdoc) (ed_fec _ _ Hed)),
    (same_document _ _ _ _ _ (cd_ethernet _ _ _ _ _ Hdoc) (ed_ethernet _ _ Hed)),
    (same_document _ _ _ _ _ (cd_xgs _ _ _ _ _ Hdoc) (ed_xgs _ _ Hed)),
    (same_document _ _ _ _ _ Ptca (ed_tca _ _ Hed)), (ed_next _ _ Hed), (ed_end _ _ Hed).
  by destruct (pm er).
Qed.

(** ** What a document may do *)

(** Every state of a kind monitors what the MIB says, and its counters did not fall below the
    baseline: no interval counts from a counter that was reset. *)
Definition baselinesHold {C} (k : runtimeKind W C) e w (states : gmap Key (counterState C)) : Prop :=
  ∀ key state, states !! key = Some state →
    Exists_ (mibOf e) key = true ∧ ck_monitors (rk_kind k) key.1 = true ∧
    rk_fresh k (mibOf e) key (ct_parent state) = true ∧
    ∃ read cur, ck_source (rk_kind k) (controllers e) = Some read ∧ read w (ct_parent state) = Some cur ∧
                rk_atLeast k cur (ct_baseline state) = true.

Lemma checked_baselines {C} (k : runtimeKind W C) e w values h states :
  store_inv (mibOf e) → Forall (checkedHistory k e w (instancesByKey (Snapshot (mibOf e))) h) values →
  map_to_list states ≡ₚ map (λ v, (rp_Key v, savedState v)) values → baselinesHold k e w states.
Proof.
  intros Hs Hc Hp key state Hst. apply (keyed_lookup rp_Key savedState _ _ _ _ Hp) in Hst as (v & Hv & <- & <-).
  rewrite Forall_forall in Hc. destruct (Hc v Hv) as [Hm _ Hsrc Hfr (h' & (i & Hi & _)%restored_instance & _)]; [|done].
  split_and!; [|done|done|done]. apply bool_decide_eq_true. by exists i.
Qed.

(** [validateAlarm] reads of the MIB only which instances exist and the attribute policy. *)
Lemma validateAlarm_frame e mib r st key bitmap device histories :
  historyFrame (mibOf e) mib histories → validateAlarm e key bitmap device = Ok tt →
  validateAlarm (restoredEngine e mib r st) key bitmap device = Ok tt.
Proof.
  intros Hf H. unfold validateAlarm in *. change (mibOf (restoredEngine e mib r st)) with mib.
  rewrite (frame_Exists Hf). unfold validateCapabilityAlarm in *.
  change (mibOf (restoredEngine e mib r st)) with mib.
  assert (SupportedAttributeMask mib key.1 = SupportedAttributeMask (mibOf e) key.1) as ->; [|done].
  by rewrite (hf_store _ _ _ Hf).
Qed.

(** C35: a restoration is all or nothing.  One that is refused leaves the engine as it was.  One that
    succeeds leaves a well formed MIB with the same configuration, in which only performance
    histories differ; every alarm it restores is one that NotifyAlarm would accept, every ARC
    timer runs for an entity that holds back its alarms and has none, every threshold crossing
    is one of the alarms, and no history counts from a counter that was reset. *)
Theorem restore_runtime_safe e w now st r e' :
  store_inv (mibOf e) → RestoreRuntimeState mibDigest e w now st = (r, e') →
  match r with
  | Err _ => e' = e
  | Ok _ =>
      store_inv (mibOf e') ∧ dataSync (mibOf e') = dataSync (mibOf e) ∧
      runtimeMIBDocument (Snapshot (mibOf e')) = runtimeMIBDocument (Snapshot (mibOf e)) ∧
      (∀ key : Key, isPerformanceClass key.1 = false → current (mibOf e') !! key = current (mibOf e) !! key) ∧
      (∀ key bitmap, alarms e' !! key = Some bitmap →
         bitmap ≠ zeroBitmap ∧ validateAlarm e' key bitmap BaselineIdent = Ok tt) ∧
      (∀ key since, arcFreeSince e' !! key = Some since → validTimer e now (alarms e') key since) ∧
      (∀ key bitmap, performanceTCA (pm e') !! key = Some bitmap →
         alarms e' !! key = Some bitmap ∧ isPerformanceClass key.1 = true) ∧
      baselinesHold gemRuntime e w (performanceState (pm e')) ∧
      baselinesHold fecRuntime e w (fecPMState (pm e')) ∧
      baselinesHold ethernetRuntime e w (ethernetPMState (pm e')) ∧
      baselinesHold xgsRuntime e w (xgsPMState (pm e'))
  end.
Proof.
  intros Hs H. apply restore_cases in H as [(err & -> & ->)|(rr & mib & -> & Hv & Hb & ->)]; [done|].
  apply validateRuntimeState_spec in Hv. pose proof (vd_histories _ _ _ _ _ Hv) as Hdoc.
  pose proof (restored_frame Hs Hb) as Hf. change (mibOf (restoredEngine e mib rr st)) with mib.
  split_and!.
  - by eapply restored_inv.
  - by rewrite (hf_store _ _ _ Hf).
  - by apply (restored_document Hs Hdoc Hb).
  - intros key Hk. apply (hf_other _ _ _ Hf). by apply (not_history Hdoc).
  - intros key bitmap Ha. destruct (validateRuntimeAlarms_spec _ _ _ (vd_alarms _ _ _ _ _ Hv)) as [_ Hok].
    destruct (Hok key bitmap Ha) as (Hz & _ & Hva). split; [done|]. by apply (validateAlarm_frame _ _ _ _ _ _ _ _ Hf).
  - by apply (validateRuntimeARCs_spec _ _ _ _ _ (vd_arc _ _ _ _ _ Hv)).
  - by apply (validateRuntimeTCAs_spec _ _ _ (vd_tca _ _ _ _ _ Hv)).
  - by apply (checked_baselines gemRuntime e w _ _ _ Hs (cd_gemChecked _ _ _ _ _ Hdoc)), Hdoc.
  - by apply (checked_baselines fecRuntime e w _ _ _ Hs (cd_fecChecked _ _ _ _ _ Hdoc)), Hdoc.
  - by apply (checked_baselines ethernetRuntime e w _ _ _ Hs (cd_ethernetChecked _ _ _ _ _ Hdoc)), Hdoc.
  - by apply (checked_baselines xgsRuntime e w _ _ _ Hs (cd_xgsChecked _ _ _ _ _ Hdoc)), Hdoc.
Qed.
End restart.

(** ** A concrete restart

    ONU-G with an alarm, an ANI-G that holds back its alarms, and an FEC history of it. *)

Definition restartFactory : list Instance_ :=
  sample_factory ++
  [mkInstance (AniGClassID, 0x8001) {[ arcAttribute := VU8 1; arcIntervalAttribute := VU8 10 ]} OriginONU].
Definition restartStore : Store (list Change) :=
  sample_outcome empty_store (@NewWithOptions canonical_range _ restartFactory sample_options).
Definition fecKey : Key := (FecPerformanceMonitoringHistoryDataClassID, 0x8001).
Definition restartMib : Store (list Change) :=
  (sample_run restartStore (RCreate fecKey.1 fecKey.2 {[ performanceThresholdAttribute := VU16 0 ]})).1.2.

Definition fecCounting : Controllers (list Change) :=
  mkControllers None None (Some (λ _ _, Some (mkFECCounters 10 20 30 40 50))) None None None None.
(** An engine in the middle of an interval. *)
Definition busyEngine : Engine (list Change) unit :=
  let e := NewForMode restartMib fecCounting None GPON in
  let e := set_alarmSequence (set_alarms e {[ (OnuGClassID, 0) := 128 :: repeat 0 27 ]}) 7 in
  set_pm (set_arcFreeSince e {[ (AniGClassID, 0x8001) := 100 ]})
    (mkPm ∅ {[ fecKey := mkCounterState 0x8001 (mkFECCounters 1 2 3 4 5) ]} ∅ ∅ ∅ (Some 1000) 3).
Definition freshEngine : Engine (list Change) unit := NewForMode restartMib fecCounting None GPON.

(** A digest of the shape of the document only. *)
Definition shapeDigest (document : list Instance_) : string := String.concat "." (map (λ _, "ME") document).

Definition exportedRuntime := @ExportRuntimeState canonical_range _ _ shapeDigest busyEngine [].
Definition emptyRuntime : RuntimeState := mkRuntimeState 0 "" 0 "" 0 [] [] [] None 0 [] [] [] [] [].
Definition savedRuntime : RuntimeState := sample_outcome emptyRuntime exportedRuntime.1.
Definition resumedRuntime := @RestoreRuntimeState canonical_range _ _ shapeDigest freshEngine [] 500 savedRuntime.

Lemma restartMib_inv : @store_inv canonical_range _ restartMib.
Proof.
  eapply (@reachable_inv canonical_range _ restartFactory sample_options).
  eapply reach_step with (s := restartStore) (w := []) (res := Ok tt)
    (r := RCreate fecKey.1 fecKey.2 {[ performanceThresholdAttribute := VU16 0 ]}).
  - apply reach_new. vm_compute. reflexivity.
  - vm_compute. reflexivity.
Qed.

Lemma runtime_state_resumes_witness :
  length (rs_FECPerformance savedRuntime) = 1%nat ∧ alarms resumedRuntime.2 = alarms exportedRuntime.2 ∧
  pm resumedRuntime.2 = pm exportedRuntime.2.
Proof.
  split; [vm_compute; reflexivity|].
  destruct (@runtime_state_resumes canonical_range _ _ shapeDigest busyEngine [] savedRuntime exportedRuntime.2
              freshEngine [] 500 resumedRuntime.2) as (Ha & _ & _ & _ & Hp & _).
  - exact restartMib_inv.
  - exact restartMib_inv.
  - assert (is_Ok exportedRuntime.1 = true) as Hok by (vm_compute; reflexivity).
    unfold savedRuntime. change (@ExportRuntimeState canonical_range _ _ shapeDigest busyEngine []) with exportedRuntime.
    destruct exportedRuntime as [[st|] e1]; [reflexivity|discriminate Hok].
  - assert (resumedRuntime.1 = Ok tt) as Hok by (vm_compute; reflexivity).
    change (@RestoreRuntimeState canonical_range _ _ shapeDigest freshEngine [] 500 savedRuntime) with resumedRuntime.
    rewrite <- Hok. apply surjective_pairing.
  - exact (conj Ha Hp).
Defined.

Lemma restore_runtime_safe_witness :
  alarms resumedRuntime.2 !! (OnuGClassID, 0) = Some (128 :: repeat 0 27) ∧
  baselinesHold fecRuntime freshEngine [] (fecPMState (pm resumedRuntime.2)).
Proof.
  split; [vm_compute; reflexivity|].
  assert (resumedRuntime.1 = Ok tt) as Hok by (vm_compute; reflexivity).
  pose proof (@restore_runtime_safe canonical_range _ _ shapeDigest freshEngine [] 500 savedRuntime (Ok tt)
    resumedRuntime.2 restartMib_inv) as H. cbn beta iota in H. apply H.
  change (@RestoreRuntimeState canonical_range _ _ shapeDigest freshEngine [] 500 savedRuntime) with resumedRuntime.
  rewrite <- Hok. apply surjective_pairing.
Defined.
